(* ===== verification/_CoqProject ===== *)
-Q . S2P
Prelude.v
GoStrings.v
GoNumbers.v
GoTime.v
Core.v
CoreSetters.v
Config.v
Specs.v
GoSlices.v
Retention.v
Pack.v
GoHttp.v
GoPath.v
Spool.v
FileSystem.v
Shell.v
Secrets.v
Db.v
DestLocal.v
Slug.v
ObjectStore.v
DestLocalFacts.v
Remote.v
RemoteExec.v
DestS3.v
DestSftp.v
Startup.v
SourceDrivers.v
SourceFiles.v
SourceFilesFacts.v
DestWebdav.v
Message.v
NotifyDrivers.v
Email.v
StoreCommon.v
StoreJobs.v
StoreRuns.v
StoreConfig.v
StoreAdmin.v
StoreIntegrity.v
RunState.v
Drivers.v
Runner.v
Sample.v
StoreFacts.v
RunnerUpload.v
RunnerBackup.v
RunnerRetention.v
Engine.v
EngineFacts.v
Restore.v
EngineRuns.v
Notifier.v
Scheduler.v
Overdue.v
Events.v
RunLog.v
RateLimiter.v
Password.v
Auth.v
ServerBase.v
ServerConfig.v
ServerHosts.v
ServerJobs.v
ServerRuns.v
ServerAdmin.v
ServerExport.v
Router.v
Triples.v
JobFacts.v
ExportFacts.v
ServerFrames.v
Disclosure.v
Daemon.v
Accounts.v
ServerTheorems.v
ServerEdge.v
Docs.v
Migrations.v
Api.v
