(* ===== verification/Prelude.v ===== *)
(** * Backvault: a verification development

    Backvault backs up sources (databases, files, commands, containers) to
    destinations (local directories, S3, SFTP, WebDAV) on schedules, keeps the
    artifacts as a retention policy says, and restores them.  One Go process
    serves the HTTP API and runs an engine over one SQLite file; a command line
    talks to it.

    ** How the program's parts correspond to the files

    Foundations, shared by every component:
    - [Prelude]: results, errors with the sentinel [errors.Is] finds, tactics,
      list lemmas.
    - [GoStrings] (with UTF-8), [GoNumbers], [GoTime], [GoPath], [GoSlices],
      [GoHttp], and JSON as it is written in [NotifyDrivers]: what the program
      uses of Go's library, executable.  [int64] durations wrap and [Time.Sub]
      saturates; a [time.Time] is its instant.
    - [FileSystem]: a tree of files with the calls of package [os], each of which
      may fail; the local destination, the SFTP server, the extraction of
      archives and the key file work on it.
    - [Core], [CoreSetters], [Config]: [internal/core]: the structs, the
      enumerations, driver configurations with their secrets.  [Specs]: the
      specification of every driver.
    - [Db]: the tables of the SQLite file as finite maps ([DB]), the world a run
      changes ([World]), the surroundings that answer it ([Env]: clock, random
      identifiers, failures of the database engine, drivers, hooks, context),
      and the monad [M] of the operations.

    The start, [internal/config], [internal/secrets/key.go], [cmd/backvault]:
    - [Startup]: configuration, master key, the start up to the key, the retries
      of an upload.
    - [Migrations] (internal/store/store.go): the file of the database as a start
      opens it, migration by migration and statement by statement.
    - [Api] (internal/client, and the commands of cmd/backvault over it): requests
      and what is made of answers, hosts by name, downloads, what a push uploads,
      the exit code.

    The store, [internal/store]:
    - [StoreCommon], [StoreJobs], [StoreRuns] (with the artifacts),
      [StoreConfig], [StoreAdmin]: one definition per repository method.  A
      statement may fail at any call; foreign keys, unique columns and cascades
      are those of the migrations.
    - [StoreIntegrity]: the invariant [consistent] of the database and that every
      write keeps it.  [StoreFacts]: the properties that follow.

    The engine, [internal/engine]:
    - [Retention] (retention.go), [Pack] (pack.go), [Spool] (spool.go),
      [RunLog] (runlog.go), [Events] (events.go): self-contained components.
    - [RunState] (runstate.go), [Drivers] (drivers.go, hosts.go), [Runner]
      (runner.go), [EngineRuns] (ingest.go, prune.go, the Enqueue methods, the
      recovery), [Restore] (download.go, restore.go): the life of one run, as
      programs of the monad.
    - [Engine] (engine.go): the interleaving of all runs, as a machine of atomic
      steps; [EngineFacts] its theorems.
    - [Scheduler] (scheduler.go), [Overdue] (overdue.go), [Notifier]
      (notifier.go): what starts runs and what is told about them.
    - [RunnerUpload], [RunnerBackup], [RunnerRetention]: the theorems on the
      runner.  [Sample] is a concrete installation the witnesses run on.

    The drivers, which the engine knows by the interface of [Drivers]:
    - [ObjectStore] (internal/dest/dest.go): what a destination promises.
      [DestLocal], [DestS3], [DestSftp], [DestWebdav]: the four drivers, each with
      the theorem that it keeps the promise ([DestLocalFacts] for the first); the
      paths they share are in [ObjectStore] too.
    - [RemoteExec] (procstream, remoteexec): programs here and on a host.
      [SourceDrivers]: PostgreSQL, MySQL, MongoDB, Redis, Docker, a command, push
      and SSH.  [SourceFiles]: files and SQLite; [SourceFilesFacts] their theorems.
    - [Message] (internal/notify, internal/message), [NotifyDrivers] (Slack,
      Discord, Telegram, ntfy, webhook), [Email]: what is sent and how.

    Security:
    - [Secrets] (internal/secrets): secrets at rest.  [Shell] and [Remote]
      (internal/remote, engine/hosts.go): quoting, hosts, remote commands and the
      scrubbing of what is shown of them.  [Password], [RateLimiter], [Auth]
      (internal/auth): passwords, login limiter, sessions, tokens, middleware.

    The HTTP server, [internal/server]:
    - [Slug] (slug.go); [ServerBase] (errors.go, principal.go, audit.go): a
      request as a handler sees it ([Inbound]: principal, address, cookie, query;
      a body is what the decoder made of it), validation errors, pages, times,
      and what a handler answers ([Response]).
    - [ServerConfig] (sources.go, destinations.go, channels.go,
      driverconfig.go), [ServerHosts] (hosts.go), [ServerJobs] (jobs.go),
      [ServerRuns] (runs.go, artifacts.go, ingest.go), [ServerAdmin] (users.go,
      tokens.go, settings.go, auth_handlers.go, audit.go), [ServerExport]
      (export.go): one definition per handler, over the store, the engine and
      the authentication above.
    - [Router] (router.go): the endpoints, the group of each, and [serve], a
      request through its middleware to its handler.
    - [Daemon]: a task as [Engine.execute] carries it out, and [act], one
      activity of the process; [reachable] are the worlds they lead to.
    - [Triples], [ServerFrames], [JobFacts], [ExportFacts], [Disclosure] (with
      the refusals), [Accounts]: the lemmas, by theme: what a handler reads and
      keeps, validation, export, masking, refusals, the administrators.
      [ServerTheorems]: the theorems.
    - [ServerEdge] (server.go, middleware.go, sse.go, dashboard.go, metrics.go,
      internal/store/stats.go, and the commands of cmd/backvault that use the
      database or follow a log): client addresses and headers, streams,
      statistics, metrics, with their theorems.
    - [Docs]: the documentation pages ([Catalogue], of internal/docs/catalogue.go,
      with [Pages], docs.go), the files of the panel ([Panel], static.go), and
      what the program says of itself ([Meta]: the registries of drivers, tools,
      check, build, time zones), with their theorems.

    ** What the theorems show

    - A backup that reports success stored artifacts that open to the dump
      ([RunnerBackup], [Pack], [Spool], [RunnerUpload]); what is stored is
      restored ([Restore]); ingests are checked ([EngineRuns]).
    - The four destinations keep the contract of [ObjectStore] whatever fails:
      an upload appears whole or not at all, and no path leaves the base
      ([DestLocalFacts], [DestS3], [DestSftp], [DestWebdav]).
    - A program that fails makes the dump fail ([SourceDrivers]); what the files
      source archives is what an extraction puts back, an extraction stays in
      its directory under the stated conditions, and a SQLite file is replaced
      whole ([SourceFilesFacts]).
    - Retention deletes what the policy says and never the newest
      ([Retention], [RunnerRetention]).
    - At most one run works on a job, capacities hold, the engine drains and
      refines a bounded queue ([EngineFacts]); runs end in a state that tells the
      truth ([RunState], [EngineRuns]); no line of a run log is lost ([RunLog]),
      nor of the stream a client follows ([ServerEdge]); events reach
      subscribers in order and no channel is misused ([Events]).
    - The database stays consistent whatever fails ([StoreIntegrity],
      [StoreFacts]).
    - Secrets, passwords, quoting, sessions and scopes do what they promise
      ([Secrets], [Password], [Shell], [Remote], [RemoteExec], [Auth],
      [RateLimiter], [Email]); the master key of the first start is that of every
      later one ([Startup]); headers do not forge the address of a client
      ([ServerEdge]); what is read of pages and of the panel stays in its
      directory ([Docs]).
    - The schema is brought up to date migration by migration, each once and
      whole, however often a start is stopped ([Migrations]); a download is there
      whole or not at all ([Api]); the check foretells the start, and the
      catalogue has its pages in order, with anchors that differ, and a search
      that misses none ([Docs]).
    - Whatever the server does, the database stays consistent and an
      administrator remains; a request changes the configuration only with the
      scope admin; a refused request and a dry run change nothing; no answer of
      a handler carries a stored secret; a job that is accepted is well formed;
      an export is imported without a change; the search for a slug ends; a
      password changes only by right ([ServerTheorems]).

    The examples next to the theorems show where the code does less than it
    means to; each is named after what goes wrong.

    ** Parameters and their laws

    gzip, zstd and age ([Pack.Codecs]), AES-GCM ([Secrets.AEAD]), SHA-256
    ([Spool.Digest]), argon2 ([Password.Argon2]), the cron library
    ([Scheduler.Cron]), the tar reader ([Restore.Tar]), the YAML decoder and the
    environment ([Startup.Settings.Surroundings]), the tables of Unicode beyond
    ASCII ([Docs.Unicode]), what a script does to the schema ([Migrations]), the
    server and the JSON decoder of a client ([Api]), the SDKs and servers behind
    the destinations, the operating system under the programs a source runs and,
    in the engine, the drivers are classes or arguments; a law is stated only
    where a theorem needs it, and every witness instantiates it with a concrete
    function.

    ** Bounds and fuel

    [queueCapacity] 256, [maxSlots] 2000, [maxRetryBackoff] ten minutes,
    [logFlushBytes] and [logMaxLine], [DefaultLimit] and [MaxLimit] are those of
    the code.  Loops over lists are structural.  The loops that are not are
    given a number of rounds the code itself fixes: [slotLoop] the 2000 slots
    previousSlot looks at, [uploadLoop] the attempts of a job, [attempts] those
    of an upload, [freeSlug] one more than the anchors there are (one of as many
    candidates is free), [backoffLoop] the number of doublings, [nextLoop] the number of
    firings asked for; or by the depth of the tree that is walked ([walkDir]),
    the length of the text that is read, or, for a directory listing over WebDAV,
    the measure [List_ends] gives.

    ** What is not modelled

    The network and the processes themselves; JSON and YAML decoding, HTTP
    framing, what SQLite does with a statement; the flags and the printed tables
    of the command line; the progress lines of an upload (a rate in floating
    point), the request logger, and the observer hooks of the engine: they change
    no state. *)
From stdpp Require Export base gmap strings list numbers.
From Stdlib Require Export Ascii ZArith Lia.
#[export] Set Warnings "-notation-overridden,-ambiguous-paths,-register-all".

Open Scope string_scope.
Open Scope list_scope.

(** ** Errors and results

    A Go [error] is its message and what [errors.Is] can find in its chain:
    the sentinel wrapped by [%w], if there is one. *)

Inductive sentinel :=
  | NoSentinel
  | ErrNotFound
  | ErrConflict
  | ErrCanceled
  | ErrDeadlineExceeded
  | ErrJobBusy
  | ErrQueueFull
  | ErrNotRunning
  | ErrInvalidCredentials
  | ErrSessionExpired
  | ErrTokenExpired
  | ErrInvalidHash
  | ErrNotExist
  | ErrPermission.

#[export] Instance sentinel_eq_dec : EqDecision sentinel.
Proof. solve_decision. Defined.

Record error := mkError { err_msg : string; err_is : sentinel }.

#[export] Instance error_eq_dec : EqDecision error.
Proof. solve_decision. Defined.

(** [errors.New(msg)], and [fmt.Errorf] with no [%w]. *)
Definition newError (msg : string) : error := mkError msg NoSentinel.

(** [fmt.Errorf("<prefix>: %w", err)]: the chain keeps its sentinel. *)
Definition wrapError (prefix : string) (e : error) : error :=
  mkError (prefix +:+ ": " +:+ err_msg e) (err_is e).

(** [errors.Is(err, target)]. *)
Definition errorsIs (e : error) (s : sentinel) : bool := bool_decide (err_is e = s).

Inductive result (A : Type) :=
  | Ok (a : A)
  | Fail (e : error).
Arguments Ok {A} a.
Arguments Fail {A} e.

#[export] Instance result_eq_dec `{EqDecision A} : EqDecision (result A).
Proof. solve_decision. Defined.

Definition is_ok {A} (r : result A) : bool :=
  match r with Ok _ => true | Fail _ => false end.

(** ** Notation: early returns

    [let? x := r else e => h in k] is Go's
    [x, err := r; if err != nil { h }; k]. *)
Declare Scope go_scope.
Delimit Scope go_scope with go.

Notation "'let?' x ':=' r 'else' e '=>' h 'in' k" :=
  (match r with Ok x => k | Fail e => h end)
  (at level 10, x pattern, e name, r at level 100, h at level 100, k at level 200)
  : go_scope.
Open Scope go_scope.

(** ** Automation *)

(** Case analysis on the scrutinee of an [if] or [match] of the goal or of a
    hypothesis, keeping the equation. *)
Ltac break :=
  match goal with
  | |- context [match ?x with _ => _ end] => destruct x eqn:?
  | H : context [match ?x with _ => _ end] |- _ => destruct x eqn:?
  end.

Ltac breaks := repeat (break; simplify_eq/=).

(** A closed proposition that is decided by evaluation. *)
Ltac decided := apply (bool_decide_unpack _); vm_compute; exact I.

(** Turn boolean comparisons of the context into propositions. *)
Ltac boolean :=
  repeat match goal with
  | H : andb _ _ = true |- _ => apply andb_true_iff in H as [? ?]
  | H : orb _ _ = false |- _ => apply orb_false_iff in H as [? ?]
  | H : negb _ = true |- _ => apply negb_true_iff in H
  | H : negb _ = false |- _ => apply negb_false_iff in H
  | H : Z.ltb _ _ = true |- _ => apply Z.ltb_lt in H
  | H : Z.ltb _ _ = false |- _ => apply Z.ltb_ge in H
  | H : Z.leb _ _ = true |- _ => apply Z.leb_le in H
  | H : Z.leb _ _ = false |- _ => apply Z.leb_gt in H
  | H : Z.gtb _ _ = _ |- _ => rewrite Z.gtb_ltb in H
  | H : Z.geb _ _ = _ |- _ => rewrite Z.geb_leb in H
  | H : Z.eqb _ _ = true |- _ => apply Z.eqb_eq in H
  | H : Z.eqb _ _ = false |- _ => apply Z.eqb_neq in H
  | H : Nat.ltb _ _ = true |- _ => apply Nat.ltb_lt in H
  | H : Nat.ltb _ _ = false |- _ => apply Nat.ltb_ge in H
  | H : Nat.leb _ _ = true |- _ => apply Nat.leb_le in H
  | H : Nat.leb _ _ = false |- _ => apply Nat.leb_gt in H
  | H : bool_decide _ = true |- _ => apply bool_decide_eq_true in H
  | H : bool_decide _ = false |- _ => apply bool_decide_eq_false in H
  end.
