(* ===== verification/GoStrings.v ===== *)
(** * Go's [strings] and [strconv], as far as the program uses them

    A Go string is a sequence of bytes: here a [string], each [ascii] one
    byte.  Every function is executable; the lemmas are the string algebra the
    components share (prefixes, suffixes, the last dot, splitting and joining). *)
From S2P Require Import Prelude.
From stdpp Require Export pretty.

(** ** Taking and dropping bytes *)

(** [s[n:]]; the callers check [n <= len(s)]. *)
Fixpoint sdrop (n : nat) (s : string) : string :=
  match n, s with
  | S n', String _ s' => sdrop n' s'
  | _, _ => s
  end.

(** [s[:n]]; the callers check [n <= len(s)]. *)
Fixpoint stake (n : nat) (s : string) : string :=
  match n, s with
  | S n', String a s' => String a (stake n' s')
  | _, _ => ""
  end.

Fixpoint sall (P : ascii → bool) (s : string) : bool :=
  match s with
  | "" => true
  | String a s' => P a && sall P s'
  end.

Definition byte_of (n : N) : ascii := ascii_of_N n.
Definition code (a : ascii) : N := N_of_ascii a.
Definition schar (a : ascii) : string := String a "".

(** ** [strings] *)

Definition HasPrefix (s p : string) : bool := String.prefix p s.

Definition TrimPrefix (s p : string) : string :=
  if HasPrefix s p then sdrop (String.length p) s else s.

Definition HasSuffix (s t : string) : bool :=
  (String.length t <=? String.length s)%nat
  && bool_decide (sdrop (String.length s - String.length t) s = t).

Definition TrimSuffix (s t : string) : string :=
  if HasSuffix s t then stake (String.length s - String.length t) s else s.

(** [strings.Contains(s, t)]. *)
Fixpoint Contains (s t : string) : bool :=
  HasPrefix s t || match s with "" => false | String _ s' => Contains s' t end.

Definition ContainsByte (s : string) (c : ascii) : bool :=
  negb (sall (λ a, negb (Ascii.eqb a c)) s).

(** [strings.LastIndex(s, string(c))]: [None] is Go's -1. *)
Fixpoint LastIndexByte (s : string) (c : ascii) : option nat :=
  match s with
  | "" => None
  | String a s' =>
      match LastIndexByte s' c with
      | Some i => Some (S i)
      | None => if Ascii.eqb a c then Some 0 else None
      end
  end.

(** [strings.Index(s, string(c))]. *)
Fixpoint IndexByte (s : string) (c : ascii) : option nat :=
  match s with
  | "" => None
  | String a s' => if Ascii.eqb a c then Some 0 else S <$> IndexByte s' c
  end.

(** [strings.Split(s, string(c))]. *)
Fixpoint Split (s : string) (c : ascii) : list string :=
  match s with
  | "" => [""]
  | String a s' =>
      if Ascii.eqb a c then "" :: Split s' c
      else match Split s' c with
           | [] => [schar a]
           | x :: xs => String a x :: xs
           end
  end.

(** [strings.Join(l, sep)]. *)
Fixpoint StrJoin (l : list string) (sep : string) : string :=
  match l with
  | [] => ""
  | [x] => x
  | x :: l' => x +:+ sep +:+ StrJoin l' sep
  end.

(** [strings.ReplaceAll(s, string(c), r)]. *)
Fixpoint ReplaceByte (s : string) (c : ascii) (r : string) : string :=
  match s with
  | "" => ""
  | String a s' => if Ascii.eqb a c then r +:+ ReplaceByte s' c r else String a (ReplaceByte s' c r)
  end.

Fixpoint smap (f : ascii → ascii) (s : string) : string :=
  match s with "" => "" | String a s' => String (f a) (smap f s') end.

Definition is_upper (a : ascii) : bool := (65 <=? code a)%N && (code a <=? 90)%N.
Definition is_lower (a : ascii) : bool := (97 <=? code a)%N && (code a <=? 122)%N.
Definition is_digit (a : ascii) : bool := (48 <=? code a)%N && (code a <=? 57)%N.
Definition lower_byte (a : ascii) : ascii := if is_upper a then byte_of (code a + 32) else a.

(** [strings.ToLower] on ASCII; bytes of multi-byte runes are left alone. *)
Definition ToLower (s : string) : string := smap lower_byte s.

(** The UTF-8 encodings of the runes [unicode.IsSpace] accepts. *)
Definition space_runes : list string :=
  [String (byte_of 9) ""; String (byte_of 10) ""; String (byte_of 11) ""; String (byte_of 12) "";
   String (byte_of 13) ""; " ";
   String (byte_of 194) (String (byte_of 133) ""); String (byte_of 194) (String (byte_of 160) "");
   String (byte_of 225) (String (byte_of 154) (String (byte_of 128) ""))]
  ++ map (λ n, String (byte_of 226) (String (byte_of 128) (String (byte_of n) "")))
       [128; 129; 130; 131; 132; 133; 134; 135; 136; 137; 138; 168; 169; 175]%N
  ++ [String (byte_of 226) (String (byte_of 129) (String (byte_of 159) ""));
      String (byte_of 227) (String (byte_of 128) (String (byte_of 128) ""))].

Fixpoint trim_left_fuel (n : nat) (s : string) : string :=
  match n with
  | O => s
  | S n' =>
      match List.find (HasPrefix s) space_runes with
      | Some p => trim_left_fuel n' (sdrop (String.length p) s)
      | None => s
      end
  end.

Fixpoint trim_right_fuel (n : nat) (s : string) : string :=
  match n with
  | O => s
  | S n' =>
      match List.find (HasSuffix s) space_runes with
      | Some p => trim_right_fuel n' (stake (String.length s - String.length p) s)
      | None => s
      end
  end.

(** [strings.TrimSpace]: a byte is dropped per round, so [len(s)] rounds do. *)
Definition TrimSpace (s : string) : string :=
  let l := trim_left_fuel (String.length s) s in
  trim_right_fuel (String.length l) l.

(** [strings.TrimSpace(s) == ""]. *)
Definition Blank (s : string) : bool := bool_decide (TrimSpace s = "").

(** ** [strconv] and [fmt] verbs *)

(** [strconv.Itoa], [fmt.Sprintf("%d")]. *)
Definition Itoa (n : Z) : string := pretty n.

Fixpoint zeros (n : nat) : string :=
  match n with O => "" | S n' => String "0" (zeros n') end.

(** [fmt.Sprintf("%0<w>d", n)]: the sign counts in the width. *)
Definition pad0 (w : nat) (n : Z) : string :=
  let digits := pretty (Z.abs n) in
  if (n <? 0)%Z then "-" +:+ zeros (w - 1 - String.length digits) +:+ digits
  else zeros (w - String.length digits) +:+ digits.

Fixpoint parse_digits (s : string) (acc : Z) : option Z :=
  match s with
  | "" => Some acc
  | String a s' =>
      if is_digit a then parse_digits s' (acc * 10 + (Z.of_N (code a) - 48))%Z else None
  end.

Definition min_int64 : Z := (- 2 ^ 63)%Z.
Definition max_int64 : Z := (2 ^ 63 - 1)%Z.

(** [strconv.Atoi] and [strconv.ParseInt(s, 10, 64)]: an optional sign and at
    least one digit, in the range of an int64. *)
Definition Atoi (s : string) : option Z :=
  let '(neg, body) := match s with
                      | String a s' => if Ascii.eqb a "-" then (true, s')
                                       else if Ascii.eqb a "+" then (false, s') else (false, s)
                      | "" => (false, "")
                      end in
  if bool_decide (body = "") then None
  else n ← parse_digits body 0;
       let v := if neg : bool then (- n)%Z else n in
       if (min_int64 <=? v)%Z && (v <=? max_int64)%Z then Some v else None.

(** [strings.FieldsFunc(s, f)]: the maximal non-empty runs of bytes that [f]
    rejects. *)
Fixpoint fields_loop (s : string) (f : ascii → bool) (cur : string) : list string :=
  match s with
  | "" => if bool_decide (cur = "") then [] else [cur]
  | String a s' =>
      if f a then (if bool_decide (cur = "") then [] else [cur]) ++ fields_loop s' f ""
      else fields_loop s' f (cur +:+ schar a)
  end.
Definition FieldsFunc (s : string) (f : ascii → bool) : list string := fields_loop s f "".

#[global] Arguments String.append !_ _ / : simpl nomatch.

(** ** Strings as monoids of bytes *)

Lemma sapp_nil_r s : s +:+ "" = s.
Proof. induction s as [|a s IH]; [done|]. simpl. by rewrite IH. Qed.

Lemma sapp_assoc s t u : (s +:+ t) +:+ u = s +:+ (t +:+ u).
Proof. induction s as [|a s IH]; [done|]. simpl. by rewrite IH. Qed.

Lemma sapp_length s t : String.length (s +:+ t) = (String.length s + String.length t)%nat.
Proof. induction s as [|a s IH]; [done|]. simpl. by rewrite IH. Qed.

Lemma sdrop_app s t : sdrop (String.length s) (s +:+ t) = t.
Proof. induction s as [|a s IH]; [by destruct t|]. done. Qed.

Lemma stake_app s t : stake (String.length s) (s +:+ t) = s.
Proof. induction s as [|a s IH]; [by destruct t|]. simpl. by rewrite IH. Qed.

Lemma stake_short n s t : (n <= String.length s)%nat -> stake n (s +:+ t) = stake n s.
Proof. revert n. induction s as [|a s IH]; intros [|n] H; simpl in *; [by destruct t|lia|done|]. by rewrite IH by lia. Qed.

Lemma stake_beyond s t n : (String.length s <= n)%nat -> stake n (s +:+ t) = s +:+ stake (n - String.length s) t.
Proof. revert n. induction s as [|a s IH]; intros [|n] H; simpl in *; [done|done|lia|]. by rewrite IH by lia. Qed.

Lemma stake_sdrop n s : stake n s +:+ sdrop n s = s.
Proof. revert s. induction n as [|n IH]; intros [|a s]; simpl; [done..|]. by rewrite IH. Qed.

Lemma sapp_inj_length s s' t t' :
  s +:+ t = s' +:+ t' -> String.length t = String.length t' -> s = s' ∧ t = t'.
Proof.
  intros E Hl. assert (Hs : String.length s = String.length s').
  { apply (f_equal String.length) in E. rewrite !sapp_length in E. lia. }
  split.
  - rewrite <- (stake_app s t), E, Hs. apply stake_app.
  - rewrite <- (sdrop_app s t), E, Hs. apply sdrop_app.
Qed.

Lemma HasPrefix_spec s p : HasPrefix s p = true <-> ∃ t, s = p +:+ t.
Proof.
  unfold HasPrefix. revert s. induction p as [|a p IH]; intros s; simpl.
  - split; [intros _; by exists s|by destruct s].
  - destruct s as [|b s]; [split; [done|by intros [t [=]]]|].
    cbn [String.prefix]. destruct (ascii_dec a b) as [->|Hne].
    + rewrite IH. split; intros [t Ht]; exists t; [by rewrite Ht|by injection Ht].
    + split; [done|]. intros [t Ht]. by injection Ht.
Qed.

Lemma HasPrefix_app p t : HasPrefix (p +:+ t) p = true.
Proof. apply HasPrefix_spec. by exists t. Qed.

Lemma TrimPrefix_app p t : TrimPrefix (p +:+ t) p = t.
Proof. unfold TrimPrefix. rewrite HasPrefix_app. apply sdrop_app. Qed.

Lemma HasSuffix_spec s t : HasSuffix s t = true <-> ∃ p, s = p +:+ t.
Proof.
  unfold HasSuffix. split.
  - intros H. boolean. exists (stake (String.length s - String.length t) s).
    rewrite <- (stake_sdrop (String.length s - String.length t) s) at 1. congruence.
  - intros [p ->]. rewrite sapp_length. apply andb_true_iff. split; [apply Nat.leb_le; lia|].
    apply bool_decide_eq_true. rewrite Nat.add_sub. apply sdrop_app.
Qed.

Lemma HasSuffix_app p t : HasSuffix (p +:+ t) t = true.
Proof. apply HasSuffix_spec. by exists p. Qed.

Lemma TrimSuffix_app p t : TrimSuffix (p +:+ t) t = p.
Proof. unfold TrimSuffix. rewrite HasSuffix_app, sapp_length, Nat.add_sub. apply stake_app. Qed.

Lemma sall_app P s t : sall P (s +:+ t) = sall P s && sall P t.
Proof. induction s as [|a s IH]; [done|]. simpl. by rewrite IH, andb_assoc. Qed.

(** A string none of whose bytes is the last byte of [t] does not end in [t]. *)
Lemma HasSuffix_last s p a : sall (λ b, negb (Ascii.eqb b a)) s = true -> s ≠ "" ->
  HasSuffix s (p +:+ schar a) = false.
Proof.
  intros Hs _. apply not_true_iff_false. intros [q ->]%HasSuffix_spec.
  rewrite <- sapp_assoc, sall_app in Hs. boolean. simpl in *. by rewrite Ascii.eqb_refl in *.
Qed.

(** ** Numbers as text *)

Lemma pretty_N_char_digit d : (d < 10)%N ->
  is_digit (pretty_N_char d) = true ∧ (Z.of_N (code (pretty_N_char d)) - 48 = Z.of_N d)%Z.
Proof.
  intros H. assert (E : d ∈ [0;1;2;3;4;5;6;7;8;9]%N).
  { assert (d = 0 ∨ d = 1 ∨ d = 2 ∨ d = 3 ∨ d = 4 ∨ d = 5 ∨ d = 6 ∨ d = 7 ∨ d = 8 ∨ d = 9)%N by lia. set_solver. }
  repeat (apply elem_of_cons in E as [-> | E]; [done|]). by apply elem_of_nil in E.
Qed.

Lemma pretty_go_digits x s : sall is_digit s = true -> sall is_digit (pretty_N_go x s) = true.
Proof.
  revert s. induction (N.lt_wf_0 x) as [x _ IH]. intros s Hs. destruct (decide (0 < x)%N) as [Hx|Hx].
  - rewrite pretty_N_go_step by done. apply IH; [apply N.div_lt; lia|]. simpl.
    destruct (pretty_N_char_digit (x mod 10)) as [-> _]; [by apply N.mod_lt|done].
  - assert (x = 0%N) as -> by lia. by rewrite pretty_N_go_0.
Qed.

Lemma pretty_digits (n : N) : sall is_digit (pretty n) = true.
Proof. unfold pretty, pretty_N. case_decide; [done|]. by apply pretty_go_digits. Qed.

Lemma parse_digits_go x s :
  parse_digits (pretty_N_go x s) 0 = parse_digits s (Z.of_N x).
Proof.
  revert s. induction (N.lt_wf_0 x) as [x _ IH]. intros s.
  destruct (decide (0 < x)%N) as [Hx|Hx].
  - rewrite pretty_N_go_step by done. rewrite IH by (apply N.div_lt; lia). simpl.
    destruct (pretty_N_char_digit (x mod 10)) as [-> ->]; [by apply N.mod_lt|].
    f_equal. rewrite N2Z.inj_div, N2Z.inj_mod. pose proof (Z.div_mod (Z.of_N x) 10). lia.
  - assert (x = 0%N) as -> by lia. by rewrite pretty_N_go_0.
Qed.

Lemma parse_digits_pretty (n : N) : parse_digits (pretty n) 0 = Some (Z.of_N n).
Proof.
  unfold pretty, pretty_N. case_decide as E; [by subst|].
  by rewrite parse_digits_go.
Qed.

Lemma pretty_Z_of_N n : (0 <= n)%Z -> pretty n = pretty (Z.to_N n).
Proof. intros H. destruct n; [done|done|lia]. Qed.

Lemma parse_digits_zeros k s : parse_digits (zeros k +:+ s) 0 = parse_digits s 0.
Proof. induction k as [|k IH]; [done|]. simpl. exact IH. Qed.

Lemma pad0_nonneg w n : (0 <= n)%Z -> parse_digits (pad0 w n) 0 = Some n.
Proof.
  intros H. unfold pad0. rewrite (proj2 (Z.ltb_ge n 0)) by done.
  rewrite parse_digits_zeros, Z.abs_eq, pretty_Z_of_N, parse_digits_pretty by done.
  by rewrite Z2N.id.
Qed.

Lemma pad0_inj w n m : (0 <= n)%Z -> (0 <= m)%Z -> pad0 w n = pad0 w m -> n = m.
Proof. intros Hn Hm E. apply (f_equal (λ s, parse_digits s 0)) in E. rewrite !pad0_nonneg in E by done. congruence. Qed.

Lemma pad0_2_length n : (0 <= n < 100)%Z -> String.length (pad0 2 n) = 2%nat.
Proof.
  intros H.
  assert (C : forallb (λ k, (String.length (pad0 2 (Z.of_nat k)) =? 2)%nat) (seq 0 100) = true) by by vm_compute.
  rewrite forallb_forall in C. specialize (C (Z.to_nat n)).
  rewrite Z2Nat.id in C by lia. apply Nat.eqb_eq, C, in_seq. lia.
Qed.

Lemma pad0_inj_all w n m : pad0 w n = pad0 w m -> n = m.
Proof.
  intros E. destruct (Z.ltb_spec n 0) as [Hn|Hn], (Z.ltb_spec m 0) as [Hm|Hm].
  - unfold pad0 in E. rewrite (proj2 (Z.ltb_lt n 0)), (proj2 (Z.ltb_lt m 0)) in E by done.
    injection E as E. apply (f_equal (λ s, parse_digits s 0)) in E.
    rewrite !parse_digits_zeros, !(pretty_Z_of_N (Z.abs _)), !parse_digits_pretty in E by lia.
    injection E as E. lia.
  - apply (f_equal (λ s, parse_digits s 0)) in E. rewrite (pad0_nonneg w m) in E by lia.
    unfold pad0 in E. rewrite (proj2 (Z.ltb_lt n 0)) in E by done. simpl in E. discriminate E.
  - apply (f_equal (λ s, parse_digits s 0)) in E. rewrite (pad0_nonneg w n) in E by lia.
    unfold pad0 in E. rewrite (proj2 (Z.ltb_lt m 0)) in E by done. simpl in E. discriminate E.
  - by apply pad0_inj in E.
Qed.

(** ** [strconv.Quote]

    Escapes of the ASCII range; the bytes of multi-byte runes are copied, which
    is what [Quote] does for printable ones. *)
Definition hex_digit (n : N) : ascii := if (n <? 10)%N then byte_of (48 + n) else byte_of (87 + n).

Definition quote_byte (a : ascii) : string :=
  let c := code a in
  let esc (l : ascii) := String "\" (schar l) in
  if (c =? 34)%N then esc (byte_of 34)
  else if (c =? 92)%N then esc "\"%char
  else if (c =? 7)%N then esc "a"%char
  else if (c =? 8)%N then esc "b"%char
  else if (c =? 12)%N then esc "f"%char
  else if (c =? 10)%N then esc "n"%char
  else if (c =? 13)%N then esc "r"%char
  else if (c =? 9)%N then esc "t"%char
  else if (c =? 11)%N then esc "v"%char
  else if (c <? 32)%N || (c =? 127)%N
       then "\x" +:+ String (hex_digit (c / 16)) (schar (hex_digit (c mod 16)))
  else schar a.

Fixpoint quote_body (s : string) : string :=
  match s with "" => "" | String a s' => quote_byte a +:+ quote_body s' end.

Definition Quote (s : string) : string :=
  schar (byte_of 34) +:+ quote_body s +:+ schar (byte_of 34).

(** ** The last separator *)

Definition free_of (c : ascii) (s : string) : bool := sall (λ a, negb (Ascii.eqb a c)) s.

Lemma LastIndexByte_free c s : free_of c s = true -> LastIndexByte s c = None.
Proof.
  induction s as [|a s IH]; [done|]. unfold free_of. simpl. intros H. boolean.
  rewrite IH by done. by replace (Ascii.eqb a c) with false.
Qed.

Lemma LastIndexByte_last c s e :
  free_of c e = true -> LastIndexByte (s +:+ String c e) c = Some (String.length s).
Proof.
  intros He. induction s as [|a s IH]; simpl.
  - by rewrite LastIndexByte_free, Ascii.eqb_refl.
  - by rewrite IH.
Qed.

Lemma last_sep_inj c s e t f :
  free_of c e = true -> free_of c f = true -> s +:+ String c e = t +:+ String c f -> s = t ∧ e = f.
Proof.
  intros He Hf E. assert (Hl : String.length s = String.length t).
  { apply (f_equal (λ x, LastIndexByte x c)) in E. rewrite !LastIndexByte_last in E by done. congruence. }
  assert (Hr : s = t ∧ String c e = String c f).
  { apply sapp_inj_length; [done|]. apply (f_equal String.length) in E. rewrite !sapp_length in E. lia. }
  destruct Hr as [-> [= ->]]. done.
Qed.

(** The extension decides whether a name ends in ["." ++ f]. *)
Lemma HasSuffix_ext s e f :
  free_of "." e = true -> free_of "." f = true ->
  HasSuffix (s +:+ String "." e) (String "." f) = bool_decide (e = f).
Proof.
  intros He Hf. case_bool_decide as E.
  - subst. apply HasSuffix_app.
  - apply not_true_iff_false. intros [p Hp]%HasSuffix_spec. by apply last_sep_inj in Hp as [_ ->].
Qed.

(** ** Replacing *)

(** [strings.ReplaceAll(s, old, new)] for a non-empty [old]: [skip] bytes of the
    current match are still to pass. *)
Fixpoint replaceLoop (old new : string) (skip : nat) (s : string) : string :=
  match s with
  | "" => ""
  | String a s' =>
      match skip with
      | S k => replaceLoop old new k s'
      | O =>
          if HasPrefix s old then new +:+ replaceLoop old new (pred (String.length old)) s'
          else String a (replaceLoop old new 0 s')
      end
  end.

Definition ReplaceAll (s old new : string) : string := replaceLoop old new 0 s.

Lemma HasPrefix_cons a s b p : HasPrefix (String a s) (String b p) = Ascii.eqb b a && HasPrefix s p.
Proof.
  unfold HasPrefix. cbn [String.prefix]. destruct (ascii_dec b a) as [->|H]; [by rewrite Ascii.eqb_refl|].
  by rewrite (proj2 (Ascii.eqb_neq _ _) H).
Qed.

Lemma HasPrefix_nil s : HasPrefix s "" = true.
Proof. by destruct s. Qed.

(** What is put in place of a match, when it starts with a byte the text looked
    for does not have, brings no occurrence with it. *)
Section replace.
  Context (c : ascii) (mask : string) (old p : string).
  Context (Hp : p ≠ "") (Hfree : free_of c p = true).

Lemma HasPrefix_masked s : HasPrefix (String c s) p = false.
Proof.
  destruct (decide (HasPrefix (String c s) p = true)) as [H|H]; [|by apply not_true_is_false]. exfalso. revert H.
  revert Hp Hfree. destruct p as [|b q]; [done|]. intros _. unfold free_of. cbn [sall].
  intros [Hb%negb_true_iff _]%andb_true_iff. by rewrite HasPrefix_cons, Hb.
Qed.

Lemma replaceLoop_prefix q s :
  free_of c q = true -> HasPrefix (replaceLoop old (String c mask) 0 s) q = true -> HasPrefix s q = true.
Proof.
  revert q. induction s as [|a s IH]; intros q Hq; [done|]. cbn [replaceLoop].
  destruct q as [|b q]; [by rewrite HasPrefix_nil|]. unfold free_of in Hq. cbn [sall] in Hq.
  apply andb_true_iff in Hq as [Hb%negb_true_iff Hq].
  destruct (HasPrefix (String a s) old).
  - change (String c mask +:+ replaceLoop old (String c mask) (pred (String.length old)) s)
      with (String c (mask +:+ replaceLoop old (String c mask) (pred (String.length old)) s)).
    by rewrite HasPrefix_cons, Hb.
  - rewrite !HasPrefix_cons. intros H. apply andb_true_iff in H as [-> H]. by apply IH in H.
Qed.

Lemma Contains_app_mask m s :
  sall (Ascii.eqb c) m = true -> Contains (m +:+ s) p = true -> Contains s p = true.
Proof.
  induction m as [|a m IH]; [done|]. cbn [sall]. intros H. apply andb_true_iff in H as [Ha Hm].
  apply Ascii.eqb_eq in Ha as <-. change (String c m +:+ s) with (String c (m +:+ s)). cbn [Contains].
  intros E. apply orb_true_iff in E as [E|E]; [|by apply IH].
  by rewrite HasPrefix_masked in E.
Qed.

Lemma Contains_replace k s :
  sall (Ascii.eqb c) mask = true ->
  Contains (replaceLoop old (String c mask) k s) p = true -> Contains s p = true.
Proof.
  intros Hm. revert k. induction s as [|a s IH]; intros k; [done|]. cbn [replaceLoop].
  destruct k as [|k]; [|intros H%IH; cbn [Contains]; by rewrite H, orb_true_r].
  destruct (HasPrefix (String a s) old) eqn:E.
  - intros H%Contains_app_mask; [|cbn [sall]; by rewrite Ascii.eqb_refl]. apply IH in H.
    cbn [Contains]. by rewrite H, orb_true_r.
  - cbn [Contains]. intros H. apply orb_true_iff in H as [H|H]; apply orb_true_iff; [left|right; by apply IH in H].
    pose proof (replaceLoop_prefix p (String a s) Hfree) as Q. cbn [replaceLoop] in Q. rewrite E in Q. by apply Q.
Qed.

Lemma Contains_replace_self k s :
  old = p -> sall (Ascii.eqb c) mask = true -> Contains (replaceLoop old (String c mask) k s) p = false.
Proof.
  intros Ho Hm. revert k. induction s as [|a s IH]; intros k; [by cbn; destruct p|]. cbn [replaceLoop].
  destruct k as [|k]; [|apply IH]. destruct (HasPrefix (String a s) old) eqn:E.
  - destruct (Contains _ p) eqn:H; [|done]. apply Contains_app_mask in H; [|cbn [sall]; by rewrite Ascii.eqb_refl].
    by rewrite IH in H.
  - cbn [Contains]. rewrite IH, orb_false_r. destruct (HasPrefix _ p) eqn:H; [|done].
    pose proof (replaceLoop_prefix p (String a s) Hfree) as Q. cbn [replaceLoop] in Q. rewrite E in Q.
    rewrite Ho in E. rewrite Q in E; done.
Qed.
End replace.

(** Masking a list of secrets, those of three bytes and more, one after the
    other. *)
Definition maskAll (l : list string) (text : string) : string :=
  foldl (λ text s, if (3 <=? String.length s)%nat then ReplaceAll text s "***" else text) text l.

Lemma maskAll_hides secret l text :
  (3 <= String.length secret)%nat -> free_of "*" secret = true ->
  Contains text secret = false ∨ secret ∈ l -> Contains (maskAll l text) secret = false.
Proof.
  intros Hlen Hfree. assert (Hne : secret ≠ "") by (intros ->; simpl in Hlen; lia). revert text.
  induction l as [|s l IH]; intros t H; [by destruct H as [H|H%elem_of_nil]|]. apply IH.
  destruct H as [H|[->|H]%elem_of_cons]; [left| |by right].
  - destruct (3 <=? String.length s)%nat; [|done]. destruct (Contains (ReplaceAll t s "***") secret) eqn:E; [|done].
    apply (Contains_replace "*" "**" s secret Hne Hfree 0) in E; [|done]. by rewrite E in H.
  - left. rewrite (proj2 (Nat.leb_le 3 _)) by done. by apply (Contains_replace_self "*" "**" s s Hne Hfree 0).
Qed.

(** * UTF-8: [unicode/utf8] and [strings.Map]

    A string is read rune by rune; a byte that starts no valid encoding is a
    rune of one byte, which [strings.Map] writes back as U+FFFD. *)

Open Scope N_scope.

Definition in_range (lo hi : N) (a : ascii) : bool := (lo <=? code a) && (code a <=? hi).
Definition is_cont (a : ascii) : bool := in_range 128 191 a.

(** The width of the rune at the head, [None] when the head starts no valid
    encoding: the table of package utf8. *)
Definition runeWidth (s : string) : option nat :=
  match s with
  | "" => None
  | String a rest =>
      if code a <? 128 then Some 1%nat
      else
        let second (lo hi : N) (more : string -> bool) (w : nat) :=
          match rest with
          | String b rest' => if in_range lo hi b && more rest' then Some w else None
          | "" => None
          end in
        let none (_ : string) := true in
        let one (r : string) := match r with String c _ => is_cont c | "" => false end in
        let two (r : string) := match r with String c (String d _) => is_cont c && is_cont d | _ => false end in
        if in_range 194 223 a then second 128 191 none 2%nat
        else if code a =? 224 then second 160 191 one 3%nat
        else if in_range 225 236 a || in_range 238 239 a then second 128 191 one 3%nat
        else if code a =? 237 then second 128 159 one 3%nat
        else if code a =? 240 then second 144 191 two 4%nat
        else if in_range 241 243 a then second 128 191 two 4%nat
        else if code a =? 244 then second 128 143 two 4%nat
        else None
  end.

(** U+FFFD. *)
Definition RuneError : string := String (byte_of 239) (String (byte_of 191) (schar (byte_of 189))).

(** [strings.Map]: [f] maps the encoding of a rune to what replaces it, nothing
    when the rune is dropped; [skip] bytes of the current rune are still to
    pass. *)
Fixpoint mapRunes (f : string -> string) (skip : nat) (s : string) : string :=
  match s with
  | "" => ""
  | String _ s' =>
      match skip with
      | S k => mapRunes f k s'
      | O =>
          match runeWidth s with
          | Some w => f (stake w s) +:+ mapRunes f (pred w) s'
          | None => f RuneError +:+ mapRunes f 0 s'
          end
      end
  end.

Definition strings_Map (f : string -> string) (s : string) : string := mapRunes f 0 s.

Lemma in_range_high lo hi a : 128 <= lo -> in_range lo hi a = true -> (128 <=? code a) = true.
Proof. unfold in_range. intros H E. apply andb_true_iff in E as [E _]. apply N.leb_le in E. apply N.leb_le. lia. Qed.

(** Every byte of a rune of several bytes is outside ASCII. *)
Lemma runeWidth_bytes s w :
  runeWidth s = Some w ->
  (∃ a, stake w s = schar a ∧ code a < 128) ∨ (sall (λ a, 128 <=? code a) (stake w s) = true).
Proof.
  destruct s as [|a s]; [done|]. cbn [runeWidth]. destruct (code a <? 128) eqn:Ha.
  { intros [= <-]. left. exists a. split; [by destruct s|by apply N.ltb_lt]. }
  apply N.ltb_ge, N.leb_le in Ha. unfold is_cont. intros H. right.
  repeat (match type of H with context [match ?x with _ => _ end] => destruct x eqn:? end; try discriminate H);
    injection H as <-; cbn [stake sall];
    repeat match goal with
    | E : _ && _ = true |- _ => apply andb_true_iff in E as [? ?]
    | E : (match ?x with "" => false | _ => _ end) = true |- _ => destruct x; [discriminate E|]
    end; cbn [stake sall]; rewrite Ha;
    repeat match goal with E : in_range ?lo ?hi ?x = true |- context [128 <=? code ?x] =>
      rewrite (in_range_high lo hi x) by (first [exact E | lia]) end; done.
Qed.

(** [for _, r := range s]: the encodings of the runes in order; a byte that
    starts no valid encoding is U+FFFD. *)
Fixpoint rangeRunes (skip : nat) (s : string) : list string :=
  match s with
  | "" => []
  | String _ s' =>
      match skip with
      | S k => rangeRunes k s'
      | O =>
          match runeWidth s with
          | Some w => stake w s :: rangeRunes (pred w) s'
          | None => RuneError :: rangeRunes 0 s'
          end
      end
  end.

Definition runes (s : string) : list string := rangeRunes 0 s.

(** [unicode.ToLower] as far as ASCII can tell: besides the capital letters, the
    Kelvin sign and the dotted capital I have a lower case there; every other
    rune stays outside ASCII. *)
Definition lowerRune (r : string) : string :=
  match r with
  | String a "" => schar (lower_byte a)
  | _ =>
      if String.eqb r (String (byte_of 226) (String (byte_of 132) (schar (byte_of 170)))) then "k"
      else if String.eqb r (String (byte_of 196) (schar (byte_of 176))) then "i"
      else r
  end.

(** A string of ASCII bytes is its bytes. *)
Lemma runes_ascii s :
  sall (λ a, code a <? 128) s = true -> runes s = schar <$> String.list_ascii_of_string s.
Proof.
  unfold runes. induction s as [|a s IH]; [done|]. cbn [sall]. intros H. apply andb_true_iff in H as [Ha H].
  cbn [rangeRunes runeWidth String.list_ascii_of_string fmap list_fmap stake pred]. rewrite Ha.
  cbn [stake pred]. f_equal. by apply IH.
Qed.

(** ** Lines and fields *)

(** [strings.Fields]. *)
Fixpoint fieldsFuel (n : nat) (s cur : string) : list string :=
  let flush := if bool_decide (cur = "") then [] else [cur] in
  match n, s with
  | O, _ | _, "" => flush
  | S n, String a s' =>
      match List.find (HasPrefix s) space_runes with
      | Some p => flush ++ fieldsFuel n (sdrop (String.length p) s) ""
      | None => fieldsFuel n s' (cur +:+ schar a)
      end
  end.
Definition Fields (s : string) : list string := fieldsFuel (String.length s) s "".

(** [bufio.Scanner] over lines with a buffer of [max] bytes: the tokens, and
    whether the whole input was read. A line that fills the buffer stops it. *)
Definition dropCR (s : string) : string := TrimSuffix s (schar (byte_of 13)).

Fixpoint scanTokens (max : nat) (lines : list string) : list string * bool :=
  match lines with
  | [] | [""] => ([], true)
  | line :: lines =>
      if (String.length line <? max)%nat then let '(l, all) := scanTokens max lines in (dropCR line :: l, all)
      else ([], false)
  end.

Definition scanLines (max : nat) (s : string) : list string * bool := scanTokens max (Split s (byte_of 10)).

(** [strings.EqualFold] with an ASCII string: two runes outside ASCII fold to
    letters of it, the Kelvin sign and the long s. *)
Fixpoint foldASCII (s : string) : string :=
  match s with
  | String a (String b (String c rest as u) as t) =>
      if bool_decide ([a; b; c] = [byte_of 226; byte_of 132; byte_of 170]) then String "k" (foldASCII rest)
      else if bool_decide ([a; b] = [byte_of 197; byte_of 191]) then String "s" (foldASCII u)
      else String (lower_byte a) (foldASCII t)
  | String a (String b "" as t) =>
      if bool_decide ([a; b] = [byte_of 197; byte_of 191]) then "s" else String (lower_byte a) (foldASCII t)
  | String a "" => schar (lower_byte a)
  | "" => ""
  end.

Definition EqualFold (s t : string) : bool := String.eqb (foldASCII s) (foldASCII t).
