(* ===== verification/GoNumbers.v ===== *)
(** * Go's [fmt.Sscanf], as far as the program uses it *)
From S2P Require Import Prelude GoStrings.
Open Scope Z_scope.

(** The white space before a number; a line break there is an error. *)
Definition skipSpace (s : string) : option string :=
  let t := trim_left_fuel (String.length s) s in
  if ContainsByte (stake (String.length s - String.length t) s) (byte_of 10) then None else Some t.

(** The digits at the head, and the rest. *)
Fixpoint spanDigits (s : string) : string * string :=
  match s with
  | String a s' => if is_digit a then let '(d, r) := spanDigits s' in (String a d, r) else ("", s)
  | "" => ("", "")
  end.

(** [%d] into an unsigned integer of [bits] bits. *)
Definition scanUint (bits : Z) (s : string) : option (Z * string) :=
  s ← skipSpace s;
  let '(d, rest) := spanDigits s in
  if bool_decide (d = "") then None
  else n ← parse_digits d 0; if n <? 2 ^ bits then Some (n, rest) else None.

(** [%d] into an int. *)
Definition scanInt (s : string) : option (Z * string) :=
  s ← skipSpace s;
  let '(neg, s) := match s with
                   | String a s' => if Ascii.eqb a "-" then (true, s') else if Ascii.eqb a "+" then (false, s') else (false, s)
                   | "" => (false, "")
                   end in
  let '(d, rest) := spanDigits s in
  if bool_decide (d = "") then None
  else n ← parse_digits d 0;
       let v := if neg : bool then - n else n in
       if (min_int64 <=? v) && (v <=? max_int64) then Some (v, rest) else None.

(** A literal of the format. *)
Definition scanLit (lit s : string) : option string :=
  if HasPrefix s lit then Some (sdrop (String.length lit) s) else None.

(** [_, _ = fmt.Sscanf(s, "%d", &n)]: what [n] is then. *)
Definition SscanfInt (s : string) : Z := match scanInt s with Some (n, _) => n | None => 0 end.

(** * Floating point numbers, as far as the program prints them

    A [float64] that is not negative is the fraction it stands for; its
    denominator is a power of two.  A conversion, a quotient or a sum rounds to
    the nearest number of 53 bits, ties to even; what is too small or too large for
    the exponent does not occur. *)

Record float := mkFloat { fl_num : Z; fl_den : Z }.

(** The integer nearest to [n / d], ties to even. *)
Definition round_half_even (n d : Z) : Z :=
  let q := n / d in let r := n mod d in
  if 2 * r <? d then q else if d <? 2 * r then q + 1 else if Z.even q then q else q + 1.

(** [n / d * 2 ^ k], rounded to an integer. *)
Definition scaled (n d k : Z) : Z := round_half_even (n * 2 ^ Z.max k 0) (d * 2 ^ Z.max (- k) 0).

(** The number nearest to [n / d]. *)
Definition nearest (n d : Z) : float :=
  if n =? 0 then mkFloat 0 1
  else
    let k := 52 - (Z.log2 n - Z.log2 d) in
    let k := if scaled n d k <? 2 ^ 52 then k + 1 else k in
    mkFloat (scaled n d k * 2 ^ Z.max (- k) 0) (2 ^ Z.max k 0).

(** [float64(n)], [x / y] and [x + y]. *)
Definition float64 (n : Z) : float := nearest n 1.
Definition fdiv (x y : float) : float := nearest (fl_num x * fl_den y) (fl_den x * fl_num y).
Definition fadd (x y : float) : float := nearest (fl_num x * fl_den y + fl_num y * fl_den x) (fl_den x * fl_den y).

(** [int(x)]. *)
Definition ftrunc (x : float) : Z := fl_num x / fl_den x.

(** [strconv.FormatFloat(x, 'f', 1, 64)]: the exact value, to the nearest tenth. *)
Definition Format1 (x : float) : string :=
  let t := round_half_even (10 * fl_num x) (fl_den x) in Itoa (t / 10) +:+ "." +:+ Itoa (t mod 10).

Lemma round_half_even_near n d : 0 < d -> 2 * Z.abs (n - d * round_half_even n d) <= d.
Proof.
  intros Hd. unfold round_half_even. pose proof (Z.div_mod n d ltac:(lia)) as E. pose proof (Z.mod_pos_bound n d Hd) as B.
  destruct (2 * (n mod d) <? d) eqn:E1; boolean; [lia|]. destruct (d <? 2 * (n mod d)) eqn:E2; boolean; [lia|].
  destruct (Z.even (n / d)); lia.
Qed.

Lemma round_half_even_exact n d : 0 < d -> round_half_even (n * d) d = n.
Proof.
  intros Hd. unfold round_half_even. rewrite Z.div_mul, Z.mod_mul by lia. assert (H : (2 * 0 <? d) = true) by (apply Z.ltb_lt; lia).
  by rewrite H.
Qed.

(** Only the value of a fraction counts. *)
Lemma round_half_even_scale n d c : 0 < d -> 0 < c -> round_half_even (n * c) (d * c) = round_half_even n d.
Proof.
  intros Hd Hc. unfold round_half_even. rewrite Z.div_mul_cancel_r, Z.mul_mod_distr_r by lia. rewrite !Z.mul_assoc.
  assert (E1 : (2 * (n mod d) * c <? d * c) = (2 * (n mod d) <? d)) by (apply eq_true_iff_eq; rewrite !Z.ltb_lt; nia).
  assert (E2 : (d * c <? 2 * (n mod d) * c) = (d <? 2 * (n mod d))) by (apply eq_true_iff_eq; rewrite !Z.ltb_lt; nia).
  by rewrite E1, E2.
Qed.

Lemma round_half_even_value n d n' d' : 0 < d -> 0 < d' -> n * d' = n' * d -> round_half_even n d = round_half_even n' d'.
Proof.
  intros Hd Hd' E. rewrite <- (round_half_even_scale n d d'), E by lia. rewrite <- (round_half_even_scale n' d' d) by lia.
  f_equal. lia.
Qed.

(** [m / 2 ^ j] with 53 bits is kept as it is. *)
Lemma nearest_exact n b m j : 0 <= b -> 0 <= j -> 0 < m < 2 ^ 53 -> n * 2 ^ j = m * 2 ^ b ->
  0 < fl_den (nearest n (2 ^ b)) ∧ fl_num (nearest n (2 ^ b)) * 2 ^ j = m * fl_den (nearest n (2 ^ b)).
Proof.
  intros Hb Hj Hm E. assert (Hn : 0 < n) by (assert (0 < 2 ^ j) by lia; assert (0 < 2 ^ b) by lia; nia).
  assert (Hlm : Z.log2 m < 53) by (apply Z.log2_lt_pow2; lia). assert (Hlm0 : 0 <= Z.log2 m) by apply Z.log2_nonneg.
  assert (EL : Z.log2 n + j = Z.log2 m + b).
  { pose proof (Z.log2_mul_pow2 n j Hn Hj) as L1. pose proof (Z.log2_mul_pow2 m b ltac:(lia) Hb) as L2. rewrite E in L1. lia. }
  set (k := j + 52 - Z.log2 m).
  assert (Hs : scaled n (2 ^ b) k = m * 2 ^ (52 - Z.log2 m)).
  { unfold scaled. rewrite <- (round_half_even_exact (m * 2 ^ (52 - Z.log2 m)) 1) by lia. apply round_half_even_value; [|lia|].
    - assert (0 < 2 ^ b) by lia. assert (0 < 2 ^ Z.max (- k) 0) by lia. nia.
    - assert (Hk : Z.max k 0 = k ∧ Z.max (- k) 0 = 0) by (unfold k; lia). destruct Hk as [-> ->]. rewrite !Z.mul_1_r.
      replace k with (j + (52 - Z.log2 m)) by (unfold k; lia). rewrite Z.pow_add_r by lia. nia. }
  assert (Hbig : 2 ^ 52 <= m * 2 ^ (52 - Z.log2 m)).
  { pose proof (Z.log2_spec m ltac:(lia)) as [H _]. replace (2 ^ 52) with (2 ^ Z.log2 m * 2 ^ (52 - Z.log2 m)); [|rewrite <- Z.pow_add_r by lia; f_equal; lia].
    apply Z.mul_le_mono_nonneg_r; lia. }
  unfold nearest. rewrite (proj2 (Z.eqb_neq n 0)) by lia. rewrite Z.log2_pow2 by lia.
  replace (52 - (Z.log2 n - b)) with k by (unfold k; lia). rewrite Hs, (proj2 (Z.ltb_ge _ _)) by lia. rewrite Hs. cbn [fl_num fl_den].
  assert (Hk : Z.max k 0 = k ∧ Z.max (- k) 0 = 0) by (unfold k; lia). destruct Hk as [-> ->]. split; [lia|].
  replace k with (j + (52 - Z.log2 m)) by (unfold k; lia). rewrite Z.pow_add_r by lia. lia.
Qed.

Example format_thirds : Format1 (fdiv (float64 1) (float64 3)) = "0.3" ∧ Format1 (fadd (float64 1) (fdiv (float64 45) (float64 100))) = "1.4"
  ∧ Format1 (fadd (float64 1) (fdiv (float64 35) (float64 100))) = "1.4" ∧ Format1 (fdiv (float64 5) (float64 4)) = "1.2".
Proof. vm_compute. done. Qed.
