(* ===== verification/GoTime.v ===== *)
(** * Go's [time] package, as far as the program uses it

    A [time.Time] is its instant: nanoseconds since the Unix epoch, an
    unbounded [Z].  The proleptic Gregorian calendar, ISO weeks and the
    layouts the program formats with are computed from it; a [Duration] is an
    int64 that wraps, and [Sub] saturates. *)
From S2P Require Import Prelude GoStrings.
Open Scope Z_scope.

Definition Time := Z.

Definition Nanosecond : Z := 1.
Definition Second : Z := 1000000000.
Definition Minute : Z := 60 * Second.
Definition Hour : Z := 60 * Minute.
Definition Day : Z := 24 * Hour.

(** The zero [time.Time], January 1 of year 1, and [t.IsZero()]. *)
Definition zeroTime : Time := -62135596800 * Second.
Definition IsZero (t : Time) : bool := t =? zeroTime.

Definition After (t u : Time) : bool := u <? t.
Definition Before (t u : Time) : bool := t <? u.
Definition Equal (t u : Time) : bool := t =? u.

(** Two's complement wrap-around of an int64. *)
Definition wrap64 (n : Z) : Z := (n + 2 ^ 63) mod 2 ^ 64 - 2 ^ 63.

(** [t.Sub(u)] saturates at the ends of the int64 range. *)
Definition Sub (t u : Time) : Z :=
  if t - u <? min_int64 then min_int64 else if max_int64 <? t - u then max_int64 else t - u.

(** [t.Add(d)]. *)
Definition Add (t : Time) (d : Z) : Time := t + d.

(** [t.AddDate(0, 0, n)] of a UTC time: the days are all 24 hours long. *)
Definition AddDays (t : Time) (n : Z) : Time := t + n * Day.

(** [d.Milliseconds()] truncates towards zero, as Go's integer division. *)
Definition Milliseconds (d : Z) : Z := Z.quot d 1000000.

(** ** The UTC calendar *)

(** Days since 1970-01-01 of an instant: floor division. *)
Definition day_number (t : Time) : Z := t / Day.
Definition second_of_day (t : Time) : Z := (t mod Day) / Second.

Definition hour_of (t : Time) : Z := second_of_day t / 3600.
Definition minute_of (t : Time) : Z := second_of_day t / 60 mod 60.
Definition second_of (t : Time) : Z := second_of_day t mod 60.

(** Year, month and day of a day number, counted in 400-year cycles of
    146097 days that begin on March 1. *)
Definition civil_from_days (days : Z) : Z * Z * Z :=
  let z := days + 719468 in
  let era := z / 146097 in
  let doe := z mod 146097 in
  let yoe := (doe - doe / 1460 + doe / 36524 - doe / 146096) / 365 in
  let doy := doe - (365 * yoe + yoe / 4 - yoe / 100) in
  let mp := (5 * doy + 2) / 153 in
  let d := doy - (153 * mp + 2) / 5 + 1 in
  let m := if mp <? 10 then mp + 3 else mp - 9 in
  (yoe + era * 400 + (if m <=? 2 then 1 else 0), m, d).

(** The inverse: the day number of a date. *)
Definition days_from_civil (y m d : Z) : Z :=
  let y' := if m <=? 2 then y - 1 else y in
  let era := y' / 400 in
  let yoe := y' mod 400 in
  let doy := (153 * (if 2 <? m then m - 3 else m + 9) + 2) / 5 + d - 1 in
  let doe := yoe * 365 + yoe / 4 - yoe / 100 + doy in
  era * 146097 + doe - 719468.

Definition date_of (t : Time) : Z * Z * Z := civil_from_days (day_number t).
Definition year_of (t : Time) : Z := (date_of t).1.1.
Definition month_of (t : Time) : Z := (date_of t).1.2.
Definition monthday_of (t : Time) : Z := (date_of t).2.

(** Monday is 0: 1970-01-01 was a Thursday. *)
Definition weekday_of_day (n : Z) : Z := (n + 3) mod 7.

(** [t.ISOWeek()]: the year of the Thursday of the week of [t], and the
    number of that Thursday among the Thursdays of its year. *)
Definition ISOWeek (t : Time) : Z * Z :=
  let n := day_number t in
  let thursday := n - weekday_of_day n + 3 in
  let y := (civil_from_days thursday).1.1 in
  (y, (thursday - days_from_civil y 1 1) / 7 + 1).

(** ** Layouts *)

(** [appendInt] of package time: the sign is not counted in the width. *)
Definition appendInt (n : Z) (w : nat) : string :=
  if n <? 0 then "-" +:+ pad0 w (- n) else pad0 w n.

(** ["2006"], ["2006-01"], ["2006-01-02"], ["2006-01-02T15"]. *)
Definition fmt_year (t : Time) : string := appendInt (year_of t) 4.
Definition fmt_month (t : Time) : string := fmt_year t +:+ "-" +:+ appendInt (month_of t) 2.
Definition fmt_date (t : Time) : string := fmt_month t +:+ "-" +:+ appendInt (monthday_of t) 2.
Definition fmt_hour (t : Time) : string := fmt_date t +:+ "T" +:+ appendInt (hour_of t) 2.

(** ["20060102"] and ["150405"]. *)
Definition fmt_compact_date (t : Time) : string :=
  fmt_year t +:+ appendInt (month_of t) 2 +:+ appendInt (monthday_of t) 2.
Definition fmt_compact_time (t : Time) : string :=
  appendInt (hour_of t) 2 +:+ appendInt (minute_of t) 2 +:+ appendInt (second_of t) 2.

(** ** Facts *)

(** [t.UTC().Format(time.RFC3339)]. *)
Definition fmt_RFC3339 (t : Time) : string :=
  fmt_date t +:+ "T" +:+ appendInt (hour_of t) 2 +:+ ":" +:+ appendInt (minute_of t) 2 +:+ ":" +:+ appendInt (second_of t) 2 +:+ "Z".

(** ** Durations as text *)

(** [d.Round(m)]: halves away from zero, saturating. *)
Definition Round (d m : Z) : Z :=
  let r := Z.rem d m in
  if d <? 0 then
    let r := - r in
    if 2 * r <? m then d + r else if min_int64 <=? d - m + r then d - m + r else min_int64
  else if 2 * r <? m then d - r else if d + m - r <=? max_int64 then d + m - r else max_int64.

(** The digits of a fraction of a second, without the zeros at the end. *)
Fixpoint fracDigits (w : nat) (n : Z) : string :=
  match w with
  | O => ""
  | S w' => if n mod 10 =? 0 then fracDigits w' (n / 10) else "." +:+ pad0 w n
  end.

(** [d.String()] of no duration, or of a second and more. *)
Definition Duration_String (d : Z) : string :=
  let u := Z.abs d in
  let s := u / Second in
  (if d <? 0 then "-" else "")
  +:+ (if 3600 <=? s then Itoa (s / 3600) +:+ "h" else "")
  +:+ (if 60 <=? s then Itoa (s / 60 mod 60) +:+ "m" else "")
  +:+ Itoa (s mod 60) +:+ fracDigits 9 (u mod Second) +:+ "s".

Example duration_strings : Duration_String (Round (3723 * Second + 600000000) Second) = "1h2m4s" ∧ Duration_String (90 * Minute) = "1h30m0s"
  ∧ Duration_String 0 = "0s" ∧ Duration_String (1500000000) = "1.5s" ∧ Duration_String (Round (- 100 * Second) Minute) = "-2m0s".
Proof. vm_compute. done. Qed.


Lemma wrap64_range n : min_int64 <= wrap64 n <= max_int64.
Proof. unfold wrap64, min_int64, max_int64. pose proof (Z.mod_pos_bound (n + 2 ^ 63) (2 ^ 64)). lia. Qed.

Lemma wrap64_id n : min_int64 <= n <= max_int64 -> wrap64 n = n.
Proof. unfold wrap64, min_int64, max_int64. intros. rewrite Z.mod_small; lia. Qed.

Lemma Sub_range t u : min_int64 <= Sub t u <= max_int64.
Proof. unfold Sub, min_int64, max_int64. repeat case_match; boolean; lia. Qed.

Lemma Sub_exact t u : min_int64 <= t - u <= max_int64 -> Sub t u = t - u.
Proof. unfold Sub. intros. repeat case_match; boolean; lia. Qed.

(** The computed date is a date, and it names its day: the calendar is
    one-to-one. *)
Lemma doy_range doe :
  0 <= doe < 146097 ->
  let yoe := (doe - doe / 1460 + doe / 36524 - doe / 146096) / 365 in
  0 <= yoe < 400 /\ 0 <= doe - (365 * yoe + yoe / 4 - yoe / 100) <= 365.
Proof. intros H yoe. subst yoe. Z.to_euclidean_division_equations; lia. Qed.

Lemma mp_range doy :
  0 <= doy <= 365 ->
  let mp := (5 * doy + 2) / 153 in
  0 <= mp <= 11 /\ 1 <= doy - (153 * mp + 2) / 5 + 1 <= 31.
Proof. intros H mp. subst mp. Z.to_euclidean_division_equations; lia. Qed.

Lemma civil_range n :
  let '(_, m, d) := civil_from_days n in 1 <= m <= 12 /\ 1 <= d <= 31.
Proof.
  unfold civil_from_days. cbv zeta.
  pose proof (Z.mod_pos_bound (n + 719468) 146097 ltac:(lia)) as Hd.
  destruct (doy_range _ Hd) as [Hy Hdoy]. destruct (mp_range _ Hdoy) as [Hm Hday].
  split; [|done]. case_match; boolean; lia.
Qed.

Lemma days_from_civil_inverse n :
  let '(y, m, d) := civil_from_days n in days_from_civil y m d = n.
Proof.
  unfold civil_from_days. cbv zeta.
  pose proof (Z.mod_pos_bound (n + 719468) 146097 ltac:(lia)) as Hd.
  pose proof (Z.div_mod (n + 719468) 146097 ltac:(lia)) as Hdm.
  set (doe := (n + 719468) mod 146097) in *. set (era := (n + 719468) / 146097) in *.
  destruct (doy_range _ Hd) as [Hy Hdoy].
  set (yoe := (doe - doe / 1460 + doe / 36524 - doe / 146096) / 365) in *.
  set (doy := doe - (365 * yoe + yoe / 4 - yoe / 100)) in *.
  destruct (mp_range _ Hdoy) as [Hm Hday]. set (mp := (5 * doy + 2) / 153) in *.
  unfold days_from_civil.
  assert (Hmp : (if 2 <? (if mp <? 10 then mp + 3 else mp - 9)
                 then (if mp <? 10 then mp + 3 else mp - 9) - 3
                 else (if mp <? 10 then mp + 3 else mp - 9) + 9) = mp).
  { repeat case_match; boolean; lia. }
  rewrite Hmp.
  assert (Hyy : (if (if mp <? 10 then mp + 3 else mp - 9) <=? 2
                 then yoe + era * 400 + (if (if mp <? 10 then mp + 3 else mp - 9) <=? 2 then 1 else 0) - 1
                 else yoe + era * 400 + (if (if mp <? 10 then mp + 3 else mp - 9) <=? 2 then 1 else 0))
                = yoe + era * 400).
  { repeat case_match; boolean; lia. }
  rewrite Hyy, Z.div_add, Z.mod_add, (Z.div_small yoe), (Z.mod_small yoe) by lia.
  subst doy. lia.
Qed.

Lemma civil_from_days_inj n m : civil_from_days n = civil_from_days m -> n = m.
Proof.
  intros E. pose proof (days_from_civil_inverse n) as Hn. pose proof (days_from_civil_inverse m) as Hm.
  rewrite E in Hn. destruct (civil_from_days m) as [[y mo] d]. congruence.
Qed.

(** ** The layouts name their instant *)

Lemma appendInt_inj n m w : appendInt n w = appendInt m w -> n = m.
Proof.
  unfold appendInt. intros E.
  destruct (Z.ltb_spec n 0), (Z.ltb_spec m 0).
  - injection E as E. apply pad0_inj in E; lia.
  - apply (f_equal (λ s, parse_digits s 0)) in E. rewrite (pad0_nonneg w m) in E by lia. simpl in E. discriminate E.
  - apply (f_equal (λ s, parse_digits s 0)) in E. rewrite (pad0_nonneg w n) in E by lia. simpl in E. discriminate E.
  - apply pad0_inj in E; lia.
Qed.

Lemma appendInt_2_length n : 0 <= n < 100 -> String.length (appendInt n 2) = 2%nat.
Proof. intros H. unfold appendInt. rewrite (proj2 (Z.ltb_ge n 0)) by lia. by apply pad0_2_length. Qed.

(** A two-digit number after a separator can be read back. *)
Lemma sep2_inj s s' (sep : ascii) n m :
  0 <= n < 100 -> 0 <= m < 100 ->
  s +:+ String sep (appendInt n 2) = s' +:+ String sep (appendInt m 2) -> s = s' ∧ n = m.
Proof.
  intros Hn Hm E. apply sapp_inj_length in E as [-> E]; [|simpl; by rewrite !appendInt_2_length].
  split; [done|]. injection E as E. by eapply appendInt_inj.
Qed.

Lemma month_range t : 1 <= month_of t <= 12.
Proof. unfold month_of, date_of. pose proof (civil_range (day_number t)). destruct (civil_from_days _) as [[? ?] ?]. simpl. lia. Qed.
Lemma monthday_range t : 1 <= monthday_of t <= 31.
Proof. unfold monthday_of, date_of. pose proof (civil_range (day_number t)). destruct (civil_from_days _) as [[? ?] ?]. simpl. lia. Qed.
Lemma hour_range t : 0 <= hour_of t < 24.
Proof. unfold hour_of, second_of_day, Day, Hour, Minute, Second. Z.to_euclidean_division_equations; lia. Qed.

Lemma fmt_year_same t u : fmt_year t = fmt_year u <-> year_of t = year_of u.
Proof. unfold fmt_year. split; [apply appendInt_inj|by intros ->]. Qed.

Lemma fmt_month_same t u :
  fmt_month t = fmt_month u <-> year_of t = year_of u ∧ month_of t = month_of u.
Proof.
  unfold fmt_month. rewrite <- fmt_year_same. split; [|by intros [-> ->]].
  pose proof (month_range t); pose proof (month_range u). apply sep2_inj; lia.
Qed.

Lemma fmt_date_same t u : fmt_date t = fmt_date u <-> day_number t = day_number u.
Proof.
  split.
  - unfold fmt_date. intros E. apply sep2_inj in E as [E Ed];
      [|pose proof (monthday_range t); lia|pose proof (monthday_range u); lia].
    apply fmt_month_same in E as [Ey Em]. apply civil_from_days_inj.
    unfold year_of, month_of, monthday_of, date_of in *.
    destruct (civil_from_days (day_number t)) as [[? ?] ?], (civil_from_days (day_number u)) as [[? ?] ?].
    simpl in *. congruence.
  - intros E. unfold fmt_date, fmt_month, fmt_year, year_of, month_of, monthday_of, date_of. by rewrite E.
Qed.

Lemma hour_number t : t / Hour = day_number t * 24 + hour_of t.
Proof. unfold day_number, hour_of, second_of_day, Day, Hour, Minute, Second. Z.to_euclidean_division_equations; lia. Qed.

Lemma fmt_hour_same t u : fmt_hour t = fmt_hour u <-> t / Hour = u / Hour.
Proof.
  pose proof (hour_range t); pose proof (hour_range u). rewrite !hour_number. split.
  - unfold fmt_hour. intros E. apply sep2_inj in E as [E%fmt_date_same Eh]; lia.
  - intros E. assert (day_number t = day_number u ∧ hour_of t = hour_of u) as [Ed Eh] by lia.
    unfold fmt_hour. rewrite Eh. f_equal. by apply fmt_date_same.
Qed.

(** Weeks start on Monday: [week_number] counts them from the one of
    1969-12-29. *)
Definition week_number (t : Time) : Z := (day_number t + 3) / 7.

Lemma thursday_of_week t :
  day_number t - weekday_of_day (day_number t) + 3 = week_number t * 7.
Proof. unfold week_number, weekday_of_day. pose proof (Z.div_mod (day_number t + 3) 7). lia. Qed.

Lemma day_of_year_range n : 0 <= n - days_from_civil (civil_from_days n).1.1 1 1 < 400.
Proof.
  pose proof (days_from_civil_inverse n) as Hi. pose proof (civil_range n) as Hr.
  destruct (civil_from_days n) as [[y m] d]. simpl. destruct Hr as [Hm Hd].
  rewrite <- Hi. clear Hi n. unfold days_from_civil. simpl.
  destruct (Z.leb_spec m 2), (Z.ltb_spec 2 m); try lia; Z.to_euclidean_division_equations; lia.
Qed.

Lemma ISOWeek_range t : 1 <= (ISOWeek t).2 < 100.
Proof.
  unfold ISOWeek. cbv zeta. cbn [snd]. rewrite thursday_of_week. generalize (week_number t * 7). intros th.
  pose proof (day_of_year_range th) as H. revert H. generalize (days_from_civil (civil_from_days th).1.1 1 1).
  intros j H. Z.to_euclidean_division_equations; lia.
Qed.

Lemma ISOWeek_same t u : ISOWeek t = ISOWeek u <-> week_number t = week_number u.
Proof.
  unfold ISOWeek. rewrite !thursday_of_week. split; [|by intros ->].
  intros E. injection E as Ey Ew. rewrite Ey in Ew.
  set (j := days_from_civil _ 1 1) in *. Z.to_euclidean_division_equations; lia.
Qed.
