(* ===== verification/Core.v ===== *)
(** * The data of [internal/core/types.go]

    One record per struct, one inductive type per closed enumeration.  String
    types whose value reaches the code unchecked (compression, encryption,
    roles, scopes, events, field types) stay strings with named constants.  A
    pointer is an [option], a slice a [list], a [map[string]string] a [gmap];
    [int] and [int64] fields are [Z]. *)
From S2P Require Import Prelude GoStrings GoTime.

Definition SecretMask : string := "********".

(** ** Driver fields *)

Definition FieldType := string.
Definition FieldSecret : FieldType := "secret".

(** ** Hosts *)

Definition HostAuth := string.
Definition HostAuthKey : HostAuth := "key".
Definition HostAuthPassword : HostAuth := "password".

Record Host := mkHost {
  host_ID : string;
  host_Name : string;
  host_Description : string;
  host_Address : string;
  host_Port : Z;
  host_User : string;
  host_Auth : HostAuth;
  host_PrivateKey : string;
  host_KeyPassphrase : string;
  host_Password : string;
  host_PublicKey : string;
  host_HostKey : string;
  host_Sudo : bool;
  host_ConnectTimeout : Z;
  host_Tags : list string;
  host_CreatedAt : Time;
  host_UpdatedAt : Time;
  host_LastTestAt : option Time;
  host_LastTestOK : option bool;
  host_LastTestError : string;
  host_LastSeenOS : string;
  host_Tools : list string;
  host_SourceCount : Z
}.

Definition HostSecretFields : list string := ["privateKey"; "keyPassphrase"; "password"].

(** [h] with its three secrets replaced. *)
Definition host_with_secrets (h : Host) (key passphrase password : string) : Host :=
  {| host_ID := host_ID h; host_Name := host_Name h; host_Description := host_Description h;
     host_Address := host_Address h; host_Port := host_Port h; host_User := host_User h;
     host_Auth := host_Auth h; host_PrivateKey := key; host_KeyPassphrase := passphrase;
     host_Password := password; host_PublicKey := host_PublicKey h; host_HostKey := host_HostKey h;
     host_Sudo := host_Sudo h; host_ConnectTimeout := host_ConnectTimeout h;
     host_Tags := host_Tags h; host_CreatedAt := host_CreatedAt h; host_UpdatedAt := host_UpdatedAt h;
     host_LastTestAt := host_LastTestAt h; host_LastTestOK := host_LastTestOK h;
     host_LastTestError := host_LastTestError h; host_LastSeenOS := host_LastSeenOS h;
     host_Tools := host_Tools h; host_SourceCount := host_SourceCount h |}.

Definition Host_Masked (h : Host) : Host :=
  let mask s := if bool_decide (s ≠ "") then SecretMask else s in
  host_with_secrets h (mask (host_PrivateKey h)) (mask (host_KeyPassphrase h)) (mask (host_Password h)).

(** ** Configuration values

    A [float64] is seen through the conversions the program applies to it:
    its truncation [int64(t)], whether [t == float64(int64(t))], its text
    under [strconv.FormatFloat(t, 'f', -1, 64)] and under [fmt.Sprint]. *)

Record Float64 := mkFloat {
  f_int64 : Z;
  f_integral : bool;
  f_text : string;
  f_sprint : string
}.

(** The dynamic types a configuration entry can have.  [VStringer] is any
    value with a [String] method, [VOther] any other value by its
    [fmt.Sprint] text. *)
Inductive Value :=
  | VNil
  | VString (s : string)
  | VInt (n : Z)
  | VInt64 (n : Z)
  | VFloat (f : Float64)
  | VBool (b : bool)
  | VStrings (l : list string)
  | VList (l : list Value)
  | VHost (h : Host)
  | VStringer (s : string)
  | VOther (text : string).

Abbreviation Config := (gmap string Value).

Record FieldOption := mkFieldOption { opt_Value : string; opt_Label : string }.

Record Field := mkField {
  field_Name : string;
  field_Label : string;
  field_Type : FieldType;
  field_Required : bool;
  field_Secret : bool;
  field_Default : Value;
  field_Placeholder : string;
  field_Help : string;
  field_Options : list FieldOption;
  field_Group : string;
  field_Advanced : bool;
  field_ShowIf : gmap string Value;
  field_LocalOnly : bool
}.

Definition CapRestore : string := "restore".
Definition CapBrowse : string := "browse".
Definition CapIngest : string := "ingest".
Definition CapTest : string := "test".
Definition CapRemote : string := "remote".

Record DriverSpec := mkDriverSpec {
  spec_Kind : string;
  spec_Label : string;
  spec_Description : string;
  spec_Icon : string;
  spec_Category : string;
  spec_Fields : list Field;
  spec_Capabilities : list string;
  spec_Tools : list string;
  spec_DocsURL : string
}.

Definition DriverSpec_Has (s : DriverSpec) (capability : string) : bool :=
  existsb (String.eqb capability) (spec_Capabilities s).

Definition SecretFields (s : DriverSpec) : list string :=
  field_Name <$> filter (λ f, field_Secret f = true ∨ field_Type f = FieldSecret) (spec_Fields s).

(** ** Packing and retention *)

Definition Compression := string.
Definition CompressionNone : Compression := "none".
Definition CompressionGzip : Compression := "gzip".
Definition CompressionZstd : Compression := "zstd".

Definition Encryption := string.
Definition EncryptionNone : Encryption := "none".
Definition EncryptionAge : Encryption := "age".

Record Retention := mkRetention {
  KeepLast : Z;
  KeepHourly : Z;
  KeepDaily : Z;
  KeepWeekly : Z;
  KeepMonthly : Z;
  KeepYearly : Z;
  MaxAgeDays : Z
}.

#[export] Instance retention_eq_dec : EqDecision Retention.
Proof. solve_decision. Defined.

Definition noRetention : Retention := mkRetention 0 0 0 0 0 0 0.
Definition Retention_IsZero (r : Retention) : bool := bool_decide (r = noRetention).

(** ** Sources and destinations *)

Record Source := mkSource {
  src_ID : string;
  src_Name : string;
  src_Kind : string;
  src_Description : string;
  src_Config : Config;
  src_HostID : string;
  src_HostName : string;
  src_Tags : list string;
  src_CreatedAt : Time;
  src_UpdatedAt : Time;
  src_LastTestAt : option Time;
  src_LastTestOK : option bool;
  src_LastTestError : string;
  src_JobCount : Z
}.

Record Destination := mkDestination {
  dst_ID : string;
  dst_Name : string;
  dst_Kind : string;
  dst_Description : string;
  dst_Config : Config;
  dst_Tags : list string;
  dst_CreatedAt : Time;
  dst_UpdatedAt : Time;
  dst_LastTestAt : option Time;
  dst_LastTestOK : option bool;
  dst_LastTestError : string;
  dst_JobCount : Z;
  dst_UsedBytes : Z;
  dst_ArtifactCount : Z
}.

(** ** Events *)

Definition EventRunSuccess : string := "run.success".
Definition EventRunFailed : string := "run.failed".
Definition EventRunWarning : string := "run.warning".
Definition EventJobOverdue : string := "job.overdue".
Definition EventArtifactMissing : string := "artifact.missing".
Definition EventPruneDone : string := "prune.done".
Definition EventRestoreDone : string := "restore.done".
Definition EventRestoreFailed : string := "restore.failed".

Definition AllEvents : list string :=
  [EventRunSuccess; EventRunFailed; EventRunWarning; EventJobOverdue;
   EventArtifactMissing; EventPruneDone; EventRestoreDone; EventRestoreFailed].

(** ** Runs *)

Inductive RunKind := RunBackup | RunRestore | RunPrune | RunVerify | RunIngest.
Inductive RunTrigger := TriggerSchedule | TriggerManual | TriggerAPI | TriggerIngest | TriggerRetry.
Inductive RunStatus := RunQueued | RunRunning | RunSuccess | RunWarning | RunFailed | RunCanceled.
Inductive StageStatus := StagePending | StageRunning | StageSuccess | StageFailed | StageSkipped.
Inductive ArtifactStatus := ArtifactPresent | ArtifactMissing | ArtifactPruned | ArtifactDeleted.

#[export] Instance RunKind_eq_dec : EqDecision RunKind.
Proof. solve_decision. Defined.
#[export] Instance RunTrigger_eq_dec : EqDecision RunTrigger.
Proof. solve_decision. Defined.
#[export] Instance RunStatus_eq_dec : EqDecision RunStatus.
Proof. solve_decision. Defined.
#[export] Instance StageStatus_eq_dec : EqDecision StageStatus.
Proof. solve_decision. Defined.
#[export] Instance ArtifactStatus_eq_dec : EqDecision ArtifactStatus.
Proof. solve_decision. Defined.

Definition RunKind_text (k : RunKind) : string :=
  match k with
  | RunBackup => "backup" | RunRestore => "restore" | RunPrune => "prune"
  | RunVerify => "verify" | RunIngest => "ingest"
  end.

Definition RunStatus_text (s : RunStatus) : string :=
  match s with
  | RunQueued => "queued" | RunRunning => "running" | RunSuccess => "success"
  | RunWarning => "warning" | RunFailed => "failed" | RunCanceled => "canceled"
  end.

Definition Terminal (s : RunStatus) : bool :=
  match s with
  | RunSuccess | RunWarning | RunFailed | RunCanceled => true
  | _ => false
  end.

Record Stage := mkStage {
  stage_Name : string;
  stage_Status : StageStatus;
  stage_StartedAt : option Time;
  stage_FinishedAt : option Time;
  stage_Message : string
}.

Record Run := mkRun {
  run_ID : string;
  run_JobID : string;
  run_JobSlug : string;
  run_JobName : string;
  run_Kind : RunKind;
  run_Trigger : RunTrigger;
  run_Status : RunStatus;
  run_QueuedAt : Time;
  run_StartedAt : option Time;
  run_FinishedAt : option Time;
  run_DurationMS : Z;
  run_Bytes : Z;
  run_RawBytes : Z;
  run_SHA256 : string;
  run_Filename : string;
  run_Error : string;
  run_Stages : list Stage;
  run_ArtifactIDs : list string;
  run_Attempt : Z;
  run_Meta : gmap string string;
  run_CreatedBy : string
}.

Record RunSummary := mkRunSummary {
  sum_ID : string;
  sum_Kind : RunKind;
  sum_Status : RunStatus;
  sum_StartedAt : option Time;
  sum_FinishedAt : option Time;
  sum_DurationMS : Z;
  sum_Bytes : Z;
  sum_Error : string
}.

Definition Run_Summary (r : Run) : RunSummary :=
  {| sum_ID := run_ID r; sum_Kind := run_Kind r; sum_Status := run_Status r;
     sum_StartedAt := run_StartedAt r; sum_FinishedAt := run_FinishedAt r;
     sum_DurationMS := run_DurationMS r; sum_Bytes := run_Bytes r; sum_Error := run_Error r |}.

(** ** Jobs *)

Record Job := mkJob {
  job_ID : string;
  job_Slug : string;
  job_Name : string;
  job_Description : string;
  job_SourceID : string;
  job_DestinationIDs : list string;
  job_Schedule : string;
  job_Timezone : string;
  job_Enabled : bool;
  job_Compression : Compression;
  job_CompressionLevel : Z;
  job_Encryption : Encryption;
  job_EncryptionPassphrase : string;
  job_Retention : Retention;
  job_NotificationChannelIDs : list string;
  job_NotifyOn : list string;
  job_TimeoutMinutes : Z;
  job_Retries : Z;
  job_RetryDelaySeconds : Z;
  job_PreCommand : string;
  job_PostCommand : string;
  job_VerifyAfterUpload : bool;
  job_ExpectedIntervalMinutes : Z;
  job_Tags : list string;
  job_CreatedAt : Time;
  job_UpdatedAt : Time;
  job_SourceName : string;
  job_SourceKind : string;
  job_DestinationNames : list string;
  job_LastRun : option RunSummary;
  job_NextRunAt : option Time;
  job_Overdue : bool;
  job_ArtifactCount : Z;
  job_TotalBytes : Z
}.

(** ** Artifacts *)

Record Artifact := mkArtifact {
  art_ID : string;
  art_JobID : string;
  art_JobSlug : string;
  art_JobName : string;
  art_RunID : string;
  art_DestinationID : string;
  art_DestinationName : string;
  art_DestinationKind : string;
  art_Path : string;
  art_Filename : string;
  art_Size : Z;
  art_SHA256 : string;
  art_Compression : Compression;
  art_Encryption : Encryption;
  art_SourceKind : string;
  art_Extension : string;
  art_Status : ArtifactStatus;
  art_CreatedAt : Time;
  art_VerifiedAt : option Time;
  art_DeletedAt : option Time;
  art_Meta : gmap string string
}.

(** ** Notification channels, users, tokens, audit, settings *)

Record NotificationChannel := mkChannel {
  chan_ID : string;
  chan_Name : string;
  chan_Kind : string;
  chan_Config : Config;
  chan_Enabled : bool;
  chan_Events : list string;
  chan_CreatedAt : Time;
  chan_UpdatedAt : Time;
  chan_LastSentAt : option Time;
  chan_LastError : string
}.

Definition UserRole := string.
Definition RoleAdmin : UserRole := "admin".
Definition RoleViewer : UserRole := "viewer".

Record User := mkUser {
  user_ID : string;
  user_Email : string;
  user_Name : string;
  user_Role : UserRole;
  user_CreatedAt : Time;
  user_LastLoginAt : option Time
}.

Definition ScopeAdmin : string := "admin".
Definition ScopeRead : string := "read".
Definition ScopeIngest : string := "ingest".
Definition ScopeRun : string := "run".

Record APIToken := mkToken {
  tok_ID : string;
  tok_Name : string;
  tok_Prefix : string;
  tok_Scopes : list string;
  tok_JobSlugs : list string;
  tok_CreatedAt : Time;
  tok_CreatedBy : string;
  tok_LastUsedAt : option Time;
  tok_ExpiresAt : option Time
}.

Record AuditEntry := mkAudit {
  audit_ID : string;
  audit_Time : Time;
  audit_ActorID : string;
  audit_ActorLabel : string;
  audit_Action : string;
  audit_ObjectType : string;
  audit_ObjectID : string;
  audit_ObjectName : string;
  audit_Details : gmap string Value;
  audit_IP : string
}.

Record Settings := mkSettings {
  SiteName : string;
  BaseURL : string;
  DefaultTimezone : string;
  MaxConcurrentRuns : Z;
  DefaultRetention : Retention;
  RunHistoryDays : Z;
  AuditHistoryDays : Z;
  OverdueCheckMinutes : Z;
  DefaultNotifyOn : list string
}.
