(* ===== verification/CoreSetters.v ===== *)
(** * Functional updates of the records of [Core]

    [set_f v r] is [r] with its field [f] replaced by [v]: the assignments
    [x.F = v] of the code. *)
From S2P Require Import Prelude GoTime Core.

(** ** Job *)
Definition set_job_ID (v : string) (r : Job) : Job :=
  {| job_ID := v; job_Slug := job_Slug r; job_Name := job_Name r; job_Description :=
     job_Description r; job_SourceID := job_SourceID r; job_DestinationIDs := job_DestinationIDs
     r; job_Schedule := job_Schedule r; job_Timezone := job_Timezone r; job_Enabled := job_Enabled
     r; job_Compression := job_Compression r; job_CompressionLevel := job_CompressionLevel r;
     job_Encryption := job_Encryption r; job_EncryptionPassphrase := job_EncryptionPassphrase r;
     job_Retention := job_Retention r; job_NotificationChannelIDs := job_NotificationChannelIDs r;
     job_NotifyOn := job_NotifyOn r; job_TimeoutMinutes := job_TimeoutMinutes r; job_Retries :=
     job_Retries r; job_RetryDelaySeconds := job_RetryDelaySeconds r; job_PreCommand :=
     job_PreCommand r; job_PostCommand := job_PostCommand r; job_VerifyAfterUpload :=
     job_VerifyAfterUpload r; job_ExpectedIntervalMinutes := job_ExpectedIntervalMinutes r;
     job_Tags := job_Tags r; job_CreatedAt := job_CreatedAt r; job_UpdatedAt := job_UpdatedAt r;
     job_SourceName := job_SourceName r; job_SourceKind := job_SourceKind r; job_DestinationNames
     := job_DestinationNames r; job_LastRun := job_LastRun r; job_NextRunAt := job_NextRunAt r;
     job_Overdue := job_Overdue r; job_ArtifactCount := job_ArtifactCount r; job_TotalBytes :=
     job_TotalBytes r |}.
Definition set_job_Enabled (v : bool) (r : Job) : Job :=
  {| job_ID := job_ID r; job_Slug := job_Slug r; job_Name := job_Name r; job_Description :=
     job_Description r; job_SourceID := job_SourceID r; job_DestinationIDs := job_DestinationIDs
     r; job_Schedule := job_Schedule r; job_Timezone := job_Timezone r; job_Enabled := v;
     job_Compression := job_Compression r; job_CompressionLevel := job_CompressionLevel r;
     job_Encryption := job_Encryption r; job_EncryptionPassphrase := job_EncryptionPassphrase r;
     job_Retention := job_Retention r; job_NotificationChannelIDs := job_NotificationChannelIDs r;
     job_NotifyOn := job_NotifyOn r; job_TimeoutMinutes := job_TimeoutMinutes r; job_Retries :=
     job_Retries r; job_RetryDelaySeconds := job_RetryDelaySeconds r; job_PreCommand :=
     job_PreCommand r; job_PostCommand := job_PostCommand r; job_VerifyAfterUpload :=
     job_VerifyAfterUpload r; job_ExpectedIntervalMinutes := job_ExpectedIntervalMinutes r;
     job_Tags := job_Tags r; job_CreatedAt := job_CreatedAt r; job_UpdatedAt := job_UpdatedAt r;
     job_SourceName := job_SourceName r; job_SourceKind := job_SourceKind r; job_DestinationNames
     := job_DestinationNames r; job_LastRun := job_LastRun r; job_NextRunAt := job_NextRunAt r;
     job_Overdue := job_Overdue r; job_ArtifactCount := job_ArtifactCount r; job_TotalBytes :=
     job_TotalBytes r |}.
Definition set_job_CreatedAt (v : Time) (r : Job) : Job :=
  {| job_ID := job_ID r; job_Slug := job_Slug r; job_Name := job_Name r; job_Description :=
     job_Description r; job_SourceID := job_SourceID r; job_DestinationIDs := job_DestinationIDs
     r; job_Schedule := job_Schedule r; job_Timezone := job_Timezone r; job_Enabled := job_Enabled
     r; job_Compression := job_Compression r; job_CompressionLevel := job_CompressionLevel r;
     job_Encryption := job_Encryption r; job_EncryptionPassphrase := job_EncryptionPassphrase r;
     job_Retention := job_Retention r; job_NotificationChannelIDs := job_NotificationChannelIDs r;
     job_NotifyOn := job_NotifyOn r; job_TimeoutMinutes := job_TimeoutMinutes r; job_Retries :=
     job_Retries r; job_RetryDelaySeconds := job_RetryDelaySeconds r; job_PreCommand :=
     job_PreCommand r; job_PostCommand := job_PostCommand r; job_VerifyAfterUpload :=
     job_VerifyAfterUpload r; job_ExpectedIntervalMinutes := job_ExpectedIntervalMinutes r;
     job_Tags := job_Tags r; job_CreatedAt := v; job_UpdatedAt := job_UpdatedAt r; job_SourceName
     := job_SourceName r; job_SourceKind := job_SourceKind r; job_DestinationNames :=
     job_DestinationNames r; job_LastRun := job_LastRun r; job_NextRunAt := job_NextRunAt r;
     job_Overdue := job_Overdue r; job_ArtifactCount := job_ArtifactCount r; job_TotalBytes :=
     job_TotalBytes r |}.
Definition set_job_UpdatedAt (v : Time) (r : Job) : Job :=
  {| job_ID := job_ID r; job_Slug := job_Slug r; job_Name := job_Name r; job_Description :=
     job_Description r; job_SourceID := job_SourceID r; job_DestinationIDs := job_DestinationIDs
     r; job_Schedule := job_Schedule r; job_Timezone := job_Timezone r; job_Enabled := job_Enabled
     r; job_Compression := job_Compression r; job_CompressionLevel := job_CompressionLevel r;
     job_Encryption := job_Encryption r; job_EncryptionPassphrase := job_EncryptionPassphrase r;
     job_Retention := job_Retention r; job_NotificationChannelIDs := job_NotificationChannelIDs r;
     job_NotifyOn := job_NotifyOn r; job_TimeoutMinutes := job_TimeoutMinutes r; job_Retries :=
     job_Retries r; job_RetryDelaySeconds := job_RetryDelaySeconds r; job_PreCommand :=
     job_PreCommand r; job_PostCommand := job_PostCommand r; job_VerifyAfterUpload :=
     job_VerifyAfterUpload r; job_ExpectedIntervalMinutes := job_ExpectedIntervalMinutes r;
     job_Tags := job_Tags r; job_CreatedAt := job_CreatedAt r; job_UpdatedAt := v; job_SourceName
     := job_SourceName r; job_SourceKind := job_SourceKind r; job_DestinationNames :=
     job_DestinationNames r; job_LastRun := job_LastRun r; job_NextRunAt := job_NextRunAt r;
     job_Overdue := job_Overdue r; job_ArtifactCount := job_ArtifactCount r; job_TotalBytes :=
     job_TotalBytes r |}.
Definition set_job_SourceName (v : string) (r : Job) : Job :=
  {| job_ID := job_ID r; job_Slug := job_Slug r; job_Name := job_Name r; job_Description :=
     job_Description r; job_SourceID := job_SourceID r; job_DestinationIDs := job_DestinationIDs
     r; job_Schedule := job_Schedule r; job_Timezone := job_Timezone r; job_Enabled := job_Enabled
     r; job_Compression := job_Compression r; job_CompressionLevel := job_CompressionLevel r;
     job_Encryption := job_Encryption r; job_EncryptionPassphrase := job_EncryptionPassphrase r;
     job_Retention := job_Retention r; job_NotificationChannelIDs := job_NotificationChannelIDs r;
     job_NotifyOn := job_NotifyOn r; job_TimeoutMinutes := job_TimeoutMinutes r; job_Retries :=
     job_Retries r; job_RetryDelaySeconds := job_RetryDelaySeconds r; job_PreCommand :=
     job_PreCommand r; job_PostCommand := job_PostCommand r; job_VerifyAfterUpload :=
     job_VerifyAfterUpload r; job_ExpectedIntervalMinutes := job_ExpectedIntervalMinutes r;
     job_Tags := job_Tags r; job_CreatedAt := job_CreatedAt r; job_UpdatedAt := job_UpdatedAt r;
     job_SourceName := v; job_SourceKind := job_SourceKind r; job_DestinationNames :=
     job_DestinationNames r; job_LastRun := job_LastRun r; job_NextRunAt := job_NextRunAt r;
     job_Overdue := job_Overdue r; job_ArtifactCount := job_ArtifactCount r; job_TotalBytes :=
     job_TotalBytes r |}.
Definition set_job_SourceKind (v : string) (r : Job) : Job :=
  {| job_ID := job_ID r; job_Slug := job_Slug r; job_Name := job_Name r; job_Description :=
     job_Description r; job_SourceID := job_SourceID r; job_DestinationIDs := job_DestinationIDs
     r; job_Schedule := job_Schedule r; job_Timezone := job_Timezone r; job_Enabled := job_Enabled
     r; job_Compression := job_Compression r; job_CompressionLevel := job_CompressionLevel r;
     job_Encryption := job_Encryption r; job_EncryptionPassphrase := job_EncryptionPassphrase r;
     job_Retention := job_Retention r; job_NotificationChannelIDs := job_NotificationChannelIDs r;
     job_NotifyOn := job_NotifyOn r; job_TimeoutMinutes := job_TimeoutMinutes r; job_Retries :=
     job_Retries r; job_RetryDelaySeconds := job_RetryDelaySeconds r; job_PreCommand :=
     job_PreCommand r; job_PostCommand := job_PostCommand r; job_VerifyAfterUpload :=
     job_VerifyAfterUpload r; job_ExpectedIntervalMinutes := job_ExpectedIntervalMinutes r;
     job_Tags := job_Tags r; job_CreatedAt := job_CreatedAt r; job_UpdatedAt := job_UpdatedAt r;
     job_SourceName := job_SourceName r; job_SourceKind := v; job_DestinationNames :=
     job_DestinationNames r; job_LastRun := job_LastRun r; job_NextRunAt := job_NextRunAt r;
     job_Overdue := job_Overdue r; job_ArtifactCount := job_ArtifactCount r; job_TotalBytes :=
     job_TotalBytes r |}.
Definition set_job_DestinationNames (v : list string) (r : Job) : Job :=
  {| job_ID := job_ID r; job_Slug := job_Slug r; job_Name := job_Name r; job_Description :=
     job_Description r; job_SourceID := job_SourceID r; job_DestinationIDs := job_DestinationIDs
     r; job_Schedule := job_Schedule r; job_Timezone := job_Timezone r; job_Enabled := job_Enabled
     r; job_Compression := job_Compression r; job_CompressionLevel := job_CompressionLevel r;
     job_Encryption := job_Encryption r; job_EncryptionPassphrase := job_EncryptionPassphrase r;
     job_Retention := job_Retention r; job_NotificationChannelIDs := job_NotificationChannelIDs r;
     job_NotifyOn := job_NotifyOn r; job_TimeoutMinutes := job_TimeoutMinutes r; job_Retries :=
     job_Retries r; job_RetryDelaySeconds := job_RetryDelaySeconds r; job_PreCommand :=
     job_PreCommand r; job_PostCommand := job_PostCommand r; job_VerifyAfterUpload :=
     job_VerifyAfterUpload r; job_ExpectedIntervalMinutes := job_ExpectedIntervalMinutes r;
     job_Tags := job_Tags r; job_CreatedAt := job_CreatedAt r; job_UpdatedAt := job_UpdatedAt r;
     job_SourceName := job_SourceName r; job_SourceKind := job_SourceKind r; job_DestinationNames
     := v; job_LastRun := job_LastRun r; job_NextRunAt := job_NextRunAt r; job_Overdue :=
     job_Overdue r; job_ArtifactCount := job_ArtifactCount r; job_TotalBytes := job_TotalBytes r |}.
Definition set_job_LastRun (v : option RunSummary) (r : Job) : Job :=
  {| job_ID := job_ID r; job_Slug := job_Slug r; job_Name := job_Name r; job_Description :=
     job_Description r; job_SourceID := job_SourceID r; job_DestinationIDs := job_DestinationIDs
     r; job_Schedule := job_Schedule r; job_Timezone := job_Timezone r; job_Enabled := job_Enabled
     r; job_Compression := job_Compression r; job_CompressionLevel := job_CompressionLevel r;
     job_Encryption := job_Encryption r; job_EncryptionPassphrase := job_EncryptionPassphrase r;
     job_Retention := job_Retention r; job_NotificationChannelIDs := job_NotificationChannelIDs r;
     job_NotifyOn := job_NotifyOn r; job_TimeoutMinutes := job_TimeoutMinutes r; job_Retries :=
     job_Retries r; job_RetryDelaySeconds := job_RetryDelaySeconds r; job_PreCommand :=
     job_PreCommand r; job_PostCommand := job_PostCommand r; job_VerifyAfterUpload :=
     job_VerifyAfterUpload r; job_ExpectedIntervalMinutes := job_ExpectedIntervalMinutes r;
     job_Tags := job_Tags r; job_CreatedAt := job_CreatedAt r; job_UpdatedAt := job_UpdatedAt r;
     job_SourceName := job_SourceName r; job_SourceKind := job_SourceKind r; job_DestinationNames
     := job_DestinationNames r; job_LastRun := v; job_NextRunAt := job_NextRunAt r; job_Overdue :=
     job_Overdue r; job_ArtifactCount := job_ArtifactCount r; job_TotalBytes := job_TotalBytes r |}.
Definition set_job_NextRunAt (v : option Time) (r : Job) : Job :=
  {| job_ID := job_ID r; job_Slug := job_Slug r; job_Name := job_Name r; job_Description :=
     job_Description r; job_SourceID := job_SourceID r; job_DestinationIDs := job_DestinationIDs
     r; job_Schedule := job_Schedule r; job_Timezone := job_Timezone r; job_Enabled := job_Enabled
     r; job_Compression := job_Compression r; job_CompressionLevel := job_CompressionLevel r;
     job_Encryption := job_Encryption r; job_EncryptionPassphrase := job_EncryptionPassphrase r;
     job_Retention := job_Retention r; job_NotificationChannelIDs := job_NotificationChannelIDs r;
     job_NotifyOn := job_NotifyOn r; job_TimeoutMinutes := job_TimeoutMinutes r; job_Retries :=
     job_Retries r; job_RetryDelaySeconds := job_RetryDelaySeconds r; job_PreCommand :=
     job_PreCommand r; job_PostCommand := job_PostCommand r; job_VerifyAfterUpload :=
     job_VerifyAfterUpload r; job_ExpectedIntervalMinutes := job_ExpectedIntervalMinutes r;
     job_Tags := job_Tags r; job_CreatedAt := job_CreatedAt r; job_UpdatedAt := job_UpdatedAt r;
     job_SourceName := job_SourceName r; job_SourceKind := job_SourceKind r; job_DestinationNames
     := job_DestinationNames r; job_LastRun := job_LastRun r; job_NextRunAt := v; job_Overdue :=
     job_Overdue r; job_ArtifactCount := job_ArtifactCount r; job_TotalBytes := job_TotalBytes r |}.
Definition set_job_Overdue (v : bool) (r : Job) : Job :=
  {| job_ID := job_ID r; job_Slug := job_Slug r; job_Name := job_Name r; job_Description :=
     job_Description r; job_SourceID := job_SourceID r; job_DestinationIDs := job_DestinationIDs
     r; job_Schedule := job_Schedule r; job_Timezone := job_Timezone r; job_Enabled := job_Enabled
     r; job_Compression := job_Compression r; job_CompressionLevel := job_CompressionLevel r;
     job_Encryption := job_Encryption r; job_EncryptionPassphrase := job_EncryptionPassphrase r;
     job_Retention := job_Retention r; job_NotificationChannelIDs := job_NotificationChannelIDs r;
     job_NotifyOn := job_NotifyOn r; job_TimeoutMinutes := job_TimeoutMinutes r; job_Retries :=
     job_Retries r; job_RetryDelaySeconds := job_RetryDelaySeconds r; job_PreCommand :=
     job_PreCommand r; job_PostCommand := job_PostCommand r; job_VerifyAfterUpload :=
     job_VerifyAfterUpload r; job_ExpectedIntervalMinutes := job_ExpectedIntervalMinutes r;
     job_Tags := job_Tags r; job_CreatedAt := job_CreatedAt r; job_UpdatedAt := job_UpdatedAt r;
     job_SourceName := job_SourceName r; job_SourceKind := job_SourceKind r; job_DestinationNames
     := job_DestinationNames r; job_LastRun := job_LastRun r; job_NextRunAt := job_NextRunAt r;
     job_Overdue := v; job_ArtifactCount := job_ArtifactCount r; job_TotalBytes := job_TotalBytes
     r |}.
Definition set_job_ArtifactCount (v : Z) (r : Job) : Job :=
  {| job_ID := job_ID r; job_Slug := job_Slug r; job_Name := job_Name r; job_Description :=
     job_Description r; job_SourceID := job_SourceID r; job_DestinationIDs := job_DestinationIDs
     r; job_Schedule := job_Schedule r; job_Timezone := job_Timezone r; job_Enabled := job_Enabled
     r; job_Compression := job_Compression r; job_CompressionLevel := job_CompressionLevel r;
     job_Encryption := job_Encryption r; job_EncryptionPassphrase := job_EncryptionPassphrase r;
     job_Retention := job_Retention r; job_NotificationChannelIDs := job_NotificationChannelIDs r;
     job_NotifyOn := job_NotifyOn r; job_TimeoutMinutes := job_TimeoutMinutes r; job_Retries :=
     job_Retries r; job_RetryDelaySeconds := job_RetryDelaySeconds r; job_PreCommand :=
     job_PreCommand r; job_PostCommand := job_PostCommand r; job_VerifyAfterUpload :=
     job_VerifyAfterUpload r; job_ExpectedIntervalMinutes := job_ExpectedIntervalMinutes r;
     job_Tags := job_Tags r; job_CreatedAt := job_CreatedAt r; job_UpdatedAt := job_UpdatedAt r;
     job_SourceName := job_SourceName r; job_SourceKind := job_SourceKind r; job_DestinationNames
     := job_DestinationNames r; job_LastRun := job_LastRun r; job_NextRunAt := job_NextRunAt r;
     job_Overdue := job_Overdue r; job_ArtifactCount := v; job_TotalBytes := job_TotalBytes r |}.
Definition set_job_TotalBytes (v : Z) (r : Job) : Job :=
  {| job_ID := job_ID r; job_Slug := job_Slug r; job_Name := job_Name r; job_Description :=
     job_Description r; job_SourceID := job_SourceID r; job_DestinationIDs := job_DestinationIDs
     r; job_Schedule := job_Schedule r; job_Timezone := job_Timezone r; job_Enabled := job_Enabled
     r; job_Compression := job_Compression r; job_CompressionLevel := job_CompressionLevel r;
     job_Encryption := job_Encryption r; job_EncryptionPassphrase := job_EncryptionPassphrase r;
     job_Retention := job_Retention r; job_NotificationChannelIDs := job_NotificationChannelIDs r;
     job_NotifyOn := job_NotifyOn r; job_TimeoutMinutes := job_TimeoutMinutes r; job_Retries :=
     job_Retries r; job_RetryDelaySeconds := job_RetryDelaySeconds r; job_PreCommand :=
     job_PreCommand r; job_PostCommand := job_PostCommand r; job_VerifyAfterUpload :=
     job_VerifyAfterUpload r; job_ExpectedIntervalMinutes := job_ExpectedIntervalMinutes r;
     job_Tags := job_Tags r; job_CreatedAt := job_CreatedAt r; job_UpdatedAt := job_UpdatedAt r;
     job_SourceName := job_SourceName r; job_SourceKind := job_SourceKind r; job_DestinationNames
     := job_DestinationNames r; job_LastRun := job_LastRun r; job_NextRunAt := job_NextRunAt r;
     job_Overdue := job_Overdue r; job_ArtifactCount := job_ArtifactCount r; job_TotalBytes := v |}.

(** ** Stage *)
Definition set_stage_Status (v : StageStatus) (r : Stage) : Stage :=
  {| stage_Name := stage_Name r; stage_Status := v; stage_StartedAt := stage_StartedAt r;
     stage_FinishedAt := stage_FinishedAt r; stage_Message := stage_Message r |}.
Definition set_stage_FinishedAt (v : option Time) (r : Stage) : Stage :=
  {| stage_Name := stage_Name r; stage_Status := stage_Status r; stage_StartedAt :=
     stage_StartedAt r; stage_FinishedAt := v; stage_Message := stage_Message r |}.
Definition set_stage_Message (v : string) (r : Stage) : Stage :=
  {| stage_Name := stage_Name r; stage_Status := stage_Status r; stage_StartedAt :=
     stage_StartedAt r; stage_FinishedAt := stage_FinishedAt r; stage_Message := v |}.

(** ** Run *)
Definition set_run_ID (v : string) (r : Run) : Run :=
  {| run_ID := v; run_JobID := run_JobID r; run_JobSlug := run_JobSlug r; run_JobName :=
     run_JobName r; run_Kind := run_Kind r; run_Trigger := run_Trigger r; run_Status := run_Status
     r; run_QueuedAt := run_QueuedAt r; run_StartedAt := run_StartedAt r; run_FinishedAt :=
     run_FinishedAt r; run_DurationMS := run_DurationMS r; run_Bytes := run_Bytes r; run_RawBytes
     := run_RawBytes r; run_SHA256 := run_SHA256 r; run_Filename := run_Filename r; run_Error :=
     run_Error r; run_Stages := run_Stages r; run_ArtifactIDs := run_ArtifactIDs r; run_Attempt :=
     run_Attempt r; run_Meta := run_Meta r; run_CreatedBy := run_CreatedBy r |}.
Definition set_run_JobID (v : string) (r : Run) : Run :=
  {| run_ID := run_ID r; run_JobID := v; run_JobSlug := run_JobSlug r; run_JobName := run_JobName
     r; run_Kind := run_Kind r; run_Trigger := run_Trigger r; run_Status := run_Status r;
     run_QueuedAt := run_QueuedAt r; run_StartedAt := run_StartedAt r; run_FinishedAt :=
     run_FinishedAt r; run_DurationMS := run_DurationMS r; run_Bytes := run_Bytes r; run_RawBytes
     := run_RawBytes r; run_SHA256 := run_SHA256 r; run_Filename := run_Filename r; run_Error :=
     run_Error r; run_Stages := run_Stages r; run_ArtifactIDs := run_ArtifactIDs r; run_Attempt :=
     run_Attempt r; run_Meta := run_Meta r; run_CreatedBy := run_CreatedBy r |}.
Definition set_run_JobSlug (v : string) (r : Run) : Run :=
  {| run_ID := run_ID r; run_JobID := run_JobID r; run_JobSlug := v; run_JobName := run_JobName r;
     run_Kind := run_Kind r; run_Trigger := run_Trigger r; run_Status := run_Status r;
     run_QueuedAt := run_QueuedAt r; run_StartedAt := run_StartedAt r; run_FinishedAt :=
     run_FinishedAt r; run_DurationMS := run_DurationMS r; run_Bytes := run_Bytes r; run_RawBytes
     := run_RawBytes r; run_SHA256 := run_SHA256 r; run_Filename := run_Filename r; run_Error :=
     run_Error r; run_Stages := run_Stages r; run_ArtifactIDs := run_ArtifactIDs r; run_Attempt :=
     run_Attempt r; run_Meta := run_Meta r; run_CreatedBy := run_CreatedBy r |}.
Definition set_run_JobName (v : string) (r : Run) : Run :=
  {| run_ID := run_ID r; run_JobID := run_JobID r; run_JobSlug := run_JobSlug r; run_JobName := v;
     run_Kind := run_Kind r; run_Trigger := run_Trigger r; run_Status := run_Status r;
     run_QueuedAt := run_QueuedAt r; run_StartedAt := run_StartedAt r; run_FinishedAt :=
     run_FinishedAt r; run_DurationMS := run_DurationMS r; run_Bytes := run_Bytes r; run_RawBytes
     := run_RawBytes r; run_SHA256 := run_SHA256 r; run_Filename := run_Filename r; run_Error :=
     run_Error r; run_Stages := run_Stages r; run_ArtifactIDs := run_ArtifactIDs r; run_Attempt :=
     run_Attempt r; run_Meta := run_Meta r; run_CreatedBy := run_CreatedBy r |}.
Definition set_run_Kind (v : RunKind) (r : Run) : Run :=
  {| run_ID := run_ID r; run_JobID := run_JobID r; run_JobSlug := run_JobSlug r; run_JobName :=
     run_JobName r; run_Kind := v; run_Trigger := run_Trigger r; run_Status := run_Status r;
     run_QueuedAt := run_QueuedAt r; run_StartedAt := run_StartedAt r; run_FinishedAt :=
     run_FinishedAt r; run_DurationMS := run_DurationMS r; run_Bytes := run_Bytes r; run_RawBytes
     := run_RawBytes r; run_SHA256 := run_SHA256 r; run_Filename := run_Filename r; run_Error :=
     run_Error r; run_Stages := run_Stages r; run_ArtifactIDs := run_ArtifactIDs r; run_Attempt :=
     run_Attempt r; run_Meta := run_Meta r; run_CreatedBy := run_CreatedBy r |}.
Definition set_run_Trigger (v : RunTrigger) (r : Run) : Run :=
  {| run_ID := run_ID r; run_JobID := run_JobID r; run_JobSlug := run_JobSlug r; run_JobName :=
     run_JobName r; run_Kind := run_Kind r; run_Trigger := v; run_Status := run_Status r;
     run_QueuedAt := run_QueuedAt r; run_StartedAt := run_StartedAt r; run_FinishedAt :=
     run_FinishedAt r; run_DurationMS := run_DurationMS r; run_Bytes := run_Bytes r; run_RawBytes
     := run_RawBytes r; run_SHA256 := run_SHA256 r; run_Filename := run_Filename r; run_Error :=
     run_Error r; run_Stages := run_Stages r; run_ArtifactIDs := run_ArtifactIDs r; run_Attempt :=
     run_Attempt r; run_Meta := run_Meta r; run_CreatedBy := run_CreatedBy r |}.
Definition set_run_Status (v : RunStatus) (r : Run) : Run :=
  {| run_ID := run_ID r; run_JobID := run_JobID r; run_JobSlug := run_JobSlug r; run_JobName :=
     run_JobName r; run_Kind := run_Kind r; run_Trigger := run_Trigger r; run_Status := v;
     run_QueuedAt := run_QueuedAt r; run_StartedAt := run_StartedAt r; run_FinishedAt :=
     run_FinishedAt r; run_DurationMS := run_DurationMS r; run_Bytes := run_Bytes r; run_RawBytes
     := run_RawBytes r; run_SHA256 := run_SHA256 r; run_Filename := run_Filename r; run_Error :=
     run_Error r; run_Stages := run_Stages r; run_ArtifactIDs := run_ArtifactIDs r; run_Attempt :=
     run_Attempt r; run_Meta := run_Meta r; run_CreatedBy := run_CreatedBy r |}.
Definition set_run_QueuedAt (v : Time) (r : Run) : Run :=
  {| run_ID := run_ID r; run_JobID := run_JobID r; run_JobSlug := run_JobSlug r; run_JobName :=
     run_JobName r; run_Kind := run_Kind r; run_Trigger := run_Trigger r; run_Status := run_Status
     r; run_QueuedAt := v; run_StartedAt := run_StartedAt r; run_FinishedAt := run_FinishedAt r;
     run_DurationMS := run_DurationMS r; run_Bytes := run_Bytes r; run_RawBytes := run_RawBytes r;
     run_SHA256 := run_SHA256 r; run_Filename := run_Filename r; run_Error := run_Error r;
     run_Stages := run_Stages r; run_ArtifactIDs := run_ArtifactIDs r; run_Attempt := run_Attempt
     r; run_Meta := run_Meta r; run_CreatedBy := run_CreatedBy r |}.
Definition set_run_StartedAt (v : option Time) (r : Run) : Run :=
  {| run_ID := run_ID r; run_JobID := run_JobID r; run_JobSlug := run_JobSlug r; run_JobName :=
     run_JobName r; run_Kind := run_Kind r; run_Trigger := run_Trigger r; run_Status := run_Status
     r; run_QueuedAt := run_QueuedAt r; run_StartedAt := v; run_FinishedAt := run_FinishedAt r;
     run_DurationMS := run_DurationMS r; run_Bytes := run_Bytes r; run_RawBytes := run_RawBytes r;
     run_SHA256 := run_SHA256 r; run_Filename := run_Filename r; run_Error := run_Error r;
     run_Stages := run_Stages r; run_ArtifactIDs := run_ArtifactIDs r; run_Attempt := run_Attempt
     r; run_Meta := run_Meta r; run_CreatedBy := run_CreatedBy r |}.
Definition set_run_FinishedAt (v : option Time) (r : Run) : Run :=
  {| run_ID := run_ID r; run_JobID := run_JobID r; run_JobSlug := run_JobSlug r; run_JobName :=
     run_JobName r; run_Kind := run_Kind r; run_Trigger := run_Trigger r; run_Status := run_Status
     r; run_QueuedAt := run_QueuedAt r; run_StartedAt := run_StartedAt r; run_FinishedAt := v;
     run_DurationMS := run_DurationMS r; run_Bytes := run_Bytes r; run_RawBytes := run_RawBytes r;
     run_SHA256 := run_SHA256 r; run_Filename := run_Filename r; run_Error := run_Error r;
     run_Stages := run_Stages r; run_ArtifactIDs := run_ArtifactIDs r; run_Attempt := run_Attempt
     r; run_Meta := run_Meta r; run_CreatedBy := run_CreatedBy r |}.
Definition set_run_DurationMS (v : Z) (r : Run) : Run :=
  {| run_ID := run_ID r; run_JobID := run_JobID r; run_JobSlug := run_JobSlug r; run_JobName :=
     run_JobName r; run_Kind := run_Kind r; run_Trigger := run_Trigger r; run_Status := run_Status
     r; run_QueuedAt := run_QueuedAt r; run_StartedAt := run_StartedAt r; run_FinishedAt :=
     run_FinishedAt r; run_DurationMS := v; run_Bytes := run_Bytes r; run_RawBytes := run_RawBytes
     r; run_SHA256 := run_SHA256 r; run_Filename := run_Filename r; run_Error := run_Error r;
     run_Stages := run_Stages r; run_ArtifactIDs := run_ArtifactIDs r; run_Attempt := run_Attempt
     r; run_Meta := run_Meta r; run_CreatedBy := run_CreatedBy r |}.
Definition set_run_Bytes (v : Z) (r : Run) : Run :=
  {| run_ID := run_ID r; run_JobID := run_JobID r; run_JobSlug := run_JobSlug r; run_JobName :=
     run_JobName r; run_Kind := run_Kind r; run_Trigger := run_Trigger r; run_Status := run_Status
     r; run_QueuedAt := run_QueuedAt r; run_StartedAt := run_StartedAt r; run_FinishedAt :=
     run_FinishedAt r; run_DurationMS := run_DurationMS r; run_Bytes := v; run_RawBytes :=
     run_RawBytes r; run_SHA256 := run_SHA256 r; run_Filename := run_Filename r; run_Error :=
     run_Error r; run_Stages := run_Stages r; run_ArtifactIDs := run_ArtifactIDs r; run_Attempt :=
     run_Attempt r; run_Meta := run_Meta r; run_CreatedBy := run_CreatedBy r |}.
Definition set_run_RawBytes (v : Z) (r : Run) : Run :=
  {| run_ID := run_ID r; run_JobID := run_JobID r; run_JobSlug := run_JobSlug r; run_JobName :=
     run_JobName r; run_Kind := run_Kind r; run_Trigger := run_Trigger r; run_Status := run_Status
     r; run_QueuedAt := run_QueuedAt r; run_StartedAt := run_StartedAt r; run_FinishedAt :=
     run_FinishedAt r; run_DurationMS := run_DurationMS r; run_Bytes := run_Bytes r; run_RawBytes
     := v; run_SHA256 := run_SHA256 r; run_Filename := run_Filename r; run_Error := run_Error r;
     run_Stages := run_Stages r; run_ArtifactIDs := run_ArtifactIDs r; run_Attempt := run_Attempt
     r; run_Meta := run_Meta r; run_CreatedBy := run_CreatedBy r |}.
Definition set_run_SHA256 (v : string) (r : Run) : Run :=
  {| run_ID := run_ID r; run_JobID := run_JobID r; run_JobSlug := run_JobSlug r; run_JobName :=
     run_JobName r; run_Kind := run_Kind r; run_Trigger := run_Trigger r; run_Status := run_Status
     r; run_QueuedAt := run_QueuedAt r; run_StartedAt := run_StartedAt r; run_FinishedAt :=
     run_FinishedAt r; run_DurationMS := run_DurationMS r; run_Bytes := run_Bytes r; run_RawBytes
     := run_RawBytes r; run_SHA256 := v; run_Filename := run_Filename r; run_Error := run_Error r;
     run_Stages := run_Stages r; run_ArtifactIDs := run_ArtifactIDs r; run_Attempt := run_Attempt
     r; run_Meta := run_Meta r; run_CreatedBy := run_CreatedBy r |}.
Definition set_run_Filename (v : string) (r : Run) : Run :=
  {| run_ID := run_ID r; run_JobID := run_JobID r; run_JobSlug := run_JobSlug r; run_JobName :=
     run_JobName r; run_Kind := run_Kind r; run_Trigger := run_Trigger r; run_Status := run_Status
     r; run_QueuedAt := run_QueuedAt r; run_StartedAt := run_StartedAt r; run_FinishedAt :=
     run_FinishedAt r; run_DurationMS := run_DurationMS r; run_Bytes := run_Bytes r; run_RawBytes
     := run_RawBytes r; run_SHA256 := run_SHA256 r; run_Filename := v; run_Error := run_Error r;
     run_Stages := run_Stages r; run_ArtifactIDs := run_ArtifactIDs r; run_Attempt := run_Attempt
     r; run_Meta := run_Meta r; run_CreatedBy := run_CreatedBy r |}.
Definition set_run_Error (v : string) (r : Run) : Run :=
  {| run_ID := run_ID r; run_JobID := run_JobID r; run_JobSlug := run_JobSlug r; run_JobName :=
     run_JobName r; run_Kind := run_Kind r; run_Trigger := run_Trigger r; run_Status := run_Status
     r; run_QueuedAt := run_QueuedAt r; run_StartedAt := run_StartedAt r; run_FinishedAt :=
     run_FinishedAt r; run_DurationMS := run_DurationMS r; run_Bytes := run_Bytes r; run_RawBytes
     := run_RawBytes r; run_SHA256 := run_SHA256 r; run_Filename := run_Filename r; run_Error :=
     v; run_Stages := run_Stages r; run_ArtifactIDs := run_ArtifactIDs r; run_Attempt :=
     run_Attempt r; run_Meta := run_Meta r; run_CreatedBy := run_CreatedBy r |}.
Definition set_run_Stages (v : list Stage) (r : Run) : Run :=
  {| run_ID := run_ID r; run_JobID := run_JobID r; run_JobSlug := run_JobSlug r; run_JobName :=
     run_JobName r; run_Kind := run_Kind r; run_Trigger := run_Trigger r; run_Status := run_Status
     r; run_QueuedAt := run_QueuedAt r; run_StartedAt := run_StartedAt r; run_FinishedAt :=
     run_FinishedAt r; run_DurationMS := run_DurationMS r; run_Bytes := run_Bytes r; run_RawBytes
     := run_RawBytes r; run_SHA256 := run_SHA256 r; run_Filename := run_Filename r; run_Error :=
     run_Error r; run_Stages := v; run_ArtifactIDs := run_ArtifactIDs r; run_Attempt :=
     run_Attempt r; run_Meta := run_Meta r; run_CreatedBy := run_CreatedBy r |}.
Definition set_run_ArtifactIDs (v : list string) (r : Run) : Run :=
  {| run_ID := run_ID r; run_JobID := run_JobID r; run_JobSlug := run_JobSlug r; run_JobName :=
     run_JobName r; run_Kind := run_Kind r; run_Trigger := run_Trigger r; run_Status := run_Status
     r; run_QueuedAt := run_QueuedAt r; run_StartedAt := run_StartedAt r; run_FinishedAt :=
     run_FinishedAt r; run_DurationMS := run_DurationMS r; run_Bytes := run_Bytes r; run_RawBytes
     := run_RawBytes r; run_SHA256 := run_SHA256 r; run_Filename := run_Filename r; run_Error :=
     run_Error r; run_Stages := run_Stages r; run_ArtifactIDs := v; run_Attempt := run_Attempt r;
     run_Meta := run_Meta r; run_CreatedBy := run_CreatedBy r |}.
Definition set_run_Attempt (v : Z) (r : Run) : Run :=
  {| run_ID := run_ID r; run_JobID := run_JobID r; run_JobSlug := run_JobSlug r; run_JobName :=
     run_JobName r; run_Kind := run_Kind r; run_Trigger := run_Trigger r; run_Status := run_Status
     r; run_QueuedAt := run_QueuedAt r; run_StartedAt := run_StartedAt r; run_FinishedAt :=
     run_FinishedAt r; run_DurationMS := run_DurationMS r; run_Bytes := run_Bytes r; run_RawBytes
     := run_RawBytes r; run_SHA256 := run_SHA256 r; run_Filename := run_Filename r; run_Error :=
     run_Error r; run_Stages := run_Stages r; run_ArtifactIDs := run_ArtifactIDs r; run_Attempt :=
     v; run_Meta := run_Meta r; run_CreatedBy := run_CreatedBy r |}.
Definition set_run_Meta (v : gmap string string) (r : Run) : Run :=
  {| run_ID := run_ID r; run_JobID := run_JobID r; run_JobSlug := run_JobSlug r; run_JobName :=
     run_JobName r; run_Kind := run_Kind r; run_Trigger := run_Trigger r; run_Status := run_Status
     r; run_QueuedAt := run_QueuedAt r; run_StartedAt := run_StartedAt r; run_FinishedAt :=
     run_FinishedAt r; run_DurationMS := run_DurationMS r; run_Bytes := run_Bytes r; run_RawBytes
     := run_RawBytes r; run_SHA256 := run_SHA256 r; run_Filename := run_Filename r; run_Error :=
     run_Error r; run_Stages := run_Stages r; run_ArtifactIDs := run_ArtifactIDs r; run_Attempt :=
     run_Attempt r; run_Meta := v; run_CreatedBy := run_CreatedBy r |}.
Definition set_run_CreatedBy (v : string) (r : Run) : Run :=
  {| run_ID := run_ID r; run_JobID := run_JobID r; run_JobSlug := run_JobSlug r; run_JobName :=
     run_JobName r; run_Kind := run_Kind r; run_Trigger := run_Trigger r; run_Status := run_Status
     r; run_QueuedAt := run_QueuedAt r; run_StartedAt := run_StartedAt r; run_FinishedAt :=
     run_FinishedAt r; run_DurationMS := run_DurationMS r; run_Bytes := run_Bytes r; run_RawBytes
     := run_RawBytes r; run_SHA256 := run_SHA256 r; run_Filename := run_Filename r; run_Error :=
     run_Error r; run_Stages := run_Stages r; run_ArtifactIDs := run_ArtifactIDs r; run_Attempt :=
     run_Attempt r; run_Meta := run_Meta r; run_CreatedBy := v |}.

(** ** Artifact *)
Definition set_art_ID (v : string) (r : Artifact) : Artifact :=
  {| art_ID := v; art_JobID := art_JobID r; art_JobSlug := art_JobSlug r; art_JobName :=
     art_JobName r; art_RunID := art_RunID r; art_DestinationID := art_DestinationID r;
     art_DestinationName := art_DestinationName r; art_DestinationKind := art_DestinationKind r;
     art_Path := art_Path r; art_Filename := art_Filename r; art_Size := art_Size r; art_SHA256 :=
     art_SHA256 r; art_Compression := art_Compression r; art_Encryption := art_Encryption r;
     art_SourceKind := art_SourceKind r; art_Extension := art_Extension r; art_Status :=
     art_Status r; art_CreatedAt := art_CreatedAt r; art_VerifiedAt := art_VerifiedAt r;
     art_DeletedAt := art_DeletedAt r; art_Meta := art_Meta r |}.
Definition set_art_JobSlug (v : string) (r : Artifact) : Artifact :=
  {| art_ID := art_ID r; art_JobID := art_JobID r; art_JobSlug := v; art_JobName := art_JobName r;
     art_RunID := art_RunID r; art_DestinationID := art_DestinationID r; art_DestinationName :=
     art_DestinationName r; art_DestinationKind := art_DestinationKind r; art_Path := art_Path r;
     art_Filename := art_Filename r; art_Size := art_Size r; art_SHA256 := art_SHA256 r;
     art_Compression := art_Compression r; art_Encryption := art_Encryption r; art_SourceKind :=
     art_SourceKind r; art_Extension := art_Extension r; art_Status := art_Status r; art_CreatedAt
     := art_CreatedAt r; art_VerifiedAt := art_VerifiedAt r; art_DeletedAt := art_DeletedAt r;
     art_Meta := art_Meta r |}.
Definition set_art_JobName (v : string) (r : Artifact) : Artifact :=
  {| art_ID := art_ID r; art_JobID := art_JobID r; art_JobSlug := art_JobSlug r; art_JobName := v;
     art_RunID := art_RunID r; art_DestinationID := art_DestinationID r; art_DestinationName :=
     art_DestinationName r; art_DestinationKind := art_DestinationKind r; art_Path := art_Path r;
     art_Filename := art_Filename r; art_Size := art_Size r; art_SHA256 := art_SHA256 r;
     art_Compression := art_Compression r; art_Encryption := art_Encryption r; art_SourceKind :=
     art_SourceKind r; art_Extension := art_Extension r; art_Status := art_Status r; art_CreatedAt
     := art_CreatedAt r; art_VerifiedAt := art_VerifiedAt r; art_DeletedAt := art_DeletedAt r;
     art_Meta := art_Meta r |}.
Definition set_art_DestinationName (v : string) (r : Artifact) : Artifact :=
  {| art_ID := art_ID r; art_JobID := art_JobID r; art_JobSlug := art_JobSlug r; art_JobName :=
     art_JobName r; art_RunID := art_RunID r; art_DestinationID := art_DestinationID r;
     art_DestinationName := v; art_DestinationKind := art_DestinationKind r; art_Path := art_Path
     r; art_Filename := art_Filename r; art_Size := art_Size r; art_SHA256 := art_SHA256 r;
     art_Compression := art_Compression r; art_Encryption := art_Encryption r; art_SourceKind :=
     art_SourceKind r; art_Extension := art_Extension r; art_Status := art_Status r; art_CreatedAt
     := art_CreatedAt r; art_VerifiedAt := art_VerifiedAt r; art_DeletedAt := art_DeletedAt r;
     art_Meta := art_Meta r |}.
Definition set_art_DestinationKind (v : string) (r : Artifact) : Artifact :=
  {| art_ID := art_ID r; art_JobID := art_JobID r; art_JobSlug := art_JobSlug r; art_JobName :=
     art_JobName r; art_RunID := art_RunID r; art_DestinationID := art_DestinationID r;
     art_DestinationName := art_DestinationName r; art_DestinationKind := v; art_Path := art_Path
     r; art_Filename := art_Filename r; art_Size := art_Size r; art_SHA256 := art_SHA256 r;
     art_Compression := art_Compression r; art_Encryption := art_Encryption r; art_SourceKind :=
     art_SourceKind r; art_Extension := art_Extension r; art_Status := art_Status r; art_CreatedAt
     := art_CreatedAt r; art_VerifiedAt := art_VerifiedAt r; art_DeletedAt := art_DeletedAt r;
     art_Meta := art_Meta r |}.
Definition set_art_Status (v : ArtifactStatus) (r : Artifact) : Artifact :=
  {| art_ID := art_ID r; art_JobID := art_JobID r; art_JobSlug := art_JobSlug r; art_JobName :=
     art_JobName r; art_RunID := art_RunID r; art_DestinationID := art_DestinationID r;
     art_DestinationName := art_DestinationName r; art_DestinationKind := art_DestinationKind r;
     art_Path := art_Path r; art_Filename := art_Filename r; art_Size := art_Size r; art_SHA256 :=
     art_SHA256 r; art_Compression := art_Compression r; art_Encryption := art_Encryption r;
     art_SourceKind := art_SourceKind r; art_Extension := art_Extension r; art_Status := v;
     art_CreatedAt := art_CreatedAt r; art_VerifiedAt := art_VerifiedAt r; art_DeletedAt :=
     art_DeletedAt r; art_Meta := art_Meta r |}.
Definition set_art_CreatedAt (v : Time) (r : Artifact) : Artifact :=
  {| art_ID := art_ID r; art_JobID := art_JobID r; art_JobSlug := art_JobSlug r; art_JobName :=
     art_JobName r; art_RunID := art_RunID r; art_DestinationID := art_DestinationID r;
     art_DestinationName := art_DestinationName r; art_DestinationKind := art_DestinationKind r;
     art_Path := art_Path r; art_Filename := art_Filename r; art_Size := art_Size r; art_SHA256 :=
     art_SHA256 r; art_Compression := art_Compression r; art_Encryption := art_Encryption r;
     art_SourceKind := art_SourceKind r; art_Extension := art_Extension r; art_Status :=
     art_Status r; art_CreatedAt := v; art_VerifiedAt := art_VerifiedAt r; art_DeletedAt :=
     art_DeletedAt r; art_Meta := art_Meta r |}.
Definition set_art_VerifiedAt (v : option Time) (r : Artifact) : Artifact :=
  {| art_ID := art_ID r; art_JobID := art_JobID r; art_JobSlug := art_JobSlug r; art_JobName :=
     art_JobName r; art_RunID := art_RunID r; art_DestinationID := art_DestinationID r;
     art_DestinationName := art_DestinationName r; art_DestinationKind := art_DestinationKind r;
     art_Path := art_Path r; art_Filename := art_Filename r; art_Size := art_Size r; art_SHA256 :=
     art_SHA256 r; art_Compression := art_Compression r; art_Encryption := art_Encryption r;
     art_SourceKind := art_SourceKind r; art_Extension := art_Extension r; art_Status :=
     art_Status r; art_CreatedAt := art_CreatedAt r; art_VerifiedAt := v; art_DeletedAt :=
     art_DeletedAt r; art_Meta := art_Meta r |}.
Definition set_art_DeletedAt (v : option Time) (r : Artifact) : Artifact :=
  {| art_ID := art_ID r; art_JobID := art_JobID r; art_JobSlug := art_JobSlug r; art_JobName :=
     art_JobName r; art_RunID := art_RunID r; art_DestinationID := art_DestinationID r;
     art_DestinationName := art_DestinationName r; art_DestinationKind := art_DestinationKind r;
     art_Path := art_Path r; art_Filename := art_Filename r; art_Size := art_Size r; art_SHA256 :=
     art_SHA256 r; art_Compression := art_Compression r; art_Encryption := art_Encryption r;
     art_SourceKind := art_SourceKind r; art_Extension := art_Extension r; art_Status :=
     art_Status r; art_CreatedAt := art_CreatedAt r; art_VerifiedAt := art_VerifiedAt r;
     art_DeletedAt := v; art_Meta := art_Meta r |}.

(** ** Source *)
Definition set_src_ID (v : string) (r : Source) : Source :=
  {| src_ID := v; src_Name := src_Name r; src_Kind := src_Kind r; src_Description :=
     src_Description r; src_Config := src_Config r; src_HostID := src_HostID r; src_HostName :=
     src_HostName r; src_Tags := src_Tags r; src_CreatedAt := src_CreatedAt r; src_UpdatedAt :=
     src_UpdatedAt r; src_LastTestAt := src_LastTestAt r; src_LastTestOK := src_LastTestOK r;
     src_LastTestError := src_LastTestError r; src_JobCount := src_JobCount r |}.
Definition set_src_HostName (v : string) (r : Source) : Source :=
  {| src_ID := src_ID r; src_Name := src_Name r; src_Kind := src_Kind r; src_Description :=
     src_Description r; src_Config := src_Config r; src_HostID := src_HostID r; src_HostName := v;
     src_Tags := src_Tags r; src_CreatedAt := src_CreatedAt r; src_UpdatedAt := src_UpdatedAt r;
     src_LastTestAt := src_LastTestAt r; src_LastTestOK := src_LastTestOK r; src_LastTestError :=
     src_LastTestError r; src_JobCount := src_JobCount r |}.
Definition set_src_CreatedAt (v : Time) (r : Source) : Source :=
  {| src_ID := src_ID r; src_Name := src_Name r; src_Kind := src_Kind r; src_Description :=
     src_Description r; src_Config := src_Config r; src_HostID := src_HostID r; src_HostName :=
     src_HostName r; src_Tags := src_Tags r; src_CreatedAt := v; src_UpdatedAt := src_UpdatedAt r;
     src_LastTestAt := src_LastTestAt r; src_LastTestOK := src_LastTestOK r; src_LastTestError :=
     src_LastTestError r; src_JobCount := src_JobCount r |}.
Definition set_src_UpdatedAt (v : Time) (r : Source) : Source :=
  {| src_ID := src_ID r; src_Name := src_Name r; src_Kind := src_Kind r; src_Description :=
     src_Description r; src_Config := src_Config r; src_HostID := src_HostID r; src_HostName :=
     src_HostName r; src_Tags := src_Tags r; src_CreatedAt := src_CreatedAt r; src_UpdatedAt := v;
     src_LastTestAt := src_LastTestAt r; src_LastTestOK := src_LastTestOK r; src_LastTestError :=
     src_LastTestError r; src_JobCount := src_JobCount r |}.
Definition set_src_LastTestAt (v : option Time) (r : Source) : Source :=
  {| src_ID := src_ID r; src_Name := src_Name r; src_Kind := src_Kind r; src_Description :=
     src_Description r; src_Config := src_Config r; src_HostID := src_HostID r; src_HostName :=
     src_HostName r; src_Tags := src_Tags r; src_CreatedAt := src_CreatedAt r; src_UpdatedAt :=
     src_UpdatedAt r; src_LastTestAt := v; src_LastTestOK := src_LastTestOK r; src_LastTestError
     := src_LastTestError r; src_JobCount := src_JobCount r |}.
Definition set_src_LastTestOK (v : option bool) (r : Source) : Source :=
  {| src_ID := src_ID r; src_Name := src_Name r; src_Kind := src_Kind r; src_Description :=
     src_Description r; src_Config := src_Config r; src_HostID := src_HostID r; src_HostName :=
     src_HostName r; src_Tags := src_Tags r; src_CreatedAt := src_CreatedAt r; src_UpdatedAt :=
     src_UpdatedAt r; src_LastTestAt := src_LastTestAt r; src_LastTestOK := v; src_LastTestError
     := src_LastTestError r; src_JobCount := src_JobCount r |}.
Definition set_src_LastTestError (v : string) (r : Source) : Source :=
  {| src_ID := src_ID r; src_Name := src_Name r; src_Kind := src_Kind r; src_Description :=
     src_Description r; src_Config := src_Config r; src_HostID := src_HostID r; src_HostName :=
     src_HostName r; src_Tags := src_Tags r; src_CreatedAt := src_CreatedAt r; src_UpdatedAt :=
     src_UpdatedAt r; src_LastTestAt := src_LastTestAt r; src_LastTestOK := src_LastTestOK r;
     src_LastTestError := v; src_JobCount := src_JobCount r |}.
Definition set_src_JobCount (v : Z) (r : Source) : Source :=
  {| src_ID := src_ID r; src_Name := src_Name r; src_Kind := src_Kind r; src_Description :=
     src_Description r; src_Config := src_Config r; src_HostID := src_HostID r; src_HostName :=
     src_HostName r; src_Tags := src_Tags r; src_CreatedAt := src_CreatedAt r; src_UpdatedAt :=
     src_UpdatedAt r; src_LastTestAt := src_LastTestAt r; src_LastTestOK := src_LastTestOK r;
     src_LastTestError := src_LastTestError r; src_JobCount := v |}.

(** ** Destination *)
Definition set_dst_ID (v : string) (r : Destination) : Destination :=
  {| dst_ID := v; dst_Name := dst_Name r; dst_Kind := dst_Kind r; dst_Description :=
     dst_Description r; dst_Config := dst_Config r; dst_Tags := dst_Tags r; dst_CreatedAt :=
     dst_CreatedAt r; dst_UpdatedAt := dst_UpdatedAt r; dst_LastTestAt := dst_LastTestAt r;
     dst_LastTestOK := dst_LastTestOK r; dst_LastTestError := dst_LastTestError r; dst_JobCount :=
     dst_JobCount r; dst_UsedBytes := dst_UsedBytes r; dst_ArtifactCount := dst_ArtifactCount r |}.
Definition set_dst_CreatedAt (v : Time) (r : Destination) : Destination :=
  {| dst_ID := dst_ID r; dst_Name := dst_Name r; dst_Kind := dst_Kind r; dst_Description :=
     dst_Description r; dst_Config := dst_Config r; dst_Tags := dst_Tags r; dst_CreatedAt := v;
     dst_UpdatedAt := dst_UpdatedAt r; dst_LastTestAt := dst_LastTestAt r; dst_LastTestOK :=
     dst_LastTestOK r; dst_LastTestError := dst_LastTestError r; dst_JobCount := dst_JobCount r;
     dst_UsedBytes := dst_UsedBytes r; dst_ArtifactCount := dst_ArtifactCount r |}.
Definition set_dst_UpdatedAt (v : Time) (r : Destination) : Destination :=
  {| dst_ID := dst_ID r; dst_Name := dst_Name r; dst_Kind := dst_Kind r; dst_Description :=
     dst_Description r; dst_Config := dst_Config r; dst_Tags := dst_Tags r; dst_CreatedAt :=
     dst_CreatedAt r; dst_UpdatedAt := v; dst_LastTestAt := dst_LastTestAt r; dst_LastTestOK :=
     dst_LastTestOK r; dst_LastTestError := dst_LastTestError r; dst_JobCount := dst_JobCount r;
     dst_UsedBytes := dst_UsedBytes r; dst_ArtifactCount := dst_ArtifactCount r |}.
Definition set_dst_LastTestAt (v : option Time) (r : Destination) : Destination :=
  {| dst_ID := dst_ID r; dst_Name := dst_Name r; dst_Kind := dst_Kind r; dst_Description :=
     dst_Description r; dst_Config := dst_Config r; dst_Tags := dst_Tags r; dst_CreatedAt :=
     dst_CreatedAt r; dst_UpdatedAt := dst_UpdatedAt r; dst_LastTestAt := v; dst_LastTestOK :=
     dst_LastTestOK r; dst_LastTestError := dst_LastTestError r; dst_JobCount := dst_JobCount r;
     dst_UsedBytes := dst_UsedBytes r; dst_ArtifactCount := dst_ArtifactCount r |}.
Definition set_dst_LastTestOK (v : option bool) (r : Destination) : Destination :=
  {| dst_ID := dst_ID r; dst_Name := dst_Name r; dst_Kind := dst_Kind r; dst_Description :=
     dst_Description r; dst_Config := dst_Config r; dst_Tags := dst_Tags r; dst_CreatedAt :=
     dst_CreatedAt r; dst_UpdatedAt := dst_UpdatedAt r; dst_LastTestAt := dst_LastTestAt r;
     dst_LastTestOK := v; dst_LastTestError := dst_LastTestError r; dst_JobCount := dst_JobCount
     r; dst_UsedBytes := dst_UsedBytes r; dst_ArtifactCount := dst_ArtifactCount r |}.
Definition set_dst_LastTestError (v : string) (r : Destination) : Destination :=
  {| dst_ID := dst_ID r; dst_Name := dst_Name r; dst_Kind := dst_Kind r; dst_Description :=
     dst_Description r; dst_Config := dst_Config r; dst_Tags := dst_Tags r; dst_CreatedAt :=
     dst_CreatedAt r; dst_UpdatedAt := dst_UpdatedAt r; dst_LastTestAt := dst_LastTestAt r;
     dst_LastTestOK := dst_LastTestOK r; dst_LastTestError := v; dst_JobCount := dst_JobCount r;
     dst_UsedBytes := dst_UsedBytes r; dst_ArtifactCount := dst_ArtifactCount r |}.
Definition set_dst_JobCount (v : Z) (r : Destination) : Destination :=
  {| dst_ID := dst_ID r; dst_Name := dst_Name r; dst_Kind := dst_Kind r; dst_Description :=
     dst_Description r; dst_Config := dst_Config r; dst_Tags := dst_Tags r; dst_CreatedAt :=
     dst_CreatedAt r; dst_UpdatedAt := dst_UpdatedAt r; dst_LastTestAt := dst_LastTestAt r;
     dst_LastTestOK := dst_LastTestOK r; dst_LastTestError := dst_LastTestError r; dst_JobCount :=
     v; dst_UsedBytes := dst_UsedBytes r; dst_ArtifactCount := dst_ArtifactCount r |}.
Definition set_dst_UsedBytes (v : Z) (r : Destination) : Destination :=
  {| dst_ID := dst_ID r; dst_Name := dst_Name r; dst_Kind := dst_Kind r; dst_Description :=
     dst_Description r; dst_Config := dst_Config r; dst_Tags := dst_Tags r; dst_CreatedAt :=
     dst_CreatedAt r; dst_UpdatedAt := dst_UpdatedAt r; dst_LastTestAt := dst_LastTestAt r;
     dst_LastTestOK := dst_LastTestOK r; dst_LastTestError := dst_LastTestError r; dst_JobCount :=
     dst_JobCount r; dst_UsedBytes := v; dst_ArtifactCount := dst_ArtifactCount r |}.
Definition set_dst_ArtifactCount (v : Z) (r : Destination) : Destination :=
  {| dst_ID := dst_ID r; dst_Name := dst_Name r; dst_Kind := dst_Kind r; dst_Description :=
     dst_Description r; dst_Config := dst_Config r; dst_Tags := dst_Tags r; dst_CreatedAt :=
     dst_CreatedAt r; dst_UpdatedAt := dst_UpdatedAt r; dst_LastTestAt := dst_LastTestAt r;
     dst_LastTestOK := dst_LastTestOK r; dst_LastTestError := dst_LastTestError r; dst_JobCount :=
     dst_JobCount r; dst_UsedBytes := dst_UsedBytes r; dst_ArtifactCount := v |}.

(** ** NotificationChannel *)
Definition set_chan_ID (v : string) (r : NotificationChannel) : NotificationChannel :=
  {| chan_ID := v; chan_Name := chan_Name r; chan_Kind := chan_Kind r; chan_Config := chan_Config
     r; chan_Enabled := chan_Enabled r; chan_Events := chan_Events r; chan_CreatedAt :=
     chan_CreatedAt r; chan_UpdatedAt := chan_UpdatedAt r; chan_LastSentAt := chan_LastSentAt r;
     chan_LastError := chan_LastError r |}.
Definition set_chan_CreatedAt (v : Time) (r : NotificationChannel) : NotificationChannel :=
  {| chan_ID := chan_ID r; chan_Name := chan_Name r; chan_Kind := chan_Kind r; chan_Config :=
     chan_Config r; chan_Enabled := chan_Enabled r; chan_Events := chan_Events r; chan_CreatedAt
     := v; chan_UpdatedAt := chan_UpdatedAt r; chan_LastSentAt := chan_LastSentAt r;
     chan_LastError := chan_LastError r |}.
Definition set_chan_UpdatedAt (v : Time) (r : NotificationChannel) : NotificationChannel :=
  {| chan_ID := chan_ID r; chan_Name := chan_Name r; chan_Kind := chan_Kind r; chan_Config :=
     chan_Config r; chan_Enabled := chan_Enabled r; chan_Events := chan_Events r; chan_CreatedAt
     := chan_CreatedAt r; chan_UpdatedAt := v; chan_LastSentAt := chan_LastSentAt r;
     chan_LastError := chan_LastError r |}.
Definition set_chan_LastSentAt (v : option Time) (r : NotificationChannel) : NotificationChannel :=
  {| chan_ID := chan_ID r; chan_Name := chan_Name r; chan_Kind := chan_Kind r; chan_Config :=
     chan_Config r; chan_Enabled := chan_Enabled r; chan_Events := chan_Events r; chan_CreatedAt
     := chan_CreatedAt r; chan_UpdatedAt := chan_UpdatedAt r; chan_LastSentAt := v; chan_LastError
     := chan_LastError r |}.
Definition set_chan_LastError (v : string) (r : NotificationChannel) : NotificationChannel :=
  {| chan_ID := chan_ID r; chan_Name := chan_Name r; chan_Kind := chan_Kind r; chan_Config :=
     chan_Config r; chan_Enabled := chan_Enabled r; chan_Events := chan_Events r; chan_CreatedAt
     := chan_CreatedAt r; chan_UpdatedAt := chan_UpdatedAt r; chan_LastSentAt := chan_LastSentAt
     r; chan_LastError := v |}.

(** ** User *)
Definition set_user_ID (v : string) (r : User) : User :=
  {| user_ID := v; user_Email := user_Email r; user_Name := user_Name r; user_Role := user_Role r;
     user_CreatedAt := user_CreatedAt r; user_LastLoginAt := user_LastLoginAt r |}.
Definition set_user_Email (v : string) (r : User) : User :=
  {| user_ID := user_ID r; user_Email := v; user_Name := user_Name r; user_Role := user_Role r;
     user_CreatedAt := user_CreatedAt r; user_LastLoginAt := user_LastLoginAt r |}.
Definition set_user_CreatedAt (v : Time) (r : User) : User :=
  {| user_ID := user_ID r; user_Email := user_Email r; user_Name := user_Name r; user_Role :=
     user_Role r; user_CreatedAt := v; user_LastLoginAt := user_LastLoginAt r |}.
Definition set_user_LastLoginAt (v : option Time) (r : User) : User :=
  {| user_ID := user_ID r; user_Email := user_Email r; user_Name := user_Name r; user_Role :=
     user_Role r; user_CreatedAt := user_CreatedAt r; user_LastLoginAt := v |}.

(** ** APIToken *)
Definition set_tok_ID (v : string) (r : APIToken) : APIToken :=
  {| tok_ID := v; tok_Name := tok_Name r; tok_Prefix := tok_Prefix r; tok_Scopes := tok_Scopes r;
     tok_JobSlugs := tok_JobSlugs r; tok_CreatedAt := tok_CreatedAt r; tok_CreatedBy :=
     tok_CreatedBy r; tok_LastUsedAt := tok_LastUsedAt r; tok_ExpiresAt := tok_ExpiresAt r |}.
Definition set_tok_Prefix (v : string) (r : APIToken) : APIToken :=
  {| tok_ID := tok_ID r; tok_Name := tok_Name r; tok_Prefix := v; tok_Scopes := tok_Scopes r;
     tok_JobSlugs := tok_JobSlugs r; tok_CreatedAt := tok_CreatedAt r; tok_CreatedBy :=
     tok_CreatedBy r; tok_LastUsedAt := tok_LastUsedAt r; tok_ExpiresAt := tok_ExpiresAt r |}.
Definition set_tok_CreatedAt (v : Time) (r : APIToken) : APIToken :=
  {| tok_ID := tok_ID r; tok_Name := tok_Name r; tok_Prefix := tok_Prefix r; tok_Scopes :=
     tok_Scopes r; tok_JobSlugs := tok_JobSlugs r; tok_CreatedAt := v; tok_CreatedBy :=
     tok_CreatedBy r; tok_LastUsedAt := tok_LastUsedAt r; tok_ExpiresAt := tok_ExpiresAt r |}.
Definition set_tok_LastUsedAt (v : option Time) (r : APIToken) : APIToken :=
  {| tok_ID := tok_ID r; tok_Name := tok_Name r; tok_Prefix := tok_Prefix r; tok_Scopes :=
     tok_Scopes r; tok_JobSlugs := tok_JobSlugs r; tok_CreatedAt := tok_CreatedAt r; tok_CreatedBy
     := tok_CreatedBy r; tok_LastUsedAt := v; tok_ExpiresAt := tok_ExpiresAt r |}.

(** ** AuditEntry *)
Definition set_audit_ID (v : string) (r : AuditEntry) : AuditEntry :=
  {| audit_ID := v; audit_Time := audit_Time r; audit_ActorID := audit_ActorID r; audit_ActorLabel
     := audit_ActorLabel r; audit_Action := audit_Action r; audit_ObjectType := audit_ObjectType
     r; audit_ObjectID := audit_ObjectID r; audit_ObjectName := audit_ObjectName r; audit_Details
     := audit_Details r; audit_IP := audit_IP r |}.
Definition set_audit_Time (v : Time) (r : AuditEntry) : AuditEntry :=
  {| audit_ID := audit_ID r; audit_Time := v; audit_ActorID := audit_ActorID r; audit_ActorLabel
     := audit_ActorLabel r; audit_Action := audit_Action r; audit_ObjectType := audit_ObjectType
     r; audit_ObjectID := audit_ObjectID r; audit_ObjectName := audit_ObjectName r; audit_Details
     := audit_Details r; audit_IP := audit_IP r |}.

(** ** Host *)
Definition set_host_ID (v : string) (r : Host) : Host :=
  {| host_ID := v; host_Name := host_Name r; host_Description := host_Description r; host_Address
     := host_Address r; host_Port := host_Port r; host_User := host_User r; host_Auth := host_Auth
     r; host_PrivateKey := host_PrivateKey r; host_KeyPassphrase := host_KeyPassphrase r;
     host_Password := host_Password r; host_PublicKey := host_PublicKey r; host_HostKey :=
     host_HostKey r; host_Sudo := host_Sudo r; host_ConnectTimeout := host_ConnectTimeout r;
     host_Tags := host_Tags r; host_CreatedAt := host_CreatedAt r; host_UpdatedAt :=
     host_UpdatedAt r; host_LastTestAt := host_LastTestAt r; host_LastTestOK := host_LastTestOK r;
     host_LastTestError := host_LastTestError r; host_LastSeenOS := host_LastSeenOS r; host_Tools
     := host_Tools r; host_SourceCount := host_SourceCount r |}.
Definition set_host_Name (v : string) (r : Host) : Host :=
  {| host_ID := host_ID r; host_Name := v; host_Description := host_Description r; host_Address :=
     host_Address r; host_Port := host_Port r; host_User := host_User r; host_Auth := host_Auth r;
     host_PrivateKey := host_PrivateKey r; host_KeyPassphrase := host_KeyPassphrase r;
     host_Password := host_Password r; host_PublicKey := host_PublicKey r; host_HostKey :=
     host_HostKey r; host_Sudo := host_Sudo r; host_ConnectTimeout := host_ConnectTimeout r;
     host_Tags := host_Tags r; host_CreatedAt := host_CreatedAt r; host_UpdatedAt :=
     host_UpdatedAt r; host_LastTestAt := host_LastTestAt r; host_LastTestOK := host_LastTestOK r;
     host_LastTestError := host_LastTestError r; host_LastSeenOS := host_LastSeenOS r; host_Tools
     := host_Tools r; host_SourceCount := host_SourceCount r |}.
Definition set_host_Address (v : string) (r : Host) : Host :=
  {| host_ID := host_ID r; host_Name := host_Name r; host_Description := host_Description r;
     host_Address := v; host_Port := host_Port r; host_User := host_User r; host_Auth := host_Auth
     r; host_PrivateKey := host_PrivateKey r; host_KeyPassphrase := host_KeyPassphrase r;
     host_Password := host_Password r; host_PublicKey := host_PublicKey r; host_HostKey :=
     host_HostKey r; host_Sudo := host_Sudo r; host_ConnectTimeout := host_ConnectTimeout r;
     host_Tags := host_Tags r; host_CreatedAt := host_CreatedAt r; host_UpdatedAt :=
     host_UpdatedAt r; host_LastTestAt := host_LastTestAt r; host_LastTestOK := host_LastTestOK r;
     host_LastTestError := host_LastTestError r; host_LastSeenOS := host_LastSeenOS r; host_Tools
     := host_Tools r; host_SourceCount := host_SourceCount r |}.
Definition set_host_User (v : string) (r : Host) : Host :=
  {| host_ID := host_ID r; host_Name := host_Name r; host_Description := host_Description r;
     host_Address := host_Address r; host_Port := host_Port r; host_User := v; host_Auth :=
     host_Auth r; host_PrivateKey := host_PrivateKey r; host_KeyPassphrase := host_KeyPassphrase
     r; host_Password := host_Password r; host_PublicKey := host_PublicKey r; host_HostKey :=
     host_HostKey r; host_Sudo := host_Sudo r; host_ConnectTimeout := host_ConnectTimeout r;
     host_Tags := host_Tags r; host_CreatedAt := host_CreatedAt r; host_UpdatedAt :=
     host_UpdatedAt r; host_LastTestAt := host_LastTestAt r; host_LastTestOK := host_LastTestOK r;
     host_LastTestError := host_LastTestError r; host_LastSeenOS := host_LastSeenOS r; host_Tools
     := host_Tools r; host_SourceCount := host_SourceCount r |}.
Definition set_host_Auth (v : HostAuth) (r : Host) : Host :=
  {| host_ID := host_ID r; host_Name := host_Name r; host_Description := host_Description r;
     host_Address := host_Address r; host_Port := host_Port r; host_User := host_User r; host_Auth
     := v; host_PrivateKey := host_PrivateKey r; host_KeyPassphrase := host_KeyPassphrase r;
     host_Password := host_Password r; host_PublicKey := host_PublicKey r; host_HostKey :=
     host_HostKey r; host_Sudo := host_Sudo r; host_ConnectTimeout := host_ConnectTimeout r;
     host_Tags := host_Tags r; host_CreatedAt := host_CreatedAt r; host_UpdatedAt :=
     host_UpdatedAt r; host_LastTestAt := host_LastTestAt r; host_LastTestOK := host_LastTestOK r;
     host_LastTestError := host_LastTestError r; host_LastSeenOS := host_LastSeenOS r; host_Tools
     := host_Tools r; host_SourceCount := host_SourceCount r |}.
Definition set_host_HostKey (v : string) (r : Host) : Host :=
  {| host_ID := host_ID r; host_Name := host_Name r; host_Description := host_Description r;
     host_Address := host_Address r; host_Port := host_Port r; host_User := host_User r; host_Auth
     := host_Auth r; host_PrivateKey := host_PrivateKey r; host_KeyPassphrase :=
     host_KeyPassphrase r; host_Password := host_Password r; host_PublicKey := host_PublicKey r;
     host_HostKey := v; host_Sudo := host_Sudo r; host_ConnectTimeout := host_ConnectTimeout r;
     host_Tags := host_Tags r; host_CreatedAt := host_CreatedAt r; host_UpdatedAt :=
     host_UpdatedAt r; host_LastTestAt := host_LastTestAt r; host_LastTestOK := host_LastTestOK r;
     host_LastTestError := host_LastTestError r; host_LastSeenOS := host_LastSeenOS r; host_Tools
     := host_Tools r; host_SourceCount := host_SourceCount r |}.
Definition set_host_CreatedAt (v : Time) (r : Host) : Host :=
  {| host_ID := host_ID r; host_Name := host_Name r; host_Description := host_Description r;
     host_Address := host_Address r; host_Port := host_Port r; host_User := host_User r; host_Auth
     := host_Auth r; host_PrivateKey := host_PrivateKey r; host_KeyPassphrase :=
     host_KeyPassphrase r; host_Password := host_Password r; host_PublicKey := host_PublicKey r;
     host_HostKey := host_HostKey r; host_Sudo := host_Sudo r; host_ConnectTimeout :=
     host_ConnectTimeout r; host_Tags := host_Tags r; host_CreatedAt := v; host_UpdatedAt :=
     host_UpdatedAt r; host_LastTestAt := host_LastTestAt r; host_LastTestOK := host_LastTestOK r;
     host_LastTestError := host_LastTestError r; host_LastSeenOS := host_LastSeenOS r; host_Tools
     := host_Tools r; host_SourceCount := host_SourceCount r |}.
Definition set_host_UpdatedAt (v : Time) (r : Host) : Host :=
  {| host_ID := host_ID r; host_Name := host_Name r; host_Description := host_Description r;
     host_Address := host_Address r; host_Port := host_Port r; host_User := host_User r; host_Auth
     := host_Auth r; host_PrivateKey := host_PrivateKey r; host_KeyPassphrase :=
     host_KeyPassphrase r; host_Password := host_Password r; host_PublicKey := host_PublicKey r;
     host_HostKey := host_HostKey r; host_Sudo := host_Sudo r; host_ConnectTimeout :=
     host_ConnectTimeout r; host_Tags := host_Tags r; host_CreatedAt := host_CreatedAt r;
     host_UpdatedAt := v; host_LastTestAt := host_LastTestAt r; host_LastTestOK := host_LastTestOK
     r; host_LastTestError := host_LastTestError r; host_LastSeenOS := host_LastSeenOS r;
     host_Tools := host_Tools r; host_SourceCount := host_SourceCount r |}.
Definition set_host_LastTestAt (v : option Time) (r : Host) : Host :=
  {| host_ID := host_ID r; host_Name := host_Name r; host_Description := host_Description r;
     host_Address := host_Address r; host_Port := host_Port r; host_User := host_User r; host_Auth
     := host_Auth r; host_PrivateKey := host_PrivateKey r; host_KeyPassphrase :=
     host_KeyPassphrase r; host_Password := host_Password r; host_PublicKey := host_PublicKey r;
     host_HostKey := host_HostKey r; host_Sudo := host_Sudo r; host_ConnectTimeout :=
     host_ConnectTimeout r; host_Tags := host_Tags r; host_CreatedAt := host_CreatedAt r;
     host_UpdatedAt := host_UpdatedAt r; host_LastTestAt := v; host_LastTestOK := host_LastTestOK
     r; host_LastTestError := host_LastTestError r; host_LastSeenOS := host_LastSeenOS r;
     host_Tools := host_Tools r; host_SourceCount := host_SourceCount r |}.
Definition set_host_LastTestOK (v : option bool) (r : Host) : Host :=
  {| host_ID := host_ID r; host_Name := host_Name r; host_Description := host_Description r;
     host_Address := host_Address r; host_Port := host_Port r; host_User := host_User r; host_Auth
     := host_Auth r; host_PrivateKey := host_PrivateKey r; host_KeyPassphrase :=
     host_KeyPassphrase r; host_Password := host_Password r; host_PublicKey := host_PublicKey r;
     host_HostKey := host_HostKey r; host_Sudo := host_Sudo r; host_ConnectTimeout :=
     host_ConnectTimeout r; host_Tags := host_Tags r; host_CreatedAt := host_CreatedAt r;
     host_UpdatedAt := host_UpdatedAt r; host_LastTestAt := host_LastTestAt r; host_LastTestOK :=
     v; host_LastTestError := host_LastTestError r; host_LastSeenOS := host_LastSeenOS r;
     host_Tools := host_Tools r; host_SourceCount := host_SourceCount r |}.
Definition set_host_LastTestError (v : string) (r : Host) : Host :=
  {| host_ID := host_ID r; host_Name := host_Name r; host_Description := host_Description r;
     host_Address := host_Address r; host_Port := host_Port r; host_User := host_User r; host_Auth
     := host_Auth r; host_PrivateKey := host_PrivateKey r; host_KeyPassphrase :=
     host_KeyPassphrase r; host_Password := host_Password r; host_PublicKey := host_PublicKey r;
     host_HostKey := host_HostKey r; host_Sudo := host_Sudo r; host_ConnectTimeout :=
     host_ConnectTimeout r; host_Tags := host_Tags r; host_CreatedAt := host_CreatedAt r;
     host_UpdatedAt := host_UpdatedAt r; host_LastTestAt := host_LastTestAt r; host_LastTestOK :=
     host_LastTestOK r; host_LastTestError := v; host_LastSeenOS := host_LastSeenOS r; host_Tools
     := host_Tools r; host_SourceCount := host_SourceCount r |}.
Definition set_host_LastSeenOS (v : string) (r : Host) : Host :=
  {| host_ID := host_ID r; host_Name := host_Name r; host_Description := host_Description r;
     host_Address := host_Address r; host_Port := host_Port r; host_User := host_User r; host_Auth
     := host_Auth r; host_PrivateKey := host_PrivateKey r; host_KeyPassphrase :=
     host_KeyPassphrase r; host_Password := host_Password r; host_PublicKey := host_PublicKey r;
     host_HostKey := host_HostKey r; host_Sudo := host_Sudo r; host_ConnectTimeout :=
     host_ConnectTimeout r; host_Tags := host_Tags r; host_CreatedAt := host_CreatedAt r;
     host_UpdatedAt := host_UpdatedAt r; host_LastTestAt := host_LastTestAt r; host_LastTestOK :=
     host_LastTestOK r; host_LastTestError := host_LastTestError r; host_LastSeenOS := v;
     host_Tools := host_Tools r; host_SourceCount := host_SourceCount r |}.
Definition set_host_Tools (v : list string) (r : Host) : Host :=
  {| host_ID := host_ID r; host_Name := host_Name r; host_Description := host_Description r;
     host_Address := host_Address r; host_Port := host_Port r; host_User := host_User r; host_Auth
     := host_Auth r; host_PrivateKey := host_PrivateKey r; host_KeyPassphrase :=
     host_KeyPassphrase r; host_Password := host_Password r; host_PublicKey := host_PublicKey r;
     host_HostKey := host_HostKey r; host_Sudo := host_Sudo r; host_ConnectTimeout :=
     host_ConnectTimeout r; host_Tags := host_Tags r; host_CreatedAt := host_CreatedAt r;
     host_UpdatedAt := host_UpdatedAt r; host_LastTestAt := host_LastTestAt r; host_LastTestOK :=
     host_LastTestOK r; host_LastTestError := host_LastTestError r; host_LastSeenOS :=
     host_LastSeenOS r; host_Tools := v; host_SourceCount := host_SourceCount r |}.
Definition set_host_SourceCount (v : Z) (r : Host) : Host :=
  {| host_ID := host_ID r; host_Name := host_Name r; host_Description := host_Description r;
     host_Address := host_Address r; host_Port := host_Port r; host_User := host_User r; host_Auth
     := host_Auth r; host_PrivateKey := host_PrivateKey r; host_KeyPassphrase :=
     host_KeyPassphrase r; host_Password := host_Password r; host_PublicKey := host_PublicKey r;
     host_HostKey := host_HostKey r; host_Sudo := host_Sudo r; host_ConnectTimeout :=
     host_ConnectTimeout r; host_Tags := host_Tags r; host_CreatedAt := host_CreatedAt r;
     host_UpdatedAt := host_UpdatedAt r; host_LastTestAt := host_LastTestAt r; host_LastTestOK :=
     host_LastTestOK r; host_LastTestError := host_LastTestError r; host_LastSeenOS :=
     host_LastSeenOS r; host_Tools := host_Tools r; host_SourceCount := v |}.

(** ** Source, continued *)

Definition set_src_Name (v : string) (r : Source) : Source :=
  {| src_ID := src_ID r; src_Name := v; src_Kind := src_Kind r; src_Description := src_Description
     r; src_Config := src_Config r; src_HostID := src_HostID r; src_HostName := src_HostName r;
     src_Tags := src_Tags r; src_CreatedAt := src_CreatedAt r; src_UpdatedAt := src_UpdatedAt r;
     src_LastTestAt := src_LastTestAt r; src_LastTestOK := src_LastTestOK r; src_LastTestError :=
     src_LastTestError r; src_JobCount := src_JobCount r |}.
Definition set_src_Kind (v : string) (r : Source) : Source :=
  {| src_ID := src_ID r; src_Name := src_Name r; src_Kind := v; src_Description := src_Description
     r; src_Config := src_Config r; src_HostID := src_HostID r; src_HostName := src_HostName r;
     src_Tags := src_Tags r; src_CreatedAt := src_CreatedAt r; src_UpdatedAt := src_UpdatedAt r;
     src_LastTestAt := src_LastTestAt r; src_LastTestOK := src_LastTestOK r; src_LastTestError :=
     src_LastTestError r; src_JobCount := src_JobCount r |}.
Definition set_src_Description (v : string) (r : Source) : Source :=
  {| src_ID := src_ID r; src_Name := src_Name r; src_Kind := src_Kind r; src_Description := v;
     src_Config := src_Config r; src_HostID := src_HostID r; src_HostName := src_HostName r;
     src_Tags := src_Tags r; src_CreatedAt := src_CreatedAt r; src_UpdatedAt := src_UpdatedAt r;
     src_LastTestAt := src_LastTestAt r; src_LastTestOK := src_LastTestOK r; src_LastTestError :=
     src_LastTestError r; src_JobCount := src_JobCount r |}.
Definition set_src_Config (v : Config) (r : Source) : Source :=
  {| src_ID := src_ID r; src_Name := src_Name r; src_Kind := src_Kind r; src_Description :=
     src_Description r; src_Config := v; src_HostID := src_HostID r; src_HostName := src_HostName r;
     src_Tags := src_Tags r; src_CreatedAt := src_CreatedAt r; src_UpdatedAt := src_UpdatedAt r;
     src_LastTestAt := src_LastTestAt r; src_LastTestOK := src_LastTestOK r; src_LastTestError :=
     src_LastTestError r; src_JobCount := src_JobCount r |}.
Definition set_src_HostID (v : string) (r : Source) : Source :=
  {| src_ID := src_ID r; src_Name := src_Name r; src_Kind := src_Kind r; src_Description :=
     src_Description r; src_Config := src_Config r; src_HostID := v; src_HostName := src_HostName r;
     src_Tags := src_Tags r; src_CreatedAt := src_CreatedAt r; src_UpdatedAt := src_UpdatedAt r;
     src_LastTestAt := src_LastTestAt r; src_LastTestOK := src_LastTestOK r; src_LastTestError :=
     src_LastTestError r; src_JobCount := src_JobCount r |}.
Definition set_src_Tags (v : list string) (r : Source) : Source :=
  {| src_ID := src_ID r; src_Name := src_Name r; src_Kind := src_Kind r; src_Description :=
     src_Description r; src_Config := src_Config r; src_HostID := src_HostID r; src_HostName :=
     src_HostName r; src_Tags := v; src_CreatedAt := src_CreatedAt r; src_UpdatedAt := src_UpdatedAt
     r; src_LastTestAt := src_LastTestAt r; src_LastTestOK := src_LastTestOK r; src_LastTestError :=
     src_LastTestError r; src_JobCount := src_JobCount r |}.

(** ** Destination, continued *)

Definition set_dst_Name (v : string) (r : Destination) : Destination :=
  {| dst_ID := dst_ID r; dst_Name := v; dst_Kind := dst_Kind r; dst_Description := dst_Description
     r; dst_Config := dst_Config r; dst_Tags := dst_Tags r; dst_CreatedAt := dst_CreatedAt r;
     dst_UpdatedAt := dst_UpdatedAt r; dst_LastTestAt := dst_LastTestAt r; dst_LastTestOK :=
     dst_LastTestOK r; dst_LastTestError := dst_LastTestError r; dst_JobCount := dst_JobCount r;
     dst_UsedBytes := dst_UsedBytes r; dst_ArtifactCount := dst_ArtifactCount r |}.
Definition set_dst_Kind (v : string) (r : Destination) : Destination :=
  {| dst_ID := dst_ID r; dst_Name := dst_Name r; dst_Kind := v; dst_Description := dst_Description
     r; dst_Config := dst_Config r; dst_Tags := dst_Tags r; dst_CreatedAt := dst_CreatedAt r;
     dst_UpdatedAt := dst_UpdatedAt r; dst_LastTestAt := dst_LastTestAt r; dst_LastTestOK :=
     dst_LastTestOK r; dst_LastTestError := dst_LastTestError r; dst_JobCount := dst_JobCount r;
     dst_UsedBytes := dst_UsedBytes r; dst_ArtifactCount := dst_ArtifactCount r |}.
Definition set_dst_Description (v : string) (r : Destination) : Destination :=
  {| dst_ID := dst_ID r; dst_Name := dst_Name r; dst_Kind := dst_Kind r; dst_Description := v;
     dst_Config := dst_Config r; dst_Tags := dst_Tags r; dst_CreatedAt := dst_CreatedAt r;
     dst_UpdatedAt := dst_UpdatedAt r; dst_LastTestAt := dst_LastTestAt r; dst_LastTestOK :=
     dst_LastTestOK r; dst_LastTestError := dst_LastTestError r; dst_JobCount := dst_JobCount r;
     dst_UsedBytes := dst_UsedBytes r; dst_ArtifactCount := dst_ArtifactCount r |}.
Definition set_dst_Config (v : Config) (r : Destination) : Destination :=
  {| dst_ID := dst_ID r; dst_Name := dst_Name r; dst_Kind := dst_Kind r; dst_Description :=
     dst_Description r; dst_Config := v; dst_Tags := dst_Tags r; dst_CreatedAt := dst_CreatedAt r;
     dst_UpdatedAt := dst_UpdatedAt r; dst_LastTestAt := dst_LastTestAt r; dst_LastTestOK :=
     dst_LastTestOK r; dst_LastTestError := dst_LastTestError r; dst_JobCount := dst_JobCount r;
     dst_UsedBytes := dst_UsedBytes r; dst_ArtifactCount := dst_ArtifactCount r |}.
Definition set_dst_Tags (v : list string) (r : Destination) : Destination :=
  {| dst_ID := dst_ID r; dst_Name := dst_Name r; dst_Kind := dst_Kind r; dst_Description :=
     dst_Description r; dst_Config := dst_Config r; dst_Tags := v; dst_CreatedAt := dst_CreatedAt r;
     dst_UpdatedAt := dst_UpdatedAt r; dst_LastTestAt := dst_LastTestAt r; dst_LastTestOK :=
     dst_LastTestOK r; dst_LastTestError := dst_LastTestError r; dst_JobCount := dst_JobCount r;
     dst_UsedBytes := dst_UsedBytes r; dst_ArtifactCount := dst_ArtifactCount r |}.

(** ** NotificationChannel, continued *)

Definition set_chan_Name (v : string) (r : NotificationChannel) : NotificationChannel :=
  {| chan_ID := chan_ID r; chan_Name := v; chan_Kind := chan_Kind r; chan_Config := chan_Config r;
     chan_Enabled := chan_Enabled r; chan_Events := chan_Events r; chan_CreatedAt := chan_CreatedAt
     r; chan_UpdatedAt := chan_UpdatedAt r; chan_LastSentAt := chan_LastSentAt r; chan_LastError :=
     chan_LastError r |}.
Definition set_chan_Kind (v : string) (r : NotificationChannel) : NotificationChannel :=
  {| chan_ID := chan_ID r; chan_Name := chan_Name r; chan_Kind := v; chan_Config := chan_Config r;
     chan_Enabled := chan_Enabled r; chan_Events := chan_Events r; chan_CreatedAt := chan_CreatedAt
     r; chan_UpdatedAt := chan_UpdatedAt r; chan_LastSentAt := chan_LastSentAt r; chan_LastError :=
     chan_LastError r |}.
Definition set_chan_Config (v : Config) (r : NotificationChannel) : NotificationChannel :=
  {| chan_ID := chan_ID r; chan_Name := chan_Name r; chan_Kind := chan_Kind r; chan_Config := v;
     chan_Enabled := chan_Enabled r; chan_Events := chan_Events r; chan_CreatedAt := chan_CreatedAt
     r; chan_UpdatedAt := chan_UpdatedAt r; chan_LastSentAt := chan_LastSentAt r; chan_LastError :=
     chan_LastError r |}.
Definition set_chan_Events (v : list string) (r : NotificationChannel) : NotificationChannel :=
  {| chan_ID := chan_ID r; chan_Name := chan_Name r; chan_Kind := chan_Kind r; chan_Config :=
     chan_Config r; chan_Enabled := chan_Enabled r; chan_Events := v; chan_CreatedAt :=
     chan_CreatedAt r; chan_UpdatedAt := chan_UpdatedAt r; chan_LastSentAt := chan_LastSentAt r;
     chan_LastError := chan_LastError r |}.
Definition set_chan_Enabled (v : bool) (r : NotificationChannel) : NotificationChannel :=
  {| chan_ID := chan_ID r; chan_Name := chan_Name r; chan_Kind := chan_Kind r; chan_Config :=
     chan_Config r; chan_Enabled := v; chan_Events := chan_Events r; chan_CreatedAt :=
     chan_CreatedAt r; chan_UpdatedAt := chan_UpdatedAt r; chan_LastSentAt := chan_LastSentAt r;
     chan_LastError := chan_LastError r |}.

(** ** Host, continued *)

Definition set_host_PrivateKey (v : string) (r : Host) : Host :=
  {| host_ID := host_ID r; host_Name := host_Name r; host_Description := host_Description r;
     host_Address := host_Address r; host_Port := host_Port r; host_User := host_User r; host_Auth
     := host_Auth r; host_PrivateKey := v; host_KeyPassphrase := host_KeyPassphrase r; host_Password
     := host_Password r; host_PublicKey := host_PublicKey r; host_HostKey := host_HostKey r;
     host_Sudo := host_Sudo r; host_ConnectTimeout := host_ConnectTimeout r; host_Tags := host_Tags
     r; host_CreatedAt := host_CreatedAt r; host_UpdatedAt := host_UpdatedAt r; host_LastTestAt :=
     host_LastTestAt r; host_LastTestOK := host_LastTestOK r; host_LastTestError :=
     host_LastTestError r; host_LastSeenOS := host_LastSeenOS r; host_Tools := host_Tools r;
     host_SourceCount := host_SourceCount r |}.
Definition set_host_KeyPassphrase (v : string) (r : Host) : Host :=
  {| host_ID := host_ID r; host_Name := host_Name r; host_Description := host_Description r;
     host_Address := host_Address r; host_Port := host_Port r; host_User := host_User r; host_Auth
     := host_Auth r; host_PrivateKey := host_PrivateKey r; host_KeyPassphrase := v; host_Password :=
     host_Password r; host_PublicKey := host_PublicKey r; host_HostKey := host_HostKey r; host_Sudo
     := host_Sudo r; host_ConnectTimeout := host_ConnectTimeout r; host_Tags := host_Tags r;
     host_CreatedAt := host_CreatedAt r; host_UpdatedAt := host_UpdatedAt r; host_LastTestAt :=
     host_LastTestAt r; host_LastTestOK := host_LastTestOK r; host_LastTestError :=
     host_LastTestError r; host_LastSeenOS := host_LastSeenOS r; host_Tools := host_Tools r;
     host_SourceCount := host_SourceCount r |}.
Definition set_host_Password (v : string) (r : Host) : Host :=
  {| host_ID := host_ID r; host_Name := host_Name r; host_Description := host_Description r;
     host_Address := host_Address r; host_Port := host_Port r; host_User := host_User r; host_Auth
     := host_Auth r; host_PrivateKey := host_PrivateKey r; host_KeyPassphrase := host_KeyPassphrase
     r; host_Password := v; host_PublicKey := host_PublicKey r; host_HostKey := host_HostKey r;
     host_Sudo := host_Sudo r; host_ConnectTimeout := host_ConnectTimeout r; host_Tags := host_Tags
     r; host_CreatedAt := host_CreatedAt r; host_UpdatedAt := host_UpdatedAt r; host_LastTestAt :=
     host_LastTestAt r; host_LastTestOK := host_LastTestOK r; host_LastTestError :=
     host_LastTestError r; host_LastSeenOS := host_LastSeenOS r; host_Tools := host_Tools r;
     host_SourceCount := host_SourceCount r |}.
Definition set_host_PublicKey (v : string) (r : Host) : Host :=
  {| host_ID := host_ID r; host_Name := host_Name r; host_Description := host_Description r;
     host_Address := host_Address r; host_Port := host_Port r; host_User := host_User r; host_Auth
     := host_Auth r; host_PrivateKey := host_PrivateKey r; host_KeyPassphrase := host_KeyPassphrase
     r; host_Password := host_Password r; host_PublicKey := v; host_HostKey := host_HostKey r;
     host_Sudo := host_Sudo r; host_ConnectTimeout := host_ConnectTimeout r; host_Tags := host_Tags
     r; host_CreatedAt := host_CreatedAt r; host_UpdatedAt := host_UpdatedAt r; host_LastTestAt :=
     host_LastTestAt r; host_LastTestOK := host_LastTestOK r; host_LastTestError :=
     host_LastTestError r; host_LastSeenOS := host_LastSeenOS r; host_Tools := host_Tools r;
     host_SourceCount := host_SourceCount r |}.

(** ** User, continued *)

Definition set_user_Name (v : string) (r : User) : User :=
  {| user_ID := user_ID r; user_Email := user_Email r; user_Name := v; user_Role := user_Role r;
     user_CreatedAt := user_CreatedAt r; user_LastLoginAt := user_LastLoginAt r |}.
Definition set_user_Role (v : UserRole) (r : User) : User :=
  {| user_ID := user_ID r; user_Email := user_Email r; user_Name := user_Name r; user_Role := v;
     user_CreatedAt := user_CreatedAt r; user_LastLoginAt := user_LastLoginAt r |}.

(** ** Job, continued *)

Definition set_job_Slug (v : string) (r : Job) : Job :=
  {| job_ID := job_ID r; job_Slug := v; job_Name := job_Name r; job_Description := job_Description
     r; job_SourceID := job_SourceID r; job_DestinationIDs := job_DestinationIDs r; job_Schedule :=
     job_Schedule r; job_Timezone := job_Timezone r; job_Enabled := job_Enabled r; job_Compression
     := job_Compression r; job_CompressionLevel := job_CompressionLevel r; job_Encryption :=
     job_Encryption r; job_EncryptionPassphrase := job_EncryptionPassphrase r; job_Retention :=
     job_Retention r; job_NotificationChannelIDs := job_NotificationChannelIDs r; job_NotifyOn :=
     job_NotifyOn r; job_TimeoutMinutes := job_TimeoutMinutes r; job_Retries := job_Retries r;
     job_RetryDelaySeconds := job_RetryDelaySeconds r; job_PreCommand := job_PreCommand r;
     job_PostCommand := job_PostCommand r; job_VerifyAfterUpload := job_VerifyAfterUpload r;
     job_ExpectedIntervalMinutes := job_ExpectedIntervalMinutes r; job_Tags := job_Tags r;
     job_CreatedAt := job_CreatedAt r; job_UpdatedAt := job_UpdatedAt r; job_SourceName :=
     job_SourceName r; job_SourceKind := job_SourceKind r; job_DestinationNames :=
     job_DestinationNames r; job_LastRun := job_LastRun r; job_NextRunAt := job_NextRunAt r;
     job_Overdue := job_Overdue r; job_ArtifactCount := job_ArtifactCount r; job_TotalBytes :=
     job_TotalBytes r |}.
Definition set_job_Name (v : string) (r : Job) : Job :=
  {| job_ID := job_ID r; job_Slug := job_Slug r; job_Name := v; job_Description := job_Description
     r; job_SourceID := job_SourceID r; job_DestinationIDs := job_DestinationIDs r; job_Schedule :=
     job_Schedule r; job_Timezone := job_Timezone r; job_Enabled := job_Enabled r; job_Compression
     := job_Compression r; job_CompressionLevel := job_CompressionLevel r; job_Encryption :=
     job_Encryption r; job_EncryptionPassphrase := job_EncryptionPassphrase r; job_Retention :=
     job_Retention r; job_NotificationChannelIDs := job_NotificationChannelIDs r; job_NotifyOn :=
     job_NotifyOn r; job_TimeoutMinutes := job_TimeoutMinutes r; job_Retries := job_Retries r;
     job_RetryDelaySeconds := job_RetryDelaySeconds r; job_PreCommand := job_PreCommand r;
     job_PostCommand := job_PostCommand r; job_VerifyAfterUpload := job_VerifyAfterUpload r;
     job_ExpectedIntervalMinutes := job_ExpectedIntervalMinutes r; job_Tags := job_Tags r;
     job_CreatedAt := job_CreatedAt r; job_UpdatedAt := job_UpdatedAt r; job_SourceName :=
     job_SourceName r; job_SourceKind := job_SourceKind r; job_DestinationNames :=
     job_DestinationNames r; job_LastRun := job_LastRun r; job_NextRunAt := job_NextRunAt r;
     job_Overdue := job_Overdue r; job_ArtifactCount := job_ArtifactCount r; job_TotalBytes :=
     job_TotalBytes r |}.
Definition set_job_Description (v : string) (r : Job) : Job :=
  {| job_ID := job_ID r; job_Slug := job_Slug r; job_Name := job_Name r; job_Description := v;
     job_SourceID := job_SourceID r; job_DestinationIDs := job_DestinationIDs r; job_Schedule :=
     job_Schedule r; job_Timezone := job_Timezone r; job_Enabled := job_Enabled r; job_Compression
     := job_Compression r; job_CompressionLevel := job_CompressionLevel r; job_Encryption :=
     job_Encryption r; job_EncryptionPassphrase := job_EncryptionPassphrase r; job_Retention :=
     job_Retention r; job_NotificationChannelIDs := job_NotificationChannelIDs r; job_NotifyOn :=
     job_NotifyOn r; job_TimeoutMinutes := job_TimeoutMinutes r; job_Retries := job_Retries r;
     job_RetryDelaySeconds := job_RetryDelaySeconds r; job_PreCommand := job_PreCommand r;
     job_PostCommand := job_PostCommand r; job_VerifyAfterUpload := job_VerifyAfterUpload r;
     job_ExpectedIntervalMinutes := job_ExpectedIntervalMinutes r; job_Tags := job_Tags r;
     job_CreatedAt := job_CreatedAt r; job_UpdatedAt := job_UpdatedAt r; job_SourceName :=
     job_SourceName r; job_SourceKind := job_SourceKind r; job_DestinationNames :=
     job_DestinationNames r; job_LastRun := job_LastRun r; job_NextRunAt := job_NextRunAt r;
     job_Overdue := job_Overdue r; job_ArtifactCount := job_ArtifactCount r; job_TotalBytes :=
     job_TotalBytes r |}.
Definition set_job_SourceID (v : string) (r : Job) : Job :=
  {| job_ID := job_ID r; job_Slug := job_Slug r; job_Name := job_Name r; job_Description :=
     job_Description r; job_SourceID := v; job_DestinationIDs := job_DestinationIDs r; job_Schedule
     := job_Schedule r; job_Timezone := job_Timezone r; job_Enabled := job_Enabled r;
     job_Compression := job_Compression r; job_CompressionLevel := job_CompressionLevel r;
     job_Encryption := job_Encryption r; job_EncryptionPassphrase := job_EncryptionPassphrase r;
     job_Retention := job_Retention r; job_NotificationChannelIDs := job_NotificationChannelIDs r;
     job_NotifyOn := job_NotifyOn r; job_TimeoutMinutes := job_TimeoutMinutes r; job_Retries :=
     job_Retries r; job_RetryDelaySeconds := job_RetryDelaySeconds r; job_PreCommand :=
     job_PreCommand r; job_PostCommand := job_PostCommand r; job_VerifyAfterUpload :=
     job_VerifyAfterUpload r; job_ExpectedIntervalMinutes := job_ExpectedIntervalMinutes r; job_Tags
     := job_Tags r; job_CreatedAt := job_CreatedAt r; job_UpdatedAt := job_UpdatedAt r;
     job_SourceName := job_SourceName r; job_SourceKind := job_SourceKind r; job_DestinationNames :=
     job_DestinationNames r; job_LastRun := job_LastRun r; job_NextRunAt := job_NextRunAt r;
     job_Overdue := job_Overdue r; job_ArtifactCount := job_ArtifactCount r; job_TotalBytes :=
     job_TotalBytes r |}.
Definition set_job_DestinationIDs (v : list string) (r : Job) : Job :=
  {| job_ID := job_ID r; job_Slug := job_Slug r; job_Name := job_Name r; job_Description :=
     job_Description r; job_SourceID := job_SourceID r; job_DestinationIDs := v; job_Schedule :=
     job_Schedule r; job_Timezone := job_Timezone r; job_Enabled := job_Enabled r; job_Compression
     := job_Compression r; job_CompressionLevel := job_CompressionLevel r; job_Encryption :=
     job_Encryption r; job_EncryptionPassphrase := job_EncryptionPassphrase r; job_Retention :=
     job_Retention r; job_NotificationChannelIDs := job_NotificationChannelIDs r; job_NotifyOn :=
     job_NotifyOn r; job_TimeoutMinutes := job_TimeoutMinutes r; job_Retries := job_Retries r;
     job_RetryDelaySeconds := job_RetryDelaySeconds r; job_PreCommand := job_PreCommand r;
     job_PostCommand := job_PostCommand r; job_VerifyAfterUpload := job_VerifyAfterUpload r;
     job_ExpectedIntervalMinutes := job_ExpectedIntervalMinutes r; job_Tags := job_Tags r;
     job_CreatedAt := job_CreatedAt r; job_UpdatedAt := job_UpdatedAt r; job_SourceName :=
     job_SourceName r; job_SourceKind := job_SourceKind r; job_DestinationNames :=
     job_DestinationNames r; job_LastRun := job_LastRun r; job_NextRunAt := job_NextRunAt r;
     job_Overdue := job_Overdue r; job_ArtifactCount := job_ArtifactCount r; job_TotalBytes :=
     job_TotalBytes r |}.
Definition set_job_Schedule (v : string) (r : Job) : Job :=
  {| job_ID := job_ID r; job_Slug := job_Slug r; job_Name := job_Name r; job_Description :=
     job_Description r; job_SourceID := job_SourceID r; job_DestinationIDs := job_DestinationIDs r;
     job_Schedule := v; job_Timezone := job_Timezone r; job_Enabled := job_Enabled r;
     job_Compression := job_Compression r; job_CompressionLevel := job_CompressionLevel r;
     job_Encryption := job_Encryption r; job_EncryptionPassphrase := job_EncryptionPassphrase r;
     job_Retention := job_Retention r; job_NotificationChannelIDs := job_NotificationChannelIDs r;
     job_NotifyOn := job_NotifyOn r; job_TimeoutMinutes := job_TimeoutMinutes r; job_Retries :=
     job_Retries r; job_RetryDelaySeconds := job_RetryDelaySeconds r; job_PreCommand :=
     job_PreCommand r; job_PostCommand := job_PostCommand r; job_VerifyAfterUpload :=
     job_VerifyAfterUpload r; job_ExpectedIntervalMinutes := job_ExpectedIntervalMinutes r; job_Tags
     := job_Tags r; job_CreatedAt := job_CreatedAt r; job_UpdatedAt := job_UpdatedAt r;
     job_SourceName := job_SourceName r; job_SourceKind := job_SourceKind r; job_DestinationNames :=
     job_DestinationNames r; job_LastRun := job_LastRun r; job_NextRunAt := job_NextRunAt r;
     job_Overdue := job_Overdue r; job_ArtifactCount := job_ArtifactCount r; job_TotalBytes :=
     job_TotalBytes r |}.
Definition set_job_Timezone (v : string) (r : Job) : Job :=
  {| job_ID := job_ID r; job_Slug := job_Slug r; job_Name := job_Name r; job_Description :=
     job_Description r; job_SourceID := job_SourceID r; job_DestinationIDs := job_DestinationIDs r;
     job_Schedule := job_Schedule r; job_Timezone := v; job_Enabled := job_Enabled r;
     job_Compression := job_Compression r; job_CompressionLevel := job_CompressionLevel r;
     job_Encryption := job_Encryption r; job_EncryptionPassphrase := job_EncryptionPassphrase r;
     job_Retention := job_Retention r; job_NotificationChannelIDs := job_NotificationChannelIDs r;
     job_NotifyOn := job_NotifyOn r; job_TimeoutMinutes := job_TimeoutMinutes r; job_Retries :=
     job_Retries r; job_RetryDelaySeconds := job_RetryDelaySeconds r; job_PreCommand :=
     job_PreCommand r; job_PostCommand := job_PostCommand r; job_VerifyAfterUpload :=
     job_VerifyAfterUpload r; job_ExpectedIntervalMinutes := job_ExpectedIntervalMinutes r; job_Tags
     := job_Tags r; job_CreatedAt := job_CreatedAt r; job_UpdatedAt := job_UpdatedAt r;
     job_SourceName := job_SourceName r; job_SourceKind := job_SourceKind r; job_DestinationNames :=
     job_DestinationNames r; job_LastRun := job_LastRun r; job_NextRunAt := job_NextRunAt r;
     job_Overdue := job_Overdue r; job_ArtifactCount := job_ArtifactCount r; job_TotalBytes :=
     job_TotalBytes r |}.
Definition set_job_Compression (v : Compression) (r : Job) : Job :=
  {| job_ID := job_ID r; job_Slug := job_Slug r; job_Name := job_Name r; job_Description :=
     job_Description r; job_SourceID := job_SourceID r; job_DestinationIDs := job_DestinationIDs r;
     job_Schedule := job_Schedule r; job_Timezone := job_Timezone r; job_Enabled := job_Enabled r;
     job_Compression := v; job_CompressionLevel := job_CompressionLevel r; job_Encryption :=
     job_Encryption r; job_EncryptionPassphrase := job_EncryptionPassphrase r; job_Retention :=
     job_Retention r; job_NotificationChannelIDs := job_NotificationChannelIDs r; job_NotifyOn :=
     job_NotifyOn r; job_TimeoutMinutes := job_TimeoutMinutes r; job_Retries := job_Retries r;
     job_RetryDelaySeconds := job_RetryDelaySeconds r; job_PreCommand := job_PreCommand r;
     job_PostCommand := job_PostCommand r; job_VerifyAfterUpload := job_VerifyAfterUpload r;
     job_ExpectedIntervalMinutes := job_ExpectedIntervalMinutes r; job_Tags := job_Tags r;
     job_CreatedAt := job_CreatedAt r; job_UpdatedAt := job_UpdatedAt r; job_SourceName :=
     job_SourceName r; job_SourceKind := job_SourceKind r; job_DestinationNames :=
     job_DestinationNames r; job_LastRun := job_LastRun r; job_NextRunAt := job_NextRunAt r;
     job_Overdue := job_Overdue r; job_ArtifactCount := job_ArtifactCount r; job_TotalBytes :=
     job_TotalBytes r |}.
Definition set_job_CompressionLevel (v : Z) (r : Job) : Job :=
  {| job_ID := job_ID r; job_Slug := job_Slug r; job_Name := job_Name r; job_Description :=
     job_Description r; job_SourceID := job_SourceID r; job_DestinationIDs := job_DestinationIDs r;
     job_Schedule := job_Schedule r; job_Timezone := job_Timezone r; job_Enabled := job_Enabled r;
     job_Compression := job_Compression r; job_CompressionLevel := v; job_Encryption :=
     job_Encryption r; job_EncryptionPassphrase := job_EncryptionPassphrase r; job_Retention :=
     job_Retention r; job_NotificationChannelIDs := job_NotificationChannelIDs r; job_NotifyOn :=
     job_NotifyOn r; job_TimeoutMinutes := job_TimeoutMinutes r; job_Retries := job_Retries r;
     job_RetryDelaySeconds := job_RetryDelaySeconds r; job_PreCommand := job_PreCommand r;
     job_PostCommand := job_PostCommand r; job_VerifyAfterUpload := job_VerifyAfterUpload r;
     job_ExpectedIntervalMinutes := job_ExpectedIntervalMinutes r; job_Tags := job_Tags r;
     job_CreatedAt := job_CreatedAt r; job_UpdatedAt := job_UpdatedAt r; job_SourceName :=
     job_SourceName r; job_SourceKind := job_SourceKind r; job_DestinationNames :=
     job_DestinationNames r; job_LastRun := job_LastRun r; job_NextRunAt := job_NextRunAt r;
     job_Overdue := job_Overdue r; job_ArtifactCount := job_ArtifactCount r; job_TotalBytes :=
     job_TotalBytes r |}.
Definition set_job_Encryption (v : Encryption) (r : Job) : Job :=
  {| job_ID := job_ID r; job_Slug := job_Slug r; job_Name := job_Name r; job_Description :=
     job_Description r; job_SourceID := job_SourceID r; job_DestinationIDs := job_DestinationIDs r;
     job_Schedule := job_Schedule r; job_Timezone := job_Timezone r; job_Enabled := job_Enabled r;
     job_Compression := job_Compression r; job_CompressionLevel := job_CompressionLevel r;
     job_Encryption := v; job_EncryptionPassphrase := job_EncryptionPassphrase r; job_Retention :=
     job_Retention r; job_NotificationChannelIDs := job_NotificationChannelIDs r; job_NotifyOn :=
     job_NotifyOn r; job_TimeoutMinutes := job_TimeoutMinutes r; job_Retries := job_Retries r;
     job_RetryDelaySeconds := job_RetryDelaySeconds r; job_PreCommand := job_PreCommand r;
     job_PostCommand := job_PostCommand r; job_VerifyAfterUpload := job_VerifyAfterUpload r;
     job_ExpectedIntervalMinutes := job_ExpectedIntervalMinutes r; job_Tags := job_Tags r;
     job_CreatedAt := job_CreatedAt r; job_UpdatedAt := job_UpdatedAt r; job_SourceName :=
     job_SourceName r; job_SourceKind := job_SourceKind r; job_DestinationNames :=
     job_DestinationNames r; job_LastRun := job_LastRun r; job_NextRunAt := job_NextRunAt r;
     job_Overdue := job_Overdue r; job_ArtifactCount := job_ArtifactCount r; job_TotalBytes :=
     job_TotalBytes r |}.
Definition set_job_EncryptionPassphrase (v : string) (r : Job) : Job :=
  {| job_ID := job_ID r; job_Slug := job_Slug r; job_Name := job_Name r; job_Description :=
     job_Description r; job_SourceID := job_SourceID r; job_DestinationIDs := job_DestinationIDs r;
     job_Schedule := job_Schedule r; job_Timezone := job_Timezone r; job_Enabled := job_Enabled r;
     job_Compression := job_Compression r; job_CompressionLevel := job_CompressionLevel r;
     job_Encryption := job_Encryption r; job_EncryptionPassphrase := v; job_Retention :=
     job_Retention r; job_NotificationChannelIDs := job_NotificationChannelIDs r; job_NotifyOn :=
     job_NotifyOn r; job_TimeoutMinutes := job_TimeoutMinutes r; job_Retries := job_Retries r;
     job_RetryDelaySeconds := job_RetryDelaySeconds r; job_PreCommand := job_PreCommand r;
     job_PostCommand := job_PostCommand r; job_VerifyAfterUpload := job_VerifyAfterUpload r;
     job_ExpectedIntervalMinutes := job_ExpectedIntervalMinutes r; job_Tags := job_Tags r;
     job_CreatedAt := job_CreatedAt r; job_UpdatedAt := job_UpdatedAt r; job_SourceName :=
     job_SourceName r; job_SourceKind := job_SourceKind r; job_DestinationNames :=
     job_DestinationNames r; job_LastRun := job_LastRun r; job_NextRunAt := job_NextRunAt r;
     job_Overdue := job_Overdue r; job_ArtifactCount := job_ArtifactCount r; job_TotalBytes :=
     job_TotalBytes r |}.
Definition set_job_Retention (v : Retention) (r : Job) : Job :=
  {| job_ID := job_ID r; job_Slug := job_Slug r; job_Name := job_Name r; job_Description :=
     job_Description r; job_SourceID := job_SourceID r; job_DestinationIDs := job_DestinationIDs r;
     job_Schedule := job_Schedule r; job_Timezone := job_Timezone r; job_Enabled := job_Enabled r;
     job_Compression := job_Compression r; job_CompressionLevel := job_CompressionLevel r;
     job_Encryption := job_Encryption r; job_EncryptionPassphrase := job_EncryptionPassphrase r;
     job_Retention := v; job_NotificationChannelIDs := job_NotificationChannelIDs r; job_NotifyOn :=
     job_NotifyOn r; job_TimeoutMinutes := job_TimeoutMinutes r; job_Retries := job_Retries r;
     job_RetryDelaySeconds := job_RetryDelaySeconds r; job_PreCommand := job_PreCommand r;
     job_PostCommand := job_PostCommand r; job_VerifyAfterUpload := job_VerifyAfterUpload r;
     job_ExpectedIntervalMinutes := job_ExpectedIntervalMinutes r; job_Tags := job_Tags r;
     job_CreatedAt := job_CreatedAt r; job_UpdatedAt := job_UpdatedAt r; job_SourceName :=
     job_SourceName r; job_SourceKind := job_SourceKind r; job_DestinationNames :=
     job_DestinationNames r; job_LastRun := job_LastRun r; job_NextRunAt := job_NextRunAt r;
     job_Overdue := job_Overdue r; job_ArtifactCount := job_ArtifactCount r; job_TotalBytes :=
     job_TotalBytes r |}.
Definition set_job_NotificationChannelIDs (v : list string) (r : Job) : Job :=
  {| job_ID := job_ID r; job_Slug := job_Slug r; job_Name := job_Name r; job_Description :=
     job_Description r; job_SourceID := job_SourceID r; job_DestinationIDs := job_DestinationIDs r;
     job_Schedule := job_Schedule r; job_Timezone := job_Timezone r; job_Enabled := job_Enabled r;
     job_Compression := job_Compression r; job_CompressionLevel := job_CompressionLevel r;
     job_Encryption := job_Encryption r; job_EncryptionPassphrase := job_EncryptionPassphrase r;
     job_Retention := job_Retention r; job_NotificationChannelIDs := v; job_NotifyOn := job_NotifyOn
     r; job_TimeoutMinutes := job_TimeoutMinutes r; job_Retries := job_Retries r;
     job_RetryDelaySeconds := job_RetryDelaySeconds r; job_PreCommand := job_PreCommand r;
     job_PostCommand := job_PostCommand r; job_VerifyAfterUpload := job_VerifyAfterUpload r;
     job_ExpectedIntervalMinutes := job_ExpectedIntervalMinutes r; job_Tags := job_Tags r;
     job_CreatedAt := job_CreatedAt r; job_UpdatedAt := job_UpdatedAt r; job_SourceName :=
     job_SourceName r; job_SourceKind := job_SourceKind r; job_DestinationNames :=
     job_DestinationNames r; job_LastRun := job_LastRun r; job_NextRunAt := job_NextRunAt r;
     job_Overdue := job_Overdue r; job_ArtifactCount := job_ArtifactCount r; job_TotalBytes :=
     job_TotalBytes r |}.
Definition set_job_NotifyOn (v : list string) (r : Job) : Job :=
  {| job_ID := job_ID r; job_Slug := job_Slug r; job_Name := job_Name r; job_Description :=
     job_Description r; job_SourceID := job_SourceID r; job_DestinationIDs := job_DestinationIDs r;
     job_Schedule := job_Schedule r; job_Timezone := job_Timezone r; job_Enabled := job_Enabled r;
     job_Compression := job_Compression r; job_CompressionLevel := job_CompressionLevel r;
     job_Encryption := job_Encryption r; job_EncryptionPassphrase := job_EncryptionPassphrase r;
     job_Retention := job_Retention r; job_NotificationChannelIDs := job_NotificationChannelIDs r;
     job_NotifyOn := v; job_TimeoutMinutes := job_TimeoutMinutes r; job_Retries := job_Retries r;
     job_RetryDelaySeconds := job_RetryDelaySeconds r; job_PreCommand := job_PreCommand r;
     job_PostCommand := job_PostCommand r; job_VerifyAfterUpload := job_VerifyAfterUpload r;
     job_ExpectedIntervalMinutes := job_ExpectedIntervalMinutes r; job_Tags := job_Tags r;
     job_CreatedAt := job_CreatedAt r; job_UpdatedAt := job_UpdatedAt r; job_SourceName :=
     job_SourceName r; job_SourceKind := job_SourceKind r; job_DestinationNames :=
     job_DestinationNames r; job_LastRun := job_LastRun r; job_NextRunAt := job_NextRunAt r;
     job_Overdue := job_Overdue r; job_ArtifactCount := job_ArtifactCount r; job_TotalBytes :=
     job_TotalBytes r |}.
Definition set_job_TimeoutMinutes (v : Z) (r : Job) : Job :=
  {| job_ID := job_ID r; job_Slug := job_Slug r; job_Name := job_Name r; job_Description :=
     job_Description r; job_SourceID := job_SourceID r; job_DestinationIDs := job_DestinationIDs r;
     job_Schedule := job_Schedule r; job_Timezone := job_Timezone r; job_Enabled := job_Enabled r;
     job_Compression := job_Compression r; job_CompressionLevel := job_CompressionLevel r;
     job_Encryption := job_Encryption r; job_EncryptionPassphrase := job_EncryptionPassphrase r;
     job_Retention := job_Retention r; job_NotificationChannelIDs := job_NotificationChannelIDs r;
     job_NotifyOn := job_NotifyOn r; job_TimeoutMinutes := v; job_Retries := job_Retries r;
     job_RetryDelaySeconds := job_RetryDelaySeconds r; job_PreCommand := job_PreCommand r;
     job_PostCommand := job_PostCommand r; job_VerifyAfterUpload := job_VerifyAfterUpload r;
     job_ExpectedIntervalMinutes := job_ExpectedIntervalMinutes r; job_Tags := job_Tags r;
     job_CreatedAt := job_CreatedAt r; job_UpdatedAt := job_UpdatedAt r; job_SourceName :=
     job_SourceName r; job_SourceKind := job_SourceKind r; job_DestinationNames :=
     job_DestinationNames r; job_LastRun := job_LastRun r; job_NextRunAt := job_NextRunAt r;
     job_Overdue := job_Overdue r; job_ArtifactCount := job_ArtifactCount r; job_TotalBytes :=
     job_TotalBytes r |}.
Definition set_job_Retries (v : Z) (r : Job) : Job :=
  {| job_ID := job_ID r; job_Slug := job_Slug r; job_Name := job_Name r; job_Description :=
     job_Description r; job_SourceID := job_SourceID r; job_DestinationIDs := job_DestinationIDs r;
     job_Schedule := job_Schedule r; job_Timezone := job_Timezone r; job_Enabled := job_Enabled r;
     job_Compression := job_Compression r; job_CompressionLevel := job_CompressionLevel r;
     job_Encryption := job_Encryption r; job_EncryptionPassphrase := job_EncryptionPassphrase r;
     job_Retention := job_Retention r; job_NotificationChannelIDs := job_NotificationChannelIDs r;
     job_NotifyOn := job_NotifyOn r; job_TimeoutMinutes := job_TimeoutMinutes r; job_Retries := v;
     job_RetryDelaySeconds := job_RetryDelaySeconds r; job_PreCommand := job_PreCommand r;
     job_PostCommand := job_PostCommand r; job_VerifyAfterUpload := job_VerifyAfterUpload r;
     job_ExpectedIntervalMinutes := job_ExpectedIntervalMinutes r; job_Tags := job_Tags r;
     job_CreatedAt := job_CreatedAt r; job_UpdatedAt := job_UpdatedAt r; job_SourceName :=
     job_SourceName r; job_SourceKind := job_SourceKind r; job_DestinationNames :=
     job_DestinationNames r; job_LastRun := job_LastRun r; job_NextRunAt := job_NextRunAt r;
     job_Overdue := job_Overdue r; job_ArtifactCount := job_ArtifactCount r; job_TotalBytes :=
     job_TotalBytes r |}.
Definition set_job_RetryDelaySeconds (v : Z) (r : Job) : Job :=
  {| job_ID := job_ID r; job_Slug := job_Slug r; job_Name := job_Name r; job_Description :=
     job_Description r; job_SourceID := job_SourceID r; job_DestinationIDs := job_DestinationIDs r;
     job_Schedule := job_Schedule r; job_Timezone := job_Timezone r; job_Enabled := job_Enabled r;
     job_Compression := job_Compression r; job_CompressionLevel := job_CompressionLevel r;
     job_Encryption := job_Encryption r; job_EncryptionPassphrase := job_EncryptionPassphrase r;
     job_Retention := job_Retention r; job_NotificationChannelIDs := job_NotificationChannelIDs r;
     job_NotifyOn := job_NotifyOn r; job_TimeoutMinutes := job_TimeoutMinutes r; job_Retries :=
     job_Retries r; job_RetryDelaySeconds := v; job_PreCommand := job_PreCommand r; job_PostCommand
     := job_PostCommand r; job_VerifyAfterUpload := job_VerifyAfterUpload r;
     job_ExpectedIntervalMinutes := job_ExpectedIntervalMinutes r; job_Tags := job_Tags r;
     job_CreatedAt := job_CreatedAt r; job_UpdatedAt := job_UpdatedAt r; job_SourceName :=
     job_SourceName r; job_SourceKind := job_SourceKind r; job_DestinationNames :=
     job_DestinationNames r; job_LastRun := job_LastRun r; job_NextRunAt := job_NextRunAt r;
     job_Overdue := job_Overdue r; job_ArtifactCount := job_ArtifactCount r; job_TotalBytes :=
     job_TotalBytes r |}.
Definition set_job_PreCommand (v : string) (r : Job) : Job :=
  {| job_ID := job_ID r; job_Slug := job_Slug r; job_Name := job_Name r; job_Description :=
     job_Description r; job_SourceID := job_SourceID r; job_DestinationIDs := job_DestinationIDs r;
     job_Schedule := job_Schedule r; job_Timezone := job_Timezone r; job_Enabled := job_Enabled r;
     job_Compression := job_Compression r; job_CompressionLevel := job_CompressionLevel r;
     job_Encryption := job_Encryption r; job_EncryptionPassphrase := job_EncryptionPassphrase r;
     job_Retention := job_Retention r; job_NotificationChannelIDs := job_NotificationChannelIDs r;
     job_NotifyOn := job_NotifyOn r; job_TimeoutMinutes := job_TimeoutMinutes r; job_Retries :=
     job_Retries r; job_RetryDelaySeconds := job_RetryDelaySeconds r; job_PreCommand := v;
     job_PostCommand := job_PostCommand r; job_VerifyAfterUpload := job_VerifyAfterUpload r;
     job_ExpectedIntervalMinutes := job_ExpectedIntervalMinutes r; job_Tags := job_Tags r;
     job_CreatedAt := job_CreatedAt r; job_UpdatedAt := job_UpdatedAt r; job_SourceName :=
     job_SourceName r; job_SourceKind := job_SourceKind r; job_DestinationNames :=
     job_DestinationNames r; job_LastRun := job_LastRun r; job_NextRunAt := job_NextRunAt r;
     job_Overdue := job_Overdue r; job_ArtifactCount := job_ArtifactCount r; job_TotalBytes :=
     job_TotalBytes r |}.
Definition set_job_PostCommand (v : string) (r : Job) : Job :=
  {| job_ID := job_ID r; job_Slug := job_Slug r; job_Name := job_Name r; job_Description :=
     job_Description r; job_SourceID := job_SourceID r; job_DestinationIDs := job_DestinationIDs r;
     job_Schedule := job_Schedule r; job_Timezone := job_Timezone r; job_Enabled := job_Enabled r;
     job_Compression := job_Compression r; job_CompressionLevel := job_CompressionLevel r;
     job_Encryption := job_Encryption r; job_EncryptionPassphrase := job_EncryptionPassphrase r;
     job_Retention := job_Retention r; job_NotificationChannelIDs := job_NotificationChannelIDs r;
     job_NotifyOn := job_NotifyOn r; job_TimeoutMinutes := job_TimeoutMinutes r; job_Retries :=
     job_Retries r; job_RetryDelaySeconds := job_RetryDelaySeconds r; job_PreCommand :=
     job_PreCommand r; job_PostCommand := v; job_VerifyAfterUpload := job_VerifyAfterUpload r;
     job_ExpectedIntervalMinutes := job_ExpectedIntervalMinutes r; job_Tags := job_Tags r;
     job_CreatedAt := job_CreatedAt r; job_UpdatedAt := job_UpdatedAt r; job_SourceName :=
     job_SourceName r; job_SourceKind := job_SourceKind r; job_DestinationNames :=
     job_DestinationNames r; job_LastRun := job_LastRun r; job_NextRunAt := job_NextRunAt r;
     job_Overdue := job_Overdue r; job_ArtifactCount := job_ArtifactCount r; job_TotalBytes :=
     job_TotalBytes r |}.
Definition set_job_VerifyAfterUpload (v : bool) (r : Job) : Job :=
  {| job_ID := job_ID r; job_Slug := job_Slug r; job_Name := job_Name r; job_Description :=
     job_Description r; job_SourceID := job_SourceID r; job_DestinationIDs := job_DestinationIDs r;
     job_Schedule := job_Schedule r; job_Timezone := job_Timezone r; job_Enabled := job_Enabled r;
     job_Compression := job_Compression r; job_CompressionLevel := job_CompressionLevel r;
     job_Encryption := job_Encryption r; job_EncryptionPassphrase := job_EncryptionPassphrase r;
     job_Retention := job_Retention r; job_NotificationChannelIDs := job_NotificationChannelIDs r;
     job_NotifyOn := job_NotifyOn r; job_TimeoutMinutes := job_TimeoutMinutes r; job_Retries :=
     job_Retries r; job_RetryDelaySeconds := job_RetryDelaySeconds r; job_PreCommand :=
     job_PreCommand r; job_PostCommand := job_PostCommand r; job_VerifyAfterUpload := v;
     job_ExpectedIntervalMinutes := job_ExpectedIntervalMinutes r; job_Tags := job_Tags r;
     job_CreatedAt := job_CreatedAt r; job_UpdatedAt := job_UpdatedAt r; job_SourceName :=
     job_SourceName r; job_SourceKind := job_SourceKind r; job_DestinationNames :=
     job_DestinationNames r; job_LastRun := job_LastRun r; job_NextRunAt := job_NextRunAt r;
     job_Overdue := job_Overdue r; job_ArtifactCount := job_ArtifactCount r; job_TotalBytes :=
     job_TotalBytes r |}.
Definition set_job_ExpectedIntervalMinutes (v : Z) (r : Job) : Job :=
  {| job_ID := job_ID r; job_Slug := job_Slug r; job_Name := job_Name r; job_Description :=
     job_Description r; job_SourceID := job_SourceID r; job_DestinationIDs := job_DestinationIDs r;
     job_Schedule := job_Schedule r; job_Timezone := job_Timezone r; job_Enabled := job_Enabled r;
     job_Compression := job_Compression r; job_CompressionLevel := job_CompressionLevel r;
     job_Encryption := job_Encryption r; job_EncryptionPassphrase := job_EncryptionPassphrase r;
     job_Retention := job_Retention r; job_NotificationChannelIDs := job_NotificationChannelIDs r;
     job_NotifyOn := job_NotifyOn r; job_TimeoutMinutes := job_TimeoutMinutes r; job_Retries :=
     job_Retries r; job_RetryDelaySeconds := job_RetryDelaySeconds r; job_PreCommand :=
     job_PreCommand r; job_PostCommand := job_PostCommand r; job_VerifyAfterUpload :=
     job_VerifyAfterUpload r; job_ExpectedIntervalMinutes := v; job_Tags := job_Tags r;
     job_CreatedAt := job_CreatedAt r; job_UpdatedAt := job_UpdatedAt r; job_SourceName :=
     job_SourceName r; job_SourceKind := job_SourceKind r; job_DestinationNames :=
     job_DestinationNames r; job_LastRun := job_LastRun r; job_NextRunAt := job_NextRunAt r;
     job_Overdue := job_Overdue r; job_ArtifactCount := job_ArtifactCount r; job_TotalBytes :=
     job_TotalBytes r |}.
Definition set_job_Tags (v : list string) (r : Job) : Job :=
  {| job_ID := job_ID r; job_Slug := job_Slug r; job_Name := job_Name r; job_Description :=
     job_Description r; job_SourceID := job_SourceID r; job_DestinationIDs := job_DestinationIDs r;
     job_Schedule := job_Schedule r; job_Timezone := job_Timezone r; job_Enabled := job_Enabled r;
     job_Compression := job_Compression r; job_CompressionLevel := job_CompressionLevel r;
     job_Encryption := job_Encryption r; job_EncryptionPassphrase := job_EncryptionPassphrase r;
     job_Retention := job_Retention r; job_NotificationChannelIDs := job_NotificationChannelIDs r;
     job_NotifyOn := job_NotifyOn r; job_TimeoutMinutes := job_TimeoutMinutes r; job_Retries :=
     job_Retries r; job_RetryDelaySeconds := job_RetryDelaySeconds r; job_PreCommand :=
     job_PreCommand r; job_PostCommand := job_PostCommand r; job_VerifyAfterUpload :=
     job_VerifyAfterUpload r; job_ExpectedIntervalMinutes := job_ExpectedIntervalMinutes r; job_Tags
     := v; job_CreatedAt := job_CreatedAt r; job_UpdatedAt := job_UpdatedAt r; job_SourceName :=
     job_SourceName r; job_SourceKind := job_SourceKind r; job_DestinationNames :=
     job_DestinationNames r; job_LastRun := job_LastRun r; job_NextRunAt := job_NextRunAt r;
     job_Overdue := job_Overdue r; job_ArtifactCount := job_ArtifactCount r; job_TotalBytes :=
     job_TotalBytes r |}.
