(* ===== verification/Config.v ===== *)
(** * Driver configurations: [internal/core/config.go] and the host entry

    The typed readers of a [Config], masking and merging of secret fields, the
    host entry and the required-field check. *)
From S2P Require Import Prelude GoStrings GoTime Core.

(** [fmt.Sprint] of a [core.Host] prints the addresses its pointer fields
    hold: its text is a parameter of the readers that could print one. *)
Class SprintHost := sprintHost : Host -> string.

Definition FormatBool (b : bool) : string := if b then "true" else "false".

Definition HostConfigKey : string := "_host".

Section readers.
  Context {sprint_host : SprintHost}.

(** [fmt.Sprint(v)]. *)
Fixpoint Sprint (v : Value) : string :=
  match v with
  | VNil => "<nil>"
  | VString s | VStringer s | VOther s => s
  | VInt n | VInt64 n => Itoa n
  | VFloat f => f_sprint f
  | VBool b => FormatBool b
  | VStrings l => "[" +:+ StrJoin l " " +:+ "]"
  | VList l => "[" +:+ StrJoin (List.map Sprint l) " " +:+ "]"
  | VHost h => sprintHost h
  end.

Definition Has (c : Config) (key : string) : bool :=
  match c !! key with
  | None | Some VNil => false
  | Some (VString s) => negb (Blank s)
  | Some _ => true
  end.

Definition Config_String (c : Config) (key : string) : string :=
  match c !! key with
  | None | Some VNil => ""
  | Some (VFloat f) => if f_integral f then Itoa (f_int64 f) else f_text f
  | Some v => Sprint v
  end.

Definition StringOr (c : Config) (key def : string) : string :=
  let s := TrimSpace (Config_String c key) in
  if bool_decide (s ≠ "") then s else def.

Definition Int (c : Config) (key : string) (def : Z) : Z :=
  match c !! key with
  | Some (VInt n) | Some (VInt64 n) => n
  | Some (VFloat f) => f_int64 f
  | Some (VString t) =>
      if bool_decide (t = "") then def else default def (Atoi (TrimSpace t))
  | _ => def
  end.

Definition Int64 (c : Config) (key : string) (def : Z) : Z :=
  match c !! key with
  | Some (VInt n) | Some (VInt64 n) => n
  | Some (VFloat f) => f_int64 f
  | Some (VString t) => default def (Atoi (TrimSpace t))
  | _ => def
  end.

Definition Bool (c : Config) (key : string) (def : bool) : bool :=
  match c !! key with
  | Some (VBool b) => b
  | Some (VString t) =>
      let w := ToLower (TrimSpace t) in
      if existsb (String.eqb w) ["1"; "true"; "yes"; "on"] then true
      else if existsb (String.eqb w) ["0"; "false"; "no"; "off"] then false
      else def
  | Some (VFloat f) => negb (f_integral f && (f_int64 f =? 0)%Z)
  | Some (VInt n) => negb (n =? 0)%Z
  | _ => def
  end.

(** The trimmed, non-empty strings of a list. *)
Definition trimmed (l : list string) : list string :=
  filter (λ s, s ≠ "") (TrimSpace <$> l).

Definition is_separator (a : ascii) : bool :=
  Ascii.eqb a "," || Ascii.eqb a (byte_of 10).

Definition StringList (c : Config) (key : string) : list string :=
  match c !! key with
  | Some (VStrings l) => trimmed l
  | Some (VList l) =>
      trimmed (Sprint <$> List.filter (λ v, match v with VNil => false | _ => true end) l)
  | Some (VString t) => trimmed (FieldsFunc t is_separator)
  | _ => []
  end.

Definition Clone (c : Config) : Config := c.

Definition Masked (c : Config) (secretFields : list string) : Config :=
  foldl (λ out f, if Has out f then <[f := VString SecretMask]> out else out)
    (Clone c) secretFields.

Definition MergeSecrets (c previous : Config) (secretFields : list string) : Config :=
  foldl (λ out f,
      if bool_decide (Config_String out f = SecretMask)
      then match previous !! f with
           | Some prev => <[f := prev]> out
           | None => delete f out
           end
      else out)
    (Clone c) secretFields.

(** ** The host entry *)

Definition WithHost (c : Config) (h : option Host) : Config :=
  match h with
  | None => delete HostConfigKey (Clone c)
  | Some h => <[HostConfigKey := VHost h]> (Clone c)
  end.

Definition Config_Host (c : Config) : option Host :=
  match c !! HostConfigKey with
  | Some (VHost h) => Some h
  | _ => None
  end.

(** ** Required fields *)

Definition showIfEntry (cfg : Config) (entry : string * Value) : bool :=
  let '(k, want) := entry in
  let got := Config_String cfg k in
  match want with
  | VStrings w => existsb (λ s, String.eqb s got) w
  | VList w => existsb (λ s, String.eqb (Sprint s) got) w
  | VBool w => Bool.eqb (Bool cfg k false) w
  | w => String.eqb (Sprint w) got
  end.

(** The loop over the map stops at the first entry that fails: the order Go
    ranges in does not matter. *)
Definition showIfMatches (showIf : gmap string Value) (cfg : Config) : bool :=
  forallb (showIfEntry cfg) (map_to_list showIf).

(** A field that must be filled in and is not. *)
Definition missingField (cfg : Config) (f : Field) : bool :=
  if negb (field_Required f) then false
  else if bool_decide (is_Some (Config_Host cfg)) && field_LocalOnly f then false
  else if negb (showIfMatches (field_ShowIf f) cfg) then false
  else if negb (Has cfg (field_Name f))
       then match field_Default f with VNil => true | _ => false end
       else false.

Definition ValidateRequired (spec : DriverSpec) (cfg : Config) : option error :=
  let missing := field_Label <$> List.filter (missingField cfg) (spec_Fields spec) in
  if bool_decide (missing ≠ [])
  then Some (newError ("missing required fields: " +:+ StrJoin missing ", "))
  else None.

(** ** Masking and merging *)

Lemma Config_String_ext c c' k : c !! k = c' !! k -> Config_String c k = Config_String c' k.
Proof. unfold Config_String. by intros ->. Qed.

Lemma Has_ext c c' k : c !! k = c' !! k -> Has c k = Has c' k.
Proof. unfold Has. by intros ->. Qed.

Lemma Masked_lookup c fs k :
  Masked c fs !! k =
  if bool_decide (k ∈ fs) && Has c k then Some (VString SecretMask) else c !! k.
Proof.
  unfold Masked, Clone. induction fs as [|f fs IH] using rev_ind.
  { rewrite bool_decide_eq_false_2 by set_solver. done. }
  rewrite foldl_app. simpl. set (m := foldl _ c fs) in *.
  destruct (decide (k = f)) as [->|Hk].
  - rewrite bool_decide_eq_true_2 by set_solver. simpl.
    assert (Hh : Has m f = Has c f).
    { unfold Has. rewrite IH. destruct (bool_decide (f ∈ fs)); [|done]. simpl.
      destruct (Has c f) eqn:E; unfold Has in E; [|done]. by rewrite E. }
    rewrite Hh. destruct (Has c f) eqn:E; [by rewrite lookup_insert_eq|].
    rewrite IH. by rewrite andb_false_r.
  - rewrite (bool_decide_ext (k ∈ fs ++ [f]) (k ∈ fs)) by set_solver.
    rewrite <- IH. destruct (Has m f); [by rewrite lookup_insert_ne|done].
Qed.

Lemma MergeSecrets_lookup c p fs k :
  MergeSecrets c p fs !! k =
  if bool_decide (k ∈ fs ∧ Config_String c k = SecretMask) then p !! k else c !! k.
Proof.
  unfold MergeSecrets, Clone. induction fs as [|f fs IH] using rev_ind.
  { rewrite bool_decide_eq_false_2 by set_solver. done. }
  rewrite foldl_app. simpl. set (m := foldl _ c fs) in *.
  destruct (decide (k = f)) as [->|Hk].
  - assert (Hf : f ∈ fs ++ [f]) by set_solver.
    destruct (decide (Config_String m f = SecretMask)) as [Hm|Hm].
    + rewrite (bool_decide_eq_true_2 _ Hm).
      assert (Hr : (match p !! f with Some prev => <[f:=prev]> m | None => delete f m end) !! f = p !! f).
      { destruct (p !! f) eqn:E; [by rewrite lookup_insert_eq|by rewrite lookup_delete_eq]. }
      rewrite Hr. clear Hr.
      destruct (decide (Config_String c f = SecretMask)) as [Hc|Hc].
      { by rewrite bool_decide_eq_true_2. }
      rewrite (bool_decide_eq_false_2 (f ∈ fs ∧ _)) in IH by tauto.
      destruct Hc. rewrite <- Hm. by apply Config_String_ext.
    + rewrite (bool_decide_eq_false_2 _ Hm). rewrite IH.
      destruct (decide (Config_String c f = SecretMask)) as [Hc|Hc].
      2: { by rewrite !bool_decide_eq_false_2 by tauto. }
      destruct (decide (f ∈ fs)); [by rewrite !bool_decide_eq_true_2|].
      rewrite (bool_decide_eq_false_2 (f ∈ fs ∧ _)) in IH by tauto.
      destruct Hm. rewrite <- Hc. by apply Config_String_ext.
  - rewrite (bool_decide_ext (k ∈ fs ++ [f] ∧ _) (k ∈ fs ∧ Config_String c k = SecretMask)) by set_solver.
    rewrite <- IH. destruct (bool_decide (Config_String m f = SecretMask)); [|done].
    destruct (p !! f); [by rewrite lookup_insert_ne|by rewrite lookup_delete_ne].
Qed.

Lemma Has_false_not_mask c k : Has c k = false -> Config_String c k ≠ SecretMask.
Proof.
  unfold Has, Config_String. destruct (c !! k) as [[]|]; simpl; try done.
  intros E ->. vm_compute in E. done.
Qed.

(** what is shown to a client and sent back unchanged restores the stored
    configuration, secrets included. *)
Theorem MergeSecrets_Masked c fs : MergeSecrets (Masked c fs) c fs = c.
Proof.
  apply map_eq. intros k. rewrite MergeSecrets_lookup, Masked_lookup.
  case_bool_decide as E; [done|]. destruct (bool_decide (k ∈ fs)) eqn:F; [|done]. boolean. simpl.
  destruct (Has c k) eqn:G; [|done]. destruct E. split; [done|].
  unfold Config_String. rewrite Masked_lookup, G, bool_decide_eq_true_2 by done. done.
Qed.

End readers.
