(* ===== verification/GoSlices.v ===== *)
(** * Go's [slices] and [sort], as far as the program uses them *)
From S2P Require Import Prelude.
From stdpp Require Export sorting.

Section sort.
  Context {A : Type} (less : A -> A -> bool).

(** Insert [x], which precedes [l] in the input, into the sorted [l]: it goes
    before the elements that are not less than it. *)
Fixpoint insertStable (x : A) (l : list A) : list A :=
  match l with
  | [] => [x]
  | y :: l' => if less y x then y :: insertStable x l' else x :: y :: l'
  end.

(** [sort.SliceStable(l, less)]. *)
Definition SliceStable (l : list A) : list A := foldr insertStable [] l.

Lemma insertStable_perm x l : insertStable x l ≡ₚ x :: l.
Proof.
  induction l as [|y l IH]; [done|]. simpl. case_match; [|done].
  rewrite IH. apply Permutation_swap.
Qed.

Lemma SliceStable_perm l : SliceStable l ≡ₚ l.
Proof. induction l as [|x l IH]; [done|]. simpl. by rewrite insertStable_perm, IH. Qed.

(** [less] is a strict weak order: its negation is a total preorder. *)
Definition notLess (x y : A) : Prop := less y x = false.

Lemma SliceStable_sorted l :
  (∀ x y, less x y = true -> less y x = false) ->
  (∀ x y z, notLess x y -> notLess y z -> notLess x z) ->
  StronglySorted notLess (SliceStable l).
Proof.
  intros Hasym Htrans. induction l as [|x l IH]; simpl; [constructor|].
  induction IH as [|y k Hk IHk Hall]; simpl; [repeat constructor|].
  destruct (less y x) eqn:E.
  - constructor; [done|]. rewrite insertStable_perm. constructor; [by apply Hasym|done].
  - constructor; [by constructor|]. constructor; [done|].
    eapply Forall_impl; [exact Hall|]. intros z Hz. by eapply Htrans.
Qed.

Lemma SliceStable_id l : StronglySorted notLess l -> SliceStable l = l.
Proof.
  induction 1 as [|x l Hl IH Hall]; [done|]. simpl. rewrite IH.
  destruct l as [|y l]; [done|]. simpl. inversion Hall as [|? ? Hy]; subst.
  unfold notLess in Hy. by rewrite Hy.
Qed.
End sort.

Lemma StronglySorted_sublist {A} (R : A -> A -> Prop) (l k : list A) :
  l `sublist_of` k -> StronglySorted R k -> StronglySorted R l.
Proof.
  induction 1 as [|x l k Hlk IH|x l k Hlk IH]; intros H; [done| |].
  - inversion H; subst. constructor; [by apply IH|].
    apply Forall_forall. intros y Hy.
    match goal with H : Forall _ k |- _ => apply (proj1 (Forall_forall _ _) H) end.
    by eapply elem_of_sublist.
  - inversion H; subst. by apply IH.
Qed.

Lemma StronglySorted_weaken {A} (R S : A -> A -> Prop) (l : list A) :
  (∀ x y, R x y -> S x y) -> StronglySorted R l -> StronglySorted S l.
Proof. intros H. induction 1; constructor; [done|]. eapply Forall_impl; eauto. Qed.

(** ** The order of strings *)

Lemma ltb_cons a s b t :
  String.ltb (String a s) (String b t)
  = if (N_of_ascii a <? N_of_ascii b)%N then true
    else if (N_of_ascii b <? N_of_ascii a)%N then false else String.ltb s t.
Proof.
  unfold String.ltb. cbn [String.compare]. unfold Ascii.compare.
  destruct (N.compare_spec (N_of_ascii a) (N_of_ascii b)) as [E|E|E].
  - rewrite E, !N.ltb_irrefl. done.
  - by rewrite (proj2 (N.ltb_lt _ _) E).
  - rewrite (proj2 (N.ltb_lt _ _) E). assert ((N_of_ascii a <? N_of_ascii b)%N = false) as ->; [|done]. apply N.ltb_ge. lia.
Qed.

Lemma ltb_asym s t : String.ltb s t = true -> String.ltb t s = false.
Proof.
  revert t. induction s as [|a s IH]; intros [|b t]; try done. rewrite !ltb_cons.
  destruct (N.ltb_spec (N_of_ascii a) (N_of_ascii b)), (N.ltb_spec (N_of_ascii b) (N_of_ascii a)); try done; [lia|auto].
Qed.

Lemma ltb_le_trans s t u : String.ltb t s = false -> String.ltb u t = false -> String.ltb u s = false.
Proof.
  revert t u. induction s as [|a s IH]; intros [|b t] [|c u]; try done. rewrite !ltb_cons.
  destruct (N.ltb_spec (N_of_ascii b) (N_of_ascii a)), (N.ltb_spec (N_of_ascii a) (N_of_ascii b)),
    (N.ltb_spec (N_of_ascii c) (N_of_ascii b)), (N.ltb_spec (N_of_ascii b) (N_of_ascii c)),
    (N.ltb_spec (N_of_ascii c) (N_of_ascii a)), (N.ltb_spec (N_of_ascii a) (N_of_ascii c)); try done; try lia. eauto.
Qed.

(** Sorting by a text. *)
Lemma SliceStable_text {A} (key : A -> string) l :
  StronglySorted (λ x y, String.ltb (key y) (key x) = false) (SliceStable (λ x y, String.ltb (key x) (key y)) l).
Proof. apply SliceStable_sorted; [intros x y; apply ltb_asym|intros x y z Hxy Hyz; unfold notLess in *; by eapply ltb_le_trans]. Qed.
