(* ===== verification/Retention.v ===== *)
(** * The retention planner: [internal/engine/retention.go]

    [Plan] splits the present artifacts of one destination into those that
    stay and those that go.  The model keeps the loops and the array [kept] of
    the code; [sieve] is the reference definition it is proved equal to: one
    pass over the artifacts, newest first, that keeps an artifact when a rule
    says so given the newer ones. *)
From S2P Require Import Prelude GoStrings GoTime GoSlices Core.
Open Scope Z_scope.

(** ** The code *)

Definition hourKey (t : Time) : string := fmt_hour t.
Definition dayKey (t : Time) : string := fmt_date t.
Definition weekKey (t : Time) : string :=
  let '(y, w) := ISOWeek t in pad0 4 y +:+ "-W" +:+ pad0 2 w.
Definition monthKey (t : Time) : string := fmt_month t.
Definition yearKey (t : Time) : string := fmt_year t.

(** The loop of [applyBucket] from index [i] on: [seen] are the keys met,
    [taken] how many. *)
Fixpoint bucketLoop (items : list Artifact) (i : nat) (seen : gset string) (taken : Z)
    (kept : list bool) (count : Z) (key : Time -> string) : list bool :=
  match items with
  | [] => kept
  | x :: rest =>
      let k := key (art_CreatedAt x) in
      if bool_decide (k ∈ seen) then bucketLoop rest (S i) seen taken kept count key
      else
        let seen := {[k]} ∪ seen in
        let kept := <[i := true]> kept in
        let taken := taken + 1 in
        if count <=? taken then kept
        else bucketLoop rest (S i) seen taken kept count key
  end.

Definition applyBucket (items : list Artifact) (kept : list bool) (count : Z)
    (key : Time -> string) : list bool :=
  if count <=? 0 then kept else bucketLoop items 0 ∅ 0 kept count key.

(** [for i := 0; i < n && i < len(items); i++ { kept[i] = true }]. *)
Definition keepFirst (n : Z) (kept : list bool) : list bool :=
  foldl (λ k i, <[i := true]> k) kept (seq 0 (Nat.min (Z.to_nat n) (length kept))).

(** The loop of the age rule. *)
Definition keepYoung (items : list Artifact) (cutoff : Time) (kept : list bool) : list bool :=
  zip_with (λ a b, if negb (Before (art_CreatedAt a) cutoff) then true else b) items kept.

(** The final loop: [keep] and [remove] in the order of [items]. *)
Fixpoint splitKept (items : list Artifact) (kept : list bool) : list Artifact * list Artifact :=
  match items, kept with
  | x :: items', b :: kept' =>
      let '(keep, remove) := splitKept items' kept' in
      if b : bool then (x :: keep, remove) else (keep, x :: remove)
  | _, _ => ([], [])
  end.

Definition hasKeepRule (r : Retention) : bool :=
  (KeepLast r >? 0) || (KeepHourly r >? 0) || (KeepDaily r >? 0)
  || (KeepWeekly r >? 0) || (KeepMonthly r >? 0) || (KeepYearly r >? 0).

Definition newer (a b : Artifact) : bool := After (art_CreatedAt a) (art_CreatedAt b).

Definition Plan (artifacts : list Artifact) (r : Retention) (now : Time)
    : list Artifact * list Artifact :=
  let items := SliceStable newer artifacts in
  if (length items =? 0)%nat then ([], [])
  else if Retention_IsZero r then (items, [])
  else
    let kept := replicate (length items) false in
    let kept := <[0%nat := true]> kept in
    let kept := if KeepLast r >? 0 then keepFirst (KeepLast r) kept else kept in
    let kept := applyBucket items kept (KeepHourly r) hourKey in
    let kept := applyBucket items kept (KeepDaily r) dayKey in
    let kept := applyBucket items kept (KeepWeekly r) weekKey in
    let kept := applyBucket items kept (KeepMonthly r) monthKey in
    let kept := applyBucket items kept (KeepYearly r) yearKey in
    let kept :=
      if negb (hasKeepRule r) && (MaxAgeDays r >? 0)
      then keepYoung items (AddDays now (- MaxAgeDays r)) kept
      else kept in
    splitKept items kept.

Definition EffectiveRetention (job : Job) (settings : Settings) : Retention :=
  if Retention_IsZero (job_Retention job) then DefaultRetention settings else job_Retention job.

(** ** The reference: which artifacts a policy keeps

    [prefix] are the newer artifacts. *)

Definition bucketKeys (key : Time -> string) (prefix : list Artifact) : gset string :=
  list_to_set ((λ a, key (art_CreatedAt a)) <$> prefix).

(** The rule "the newest of each of the [count] most recent buckets". *)
Definition bucketRule (count : Z) (key : Time -> string) (prefix : list Artifact) (a : Artifact) : bool :=
  (0 <? count)
  && bool_decide (key (art_CreatedAt a) ∉ bucketKeys key prefix)
  && (Z.of_nat (size (bucketKeys key prefix)) <? count).

Definition lastRule (n : Z) (prefix : list Artifact) : bool := Z.of_nat (length prefix) <? n.

Definition ageRule (r : Retention) (now : Time) (a : Artifact) : bool :=
  negb (hasKeepRule r) && (0 <? MaxAgeDays r)
  && negb (Before (art_CreatedAt a) (AddDays now (- MaxAgeDays r))).

Definition ruleKeeps (r : Retention) (now : Time) (prefix : list Artifact) (a : Artifact) : bool :=
  (length prefix =? 0)%nat
  || lastRule (KeepLast r) prefix
  || bucketRule (KeepHourly r) hourKey prefix a
  || bucketRule (KeepDaily r) dayKey prefix a
  || bucketRule (KeepWeekly r) weekKey prefix a
  || bucketRule (KeepMonthly r) monthKey prefix a
  || bucketRule (KeepYearly r) yearKey prefix a
  || ageRule r now a.

Fixpoint sieve (P : list Artifact -> Artifact -> bool) (prefix items : list Artifact)
    : list Artifact * list Artifact :=
  match items with
  | [] => ([], [])
  | x :: rest =>
      let '(keep, remove) := sieve P (prefix ++ [x]) rest in
      if P prefix x then (x :: keep, remove) else (keep, x :: remove)
  end.

(** ** The array [kept] follows the rules *)

Definition follows (items : list Artifact) (kept : list bool) (f : list Artifact -> Artifact -> bool) : Prop :=
  length kept = length items
  ∧ ∀ i x, items !! i = Some x -> kept !! i = Some (f (take i items) x).

Lemma follows_ext items kept f g :
  follows items kept f -> (∀ p x, f p x = g p x) -> follows items kept g.
Proof. intros [Hl H] E. split; [done|]. intros i x Hx. rewrite <- E. by apply H. Qed.

Lemma bucketLoop_lookup key count items i seen taken kept :
  taken = Z.of_nat (size seen) -> taken < count ->
  (i + length items)%nat = length kept ->
  length (bucketLoop items i seen taken kept count key) = length kept
  ∧ (∀ j, (j < i)%nat -> bucketLoop items i seen taken kept count key !! j = kept !! j)
  ∧ (∀ j x b, items !! j = Some x -> kept !! (i + j)%nat = Some b ->
       bucketLoop items i seen taken kept count key !! (i + j)%nat
       = Some (b || (bool_decide (key (art_CreatedAt x) ∉ seen ∪ bucketKeys key (take j items))
                     && (Z.of_nat (size (seen ∪ bucketKeys key (take j items))) <? count)))).
Proof.
  revert i seen taken kept. induction items as [|y rest IH]; intros i seen taken kept Ht Hc Hlen; simpl in *.
  { split; [done|]. split; [done|]. intros j x b Hx. by rewrite lookup_nil in Hx. }
  set (k := key (art_CreatedAt y)).
  assert (Hsplit : ∀ j, bucketKeys key (y :: take j rest) = {[k]} ∪ bucketKeys key (take j rest)) by done.
  destruct (decide (k ∈ seen)) as [Hin|Hin].
  - rewrite bool_decide_eq_true_2 by done.
    destruct (IH (S i) seen taken kept) as (L & Hlt & Hge); [done..|lia|].
    split; [done|]. split; [intros j Hj; apply Hlt; lia|].
    intros [|j] x b Hx Hb; simpl in *.
    + simplify_eq. rewrite Hlt by lia. rewrite Hb. f_equal.
      rewrite bool_decide_eq_false_2; [by rewrite andb_false_l, orb_false_r|]. set_solver.
    + rewrite Hsplit. rewrite (assoc_L (∪)), (comm_L (∪) seen), <- (assoc_L (∪)).
      replace ({[k]} ∪ (seen ∪ bucketKeys key (take j rest)))
        with (seen ∪ bucketKeys key (take j rest)) by set_solver.
      replace (i + S j)%nat with (S i + j)%nat in * by lia. by apply Hge.
  - rewrite bool_decide_eq_false_2 by done.
    assert (Hsz : size ({[k]} ∪ seen) = S (size seen)).
    { rewrite size_union by set_solver. by rewrite size_singleton. }
    destruct (Z.leb_spec count (taken + 1)) as [Hend|Hgo].
    + rewrite length_insert. split; [done|].
      split; [intros j Hj; by rewrite list_lookup_insert_ne by lia|].
      intros [|j] x b Hx Hb; simpl in *.
      * simplify_eq. rewrite Nat.add_0_r, list_lookup_insert_eq by lia.
        unfold bucketKeys. simpl. rewrite (right_id_L ∅ (∪)).
        rewrite bool_decide_eq_true_2 by done.
        rewrite (proj2 (Z.ltb_lt _ _)) by lia. by rewrite orb_true_r.
      * rewrite list_lookup_insert_ne by lia. rewrite Hb. f_equal.
        rewrite (proj2 (Z.ltb_ge _ _)); [by rewrite andb_false_r, orb_false_r|].
        assert (size ({[k]} ∪ seen) ≤ size (seen ∪ bucketKeys key (y :: take j rest)))%nat; [|lia].
        apply subseteq_size. rewrite Hsplit. set_solver.
    + destruct (IH (S i) ({[k]} ∪ seen) (taken + 1) (<[i:=true]> kept)) as (L & Hlt & Hge);
        [lia|lia|rewrite length_insert; lia|].
      rewrite length_insert in L. split; [done|].
      split; [intros j Hj; rewrite Hlt by lia; by rewrite list_lookup_insert_ne by lia|].
      intros [|j] x b Hx Hb; simpl in *.
      * simplify_eq. rewrite Nat.add_0_r, Hlt, list_lookup_insert_eq by lia.
        unfold bucketKeys. simpl. rewrite (right_id_L ∅ (∪)).
        rewrite bool_decide_eq_true_2 by done.
        rewrite (proj2 (Z.ltb_lt _ _)) by lia. by rewrite orb_true_r.
      * rewrite Hsplit, (assoc_L (∪)), (comm_L (∪) seen).
        replace (i + S j)%nat with (S i + j)%nat in * by lia. apply Hge; [done|].
        by rewrite list_lookup_insert_ne by lia.
Qed.

Lemma applyBucket_follows items kept f count key :
  follows items kept f ->
  follows items (applyBucket items kept count key) (λ p x, f p x || bucketRule count key p x).
Proof.
  intros [Hl H]. unfold applyBucket. destruct (Z.leb_spec count 0) as [Hc|Hc].
  - apply (follows_ext _ _ f); [by split|]. intros p x. unfold bucketRule.
    rewrite (proj2 (Z.ltb_ge _ _)) by lia. by rewrite orb_false_r.
  - destruct (bucketLoop_lookup key count items 0 ∅ 0 kept) as (L & _ & Hge); [done|lia|done|].
    split; [congruence|]. intros i x Hx. pose proof (Hge i x _ Hx (H i x Hx)) as G. simpl in G. rewrite G. clear G.
    rewrite (left_id_L ∅ (∪)). unfold bucketRule. by rewrite (proj2 (Z.ltb_lt 0 count)) by lia.
Qed.

Lemma set_prefix_lookup n kept i :
  foldl (λ (k : list bool) (i : nat), <[i := true]> k) kept (seq 0 n) !! i
  = (λ b, (i <? n)%nat || b) <$> kept !! i.
Proof.
  induction n as [|n IH]; [simpl; by destruct (kept !! i)|].
  rewrite seq_S, foldl_app. simpl.
  destruct (decide (i = n)) as [->|Hne].
  - rewrite (proj2 (Nat.ltb_lt n (S n))) by lia. rewrite Nat.ltb_irrefl in IH.
    destruct (kept !! n) eqn:E; simpl in *.
    + rewrite list_lookup_insert_eq; [done|]. by apply lookup_lt_Some in IH.
    + apply lookup_ge_None in IH. apply lookup_ge_None. by rewrite length_insert.
  - rewrite list_lookup_insert_ne by done. rewrite IH.
    destruct (kept !! i); [|done]. simpl. do 2 f_equal.
    destruct (Nat.ltb_spec i n), (Nat.ltb_spec i (S n)); lia || done.
Qed.

Lemma keepFirst_follows items kept f n :
  follows items kept f ->
  follows items (if n >? 0 then keepFirst n kept else kept) (λ p x, f p x || lastRule n p).
Proof.
  intros [Hl H]. destruct (Z.gtb_spec n 0) as [Hn|Hn].
  - assert (Hlk : ∀ i, keepFirst n kept !! i = (λ b, (i <? Nat.min (Z.to_nat n) (length kept))%nat || b) <$> kept !! i).
    { intros i. apply set_prefix_lookup. }
    split.
    + unfold keepFirst. generalize (seq 0 (Nat.min (Z.to_nat n) (length kept))).
      intros s. rewrite <- Hl. clear. revert kept. induction s as [|a s IH]; intros kept; [done|].
      simpl. by rewrite IH, length_insert.
    + intros i x Hx. rewrite Hlk, (H i x Hx). simpl. f_equal. rewrite orb_comm. f_equal.
      pose proof (lookup_lt_Some _ _ _ Hx). unfold lastRule. rewrite length_take_le by lia.
      destruct (Nat.ltb_spec i (Nat.min (Z.to_nat n) (length kept))), (Z.ltb_spec (Z.of_nat i) n); lia || done.
  - apply (follows_ext _ _ f); [by split|]. intros p x. unfold lastRule.
    rewrite (proj2 (Z.ltb_ge _ _)) by lia. by rewrite orb_false_r.
Qed.

Lemma keepYoung_follows items kept f r now :
  follows items kept f ->
  follows items
    (if negb (hasKeepRule r) && (MaxAgeDays r >? 0)
     then keepYoung items (AddDays now (- MaxAgeDays r)) kept else kept)
    (λ p x, f p x || ageRule r now x).
Proof.
  intros [Hl H]. rewrite Z.gtb_ltb. destruct (negb _ && _) eqn:E.
  - split; [unfold keepYoung; rewrite length_zip_with; lia|].
    intros i x Hx. unfold keepYoung. rewrite lookup_zip_with, Hx, (H i x Hx). simpl.
    unfold ageRule. rewrite E. simpl. destruct (negb (Before _ _)); by rewrite ?orb_true_r, ?orb_false_r.
  - apply (follows_ext _ _ f); [by split|]. intros p x. unfold ageRule.
    rewrite E. by rewrite orb_false_r.
Qed.

Lemma first_follows items :
  follows items (<[0%nat := true]> (replicate (length items) false)) (λ p _, (length p =? 0)%nat).
Proof.
  split; [by rewrite length_insert, length_replicate|].
  intros [|i] x Hx; pose proof (lookup_lt_Some _ _ _ Hx) as Hlt.
  - simpl. by rewrite list_lookup_insert_eq by (rewrite length_replicate; lia).
  - rewrite list_lookup_insert_ne by done. rewrite lookup_replicate_2 by lia.
    rewrite length_take_le by lia. done.
Qed.

Lemma splitKept_sieve prefix items kept f :
  length kept = length items ->
  (∀ i x, items !! i = Some x -> kept !! i = Some (f (prefix ++ take i items) x)) ->
  splitKept items kept = sieve f prefix items.
Proof.
  revert prefix kept. induction items as [|x items IH]; intros prefix [|b kept] Hl H; try done.
  simpl. rewrite (IH (prefix ++ [x])); [|simpl in Hl; lia|].
  - specialize (H 0%nat x eq_refl). simpl in H. rewrite app_nil_r in H.
    injection H as ->. by destruct (sieve f (prefix ++ [x]) items), (f prefix x).
  - intros i y Hy. specialize (H (S i) y Hy). simpl in H.
    by rewrite <- app_assoc.
Qed.

Lemma Plan_sieve artifacts r now :
  Retention_IsZero r = false ->
  Plan artifacts r now = sieve (ruleKeeps r now) [] (SliceStable newer artifacts).
Proof.
  intros Hr. unfold Plan. set (items := SliceStable newer artifacts). rewrite Hr.
  destruct (Nat.eqb_spec (length items) 0) as [E|_].
  { by destruct items. }
  pose proof (first_follows items) as F.
  apply (keepFirst_follows _ _ _ (KeepLast r)) in F.
  apply (applyBucket_follows _ _ _ (KeepHourly r) hourKey) in F.
  apply (applyBucket_follows _ _ _ (KeepDaily r) dayKey) in F.
  apply (applyBucket_follows _ _ _ (KeepWeekly r) weekKey) in F.
  apply (applyBucket_follows _ _ _ (KeepMonthly r) monthKey) in F.
  apply (applyBucket_follows _ _ _ (KeepYearly r) yearKey) in F.
  apply (keepYoung_follows _ _ _ r now) in F.
  destruct F as [Fl F]. apply splitKept_sieve; [exact Fl|exact F].
Qed.

(** ** What the planner guarantees *)

Lemma sieve_perm P prefix items :
  (sieve P prefix items).1 ++ (sieve P prefix items).2 ≡ₚ items.
Proof.
  revert prefix. induction items as [|x items IH]; intros prefix; [done|]. simpl.
  specialize (IH (prefix ++ [x])). destruct (sieve P (prefix ++ [x]) items) as [k rm]. simpl in *.
  destruct (P prefix x); simpl; rewrite <- IH; [done|]. by rewrite Permutation_middle.
Qed.

Lemma sieve_sublist P prefix items :
  (sieve P prefix items).1 `sublist_of` items ∧ (sieve P prefix items).2 `sublist_of` items.
Proof.
  revert prefix. induction items as [|x items IH]; intros prefix; [done|]. simpl.
  specialize (IH (prefix ++ [x])). destruct (sieve P (prefix ++ [x]) items) as [k rm]. simpl in *.
  destruct IH. destruct (P prefix x); simpl; split; by constructor.
Qed.

(** A policy that keeps more when fewer artifacts are newer. *)
Definition antitone (P : list Artifact -> Artifact -> bool) : Prop :=
  ∀ p q x, p `sublist_of` q -> P q x = true -> P p x = true.

Lemma sieve_idempotent P prefix prefix' items :
  antitone P -> prefix' `sublist_of` prefix ->
  sieve P prefix' (sieve P prefix items).1 = ((sieve P prefix items).1, []).
Proof.
  intros HP. revert prefix prefix'. induction items as [|x items IH]; intros prefix prefix' Hs; [done|].
  simpl. destruct (sieve P (prefix ++ [x]) items) as [k rm] eqn:E. simpl.
  destruct (P prefix x) eqn:Px; simpl.
  - specialize (IH (prefix ++ [x]) (prefix' ++ [x])). rewrite E in IH. simpl in IH.
    rewrite IH by (by apply sublist_app). by rewrite (HP _ _ _ Hs Px).
  - specialize (IH (prefix ++ [x]) prefix'). rewrite E in IH. simpl in IH. apply IH.
    by apply sublist_inserts_r.
Qed.

Lemma bucketRule_antitone count key : antitone (bucketRule count key).
Proof.
  intros p q x Hs. unfold bucketRule. intros H. boolean.
  assert (Hk : bucketKeys key p ⊆ bucketKeys key q).
  { unfold bucketKeys. intros k. rewrite !elem_of_list_to_set.
    intros Hin. eapply elem_of_sublist; [exact Hin|]. by apply fmap_sublist. }
  pose proof (subseteq_size _ _ Hk).
  rewrite (proj2 (Z.ltb_lt 0 count)) by lia.
  rewrite bool_decide_eq_true_2 by set_solver. simpl. apply Z.ltb_lt. lia.
Qed.

Lemma ruleKeeps_antitone r now : antitone (ruleKeeps r now).
Proof.
  intros p q x Hs. unfold ruleKeeps. intros H.
  assert (Hlen : (length p ≤ length q)%nat) by by apply sublist_length.
  repeat match type of H with
  | (_ || _) = true => apply orb_true_iff in H as [H|H]
  end;
  rewrite ?(bucketRule_antitone _ _ p q x Hs H), ?H, ?orb_true_r; try done.
  - apply Nat.eqb_eq in H. by replace (length p =? 0)%nat with true by (symmetry; apply Nat.eqb_eq; lia).
  - unfold lastRule in *. replace (Z.of_nat (length p) <? KeepLast r) with true; [by rewrite ?orb_true_r|].
    symmetry. apply Z.ltb_lt in H. apply Z.ltb_lt. lia.
Qed.

Lemma newer_notLess a b : notLess newer a b <-> art_CreatedAt b <= art_CreatedAt a.
Proof. unfold notLess, newer, After. apply Z.ltb_ge. Qed.

Lemma sorted_items artifacts : StronglySorted (notLess newer) (SliceStable newer artifacts).
Proof.
  apply SliceStable_sorted.
  - unfold newer, After. intros x y H. apply Z.ltb_lt in H. apply Z.ltb_ge. lia.
  - intros x y z. rewrite !newer_notLess. lia.
Qed.

(** Every path of [Plan] through its definition: a policy of all zeros keeps
    everything, any other is the sieve. *)
Lemma Plan_cases artifacts r now :
  Plan artifacts r now = (SliceStable newer artifacts, [])
  ∨ Plan artifacts r now = sieve (ruleKeeps r now) [] (SliceStable newer artifacts).
Proof.
  destruct (Retention_IsZero r) eqn:E; [|right; by apply Plan_sieve].
  left. unfold Plan. rewrite E. by destruct (SliceStable newer artifacts).
Qed.

Lemma Plan_sublist artifacts r now :
  (Plan artifacts r now).1 `sublist_of` SliceStable newer artifacts
  ∧ (Plan artifacts r now).2 `sublist_of` SliceStable newer artifacts.
Proof.
  destruct (Plan_cases artifacts r now) as [-> | ->]; [|apply sieve_sublist].
  split; [done|apply sublist_nil_l].
Qed.

Lemma weekKey_same t u : weekKey t = weekKey u <-> week_number t = week_number u.
Proof.
  rewrite <- ISOWeek_same. unfold weekKey.
  pose proof (ISOWeek_range t) as Ht. pose proof (ISOWeek_range u) as Hu.
  destruct (ISOWeek t) as [y w], (ISOWeek u) as [y' w']. simpl in *. split; [|by intros [= -> ->]].
  intros E. apply sapp_inj_length in E as [Ey%pad0_inj_all Ew].
  - injection Ew as Ew. apply pad0_inj in Ew; [by subst|lia|lia].
  - simpl. by rewrite !pad0_2_length by lia.
Qed.

(** The bucket keys name what the policy counts: two artifacts share an
    hourly, daily, weekly, monthly or yearly key exactly when they fall in the
    same UTC hour, UTC day, Monday-to-Sunday week, month or year, for every
    date of the calendar. *)
Theorem bucket_keys_name_periods t u :
  (hourKey t = hourKey u <-> t / Hour = u / Hour)
  ∧ (dayKey t = dayKey u <-> t / Day = u / Day)
  ∧ (weekKey t = weekKey u <-> (t / Day + 3) / 7 = (u / Day + 3) / 7)
  ∧ (monthKey t = monthKey u <-> year_of t = year_of u ∧ month_of t = month_of u)
  ∧ (yearKey t = yearKey u <-> year_of t = year_of u).
Proof.
  split_and!; [apply fmt_hour_same|apply fmt_date_same|apply weekKey_same
              |apply fmt_month_same|apply fmt_year_same].
Qed.

(** The artifacts kept and removed are the artifacts. *)
Lemma Plan_perm artifacts r now : (Plan artifacts r now).1 ++ (Plan artifacts r now).2 ≡ₚ artifacts.
Proof.
  rewrite <- (SliceStable_perm newer artifacts) at 3.
  destruct (Plan_cases artifacts r now) as [-> | ->]; [by rewrite app_nil_r|apply sieve_perm].
Qed.

(** The first artifact kept is the newest of all. *)
Lemma Plan_head artifacts r now :
  match (Plan artifacts r now).1 with
  | [] => artifacts = []
  | a :: _ => a ∈ artifacts ∧ Forall (λ b, art_CreatedAt b <= art_CreatedAt a) artifacts
  end.
Proof.
  assert (Hhead : match SliceStable newer artifacts with
                  | [] => artifacts = []
                  | a :: _ => a ∈ artifacts ∧ Forall (λ b, art_CreatedAt b <= art_CreatedAt a) artifacts
                  end).
  { pose proof (sorted_items artifacts) as Hs. pose proof (SliceStable_perm newer artifacts) as Hp.
    destruct (SliceStable newer artifacts) as [|a l].
    - by apply Permutation_nil.
    - split; [rewrite <- Hp; by left|]. rewrite <- Hp. constructor; [lia|].
      inversion Hs as [|? ? _ Hall]; subst. eapply Forall_impl; [exact Hall|]. intros b. apply newer_notLess. }
  destruct (Plan_cases artifacts r now) as [-> | ->]; [done|].
  destruct (SliceStable newer artifacts) as [|a l]; [done|]. simpl.
  by destruct (sieve (ruleKeeps r now) [a] l).
Qed.

(** The planner splits the artifacts: it neither loses nor invents nor
    repeats one, and both lists are in order of age, newest first. *)
Theorem Plan_partition artifacts r now :
  (Plan artifacts r now).1 ++ (Plan artifacts r now).2 ≡ₚ artifacts
  ∧ StronglySorted (λ a b, art_CreatedAt b <= art_CreatedAt a) (Plan artifacts r now).1
  ∧ StronglySorted (λ a b, art_CreatedAt b <= art_CreatedAt a) (Plan artifacts r now).2.
Proof.
  split.
  - apply Plan_perm.
  - pose proof (sorted_items artifacts) as Hs. destruct (Plan_sublist artifacts r now) as [H1 H2].
    split; (eapply StronglySorted_weaken; [intros x y; apply newer_notLess|]);
      by eapply StronglySorted_sublist.
Qed.

(** Whatever the policy, the newest artifact is kept: nothing is kept only
    when there is nothing, and otherwise no artifact is newer than the first
    kept one. *)
Theorem Plan_newest_kept artifacts r now :
  match (Plan artifacts r now).1 with
  | [] => artifacts = []
  | a :: _ => a ∈ artifacts ∧ Forall (λ b, art_CreatedAt b <= art_CreatedAt a) artifacts
  end.
Proof. exact (Plan_head artifacts r now). Qed.

(** C36: the planner, with its array of flags and its early exits, is the sieve:
    an artifact stays exactly when it is the newest, among the [KeepLast]
    newest, the newest of one of the [KeepHourly] (daily, weekly, monthly,
    yearly) most recent buckets, or, when no keep rule is set, young enough. *)
Theorem Plan_exact artifacts r now :
  Plan artifacts r now =
  if Retention_IsZero r then (SliceStable newer artifacts, [])
  else sieve (ruleKeeps r now) [] (SliceStable newer artifacts).
Proof.
  destruct (Retention_IsZero r) eqn:E; [|by apply Plan_sieve].
  unfold Plan. rewrite E. by destruct (SliceStable newer artifacts).
Qed.

(** Planning again over what was kept removes nothing more: retention
    reaches its fixed point in one pass. *)
Theorem Plan_idempotent artifacts r now :
  Plan (Plan artifacts r now).1 r now = ((Plan artifacts r now).1, []).
Proof.
  assert (Hs : SliceStable newer (Plan artifacts r now).1 = (Plan artifacts r now).1).
  { apply SliceStable_id. eapply StronglySorted_sublist; [apply Plan_sublist|apply sorted_items]. }
  destruct (Retention_IsZero r) eqn:E.
  - unfold Plan at 1. rewrite E, Hs. by destruct (Plan artifacts r now).1.
  - rewrite (Plan_sieve _ r now E) at 1. rewrite Hs. rewrite (Plan_sieve _ r now E).
    apply sieve_idempotent; [apply ruleKeeps_antitone|done].
Qed.
