(* ===== verification/Pack.v ===== *)
(** * Packing and naming artifacts: [internal/engine/pack.go]

    The compression and encryption chain an artifact goes through on its way
    to the spool and back, the naming scheme and its detection.

    gzip, zstd and age are third-party or library codecs: class [Codecs] lists
    the constructors the code calls, [CodecLaws] the documented law that a
    reader undoes the writer.  A writer of a chain collects the bytes written
    to it and hands their encoding to the writer below when it is closed. *)
From S2P Require Import Prelude GoStrings GoTime Core.
Open Scope Z_scope.

(** ** Codecs *)

(** A reader: the bytes it will deliver, then end of file or an error. *)
Record Reader := mkReader { rd_data : string; rd_err : option error }.
Definition fullReader (s : string) : Reader := mkReader s None.

Definition Encoder := string -> string.

Inductive EncoderLevel := SpeedFastest | SpeedDefault | SpeedBetterCompression | SpeedBestCompression.

Class Codecs := {
  gzip_NewWriterLevel : Z -> result Encoder;
  gzip_NewReader : Reader -> result Reader;
  zstd_NewWriter : option EncoderLevel -> result Encoder;
  zstd_NewReader : Reader -> result Reader;
  Recipient : Type;
  Identity : Type;
  age_NewScryptRecipient : string -> result Recipient;
  age_NewScryptIdentity : string -> result Identity;
  age_Encrypt : Recipient -> result Encoder;
  age_Decrypt : Identity -> Reader -> result Reader
}.

Class CodecLaws (C : Codecs) : Prop := {
  gzip_law level enc s :
    gzip_NewWriterLevel level = Ok enc -> gzip_NewReader (fullReader (enc s)) = Ok (fullReader s);
  zstd_law level enc s :
    zstd_NewWriter level = Ok enc -> zstd_NewReader (fullReader (enc s)) = Ok (fullReader s);
  age_law p r enc s :
    age_NewScryptRecipient p = Ok r -> age_Encrypt r = Ok enc ->
    ∃ i, age_NewScryptIdentity p = Ok i ∧ age_Decrypt i (fullReader (enc s)) = Ok (fullReader s)
}.

(** ** Options *)

Record PackOptions := mkPackOptions {
  po_Compression : Compression;
  po_Level : Z;
  po_Encryption : Encryption;
  po_Passphrase : string
}.

Definition suffix (o : PackOptions) : string :=
  (if bool_decide (po_Compression o = CompressionGzip) then ".gz"
   else if bool_decide (po_Compression o = CompressionZstd) then ".zst" else "")
  +:+ (if bool_decide (po_Encryption o = EncryptionAge) then ".age" else "").

Definition passthrough (o : PackOptions) : bool :=
  (bool_decide (po_Compression o = "") || bool_decide (po_Compression o = CompressionNone))
  && (bool_decide (po_Encryption o = "") || bool_decide (po_Encryption o = EncryptionNone)).

Definition gzip_DefaultCompression : Z := -1.
Definition gzip_BestCompression : Z := 9.

Definition zstdLevel (level : Z) : option EncoderLevel :=
  if level <=? 0 then None
  else if level =? 1 then Some SpeedFastest
  else if level <=? 4 then Some SpeedDefault
  else if level <=? 9 then Some SpeedBetterCompression
  else Some SpeedBestCompression.

(** ** Writers

    [multiCloser.closers] in the order they were opened: the first one is the
    nearest to the sink, the program writes to the last. *)

Record layer := mkLayer { lay_enc : Encoder; lay_buf : string }.
Definition multiCloser := list layer.

(** [io.Writer]: a write returns how many bytes it took and perhaps an
    error. *)
Class Writer (W : Type) := write : W -> string -> W * nat * option error.

Definition firstError (first err : option error) : option error :=
  match first with Some _ => first | None => err end.

Section chain.
  Context {W : Type} {wr : Writer W}.

(** A write to the top of the chain. *)
Definition chain_write (stack : list layer) (w : W) (p : string) : list layer * W * nat * option error :=
  match stack with
  | l :: below => (mkLayer (lay_enc l) (lay_buf l +:+ p) :: below, w, String.length p, None)
  | [] => let '(w, n, err) := write w p in ([], w, n, err)
  end.

(** [multiCloser.Close]: the top writer first, each flushing into the next;
    every one is closed and the first error is returned.  [stack] is the
    reverse of [closers], [flushed] what the writer above has just handed to
    its top. *)
Fixpoint closeStack (stack : list layer) (flushed : string) (w : W) (first : option error)
    : W * option error :=
  match stack with
  | [] => (w, first)
  | l :: below =>
      let out := lay_enc l (lay_buf l +:+ flushed) in
      match below with
      | [] => let '(w, _, err) := write w out in (w, firstError first err)
      | _ => closeStack below out w first
      end
  end.

Definition closeAll (stack : list layer) (w : W) : W * option error := closeStack stack "" w None.

End chain.

Section codecs.
  Context {C : Codecs}.

(** [newPackWriter]: the encryption is opened first, the compression writes
    into it. *)
Definition packEncryption (opts : PackOptions) : result multiCloser :=
  if bool_decide (po_Encryption opts = EncryptionAge) then
    if bool_decide (po_Passphrase opts = "") then
      Fail (newError "encryption passphrase is required for age encryption")
    else
      let? recipient := age_NewScryptRecipient (po_Passphrase opts)
        else err => Fail (wrapError "create age recipient" err) in
      let? enc := age_Encrypt recipient
        else err => Fail (wrapError "start age encryption" err) in
      Ok [mkLayer enc ""]
  else Ok [].

Definition packCompression (opts : PackOptions) : result multiCloser :=
  if bool_decide (po_Compression opts = CompressionGzip) then
    let level := if po_Level opts <=? 0 then gzip_DefaultCompression else po_Level opts in
    let level := if level >? gzip_BestCompression then gzip_BestCompression else level in
    let? gz := gzip_NewWriterLevel level else err => Fail (wrapError "create gzip writer" err) in
    Ok [mkLayer gz ""]
  else if bool_decide (po_Compression opts = CompressionZstd) then
    let? zw := zstd_NewWriter (zstdLevel (po_Level opts))
      else err => Fail (wrapError "create zstd writer" err) in
    Ok [mkLayer zw ""]
  else if bool_decide (po_Compression opts = "") || bool_decide (po_Compression opts = CompressionNone) then
    Ok []
  else Fail (newError ("unsupported compression " +:+ Quote (po_Compression opts))).

Definition newPackWriter (opts : PackOptions) : result multiCloser :=
  let? enc := packEncryption opts else err => Fail err in
  let? comp := packCompression opts else err => Fail err in
  Ok (enc ++ comp).

Definition unpackEncryption (src : Reader) (opts : PackOptions) : result Reader :=
  if bool_decide (po_Encryption opts = EncryptionAge) then
    if bool_decide (po_Passphrase opts = "") then
      Fail (newError "encryption passphrase is required to decrypt this artifact")
    else
      let? identity := age_NewScryptIdentity (po_Passphrase opts)
        else err => Fail (wrapError "create age identity" err) in
      let? dec := age_Decrypt identity src
        else err => Fail (wrapError "decrypt artifact" err) in
      Ok dec
  else Ok src.

Definition unpackCompression (r : Reader) (opts : PackOptions) : result Reader :=
  if bool_decide (po_Compression opts = CompressionGzip) then
    let? gz := gzip_NewReader r else err => Fail (wrapError "open gzip stream" err) in Ok gz
  else if bool_decide (po_Compression opts = CompressionZstd) then
    let? zr := zstd_NewReader r else err => Fail (wrapError "open zstd stream" err) in Ok zr
  else if bool_decide (po_Compression opts = "") || bool_decide (po_Compression opts = CompressionNone) then
    Ok r
  else Fail (newError ("unsupported compression " +:+ Quote (po_Compression opts))).

Definition newUnpackReader (src : Reader) (opts : PackOptions) : result Reader :=
  let? r := unpackEncryption src opts else err => Fail err in
  unpackCompression r opts.

End codecs.

(** ** Names *)

Definition BuildFilename (jobSlug extension : string) (at_ : Time) (opts : PackOptions) : string :=
  let ext := TrimPrefix (TrimSpace extension) "." in
  let ext := if bool_decide (ext = "") then "bin" else ext in
  jobSlug +:+ "-" +:+ fmt_compact_date at_ +:+ "-" +:+ fmt_compact_time at_
  +:+ "." +:+ ext +:+ suffix opts.

Definition BuildPath (jobSlug filename : string) : string := jobSlug +:+ "/" +:+ filename.

Definition DetectPack (filename : string) : Compression * Encryption * string :=
  let name := filename in
  let encryption := if HasSuffix name ".age" then EncryptionAge else EncryptionNone in
  let name := if HasSuffix name ".age" then TrimSuffix name ".age" else name in
  let '(compression, name) :=
    if HasSuffix name ".zst" then (CompressionZstd, TrimSuffix name ".zst")
    else if HasSuffix name ".gz" then (CompressionGzip, TrimSuffix name ".gz")
    else (CompressionNone, name) in
  let ext :=
    match LastIndexByte name "." with
    | Some idx => if (idx <? String.length name - 1)%nat then sdrop (idx + 1) name else ""
    | None => ""
    end in
  (compression, encryption, ext).

(** ** Round trip of the chain *)

(** A file: what has been written to it, and what its next write does, which is
    to take a prefix of the bytes and perhaps to fail. *)
Record File := mkFile { file_data : string; file_take : string -> string -> nat * option error }.

#[export] Instance File_writer : Writer File := λ f p,
  let '(n, err) := file_take f (file_data f) p in
  (mkFile (file_data f +:+ stake n p) (file_take f), n, err).

(** The contract of [io.Writer]: a write that takes less says why. *)
Definition honest (f : File) : Prop :=
  ∀ data p, (file_take f data p).2 = None -> (file_take f data p).1 = String.length p.

(** A file on a disk with room. *)
Definition goodFile (data : string) : File := mkFile data (λ _ p, (String.length p, None)).

Definition copyChunks (stack : list layer) (f : File) (chunks : list string) : list layer * File :=
  foldl (λ st p, (chain_write st.1 st.2 p).1.1) (stack, f) chunks.

Definition concatChunks (chunks : list string) : string := foldr String.append "" chunks.

Lemma stake_all s : stake (String.length s) s = s.
Proof. rewrite <- (sapp_nil_r s) at 2. apply stake_app. Qed.

Lemma write_good data p : write (goodFile data) p = (goodFile (data +:+ p), String.length p, None).
Proof. unfold write, File_writer, goodFile. simpl. by rewrite stake_all. Qed.

Lemma copyChunks_layers l below f chunks :
  copyChunks (l :: below) f chunks = (mkLayer (lay_enc l) (lay_buf l +:+ concatChunks chunks) :: below, f).
Proof.
  unfold copyChunks. revert l. induction chunks as [|p chunks IH]; intros l; simpl.
  - rewrite sapp_nil_r. by destruct l.
  - rewrite IH. simpl. by rewrite sapp_assoc.
Qed.

Lemma copyChunks_nil data chunks :
  copyChunks [] (goodFile data) chunks = ([], goodFile (data +:+ concatChunks chunks)).
Proof.
  unfold copyChunks. revert data. induction chunks as [|p chunks IH]; intros data; cbn [foldl].
  - simpl. by rewrite sapp_nil_r.
  - cbn [fst snd chain_write]. rewrite write_good. cbn [fst snd]. rewrite IH. simpl. by rewrite sapp_assoc.
Qed.

(** What the chain leaves in an empty file: the encodings of the layers,
    applied from the top. *)
Definition packed (mc : multiCloser) (raw : string) : string :=
  foldr (λ l acc, lay_enc l acc) raw mc.

Lemma packed_reverse mc raw : packed mc raw = foldl (λ acc l, lay_enc l acc) raw (reverse mc).
Proof.
  induction mc as [|l mc IH]; [done|]. rewrite reverse_cons, foldl_app. simpl. by rewrite <- IH.
Qed.

(** Closing fresh layers writes one block to the writer below. *)
Lemma closeStack_fresh {W} {wr : Writer W} stack flushed (w : W) :
  Forall (λ l, lay_buf l = "") stack -> stack ≠ [] ->
  closeStack stack flushed w None
  = let '(w, _, err) := write w (foldl (λ acc l, lay_enc l acc) flushed stack) in (w, err).
Proof.
  intros H. revert flushed. induction H as [|l below Hl Hb IH]; intros flushed Hne; [done|].
  cbn [closeStack foldl]. rewrite Hl. destruct below as [|m below]; [|by rewrite IH].
  simpl. by destruct (write w (lay_enc l flushed)) as [[? ?] ?].
Qed.

Lemma writeChain_good mc chunks :
  Forall (λ l, lay_buf l = "") mc ->
  let '(stack, f) := copyChunks (reverse mc) (goodFile "") chunks in
  closeAll stack f = (goodFile (packed mc (concatChunks chunks)), None).
Proof.
  intros H. rewrite packed_reverse. apply Forall_reverse in H.
  destruct (reverse mc) as [|l below]; [by rewrite copyChunks_nil|].
  rewrite copyChunks_layers. inversion H as [|? ? Hl Hb]; subst. rewrite Hl. simpl.
  assert (E : closeAll (mkLayer (lay_enc l) (concatChunks chunks) :: below) (goodFile "")
              = closeStack (mkLayer (lay_enc l) "" :: below) (concatChunks chunks) (goodFile "") None).
  { unfold closeAll. simpl. by rewrite sapp_nil_r. }
  rewrite E, closeStack_fresh by (done || by constructor). by rewrite write_good.
Qed.

Lemma newPackWriter_fresh {C : Codecs} opts mc :
  newPackWriter opts = Ok mc -> Forall (λ l, lay_buf l = "") mc.
Proof.
  unfold newPackWriter, packEncryption, packCompression. intros H.
  repeat (case_match; simplify_eq/=); repeat constructor.
Qed.

Section laws.
  Context {C : Codecs} {L : CodecLaws C}.

Lemma unpackEncryption_pack opts mc raw :
  packEncryption opts = Ok mc ->
  Forall (λ l, lay_buf l = "") mc ∧
  unpackEncryption (fullReader (packed mc raw)) opts = Ok (fullReader raw).
Proof.
  unfold packEncryption, unpackEncryption. intros H.
  destruct (bool_decide (po_Encryption opts = EncryptionAge)); simplify_eq/=; [|done].
  destruct (bool_decide (po_Passphrase opts = "")); simplify_eq/=.
  destruct (age_NewScryptRecipient _) as [r|] eqn:Hr; simplify_eq/=.
  destruct (age_Encrypt r) as [e|] eqn:He; simplify_eq/=. split; [by repeat constructor|].
  destruct (age_law _ _ _ raw Hr He) as (i & -> & Hd). by rewrite Hd.
Qed.

Lemma unpackCompression_pack opts mc raw :
  packCompression opts = Ok mc ->
  Forall (λ l, lay_buf l = "") mc ∧
  unpackCompression (fullReader (packed mc raw)) opts = Ok (fullReader raw).
Proof.
  unfold packCompression, unpackCompression. intros H.
  destruct (bool_decide (po_Compression opts = CompressionGzip)).
  { destruct (gzip_NewWriterLevel _) as [e|] eqn:He; simplify_eq/=.
    split; [by repeat constructor|]. by rewrite (gzip_law _ _ raw He). }
  destruct (bool_decide (po_Compression opts = CompressionZstd)).
  { destruct (zstd_NewWriter _) as [e|] eqn:He; simplify_eq/=.
    split; [by repeat constructor|]. by rewrite (zstd_law _ _ raw He). }
  by destruct (_ || _); simplify_eq/=.
Qed.

(** What [packed] writes opens under the same options. *)
Lemma unpack_packed opts mc raw :
  newPackWriter opts = Ok mc -> newUnpackReader (fullReader (packed mc raw)) opts = Ok (fullReader raw).
Proof.
  unfold newPackWriter, newUnpackReader. intros H.
  destruct (packEncryption opts) as [enc|] eqn:He; [|done].
  destruct (packCompression opts) as [comp|] eqn:Hc; simplify_eq/=.
  destruct (unpackCompression_pack opts comp raw Hc) as [_ Hu].
  destruct (unpackEncryption_pack opts enc (packed comp raw) He) as [_ Hd].
  unfold packed in *. by rewrite foldr_app, Hd.
Qed.

(** Unpacking does not look at the level. *)
Lemma newUnpackReader_level src o o' :
  po_Compression o' = po_Compression o -> po_Encryption o' = po_Encryption o -> po_Passphrase o' = po_Passphrase o ->
  newUnpackReader src o' = newUnpackReader src o.
Proof. unfold newUnpackReader, unpackEncryption, unpackCompression. by intros -> -> ->. Qed.

(** Nothing to undo. *)
Lemma passthrough_packed opts mc raw :
  passthrough opts = true -> newPackWriter opts = Ok mc -> packed mc raw = raw.
Proof.
  unfold passthrough, newPackWriter, packEncryption, packCompression. intros H. boolean.
  assert (po_Encryption opts ≠ EncryptionAge) as He.
  { intros E. rewrite E in *. by repeat match goal with H : _ || _ = true |- _ => apply orb_true_iff in H as [?|?] end; boolean. }
  assert (po_Compression opts ≠ CompressionGzip ∧ po_Compression opts ≠ CompressionZstd) as [Hg Hz].
  { split; intros E; rewrite E in *;
      by repeat match goal with H : _ || _ = true |- _ => apply orb_true_iff in H as [?|?] end; boolean. }
  rewrite !bool_decide_eq_false_2 by done. match goal with H : bool_decide (po_Compression _ = _) || _ = true |- _ => rewrite H end.
  by intros [= <-].
Qed.

Lemma packWriter_passphrase opts mc :
  newPackWriter opts = Ok mc -> po_Encryption opts = EncryptionAge -> po_Passphrase opts ≠ "".
Proof.
  unfold newPackWriter, packEncryption. intros H E Hp.
  by rewrite (bool_decide_eq_true_2 _ E), (bool_decide_eq_true_2 _ Hp) in H.
Qed.

(** C39: the unpack chain undoes the pack chain.  Whatever the options, when the
    writer can be built, the bytes that land in the spool, for any cutting of
    the stream into writes, open under the same options to the stream that was
    written, with no error. *)
Theorem unpack_pack opts mc chunks :
  newPackWriter opts = Ok mc ->
  let '(stack, f) := copyChunks (reverse mc) (goodFile "") chunks in
  let '(file, err) := closeAll stack f in
  err = None ∧
  newUnpackReader (fullReader (file_data file)) opts = Ok (fullReader (concatChunks chunks)).
Proof.
  intros H. pose proof (writeChain_good mc chunks (newPackWriter_fresh _ _ H)) as W.
  destruct (copyChunks _ _ _) as [stack f]. rewrite W. split; [done|]. by apply unpack_packed.
Qed.
End laws.

(** ** Names and their detection *)

Definition knownPack (o : PackOptions) : Prop :=
  (po_Compression o = "" ∨ po_Compression o = CompressionNone
   ∨ po_Compression o = CompressionGzip ∨ po_Compression o = CompressionZstd)
  ∧ (po_Encryption o = "" ∨ po_Encryption o = EncryptionNone ∨ po_Encryption o = EncryptionAge).

(** The value detection gives back for an empty or ["none"] setting. *)
Definition orNone (s none : string) : string := if bool_decide (s = "") then none else s.

(** A name whose extension is not one of the packing suffixes. *)
Record plainName (stem ext : string) : Prop := {
  pn_age : HasSuffix stem ".age" = false;
  pn_zst : HasSuffix stem ".zst" = false;
  pn_gz : HasSuffix stem ".gz" = false;
  pn_ext : ∃ base, LastIndexByte stem "." = Some base ∧ (base <? String.length stem - 1)%nat = true
                   ∧ sdrop (base + 1) stem = ext
}.

Lemma plainName_intro base ext :
  free_of "." ext = true -> ext ≠ "" -> ext ∉ ["gz"; "zst"; "age"] ->
  plainName (base +:+ String "." ext) ext.
Proof.
  intros Hfree Hne Hext. rewrite !not_elem_of_cons in Hext. destruct Hext as (? & ? & ? & _).
  assert (Hno : ∀ f, free_of "." f = true -> ext ≠ f ->
            HasSuffix (base +:+ String "." ext) (String "." f) = false).
  { intros f Hf Hd. rewrite HasSuffix_ext by done. by apply bool_decide_eq_false. }
  split; [by apply (Hno "age")|by apply (Hno "zst")|by apply (Hno "gz")|].
  exists (String.length base). split_and!; [by apply LastIndexByte_last| |].
  - rewrite sapp_length. simpl. apply Nat.ltb_lt. destruct ext; [done|]. simpl. lia.
  - replace (base +:+ String "." ext) with ((base +:+ ".") +:+ ext) by by rewrite sapp_assoc.
    replace (String.length base + 1)%nat with (String.length (base +:+ ".")) by by rewrite sapp_length.
    apply sdrop_app.
Qed.

Lemma DetectPack_plain stem ext :
  plainName stem ext ->
  DetectPack stem = (CompressionNone, EncryptionNone, ext)
  ∧ DetectPack (stem +:+ ".gz") = (CompressionGzip, EncryptionNone, ext)
  ∧ DetectPack (stem +:+ ".zst") = (CompressionZstd, EncryptionNone, ext)
  ∧ DetectPack (stem +:+ ".age") = (CompressionNone, EncryptionAge, ext)
  ∧ DetectPack ((stem +:+ ".gz") +:+ ".age") = (CompressionGzip, EncryptionAge, ext)
  ∧ DetectPack ((stem +:+ ".zst") +:+ ".age") = (CompressionZstd, EncryptionAge, ext).
Proof.
  intros [Ha Hz Hg (base & Hl & Hlt & He)].
  assert (Z1 : HasSuffix (stem +:+ ".gz") ".age" = false) by by apply (HasSuffix_ext stem "gz" "age").
  assert (Z2 : HasSuffix (stem +:+ ".zst") ".age" = false) by by apply (HasSuffix_ext stem "zst" "age").
  assert (Z3 : HasSuffix (stem +:+ ".gz") ".zst" = false) by by apply (HasSuffix_ext stem "gz" "zst").
  unfold DetectPack. split_and!;
    rewrite ?HasSuffix_app, ?TrimSuffix_app, ?Z1, ?Z2, ?Z3, ?HasSuffix_app, ?TrimSuffix_app,
      ?Ha, ?Hz, ?Hg; cbv zeta iota; by rewrite Hl, Hlt, He.
Qed.

(** The name of an artifact tells how to unpack it: detection gives back
    the compression and encryption the name was built with, and the extension
    of the source, when that is one plain extension. *)
Theorem DetectPack_BuildFilename slug ext at_ o :
  free_of "." ext = true -> ext ≠ "" -> TrimSpace ext = ext -> ext ∉ ["gz"; "zst"; "age"] ->
  knownPack o ->
  DetectPack (BuildFilename slug ext at_ o)
  = (orNone (po_Compression o) CompressionNone, orNone (po_Encryption o) EncryptionNone, ext).
Proof.
  intros Hfree Hne Hts Hext [Hc He]. unfold BuildFilename. rewrite Hts.
  assert (Ht : TrimPrefix ext "." = ext).
  { unfold TrimPrefix. destruct (HasPrefix ext ".") eqn:E; [|done].
    apply HasPrefix_spec in E as [t ->]. done. }
  rewrite Ht, bool_decide_eq_false_2 by done.
  set (base := slug +:+ "-" +:+ fmt_compact_date at_ +:+ "-" +:+ fmt_compact_time at_).
  assert (E : ∀ t, slug +:+ "-" +:+ fmt_compact_date at_ +:+ "-" +:+ fmt_compact_time at_ +:+ "." +:+ ext +:+ t
              = (base +:+ String "." ext) +:+ t).
  { intros t. unfold base. rewrite !sapp_assoc. done. }
  rewrite E. clear E. pose proof (plainName_intro base ext Hfree Hne Hext) as P.
  set (stem := base +:+ String "." ext) in *. clearbody stem.
  destruct (DetectPack_plain _ _ P) as (D1 & D2 & D3 & D4 & D5 & D6).
  rewrite sapp_assoc in D5, D6. destruct o as [c l e pw]. simpl in *. unfold suffix, orNone. simpl.
  destruct Hc as [-> |[-> |[-> | ->]]], He as [-> |[-> | ->]]; simpl;
    rewrite ?sapp_nil_r; assumption.
Qed.

Lemma DetectPack_BuildFilename_witness :
  DetectPack (BuildFilename "nightly" "sql" 0 (mkPackOptions CompressionZstd 3 EncryptionAge "pw"))
  = (CompressionZstd, EncryptionAge, "sql").
Proof.
  apply (DetectPack_BuildFilename "nightly" "sql" 0 (mkPackOptions CompressionZstd 3 EncryptionAge "pw")).
  - reflexivity.
  - discriminate.
  - reflexivity.
  - apply (bool_decide_unpack _). vm_compute. exact I.
  - split; [right; right; right; reflexivity|right; right; reflexivity].
Defined.

(** Codecs that tag their input: an instance of the laws. *)
Definition tagEncoder (t : string) : Encoder := λ s, t +:+ s.
Definition tagReader (t : string) (r : Reader) : result Reader :=
  if HasPrefix (rd_data r) t then Ok (mkReader (TrimPrefix (rd_data r) t) (rd_err r))
  else Fail (newError "bad header").

Definition tagCodecs : Codecs := {|
  gzip_NewWriterLevel level :=
    if (-1 <=? level) && (level <=? 9) then Ok (tagEncoder "gzip:") else Fail (newError "invalid level");
  gzip_NewReader := tagReader "gzip:";
  zstd_NewWriter _ := Ok (tagEncoder "zstd:");
  zstd_NewReader := tagReader "zstd:";
  Recipient := string;
  Identity := string;
  age_NewScryptRecipient p := if bool_decide (p = "") then Fail (newError "empty") else Ok ("age:" +:+ p);
  age_NewScryptIdentity p := if bool_decide (p = "") then Fail (newError "empty") else Ok ("age:" +:+ p);
  age_Encrypt r := Ok (tagEncoder r);
  age_Decrypt i := tagReader i
|}.

Lemma tagReader_law t s : tagReader t (fullReader (tagEncoder t s)) = Ok (fullReader s).
Proof. unfold tagReader, tagEncoder. simpl. by rewrite HasPrefix_app, TrimPrefix_app. Qed.

#[export] Instance tagCodecs_laws : CodecLaws tagCodecs.
Proof.
  split; simpl.
  - intros level enc s H. destruct (_ && _); simplify_eq. apply tagReader_law.
  - intros level enc s H. simplify_eq. apply tagReader_law.
  - intros p r enc s H1 H2. destruct (bool_decide (p = "")); simplify_eq/=.
    eexists. split; [done|]. exact (tagReader_law ("age:" +:+ p) s).
Qed.

Lemma unpack_pack_witness :
  let o := mkPackOptions CompressionGzip 6 EncryptionAge "pw" in
  ∃ mc, newPackWriter (C := tagCodecs) o = Ok mc ∧
  let '(stack, f) := copyChunks (reverse mc) (goodFile "") ["ab"; "cd"] in
  let '(file, err) := closeAll stack f in
  err = None ∧ newUnpackReader (C := tagCodecs) (fullReader (file_data file)) o = Ok (fullReader "abcd").
Proof.
  eexists. split; [reflexivity|].
  apply (unpack_pack (C := tagCodecs) (mkPackOptions CompressionGzip 6 EncryptionAge "pw") _ ["ab"; "cd"]).
  reflexivity.
Defined.
