(* ===== verification/GoPath.v ===== *)
(** * Go's [path] and [path/filepath] (Unix), as far as the program uses them

    [Clean] is defined on the list of path elements: the rules of the package
    documentation (drop ["."] and empty elements, let [".."] remove the element
    before it, drop leading [".."] of a rooted path). *)
From S2P Require Import Prelude GoStrings.

Definition slash : ascii := "/".

Definition IsAbs (p : string) : bool := HasPrefix p "/".

(** One element on the reversed list of the elements kept so far. *)
Definition clean_step (rooted : bool) (acc : list string) (e : string) : list string :=
  if bool_decide (e = "") || bool_decide (e = ".") then acc
  else if bool_decide (e = "..") then
    match acc with
    | [] => if rooted then [] else [".."]
    | x :: acc' => if bool_decide (x = "..") then ".." :: acc else acc'
    end
  else e :: acc.

Definition clean_elems (rooted : bool) (elems : list string) : list string :=
  reverse (foldl (clean_step rooted) [] elems).

(** [filepath.Clean(p)]. *)
Definition Clean (p : string) : string :=
  if bool_decide (p = "") then "."
  else
    let elems := clean_elems (IsAbs p) (Split p slash) in
    if IsAbs p then "/" +:+ StrJoin elems "/"
    else if bool_decide (elems = []) then "." else StrJoin elems "/".

(** [filepath.Join(elems...)]: the non-empty elements, joined and cleaned. *)
Definition PathJoin (elems : list string) : string :=
  let l := filter (λ e, e ≠ "") elems in
  if bool_decide (l = []) then "" else Clean (StrJoin l "/").

(** [filepath.Base(p)]. *)
Fixpoint trim_slashes_fuel (n : nat) (p : string) : string :=
  match n with
  | O => p
  | S n' => if HasSuffix p "/" then trim_slashes_fuel n' (TrimSuffix p "/") else p
  end.

Definition Base (p : string) : string :=
  if bool_decide (p = "") then "."
  else
    let p := trim_slashes_fuel (String.length p) p in
    let p := match LastIndexByte p slash with Some i => sdrop (S i) p | None => p end in
    if bool_decide (p = "") then "/" else p.

(** [filepath.Dir(p)]. *)
Definition Dir (p : string) : string :=
  Clean (match LastIndexByte p slash with Some i => stake (S i) p | None => "" end).

(** ** Elements *)

(** An element a cleaned rooted path may contain. *)
Definition plainElem (e : string) : Prop := e ≠ "" ∧ e ≠ "." ∧ e ≠ ".." ∧ free_of slash e = true.

Lemma Split_nonempty s c : Split s c ≠ [].
Proof. destruct s as [|a s]; simpl; [done|]. destruct (Ascii.eqb a c); [done|]. by destruct (Split s c). Qed.

Lemma Split_free s c : Forall (λ e, free_of c e = true) (Split s c).
Proof.
  induction s as [|a s IH]; simpl; [by repeat constructor|].
  destruct (Ascii.eqb a c) eqn:E; [by constructor|].
  destruct (Split s c) as [|x xs]; inversion IH; subst; constructor; try done; unfold free_of in *; simpl; by rewrite E.
Qed.

Lemma Split_app s t c : Split (s +:+ String c t) c = Split s c ++ Split t c.
Proof.
  induction s as [|a s IH]; simpl; [by rewrite Ascii.eqb_refl|].
  destruct (Ascii.eqb a c); [by rewrite IH|]. rewrite IH.
  pose proof (Split_nonempty s c). by destruct (Split s c).
Qed.

Lemma Split_free_id s c : free_of c s = true -> Split s c = [s].
Proof.
  unfold free_of. induction s as [|a s IH]; simpl; [done|]. intros H. boolean. rewrite H. by rewrite IH.
Qed.

Lemma Split_StrJoin l c :
  l ≠ [] -> Forall (λ e, free_of c e = true) l -> Split (StrJoin l (schar c)) c = l.
Proof.
  intros Hne H. induction H as [|x l Hx Hl IH]; [done|]. destruct l as [|y l]; [by apply Split_free_id|].
  change (StrJoin (x :: y :: l) (schar c)) with (x +:+ String c (StrJoin (y :: l) (schar c))).
  rewrite Split_app, Split_free_id, IH; done.
Qed.

Lemma StrJoin_Split s c : StrJoin (Split s c) (schar c) = s.
Proof.
  induction s as [|a s IH]; [done|]. cbn [Split]. destruct (Ascii.eqb a c) eqn:E.
  - apply Ascii.eqb_eq in E as ->. pose proof (Split_nonempty s c). destruct (Split s c) as [|x xs]; [done|].
    change (StrJoin ("" :: x :: xs) (schar c)) with (schar c +:+ StrJoin (x :: xs) (schar c)). by rewrite IH.
  - destruct (Split s c) as [|x xs]; [by rewrite <- IH|]. rewrite <- IH. by destruct xs.
Qed.

Lemma StrJoin_app l k c :
  l ≠ [] -> k ≠ [] -> StrJoin (l ++ k) (schar c) = StrJoin l (schar c) +:+ schar c +:+ StrJoin k (schar c).
Proof.
  intros Hl Hk. induction l as [|x l IH]; [done|]. destruct l as [|y l].
  - destruct k; [done|]. done.
  - change (StrJoin ((x :: y :: l) ++ k) (schar c)) with (x +:+ schar c +:+ StrJoin ((y :: l) ++ k) (schar c)).
    rewrite IH by done. cbn [StrJoin]. by rewrite !sapp_assoc.
Qed.

Lemma clean_plain acc l :
  Forall plainElem l -> foldl (clean_step true) acc l = reverse l ++ acc.
Proof.
  intros H. revert acc. induction H as [|e l (H1 & H2 & H3 & _) _ IH]; intros acc; [done|].
  cbn [foldl]. rewrite IH, reverse_cons, <- app_assoc. unfold clean_step.
  by rewrite !bool_decide_eq_false_2.
Qed.

(** A rooted path cleans to plain elements. *)
Lemma clean_elems_plain l :
  Forall (λ e, free_of slash e = true) l -> Forall plainElem (clean_elems true l).
Proof.
  intros H. unfold clean_elems. apply Forall_reverse. assert (Hacc : Forall plainElem []) by constructor.
  revert Hacc. generalize (@nil string) as acc. induction H as [|e l He _ IH]; intros acc Hacc; [done|].
  cbn [foldl]. apply IH. unfold clean_step.
  destruct (bool_decide_reflect (e = "")); [done|]. destruct (bool_decide_reflect (e = ".")); [done|]. cbn [orb].
  destruct (bool_decide_reflect (e = "..")) as [->|]; [|by constructor].
  destruct Hacc as [|x acc Hx Hacc]; [done|]. destruct Hx as (_ & _ & Hx & _). by rewrite bool_decide_eq_false_2.
Qed.

Lemma Clean_rooted p :
  IsAbs p = true -> ∃ elems, Clean p = "/" +:+ StrJoin elems "/" ∧ Forall plainElem elems.
Proof.
  intros Ha. unfold Clean. rewrite Ha. rewrite bool_decide_eq_false_2 by by intros ->.
  eexists. split; [done|]. apply clean_elems_plain, Split_free.
Qed.

(** The path of [base] and of plain elements under it is what it looks like. *)
Lemma Clean_plain l : Forall plainElem l -> Clean ("/" +:+ StrJoin l "/") = "/" +:+ StrJoin l "/".
Proof.
  intros H. unfold Clean. rewrite bool_decide_eq_false_2 by done.
  change (IsAbs ("/" +:+ StrJoin l "/")) with (HasPrefix ("/" +:+ StrJoin l "/") "/"). rewrite HasPrefix_app.
  f_equal. f_equal. unfold clean_elems.
  assert (E : foldl (clean_step true) [] (Split ("/" +:+ StrJoin l "/") slash) = reverse l).
  { change (Split ("/" +:+ StrJoin l "/") slash) with ("" :: Split (StrJoin l "/") slash). cbn [foldl].
    change (clean_step true [] "") with (@nil string). destruct l as [|x l].
    - done.
    - change "/" with (schar slash). rewrite Split_StrJoin; [|done|].
      + by rewrite clean_plain, app_nil_r.
      + eapply Forall_impl; [exact H|]. by intros e (_ & _ & _ & ?). }
  rewrite E. apply reverse_involutive.
Qed.

(** The same with the separator written ["/"]. *)
Lemma StrJoin_slash l k : l ≠ [] -> k ≠ [] -> StrJoin (l ++ k) "/" = StrJoin l "/" +:+ "/" +:+ StrJoin k "/".
Proof. exact (StrJoin_app l k slash). Qed.

Lemma StrJoin_Split_slash s : StrJoin (Split s slash) "/" = s.
Proof. exact (StrJoin_Split s slash). Qed.

Lemma Split_StrJoin_plain l : l ≠ [] -> Forall plainElem l -> Split (StrJoin l "/") slash = l.
Proof.
  intros Hne H. apply (Split_StrJoin l slash); [done|]. eapply Forall_impl; [exact H|]. by intros e (_ & _ & _ & ?).
Qed.

(** * Paths by their elements

    What [Clean], [Join], [Dir], [Base] and [Rel] do to rooted paths of plain
    elements, and what a relative path cleans to. *)

Lemma Clean_trailing l : Forall plainElem l -> Clean ("/" +:+ StrJoin l "/" +:+ "/") = "/" +:+ StrJoin l "/".
Proof.
  intros H. unfold Clean. rewrite bool_decide_eq_false_2 by done.
  change (IsAbs ("/" +:+ StrJoin l "/" +:+ "/")) with (HasPrefix ("/" +:+ (StrJoin l "/" +:+ "/")) "/"). rewrite HasPrefix_app.
  f_equal. f_equal. unfold clean_elems.
  assert (E : foldl (clean_step true) [] (Split ("/" +:+ StrJoin l "/" +:+ "/") slash) = reverse l).
  { change (Split ("/" +:+ StrJoin l "/" +:+ "/") slash) with ("" :: Split (StrJoin l "/" +:+ String slash "") slash).
    rewrite Split_app. cbn [foldl]. change (clean_step true [] "") with (@nil string). rewrite foldl_app.
    assert (El : foldl (clean_step true) [] (Split (StrJoin l "/") slash) = reverse l).
    { destruct l as [|x l]; [done|]. by rewrite Split_StrJoin_plain, clean_plain, app_nil_r. }
    by rewrite El. }
  rewrite E. apply reverse_involutive.
Qed.

Lemma Dir_last s x : free_of slash x = true -> Dir (s +:+ "/" +:+ x) = Clean (s +:+ "/").
Proof.
  intros Hx. unfold Dir. change (s +:+ "/" +:+ x) with (s +:+ String slash x).
  rewrite (LastIndexByte_last slash s x) by done. f_equal.
  replace (s +:+ String slash x) with ((s +:+ "/") +:+ x) by by rewrite sapp_assoc.
  replace (S (String.length s)) with (String.length (s +:+ "/")) by (rewrite sapp_length; simpl; lia).
  apply stake_app.
Qed.

(** A relative path of plain elements is joined to the root as it is. *)
Lemma PathJoin_plain R rel :
  R ≠ [] -> Forall plainElem R -> rel ≠ [] -> Forall plainElem rel ->
  PathJoin ["/" +:+ StrJoin R "/"; StrJoin rel "/"] = "/" +:+ StrJoin (R ++ rel) "/".
Proof.
  intros HR Hp Hrel Hq. unfold PathJoin.
  assert (Hne : StrJoin rel "/" ≠ "").
  { intros E. pose proof (Split_StrJoin_plain rel Hrel Hq) as Hs. rewrite E in Hs. cbn in Hs. subst rel.
    inversion Hq as [|? ? (H & _)]; subst. done. }
  rewrite filter_cons_True by done. rewrite filter_cons_True by done. change (filter _ []) with (@nil string).
  rewrite bool_decide_eq_false_2 by done. cbn [StrJoin]. rewrite sapp_assoc, <- StrJoin_slash by done.
  apply Clean_plain. by apply Forall_app.
Qed.

Lemma Dir_plain R x :
  R ≠ [] -> Forall plainElem R -> plainElem x -> Dir ("/" +:+ StrJoin (R ++ [x]) "/") = "/" +:+ StrJoin R "/".
Proof.
  intros HR Hp (_ & _ & _ & Hx). rewrite StrJoin_slash by done. cbn [StrJoin].
  replace ("/" +:+ StrJoin R "/" +:+ "/" +:+ x) with (("/" +:+ StrJoin R "/") +:+ "/" +:+ x) by by rewrite sapp_assoc.
  rewrite Dir_last, sapp_assoc by done. by apply Clean_trailing.
Qed.

(** ** The rooted path of a list of elements *)

Definition rooted (l : list string) : string := "/" +:+ StrJoin l "/".

Definition pathElems (p : string) : list string := clean_elems true (Split p slash).

Lemma IsAbs_rooted l : IsAbs (rooted l) = true.
Proof. apply HasPrefix_app. Qed.

Lemma IsAbs_app s t : IsAbs s = true -> IsAbs (s +:+ t) = true.
Proof. unfold IsAbs. intros [u ->]%HasPrefix_spec. rewrite sapp_assoc. apply HasPrefix_app. Qed.

Lemma pathElems_rooted l : Forall plainElem l -> pathElems (rooted l) = l.
Proof.
  intros H. unfold pathElems, clean_elems, rooted.
  change (Split ("/" +:+ StrJoin l "/") slash) with ("" :: Split (StrJoin l "/") slash). cbn [foldl].
  change (clean_step true [] "") with (@nil string). destruct l as [|x l]; [done|].
  rewrite Split_StrJoin_plain, clean_plain, app_nil_r by done. apply reverse_involutive.
Qed.

Lemma pathElems_plain p : Forall plainElem (pathElems p).
Proof. apply clean_elems_plain, Split_free. Qed.

Lemma Clean_pathElems p : IsAbs p = true -> Clean p = rooted (pathElems p).
Proof. intros H. unfold Clean. rewrite H. by rewrite bool_decide_eq_false_2 by by intros ->. Qed.

Lemma rooted_inj l k : Forall plainElem l -> Forall plainElem k -> rooted l = rooted k -> l = k.
Proof. intros Hl Hk E. by rewrite <- (pathElems_rooted l), <- (pathElems_rooted k), E. Qed.

Lemma StrJoin_plain_ne l : l ≠ [] -> Forall plainElem l -> StrJoin l "/" ≠ "".
Proof.
  intros Hne H E. pose proof (Split_StrJoin_plain l Hne H) as Hs. rewrite E in Hs. cbn in Hs. subst l.
  inversion H as [|? ? (Hx & _)]; subst. done.
Qed.

(** Joining any relative path of plain elements, from any root. *)
Lemma PathJoin_rooted R rel :
  Forall plainElem R -> Forall plainElem rel -> PathJoin [rooted R; StrJoin rel "/"] = rooted (R ++ rel).
Proof.
  intros HR Hrel. destruct (decide (rel = [])) as [->|Hne].
  { unfold PathJoin. rewrite filter_cons_True by done. rewrite filter_cons_False by by intros []. cbn.
    rewrite app_nil_r. by apply Clean_plain. }
  destruct (decide (R = [])) as [->|HRne]; [|by apply PathJoin_plain].
  unfold PathJoin. rewrite filter_cons_True by done. rewrite filter_cons_True by by apply StrJoin_plain_ne.
  change (filter _ []) with (@nil string). rewrite bool_decide_eq_false_2 by done.
  change (StrJoin [rooted []; StrJoin rel "/"] "/") with ("/" +:+ "/" +:+ StrJoin rel "/").
  rewrite Clean_pathElems by apply HasPrefix_app. f_equal.
  unfold pathElems, clean_elems.
  change (Split ("/" +:+ "/" +:+ StrJoin rel "/") slash) with ("" :: "" :: Split (StrJoin rel "/") slash). cbn [foldl].
  change (clean_step true (clean_step true [] "") "") with (@nil string).
  rewrite Split_StrJoin_plain, clean_plain, app_nil_r by done. apply reverse_involutive.
Qed.

Lemma Dir_rooted R x : Forall plainElem R -> plainElem x -> Dir (rooted (R ++ [x])) = rooted R.
Proof.
  intros HR Hx. destruct (decide (R = [])) as [->|Hne]; [|by apply Dir_plain].
  destruct Hx as (_ & _ & _ & Hx). change (rooted ([] ++ [x])) with ("" +:+ "/" +:+ x).
  by rewrite Dir_last.
Qed.

(** The last element. *)
Lemma Base_last s x : plainElem x -> Base (s +:+ "/" +:+ x) = x.
Proof.
  intros (Hne & _ & _ & Hf). unfold Base. rewrite bool_decide_eq_false_2 by by destruct s.
  assert (Ht : ∀ n, trim_slashes_fuel n (s +:+ "/" +:+ x) = s +:+ "/" +:+ x).
  { intros [|n]; [done|]. cbn [trim_slashes_fuel].
    destruct (HasSuffix (s +:+ "/" +:+ x) "/") eqn:E; [|done]. apply HasSuffix_spec in E as [q E].
    pose proof (LastIndexByte_last slash q "" eq_refl) as H1. change (q +:+ String slash "") with (q +:+ "/") in H1.
    rewrite <- E in H1. change (s +:+ "/" +:+ x) with (s +:+ String slash x) in *.
    rewrite LastIndexByte_last in H1 by done. injection H1 as H1. apply (f_equal String.length) in E.
    rewrite !sapp_length in E. simpl in E. destruct x; [done|simpl in E; lia]. }
  rewrite Ht. change (s +:+ "/" +:+ x) with (s +:+ String slash x). rewrite LastIndexByte_last by done.
  replace (s +:+ String slash x) with ((s +:+ "/") +:+ x) by by rewrite sapp_assoc.
  replace (S (String.length s)) with (String.length (s +:+ "/")) by (rewrite sapp_length; simpl; lia).
  rewrite sdrop_app. by rewrite bool_decide_eq_false_2.
Qed.

Lemma Base_rooted R x : plainElem x -> Base (rooted (R ++ [x])) = x.
Proof.
  intros Hx. unfold rooted. destruct (decide (R = [])) as [->|Hne]; [by apply (Base_last "")|].
  rewrite StrJoin_slash by done. cbn [StrJoin].
  replace ("/" +:+ StrJoin R "/" +:+ "/" +:+ x) with (("/" +:+ StrJoin R "/") +:+ "/" +:+ x) by by rewrite sapp_assoc.
  by apply Base_last.
Qed.

(** ** What a relative path cleans to *)

(** Ups first, then plain elements: the stack of [clean_elems] keeps this shape. *)
Definition upsThen (l : list string) : Prop := ∃ n k, l = k ++ replicate n ".." ∧ Forall plainElem k.

Lemma clean_step_ups acc e : free_of slash e = true -> upsThen acc -> upsThen (clean_step false acc e).
Proof.
  intros He (n & k & -> & Hk). unfold clean_step.
  destruct (bool_decide_reflect (e = "")); [by exists n, k|]. destruct (bool_decide_reflect (e = ".")); [by exists n, k|].
  cbn [orb]. destruct (bool_decide_reflect (e = "..")) as [->|].
  - destruct Hk as [|x k Hx Hk]; cbn [app].
    + destruct n as [|n]; cbn; [by exists 1%nat, []|]. by exists (S (S n)), [].
    + destruct Hx as (_ & _ & Hx & _). rewrite bool_decide_eq_false_2 by done. by exists n, k.
  - exists n, (e :: k). split; [done|]. by constructor.
Qed.

(** A relative path that does not start by going up cleans to plain elements. *)
Lemma Clean_relative p :
  IsAbs p = false -> Clean p ≠ "." -> Clean p ≠ ".." -> HasPrefix (Clean p) "../" = false ->
  ∃ rel, rel ≠ [] ∧ Forall plainElem rel ∧ Clean p = StrJoin rel "/".
Proof.
  unfold Clean. intros Ha. rewrite Ha. destruct (bool_decide_reflect (p = "")); [done|].
  assert (H : upsThen (reverse (clean_elems false (Split p slash)))).
  { unfold clean_elems. rewrite reverse_involutive. pose proof (Split_free p slash) as Hf.
    assert (H0 : upsThen []) by by exists 0%nat, []. revert H0. generalize (@nil string) as acc.
    induction Hf as [|e l He _ IH]; intros acc H0; [done|]. cbn [foldl]. by apply IH, clean_step_ups. }
  destruct H as (m & k & E & Hk). apply (f_equal reverse) in E. rewrite reverse_involutive, reverse_app, reverse_replicate in E.
  destruct (bool_decide_reflect (clean_elems false (Split p slash) = [])); [done|]. rewrite E. intros _ Hup Hpre.
  assert (m = 0%nat) as ->.
  { destruct m as [|m]; [done|]. cbn [replicate app] in Hup, Hpre. destruct (replicate m ".." ++ reverse k) as [|y l]; [done|].
    change (StrJoin (".." :: y :: l) "/") with ("../" +:+ StrJoin (y :: l) "/") in Hpre. by rewrite HasPrefix_app in Hpre. }
  cbn [replicate app] in *. exists (reverse k). split_and!; [by rewrite <- E|by apply Forall_reverse|done].
Qed.

(** ** Relative to a directory: [filepath.Rel] *)

Fixpoint dropCommon (l k : list string) : list string * list string :=
  match l, k with
  | x :: l', y :: k' => if String.eqb x y then dropCommon l' k' else (l, k)
  | _, _ => (l, k)
  end.

Definition Rel (basepath targpath : string) : result string :=
  let b := Clean basepath in let t := Clean targpath in
  if String.eqb t b then Ok "."
  else
    let elems p := filter (λ e, e ≠ "") (Split (if String.eqb p "." then "" else p) slash) in
    if negb (Bool.eqb (IsAbs b) (IsAbs t)) then Fail (newError ("Rel: can't make " +:+ targpath +:+ " relative to " +:+ basepath))
    else
      let '(up, down) := dropCommon (elems b) (elems t) in
      if bool_decide (head up = Some "..") then Fail (newError ("Rel: can't make " +:+ targpath +:+ " relative to " +:+ basepath))
      else Ok (StrJoin (((λ _, "..") <$> up) ++ down) "/").

Lemma dropCommon_app l k : dropCommon l (l ++ k) = ([], k).
Proof. induction l as [|x l IH]; [done|]. cbn. by rewrite String.eqb_refl. Qed.

Lemma filter_plain l : Forall plainElem l -> filter (λ e, e ≠ "") l = l.
Proof. induction 1 as [|x l (Hx & _) _ IH]; [done|]. rewrite filter_cons_True by done. by rewrite IH. Qed.

Lemma filter_Split_rooted l : Forall plainElem l -> filter (λ e, e ≠ "") (Split (rooted l) slash) = l.
Proof.
  intros H. unfold rooted. change (Split ("/" +:+ StrJoin l "/") slash) with ("" :: Split (StrJoin l "/") slash).
  rewrite filter_cons_False by by intros []. destruct l as [|x l]; [done|].
  rewrite Split_StrJoin_plain by done. by apply filter_plain.
Qed.

Lemma Rel_rooted R rel :
  Forall plainElem R -> rel ≠ [] -> Forall plainElem rel -> Rel (rooted R) (rooted (R ++ rel)) = Ok (StrJoin rel "/").
Proof.
  intros HR Hne Hrel. assert (HA : Forall plainElem (R ++ rel)) by by apply Forall_app.
  unfold Rel. change (Clean (rooted R)) with (Clean ("/" +:+ StrJoin R "/")).
  change (Clean (rooted (R ++ rel))) with (Clean ("/" +:+ StrJoin (R ++ rel) "/")). rewrite !Clean_plain by done.
  fold (rooted R). fold (rooted (R ++ rel)).
  destruct (String.eqb_spec (rooted (R ++ rel)) (rooted R)) as [E|_].
  { apply rooted_inj in E; [|done..]. apply (f_equal length) in E. rewrite length_app in E. destruct rel; [done|simpl in E; lia]. }
  rewrite !IsAbs_rooted. cbn [Bool.eqb negb].
  assert (Hd : ∀ l, String.eqb (rooted l) "." = false) by done. rewrite !Hd, !filter_Split_rooted by done.
  by rewrite dropCommon_app.
Qed.

Lemma Rel_self R : Forall plainElem R -> Rel (rooted R) (rooted R) = Ok ".".
Proof. intros H. unfold Rel. by rewrite String.eqb_refl. Qed.

Create HintDb paths.
#[export] Hint Resolve pathElems_plain : paths.

(** ** Keys: relative paths of plain elements *)

Definition keyPath (k : list string) : string := StrJoin k "/".

Lemma IsAbs_plain k : k ≠ [] -> Forall plainElem k -> IsAbs (keyPath k) = false.
Proof.
  intros Hne H. unfold IsAbs. destruct (HasPrefix (keyPath k) "/") eqn:E; [|done].
  apply HasPrefix_spec in E as [t E]. pose proof (Split_StrJoin_plain k Hne H) as Hs. unfold keyPath in E. rewrite E in Hs.
  subst k. inversion H as [|? ? (Hx & _)]; subst. done.
Qed.

Lemma TrimPrefix_key k : k ≠ [] -> Forall plainElem k -> TrimPrefix (keyPath k) "/" = keyPath k.
Proof. intros Hne H. pose proof (IsAbs_plain k Hne H) as E. unfold IsAbs in E. unfold TrimPrefix. by rewrite E. Qed.

Lemma clean_plain_rel acc l :
  Forall plainElem l -> foldl (clean_step false) acc l = reverse l ++ acc.
Proof.
  intros H. revert acc. induction H as [|e l (H1 & H2 & H3 & _) _ IH]; intros acc; [done|].
  cbn [foldl]. rewrite IH, reverse_cons, <- app_assoc. unfold clean_step.
  by rewrite !bool_decide_eq_false_2.
Qed.

Lemma Clean_key k : k ≠ [] -> Forall plainElem k -> Clean (keyPath k) = keyPath k.
Proof.
  intros Hne H. unfold Clean. rewrite bool_decide_eq_false_2 by by apply StrJoin_plain_ne.
  rewrite IsAbs_plain by done. unfold clean_elems, keyPath. rewrite Split_StrJoin_plain by done.
  rewrite clean_plain_rel, app_nil_r, reverse_involutive by done. by rewrite bool_decide_eq_false_2.
Qed.

(** A key is none of the paths that go nowhere or up. *)
Lemma key_stays k : k ≠ [] -> Forall plainElem k ->
  keyPath k ≠ "." ∧ keyPath k ≠ ".." ∧ HasPrefix (keyPath k) "../" = false.
Proof.
  intros Hne H. pose proof (Split_StrJoin_plain k Hne H) as Hs. unfold keyPath. split_and!.
  - intros E. rewrite E in Hs. cbn in Hs. subst k. inversion H as [|? ? (_ & Hx & _)]; subst. done.
  - intros E. rewrite E in Hs. cbn in Hs. subst k. inversion H as [|? ? (_ & _ & Hx & _)]; subst. done.
  - destruct (HasPrefix _ _) eqn:E; [|done]. apply HasPrefix_spec in E as [t E]. rewrite E in Hs.
    change ("../" +:+ t) with (".." +:+ String slash t) in Hs. rewrite Split_app in Hs. subst k.
    inversion H as [|? ? (_ & _ & Hx & _)]; subst. done.
Qed.

Lemma pathElems_app s x : IsAbs s = true -> plainElem x -> pathElems (s +:+ "/" +:+ x) = pathElems s ++ [x].
Proof.
  intros Ha (H1 & H2 & H3 & Hx). unfold pathElems, clean_elems. change (s +:+ "/" +:+ x) with (s +:+ String slash x).
  rewrite Split_app, (Split_free_id x) by done. rewrite foldl_app. cbn [foldl]. unfold clean_step at 1.
  rewrite !bool_decide_eq_false_2 by done. cbn [orb]. by rewrite reverse_cons.
Qed.

(** ** A directory is shorter than what lies in it *)

#[local] Open Scope nat_scope.

(** The bytes of the elements and of the slashes between them; empty ones weigh nothing. *)
Definition cost (l : list string) : nat := sum_list ((λ e, S (String.length e)) <$> l).
Definition weight (l : list string) : nat := sum_list ((λ e, if bool_decide (e = "") then 0 else S (String.length e)) <$> l).

Lemma weight_cost l : weight l <= cost l.
Proof. induction l as [|e l IH]; [done|]. unfold weight, cost in *. cbn. case_bool_decide; lia. Qed.

Lemma cost_Split p c : cost (Split p c) = S (String.length p).
Proof.
  unfold cost. induction p as [|a p IH]; [done|]. cbn [Split]. destruct (Ascii.eqb a c); [cbn in *; lia|].
  destruct (Split p c) as [|x l]; cbn in *; lia.
Qed.

Lemma cost_StrJoin l : l ≠ [] -> S (String.length (StrJoin l "/")) = cost l.
Proof.
  unfold cost. induction l as [|e l IH]; [done|]. intros _. destruct l as [|e' l]; [cbn; lia|].
  change (StrJoin (e :: e' :: l) "/") with (e +:+ "/" +:+ StrJoin (e' :: l) "/"). rewrite !sapp_length. specialize (IH ltac:(done)). cbn in *. lia.
Qed.

Lemma cost_clean r l acc : cost (foldl (clean_step r) acc l) <= cost acc + weight l.
Proof.
  revert acc. induction l as [|e l IH]; intros acc; [change (cost acc <= cost acc + 0); lia|]. cbn [foldl]. etransitivity; [apply IH|].
  unfold weight. cbn. fold (weight l).
  enough (cost (clean_step r acc e) <= cost acc + (if bool_decide (e = "") then 0 else S (String.length e))) by lia.
  unfold clean_step. destruct (bool_decide (e = "")); cbn [orb]; [lia|]. destruct (bool_decide (e = ".")); [lia|].
  destruct (bool_decide_reflect (e = "..")) as [->|]; [|unfold cost; cbn; lia].
  destruct acc as [|x acc]; [destruct r; unfold cost; cbn; lia|]. destruct (bool_decide (x = "..")); unfold cost; cbn; lia.
Qed.

Lemma cost_clean_elems r l : cost (clean_elems r l) <= weight l.
Proof.
  unfold clean_elems. transitivity (cost (foldl (clean_step r) [] l)).
  - unfold cost. rewrite fmap_reverse. apply Nat.eq_le_incl. by rewrite reverse_Permutation.
  - apply (cost_clean r l []).
Qed.

Lemma LastIndexByte_split s c i :
  LastIndexByte s c = Some i -> stake (S i) s = stake i s +:+ schar c ∧ String.length (stake i s) = i ∧ i < String.length s.
Proof.
  revert i. induction s as [|a s IH]; intros i; [done|]. cbn. destruct (LastIndexByte s c) as [j|].
  - intros [= <-]. destruct (IH j eq_refl) as (E & El & Hl). split_and!; [|cbn; lia|lia]. change (String a (stake (S j) s) = String a (stake j s +:+ schar c)).
    by rewrite E.
  - destruct (Ascii.eqb_spec a c) as [->|]; [|done]. intros [= <-]. split_and!; [by destruct s|done|lia].
Qed.

Lemma Dir_shorter p : Dir p = "." ∨ Dir p = "/" ∨ String.length (Dir p) < String.length p.
Proof.
  unfold Dir. destruct (LastIndexByte p slash) as [i|] eqn:E; [|by left]. destruct (LastIndexByte_split _ _ _ E) as (-> & El & Hl).
  set (s := stake i p) in *. assert (Hs : Split (s +:+ schar slash) slash = Split s slash ++ [""]) by exact (Split_app s "" slash).
  assert (HA : s ≠ "" -> IsAbs (s +:+ schar slash) = IsAbs s).
  { destruct s as [|a s']; [done|]. intros _. unfold IsAbs. change (String a s' +:+ schar slash) with (String a (s' +:+ schar slash)).
    by rewrite !HasPrefix_cons, !HasPrefix_nil. }
  destruct (decide (s = "")) as [Es|Es]; [rewrite Es; by right; left|]. unfold Clean.
  rewrite (bool_decide_eq_false_2 (_ = "")) by by destruct s. rewrite HA, Hs by done.
  pose proof (cost_clean_elems (IsAbs s) (Split s slash ++ [""])) as Hc.
  assert (HW : weight (Split s slash ++ [""]) = weight (Split s slash)) by (unfold weight; rewrite fmap_app, sum_list_with_app; apply Nat.add_0_r).
  rewrite HW in Hc. pose proof (cost_Split s slash) as Hcs. pose proof (weight_cost (Split s slash)) as Hw.
  destruct (IsAbs s) eqn:Ha.
  - destruct (decide (clean_elems true (Split s slash ++ [""]) = [])) as [->|Hne]; [by right; left|]. right; right.
    pose proof (cost_StrJoin _ Hne) as HJ. rewrite sapp_length. cbn [String.length]. apply HasPrefix_spec in Ha as [t Ha].
    assert (weight (Split s slash) <= String.length s); [|lia]. rewrite Ha. change (Split ("/" +:+ t) slash) with ("" :: Split t slash).
    unfold weight. cbn. fold (weight (Split t slash)). rewrite weight_cost, cost_Split. done.
  - case_bool_decide as Hne; [by left|]. right; right. pose proof (cost_StrJoin _ Hne) as HJ. lia.
Qed.
