(* ===== verification/Spool.v ===== *)
(** * The spool: [internal/engine/spool.go]

    A run packs its source stream into a file of the work directory, counting
    the bytes on both sides and hashing those that reach the file. *)
From S2P Require Import Prelude GoStrings GoTime GoPath Core Pack.
Open Scope Z_scope.

(** [hex.EncodeToString(sha256(s))]: any function of the bytes. *)
Class Digest := sha256_hex : string -> string.

(** ** Counting *)

(** [h] is what the hash has been fed, when there is a hash. *)
Record countingWriter (W : Type) := mkCountingWriter { cw_w : W; cw_n : Z; cw_h : option string }.
Arguments mkCountingWriter {W}.
Arguments cw_w {W}.
Arguments cw_n {W}.
Arguments cw_h {W}.

#[export] Instance countingWriter_Write {W} {wr : Writer W} : Writer (countingWriter W) := λ c p,
  let '(w, n, err) := write (cw_w c) p in
  (mkCountingWriter w (cw_n c + Z.of_nat n)
     (if bool_decide (is_Some (cw_h c)) && (0 <? n)%nat then (λ h, h +:+ stake n p) <$> cw_h c else cw_h c),
   n, err).

(** The source as its next reads: chunks, then end of file ([None]) or an
    error; [ctx k] is [ctx.Err()] at the [k]-th read. *)
Record countingReader := mkCountingReader {
  cr_chunks : list string;
  cr_end : option error;
  cr_n : Z;
  cr_reads : nat;
  cr_ctx : nat -> option error
}.

Inductive read_result := ReadChunk (p : string) | ReadErr (err : error) | ReadEOF.

Definition countingReader_Read (c : countingReader) : countingReader * read_result :=
  let tick c := mkCountingReader (cr_chunks c) (cr_end c) (cr_n c) (S (cr_reads c)) (cr_ctx c) in
  match cr_ctx c (cr_reads c) with
  | Some err => (tick c, ReadErr err)
  | None =>
      match cr_chunks c with
      | p :: rest =>
          (mkCountingReader rest (cr_end c) (cr_n c + Z.of_nat (String.length p)) (S (cr_reads c)) (cr_ctx c),
           ReadChunk p)
      | [] => (tick c, match cr_end c with Some err => ReadErr err | None => ReadEOF end)
      end
  end.

Definition ErrShortWrite : error := newError "short write".

(** [io.Copy]: read, write, stop at the first error of either side.  A read
    consumes a chunk or ends the loop: one round per chunk and one more. *)
Fixpoint ioCopy {W} {wr : Writer W} (fuel : nat) (stack : list layer) (w : W) (r : countingReader)
    : list layer * W * countingReader * option error :=
  match fuel with
  | O => (stack, w, r, None)
  | S fuel' =>
      let '(r, res) := countingReader_Read r in
      match res with
      | ReadChunk p =>
          let '(stack, w, n, ew) := chain_write stack w p in
          match ew with
          | Some err => (stack, w, r, Some err)
          | None => if (n =? String.length p)%nat then ioCopy fuel' stack w r
                    else (stack, w, r, Some ErrShortWrite)
          end
      | ReadErr err => (stack, w, r, Some err)
      | ReadEOF => (stack, w, r, None)
      end
  end.

(** ** The spool *)

Record spool := mkSpool {
  sp_dir : string;
  sp_path : string;
  sp_Filename : string;
  sp_RawBytes : Z;
  sp_PackedBytes : Z;
  sp_SHA256 : string
}.

(** What the operating system answers: [os.MkdirAll], [os.OpenFile] (the file,
    truncated), [f.Sync], [os.RemoveAll]. *)
Record SpoolOS := mkSpoolOS {
  os_MkdirAll : option error;
  os_OpenFile : result File;
  os_Sync : option error;
  os_RemoveAll : option error
}.

Definition newSpool (os : SpoolOS) (workDir runID filename : string) : result spool :=
  let dir := PathJoin [workDir; runID] in
  match os_MkdirAll os with
  | Some err => Fail (wrapError "create spool directory" err)
  | None => Ok (mkSpool dir (PathJoin [dir; filename]) filename 0 0 "")
  end.

Section fill.
  Context {C : Codecs} {D : Digest}.

(** [Fill] returns the spool, the file it leaves and the error. *)
Definition Fill (os : SpoolOS) (s : spool) (ctx : nat -> option error)
    (chunks : list string) (src_end : option error) (opts : PackOptions)
    : spool * option File * option error :=
  let? f := os_OpenFile os else err => (s, None, Some (wrapError "create spool file" err)) in
  let sink := mkCountingWriter f 0 (Some "") in
  let? mc := newPackWriter opts else err => (s, Some f, Some err) in
  let reader := mkCountingReader chunks src_end 0 0 ctx in
  let '(stack, sink, reader, err) := ioCopy (S (length chunks)) (reverse mc) sink reader in
  match err with
  | Some err =>
      let '(sink, _) := closeAll stack sink in
      (s, Some (cw_w sink), Some (wrapError "copy stream into spool" err))
  | None =>
      let '(sink, err) := closeAll stack sink in
      match err with
      | Some err => (s, Some (cw_w sink), Some (wrapError "finish pack chain" err))
      | None =>
          match os_Sync os with
          | Some err => (s, Some (cw_w sink), Some (wrapError "sync spool file" err))
          | None =>
              (mkSpool (sp_dir s) (sp_path s) (sp_Filename s) (cr_n reader) (cw_n sink)
                 (sha256_hex (default "" (cw_h sink))),
               Some (cw_w sink), None)
          end
      end
  end.

Definition Cleanup (os : SpoolOS) (s : spool) : option error :=
  if bool_decide (sp_dir s = "") then None
  else match os_RemoveAll os with
       | Some err => Some (wrapError "remove spool directory" err)
       | None => None
       end.

End fill.

(** ** The counters tell the truth *)

(** The count and the hash of a counting writer over a file are those of the
    bytes of the file, whatever the writes did. *)
Definition faithful (c : countingWriter File) : Prop :=
  cw_n c = Z.of_nat (String.length (file_data (cw_w c)))
  ∧ cw_h c = Some (file_data (cw_w c)).

(** Its file keeps the contract of [io.Writer] and takes no more than it is
    given. *)
Definition sane (f : File) : Prop :=
  honest f ∧ ∀ data p, ((file_take f data p).1 <= String.length p)%nat.

Lemma stake_length n s : (n <= String.length s)%nat -> String.length (stake n s) = n.
Proof.
  revert s. induction n as [|n IH]; intros [|a s]; simpl; intros H; try lia. rewrite IH; lia.
Qed.

(** Writing to the counting file: it stays faithful and sane, and a write with
    no error appends the whole block. *)
Lemma counting_write c p c' n err :
  faithful c -> sane (cw_w c) -> write c p = (c', n, err) ->
  faithful c' ∧ sane (cw_w c')
  ∧ (err = None -> n = String.length p ∧ file_data (cw_w c') = file_data (cw_w c) +:+ p).
Proof.
  intros [Hn Hh] [Hhon Htake]. unfold write, countingWriter_Write, write, File_writer.
  destruct c as [[data take] cn ch]. simpl in *. subst ch.
  specialize (Htake data p) as Ht. specialize (Hhon data p) as Ho.
  unfold honest. simpl in *. destruct (take data p) as [k e] eqn:E. simpl in *. intros [= <- <- <-].
  split; [|split].
  - split; simpl; [rewrite sapp_length, stake_length by done; lia|].
    destruct k; simpl; [by rewrite sapp_nil_r|done].
  - split; [intros d q; simpl; specialize (Hhon d q)|intros d q; apply Htake]. done.
  - intros ->. rewrite Ho by done. by rewrite stake_all.
Qed.

Lemma foldl_packed mc flushed : foldl (λ acc l, lay_enc l acc) flushed (reverse mc) = packed mc flushed.
Proof. by rewrite packed_reverse. Qed.

(** A copy that ends without error has read the whole source and written it. *)
Lemma ioCopy_layers fuel l below (w : countingWriter File) r stack' w' r' :
  (length (cr_chunks r) < fuel)%nat ->
  ioCopy fuel (l :: below) w r = (stack', w', r', None) ->
  cr_end r = None ∧ w' = w
  ∧ stack' = mkLayer (lay_enc l) (lay_buf l +:+ concatChunks (cr_chunks r)) :: below
  ∧ cr_n r' = cr_n r + Z.of_nat (String.length (concatChunks (cr_chunks r))).
Proof.
  revert l r. induction fuel as [|fuel IH]; intros l r Hf; [lia|].
  simpl. unfold countingReader_Read. destruct (cr_ctx r (cr_reads r)); [done|].
  destruct (cr_chunks r) as [|p rest] eqn:Hc; simpl in *.
  - destruct (cr_end r) eqn:He; intros [= <- <- <-].
    rewrite sapp_nil_r. simpl. split_and!; [done..|by destruct l|lia].
  - rewrite Nat.eqb_refl. intros H. apply IH in H; [|simpl; lia]. simpl in H.
    destruct H as (? & ? & ? & ?). split_and!; [done..|by rewrite <- sapp_assoc|].
    rewrite sapp_length. lia.
Qed.

Lemma ioCopy_plain fuel (w : countingWriter File) r stack' w' r' :
  (length (cr_chunks r) < fuel)%nat -> faithful w -> sane (cw_w w) ->
  ioCopy fuel [] w r = (stack', w', r', None) ->
  cr_end r = None ∧ stack' = [] ∧ faithful w' ∧ sane (cw_w w')
  ∧ file_data (cw_w w') = file_data (cw_w w) +:+ concatChunks (cr_chunks r)
  ∧ cr_n r' = cr_n r + Z.of_nat (String.length (concatChunks (cr_chunks r))).
Proof.
  revert w r. induction fuel as [|fuel IH]; intros w r Hf Hfa Hsa; [lia|].
  simpl. unfold countingReader_Read. destruct (cr_ctx r (cr_reads r)); [done|].
  destruct (cr_chunks r) as [|p rest] eqn:Hc; simpl in *.
  - destruct (cr_end r) eqn:He; intros [= <- <- <-].
    rewrite sapp_nil_r. simpl. by split_and!; [..|lia].
  - destruct (write w p) as [[w1 n] ew] eqn:Hw.
    destruct (counting_write _ _ _ _ _ Hfa Hsa Hw) as (Hfa1 & Hsa1 & Hok).
    destruct ew as [|]; [done|]. destruct (Hok eq_refl) as [-> Hd]. rewrite Nat.eqb_refl.
    intros H. apply IH in H; [|simpl; lia|done..]. simpl in H.
    destruct H as (? & ? & ? & ? & Hd' & Hn). split_and!; [done..| |].
    + rewrite Hd', Hd. apply sapp_assoc.
    + rewrite Hn, sapp_length. lia.
Qed.

Section filled.
  Context {C : Codecs} {D : Digest}.

(** The spool [s] and its file hold the whole of a source that has ended. *)
Record filledWith (s : spool) (file : option File) (chunks : list string) (src_end : option error)
    (opts : PackOptions) : Prop := {
  fill_ended : src_end = None;
  fill_file : ∃ mc f, newPackWriter opts = Ok mc ∧ file = Some f
    ∧ file_data f = packed mc (concatChunks chunks)
    ∧ sp_PackedBytes s = Z.of_nat (String.length (file_data f))
    ∧ sp_SHA256 s = sha256_hex (file_data f);
  fill_raw : sp_RawBytes s = Z.of_nat (String.length (concatChunks chunks))
}.

Lemma Fill_filled os s ctx chunks src_end opts s' file :
  (∀ f, os_OpenFile os = Ok f -> file_data f = "" ∧ sane f) ->
  Fill os s ctx chunks src_end opts = (s', file, None) -> filledWith s' file chunks src_end opts.
Proof.
  intros Hos. unfold Fill. destruct (os_OpenFile os) as [f|] eqn:Ho; [|done].
  destruct (Hos f eq_refl) as [Hempty Hsane].
  destruct (newPackWriter opts) as [mc|] eqn:Hmc; [|done].
  set (w0 := mkCountingWriter f 0 (Some "")).
  assert (Hf0 : faithful w0) by (split; simpl; by rewrite Hempty).
  assert (Hs0 : sane (cw_w w0)) by done.
  pose proof (newPackWriter_fresh _ _ Hmc) as Hfresh. apply Forall_reverse in Hfresh.
  pose proof (foldl_packed mc (concatChunks chunks)) as Hpack.
  set (r0 := mkCountingReader chunks src_end 0 0 ctx).
  destruct (ioCopy (S (length chunks)) (reverse mc) w0 r0) as [[[stack w] r] [e|]] eqn:Hcopy;
    [by destruct (closeAll stack w)|].
  destruct (closeAll stack w) as [w2 cerr] eqn:Hclose.
  destruct cerr; [done|]. destruct (os_Sync os); [done|]. intros [= <- <-].
  assert (Hmain : faithful w2 ∧ src_end = None ∧ file_data (cw_w w2) = packed mc (concatChunks chunks)
                  ∧ cr_n r = Z.of_nat (String.length (concatChunks chunks))).
  { destruct (reverse mc) as [|l below].
    - apply ioCopy_plain in Hcopy as (He & -> & Hfa & _ & Hd & Hn); [|simpl; lia|done..].
      injection Hclose as <-. simpl in *. split_and!; [done..| |done].
      by rewrite Hd, Hempty, <- Hpack.
    - apply ioCopy_layers in Hcopy as (He & -> & -> & Hn); [|simpl; lia].
      inversion Hfresh as [|? ? Hl Hb]; subst. rewrite Hl in Hclose. simpl in *.
      assert (E : closeAll (mkLayer (lay_enc l) (concatChunks chunks) :: below) w0
                  = closeStack (mkLayer (lay_enc l) "" :: below) (concatChunks chunks) w0 None).
      { unfold closeAll. simpl. by rewrite sapp_nil_r. }
      rewrite E, closeStack_fresh in Hclose by (done || by constructor).
      destruct (write w0 _) as [[w3 n] err] eqn:Hw. simplify_eq.
      destruct (counting_write _ _ _ _ _ Hf0 Hs0 Hw) as (Hfa & _ & Hok).
      destruct (Hok eq_refl) as [_ Hd]. split_and!; [done..| |done].
      rewrite Hd. simpl in *. by rewrite Hempty, <- Hpack. }
  destruct Hmain as ([Hn Hh] & He & Hd & Hr). rewrite Hh. split; [done| |done].
  exists mc, (cw_w w2). by split_and!.
Qed.
(** A spool reported filled is whole.  Even on a file system whose writes
    may fail at any point, when [Fill] returns no error the source was read to
    its end, the file is exactly the packed stream, and the recorded raw size,
    packed size and checksum are those of the stream and of the file. *)
Theorem Fill_whole os s ctx chunks src_end opts s' file :
  (∀ f, os_OpenFile os = Ok f -> file_data f = "" ∧ sane f) ->
  Fill os s ctx chunks src_end opts = (s', file, None) ->
  ∃ mc f, newPackWriter opts = Ok mc ∧ file = Some f ∧ src_end = None
  ∧ file_data f = packed mc (concatChunks chunks)
  ∧ sp_RawBytes s' = Z.of_nat (String.length (concatChunks chunks))
  ∧ sp_PackedBytes s' = Z.of_nat (String.length (file_data f))
  ∧ sp_SHA256 s' = sha256_hex (file_data f).
Proof. intros Hos H. destruct (Fill_filled _ _ _ _ _ _ _ _ Hos H) as [He (mc & f & ?) Hr]. exists mc, f. naive_solver. Qed.
End filled.

Lemma Fill_whole_witness :
  let D : Digest := λ s, "h" +:+ s in
  let os := mkSpoolOS None (Ok (goodFile "")) None None in
  let s := mkSpool "/w/r" "/w/r/f" "f" 0 0 "" in
  ∃ s' file, Fill (C := tagCodecs) os s (λ _, None) ["ab"; "c"] None (mkPackOptions "zstd" 0 "none" "") = (s', file, None)
  ∧ ∃ mc f, newPackWriter (C := tagCodecs) (mkPackOptions "zstd" 0 "none" "") = Ok mc ∧ file = Some f ∧ @None error = None
  ∧ file_data f = packed mc (concatChunks ["ab"; "c"])
  ∧ sp_RawBytes s' = Z.of_nat (String.length (concatChunks ["ab"; "c"]))
  ∧ sp_PackedBytes s' = Z.of_nat (String.length (file_data f))
  ∧ sp_SHA256 s' = sha256_hex (file_data f).
Proof.
  intros D os s. eexists _, _. split; [reflexivity|].
  apply (Fill_whole (C := tagCodecs) os s (λ _, None) ["ab"; "c"] None (mkPackOptions "zstd" 0 "none" "")).
  - intros f [= <-]. split; [reflexivity|]. split; [intros data p _; reflexivity|intros data p; simpl; lia].
  - reflexivity.
Defined.
