(* ===== verification/FileSystem.v ===== *)
(** * A tree of files: what the operating system keeps

    Directories and files by the elements of their rooted path; there are no
    links.  Any call may fail, with nothing done, as its surroundings say
    ([sys_fault]); a file that is written may take less than it is given
    ([sys_take]).  The local destination works on the tree of the host, the SFTP
    destination on that of its server. *)
From S2P Require Import Prelude GoStrings GoTime GoSlices Pack GoPath Spool.
Open Scope Z_scope.

Inductive Node := NFile (data : string) (mtime : Time) | NDir (mtime : Time).

Abbreviation Tree := (@gmap (list string) list_eq_dec list_countable Node).

Record Disk := mkDisk { d_tree : Tree; d_calls : nat }.

(** [sys_temp] is the random number of a temporary name, [sys_home] the
    directory relative paths start in, [sys_ctx] what [ctx.Err()] says. *)
Record Sys := mkSys {
  sys_fault : nat -> option error;
  sys_take : nat -> string -> string -> nat * option error;
  sys_temp : nat -> N;
  sys_now : nat -> Time;
  sys_home : list string;
  sys_ctx : nat -> nat -> option error
}.

Definition FS (A : Type) : Type := Sys -> Disk -> A * Disk.

#[export] Instance FS_ret : MRet FS := λ A x _ d, (x, d).
#[export] Instance FS_bind : MBind FS := λ A B f m sys d, let '(x, d') := m sys d in f x sys d'.

Notation "'try?' x ':=' m 'else' e => h 'in' k" :=
  (mbind (M := FS) (λ r, match r with Ok x => k | Fail e => h end) m)
  (at level 10, x pattern, e name, m at level 100, h at level 100, k at level 200)
  : go_scope.

(** One call of the system, named [op] in its errors: it fails, or does what [f]
    says to the tree. *)
Definition syscall {A} (op : string) (f : Sys -> nat -> Tree -> result A * Tree) : FS (result A) := λ sys d,
  match sys_fault sys (d_calls d) with
  | Some err => (Fail (wrapError op err), mkDisk (d_tree d) (S (d_calls d)))
  | None =>
      let '(r, t) := f sys (d_calls d) (d_tree d) in
      (match r with Ok x => Ok x | Fail err => Fail (wrapError op err) end, mkDisk t (S (d_calls d)))
  end.

(** The elements of a path. *)
Definition at_ (sys : Sys) (p : string) : list string :=
  clean_elems true (if IsAbs p then Split p slash else sys_home sys ++ Split p slash).

Definition parent (p : list string) : list string := take (length p - 1) p.

Definition isDir (t : Tree) (p : list string) : bool :=
  match p, t !! p with
  | [], _ => true
  | _, Some (NDir _) => true
  | _, _ => false
  end.

Definition errNotExist : error := mkError "no such file or directory" ErrNotExist.
Definition errExist : error := newError "file exists".
Definition errNotDir : error := newError "not a directory".
Definition errIsDir : error := newError "is a directory".
Definition errNotEmpty : error := newError "directory not empty".
Definition errBusy : error := newError "device or resource busy".

(** Why a path leads nowhere: a missing name, or a file on the way to it. *)
Definition missing (t : Tree) (p : list string) : error :=
  if existsb (λ n, match t !! take n p with Some (NFile _ _) => true | _ => false end) (seq 1 (length p - 1))
  then errNotDir else errNotExist.

(** Something lies directly under the directory. *)
Definition occupied (t : Tree) (p : list string) : bool :=
  existsb (λ kv, bool_decide (kv.1 ≠ [] ∧ parent kv.1 = p)) (map_to_list t).

(** ** The calls *)

Record FileInfo := mkFileInfo { fi_Size : Z; fi_ModTime : Time; fi_IsDir : bool }.

Definition nodeInfo (n : Node) : FileInfo :=
  match n with
  | NFile data m => mkFileInfo (Z.of_nat (String.length data)) m false
  | NDir m => mkFileInfo 4096 m true
  end.

Definition lookupNode (t : Tree) (p : list string) : result Node :=
  match p with
  | [] => Ok (default (NDir zeroTime) (t !! []))
  | _ => match t !! p with Some n => Ok n | None => Fail (missing t p) end
  end.

Definition stat (p : string) : FS (result FileInfo) :=
  syscall ("stat " +:+ p) (λ sys _ t, (match lookupNode t (at_ sys p) with Ok n => Ok (nodeInfo n) | Fail err => Fail err end, t)).

(** The names of a path, one after the other: each is a directory, or made. *)
Fixpoint mkdirs (done rest : list string) : FS (option error) :=
  match rest with
  | [] => mret None
  | e :: rest =>
      let p := done ++ [e] in
      try? _ := syscall ("mkdir /" +:+ StrJoin p "/") (λ sys n t,
          match t !! p with
          | Some (NDir _) => (Ok tt, t)
          | Some (NFile _ _) => (Fail errNotDir, t)
          | None => (Ok tt, <[p := NDir (sys_now sys n)]> t)
          end)
        else err => mret (Some err) in
      mkdirs p rest
  end.

Definition MkdirAll (p : string) : FS (option error) := λ sys d, mkdirs [] (at_ sys p) sys d.

(** A new, empty file; the name is taken or the directory missing otherwise. *)
Definition createNew (p : list string) (sys : Sys) (n : nat) (t : Tree) : result unit * Tree :=
  if negb (isDir t (parent p)) then (Fail (missing t p), t)
  else match t !! p with
       | Some _ => (Fail errExist, t)
       | None => (Ok tt, <[p := NFile "" (sys_now sys n)]> t)
       end.

(** [os.CreateTemp(dir, prefix + "*")]: the name of the file. *)
Definition CreateTemp (dir prefix : string) : FS (result string) := λ sys d,
  let name := dir +:+ "/" +:+ prefix +:+ pretty (sys_temp sys (d_calls d)) in
  if ContainsByte prefix slash then (Fail (newError ("createtemp " +:+ prefix +:+ "*: pattern contains path separator")), d)
  else (try? _ := syscall ("open " +:+ name) (createNew (at_ sys name)) else err => mret (Fail err) in mret (Ok name)) sys d.

(** What the open file takes is what is found at its path. *)
Definition store (p : list string) (data : string) : FS unit := λ sys d,
  (tt, mkDisk (<[p := NFile data (sys_now sys (d_calls d))]> (d_tree d)) (S (d_calls d))).

(** [io.Copy] to a file that holds [init], from a reader that may ask the context
    before each read: what the file holds then and the error. *)
Definition copyOnto (guarded : bool) (p init : string) (chunks : list string) (src_end : option error) : FS (Z * option error) := λ sys d,
  let '(_, f, _, err) := ioCopy (S (length chunks)) [] (mkFile init (sys_take sys (d_calls d)))
                           (mkCountingReader chunks src_end 0 0 (if guarded then sys_ctx sys (d_calls d) else λ _, None)) in
  let '(_, d) := store (at_ sys p) (file_data f) sys d in
  ((Z.of_nat (String.length (file_data f)), err), d).

(** The same to a file that is empty: the bytes that reached it. *)
Definition copyInto (guarded : bool) (p : string) (chunks : list string) (src_end : option error) : FS (Z * option error) :=
  copyOnto guarded p "" chunks src_end.

(** [f.Sync], [f.Close], [os.Chmod]: nothing the tree shows. *)
Definition touch : FS (option error) := λ sys d,
  (sys_fault sys (d_calls d), mkDisk (d_tree d) (S (d_calls d))).

Definition removeNode (p : list string) (t : Tree) : result unit * Tree :=
  match p with
  | [] => (Fail errBusy, t)
  | _ =>
      match t !! p with
      | None => (Fail (missing t p), t)
      | Some (NFile _ _) => (Ok tt, delete p t)
      | Some (NDir _) => if occupied t p then (Fail errNotEmpty, t) else (Ok tt, delete p t)
      end
  end.

Definition Remove (p : string) : FS (result unit) := syscall ("remove " +:+ p) (λ sys _ t, removeNode (at_ sys p) t).

(** [os.Rename] of a file: it takes the place of what is there, unless that is a
    directory. *)
Definition renameNode (from to : list string) (t : Tree) : result unit * Tree :=
  match t !! from, t !! to with
  | None, _ => (Fail (missing t from), t)
  | Some (NDir _), _ => (Fail errNotDir, t)
  | Some (NFile _ _), Some (NDir _) => (Fail errIsDir, t)
  | Some n, _ => if isDir t (parent to) && bool_decide (to ≠ []) then (Ok tt, <[to := n]> (delete from t))
                 else (Fail (missing t to), t)
  end.

Definition Rename (from to : string) : FS (result unit) :=
  syscall ("rename " +:+ from +:+ " " +:+ to) (λ sys _ t, renameNode (at_ sys from) (at_ sys to) t).

(** [os.Open], as a reader of what is there. *)
Definition openNode (n : Node) : Reader :=
  match n with NFile data _ => fullReader data | NDir _ => mkReader "" (Some errIsDir) end.

Definition Open (p : string) : FS (result Reader) :=
  syscall ("open " +:+ p) (λ sys _ t, (match lookupNode t (at_ sys p) with Ok n => Ok (openNode n) | Fail err => Fail err end, t)).

(** [os.OpenFile] to write, the file made or emptied. *)
Definition openTruncated (p : list string) (sys : Sys) (n : nat) (t : Tree) : result unit * Tree :=
  match t !! p with
  | Some (NDir _) => (Fail errIsDir, t)
  | Some (NFile _ _) => (Ok tt, <[p := NFile "" (sys_now sys n)]> t)
  | None => createNew p sys n t
  end.

(** [os.ReadFile], and [os.WriteFile], which closes the file whatever came of the
    write. *)
Definition readFile (p : string) : FS (result string) :=
  try? r := Open p else err => mret (Fail err) in
  mret (match rd_err r with Some err => Fail err | None => Ok (rd_data r) end).

Definition writeFile (p data : string) : FS (option error) :=
  try? _ := syscall ("open " +:+ p) (λ sys n t, openTruncated (at_ sys p) sys n t) else err => mret (Some err) in
  r ← copyInto false p [data] None;
  e ← touch;
  mret (match r.2 with Some err => Some err | None => e end).

(** ** Walking *)

(** The names directly under a directory, in order. *)
Definition childName (p : list string) (q : list string) : option string :=
  match q with [] => None | _ => if bool_decide (parent q = p) then last q else None end.

Definition children (t : Tree) (p : list string) : list string :=
  SliceStable String.ltb (omap (λ kv, childName p kv.1) (map_to_list t)).

Definition isDirNode (n : Node) : bool := match n with NDir _ => true | _ => false end.

Record DirEntry := mkDirEntry { de_Name : string; de_IsDir : bool }.

(** [os.ReadDir]. *)
Definition ReadDir (p : string) : FS (result (list DirEntry)) :=
  syscall ("open " +:+ p) (λ sys _ t,
    let p := at_ sys p in
    (if isDir t p
     then Ok ((λ e, mkDirEntry e (isDir t (p ++ [e]))) <$> children t p)
     else Fail (match lookupNode t p with Ok _ => errNotDir | Fail err => err end), t)).

Section walk.
  Context {Acc : Type}.
  (** What is called for each entry: the state it threads, the path, whether it
      is a directory, and the error of reading it. *)
  Context (fn : Acc -> string -> bool -> option error -> FS (Acc * option error)).

Fixpoint walkEntries (one : Acc -> string -> bool -> FS (Acc * option error)) (dir : string) (l : list DirEntry) (acc : Acc)
    : FS (Acc * option error) :=
  match l with
  | [] => mret (acc, None)
  | e :: l =>
      r ← one acc (PathJoin [dir; de_Name e]) (de_IsDir e);
      match r with
      | (acc, Some err) => mret (acc, Some err)
      | (acc, None) => walkEntries one dir l acc
      end
  end.

(** One level of the recursion per level of the tree. *)
Fixpoint walkDir (fuel : nat) (acc : Acc) (p : string) (dir : bool) : FS (Acc * option error) :=
  match fuel with
  | O => mret (acc, None)
  | S fuel =>
      r ← fn acc p dir None;
      match r with
      | (acc, Some err) => mret (acc, Some err)
      | (acc, None) =>
          if negb dir then mret (acc, None)
          else
            entries ← ReadDir p;
            match entries with
            | Fail err => fn acc p dir (Some err)
            | Ok entries => walkEntries (walkDir fuel) p entries acc
            end
      end
  end.

(** The names of the longest path bound the depth. *)
Definition depth (t : Tree) : nat := max_list (length <$> (map_to_list t).*1).

(** [filepath.WalkDir(root, fn)] of a directory. *)
Definition WalkDir (acc : Acc) (root : string) : FS (Acc * option error) := λ sys d,
  walkDir (S (S (depth (d_tree d)))) acc root true sys d.

End walk.

(** * Lemmas on the tree of files

    What a call leaves of the files one looks at. *)

Lemma at_rooted sys l : Forall plainElem l -> at_ sys (rooted l) = l.
Proof. intros H. unfold at_. rewrite IsAbs_rooted. by apply pathElems_rooted. Qed.

(** ** The files, but those a name hides *)

Definition fileData (n : Node) : option string := match n with NFile data _ => Some data | NDir _ => None end.

Section seen.
  Context (hide : string -> bool).

Definition hides (p : list string) : bool := match last p with Some name => hide name | None => false end.

Definition seen (t : Tree) : gmap (list string) string := omap fileData (filter (λ kv, hides kv.1 = false) t).

Lemma seen_lookup t p : seen t !! p = if hides p then None else t !! p ≫= fileData.
Proof.
  unfold seen. rewrite lookup_omap, map_lookup_filter. destruct (t !! p) as [n|]; cbn [mbind option_bind]; [|by destruct (hides p)].
  destruct (hides p) eqn:E; case_guard as G; cbn in *; rewrite ?E in G; done.
Qed.

Lemma seen_ext t p u :
  (∀ q, q ≠ p -> t !! q ≫= fileData = u !! q ≫= fileData) ->
  (hides p = false -> t !! p ≫= fileData = u !! p ≫= fileData) -> seen t = seen u.
Proof.
  intros H Hp. apply map_eq. intros q. rewrite !seen_lookup. destruct (hides q) eqn:E; [done|].
  destruct (decide (q = p)) as [->|]; auto.
Qed.

Lemma seen_delete t p : seen (delete p t) = delete p (seen t).
Proof.
  apply map_eq. intros q. rewrite seen_lookup. destruct (decide (q = p)) as [->|].
  - rewrite !lookup_delete_eq. by destruct (hides p).
  - rewrite !lookup_delete_ne by done. by rewrite seen_lookup.
Qed.

Lemma seen_insert_hidden t p n : hides p = true -> seen (<[p := n]> t) = seen t.
Proof. intros H. apply (seen_ext _ p); [|by rewrite H]. intros q Hq. by rewrite lookup_insert_ne. Qed.

Lemma seen_delete_hidden t p : hides p = true -> seen (delete p t) = seen t.
Proof. intros H. apply (seen_ext _ p); [|by rewrite H]. intros q Hq. by rewrite lookup_delete_ne. Qed.

Lemma seen_insert_dir t p m : t !! p = None -> seen (<[p := NDir m]> t) = seen t.
Proof.
  intros H. apply (seen_ext _ p); [intros q Hq; by rewrite lookup_insert_ne|]. by rewrite lookup_insert_eq, H.
Qed.

Lemma seen_insert_file t p data m : hides p = false -> seen (<[p := NFile data m]> t) = <[p := data]> (seen t).
Proof.
  intros H. apply map_eq. intros q. rewrite seen_lookup. destruct (decide (q = p)) as [->|].
  - by rewrite !lookup_insert_eq, H.
  - rewrite !lookup_insert_ne by done. by rewrite seen_lookup.
Qed.

Lemma seen_delete_dir t p m : t !! p = Some (NDir m) -> seen (delete p t) = seen t.
Proof.
  intros H. rewrite seen_delete. apply delete_id. rewrite seen_lookup, H. by destruct (hides p).
Qed.

End seen.

(** ** What a program of calls keeps *)

Definition fsKeeps {P A : Type} (g : Tree -> P) (m : FS A) : Prop := ∀ sys d, g (d_tree (m sys d).2) = g (d_tree d).

Section keeps.
  Context {P : Type} (g : Tree -> P).

Lemma fsKeeps_ret {A : Type} (x : A) : fsKeeps g (mret x : FS A).
Proof. by intros sys d. Qed.

Lemma fsKeeps_bind {A B : Type} (m : FS A) (f : A -> FS B) : fsKeeps g m -> (∀ x, fsKeeps g (f x)) -> fsKeeps g (m ≫= f).
Proof.
  intros Hm Hf sys d. unfold mbind, FS_bind. specialize (Hm sys d). destruct (m sys d) as [x d1]. cbn in *. by rewrite Hf.
Qed.

Lemma fsKeeps_syscall {A : Type} op (f : Sys -> nat -> Tree -> result A * Tree) :
  (∀ sys n t, g (f sys n t).2 = g t) -> fsKeeps g (syscall op f).
Proof.
  intros H sys d. unfold syscall. destruct (sys_fault sys (d_calls d)); [done|].
  specialize (H sys (d_calls d) (d_tree d)). by destruct (f sys (d_calls d) (d_tree d)).
Qed.

Lemma fsKeeps_touch : fsKeeps g touch.
Proof. by intros sys d. Qed.

Lemma fsKeeps_stat p : fsKeeps g (stat p).
Proof. by apply fsKeeps_syscall. Qed.

Lemma fsKeeps_Open p : fsKeeps g (Open p).
Proof. by apply fsKeeps_syscall. Qed.

Lemma fsKeeps_ReadDir p : fsKeeps g (ReadDir p).
Proof. by apply fsKeeps_syscall. Qed.

Lemma fsKeeps_walkEntries {Acc} (one : Acc -> string -> bool -> FS (Acc * option error)) dir l acc :
  (∀ acc p b, fsKeeps g (one acc p b)) -> fsKeeps g (walkEntries one dir l acc).
Proof.
  intros H. revert acc. induction l as [|e l IH]; intros acc; [apply fsKeeps_ret|].
  cbn [walkEntries]. apply fsKeeps_bind; [done|]. intros [acc' [err|]]; [apply fsKeeps_ret|apply IH].
Qed.

Lemma fsKeeps_walkDir {Acc} (fn : Acc -> string -> bool -> option error -> FS (Acc * option error)) fuel acc p b :
  (∀ acc p b e, fsKeeps g (fn acc p b e)) -> fsKeeps g (walkDir fn fuel acc p b).
Proof.
  intros H. revert acc p b. induction fuel as [|fuel IH]; intros acc p b; [apply fsKeeps_ret|].
  cbn [walkDir]. apply fsKeeps_bind; [done|]. intros [acc' [err|]]; [apply fsKeeps_ret|].
  destruct b; [|apply fsKeeps_ret]. apply fsKeeps_bind; [apply fsKeeps_ReadDir|]. intros [entries|err]; [|done].
  apply fsKeeps_walkEntries. intros. apply IH.
Qed.

End keeps.

Create HintDb files.
#[export] Hint Resolve fsKeeps_ret fsKeeps_touch fsKeeps_stat fsKeeps_Open fsKeeps_ReadDir : files.

(** ** Single calls *)

Lemma mkdirs_seen hide done_ rest : fsKeeps (seen hide) (mkdirs done_ rest).
Proof.
  revert done_. induction rest as [|e rest IH]; intros done_; [apply fsKeeps_ret|]. cbn [mkdirs].
  apply fsKeeps_bind; [|intros [[]|err]; [apply IH|apply fsKeeps_ret]].
  apply fsKeeps_syscall. intros sys n t. destruct (t !! (done_ ++ [e])) as [[]|] eqn:E; [done..|]. by apply seen_insert_dir.
Qed.

Lemma MkdirAll_seen hide p : fsKeeps (seen hide) (MkdirAll p).
Proof. intros sys d. apply mkdirs_seen. Qed.

#[export] Hint Resolve MkdirAll_seen : files.

(** What a successful copy leaves is the whole stream. *)
Lemma ioCopy_file fuel (f : File) r stack' f' r' :
  (length (cr_chunks r) < fuel)%nat -> sane f ->
  ioCopy fuel [] f r = (stack', f', r', None) ->
  cr_end r = None ∧ file_data f' = file_data f +:+ concatChunks (cr_chunks r).
Proof.
  revert f r. induction fuel as [|fuel IH]; intros f r Hf Hs; [lia|].
  simpl. unfold countingReader_Read. destruct (cr_ctx r (cr_reads r)); [done|].
  destruct (cr_chunks r) as [|p rest] eqn:Hc; simpl in *.
  { destruct (cr_end r) eqn:He; [done|]. intros [= <- <- <-]. by rewrite sapp_nil_r. }
  unfold write, File_writer. destruct Hs as [Hh Ht]. specialize (Hh (file_data f) p) as Ho.
  destruct (file_take f (file_data f) p) as [n e] eqn:E. simpl in *. destruct e; [done|].
  rewrite Ho by done. rewrite Nat.eqb_refl. intros H.
  apply IH in H as [H1 H2]; simpl in *; [|lia|done].
  split; [done|]. rewrite H2, stake_all. by rewrite sapp_assoc.
Qed.

Definition saneSys (sys : Sys) : Prop :=
  (∀ n, sane (mkFile "" (sys_take sys n))) ∧ (∀ n err, sys_fault sys n = Some err -> errorsIs err ErrNotExist = false).

(** The copy stores what it wrote; with no error that is the whole stream. *)
Lemma copyOnto_spec guarded p init chunks src_end sys d :
  saneSys sys ->
  ∃ data err m, copyOnto guarded p init chunks src_end sys d
    = ((Z.of_nat (String.length data), err), mkDisk (<[at_ sys p := NFile data m]> (d_tree d)) (S (d_calls d)))
    ∧ (err = None -> src_end = None ∧ data = init +:+ concatChunks chunks).
Proof.
  intros [Hs _]. unfold copyOnto. match goal with |- context [ioCopy ?fu ?st ?fi ?r] => set (rd := r); destruct (ioCopy fu st fi rd) as [[[st' f'] r'] err] eqn:E end.
  cbn. eexists _, err, _. split; [done|]. intros ->. apply ioCopy_file in E as [E1 E2]; [done|cbn; lia|apply Hs].
Qed.

Lemma copyInto_spec guarded p chunks src_end sys d :
  saneSys sys ->
  ∃ data err m, copyInto guarded p chunks src_end sys d
    = ((Z.of_nat (String.length data), err), mkDisk (<[at_ sys p := NFile data m]> (d_tree d)) (S (d_calls d)))
    ∧ (err = None -> src_end = None ∧ data = concatChunks chunks).
Proof. apply copyOnto_spec. Qed.

(** A new temporary file, or nothing. *)
Lemma CreateTemp_spec dir prefix sys d :
  ∃ name, name = dir +:+ "/" +:+ prefix +:+ pretty (sys_temp sys (d_calls d)) ∧
  ((∃ err n, CreateTemp dir prefix sys d = (Fail err, mkDisk (d_tree d) n))
   ∨ ∃ m, d_tree d !! at_ sys name = None ∧ isDir (d_tree d) (parent (at_ sys name)) = true
      ∧ CreateTemp dir prefix sys d = (Ok name, mkDisk (<[at_ sys name := NFile "" m]> (d_tree d)) (S (d_calls d)))).
Proof.
  eexists. split; [done|]. unfold CreateTemp. destruct (ContainsByte _ _).
  { left. destruct d. by eexists _, _. }
  unfold mbind, FS_bind, syscall. destruct (sys_fault sys (d_calls d)); [left; by eexists _, _|].
  unfold createNew. destruct (isDir _ _) eqn:Ed; [|left; by eexists _, _]. cbn [negb].
  destruct (d_tree d !! _) eqn:E; [left; by eexists _, _|]. right. by eexists.
Qed.

Lemma Rename_spec from to sys d r d' :
  Rename from to sys d = (r, d') ->
  match r with
  | Fail _ => d_tree d' = d_tree d
  | Ok _ => ∃ data m, d_tree d !! at_ sys from = Some (NFile data m)
      ∧ d_tree d' = <[at_ sys to := NFile data m]> (delete (at_ sys from) (d_tree d))
  end.
Proof.
  unfold Rename, syscall. destruct (sys_fault sys (d_calls d)); [by intros [= <- <-]|]. unfold renameNode.
  destruct (d_tree d !! at_ sys from) as [[data m|m]|] eqn:Ef; [|by intros [= <- <-]..].
  destruct (d_tree d !! at_ sys to) as [[]|]; [| |]; repeat case_match; intros; simplify_eq/=; try done; by eexists _, _.
Qed.

Lemma Remove_spec p sys d r d' :
  Remove p sys d = (r, d') ->
  match r with
  | Ok _ => is_Some (d_tree d !! at_ sys p) ∧ d_tree d' = delete (at_ sys p) (d_tree d)
  | Fail err => d_tree d' = d_tree d
      ∧ (errorsIs err ErrNotExist = true -> saneSys sys -> d_tree d !! at_ sys p = None)
  end.
Proof.
  unfold Remove, syscall. destruct (sys_fault sys (d_calls d)) as [e|] eqn:Ef.
  { intros [= <- <-]. split; [done|]. intros He [_ Hs]. specialize (Hs _ _ Ef). unfold errorsIs in *. cbn in He. by rewrite Hs in He. }
  unfold removeNode. destruct (at_ sys p) as [|x q] eqn:E.
  { intros [= <- <-]. split; [done|]. done. }
  destruct (d_tree d !! (x :: q)) as [[data m|m]|] eqn:El.
  - by intros [= <- <-].
  - by destruct (occupied _ _); intros [= <- <-].
  - intros [= <- <-]. by split.
Qed.

(** ** Trees *)

(** What lies somewhere lies in a directory. *)
Definition tidy (t : Tree) : Prop :=
  (∀ p e n, t !! (p ++ [e]) = Some n -> isDir t p = true) ∧ ∀ data m, t !! [] ≠ Some (NFile data m).

Lemma isDir_insert t p q n : isDir t q = true -> (q = p -> ∃ m, n = NDir m) -> isDir (<[p := n]> t) q = true.
Proof.
  intros H Hn. unfold isDir in *. destruct q as [|x q]; [done|]. destruct (decide (p = x :: q)) as [->|].
  - rewrite lookup_insert_eq. by destruct (Hn eq_refl) as [m ->].
  - by rewrite lookup_insert_ne.
Qed.

Lemma isDir_file t p data m : p ≠ [] -> t !! p = Some (NFile data m) -> isDir t p = false.
Proof. intros Hp H. unfold isDir. destruct p; [done|]. by rewrite H. Qed.

Lemma isDir_absent t p : p ≠ [] -> t !! p = None -> isDir t p = false.
Proof. intros Hp H. unfold isDir. destruct p; [done|]. by rewrite H. Qed.

Lemma parent_snoc p (e : string) : parent (p ++ [e]) = p.
Proof. unfold parent. rewrite length_app. cbn. rewrite Nat.add_sub. by rewrite take_app_length. Qed.

(** Adding under a directory, or replacing a file by another. *)
Lemma tidy_insert t p n :
  tidy t -> p ≠ [] -> isDir t (parent p) = true -> ((∃ m, n = NDir m) ∨ isDir t p = false) -> tidy (<[p := n]> t).
Proof.
  intros [Ht H0] Hp Hd Hn. split; [|by rewrite lookup_insert_ne]. intros q e n' Hl.
  assert (Hq : isDir t q = true).
  { destruct (decide (p = q ++ [e])) as [->|]; [by rewrite parent_snoc in Hd|]. rewrite lookup_insert_ne in Hl by done. by eapply Ht. }
  apply isDir_insert; [done|]. intros ->. destruct Hn as [Hn|Hn]; [done|]. by rewrite Hn in Hq.
Qed.

Lemma tidy_delete t p : tidy t -> (isDir t p = false ∨ occupied t p = false) -> tidy (delete p t).
Proof.
  intros [Ht H0] Hp. split.
  - intros q e n. intros Hl. apply lookup_delete_Some in Hl as [Hne Hl]. pose proof (Ht _ _ _ Hl) as Hd.
    unfold isDir in *. destruct q as [|x q]; [done|]. destruct (decide (p = x :: q)) as [->|]; [|by rewrite lookup_delete_ne].
    exfalso. destruct Hp as [Hp|Hp]; [by rewrite Hd in Hp|]. apply not_true_iff_false in Hp. destruct Hp.
    unfold occupied. apply existsb_exists. exists ((x :: q) ++ [e], n). split; [by apply list_elem_of_In, elem_of_map_to_list|].
    apply bool_decide_eq_true. split; [done|apply (parent_snoc (x :: q))].
  - intros data m Hl. apply lookup_delete_Some in Hl as [_ Hl]. by eapply H0.
Qed.

Lemma removeNode_tidy p t : tidy t -> tidy (removeNode p t).2.
Proof.
  intros H. unfold removeNode. destruct p as [|x p]; [done|]. destruct (t !! (x :: p)) as [[data m|m]|] eqn:E; [| |done].
  - apply tidy_delete; [done|left]. by eapply isDir_file.
  - destruct (occupied t (x :: p)) eqn:O; [done|]. apply tidy_delete; [done|by right].
Qed.

Lemma renameNode_tidy from to t : tidy t -> from ≠ [] -> tidy (renameNode from to t).2.
Proof.
  intros H Hf. unfold renameNode. destruct (t !! from) as [[data m|m]|] eqn:Ef; [|done..].
  assert (Hfile : isDir t from = false) by by eapply isDir_file.
  assert (Hdel : tidy (delete from t)) by (apply tidy_delete; auto).
  assert (Hgo : isDir t to = false -> tidy (if isDir t (parent to) && bool_decide (to ≠ [])
    then (Ok tt, <[to := NFile data m]> (delete from t)) else (Fail (missing t to), t)).2).
  { intros Hto. destruct (isDir t (parent to)) eqn:Hd; [|done]. case_bool_decide as Hne; [|done]. cbn.
    assert (Hkeep : ∀ q, isDir t q = true -> isDir (delete from t) q = true).
    { intros q Hq. unfold isDir in *. destruct q as [|x q]; [done|]. destruct (decide (from = x :: q)) as [->|]; [by rewrite Hq in Hfile|].
      by rewrite lookup_delete_ne. }
    apply tidy_insert; [done..|by apply Hkeep|]. right. destruct (isDir (delete from t) to) eqn:E; [|done].
    unfold isDir in *. destruct to as [|x to]; [done|]. destruct (delete from t !! (x :: to)) as [n|] eqn:L; [|done].
    apply lookup_delete_Some in L as [_ L]. rewrite L in Hto. by destruct n. }
  destruct (t !! to) as [[data' m'|m']|] eqn:Et; [|done|].
  - destruct (decide (to = [])) as [->|Hne]; [by destruct H as [_ H0]; destruct (H0 _ _ Et)|]. apply Hgo. by eapply isDir_file.
  - destruct (decide (to = [])) as [->|Hne]; [by cbn|]. apply Hgo. unfold isDir. destruct to; [done|]. by rewrite Et.
Qed.

Lemma mkdirs_tidy done_ rest sys d :
  tidy (d_tree d) -> isDir (d_tree d) done_ = true -> tidy (d_tree (mkdirs done_ rest sys d).2).
Proof.
  revert done_ d. induction rest as [|e rest IH]; intros done_ d Ht Hd; [done|]. cbn [mkdirs]. unfold mbind, FS_bind, syscall.
  destruct (sys_fault sys (d_calls d)); [done|]. destruct (d_tree d !! (done_ ++ [e])) as [[]|] eqn:E; [done| |].
  - apply IH; [done|]. cbn. unfold isDir. destruct (done_ ++ [e]) eqn:L; [done|]. by rewrite E.
  - apply IH; cbn.
    + apply tidy_insert; [done|by destruct done_|by rewrite parent_snoc|by left; eexists].
    + unfold isDir. destruct (done_ ++ [e]) eqn:L; [by destruct done_|]. by rewrite lookup_insert_eq.
Qed.

Lemma MkdirAll_tidy p sys d : tidy (d_tree d) -> tidy (d_tree (MkdirAll p sys d).2).
Proof. intros H. by apply mkdirs_tidy. Qed.

Lemma Remove_tidy p sys d : tidy (d_tree d) -> tidy (d_tree (Remove p sys d).2).
Proof.
  intros H. unfold Remove, syscall. destruct (sys_fault sys (d_calls d)); [done|].
  pose proof (removeNode_tidy (at_ sys p) (d_tree d) H) as K. by destruct (removeNode _ _).
Qed.

Lemma Rename_tidy from to sys d : tidy (d_tree d) -> at_ sys from ≠ [] -> tidy (d_tree (Rename from to sys d).2).
Proof.
  intros H Hf. unfold Rename, syscall. destruct (sys_fault sys (d_calls d)); [done|].
  pose proof (renameNode_tidy (at_ sys from) (at_ sys to) (d_tree d) H Hf) as K. by destruct (renameNode _ _ _).
Qed.

#[export] Hint Resolve MkdirAll_tidy Remove_tidy Rename_tidy : files.

(** No file on the way. *)
Definition noFile (t : Tree) (p : list string) : Prop := ∀ q data m, q `prefix_of` p -> t !! q ≠ Some (NFile data m).

Lemma noFile_prefix t p q : noFile t p -> q `prefix_of` p -> noFile t q.
Proof. intros H Hq q' data m Hq'. apply H. by etrans. Qed.

Lemma noFile_delete t p q : noFile t p -> noFile (delete q t) p.
Proof. intros H q' data m Hq' [_ L]%lookup_delete_Some. by eapply H. Qed.

Lemma prefix_snoc_cases {X} (q p : list X) e : q `prefix_of` p ++ [e] -> q = p ++ [e] ∨ q `prefix_of` p.
Proof.
  intros [r E]. destruct r as [|y r _] using rev_ind; [left; by rewrite app_nil_r in E|right].
  rewrite app_assoc in E. apply app_inj_tail in E as [-> _]. by eexists.
Qed.

(** What lies above something are directories. *)
Lemma tidy_noFile t p : tidy t -> isDir t p = true -> noFile t p.
Proof.
  intros [Ht H0]. induction p as [|e p IH] using rev_ind; intros Hd q data m Hq Hl.
  - apply prefix_nil_inv in Hq as ->. by eapply H0.
  - apply prefix_snoc_cases in Hq as [->|Hq].
    + rewrite (isDir_file t (p ++ [e]) data m) in Hd; [done|by destruct p|done].
    + assert (Hp : isDir t p = true).
      { destruct (t !! (p ++ [e])) as [n|] eqn:K; [by eapply Ht|]. unfold isDir in Hd.
        destruct (p ++ [e]) eqn:L; [by destruct p|]. by rewrite K in Hd. }
      by eapply (IH Hp q).
Qed.

Lemma noFile_removed t p : noFile t p -> match t !! p with Some (NFile _ _) => False | _ => True end.
Proof. intros H. destruct (t !! p) as [[]|] eqn:E; [|done..]. by eapply H. Qed.
