(* ===== verification/Shell.v ===== *)
(** * Quoting for a remote shell: [ShellQuote] and [ShellJoin] of
    [internal/remote/remote.go]

    Every command a source or a hook runs on a remote host goes through these
    two functions.  [shell_words] is the reader they are measured against: the
    words a POSIX shell sees in a line, refusing any character that would make
    it expand, substitute, redirect or separate commands. *)
From S2P Require Import Prelude GoStrings.

Definition quote_mark : ascii := "'".
Definition escaped_quote : string := "'\''".

(** The bytes [ShellQuote] leaves bare. *)
Definition safe_byte (a : ascii) : bool :=
  is_lower a || is_upper a || is_digit a || ContainsByte "-_./:=@,+" a.

Definition ShellQuote (s : string) : string :=
  if bool_decide (s = "") then "''"
  else if sall safe_byte s then s
  else "'" +:+ ReplaceByte s quote_mark escaped_quote +:+ "'".

Definition ShellJoin (args : list string) : string := StrJoin (ShellQuote <$> args) " ".

(** ** The shell's side *)

Definition is_blank (a : ascii) : bool := Ascii.eqb a " " || Ascii.eqb a (byte_of 9).
Definition is_nul (a : ascii) : bool := Ascii.eqb a (byte_of 0).

(** [cur] is the word being read, if one has begun; [q] tells whether we are
    inside single quotes. [None]: the line is not a plain list of words. *)
Fixpoint shell_scan (s : string) (cur : option string) (q : bool) : option (list string) :=
  match s with
  | "" => if q then None else Some (match cur with Some w => [w] | None => [] end)
  | String a s' =>
      let push b := Some (default "" cur +:+ schar b) in
      if is_nul a then None
      else if q then
        if Ascii.eqb a quote_mark then shell_scan s' cur false else shell_scan s' (push a) true
      else if Ascii.eqb a quote_mark then shell_scan s' (Some (default "" cur)) true
      else if Ascii.eqb a "\" then
        match s' with
        | "" => None
        | String b s'' =>
            if is_nul b || Ascii.eqb b (byte_of 10) then None else shell_scan s'' (push b) false
        end
      else if is_blank a then
        match cur with
        | Some w => cons w <$> shell_scan s' None false
        | None => shell_scan s' None false
        end
      else if safe_byte a then shell_scan s' (push a) false
      else None
  end.

Definition shell_words (s : string) : option (list string) := shell_scan s None false.

(** A shell cannot be handed a NUL byte. *)
Definition nul_free (s : string) : bool := sall (λ a, negb (is_nul a)) s.

(** ** Quoting is exact *)

Lemma safe_byte_plain a :
  safe_byte a = true ->
  is_nul a = false ∧ Ascii.eqb a quote_mark = false ∧ Ascii.eqb a "\" = false ∧ is_blank a = false.
Proof. destruct a as [[] [] [] [] [] [] [] []]; vm_compute; intros H; done. Qed.

Lemma shell_scan_safe s cur rest :
  sall safe_byte s = true -> s ≠ "" ->
  shell_scan (s +:+ rest) cur false = shell_scan rest (Some (default "" cur +:+ s)) false.
Proof.
  revert cur. induction s as [|a s IH]; intros cur H Hne; [done|].
  simpl in H. boolean. destruct (safe_byte_plain a) as (H1 & H2 & H3 & H4); [done|].
  cbn [String.append shell_scan]. rewrite H1, H2, H3, H4. replace (safe_byte a) with true by done.
  destruct s as [|b s].
  - done.
  - rewrite IH by done. simpl. by rewrite sapp_assoc.
Qed.

Lemma shell_scan_quoted s cur rest :
  nul_free s = true ->
  shell_scan (ReplaceByte s quote_mark escaped_quote +:+ String quote_mark rest) (Some cur) true
  = shell_scan rest (Some (cur +:+ s)) false.
Proof.
  revert cur. induction s as [|a s IH]; intros cur H.
  - simpl. by rewrite sapp_nil_r.
  - unfold nul_free in H. simpl in H. boolean. cbn [ReplaceByte].
    destruct (Ascii.eqb a quote_mark) eqn:E.
    + apply Ascii.eqb_eq in E as ->. rewrite sapp_assoc. simpl.
      rewrite IH by done. by rewrite sapp_assoc.
    + cbn [String.append shell_scan]. replace (is_nul a) with false by done. rewrite E, IH by done.
      simpl. by rewrite sapp_assoc.
Qed.

Lemma shell_scan_ShellQuote s rest :
  nul_free s = true -> shell_scan (ShellQuote s +:+ rest) None false = shell_scan rest (Some s) false.
Proof.
  intros H. unfold ShellQuote. case_bool_decide as E; [by subst|].
  destruct (sall safe_byte s) eqn:Hs; [by rewrite shell_scan_safe|].
  rewrite sapp_assoc. cbn [String.append]. rewrite sapp_assoc. cbn [String.append].
  cbn [shell_scan]. simpl (is_nul quote_mark). rewrite Ascii.eqb_refl. simpl (default _ _).
  by rewrite shell_scan_quoted.
Qed.

(** An argument vector survives the remote shell: whatever bytes its
    arguments hold (spaces, quotes, dollars, newlines, nothing), the shell reads
    the joined line back as exactly that list of words and sees nothing to
    expand or execute. *)
Theorem shell_words_ShellJoin args :
  forallb nul_free args = true -> shell_words (ShellJoin args) = Some args.
Proof.
  unfold shell_words, ShellJoin. induction args as [|a args IH]; [done|].
  cbn [forallb]. intros H. boolean. destruct args as [|b args].
  - simpl. rewrite <- (sapp_nil_r (ShellQuote a)). by rewrite shell_scan_ShellQuote.
  - change (StrJoin (ShellQuote <$> a :: b :: args) " ")
      with (ShellQuote a +:+ " " +:+ StrJoin (ShellQuote <$> b :: args) " ").
    rewrite shell_scan_ShellQuote by done. cbn [String.append shell_scan].
    rewrite IH by done. done.
Qed.

Lemma shell_words_ShellJoin_witness :
  shell_words (ShellJoin ["tar"; "a b"; "it's"; ""; "$(rm -rf /)"])
  = Some ["tar"; "a b"; "it's"; ""; "$(rm -rf /)"].
Proof. apply (shell_words_ShellJoin ["tar"; "a b"; "it's"; ""; "$(rm -rf /)"]). reflexivity. Defined.
