(* ===== verification/Secrets.v ===== *)
(** * Go's [encoding/base64], unpadded standard alphabet, and [encoding/hex]

    [RawStdEncoding] as the cipher uses it, executable, with its round trip. *)
From S2P Require Import Prelude GoStrings GoTime Core Config.
Open Scope N_scope.

(** The character of a sextet and the sextet of a character. *)
Definition b64_char (n : N) : ascii :=
  if n <? 26 then byte_of (65 + n)
  else if n <? 52 then byte_of (71 + n)
  else if n <? 62 then byte_of (n - 4)
  else if n =? 62 then "+"%char else "/"%char.

Definition b64_value (a : ascii) : option N :=
  if is_upper a then Some (code a - 65)
  else if is_lower a then Some (code a - 71)
  else if is_digit a then Some (code a + 4)
  else if Ascii.eqb a "+" then Some 62
  else if Ascii.eqb a "/" then Some 63
  else None.

(** [RawStdEncoding.EncodeToString]: three bytes to four characters; one and
    two leftover bytes to two and three. *)
Fixpoint RawStd_Encode (s : string) : string :=
  match s with
  | String a (String b (String c rest)) =>
      let n := (code a * 65536 + code b * 256 + code c) in
      String (b64_char (n / 262144)) (String (b64_char (n / 4096 mod 64))
        (String (b64_char (n / 64 mod 64)) (String (b64_char (n mod 64)) (RawStd_Encode rest))))
  | String a (String b "") =>
      let n := (code a * 1024 + code b * 4) in
      String (b64_char (n / 4096)) (String (b64_char (n / 64 mod 64)) (schar (b64_char (n mod 64))))
  | String a "" =>
      let n := code a * 16 in String (b64_char (n / 64)) (schar (b64_char (n mod 64)))
  | "" => ""
  end.

(** The decoder skips carriage returns and newlines. *)
Fixpoint drop_newlines (s : string) : string :=
  match s with
  | "" => ""
  | String a s' =>
      if Ascii.eqb a (byte_of 10) || Ascii.eqb a (byte_of 13) then drop_newlines s'
      else String a (drop_newlines s')
  end.

Fixpoint b64_decode (s : string) : option string :=
  match s with
  | "" => Some ""
  | String w (String x (String y (String z rest))) =>
      w ← b64_value w; x ← b64_value x; y ← b64_value y; z ← b64_value z;
      tail ← b64_decode rest;
      let n := (w * 262144 + x * 4096 + y * 64 + z) in
      Some (String (byte_of (n / 65536)) (String (byte_of (n / 256 mod 256)) (String (byte_of (n mod 256)) tail)))
  | String w (String x (String y "")) =>
      w ← b64_value w; x ← b64_value x; y ← b64_value y;
      let n := (w * 4096 + x * 64 + y) / 4 in
      Some (String (byte_of (n / 256)) (schar (byte_of (n mod 256))))
  | String w (String x "") =>
      w ← b64_value w; x ← b64_value x; Some (schar (byte_of ((w * 64 + x) / 16)))
  | String _ "" => None
  end.

(** [RawStdEncoding.DecodeString]; [None] is a [CorruptInputError]. *)
Definition RawStd_Decode (s : string) : option string := b64_decode (drop_newlines s).

(** ** Round trip *)

Lemma N_below_64 (P : N -> bool) : forallb (λ i, P (N.of_nat i)) (seq 0 64) = true -> ∀ n, n < 64 -> P n = true.
Proof.
  intros H n Hn. rewrite forallb_forall in H. rewrite <- (N2Nat.id n). apply H, in_seq. lia.
Qed.

Lemma b64_value_char n : n < 64 -> b64_value (b64_char n) = Some n.
Proof.
  intros Hn.
  assert (H : bool_decide (b64_value (b64_char n) = Some n) = true);
    [|by apply bool_decide_eq_true in H].
  revert n Hn. apply N_below_64. by vm_compute.
Qed.

Lemma b64_char_plain n : n < 64 ->
  Ascii.eqb (b64_char n) (byte_of 10) || Ascii.eqb (b64_char n) (byte_of 13) = false.
Proof.
  intros Hn. apply negb_true_iff. revert n Hn. apply N_below_64. by vm_compute.
Qed.

Lemma code_bound a : code a < 256.
Proof. apply N_ascii_bounded. Qed.

Lemma byte_of_code a : byte_of (code a) = a.
Proof. apply ascii_N_embedding. Qed.

Lemma sextet_bounds n :
  n < 16777216 -> n / 262144 < 64 ∧ n / 4096 mod 64 < 64 ∧ n / 64 mod 64 < 64 ∧ n mod 64 < 64.
Proof.
  intros H. split_and!; try by apply N.mod_lt. apply N.Div0.div_lt_upper_bound. lia.
Qed.

(** Strings are decoded three bytes at a time. *)
Lemma string_ind3 (P : string -> Prop) :
  P "" -> (∀ a, P (schar a)) -> (∀ a b, P (String a (schar b))) ->
  (∀ a b c s, P s -> P (String a (String b (String c s)))) -> ∀ s, P s.
Proof.
  intros H0 H1 H2 H3 s. enough (P s ∧ (∀ a, P (String a s)) ∧ (∀ a b, P (String a (String b s)))) by tauto.
  induction s as [|a s (IH0 & IH1 & IH2)]; [done|].
  split_and!; [apply IH1|intros b; apply IH2|intros b c; by apply H3].
Qed.

Lemma N_split n d : d ≠ 0 -> n / d * d + n mod d = n.
Proof. intros H. rewrite N.mul_comm. symmetry. by apply N.div_mod. Qed.

(** Two and four sextets give their number back. *)
Lemma sextets2 n : n / 64 * 64 + n mod 64 = n.
Proof. by apply N_split. Qed.

Lemma sextets3 n : n / 4096 * 4096 + n / 64 mod 64 * 64 + n mod 64 = n.
Proof.
  replace (n / 4096) with (n / 64 / 64) by by rewrite N.Div0.div_div.
  pose proof (N_split n 64 ltac:(done)). pose proof (N_split (n / 64) 64 ltac:(done)). lia.
Qed.

Lemma sextets4 n :
  n / 262144 * 262144 + n / 4096 mod 64 * 4096 + n / 64 mod 64 * 64 + n mod 64 = n.
Proof.
  replace (n / 262144) with (n / 64 / 4096) by by rewrite N.Div0.div_div.
  replace (n / 4096) with (n / 64 / 64) by by rewrite N.Div0.div_div.
  pose proof (sextets3 (n / 64)). pose proof (N_split n 64 ltac:(done)). lia.
Qed.

(** Bytes are the digits of their number in base 256. *)
Lemma low_byte x b : b < 256 -> (x * 256 + b) / 256 = x ∧ (x * 256 + b) mod 256 = b.
Proof.
  intros Hb. rewrite N.add_comm, N.div_add, N.Div0.mod_add by done.
  by rewrite N.div_small, N.mod_small.
Qed.

Lemma bytes3 a b c : a < 256 -> b < 256 -> c < 256 ->
  let n := a * 65536 + b * 256 + c in
  n / 65536 = a ∧ n / 256 mod 256 = b ∧ n mod 256 = c ∧ n < 16777216.
Proof.
  intros Ha Hb Hc n. assert (E : n = (a * 256 + b) * 256 + c) by (subst n; lia).
  destruct (low_byte (a * 256 + b) c Hc) as [D M]. destruct (low_byte a b Hb) as [D' M'].
  assert (n / 65536 = n / 256 / 256) as -> by by rewrite N.Div0.div_div.
  rewrite E, D, M, D', M'. split_and!; [done..|lia].
Qed.

Theorem RawStd_roundtrip s : RawStd_Decode (RawStd_Encode s) = Some s.
Proof.
  unfold RawStd_Decode. induction s as [|a|a b|a b c s IH] using string_ind3.
  - done.
  - pose proof (code_bound a) as Ha. simpl. set (n := code a * 16).
    assert (n < 4096) by lia.
    assert (n / 64 < 64) by (apply N.Div0.div_lt_upper_bound; lia).
    assert (n mod 64 < 64) by by apply N.mod_lt.
    rewrite !b64_char_plain by done. simpl. rewrite !b64_value_char by done. simpl.
    replace ((n / 64 * 64 + n mod 64) / 16) with (code a); [by rewrite byte_of_code|].
    rewrite sextets2. subst n. symmetry. by apply N.div_mul.
  - pose proof (code_bound a) as Ha. pose proof (code_bound b) as Hb. simpl. set (n := code a * 1024 + code b * 4).
    assert (Hn : n < 262144) by lia.
    assert (n / 4096 < 64) by (apply N.Div0.div_lt_upper_bound; lia).
    assert (n / 64 mod 64 < 64) by by apply N.mod_lt.
    assert (n mod 64 < 64) by by apply N.mod_lt.
    rewrite !b64_char_plain by done. simpl. rewrite !b64_value_char by done. simpl.
    rewrite sextets3. replace n with ((code a * 256 + code b) * 4) by (subst n; lia).
    rewrite N.div_mul by done. destruct (low_byte (code a) (code b) Hb) as [-> ->].
    by rewrite !byte_of_code.
  - pose proof (code_bound a) as Ha. pose proof (code_bound b) as Hb. pose proof (code_bound c) as Hc.
    cbn [RawStd_Encode]. destruct (bytes3 _ _ _ Ha Hb Hc) as (E1 & E2 & E3 & Hn).
    set (n := code a * 65536 + code b * 256 + code c) in *.
    destruct (sextet_bounds n Hn) as (? & ? & ? & ?).
    cbn [drop_newlines]. rewrite !b64_char_plain by done. cbn [b64_decode].
    rewrite !b64_value_char by done. cbn [mbind option_bind]. rewrite IH. cbn [mbind option_bind].
    rewrite sextets4, E1, E2, E3. by rewrite !byte_of_code.
Qed.

(** * Secrets at rest: [internal/secrets]

    The cipher over single values, configurations and hosts.  AES-GCM is a
    parameter (class [AEAD]): sealing and opening under a nonce, with the law
    that opening undoes sealing.  The nonces come from the random source, one
    per call: an oracle that may fail. *)

Class AEAD := {
  NonceSize : nat;
  Seal : string -> string -> string;  (* nonce, plaintext *)
  OpenSealed : string -> string -> option string  (* nonce, ciphertext *)
}.

Class AEADLaws (A : AEAD) : Prop := {
  open_seal nonce p : String.length nonce = NonceSize -> OpenSealed nonce (Seal nonce p) = Some p
}.

(** [rand.Read] of a nonce at the [k]-th call: the bytes or an error. *)
Definition Rand := nat -> result string.

(** Go fills the whole buffer when it reports no error. *)
Definition fullNonces {A : AEAD} (rand : Rand) : Prop :=
  ∀ k n, rand k = Ok n -> String.length n = NonceSize.

Definition Prefix : string := "enc:v1:".

Definition IsEncrypted (value : string) : bool := HasPrefix value Prefix.

Section cipher.
  Context {A : AEAD}.

(** [c.aead.Seal(nonce, nonce, plaintext, nil)] appends to the nonce. *)
Definition Encrypt (nonce : result string) (plaintext : string) : result string :=
  if bool_decide (plaintext = "") then Ok ""
  else if IsEncrypted plaintext then Ok plaintext
  else
    let? nonce := nonce else err => Fail (wrapError "generate nonce" err) in
    let sealed := nonce +:+ Seal nonce plaintext in
    Ok (Prefix +:+ RawStd_Encode sealed).

Definition Decrypt (value : string) : result string :=
  if negb (IsEncrypted value) then Ok value
  else
    match RawStd_Decode (TrimPrefix value Prefix) with
    | None => Fail (newError "decode encrypted value: illegal base64 data")
    | Some raw =>
        if (String.length raw <? NonceSize)%nat then Fail (newError "encrypted value is truncated")
        else
          match OpenSealed (stake NonceSize raw) (sdrop NonceSize raw) with
          | None => Fail (newError "decrypt failed: wrong master key or corrupted value")
          | Some plain => Ok plain
          end
    end.

(** ** Configurations *)

(** One turn of the loops of [EncryptConfig] and [DecryptConfig]: [f] is
    applied to a non-empty string, other values are skipped. *)
Definition mapField (op : string) (f : string -> result string) (out : Config) (field : string) : result Config :=
  match out !! field with
  | Some (VString s) =>
      if bool_decide (s = "") then Ok out
      else
        let? v := f s else err => Fail (wrapError (op +:+ " field " +:+ field) err) in
        Ok (<[field := VString v]> out)
  | _ => Ok out
  end.

Fixpoint encryptFields (rand : Rand) (k : nat) (out : Config) (fields : list string) : result Config :=
  match fields with
  | [] => Ok out
  | f :: rest =>
      let? out := mapField "encrypt" (Encrypt (rand k)) out f else err => Fail err in
      encryptFields rand (S k) out rest
  end.

Definition EncryptConfig (rand : Rand) (cfg : Config) (secretFields : list string) : result Config :=
  encryptFields rand 0 (Clone cfg) secretFields.

Fixpoint decryptFields (out : Config) (fields : list string) : result Config :=
  match fields with
  | [] => Ok out
  | f :: rest =>
      let? out := mapField "decrypt" Decrypt out f else err => Fail err in
      decryptFields out rest
  end.

Definition DecryptConfig (cfg : Config) (secretFields : list string) : result Config :=
  decryptFields (Clone cfg) secretFields.

Definition DecryptConfigLenient (cfg : Config) (secretFields : list string) : Config :=
  match DecryptConfig cfg secretFields with
  | Ok out => out
  | Fail _ => Clone cfg
  end.

(** ** Hosts *)

(** One turn of the loops over the three secret fields of a host. *)
Definition mapHostField (op name : string) (f : string -> result string) (s : string) : result string :=
  if bool_decide (s = "") then Ok s
  else
    let? v := f s else err => Fail (wrapError (op +:+ " host field " +:+ name) err) in
    Ok v.

(** On error the caller gets the host it passed. *)
Definition mapHost (op : string) (f : nat -> string -> result string) (h : Host) : Host * option error :=
  let? key := mapHostField op "privateKey" (f 0%nat) (host_PrivateKey h) else err => (h, Some err) in
  let? phrase := mapHostField op "keyPassphrase" (f 1%nat) (host_KeyPassphrase h) else err => (h, Some err) in
  let? pass := mapHostField op "password" (f 2%nat) (host_Password h) else err => (h, Some err) in
  (host_with_secrets h key phrase pass, None).

Definition EncryptHost (rand : Rand) (h : Host) : Host * option error :=
  mapHost "encrypt" (λ k, Encrypt (rand k)) h.

Definition DecryptHost (h : Host) : Host * option error := mapHost "decrypt" (λ _, Decrypt) h.

Definition DecryptHostLenient (h : Host) : Host :=
  let '(out, err) := DecryptHost h in
  if bool_decide (is_Some err) then h else out.

End cipher.

(** ** Round trips *)

Section laws.
  Context {A : AEAD} {L : AEADLaws A}.

Lemma IsEncrypted_Prefix s : IsEncrypted (Prefix +:+ s) = true.
Proof. apply HasPrefix_app. Qed.

Lemma Decrypt_plain s : IsEncrypted s = false -> Decrypt s = Ok s.
Proof. unfold Decrypt. by intros ->. Qed.

Lemma Decrypt_sealed n p :
  String.length n = NonceSize -> Decrypt (Prefix +:+ RawStd_Encode (n +:+ Seal n p)) = Ok p.
Proof.
  intros Hn. unfold Decrypt. rewrite IsEncrypted_Prefix, TrimPrefix_app, RawStd_roundtrip. cbn [negb].
  rewrite sapp_length, (proj2 (Nat.ltb_ge _ _)) by lia.
  rewrite <- Hn, stake_app, sdrop_app. by rewrite open_seal.
Qed.

(** What an encrypted value is, however it was produced. *)
Lemma Encrypt_spec nonce p e :
  (∀ n, nonce = Ok n -> String.length n = NonceSize) ->
  Encrypt nonce p = Ok e -> p ≠ "" ->
  IsEncrypted e = true ∧ e ≠ "" ∧ (if IsEncrypted p then e = p else Decrypt e = Ok p).
Proof.
  unfold Encrypt. intros Hn H Hp. rewrite bool_decide_eq_false_2 in H by done.
  destruct (IsEncrypted p) eqn:E.
  { simplify_eq. split_and!; [done| |done]. intros ->. done. }
  destruct nonce as [n|]; simplify_eq. specialize (Hn n eq_refl).
  split_and!; [apply IsEncrypted_Prefix|done|]. by apply Decrypt_sealed.
Qed.

(** How a stored value relates to the one in memory. *)
Definition stored (v v' : option Value) : Prop :=
  match v with
  | Some (VString s) =>
      if bool_decide (s = "") then v' = v
      else ∃ e, v' = Some (VString e) ∧ e ≠ "" ∧ IsEncrypted e = true ∧ Decrypt e = Ok s
  | _ => v' = v
  end.

Definition noneEncrypted (cfg : Config) (fields : list string) : Prop :=
  ∀ f s, f ∈ fields -> cfg !! f = Some (VString s) -> IsEncrypted s = false.

Lemma mapField_lookup_ne op g out f out' k :
  mapField op g out f = Ok out' -> k ≠ f -> out' !! k = out !! k.
Proof.
  unfold mapField. intros H Hk. repeat (case_match; simplify_eq/=); try done;
  by rewrite lookup_insert_ne.
Qed.

Lemma encryptFields_stored rand k cfg m fields out :
  fullNonces rand -> noneEncrypted cfg fields ->
  (∀ f, f ∈ fields -> m !! f = cfg !! f ∨ stored (cfg !! f) (m !! f)) ->
  encryptFields rand k m fields = Ok out ->
  (∀ f, f ∈ fields -> stored (cfg !! f) (out !! f)) ∧ (∀ f, f ∉ fields -> out !! f = m !! f).
Proof.
  intros Hr. revert k m. induction fields as [|g rest IH]; intros k m Hno Hm H; simpl in H.
  { simplify_eq. split; [set_solver|done]. }
  destruct (mapField _ _ m g) as [m'|] eqn:Hg; [|done].
  assert (Hne : ∀ f, f ≠ g -> m' !! f = m !! f) by (intros f Hf; by eapply mapField_lookup_ne).
  assert (Hst : stored (cfg !! g) (m' !! g)).
  { destruct (Hm g ltac:(set_solver)) as [E|E]; unfold mapField in Hg.
    - rewrite E in Hg. unfold stored. destruct (cfg !! g) as [[]|] eqn:Ec; simplify_eq/=; try by rewrite E.
      destruct (bool_decide (s = "")) eqn:Es; simplify_eq/=; [by rewrite E|]. boolean.
      destruct (Encrypt (rand k) s) as [e|] eqn:Ee; simplify_eq/=.
      rewrite lookup_insert_eq. destruct (Encrypt_spec _ _ _ (Hr k) Ee Es) as (H1 & H2 & H3).
      rewrite (Hno g s ltac:(set_solver) Ec) in H3. by exists e.
    - unfold stored in *. destruct (cfg !! g) as [[]|] eqn:Ec; try (rewrite E in Hg; simplify_eq/=; by rewrite E).
      destruct (bool_decide (s = "")) eqn:Es.
      { rewrite E in Hg. rewrite Es in Hg. simplify_eq/=. by rewrite E. }
      destruct E as (e & E & He & Henc & Hd). rewrite E, bool_decide_eq_false_2 in Hg by done.
      unfold Encrypt in Hg. rewrite bool_decide_eq_false_2, Henc in Hg by done. simplify_eq/=.
      rewrite lookup_insert_eq. by exists e. }
  destruct (IH (S k) m') as [I1 I2]; [by intros f s Hf; apply Hno; set_solver| |done|].
  { intros f Hf. destruct (decide (f = g)) as [->|Hfg]; [by right|].
    rewrite Hne by done. apply Hm. set_solver. }
  split.
  - intros f Hf. destruct (decide (f ∈ rest)) as [Hin|Hin]; [by apply I1|].
    assert (f = g) as -> by set_solver. by rewrite I2.
  - intros f Hf. rewrite I2 by set_solver. apply Hne. set_solver.
Qed.

Lemma decryptFields_restores cfg m fields :
  noneEncrypted cfg fields ->
  (∀ f, f ∈ fields -> m !! f = cfg !! f ∨ stored (cfg !! f) (m !! f)) ->
  ∃ out, decryptFields m fields = Ok out
    ∧ (∀ f, f ∈ fields -> out !! f = cfg !! f) ∧ (∀ f, f ∉ fields -> out !! f = m !! f).
Proof.
  revert m. induction fields as [|g rest IH]; intros m Hno Hm; simpl.
  { exists m. split_and!; [done|set_solver|done]. }
  assert (Hg : ∃ m', mapField "decrypt" Decrypt m g = Ok m' ∧ m' !! g = cfg !! g).
  { unfold mapField, stored in *. destruct (Hm g ltac:(set_solver)) as [E|E].
    - rewrite E. destruct (cfg !! g) as [[]|] eqn:Ec; eauto.
      case_bool_decide; [eauto|]. rewrite Decrypt_plain by (by apply (Hno g); [set_solver|]).
      eexists. split; [done|]. apply lookup_insert_eq.
    - destruct (cfg !! g) as [[]|] eqn:Ec; try (rewrite E; eauto).
      case_bool_decide as Es; [rewrite E, bool_decide_eq_true_2 by done; eauto|].
      destruct E as (e & -> & He & _ & ->). rewrite bool_decide_eq_false_2 by done.
      eexists. split; [done|]. apply lookup_insert_eq. }
  destruct Hg as (m' & Hmf & Eg). rewrite Hmf.
  assert (Hne : ∀ f, f ≠ g -> m' !! f = m !! f).
  { intros f Hf. by eapply mapField_lookup_ne. }
  destruct (IH m') as (out & -> & O1 & O2); [by intros f s Hf; apply Hno; set_solver| |].
  { intros f Hf. destruct (decide (f = g)) as [->|Hfg]; [by left|]. rewrite Hne by done.
    apply Hm. set_solver. }
  exists out. split_and!; [done| |].
  - intros f Hf. destruct (decide (f ∈ rest)); [by apply O1|].
    assert (f = g) as -> by set_solver. by rewrite O2.
  - intros f Hf. rewrite O2 by set_solver. apply Hne. set_solver.
Qed.


(** Encrypting twice is encrypting once: an encrypted value is left alone,
    whatever nonce would have been drawn, and decrypting it still gives the
    plaintext. *)
Theorem Encrypt_idempotent nonce nonce' p e :
  (∀ n, nonce = Ok n -> String.length n = NonceSize) ->
  IsEncrypted p = false ->
  Encrypt nonce p = Ok e ->
  Encrypt nonce' e = Ok e ∧ Decrypt e = Ok p.
Proof.
  intros Hn Hp H. destruct (decide (p = "")) as [->|Hne].
  - unfold Encrypt in H. simpl in H. by simplify_eq.
  - destruct (Encrypt_spec _ _ _ Hn H Hne) as (H1 & H2 & H3). rewrite Hp in H3.
    split; [|done]. unfold Encrypt. by rewrite bool_decide_eq_false_2, H1.
Qed.

End laws.

(** A toy sealing, to show that the laws can hold. *)
Definition xorAEAD : AEAD := {|
  NonceSize := 2%nat;
  Seal n p := n +:+ p;
  OpenSealed n c := if HasPrefix c n then Some (TrimPrefix c n) else None
|}.

Lemma xorAEAD_laws : AEADLaws xorAEAD.
Proof. split. intros n p _. simpl. by rewrite HasPrefix_app, TrimPrefix_app. Qed.


Lemma Encrypt_idempotent_witness :
  ∃ e, Encrypt (A := xorAEAD) (Ok "ab") "pw" = Ok e
  ∧ Encrypt (A := xorAEAD) (Ok "cd") e = Ok e ∧ Decrypt (A := xorAEAD) e = Ok "pw".
Proof.
  eexists. split; [reflexivity|].
  apply (Encrypt_idempotent (A := xorAEAD) (L := xorAEAD_laws) (Ok "ab")).
  - intros n [= <-]. reflexivity.
  - reflexivity.
  - reflexivity.
Defined.
