(* ===== verification/Db.v ===== *)
(** * The database and the world a run lives in

    [DB] is the content of the SQLite file: one finite map per table, rows by
    primary key ([internal/store/migrations]).  [World] is what the operations
    of the store and of the engine change; [Env] answers what the program asks
    its surroundings: the clock, fresh identifiers, whether the database
    engine fails, what the drivers, the hooks and the context say.  Each
    question is asked at the next tick of the world, so an environment is any
    sequence of answers. *)
From S2P Require Import Prelude GoStrings GoTime GoSlices Core CoreSetters Pack Spool.
Open Scope Z_scope.

(** ** Rows that [types.go] has no struct for *)

Record JobState := mkJobState {
  js_JobID : string;
  js_LastRun : option RunSummary;
  js_LastSuccessAt : option Time;
  js_LastDurationMS : Z;
  js_NextRunAt : option Time;
  js_Overdue : bool;
  js_OverdueNotifiedAt : option Time;
  js_UpdatedAt : Time
}.

Record Session := mkSession {
  sess_ID : string;
  sess_UserID : string;
  sess_CreatedAt : Time;
  sess_ExpiresAt : Time;
  sess_LastSeenAt : Time;
  sess_IP : string;
  sess_UserAgent : string
}.

Record UserRecord := mkUserRecord { rec_User : User; rec_PasswordHash : string }.

Record LogChunk := mkLogChunk { chunk_Seq : Z; chunk_Text : string }.

Record DB := mkDB {
  db_users : gmap string UserRecord;
  db_sessions : gmap string Session;
  db_tokens : gmap string (APIToken * string);
  db_sources : gmap string Source;
  db_hosts : gmap string Host;
  db_destinations : gmap string Destination;
  db_jobs : gmap string Job;
  db_job_state : gmap string JobState;
  db_runs : gmap string Run;
  db_run_logs : gmap string (list LogChunk);
  db_artifacts : gmap string Artifact;
  db_channels : gmap string NotificationChannel;
  db_settings : option Settings;
  db_audit : gmap string AuditEntry
}.

Definition set_db_users (v : gmap string UserRecord) (r : DB) : DB :=
  {| db_users := v; db_sessions := db_sessions r; db_tokens := db_tokens r; db_sources :=
     db_sources r; db_hosts := db_hosts r; db_destinations := db_destinations r; db_jobs :=
     db_jobs r; db_job_state := db_job_state r; db_runs := db_runs r; db_run_logs := db_run_logs
     r; db_artifacts := db_artifacts r; db_channels := db_channels r; db_settings := db_settings
     r; db_audit := db_audit r |}.
Definition set_db_sessions (v : gmap string Session) (r : DB) : DB :=
  {| db_users := db_users r; db_sessions := v; db_tokens := db_tokens r; db_sources := db_sources
     r; db_hosts := db_hosts r; db_destinations := db_destinations r; db_jobs := db_jobs r;
     db_job_state := db_job_state r; db_runs := db_runs r; db_run_logs := db_run_logs r;
     db_artifacts := db_artifacts r; db_channels := db_channels r; db_settings := db_settings r;
     db_audit := db_audit r |}.
Definition set_db_tokens (v : gmap string (APIToken * string)) (r : DB) : DB :=
  {| db_users := db_users r; db_sessions := db_sessions r; db_tokens := v; db_sources :=
     db_sources r; db_hosts := db_hosts r; db_destinations := db_destinations r; db_jobs :=
     db_jobs r; db_job_state := db_job_state r; db_runs := db_runs r; db_run_logs := db_run_logs
     r; db_artifacts := db_artifacts r; db_channels := db_channels r; db_settings := db_settings
     r; db_audit := db_audit r |}.
Definition set_db_sources (v : gmap string Source) (r : DB) : DB :=
  {| db_users := db_users r; db_sessions := db_sessions r; db_tokens := db_tokens r; db_sources :=
     v; db_hosts := db_hosts r; db_destinations := db_destinations r; db_jobs := db_jobs r;
     db_job_state := db_job_state r; db_runs := db_runs r; db_run_logs := db_run_logs r;
     db_artifacts := db_artifacts r; db_channels := db_channels r; db_settings := db_settings r;
     db_audit := db_audit r |}.
Definition set_db_hosts (v : gmap string Host) (r : DB) : DB :=
  {| db_users := db_users r; db_sessions := db_sessions r; db_tokens := db_tokens r; db_sources :=
     db_sources r; db_hosts := v; db_destinations := db_destinations r; db_jobs := db_jobs r;
     db_job_state := db_job_state r; db_runs := db_runs r; db_run_logs := db_run_logs r;
     db_artifacts := db_artifacts r; db_channels := db_channels r; db_settings := db_settings r;
     db_audit := db_audit r |}.
Definition set_db_destinations (v : gmap string Destination) (r : DB) : DB :=
  {| db_users := db_users r; db_sessions := db_sessions r; db_tokens := db_tokens r; db_sources :=
     db_sources r; db_hosts := db_hosts r; db_destinations := v; db_jobs := db_jobs r;
     db_job_state := db_job_state r; db_runs := db_runs r; db_run_logs := db_run_logs r;
     db_artifacts := db_artifacts r; db_channels := db_channels r; db_settings := db_settings r;
     db_audit := db_audit r |}.
Definition set_db_jobs (v : gmap string Job) (r : DB) : DB :=
  {| db_users := db_users r; db_sessions := db_sessions r; db_tokens := db_tokens r; db_sources :=
     db_sources r; db_hosts := db_hosts r; db_destinations := db_destinations r; db_jobs := v;
     db_job_state := db_job_state r; db_runs := db_runs r; db_run_logs := db_run_logs r;
     db_artifacts := db_artifacts r; db_channels := db_channels r; db_settings := db_settings r;
     db_audit := db_audit r |}.
Definition set_db_job_state (v : gmap string JobState) (r : DB) : DB :=
  {| db_users := db_users r; db_sessions := db_sessions r; db_tokens := db_tokens r; db_sources :=
     db_sources r; db_hosts := db_hosts r; db_destinations := db_destinations r; db_jobs :=
     db_jobs r; db_job_state := v; db_runs := db_runs r; db_run_logs := db_run_logs r;
     db_artifacts := db_artifacts r; db_channels := db_channels r; db_settings := db_settings r;
     db_audit := db_audit r |}.
Definition set_db_runs (v : gmap string Run) (r : DB) : DB :=
  {| db_users := db_users r; db_sessions := db_sessions r; db_tokens := db_tokens r; db_sources :=
     db_sources r; db_hosts := db_hosts r; db_destinations := db_destinations r; db_jobs :=
     db_jobs r; db_job_state := db_job_state r; db_runs := v; db_run_logs := db_run_logs r;
     db_artifacts := db_artifacts r; db_channels := db_channels r; db_settings := db_settings r;
     db_audit := db_audit r |}.
Definition set_db_run_logs (v : gmap string (list LogChunk)) (r : DB) : DB :=
  {| db_users := db_users r; db_sessions := db_sessions r; db_tokens := db_tokens r; db_sources :=
     db_sources r; db_hosts := db_hosts r; db_destinations := db_destinations r; db_jobs :=
     db_jobs r; db_job_state := db_job_state r; db_runs := db_runs r; db_run_logs := v;
     db_artifacts := db_artifacts r; db_channels := db_channels r; db_settings := db_settings r;
     db_audit := db_audit r |}.
Definition set_db_artifacts (v : gmap string Artifact) (r : DB) : DB :=
  {| db_users := db_users r; db_sessions := db_sessions r; db_tokens := db_tokens r; db_sources :=
     db_sources r; db_hosts := db_hosts r; db_destinations := db_destinations r; db_jobs :=
     db_jobs r; db_job_state := db_job_state r; db_runs := db_runs r; db_run_logs := db_run_logs
     r; db_artifacts := v; db_channels := db_channels r; db_settings := db_settings r; db_audit :=
     db_audit r |}.
Definition set_db_channels (v : gmap string NotificationChannel) (r : DB) : DB :=
  {| db_users := db_users r; db_sessions := db_sessions r; db_tokens := db_tokens r; db_sources :=
     db_sources r; db_hosts := db_hosts r; db_destinations := db_destinations r; db_jobs :=
     db_jobs r; db_job_state := db_job_state r; db_runs := db_runs r; db_run_logs := db_run_logs
     r; db_artifacts := db_artifacts r; db_channels := v; db_settings := db_settings r; db_audit
     := db_audit r |}.
Definition set_db_settings (v : option Settings) (r : DB) : DB :=
  {| db_users := db_users r; db_sessions := db_sessions r; db_tokens := db_tokens r; db_sources :=
     db_sources r; db_hosts := db_hosts r; db_destinations := db_destinations r; db_jobs :=
     db_jobs r; db_job_state := db_job_state r; db_runs := db_runs r; db_run_logs := db_run_logs
     r; db_artifacts := db_artifacts r; db_channels := db_channels r; db_settings := v; db_audit
     := db_audit r |}.
Definition set_db_audit (v : gmap string AuditEntry) (r : DB) : DB :=
  {| db_users := db_users r; db_sessions := db_sessions r; db_tokens := db_tokens r; db_sources :=
     db_sources r; db_hosts := db_hosts r; db_destinations := db_destinations r; db_jobs :=
     db_jobs r; db_job_state := db_job_state r; db_runs := db_runs r; db_run_logs := db_run_logs
     r; db_artifacts := db_artifacts r; db_channels := db_channels r; db_settings := db_settings
     r; db_audit := v |}.

(** ** The run being executed, the events published, the calls made *)

(** [runState] without its lock and its log. *)
Record RunState := mkRunState { rs_run : Run; rs_warned : bool; rs_warnMsg : string }.

(** [core.Event] of the bus, by topic. *)
Inductive Event :=
  | EvRunUpdated (r : Run)
  | EvJobUpdated (j : Job)
  | EvArtifactUpdated (a : Artifact)
  | EvRunLog (runID jobID text : string).

(** A call to a driver (by the ID of its destination, source or channel) or to
    the file system that had its effect. *)
Inductive Call :=
  | CallOpen (dest : string)
  | CallPut (dest path : string)
  | CallDelete (dest path : string)
  | CallStat (dest path : string)
  | CallWait (nanoseconds : Z)
  | CallSend (channel event : string)
  | CallGet (dest path : string)
  | CallRestore (source : string)
  | CallMkdirAll (path : string)
  | CallWriteFile (path data : string)
  | CallRemoveFile (path : string)
  | CallSymlink (target link : string)
  | CallRename (old new : string)
  | CallList (dest prefix : string)
  | CallReload
  | CallCancel (run : string)
  | CallExec (host command : string).

Record World := mkWorld {
  w_tick : nat;
  w_db : DB;
  w_events : list Event;
  w_calls : list Call;
  w_rs : RunState
}.

Definition set_w_tick (v : nat) (r : World) : World :=
  {| w_tick := v; w_db := w_db r; w_events := w_events r; w_calls := w_calls r; w_rs := w_rs r |}.
Definition set_w_db (v : DB) (r : World) : World :=
  {| w_tick := w_tick r; w_db := v; w_events := w_events r; w_calls := w_calls r; w_rs := w_rs r |}.
Definition set_w_events (v : list Event) (r : World) : World :=
  {| w_tick := w_tick r; w_db := w_db r; w_events := v; w_calls := w_calls r; w_rs := w_rs r |}.
Definition set_w_calls (v : list Call) (r : World) : World :=
  {| w_tick := w_tick r; w_db := w_db r; w_events := w_events r; w_calls := v; w_rs := w_rs r |}.
Definition set_w_rs (v : RunState) (r : World) : World :=
  {| w_tick := w_tick r; w_db := w_db r; w_events := w_events r; w_calls := w_calls r; w_rs := v |}.

(** An object of a destination, as [Stat] and [List] report it. *)
Record Object := mkObject { obj_Path : string; obj_Size : Z; obj_ModTime : Time; obj_IsDir : bool }.

(** What a source driver hands over.  The field [Reader] is what it will do: the
    chunks it will give, how they end and how it closes. *)
Record Stream := mkStream {
  stream_Extension : string;
  stream_Size : Z;
  stream_Meta : gmap string string;
  stream_chunks : list string;
  stream_end : option error;
  stream_close : option error
}.

(** How a command run over SSH ended: its exit status, a broken session, or the
    context that was done first. *)
Inductive SessionEnd := SessExit (status : Z) | SessBroken (msg : string) | SessCut (err : error).

Record SessionRun := mkSessionRun { sess_Stdout : string; sess_Stderr : string; sess_End : SessionEnd }.

(** The answers of the surroundings to the [k]-th question: the clock,
    identifiers, the database engine, [ctx.Err], the drivers (sources,
    destinations, notifiers), the objects [Stat] and [Get] find, the hooks, the
    operating system under the spool and [ctx.Err] during its copy, the file
    system under a restore, whether a path is a directory, how many bytes a
    driver has read, and the machine of [Engine]: whether [tryLockJob] finds the
    job busy and what [enqueue] answers; random bytes and numbers; what [List] finds;
    whether a run could be cancelled; new key pairs; how an SSH connection and a
    command over it go; whether the scheduler runs. *)
Record Env := mkEnv {
  env_now : nat -> Time;
  env_id : nat -> string;
  env_db : nat -> option error;
  env_ctx : nat -> option error;
  env_driver : nat -> option error;
  env_stat : nat -> result (option Object);
  env_get : nat -> result Reader;
  env_backup : nat -> result Stream;
  env_hook : nat -> option error;
  env_os : nat -> SpoolOS;
  env_reads : nat -> nat -> option error;
  env_fs : nat -> option error;
  env_isDir : nat -> bool;
  env_count : nat -> Z;
  env_busy : nat -> bool;
  env_queue : nat -> option error;
  env_rand : nat -> nat -> result string;
  env_int : nat -> nat -> result nat;
  env_list : nat -> result (list Object);
  env_cancel : nat -> bool;
  env_keygen : nat -> result (string * string);
  env_dial : nat -> option error;
  env_exec : nat -> SessionRun;
  env_scheduler : nat -> bool
}.

(** ** The monad *)

Definition M (A : Type) : Type := Env -> World -> A * World.

#[export] Instance M_ret : MRet M := λ A x _ w, (x, w).
#[export] Instance M_bind : MBind M := λ A B f m env w, let '(x, w') := m env w in f x env w'.

Notation "'do?' x ':=' m 'else' e => h 'in' k" :=
  (mbind (M := M) (λ r, match r with Ok x => k | Fail e => h end) m)
  (at level 10, x pattern, e name, m at level 100, h at level 100, k at level 200)
  : go_scope.

Definition tick (w : World) : World := set_w_tick (S (w_tick w)) w.

(** Ask the environment. *)
Definition ask {A} (q : Env -> nat -> A) : M A := λ env w, (q env (w_tick w), tick w).

(** [time.Now().UTC()], [store.NewID()], [ctx.Err()]. *)
Definition now : M Time := ask env_now.
Definition NewID : M string := ask env_id.
Definition ctxErr : M (option error) := ask env_ctx.

Definition getDB : M DB := λ _ w, (w_db w, w).
Definition getRS : M RunState := λ _ w, (w_rs w, w).
Definition putRS (rs : RunState) : M unit := λ _ w, (tt, set_w_rs rs w).
Definition publish (ev : Event) : M unit := λ _ w, (tt, set_w_events (w_events w ++ [ev]) w).
Definition record (c : Call) : M unit := λ _ w, (tt, set_w_calls (w_calls w ++ [c]) w).

(** A statement on the writing connection: the database engine fails, leaving
    the tables alone, or runs the statement, which may violate a constraint;
    the result counts the rows it touched. *)
Definition execWrite {A} (q : DB -> result (A * DB)) : M (result A) := λ env w,
  match env_db env (w_tick w) with
  | Some err => (Fail err, tick w)
  | None =>
      match q (w_db w) with
      | Fail err => (Fail err, tick w)
      | Ok (a, db') => (Ok a, set_w_db db' (tick w))
      end
  end.

(** A query on a reading connection. *)
Definition query {A} (q : DB -> A) : M (result A) := λ env w,
  match env_db env (w_tick w) with
  | Some err => (Fail err, tick w)
  | None => (Ok (q (w_db w)), tick w)
  end.

(** A loop over a list that threads a value. *)
Fixpoint forEach {A B} (l : list A) (acc : B) (body : A -> B -> M B) : M B :=
  match l with
  | [] => mret acc
  | x :: rest => acc' ← body x acc; forEach rest acc' body
  end.

(** The same, left at the first error. *)
Fixpoint forEach_err {A B} (l : list A) (acc : B) (body : A -> B -> M (result B)) : M (result B) :=
  match l with
  | [] => mret (Ok acc)
  | x :: rest => do? acc' := body x acc else err => mret (Fail err) in forEach_err rest acc' body
  end.

(** ** Tables *)

Section tables.
  Context {A : Type}.

(** [SELECT * FROM t WHERE p]: the rows, in the order of the table. *)
Definition selectWhere (p : A -> bool) (t : gmap string A) : list A :=
  List.filter p (snd <$> map_to_list t).

Definition countWhere (p : A -> bool) (t : gmap string A) : Z := Z.of_nat (length (selectWhere p t)).

(** [UPDATE t SET f WHERE p]. *)
Definition updateWhere (p : A -> bool) (f : A -> A) (t : gmap string A) : gmap string A :=
  (λ a, if p a then f a else a) <$> t.

(** [UPDATE t SET f WHERE id = i], with the number of rows. *)
Definition updateId (i : string) (f : A -> A) (t : gmap string A) : Z * gmap string A :=
  match t !! i with
  | Some a => (1, <[i := f a]> t)
  | None => (0, t)
  end.

(** [DELETE FROM t WHERE id = i]. *)
Definition deleteId (i : string) (t : gmap string A) : Z * gmap string A :=
  match t !! i with
  | Some _ => (1, delete i t)
  | None => (0, t)
  end.

(** [DELETE FROM t WHERE p]. *)
Definition deleteWhere (p : A -> bool) (t : gmap string A) : Z * gmap string A :=
  (countWhere p t, filter (λ kv, p kv.2 = false) t).

(** Rows whose keys differ from [i] and that satisfy [p]. *)
Definition otherRow (i : string) (p : A -> bool) (t : gmap string A) : bool :=
  existsb (λ kv, negb (String.eqb kv.1 i) && p kv.2) (map_to_list t).
End tables.

Lemma selectWhere_elem {A} (p : A -> bool) (t : gmap string A) a :
  a ∈ selectWhere p t <-> (∃ i, t !! i = Some a) ∧ p a = true.
Proof.
  unfold selectWhere. rewrite list_elem_of_In, filter_In, <- list_elem_of_In, list_elem_of_fmap. split.
  - intros [([i b] & -> & H) Hp]. apply elem_of_map_to_list in H. split; [by exists i|done].
  - intros [[i H] Hp]. split; [|done]. exists (i, a). split; [done|]. by apply elem_of_map_to_list.
Qed.

(** Rows that know their keys are not repeated. *)
Lemma selectWhere_NoDup {A} (f : A -> string) (p : A -> bool) (t : gmap string A) :
  map_Forall (λ i a, f a = i) t -> NoDup (f <$> selectWhere p t).
Proof.
  intros Hwf. unfold selectWhere.
  assert (H : ∀ l : list (string * A), (∀ i a, (i, a) ∈ l -> f a = i) -> NoDup (fst <$> l) ->
              NoDup (f <$> List.filter p (snd <$> l))).
  { induction l as [|[i a] l IH]; intros Hl Hn; [constructor|]. cbn [fmap list_fmap fst snd] in *.
    apply NoDup_cons in Hn as [Hi Hn]. specialize (IH (λ j b Hb, Hl j b (list_elem_of_further _ _ _ Hb)) Hn).
    simpl. destruct (p a); [|exact IH]. cbn [fmap list_fmap]. apply NoDup_cons. split; [|exact IH].
    intros Hin. apply Hi. apply list_elem_of_fmap in Hin as (b & Hb & Hin).
    apply list_elem_of_In, filter_In in Hin as [Hin _]. apply list_elem_of_In, list_elem_of_fmap in Hin as ([j c] & -> & Hin).
    apply list_elem_of_fmap. exists (j, c). split; [|done]. simpl.
    rewrite <- (Hl i a) by by left. rewrite Hb. apply Hl. by right. }
  apply H; [|apply NoDup_fst_map_to_list]. intros i a Ha. apply elem_of_map_to_list in Ha. by apply Hwf in Ha.
Qed.

(** [LIMIT n OFFSET m]. *)
Definition limitOffset {A} (n m : Z) (l : list A) : list A := take (Z.to_nat n) (drop (Z.to_nat m) l).

(** The text of the constraint errors of SQLite. *)
Definition uniqueError (col : string) : error :=
  newError ("constraint failed: UNIQUE constraint failed: " +:+ col).
Definition foreignKeyError : error := newError "constraint failed: FOREIGN KEY constraint failed".

(** ** Reasoning about the monad *)

Lemma bind_eq {A B} (m : M A) (f : A -> M B) env w :
  (m ≫= f) env w = f (m env w).1 env (m env w).2.
Proof. unfold mbind, M_bind. by destruct (m env w). Qed.

(** A sequence that ends well took its steps. *)
Lemma do_inv {A B} (m : M (result A)) (k : A -> M (result B)) (h : error -> M (result B)) env w b :
  (∀ e w, (h e env w).1 ≠ Ok b) ->
  (mbind (M := M) (λ r, match r with Ok x => k x | Fail e => h e end) m env w).1 = Ok b ->
  ∃ a, (m env w).1 = Ok a
    ∧ mbind (M := M) (λ r, match r with Ok x => k x | Fail e => h e end) m env w = k a env (m env w).2.
Proof.
  intros Hh. rewrite bind_eq. destruct (m env w) as [[a|e] w1]; cbn [fst snd]; [by exists a|].
  intros H. by apply Hh in H.
Qed.

(** A database that answers. *)
Definition dbAnswers (env : Env) : Prop := ∀ k, env_db env k = None.

Lemma query_ok {A} (q : DB -> A) env w : dbAnswers env -> query q env w = (Ok (q (w_db w)), tick w).
Proof. intros H. unfold query. by rewrite H. Qed.

Lemma execWrite_ok {A} (q : DB -> result (A * DB)) env w :
  dbAnswers env ->
  execWrite q env w = match q (w_db w) with
                      | Fail err => (Fail err, tick w)
                      | Ok (a, db') => (Ok a, set_w_db db' (tick w))
                      end.
Proof. intros H. unfold execWrite. by rewrite H. Qed.

(** [m] keeps [I], whatever the environment answers. *)
Definition preserves {A} (I : World -> Prop) (m : M A) : Prop :=
  ∀ env w, I w -> I (m env w).2.

Lemma preserves_ret {A} I (x : A) : preserves I (mret x).
Proof. by intros env w H. Qed.

Lemma preserves_bind {A B} I (m : M A) (f : A -> M B) :
  preserves I m -> (∀ x, preserves I (f x)) -> preserves I (m ≫= f).
Proof. intros Hm Hf env w H. rewrite bind_eq. by apply Hf, Hm. Qed.

Lemma preserves_forEach {A B} I (l : list A) (acc : B) body :
  (∀ x acc, preserves I (body x acc)) -> preserves I (forEach l acc body).
Proof.
  intros Hb. revert acc. induction l as [|x l IH]; intros acc; [apply preserves_ret|].
  simpl. apply preserves_bind; [apply Hb|intros; apply IH].
Qed.

Lemma preserves_forEach_err {A B} I (l : list A) (acc : B) body :
  (∀ x acc, preserves I (body x acc)) -> preserves I (forEach_err l acc body).
Proof.
  intros Hb. revert acc. induction l as [|x l IH]; intros acc; [apply preserves_ret|].
  simpl. apply preserves_bind; [apply Hb|]. intros [a|e]; [apply IH|apply preserves_ret].
Qed.

(** What an invariant does not look at may change. *)
Lemma preserves_ask {A} (I : World -> Prop) (q : Env -> nat -> A) :
  (∀ w, I w -> I (tick w)) -> preserves I (ask q).
Proof. intros Ht env w H. by apply Ht. Qed.

Lemma preserves_query {A} (I : World -> Prop) (q : DB -> A) :
  (∀ w, I w -> I (tick w)) -> preserves I (query q).
Proof. intros Ht env w H. unfold query. case_match; by apply Ht. Qed.

Lemma preserves_execWrite {A} (I : World -> Prop) (q : DB -> result (A * DB)) :
  (∀ w, I w -> I (tick w)) ->
  (∀ w a db', I w -> q (w_db w) = Ok (a, db') -> I (set_w_db db' w)) ->
  preserves I (execWrite q).
Proof.
  intros Ht Hq env w H. unfold execWrite. case_match; [by apply Ht|].
  destruct (q (w_db w)) as [[a db']|] eqn:E; [|by apply Ht]. simpl.
  apply Hq with (a := a); [by apply Ht|]. done.
Qed.

(** ** Frames

    [m] leaves the part [f] of the world as it was. *)
Definition keeps {P A} (f : World -> P) (m : M A) : Prop := ∀ env w, f (m env w).2 = f w.

Section keeps.
  Context {P : Type} (f : World -> P).

Lemma keeps_ret {A} (x : A) : keeps f (mret x).
Proof. by intros env w. Qed.

Lemma keeps_bind {A B} (m : M A) (k : A -> M B) :
  keeps f m -> (∀ x, keeps f (k x)) -> keeps f (m ≫= k).
Proof. intros Hm Hk env w. rewrite bind_eq, Hk. apply Hm. Qed.

Lemma keeps_forEach {A B} (l : list A) (acc : B) body :
  (∀ x acc, keeps f (body x acc)) -> keeps f (forEach l acc body).
Proof.
  intros Hb. revert acc. induction l as [|x l IH]; intros acc; [apply keeps_ret|].
  simpl. apply keeps_bind; [apply Hb|intros; apply IH].
Qed.

Lemma keeps_forEach_err {A B} (l : list A) (acc : B) body :
  (∀ x acc, keeps f (body x acc)) -> keeps f (forEach_err l acc body).
Proof.
  intros Hb. revert acc. induction l as [|x l IH]; intros acc; [apply keeps_ret|].
  simpl. apply keeps_bind; [apply Hb|]. intros [a|e]; [apply IH|apply keeps_ret].
Qed.

Lemma keeps_preserves {A} (m : M A) (I : P -> Prop) : keeps f m -> preserves (λ w, I (f w)) m.
Proof. intros H env w. by rewrite H. Qed.
End keeps.

Lemma keeps_getDB {P} (f : World -> P) : keeps f getDB. Proof. by intros env w. Qed.
Lemma keeps_getRS {P} (f : World -> P) : keeps f getRS. Proof. by intros env w. Qed.

(** The parts of the world other than the tick, the ones an effect may touch
    taken out. *)
Lemma keeps_ask_db {A} (q : Env -> nat -> A) : keeps w_db (ask q). Proof. by intros env w. Qed.
Lemma keeps_ask_rs {A} (q : Env -> nat -> A) : keeps w_rs (ask q). Proof. by intros env w. Qed.
Lemma keeps_ask_calls {A} (q : Env -> nat -> A) : keeps w_calls (ask q). Proof. by intros env w. Qed.
Lemma keeps_ask_events {A} (q : Env -> nat -> A) : keeps w_events (ask q). Proof. by intros env w. Qed.

Lemma keeps_query_db {A} (q : DB -> A) : keeps w_db (query q).
Proof. intros env w. unfold query. by case_match. Qed.
Lemma keeps_query_rs {A} (q : DB -> A) : keeps w_rs (query q).
Proof. intros env w. unfold query. by case_match. Qed.
Lemma keeps_query_calls {A} (q : DB -> A) : keeps w_calls (query q).
Proof. intros env w. unfold query. by case_match. Qed.
Lemma keeps_query_events {A} (q : DB -> A) : keeps w_events (query q).
Proof. intros env w. unfold query. by case_match. Qed.

Lemma keeps_exec_rs {A} (q : DB -> result (A * DB)) : keeps w_rs (execWrite q).
Proof. intros env w. unfold execWrite. repeat case_match; done. Qed.
Lemma keeps_exec_calls {A} (q : DB -> result (A * DB)) : keeps w_calls (execWrite q).
Proof. intros env w. unfold execWrite. repeat case_match; done. Qed.
Lemma keeps_exec_events {A} (q : DB -> result (A * DB)) : keeps w_events (execWrite q).
Proof. intros env w. unfold execWrite. repeat case_match; done. Qed.

Lemma keeps_putRS_db rs : keeps w_db (putRS rs). Proof. by intros env w. Qed.
Lemma keeps_putRS_calls rs : keeps w_calls (putRS rs). Proof. by intros env w. Qed.
Lemma keeps_putRS_events rs : keeps w_events (putRS rs). Proof. by intros env w. Qed.
Lemma keeps_publish_db ev : keeps w_db (publish ev). Proof. by intros env w. Qed.
Lemma keeps_publish_rs ev : keeps w_rs (publish ev). Proof. by intros env w. Qed.
Lemma keeps_publish_calls ev : keeps w_calls (publish ev). Proof. by intros env w. Qed.
Lemma keeps_record_db c : keeps w_db (record c). Proof. by intros env w. Qed.
Lemma keeps_record_rs c : keeps w_rs (record c). Proof. by intros env w. Qed.
Lemma keeps_record_events c : keeps w_events (record c). Proof. by intros env w. Qed.

Create HintDb frame discriminated.
#[export] Hint Resolve keeps_ret keeps_getDB keeps_getRS
  keeps_ask_db keeps_ask_rs keeps_ask_calls keeps_ask_events
  keeps_query_db keeps_query_rs keeps_query_calls keeps_query_events
  keeps_exec_rs keeps_exec_calls keeps_exec_events
  keeps_putRS_db keeps_putRS_calls keeps_putRS_events
  keeps_publish_db keeps_publish_rs keeps_publish_calls
  keeps_record_db keeps_record_rs keeps_record_events : frame.

(** Operations to unfold when a frame is proved are listed in [ops]. *)
Create HintDb ops.
#[export] Hint Unfold now NewID ctxErr : ops.

(** One step of a frame proof: a known operation, a sequence, a loop, a
    branch, or the definition of an operation. *)
Ltac frame_step :=
  first
  [ solve [eauto 2 with frame]
  | apply keeps_bind; [|intros ?]
  | apply keeps_forEach; intros ? ?
  | apply keeps_forEach_err; intros ? ?
  | case_match
  | progress autounfold with ops ].
Ltac frame := intros; repeat frame_step.

(** The part [f] of the world is settled by [m] when what follows keeps it. *)
Lemma keeps_tail {P A B} (f : World -> P) (m : M A) (k : A -> M B) env w :
  (∀ x, keeps f (k x)) -> f ((m ≫= k) env w).2 = f (m env w).2.
Proof. intros H. rewrite bind_eq. apply H. Qed.

(** ** Growth

    The engine only adds to the calls and to the events, and a run keeps its
    identifier and its warning. *)
Record extends (w w' : World) : Prop := {
  ext_calls : ∃ l, w_calls w' = w_calls w ++ l;
  ext_events : ∃ l, w_events w' = w_events w ++ l;
  ext_run : run_ID (rs_run (w_rs w')) = run_ID (rs_run (w_rs w));
  ext_warned : rs_warned (w_rs w) = true -> rs_warned (w_rs w') = true
}.

#[export] Instance extends_refl : Reflexive extends.
Proof. intros w. split; [exists []; by rewrite app_nil_r..|done|done]. Qed.

#[export] Instance extends_trans : Transitive extends.
Proof.
  intros w1 w2 w3 [[l1 H1] [e1 E1] R1 W1] [[l2 H2] [e2 E2] R2 W2]. split.
  - exists (l1 ++ l2). by rewrite H2, H1, app_assoc.
  - exists (e1 ++ e2). by rewrite E2, E1, app_assoc.
  - congruence.
  - auto.
Qed.

Definition ext {A} (m : M A) : Prop := ∀ env w, extends w (m env w).2.

Lemma ext_ret {A} (x : A) : ext (mret x).
Proof. by intros env w. Qed.

Lemma ext_bind {A B} (m : M A) (k : A -> M B) : ext m -> (∀ x, ext (k x)) -> ext (m ≫= k).
Proof. intros Hm Hk env w. rewrite bind_eq. etrans; [apply Hm|apply Hk]. Qed.

Lemma ext_forEach {A B} (l : list A) (acc : B) body :
  (∀ x acc, ext (body x acc)) -> ext (forEach l acc body).
Proof.
  intros Hb. revert acc. induction l as [|x l IH]; intros acc; [apply ext_ret|].
  simpl. apply ext_bind; [apply Hb|intros; apply IH].
Qed.

Lemma ext_forEach_err {A B} (l : list A) (acc : B) body :
  (∀ x acc, ext (body x acc)) -> ext (forEach_err l acc body).
Proof.
  intros Hb. revert acc. induction l as [|x l IH]; intros acc; [apply ext_ret|].
  simpl. apply ext_bind; [apply Hb|]. intros [a|e]; [apply IH|apply ext_ret].
Qed.

Lemma ext_ask {A} (q : Env -> nat -> A) : ext (ask q).
Proof. intros env w. by split; [exists []; rewrite app_nil_r..| |]. Qed.

Lemma ext_query {A} (q : DB -> A) : ext (query q).
Proof. intros env w. unfold query. case_match; by split; [exists []; rewrite app_nil_r..| |]. Qed.

Lemma ext_exec {A} (q : DB -> result (A * DB)) : ext (execWrite q).
Proof.
  intros env w. unfold execWrite. repeat case_match; by split; [exists []; rewrite app_nil_r..| |].
Qed.

Lemma ext_record c : ext (record c).
Proof. intros env w. split; [by exists [c]|exists []; by rewrite app_nil_r|done|done]. Qed.

Lemma ext_publish ev : ext (publish ev).
Proof. intros env w. split; [exists []; by rewrite app_nil_r|by exists [ev]|done|done]. Qed.

Lemma ext_getRS : ext getRS.
Proof. by intros env w. Qed.

Create HintDb ext discriminated.
#[export] Hint Resolve ext_ret ext_ask ext_query ext_exec ext_record ext_publish ext_getRS : ext.

Ltac ext_step :=
  first
  [ solve [eauto 2 with ext]
  | apply ext_bind; [|intros ?]
  | apply ext_forEach; intros ? ?
  | apply ext_forEach_err; intros ? ?
  | case_match
  | progress autounfold with ops ].
Ltac ext_tac := intros; repeat ext_step.

Lemma ext_call w w' c : extends w w' -> c ∈ w_calls w -> c ∈ w_calls w'.
Proof. intros [[l ->] _ _ _] H. apply elem_of_app. by left. Qed.

Lemma ext_event w w' ev : extends w w' -> ev ∈ w_events w -> ev ∈ w_events w'.
Proof. intros [_ [l ->] _ _] H. apply elem_of_app. by left. Qed.

(** ** The calls an operation makes

    [m] only makes calls that satisfy [P]. *)
Definition emits (P : Call -> Prop) {A} (m : M A) : Prop :=
  ∀ env w, ∃ l, w_calls (m env w).2 = w_calls w ++ l ∧ Forall P l.

Section emits.
  Context (P : Call -> Prop).

Lemma emits_silent {A} (m : M A) : keeps w_calls m -> emits P m.
Proof. intros H env w. exists []. by rewrite H, app_nil_r. Qed.

Lemma emits_bind {A B} (m : M A) (k : A -> M B) : emits P m -> (∀ x, emits P (k x)) -> emits P (m ≫= k).
Proof.
  intros Hm Hk env w. rewrite bind_eq. destruct (Hm env w) as (l1 & E1 & F1).
  destruct (Hk (m env w).1 env (m env w).2) as (l2 & E2 & F2). exists (l1 ++ l2).
  rewrite E2, E1, app_assoc. split; [done|]. by apply Forall_app.
Qed.

Lemma emits_record c : P c -> emits P (record c).
Proof. intros H env w. exists [c]. by split; [|repeat constructor]. Qed.
End emits.

Lemma emits_weaken (P Q : Call -> Prop) {A} (m : M A) : (∀ c, P c -> Q c) -> emits P m -> emits Q m.
Proof.
  intros H Hm env w. destruct (Hm env w) as (l & E & F). exists l. split; [done|]. eapply Forall_impl; [exact F|exact H].
Qed.

(** ** Loops *)

(** [I] holds of the items done, the value threaded and the world. *)
Lemma forEach_rule {A B} (I : list A -> B -> World -> Prop) (body : A -> B -> M B) :
  (∀ pre x acc env w, I pre acc w -> I (pre ++ [x]) (body x acc env w).1 (body x acc env w).2) ->
  ∀ l pre acc env w, I pre acc w -> I (pre ++ l) (forEach l acc body env w).1 (forEach l acc body env w).2.
Proof.
  intros Hb. induction l as [|x l IH]; intros pre acc env w H; simpl.
  - by rewrite app_nil_r.
  - rewrite bind_eq. replace (pre ++ x :: l) with ((pre ++ [x]) ++ l) by by rewrite <- app_assoc.
    apply IH. by apply Hb.
Qed.
