(* ===== verification/DestLocal.v ===== *)
(** * The local destination: [internal/dest/local/local.go]

    Artifacts are files under a root directory.  A file is written under a
    hidden name and renamed when it is complete. *)
From S2P Require Import Prelude GoStrings GoTime GoPath GoSlices Core Config Specs Pack Spool Db FileSystem.
Open Scope Z_scope.

(** ** Configuration *)

(** [strconv.ParseUint(s, 8, 32)] of a string that is not empty. *)
Fixpoint parse_octal (s : string) (acc : Z) : option Z :=
  match s with
  | "" => Some acc
  | String a s' =>
      if (48 <=? code a)%N && (code a <=? 55)%N
      then let n := acc * 8 + Z.of_N (code a - 48) in if 2 ^ 32 <=? n then None else parse_octal s' n
      else None
  end.

Definition parseMode (s : string) : result Z :=
  let s := TrimSpace s in
  if bool_decide (s = "") then Ok 488
  else match parse_octal s 0 with
       | Some n => Ok n
       | None => Fail (newError (Quote s +:+ " is not an octal file mode"))
       end.

Record client := mkClient { c_root : string; c_dirMode : Z; c_fileMode : Z; c_prune : bool }.

Section config.
  Context {sprint_host : SprintHost}.

Definition Validate (cfg : Config) : option error :=
  match ValidateRequired Spec_local cfg with
  | Some err => Some err
  | None =>
      if negb (IsAbs (Config_String cfg "path")) then Some (newError "directory must be an absolute path")
      else
        let? _ := parseMode (StringOr cfg "dir_mode" "0750") else err => Some (wrapError "directory mode" err) in
        let? _ := parseMode (StringOr cfg "file_mode" "0640") else err => Some (wrapError "file mode" err) in
        None
  end.

Definition Open (cfg : Config) : result client :=
  match Validate cfg with
  | Some err => Fail err
  | None =>
      let mode s := match parseMode s with Ok n => n | Fail _ => 0 end in
      Ok (mkClient (Clean (Config_String cfg "path")) (mode (StringOr cfg "dir_mode" "0750"))
            (mode (StringOr cfg "file_mode" "0640")) (Bool cfg "prune_empty_dirs" true))
  end.

End config.

(** ** Paths *)

Definition escapes (p : string) : error := newError ("path " +:+ Quote p +:+ " escapes the destination directory").

Definition resolve (c : client) (p : string) : result string :=
  let clean := Clean (TrimPrefix p "/") in
  if String.eqb clean "." then Ok (c_root c)
  else if IsAbs clean || String.eqb clean ".." || HasPrefix clean "../" then Fail (escapes p)
  else
    let full := PathJoin [c_root c; clean] in
    let? rel := Rel (c_root c) full else _ => Fail (escapes p) in
    if String.eqb rel ".." || HasPrefix rel "../" then Fail (escapes p) else Ok full.

(** The name a file has while it is written. *)
Definition partialPrefix (base : string) : string := "." +:+ base +:+ ".partial-".

Definition hidden (name : string) : bool := HasPrefix name "." && Contains name ".partial-".

(** ** The client *)

Section client.
  Context (c : client).

(** From the copy to the rename; the caller removes what is left of [tmpName]. *)
Definition install (path full tmpName : string) (chunks : list string) (src_end : option error) (size : Z) : FS (option error) :=
  r ← copyInto true tmpName chunks src_end;
  let '(written, err) := r in
  match err with
  | Some err => _ ← touch; mret (Some (wrapError ("write " +:+ path) err))
  | None =>
      e ← touch;   (* tmp.Sync *)
      match e with
      | Some err => _ ← touch; mret (Some (wrapError ("sync " +:+ path) err))
      | None =>
          e ← touch;   (* tmp.Close *)
          match e with
          | Some err => mret (Some (wrapError ("close " +:+ path) err))
          | None =>
              if (size >? 0) && negb (written =? size)
              then mret (Some (newError ("short write for " +:+ path +:+ ": expected " +:+ Itoa size +:+ " bytes, wrote " +:+ Itoa written)))
              else
                e ← touch;   (* os.Chmod *)
                match e with
                | Some err => mret (Some (wrapError ("chmod " +:+ path) err))
                | None =>
                    try? _ := Rename tmpName full else err => mret (Some (wrapError ("move " +:+ path +:+ " into place") err)) in
                    _ ← touch;   (* the sync of the directory *)
                    mret None
                end
          end
      end
  end.

Definition Put (path : string) (chunks : list string) (src_end : option error) (size : Z) : FS (option error) :=
  let? full := resolve c path else err => mret (Some err) in
  let dir := Dir full in
  e ← MkdirAll dir;
  match e with
  | Some err => mret (Some (wrapError ("create directory " +:+ dir) err))
  | None =>
      try? tmpName := CreateTemp dir (partialPrefix (Base full))
        else err => mret (Some (wrapError ("create temporary file in " +:+ dir) err)) in
      e ← install path full tmpName chunks src_end size;
      _ ← Remove tmpName;
      mret e
  end.

Definition Get (path : string) : FS (result Reader) :=
  let? full := resolve c path else err => mret (Fail err) in
  try? f := FileSystem.Open full else err => mret (Fail (wrapError ("open " +:+ path) err)) in
  mret (Ok f).

(** The directories above that became empty, up to the root. *)
Fixpoint pruneLoop (fuel : nat) (dir : string) : FS unit :=
  match fuel with
  | O => mret tt
  | S fuel =>
      if negb (String.eqb dir (c_root c)) && HasPrefix dir (c_root c +:+ "/") then
        try? _ := Remove dir else _ => mret tt in
        pruneLoop fuel (Dir dir)
      else mret tt
  end.

(** Each round drops an element of the path. *)
Definition prune (dir : string) : FS unit := pruneLoop (S (length (pathElems dir))) dir.

Definition Delete (path : string) : FS (option error) :=
  let? full := resolve c path else err => mret (Some err) in
  r ← Remove full;
  match r with
  | Fail err => mret (if errorsIs err ErrNotExist then None else Some (wrapError ("delete " +:+ path) err))
  | Ok _ => (if c_prune c then prune (Dir full) else mret tt);; mret None
  end.

(** What the walk does at an entry; [Lstat] is [entry.Info]. *)
Definition listEntry (start : string) (out : list Object) (p : string) (dir : bool) (walkErr : option error)
    : FS (list Object * option error) :=
  match walkErr with
  | Some err => mret (out, if errorsIs err ErrPermission then None else Some err)
  | None =>
      λ sys d,
        (match sys_ctx sys (d_calls d) 0%nat with
         | Some err => mret (out, Some err)
         | None =>
             if String.eqb p start then mret (out, None)
             else
               let? rel := Rel (c_root c) p else err => mret (out, Some err) in
               if hidden (Base p) then mret (out, None)
               else
                 r ← stat p;
                 mret (match r with
                       | Fail _ => (out, None)
                       | Ok fi => (out ++ [mkObject rel (if dir then 0 else fi_Size fi) (fi_ModTime fi) dir], None)
                       end)
         end) sys d
  end.

Definition sortObjects (l : list Object) : list Object := SliceStable (λ a b, String.ltb (obj_Path a) (obj_Path b)) l.

Definition List (prefix : string) : FS (result (list Object)) :=
  let? start := resolve c prefix else err => mret (Fail err) in
  r ← stat start;
  match r with
  | Fail err => mret (if errorsIs err ErrNotExist then Ok [] else Fail (wrapError ("list " +:+ prefix) err))
  | Ok info =>
      if negb (fi_IsDir info) then
        let? rel := Rel (c_root c) start else err => mret (Fail (wrapError ("list " +:+ prefix) err)) in
        mret (Ok [mkObject rel (fi_Size info) (fi_ModTime info) false])
      else
        r ← WalkDir (listEntry start) [] start;
        mret (match r with
              | (_, Some err) => Fail (wrapError ("list " +:+ prefix) err)
              | (out, None) => Ok (sortObjects out)
              end)
  end.

Definition Stat (path : string) : FS (result Object) :=
  let? full := resolve c path else err => mret (Fail err) in
  try? info := stat full else err => mret (Fail (wrapError ("stat " +:+ path) err)) in
  let? rel := Rel (c_root c) full else err => mret (Fail (wrapError ("stat " +:+ path) err)) in
  mret (Ok (mkObject rel (fi_Size info) (fi_ModTime info) (fi_IsDir info))).

Definition notWritable (err : error) : error := wrapError ("directory " +:+ c_root c +:+ " is not writable") err.

Definition Test : FS (option error) :=
  e ← MkdirAll (c_root c);
  match e with
  | Some err => mret (Some (wrapError ("create directory " +:+ c_root c) err))
  | None =>
      try? info := stat (c_root c) else err => mret (Some (wrapError ("stat " +:+ c_root c) err)) in
      if negb (fi_IsDir info) then mret (Some (newError (c_root c +:+ " is not a directory")))
      else
        try? name := CreateTemp (c_root c) ".backvault-write-test-" else err => mret (Some (notWritable err)) in
        r ← copyInto false name ["backvault"] None;
        e ← touch;   (* probe.Close *)
        _ ← Remove name;
        mret (match r.2, e with
              | Some err, _ => Some (notWritable err)
              | None, Some err => Some (notWritable err)
              | None, None => None
              end)
  end.

End client.
