(* ===== verification/Slug.v ===== *)
(** * Slugs: [internal/server/slug.go]

    The names of jobs in URLs and paths: derived from the name of the job,
    checked against a pattern, and made unique by a number. *)
From S2P Require Import Prelude GoStrings GoTime Core Db.
Open Scope Z_scope.

Definition dash : ascii := "-".

Definition slugChar (a : ascii) : bool := is_lower a || is_digit a.

(** The runes that become a dash. *)
Definition slugSeparator (r : string) : bool :=
  existsb (String.eqb r) space_runes || existsb (String.eqb r) ["-"; "_"; "."; "/"].

(** A round of the loop, on what is built so far and whether it may not take a
    dash now. *)
Definition slugDash (acc : string * bool) : string * bool :=
  if negb acc.2 && bool_decide (acc.1 ≠ "") then (acc.1 +:+ "-", true) else acc.

Definition slugRune (r : string) : bool :=
  match r with String a "" => slugChar a | _ => false end.

Definition slugStep (acc : string * bool) (r : string) : string * bool :=
  if slugRune r then (acc.1 +:+ r, false)
  else if slugSeparator r then slugDash acc
  else acc.

(** [strings.Trim(s, "-")]. *)
Fixpoint trimLeftByte (c : ascii) (s : string) : string :=
  match s with
  | String a s' => if Ascii.eqb a c then trimLeftByte c s' else s
  | "" => ""
  end.

Fixpoint trimRightByte (c : ascii) (s : string) : string :=
  match s with
  | "" => ""
  | String a s' =>
      let t := trimRightByte c s' in
      if Ascii.eqb a c && bool_decide (t = "") then "" else String a t
  end.

Definition slugify (value : string) : string :=
  let sb := (foldl slugStep ("", true) (lowerRune <$> runes (TrimSpace value))).1 in
  trimRightByte dash (trimLeftByte dash sb).

(** The pattern [^[a-z0-9]+(?:-[a-z0-9]+)*$]: words of letters and digits with a
    dash between them. *)
Definition slugWord (w : string) : bool := negb (bool_decide (w = "")) && sall slugChar w.

Definition validSlug (value : string) : bool := forallb slugWord (Split value dash).

(** ** Uniqueness *)

Definition slugConflict : string := "could not derive a unique slug".

(** The loop from [i] on, [n] candidates left; [None] when they are used up. *)
Fixpoint uniqueLoop (n : nat) (i : Z) (base candidate exceptID : string)
    (exists_ : string -> string -> M (result bool)) : M (result (option string)) :=
  match n with
  | O => mret (Ok None)
  | S n' =>
      do? taken := exists_ candidate exceptID else err => mret (Fail err) in
      if negb taken then mret (Ok (Some candidate))
      else uniqueLoop n' (i + 1) base (base +:+ "-" +:+ Itoa i) exceptID exists_
  end.

(** [for i := 2; i < 1000]. *)
Definition slugCandidates : nat := 998.

Definition uniqueSlug (base exceptID : string) (exists_ : string -> string -> M (result bool))
    : M (result (option string)) :=
  let base := if bool_decide (base = "") then "job" else base in
  uniqueLoop slugCandidates 2 base base exceptID exists_.

(** ** The pattern as an automaton

    [fresh]: a word must start here. *)
Fixpoint slugAuto (fresh : bool) (s : string) : bool :=
  match s with
  | "" => negb fresh
  | String a s' =>
      if slugChar a then slugAuto false s'
      else if Ascii.eqb a dash then negb fresh && slugAuto true s' else false
  end.

Lemma slugChar_not_dash a : slugChar a = true -> Ascii.eqb a dash = false.
Proof. intros H. apply Ascii.eqb_neq. intros ->. by vm_compute in H. Qed.

Lemma Split_ne s c : Split s c ≠ [].
Proof. destruct s as [|a s]; simpl; [done|]. case_match; [done|]. by case_match. Qed.

Lemma slugWord_cons a w : slugWord (String a w) = slugChar a && sall slugChar w.
Proof. done. Qed.

Lemma Split_auto s :
  slugAuto true s = forallb slugWord (Split s dash)
  ∧ slugAuto false s = match Split s dash with w :: ws => sall slugChar w && forallb slugWord ws | [] => false end.
Proof.
  induction s as [|a s [IHt IHf]]; [done|]. cbn [slugAuto Split].
  destruct (slugChar a) eqn:Ha.
  - rewrite (slugChar_not_dash a Ha), IHf. pose proof (Split_ne s dash) as Hne.
    destruct (Split s dash) as [|w ws]; [done|]. cbn [forallb sall]. by rewrite slugWord_cons, Ha.
  - destruct (Ascii.eqb a dash) eqn:Ed; [by rewrite IHt|].
    pose proof (Split_ne s dash) as Hne. destruct (Split s dash) as [|w ws]; [done|].
    cbn [forallb sall]. by rewrite slugWord_cons, Ha.
Qed.

Lemma validSlug_auto s : validSlug s = slugAuto true s.
Proof. unfold validSlug. by rewrite (proj1 (Split_auto s)). Qed.

Lemma slugAuto_app b s t : slugAuto b s = true -> slugAuto b (s +:+ t) = slugAuto false t.
Proof.
  revert b. induction s as [|a s IH]; intros b; cbn [String.append slugAuto]; [by destruct b|].
  destruct (slugChar a); [apply IH|]. destruct (Ascii.eqb a dash); [|done].
  destruct b; [done|]. apply IH.
Qed.

Lemma slugAuto_word w : sall slugChar w = true -> slugAuto false w = true.
Proof.
  induction w as [|a w IH]; [done|]. cbn [sall slugAuto]. intros H. apply andb_true_iff in H as [-> H]. by apply IH.
Qed.

(** ** Trimming *)

Lemma trimRight_auto b s : slugAuto b s = true -> trimRightByte dash s = s.
Proof.
  revert b. induction s as [|a s IH]; intros b; [done|]. cbn [slugAuto trimRightByte].
  destruct (slugChar a) eqn:Ha.
  - intros H. by rewrite (slugChar_not_dash a Ha), (IH _ H).
  - destruct (Ascii.eqb a dash); [|done]. destruct b; [done|]. intros H. rewrite (IH _ H).
    rewrite bool_decide_eq_false_2; [done|]. by intros ->.
Qed.

Lemma trimRight_auto_dash b s : slugAuto b s = true -> trimRightByte dash (s +:+ "-") = s.
Proof.
  revert b. induction s as [|a s IH]; intros b; [done|]. cbn [slugAuto String.append trimRightByte].
  destruct (slugChar a) eqn:Ha.
  - intros H. by rewrite (slugChar_not_dash a Ha), (IH _ H).
  - destruct (Ascii.eqb a dash); [|done]. destruct b; [done|]. intros H. rewrite (IH _ H).
    rewrite bool_decide_eq_false_2; [done|]. by intros ->.
Qed.

Lemma trimLeft_auto s t : slugAuto true s = true -> trimLeftByte dash (s +:+ t) = s +:+ t.
Proof.
  destruct s as [|a s]; [done|]. cbn [slugAuto String.append trimLeftByte]. destruct (slugChar a) eqn:Ha; [|by case_match].
  by rewrite (slugChar_not_dash a Ha).
Qed.

(** ** What is derived *)

(** A slug under construction: perhaps with a dash at the end, which the flag
    remembers. *)
Definition slugPrefix (acc : string * bool) : Prop :=
  if acc.2 then acc.1 = "" ∨ ∃ s, acc.1 = s +:+ "-" ∧ slugAuto true s = true
  else slugAuto true acc.1 = true.

Lemma slugDash_prefix acc : slugPrefix acc -> slugPrefix (slugDash acc).
Proof.
  destruct acc as [sb last]. unfold slugDash. cbn [fst snd]. intros H. destruct last; [exact H|].
  case_bool_decide; [|exact H]. right. by exists sb.
Qed.

Lemma slugStep_prefix acc r : slugPrefix acc -> slugPrefix (slugStep acc r).
Proof.
  intros H. unfold slugStep. destruct (slugRune r) eqn:Hr.
  - destruct r as [|a [|b r]]; [done| |done]. cbn in Hr. destruct acc as [sb last]. unfold slugPrefix in *.
    cbn [fst snd] in *. destruct last.
    + destruct H as [->|(s & -> & H)]; [cbn; by rewrite Hr|].
      rewrite sapp_assoc, (slugAuto_app _ _ _ H). cbn. by rewrite Hr.
    + rewrite (slugAuto_app _ _ _ H). cbn. by rewrite Hr.
  - destruct (slugSeparator r); [by apply slugDash_prefix|done].
Qed.

(** What [slugify] derives is empty or a slug. *)
Lemma slugify_valid value : slugify value = "" ∨ validSlug (slugify value) = true.
Proof.
  unfold slugify. generalize (lowerRune <$> runes (TrimSpace value)). intros l.
  assert (H : slugPrefix (foldl slugStep ("", true) l)).
  { assert (H0 : slugPrefix ("", true)) by by left. revert H0. generalize ("", true).
    induction l as [|r l IH]; intros acc H; [done|]. simpl. by apply IH, slugStep_prefix. }
  destruct (foldl slugStep ("", true) l) as [sb last]. cbn [fst]. unfold slugPrefix in H. cbn [fst snd] in H.
  rewrite validSlug_auto. destruct last.
  - destruct H as [->|(s & -> & H)]; [by left|]. right. by rewrite trimLeft_auto, (trimRight_auto_dash true).
  - right. rewrite <- (sapp_nil_r sb), trimLeft_auto, sapp_nil_r by done. by rewrite (trimRight_auto true).
Qed.

Lemma parse_digits_chars s acc n : parse_digits s acc = Some n -> sall slugChar s = true.
Proof.
  revert acc. induction s as [|a s IH]; intros acc; [done|]. cbn [parse_digits sall]. unfold slugChar.
  destruct (is_digit a); [|done]. intros H. rewrite orb_true_r. by apply (IH _ H).
Qed.

Lemma Itoa_word i : 0 <= i -> slugWord (Itoa i) = true.
Proof.
  intros Hi. unfold Itoa, slugWord. rewrite pretty_Z_of_N by done.
  pose proof (parse_digits_pretty (Z.to_N i)) as H. rewrite (parse_digits_chars _ _ _ H), andb_true_r.
  apply negb_true_iff, bool_decide_eq_false. intros E. rewrite E in H. injection H as H.
  assert (i = 0) as -> by lia. done.
Qed.

(** The number after a slug leaves it a slug. *)
Lemma validSlug_numbered base i :
  0 <= i -> validSlug base = true -> validSlug (base +:+ "-" +:+ Itoa i) = true.
Proof.
  rewrite !validSlug_auto. intros Hi H. rewrite (slugAuto_app _ _ _ H). cbn [String.append slugAuto].
  change (slugChar "-") with false. cbn. pose proof (Itoa_word i Hi) as W. unfold slugWord in W.
  apply andb_true_iff in W as [W1 W2]. apply negb_true_iff, bool_decide_eq_false in W1.
  destruct (Itoa i) as [|a s]; [done|]. cbn [sall slugAuto] in *. apply andb_true_iff in W2 as [-> W2].
  by apply slugAuto_word.
Qed.

(** ** A slug derives itself *)

Lemma slugAuto_ascii b s : slugAuto b s = true -> sall (λ a, slugChar a || Ascii.eqb a dash) s = true.
Proof.
  revert b. induction s as [|a s IH]; intros b; [done|]. cbn [slugAuto sall]. destruct (slugChar a); [apply IH|].
  destruct (Ascii.eqb a dash); [|done]. destruct b; [done|]. apply IH.
Qed.

Lemma slugByte_ascii a : slugChar a || Ascii.eqb a dash = true ->
  (code a < 128)%N ∧ is_upper a = false ∧ existsb (String.eqb (schar a)) space_runes = false.
Proof. destruct a as [[] [] [] [] [] [] [] []]; vm_compute; intros H; by split_and?. Qed.

(** Neither the first nor the last byte of the encoding of a space is one of a
    slug. *)
Lemma space_first p : p ∈ space_runes -> ∃ a q, p = String a q ∧ slugChar a || Ascii.eqb a dash = false.
Proof.
  intros H. assert (E : forallb (λ p, match p with String a _ => negb (slugChar a || Ascii.eqb a dash) | "" => false end) space_runes = true)
    by by vm_compute.
  apply list_elem_of_In in H. rewrite forallb_forall in E. specialize (E p H). destruct p as [|a q]; [done|].
  exists a, q. split; [done|]. by apply negb_true_iff in E.
Qed.

Fixpoint lastByte (s : string) : option ascii :=
  match s with
  | "" => None
  | String a "" => Some a
  | String _ s' => lastByte s'
  end.

Lemma lastByte_sdrop n s : sdrop n s ≠ "" -> lastByte (sdrop n s) = lastByte s.
Proof.
  revert s. induction n as [|n IH]; intros s; [done|]. destruct s as [|a s]; [done|]. cbn [sdrop]. intros H.
  rewrite IH by done. destruct s; [|done]. by destruct n.
Qed.

Lemma lastByte_sall P s a : sall P s = true -> lastByte s = Some a -> P a = true.
Proof.
  induction s as [|b s IH]; [done|]. cbn [sall]. intros H. apply andb_true_iff in H as [Hb H].
  destruct s; [by intros [= <-]|]. by apply IH.
Qed.

Lemma space_last p : p ∈ space_runes -> ∃ a, lastByte p = Some a ∧ slugChar a || Ascii.eqb a dash = false.
Proof.
  intros H. assert (E : forallb (λ p, match lastByte p with Some a => negb (slugChar a || Ascii.eqb a dash) | None => false end) space_runes = true)
    by by vm_compute.
  apply list_elem_of_In in H. rewrite forallb_forall in E. specialize (E p H). destruct (lastByte p) as [a|]; [|done].
  exists a. split; [done|]. by apply negb_true_iff in E.
Qed.

Lemma slug_noLead a s : slugChar a || Ascii.eqb a dash = true -> List.find (HasPrefix (String a s)) space_runes = None.
Proof.
  intros H. destruct (List.find (HasPrefix (String a s)) space_runes) as [p|] eqn:E; [|done]. apply find_some in E as [Hp E].
  apply list_elem_of_In, space_first in Hp as (b & q & -> & Hb). rewrite HasPrefix_cons in E. apply andb_true_iff in E as [E _].
  apply Ascii.eqb_eq in E as ->. by rewrite H in Hb.
Qed.

Lemma slug_noTrail s : sall (λ a, slugChar a || Ascii.eqb a dash) s = true -> List.find (HasSuffix s) space_runes = None.
Proof.
  intros H. destruct (List.find (HasSuffix s) space_runes) as [p|] eqn:E; [|done]. apply find_some in E as [Hp E].
  apply list_elem_of_In, space_last in Hp as (a & Hp & Ha). unfold HasSuffix in E. apply andb_true_iff in E as [_ E].
  apply bool_decide_eq_true in E. rewrite <- E in Hp.
  rewrite lastByte_sdrop in Hp by by intros E'; rewrite E' in Hp.
  pose proof (lastByte_sall _ _ _ H Hp) as Q. by rewrite Q in Ha.
Qed.

Lemma TrimSpace_slug s : sall (λ a, slugChar a || Ascii.eqb a dash) s = true -> TrimSpace s = s.
Proof.
  intros H. pose proof (slug_noTrail s H) as R. destruct s as [|a s]; [done|].
  assert (L : List.find (HasPrefix (String a s)) space_runes = None) by (apply slug_noLead; cbn [sall] in H; by apply andb_true_iff in H as [H _]).
  unfold TrimSpace. assert (E : trim_left_fuel (String.length (String a s)) (String a s) = String a s) by (cbn [String.length trim_left_fuel]; by rewrite L).
  rewrite E. cbn [String.length trim_right_fuel]. by rewrite R.
Qed.

Lemma slugStep_slug b sb s :
  slugAuto b s = true -> (b = false -> sb ≠ "") ->
  (foldl slugStep (sb, b) (lowerRune <$> (schar <$> String.list_ascii_of_string s))).1 = sb +:+ s.
Proof.
  revert b sb. induction s as [|a s IH]; intros b sb H Hb; [cbn; by rewrite sapp_nil_r|].
  pose proof (slugAuto_ascii _ _ H) as Ha. cbn [sall] in Ha. apply andb_true_iff in Ha as [Ha _].
  destruct (slugByte_ascii a Ha) as (_ & Hu & _).
  cbn [String.list_ascii_of_string fmap list_fmap foldl lowerRune schar]. unfold lower_byte. rewrite Hu.
  unfold slugStep at 2. cbn [slugRune schar fst]. cbn [slugAuto] in H. destruct (slugChar a) eqn:Hc.
  - rewrite (IH false) by (done || by destruct sb). by rewrite sapp_assoc.
  - destruct (Ascii.eqb a dash) eqn:Hd; [|done]. destruct b; [done|]. apply Ascii.eqb_eq in Hd as ->.
    change (slugSeparator (schar dash)) with true. unfold slugDash. cbn [fst snd negb andb].
    rewrite bool_decide_eq_true_2 by by apply Hb. rewrite (IH true) by done. by rewrite sapp_assoc.
Qed.

Lemma slugify_slug s : validSlug s = true -> slugify s = s.
Proof.
  rewrite validSlug_auto. intros H. pose proof (slugAuto_ascii _ _ H) as Ha. unfold slugify.
  rewrite TrimSpace_slug, runes_ascii.
  - rewrite slugStep_slug by done. change ("" +:+ s) with s.
    rewrite <- (sapp_nil_r s) at 1. by rewrite trimLeft_auto, sapp_nil_r, (trimRight_auto true).
  - clear H. induction s as [|a s IH]; [done|]. cbn [sall] in *. apply andb_true_iff in Ha as [Hx Ha].
    rewrite IH by done. destruct (slugByte_ascii a Hx) as (Hl & _). apply N.ltb_lt in Hl. by rewrite Hl.
  - done.
Qed.
