(* ===== verification/ObjectStore.v ===== *)
(** * What a destination promises: [internal/dest/dest.go]

    The contract behind the interface [dest.Client]: a map from keys, the relative
    paths of the artifacts, to bytes.  A put that succeeds stores the whole
    stream; one that fails leaves the other keys alone and, under its own, what was
    there, nothing, or the whole stream: never a part of it. *)
From S2P Require Import Prelude GoStrings GoTime Pack GoPath Spool Db Slug.
Open Scope Z_scope.

Inductive Request :=
  | RPut (key : list string) (chunks : list string) (src_end : option error) (size : Z)
  | RGet (key : list string)
  | RDelete (key : list string)
  | RStat (key : list string).

Inductive Answer :=
  | APut (e : option error)
  | AGet (r : result Reader)
  | ADelete (e : option error)
  | AStat (r : result Object).

Definition Objects : Type := list string -> option string.

Definition othersKept (key : list string) (m m' : Objects) : Prop := ∀ k, k ≠ key -> m' k = m k.

Definition unchanged (m m' : Objects) : Prop := ∀ k, m' k = m k.

Definition contract (m : Objects) (q : Request) (a : Answer) (m' : Objects) : Prop :=
  match q, a with
  | RPut key chunks src_end _, APut None =>
      src_end = None ∧ othersKept key m m' ∧ m' key = Some (concatChunks chunks)
  | RPut key chunks _ _, APut (Some _) =>
      othersKept key m m' ∧ (m' key = m key ∨ m' key = None ∨ m' key = Some (concatChunks chunks))
  | RGet key, AGet r =>
      unchanged m m' ∧ ∀ rd data, r = Ok rd -> m key = Some data -> rd_data rd = data ∧ rd_err rd = None
  | RDelete key, ADelete None => othersKept key m m' ∧ m' key = None
  | RDelete key, ADelete (Some _) => othersKept key m m' ∧ (m' key = m key ∨ m' key = None)
  | RStat key, AStat r =>
      unchanged m m' ∧ ∀ o data, r = Ok o -> m key = Some data -> obj_Size o = Z.of_nat (String.length data)
  | _, _ => False
  end.

Definition requestKey (q : Request) : list string :=
  match q with RPut k _ _ _ | RGet k | RDelete k | RStat k => k end.

Inductive runs : Objects -> list (Request * Answer) -> Objects -> Prop :=
  | runs_nil m : runs m [] m
  | runs_cons m q a m1 l m2 : contract m q a m1 -> runs m1 l m2 -> runs m ((q, a) :: l) m2.

(** It may change what lies under the key. *)
Definition writes (key : list string) (q : Request) : Prop :=
  match q with RPut k _ _ _ | RDelete k => k = key | _ => False end.

(** A driver: how a request takes it from a state to another, the objects it
    holds, the keys it keeps them under, and that it honours the contract. *)
Class DestClient (St : Type) := {
  answers : Request -> St -> Answer -> St -> Prop;
  objects : St -> Objects;
  servedKey : St -> list string -> Prop;
  honours q s a s' : servedKey s (requestKey q) -> answers q s a s' -> contract (objects s) q a (objects s');
  keepsServing q s a s' k : servedKey s (requestKey q) -> answers q s a s' -> servedKey s k -> servedKey s' k
}.

Section client.
  Context {St : Type} {Dn : DestClient St}.

Inductive history : St -> list (Request * Answer) -> St -> Prop :=
  | history_nil s : history s [] s
  | history_cons s q a s1 l s2 : servedKey s (requestKey q) -> answers q s a s1 -> history s1 l s2 -> history s ((q, a) :: l) s2.

Lemma history_app s l k s2 : history s (l ++ k) s2 -> ∃ s1, history s l s1 ∧ history s1 k s2.
Proof.
  revert s. induction l as [|[q a] l IH]; intros s H; [exists s; by split; [constructor|]|].
  inversion H as [|? ? ? s1 ? ? H1 H2 H3]; subst. destruct (IH _ H3) as (s' & Ha & Hb). exists s'. split; [|done].
  by econstructor.
Qed.

(** What no request wrote is still there. *)
Lemma history_keeps s l s' key : history s l s' -> Forall (λ qa, ~ writes key qa.1) l -> objects s' key = objects s key.
Proof.
  induction 1 as [|s q a s1 l s2 Hk Ha _ IH]; intros HF; [done|]. inversion HF as [|? ? Hw HF']; subst.
  rewrite (IH HF'). pose proof (honours q s a s1 Hk Ha) as C. cbn in Hw. clear - Hw C.
  destruct q as [k c e n|k|k|k], a as [[e'|]|r|[e'|]|r]; cbn in *; try done; destruct C as [C1 C2];
    first [by apply C1 | by (destruct C2 as [C2 _]; apply C2; intros ->)].
Qed.

(** What a destination may do, over a history: the runs of the contract. *)
Lemma history_runs s l s' : history s l s' -> runs (objects s) l (objects s').
Proof. induction 1 as [|s q a s1 l s2 Hk Ha _ IH]; econstructor; [by apply honours|done]. Qed.

(** What was put is what is read and what is measured, until it is written
    again: whatever requests were made of other keys in between, and whichever
    of them failed. *)
Theorem put_read_back s before key chunks src_end size between q a s' :
  history s (before ++ (RPut key chunks src_end size, APut None) :: between ++ [(q, a)]) s' ->
  Forall (λ qa, ~ writes key qa.1) between ->
  (∀ rd, q = RGet key -> a = AGet (Ok rd) -> rd_data rd = concatChunks chunks ∧ rd_err rd = None)
  ∧ (∀ o, q = RStat key -> a = AStat (Ok o) -> obj_Size o = Z.of_nat (String.length (concatChunks chunks))).
Proof.
  intros H HF. apply history_app in H as (s1 & _ & H). inversion H as [|? ? ? s2 ? ? Hk Ha H2]; subst.
  apply honours in Ha; [|done]. destruct Ha as (_ & _ & Hput).
  apply history_app in H2 as (s3 & Hb & H3). rewrite <- (history_keeps _ _ _ _ Hb HF) in Hput.
  inversion H3 as [|? ? ? s4 ? ? Hk3 Ha3 _]; subst. apply honours in Ha3; [|done].
  split; intros x -> ->; cbn in Ha3; by apply Ha3.
Qed.

End client.

(** * Paths on a remote: what the SFTP, WebDAV and S3 destinations share

    They take a path with either slash, drop one leading slash and clean it; what
    would leave the base is refused. *)

Definition backslash : ascii := "\".

(** [strings.ReplaceAll(p, "\\", "/")]. *)
Definition slashes (p : string) : string := ReplaceByte p backslash "/".

(** [strings.Trim(s, c)] of one byte. *)
Definition Trim (s : string) (c : ascii) : string := trimRightByte c (trimLeftByte c s).

(** [path.Clean(strings.TrimPrefix(strings.ReplaceAll(p, "\\", "/"), "/"))], and
    nothing for the base itself. *)
Definition remoteClean (p : string) : string :=
  let clean := Clean (TrimPrefix (slashes p) "/") in
  if bool_decide (clean = "." ∨ clean = "/") then "" else clean.

Definition leavesBase (clean : string) : bool :=
  String.eqb clean ".." || HasPrefix clean "../" || HasPrefix clean "/".

Definition escapesBase (p : string) : error := newError ("path " +:+ Quote p +:+ " escapes the base path").

(** A key these drivers keep apart from the others. *)
Definition remoteKey (k : list string) : Prop := k ≠ [] ∧ Forall plainElem k ∧ Forall (λ e, free_of backslash e = true) k.

Lemma ReplaceByte_free s c r : free_of c s = true -> ReplaceByte s c r = s.
Proof.
  induction s as [|a s IH]; [done|]. cbn. intros [Ha Hs]%andb_true_iff. apply negb_true_iff in Ha. rewrite Ha. f_equal. by apply IH.
Qed.

Lemma keyPath_free c k : Forall (λ e, free_of c e = true) k -> c ≠ slash -> free_of c (keyPath k) = true.
Proof.
  intros H Hc. unfold keyPath. induction H as [|e k He Hk IH]; [done|]. destruct k as [|e' k]; [done|].
  change (StrJoin (e :: e' :: k) "/") with (e +:+ ("/" +:+ StrJoin (e' :: k) "/")). unfold free_of in *. rewrite sall_app, He.
  change ("/" +:+ StrJoin (e' :: k) "/") with (String slash (StrJoin (e' :: k) "/")). cbn [sall andb]. rewrite IH, andb_true_r.
  apply negb_true_iff, Ascii.eqb_neq. done.
Qed.

Lemma slashes_key k : remoteKey k -> slashes (keyPath k) = keyPath k.
Proof. intros (_ & _ & H). by apply ReplaceByte_free, keyPath_free. Qed.

Lemma remoteClean_key k : remoteKey k -> remoteClean (keyPath k) = keyPath k ∧ leavesBase (keyPath k) = false.
Proof.
  intros Hk. pose proof Hk as (Hne & Hp & _). destruct (key_stays k Hne Hp) as (K1 & K2 & K3).
  pose proof (IsAbs_plain k Hne Hp) as K4. unfold remoteClean. rewrite slashes_key, TrimPrefix_key, Clean_key by done. split.
  - rewrite bool_decide_eq_false_2; [done|]. intros [E|E]; [done|]. rewrite E in K4. done.
  - unfold leavesBase. apply String.eqb_neq in K2. unfold IsAbs in K4. by rewrite K2, K3, K4.
Qed.

(** What is not refused lies at or below the base. *)
Lemma remoteClean_below p :
  leavesBase (remoteClean p) = false ->
  remoteClean p = "" ∨ ∃ rel, rel ≠ [] ∧ Forall plainElem rel ∧ remoteClean p = keyPath rel.
Proof.
  unfold remoteClean. set (q := TrimPrefix (slashes p) "/"). case_bool_decide as Hd; [by left|]. intros H. right.
  unfold leavesBase in H. apply orb_false_iff in H as [[H1%String.eqb_neq H2]%orb_false_iff H3].
  destruct (IsAbs q) eqn:Hi.
  { destruct (Clean_rooted _ Hi) as (elems & Hc & _). by rewrite Hc, HasPrefix_app in H3. }
  apply Clean_relative; [done|..]; [tauto|done|done].
Qed.

(** The path of the base, or of what lies below it. *)
Definition underBase (base clean : string) : string :=
  if bool_decide (base = "") then clean else if bool_decide (clean = "") then base else base +:+ "/" +:+ clean.

Lemma underBase_inj base k k' : k ≠ [] -> k' ≠ [] -> Forall plainElem k -> Forall plainElem k' ->
  underBase base (keyPath k) = underBase base (keyPath k') -> k = k'.
Proof.
  intros Hne Hne' Hk Hk'. pose proof (StrJoin_plain_ne k Hne Hk) as N. pose proof (StrJoin_plain_ne k' Hne' Hk') as N'.
  fold (keyPath k) in N. fold (keyPath k') in N'. unfold underBase. rewrite !(bool_decide_eq_false_2 (keyPath _ = "")) by done.
  assert (I : keyPath k = keyPath k' -> k = k').
  { intros E. rewrite <- (Split_StrJoin_plain k), <- (Split_StrJoin_plain k') by done. unfold keyPath in E. by rewrite E. }
  case_bool_decide; [done|]. intros E. apply I. apply (inj (String.append base)) in E. by injection E.
Qed.

(** Dropping the base again. *)
Lemma TrimPrefix_base base k : k ≠ [] -> Forall plainElem k -> TrimPrefix (TrimPrefix (base +:+ "/" +:+ keyPath k) base) "/" = keyPath k.
Proof. intros Hne Hk. rewrite TrimPrefix_app. apply (TrimPrefix_app "/"). Qed.

(** The partial file lies beside the file. *)
Lemma partial_plain k x : Forall plainElem (k ++ [x]) ->
  Forall plainElem (k ++ [x +:+ ".partial"]) ∧ keyPath (k ++ [x]) +:+ ".partial" = keyPath (k ++ [x +:+ ".partial"]).
Proof.
  intros [Hk Hx]%Forall_app. pose proof (Forall_inv Hx) as (X1 & X2 & X3 & X4). split.
  - apply Forall_app. split; [done|]. constructor; [|done]. assert (L : ∀ s, (String.length s < 8)%nat -> x +:+ ".partial" ≠ s).
    { intros s Hs <-. rewrite sapp_length in Hs. cbn in Hs. lia. }
    split_and!; [apply L; cbn; lia..|]. unfold free_of in *. by rewrite sall_app, X4.
  - unfold keyPath. destruct (decide (k = [])) as [->|Hne]; [done|]. rewrite !StrJoin_slash by done. cbn [StrJoin]. by rewrite !sapp_assoc.
Qed.

(** The keys of the drivers that upload beside the file: not those of partial files. *)
Definition partialKey (k : list string) : bool := match last k with Some name => HasSuffix name ".partial" | None => false end.

Definition uploadKey (k : list string) : Prop := remoteKey k ∧ partialKey k = false.

#[local] Instance plainElem_dec e : Decision (plainElem e).
Proof. unfold plainElem. apply _. Defined.

#[export] Instance remoteKey_dec k : Decision (remoteKey k).
Proof. unfold remoteKey. apply _. Defined.

#[export] Instance uploadKey_dec k : Decision (uploadKey k).
Proof. unfold uploadKey. apply _. Defined.

Lemma partial_of k : k ≠ [] -> Forall plainElem k ->
  ∃ p, p ≠ [] ∧ Forall plainElem p ∧ partialKey p = true ∧ keyPath k +:+ ".partial" = keyPath p.
Proof.
  intros Hne Hk. destruct k as [|x k _] using rev_ind; [done|]. destruct (partial_plain k x Hk) as [HK EP].
  exists (k ++ [x +:+ ".partial"]). split_and!; [by destruct k|done| |done]. unfold partialKey. rewrite last_snoc. apply HasSuffix_app.
Qed.
