(* ===== verification/DestLocalFacts.v ===== *)
(** * Theorems on the local destination

    A path never leads out of the root; a file appears whole or not at all; what
    is listed is what is there. *)
From S2P Require Import Prelude GoStrings GoTime Core Config Specs GoSlices Pack GoPath Spool FileSystem Db ObjectStore DestLocal.
Open Scope Z_scope.

(** ** The root *)

(** The client of the directory with the elements [R]. *)
Definition rootedAt (R : list string) (c : client) : Prop := Forall plainElem R ∧ c_root c = rooted R.

Lemma Open_rooted {sprint_host : SprintHost} cfg c : Open cfg = Ok c -> rootedAt (pathElems (Config_String cfg "path")) c.
Proof.
  unfold Open, Validate. destruct (ValidateRequired Spec_local cfg); [done|].
  destruct (IsAbs (Config_String cfg "path")) eqn:Ha; [|done]. cbn [negb].
  destruct (parseMode _); [|done]. destruct (parseMode _); [|done]. intros [= <-]. split; [apply pathElems_plain|].
  by apply Clean_pathElems.
Qed.

(** Whatever it is asked, [resolve] stays under the root. *)
Lemma resolve_under R c p full : rootedAt R c -> resolve c p = Ok full -> ∃ rel, Forall plainElem rel ∧ full = rooted (R ++ rel).
Proof.
  intros [HR Hroot]. unfold resolve. destruct (String.eqb_spec (Clean (TrimPrefix p "/")) ".") as [_|Hdot].
  { intros [= <-]. exists []. split; [constructor|]. by rewrite app_nil_r. }
  destruct (_ || _) eqn:E; [done|]. boolean. match goal with H : String.eqb _ ".." = false |- _ => apply String.eqb_neq in H as Hup end.
  destruct (decide (IsAbs (TrimPrefix p "/") = true)) as [Hi|Hi].
  { destruct (Clean_rooted _ Hi) as (elems & Hc & _). match goal with H : IsAbs (Clean _) = false |- _ => rewrite Hc in H; unfold IsAbs in H end.
    rewrite HasPrefix_app in *. done. }
  apply not_true_is_false in Hi. destruct (Clean_relative _ Hi Hdot Hup) as (rel & Hne & Hrel & ->); [done|].
  rewrite Hroot, PathJoin_rooted by done. rewrite Rel_rooted by done.
  destruct (_ || _); [done|]. intros [= <-]. by exists rel.
Qed.

(** A key is where it looks. *)
Lemma resolve_key R c k : rootedAt R c -> k ≠ [] -> Forall plainElem k -> resolve c (keyPath k) = Ok (rooted (R ++ k)).
Proof.
  intros [HR Hroot] Hne Hk. destruct (key_stays k Hne Hk) as (K1 & K2 & K3). unfold resolve.
  rewrite TrimPrefix_key, Clean_key by done. pose proof (proj2 (String.eqb_neq _ _) K1) as K1'.
  pose proof (proj2 (String.eqb_neq _ _) K2) as K2'. pose proof (IsAbs_plain k Hne Hk) as K4.
  rewrite K1', K4, K2', K3. cbn [orb]. rewrite Hroot. unfold keyPath at 1 2. rewrite PathJoin_rooted, Rel_rooted by done.
  fold (keyPath k). rewrite K2', K3. cbn [orb]. unfold keyPath. by rewrite PathJoin_rooted.
Qed.

(** ** Temporary names *)

Lemma Contains_app_r s t u : Contains (s +:+ t +:+ u) t = true.
Proof.
  induction s as [|a s IH].
  - change ("" +:+ t +:+ u) with (t +:+ u). pose proof (HasPrefix_app t u) as H.
    destruct (t +:+ u); cbn [Contains]; by rewrite H.
  - cbn [String.append Contains]. rewrite IH. apply orb_true_r.
Qed.

Lemma hidden_partial base digits : hidden (partialPrefix base +:+ digits) = true.
Proof.
  unfold hidden, partialPrefix. rewrite !sapp_assoc, HasPrefix_app. cbn [andb].
  rewrite <- (sapp_assoc "." base). apply Contains_app_r.
Qed.

Lemma digits_no_slash n : free_of slash (pretty (n : N)) = true.
Proof.
  pose proof (pretty_digits n) as H. unfold free_of. induction (pretty n) as [|a s IH]; [done|]. cbn [sall] in *.
  apply andb_true_iff in H as [Ha Hs]. rewrite IH by done. rewrite andb_true_r.
  destruct (Ascii.eqb_spec a slash) as [->|]; done.
Qed.

Lemma partialPrefix_plain base digits : free_of slash base = true -> free_of slash digits = true -> plainElem (partialPrefix base +:+ digits).
Proof.
  intros Hb Hd. unfold plainElem, partialPrefix. split_and!; try done.
  - by destruct base.
  - destruct base as [|a [|b base]]; done.
  - unfold free_of in *. rewrite !sall_app, Hb, Hd. done.
Qed.

(** Where a temporary file lies. *)
Lemma at_temp sys D base n : Forall plainElem D -> free_of slash base = true ->
  at_ sys (rooted D +:+ "/" +:+ partialPrefix base +:+ pretty (n : N)) = D ++ [partialPrefix base +:+ pretty n].
Proof.
  intros HD Hb. unfold at_. rewrite IsAbs_app by apply IsAbs_rooted.
  change (pathElems (rooted D +:+ "/" +:+ (partialPrefix base +:+ pretty n)) = D ++ [partialPrefix base +:+ pretty n]).
  rewrite pathElems_app, pathElems_rooted; [done|done|apply IsAbs_rooted|]. apply partialPrefix_plain; [done|apply digits_no_slash].
Qed.

Lemma hides_temp D base digits : hides hidden (D ++ [partialPrefix base +:+ digits]) = true.
Proof. unfold hides. rewrite last_snoc. apply hidden_partial. Qed.

(** ** Put *)

(** The files that are not temporary. *)
Definition artifacts : Tree -> gmap (list string) string := seen hidden.

(** From the copy to the rename: nothing one sees, or the whole stream in place. *)
Lemma install_atomic path l tmp chunks src_end size sys d e d' tmpName :
  saneSys sys -> Forall plainElem l -> hides hidden l = false -> at_ sys tmpName = tmp -> hides hidden tmp = true ->
  install path (rooted l) tmpName chunks src_end size sys d = (e, d') ->
  match e with
  | Some _ => artifacts (d_tree d') = artifacts (d_tree d)
  | None => src_end = None ∧ artifacts (d_tree d') = <[l := concatChunks chunks]> (artifacts (d_tree d))
      ∧ (0 < size -> size = Z.of_nat (String.length (concatChunks chunks)))
  end.
Proof.
  intros Hs Hl Hv Ht Hh. unfold install, mbind, FS_bind.
  destruct (copyInto_spec true tmpName chunks src_end sys d Hs) as (data & err & m & -> & Hok). rewrite Ht.
  assert (K : artifacts (<[tmp := NFile data m]> (d_tree d)) = artifacts (d_tree d)) by by apply seen_insert_hidden.
  destruct err as [err|]; [by intros [= <- <-]|]. destruct (Hok eq_refl) as [-> ->]. clear Hok. cbn [touch mret FS_ret d_calls d_tree].
  destruct (sys_fault sys _); [by intros [= <- <-]|]. destruct (sys_fault sys _); [by intros [= <- <-]|].
  destruct ((size >? 0) && negb (_ =? size)) eqn:Hsize; [by intros [= <- <-]|].
  destruct (sys_fault sys _); [by intros [= <- <-]|].
  destruct (Rename tmpName (rooted l) sys _) as [r d1] eqn:Hr. apply Rename_spec in Hr. cbn [d_tree] in Hr.
  destruct r as [[]|err]; [|intros [= <- <-]; by rewrite Hr]. intros [= <- <-]. cbn [d_tree].
  rewrite Ht, at_rooted in Hr by done. destruct Hr as (data & m' & Hlook & Htree). rewrite lookup_insert_eq in Hlook.
  injection Hlook as <- <-. split_and!; [done| |].
  - unfold artifacts in *. rewrite Htree, seen_insert_file, seen_delete_hidden by done. by rewrite K.
  - intros Hpos. apply andb_false_iff in Hsize as [Hz|Hz]; boolean; lia.
Qed.

Lemma install_tidy path full tmpName chunks src_end size sys d :
  saneSys sys -> tidy (d_tree d) -> at_ sys tmpName ≠ [] -> isDir (d_tree d) (parent (at_ sys tmpName)) = true ->
  isDir (d_tree d) (at_ sys tmpName) = false ->
  tidy (d_tree (install path full tmpName chunks src_end size sys d).2).
Proof.
  intros Hs Ht Hne Hd Hf. unfold install, mbind, FS_bind.
  destruct (copyInto_spec true tmpName chunks src_end sys d Hs) as (data & err & m & -> & _).
  assert (K : tidy (<[at_ sys tmpName := NFile data m]> (d_tree d))) by (apply tidy_insert; auto).
  destruct err as [err|]; [done|]. cbn [touch mret FS_ret d_calls d_tree].
  destruct (sys_fault sys _); [done|]. destruct (sys_fault sys _); [done|]. destruct (_ && _); [done|]. destruct (sys_fault sys _); [done|].
  pose proof (Rename_tidy tmpName full sys (mkDisk (<[at_ sys tmpName := NFile data m]> (d_tree d)) (S (S (S (S (d_calls d)))))) K Hne) as Hr.
  destruct (Rename tmpName full sys _) as [[[]|err] d1]; exact Hr.
Qed.

Section put.
  Context (R : list string) (c : client) (Hc : rootedAt R c).

(** A file appears whole or not at all. *)
Lemma Put_atomic k chunks src_end size sys d e d' :
  saneSys sys -> k ≠ [] -> Forall plainElem k -> hides hidden k = false ->
  Put c (keyPath k) chunks src_end size sys d = (e, d') ->
  (tidy (d_tree d) -> tidy (d_tree d')) ∧
  match e with
  | Some _ => artifacts (d_tree d') = artifacts (d_tree d)
  | None => src_end = None ∧ artifacts (d_tree d') = <[R ++ k := concatChunks chunks]> (artifacts (d_tree d))
      ∧ (0 < size -> size = Z.of_nat (String.length (concatChunks chunks)))
  end.
Proof.
  intros Hs Hne Hk Hv. unfold Put. rewrite (resolve_key R) by done. destruct Hc as [HR _].
  assert (Hl : Forall plainElem (R ++ k)) by by apply Forall_app.
  assert (Hvl : hides hidden (R ++ k) = false).
  { revert Hv. unfold hides. rewrite last_app. by destruct (last k) eqn:E; [|apply last_None in E]. }
  destruct k as [|x k' _] using rev_ind; [done|]. rewrite app_assoc in *.
  apply Forall_app in Hl as Hl'. destruct Hl' as [HD Hx]. inversion Hx as [|? ? Hx' _]; subst.
  rewrite Dir_rooted, Base_rooted by done. unfold mbind at 1, FS_bind.
  pose proof (MkdirAll_seen hidden (rooted (R ++ k')) sys d) as Hm. fold artifacts in Hm.
  destruct (MkdirAll _ sys d) as [[err|] d1] eqn:Em; cbn [snd] in Hm; [intros [= <- <-]; split; [|done]|].
  { intros Ht. pose proof (MkdirAll_tidy (rooted (R ++ k')) sys d Ht) as K. by rewrite Em in K. }
  unfold mbind, FS_bind.
  destruct (CreateTemp_spec (rooted (R ++ k')) (partialPrefix x) sys d1) as (name & Hname & [(err & n & ->)|(m & Hnew & Hpar & ->)]).
  { intros [= <- <-]. split; [|done]. intros Ht. pose proof (MkdirAll_tidy (rooted (R ++ k')) sys d Ht) as K. by rewrite Em in K. }
  assert (Hat : at_ sys name = (R ++ k') ++ [partialPrefix x +:+ pretty (sys_temp sys (d_calls d1))]).
  { rewrite Hname. apply at_temp; [done|]. by apply Hx'. }
  assert (Hhid : hides hidden (at_ sys name) = true) by by rewrite Hat; apply hides_temp.
  destruct (install _ _ _ _ _ _ sys _) as [e1 d2] eqn:Hi.
  pose proof (install_atomic _ _ _ _ _ _ _ _ _ _ _ Hs Hl Hvl eq_refl Hhid Hi) as Hi'. cbn [d_tree] in Hi'. unfold artifacts in Hi'.
  rewrite seen_insert_hidden in Hi' by done. fold artifacts in Hi'. rewrite Hm in Hi'.
  destruct (Remove name sys d2) as [r d3] eqn:Hrm0. apply Remove_spec in Hrm0 as Hrm.
  assert (K : artifacts (d_tree d3) = artifacts (d_tree d2)).
  { destruct r; [|by destruct Hrm as [-> _]]. destruct Hrm as [_ ->]. by apply seen_delete_hidden. }
  intros [= <- <-]. rewrite K. split; [|exact Hi']. intros Ht. clear Hi' Hrm K.
  pose proof (MkdirAll_tidy (rooted (R ++ k')) sys d Ht) as Ht1. rewrite Em in Ht1. cbn in Ht1.
  assert (Htmp : at_ sys name ≠ []) by (rewrite Hat; by destruct (R ++ k')).
  assert (Ht2 : tidy (d_tree d2)).
  { change d2 with (e1, d2).2. rewrite <- Hi. apply install_tidy; cbn [d_tree]; try done.
    - apply tidy_insert; [done..|]. right. by rewrite isDir_absent.
    - apply isDir_insert; [done|]. intros Ep. apply (f_equal length) in Ep. rewrite Hat, parent_snoc, !length_app in Ep. cbn in Ep. lia.
    - eapply isDir_file; [done|]. apply lookup_insert_eq. }
  pose proof (Remove_tidy name sys d2 Ht2) as Ht3. by rewrite Hrm0 in Ht3.
Qed.

(** ** Delete *)

Lemma pruneLoop_files fuel q sys d :
  Forall plainElem q -> noFile (d_tree d) q ->
  artifacts (d_tree (pruneLoop c fuel (rooted q) sys d).2) = artifacts (d_tree d).
Proof.
  revert q d. induction fuel as [|fuel IH]; intros q d Hq Hn; [done|]. cbn [pruneLoop].
  destruct (_ && _) eqn:E; [|done]. unfold mbind, FS_bind. destruct (Remove (rooted q) sys d) as [r d1] eqn:Hr.
  apply Remove_spec in Hr. destruct r as [[]|err]; [|cbn; by destruct Hr as [-> _]]. rewrite at_rooted in Hr by done. destruct Hr as [_ Hr].
  assert (K : artifacts (d_tree d1) = artifacts (d_tree d)).
  { rewrite Hr. pose proof (noFile_removed _ _ Hn) as Hf. destruct (d_tree d !! q) as [[]|] eqn:L; [done|by eapply seen_delete_dir|].
    by rewrite delete_id. }
  destruct q as [|x q _] using rev_ind.
  { change (Dir (rooted [])) with (rooted []). rewrite IH; [exact K|constructor|]. rewrite Hr. by apply noFile_delete. }
  apply Forall_app in Hq as [Hq Hx]. inversion Hx; subst. rewrite Dir_rooted by done. rewrite IH; [exact K|done|].
  rewrite Hr. apply noFile_delete. eapply noFile_prefix; [exact Hn|]. by eexists.
Qed.

Lemma pruneLoop_tidy fuel dir sys d : tidy (d_tree d) -> tidy (d_tree (pruneLoop c fuel dir sys d).2).
Proof.
  revert dir d. induction fuel as [|fuel IH]; intros dir d Ht; [done|]. cbn [pruneLoop]. destruct (_ && _); [|done].
  unfold mbind, FS_bind. pose proof (Remove_tidy dir sys d Ht) as H. destruct (Remove dir sys d) as [[[]|err] d1]; [by apply IH|done].
Qed.

Lemma Delete_spec k sys d e d' :
  saneSys sys -> tidy (d_tree d) -> k ≠ [] -> Forall plainElem k -> Delete c (keyPath k) sys d = (e, d') ->
  tidy (d_tree d') ∧
  artifacts (d_tree d') = match e with None => delete (R ++ k) (artifacts (d_tree d)) | Some _ => artifacts (d_tree d) end.
Proof.
  intros Hs Ht Hne Hk. unfold Delete. rewrite (resolve_key R) by done. destruct Hc as [HR Hroot].
  assert (Hl : Forall plainElem (R ++ k)) by by apply Forall_app.
  unfold mbind at 1, FS_bind. pose proof (Remove_tidy (rooted (R ++ k)) sys d Ht) as Ht1.
  destruct (Remove (rooted (R ++ k)) sys d) as [r d1] eqn:Hr. apply Remove_spec in Hr. rewrite at_rooted in Hr by done. cbn in Ht1.
  destruct r as [[]|err].
  - destruct Hr as [[n Hsome] Hr]. destruct k as [|x k' _] using rev_ind; [done|]. rewrite app_assoc in *.
    apply Forall_app in Hl as [HD Hx]. inversion Hx; subst. rewrite Dir_rooted by done.
    assert (Hn : noFile (d_tree d1) (R ++ k')).
    { rewrite Hr. apply noFile_delete. apply tidy_noFile; [done|]. by eapply (proj1 Ht). }
    assert (K : artifacts (d_tree d1) = delete ((R ++ k') ++ [x]) (artifacts (d_tree d))) by by rewrite Hr; apply seen_delete.
    unfold mbind, FS_bind, prune. destruct (c_prune c); [|by intros [= <- <-]].
    pose proof (pruneLoop_files (S (length (pathElems (rooted (R ++ k'))))) (R ++ k') sys d1 HD Hn) as Hp.
    pose proof (pruneLoop_tidy (S (length (pathElems (rooted (R ++ k'))))) (rooted (R ++ k')) sys d1 Ht1) as Hpt.
    destruct (pruneLoop _ _ _ _ _) as [[] d2]. cbn in Hp, Hpt. intros [= <- <-]. by rewrite Hp.
  - destruct Hr as [Hsame Habs]. destruct (errorsIs err ErrNotExist) eqn:E; intros [= <- <-]; rewrite Hsame in *; split; try done.
    symmetry. apply delete_id. unfold artifacts. rewrite seen_lookup, (Habs eq_refl Hs). by destruct (hides _ _).
Qed.

(** The directories are cleared: more rounds would change nothing. *)
Lemma pruneLoop_enough fuel more q :
  (length q < fuel)%nat -> Forall plainElem q -> (fuel <= more)%nat -> ∀ sys d, pruneLoop c more (rooted q) sys d = pruneLoop c fuel (rooted q) sys d.
Proof.
  revert more q. induction fuel as [|fuel IH]; intros more q Hlen Hq Hmore sys d; [lia|].
  destruct more as [|more]; [lia|]. cbn [pruneLoop]. destruct (_ && _) eqn:E; [|done].
  destruct q as [|x q _] using rev_ind.
  { exfalso. apply andb_true_iff in E as [_ E]. destruct Hc as [HR Hroot]. rewrite Hroot in E. apply HasPrefix_spec in E as [t E].
    apply (f_equal String.length) in E. unfold rooted in E. rewrite !sapp_length in E. cbn in E. lia. }
  apply Forall_app in Hq as [Hq Hx]. inversion Hx; subst. rewrite length_app in Hlen. cbn in Hlen.
  unfold mbind, FS_bind. destruct (Remove _ sys d) as [[[]|err] d1]; [|done]. rewrite Dir_rooted by done.
  apply IH; [lia|done|lia].
Qed.

(** ** Get and Stat *)

Lemma Get_spec k sys d r d' :
  k ≠ [] -> Forall plainElem k -> Get c (keyPath k) sys d = (r, d') ->
  d_tree d' = d_tree d ∧ ∀ rd data m, r = Ok rd -> d_tree d !! (R ++ k) = Some (NFile data m) -> rd = fullReader data.
Proof.
  intros Hne Hk. unfold Get. rewrite (resolve_key R) by done. destruct Hc as [HR Hroot].
  unfold mbind, FS_bind, FileSystem.Open, syscall. destruct (sys_fault sys _); [by intros [= <- <-]|].
  rewrite at_rooted by by apply Forall_app. unfold lookupNode. destruct (R ++ k) eqn:E; [by destruct R, k|].
  destruct (d_tree d !! _) eqn:L; intros [= <- <-]; split; try done. by intros rd data m [= <-] [= ->].
Qed.

Lemma Stat_spec k sys d r d' :
  k ≠ [] -> Forall plainElem k -> Stat c (keyPath k) sys d = (r, d') ->
  d_tree d' = d_tree d ∧ ∀ o data m, r = Ok o -> d_tree d !! (R ++ k) = Some (NFile data m) ->
    o = mkObject (keyPath k) (Z.of_nat (String.length data)) m false.
Proof.
  intros Hne Hk. unfold Stat. rewrite (resolve_key R) by done. destruct Hc as [HR Hroot].
  unfold mbind, FS_bind, stat, syscall. destruct (sys_fault sys _); [by intros [= <- <-]|].
  rewrite at_rooted by by apply Forall_app. rewrite Hroot, Rel_rooted by done. unfold lookupNode. destruct (R ++ k) eqn:E; [by destruct R, k|].
  destruct (d_tree d !! _) eqn:L; intros [= <- <-]; split; try done. by intros rd data m [= <-] [= ->].
Qed.

End put.

(** ** The contract *)

Section contract.
  Context (R : list string) (c : client) (Hc : rootedAt R c).

Definition localObjects (d : Disk) : Objects := λ k, artifacts (d_tree d) !! (R ++ k).

Definition localKey (d : Disk) (k : list string) : Prop :=
  tidy (d_tree d) ∧ k ≠ [] ∧ Forall plainElem k ∧ hides hidden k = false.

Definition localAnswers (q : Request) (d : Disk) (a : Answer) (d' : Disk) : Prop :=
  ∃ sys, saneSys sys ∧
  match q with
  | RPut k chunks src_end size => let '(e, d1) := Put c (keyPath k) chunks src_end size sys d in a = APut e ∧ d' = d1
  | RGet k => let '(r, d1) := Get c (keyPath k) sys d in a = AGet r ∧ d' = d1
  | RDelete k => let '(e, d1) := Delete c (keyPath k) sys d in a = ADelete e ∧ d' = d1
  | RStat k => let '(r, d1) := Stat c (keyPath k) sys d in a = AStat r ∧ d' = d1
  end.

Lemma local_file d k data : localKey d k -> localObjects d k = Some data -> ∃ m, d_tree d !! (R ++ k) = Some (NFile data m).
Proof.
  intros _. unfold localObjects, artifacts. rewrite seen_lookup. destruct (hides _ _); [done|].
  destruct (d_tree d !! _) as [[data' m|m]|]; cbn; [|done..]. intros [= ->]. by exists m.
Qed.

Lemma local_honours q d a d' : localKey d (requestKey q) -> localAnswers q d a d' -> contract (localObjects d) q a (localObjects d').
Proof.
  intros (Ht & Hne & Hk & Hv) (sys & Hs & H). pose proof (conj Ht (conj Hne (conj Hk Hv)) : localKey d (requestKey q)) as HK.
  destruct q as [k chunks src_end size|k|k|k]; cbn in Hne, Hk, Hv, HK.
  - destruct (Put _ _ _ _ _ sys d) as [e d1] eqn:E. destruct H as [-> ->].
    destruct (Put_atomic R c Hc _ _ _ _ _ _ _ _ Hs Hne Hk Hv E) as [_ Hp]. unfold localObjects. destruct e as [err|]; cbn.
    + rewrite Hp. split; [done|by left].
    + destruct Hp as (-> & -> & _). split_and!; [done| |apply lookup_insert_eq].
      intros k' Hk'. apply lookup_insert_ne. intros E2%app_inv_head. done.
  - destruct (Get _ _ sys d) as [r d1] eqn:E. destruct H as [-> ->]. destruct (Get_spec R c Hc _ _ _ _ _ Hne Hk E) as [Htr Hg].
    split; [intros k'; unfold localObjects; by rewrite Htr|]. intros rd data -> Hd. destruct (local_file d k data HK Hd) as [m Hm].
    by rewrite (Hg rd data m eq_refl Hm).
  - destruct (Delete _ _ sys d) as [e d1] eqn:E. destruct H as [-> ->].
    destruct (Delete_spec R c Hc _ _ _ _ _ Hs Ht Hne Hk E) as [_ Hd]. unfold localObjects. destruct e as [err|]; cbn; rewrite Hd.
    + split; [done|by left].
    + split; [|apply lookup_delete_eq]. intros k' Hk'. apply lookup_delete_ne. intros E2%app_inv_head. done.
  - destruct (Stat _ _ sys d) as [r d1] eqn:E. destruct H as [-> ->]. destruct (Stat_spec R c Hc _ _ _ _ _ Hne Hk E) as [Htr Hg].
    split; [intros k'; unfold localObjects; by rewrite Htr|]. intros o data -> Hd. destruct (local_file d k data HK Hd) as [m Hm].
    by rewrite (Hg o data m eq_refl Hm).
Qed.

Lemma local_keepsServing q d a d' k : localKey d (requestKey q) -> localAnswers q d a d' -> localKey d k -> localKey d' k.
Proof.
  intros (Ht & Hne & Hk & Hv) (sys & Hs & H) (_ & Hk'). split; [|done]. destruct q as [k1 chunks src_end size|k1|k1|k1]; cbn in *.
  - destruct (Put _ _ _ _ _ sys d) as [e d1] eqn:E. destruct H as [-> ->]. by eapply Put_atomic in E as [E _]; eauto.
  - destruct (Get _ _ sys d) as [r d1] eqn:E. destruct H as [-> ->]. by destruct (Get_spec R c Hc _ _ _ _ _ Hne Hk E) as [-> _].
  - destruct (Delete _ _ sys d) as [e d1] eqn:E. destruct H as [-> ->]. by destruct (Delete_spec R c Hc _ _ _ _ _ Hs Ht Hne Hk E) as [? _].
  - destruct (Stat _ _ sys d) as [r d1] eqn:E. destruct H as [-> ->]. by destruct (Stat_spec R c Hc _ _ _ _ _ Hne Hk E) as [-> _].
Qed.

#[export] Instance localDestination : DestClient Disk :=
  {| answers := localAnswers; objects := localObjects; servedKey := localKey;
     honours := local_honours; keepsServing := local_keepsServing |}.

End contract.

(** C16: the local destination refines the contract of a destination: whatever
    requests are made of it, and whatever calls of the system fail in between,
    its answers and the artifacts under its root are those of a run of the
    object store.  A file is there whole or not at all. *)
Theorem local_refines R c (Hc : rootedAt R c) d l d' :
  history (Dn := localDestination R c Hc) d l d' -> runs (localObjects R d) l (localObjects R d').
Proof. apply (history_runs (Dn := localDestination R c Hc)). Qed.

(** ** A disk *)

Lemma tidy_check (t : Tree) :
  map_Forall (λ p n, match p with [] => isDirNode n | _ => isDir t (parent p) end = true) t -> tidy t.
Proof.
  intros H. split.
  - intros p e n Hn. pose proof (H _ _ Hn) as Hp. cbn in Hp. rewrite parent_snoc in Hp. by destruct p.
  - intros data m Hn. by pose proof (H _ _ Hn).
Qed.

Definition sampleTree : Tree :=
  {[ ["srv"] := NDir zeroTime; ["srv"; "backups"] := NDir zeroTime; ["srv"; "backups"; "db"] := NDir zeroTime;
     ["srv"; "backups"; "db"; "a.tar.gz"] := NFile "old" zeroTime ]}.

(** A system where the call [bad] fails. *)
Definition sampleSys (bad : option nat) : Sys :=
  mkSys (λ n, if decide (Some n = bad) then Some (newError "no space left on device") else None)
    (λ _ _ p, (String.length p, None)) (λ n, N.of_nat n) (λ _, zeroTime) [] (λ _ _, None).

Lemma sampleSys_sane bad : saneSys (sampleSys bad).
Proof.
  split; [intros n; split; [done|intros data p; cbn; lia]|]. intros n err. cbn. case_decide; [|done]. by intros [= <-].
Qed.

(** An artifact is replaced, the next upload fails for want of space, and the
    first one is read. *)
Definition sampleClient : client := mkClient "/srv/backups" 488 416 true.
Definition disk0 : Disk := mkDisk sampleTree 0.
Definition disk1 : Disk := (Put sampleClient "db/a.tar.gz" ["new "; "data"] None 8 (sampleSys None) disk0).2.
Definition full : Sys := sampleSys (Some (d_calls disk1 + 5)%nat).
Definition disk2 : Disk := (Put sampleClient "db/b.tar.gz" ["more"] None 4 full disk1).2.
Definition disk3 : Disk := (Get sampleClient "db/a.tar.gz" (sampleSys None) disk2).2.
Definition noSpace : error := default (newError "") (Put sampleClient "db/b.tar.gz" ["more"] None 4 full disk1).1.

Lemma sampleClient_rooted : rootedAt ["srv"; "backups"] sampleClient.
Proof. split; [decided|reflexivity]. Qed.

Definition sampleHistory : list (Request * Answer) :=
  [(RPut ["db"; "a.tar.gz"] ["new "; "data"] None 8, APut None);
   (RPut ["db"; "b.tar.gz"] ["more"] None 4, APut (Some noSpace));
   (RGet ["db"; "a.tar.gz"], AGet (Ok (fullReader "new data")))].

Lemma sampleHistory_happens : history (Dn := localDestination _ _ sampleClient_rooted) disk0 sampleHistory disk3.
Proof.
  apply (history_cons _ _ _ disk1); [|exists (sampleSys None)|apply (history_cons _ _ _ disk2); [|exists full|apply (history_cons _ _ _ disk3); [|exists (sampleSys None)|constructor]]].
  all: try by split; [apply tidy_check|]; decided.
  all: split; [apply sampleSys_sane|].
  - rewrite (surjective_pairing (Put _ _ _ _ _ _ _)). split; [|done]. by vm_compute.
  - rewrite (surjective_pairing (Put _ _ _ _ _ _ _)). split; [|done]. by vm_compute.
  - rewrite (surjective_pairing (Get _ _ _ _)). split; [|done]. by vm_compute.
Qed.

Lemma local_refines_witness : runs (localObjects ["srv"; "backups"] disk0) sampleHistory (localObjects ["srv"; "backups"] disk3).
Proof. apply (local_refines _ _ sampleClient_rooted). exact sampleHistory_happens. Defined.

(** What is read is what was put. *)
Lemma put_read_back_witness :
  rd_data (fullReader "new data") = concatChunks ["new "; "data"] ∧ rd_err (fullReader "new data") = None.
Proof.
  refine (proj1 (put_read_back (Dn := localDestination _ _ sampleClient_rooted) disk0 [] ["db"; "a.tar.gz"] ["new "; "data"] None 8
    [(RPut ["db"; "b.tar.gz"] ["more"] None 4, APut (Some noSpace))] (RGet ["db"; "a.tar.gz"]) _ disk3 sampleHistory_happens _) _ eq_refl eq_refl).
  repeat constructor. cbn. intros [=].
Defined.

(** * Listing the local destination

    With nothing failing, [List] names exactly what lies under the directory, but
    the temporary files, in the order of the paths. *)

(** ** The paths of a walk *)

Lemma childName_Some p q e : childName p q = Some e <-> q = p ++ [e].
Proof.
  destruct q as [|x q' _] using rev_ind; [split; [done|by destruct p]|].
  assert (E : childName p (q' ++ [x]) = if bool_decide (q' = p) then Some x else None).
  { unfold childName. rewrite parent_snoc, last_snoc. by destruct (q' ++ [x]) eqn:L; [destruct q'|]. }
  rewrite E. case_bool_decide as H.
  - subst. split; [by intros [= ->]|]. by intros [_ [= ->]]%app_inj_tail.
  - split; [done|]. by intros [? _]%app_inj_tail.
Qed.

Lemma children_elem t p e : e ∈ children t p <-> is_Some (t !! (p ++ [e])).
Proof.
  unfold children. rewrite SliceStable_perm, list_elem_of_omap. split.
  - intros ([q n] & Hq & Hc%childName_Some). apply elem_of_map_to_list in Hq. cbn in Hc. subst. by eexists.
  - intros [n Hn]. exists (p ++ [e], n). split; [by apply elem_of_map_to_list|by apply childName_Some].
Qed.

Lemma children_NoDup t p : NoDup (children t p).
Proof.
  unfold children. rewrite SliceStable_perm. apply (NoDup_fmap_1 (λ e, p ++ [e])).
  assert (E : (λ e, p ++ [e]) <$> omap (λ kv, childName p kv.1) (map_to_list t)
              = filter (λ q, is_Some (childName p q)) (map_to_list t).*1).
  { induction (map_to_list t) as [|[q n] l IH]; [done|]. cbn [omap list_omap fmap list_fmap fst].
    destruct (childName p q) as [e|] eqn:C.
    - rewrite filter_cons_True by (rewrite C; by eexists). apply childName_Some in C. subst. cbn. f_equal. exact IH.
    - rewrite filter_cons_False by (rewrite C; by intros []). exact IH. }
  rewrite E. apply NoDup_filter, NoDup_fst_map_to_list.
Qed.

(** Preorder, as deep as the fuel. *)
Fixpoint walkPaths (t : Tree) (fuel : nat) (p : list string) : list (list string) :=
  match fuel with
  | O => []
  | S fuel => p :: (if isDir t p then flat_map (λ e, walkPaths t fuel (p ++ [e])) (children t p) else [])
  end.

Lemma walkPaths_elem t fuel p q :
  tidy t -> q ∈ walkPaths t fuel p <->
  (length q < length p + fuel)%nat ∧ p `prefix_of` q ∧ (q = p ∨ is_Some (t !! q)).
Proof.
  intros Ht. revert p q. induction fuel as [|fuel IH]; intros p q; cbn [walkPaths].
  { split; [by intros ?%elem_of_nil|]. intros (H & Hp & _). apply prefix_length in Hp. lia. }
  rewrite elem_of_cons. split.
  - intros [->|H]; [split_and!; [lia|done|by left]|]. destruct (isDir t p) eqn:Hd; [|by apply elem_of_nil in H].
    apply list_elem_of_In, in_flat_map in H as (e & He%list_elem_of_In & Hq%list_elem_of_In). apply IH in Hq as (Hl & Hp & Hs).
    rewrite length_app in Hl. cbn in Hl. split_and!; [lia|etrans; [|exact Hp]; by eexists|right]. destruct Hs as [->|?]; [|done]. by apply children_elem.
  - intros (Hl & [r ->] & Hs). destruct r as [|e r]; [left; by rewrite app_nil_r|right].
    assert (Hin : is_Some (t !! (p ++ e :: r))) by (destruct Hs as [Hs|]; [|done]; rewrite <- (app_nil_r p) in Hs at 2; by apply app_inv_head in Hs).
    assert (Hchain : ∀ r, is_Some (t !! (p ++ e :: r)) -> is_Some (t !! (p ++ [e]))).
    { clear r Hl Hs Hin. intros r. induction r as [|x r IHr] using rev_ind; [done|]. intros [n Hn].
      apply IHr. rewrite app_comm_cons, app_assoc in Hn. apply (proj1 Ht) in Hn. unfold isDir in Hn.
      destruct (p ++ e :: r) eqn:L; [by destruct p|]. destruct (t !! _); [by eexists|done]. }
    pose proof (Hchain r Hin) as Hc. destruct Hc as [n Hn]. rewrite (proj1 Ht _ _ _ Hn).
    apply list_elem_of_In, in_flat_map. exists e. split; [by apply list_elem_of_In, children_elem; eexists|].
    apply list_elem_of_In, IH. rewrite !length_app in *. cbn in *. split_and!; [lia|exists r; by rewrite <- app_assoc|by right].
Qed.

Lemma walkPaths_NoDup t fuel p : tidy t -> NoDup (walkPaths t fuel p).
Proof.
  intros Ht. revert p. induction fuel as [|fuel IH]; intros p; cbn [walkPaths]; [constructor|].
  constructor.
  - destruct (isDir t p); [|by intros ?%elem_of_nil]. intros H. apply list_elem_of_In, in_flat_map in H as (e & _ & Hq%list_elem_of_In).
    apply walkPaths_elem in Hq as (_ & Hp & _); [|done]. apply prefix_length in Hp. rewrite length_app in Hp. cbn in Hp. lia.
  - destruct (isDir t p); [|constructor]. pose proof (children_NoDup t p) as Hn. induction Hn as [|e l He Hn IHl]; [constructor|].
    cbn [flat_map]. apply NoDup_app. split_and!; [apply IH| |exact IHl].
    intros q Hq H. apply walkPaths_elem in Hq as (_ & Hp & _); [|done].
    apply list_elem_of_In, in_flat_map in H as (e' & He'%list_elem_of_In & Hq'%list_elem_of_In).
    apply walkPaths_elem in Hq' as (_ & Hp' & _); [|done]. destruct Hp as [r ->], Hp' as [r' E].
    rewrite <- !app_assoc in E. apply app_inv_head in E. injection E as -> _. done.
Qed.

(** ** The walk *)

Section list.
  Context (R : list string) (c : client) (Hc : rootedAt R c).
  Context (sys : Sys) (Hfault : ∀ n, sys_fault sys n = None) (Hctx : ∀ n, sys_ctx sys n 0%nat = None).
  Context (t : Tree) (Ht : tidy t) (Hplain : ∀ p n, t !! p = Some n -> Forall plainElem p).

(** The path of an object, relative to the root. *)
Definition below (p : list string) : string := keyPath (drop (length R) p).

Definition objectAt (p : list string) : option Object :=
  if hides hidden p then None
  else match t !! p with
       | Some (NFile data m) => Some (mkObject (below p) (Z.of_nat (String.length data)) m false)
       | Some (NDir m) => Some (mkObject (below p) 0 m true)
       | None => None
       end.

(** What the walk says of a path. *)
Definition emitted (start p : list string) : option Object := if bool_decide (p = start) then None else objectAt p.

Lemma listEntry_start k acc d : Forall plainElem (R ++ k) ->
  listEntry c (rooted (R ++ k)) acc (rooted (R ++ k)) (isDir t (R ++ k)) None sys d = ((acc, None), d).
Proof. intros Hk. unfold listEntry. by rewrite Hctx, String.eqb_refl. Qed.

Lemma listEntry_node k rel x acc d :
  d_tree d = t -> Forall plainElem (R ++ k) -> R ++ rel ++ [x] ≠ R ++ k -> is_Some (t !! (R ++ rel ++ [x])) ->
  ∃ d', d_tree d' = t ∧
  listEntry c (rooted (R ++ k)) acc (rooted (R ++ rel ++ [x])) (isDir t (R ++ rel ++ [x])) None sys d
  = ((acc ++ option_list (objectAt (R ++ rel ++ [x])), None), d').
Proof.
  intros Hd Hk Hne [n Hn]. unfold listEntry. rewrite Hctx. pose proof (Hplain _ _ Hn) as Hp.
  destruct (String.eqb_spec (rooted (R ++ rel ++ [x])) (rooted (R ++ k))) as [E|_]; [by apply rooted_inj in E|].
  destruct Hc as [HR Hroot]. apply Forall_app in Hp as Hp'. destruct Hp' as [_ Hr].
  apply Forall_app in Hr as Hr'. destruct Hr' as [_ Hx]. pose proof (Forall_inv Hx) as Hx'.
  assert (EB : Base (rooted (R ++ rel ++ [x])) = x) by by rewrite app_assoc; apply Base_rooted.
  assert (EH : hides hidden (R ++ rel ++ [x]) = hidden x) by by unfold hides; rewrite app_assoc, last_snoc.
  assert (HL : lookupNode t (R ++ rel ++ [x]) = Ok n).
  { clear - Hn. unfold lookupNode. destruct (R ++ rel ++ [x]) eqn:L; [by destruct R, rel|]. by rewrite Hn. }
  assert (HD : isDir t (R ++ rel ++ [x]) = isDirNode n).
  { clear - Hn. unfold isDir. destruct (R ++ rel ++ [x]) eqn:L; [by destruct R, rel|]. by rewrite Hn. }
  rewrite Hroot, Rel_rooted by (done || by destruct rel). unfold objectAt. rewrite EB, EH, HD, Hn.
  destruct (hidden x); [exists d; by rewrite app_nil_r|].
  unfold mbind, FS_bind, stat, syscall. rewrite Hfault, at_rooted, Hd, HL by done.
  exists (mkDisk t (S (d_calls d))). split; [done|]. unfold below. rewrite drop_app_length. by destruct n.
Qed.

Lemma walk_ok k fuel rel acc d :
  d_tree d = t -> Forall plainElem (R ++ k) -> Forall plainElem (R ++ rel) -> k `prefix_of` rel ->
  (rel = k ∨ is_Some (t !! (R ++ rel))) ->
  ∃ d', d_tree d' = t ∧
  walkDir (listEntry c (rooted (R ++ k))) fuel acc (rooted (R ++ rel)) (isDir t (R ++ rel)) sys d
  = ((acc ++ omap (emitted (R ++ k)) (walkPaths t fuel (R ++ rel)), None), d').
Proof.
  intros Hd Hk. revert rel acc d Hd. induction fuel as [|fuel IH]; intros rel acc d Hd Hrel Hpre Hs.
  { exists d. by rewrite app_nil_r. }
  cbn [walkDir walkPaths omap list_omap]. unfold mbind at 1, FS_bind.
  assert (H1 : ∃ d1, d_tree d1 = t ∧ listEntry c (rooted (R ++ k)) acc (rooted (R ++ rel)) (isDir t (R ++ rel)) None sys d
    = ((acc ++ option_list (emitted (R ++ k) (R ++ rel)), None), d1)).
  { unfold emitted. destruct (decide (rel = k)) as [->|Hne].
    - exists d. rewrite bool_decide_eq_true_2 by done. rewrite listEntry_start by done. by rewrite app_nil_r.
    - destruct Hs as [|Hs]; [done|]. rewrite bool_decide_eq_false_2 by by intros ?%app_inv_head.
      destruct rel as [|x rel' _] using rev_ind; [by apply prefix_nil_inv in Hpre|].
      apply listEntry_node; try done. by intros ?%app_inv_head. }
  destruct H1 as (d1 & Hd1 & ->). destruct (isDir t (R ++ rel)) eqn:Edir; cbn [negb].
  2: { exists d1. split; [done|]. destruct (emitted _ _); done. }
  unfold mbind, FS_bind, ReadDir, syscall. rewrite Hfault, at_rooted by done. cbn [d_tree d_calls]. rewrite Hd1, Edir.
  assert (Hwalk : ∀ l acc d, d_tree d = t -> (∀ e, e ∈ l -> is_Some (t !! ((R ++ rel) ++ [e]))) ->
    ∃ d', d_tree d' = t ∧
    walkEntries (walkDir (listEntry c (rooted (R ++ k))) fuel) (rooted (R ++ rel))
      ((λ e, mkDirEntry e (isDir t ((R ++ rel) ++ [e]))) <$> l) acc sys d
    = ((acc ++ omap (emitted (R ++ k)) (flat_map (λ e, walkPaths t fuel ((R ++ rel) ++ [e])) l), None), d')).
  { clear d d1 Hd Hd1. intros l. induction l as [|e l IHl]; intros acc' d Hd Hl.
    { exists d. by rewrite app_nil_r. }
    cbn [fmap list_fmap walkEntries flat_map de_Name de_IsDir]. destruct (Hl e) as [n Hn]; [by left|].
    pose proof (Hplain _ _ Hn) as Hp. pose proof Hp as Hp'. apply Forall_app in Hp' as [_ Hx].
    assert (EJ : PathJoin [rooted (R ++ rel); e] = rooted ((R ++ rel) ++ [e])) by by apply (PathJoin_rooted (R ++ rel) [e]).
    assert (EA : (R ++ rel) ++ [e] = R ++ rel ++ [e]) by by rewrite app_assoc.
    rewrite EJ. unfold mbind, FS_bind. rewrite EA in Hn, Hp |- *.
    destruct (IH (rel ++ [e]) acc' d Hd Hp) as (d2 & Hd2 & ->); [by apply prefix_app_r|right; by eexists|].
    destruct (IHl (acc' ++ omap (emitted (R ++ k)) (walkPaths t fuel (R ++ rel ++ [e]))) d2 Hd2) as (d3 & Hd3 & ->).
    { intros e' He'. apply Hl. by right. }
    exists d3. split; [done|]. rewrite omap_app. by rewrite <- app_assoc. }
  destruct (Hwalk (children t (R ++ rel)) (acc ++ option_list (emitted (R ++ k) (R ++ rel))) (mkDisk t (S (d_calls d1))) eq_refl) as (d' & Hd' & ->).
  { intros e He. by apply children_elem. }
  exists d'. split; [done|]. f_equal. f_equal. destruct (emitted (R ++ k) (R ++ rel)); cbn [option_list option_rect]; by rewrite <- app_assoc.
Qed.

(** [walkPaths] from a directory: it and everything in the tree under it. *)
Lemma depth_bound p n : t !! p = Some n -> (length p <= depth t)%nat.
Proof.
  intros H. unfold depth. apply max_list_elem_of_le. apply list_elem_of_fmap. exists p. split; [done|].
  apply list_elem_of_fmap. exists (p, n). split; [done|by apply elem_of_map_to_list].
Qed.

(** What should be listed. *)
Definition listing (p : list string) : list Object :=
  omap objectAt (filter (λ q, p `prefix_of` q ∧ q ≠ p) (map_to_list t).*1).

(** when no call fails, what [List] returns of a directory is exactly the files
    and directories under it in the tree, the partial files apart, each once, in
    the order of their paths. *)
Theorem List_listing k d :
  d_tree d = t -> R ++ k ≠ [] -> Forall plainElem k -> isDir t (R ++ k) = true ->
  ∃ l d', List c (keyPath k) sys d = (Ok l, d') ∧ d_tree d' = t ∧ l ≡ₚ listing (R ++ k)
    ∧ StronglySorted (λ x y, String.ltb (obj_Path y) (obj_Path x) = false) l.
Proof.
  intros Hd Hne Hk Hdir. destruct Hc as [HR Hroot]. assert (Hp : Forall plainElem (R ++ k)) by by apply Forall_app.
  assert (HL : ∃ n, lookupNode t (R ++ k) = Ok n ∧ isDirNode n = true).
  { unfold isDir in Hdir. unfold lookupNode. destruct (R ++ k) eqn:L; [done|]. destruct (t !! _) as [[]|]; try done. by eexists. }
  assert (ER : resolve c (keyPath k) = Ok (rooted (R ++ k))).
  { destruct k as [|e k]; [|by apply (resolve_key R)]. unfold resolve. cbn. by rewrite app_nil_r, Hroot. }
  destruct HL as (n & HL & Hn). unfold List. rewrite ER. unfold mbind, FS_bind at 1.
  unfold stat at 1, syscall. rewrite Hfault, at_rooted, Hd, HL by done. assert (Hi : fi_IsDir (nodeInfo n) = true) by by destruct n.
  rewrite Hi. cbn [negb]. unfold FS_bind, WalkDir. cbn [d_tree].
  destruct (walk_ok k (S (S (depth t))) k [] (mkDisk t (S (d_calls d))) eq_refl Hp Hp) as (d' & Hd' & E); [done|by left|].
  rewrite Hdir in E. rewrite E. eexists _, d'. split; [done|]. split; [done|]. split; [|apply SliceStable_text].
  cbn [app]. unfold sortObjects. rewrite SliceStable_perm. unfold listing.
  assert (E2 : ∀ l : list (list string), omap (emitted (R ++ k)) l = omap objectAt (filter (λ q, q ≠ R ++ k) l)).
  { induction l as [|q l IHl]; [done|]. cbn [omap list_omap]. unfold emitted at 1. case_bool_decide as Eq.
    - rewrite filter_cons_False by by intros []. exact IHl.
    - rewrite filter_cons_True by done. cbn [omap list_omap]. destruct (objectAt q); [f_equal|]; exact IHl. }
  rewrite E2. apply omap_Permutation. apply NoDup_Permutation.
  - apply NoDup_filter, walkPaths_NoDup, Ht.
  - apply NoDup_filter, NoDup_fst_map_to_list.
  - intros q. rewrite !list_elem_of_filter, walkPaths_elem by done. split.
    + intros (Hq & _ & Hpre & [->|[n' Hn']]); [done|]. split; [done|]. apply list_elem_of_fmap. exists (q, n'). split; [done|by apply elem_of_map_to_list].
    + intros ([Hpre Hq] & ([q' n'] & -> & Hin)%list_elem_of_fmap). cbn in *. apply elem_of_map_to_list in Hin.
      pose proof (depth_bound _ _ Hin). split_and!; [done|lia|done|right; by eexists].
Qed.

End list.

Lemma List_listing_witness :
  let t := <[ ["srv"; "backups"; "db"; ".a.tar.partial-7"] := NFile "ol" zeroTime ]> sampleTree in
  ∃ l d', List sampleClient "db" (sampleSys None) (mkDisk t 0) = (Ok l, d') ∧ d_tree d' = t ∧ l ≡ₚ listing ["srv"; "backups"] t ["srv"; "backups"; "db"]
    ∧ StronglySorted (λ x y, String.ltb (obj_Path y) (obj_Path x) = false) l.
Proof.
  intros t. apply (List_listing ["srv"; "backups"] sampleClient sampleClient_rooted (sampleSys None) (λ _, eq_refl) (λ _, eq_refl) t) with (k := ["db"]);
    try done; try apply tidy_check; try decided.
Defined.
