(* ===== verification/Remote.v ===== *)
(** * Remote hosts: [internal/remote/remote.go], [TestHost] of
    [internal/engine/hosts.go]

    The validation of a host, its key pair, the redaction of secrets in what is
    shown, commands and streams over a connection.  Parsing and making keys is
    the business of golang.org/x/crypto/ssh (class [SSH]); connections and what
    a command prints are asked of the environment. *)
From S2P Require Import Prelude GoStrings GoTime Core CoreSetters Config Db Shell.
Open Scope Z_scope.

Definition DefaultPort : Z := 22.
Definition DefaultConnectTimeout : Z := 15 * Second.
Definition tailLines : nat := 20.

Definition KnownTools : list string :=
  ["tar"; "docker"; "podman"; "pg_dump"; "pg_dumpall"; "pg_restore"; "psql";
   "mysqldump"; "mariadb-dump"; "mysql"; "mariadb"; "mongodump"; "mongorestore";
   "redis-cli"; "sqlite3"; "zstd"; "gzip"; "sudo"].

(** [ParsePrivateKey] and [ParsePrivateKeyWithPassphrase]: the line of the public
    key ([MarshalAuthorizedKey]), a passphrase that is missing, or an error. *)
Inductive ParsedKey := KeyOk (authorized : string) | KeyNeedsPassphrase | KeyInvalid (err : error).

Class SSH := {
  ParsePrivateKey : string -> ParsedKey;
  ParsePrivateKeyWithPassphrase : string -> string -> ParsedKey
}.

(** ** Redaction *)

Definition ScrubText (h : Host) (text : string) : string :=
  maskAll [host_Password h; host_KeyPassphrase h; host_PrivateKey h] text.

Definition Scrub (h : Host) (err : option error) : option error :=
  match err with
  | None => None
  | Some e =>
      let msg := ScrubText h (err_msg e) in
      if String.eqb msg (err_msg e) then Some e else Some (newError msg)
  end.

Section remote.
  Context {S : SSH}.

(** ** Keys *)

Definition parseSigner (h : Host) : result string :=
  let pem := TrimSpace (host_PrivateKey h) in
  if bool_decide (pem = "") then Fail (newError "private key is empty")
  else
    match (if bool_decide (host_KeyPassphrase h ≠ "") then ParsePrivateKeyWithPassphrase pem (host_KeyPassphrase h)
           else ParsePrivateKey pem) with
    | KeyOk line => Ok line
    | KeyNeedsPassphrase => Fail (newError "the private key is encrypted, set the key passphrase")
    | KeyInvalid err => Fail (wrapError "parse private key" err)
    end.

Definition PublicKeyOf (h : Host) : result string :=
  let? line := parseSigner h else err => Fail err in Ok (TrimSpace line).

(** The problems of a host, in the order they are found. *)
Definition problems (h : Host) : list string :=
  (if Blank (host_Address h) then ["address is required"] else [])
  ++ (if (host_Port h <? 0) || (host_Port h >? 65535) then ["port must be between 1 and 65535"] else [])
  ++ (if Blank (host_User h) then ["user is required"] else [])
  ++ (if String.eqb (host_Auth h) HostAuthKey || String.eqb (host_Auth h) "" then
        if Blank (host_PrivateKey h) then ["a private key is required for key authentication"]
        else match parseSigner h with Fail err => [err_msg err] | Ok _ => [] end
      else if String.eqb (host_Auth h) HostAuthPassword then
        if bool_decide (host_Password h = "") then ["a password is required for password authentication"] else []
      else ["auth must be key or password"])
  ++ (let hk := TrimSpace (host_HostKey h) in
      if bool_decide (hk ≠ "") && negb (HasPrefix hk "SHA256:")
      then ["host key fingerprint must look like SHA256:abc..."] else []).

Definition Validate (h : Host) : option error :=
  match problems h with
  | [] => None
  | l => Some (newError (StrJoin l "; "))
  end.

(** The comment of a new key goes at the end of its public line; what the library
    makes is the environment's answer. *)
Definition GenerateKey (comment : string) : M (result (string * string)) :=
  r ← ask env_keygen;
  mret (match r with
        | Fail err => Fail (wrapError "generate key" err)
        | Ok (pem, line) =>
            let line := TrimSpace line in
            Ok (pem, if bool_decide (comment ≠ "") then line +:+ " " +:+ comment else line)
        end).

(** ** Host keys *)

(** The decision of the host key callback on the fingerprint a host shows. *)
Definition hostKeyCallback (h : Host) : result (string -> string -> option error) :=
  let expected := TrimSpace (host_HostKey h) in
  if bool_decide (expected = "") then Ok (λ _ _, None)
  else if negb (HasPrefix expected "SHA256:") then Fail (newError "host key fingerprint must look like SHA256:abc...")
  else Ok (λ hostname got,
             if String.eqb got expected then None
             else Some (newError ("host key mismatch for " +:+ hostname +:+ ": expected " +:+ expected +:+ ", got " +:+ got))).

(** The credentials offered: the password, or the key. *)
Definition authMethods (h : Host) : result string :=
  if String.eqb (host_Auth h) HostAuthPassword then
    if bool_decide (host_Password h = "") then Fail (newError "password authentication selected but no password is set")
    else Ok (host_Password h)
  else parseSigner h.

(** [net.JoinHostPort]. *)
Definition JoinHostPort (host port : string) : string :=
  if ContainsByte host ":" then "[" +:+ host +:+ "]:" +:+ port else host +:+ ":" +:+ port.

Definition dialAddress (h : Host) : string :=
  JoinHostPort (TrimSpace (host_Address h)) (Itoa (if host_Port h <=? 0 then DefaultPort else host_Port h)).

Definition Dial (h : Host) : M (result Host) :=
  match authMethods h with
  | Fail err => mret (Fail err)
  | Ok _ =>
      match hostKeyCallback h with
      | Fail err => mret (Fail err)
      | Ok _ =>
          e ← ask env_dial;   (* DialContext *)
          match e with
          | Some err => mret (Fail (wrapError ("ssh connect to " +:+ dialAddress h) err))
          | None =>
              c ← ctxErr;
              match c with
              | Some err => mret (Fail err)
              | None =>
                  e ← ask env_dial;   (* NewClientConn *)
                  mret (match Scrub h e with
                        | None => Ok h
                        | Some err => Fail (wrapError ("ssh connect to " +:+ dialAddress h) err)
                        end)
              end
          end
      end
  end.

(** ** Commands *)

Definition Wrap (h : Host) (cmd : string) : string :=
  if host_Sudo h then "sudo -n -- sh -c " +:+ ShellQuote cmd else cmd.

Record Output := mkOutput { out_Stdout : string; out_Stderr : string; out_ExitCode : Z }.

Definition noOutput : Output := mkOutput "" "" 0.

(** [c.scrub] of a client with further values to redact. *)
Definition clientScrub (h : Host) (redact : list string) (text : string) : string := maskAll redact (ScrubText h text).

(** What [c.Exec] returns of a session. *)
Definition execOutput (h : Host) (redact : list string) (s : SessionRun) : Output * option error :=
  match sess_End s with
  | SessCut err => (mkOutput (sess_Stdout s) (sess_Stderr s) 0, Some err)
  | SessExit code => (mkOutput (sess_Stdout s) (clientScrub h redact (sess_Stderr s)) code, None)
  | SessBroken msg =>
      (mkOutput (sess_Stdout s) (clientScrub h redact (sess_Stderr s)) 0, Some (newError (clientScrub h redact msg)))
  end.

(** [c.Exec] on the client of [h]. *)
Definition Exec (h : Host) (cmd : string) : M (Output * option error) :=
  record (CallExec (host_ID h) (Wrap h cmd));;
  s ← ask env_exec;
  mret (execOutput h [] s).

Record ProbeResult := mkProbe { probe_OS : string; probe_Tools : list string }.

(** The command that looks for the known programs. *)
Definition toolsCommand : string :=
  foldr (λ tool rest, "command -v " +:+ tool +:+ " >/dev/null 2>&1 && echo " +:+ tool +:+ "; " +:+ rest) "true" KnownTools.

Definition newline : ascii := byte_of 10.

Definition nonBlankLines (text : string) : list string :=
  List.filter (λ t, negb (bool_decide (t = ""))) (TrimSpace <$> Split text newline).

Definition Probe (h : Host) : M (result ProbeResult) :=
  r ← Exec h "uname -srm 2>/dev/null || ver";
  let '(out, err) := r in
  match err with
  | Some err => mret (Fail err)
  | None =>
      if negb (out_ExitCode out =? 0)
      then mret (Fail (newError ("remote shell check exited with code " +:+ Itoa (out_ExitCode out) +:+ ": " +:+
                                 TrimSpace (out_Stderr out))))
      else
        let os := TrimSpace (out_Stdout out) in
        r ← Exec h toolsCommand;
        let '(out, err) := r in
        mret (match err with
              | Some err => Fail err
              | None => Ok (mkProbe os (nonBlankLines (out_Stdout out)))
              end)
  end.

(** ** The test of a host *)

Record HostTestResult := mkHostTest {
  ht_OK : bool; ht_Message : string; ht_OS : string; ht_Tools : list string; ht_DurationMS : Z
}.

Definition TestHost (host : Host) : M HostTestResult :=
  started ← now;
  match Validate host with
  | Some err => t ← now; mret (mkHostTest false (err_msg err) "" [] (Milliseconds (Sub t started)))
  | None =>
      c ← Dial host;
      match c with
      | Fail err => t ← now; mret (mkHostTest false (ScrubText host (err_msg err)) "" [] (Milliseconds (Sub t started)))
      | Ok client =>
          p ← Probe client;
          t ← now;
          mret (match p with
                | Fail err => mkHostTest false (ScrubText host (err_msg err)) "" [] (Milliseconds (Sub t started))
                | Ok p => mkHostTest true "connection successful" (probe_OS p) (probe_Tools p) (Milliseconds (Sub t started))
                end)
      end
  end.
End remote.

(** ** Streams

    A command whose output is read as it comes.  Its standard error is gathered
    line by line; [Close] reports how it ended, once. *)
Record RemoteStream := mkRemoteStream {
  st_host : Host;
  st_redact : list string;
  st_tail : list string;
  st_eof : bool;
  st_closed : option (option error)
}.

Definition addTail (line : string) (tail : list string) : list string :=
  let tail := tail ++ [line] in
  if (tailLines <? length tail)%nat then drop (length tail - tailLines) tail else tail.

Definition Tail (s : RemoteStream) : string := StrJoin (st_tail s) " | ".

Definition carriageReturn : ascii := byte_of 13.

(** [strings.TrimRight(s, string(c))]. *)
Fixpoint TrimRightByte (c : ascii) (s : string) : string :=
  match s with
  | "" => ""
  | String a s' =>
      let t := TrimRightByte c s' in
      if Ascii.eqb a c && bool_decide (t = "") then "" else String a t
  end.

(** A line of standard error. *)
Definition stderrLine (line : string) (s : RemoteStream) : RemoteStream :=
  let line := TrimRightByte carriageReturn line in
  if Blank line then s
  else mkRemoteStream (st_host s) (st_redact s) (addTail (clientScrub (st_host s) (st_redact s) line) (st_tail s)) (st_eof s) (st_closed s).

Definition looksLikeError (line : string) : bool :=
  existsb (Contains (ToLower line)) ["error"; "fatal"; "denied"; "failed"; "cannot"; "no such"; "not found"; "refused"].

(** A read that met the end of the output. *)
Definition readEOF (s : RemoteStream) : RemoteStream :=
  mkRemoteStream (st_host s) (st_redact s) (st_tail s) true (st_closed s).

(** What [Close] says of a command that ended as [wait] tells. *)
Definition closeError (wait : SessionEnd) (s : RemoteStream) : option error :=
  if negb (st_eof s) then Some (newError "remote command was stopped before it finished")
  else
    let detail := Tail s in
    match wait with
    | SessExit code =>
        if code =? 0 then None
        else if bool_decide (detail ≠ "")
        then Some (newError ("remote command exited with code " +:+ Itoa code +:+ ": " +:+ detail))
        else Some (newError ("remote command exited with code " +:+ Itoa code))
    | SessBroken msg | SessCut (mkError msg _) =>
        if bool_decide (detail ≠ "")
        then Some (newError ("remote command failed: " +:+ clientScrub (st_host s) (st_redact s) msg +:+ ": " +:+ detail))
        else Some (newError ("remote command failed: " +:+ clientScrub (st_host s) (st_redact s) msg))
    end.

Definition stream_Close (wait : SessionEnd) (s : RemoteStream) : option error * RemoteStream :=
  match st_closed s with
  | Some err => (err, s)
  | None =>
      let err := closeError wait s in
      (err, mkRemoteStream (st_host s) (st_redact s) (st_tail s) (st_eof s) (Some err))
  end.

(** ** What is shown of a host does not show its secrets *)

(** what is shown of a host does not show its secrets.  Whatever a remote
    command, a dial or an error said, the text that is shown contains neither
    the password, nor the key passphrase, nor the private key, when they have
    three bytes or more and no asterisk. *)
Theorem ScrubText_hides h text secret :
  secret ∈ [host_Password h; host_KeyPassphrase h; host_PrivateKey h] ->
  (3 <= String.length secret)%nat -> free_of "*" secret = true ->
  Contains (ScrubText h text) secret = false.
Proof. intros Hin Hlen Hfree. unfold ScrubText. apply maskAll_hides; [done..|by right]. Qed.

Lemma ScrubText_hides_witness :
  let h := mkHost "h1" "nas" "" "10.0.0.2" 22 "root" "password" "" "" "hunter22" "" "" false 0 [] 0 0 None None "" "" [] 0 in
  ScrubText h "su: hunter22hunter22 rejected" = "su: ****** rejected"
  ∧ Contains (ScrubText h "su: hunter22hunter22 rejected") "hunter22" = false.
Proof.
  intros h. split; [vm_compute; reflexivity|]. apply ScrubText_hides; [by left|cbn; lia|reflexivity].
Defined.

Definition lastN {A} (n : nat) (l : list A) : list A := drop (length l - n) l.

Lemma lastN_app {A} n (a b : list A) : lastN n (lastN n a ++ b) = lastN n (a ++ b).
Proof.
  unfold lastN. rewrite <- (drop_app_le a b) by lia. rewrite drop_drop, !length_drop, length_app. f_equal. lia.
Qed.

Lemma addTail_lastN line tail : addTail line tail = lastN tailLines (tail ++ [line]).
Proof.
  unfold addTail, lastN. destruct (Nat.ltb_spec tailLines (length (tail ++ [line]))); [done|].
  by rewrite (proj2 (Nat.sub_0_le _ _)).
Qed.

(** The tail is the last lines. *)
Lemma tail_last lines : foldl (λ acc l, addTail l acc) [] lines = lastN tailLines lines.
Proof.
  assert (H : ∀ acc, foldl (λ acc l, addTail l acc) (lastN tailLines acc) lines = lastN tailLines (acc ++ lines)).
  { induction lines as [|l lines IH]; intros acc; cbn [foldl]; [by rewrite app_nil_r|].
    rewrite addTail_lastN, lastN_app, IH, <- app_assoc. done. }
  by apply (H []).
Qed.
