(* ===== verification/RemoteExec.v ===== *)
(** * Running programs: [internal/source/internal/procstream] and [internal/source/internal/remoteexec]

    A source driver runs its programs here or on a host, through one interface,
    the [Runner].  What a program prints, how it ends, and what the file system
    and the network say are a parameter ([Machine]). *)
From S2P Require Import Prelude GoStrings GoPath GoHttp Core Config Pack Spool Db Shell Slug Remote.
Open Scope Z_scope.

(** ** Redaction *)

Definition procstream_Scrub (s : string) (redact : list string) : string := maskAll redact s.

(** The bytes [quote] puts between quotes: in valid UTF-8 they are runes. *)
Definition quoted_byte (a : ascii) : bool :=
  (code a <=? 32)%N || ContainsByte ("'\$`|&;<>()*?[]{}!#~" +:+ dquote) a.

Definition quote (s : string) : string :=
  if bool_decide (s = "") then "''"
  else if sall (λ a, negb (quoted_byte a)) s then s
  else "'" +:+ ReplaceByte s quote_mark escaped_quote +:+ "'".

Definition shellQuote (name : string) (args : list string) : string :=
  quote name +:+ foldr (λ a rest, " " +:+ quote a +:+ rest) "" args.

Definition baseName (p : string) : string :=
  match LastIndexByte p "/" with Some i => sdrop (S i) p | None => p end.

Definition proc_looksLikeError (line : string) : bool :=
  existsb (Contains (ToLower line)) ["error"; "fatal"; "failed"; "denied"; "refused"; "cannot"; "could not"; "warning"].

(** ** Processes *)

Definition stderrTailLines : nat := 20.
Definition stderrMaxLine : nat := Z.to_nat (64 * 1024).

(** How a process ended. *)
Inductive WaitResult := WaitOk | WaitExit (code : Z) | WaitFailed (err : error).

(** A process that started: all it will print, and its end. *)
Record ProcRun := mkProcRun { pr_Stdout : Reader; pr_Stderr : string; pr_Wait : WaitResult }.

Record StatInfo := mkStatInfo { st_IsDir : bool; st_Perm : Z }.

(** A program to start. *)
Record Proc (St : Type) := mkProc {
  p_Name : string; p_Args : list string; p_Env : list string; p_Dir : string; p_Stdin : option Reader;
  p_Redact : list string; p_Label : string; p_Quiet : bool; p_Cleanup : list (St -> St)
}.
Arguments mkProc {St}. Arguments p_Name {St}. Arguments p_Args {St}. Arguments p_Env {St}. Arguments p_Dir {St}.
Arguments p_Stdin {St}. Arguments p_Redact {St}. Arguments p_Label {St}. Arguments p_Quiet {St}. Arguments p_Cleanup {St}.

(** What starting a command in a session comes to: its output, its standard error
    and its end, when it starts. *)
Inductive SshStart := NoSession (err : error) | NotStarted (msg : string) | Started (out : Reader) (stderr : string) (wait : SessionEnd).

Inductive ConnectEnd := Connected | NoRoute (err : error) | GivenUp (err : error) | NoHandshake (err : error).

(** [cmd_Start] is [exec.Cmd.Start] and what comes of it; [cmd_Run] is
    [exec.Cmd.Run]; [ssh_Connect] is the connection and its handshake, [ssh_Exec] a
    session that runs a command to its end, [ssh_Start] one whose output is read. *)
Class Machine (St : Type) := {
  cmd_Start : string -> list string -> list string -> string -> option Reader -> St -> result ProcRun * St;
  cmd_Run : string -> list string -> list string -> string -> option Reader -> St -> ((string * string) * WaitResult) * St;
  LookPath : string -> St -> result string;
  os_Stat : string -> St -> result StatInfo;
  os_CreateTemp : string -> string -> St -> result string * St;
  f_Chmod : string -> Z -> St -> option error * St;
  f_Write : string -> string -> St -> option error * St;
  f_Close : string -> St -> option error * St;
  os_RemoveFile : string -> St -> St;
  ssh_Connect : Host -> St -> ConnectEnd * St;
  ssh_Close : Host -> St -> St;
  ssh_Exec : Host -> string -> option Reader -> St -> result SessionRun * St;
  ssh_Start : Host -> string -> option Reader -> St -> SshStart * St
}.

(** A started process, and whether its output was read to the end. *)
Record Process (St : Type) := mkProcess {
  ps_Stdout : Reader; ps_Tail : list string; ps_Label : string; ps_Cleanup : list (St -> St); ps_Wait : WaitResult
}.
Arguments mkProcess {St}. Arguments ps_Stdout {St}. Arguments ps_Tail {St}. Arguments ps_Label {St}. Arguments ps_Cleanup {St}.
Arguments ps_Wait {St}.

(** The cleanups run from the last to the first. *)
Definition runCleanup {St : Type} (fns : list (St -> St)) (s : St) : St := foldr (λ f s, f s) s fns.

Definition tail_add (max : nat) (line : string) (tail : list string) : list string :=
  let tail := tail ++ [line] in
  if (max <? length tail)%nat then drop (length tail - max) tail else tail.

Definition tail_text (tail : list string) : string := StrJoin tail " | ".

(** The lines of standard error that are kept. *)
Definition stderrTail (redact : list string) (stderr : string) : list string :=
  foldl (λ tail line,
      let line := TrimRightByte carriageReturn line in
      if Blank line then tail else tail_add stderrTailLines (procstream_Scrub line redact) tail)
    [] (scanLines stderrMaxLine stderr).1.

Section machine.
  Context {St : Type} {machine : Machine St}.

Definition proc_start (c : Proc St) (s : St) : result (Process St) * St :=
  let label := if bool_decide (p_Label c = "") then baseName (p_Name c) else p_Label c in
  let '(r, s) := cmd_Start (p_Name c) (p_Args c) (p_Env c) (p_Dir c) (p_Stdin c) s in
  (match r with
   | Fail err => Fail (wrapError ("start " +:+ label) err)
   | Ok run => Ok (mkProcess (pr_Stdout run) (stderrTail (p_Redact c) (pr_Stderr run)) label (p_Cleanup c) (pr_Wait run))
   end, s).

Definition proc_Start (c : Proc St) (s : St) : result (Process St) * St :=
  let '(r, s) := proc_start c s in
  match r with
  | Fail err => (Fail err, runCleanup (p_Cleanup c) s)
  | Ok p => (Ok p, s)
  end.

(** [eof]: the output was read to its end before. *)
Definition process_Close (p : Process St) (eof : bool) (s : St) : option error * St :=
  let s := runCleanup (ps_Cleanup p) s in
  let detail := tail_text (ps_Tail p) in
  let known := bool_decide (detail ≠ "") in
  (if negb eof then
     Some (newError (ps_Label p +:+ " was stopped before it finished" +:+ (if known then ": " +:+ detail else "")))
   else
     match ps_Wait p with
     | WaitOk => None
     | WaitExit code => Some (newError (ps_Label p +:+ " exited with code " +:+ Itoa code +:+ (if known then ": " +:+ detail else "")))
     | WaitFailed err =>
         let e := wrapError (ps_Label p +:+ " failed") err in
         Some (if known then mkError (err_msg e +:+ ": " +:+ detail) (err_is e) else e)
     end, s).

(** Its output is read to the end when nothing stops the reader before. *)
Definition readsAll (r : Reader) : bool := bool_decide (rd_err r = None).

(** The lines are logged; a line that is too long ends the reading. *)
Definition proc_Run (c : Proc St) (s : St) : option error * St :=
  let '(r, s) := proc_start c s in
  match r with
  | Fail err => (Some err, runCleanup (p_Cleanup c) s)
  | Ok p => process_Close p ((scanLines stderrMaxLine (rd_data (ps_Stdout p))).2 && readsAll (ps_Stdout p)) s
  end.

Definition outputLimit : Z := 4 * 1024 * 1024.

Definition proc_Output (c : Proc St) (s : St) : (string * option error) * St :=
  let '(r, s) := proc_start c s in
  match r with
  | Fail err => (("", Some err), runCleanup (p_Cleanup c) s)
  | Ok p =>
      let out := ps_Stdout p in
      if Z.of_nat (String.length (rd_data out)) <? outputLimit then
        let '(closeErr, s) := process_Close p (readsAll out) s in
        ((rd_data out, match rd_err out with Some err => Some err | None => closeErr end), s)
      else
        let '(closeErr, s) := process_Close p false s in
        ((stake (Z.to_nat outputLimit) (rd_data out), closeErr), s)
  end.

(** ** Files *)

(** A file that one process writes and another reads; an open file is known by
    its name. *)
Definition WriteTempFile (dir pattern : string) (mode : Z) (content : string) (s : St) : result string * St :=
  let '(x, s) := os_CreateTemp dir pattern s in
  match x with
  | Fail err => (Fail (wrapError "create temp file" err), s)
  | Ok name =>
      let giveUp what err s := (Fail (wrapError what err), os_RemoveFile name s) in
      let '(e, s) := f_Chmod name mode s in
      match e with
      | Some err => let '(_, s) := f_Close name s in giveUp "chmod temp file" err s
      | None =>
          let '(e, s) := f_Write name content s in
          match e with
          | Some err => let '(_, s) := f_Close name s in giveUp "write temp file" err s
          | None =>
              let '(e, s) := f_Close name s in
              match e with Some err => giveUp "close temp file" err s | None => (Ok name, s) end
          end
      end
  end.

(** ** Finding programs *)

Definition executable (path : string) (s : St) : bool :=
  match os_Stat path s with
  | Ok info => negb (st_IsDir info) && negb (Z.land (st_Perm info) 73 =? 0)
  | Fail _ => false
  end.

Definition firstPath (candidates : list string) (s : St) : option string :=
  head (omap (λ name, match LookPath name s with Ok p => Some p | Fail _ => None end) candidates).

Definition Lookup (binaryPath : string) (candidates : list string) (s : St) : result string :=
  if bool_decide (candidates = []) then Fail (newError "no binary candidates given")
  else
    let binaryPath := TrimSpace binaryPath in
    let found dir := List.find (λ full, executable full s) ((λ name, PathJoin [dir; name]) <$> candidates) in
    if bool_decide (binaryPath ≠ "") then
      match os_Stat binaryPath s with
      | Fail err => Fail (wrapError ("binary path " +:+ Quote binaryPath) err)
      | Ok info =>
          if st_IsDir info then
            match found binaryPath with
            | Some full => Ok full
            | None => Fail (newError ("none of " +:+ StrJoin candidates ", " +:+ " found in " +:+ Quote binaryPath))
            end
          else if bool_decide (Base binaryPath ∈ candidates) then
            if executable binaryPath s then Ok binaryPath
            else Fail (newError ("binary path " +:+ Quote binaryPath +:+ " is not executable"))
          else
            match found (Dir binaryPath) with
            | Some full => Ok full
            | None =>
                if executable binaryPath s then Ok binaryPath
                else Fail (newError ("binary path " +:+ Quote binaryPath +:+ " does not provide " +:+ StrJoin candidates ", "))
            end
      end
    else
      match firstPath candidates s, candidates with
      | Some p, _ => Ok p
      | None, [name] => Fail (newError (name +:+ " not found in PATH, set the binary path field or install it"))
      | None, _ => Fail (newError ("none of " +:+ StrJoin candidates ", " +:+ " found in PATH, set the binary path field or install one of them"))
      end.

End machine.

(** ** Commands *)

Definition defaultShell : string := "/bin/sh".

Record Command (St : Type) := mkCommand {
  c_Argv : list string; c_Script : string; c_Shell : string; c_Env : list string; c_Dir : string;
  c_Stdin : option Reader; c_Redact : list string; c_Label : string; c_Quiet : bool; c_Cleanup : list (St -> St)
}.
Arguments mkCommand {St}. Arguments c_Argv {St}. Arguments c_Script {St}. Arguments c_Shell {St}. Arguments c_Env {St}.
Arguments c_Dir {St}. Arguments c_Stdin {St}. Arguments c_Redact {St}. Arguments c_Label {St}. Arguments c_Quiet {St}.
Arguments c_Cleanup {St}.

Record Result := mkResult { res_Stdout : string; res_Stderr : string; res_ExitCode : Z }.

Definition Trimmed (r : Result) : string := TrimSpace (res_Stdout r).

Definition Detail (r : Result) : string :=
  let detail := TrimSpace (res_Stderr r) in
  let detail := if bool_decide (detail = "") then TrimSpace (res_Stdout r) else detail in
  StrJoin (Fields (stake 500 detail)) " ".

Definition hostLabel (h : Host) : string :=
  let name := TrimSpace (host_Name h) in
  if bool_decide (name ≠ "") then name else TrimSpace (host_Address h).

Definition HostLabel (cfg : Config) : string :=
  match Config_Host cfg with Some h => hostLabel h | None => "" end.

Definition hostSpec (spec : DriverSpec) : DriverSpec :=
  mkDriverSpec (spec_Kind spec) (spec_Label spec) (spec_Description spec) (spec_Icon spec) (spec_Category spec)
    (filter (λ f, field_LocalOnly f = false) (spec_Fields spec)) (spec_Capabilities spec) (spec_Tools spec) (spec_DocsURL spec).

Definition ValidateRequired {sprint_host : SprintHost} (spec : DriverSpec) (cfg : Config) : option error :=
  match Config_Host cfg with
  | None => Config.ValidateRequired spec cfg
  | Some _ => Config.ValidateRequired (hostSpec spec) cfg
  end.

Definition TempFileScript (content inner : string) : string :=
  "umask 077; f=$(mktemp) || exit 1; printf '%s' " +:+ ShellQuote content +:+
  " > " +:+ dquote +:+ "$f" +:+ dquote +:+ "; " +:+ inner +:+ "; rc=$?; rm -f " +:+ dquote +:+ "$f" +:+ dquote +:+ "; exit $rc".

Definition ScratchScript (inner : string) : string :=
  "umask 077; f=$(mktemp) || exit 1; " +:+ inner +:+ "; rc=$?; rm -f " +:+ dquote +:+ "$f" +:+ dquote +:+ "; exit $rc".

Definition normalize {St : Type} (c : Command St) : Command St :=
  if bool_decide (c_Script c ≠ "") && bool_decide (c_Shell c = "") && (0 <? length (c_Env c))%nat
  then mkCommand (c_Argv c) (c_Script c) defaultShell (c_Env c) (c_Dir c) (c_Stdin c) (c_Redact c) (c_Label c) (c_Quiet c) (c_Cleanup c)
  else c.

Definition ShellLine {St : Type} (c : Command St) : string :=
  let c := normalize c in
  let dir := TrimSpace (c_Dir c) in
  (if bool_decide (dir ≠ "") then "cd " +:+ ShellQuote dir +:+ " && " else "")
  +:+ (if (0 <? length (c_Env c))%nat then "env" +:+ foldr (λ e rest, " " +:+ ShellQuote e +:+ rest) "" (c_Env c) +:+ " " else "")
  +:+ (if bool_decide (c_Script c ≠ "") then
         if bool_decide (c_Shell c ≠ "") then ShellJoin [c_Shell c; "-c"; c_Script c] else c_Script c
       else ShellJoin (c_Argv c)).

(** An entry of the environment, its value hidden. *)
Definition maskedEnv (e : string) : string :=
  match IndexByte e "=" with
  | Some (S _ as i) => stake i e +:+ "=***"
  | _ => e
  end.

Definition withEnv {St : Type} (env : list string) (c : Command St) : Command St :=
  mkCommand (c_Argv c) (c_Script c) (c_Shell c) env (c_Dir c) (c_Stdin c) (c_Redact c) (c_Label c) (c_Quiet c) (c_Cleanup c).

Definition LogLine {St : Type} (c : Command St) : string :=
  procstream_Scrub (ShellLine (withEnv (maskedEnv <$> c_Env c) c)) (c_Redact c).

Definition label {St : Type} (c : Command St) : string :=
  if bool_decide (c_Label c ≠ "") then c_Label c
  else match c_Argv c with name :: _ => baseName name | [] => "command" end.

Definition toProc {St : Type} (c : Command St) : Proc St :=
  let c := normalize c in
  let '(name, args) :=
    if bool_decide (c_Script c ≠ "") then
      (if bool_decide (c_Shell c = "") then defaultShell else c_Shell c, ["-c"; c_Script c])
    else match c_Argv c with name :: args => (name, args) | [] => ("", []) end in
  mkProc name args (c_Env c) (c_Dir c) (c_Stdin c) (c_Redact c) (label c) (c_Quiet c) (c_Cleanup c).

Definition LookupScript (binaryPath : string) (candidates : list string) : string :=
  let names := ShellJoin candidates in
  let q s := dquote +:+ s +:+ dquote in
  let p := TrimSpace binaryPath in
  (if bool_decide (p ≠ "") then
     "p=" +:+ ShellQuote p +:+ "; "
     +:+ "if [ -d " +:+ q "$p" +:+ " ]; then for n in " +:+ names +:+ "; do if [ -x " +:+ q "$p/$n" +:+ " ]; then echo " +:+ q "$p/$n"
     +:+ "; exit 0; fi; done; "
     +:+ "elif [ -x " +:+ q "$p" +:+ " ]; then echo " +:+ q "$p" +:+ "; exit 0; fi; "
   else "")
  +:+ "for n in " +:+ names +:+ "; do c=$(command -v " +:+ q "$n" +:+ " 2>/dev/null) && { echo " +:+ q "$c" +:+ "; exit 0; }; done; exit 1".

(** ** The runner *)

Record Runner := mkRunner { r_host : option Host; r_closed : bool; r_handed : bool }.

(** The methods of a runner: they may change its marks. *)
Definition RunnerM (St A : Type) : Type := Runner -> St -> (A * Runner) * St.

#[export] Instance RunnerM_ret {St : Type} : MRet (RunnerM St) := λ A x r s, ((x, r), s).
#[export] Instance RunnerM_bind {St : Type} : MBind (RunnerM St) := λ A B f m r s, let '((x, r), s) := m r s in f x r s.

(** What is read, and what closing it says, after reading to the end or not. *)
Record Running (St : Type) := mkRunning { rn_Reader : Reader; rn_Close : bool -> St -> option error * St }.
Arguments mkRunning {St}. Arguments rn_Reader {St}. Arguments rn_Close {St}.

Section runner.
  Context {St : Type} {machine : Machine St} {ssh : SSH}.

Definition onState {A : Type} (f : St -> A * St) : RunnerM St A := λ r s, let '(x, s) := f s in ((x, r), s).

Definition Runner_HostLabel (r : Runner) : string := match r_host r with Some h => hostLabel h | None => "" end.

Definition scrub (r : Runner) (text : string) : string :=
  match r_host r with Some h => ScrubText h text | None => text end.

(** What is logged of a command before it runs on a host. *)
Definition announcement (h : Host) (c : Command St) : option string :=
  if c_Quiet c then None else Some (ScrubText h (Wrap h (LogLine c))).

Definition localExec (c : Command St) (s : St) : (Result * option error) * St :=
  let p := toProc c in
  if bool_decide (p_Name p = "") then ((mkResult "" "" 0, Some (newError "no command to run")), s)
  else
    let '(((out, err), wait), s) := cmd_Run (p_Name p) (p_Args p) (p_Env p) (p_Dir p) (p_Stdin p) s in
    let res code := mkResult out (procstream_Scrub err (c_Redact c)) code in
    (match wait with
     | WaitExit code => (res code, None)
     | WaitFailed e => (res 0, Some (wrapError ("run " +:+ p_Label p) e))
     | WaitOk => (res 0, None)
     end, s).

Definition Runner_Exec (c : Command St) : RunnerM St (Result * option error) := λ r s,
  match r_host r with
  | None => let '(x, s) := localExec c s in ((x, r), runCleanup (c_Cleanup c) s)
  | Some h =>
      let '(x, s) := ssh_Exec h (Wrap h (ShellLine c)) (c_Stdin c) s in
      let s := runCleanup (c_Cleanup c) s in
      let '(out, err) := match x with
                         | Ok run => execOutput h (c_Redact c) run
                         | Fail e => (noOutput, Some (wrapError "open ssh session" e))
                         end in
      let res := mkResult (out_Stdout out) (procstream_Scrub (scrub r (out_Stderr out)) (c_Redact c)) (out_ExitCode out) in
      (((res, match err with Some e => Some (wrapError ("host " +:+ Runner_HostLabel r) e) | None => None end), r), s)
  end.

Definition Check_ (c : Command St) (what : string) : RunnerM St (option error) :=
  x ← Runner_Exec c;
  mret (match x with
        | (_, Some err) => Some err
        | (res, None) =>
            if res_ExitCode res =? 0 then None
            else if bool_decide (Detail res ≠ "") then Some (newError (what +:+ ": " +:+ Detail res))
            else Some (newError (what +:+ " exited with code " +:+ Itoa (res_ExitCode res)))
        end).

(** [release]: the stream closes the connection it was handed. *)
Definition hostStream (h : Host) (c : Command St) (out : Reader) (stderr : string) (wait : SessionEnd) : Running St :=
  let st := foldl (λ st line, stderrLine line st) (mkRemoteStream h (c_Redact c) [] false None) (scanLines stderrMaxLine stderr).1 in
  mkRunning out (λ eof s,
    (closeError wait (if eof : bool then readEOF st else st), runCleanup (c_Cleanup c) (ssh_Close h s))).

Definition Runner_Start (c : Command St) : RunnerM St (result (Running St)) := λ r s,
  match r_host r with
  | None =>
      let '(x, s) := proc_Start (toProc c) s in
      (((match x with Ok p => Ok (mkRunning (ps_Stdout p) (process_Close p)) | Fail err => Fail err end), r), s)
  | Some h =>
      let '(x, s) := ssh_Start h (Wrap h (ShellLine c)) (c_Stdin c) s in
      let failed err := ((Fail (wrapError ("host " +:+ Runner_HostLabel r) err), r), runCleanup (c_Cleanup c) s) in
      match x with
      | NoSession err => failed (wrapError "open ssh session" err)
      | NotStarted msg => failed (newError ("start remote command: " +:+ clientScrub h (c_Redact c) msg))
      | Started out stderr wait => ((Ok (hostStream h c out stderr wait), mkRunner (r_host r) (r_closed r) true), s)
      end
  end.

Definition Runner_Run (c : Command St) : RunnerM St (option error) := λ r s,
  match r_host r with
  | None => let '(x, s) := proc_Run (toProc c) s in ((x, r), s)
  | Some h =>
      let '((x, r), s) := Runner_Start c r s in
      match x with
      | Fail err => ((Some err, r), s)
      | Ok rc =>
          let out := rn_Reader rc in
          let '(e, s) := rn_Close rc ((scanLines stderrMaxLine (rd_data out)).2 && readsAll out) s in
          ((e, r), s)
      end
  end.

Definition Runner_Output (c : Command St) : RunnerM St (string * option error) := λ r s,
  match r_host r with
  | None => let '(x, s) := proc_Output (toProc c) s in ((x, r), s)
  | Some h =>
      let '(((res, err), r), s) := Runner_Exec c r s in
      ((res_Stdout res,
        match err with
        | Some err => Some err
        | None =>
            if res_ExitCode res =? 0 then None
            else
              let msg := label c +:+ " exited with code " +:+ Itoa (res_ExitCode res) in
              Some (newError (if bool_decide (Detail res ≠ "") then msg +:+ ": " +:+ Detail res else msg))
        end), r, s)
  end.

Definition plainCommand (script lbl : string) : Command St := mkCommand [] script "" [] "" None [] lbl true [].

Definition Runner_HasTool (name : string) : RunnerM St (result bool) := λ r s,
  match r_host r with
  | None => ((Ok (match LookPath name s with Ok _ => true | Fail _ => false end), r), s)
  | Some _ =>
      let '(((res, err), r), s) := Runner_Exec (plainCommand ("command -v " +:+ ShellQuote name +:+ " >/dev/null 2>&1") "command -v") r s in
      ((match err with Some e => Fail e | None => Ok (res_ExitCode res =? 0) end, r), s)
  end.

Definition Tool (binaryPath : string) (candidates : list string) : RunnerM St (result string) := λ r s,
  match r_host r with
  | None => ((Lookup binaryPath candidates s, r), s)
  | Some _ =>
      if bool_decide (candidates = []) then ((Fail (newError "no binary candidates given"), r), s)
      else
        let '(((res, err), r), s) := Runner_Exec (plainCommand (LookupScript binaryPath candidates) "command -v") r s in
        ((match err with
          | Some e => Fail e
          | None =>
              if negb (res_ExitCode res =? 0) || bool_decide (Trimmed res = "") then
                Fail (newError (StrJoin candidates " or " +:+ " is not installed on host " +:+ Runner_HostLabel r
                                +:+ ", install it or set the binary path field"))
              else Ok (Trimmed res)
          end, r), s)
  end.

Definition Runner_Close : RunnerM St unit := λ r s,
  match r_host r with
  | Some h => if r_handed r || r_closed r then ((tt, r), s) else ((tt, mkRunner (Some h) true (r_handed r)), ssh_Close h s)
  | None => ((tt, r), s)
  end.

(** [remote.Dial]. *)
Definition remote_Dial (h : Host) (s : St) : option error * St :=
  match authMethods h with
  | Fail err => (Some err, s)
  | Ok _ =>
      match hostKeyCallback h with
      | Fail err => (Some err, s)
      | Ok _ =>
          let '(c, s) := ssh_Connect h s in
          (match c with
           | Connected => None
           | NoRoute err => Some (wrapError ("ssh connect to " +:+ dialAddress h) err)
           | GivenUp err => Some err
           | NoHandshake err => wrapError ("ssh connect to " +:+ dialAddress h) <$> Scrub h (Some err)
           end, s)
      end
  end.

Definition Open (cfg : Config) (s : St) : result Runner * St :=
  match Config_Host cfg with
  | None => (Ok (mkRunner None false false), s)
  | Some h =>
      let '(e, s) := remote_Dial h s in
      (match e with
       | Some err => Fail (wrapError ("host " +:+ hostLabel h) err)
       | None => Ok (mkRunner (Some h) false false)
       end, s)
  end.

(** [Open], the work, and the deferred [Close]. *)
Definition withRunner {A : Type} (cfg : Config) (failed : error -> A) (body : RunnerM St A) (s : St) : A * St :=
  let '(r, s) := Open cfg s in
  match r with
  | Fail err => (failed err, s)
  | Ok r => let '((x, r), s) := body r s in let '(_, s) := Runner_Close r s in (x, s)
  end.

Definition where_ (r : Runner) : string :=
  match r_host r with Some _ => "host " +:+ Runner_HostLabel r | None => "this server" end.

End runner.

(** ** The command line of a host *)

Lemma StrJoin_join l k sep : l ≠ [] -> k ≠ [] -> StrJoin l sep +:+ sep +:+ StrJoin k sep = StrJoin (l ++ k) sep.
Proof.
  intros Hl Hk. induction l as [|x l IH]; [done|]. destruct l as [|y l].
  - destruct k as [|z k]; [done|]. done.
  - change (StrJoin (x :: y :: l) sep) with (x +:+ sep +:+ StrJoin (y :: l) sep).
    change ((x :: y :: l) ++ k) with (x :: y :: (l ++ k)). change (StrJoin (x :: y :: (l ++ k)) sep) with (x +:+ sep +:+ StrJoin ((y :: l) ++ k) sep).
    rewrite !sapp_assoc, IH by done. done.
Qed.

Lemma ShellJoin_app l k : l ≠ [] -> k ≠ [] -> ShellJoin l +:+ " " +:+ ShellJoin k = ShellJoin (l ++ k).
Proof. intros Hl Hk. unfold ShellJoin. rewrite fmap_app. apply StrJoin_join; by intros ->%fmap_nil_inv. Qed.

Lemma ShellJoin_env env : env ≠ [] -> "env" +:+ foldr (λ e rest, " " +:+ ShellQuote e +:+ rest) "" env = ShellJoin ("env" :: env).
Proof.
  intros _. assert (H : ∀ x, x +:+ foldr (λ e rest, " " +:+ ShellQuote e +:+ rest) "" env = StrJoin (x :: (ShellQuote <$> env)) " ").
  { induction env as [|e env IH]; intros x; [apply sapp_nil_r|]. cbn [foldr]. rewrite IH. done. }
  apply H.
Qed.

Section words.
  Context {St : Type}.

(** The program of a command with its arguments, and its environment. *)
Definition commandWords (c : Command St) : list string :=
  if bool_decide (c_Script c ≠ "") then [c_Shell (normalize c); "-c"; c_Script c] else c_Argv c.

Definition envWords (c : Command St) : list string := match c_Env c with [] => [] | env => "env" :: env end.

Lemma ShellLine_join (c : Command St) :
  Blank (c_Dir c) = true -> commandWords c ≠ [] -> (c_Script c = "" ∨ c_Shell (normalize c) ≠ "") ->
  ShellLine c = ShellJoin (envWords c ++ commandWords c).
Proof.
  intros Hd Hne Hs. unfold ShellLine. assert (EN : c_Argv (normalize c) = c_Argv c ∧ c_Script (normalize c) = c_Script c
    ∧ c_Env (normalize c) = c_Env c ∧ c_Dir (normalize c) = c_Dir c) by by unfold normalize; destruct (_ && _).
  destruct EN as (-> & -> & -> & ->). assert (HD : TrimSpace (c_Dir c) = "") by by apply bool_decide_eq_true in Hd.
  rewrite HD. cbn [negb]. rewrite bool_decide_eq_false_2 by auto. change ("" +:+ ?x) with x.
  assert (EC : (if bool_decide (c_Script c ≠ "") then
         if bool_decide (c_Shell (normalize c) ≠ "") then ShellJoin [c_Shell (normalize c); "-c"; c_Script c] else c_Script c
       else ShellJoin (c_Argv c)) = ShellJoin (commandWords c)).
  { unfold commandWords. case_bool_decide; [|done]. rewrite bool_decide_eq_true_2; [done|]. by destruct Hs. }
  rewrite EC. unfold envWords. destruct (c_Env c) as [|e env]; [done|]. change (0 <? length (e :: env))%nat with true. cbv iota.
  rewrite <- sapp_assoc, ShellJoin_env by done. rewrite sapp_assoc. by apply ShellJoin_app.
Qed.

(** C27: the line a host is given runs what the command says.  Its shell reads
    it as [env] with the entries of the environment and the program with its
    arguments, or the shell with the script as one word: whatever bytes they
    hold, there is nothing in the line to expand, and no other command. *)
Theorem ShellLine_words (c : Command St) :
  Blank (c_Dir c) = true -> commandWords c ≠ [] -> (c_Script c = "" ∨ c_Shell (normalize c) ≠ "") ->
  forallb nul_free (c_Env c ++ commandWords c) = true ->
  shell_words (ShellLine c) = Some (envWords c ++ commandWords c).
Proof.
  intros Hd Hne Hs Hn. rewrite ShellLine_join by done. apply shell_words_ShellJoin.
  rewrite forallb_app in *. boolean. unfold envWords. destruct (c_Env c); [done|]. cbn [forallb] in *. by apply andb_true_iff.
Qed.

(** ** The log line of a command *)

Lemma maskedEnv_name name v v' : free_of "=" name = true -> maskedEnv (name +:+ "=" +:+ v) = maskedEnv (name +:+ "=" +:+ v') ∨ name = "".
Proof.
  intros Hf. destruct (decide (name = "")) as [->|Hne]; [by right|]. left. unfold maskedEnv.
  assert (HI : ∀ v, IndexByte (name +:+ "=" +:+ v) "=" = Some (String.length name)).
  { clear Hne. intros w. induction name as [|a name IH]; [done|]. cbn in Hf. boolean. cbn [String.append IndexByte].
    match goal with H : Ascii.eqb a _ = false |- _ => rewrite H end. by rewrite (IH H0 : IndexByte (name +:+ String "=" w) "=" = _). }
  rewrite !HI. destruct name as [|a name]; [done|]. cbn [String.length].
  change (S (String.length name)) with (String.length (String a name)). by rewrite !stake_app.
Qed.

(** The same command with the same names in its environment. *)
Inductive sameNames : list string -> list string -> Prop :=
  | sameNames_nil : sameNames [] []
  | sameNames_cons name v v' env env' : name ≠ "" -> free_of "=" name = true -> sameNames env env' ->
      sameNames ((name +:+ "=" +:+ v) :: env) ((name +:+ "=" +:+ v') :: env').

(** The line that is logged of a command says nothing of the values in its
    environment: commands that differ in them only are logged alike. *)
Theorem LogLine_env (c : Command St) env : sameNames (c_Env c) env -> LogLine (withEnv env c) = LogLine c.
Proof.
  intros H. unfold LogLine. cbn [c_Env c_Redact withEnv]. assert (E : maskedEnv <$> env = maskedEnv <$> c_Env c); [|by rewrite E].
  induction H as [|name v v' l l' Hne Hf _ IH]; [done|]. cbn [fmap list_fmap]. rewrite IH. f_equal.
  destruct (maskedEnv_name name v' v Hf) as [E| ->]; done.
Qed.

End words.

Lemma ShellLine_words_witness :
  let c := mkCommand (St := unit) ["/usr/bin/pg_dump"; "-d"; "it's $HOME"] "" "" ["PGPASSWORD=p w;rm"] "" None ["p w;rm"] "" false [] in
  shell_words (ShellLine c) = Some ["env"; "PGPASSWORD=p w;rm"; "/usr/bin/pg_dump"; "-d"; "it's $HOME"].
Proof. intros c. apply (ShellLine_words c); [reflexivity|done|by left|reflexivity]. Defined.

Lemma LogLine_env_witness :
  let c := mkCommand (St := unit) ["pg_dump"; "-w"] "" "" ["PGPASSWORD=secret"; "PGSSLMODE=require"] "" None [] "" false [] in
  LogLine (withEnv ["PGPASSWORD=other"; "PGSSLMODE=disable"] c) = LogLine c
  ∧ LogLine c = "env 'PGPASSWORD=***' 'PGSSLMODE=***' pg_dump -w".
Proof.
  intros c. split; [|reflexivity]. apply (LogLine_env c).
  apply (sameNames_cons "PGPASSWORD"); [done..|]. apply (sameNames_cons "PGSSLMODE"); [done..|]. constructor.
Defined.
