(* ===== verification/DestS3.v ===== *)
(** * The S3 destination: [internal/dest/s3/s3.go]

    Artifacts are objects of a bucket, under a prefix.  The SDK is a parameter: the
    calls the driver makes of it, and what they do to the buckets. *)
From S2P Require Import Prelude GoStrings GoTime GoPath Core Config Specs Pack Spool Db GoHttp Slug ObjectStore.
Open Scope Z_scope.

(** ** Configuration *)

Record client := mkClient {
  c_bucket : string; c_prefix : string; c_storage : string; c_sse : string; c_kmsKey : string;
  c_partSize : Z; c_concurrency : Z
}.

(** What the SDK is set up with. *)
Record sdkOptions := mkSdkOptions {
  so_Region : string; so_Credentials : option (string * string); so_SkipVerify : bool;
  so_BaseEndpoint : option string; so_UsePathStyle : bool
}.

Section config.
  Context {sprint_host : SprintHost}.

Definition Validate (cfg : Config) : option error :=
  match ValidateRequired Spec_s3 cfg with
  | Some err => Some err
  | None =>
      let endpoint := Config_String cfg "endpoint" in
      if negb (isEmpty endpoint) &&
         match Parse endpoint with Ok u => isEmpty (u_Scheme u) || isEmpty (u_Host u) | Fail _ => true end
      then Some (newError "endpoint must be a full url such as https://s3.example.com")
      else if (Has cfg "access_key" && negb (Has cfg "secret_key")) || (negb (Has cfg "access_key") && Has cfg "secret_key")
      then Some (newError "set both the access key and the secret key, or neither")
      else if Int cfg "part_size_mb" defaultPartSizeMB <? 5
      then Some (newError "multipart part size must be at least 5 MiB")
      else
        let n := Int cfg "concurrency" defaultConcurrent in
        if (n <? 1) || (n >? 64) then Some (newError "upload concurrency must be between 1 and 64")
        else if bool_decide (StringOr cfg "sse" "none" ∈ [""; "none"; "AES256"; "aws:kms"]) then None
        else Some (newError "server-side encryption must be none, AES256 or aws:kms")
  end.

(** [load] is [awsconfig.LoadDefaultConfig]. *)
Definition Open (cfg : Config) (load : sdkOptions -> option error) : result (client * sdkOptions) :=
  match Validate cfg with
  | Some err => Fail err
  | None =>
      let endpoint := Config_String cfg "endpoint" in
      let opts := mkSdkOptions (StringOr cfg "region" "us-east-1")
                    (if Has cfg "access_key" then Some (Config_String cfg "access_key", Config_String cfg "secret_key") else None)
                    (Bool cfg "skip_tls_verify" false)
                    (if isEmpty endpoint then None else Some endpoint) (Bool cfg "path_style" false) in
      match load opts with
      | Some err => Fail (wrapError "load aws configuration" err)
      | None =>
          Ok (mkClient (Config_String cfg "bucket") (Trim (Config_String cfg "prefix") slash) (Config_String cfg "storage_class")
                (StringOr cfg "sse" "none") (Config_String cfg "sse_kms_key_id")
                (wrap64 (wrap64 (Int cfg "part_size_mb" defaultPartSizeMB * 1024) * 1024))
                (Int cfg "concurrency" defaultConcurrent), opts)
      end
  end.

End config.

(** ** The SDK *)

Record PutObjectInput := mkPut {
  in_Bucket : string; in_Key : string; in_Body : list string; in_BodyEnd : option error;
  in_ContentLength : option Z; in_StorageClass : string; in_SSE : string; in_KMSKeyId : option string
}.

Record uploader := mkUploader { up_PartSize : Z; up_Concurrency : Z; up_LeavePartsOnError : bool }.

Record S3Object := mkS3Object { s3_Key : string; s3_Size : Z; s3_LastModified : option Time }.

(** [NextPages] is what the pages of the paginator hold until it ends, with or
    without an error. *)
Class S3Api (St : Type) := {
  Upload : uploader -> PutObjectInput -> St -> option error * St;
  GetObject : string -> string -> St -> result Reader * St;
  DeleteObject : string -> string -> St -> option error * St;
  HeadObject : string -> string -> St -> result S3Object * St;
  HeadBucket : string -> St -> option error * St;
  ListObjectsV2 : string -> option string -> St -> option error * St;
  NextPages : string -> option string -> St -> (list (list S3Object) * option error) * St;
  asAPIError : error -> option (string * string);
  isNoSuchKey : error -> bool;
  isNotFound : error -> bool
}.

Section client.
  Context {St : Type} {api : S3Api St} (c : client).

Definition key (p : string) : string :=
  let clean := Clean ("/" +:+ TrimPrefix (slashes p) "/") in
  let clean := TrimPrefix clean "/" in
  if isEmpty (c_prefix c) then clean
  else if isEmpty clean || String.eqb clean "." then c_prefix c
  else c_prefix c +:+ "/" +:+ clean.

Definition relative (key : string) : string :=
  if isEmpty (c_prefix c) then key else TrimPrefix (TrimPrefix key (c_prefix c)) "/".

Definition notFound (err : error) : bool :=
  isNoSuchKey err || isNotFound err ||
  match asAPIError err with
  | Some (code, _) => bool_decide (code ∈ ["NoSuchKey"; "NotFound"; "404"])
  | None => false
  end.

Definition clean (err : error) : error :=
  match asAPIError err with
  | Some (code, message) => newError (code +:+ ": " +:+ message)
  | None => err
  end.

Definition location (p : string) : string := "s3://" +:+ c_bucket c +:+ "/" +:+ p.

Definition putInput (p : string) (chunks : list string) (src_end : option error) (size : Z) : PutObjectInput :=
  mkPut (c_bucket c) (key p) chunks src_end (if 0 <? size then Some size else None) (c_storage c)
    (if bool_decide (c_sse c ∈ ["AES256"; "aws:kms"]) then c_sse c else "")
    (if String.eqb (c_sse c) "aws:kms" && negb (isEmpty (c_kmsKey c)) then Some (c_kmsKey c) else None).

Definition Put (p : string) (chunks : list string) (src_end : option error) (size : Z) (s : St) : option error * St :=
  let '(e, s) := Upload (mkUploader (c_partSize c) (c_concurrency c) false) (putInput p chunks src_end size) s in
  (match e with
   | Some err => Some (wrapError ("upload " +:+ p +:+ " to " +:+ location (key p)) (clean err))
   | None => None
   end, s).

Definition Get (p : string) (s : St) : result Reader * St :=
  let '(r, s) := GetObject (c_bucket c) (key p) s in
  (match r with Ok rd => Ok rd | Fail err => Fail (wrapError ("download " +:+ location (key p)) (clean err)) end, s).

Definition Delete (p : string) (s : St) : option error * St :=
  let '(e, s) := DeleteObject (c_bucket c) (key p) s in
  (match e with
   | Some err => if notFound err then None else Some (wrapError ("delete " +:+ location (key p)) (clean err))
   | None => None
   end, s).

Definition utcOr0 (t : option Time) : Time := default zeroTime t.

Definition listObject (o : S3Object) : option Object :=
  let rel := relative (s3_Key o) in
  if isEmpty rel then None else Some (mkObject rel (s3_Size o) (utcOr0 (s3_LastModified o)) false).

Definition listPrefix (prefix : string) : string := if isEmpty prefix then c_prefix c else key prefix.

Definition List (prefix : string) (s : St) : result (list Object) * St :=
  let full := listPrefix prefix in
  let '((pages, e), s) := NextPages (c_bucket c) (if isEmpty full then None else Some full) s in
  (match e with
   | Some err => Fail (wrapError ("list " +:+ location full) (clean err))
   | None => Ok (omap listObject (concat pages))
   end, s).

Definition Stat (p : string) (s : St) : result Object * St :=
  let '(r, s) := HeadObject (c_bucket c) (key p) s in
  (match r with
   | Fail err => Fail (wrapError ("stat " +:+ location (key p)) (clean err))
   | Ok out => Ok (mkObject (TrimPrefix p "/") (s3_Size out) (utcOr0 (s3_LastModified out)) false)
   end, s).

Definition Test (s : St) : option error * St :=
  let '(e, s) := HeadBucket (c_bucket c) s in
  match e with
  | None => (None, s)
  | Some _ =>
      let '(e, s) := ListObjectsV2 (c_bucket c) (if isEmpty (c_prefix c) then None else Some (c_prefix c)) s in
      (match e with
       | Some err => Some (wrapError ("bucket " +:+ c_bucket c +:+ " is not reachable") (clean err))
       | None => None
       end, s)
  end.

End client.

(** ** What the service promises *)

(** The objects of a bucket by their keys.  An upload that fails leaves the old
    object, none, or the whole new one, and whichever it is, touches no other. *)
Class S3Laws (St : Type) {api : S3Api St} := {
  bucketObjects : St -> string -> string -> option string;
  Upload_law up i s e s' : Upload up i s = (e, s') ->
    (∀ b k, (b, k) ≠ (in_Bucket i, in_Key i) -> bucketObjects s' b k = bucketObjects s b k) ∧
    match e with
    | None => in_BodyEnd i = None ∧ bucketObjects s' (in_Bucket i) (in_Key i) = Some (concatChunks (in_Body i))
    | Some _ => bucketObjects s' (in_Bucket i) (in_Key i) ∈
                  [bucketObjects s (in_Bucket i) (in_Key i); None; Some (concatChunks (in_Body i))]
    end;
  GetObject_law b k s r s' : GetObject b k s = (r, s') ->
    bucketObjects s' = bucketObjects s ∧ ∀ rd, r = Ok rd -> ∃ data, bucketObjects s b k = Some data ∧ rd = fullReader data;
  DeleteObject_law b k s e s' : DeleteObject b k s = (e, s') ->
    (∀ b' k', (b', k') ≠ (b, k) -> bucketObjects s' b' k' = bucketObjects s b' k') ∧
    match e with
    | None => bucketObjects s' b k = None
    | Some err => bucketObjects s' b k ∈ [bucketObjects s b k; None] ∧ (notFound err = true -> bucketObjects s' b k = None)
    end;
  HeadObject_law b k s r s' : HeadObject b k s = (r, s') ->
    bucketObjects s' = bucketObjects s ∧
    ∀ o, r = Ok o -> ∃ data, bucketObjects s b k = Some data ∧ s3_Size o = Z.of_nat (String.length data);
  NextPages_law b prefix s pages s' : NextPages b prefix s = ((pages, None), s') ->
    bucketObjects s' = bucketObjects s ∧
    ∀ k n, (∃ m, mkS3Object k n m ∈ concat pages) <->
           HasPrefix k (default "" prefix) = true ∧ ∃ data, bucketObjects s b k = Some data ∧ n = Z.of_nat (String.length data)
}.

(** ** Keys *)

Section keys.
  Context (c : client).

Lemma key_key k : remoteKey k -> key c (keyPath k) = underBase (c_prefix c) (keyPath k).
Proof.
  intros Hk. pose proof Hk as (Hne & Hp & _). unfold key, underBase, isEmpty. rewrite slashes_key, TrimPrefix_key by done.
  unfold keyPath. rewrite Clean_plain by done. fold (keyPath k). rewrite (TrimPrefix_app "/").
  pose proof (StrJoin_plain_ne k Hne Hp) as N. destruct (key_stays k Hne Hp) as (K1%String.eqb_neq & _). unfold keyPath in *.
  rewrite (bool_decide_eq_false_2 _ N), K1. done.
Qed.

(** Whatever the path, its key lies under the prefix. *)
Lemma key_below p : ∃ rel, Forall plainElem rel ∧ key c p = underBase (c_prefix c) (keyPath rel).
Proof.
  destruct (Clean_rooted ("/" +:+ TrimPrefix (slashes p) "/") (HasPrefix_app "/" _)) as (rel & Hc & Hp).
  exists rel. split; [done|]. unfold key, underBase, isEmpty. rewrite Hc, (TrimPrefix_app "/"). fold (keyPath rel).
  case_bool_decide; [done|]. case_bool_decide as Hn; [done|].
  destruct (decide (rel = [])) as [->|Hne]; [done|]. by destruct (key_stays rel Hne Hp) as (->%String.eqb_neq & _).
Qed.

Lemma relative_key k : remoteKey k -> relative c (key c (keyPath k)) = keyPath k.
Proof.
  intros Hk. pose proof Hk as (Hne & Hp & _). rewrite key_key by done. unfold relative, underBase, isEmpty.
  case_bool_decide; [done|]. rewrite bool_decide_eq_false_2 by by apply StrJoin_plain_ne. by apply TrimPrefix_base.
Qed.

Lemma key_inj k k' : remoteKey k -> remoteKey k' -> key c (keyPath k) = key c (keyPath k') -> k = k'.
Proof. intros Hk Hk'. rewrite !key_key by done. destruct Hk as (? & ? & _), Hk' as (? & ? & _). by apply underBase_inj. Qed.

End keys.

(** ** The contract *)

Section contract.
  Context {St : Type} {api : S3Api St} {laws : S3Laws St} (c : client).

Definition s3Objects (s : St) : Objects := λ k, if decide (remoteKey k) then bucketObjects s (c_bucket c) (key c (keyPath k)) else None.

Definition s3Answers (q : Request) (s : St) (a : Answer) (s' : St) : Prop :=
  match q with
  | RPut k chunks src_end size => ∃ e, Put c (keyPath k) chunks src_end size s = (e, s') ∧ a = APut e
  | RGet k => ∃ r, Get c (keyPath k) s = (r, s') ∧ a = AGet r
  | RDelete k => ∃ e, Delete c (keyPath k) s = (e, s') ∧ a = ADelete e
  | RStat k => ∃ r, Stat c (keyPath k) s = (r, s') ∧ a = AStat r
  end.

Lemma s3Objects_key s k : remoteKey k -> s3Objects s k = bucketObjects s (c_bucket c) (key c (keyPath k)).
Proof. intros H. unfold s3Objects. by rewrite decide_True. Qed.

(** What the driver leaves alone in the bucket, it leaves alone among the keys. *)
Lemma s3_others s s' k :
  remoteKey k -> (∀ b x, (b, x) ≠ (c_bucket c, key c (keyPath k)) -> bucketObjects s' b x = bucketObjects s b x) ->
  othersKept k (s3Objects s) (s3Objects s').
Proof.
  intros Hk H k' Hne. unfold s3Objects. destruct (decide (remoteKey k')) as [Hk'|]; [|done]. apply H.
  intros [= E]. by apply Hne, (key_inj c).
Qed.

Lemma s3_honours q s a s' : remoteKey (requestKey q) -> s3Answers q s a s' -> contract (s3Objects s) q a (s3Objects s').
Proof.
  intros Hk H. destruct q as [k chunks src_end size|k|k|k]; cbn in Hk; destruct H as (r & H & ->); revert H.
  - unfold Put. destruct (Upload _ _ s) as [e s1] eqn:E. apply Upload_law in E as [Ho E]. intros [= <- <-]. cbn in Ho, E.
    pose proof (s3_others _ _ k Hk Ho) as Ho'. destruct e as [err|]; cbn; rewrite ?s3Objects_key by done; [|by destruct E].
    split; [done|]. by rewrite !elem_of_cons, elem_of_nil in E; destruct E as [?|[?|[?|?]]]; eauto.
  - unfold Get. destruct (GetObject _ _ s) as [e s1] eqn:E. apply GetObject_law in E as [Ho E]. intros [= <- <-].
    split; [intros k'; unfold s3Objects; by rewrite Ho|]. intros rd data Hr. rewrite s3Objects_key by done.
    destruct e as [rd'|]; [|done]. injection Hr as ->. destruct (E rd eq_refl) as (data' & -> & ->). by intros [= ->].
  - unfold Delete. destruct (DeleteObject _ _ s) as [e s1] eqn:E. apply DeleteObject_law in E as [Ho E]. intros [= <- <-].
    pose proof (s3_others _ _ k Hk Ho) as Ho'. destruct e as [err|]; cbn; [|by rewrite s3Objects_key].
    destruct E as [E En]. destruct (notFound err); cbn; rewrite ?s3Objects_key by done; (split; [done|]); [by apply En|].
    rewrite !elem_of_cons, elem_of_nil in E. destruct E as [?|[?|?]]; eauto; done.
  - unfold Stat. destruct (HeadObject _ _ s) as [e s1] eqn:E. apply HeadObject_law in E as [Ho E]. intros [= <- <-].
    split; [intros k'; unfold s3Objects; by rewrite Ho|]. intros o data Hr. rewrite s3Objects_key by done.
    destruct e as [x|]; [|done]. injection Hr as <-. destruct (E x eq_refl) as (data' & -> & Hs). by intros [= <-].
Qed.

#[export] Instance s3Destination : DestClient St :=
  {| answers := s3Answers; objects := s3Objects; servedKey := λ _ k, remoteKey k;
     honours := s3_honours; keepsServing := λ _ _ _ _ _ _ _ H, H |}.

(** A listing names the objects whose keys start with the prefix, each by what
    follows the prefix of the destination, and those only. *)
Lemma List_lists prefix s l s' :
  List c prefix s = (Ok l, s') ->
  bucketObjects s' = bucketObjects s ∧
  ∀ rel n, (∃ m, mkObject rel n m false ∈ l) <->
    rel ≠ "" ∧ ∃ k data, HasPrefix k (listPrefix c prefix) = true ∧ relative c k = rel ∧
      bucketObjects s (c_bucket c) k = Some data ∧ n = Z.of_nat (String.length data).
Proof.
  unfold List. destruct (NextPages _ _ s) as [[pages [err|]] s1] eqn:E; [done|]. intros [= <- <-]. apply NextPages_law in E as [Ho E].
  split; [done|]. assert (HD : default "" (if isEmpty (listPrefix c prefix) then None else Some (listPrefix c prefix)) = listPrefix c prefix).
  { unfold isEmpty. by case_bool_decide. }
  rewrite HD in E. intros rel n. split.
  - intros [m (o & Ho' & Hl)%list_elem_of_omap]. destruct o as [k n' m']. unfold listObject in Hl. cbn in Hl. unfold isEmpty in Hl.
    case_bool_decide as Hr; [done|]. injection Hl as <- <- _. split; [done|].
    destruct (proj1 (E k n') (ex_intro _ m' Ho')) as (Hp & data & ? & ?). by exists k, data.
  - intros (Hr & k & data & Hp & <- & Hb & ->). destruct (proj2 (E k (Z.of_nat (String.length data)))) as [m Hm]; [by eauto|].
    exists (utcOr0 m). apply list_elem_of_omap. exists (mkS3Object k (Z.of_nat (String.length data)) m). split; [done|].
    unfold listObject. cbn. unfold isEmpty. by rewrite bool_decide_eq_false_2.
Qed.

End contract.

(** The prefix is compared as text, so a destination with the prefix
    [servers/db1] lists the artifacts of its neighbour [servers/db10]. *)
Example neighbour_listed :
  listObject (mkClient "b" "servers/db1" "" "none" "" 0 1) (mkS3Object "servers/db10/job/a.tar" 7 None)
  = Some (mkObject "0/job/a.tar" 7 zeroTime false).
Proof. reflexivity. Qed.


(** ** A service *)

(** Buckets in memory. *)
#[local] Abbreviation Buckets := (gmap (string * string) string).

Definition noSuchKey : error := newError "no such key".

#[export] Instance bucketsApi : S3Api Buckets := {|
  Upload _ i s := match in_BodyEnd i with
                  | None => (None, <[(in_Bucket i, in_Key i) := concatChunks (in_Body i)]> s)
                  | Some err => (Some err, s)
                  end;
  GetObject b k s := (match s !! (b, k) with Some data => Ok (fullReader data) | None => Fail noSuchKey end, s);
  DeleteObject b k s := (None, delete (b, k) s);
  HeadObject b k s := (match s !! (b, k) with
                       | Some data => Ok (mkS3Object k (Z.of_nat (String.length data)) None) | None => Fail noSuchKey end, s);
  HeadBucket _ s := (None, s);
  ListObjectsV2 _ _ s := (None, s);
  NextPages b prefix s :=
    (([(λ kv, mkS3Object kv.1.2 (Z.of_nat (String.length kv.2)) None) <$>
         filter (λ kv, kv.1.1 = b ∧ HasPrefix kv.1.2 (default "" prefix) = true) (map_to_list s)], None), s);
  asAPIError _ := None;
  isNoSuchKey err := String.eqb (err_msg err) (err_msg noSuchKey);
  isNotFound _ := false
|}.

#[export] Instance bucketsLaws : S3Laws Buckets.
Proof.
  refine {| bucketObjects := λ s b k, s !! (b, k) |}; cbn.
  - intros _ i s e s'. destruct (in_BodyEnd i); intros [= <- <-].
    + split; [done|]. by left.
    + split; [|split; [done|apply lookup_insert_eq]]. intros b k Hne. by rewrite lookup_insert_ne.
  - intros b k s r s' [= <- <-]. split; [done|]. intros rd H. destruct (s !! (b, k)) as [data|]; [|done]. injection H as <-. by exists data.
  - intros b k s e s' [= <- <-]. split; [|apply lookup_delete_eq]. intros b' k' Hne. by rewrite lookup_delete_ne.
  - intros b k s r s' [= <- <-]. split; [done|]. intros o H. destruct (s !! (b, k)) as [data|]; [|done]. injection H as <-. by exists data.
  - intros b prefix s pages s' [= <- <-]. split; [done|]. intros k n. rewrite concat_cons, app_nil_r. split.
    + intros [m ([[b' k'] data] & E & [[Hb Hp] Hin]%list_elem_of_filter)%list_elem_of_fmap]. cbn in *. injection E as -> -> ->.
      subst b'. split; [done|]. exists data. split; [by apply elem_of_map_to_list|done].
    + intros (Hp & data & Hs & ->). exists None. apply list_elem_of_fmap. exists ((b, k), data). split; [done|].
      apply list_elem_of_filter. split; [done|]. by apply elem_of_map_to_list.
Defined.

