(* ===== verification/DestSftp.v ===== *)
(** * The SFTP destination: [internal/dest/sftp/sftp.go], [client.go]

    Artifacts are files below a base path of a server.  A file is uploaded under
    the name it will have and [.partial], and renamed when it is complete.  The SSH
    connection and the SFTP session are parameters. *)
From S2P Require Import Prelude GoStrings GoTime Core Config Specs GoSlices Pack GoPath Spool FileSystem Shell Db Slug Remote ObjectStore.
Open Scope Z_scope.

(** ** Configuration *)

Record client := mkClient { c_base : string }.

Inductive AuthMethod :=
  | Password (pw : string)
  | KeyboardInteractive (pw : string)   (* [pw] to every question *)
  | PublicKeys (signer : string).

Record dialConfig := mkDial {
  dc_Addr : string; dc_User : string; dc_Auth : list AuthMethod;
  dc_HostKey : string -> string -> option error;   (* the host and the fingerprint it shows *)
  dc_Timeout : Z
}.

Definition badAuth : error := newError "auth must be password or key".
Definition badFingerprint : error := newError "host key fingerprint must look like SHA256:abc...".

Section config.
  Context {sprint_host : SprintHost} {S : SSH}.

Definition Validate (cfg : Config) : option error :=
  match ValidateRequired Spec_sftp cfg with
  | Some err => Some err
  | None =>
      let auth := StringOr cfg "auth" "password" in
      let authErr :=
        if String.eqb auth "password" then
          if Has cfg "password" then None else Some (newError "a password is required for password authentication")
        else if String.eqb auth "key" then
          if Has cfg "private_key" then None else Some (newError "a private key is required for key authentication")
        else Some badAuth in
      match authErr with
      | Some err => Some err
      | None =>
          let fp := TrimSpace (Config_String cfg "host_key") in
          if bool_decide (fp ≠ "") && negb (HasPrefix fp "SHA256:") then Some badFingerprint
          else
            let n := Int cfg "concurrent_requests" 32 in
            if (n <? 1) || (n >? 256) then Some (newError "concurrent requests must be between 1 and 256") else None
      end
  end.

Definition authMethods (cfg : Config) : result (list AuthMethod) :=
  let auth := StringOr cfg "auth" "password" in
  if String.eqb auth "password" then
    let pw := Config_String cfg "password" in
    if bool_decide (pw = "") then Fail (newError "password authentication selected but no password is set")
    else Ok [Password pw; KeyboardInteractive pw]
  else if String.eqb auth "key" then
    let pem := TrimSpace (Config_String cfg "private_key") in
    if bool_decide (pem = "") then Fail (newError "key authentication selected but no private key is set")
    else
      let pass := Config_String cfg "key_passphrase" in
      match (if bool_decide (pass ≠ "") then ParsePrivateKeyWithPassphrase pem pass else ParsePrivateKey pem) with
      | KeyOk line => Ok [PublicKeys line]
      | KeyNeedsPassphrase => Fail (wrapError "parse private key" (newError "ssh: this private key is passphrase protected"))
      | KeyInvalid err => Fail (wrapError "parse private key" err)
      end
  else Fail badAuth.

Definition hostKeyCallback (cfg : Config) : result (string -> string -> option error) :=
  let expected := TrimSpace (Config_String cfg "host_key") in
  if bool_decide (expected = "") then Ok (λ _ _, None)
  else if negb (HasPrefix expected "SHA256:") then Fail badFingerprint
  else Ok (λ hostname got,
             if String.eqb got expected then None
             else Some (newError ("host key mismatch for " +:+ hostname +:+ ": expected " +:+ expected +:+ ", got " +:+ got))).

Definition scrub (cfg : Config) (err : error) : error :=
  let msg := maskAll [Config_String cfg "password"; Config_String cfg "key_passphrase"; Config_String cfg "private_key"] (err_msg err) in
  if String.eqb msg (err_msg err) then err else newError msg.

Definition connectTimeout (cfg : Config) : Z :=
  let timeout := wrap64 (Int cfg "connect_timeout" 20 * Second) in
  if timeout <=? 0 then 20 * Second else timeout.

(** [sshDial] is [ssh.Dial]. *)
Definition dial (cfg : Config) (sshDial : dialConfig -> option error) : option error :=
  match authMethods cfg with
  | Fail err => Some err
  | Ok auths =>
      match hostKeyCallback cfg with
      | Fail err => Some err
      | Ok hostKey =>
          let addr := JoinHostPort (Config_String cfg "host") (Itoa (Int cfg "port" 22)) in
          match sshDial (mkDial addr (Config_String cfg "user") auths hostKey (connectTimeout cfg)) with
          | Some err => Some (wrapError ("ssh connect to " +:+ addr) (scrub cfg err))
          | None => None
          end
      end
  end.

(** [newClient] is [sftp.NewClient], given the bound on the requests per file. *)
Definition Open (cfg : Config) (sshDial : dialConfig -> option error) (newClient : Z -> option error) : result client :=
  match Validate cfg with
  | Some err => Fail err
  | None =>
      match dial cfg sshDial with
      | Some err => Fail err
      | None =>
          match newClient (Int cfg "concurrent_requests" 32) with
          | Some err => Fail (wrapError "start sftp subsystem" (scrub cfg err))
          | None =>
              let base := TrimSuffix (StringOr cfg "base_path" ".") "/" in
              Ok (mkClient (if bool_decide (base = "") then "." else base))
          end
      end
  end.

End config.

(** ** The session *)

(** An open file is known by the path it was created at. *)
Record walkStep := mkWalkStep { ws_Path : string; ws_Err : option error; ws_Stat : option FileInfo }.

Class SftpSession (St : Type) := {
  sc_MkdirAll : string -> St -> option error * St;
  sc_Create : string -> St -> option error * St;
  f_ReadFrom : string -> Z -> list string -> option error -> St -> (Z * option error) * St;
  f_Write : string -> string -> St -> option error * St;
  f_Close : string -> St -> option error * St;
  sc_Remove : string -> St -> option error * St;
  sc_RemoveDirectory : string -> St -> option error * St;
  sc_PosixRename : string -> string -> St -> option error * St;
  sc_Rename : string -> string -> St -> option error * St;
  sc_Open : string -> St -> result Reader * St;
  sc_Stat : string -> St -> result FileInfo * St;
  sc_Walk : string -> St -> list walkStep * St;
  asStatusError : error -> option Z
}.

(** [sftp.ErrSSHFxNoSuchFile]. *)
Definition ErrSSHFxNoSuchFile : Z := 2.

(** ** The client *)

(** What reads through [ctxReader] give: [ctx n] is [ctx.Err()] at the [n]-th. *)
Fixpoint ctxReader (ctx : nat -> option error) (n : nat) (chunks : list string) (src_end : option error) : list string * option error :=
  match ctx n with
  | Some err => ([], Some err)
  | None =>
      match chunks with
      | [] => ([], src_end)
      | p :: rest => let '(l, e) := ctxReader ctx (S n) rest src_end in (p :: l, e)
      end
  end.

Definition sizedReader_Size (size : Z) : Z := if size <=? 0 then -1 else size.

Definition atHome (c : client) : bool := bool_decide (c_base c = "." ∨ c_base c = "").

Definition resolve (c : client) (p : string) : result string :=
  let clean := remoteClean p in
  if leavesBase clean then Fail (escapesBase p)
  else if atHome c then Ok (if bool_decide (clean = "") then "." else clean)
  else Ok (if bool_decide (clean = "") then c_base c else c_base c +:+ "/" +:+ clean).

Definition relative (c : client) (full : string) : string :=
  if atHome c then TrimPrefix full "./" else TrimPrefix (TrimPrefix full (c_base c)) "/".

Definition hidden (name : string) : bool := HasSuffix name ".partial".

Section client.
  Context {St : Type} {session : SftpSession St} (c : client).

Definition isNotExist (err : error) : bool :=
  errorsIs err ErrNotExist ||
  match asStatusError err with
  | Some code => code =? ErrSSHFxNoSuchFile
  | None => Contains (ToLower (err_msg err)) "file does not exist"
  end.

Definition rename (from to : string) (s : St) : option error * St :=
  let '(e, s) := sc_PosixRename from to s in
  match e with
  | None => (None, s)
  | Some _ =>
      let '(e, s) := sc_Remove to s in
      match e with
      | Some err => if isNotExist err then sc_Rename from to s else (Some err, s)
      | None => sc_Rename from to s
      end
  end.

(** The upload, from the partial file to its name. *)
Definition upload (p full : string) (ctx : nat -> option error) (chunks : list string) (src_end : option error) (size : Z) (s : St)
    : option error * St :=
  let partial := full +:+ ".partial" in
  let giveUp err s := let '(_, s) := sc_Remove partial s in (Some err, s) in
  let '(e, s) := sc_Create partial s in
  match e with
  | Some err => (Some (wrapError ("create " +:+ partial) err), s)
  | None =>
      let '(chunks, src_end) := ctxReader ctx 0 chunks src_end in
      let '((written, copyErr), s) := f_ReadFrom partial (sizedReader_Size size) chunks src_end s in
      let '(closeErr, s) := f_Close partial s in
      match copyErr, closeErr with
      | Some err, _ => giveUp (wrapError ("upload " +:+ p) err) s
      | None, Some err => giveUp (wrapError ("finish upload of " +:+ p) err) s
      | None, None =>
          if (size >? 0) && negb (written =? size)
          then giveUp (newError ("short upload of " +:+ p +:+ ": expected " +:+ Itoa size +:+ " bytes, wrote " +:+ Itoa written)) s
          else
            let '(e, s) := rename partial full s in
            match e with
            | Some err => giveUp (wrapError ("move " +:+ p +:+ " into place") err) s
            | None => (None, s)
            end
      end
  end.

Definition Put (ctx : nat -> option error) (p : string) (chunks : list string) (src_end : option error) (size : Z) (s : St) : option error * St :=
  match resolve c p with
  | Fail err => (Some err, s)
  | Ok full =>
      let dir := Dir full in
      let '(e, s) := if bool_decide (dir ≠ "." ∧ dir ≠ "") then sc_MkdirAll dir s else (None, s) in
      match e with
      | Some err => (Some (wrapError ("create remote directory " +:+ dir) err), s)
      | None => upload p full ctx chunks src_end size s
      end
  end.

Definition Get (p : string) (s : St) : result Reader * St :=
  match resolve c p with
  | Fail err => (Fail err, s)
  | Ok full =>
      let '(r, s) := sc_Open full s in
      (match r with Ok f => Ok f | Fail err => Fail (wrapError ("open " +:+ p) err) end, s)
  end.

Definition prunable (dir : string) : bool :=
  bool_decide (dir ≠ "." ∧ dir ≠ "/" ∧ dir ≠ c_base c) && HasPrefix dir (c_base c).

Fixpoint pruneLoop (fuel : nat) (dir : string) (s : St) : St :=
  match fuel with
  | O => s
  | S fuel =>
      if prunable dir then
        let '(e, s) := sc_RemoveDirectory dir s in
        match e with Some _ => s | None => pruneLoop fuel (Dir dir) s end
      else s
  end.

Definition Delete (p : string) (s : St) : option error * St :=
  match resolve c p with
  | Fail err => (Some err, s)
  | Ok full =>
      let '(e, s) := sc_Remove full s in
      match e with
      | Some err => (if isNotExist err then None else Some (wrapError ("delete " +:+ p) err), s)
      | None => let dir := Dir full in (None, pruneLoop (S (String.length dir)) dir s)
      end
  end.

(** A step of the walk; [ctx n] is [ctx.Err()] at the [n]-th. *)
Fixpoint listSteps (ctx : nat -> option error) (n : nat) (start : string) (steps : list walkStep) (out : list Object) : result (list Object) :=
  match steps with
  | [] => Ok out
  | w :: steps =>
      match ctx n with
      | Some err => Fail err
      | None =>
          listSteps ctx (S n) start steps
            (match ws_Err w, ws_Stat w with
             | Some _, _ => out
             | None, None => out
             | None, Some st =>
                 if String.eqb (ws_Path w) start || hidden (Base (ws_Path w)) then out
                 else out ++ [mkObject (relative c (ws_Path w)) (if fi_IsDir st then 0 else fi_Size st) (fi_ModTime st) (fi_IsDir st)]
             end)
      end
  end.

Definition sortObjects (l : list Object) : list Object := SliceStable (λ a b, String.ltb (obj_Path a) (obj_Path b)) l.

Definition List (ctx : nat -> option error) (prefix : string) (s : St) : result (list Object) * St :=
  match resolve c prefix with
  | Fail err => (Fail err, s)
  | Ok start =>
      let '(r, s) := sc_Stat start s in
      match r with
      | Fail err => (if isNotExist err then Ok [] else Fail (wrapError ("list " +:+ prefix) err), s)
      | Ok info =>
          if negb (fi_IsDir info) then (Ok [mkObject (relative c start) (fi_Size info) (fi_ModTime info) false], s)
          else
            let '(steps, s) := sc_Walk start s in
            (match listSteps ctx 0 start steps [] with Ok out => Ok (sortObjects out) | Fail err => Fail err end, s)
      end
  end.

Definition Stat (p : string) (s : St) : result Object * St :=
  match resolve c p with
  | Fail err => (Fail err, s)
  | Ok full =>
      let '(r, s) := sc_Stat full s in
      (match r with
       | Fail err => Fail (wrapError ("stat " +:+ p) err)
       | Ok info => Ok (mkObject (relative c full) (fi_Size info) (fi_ModTime info) (fi_IsDir info))
       end, s)
  end.

Definition notWritable (err : error) : error := wrapError ("base path " +:+ c_base c +:+ " is not writable") err.

Definition Test (s : St) : option error * St :=
  let '(e, s) := if atHome c then (None, s) else sc_MkdirAll (c_base c) s in
  match e with
  | Some err => (Some (wrapError ("create base path " +:+ c_base c) err), s)
  | None =>
      match resolve c ".backvault-write-test" with
      | Fail err => (Some err, s)
      | Ok probe =>
          let '(e, s) := sc_Create probe s in
          match e with
          | Some err => (Some (notWritable err), s)
          | None =>
              let '(writeErr, s) := f_Write probe "backvault" s in
              let '(closeErr, s) := f_Close probe s in
              let '(_, s) := sc_Remove probe s in
              (match writeErr, closeErr with
               | Some err, _ => Some (notWritable err)
               | None, Some err => Some (notWritable err)
               | None, None => None
               end, s)
          end
      end
  end.

End client.

(** ** What the server promises *)

Inductive Entry := EFile (data : string) | EDir.

(** The elements of a path, from the directory a session starts in. *)
Definition remoteElems (home : list string) (p : string) : list string :=
  clean_elems true (if IsAbs p then Split p slash else home ++ Split p slash).

(** A tree without links, that nobody else changes.  A call that fails did
    nothing, or what it was asked for. *)
Class SftpServer (St : Type) {session : SftpSession St} := {
  home : list string;
  home_plain : Forall plainElem home;
  entries : St -> list string -> option Entry;
  file s p : option string := match entries s p with Some (EFile data) => Some data | _ => None end;
  MkdirAll_law p s e s' : sc_MkdirAll p s = (e, s') -> ∀ q, file s' q = file s q;
  Create_law p s e s' : sc_Create p s = (e, s') -> ∀ q, q ≠ remoteElems home p -> entries s' q = entries s q;
  ReadFrom_law p size chunks src_end s n e s' : f_ReadFrom p size chunks src_end s = ((n, e), s') ->
    (∀ q, q ≠ remoteElems home p -> entries s' q = entries s q) ∧
    (e = None -> src_end = None ∧ entries s' (remoteElems home p) = Some (EFile (concatChunks chunks)));
  Write_law p b s e s' : f_Write p b s = (e, s') -> ∀ q, q ≠ remoteElems home p -> entries s' q = entries s q;
  Close_law p s e s' : f_Close p s = (e, s') -> ∀ q, entries s' q = entries s q;
  Remove_law p s e s' : sc_Remove p s = (e, s') ->
    (∀ q, q ≠ remoteElems home p -> entries s' q = entries s q) ∧
    entries s' (remoteElems home p) ∈ [entries s (remoteElems home p); None] ∧
    ((e = None ∨ ∃ err, e = Some err ∧ isNotExist err = true) -> entries s' (remoteElems home p) = None);
  RemoveDirectory_law p s e s' : sc_RemoveDirectory p s = (e, s') -> ∀ q, file s' q = file s q;
  Rename_law posix from to s e s' :
    (if posix : bool then sc_PosixRename from to s else sc_Rename from to s) = (e, s') ->
    let f := remoteElems home from in let t := remoteElems home to in
    f ≠ t -> entries s f ≠ Some EDir ->
    (∀ q, q ≠ f -> q ≠ t -> entries s' q = entries s q) ∧
    (entries s' f = entries s f ∧ entries s' t = entries s t ∨
     is_Some (entries s f) ∧ entries s' f = None ∧ entries s' t = entries s f) ∧
    (e = None -> is_Some (entries s f) ∧ entries s' t = entries s f);
  Open_law p s r s' : sc_Open p s = (r, s') ->
    entries s' = entries s ∧ ∀ rd data, r = Ok rd -> file s (remoteElems home p) = Some data -> rd = fullReader data;
  Stat_law p s r s' : sc_Stat p s = (r, s') ->
    entries s' = entries s ∧
    ∀ info data, r = Ok info -> file s (remoteElems home p) = Some data -> fi_Size info = Z.of_nat (String.length data)
}.

(** * Theorems on the SFTP destination

    A path never leads out of the base; an upload appears whole or not at all,
    though the fallback of [rename] may lose what was there before. *)

(** ** Paths *)

Lemma remoteElems_plain home p : Forall plainElem home -> Forall plainElem (remoteElems home p).
Proof.
  intros H. unfold remoteElems. apply clean_elems_plain. destruct (IsAbs p); [apply Split_free|]. apply Forall_app. split; [|apply Split_free].
  eapply Forall_impl; [exact H|]. by intros e (_ & _ & _ & ?).
Qed.

Lemma clean_elems_app l k : Forall plainElem k -> clean_elems true (l ++ k) = clean_elems true l ++ k.
Proof. intros H. unfold clean_elems. by rewrite foldl_app, clean_plain, reverse_app, reverse_involutive. Qed.

Lemma remoteElems_app home base k :
  base ≠ "" -> k ≠ [] -> Forall plainElem k -> remoteElems home (base +:+ "/" +:+ keyPath k) = remoteElems home base ++ k.
Proof.
  intros Hb Hne Hk. unfold remoteElems. assert (HA : IsAbs (base +:+ "/" +:+ keyPath k) = IsAbs base).
  { destruct base as [|a base]; [done|]. unfold IsAbs. change (String a base +:+ "/" +:+ keyPath k) with (String a (base +:+ "/" +:+ keyPath k)).
    by rewrite !HasPrefix_cons, !HasPrefix_nil. }
  rewrite HA. change (base +:+ "/" +:+ keyPath k) with (base +:+ String slash (keyPath k)). rewrite Split_app.
  unfold keyPath. rewrite Split_StrJoin_plain by done. by destruct (IsAbs base); rewrite ?app_assoc, clean_elems_app.
Qed.

Lemma remoteElems_key home k : Forall plainElem home -> k ≠ [] -> Forall plainElem k -> remoteElems home (keyPath k) = home ++ k.
Proof.
  intros Hh Hne Hk. unfold remoteElems. rewrite IsAbs_plain by done. unfold keyPath. rewrite Split_StrJoin_plain, clean_elems_app by done.
  f_equal. unfold clean_elems. by rewrite clean_plain, app_nil_r, reverse_involutive.
Qed.

Lemma remoteElems_home home p : Forall plainElem home -> p = "." ∨ p = "" -> remoteElems home p = home.
Proof.
  intros Hh Hp. assert (E : remoteElems home p = clean_elems true (home ++ [p])) by by destruct Hp as [->| ->].
  rewrite E. unfold clean_elems. rewrite foldl_app, (clean_plain [] home) by done. rewrite app_nil_r.
  destruct Hp as [->| ->]; exact (reverse_involutive home).
Qed.

Section paths.
  Context (home : list string) (Hhome : Forall plainElem home) (c : client).

(** The elements of the base path. *)
Definition baseElems : list string := remoteElems home (c_base c).

(** The path of what lies below the base. *)
Definition pathOf (k : list string) : string := if atHome c then keyPath k else c_base c +:+ "/" +:+ keyPath k.

Lemma atHome_base : atHome c = true -> baseElems = home.
Proof.
  unfold atHome, baseElems. intros H%bool_decide_eq_true. by apply remoteElems_home.
Qed.

Lemma pathOf_elems k : k ≠ [] -> Forall plainElem k -> remoteElems home (pathOf k) = baseElems ++ k.
Proof.
  intros Hne Hk. unfold pathOf. destruct (atHome c) eqn:E; [rewrite atHome_base by done; by apply remoteElems_key|].
  apply remoteElems_app; [|done..]. unfold atHome in E. boolean. tauto.
Qed.

Lemma resolve_pathOf k : remoteKey k -> resolve c (keyPath k) = Ok (pathOf k).
Proof.
  intros Hk. destruct (remoteClean_key k Hk) as [E1 E2]. destruct Hk as (Hne & Hk & _). unfold resolve. rewrite E1, E2.
  rewrite (bool_decide_eq_false_2 (keyPath k = "")) by by apply StrJoin_plain_ne. unfold pathOf. by destruct (atHome c).
Qed.

(** Whatever it is asked, the client stays at or below the base. *)
Lemma resolve_below p full : resolve c p = Ok full -> ∃ rel, Forall plainElem rel ∧ remoteElems home full = baseElems ++ rel.
Proof.
  unfold resolve. destruct (leavesBase (remoteClean p)) eqn:El; [done|].
  destruct (remoteClean_below p El) as [->|(rel & Hne & Hrel & ->)].
  - cbn. intros H. exists []. split; [done|]. rewrite app_nil_r. destruct (atHome c) eqn:E; injection H as <-; [|done].
    rewrite atHome_base by done. by apply remoteElems_home; [|left].
  - rewrite (bool_decide_eq_false_2 (keyPath rel = "")) by by apply StrJoin_plain_ne. intros H. exists rel. split; [done|].
    rewrite <- pathOf_elems by done. f_equal. unfold pathOf. destruct (atHome c); by injection H as <-.
Qed.

(** The partial file is that of another key, a hidden one. *)
Lemma pathOf_partial k : k ≠ [] -> Forall plainElem k ->
  ∃ p, partialKey p = true ∧ remoteElems home (pathOf k +:+ ".partial") = baseElems ++ p.
Proof.
  intros Hne Hk. destruct (partial_of k Hne Hk) as (p & Pn & Pp & Ph & E). exists p. split; [done|]. rewrite <- pathOf_elems by done.
  f_equal. unfold pathOf. by destruct (atHome c); rewrite ?sapp_assoc, E.
Qed.

End paths.

(** ** The client *)

Section client.
  Context {St : Type} {session : SftpSession St} {server : SftpServer St} (c : client).

Abbreviation B := (baseElems home c).

Lemma file_entries s s' p : entries s' p = entries s p -> file s' p = file s p.
Proof. unfold file. by intros ->. Qed.

Lemma file_EFile s p data : entries s p = Some (EFile data) -> file s p = Some data.
Proof. unfold file. by intros ->. Qed.

(** What [rename] leaves: the new file when it succeeds; else the old one, none,
    or the new one. *)
Lemma rename_spec from to s e s' data :
  let f := remoteElems home from in let t := remoteElems home to in
  f ≠ t -> entries s f = Some (EFile data) -> rename from to s = (e, s') ->
  (∀ q, q ≠ f -> q ≠ t -> entries s' q = entries s q) ∧
  (e = None -> entries s' t = Some (EFile data)) ∧
  entries s' t ∈ [entries s t; None; Some (EFile data)].
Proof.
  intros f t Hne Hf. unfold rename. destruct (sc_PosixRename from to s) as [e1 s1] eqn:E1.
  destruct (Rename_law true _ _ _ _ _ E1 Hne ltac:(by fold f; rewrite Hf)) as (O1 & D1 & S1). fold f t in O1, D1, S1. rewrite Hf in D1, S1.
  destruct e1 as [err1|].
  2: { intros [= <- <-]. split; [done|]. destruct (S1 eq_refl) as [_ ->]. split; [done|]. rewrite !elem_of_cons. by auto. }
  destruct (sc_Remove to s1) as [e2 s2] eqn:E2. destruct (Remove_law _ _ _ _ E2) as (O2 & D2 & S2). fold t in O2, D2, S2.
  assert (C1 : entries s1 t = entries s t ∨ entries s1 t = Some (EFile data)) by tauto.
  assert (F2 : entries s2 f = Some (EFile data) ∨ entries s2 f = None) by (rewrite O2 by done; tauto).
  assert (Hstop : e2 = None ∨ (∃ err, e2 = Some err ∧ isNotExist err = true) ->
    sc_Rename from to s2 = (e, s') ->
    (∀ q, q ≠ f -> q ≠ t -> entries s' q = entries s q) ∧ (e = None -> entries s' t = Some (EFile data)) ∧
    entries s' t ∈ [entries s t; None; Some (EFile data)]).
  { intros Hs E3. specialize (S2 Hs). destruct (Rename_law false _ _ _ _ _ E3 Hne) as (O3 & D3 & S3).
    { fold f. by destruct F2 as [->| ->]. }
    fold f t in O3, D3, S3. split_and!.
    - intros q Hq Hq'. by rewrite O3, O2, O1.
    - intros ->. destruct (S3 eq_refl) as [Hs3 ->]. destruct F2 as [->|F2]; [done|]. rewrite F2 in Hs3. by destruct Hs3.
    - rewrite !elem_of_cons. destruct D3 as [[_ ->]|(Hs3 & _ & ->)]; [by rewrite S2; auto|].
      destruct F2 as [->|F2]; [by auto|]. rewrite F2 in Hs3. by destruct Hs3. }
  destruct e2 as [err2|]; [destruct (isNotExist err2) eqn:En|]; [by apply Hstop; right; eexists| |by apply Hstop; left].
  intros [= <- <-]. split_and!; [intros q Hq Hq'; by rewrite O2, O1|done|]. rewrite !elem_of_cons, elem_of_nil in *.
  destruct D2 as [->|[->|[]]]; [|by auto]. destruct C1 as [->| ->]; by auto.
Qed.

Lemma ctxReader_whole ctx n chunks src_end l : ctxReader ctx n chunks src_end = (l, None) -> l = chunks ∧ src_end = None.
Proof.
  revert n l. induction chunks as [|p chunks IH]; intros n l; cbn; destruct (ctx n); try done; [by intros [= <- ->]|].
  destruct (ctxReader ctx (S n) chunks src_end) as [l' e'] eqn:E. intros [= <- ->]. by destruct (IH _ _ E) as [-> ->].
Qed.

(** An upload: nothing but the file and its partial file is touched; the file is
    whole when it succeeds, and old, gone or whole when it fails. *)
Lemma upload_spec p full ctx chunks src_end size s e s' :
  let f := remoteElems home (full +:+ ".partial") in let t := remoteElems home full in
  f ≠ t -> upload p full ctx chunks src_end size s = (e, s') ->
  (∀ q, q ≠ f -> q ≠ t -> entries s' q = entries s q) ∧
  match e with
  | None => src_end = None ∧ entries s' t = Some (EFile (concatChunks chunks))
  | Some _ => entries s' t ∈ [entries s t; None; Some (EFile (concatChunks chunks))]
  end.
Proof.
  intros f t Hne. unfold upload. destruct (sc_Create _ s) as [e1 s1] eqn:E1. pose proof (Create_law _ _ _ _ E1) as O1. fold f in O1.
  destruct e1 as [err1|].
  { intros [= <- <-]. split; [by auto|]. rewrite O1 by done. by left. }
  destruct (ctxReader ctx 0 chunks src_end) as [chunks' end'] eqn:Ec.
  destruct (f_ReadFrom _ _ _ _ s1) as [[written copyErr] s2] eqn:E2. destruct (ReadFrom_law _ _ _ _ _ _ _ _ E2) as [O2 C2]. fold f in O2, C2.
  destruct (f_Close _ s2) as [closeErr s3] eqn:E3. pose proof (Close_law _ _ _ _ E3) as O3.
  assert (O : ∀ q, q ≠ f -> entries s3 q = entries s q) by (intros q Hq; by rewrite O3, O2, O1).
  assert (Hgive : ∀ (err : error) (e : option error) s4 s', (∀ q, q ≠ f -> q ≠ t -> entries s4 q = entries s q) ->
    entries s4 t ∈ [entries s t; None; Some (EFile (concatChunks chunks))] ->
    (let '(_, s5) := sc_Remove (full +:+ ".partial") s4 in (Some err, s5)) = (e, s') ->
    (∀ q, q ≠ f -> q ≠ t -> entries s' q = entries s q) ∧
    match e with
    | None => src_end = None ∧ entries s' t = Some (EFile (concatChunks chunks))
    | Some _ => entries s' t ∈ [entries s t; None; Some (EFile (concatChunks chunks))]
    end).
  { clear e s'. intros err e s4 s' O4 T4. destruct (sc_Remove _ s4) as [e5 s5] eqn:E5. destruct (Remove_law _ _ _ _ E5) as (O5 & _). fold f in O5.
    intros [= <- <-]. split; [intros q Hq Hq'; rewrite O5 by done; by apply O4|]. by rewrite O5. }
  assert (Hold : entries s3 t ∈ [entries s t; None; Some (EFile (concatChunks chunks))]) by (rewrite O by done; by left).
  destruct copyErr as [err|]; [by apply Hgive; auto|]. destruct closeErr as [err|]; [by apply Hgive; auto|].
  destruct (_ && _); [by apply Hgive; auto|]. destruct (C2 eq_refl) as [-> Cf]. apply ctxReader_whole in Ec as [-> ->].
  rewrite <- O3 in Cf. destruct (rename _ full s3) as [e4 s4] eqn:E4. destruct (rename_spec _ _ _ _ _ _ Hne Cf E4) as (O4 & S4 & D4). fold f t in O4, S4, D4.
  rewrite (O t) in D4 by done. assert (O4' : ∀ q, q ≠ f -> q ≠ t -> entries s4 q = entries s q) by (intros q Hq Hq'; rewrite O4 by done; by apply O).
  destruct e4 as [err|]; [by apply Hgive|]. intros [= <- <-]. split; [done|]. split; [done|]. by apply S4.
Qed.

(** ** The contract *)

Definition sftpObjects (s : St) : Objects := λ k, if decide (uploadKey k) then file s (B ++ k) else None.

Definition sftpAnswers (q : Request) (s : St) (a : Answer) (s' : St) : Prop :=
  match q with
  | RPut k chunks src_end size => ∃ ctx e, Put c ctx (keyPath k) chunks src_end size s = (e, s') ∧ a = APut e
  | RGet k => ∃ r, Get c (keyPath k) s = (r, s') ∧ a = AGet r
  | RDelete k => ∃ e, Delete c (keyPath k) s = (e, s') ∧ a = ADelete e
  | RStat k => ∃ r, Stat c (keyPath k) s = (r, s') ∧ a = AStat r
  end.

Lemma sftpObjects_key s k : uploadKey k -> sftpObjects s k = file s (B ++ k).
Proof. intros H. unfold sftpObjects. by rewrite decide_True. Qed.

Lemma sftp_same s s' : (∀ q, file s' q = file s q) -> unchanged (sftpObjects s) (sftpObjects s').
Proof. intros H k. unfold sftpObjects. by destruct (decide (uploadKey k)). Qed.

Lemma key_elems k : uploadKey k -> remoteElems home (pathOf c k) = B ++ k.
Proof. intros [(Hne & Hk & _) _]. apply pathOf_elems; [apply home_plain|done..]. Qed.

Lemma sftp_Put_contract k ctx chunks src_end size s e s' :
  uploadKey k -> Put c ctx (keyPath k) chunks src_end size s = (e, s') ->
  contract (sftpObjects s) (RPut k chunks src_end size) (APut e) (sftpObjects s').
Proof.
  intros Hk. pose proof Hk as [Hr Hv]. unfold Put. rewrite resolve_pathOf by done.
  set (mk := if bool_decide _ then _ else _). destruct mk as [e1 s1] eqn:E1.
  assert (F1 : ∀ q, file s1 q = file s q).
  { unfold mk in E1. case_bool_decide; [by eapply MkdirAll_law|]. by injection E1 as _ <-. }
  destruct e1 as [err|].
  { intros [= <- <-]. pose proof (sftp_same _ _ F1) as Hs. split; [by intros q _|by left]. }
  intros H. destruct (pathOf_partial home home_plain c k) as (p & Hp & Ep); [by apply Hr..|]. assert (Hne : B ++ p ≠ B ++ k) by (intros E%app_inv_head; by rewrite E, Hv in Hp).
  destruct (upload_spec _ _ _ _ _ _ _ _ _ ltac:(rewrite Ep, key_elems by done; exact Hne) H) as [O D]. rewrite Ep in O. rewrite key_elems in O, D by done.
  assert (HO : othersKept k (sftpObjects s) (sftpObjects s')).
  { intros k' Hk'. unfold sftpObjects. destruct (decide (uploadKey k')) as [[_ Hv']|]; [|done]. rewrite <- F1. apply file_entries, O.
    - intros E%app_inv_head. by rewrite E, Hp in Hv'.
    - by intros E%app_inv_head. }
  destruct e as [err|]; cbn; rewrite ?sftpObjects_key by done.
  - split; [done|]. rewrite <- F1. unfold file. rewrite !elem_of_cons, elem_of_nil in D. destruct D as [->|[->|[->|[]]]]; auto.
  - destruct D as [-> D]. split_and!; [done..|]. by apply file_EFile.
Qed.

Lemma pruneLoop_file fuel dir s q : file (pruneLoop c fuel dir s) q = file s q.
Proof.
  revert dir s. induction fuel as [|fuel IH]; intros dir s; cbn; [done|]. destruct (prunable c dir); [|done].
  destruct (sc_RemoveDirectory dir s) as [e s1] eqn:E. pose proof (RemoveDirectory_law _ _ _ _ E q) as H. destruct e; [done|]. by rewrite IH.
Qed.

(** The directories are cleared: more rounds would change nothing. *)
Lemma remote_pruneLoop_enough fuel more dir s :
  (String.length dir < fuel)%nat -> (fuel <= more)%nat -> pruneLoop c more dir s = pruneLoop c fuel dir s.
Proof.
  revert more dir s. induction fuel as [|fuel IH]; intros more dir s Hlen Hmore; [lia|]. destruct more as [|more]; [lia|]. cbn [pruneLoop].
  destruct (prunable c dir); [|done]. destruct (sc_RemoveDirectory dir s) as [[err|] s1]; [done|].
  assert (Hstop : ∀ m stop s, stop = "." ∨ stop = "/" -> pruneLoop c m stop s = s) by by intros [|m] stop ? [->| ->].
  destruct (Dir_shorter dir) as [E|[E|E]]; [by rewrite !Hstop by (rewrite E; auto)..|]. apply IH; lia.
Qed.

Lemma sftp_Delete_contract k s e s' :
  uploadKey k -> Delete c (keyPath k) s = (e, s') -> contract (sftpObjects s) (RDelete k) (ADelete e) (sftpObjects s').
Proof.
  intros Hk. pose proof Hk as [Hr Hv]. unfold Delete. rewrite resolve_pathOf by done.
  destruct (sc_Remove _ s) as [e1 s1] eqn:E. destruct (Remove_law _ _ _ _ E) as (O & D & S'). rewrite key_elems in O, D, S' by done.
  assert (HO : ∀ s2, (∀ q, file s2 q = file s1 q) -> othersKept k (sftpObjects s) (sftpObjects s2)).
  { intros s2 H2 k' Hk'. unfold sftpObjects. destruct (decide (uploadKey k')); [|done]. rewrite H2. apply file_entries, O. by intros E'%app_inv_head. }
  assert (HN : ∀ s2, (∀ q, file s2 q = file s1 q) -> entries s1 (B ++ k) = None -> sftpObjects s2 k = None).
  { intros s2 H2 H. rewrite sftpObjects_key, H2 by done. unfold file. by rewrite H. }
  destruct e1 as [err|].
  - intros [= <- <-]. destruct (isNotExist err) eqn:En; cbn.
    + split; [by apply HO|]. apply HN; [done|]. apply S'. right. by eexists.
    + split; [by apply HO|]. rewrite !sftpObjects_key by done. unfold file. rewrite !elem_of_cons, elem_of_nil in D. destruct D as [->|[->|[]]]; auto.
  - intros [= <- <-]. assert (HF : ∀ q, file (pruneLoop c (S (String.length (Dir (pathOf c k)))) (Dir (pathOf c k)) s1) q = file s1 q) by (intros q; apply pruneLoop_file).
    cbn. split; [by apply HO|]. apply HN; [done|]. apply S'. by left.
Qed.

Lemma sftp_honours q s a s' : uploadKey (requestKey q) -> sftpAnswers q s a s' -> contract (sftpObjects s) q a (sftpObjects s').
Proof.
  intros Hk H. destruct q as [k chunks src_end size|k|k|k]; cbn in Hk.
  - destruct H as (ctx & e & H & ->). by apply sftp_Put_contract with ctx.
  - destruct H as (r & H & ->). revert H. unfold Get. rewrite resolve_pathOf by apply Hk. destruct (sc_Open _ s) as [x s1] eqn:E.
    apply Open_law in E as [He E]. rewrite key_elems in E by done. intros [= <- <-].
    split; [apply sftp_same; intros q; unfold file; by rewrite He|]. intros rd data Hr. rewrite sftpObjects_key by done.
    intros Hf. destruct x as [f|]; [|done]. injection Hr as ->. by rewrite (E rd data).
  - destruct H as (e & H & ->). by apply sftp_Delete_contract.
  - destruct H as (r & H & ->). revert H. unfold Stat. rewrite resolve_pathOf by apply Hk. destruct (sc_Stat _ s) as [x s1] eqn:E.
    apply Stat_law in E as [He E]. rewrite key_elems in E by done. intros [= <- <-].
    split; [apply sftp_same; intros q; unfold file; by rewrite He|]. intros o data Hr. rewrite sftpObjects_key by done.
    intros Hf. destruct x as [info|]; [|done]. injection Hr as <-. by apply E.
Qed.

#[export] Instance sftpDestination : DestClient St :=
  {| answers := sftpAnswers; objects := sftpObjects; servedKey := λ _ k, uploadKey k;
     honours := sftp_honours; keepsServing := λ _ _ _ _ _ _ _ H, H |}.

End client.

(** C17: the SFTP destination refines the contract of a destination: whatever
    requests are made of it, and whichever calls of the session fail in between,
    its answers and the artifacts below its base are those of a run of the object
    store. *)
Theorem sftp_refines {St : Type} {session : SftpSession St} {server : SftpServer St} c s l s' :
  history (Dn := sftpDestination c) s l s' -> runs (sftpObjects c s) l (sftpObjects c s').
Proof. apply (history_runs (Dn := sftpDestination c)). Qed.

(** ** A server *)

(** A tree in memory, which a session starts at the root of. *)
#[local] Abbreviation Tree := (gmap (list string) Entry).

Definition missing : error := newError "file does not exist".

Definition refused : error := newError "failure".

Definition tree_move (overwrite : bool) (from to : string) (s : Tree) : option error * Tree :=
  let f := remoteElems [] from in let t := remoteElems [] to in
  match s !! f, s !! t with
  | None, _ => (Some missing, s)
  | Some _, Some EDir => (Some refused, s)
  | Some e, Some (EFile _) => if overwrite then (None, <[t := e]> (delete f s)) else (Some refused, s)
  | Some e, None => (None, <[t := e]> (delete f s))
  end.

#[export] Instance treeSession : SftpSession Tree := {|
  sc_MkdirAll p s := match s !! remoteElems [] p with None => (None, <[remoteElems [] p := EDir]> s) | Some EDir => (None, s) | _ => (Some refused, s) end;
  sc_Create p s := match s !! remoteElems [] p with Some EDir => (Some refused, s) | _ => (None, <[remoteElems [] p := EFile ""]> s) end;
  f_ReadFrom p size chunks src_end s :=
    ((Z.of_nat (String.length (concatChunks chunks)), src_end), <[remoteElems [] p := EFile (concatChunks chunks)]> s);
  f_Write p b s := match s !! remoteElems [] p with Some (EFile old) => (None, <[remoteElems [] p := EFile (old +:+ b)]> s) | _ => (Some missing, s) end;
  f_Close p s := (None, s);
  sc_Remove p s := match s !! remoteElems [] p with
                   | None => (Some missing, s) | Some EDir => (Some refused, s) | Some (EFile _) => (None, delete (remoteElems [] p) s) end;
  sc_RemoveDirectory p s := match s !! remoteElems [] p with
                            | Some EDir =>
                                if decide (map_Forall (λ q _, q = remoteElems [] p ∨ ~ remoteElems [] p `prefix_of` q) s)
                                then (None, delete (remoteElems [] p) s) else (Some refused, s)
                            | _ => (Some missing, s) end;
  sc_PosixRename := tree_move true;
  sc_Rename := tree_move false;
  sc_Open p s := (match s !! remoteElems [] p with Some (EFile data) => Ok (fullReader data) | _ => Fail missing end, s);
  sc_Stat p s := (match s !! remoteElems [] p with
                  | Some (EFile data) => Ok (mkFileInfo (Z.of_nat (String.length data)) zeroTime false)
                  | Some EDir => Ok (mkFileInfo 4096 zeroTime true)
                  | None => Fail missing end, s);
  sc_Walk p s := ((λ kv, mkWalkStep (rooted kv.1) None (Some (match kv.2 with
                    | EFile data => mkFileInfo (Z.of_nat (String.length data)) zeroTime false | EDir => mkFileInfo 4096 zeroTime true end)))
                   <$> filter (λ kv, remoteElems [] p `prefix_of` kv.1) (map_to_list s), s);
  asStatusError _ := None
|}.

Definition fileOf (e : option Entry) : option string := match e with Some (EFile data) => Some data | _ => None end.

Lemma tree_file (s : Tree) p e : fileOf (s !! p) = None -> fileOf (Some e) = None ->
  ∀ q, fileOf (<[p := e]> s !! q) = fileOf (s !! q).
Proof.
  intros Hs He q. destruct (decide (q = p)) as [->|Hq]; [by rewrite lookup_insert_eq, Hs|by rewrite lookup_insert_ne].
Qed.

Lemma tree_move_law over from to s e s' : tree_move over from to s = (e, s') ->
  let f := remoteElems [] from in let t := remoteElems [] to in
  f ≠ t ->
  (∀ q, q ≠ f -> q ≠ t -> s' !! q = s !! q) ∧
  (s' !! f = s !! f ∧ s' !! t = s !! t ∨ is_Some (s !! f) ∧ s' !! f = None ∧ s' !! t = s !! f) ∧
  (e = None -> is_Some (s !! f) ∧ s' !! t = s !! f).
Proof.
  unfold tree_move. cbv zeta. set (f := remoteElems [] from). set (t := remoteElems [] to). intros H Hne.
  assert (HM : ∀ x, s !! f = Some x -> (None, <[t := x]> (delete f s)) = (e, s') ->
    (∀ q, q ≠ f -> q ≠ t -> s' !! q = s !! q) ∧
    (s' !! f = s !! f ∧ s' !! t = s !! t ∨ is_Some (s !! f) ∧ s' !! f = None ∧ s' !! t = s !! f) ∧
    (e = None -> is_Some (s !! f) ∧ s' !! t = s !! f)).
  { intros x Hx [= <- <-]. rewrite Hx, lookup_insert_eq. split_and!; [|right; rewrite lookup_insert_ne, lookup_delete_eq by done; eauto|eauto].
    intros q Hf Ht. by rewrite lookup_insert_ne, lookup_delete_ne. }
  destruct (s !! f) as [x|] eqn:Ef.
  2: { injection H as <- <-. rewrite Ef. split_and!; [done|by left|done]. }
  destruct (s !! t) as [[data|]|] eqn:Et; [|injection H as <- <-; split_and!; [done|left; by rewrite Ef|done]|by eapply HM].
  destruct over; [by eapply HM|]. injection H as <- <-. split_and!; [done|left; by rewrite Ef|done].
Qed.

#[export] Instance treeServer : SftpServer Tree.
Proof.
  refine {| home := []; home_plain := Forall_nil_2 _; entries := λ s p, s !! p |}; cbn; unfold isNotExist; intros *.
  - destruct (s !! _) as [[]|] eqn:E; intros [= <- <-]; try done. apply (tree_file s _ EDir); [by rewrite E|done].
  - destruct (s !! _) as [[]|]; intros [= <- <-] q Hq; by rewrite ?lookup_insert_ne.
  - intros size chunks src_end s n e s' [= _ <- <-]. split; [intros q Hq; by apply lookup_insert_ne|]. intros ->. split; [done|apply lookup_insert_eq].
  - destruct (s !! _) as [[]|]; intros [= <- <-] q Hq; by rewrite ?lookup_insert_ne.
  - by intros p s e s' [= <- <-].
  - destruct (s !! remoteElems [] p) as [[data|]|] eqn:E; intros [= <- <-].
    + rewrite lookup_delete_eq. split_and!; [intros q Hq; by apply lookup_delete_ne|set_solver|done].
    + rewrite E. split_and!; [done|set_solver|]. intros [?|(err & [= <-] & H)]; done.
    + rewrite E. split_and!; [done|set_solver|done].
  - destruct (s !! _) as [[data|]|] eqn:E; [by intros [= <- <-]| |by intros [= <- <-]].
    case_decide; intros [= <- <-]; [|done]. intros q. destruct (decide (q = remoteElems [] p)) as [->|Hq].
    + by rewrite lookup_delete_eq, E.
    + by rewrite lookup_delete_ne.
  - intros H Hne _. destruct posix; by apply (tree_move_law _ _ _ _ _ _ H).
  - intros [= <- <-]. split; [done|]. intros rd data. destruct (s !! _) as [[d|]|]; [|done..]. by intros [= <-] [= <-].
  - intros [= <- <-]. split; [done|]. intros info data. destruct (s !! _) as [[d|]|]; [|done..]. by intros [= <-] [= <-].
Defined.

(** An upload over an old artifact, and the deletion of one that is not there. *)
Lemma sftp_refines_witness :
  let c := mkClient "backups" in let k := ["db"; "a.tar.gz"] in let k' := ["db"; "b.tar.gz"] in
  let s : Tree := {[ ["backups"; "db"; "a.tar.gz"] := EFile "old"; ["backups"; "db"] := EDir ]} in
  let s1 := (Put c (λ _, None) (keyPath k) ["new "; "data"] None 8 s).2 in
  let s2 := (Delete c (keyPath k') s1).2 in
  runs (sftpObjects c s) [(RPut k ["new "; "data"] None 8, APut None); (RDelete k', ADelete None)] (sftpObjects c s2).
Proof.
  intros c k k' s s1 s2. apply sftp_refines. eapply (history_cons _ _ _ s1); [decided| |].
  - exists (λ _, None), None. split; [|done]. assert (Hx : (Put c (λ _, None) (keyPath k) ["new "; "data"] None 8 s).1 = None) by by vm_compute.
    rewrite <- Hx. apply surjective_pairing.
  - eapply (history_cons _ _ _ s2); [decided| |constructor].
    exists None. split; [|done]. assert (Hx : (Delete c (keyPath k') s1).1 = None) by by vm_compute.
    rewrite <- Hx. apply surjective_pairing.
Defined.
