(* ===== verification/Startup.v ===== *)
(** * The start of the program: [internal/config], [internal/secrets/key.go],
      [cmd/backvault/serve.go], and the retries of [cmd/backvault/push.go]

    What the process is started with, where its master key comes from and how it
    is installed, and how the command line repeats an upload.  The YAML decoder,
    the environment and the working directory are those of a class; the files
    are those of [FileSystem]. *)
From S2P Require Import Prelude GoStrings GoTime GoPath GoHttp Core Config Secrets Pack Spool FileSystem Slug Remote.
Open Scope Z_scope.

(** ** [config.go] *)

Module Settings.

Definition DefaultListen : string := ":8080".
Definition DefaultDataDir : string := "./data".
Definition DefaultLogLevel : string := "info".
Definition DefaultLogFormat : string := "text".

(** [config.Config]. *)
Record Conf := mkConf {
  Listen : string; DataDir : string; WorkDir : string; MasterKey : string; MasterKeyFile : string; BaseURL : string; LogLevel : string;
  LogFormat : string; AdminEmail : string; AdminPassword : string; TrustedProxies : list string; MetricsToken : string; ConfigFile : string
}.

Record Flags := mkFlags {
  fl_ConfigFile : string; fl_Listen : string; fl_DataDir : string; fl_WorkDir : string; fl_BaseURL : string; fl_LogLevel : string; fl_LogFormat : string
}.

Definition Default : Conf := mkConf DefaultListen DefaultDataDir "" "" "" "" DefaultLogLevel DefaultLogFormat "" "" [] "" "".

(** What a start reads besides files: the environment, the YAML of a file over
    the configuration before it, and the working directory. *)
Class Surroundings := {
  LookupEnv : string -> option string;
  decodeYAML : string -> Conf -> option error * Conf;
  Getwd : result string
}.

Section load.
  Context {surroundings : Surroundings}.

Definition Getenv (name : string) : string := default "" (LookupEnv name).

(** [setFlag], and [setString] with what the environment holds. *)
Definition setFlag (dst v : string) : string := if Blank v then dst else TrimSpace v.

Definition setString (dst env : string) : string :=
  match LookupEnv env with Some v => setFlag dst v | None => dst end.

Definition listSeparator (a : ascii) : bool := Ascii.eqb a "," || Ascii.eqb a " " || Ascii.eqb a (byte_of 10).

Definition splitList (v : string) : list string := trimmed (FieldsFunc v listSeparator).

Definition loadFile (cfg : Conf) (path : string) : FS (option error * Conf) :=
  r ← readFile path;
  mret match r with
       | Fail err => (Some (wrapError ("read config file " +:+ path) err), cfg)
       | Ok data =>
           let '(e, cfg) := decodeYAML data cfg in
           (match e with Some err => Some (wrapError ("parse config file " +:+ path) err) | None => None end, cfg)
       end.

Definition applyEnv (c : Conf) : Conf :=
  let proxies := TrimSpace (Getenv "BACKVAULT_TRUSTED_PROXIES") in
  mkConf (setString (Listen c) "BACKVAULT_LISTEN") (setString (DataDir c) "BACKVAULT_DATA_DIR") (setString (WorkDir c) "BACKVAULT_WORK_DIR")
    (setString (MasterKey c) "BACKVAULT_MASTER_KEY") (setString (MasterKeyFile c) "BACKVAULT_MASTER_KEY_FILE") (setString (BaseURL c) "BACKVAULT_BASE_URL")
    (setString (LogLevel c) "BACKVAULT_LOG_LEVEL") (setString (LogFormat c) "BACKVAULT_LOG_FORMAT") (setString (AdminEmail c) "BACKVAULT_ADMIN_EMAIL")
    (setString (AdminPassword c) "BACKVAULT_ADMIN_PASSWORD") (if bool_decide (proxies ≠ "") then splitList proxies else TrustedProxies c)
    (setString (MetricsToken c) "BACKVAULT_METRICS_TOKEN") (ConfigFile c).

Definition applyFlags (c : Conf) (f : Flags) : Conf :=
  mkConf (setFlag (Listen c) (fl_Listen f)) (setFlag (DataDir c) (fl_DataDir f)) (setFlag (WorkDir c) (fl_WorkDir f)) (MasterKey c) (MasterKeyFile c)
    (setFlag (BaseURL c) (fl_BaseURL f)) (setFlag (LogLevel c) (fl_LogLevel f)) (setFlag (LogFormat c) (fl_LogFormat f)) (AdminEmail c) (AdminPassword c)
    (TrustedProxies c) (MetricsToken c) (ConfigFile c).

(** [filepath.Abs]. *)
Definition Abs (p : string) : result string :=
  if IsAbs p then Ok (Clean p)
  else match Getwd with Fail err => Fail err | Ok wd => Ok (PathJoin [wd; p]) end.

Definition orDefault (v def : string) : string := if bool_decide (v = "") then def else v.

Definition trimSlashes (s : string) : string := TrimRightByte "/" s.

Definition normalize (c : Conf) : result Conf :=
  let dataDir := orDefault (TrimSpace (DataDir c)) DefaultDataDir in
  let? data := Abs dataDir else err => Fail (wrapError ("resolve data dir " +:+ dataDir) err) in
  let workDir := orDefault (TrimSpace (WorkDir c)) (PathJoin [data; "work"]) in
  let? work := Abs workDir else err => Fail (wrapError ("resolve work dir " +:+ workDir) err) in
  let keyFile := orDefault (TrimSpace (MasterKeyFile c)) (PathJoin [data; "master.key"]) in
  let? key := Abs keyFile else err => Fail (wrapError ("resolve master key file " +:+ keyFile) err) in
  Ok (mkConf (orDefault (TrimSpace (Listen c)) DefaultListen) data work (MasterKey c) key (trimSlashes (TrimSpace (BaseURL c)))
        (orDefault (ToLower (TrimSpace (LogLevel c))) DefaultLogLevel) (orDefault (ToLower (TrimSpace (LogFormat c))) DefaultLogFormat)
        (AdminEmail c) (AdminPassword c) (TrustedProxies c) (MetricsToken c) (ConfigFile c)).

Definition Validate (c : Conf) : option error :=
  if negb (bool_decide (LogLevel c ∈ ["debug"; "info"; "warn"; "error"]))
  then Some (newError ("invalid log_level " +:+ Quote (LogLevel c) +:+ ": want debug, info, warn or error"))
  else if negb (bool_decide (LogFormat c ∈ ["text"; "json"])) then Some (newError ("invalid log_format " +:+ Quote (LogFormat c) +:+ ": want text or json"))
  else if bool_decide (BaseURL c ≠ "") && negb (HasPrefix (BaseURL c) "http://") && negb (HasPrefix (BaseURL c) "https://")
  then Some (newError ("invalid base_url " +:+ Quote (BaseURL c) +:+ ": must start with http:// or https://"))
  else if negb (ContainsByte (Listen c) ":") then Some (newError ("invalid listen address " +:+ Quote (Listen c) +:+ ": want host:port"))
  else if negb (Bool.eqb (bool_decide (AdminEmail c = "")) (bool_decide (AdminPassword c = "")))
  then Some (newError "admin_email and admin_password must be set together")
  else None.

Definition withConfigFile (path : string) (c : Conf) : Conf :=
  mkConf (Listen c) (DataDir c) (WorkDir c) (MasterKey c) (MasterKeyFile c) (BaseURL c) (LogLevel c) (LogFormat c) (AdminEmail c) (AdminPassword c)
    (TrustedProxies c) (MetricsToken c) path.

(** The file that is read, when one is named. *)
Definition configPath (f : Flags) : string :=
  let path := TrimSpace (fl_ConfigFile f) in
  if bool_decide (path = "") then TrimSpace (Getenv "BACKVAULT_CONFIG") else path.

Definition fromFile (f : Flags) : FS (result Conf) :=
  let path := configPath f in
  if bool_decide (path ≠ "") then
    r ← loadFile Default path;
    mret match r with
         | (Some err, _) => Fail err
         | (None, cfg) => Ok (withConfigFile path cfg)
         end
  else mret (Ok Default).

(** What is made of the file: the environment over it, the flags over both. *)
Definition settle (cfg : Conf) (f : Flags) : result Conf :=
  let? cfg := normalize (applyFlags (applyEnv cfg) f) else err => Fail err in
  match Validate cfg with Some err => Fail err | None => Ok cfg end.

Definition Load (f : Flags) : FS (result Conf) :=
  try? cfg := fromFile f else err => mret (Fail err) in
  mret (settle cfg f).

End load.

Definition DatabasePath (c : Conf) : string := PathJoin [DataDir c; "backvault.db"].

Fixpoint ensureDirs (l : list string) : FS (option error) :=
  match l with
  | [] => mret None
  | dir :: l =>
      e ← MkdirAll dir;
      match e with Some err => mret (Some (wrapError ("create directory " +:+ dir) err)) | None => ensureDirs l end
  end.

Definition EnsureDirs (c : Conf) : FS (option error) := ensureDirs [DataDir c; WorkDir c; Dir (MasterKeyFile c)].

Definition orNone (v : string) : string := if Blank v then "(none)" else v.
Definition yesNo (v : bool) : string := if v then "yes" else "no".

Definition Summary (c : Conf) : list (string * string) :=
  [("config file", orNone (ConfigFile c)); ("listen", Listen c); ("data dir", DataDir c); ("work dir", WorkDir c); ("database", DatabasePath c);
   ("master key file", MasterKeyFile c); ("master key from env", yesNo (bool_decide (MasterKey c ≠ ""))); ("base url", orNone (BaseURL c));
   ("log level", LogLevel c); ("log format", LogFormat c); ("trusted proxies", orNone (StrJoin (TrustedProxies c) ", "));
   ("metrics token", yesNo (bool_decide (MetricsToken c ≠ ""))); ("bootstrap admin", orNone (AdminEmail c))].

End Settings.

(** ** [key.go] *)

Module Key.

Definition KeySize : nat := 32.

(** [hex.DecodeString] and [hex.EncodeToString]. *)
Fixpoint hexDecode (s : string) : option string :=
  match s with
  | "" => Some ""
  | String a (String b s) => h ← unhex a; l ← unhex b; rest ← hexDecode s; Some (String (byte_of (h * 16 + l)) rest)
  | String _ "" => None
  end.

Fixpoint hexEncode (s : string) : string :=
  match s with "" => "" | String a s => String (hex_digit (code a / 16)) (String (hex_digit (code a mod 16)) (hexEncode s)) end.

(** The alphabet of [URLEncoding] in terms of the standard one. *)
Definition fromURL (a : ascii) : option ascii :=
  if Ascii.eqb a "-" then Some "+"%char else if Ascii.eqb a "_" then Some "/"%char
  else if Ascii.eqb a "+" || Ascii.eqb a "/" then None else Some a.

Fixpoint mapAlphabet (s : string) : option string :=
  match s with "" => Some "" | String a s => b ← fromURL a; rest ← mapAlphabet s; Some (String b rest) end.

Definition stripPadding (s : string) : option string :=
  if negb (Nat.eqb (Nat.modulo (String.length s) 4) 0) then None
  else Some (if HasSuffix s "==" then TrimSuffix s "==" else TrimSuffix s "=").

(** [DecodeString] of the four encodings. *)
Definition decode64 (url padded : bool) (s : string) : option string :=
  s ← (if padded then stripPadding (drop_newlines s) else Some (drop_newlines s));
  s ← (if url then mapAlphabet s else Some s);
  b64_decode s.

Definition sized (raw : option string) : option string :=
  match raw with Some key => if (String.length key =? KeySize)%nat then Some key else None | None => None end.

Definition ParseKey (value : string) : result string :=
  let v := TrimSpace value in
  if bool_decide (v = "") then Fail (newError "master key is empty")
  else
    match head (omap id (sized <$> [hexDecode v; decode64 false true v; decode64 false false v; decode64 true true v; decode64 true false v])) with
    | Some key => Ok key
    | None => Fail (newError ("master key must be " +:+ Itoa (Z.of_nat KeySize) +:+ " bytes encoded as hex or base64"))
    end.

(** [rand] is what [rand.Read] fills the key with. *)
Definition GenerateKey (rand : result string) : result string :=
  match rand with Ok key => Ok key | Fail err => Fail (wrapError "generate master key" err) end.

Definition newline : string := schar (byte_of 10).

Definition writeKeyFile (path key : string) : FS (option error) :=
  e ← MkdirAll (Dir path);
  match e with
  | Some err => mret (Some (wrapError ("create master key directory " +:+ Dir path) err))
  | None =>
      let tmp := path +:+ ".tmp" in
      e ← writeFile tmp (hexEncode key +:+ newline);
      match e with
      | Some err => mret (Some (wrapError ("write master key file " +:+ path) err))
      | None =>
          try? _ := Rename tmp path else err => _ ← Remove tmp; mret (Some (wrapError ("install master key file " +:+ path) err)) in
          touch   (* os.Chmod *)
      end
  end.

Definition LoadKey (envValue path : string) (rand : result string) : FS (result string) :=
  if negb (Blank envValue) then
    mret (match ParseKey envValue with Ok key => Ok key | Fail err => Fail (wrapError "master key from environment" err) end)
  else
    r ← readFile path;
    match r with
    | Ok data => mret (match ParseKey data with Ok key => Ok key | Fail err => Fail (wrapError ("master key file " +:+ path) err) end)
    | Fail err =>
        if errorsIs err ErrNotExist then
          match GenerateKey rand with
          | Fail err => mret (Fail err)
          | Ok key =>
              e ← writeKeyFile path key;
              mret (match e with Some err => Fail err | None => Ok key end)
          end
        else mret (Fail (wrapError ("read master key file " +:+ path) err))
    end.

End Key.

(** ** [serve.go]: up to the key *)

Section prepare.
  Context {surroundings : Settings.Surroundings}.

(** The configuration and the key of a start, or why there is none. *)
Definition prepare (f : Settings.Flags) (rand : result string) : FS (result (Settings.Conf * string)) :=
  try? cfg := Settings.Load f else err => mret (Fail err) in
  e ← Settings.EnsureDirs cfg;
  match e with
  | Some err => mret (Fail err)
  | None =>
      try? key := Key.LoadKey (Settings.MasterKey cfg) (Settings.MasterKeyFile cfg) rand else err => mret (Fail err) in
      mret (Ok (cfg, key))
  end.

End prepare.

(** ** [client.go] and [push.go] *)

Module Push.

Definition endpoint (base path : string) : string :=
  if HasPrefix path "/api/" then base +:+ path else base +:+ "/api/v1" +:+ path.

(** [BACKVAULT_URL] as [New] takes it. *)
Definition baseURL (env : string) : string :=
  let base := TrimRightByte "/" (TrimSpace env) in if bool_decide (base = "") then "http://localhost:8080" else base.

(** What one upload comes to: the run, an error of the server with its status,
    or another error. *)
Inductive Attempt := Pushed (runID : string) | Refused (status : Z) (err : error) | Broken (err : error).

Definition final (status : Z) : bool := (status <? 500) && negb (status =? 423).

Definition maxWait : Z := 5 * Minute.

(** The pause before an attempt; a shift by 64 places or more gives nothing. *)
Definition waitBefore (retryDelay : Z) (attempt : Z) : Z :=
  let shift := attempt - 2 in
  let wait := wrap64 (retryDelay * (if 64 <=? shift then 0 else wrap64 (2 ^ shift))) in
  if maxWait <? wait then maxWait else wait.

Section push.
  (** What the [n]-th attempt comes to, and whether the command is cancelled in
      the pause before it. *)
  Context (pushOnce : Z -> Attempt) (canceled : Z -> option error).

(** The attempts from one on: the run and the pauses, or the error. *)
Fixpoint attempts (tries : nat) (attempt retryDelay : Z) (last : option error) : (string + option error) * list Z :=
  match tries with
  | O => (inr last, [])
  | S tries =>
      let wait := waitBefore retryDelay attempt in
      let pause := if 1 <? attempt then [wait] else [] in
      match (if 1 <? attempt then canceled attempt else None) with
      | Some err => (inr (Some err), pause)
      | None =>
          match pushOnce attempt with
          | Pushed runID => (inl runID, pause)
          | Refused status err =>
              if final status then (inr (Some err), pause)
              else let '(r, l) := attempts tries (attempt + 1) retryDelay (Some err) in (r, pause ++ l)
          | Broken err => let '(r, l) := attempts tries (attempt + 1) retryDelay (Some err) in (r, pause ++ l)
          end
      end
  end.

Definition push (retries retryDelay : Z) : (string + option error) * list Z :=
  attempts (Z.to_nat (wrap64 (retries + 1))) 1 retryDelay None.

End push.
End Push.

(** * Trimming twice *)

Section trimming.

Lemma space_long p : p ∈ space_runes -> (0 < String.length p)%nat.
Proof.
  intros H. assert (E : forallb (λ p, (0 <? String.length p)%nat) space_runes = true) by by vm_compute.
  rewrite forallb_forall in E. apply list_elem_of_In in H. specialize (E _ H). by boolean.
Qed.

Lemma find_none_all {A} (f : A -> bool) l : List.find f l = None <-> ∀ x, x ∈ l -> f x = false.
Proof.
  split; [intros H x Hx; apply list_elem_of_In in Hx; by eapply find_none|].
  induction l as [|x l IH]; intros H; [done|]. cbn [List.find]. rewrite (H x) by by left. apply IH. intros y Hy. apply H. by right.
Qed.

Definition noLead (s : string) : Prop := List.find (HasPrefix s) space_runes = None.
Definition noTrail (s : string) : Prop := List.find (HasSuffix s) space_runes = None.

Lemma noLead_stake k s : noLead s -> noLead (stake k s).
Proof.
  unfold noLead. rewrite !find_none_all. intros H p Hp. destruct (HasPrefix (stake k s) p) eqn:E; [|done].
  apply HasPrefix_spec in E as [t E]. rewrite <- (stake_sdrop k s), E, sapp_assoc in H. specialize (H p Hp). by rewrite HasPrefix_app in H.
Qed.

Lemma trim_left_noLead n s : (String.length s <= n)%nat -> noLead (trim_left_fuel n s).
Proof.
  revert s. induction n as [|n IH]; intros s H; [by destruct s; [vm_compute|cbn in H; lia]|].
  cbn [trim_left_fuel]. destruct (List.find (HasPrefix s) space_runes) as [p|] eqn:E; [|done].
  apply find_some in E as [Hp E]. apply list_elem_of_In, space_long in Hp. apply HasPrefix_spec in E as [t ->]. rewrite sdrop_app. apply IH.
  rewrite sapp_length in H. lia.
Qed.

Lemma trim_right_spec n s : (String.length s <= n)%nat -> noTrail (trim_right_fuel n s) ∧ (noLead s -> noLead (trim_right_fuel n s)).
Proof.
  revert s. induction n as [|n IH]; intros s H; [by destruct s; [vm_compute|cbn in H; lia]|].
  cbn [trim_right_fuel]. destruct (List.find (HasSuffix s) space_runes) as [p|] eqn:E; [|done].
  apply find_some in E as [Hp E]. apply list_elem_of_In, space_long in Hp. apply HasSuffix_spec in E as [t ->].
  rewrite sapp_length in *. destruct (IH (stake (String.length t + String.length p - String.length p) (t +:+ p))) as [I1 I2].
  { replace (_ + _ - _)%nat with (String.length t) by lia. rewrite stake_app. lia. }
  split; [done|]. intros L. by apply I2, noLead_stake.
Qed.

Lemma TrimSpace_settled s : noLead s -> noTrail s -> TrimSpace s = s.
Proof.
  intros L R. unfold TrimSpace. assert (E : ∀ n, trim_left_fuel n s = s) by (intros [|n]; [done|]; cbn [trim_left_fuel]; by rewrite L).
  rewrite E. destruct (String.length s); [done|]. cbn [trim_right_fuel]. by rewrite R.
Qed.

Lemma TrimSpace_trimmed s : noLead (TrimSpace s) ∧ noTrail (TrimSpace s).
Proof.
  unfold TrimSpace. set (l := trim_left_fuel _ s). destruct (trim_right_spec (String.length l) l) as [H1 H2]; [done|].
  split; [|done]. by apply H2, trim_left_noLead.
Qed.

Lemma TrimSpace_idemp s : TrimSpace (TrimSpace s) = TrimSpace s.
Proof. destruct (TrimSpace_trimmed s). by apply TrimSpace_settled. Qed.

End trimming.

(** * What the configuration is made of *)

Module SettingsFacts.
Import Settings.

(** The first value that is not blank, trimmed. *)
Definition pick (values : list string) (def : string) : string :=
  match List.find (λ v, negb (Blank v)) values with Some v => TrimSpace v | None => def end.

Section load.
  Context {surroundings : Surroundings}.

Lemma setString_env dst env : setString dst env = setFlag dst (Getenv env).
Proof. unfold setString, Getenv. destruct (LookupEnv env); [done|]. unfold setFlag. by vm_compute (Blank _). Qed.

Lemma Blank_trim s : Blank s = bool_decide (TrimSpace s = "").
Proof. done. Qed.

Lemma orDefault_pick flag env file def :
  orDefault (TrimSpace (setFlag (setString file env) flag)) def = pick [flag; Getenv env; file] def.
Proof.
  rewrite setString_env. unfold pick, orDefault, setFlag, Blank. cbn [List.find].
  assert (K : ∀ s, TrimSpace s ≠ "" -> bool_decide (TrimSpace (TrimSpace s) = "") = false) by (intros s; rewrite TrimSpace_idemp; apply bool_decide_eq_false_2).
  destruct (bool_decide_reflect (TrimSpace flag = "")); cbn [negb]; [|by rewrite K, TrimSpace_idemp].
  destruct (bool_decide_reflect (TrimSpace (Getenv env) = "")); cbn [negb]; [|by rewrite K, TrimSpace_idemp].
  by destruct (bool_decide_reflect (TrimSpace file = "")).
Qed.

Lemma orDefault_pick2 env file def : orDefault (TrimSpace (setString file env)) def = pick [Getenv env; file] def.
Proof. exact (orDefault_pick "" env file def). Qed.

Lemma ToLower_empty s : ToLower s = "" <-> s = "".
Proof. by destruct s. Qed.

Lemma orDefault_lower s def : ToLower def = def -> orDefault (ToLower s) def = ToLower (orDefault s def).
Proof.
  intros H. unfold orDefault. destruct (bool_decide_reflect (s = "")) as [->|E]; [done|].
  by rewrite bool_decide_eq_false_2 by by rewrite ToLower_empty.
Qed.

Lemma Abs_spec p q : (∀ wd, Getwd = Ok wd -> IsAbs wd = true) -> Abs p = Ok q -> IsAbs q = true.
Proof.
  intros Hwd. unfold Abs. destruct (IsAbs p) eqn:E.
  - intros [= <-]. apply Clean_rooted in E as (l & -> & _). apply HasPrefix_app.
  - destruct Getwd as [wd|err]; [|done]. specialize (Hwd wd eq_refl). intros [= <-]. unfold PathJoin.
    assert (Hne : wd ≠ "") by by intros ->. rewrite filter_cons_True by done. rewrite bool_decide_eq_false_2 by done.
    match goal with |- IsAbs (Clean ?x) = true => assert (HA : IsAbs x = true) end.
    { unfold IsAbs in *. apply HasPrefix_spec in Hwd as [t ->]. destruct (filter _ _); cbn [StrJoin]; rewrite ?sapp_assoc; apply HasPrefix_app. }
    apply Clean_rooted in HA as (l & -> & _). apply HasPrefix_app.
Qed.

Lemma Validate_spec c : Validate c = None ->
  LogLevel c ∈ ["debug"; "info"; "warn"; "error"] ∧ LogFormat c ∈ ["text"; "json"]
  ∧ (BaseURL c = "" ∨ HasPrefix (BaseURL c) "http://" = true ∨ HasPrefix (BaseURL c) "https://" = true)
  ∧ ContainsByte (Listen c) ":" = true ∧ (AdminEmail c = "" <-> AdminPassword c = "").
Proof.
  unfold Validate. repeat (case_match; [done|]). intros _. boolean. split_and!; try done.
  - destruct (HasPrefix (BaseURL c) "http://"); [tauto|]. destruct (HasPrefix (BaseURL c) "https://"); [tauto|]. left.
    destruct (bool_decide_reflect (BaseURL c ≠ "")) as [E|E]; [done|by apply dec_stable].
  - by destruct (bool_decide_reflect (AdminEmail c = "")), (bool_decide_reflect (AdminPassword c = "")).
Qed.

(** A flag goes before the environment, the environment before the file, the file
    before the default; what is settled is valid, and its directories absolute. *)
(** A setting is the flag when one is given, else the environment, else the file, else the default, each trimmed; a configuration that is accepted names known levels and formats, an address with a port, both or neither of the administrator's email and password, and absolute directories below which the rest is found. *)
Theorem Load_precedence (cfg c : Conf) (f : Flags) :
  (∀ wd, Getwd = Ok wd -> IsAbs wd = true) ->
  settle cfg f = Ok c ->
  Listen c = pick [fl_Listen f; Getenv "BACKVAULT_LISTEN"; Listen cfg] DefaultListen
  ∧ LogLevel c = ToLower (pick [fl_LogLevel f; Getenv "BACKVAULT_LOG_LEVEL"; LogLevel cfg] DefaultLogLevel)
  ∧ LogFormat c = ToLower (pick [fl_LogFormat f; Getenv "BACKVAULT_LOG_FORMAT"; LogFormat cfg] DefaultLogFormat)
  ∧ Abs (pick [fl_DataDir f; Getenv "BACKVAULT_DATA_DIR"; DataDir cfg] DefaultDataDir) = Ok (DataDir c)
  ∧ Abs (pick [fl_WorkDir f; Getenv "BACKVAULT_WORK_DIR"; WorkDir cfg] (PathJoin [DataDir c; "work"])) = Ok (WorkDir c)
  ∧ Abs (pick [Getenv "BACKVAULT_MASTER_KEY_FILE"; MasterKeyFile cfg] (PathJoin [DataDir c; "master.key"])) = Ok (MasterKeyFile c)
  ∧ Forall (λ p, IsAbs p = true) [DataDir c; WorkDir c; MasterKeyFile c]
  ∧ LogLevel c ∈ ["debug"; "info"; "warn"; "error"] ∧ LogFormat c ∈ ["text"; "json"]
  ∧ (BaseURL c = "" ∨ HasPrefix (BaseURL c) "http://" = true ∨ HasPrefix (BaseURL c) "https://" = true)
  ∧ ContainsByte (Listen c) ":" = true
  ∧ (AdminEmail c = "" <-> AdminPassword c = "").
Proof.
  intros Hwd. unfold settle, normalize. cbn [applyFlags applyEnv Listen DataDir WorkDir MasterKeyFile BaseURL LogLevel LogFormat].
  rewrite !orDefault_pick. destruct (Abs (pick _ DefaultDataDir)) as [data|err] eqn:Ed; [|done].
  rewrite !orDefault_pick. destruct (Abs (pick _ (PathJoin [data; "work"]))) as [work|err] eqn:Ew; [|done].
  rewrite orDefault_pick2. destruct (Abs (pick _ (PathJoin [data; "master.key"]))) as [key|err] eqn:Ek; [|done].
  rewrite !orDefault_lower, !orDefault_pick by done. destruct (Validate _) eqn:V; [done|]. intros [= <-].
  apply Validate_spec in V as (V1 & V2 & V3 & V4 & V5). cbn [Listen DataDir WorkDir MasterKeyFile BaseURL LogLevel LogFormat AdminEmail AdminPassword] in *.
  split_and!; try done. repeat constructor; by eapply Abs_spec.
Qed.
End load.

(** A container with two variables, a file with a level and a flag. *)
#[local] Instance container : Surroundings := {|
  LookupEnv name := if String.eqb name "BACKVAULT_LISTEN" then Some " 0.0.0.0:9000 " else if String.eqb name "BACKVAULT_LOG_LEVEL" then Some " " else None;
  decodeYAML _ c := (None, c);
  Getwd := Ok "/srv"
|}.

Definition fileConf : Conf := mkConf ":1" "data/../var" "" "" "" "https://b.example/" "WARN" "text" "" "" [] "" "".
Definition someFlags : Flags := mkFlags "" "" "" "/tmp/work/" "" "" " JSON ".
Definition settled : Conf :=
  mkConf "0.0.0.0:9000" "/srv/var" "/tmp/work" "" "/srv/var/master.key" "https://b.example" "warn" "json" "" "" [] "" "".

Lemma Load_precedence_witness : settle fileConf someFlags = Ok settled ∧ IsAbs (WorkDir settled) = true.
Proof.
  split; [by vm_compute|].
  destruct (Load_precedence fileConf settled someFlags) as (_ & _ & _ & _ & _ & _ & H & _); [by intros wd [= <-]|by vm_compute|].
  apply Forall_cons in H as [_ H]. by apply Forall_cons in H as [H _].
Defined.

End SettingsFacts.

(** * The key *)

Module KeyFacts.
Import Key.

Lemma unhex_hex_digit n : (n < 16)%N -> unhex (hex_digit n) = Some n.
Proof. intros H. destruct n as [|p]; [done|]. do 4 (destruct p as [p|p|]; [| |done]); lia. Qed.

Lemma hexDecode_hexEncode s : hexDecode (hexEncode s) = Some s.
Proof.
  induction s as [|a s IH]; [done|]. cbn [hexEncode hexDecode]. pose proof (N_ascii_bounded a) as Ha.
  rewrite !unhex_hex_digit by (unfold code; first [apply N.mod_lt; lia|apply N.Div0.div_lt_upper_bound; lia]).
  cbn [mbind option_bind]. rewrite IH. cbn. rewrite (N.mul_comm (code a / 16)), <- N.div_mod by lia. unfold code. by rewrite ascii_N_embedding.
Qed.

Lemma hexEncode_slug s : sall (λ a, slugChar a || Ascii.eqb a dash) (hexEncode s) = true.
Proof.
  assert (E : ∀ n, (n < 16)%N -> slugChar (hex_digit n) || Ascii.eqb (hex_digit n) dash = true).
  { intros n H. destruct n as [|p]; [done|]. do 4 (destruct p as [p|p|]; [| |done]); lia. }
  induction s as [|a s IH]; [done|]. cbn [hexEncode sall]. pose proof (N_ascii_bounded a) as Ha.
  rewrite !E by (unfold code; first [apply N.mod_lt; lia|apply N.Div0.div_lt_upper_bound; lia]). done.
Qed.

(** A newline at the end is trimmed. *)
Lemma TrimSpace_newline s : noLead (s +:+ newline) -> noTrail s -> TrimSpace (s +:+ newline) = s.
Proof.
  intros L R. unfold TrimSpace. assert (E : ∀ n, trim_left_fuel n (s +:+ newline) = s +:+ newline) by (intros [|n]; [done|]; cbn [trim_left_fuel]; by rewrite L).
  rewrite E, sapp_length, Nat.add_comm. cbn [newline schar String.length Nat.add trim_right_fuel].
  assert (F : List.find (HasSuffix (s +:+ newline)) space_runes = Some newline).
  { unfold space_runes. cbn [app List.find]. rewrite HasSuffix_app.
    assert (T : HasSuffix (s +:+ newline) (String (byte_of 9) "") = false).
    { destruct (HasSuffix _ _) eqn:T; [|done]. apply HasSuffix_spec in T as [p T]. apply sapp_inj_length in T as [_ T]; done. }
    by rewrite T. }
  rewrite F, sapp_length. replace (_ + _ - _)%nat with (String.length s) by (cbn; lia). rewrite stake_app.
  destruct (String.length s); [done|]. cbn [trim_right_fuel]. by rewrite R.
Qed.

Lemma ParseKey_hex key : String.length key = KeySize -> ParseKey (hexEncode key +:+ newline) = Ok key.
Proof.
  intros H. unfold ParseKey. pose proof (hexEncode_slug key) as S.
  destruct key as [|a key]; [done|]. rewrite TrimSpace_newline; [|apply slug_noLead|by apply slug_noTrail].
  2: { cbn [hexEncode sall] in S. by apply andb_true_iff in S as [S _]. }
  rewrite bool_decide_eq_false_2 by done. cbn [fmap list_fmap omap list_omap]. rewrite hexDecode_hexEncode. unfold sized at 1. by rewrite H.
Qed.

(** Making directories above a file leaves it. *)
Lemma mkdirs_above p done_ rest sys d : (length (done_ ++ rest) < length p)%nat -> d_tree (mkdirs done_ rest sys d).2 !! p = d_tree d !! p.
Proof.
  revert done_ d. induction rest as [|e rest IH]; intros done_ d H; [done|]. rewrite cons_middle, app_assoc in H.
  cbn [mkdirs]. unfold mbind, FS_bind, syscall. destruct (sys_fault sys (d_calls d)); [done|].
  assert (Hne : done_ ++ [e] ≠ p) by (intros <-; rewrite length_app in H; lia).
  destruct (d_tree d !! (done_ ++ [e])) as [[]|]; [done|by rewrite IH|]. rewrite IH by done. cbn [d_tree]. by rewrite lookup_insert_ne.
Qed.

Section key.
  Context (sys : Sys) (l : list string) (e : string).
  Context (Hsane : saneSys sys) (Hplain : Forall plainElem (l ++ [e])).

Let p : list string := l ++ [e].
Let path : string := rooted p.
Let tmp : list string := l ++ [e +:+ ".tmp"].

Lemma path_at s : at_ s path = p.
Proof. by apply at_rooted. Qed.

Lemma tmp_plain : Forall plainElem tmp.
Proof.
  apply Forall_app in Hplain as [Hl He]. apply Forall_app. split; [done|]. apply Forall_singleton in He as (H1 & H2 & H3 & H4). apply Forall_singleton.
  assert (L : (String.length (e +:+ ".tmp") > 4)%nat) by (rewrite sapp_length; destruct e; [done|]; cbn; lia).
  split_and!; try (intros E; rewrite E in L; cbn in L; lia). unfold free_of in *. rewrite sall_app, H4. done.
Qed.

Lemma tmp_at s : at_ s (path +:+ ".tmp") = tmp.
Proof.
  assert (E : path +:+ ".tmp" = rooted tmp).
  { unfold path, tmp, rooted. rewrite sapp_assoc. f_equal. clear. unfold p. induction l as [|x [|y k] IH]; [done| |].
    - cbn. by rewrite !sapp_assoc.
    - change (StrJoin ((x :: y :: k) ++ [e]) "/") with (x +:+ "/" +:+ StrJoin ((y :: k) ++ [e]) "/").
      change (StrJoin ((x :: y :: k) ++ [e +:+ ".tmp"]) "/") with (x +:+ "/" +:+ StrJoin ((y :: k) ++ [e +:+ ".tmp"]) "/").
      by rewrite !sapp_assoc, IH. }
  rewrite E. apply at_rooted, tmp_plain.
Qed.

Lemma tmp_ne : tmp ≠ p.
Proof.
  unfold tmp, p. intros E. apply app_inv_head in E. injection E as E. apply (f_equal String.length) in E. rewrite sapp_length in E. cbn in E. lia.
Qed.

(** The file is not there, or its content is read. *)
Lemma readFile_spec s d r d' : saneSys s -> readFile path s d = (r, d') ->
  d_tree d' = d_tree d ∧ match r with
                         | Ok data => ∃ m, d_tree d !! p = Some (NFile data m)
                         | Fail err => errorsIs err ErrNotExist = true -> d_tree d !! p = None
                         end.
Proof.
  intros [_ Hf]. unfold readFile, mbind, FS_bind, Open, syscall. destruct (sys_fault s (d_calls d)) as [err|] eqn:F.
  { intros [= <- <-]. split; [done|]. unfold errorsIs. cbn. intros E. specialize (Hf _ _ F). unfold errorsIs in Hf. by rewrite Hf in E. }
  rewrite path_at. unfold lookupNode, p. destruct (l ++ [e]) as [|x q] eqn:E; [by destruct l|]. rewrite <- E.
  destruct (d_tree d !! (l ++ [e])) as [[data m|m]|] eqn:L; intros [= <- <-]; split; try done. by exists m.
Qed.

Lemma writeFile_spec s p' data d r d' : saneSys s -> writeFile p' data s d = (r, d') ->
  (∀ q, q ≠ at_ s p' -> d_tree d' !! q = d_tree d !! q) ∧ (r = None -> ∃ m, d_tree d' !! at_ s p' = Some (NFile data m)).
Proof.
  intros Hs. unfold writeFile, mbind at 1, FS_bind at 1, syscall. destruct (sys_fault s (d_calls d)); [by intros [= <- <-]|].
  assert (O : ∀ r t, openTruncated (at_ s p') s (d_calls d) (d_tree d) = (r, t) -> ∀ q, q ≠ at_ s p' -> t !! q = d_tree d !! q).
  { intros r0 t. unfold openTruncated, createNew. repeat case_match; intros [= <- <-] q Hq; try done; by rewrite lookup_insert_ne. }
  destruct (openTruncated _ _ _ _) as [[[]|err] t]; [|intros [= <- <-]; split; [by eapply O|done]].
  unfold mbind, FS_bind. set (d1 := mkDisk t (S (d_calls d))). destruct (copyInto_spec false p' [data] None s d1 Hs) as (data' & err & m & C & Hd).
  rewrite C. unfold touch. cbn [snd]. intros [= <- <-]. cbn [d_tree d1]. split.
  - intros q Hq. rewrite lookup_insert_ne by done. by eapply O.
  - destruct err; [done|]. intros _. destruct (Hd eq_refl) as [_ ->]. exists m. rewrite lookup_insert_eq. unfold concatChunks. cbn. by rewrite ?sapp_nil_r.
Qed.

(** The key file is whole, or as it was. *)
Lemma writeKeyFile_spec key d r d' : writeKeyFile path key sys d = (r, d') ->
  (d_tree d' !! p = d_tree d !! p ∧ r ≠ None) ∨ ∃ m, d_tree d' !! p = Some (NFile (hexEncode key +:+ newline) m).
Proof.
  unfold writeKeyFile. unfold mbind at 1, FS_bind at 1. destruct (MkdirAll (Dir path) sys d) as [em d1] eqn:M.
  assert (K1 : d_tree d1 !! p = d_tree d !! p).
  { replace d1 with (MkdirAll (Dir path) sys d).2 by by rewrite M. unfold MkdirAll. apply mkdirs_above.
    unfold path, p. apply Forall_app in Hplain as [Hl He]. rewrite Dir_rooted by (done || by apply Forall_inv in He).
    rewrite at_rooted by done. cbn. rewrite length_app. cbn. lia. }
  destruct em as [err|]; [intros [= <- <-]; by left|].
  unfold mbind at 1, FS_bind at 1. destruct (writeFile _ _ _ _) as [ew d2] eqn:W. apply writeFile_spec in W as [W1 W2]; [|done]. rewrite tmp_at in *.
  pose proof tmp_ne as Hne. rewrite <- (W1 p) in K1 by done.
  destruct ew as [err|]; [intros [= <- <-]; by left|]. destruct (W2 eq_refl) as [m Hm].
  unfold mbind at 1, FS_bind at 1. destruct (Rename _ _ _ _) as [rr d3] eqn:R. apply Rename_spec in R. rewrite tmp_at, path_at in R. destruct rr as [[]|err].
  - destruct R as (data & m' & R1 & R2). simplify_eq. unfold touch. intros [= <- <-]. right. eexists. cbn [d_tree]. by rewrite R2, lookup_insert_eq.
  - unfold mbind, FS_bind. destruct (Remove _ _ _) as [rv d4] eqn:V. apply Remove_spec in V. rewrite tmp_at in V. intros [= <- <-]. left. split; [|done].
    destruct rv as [[]|]; destruct V as [V1 V2]; [rewrite V2, lookup_delete_ne by done|rewrite V1]; by rewrite R, <- K1.
Qed.

End key.

(** C23: Whatever fails, the first start leaves the key file as it was or whole, and makes one only where none was; the key a start works with is the one every later start reads from the file. *)
Theorem LoadKey_stable (sys : Sys) (l : list string) (e key : string) (d d' : Disk) (r : result string) :
  saneSys sys -> Forall plainElem (l ++ [e]) -> String.length key = KeySize ->
  LoadKey "" (rooted (l ++ [e])) (Ok key) sys d = (r, d') ->
  (d_tree d' !! (l ++ [e]) = d_tree d !! (l ++ [e])
   ∨ d_tree d !! (l ++ [e]) = None ∧ ∃ m, d_tree d' !! (l ++ [e]) = Some (NFile (hexEncode key +:+ newline) m))
  ∧ ∀ k, r = Ok k -> ∀ later d2 rand, (∀ n, sys_fault later n = None) -> d_tree d2 !! (l ++ [e]) = d_tree d' !! (l ++ [e]) ->
      (LoadKey "" (rooted (l ++ [e])) rand later d2).1 = Ok k.
Proof.
  intros Hs Hp Hk E.
  assert (Later : ∀ data k m, d_tree d' !! (l ++ [e]) = Some (NFile data m) -> ParseKey data = Ok k ->
    ∀ later d2 rand, (∀ n, sys_fault later n = None) -> d_tree d2 !! (l ++ [e]) = d_tree d' !! (l ++ [e]) ->
      (LoadKey "" (rooted (l ++ [e])) rand later d2).1 = Ok k).
  { intros data k m Hd Hk' later d2 rand Hf Ht. unfold LoadKey. change (Blank "") with true. cbn [negb]. unfold readFile, mbind, FS_bind, Open, syscall.
    assert (L : lookupNode (d_tree d2) (l ++ [e]) = Ok (NFile data m)) by (unfold lookupNode; rewrite Ht, Hd; by destruct l).
    rewrite Hf, at_rooted, L by exact Hp. cbn. by rewrite Hk'. }
  unfold LoadKey in E. change (Blank "") with true in E. cbn [negb] in E. unfold mbind at 1, FS_bind at 1 in E.
  destruct (readFile _ sys d) as [rr d1] eqn:R. eapply readFile_spec in R as [R1 R2]; [|done..]. destruct rr as [data|err].
  - destruct R2 as [m Hm]. injection E as <- <-. split; [left; by rewrite R1|]. intros k. destruct (ParseKey data) as [k'|] eqn:P; [|done].
    intros [= <-]. eapply Later; [by rewrite R1|done].
  - destruct (errorsIs err ErrNotExist); [|injection E as <- <-; rewrite R1; split; [by left|done]].
    specialize (R2 eq_refl). cbn [GenerateKey] in E. unfold mbind, FS_bind in E. destruct (writeKeyFile _ _ _ _) as [ew d2] eqn:W.
    apply writeKeyFile_spec in W; [|done..]. rewrite R1 in W. injection E as <- <-. destruct W as [[W1 W2]|[m W]].
    + split; [by left|]. destruct ew; [done|by destruct W2].
    + split; [right; eauto|]. intros k. destruct ew; [done|]. intros [= <-]. eapply Later; [done|]. by apply ParseKey_hex.
Qed.

(** A first start on an empty disk, one that finds it full when the key is
    installed, and a second one. *)
Definition startSys (bad : option nat) : Sys :=
  mkSys (λ n, if bool_decide (bad = Some n) then Some (newError "no space left on device") else None)
    (λ _ _ p, (String.length p, None)) (λ n, N.of_nat n) (λ n, Z.of_nat n) [] (λ _ _, None).

Lemma startSys_sane bad : saneSys (startSys bad).
Proof. split; [intros n; split; [done|intros data p; cbn; lia]|]. intros n err. cbn. case_bool_decide; [|done]. by intros [= <-]. Qed.

Definition emptyDisk : Disk := mkDisk ∅ 0.
Definition thirtyTwo : string := "0123456789abcdef0123456789abcdef".
Definition firstStart : result string * Disk := LoadKey "" "/srv/data/master.key" (Ok thirtyTwo) (startSys None) emptyDisk.
Definition fullStart : result string * Disk := LoadKey "" "/srv/data/master.key" (Ok thirtyTwo) (startSys (Some 6%nat)) emptyDisk.

Lemma LoadKey_stable_witness :
  firstStart.1 = Ok thirtyTwo ∧ is_ok fullStart.1 = false ∧ d_tree fullStart.2 !! ["srv"; "data"; "master.key"] = None
  ∧ (LoadKey "" "/srv/data/master.key" (Ok "") (startSys None) firstStart.2).1 = Ok thirtyTwo.
Proof.
  assert (P : Forall plainElem ["srv"; "data"; "master.key"]) by (repeat constructor; done).
  split_and!; [by vm_compute..|].
  refine (proj2 (LoadKey_stable (startSys None) ["srv"; "data"] "master.key" thirtyTwo emptyDisk firstStart.2 firstStart.1 (startSys_sane None) P eq_refl _) _ _ _ _ _ _ _);
    [by rewrite <- surjective_pairing|by vm_compute|by intros n|done].
Defined.

End KeyFacts.

(** * The retries of an upload *)

Module PushFacts.
Import Push.

Lemma waits_bounded tries attempt d last pushOnce canceled : Forall (λ w, w <= maxWait) (attempts pushOnce canceled tries attempt d last).2.
Proof.
  assert (W : ∀ a, waitBefore d a <= maxWait) by (intros a; unfold waitBefore; destruct (Z.ltb_spec maxWait (wrap64 (d * (if 64 <=? a - 2 then 0 else wrap64 (2 ^ (a - 2)))))); lia).
  revert attempt last. induction tries as [|tries IH]; intros attempt last; [by constructor|]. cbn [attempts].
  assert (P : Forall (λ w, w <= maxWait) (if 1 <? attempt then [waitBefore d attempt] else [])) by (destruct (1 <? attempt); repeat constructor; apply W).
  destruct (if 1 <? attempt then canceled attempt else None); [done|].
  destruct (pushOnce attempt) as [|status err|err]; [done|destruct (final status); [done|]|];
    specialize (IH (attempt + 1) (Some err)); destruct (attempts _ _ _ _ _ _); by apply Forall_app.
Qed.

Definition retried (a : Attempt) : Prop := match a with Pushed _ => False | Refused status _ => final status = false | Broken _ => True end.

(** The first upload that succeeds within the retries is the answer. *)
Lemma attempts_reach pushOnce canceled tries n attempt d last id :
  (n < tries)%nat -> (∀ k, canceled k = None) -> (∀ j, (j < n)%nat -> retried (pushOnce (attempt + Z.of_nat j))) ->
  pushOnce (attempt + Z.of_nat n) = Pushed id -> (attempts pushOnce canceled tries attempt d last).1 = inl id.
Proof.
  intros Hn Hc. revert n attempt last Hn. induction tries as [|tries IH]; intros n attempt last Hn Hr Hp; [lia|]. cbn [attempts].
  rewrite Hc. replace (if 1 <? attempt then None else None) with (@None error) by by destruct (1 <? attempt).
  destruct n as [|n]; [rewrite Z.add_0_r in Hp; by rewrite Hp|].
  pose proof (Hr 0%nat ltac:(lia)) as H0. rewrite Z.add_0_r in H0.
  assert (I : ∀ last, (attempts pushOnce canceled tries (attempt + 1) d last).1 = inl id).
  { intros last'. apply (IH n); [lia|intros j Hj; replace (attempt + 1 + Z.of_nat j) with (attempt + Z.of_nat (S j)) by lia; apply Hr; lia|].
    by replace (attempt + 1 + Z.of_nat n) with (attempt + Z.of_nat (S n)) by lia. }
  destruct (pushOnce attempt) as [|status err|err]; [done|cbn in H0; rewrite H0|];
    specialize (I (Some err)); by destruct (attempts _ _ _ _ _ _).
Qed.

(** With a negative number of retries nothing is sent, and no error says so. *)
Example no_upload pushOnce canceled : push pushOnce canceled (-1) (5 * Second) = (inr None, []).
Proof. reflexivity. Qed.

(** With many retries the doubling leaves the range of a duration: the pauses end. *)
Example pauses_end : waitBefore (5 * Second) 4 = 20 * Second ∧ waitBefore (5 * Second) 36 < 0 ∧ waitBefore (5 * Second) 70 = 0.
Proof. by vm_compute. Qed.

End PushFacts.
