(* ===== verification/SourceDrivers.v ===== *)
(** * The source drivers that run programs: [internal/source]

    PostgreSQL, MySQL, MongoDB, Redis, Docker, a command, SSH and push: what they
    accept, the programs they run with which arguments, environment and files, and
    what they hand back.  A module per driver; the runner is that of [RemoteExec]. *)
From S2P Require Import Prelude GoStrings GoTime GoPath GoHttp Core Config Specs Pack Spool Db Shell Slug DestSftp Remote RemoteExec.
Open Scope Z_scope.

(** ** What the drivers share *)

(** [source.Stream]. *)
Record SourceStream (St : Type) := mkSourceStream {
  ss_Reader : Running St; ss_Extension : string; ss_Size : Z; ss_Meta : gmap string string
}.
Arguments mkSourceStream {St}. Arguments ss_Reader {St}. Arguments ss_Extension {St}. Arguments ss_Size {St}. Arguments ss_Meta {St}.

(** [source.RestoreOptions]; [ro_Params] may be nil. *)
Record RestoreOptions := mkRestoreOptions {
  ro_Extension : string; ro_Size : Z; ro_Overwrite : bool; ro_TargetPath : string; ro_Params : option Config
}.

Definition ro_params (opts : RestoreOptions) : Config := default ∅ (ro_Params opts).

Definition redactPassword {sprint_host : SprintHost} (cfg : Config) : list string :=
  let pw := Config_String cfg "password" in if bool_decide (pw ≠ "") then [pw] else [].

(** A flag with its value, when there is one. *)
Definition flagIf (b : bool) (l : list string) : list string := if b then l else [].

Section shared.
  Context {St : Type} {machine : Machine St} {ssh : SSH} {sprint_host : SprintHost}.

(** [Backup] opens a runner and closes it unless it hands it to the stream. *)
Definition withBackup (cfg : Config) (body : RunnerM St (result (SourceStream St))) (s : St) : result (SourceStream St) * St :=
  let '(r, s) := Open cfg s in
  match r with
  | Fail err => (Fail err, s)
  | Ok r =>
      let '((x, r), s) := body r s in
      match x with
      | Ok st => (Ok st, s)
      | Fail err => let '(_, s) := Runner_Close r s in (Fail err, s)
      end
  end.

Definition getRunner : RunnerM St Runner := λ r s, ((r, r), s).

(** Find the program, run the command it makes, hand its output on. *)
Definition dumpWith (cfg : Config) (candidates : list string) (notFound : error -> error)
    (command : string -> RunnerM St (result (Command St))) (stream : Runner -> Running St -> SourceStream St) : St -> result (SourceStream St) * St :=
  withBackup cfg (
    bin ← Tool (Config_String cfg "binary_path") candidates;
    match bin with
    | Fail err => mret (Fail (notFound err))
    | Ok bin =>
        c ← command bin;
        match c with
        | Fail err => mret (Fail err)
        | Ok c =>
            r ← getRunner;
            x ← Runner_Start c;
            mret (match x with Fail err => Fail err | Ok rn => Ok (stream r rn) end)
        end
    end).

(** Find the program and run a command of it. *)
Definition runWith (binaryPath : string) (candidates : list string) (notFound : error -> error)
    (command : string -> RunnerM St (result (Command St))) : RunnerM St (option error) :=
  bin ← Tool binaryPath candidates;
  match bin with
  | Fail err => mret (Some (notFound err))
  | Ok bin =>
      c ← command bin;
      match c with Fail err => mret (Some err) | Ok c => Runner_Run c end
  end.

End shared.

(** A command without a shell. *)
Definition argvCommand {St : Type} (argv env : list string) (stdin : option Reader) (redact : list string) (lbl : string) (quiet : bool) : Command St :=
  mkCommand argv "" "" env "" stdin redact lbl quiet [].

(** ** PostgreSQL *)

Module Postgres.
Section driver.
  Context {St : Type} {machine : Machine St} {ssh : SSH} {sprint_host : SprintHost}.

Definition Validate (cfg : Config) : option error :=
  match Config.ValidateRequired Spec_postgres cfg with
  | Some err => Some err
  | None =>
      if negb (Bool cfg "all_databases" false) && negb (Has cfg "database")
      then Some (newError "database is required unless all databases are dumped")
      else if bool_decide (StringOr cfg "format" "custom" ∈ ["custom"; "plain"]) then None
      else Some (newError "format must be custom or plain")
  end.

Definition connArgs (cfg : Config) : list string :=
  let port := Int cfg "port" 5432 in
  let u := Config_String cfg "user" in
  ["-h"; StringOr cfg "host" "localhost"] ++ flagIf (port >? 0) ["-p"; Itoa port] ++ flagIf (bool_decide (u ≠ "")) ["-U"; u].

Definition env (cfg : Config) : list string :=
  let pw := Config_String cfg "password" in
  let mode := Config_String cfg "sslmode" in
  flagIf (bool_decide (pw ≠ "")) ["PGPASSWORD=" +:+ pw] ++ flagIf (bool_decide (mode ≠ "")) ["PGSSLMODE=" +:+ mode]
  ++ ["PGCONNECT_TIMEOUT=15"; "PGCLIENTENCODING=UTF8"].

Definition redact (cfg : Config) : list string := redactPassword cfg.

Definition scope (cfg : Config) : string := if Bool cfg "all_databases" false then "all databases" else Config_String cfg "database".

Definition command (cfg : Config) (args : list string) (stdin : option Reader) (lbl bin : string) : RunnerM St (result (Command St)) :=
  mret (Ok (argvCommand (bin :: args) (env cfg) stdin (redact cfg) lbl false)).

Definition Test (cfg : Config) : St -> option error * St :=
  withRunner cfg Some (
    let db := StringOr cfg "database" "postgres" in
    bin ← Tool (Config_String cfg "binary_path") ["psql"];
    match bin with
    | Ok bin => Runner_Run (argvCommand (bin :: connArgs cfg ++ ["-d"; db; "-w"; "-tAX"; "-c"; "select 1"]) (env cfg) None (redact cfg) "psql" false)
    | Fail _ =>
        runWith (Config_String cfg "binary_path") ["pg_isready"] (wrapError "neither psql nor pg_isready is available")
          (command cfg (connArgs cfg ++ ["-d"; db]) None "pg_isready")
    end).

Definition dumpArgs (cfg : Config) : list string * string :=
  let schema := flagIf (Bool cfg "schema_only" false) ["--schema-only"] in
  let extra := StringList cfg "extra_args" in
  if Bool cfg "all_databases" false then (connArgs cfg ++ ["-w"] ++ schema ++ extra, "sql")
  else
    let custom := String.eqb (StringOr cfg "format" "custom") "custom" in
    (connArgs cfg ++ ["-w"; "-d"; Config_String cfg "database"] ++ ["-F"; if custom then "c" else "p"] ++ schema
       ++ ((λ t, "--exclude-table=" +:+ t) <$> StringList cfg "exclude_tables") ++ extra,
     if custom then "dump" else "sql").

Definition dumpTool (cfg : Config) : string := if Bool cfg "all_databases" false then "pg_dumpall" else "pg_dump".

Definition Backup (cfg : Config) (s : St) : result (SourceStream St) * St :=
  match Validate cfg with
  | Some err => (Fail err, s)
  | None =>
      let '(args, ext) := dumpArgs cfg in
      dumpWith cfg [dumpTool cfg] id (command cfg args None (dumpTool cfg))
        (λ _ rn, mkSourceStream rn ext 0
           {[ "host" := Config_String cfg "host"; "database" := scope cfg; "format" := ext ]}) s
  end.

Definition restoreArgs (cfg params : Config) (target : string) (dump : bool) : list string :=
  if dump then
    connArgs cfg ++ ["-w"; "-d"; target]
    ++ flagIf (Bool params "clean" false || Bool params "drop" false) ["--clean"]
    ++ flagIf (Bool params "if_exists" (Bool params "clean" false)) ["--if-exists"]
    ++ flagIf (Bool params "create" false) ["--create"]
    ++ flagIf (Bool params "no_owner" true) ["--no-owner"]
  else
    connArgs cfg ++ ["-w"; "-d"; target; "-X"; "-f"; "-"]
    ++ flagIf (Bool params "stop_on_error" true) ["-v"; "ON_ERROR_STOP=1"]
    ++ flagIf (Bool params "single_transaction" false) ["--single-transaction"].

Definition Restore (cfg : Config) (src : Reader) (opts : RestoreOptions) : St -> option error * St :=
  let params := ro_params opts in
  withRunner cfg Some (
    let target := StringOr params "database" (StringOr cfg "database" "postgres") in
    let dump := EqualFold (ro_Extension opts) "dump" in
    let tool := if dump then "pg_restore" else "psql" in
    runWith (Config_String cfg "binary_path") [tool] id (command cfg (restoreArgs cfg params target dump) (Some src) tool)).

End driver.
End Postgres.

(** ** MySQL *)

Module Mysql.
Section driver.
  Context {St : Type} {machine : Machine St} {ssh : SSH} {sprint_host : SprintHost}.

Definition Validate (cfg : Config) : option error :=
  match Config.ValidateRequired Spec_mysql cfg with
  | Some err => Some err
  | None =>
      if negb (Bool cfg "all_databases" false) && (length (StringList cfg "databases") =? 0)%nat
      then Some (newError "at least one database is required unless all databases are dumped")
      else None
  end.

Definition backslash : ascii := byte_of 92.

(** The password between its quotes. *)
Fixpoint escaped (s : string) : string :=
  match s with
  | "" => ""
  | String a s' =>
      (if Ascii.eqb a backslash then schar backslash +:+ schar backslash
       else if String.eqb (schar a) dquote then schar backslash +:+ dquote else schar a) +:+ escaped s'
  end.

Definition newline : string := schar (byte_of 10).

Definition defaultsContent (cfg : Config) : string :=
  let socket := Config_String cfg "socket" in
  let u := Config_String cfg "user" in
  let pw := Config_String cfg "password" in
  "[client]" +:+ newline
  +:+ (if bool_decide (socket ≠ "") then "socket=" +:+ socket +:+ newline
       else "host=" +:+ StringOr cfg "host" "127.0.0.1" +:+ newline
            +:+ "port=" +:+ Itoa (Int cfg "port" 3306) +:+ newline +:+ "protocol=TCP" +:+ newline)
  +:+ (if bool_decide (u ≠ "") then "user=" +:+ u +:+ newline else "")
  +:+ (if bool_decide (pw ≠ "") then "password=" +:+ dquote +:+ escaped pw +:+ dquote +:+ newline else "").

Definition remoteDefaultsScript (bin : string) (args : list string) (content : string) : string :=
  TempFileScript content
    (ShellQuote bin +:+ " --defaults-extra-file=" +:+ dquote +:+ "$f" +:+ dquote
     +:+ (if (0 <? length args)%nat then " " +:+ ShellJoin args else "")).

Definition redact (cfg : Config) : list string := redactPassword cfg.

Definition defaultsFile (cfg : Config) (s : St) : result string * St :=
  let '(x, s) := WriteTempFile "" "backvault-mysql-*.cnf" 384 (defaultsContent cfg) s in
  (match x with Ok path => Ok path | Fail err => Fail (wrapError "write mysql defaults file" err) end, s).

(** A temporary file here, a temporary file of the shell on a host. *)
Definition clientCommand (bin : string) (args : list string) (cfg : Config) (stdin : option Reader) (lbl : string) : RunnerM St (result (Command St)) :=
  λ r s,
    match r_host r with
    | Some _ =>
        ((Ok (mkCommand [] (remoteDefaultsScript bin args (defaultsContent cfg)) "" [] "" stdin (redact cfg) lbl false []), r), s)
    | None =>
        let '(x, s) := defaultsFile cfg s in
        match x with
        | Fail err => ((Fail err, r), s)
        | Ok path =>
            ((Ok (mkCommand (bin :: ("--defaults-extra-file=" +:+ path) :: args) "" "" [] "" stdin (redact cfg) lbl false [os_RemoveFile path]), r), s)
        end
    end.

Definition dumpArgs (cfg : Config) : list string :=
  flagIf (Bool cfg "single_transaction" true) ["--single-transaction"]
  ++ flagIf (Bool cfg "routines" true) ["--routines"]
  ++ flagIf (Bool cfg "triggers" true) ["--triggers"]
  ++ flagIf (Bool cfg "events" true) ["--events"]
  ++ flagIf (Bool cfg "schema_only" false) ["--no-data"]
  ++ StringList cfg "extra_args"
  ++ (if Bool cfg "all_databases" false then ["--all-databases"]
      else match StringList cfg "databases" with [db] => [db] | dbs => "--databases" :: dbs end).

Definition scope (cfg : Config) : string :=
  if Bool cfg "all_databases" false then "all databases" else StrJoin (StringList cfg "databases") ", ".

Definition Test (cfg : Config) : St -> option error * St :=
  withRunner cfg Some (
    runWith (Config_String cfg "binary_path") ["mysql"; "mariadb"] id
      (λ bin, clientCommand bin ["--batch"; "--skip-column-names"; "-e"; "select 1"] cfg None "mysql")).

Definition Backup (cfg : Config) (s : St) : result (SourceStream St) * St :=
  match Validate cfg with
  | Some err => (Fail err, s)
  | None =>
      dumpWith cfg ["mysqldump"; "mariadb-dump"] id (λ bin, clientCommand bin (dumpArgs cfg) cfg None "mysqldump")
        (λ _ rn, mkSourceStream rn "sql" 0 {[ "host" := Config_String cfg "host"; "databases" := scope cfg ]}) s
  end.

Definition restoreTarget (cfg params : Config) : string :=
  let target := Config_String params "database" in
  if bool_decide (target = "") && negb (Bool cfg "all_databases" false) then
    match StringList cfg "databases" with [db] => db | _ => target end
  else target.

Definition Restore (cfg : Config) (src : Reader) (opts : RestoreOptions) : St -> option error * St :=
  withRunner cfg Some (
    let target := restoreTarget cfg (ro_params opts) in
    runWith (Config_String cfg "binary_path") ["mysql"; "mariadb"] id
      (λ bin, clientCommand bin (flagIf (bool_decide (target ≠ "")) [target]) cfg (Some src) "mysql")).

End driver.
End Mysql.

(** ** MongoDB *)

Module Mongodb.
Section driver.
  Context {St : Type} {machine : Machine St} {ssh : SSH} {sprint_host : SprintHost}.

Definition Validate (cfg : Config) : option error :=
  match Config.ValidateRequired Spec_mongodb cfg with
  | Some err => Some err
  | None =>
      let raw := Config_String cfg "uri" in
      if negb (HasPrefix raw "mongodb://") && negb (HasPrefix raw "mongodb+srv://")
      then Some (newError "connection uri must start with mongodb:// or mongodb+srv://")
      else match Parse raw with
           | Fail _ => Some (newError "connection uri is not a valid url")
           | Ok _ =>
               if Has cfg "collection" && negb (Has cfg "database")
               then Some (newError "a database is required when a collection is set") else None
           end
  end.

Definition redact (cfg : Config) : list string :=
  let raw := Config_String cfg "uri" in
  if bool_decide (raw = "") then []
  else raw :: match Parse raw with
              | Ok u => match u_User u with
                        | Some ui => match ui_Password ui with Some pw => if bool_decide (pw ≠ "") then [pw] else [] | None => [] end
                        | None => []
                        end
              | Fail _ => []
              end.

Definition target (cfg : Config) : string :=
  let db := Config_String cfg "database" in
  let coll := Config_String cfg "collection" in
  if bool_decide (db = "") then "all databases" else if bool_decide (coll ≠ "") then db +:+ "." +:+ coll else db.

Definition probe (cfg : Config) (bin : string) (args : list string) : RunnerM St (option error) :=
  Runner_Run (argvCommand (bin :: args) [] None (redact cfg) "mongodump" true).

Definition Test (cfg : Config) : St -> option error * St :=
  withRunner cfg Some (
    bin ← Tool (Config_String cfg "binary_path") ["mongodump"];
    match bin with
    | Fail err => mret (Some err)
    | Ok bin =>
        let base := ["--uri=" +:+ Config_String cfg "uri"; "--archive=/dev/null"; "--quiet"] in
        err ← probe cfg bin (base ++ ["--db=admin"; "--collection=system.version"]);
        match err with
        | None => mret None
        | Some err =>
            let db := Config_String cfg "database" in
            if bool_decide (db ≠ "") then
              fallback ← probe cfg bin (base ++ ["--db=" +:+ db; "--collection=backvault_connection_probe"]);
              mret (match fallback with None => None | Some _ => Some err end)
            else mret (Some err)
        end
    end).

Definition dumpArgs (cfg : Config) : list string :=
  let db := Config_String cfg "database" in
  let coll := Config_String cfg "collection" in
  ["--uri=" +:+ Config_String cfg "uri"; "--archive"]
  ++ flagIf (bool_decide (db ≠ "")) (("--db=" +:+ db) :: flagIf (bool_decide (coll ≠ "")) ["--collection=" +:+ coll])
  ++ StringList cfg "extra_args".

Definition Backup (cfg : Config) (s : St) : result (SourceStream St) * St :=
  match Validate cfg with
  | Some err => (Fail err, s)
  | None =>
      dumpWith cfg ["mongodump"] id (λ bin, mret (Ok (argvCommand (bin :: dumpArgs cfg) [] None (redact cfg) "mongodump" false)))
        (λ _ rn, mkSourceStream rn "archive" 0 {[ "target" := target cfg ]}) s
  end.

Definition restoreArgs (cfg params : Config) : list string :=
  let db := StringOr params "database" (Config_String cfg "database") in
  let from := Config_String params "rename_from" in
  ["--uri=" +:+ Config_String cfg "uri"; "--archive"]
  ++ flagIf (Bool params "drop" false) ["--drop"]
  ++ flagIf (bool_decide (db ≠ "")) ["--nsInclude=" +:+ db +:+ ".*"]
  ++ flagIf (bool_decide (from ≠ "") && Has params "rename_to")
       ["--nsFrom=" +:+ from +:+ ".*"; "--nsTo=" +:+ Config_String params "rename_to" +:+ ".*"].

Definition Restore (cfg : Config) (src : Reader) (opts : RestoreOptions) : St -> option error * St :=
  withRunner cfg Some (
    runWith (Config_String cfg "binary_path") ["mongorestore"] id
      (λ bin, mret (Ok (argvCommand (bin :: restoreArgs cfg (ro_params opts)) [] (Some src) (redact cfg) "mongorestore" false)))).

End driver.
End Mongodb.

(** ** Redis *)

Module Redis.
Section driver.
  Context {St : Type} {machine : Machine St} {ssh : SSH} {sprint_host : SprintHost}.

Definition Validate (cfg : Config) : option error := Config.ValidateRequired Spec_redis cfg.

Definition connArgs (cfg : Config) : list string :=
  let u := Config_String cfg "user" in
  ["-h"; StringOr cfg "host" "127.0.0.1"; "-p"; Itoa (Int cfg "port" 6379)]
  ++ flagIf (bool_decide (u ≠ "")) ["--user"; u]
  ++ flagIf (Bool cfg "tls" false) ("--tls" :: flagIf (Bool cfg "tls_skip_verify" false) ["--insecure"])
  ++ StringList cfg "extra_args".

Definition env (cfg : Config) : list string :=
  let pw := Config_String cfg "password" in flagIf (bool_decide (pw ≠ "")) ["REDISCLI_AUTH=" +:+ pw].

Definition redact (cfg : Config) : list string := redactPassword cfg.

(** [bytes.ToUpper] does not make or lose the bytes of PONG but in two runes,
    which fold to none of them. *)
Definition ponged (out : string) : bool := Contains (smap (λ a, if is_lower a then byte_of (code a - 32) else a) out) "PONG".

Definition Test (cfg : Config) : St -> option error * St :=
  withRunner cfg Some (
    bin ← Tool (Config_String cfg "binary_path") ["redis-cli"];
    match bin with
    | Fail err => mret (Some err)
    | Ok bin =>
        x ← Runner_Output (argvCommand (bin :: connArgs cfg ++ ["--no-auth-warning"; "PING"]) (env cfg) None (redact cfg) "redis-cli" true);
        mret (match x with
              | (_, Some err) => Some err
              | (out, None) => if ponged out then None else Some (newError ("unexpected reply to PING: " +:+ Quote (TrimSpace out)))
              end)
    end).

Definition Backup (cfg : Config) (s : St) : result (SourceStream St) * St :=
  match Validate cfg with
  | Some err => (Fail err, s)
  | None =>
      dumpWith cfg ["redis-cli"] id
        (λ bin, mret (Ok (argvCommand (bin :: connArgs cfg ++ ["--no-auth-warning"; "--rdb"; "-"]) (env cfg) None (redact cfg) "redis-cli" false)))
        (λ _ rn, mkSourceStream rn "rdb" 0 {[ "host" := Config_String cfg "host" ]}) s
  end.

End driver.
End Redis.

(** ** Docker *)

Module Docker.
Section driver.
  Context {St : Type} {machine : Machine St} {ssh : SSH} {sprint_host : SprintHost}.

Definition volumeMode (cfg : Config) : bool := String.eqb (StringOr cfg "mode" "volume") "volume".

Definition Validate (cfg : Config) : option error :=
  match Config.ValidateRequired Spec_docker cfg with
  | Some err => Some err
  | None =>
      if volumeMode cfg then
        if negb (Has cfg "volume") then Some (newError "a volume name is required in volume mode") else None
      else if String.eqb (StringOr cfg "mode" "volume") "exec" then
        if negb (Has cfg "container") then Some (newError "a container is required in exec mode")
        else if negb (Has cfg "command") then Some (newError "a command is required in exec mode") else None
      else Some (newError "mode must be volume or exec")
  end.

Definition env (cfg : Config) : list string :=
  let h := Config_String cfg "docker_host" in flagIf (bool_decide (h ≠ "")) ["DOCKER_HOST=" +:+ h].

Definition command (cfg : Config) (argv : list string) (stdin : option Reader) (quiet : bool) : Command St :=
  argvCommand argv (env cfg) stdin [] "docker" quiet.

Definition Test (cfg : Config) (s : St) : option error * St :=
  match Validate cfg with
  | Some err => (Some err, s)
  | None =>
      withRunner cfg Some (
        bin ← Tool (Config_String cfg "binary_path") ["docker"; "podman"];
        match bin with
        | Fail err => mret (Some err)
        | Ok bin =>
            x ← Runner_Output (command cfg [bin; "version"; "--format"; "{{.Server.Version}}"] None true);
            match x with
            | (_, Some err) => mret (Some (wrapError "docker daemon not reachable" err))
            | (_, None) =>
                if volumeMode cfg then
                  Runner_Run (command cfg [bin; "volume"; "inspect"; "--format"; "{{.Mountpoint}}"; Config_String cfg "volume"] None true)
                else
                  x ← Runner_Output (command cfg [bin; "inspect"; "--format"; "{{.State.Running}}"; Config_String cfg "container"] None true);
                  mret (match x with
                        | (_, Some err) => Some err
                        | (state, None) =>
                            if String.eqb (TrimSpace state) "true" then None
                            else Some (newError ("container " +:+ Config_String cfg "container" +:+ " is not running"))
                        end)
            end
        end) s
  end.

Definition backupArgv (bin : string) (cfg : Config) : list string :=
  if volumeMode cfg then
    [bin; "run"; "--rm"; "--network"; "none"; "-v"; Config_String cfg "volume" +:+ ":/data:ro";
     StringOr cfg "image" defaultImage; "tar"; "-C"; "/data"; "-cf"; "-"; "."]
  else
    let u := Config_String cfg "exec_user" in
    [bin; "exec"] ++ flagIf (bool_decide (u ≠ "")) ["--user"; u]
    ++ [Config_String cfg "container"; StringOr cfg "shell" "/bin/sh"; "-c"; Config_String cfg "command"].

Definition restoreArgv (bin vol : string) (overwrite : bool) (cfg : Config) : list string :=
  let script := (if overwrite then "rm -rf /data/..?* /data/.[!.]* /data/* 2>/dev/null; " else "") +:+ "tar -C /data -xf -" in
  [bin; "run"; "--rm"; "-i"; "--network"; "none"; "-v"; vol +:+ ":/data"; StringOr cfg "image" defaultImage; "/bin/sh"; "-c"; script].

Definition Backup (cfg : Config) (s : St) : result (SourceStream St) * St :=
  match Validate cfg with
  | Some err => (Fail err, s)
  | None =>
      let ext := if volumeMode cfg then "tar" else TrimPrefix (StringOr cfg "extension" "tar") "." in
      dumpWith cfg ["docker"; "podman"] id (λ bin, mret (Ok (command cfg (backupArgv bin cfg) None false)))
        (λ r rn,
           let meta : gmap string string := match r_host r with Some _ => {[ "host" := Runner_HostLabel r ]} | None => ∅ end in
           mkSourceStream rn ext 0
             (if volumeMode cfg then <["volume" := Config_String cfg "volume"]> meta
              else <["container" := Config_String cfg "container"]> meta)) s
  end.

Definition Restore (cfg : Config) (src : Reader) (opts : RestoreOptions) (s : St) : option error * St :=
  if negb (volumeMode cfg) then (Some (newError "restore is only supported for docker volumes, not for exec sources"), s)
  else
    let vol := match ro_Params opts with
               | Some params => if Has params "volume" then Config_String params "volume" else Config_String cfg "volume"
               | None => Config_String cfg "volume"
               end in
    if bool_decide (vol = "") then (Some (newError "no target volume for the restore"), s)
    else
      withRunner cfg Some (
        runWith (Config_String cfg "binary_path") ["docker"; "podman"] id
          (λ bin, mret (Ok (command cfg (restoreArgv bin vol (ro_Overwrite opts) cfg) (Some src) false)))) s.

End driver.
End Docker.

(** ** A command *)

Module CommandSource.
Section driver.
  Context {St : Type} {machine : Machine St} {ssh : SSH} {sprint_host : SprintHost}.

(** The working directory is looked at on this machine only. *)
Definition Validate (cfg : Config) (s : St) : option error :=
  match Config.ValidateRequired Spec_command cfg with
  | Some err => Some err
  | None =>
      if existsb (λ e, negb (ContainsByte e "=")) (StringList cfg "env")
      then Some (newError "environment entries must look like KEY=VALUE")
      else
        let dir := Config_String cfg "working_dir" in
        match Config_Host cfg with
        | Some _ => None
        | None =>
            if bool_decide (dir = "") then None
            else match os_Stat dir s with
                 | Fail err => Some (wrapError "working directory" err)
                 | Ok info => if st_IsDir info then None else Some (newError ("working directory " +:+ dir +:+ " is not a directory"))
                 end
        end
  end.

(** The values of the environment that are worth hiding. *)
Definition redact (cfg : Config) : list string :=
  omap (λ e, match IndexByte e "=" with
             | Some (S i) => let v := sdrop (S (S i)) e in if (3 <=? String.length v)%nat then Some v else None
             | _ => None
             end) (StringList cfg "env").

Definition shellCommand (bin script : string) (cfg : Config) (stdin : option Reader) (lbl : string) : Command St :=
  mkCommand [] script bin (StringList cfg "env") (Config_String cfg "working_dir") stdin (redact cfg) lbl false [].

Definition unavailable (shell : string) (err : error) : error := wrapError ("shell " +:+ shell +:+ " is not available") err.

Definition Test (cfg : Config) (s : St) : option error * St :=
  match Validate cfg s with
  | Some err => (Some err, s)
  | None =>
      let shell := StringOr cfg "shell" "/bin/sh" in
      withRunner cfg Some (
        bin ← Tool "" [shell];
        match bin with
        | Fail err => mret (Some (unavailable shell err))
        | Ok bin =>
            let test := TrimSpace (Config_String cfg "test_command") in
            if bool_decide (test = "") then mret None else Runner_Run (shellCommand bin test cfg None "shell")
        end) s
  end.

Definition Backup (cfg : Config) (s : St) : result (SourceStream St) * St :=
  match Validate cfg s with
  | Some err => (Fail err, s)
  | None =>
      let shell := StringOr cfg "shell" "/bin/sh" in
      withBackup cfg (
        bin ← Tool "" [shell];
        match bin with
        | Fail err => mret (Fail (unavailable shell err))
        | Ok bin =>
            x ← Runner_Start (shellCommand bin (Config_String cfg "command") cfg None "command");
            mret (match x with
                  | Fail err => Fail err
                  | Ok rn => Ok (mkSourceStream rn (TrimPrefix (StringOr cfg "extension" "bin") ".") 0 ∅)
                  end)
        end) s
  end.

Definition restoreCommand (cfg : Config) (opts : RestoreOptions) : string :=
  match ro_Params opts with
  | Some params => TrimSpace (Config_String (if Has params "restore_command" then params else cfg) "restore_command")
  | None => TrimSpace (Config_String cfg "restore_command")
  end.

Definition Restore (cfg : Config) (src : Reader) (opts : RestoreOptions) (s : St) : option error * St :=
  let restore := restoreCommand cfg opts in
  if bool_decide (restore = "") then (Some (newError "this command source has no restore command configured"), s)
  else
    let shell := StringOr cfg "shell" "/bin/sh" in
    withRunner cfg Some (
      runWith "" [shell] (unavailable shell) (λ bin, mret (Ok (shellCommand bin restore cfg (Some src) "restore")))) s.

End driver.
End CommandSource.

(** ** Push *)

Module Push.
Section driver.
  Context {sprint_host : SprintHost}.

Definition Validate (cfg : Config) : option error := Config.ValidateRequired Spec_push cfg.

Definition Test (cfg : Config) : option error := None.

Definition Backup {St : Type} (cfg : Config) (s : St) : result (SourceStream St) * St :=
  (Fail (newError "push sources receive data through the ingest API"), s).

End driver.
End Push.

(** ** SSH

    With a host, its runner; without one, a connection of the driver's own, made
    as the SFTP destination makes it. *)
Module Ssh.

Definition tailLines : nat := 20.

(** A session of its own: what [ssh.Dial], [NewSession] and [Start] answer. *)
Class SshClients (St : Type) := {
  ssh_Client : DestSftp.dialConfig -> St -> option error * St;
  client_Session : St -> option error * St;
  session_Start : string -> option Reader -> St -> result ((Reader * string) * WaitResult) * St;
  session_Run : string -> St -> option error * St
}.

Section driver.
  Context {St : Type} {machine : Machine St} {ssh : SSH} {clients : SshClients St} {sprint_host : SprintHost}.

Definition Validate (cfg : Config) : option error :=
  match ValidateRequired Spec_ssh cfg with
  | Some err => Some err
  | None =>
      match Config_Host cfg with
      | Some _ => if Blank (Config_String cfg "command") then Some (newError "command is required") else None
      | None =>
          let auth := StringOr cfg "auth" "key" in
          let authErr :=
            if String.eqb auth "key" then
              if Has cfg "private_key" then None else Some (newError "a private key is required for key authentication")
            else if String.eqb auth "password" then
              if Has cfg "password" then None else Some (newError "a password is required for password authentication")
            else Some DestSftp.badAuth in
          match authErr with
          | Some err => Some err
          | None =>
              let fp := TrimSpace (Config_String cfg "host_key") in
              if bool_decide (fp ≠ "") && negb (HasPrefix fp "SHA256:") then Some DestSftp.badFingerprint else None
          end
      end
  end.

(** As for SFTP, with another default. *)
Definition authMethods (cfg : Config) : result (list DestSftp.AuthMethod) :=
  DestSftp.authMethods (<["auth" := VString (StringOr cfg "auth" "key")]> cfg).

Definition hostKeyCallback (cfg : Config) : result (string -> string -> option error) := DestSftp.hostKeyCallback cfg.

Definition scrub (cfg : Config) (err : error) : error := DestSftp.scrub cfg err.

Definition dial (cfg : Config) (s : St) : option error * St :=
  let timeout := wrap64 (Int cfg "connect_timeout" 15 * Second) in
  let timeout := if timeout <=? 0 then 15 * Second else timeout in
  match authMethods cfg with
  | Fail err => (Some err, s)
  | Ok auths =>
      match hostKeyCallback cfg with
      | Fail err => (Some err, s)
      | Ok hostKey =>
          let addr := JoinHostPort (Config_String cfg "host") (Itoa (Int cfg "port" 22)) in
          let '(e, s) := ssh_Client (DestSftp.mkDial addr (Config_String cfg "user") auths hostKey timeout) s in
          (match e with Some err => Some (wrapError ("ssh connect to " +:+ addr) (scrub cfg err)) | None => None end, s)
      end
  end.

(** The lines of standard error that are kept, without secrets. *)
Definition sessionTail (cfg : Config) (stderr : string) : list string :=
  foldl (λ tail line,
      let line := TrimRightByte carriageReturn line in
      if Blank line then tail else tail_add tailLines (err_msg (scrub cfg (newError line))) tail)
    [] (scanLines stderrMaxLine stderr).1.

Definition sessionClose (cfg : Config) (tail : list string) (wait : WaitResult) (eof : bool) : option error :=
  if negb eof then Some (newError "remote command was stopped before it finished")
  else
    let detail := tail_text tail in
    let known := bool_decide (detail ≠ "") in
    match wait with
    | WaitOk => None
    | WaitExit code => Some (newError ("remote command exited with code " +:+ Itoa code +:+ (if known then ": " +:+ detail else "")))
    | WaitFailed err =>
        let e := wrapError "remote command failed" (scrub cfg err) in
        Some (if known then mkError (err_msg e +:+ ": " +:+ detail) (err_is e) else e)
    end.

Definition startSession (cfg : Config) (command : string) (stdin : option Reader) (s : St) : result (Running St) * St :=
  let '(e, s) := dial cfg s in
  match e with
  | Some err => (Fail err, s)
  | None =>
      let '(e, s) := client_Session s in
      match e with
      | Some err => (Fail (wrapError "open ssh session" err), s)
      | None =>
          let '(x, s) := session_Start command stdin s in
          (match x with
           | Fail err => Fail (wrapError "start remote command" (scrub cfg err))
           | Ok ((out, stderr), wait) => Ok (mkRunning out (λ eof s, (sessionClose cfg (sessionTail cfg stderr) wait eof, s)))
           end, s)
      end
  end.

Definition Test (cfg : Config) (s : St) : option error * St :=
  match Validate cfg with
  | Some err => (Some err, s)
  | None =>
      match Config_Host cfg with
      | Some _ => withRunner cfg Some (Check_ (plainCommand "true" "shell") "remote shell check") s
      | None =>
          let '(e, s) := dial cfg s in
          match e with
          | Some err => (Some err, s)
          | None =>
              let '(e, s) := client_Session s in
              match e with
              | Some err => (Some (wrapError "open ssh session" err), s)
              | None =>
                  let '(e, s) := session_Run "true" s in
                  (match e with Some err => Some (wrapError "remote command failed" (scrub cfg err)) | None => None end, s)
              end
          end
      end
  end.

Definition extension (cfg : Config) : string := TrimPrefix (StringOr cfg "extension" "tar") ".".

(** A script of the user, on the host. *)
Definition hostCommand (command : string) (stdin : option Reader) (lbl : string) : Command St :=
  mkCommand [] command "" [] "" stdin [] lbl false [].

Definition backupOnHost (cfg : Config) (command : string) : St -> result (SourceStream St) * St :=
  withBackup cfg (
    r ← getRunner;
    x ← Runner_Start (hostCommand command None "command");
    mret (match x with
          | Fail err => Fail err
          | Ok rn => Ok (mkSourceStream rn (extension cfg) 0 {[ "host" := Runner_HostLabel r; "command" := command ]})
          end)).

Definition restoreOnHost (cfg : Config) (command : string) (src : Reader) : St -> option error * St :=
  withRunner cfg Some (Runner_Run (hostCommand command (Some src) "restore")).

Definition Backup (cfg : Config) (s : St) : result (SourceStream St) * St :=
  match Validate cfg with
  | Some err => (Fail err, s)
  | None =>
      let command := TrimSpace (Config_String cfg "command") in
      if bool_decide (command = "") then (Fail (newError "command is required"), s)
      else
        match Config_Host cfg with
        | Some _ => backupOnHost cfg command s
        | None =>
            let '(x, s) := startSession cfg command None s in
            (match x with
             | Fail err => Fail err
             | Ok rn => Ok (mkSourceStream rn (extension cfg) 0 {[ "host" := Config_String cfg "host"; "command" := command ]})
             end, s)
        end
  end.

Definition Restore (cfg : Config) (src : Reader) (opts : RestoreOptions) (s : St) : option error * St :=
  let command := CommandSource.restoreCommand cfg opts in
  if bool_decide (command = "") then (Some (newError "this ssh source has no restore command configured"), s)
  else
    match Config_Host cfg with
    | Some _ => restoreOnHost cfg command src s
    | None =>
        let '(x, s) := startSession cfg command (Some src) s in
        match x with
        | Fail err => (Some err, s)
        | Ok st => rn_Close st ((scanLines stderrMaxLine (rd_data (rn_Reader st))).2 && readsAll (rn_Reader st)) s
        end
    end.

End driver.
End Ssh.

(** ** A dump is whole or not a dump *)

Section whole.
  Context {St : Type} {machine : Machine St} {ssh : SSH} {clients : Ssh.SshClients St} {sprint_host : SprintHost}.

(** What is read is the output of a program that ended with status 0, here or on
    a host. *)
Inductive exitedWell (rn : Running St) : Prop :=
  | exited_here name args env dir stdin s s' stderr :
      cmd_Start name args env dir stdin s = (Ok (mkProcRun (rn_Reader rn) stderr WaitOk), s') -> exitedWell rn
  | exited_there h line stdin s s' stderr :
      ssh_Start h line stdin s = (Started (rn_Reader rn) stderr (SessExit 0), s') -> exitedWell rn
  | exited_session line stdin s s' stderr :
      Ssh.session_Start line stdin s = (Ok ((rn_Reader rn, stderr), WaitOk), s') -> exitedWell rn.

(** Closing it without an error says that it was read to its end and its
    program ended well. *)
Definition truthful (rn : Running St) : Prop :=
  ∀ eof s s', rn_Close rn eof s = (None, s') -> eof = true ∧ exitedWell rn.

Lemma process_Close_truth (p : Process St) eof s s' : process_Close p eof s = (None, s') -> eof = true ∧ ps_Wait p = WaitOk.
Proof. unfold process_Close. by destruct eof, (ps_Wait p). Qed.

Lemma closeError_truth wait st : closeError wait st = None -> st_eof st = true ∧ wait = SessExit 0.
Proof.
  unfold closeError. destruct (st_eof st); cbn [negb]; [|done]. destruct wait as [code|msg|[msg k]].
  - destruct (Z.eqb_spec code 0) as [->|]; [done|]. by destruct (bool_decide _).
  - by destruct (bool_decide _).
  - by destruct (bool_decide _).
Qed.

Lemma stderrLines_eof lines st : st_eof (foldl (λ st line, stderrLine line st) st lines) = st_eof st.
Proof.
  revert st. induction lines as [|l lines IH]; intros st; [done|]. cbn [foldl]. rewrite IH. unfold stderrLine. by destruct (Blank _).
Qed.

Lemma proc_Start_truth (c : Proc St) s p s' :
  proc_Start c s = (Ok p, s') -> truthful (mkRunning (ps_Stdout p) (process_Close p)).
Proof.
  unfold proc_Start, proc_start. destruct (cmd_Start _ _ _ _ _ s) as [[[out err wait]|e] s1] eqn:E; [|done].
  intros [= <- <-] eof s2 s3 H. apply process_Close_truth in H as [-> Hw]. cbn in Hw. subst wait. split; [done|].
  by eapply exited_here.
Qed.

Lemma Runner_Start_truth (c : Command St) r s rn r' s' : Runner_Start c r s = ((Ok rn, r'), s') -> truthful rn.
Proof.
  unfold Runner_Start. destruct (r_host r) as [h|].
  - destruct (ssh_Start _ _ _ s) as [[err|msg|out stderr wait] s1] eqn:E; try done. intros [= <- _ _] eof s2 s3. cbn. intros [= H _].
    apply closeError_truth in H as [He ->]. destruct eof; [|by rewrite stderrLines_eof in He]. split; [done|]. by eapply exited_there.
  - destruct (proc_Start _ s) as [[p|e] s1] eqn:E; [|done]. intros [= <- _ _]. by eapply proc_Start_truth.
Qed.

Lemma withBackup_truth cfg (body : RunnerM St (result (SourceStream St))) s st s' :
  (∀ r s st r' s', body r s = ((Ok st, r'), s') -> truthful (ss_Reader st)) ->
  withBackup cfg body s = (Ok st, s') -> truthful (ss_Reader st).
Proof.
  intros Hb. unfold withBackup. destruct (Open cfg s) as [[r|e] s1]; [|done].
  destruct (body r s1) as [[[x|e] r'] s2] eqn:E; [|by destruct (Runner_Close r' s2)]. intros [= <- <-]. by eapply Hb.
Qed.

Lemma dumpWith_truth cfg candidates nf command stream s st s' :
  (∀ r rn, ss_Reader (stream r rn) = rn) ->
  dumpWith cfg candidates nf command stream s = (Ok st, s') -> truthful (ss_Reader st).
Proof.
  intros Hs. apply withBackup_truth. intros r s1 st1 r' s2. unfold mbind, RunnerM_bind.
  destruct (Tool _ _ r s1) as [[[bin|e] r1] s3]; [|done]. destruct (command bin r1 s3) as [[[c|e] r2] s4]; [|done].
  cbn [getRunner]. destruct (Runner_Start c r2 s4) as [[[rn|e] r3] s5] eqn:E; [|done].
  intros [= <- _ _]. rewrite Hs. by eapply Runner_Start_truth.
Qed.

Lemma startSession_truth cfg command stdin s rn s' : Ssh.startSession cfg command stdin s = (Ok rn, s') -> truthful rn.
Proof.
  unfold Ssh.startSession. destruct (Ssh.dial cfg s) as [[e|] s1]; [done|]. destruct (Ssh.client_Session s1) as [[e|] s2]; [done|].
  destruct (Ssh.session_Start command stdin s2) as [[[[out stderr] wait]|e] s3] eqn:E; [|done]. intros [= <- <-] eof s4 s5. cbn.
  unfold Ssh.sessionClose. destruct eof; [|done]. destruct wait; [|done..]. intros _. split; [done|]. by eapply exited_session.
Qed.

(** The drivers that run a program and hand on what it prints. *)
Definition dumpDrivers : list (Config -> St -> result (SourceStream St) * St) :=
  [Postgres.Backup; Mysql.Backup; Mongodb.Backup; Redis.Backup; Docker.Backup; CommandSource.Backup; Ssh.Backup; Push.Backup].

(** C26: a dump that ends without an error is whole.  When the stream of any of
    these drivers closes without an error, it had been read to its end, and what
    was read is the whole output of a program that ended with status 0: a dump
    that was cut, killed, or failed is never taken for one. *)
Theorem dumps_are_whole b cfg s st s' :
  b ∈ dumpDrivers -> b cfg s = (Ok st, s') -> truthful (ss_Reader st).
Proof.
  intros Hb H. unfold dumpDrivers in Hb. rewrite !elem_of_cons, elem_of_nil in Hb. destruct_or! Hb; subst b; try done; revert H.
  - unfold Postgres.Backup. destruct (Postgres.Validate cfg); [done|]. destruct (Postgres.dumpArgs cfg). by apply dumpWith_truth.
  - unfold Mysql.Backup. destruct (Mysql.Validate cfg); [done|]. by apply dumpWith_truth.
  - unfold Mongodb.Backup. destruct (Mongodb.Validate cfg); [done|]. by apply dumpWith_truth.
  - unfold Redis.Backup. destruct (Redis.Validate cfg); [done|]. by apply dumpWith_truth.
  - unfold Docker.Backup. destruct (Docker.Validate cfg); [done|]. by apply dumpWith_truth.
  - unfold CommandSource.Backup. destruct (CommandSource.Validate cfg s); [done|]. apply withBackup_truth. intros r s1 st1 r' s2.
    unfold mbind, RunnerM_bind. destruct (Tool _ _ r s1) as [[[bin|e] r1] s3]; [|done].
    destruct (Runner_Start _ r1 s3) as [[[rn|e] r2] s4] eqn:E; [|done]. intros [= <- _ _]. by eapply Runner_Start_truth.
  - unfold Ssh.Backup. destruct (Ssh.Validate cfg); [done|]. destruct (bool_decide _); [done|]. destruct (Config_Host cfg).
    + apply withBackup_truth. intros r s1 st1 r' s2. unfold mbind, RunnerM_bind. cbn [getRunner].
      destruct (Runner_Start _ r s1) as [[[rn|e] r2] s4] eqn:E; [|done]. intros [= <- _ _]. by eapply Runner_Start_truth.
    + destruct (Ssh.startSession _ _ _ s) as [[rn|e] s1] eqn:E; [|done]. intros [= <- <-]. by eapply startSession_truth.
Qed.

(** ** Passwords stay out of the argument vectors *)

(** The configurations agree on everything but the password. *)
Definition samePlain (cfg cfg' : Config) : Prop := ∀ k, k ≠ "password" -> cfg !! k = cfg' !! k.

(** Passwords stay out of the argument vectors, which any user of the machine
    can read: what PostgreSQL, MySQL and Redis programs are called with is the
    same whatever the password. *)
Theorem argv_without_password cfg cfg' : samePlain cfg cfg' ->
  Postgres.dumpArgs cfg = Postgres.dumpArgs cfg'
  ∧ (∀ params target dump, Postgres.restoreArgs cfg params target dump = Postgres.restoreArgs cfg' params target dump)
  ∧ Mysql.dumpArgs cfg = Mysql.dumpArgs cfg' ∧ (∀ params, Mysql.restoreTarget cfg params = Mysql.restoreTarget cfg' params)
  ∧ Redis.connArgs cfg = Redis.connArgs cfg'.
Proof.
  intros H. unfold Postgres.dumpArgs, Postgres.restoreArgs, Postgres.connArgs, Mysql.dumpArgs, Mysql.restoreTarget, Redis.connArgs,
    StringOr, Config_String, Int, Bool, StringList.
  repeat match goal with |- context [cfg !! ?k] => rewrite (H k) by done end. done.
Qed.

End whole.

(** ** The option file of MySQL *)

(** What the client makes of a value between quotes, as its manual says. *)
Fixpoint optionValue (s : string) : option string :=
  match s with
  | "" => None
  | String a s' =>
      if String.eqb (schar a) dquote then if bool_decide (s' = "") then Some "" else None
      else if Ascii.eqb a Mysql.backslash then
        match s' with
        | "" => None
        | String b s'' =>
            let plain := if Ascii.eqb b "n" then byte_of 10 else if Ascii.eqb b "t" then byte_of 9 else if Ascii.eqb b "r" then byte_of 13
                         else if Ascii.eqb b "b" then byte_of 8 else if Ascii.eqb b "s" then " "%char else b in
            String plain <$> optionValue s''
        end
      else String a <$> optionValue s'
  end.

Lemma optionValue_escaped pw : optionValue (Mysql.escaped pw +:+ dquote) = Some pw.
Proof.
  induction pw as [|a pw IH]; [reflexivity|]. cbn [Mysql.escaped]. destruct (Ascii.eqb_spec a Mysql.backslash) as [->|Hb].
  - change ((schar Mysql.backslash +:+ schar Mysql.backslash) +:+ Mysql.escaped pw) with (String Mysql.backslash (String Mysql.backslash (Mysql.escaped pw))).
    cbn [String.append optionValue]. by rewrite IH.
  - destruct (String.eqb_spec (schar a) dquote) as [E|Hq].
    + injection E as ->. change ((schar Mysql.backslash +:+ dquote) +:+ Mysql.escaped pw) with (String Mysql.backslash (String (byte_of 34) (Mysql.escaped pw))).
      cbn [String.append optionValue]. by rewrite IH.
    + change (schar a +:+ Mysql.escaped pw) with (String a (Mysql.escaped pw)). cbn [String.append optionValue].
      rewrite (proj2 (String.eqb_neq _ _) Hq), (proj2 (Ascii.eqb_neq _ _) Hb). by rewrite IH.
Qed.

(** The last password of an option file. *)
Definition clientPassword (content : string) : option string :=
  last (omap (λ line, if HasPrefix line ("password=" +:+ dquote) then optionValue (sdrop 10 line) else None)
          (Split content (byte_of 10))).

Lemma Split_lines ls : Forall (λ l, free_of (byte_of 10) l = true) ls ->
  Split (foldr (λ l rest, l +:+ Mysql.newline +:+ rest) "" ls) (byte_of 10) = ls ++ [""].
Proof.
  induction 1 as [|l ls Hl _ IH]; [done|]. cbn [foldr app]. change (Mysql.newline +:+ ?x) with (String (byte_of 10) x).
  rewrite Split_app, IH. by rewrite Split_free_id.
Qed.

Lemma free_app c s t : free_of c (s +:+ t) = free_of c s && free_of c t.
Proof. apply sall_app. Qed.

Lemma free_Itoa c n : is_digit c = false -> c ≠ "-"%char -> free_of c (Itoa n) = true.
Proof.
  intros Hc Hm. assert (HD : ∀ s, sall is_digit s = true -> free_of c s = true).
  { induction s as [|a s IH]; [done|]. cbn. intros H. boolean. apply andb_true_iff. split; [|by apply IH].
    apply negb_true_iff, Ascii.eqb_neq. intros ->. congruence. }
  destruct n as [|p|p]; [apply HD; reflexivity| |].
  - apply HD. apply (pretty_digits (N.pos p)).
  - change (Itoa (Z.neg p)) with ("-" +:+ Itoa (Z.pos p)). rewrite free_app. apply andb_true_iff.
    split; [|apply HD, (pretty_digits (N.pos p))]. change (free_of c "-") with (negb (Ascii.eqb "-" c) && true).
    rewrite andb_true_r. apply negb_true_iff, Ascii.eqb_neq. congruence.
Qed.

Lemma free_escaped pw : free_of (byte_of 10) pw = true -> free_of (byte_of 10) (Mysql.escaped pw) = true.
Proof.
  induction pw as [|a pw IH]; [done|]. intros H. cbn in H. boolean. cbn [Mysql.escaped]. rewrite free_app, IH, andb_true_r by done.
  destruct (Ascii.eqb a Mysql.backslash); [done|]. destruct (String.eqb _ _); [done|]. cbn.
  match goal with H : Ascii.eqb a _ = false |- _ => by rewrite H end.
Qed.

(** the client reads the password back from the option file as it was
    entered, quotes, backslashes, hashes and spaces included, unless a value
    holds the end of a line. *)
Theorem defaultsContent_password {sprint_host : SprintHost} cfg :
  let pw := Config_String cfg "password" in
  pw ≠ "" -> Forall (λ v, free_of (byte_of 10) v = true)
    [Config_String cfg "socket"; StringOr cfg "host" "127.0.0.1"; Config_String cfg "user"; pw] ->
  clientPassword (Mysql.defaultsContent cfg) = Some pw.
Proof.
  intros pw Hpw HF. rewrite !Forall_cons in HF. destruct HF as (Hs & Hh & Hu & Hp & _).
  pose (lines := ["[client]"] ++ (if bool_decide (Config_String cfg "socket" ≠ "") then ["socket=" +:+ Config_String cfg "socket"]
    else ["host=" +:+ StringOr cfg "host" "127.0.0.1"; "port=" +:+ Itoa (Int cfg "port" 3306); "protocol=TCP"])
    ++ (if bool_decide (Config_String cfg "user" ≠ "") then ["user=" +:+ Config_String cfg "user"] else [])).
  pose (line := "password=" +:+ dquote +:+ Mysql.escaped pw +:+ dquote).
  assert (EC : Mysql.defaultsContent cfg = foldr (λ l rest, l +:+ Mysql.newline +:+ rest) "" (lines ++ [line])).
  { unfold Mysql.defaultsContent, lines, line. rewrite (bool_decide_eq_true_2 (Config_String cfg "password" ≠ "")) by done.
    do 2 case_bool_decide; cbn [app foldr]; rewrite ?sapp_assoc; done. }
  unfold clientPassword. rewrite EC, Split_lines.
  - rewrite !omap_app. cbn [omap list_omap]. change (HasPrefix "" _) with false. cbv iota. rewrite app_nil_r.
    assert (EL : line = ("password=" +:+ dquote) +:+ Mysql.escaped pw +:+ dquote) by by unfold line; rewrite sapp_assoc.
    assert (EV : optionValue (sdrop 10 line) = Some pw) by by rewrite EL, (sdrop_app ("password=" +:+ dquote)), optionValue_escaped.
    rewrite EV. replace (HasPrefix line _) with true by by rewrite EL, HasPrefix_app. by rewrite last_snoc.
  - unfold lines, line. apply Forall_app. split.
    + constructor; [done|]. apply Forall_app. split; case_bool_decide; repeat constructor; rewrite ?free_app, ?free_Itoa; done.
    + repeat constructor. by rewrite !free_app, free_escaped.
Qed.

(** ** A machine *)

(** Every program prints [out] and ends well; nothing else answers. *)
Definition sampleMachine {St : Type} (out : string) : Machine St := {|
  cmd_Start _ _ _ _ _ s := (Ok (mkProcRun (fullReader out) "" WaitOk), s);
  cmd_Run _ _ _ _ _ s := (((out, ""), WaitOk), s);
  LookPath name _ := Ok ("/usr/bin/" +:+ name);
  os_Stat _ _ := Fail (newError "no such file or directory");
  os_CreateTemp _ _ s := (Ok "/tmp/backvault-mysql-1.cnf", s);
  f_Chmod _ _ s := (None, s);
  f_Write _ _ s := (None, s);
  f_Close _ s := (None, s);
  os_RemoveFile _ s := s;
  ssh_Connect _ s := (NoRoute (newError "no route to host"), s);
  ssh_Close _ s := s;
  ssh_Exec _ _ _ s := (Fail (newError "EOF"), s);
  ssh_Start _ _ _ s := (NoSession (newError "EOF"), s)
|}.

#[local] Instance sampleClients : Ssh.SshClients unit := {|
  Ssh.ssh_Client _ s := (Some (newError "no route to host"), s);
  Ssh.client_Session s := (Some (newError "EOF"), s);
  Ssh.session_Start _ _ s := (Fail (newError "EOF"), s);
  Ssh.session_Run _ s := (Some (newError "EOF"), s)
|}.

#[local] Instance sampleSSH : SSH := {| ParsePrivateKey _ := KeyInvalid (newError "ssh: no key found");
  ParsePrivateKeyWithPassphrase _ _ := KeyInvalid (newError "ssh: no key found") |}.

#[local] Instance sampleSprint : SprintHost := λ h, host_Name h.

Definition sampleConfig (pw : string) : Config :=
  {[ "host" := VString "db.example.com"; "user" := VString "backup"; "password" := VString pw; "database" := VString "shop" ]}.

#[local] Instance pgMachine : Machine unit := sampleMachine "PGDMP".

Lemma dumps_are_whole_witness :
  let x := Postgres.Backup (sampleConfig "secret") tt in
  ∃ st s', x = (Ok st, s') ∧ rd_data (rn_Reader (ss_Reader st)) = "PGDMP"
    ∧ truthful (ss_Reader st).
Proof.
  intros x. destruct x as [[st|err] s'] eqn:E; [|by vm_compute in E]. exists st, s'. split; [done|]. split.
  - assert (H : match x.1 with Ok st => rd_data (rn_Reader (ss_Reader st)) | Fail _ => "" end = "PGDMP") by by vm_compute.
    by rewrite E in H.
  - apply (dumps_are_whole Postgres.Backup (sampleConfig "secret") tt st s'); [by left|exact E].
Defined.

Lemma argv_without_password_witness :
  Postgres.dumpArgs (sampleConfig "secret") = Postgres.dumpArgs (sampleConfig "other")
  ∧ (Postgres.dumpArgs (sampleConfig "secret")).1
    = ["-h"; "db.example.com"; "-p"; "5432"; "-U"; "backup"; "-w"; "-d"; "shop"; "-F"; "c"].
Proof.
  split; [|by vm_compute]. apply (argv_without_password (sampleConfig "secret") (sampleConfig "other")).
  intros k Hk. unfold sampleConfig. destruct (decide (k = "host")) as [->|]; [done|]. destruct (decide (k = "user")) as [->|]; [done|].
  destruct (decide (k = "database")) as [->|]; [done|]. by rewrite !lookup_insert_ne.
Defined.

Lemma defaultsContent_password_witness :
  clientPassword (Mysql.defaultsContent (sampleConfig ("p" +:+ dquote +:+ "w\# 1")))
  = Some ("p" +:+ dquote +:+ "w\# 1").
Proof.
  apply (defaultsContent_password (sampleConfig ("p" +:+ dquote +:+ "w\# 1"))); [by vm_compute|].
  repeat constructor.
Defined.

(** ** What goes wrong *)

(** On a host, the option file goes into the script with its quotes and
    backslashes escaped: such a password is not found by the redaction, and the
    run log shows it. *)
Example mysql_password_logged :
  let cfg := sampleConfig ("pa" +:+ dquote +:+ "ssword") in
  let c := mkCommand (St := unit) [] (Mysql.remoteDefaultsScript "mysqldump" ["shop"] (Mysql.defaultsContent cfg))
             "" [] "" None (Mysql.redact cfg) "mysqldump" false [] in
  Contains (LogLine c) ("pa\" +:+ dquote +:+ "ssword") = true.
Proof. vm_compute. reflexivity. Qed.

(** A command of which a line of output fills the buffer is killed, though it
    would have ended well. *)
Fixpoint longLine (n : nat) : string := match n with O => "" | S n => String "x" (longLine n) end.

Example long_line_fails :
  (proc_Run (machine := sampleMachine (longLine stderrMaxLine)) (mkProc "psql" [] [] "" None [] "psql" false []) tt).1
  = Some (newError "psql was stopped before it finished").
Proof. vm_compute. reflexivity. Qed.
