(* ===== verification/SourceFiles.v ===== *)
(** * The files source: [internal/source/files]

    The archive of files and directories, written here entry by entry, or by tar
    on a host; its extraction.  What the operating system says of the files is a
    snapshot ([Snapshot]); the patterns of doublestar are a parameter. *)
From S2P Require Import Prelude GoStrings GoTime GoPath GoHttp Core Config Specs Pack Spool FileSystem Db Shell Slug DestSftp Remote RemoteExec SourceDrivers.
Open Scope Z_scope.

Module Files.

(** ** What is archived *)

Inductive Kind := KDir | KSymlink | KSocket | KRegular | KOther.

(** An [os.FileInfo]: [fm_Dev] is what [deviceOf] tells, [fm_Hardlink] what
    [hardlinkKey] tells. *)
Record FileMeta := mkFileMeta {
  fm_Kind : Kind; fm_Size : Z; fm_Perm : Z; fm_ModTime : Time; fm_Uid : Z; fm_Gid : Z; fm_Dev : option Z; fm_Hardlink : option string
}.

Inductive Type_ := TDir | TReg | TSymlink | TLink | TOther.

(** An entry of a tar archive with its content. *)
Record Entry := mkEntry { en_Name : string; en_Type : Type_; en_Linkname : string; en_Data : string; en_Meta : FileMeta }.

(** What the operating system says, and that [os.ReadDir] orders by name. *)
Class Snapshot := {
  Lstat : string -> result FileMeta;
  Stat : string -> result FileMeta;
  EvalSymlinks : string -> result string;
  ReadDir : string -> result (list (string * result FileMeta));
  Readdirnames : string -> option error;
  Readlink : string -> result string;
  Open : string -> result Reader;
  FileInfoHeader : FileMeta -> option error
}.

(** [doublestar.Match] and [doublestar.ValidatePattern]. *)
Class Doublestar := { Match : string -> string -> bool; ValidatePattern : string -> bool }.

(** [archive/tar]: the bytes of an archive and what is read of them, each entry
    with the error its content ends with; what the [n]-th header that is written
    meets, [ctx.Err()] at the [n]-th file, and how the walk ends when its reader
    is closed early. *)
Class Tar := {
  tarBytes : list Entry -> string;
  readTar : Reader -> list (Entry * option error) * option error;
  tarFault : nat -> option error;
  walkCtx : nat -> option error;
  closedEarly : option error
}.

Record Walker := mkWalker { w_exclude : list string; w_follow : bool; w_oneFS : bool; w_strict : bool; w_baseDir : string }.

Record Walk := mkWalk {
  k_out : list Entry; k_seen : gset string; k_hardlinks : gmap string string; k_visited : gset string;
  k_files : Z; k_bytes : Z; k_skipped : Z; k_ticks : nat
}.

Definition startWalk : Walk := mkWalk [] ∅ ∅ ∅ 0 0 0 0.

Definition skip (k : Walk) : Walk :=
  mkWalk (k_out k) (k_seen k) (k_hardlinks k) (k_visited k) (k_files k) (k_bytes k) (k_skipped k + 1) (k_ticks k).
Definition see (rel : string) (k : Walk) : Walk :=
  mkWalk (k_out k) ({[ rel ]} ∪ k_seen k) (k_hardlinks k) (k_visited k) (k_files k) (k_bytes k) (k_skipped k) (k_ticks k).
Definition visit (dir : string) (k : Walk) : Walk :=
  mkWalk (k_out k) (k_seen k) (k_hardlinks k) ({[ dir ]} ∪ k_visited k) (k_files k) (k_bytes k) (k_skipped k) (k_ticks k).
Definition hardlink (key name : string) (k : Walk) : Walk :=
  mkWalk (k_out k) (k_seen k) (<[key := name]> (k_hardlinks k)) (k_visited k) (k_files k) (k_bytes k) (k_skipped k) (k_ticks k).
Definition tick (k : Walk) : Walk :=
  mkWalk (k_out k) (k_seen k) (k_hardlinks k) (k_visited k) (k_files k) (k_bytes k) (k_skipped k) (S (k_ticks k)).
Definition emit (e : Entry) (k : Walk) : Walk :=
  mkWalk (k_out k ++ [e]) (k_seen k) (k_hardlinks k) (k_visited k) (k_files k) (k_bytes k) (k_skipped k) (k_ticks k).
Definition count (bytes : Z) (k : Walk) : Walk :=
  mkWalk (k_out k) (k_seen k) (k_hardlinks k) (k_visited k) (k_files k + 1) (k_bytes k + bytes) (k_skipped k) (k_ticks k).

Definition within (base target : string) : bool :=
  match Rel base target with
  | Fail _ => false
  | Ok rel => negb (String.eqb rel "..") && negb (HasPrefix rel "../")
  end.

Fixpoint zeroBytes (n : nat) : string := match n with O => "" | S n => String (byte_of 0) (zeroBytes n) end.

(** Out of fuel: the directories are nested deeper than the walk was allowed. *)
Definition tooDeep : error := newError "directories nested too deeply".

Section walk.
  Context {snapshot : Snapshot} {doublestar : Doublestar} {tar : Tar} (w : Walker).

Definition excluded (name : string) (isDir : bool) : bool :=
  existsb (λ pattern,
      existsb (λ c, Match pattern (TrimSuffix c "/")) (name :: if isDir then [name +:+ "/"] else [])
      || (negb (ContainsByte pattern "/") && Match pattern (Base name)))
    (w_exclude w).

Definition entryName (base full : string) (k : Walk) : option string * Walk :=
  match Rel base full with
  | Fail _ => (None, k)
  | Ok rel =>
      if String.eqb rel "." || String.eqb rel "" then (None, k)
      else
        let rel := if HasPrefix rel "../" then Base full else rel in
        if bool_decide (rel ∈ k_seen k) then (None, k) else (Some rel, see rel k)
  end.

(** The header of an entry, and its content. *)
Definition put (full : string) (e : Entry) (k : Walk) : option error * Walk :=
  match FileInfoHeader (en_Meta e) with
  | Some err => (Some (wrapError ("header for " +:+ full) err), k)
  | None =>
      match tarFault (length (k_out k)) with
      | Some err => (Some (wrapError ("write header for " +:+ full) err), k)
      | None => (None, emit e k)
      end
  end.

Definition putCounted (full : string) (e : Entry) (k : Walk) : option error * Walk :=
  let '(err, k) := put full e k in (err, match err with Some _ => k | None => count 0 k end).

Definition writeHeader (name full : string) (ty : Type_) (info : FileMeta) (link : string) (k : Walk) : option error * Walk :=
  if String.eqb name "" || String.eqb name "/" then (None, k) else putCounted full (mkEntry name ty link "" info) k.

(** Fail, or leave it out. *)
Definition unreadable (what : string) (err : error) (k : Walk) : option error * Walk :=
  if w_strict w then (Some (wrapError what err), k) else (None, skip k).

Definition writeFile (name full : string) (info : FileMeta) (k : Walk) : option error * Walk :=
  match Open full with
  | Fail err => unreadable ("open " +:+ full) err k
  | Ok f =>
      let size := Z.to_nat (fm_Size info) in
      let data := stake size (rd_data f) in
      let '(e, k) := put full (mkEntry name TReg "" (data +:+ zeroBytes (size - String.length data)) info) k in
      match e with
      | Some err => (Some err, k)
      | None =>
          match rd_err f with
          | Some err => if (String.length data <? size)%nat then (Some (wrapError ("read " +:+ full) err), k) else (None, count (fm_Size info) k)
          | None => (None, count (fm_Size info) k)
          end
      end
  end.

(** A link that is followed: what it leads to, or the reason to leave it. *)
Definition followLink (full : string) (info : FileMeta) (k : Walk) : option FileMeta * (option error * Walk) :=
  match fm_Kind info with
  | KSymlink =>
      if negb (w_follow w) then (Some info, (None, k))
      else
        match Stat full with
        | Fail err => (None, unreadable ("resolve symlink " +:+ full) err k)
        | Ok target =>
            match EvalSymlinks full, fm_Kind target with
            | Ok resolved, KDir =>
                if bool_decide (resolved ∈ k_visited k) then (None, (None, skip k)) else (Some target, (None, visit resolved k))
            | _, _ => (Some target, (None, k))
            end
        end
  | _ => (Some info, (None, k))
  end.

Definition otherDevice (info : FileMeta) (rootDev : option Z) : bool :=
  w_oneFS w && match rootDev, fm_Dev info with Some d, Some d' => negb (d' =? d) | _, _ => false end.

(** A file that is no directory. *)
Definition writeOther (name full : string) (info : FileMeta) (k : Walk) : option error * Walk :=
  match fm_Kind info with
  | KSymlink =>
      match Readlink full with
      | Fail err => unreadable ("read symlink " +:+ full) err k
      | Ok link => writeHeader name full TSymlink info link k
      end
  | KSocket => (None, skip k)
  | KRegular =>
      match fm_Hardlink info with
      | Some key =>
          match k_hardlinks k !! key with
          | Some first => putCounted full (mkEntry name TLink first "" info) k
          | None => writeFile name full info (hardlink key name k)
          end
      | None => writeFile name full info k
      end
  | KDir | KOther => writeHeader name full TOther info "" k
  end.

Fixpoint walkEntries (walk : string -> FileMeta -> Walk -> option error * Walk) (full : string) (l : list (string * result FileMeta)) (k : Walk)
    : option error * Walk :=
  match l with
  | [] => (None, k)
  | (name, info) :: l =>
      let child := PathJoin [full; name] in
      let '(e, k) := match info with
                     | Fail err => unreadable ("stat " +:+ child) err k
                     | Ok info => walk child info k
                     end in
      match e with Some err => (Some err, k) | None => walkEntries walk full l k end
  end.

Fixpoint walk (fuel : nat) (base : string) (rootDev : option Z) (full : string) (info : FileMeta) (k : Walk) : option error * Walk :=
  match fuel with
  | O => (Some tooDeep, k)
  | S fuel =>
      match walkCtx (k_ticks k) with
      | Some err => (Some err, k)
      | None =>
          let '(name, k) := entryName base full (tick k) in
          match name with
          | None => (None, k)
          | Some name =>
              if excluded name (match fm_Kind info with KDir => true | _ => false end) then (None, skip k)
              else if otherDevice info rootDev then (None, skip k)
              else
                let '(info, rest) := followLink full info k in
                match info with
                | None => rest
                | Some info =>
                    let k := rest.2 in
                    match fm_Kind info with
                    | KDir =>
                        let '(e, k) := writeHeader (name +:+ "/") full TDir info "" k in
                        match e with
                        | Some err => (Some err, k)
                        | None =>
                            match ReadDir full with
                            | Fail err => unreadable ("read directory " +:+ full) err k
                            | Ok entries => walkEntries (walk fuel base rootDev) full entries k
                            end
                        end
                    | _ => writeOther name full info k
                    end
                end
          end
      end
  end.

(** The directory the names of a root are relative to. *)
Definition baseOf (root : string) : string :=
  if String.eqb (w_baseDir w) "" || negb (within (w_baseDir w) root) then Dir root else w_baseDir w.

Fixpoint runRoots (fuel : nat) (paths : list string) (k : Walk) : option error * Walk :=
  match paths with
  | [] => (None, k)
  | root :: paths =>
      match walkCtx (k_ticks k) with
      | Some err => (Some err, k)
      | None =>
          match Lstat root with
          | Fail err =>
              if w_strict w then (Some (wrapError ("stat " +:+ root) err), k) else runRoots fuel paths (skip (tick k))
          | Ok info =>
              let '(e, k) := walk fuel (baseOf root) (if w_oneFS w then fm_Dev info else None) root info (tick k) in
              match e with Some err => (Some err, k) | None => runRoots fuel paths k end
          end
      end
  end.

Definition run (fuel : nat) (paths : list string) : option error * Walk := runRoots fuel paths startWalk.

End walk.

(** ** Taking it out again *)

(** What an extraction asks of the operating system. *)
Inductive Action :=
  | AMkdirAll (p : string)
  | ACreate (p : string) (perm : Z)
  | AWrite (p data : string)
  | AClose (p : string)
  | AChmod (p : string) (perm : Z)
  | AChtimes (p : string) (t : Time)
  | ARemove (p : string)
  | ASymlink (linkname p : string)
  | ALink (source p : string)
  | ALchown (p : string) (uid gid : Z).

Class Extraction (St : Type) := { act : Action -> St -> option error * St; realpath : string -> St -> result string }.

Definition safeJoin (root name : string) : result string :=
  let clean := Clean name in
  if IsAbs clean || HasPrefix clean "/" then Fail (newError "absolute paths are not allowed")
  else if String.eqb clean ".." || HasPrefix clean "../" then Fail (newError "path escapes the target directory")
  else
    let joined := PathJoin [root; clean] in
    if negb (within root joined) then Fail (newError "path escapes the target directory") else Ok joined.

Definition checkLinkTarget (root linkPath linkname : string) : option error :=
  let resolved := if IsAbs linkname then linkname else PathJoin [Dir linkPath; linkname] in
  if negb (within root (Clean resolved)) then Some (newError "link target escapes the target directory") else None.

Section extract.
  Context {St : Type} {extraction : Extraction St}.

(** The actions one after the other; the first that fails ends them, its error
    wrapped, unless it has nothing to say. *)
Fixpoint acts (l : list (Action * option string)) (s : St) : option error * St :=
  match l with
  | [] => (None, s)
  | (a, what) :: l =>
      let '(e, s) := act a s in
      match e, what with
      | Some err, Some what => (Some (wrapError what err), s)
      | _, _ => acts l s
      end
  end.

Definition extractFile (target : string) (e : Entry) (tr_err : option error) (s : St) : option error * St :=
  let perm := fm_Perm (en_Meta e) in
  let '(err, s) := acts [(AMkdirAll (Dir target), Some ("create directory for " +:+ target)); (ACreate target perm, Some ("create " +:+ target))] s in
  match err with
  | Some err => (Some err, s)
  | None =>
      let '(werr, s) := act (AWrite target (en_Data e)) s in
      match (match werr with Some err => Some err | None => tr_err end) with
      | Some err => let '(_, s) := act (AClose target) s in (Some (wrapError ("write " +:+ target) err), s)
      | None =>
          acts [(AClose target, Some ("close " +:+ target)); (AChmod target perm, Some ("chmod " +:+ target));
                (AChtimes target (fm_ModTime (en_Meta e)), None)] s
      end
  end.

(** An entry, but for its owner: what is said, and whether there was one. *)
Definition extractEntry (realRoot : string) (e : Entry) (tr_err : option error) (target : string) (s : St) : option error * St :=
  let refusing what err := Some (wrapError ("refusing " +:+ what +:+ " " +:+ Quote (en_Name e)) err) in
  match en_Type e with
  | TDir => acts [(AMkdirAll target, Some ("create directory " +:+ target))] s
  | TReg => extractFile target e tr_err s
  | TSymlink =>
      let '(err, s) := acts [(AMkdirAll (Dir target), Some ("create directory for " +:+ target))] s in
      match err with
      | Some err => (Some err, s)
      | None =>
          match checkLinkTarget realRoot target (en_Linkname e) with
          | Some err => (refusing "symlink" err, s)
          | None => acts [(ARemove target, None); (ASymlink (en_Linkname e) target, Some ("create symlink " +:+ target))] s
          end
      end
  | TLink =>
      match safeJoin realRoot (en_Linkname e) with
      | Fail err => (refusing "hard link" err, s)
      | Ok linkSource =>
          acts [(AMkdirAll (Dir target), Some ("create directory for " +:+ target)); (ARemove target, None);
                (ALink linkSource target, Some ("create hard link " +:+ target))] s
      end
  | TOther => (None, s)
  end.

Definition chownEntry (chown : bool) (e : Entry) (target : string) (s : St) : St :=
  match en_Type e with
  | TOther => s
  | _ => if chown && (0 <=? fm_Uid (en_Meta e)) && (0 <=? fm_Gid (en_Meta e))
         then (act (ALchown target (fm_Uid (en_Meta e)) (fm_Gid (en_Meta e))) s).2 else s
  end.

(** The directories found, the last one first. *)
Definition Deferred : Type := list (string * FileMeta).

Fixpoint extractAll (realRoot : string) (chown : bool) (l : list (Entry * option error)) (tr_end : option error) (dirs : Deferred) (s : St)
    : (option error * Deferred) * St :=
  match l with
  | [] => ((match tr_end with Some err => Some (wrapError "read archive" err) | None => None end, dirs), s)
  | (e, tr_err) :: l =>
      match safeJoin realRoot (en_Name e) with
      | Fail err => ((Some (wrapError ("refusing entry " +:+ Quote (en_Name e)) err), dirs), s)
      | Ok target =>
          let '(err, s) := extractEntry realRoot e tr_err target s in
          match err with
          | Some err => ((Some err, dirs), s)
          | None =>
              extractAll realRoot chown l tr_end (match en_Type e with TDir => (target, en_Meta e) :: dirs | _ => dirs end) (chownEntry chown e target s)
          end
      end
  end.

Fixpoint finishDirs (dirs : Deferred) (s : St) : St :=
  match dirs with
  | [] => s
  | (p, m) :: dirs => finishDirs dirs (act (AChtimes p (fm_ModTime m)) (act (AChmod p (fm_Perm m)) s).2).2
  end.

Definition extractTo (root : string) (chown : bool) (archive : list (Entry * option error) * option error) (s : St) : option error * St :=
  let '(err, s) := acts [(AMkdirAll root, Some "create target directory")] s in
  match err with
  | Some err => (Some err, s)
  | None =>
      match realpath root s with
      | Fail err => (Some (wrapError "resolve target directory" err), s)
      | Ok realRoot =>
          let '((err, dirs), s) := extractAll realRoot chown archive.1 archive.2 [] s in
          match err with Some err => (Some err, s) | None => (None, finishDirs dirs s) end
      end
  end.

End extract.

(** ** The driver *)

(** The first of the errors, and what follows it. *)
Definition firstError (l : list (option error)) : option error := head (omap id l).

Section driver.
  Context {St : Type} {machine : Machine St} {ssh : SSH} {sprint_host : SprintHost}.
  Context {snapshot : Snapshot} {doublestar : Doublestar} {tar : Tar} {extraction : Extraction St}.

Definition Validate (cfg : Config) : option error :=
  let paths := StringList cfg "paths" in
  let base := Config_String cfg "base_dir" in
  firstError
    ([Config.ValidateRequired Spec_files cfg;
      if bool_decide (paths = []) then Some (newError "at least one path is required") else None]
     ++ ((λ p, if negb (IsAbs p) then Some (newError ("path " +:+ Quote p +:+ " must be absolute")) else None) <$> paths)
     ++ [if bool_decide (base ≠ "") && negb (IsAbs base) then Some (newError "base directory must be absolute") else None]
     ++ ((λ pattern, if negb (ValidatePattern pattern) then Some (newError ("exclude pattern " +:+ Quote pattern +:+ " is not valid")) else None)
           <$> StringList cfg "exclude")).

Definition cleanPaths (cfg : Config) : list string := Clean <$> StringList cfg "paths".

Definition remoteBase (cfg : Config) : string :=
  let base := TrimSpace (Config_String cfg "base_dir") in if bool_decide (base = "") then "/" else Clean base.

Definition archivePath (base full : string) : string :=
  if String.eqb base full then "."
  else if negb (within base full) then full
  else
    match Rel base full with
    | Fail _ => full
    | Ok rel => if String.eqb rel "" || String.eqb rel "." || HasPrefix rel ".." then full else rel
    end.

Definition remotePaths (cfg : Config) : list string := archivePath (remoteBase cfg) <$> cleanPaths cfg.

Definition tarArgv (tool : string) (cfg : Config) : list string :=
  [tool; "-C"; remoteBase cfg; "-cf"; "-"] ++ flagIf (Bool cfg "one_file_system" false) ["--one-file-system"]
  ++ flagIf (Bool cfg "follow_symlinks" false) ["-h"] ++ ((λ pattern, "--exclude=" +:+ pattern) <$> StringList cfg "exclude") ++ remotePaths cfg.

Definition extractArgv (tool target : string) (cfg : Config) : list string :=
  [tool; "-C"; target; "-xf"; "-"] ++ flagIf (negb (Bool cfg "restore_ownership" false)) ["--no-same-owner"].

Definition extractScript (tool target : string) (cfg : Config) : string :=
  "mkdir -p " +:+ ShellQuote target +:+ " && " +:+ ShellJoin (extractArgv tool target cfg).

Definition readableScript (cfg : Config) : string :=
  let base := TrimSpace (Config_String cfg "base_dir") in
  let p := dquote +:+ "$p" +:+ dquote in
  "for p in " +:+ ShellJoin (cleanPaths cfg ++ flagIf (bool_decide (base ≠ "")) [Clean base])
  +:+ "; do [ -r " +:+ p +:+ " ] || echo " +:+ p +:+ "; done".

Definition testRemote (cfg : Config) : St -> option error * St :=
  withRunner cfg Some (
    tool ← Tool "" ["tar"];
    match tool with
    | Fail err => mret (Some err)
    | Ok _ =>
        x ← Runner_Exec (plainCommand (readableScript cfg) "test -r");
        match x with
        | (_, Some err) => mret (Some err)
        | (res, None) =>
            let problems := filter (λ p, p ≠ "") (TrimSpace <$> Split (res_Stdout res) (byte_of 10)) in
            r ← getRunner;
            mret (if bool_decide (problems ≠ [])
                  then Some (newError ("unreadable on host " +:+ Runner_HostLabel r +:+ ": " +:+ StrJoin problems ", ")) else None)
        end
    end).

Definition pathProblem (cfg : Config) (p : string) : option string :=
  let problem (err : error) := Some (p +:+ ": " +:+ err_msg err) in
  match Lstat p with
  | Fail err => problem err
  | Ok info =>
      match fm_Kind info, Bool cfg "follow_symlinks" false with
      | KSymlink, false => None
      | k, _ =>
          match Open p with
          | Fail err => problem err
          | Ok _ => match k with
                    | KDir => match Readdirnames p with Some err => problem err | None => None end
                    | _ => None
                    end
          end
      end
  end.

Definition Test (cfg : Config) (s : St) : option error * St :=
  match Validate cfg with
  | Some err => (Some err, s)
  | None =>
      if bool_decide (Config_Host cfg ≠ None) then testRemote cfg s
      else
        let problems := omap (pathProblem cfg) (StringList cfg "paths") in
        let base := Config_String cfg "base_dir" in
        (if bool_decide (problems ≠ []) then Some (newError ("unreadable paths: " +:+ StrJoin problems "; "))
         else if bool_decide (base ≠ "") then
           match Stat base with Fail err => Some (wrapError "base directory" err) | Ok _ => None end
         else None, s)
  end.

Definition backupRemote (cfg : Config) : St -> result (SourceStream St) * St :=
  withBackup cfg (
    tool ← Tool "" ["tar"];
    match tool with
    | Fail err => mret (Fail err)
    | Ok tool =>
        x ← Runner_Start (argvCommand (tarArgv tool cfg) [] None [] "tar" false);
        r ← getRunner;
        mret (match x with
              | Fail err => Fail err
              | Ok rn => Ok (mkSourceStream rn "tar" 0 {[ "host" := Runner_HostLabel r; "paths" := StrJoin (StringList cfg "paths") ", " ]})
              end)
    end).

Definition walkerOf (cfg : Config) : Walker :=
  let base := TrimSpace (Config_String cfg "base_dir") in
  mkWalker (StringList cfg "exclude") (Bool cfg "follow_symlinks" false) (Bool cfg "one_file_system" false) (Bool cfg "strict" false)
    (if bool_decide (base ≠ "") then Clean base else "").

(** What is read is the archive as far as the walk came; its error is that of
    the reads and of [Close]. *)
Definition tarStream (r : option error * Walk) : Running St :=
  mkRunning (mkReader (tarBytes (k_out r.2)) r.1) (λ eof s, ((if eof : bool then r.1 else match r.1 with Some err => Some err | None => closedEarly end), s)).

(** [fuel] bounds how deep directories nest. *)
Definition Backup (fuel : nat) (cfg : Config) (s : St) : result (SourceStream St) * St :=
  match Validate cfg with
  | Some err => (Fail err, s)
  | None =>
      if bool_decide (Config_Host cfg ≠ None) then backupRemote cfg s
      else (Ok (mkSourceStream (tarStream (run (walkerOf cfg) fuel (cleanPaths cfg))) "tar" 0 {[ "paths" := StrJoin (cleanPaths cfg) ", " ]}), s)
  end.

Definition targetOf (cfg : Config) (opts : RestoreOptions) : result string :=
  let target := if bool_decide (ro_TargetPath opts = "") then Config_String cfg "base_dir" else ro_TargetPath opts in
  if bool_decide (target = "") then Fail (newError "a target directory is required to restore a file archive")
  else if negb (IsAbs target) then Fail (newError "target directory must be an absolute path")
  else Ok target.

Definition restoreRemote (cfg : Config) (src : Reader) (opts : RestoreOptions) (s : St) : option error * St :=
  match targetOf cfg opts with
  | Fail err => (Some err, s)
  | Ok target =>
      withRunner cfg Some (
        tool ← Tool "" ["tar"];
        match tool with
        | Fail err => mret (Some err)
        | Ok tool => Runner_Run (mkCommand [] (extractScript tool (Clean target) cfg) "" [] "" (Some src) [] "tar" false [])
        end) s
  end.

Definition Restore (cfg : Config) (r : Reader) (opts : RestoreOptions) (s : St) : option error * St :=
  if bool_decide (Config_Host cfg ≠ None) then restoreRemote cfg r opts s
  else
    match targetOf cfg opts with
    | Fail err => (Some err, s)
    | Ok root => extractTo root (Bool cfg "restore_ownership" false) (readTar r) s
    end.

End driver.
End Files.

(** * The SQLite source: [internal/source/sqlite] *)

Module Sqlite.

Definition magic : string := "SQLite format 3" +:+ schar (byte_of 0).

(** What the driver needs beside a machine: directories for its copies, the copy
    as a stream, and [database/sql]. *)
Class Databases (St : Type) := {
  MkdirTemp : string -> St -> result string * St;
  RemoveAll : string -> St -> St;
  openFile : string -> St -> result Reader * St;
  fileSize : string -> St -> result Z;
  closeFile : string -> St -> option error * St;
  sql_Open : string -> option error;
  sql_Count : string -> string -> St -> result Z;
  sql_Exec : string -> string -> St -> option error * St
}.

Definition readOnlyDSN (path : string) : string :=
  let escaped := ReplaceByte (ReplaceByte path "?" "%3f") "#" "%23" in
  "file://" +:+ (if HasPrefix escaped "/" then escaped else "/" +:+ escaped) +:+ "?mode=ro".

Definition quoted (path : string) : string := "'" +:+ ReplaceByte path "'" "''" +:+ "'".

Definition copyScript (bin dbPath method : string) : string :=
  let f := dquote +:+ "$f" +:+ dquote in
  let program := ShellQuote bin +:+ " " +:+ ShellQuote dbPath in
  if String.eqb method "vacuum"
  then ScratchScript ("rm -f " +:+ f +:+ "; " +:+ program +:+ " " +:+ dquote +:+ "VACUUM INTO '$f'" +:+ dquote +:+ " && cat " +:+ f)
  else ScratchScript (program +:+ " " +:+ dquote +:+ ".backup '$f'" +:+ dquote +:+ " && cat " +:+ f).

Definition restoreScript (target : string) : string :=
  let f := dquote +:+ "$f" +:+ dquote in
  "umask 077; mkdir -p " +:+ ShellQuote (Dir target) +:+ " && f=$(mktemp " +:+ ShellQuote (Dir target +:+ "/.backvault-restore-XXXXXX")
  +:+ ") || exit 1; cat > " +:+ f +:+ " && chmod 644 " +:+ f +:+ " && rm -f " +:+ ShellQuote (target +:+ "-wal") +:+ " "
  +:+ ShellQuote (target +:+ "-shm") +:+ " && mv " +:+ f +:+ " " +:+ ShellQuote target +:+ "; rc=$?; rm -f " +:+ f +:+ "; exit $rc".

Definition remoteMethod (method : string) : string := if String.eqb method "vacuum" then "VACUUM INTO" else "sqlite3 .backup".

Definition ErrEOF : error := newError "EOF".
Definition ErrUnexpectedEOF : error := newError "unexpected EOF".

(** [io.ReadFull] of the magic: what it read, what is left, and the error but for
    an early end of the stream. *)
Fixpoint dropBytes (n : nat) (chunks : list string) : list string :=
  match n, chunks with
  | O, _ | _, [] => chunks
  | _, c :: l => if (String.length c <=? n)%nat then dropBytes (n - String.length c) l else sdrop n c :: l
  end.

Definition readHead (chunks : list string) (src_end : option error) : string * option error :=
  let head := stake (String.length magic) (concatChunks chunks) in
  (head, if (String.length head <? String.length magic)%nat then src_end else None).

Definition restorePrefix : string := ".backvault-restore-".

Definition isMissing (err : error) : bool := errorsIs err ErrNotExist.

(** The copy next to the target, filled. *)
Definition fillTemp (tmpName head : string) (rest : list string) (src_end : option error) : FS (option error) :=
  r ← copyInto false tmpName [head] None;
  let '(_, err) := r : Z * option error in
  match err with
  | Some err => _ ← touch; mret (Some (wrapError "write restore file" err))
  | None =>
      r ← copyOnto true tmpName head rest src_end;
      let '(_, err) := r : Z * option error in
      match err with
      | Some err => _ ← touch; mret (Some (wrapError "write restore file" err))
      | None =>
          e ← touch;   (* tmpFile.Sync *)
          match e with
          | Some err => _ ← touch; mret (Some (wrapError "sync restore file" err))
          | None =>
              e ← touch;   (* tmpFile.Close *)
              match e with
              | Some err => mret (Some (wrapError "close restore file" err))
              | None =>
                  e ← touch;   (* os.Chmod *)
                  mret (match e with Some err => Some (wrapError "chmod restore file" err) | None => None end)
              end
          end
      end
  end.

Fixpoint removeSidecars (l : list string) : FS (option error) :=
  match l with
  | [] => mret None
  | sidecar :: l =>
      r ← Remove sidecar;
      match r with
      | Fail err => if isMissing err then removeSidecars l else mret (Some (wrapError ("remove " +:+ sidecar) err))
      | Ok _ => removeSidecars l
      end
  end.

(** The copy takes the place of the target. *)
Definition moveInto (tmpName target : string) : FS (option error) :=
  e ← removeSidecars [target +:+ "-wal"; target +:+ "-shm"];
  match e with
  | Some err => mret (Some err)
  | None => try? _ := Rename tmpName target else err => mret (Some (wrapError "move restored database into place" err)) in mret None
  end.

(** [os.Stat] of the target: why it is not to be restored to. *)
Definition targetProblem (target : string) (overwrite : bool) : FS (option error) :=
  r ← stat target;
  mret (match r with
        | Ok info =>
            if fi_IsDir info then Some (newError ("target " +:+ target +:+ " is a directory"))
            else if negb overwrite then Some (newError ("target " +:+ target +:+ " already exists, enable overwrite to replace it"))
            else None
        | Fail err => if isMissing err then None else Some (wrapError "stat target" err)
        end).

Definition restoreTo (target : string) (overwrite : bool) (chunks : list string) (src_end : option error) : FS (option error) :=
  e ← targetProblem target overwrite;
  match e with
  | Some err => mret (Some err)
  | None =>
      e ← MkdirAll (Dir target);
      match e with
      | Some err => mret (Some (wrapError "create target directory" err))
      | None =>
          let '(head, err) := readHead chunks src_end in
          match err with
          | Some err => mret (Some (wrapError "read restore stream" err))
          | None =>
              if negb (String.eqb head magic) then mret (Some (newError "restore stream is not a SQLite database file"))
              else
                try? tmpName := CreateTemp (Dir target) restorePrefix else err => mret (Some (wrapError "create temp file" err)) in
                e ← fillTemp tmpName head (dropBytes (String.length magic) chunks) src_end;
                e ← (match e with Some err => mret (Some err) | None => moveInto tmpName target end : FS (option error));
                _ ← Remove tmpName;   (* deferred *)
                mret e
          end
      end
  end.

Section driver.
  Context {St : Type} {machine : Machine St} {ssh : SSH} {sprint_host : SprintHost} {databases : Databases St}.

Definition Validate (cfg : Config) : option error :=
  match Config.ValidateRequired Spec_sqlite cfg with
  | Some err => Some err
  | None =>
      if negb (IsAbs (Config_String cfg "path")) then Some (newError "database file must be an absolute path")
      else if bool_decide (StringOr cfg "method" "auto" ∈ ["auto"; "sqlite3"; "vacuum"]) then None
      else Some (newError "backup method must be auto, sqlite3 or vacuum")
  end.

Definition testRemote (cfg : Config) : St -> option error * St :=
  withRunner cfg Some (
    let dbPath := Config_String cfg "path" in
    r ← getRunner;
    e ← Check_ (plainCommand ("test -r " +:+ ShellQuote dbPath) "test -r")
          ("database file " +:+ dbPath +:+ " is not readable on host " +:+ Runner_HostLabel r);
    match e with
    | Some err => mret (Some err)
    | None =>
        bin ← Tool (Config_String cfg "binary_path") ["sqlite3"];
        match bin with
        | Fail err => mret (Some err)
        | Ok bin =>
            x ← Runner_Exec (argvCommand [bin; dbPath; "select count(*) from sqlite_master;"] [] None [] "sqlite3" true);
            mret (match x with
                  | (_, Some err) => Some err
                  | (res, None) => if negb (res_ExitCode res =? 0) then Some (newError ("read sqlite schema: " +:+ Detail res)) else None
                  end)
        end
    end).

Definition Test (cfg : Config) (s : St) : option error * St :=
  match Validate cfg with
  | Some err => (Some err, s)
  | None =>
      if bool_decide (Config_Host cfg ≠ None) then testRemote cfg s
      else
        let path := Config_String cfg "path" in
        (match os_Stat path s with
         | Fail err => Some (wrapError "database file" err)
         | Ok info =>
             if st_IsDir info then Some (newError (path +:+ " is a directory, not a SQLite database"))
             else
               match sql_Open (readOnlyDSN path) with
               | Some err => Some (wrapError "open sqlite database" err)
               | None =>
                   match sql_Count (readOnlyDSN path) "select count(*) from sqlite_master" s with
                   | Fail err => Some (wrapError "read sqlite schema" err)
                   | Ok _ => None
                   end
               end
         end, s)
  end.

Definition vacuumInto (path out : string) (s : St) : option error * St :=
  match sql_Open path with
  | Some err => (Some (wrapError "open sqlite database" err), s)
  | None =>
      let '(e, s) := sql_Exec path ("VACUUM INTO " +:+ quoted out) s in
      (match e with Some err => Some (wrapError "vacuum into temporary copy" err) | None => None end, s)
  end.

Definition backupRemote (cfg : Config) : St -> result (SourceStream St) * St :=
  withBackup cfg (
    bin ← Tool (Config_String cfg "binary_path") ["sqlite3"];
    match bin with
    | Fail err => mret (Fail (wrapError "sqlite backups on a host need the sqlite3 binary" err))
    | Ok bin =>
        let dbPath := Config_String cfg "path" in
        x ← Runner_Start (mkCommand [] (copyScript bin dbPath (StringOr cfg "method" "auto")) "" [] "" None [] "sqlite3" false []);
        r ← getRunner;
        mret (match x with
              | Fail err => Fail err
              | Ok rn => Ok (mkSourceStream rn "sqlite" 0 {[ "path" := dbPath; "host" := Runner_HostLabel r ]})
              end)
    end).

(** [procstream.NewTempDir] and [FileStream]. *)
Definition NewTempDir (prefix : string) (s : St) : result string * St :=
  let '(x, s) := MkdirTemp ("backvault-" +:+ prefix +:+ "-") s in
  (match x with Fail err => Fail (wrapError "create temp dir" err) | Ok dir => Ok dir end, s).

Definition FileStream (path : string) (cleanup : list (St -> St)) (s : St) : result (Running St * Z) * St :=
  let '(x, s) := openFile path s in
  match x with
  | Fail err => (Fail (wrapError ("open " +:+ path) err), runCleanup cleanup s)
  | Ok rd =>
      let close s := let '(e, s) := closeFile path s in (e, runCleanup cleanup s) in
      match fileSize path s with
      | Fail err => (Fail (wrapError ("stat " +:+ path) err), (close s).2)
      | Ok size => (Ok (mkRunning rd (λ _, close), size), s)
      end
  end.

(** The copy, with the program when it is asked for or found. *)
Definition copyLocal (cfg : Config) (out : string) (s : St) : option error * St :=
  let path := Config_String cfg "path" in
  let method := StringOr cfg "method" "auto" in
  match Lookup (Config_String cfg "binary_path") ["sqlite3"] s, String.eqb method "sqlite3", String.eqb method "auto" with
  | Fail err, true, _ => (Some err, s)
  | Ok bin, true, _ | Ok bin, _, true => proc_Run (mkProc bin [path; ".backup " +:+ quoted out] [] "" None [] "sqlite3" false []) s
  | _, _, _ => vacuumInto path out s
  end.

Definition Backup (cfg : Config) (s : St) : result (SourceStream St) * St :=
  match Validate cfg with
  | Some err => (Fail err, s)
  | None =>
      if bool_decide (Config_Host cfg ≠ None) then backupRemote cfg s
      else
        let path := Config_String cfg "path" in
        match os_Stat path s with
        | Fail err => (Fail (wrapError "database file" err), s)
        | Ok _ =>
            let '(x, s) := NewTempDir "sqlite" s in
            match x with
            | Fail err => (Fail err, s)
            | Ok tmp =>
                let out := PathJoin [tmp; "backup.sqlite"] in
                let '(e, s) := copyLocal cfg out s in
                match e with
                | Some err => (Fail err, RemoveAll tmp s)
                | None =>
                    let '(x, s) := FileStream out [RemoveAll tmp] s in
                    match x with
                    | Fail err => (Fail err, RemoveAll tmp s)
                    | Ok (rn, size) => (Ok (mkSourceStream rn "sqlite" size {[ "path" := path ]}), s)
                    end
                end
            end
        end
  end.

Definition targetOf (cfg : Config) (opts : RestoreOptions) : string :=
  if bool_decide (ro_TargetPath opts = "") then Config_String cfg "path" else ro_TargetPath opts.

Definition noTarget : error := newError "no target path for the sqlite restore".

(** The stream, of which the head was read, with the head before it. *)
Definition restoreRemote (cfg : Config) (chunks : list string) (src_end : option error) (opts : RestoreOptions) (s : St) : option error * St :=
  if bool_decide (targetOf cfg opts = "") then (Some noTarget, s)
  else
    let target := Clean (targetOf cfg opts) in
    withRunner cfg Some (
      r ← getRunner;
      taken ← (if ro_Overwrite opts then mret None
               else
                 x ← Runner_Exec (plainCommand ("test -e " +:+ ShellQuote target) "test -e");
                 mret (match x with
                       | (_, Some err) => Some err
                       | (res, None) =>
                           if res_ExitCode res =? 0
                           then Some (newError ("target " +:+ target +:+ " already exists on host " +:+ Runner_HostLabel r
                                                +:+ ", enable overwrite to replace it"))
                           else None
                       end));
      match taken with
      | Some err => mret (Some err)
      | None =>
          let head := stake (String.length magic) (concatChunks chunks) in
          if (String.length head <? String.length magic)%nat
          then mret (Some (wrapError "read restore stream" (default (if bool_decide (head = "") then ErrEOF else ErrUnexpectedEOF) src_end)))
          else if negb (String.eqb head magic) then mret (Some (newError "restore stream is not a SQLite database file"))
          else Runner_Run (mkCommand [] (restoreScript target) "" [] "" (Some (mkReader (concatChunks chunks) src_end)) [] "restore" false [])
      end) s.

(** On this server the restore works on the tree of files. *)
Definition Restore (cfg : Config) (chunks : list string) (src_end : option error) (opts : RestoreOptions) (sys : Sys) (s : St * Disk)
    : option error * (St * Disk) :=
  if bool_decide (Config_Host cfg ≠ None) then let '(e, st) := restoreRemote cfg chunks src_end opts s.1 in (e, (st, s.2))
  else if bool_decide (targetOf cfg opts = "") then (Some noTarget, s)
  else let '(e, d) := restoreTo (targetOf cfg opts) (ro_Overwrite opts) chunks src_end sys s.2 in (e, (s.1, d)).

End driver.
End Sqlite.
