(* ===== verification/SourceFilesFacts.v ===== *)
(** * What the files and SQLite sources promise

    The archive of a tree of files, its way back, the confinement of an
    extraction, and the restore of a database. *)
From S2P Require Import Prelude GoStrings GoTime GoSlices GoPath GoHttp Core Config Specs Pack Spool FileSystem DestLocal DestLocalFacts Db Shell Slug DestSftp Remote RemoteExec SourceDrivers SourceFiles.
Import Files.
Open Scope Z_scope.

(** ** A tree of files as a snapshot *)

Definition kindOf (n : Node) : Kind := match n with NFile _ _ => KRegular | NDir _ => KDir end.

(** No owners, devices or second names. *)
Definition metaOf (n : Node) : FileMeta :=
  match n with
  | NFile data m => mkFileMeta KRegular (Z.of_nat (String.length data)) 420 m 0 0 None None
  | NDir m => mkFileMeta KDir 4096 493 m 0 0 None None
  end.

Definition infoAt (t : Tree) (p : list string) : result FileMeta :=
  match lookupNode t p with Ok n => Ok (metaOf n) | Fail err => Fail err end.

Definition treeSnapshot (t : Tree) : Snapshot := {|
  Lstat p := infoAt t (pathElems p);
  Stat p := infoAt t (pathElems p);
  EvalSymlinks p := Ok (Clean p);
  ReadDir p :=
    let p := pathElems p in
    if isDir t p then Ok ((λ e, (e, infoAt t (p ++ [e]))) <$> children t p) else Fail errNotDir;
  Readdirnames _ := None;
  Readlink _ := Fail (newError "invalid argument");
  Files.Open p := match lookupNode t (pathElems p) with Ok n => Ok (openNode n) | Fail err => Fail err end;
  FileInfoHeader _ := None
|}.

Section tree.
  Context {doublestar : Doublestar} {tar : Tar} (Hwrite : ∀ n, tarFault n = None) (Hctx : ∀ n, walkCtx n = None).
  Context (t : Tree) (Ht : tidy t) (Hplain : ∀ p n, t !! p = Some n -> Forall plainElem p).
  Context (w : Walker) (Hex : w_exclude w = []) (B : list string) (HB : Forall plainElem B) (dev : option Z).

#[local] Hint Extern 0 Snapshot => exact (treeSnapshot t) : typeclass_instances.

(** The name of a path in the archive, and its entry. *)
Definition nameOf (p : list string) : string := keyPath (drop (length B) p).

Definition entryOf (p : list string) : Entry :=
  match t !! p with
  | Some (NFile data m) => mkEntry (nameOf p) TReg "" data (metaOf (NFile data m))
  | Some (NDir m) => mkEntry (nameOf p +:+ "/") TDir "" "" (metaOf (NDir m))
  | None => mkEntry "" TOther "" "" (metaOf (NDir zeroTime))
  end.

Definition under (p : list string) : Prop := ∃ rel, rel ≠ [] ∧ p = B ++ rel ∧ is_Some (t !! p).

Lemma nameOf_under rel : nameOf (B ++ rel) = keyPath rel.
Proof. unfold nameOf. by rewrite drop_app_length. Qed.

Lemma nameOf_inj p q : under p -> under q -> nameOf p = nameOf q -> p = q.
Proof.
  intros (r & Hr & -> & [n Hn]) (s & Hs & -> & [m Hm]). rewrite !nameOf_under. intros E.
  apply Hplain, Forall_app in Hn as [_ Hn]. apply Hplain, Forall_app in Hm as [_ Hm].
  pose proof (Split_StrJoin_plain r Hr Hn) as E1. pose proof (Split_StrJoin_plain s Hs Hm) as E2.
  unfold keyPath in E. rewrite E, E2 in E1. by subst.
Qed.

Lemma entryName_under p k : under p -> nameOf p ∉ k_seen k -> entryName (rooted B) (rooted p) k = (Some (nameOf p), see (nameOf p) k).
Proof.
  intros (rel & Hr & -> & [n Hn]) Hs. apply Hplain, Forall_app in Hn as [_ Hp]. unfold entryName. rewrite Rel_rooted by done.
  rewrite nameOf_under in *. fold (keyPath rel). destruct (key_stays rel Hr Hp) as (K1 & _ & K3). pose proof (StrJoin_plain_ne rel Hr Hp) as K4.
  apply String.eqb_neq in K1. apply String.eqb_neq in K4. fold (keyPath rel) in K4. rewrite K1, K4, K3. cbn [orb].
  by rewrite bool_decide_eq_false_2.
Qed.

Lemma excluded_none name b : excluded w name b = false.
Proof. unfold excluded. by rewrite Hex. Qed.

(** What a walk adds. *)
Definition adds (l : list (list string)) (k k' : Walk) : Prop :=
  k_out k' = k_out k ++ (entryOf <$> l) ∧ k_seen k' = k_seen k ∪ list_to_set (nameOf <$> l).

Lemma adds_app l1 l2 k1 k2 k3 : adds l1 k1 k2 -> adds l2 k2 k3 -> adds (l1 ++ l2) k1 k3.
Proof.
  intros [A1 A2] [B1 B2]. split.
  - rewrite B1, A1, fmap_app. by rewrite <- app_assoc.
  - rewrite B2, A2, fmap_app, list_to_set_app_L. set_solver.
Qed.

Definition fresh (l : list (list string)) (k : Walk) : Prop := ∀ q, q ∈ l -> nameOf q ∉ k_seen k.

Lemma fresh_after l1 l2 k k' : NoDup (l1 ++ l2) -> Forall under (l1 ++ l2) -> fresh (l1 ++ l2) k -> adds l1 k k' -> fresh l2 k'.
Proof.
  intros Hn Hu Hf [_ E] q Hq. rewrite E. rewrite Forall_forall in Hu. intros [H|H]%elem_of_union.
  - by apply (Hf q); [apply elem_of_app; right|].
  - apply elem_of_list_to_set, list_elem_of_fmap in H as (q' & En & Hq').
    assert (q' = q) as -> by (symmetry; apply nameOf_inj; [apply Hu, elem_of_app; by right|apply Hu, elem_of_app; by left|done]).
    apply NoDup_app in Hn as (_ & Hd & _). by apply (Hd q).
Qed.

Lemma stake_all_pad data : data +:+ zeroBytes (Z.to_nat (Z.of_nat (String.length data)) - String.length data) = data.
Proof. rewrite Nat2Z.id, Nat.sub_diag. apply sapp_nil_r. Qed.

(** A file of the tree. *)
Lemma writeFile_tree p data m k :
  under p -> t !! p = Some (NFile data m) -> ∃ k', writeFile w (nameOf p) (rooted p) (metaOf (NFile data m)) k = (None, k')
    ∧ k_out k' = k_out k ++ [entryOf p] ∧ k_seen k' = k_seen k.
Proof.
  intros (rel & Hr & -> & _) Hp. unfold writeFile. cbn [Files.Open treeSnapshot].
  pose proof (Hplain _ _ Hp) as Hpl. rewrite pathElems_rooted by done.
  assert (HL : lookupNode t (B ++ rel) = Ok (NFile data m)).
  { unfold lookupNode. destruct (B ++ rel) eqn:L; [by destruct B|]. by rewrite Hp. }
  rewrite HL. cbn [openNode fullReader rd_data rd_err metaOf fm_Size].
  assert (ES : stake (Z.to_nat (Z.of_nat (String.length data))) data = data) by by rewrite Nat2Z.id, stake_all.
  rewrite ES, stake_all_pad. unfold put. cbn [en_Meta FileInfoHeader treeSnapshot]. rewrite Hwrite.
  eexists. split; [done|]. cbn [count emit k_out k_seen]. split; [|done]. unfold entryOf. by rewrite Hp.
Qed.

Lemma writeHeader_tree p m k :
  under p -> t !! p = Some (NDir m) -> ∃ k', writeHeader (nameOf p +:+ "/") (rooted p) TDir (metaOf (NDir m)) "" k = (None, k')
    ∧ k_out k' = k_out k ++ [entryOf p] ∧ k_seen k' = k_seen k.
Proof.
  intros (rel & Hr & -> & _) Hp. pose proof (Hplain _ _ Hp) as [_ Hpl]%Forall_app. unfold writeHeader.
  pose proof (StrJoin_plain_ne rel Hr Hpl) as K. fold (keyPath rel) in K. rewrite <- nameOf_under in K.
  assert (E1 : String.eqb (nameOf (B ++ rel) +:+ "/") "" = false) by by destruct (nameOf (B ++ rel)).
  assert (E2 : String.eqb (nameOf (B ++ rel) +:+ "/") "/" = false).
  { destruct (nameOf (B ++ rel)) as [|a s]; [done|]. apply String.eqb_neq. intros E. apply (f_equal String.length) in E.
    rewrite sapp_length in E. cbn in E. lia. }
  rewrite E1, E2. cbn [orb]. unfold putCounted, put. cbn [en_Meta FileInfoHeader treeSnapshot]. rewrite Hwrite.
  eexists. split; [done|]. cbn [count emit k_out k_seen]. split; [|done]. unfold entryOf. by rewrite Hp.
Qed.

Lemma otherDevice_tree n : otherDevice w (metaOf n) dev = false.
Proof. unfold otherDevice. destruct n, dev; cbn; apply andb_false_r. Qed.

Lemma walkPaths_under fuel p : under p -> Forall under (walkPaths t fuel p).
Proof.
  intros (rel & Hr & -> & Hs). apply Forall_forall. intros q Hq. apply walkPaths_elem in Hq as (_ & [x ->] & Hq); [|done].
  exists (rel ++ x). split; [by destruct rel|]. split; [by rewrite app_assoc|]. destruct Hq as [->|]; done.
Qed.

(** With room for its depth, a walk writes an entry for each path. *)
Lemma walk_tree fuel p k :
  under p -> (∀ q n, t !! q = Some n -> (length q < length p + fuel)%nat) -> fresh (walkPaths t fuel p) k ->
  ∃ n k', t !! p = Some n ∧ walk w fuel (rooted B) dev (rooted p) (metaOf n) k = (None, k') ∧ adds (walkPaths t fuel p) k k'.
Proof.
  revert p k. induction fuel as [|fuel IH]; intros p k Hu Hf Hfresh.
  { destruct Hu as (rel & _ & -> & [n Hn]). pose proof (Hf _ _ Hn). lia. }
  pose proof Hu as (rel & Hr & Ep & [n Hn]). exists n. pose proof (Hplain _ _ Hn) as Hp.
  cbn [walk walkPaths] in *. rewrite Hctx, entryName_under by (done || apply Hfresh; by left).
  rewrite excluded_none, otherDevice_tree.
  assert (Hdir : isDir t p = isDirNode n).
  { unfold isDir. destruct p eqn:L; [by destruct B|]. by rewrite Hn. }
  destruct n as [data m|m]; rewrite Hdir in *; cbn [isDirNode followLink metaOf fm_Kind] in *.
  - cbn [writeOther metaOf fm_Kind fm_Hardlink snd].
    destruct (writeFile_tree p data m (see (nameOf p) (tick k)) Hu Hn) as (k' & E & E1 & E2). exists k'. split; [done|].
    cbn [metaOf] in E. rewrite E. split; [done|]. split; [by rewrite E1|]. rewrite E2. cbn [see k_seen]. set_solver.
  - cbn [snd]. destruct (writeHeader_tree p m (see (nameOf p) (tick k)) Hu Hn) as (k1 & E & E1 & E2). cbn [metaOf] in E. rewrite E.
    cbn [ReadDir treeSnapshot]. rewrite pathElems_rooted, Hdir by done.
    assert (A1 : adds [p] k k1). { split; [by rewrite E1|]. rewrite E2. cbn [see k_seen]. set_solver. }
    assert (Hloop : ∀ l k0, (∀ e, e ∈ l -> is_Some (t !! (p ++ [e]))) -> NoDup (flat_map (λ e, walkPaths t fuel (p ++ [e])) l) ->
      fresh (flat_map (λ e, walkPaths t fuel (p ++ [e])) l) k0 ->
      ∃ k', walkEntries w (walk w fuel (rooted B) dev) (rooted p) ((λ e, (e, infoAt t (p ++ [e]))) <$> l) k0 = (None, k')
        ∧ adds (flat_map (λ e, walkPaths t fuel (p ++ [e])) l) k0 k').
    { induction l as [|e l IHl]; intros k0 Hl Hnd Hfr.
      { exists k0. split; [done|]. split; [by rewrite app_nil_r|]. cbn. set_solver. }
      cbn [fmap list_fmap Files.walkEntries flat_map] in *. destruct (Hl e) as [n Hn']; [by left|].
      assert (Hu' : under (p ++ [e])) by (exists (rel ++ [e]); split; [by destruct rel|]; split; [by rewrite Ep, app_assoc|by eexists]).
      assert (EJ : PathJoin [rooted p; e] = rooted (p ++ [e])).
      { apply (PathJoin_rooted p [e]); [done|]. by apply Hplain, Forall_app in Hn' as [_ ?]. }
      assert (EI : infoAt t (p ++ [e]) = Ok (metaOf n)).
      { unfold infoAt, lookupNode. destruct (p ++ [e]) eqn:L; [by destruct p|]. by rewrite Hn'. }
      rewrite EJ, EI. destruct (IH (p ++ [e]) k0) as (n' & k2 & Hn2 & W & A2); [done| | |].
      { intros q nq Hq. rewrite length_app. cbn. specialize (Hf _ _ Hq). lia. }
      { intros q Hq. apply Hfr, elem_of_app. by left. }
      rewrite Hn2 in Hn'. injection Hn' as ->. rewrite W.
      assert (Hall : Forall under (walkPaths t fuel (p ++ [e]) ++ flat_map (λ e, walkPaths t fuel (p ++ [e])) l)).
      { apply Forall_app. split; [by apply walkPaths_under|]. apply Forall_forall. intros q Hq.
        apply list_elem_of_In, in_flat_map in Hq as (e' & He' & Hq). apply list_elem_of_In in He', Hq.
        assert (Hu2 : under (p ++ [e'])) by (exists (rel ++ [e']); split; [by destruct rel|]; split; [by rewrite Ep, app_assoc|apply Hl; by right]).
        pose proof (walkPaths_under fuel _ Hu2) as K. rewrite Forall_forall in K. by apply K. }
      destruct (IHl k2) as (k3 & W3 & A3); [intros e' He'; apply Hl; by right|by apply NoDup_app in Hnd as (_ & _ & ?)|by eapply fresh_after|].
      exists k3. split; [done|]. by eapply adds_app. }
    pose proof (walkPaths_NoDup t (S fuel) p Ht) as Hnd. cbn [walkPaths] in Hnd. rewrite Hdir in Hnd. cbn [isDirNode] in Hnd.
    pose proof (walkPaths_under (S fuel) p Hu) as Hall. cbn [walkPaths] in Hall. rewrite Hdir in Hall. cbn [isDirNode] in Hall.
    destruct (Hloop (children t p) k1) as (k' & W & A).
    { intros e He. by apply children_elem. }
    { by apply NoDup_cons in Hnd as [_ ?]. }
    { by eapply (fresh_after [p]). }
    exists k'. split; [done|]. split; [done|]. by apply (adds_app [p] _ k k1 k').
Qed.

End tree.

(** ** Extracting to a tree *)

Definition setTime (m : Time) (n : Node) : Node := match n with NFile data _ => NFile data m | NDir _ => NDir m end.

Definition chtimes (p : list string) (m : Time) (t : Tree) : result unit * Tree :=
  match t !! p with Some n => (Ok tt, <[p := setTime m n]> t) | None => (Fail (FileSystem.missing t p), t) end.

Definition noLinks : error := newError "operation not permitted".

Definition errorOf {A} (r : result A) : option error := match r with Ok _ => None | Fail err => Some err end.

Definition actOn (a : Action) : FS (option error) :=
  match a with
  | AMkdirAll p => MkdirAll p
  | ACreate p _ => r ← syscall ("open " +:+ p) (λ sys n t, openTruncated (at_ sys p) sys n t); mret (errorOf r)
  | AWrite p data => r ← copyInto false p [data] None; mret (r.2)
  | AChtimes p m => r ← syscall ("chtimes " +:+ p) (λ sys _ t, chtimes (at_ sys p) m t); mret (errorOf r)
  | ARemove p => r ← Remove p; mret (errorOf r)
  | AClose _ | AChmod _ _ => touch
  | ASymlink _ _ | ALink _ _ | ALchown _ _ _ => mret (Some noLinks)
  end.

Definition treeExtraction (sys : Sys) : Extraction Disk := {| act a d := actOn a sys d; realpath p _ := Ok (rooted (at_ sys p)) |}.

(** Nothing fails, and files take what they are given. *)
Definition faultless (sys : Sys) : Prop :=
  (∀ n, sys_fault sys n = None) ∧ ∀ n data p, sys_take sys n data p = (String.length p, None).

Lemma mkdirs_ok sys done_ rest d :
  faultless sys -> noFile (d_tree d) (done_ ++ rest) -> isDir (d_tree d) done_ = true ->
  ∃ d', mkdirs done_ rest sys d = (None, d') ∧ isDir (d_tree d') (done_ ++ rest) = true
    ∧ (∀ q n, d_tree d !! q = Some n -> d_tree d' !! q = Some n)
    ∧ (∀ q n, d_tree d' !! q = Some n -> d_tree d !! q = Some n ∨ q `prefix_of` done_ ++ rest ∧ q ≠ [] ∧ isDirNode n = true).
Proof.
  intros [Hf Ha]. revert done_ d. induction rest as [|e rest IH]; intros done_ d Hno Hd.
  { exists d. rewrite app_nil_r in *. split_and!; auto. }
  cbn [mkdirs]. unfold mbind, FS_bind, syscall. rewrite Hf.
  assert (EA : done_ ++ e :: rest = (done_ ++ [e]) ++ rest) by by rewrite <- app_assoc.
  rewrite EA in *. destruct (d_tree d !! (done_ ++ [e])) as [[data m|m]|] eqn:E.
  - exfalso. by apply (Hno (done_ ++ [e]) data m); [eexists|].
  - destruct (IH (done_ ++ [e]) (mkDisk (d_tree d) (S (d_calls d)))) as (d' & H1 & H2 & H3 & H4); [done| |].
    { cbn. unfold isDir. destruct (done_ ++ [e]) eqn:L; [done|]. by rewrite E. }
    exists d'. split_and!; auto.
  - set (t' := <[done_ ++ [e] := NDir (sys_now sys (d_calls d))]> (d_tree d)).
    destruct (IH (done_ ++ [e]) (mkDisk t' (S (d_calls d)))) as (d' & H1 & H2 & H3 & H4).
    { intros q data m Hq Hl. cbn in Hl. apply lookup_insert_Some in Hl as [[_ ?]|[_ Hl]]; [done|]. by eapply Hno. }
    { cbn. unfold isDir. destruct (done_ ++ [e]) eqn:L; [done|]. unfold t'. by rewrite lookup_insert_eq. }
    exists d'. split_and!; [done|done| |].
    + intros q n Hq. apply H3. cbn. unfold t'. rewrite lookup_insert_ne; [done|]. intros <-. by rewrite E in Hq.
    + intros q n Hq. apply H4 in Hq as [Hq|Hq]; [|by right]. cbn in Hq. apply lookup_insert_Some in Hq as [[<- <-]|[_ Hq]]; [|by left].
      right. split_and!; [by eexists|by destruct done_|done].
Qed.

Lemma prefix_app_cases {X} (q a b : list X) : q `prefix_of` a ++ b -> q `prefix_of` a ∨ ∃ k, q = a ++ k ∧ k `prefix_of` b.
Proof.
  intros [r E]. apply app_eq_inv in E as [(k & -> & _)|(k & -> & ->)]; [left; by eexists|right]. exists k. split; [done|by eexists].
Qed.

(** ** The way back *)

Section back.
  Context (t : Tree) (Ht : tidy t) (Hplain : ∀ p n, t !! p = Some n -> Forall plainElem p).
  Context (B T : list string) (HT : Forall plainElem T) (sys : Sys) (Hsys : faultless sys).

#[local] Hint Extern 0 (Extraction Disk) => exact (treeExtraction sys) : typeclass_instances.

(** Under the target lies nothing but what lies under the base, files for files
    and directories for directories. *)
Definition agrees (d : Disk) : Prop :=
  noFile (d_tree d) T ∧
  ∀ k n', k ≠ [] -> d_tree d !! (T ++ k) = Some n' -> ∃ n, t !! (B ++ k) = Some n ∧ isDirNode n' = isDirNode n.

Lemma agrees_noFile d k : agrees d -> isDir t (B ++ k) = true -> noFile (d_tree d) (T ++ k).
Proof.
  intros [HT0 Ha] Hk q data m Hq Hl. apply prefix_app_cases in Hq as [Hq|(k' & -> & Hk')].
  - by eapply HT0.
  - destruct (decide (k' = [])) as [->|Hne]; [rewrite app_nil_r in Hl; by eapply HT0|].
    destruct (Ha k' _ Hne Hl) as (n & Hn & E). destruct n as [data' m'|]; [|done].
    apply (tidy_noFile t (B ++ k) Ht Hk (B ++ k') data' m'); [by apply prefix_app|done].
Qed.

Lemma isDir_node p : p ≠ [] -> isDir t p = true -> ∃ m, t !! p = Some (NDir m).
Proof. intros Hp H. unfold isDir in H. destruct p; [done|]. destruct (t !! _) as [[]|]; [done| |done]. by eexists. Qed.

Lemma isDir_above k n k' : t !! (B ++ k) = Some n -> k' `prefix_of` k -> k' ≠ k -> isDir t (B ++ k') = true.
Proof.
  intros Hn [r ->] Hne. revert n Hn. induction r as [|e r IH] using rev_ind; intros n Hn; [by rewrite app_nil_r in Hne|].
  rewrite !app_assoc in Hn. rewrite <- (app_assoc B) in Hn. apply (proj1 Ht) in Hn. destruct (decide (r = [])) as [->|Hr]; [by rewrite app_nil_r in Hn|].
  destruct (t !! (B ++ k' ++ r)) as [n'|] eqn:E.
  - apply (IH ltac:(intros E'; apply (f_equal length) in E'; rewrite length_app in E'; destruct r; [done|cbn in E'; lia]) n' eq_refl).
  - unfold isDir in Hn. destruct (B ++ k' ++ r) eqn:L; [by destruct B, k', r|]. by rewrite E in Hn.
Qed.

Lemma mkdir_ok k d : agrees d -> Forall plainElem (T ++ k) -> isDir t (B ++ k) = true ->
  ∃ d', MkdirAll (rooted (T ++ k)) sys d = (None, d') ∧ agrees d' ∧ isDir (d_tree d') (T ++ k) = true
    ∧ ∀ q n, d_tree d !! q = Some n -> d_tree d' !! q = Some n.
Proof.
  intros Ha Hp Hk. unfold MkdirAll. rewrite at_rooted by done.
  destruct (mkdirs_ok sys [] (T ++ k) d Hsys) as (d' & E & E1 & E2 & E3); [by apply agrees_noFile|done|].
  exists d'. split_and!; try done. split.
  - intros q data m Hq Hl. apply E3 in Hl as [Hl|(_ & _ & Hd)]; [by eapply Ha|done].
  - intros k' n' Hne Hl. apply E3 in Hl as [Hl|(Hq & _ & Hd)]; [by apply Ha|]. apply (prefix_app_inv T k' k) in Hq as Hq'.
    assert (Hdk : isDir t (B ++ k') = true).
    { destruct (decide (k' = k)) as [->|Hkk]; [done|]. assert (Hne' : B ++ k ≠ []) by (destruct B, k; [by apply prefix_nil_inv in Hq'|done..]).
      destruct (isDir_node (B ++ k) Hne' Hk) as [m Ek]. by eapply isDir_above. }
    rewrite Hd. destruct (isDir_node (B ++ k')) as [m ->]; [by destruct B|done|by eexists].
Qed.

Lemma agrees_insert d k n n' c :
  agrees d -> k ≠ [] -> t !! (B ++ k) = Some n -> isDirNode n' = isDirNode n -> agrees (mkDisk (<[T ++ k := n']> (d_tree d)) c).
Proof.
  intros [H0 Ha] Hk Hn E. split; cbn [d_tree].
  - intros q data m Hq Hl. apply lookup_insert_Some in Hl as [[<- _]|[_ Hl]]; [|by eapply H0].
    apply prefix_length in Hq. rewrite length_app in Hq. destruct k; [done|cbn in Hq; lia].
  - intros k' n2 Hk' Hl. apply lookup_insert_Some in Hl as [[Ek <-]|[_ Hl]]; [|by apply Ha].
    apply app_inv_head in Ek as <-. by exists n.
Qed.

Lemma agrees_calls d c : agrees d -> agrees (mkDisk (d_tree d) c).
Proof. done. Qed.

Lemma copyInto_ok p data d :
  copyInto false p [data] None sys d
  = ((Z.of_nat (String.length data), None), mkDisk (<[at_ sys p := NFile data (sys_now sys (d_calls d))]> (d_tree d)) (S (d_calls d))).
Proof.
  destruct Hsys as [_ Ht']. unfold copyInto, copyOnto. cbn. unfold write, File_writer. cbn. rewrite Ht'. cbn. rewrite Nat.eqb_refl. cbn. by rewrite stake_all.
Qed.

Lemma touch_ok d : touch sys d = (None, mkDisk (d_tree d) (S (d_calls d))).
Proof. unfold touch. by rewrite (proj1 Hsys). Qed.

Lemma chtimes_ok p m n d : Forall plainElem p -> d_tree d !! p = Some n ->
  actOn (AChtimes (rooted p) m) sys d = (None, mkDisk (<[p := setTime m n]> (d_tree d)) (S (d_calls d))).
Proof.
  intros Hp Hn. cbn [actOn]. unfold mbind, FS_bind, syscall. rewrite (proj1 Hsys), at_rooted by done.
  unfold chtimes. by rewrite Hn.
Qed.

(** A file comes back with its content and its time. *)
Lemma file_ok k data m d e :
  agrees d -> Forall plainElem (T ++ k) -> k ≠ [] -> t !! (B ++ k) = Some (NFile data m) -> en_Data e = data -> en_Meta e = metaOf (NFile data m) ->
  ∃ d', extractFile (rooted (T ++ k)) e None d = (None, d') ∧ agrees d' ∧ d_tree d' !! (T ++ k) = Some (NFile data m)
    ∧ ∀ q n, q ≠ T ++ k -> d_tree d !! q = Some n -> d_tree d' !! q = Some n.
Proof.
  intros Ha Hp Hk Hn Ed Em. destruct k as [|x k' _] using rev_ind; [done|]. rewrite app_assoc in Hp. pose proof Hp as Hp'. apply Forall_app in Hp' as [Hp1 Hx].
  pose proof (proj1 Ht (B ++ k') x) as Hpar. rewrite app_assoc in Hn. pose proof (Hpar _ Hn) as Hd. rewrite <- app_assoc in Hn.
  destruct (mkdir_ok k' d Ha Hp1 Hd) as (d1 & E1 & Ha1 & Hd1 & K1).
  unfold extractFile. rewrite Em, Ed. cbn [acts act treeExtraction]. change (actOn (AMkdirAll ?q) sys) with (MkdirAll q sys). rewrite app_assoc, Dir_rooted, E1 by (done || by apply Forall_inv in Hx).
  set (p := (T ++ k') ++ [x]) in *. unfold actOn at 1, mbind at 1, FS_bind at 1. unfold syscall at 1. rewrite (proj1 Hsys), at_rooted by done.
  assert (EO : openTruncated p sys (d_calls d1) (d_tree d1) = (Ok tt, <[p := NFile "" (sys_now sys (d_calls d1))]> (d_tree d1))).
  { unfold openTruncated. destruct (d_tree d1 !! p) as [[data' m'|m']|] eqn:L; [done| |].
    - unfold p in L. rewrite <- app_assoc in L. apply Ha1 in L as (n & Hn' & E); [|by destruct k']. rewrite Hn in Hn'. by injection Hn' as <-.
    - unfold createNew. unfold p at 1. rewrite parent_snoc, Hd1, L. done. }
  rewrite EO. cbn [errorOf mret FS_ret]. unfold actOn at 1, mbind at 1, FS_bind at 1. rewrite copyInto_ok, at_rooted by done. cbn [snd mret FS_ret].
  change (actOn (AClose ?q) sys) with (touch sys). change (actOn (AChmod ?q ?m) sys) with (touch sys). rewrite !touch_ok. cbn [d_tree d_calls metaOf fm_ModTime].
  erewrite chtimes_ok by (done || by apply lookup_insert_eq). cbn [setTime d_tree].
  eexists. split; [done|]. cbn [d_tree]. rewrite !insert_insert_eq. unfold p. rewrite <- app_assoc. split_and!.
  - apply (agrees_insert d1 (k' ++ [x]) (NFile data m)); [done|by destruct k'|done|done].
  - apply lookup_insert_eq.
  - intros q n Hq Hl. rewrite lookup_insert_ne by auto. by apply K1.
Qed.

Lemma Clean_key_slash k : k ≠ [] -> Forall plainElem k -> Clean (keyPath k +:+ "/") = keyPath k.
Proof.
  intros Hne H. unfold Clean. pose proof (StrJoin_plain_ne k Hne H) as Hk. fold (keyPath k) in Hk. rewrite bool_decide_eq_false_2 by (intros E; apply (f_equal String.length) in E; rewrite sapp_length in E; cbn in E; lia).
  assert (EA : IsAbs (keyPath k +:+ "/") = false).
  { pose proof (IsAbs_plain k Hne H) as E. unfold IsAbs in *. destruct (keyPath k) as [|a s]; [done|].
    change (String a s +:+ "/") with (String a (s +:+ "/")). by rewrite HasPrefix_cons, HasPrefix_nil in *. }
  rewrite EA. unfold clean_elems. change (keyPath k +:+ "/") with (keyPath k +:+ String slash ""). rewrite Split_app.
  unfold keyPath. rewrite Split_StrJoin_plain by done. rewrite foldl_app, (clean_plain_rel [] k H), app_nil_r.
  change (foldl (clean_step false) (reverse k) (Split "" slash)) with (clean_step false (reverse k) "").
  change (clean_step false (reverse k) "") with (reverse k). rewrite reverse_involutive. by rewrite bool_decide_eq_false_2.
Qed.

Lemma safeJoin_key k name : k ≠ [] -> Forall plainElem k -> Clean name = keyPath k -> safeJoin (rooted T) name = Ok (rooted (T ++ k)).
Proof.
  intros Hne Hk E. unfold safeJoin. rewrite E, IsAbs_plain by done. pose proof (IsAbs_plain k Hne Hk) as EA. unfold IsAbs in EA. rewrite EA.
  destruct (key_stays k Hne Hk) as (_ & K2 & K3). apply String.eqb_neq in K2. rewrite K2, K3. cbn [orb].
  unfold keyPath at 1 2. rewrite PathJoin_rooted by done. unfold within. rewrite Rel_rooted by done. fold (keyPath k). by rewrite K2, K3.
Qed.

(** What came back: the files as they were, the directories but for their time. *)
Definition restored (d : Disk) (k : list string) : Prop :=
  ∃ n n', t !! (B ++ k) = Some n ∧ d_tree d !! (T ++ k) = Some n' ∧ (isDirNode n = false -> n' = n).

Definition deferredOf (k : list string) (m : Time) : string * FileMeta := (rooted (T ++ k), metaOf (NDir m)).

Lemma restored_keep d d' k : restored d k -> (∀ q n, d_tree d !! q = Some n -> d_tree d' !! q = Some n) -> restored d' k.
Proof. intros (n & n' & H1 & H2 & H3) K. exists n, n'. auto. Qed.

(** One entry of the archive. *)
Lemma entry_ok k d : agrees d -> k ≠ [] -> Forall plainElem k -> is_Some (t !! (B ++ k)) ->
  ∃ d', extractEntry (rooted T) (entryOf t B (B ++ k)) None (rooted (T ++ k)) d = (None, d') ∧ agrees d' ∧ restored d' k
    ∧ ∀ k', restored d k' -> restored d' k'.
Proof.
  intros Ha Hk Hp [n Hn]. assert (Hp' : Forall plainElem (T ++ k)) by by apply Forall_app.
  unfold extractEntry, entryOf. rewrite Hn. destruct n as [data m|m]; cbn [en_Type].
  - destruct (file_ok k data m d (mkEntry (nameOf B (B ++ k)) TReg "" data (metaOf (NFile data m))) Ha Hp' Hk Hn eq_refl eq_refl)
      as (d' & E & Ha' & Hl & K). exists d'. split; [done|]. split; [done|]. split; [by exists (NFile data m), (NFile data m)|].
    intros k' (n & n' & H1 & H2 & H3). destruct (decide (k' = k)) as [->|Hne]; [by exists (NFile data m), (NFile data m)|].
    exists n, n'. split_and!; [done| |done]. apply K; [|done]. by intros ?%app_inv_head.
  - assert (Hd : isDir t (B ++ k) = true). { unfold isDir. destruct (B ++ k) eqn:L; [done|]. by rewrite Hn. }
    destruct (mkdir_ok k d Ha Hp' Hd) as (d' & E & Ha' & Hdir & K). cbn [acts act treeExtraction].
    change (actOn (AMkdirAll ?q) sys) with (MkdirAll q sys). rewrite E. exists d'. split; [done|]. split; [done|]. split.
    + destruct (d_tree d' !! (T ++ k)) as [n'|] eqn:L; [by exists (NDir m), n'|]. unfold isDir in Hdir.
      destruct (T ++ k) eqn:L'; [by destruct T|]. by rewrite L in Hdir.
    + intros k' Hk'. by eapply restored_keep.
Qed.

Lemma chown_nothing chown e target (d : Disk) : chownEntry chown e target d = d.
Proof. unfold chownEntry. destruct (en_Type e); [by destruct (_ && _ && _)..|done]. Qed.

Lemma entry_name k : k ≠ [] -> Forall plainElem k -> is_Some (t !! (B ++ k)) -> safeJoin (rooted T) (en_Name (entryOf t B (B ++ k))) = Ok (rooted (T ++ k)).
Proof.
  intros Hk Hp [n Hn]. apply safeJoin_key; [done..|]. unfold entryOf. rewrite Hn, nameOf_under.
  destruct n; [by apply Clean_key|by apply Clean_key_slash].
Qed.

Definition keys (ks : list (list string)) : Prop := Forall (λ k, k ≠ [] ∧ Forall plainElem k ∧ is_Some (t !! (B ++ k))) ks.

Definition deferredOk (d : Disk) (dirs : Deferred) : Prop :=
  Forall (λ pm, ∃ k m, k ≠ [] ∧ t !! (B ++ k) = Some (NDir m) ∧ pm = deferredOf k m ∧ restored d k) dirs.

Lemma deferredOk_keep d d' dirs : deferredOk d dirs -> (∀ k, restored d k -> restored d' k) -> deferredOk d' dirs.
Proof. intros H K. eapply Forall_impl; [exact H|]. intros pm (k & m & H1 & H2 & H3 & H4). exists k, m. auto. Qed.

Lemma extractAll_ok chown ks dirs d :
  agrees d -> keys ks -> deferredOk d dirs ->
  ∃ dirs' d', extractAll (rooted T) chown ((λ k, (entryOf t B (B ++ k), None)) <$> ks) None dirs d = ((None, dirs'), d')
    ∧ agrees d' ∧ deferredOk d' dirs' ∧ (∀ k, restored d k -> restored d' k) ∧ Forall (restored d') ks
    ∧ (∀ k m, k ∈ ks -> t !! (B ++ k) = Some (NDir m) -> deferredOf k m ∈ dirs') ∧ (∀ pm, pm ∈ dirs -> pm ∈ dirs').
Proof.
  intros Ha Hks. revert dirs d Ha. induction Hks as [|k ks (Hk & Hp & Hs) Hks IH]; intros dirs d Ha Hdirs.
  { exists dirs, d. split_and!; auto. intros k m []%elem_of_nil. }
  cbn [fmap list_fmap extractAll]. rewrite entry_name by done. destruct (entry_ok k d Ha Hk Hp Hs) as (d1 & -> & Ha1 & Hr1 & K1).
  rewrite chown_nothing. destruct Hs as [n Hn].
  set (dirs1 := match en_Type (entryOf t B (B ++ k)) with TDir => (rooted (T ++ k), en_Meta (entryOf t B (B ++ k))) :: dirs | _ => dirs end).
  assert (H1 : dirs1 = match n with NDir m => deferredOf k m :: dirs | _ => dirs end) by by unfold dirs1, entryOf; rewrite Hn; destruct n.
  assert (Hdirs1 : deferredOk d1 dirs1).
  { apply (deferredOk_keep d d1) in Hdirs; [|done]. rewrite H1. destruct n as [|m]; [done|]. constructor; [by exists k, m|done]. }
  destruct (IH dirs1 d1 Ha1 Hdirs1) as (dirs' & d' & E & Ha' & Hd' & K & Hall & Hin & Hsub).
  exists dirs', d'. split; [exact E|]. split_and!; auto.
  - intros k' m [->|Hk']%elem_of_cons Hm; [|by apply Hin]. apply Hsub. rewrite H1. rewrite Hm in Hn. injection Hn as <-. by left.
  - intros pm Hpm. apply Hsub. rewrite H1. destruct n; [done|by right].
Qed.

(** The times of the directories, set at the end. *)
Lemma finishDirs_ok dirs d :
  agrees d -> deferredOk d dirs ->
  let d' := finishDirs dirs d in
  agrees d' ∧ (∀ k n, t !! (B ++ k) = Some n -> d_tree d !! (T ++ k) = Some n -> d_tree d' !! (T ++ k) = Some n)
  ∧ (∀ k m, t !! (B ++ k) = Some (NDir m) -> deferredOf k m ∈ dirs -> d_tree d' !! (T ++ k) = Some (NDir m)).
Proof.
  revert d. induction dirs as [|pm dirs IH]; intros d Ha Hd; cbv zeta.
  { split_and!; auto. intros k m _ []%elem_of_nil. }
  apply Forall_cons in Hd as [(k & m & Hk & Hm & -> & Hr) Hd].
  pose proof (Hplain _ _ Hm) as [_ Hp]%Forall_app. assert (Hp' : Forall plainElem (T ++ k)) by by apply Forall_app.
  destruct Hr as (n & n' & Hn & Hl & _). rewrite Hm in Hn. injection Hn as <-.
  destruct (proj2 Ha k n' Hk Hl) as (n2 & Hn2 & En). rewrite Hm in Hn2. injection Hn2 as <-. destruct n' as [|m0]; [done|].
  set (d1 := mkDisk (<[T ++ k := NDir m]> (d_tree d)) (S (S (d_calls d)))).
  assert (EF : finishDirs (deferredOf k m :: dirs) d = finishDirs dirs d1).
  { cbn [finishDirs deferredOf act treeExtraction]. change (actOn (AChmod ?q ?x) sys) with (touch sys). rewrite touch_ok.
    cbn [snd]. by rewrite (chtimes_ok (T ++ k) _ (NDir m0)). }
  rewrite EF. assert (Ha1 : agrees d1) by by apply (agrees_insert d k (NDir m)).
  assert (Hr1 : ∀ k' n, t !! (B ++ k') = Some n -> d_tree d !! (T ++ k') = Some n -> d_tree d1 !! (T ++ k') = Some n).
  { intros k' n Hn' Hl'. cbn. destruct (decide (k' = k)) as [->|Hne]; [rewrite lookup_insert_eq; congruence|].
    rewrite lookup_insert_ne; [done|]. by intros ?%app_inv_head. }
  destruct (IH d1 Ha1) as (Ha' & K & Hin).
  { apply (deferredOk_keep d); [done|]. intros k' (n & n' & Hn & Hl' & Hf). destruct (decide (k' = k)) as [->|Hne].
    - exists n, (NDir m). split_and!; [done|cbn; by rewrite lookup_insert_eq|]. rewrite Hm in Hn. by injection Hn as <-.
    - exists n, n'. split_and!; [done| |done]. cbn. rewrite lookup_insert_ne; [done|]. by intros ?%app_inv_head. }
  split_and!; [done|auto|]. intros k' m' Hm' [E|Hk']%elem_of_cons; [|by apply Hin].
  assert (E' : k' = k).
  { apply (f_equal fst) in E. cbn [fst deferredOf] in E. apply Hplain, Forall_app in Hm' as [_ Hp2]. apply rooted_inj in E; [|by apply Forall_app|done]. by apply app_inv_head in E. }
  subst k'. apply K; [done|]. cbn. rewrite lookup_insert_eq. congruence.
Qed.

End back.

(** ** Back up and restore *)

(** The paths of the tree from [p] on, relative to the base. *)
Lemma walkPaths_keys t B fuel p : tidy t -> (∀ p n, t !! p = Some n -> Forall plainElem p) -> under t B p ->
  ∃ ks, walkPaths t fuel p = (λ k, B ++ k) <$> ks ∧ keys t B ks.
Proof.
  intros Ht Hplain Hu. pose proof (walkPaths_under t Ht B fuel p Hu) as H. induction H as [|q l (rel & Hr & -> & Hs) _ (ks & -> & Hk)].
  - exists []. split; [done|constructor].
  - exists (rel :: ks). split; [done|]. constructor; [|done]. split_and!; [done| |done]. destruct Hs as [n Hn].
    by apply Hplain, Forall_app in Hn as [_ ?].
Qed.

Section roundtrip.
  Context {machine : Machine Disk} {ssh : SSH} {sprint_host : SprintHost} {doublestar : Doublestar} {tar : Tar}.
  Context (Hwrite : ∀ n, tarFault n = None) (Hctx : ∀ n, walkCtx n = None).
  Context (t : Tree) (Ht : tidy t) (Hplain : ∀ p n, t !! p = Some n -> Forall plainElem p) (sys : Sys) (Hsys : faultless sys).

#[local] Hint Extern 0 Snapshot => exact (treeSnapshot t) : typeclass_instances.
#[local] Hint Extern 0 (Extraction Disk) => exact (treeExtraction sys) : typeclass_instances.

(** The run over one path of the tree. *)
Lemma run_tree w B r fuel :
  w_exclude w = [] -> r ≠ [] -> is_Some (t !! (B ++ r)) -> baseOf w (rooted (B ++ r)) = rooted B -> (depth t < fuel)%nat ->
  ∃ k, run w fuel [rooted (B ++ r)] = (None, k) ∧ k_out k = entryOf t B <$> walkPaths t fuel (B ++ r).
Proof.
  intros Hex Hr Hs Hb Hf. destruct Hs as [n Hn]. pose proof (Hplain _ _ Hn) as Hp. pose proof Hp as [HB _]%Forall_app.
  assert (Hu : under t B (B ++ r)) by (exists r; split_and!; [done|done|by eexists]).
  unfold run. cbn [runRoots]. rewrite Hctx. cbn [Lstat treeSnapshot]. rewrite pathElems_rooted by done.
  assert (EI : infoAt t (B ++ r) = Ok (metaOf n)).
  { unfold infoAt, lookupNode. destruct (B ++ r) eqn:L; [by destruct B|]. by rewrite Hn. }
  rewrite EI, Hb.
  destruct (walk_tree Hwrite Hctx t Ht Hplain w Hex B HB (if w_oneFS w then fm_Dev (metaOf n) else None) fuel (B ++ r) (tick startWalk))
    as (n' & k & Hn' & W & A); [done| |by intros q _|].
  { intros q m Hq. apply depth_bound in Hq. lia. }
  rewrite Hn in Hn'. injection Hn' as <-. rewrite W.
  exists k. split; [done|]. by destruct A as [-> _].
Qed.


End roundtrip.

(** A site of two files and a directory. *)
Definition sampleSite : Tree :=
  {[ ["srv"] := NDir zeroTime; ["srv"; "www"] := NDir zeroTime; ["srv"; "www"; "index.html"] := NFile "<h1>hello</h1>" 1735689600000000000;
     ["srv"; "www"; "img"] := NDir zeroTime; ["srv"; "www"; "img"; "logo"] := NFile "PNG" zeroTime ]}.

Definition noPatterns : Doublestar := {| Match _ _ := false; ValidatePattern _ := true |}.

Definition siteEntries : list Entry := entryOf sampleSite ["srv"] <$> walkPaths sampleSite 9 ["srv"; "www"].

Definition siteTar : Tar := {|
  tarBytes _ := "the archive"; readTar _ := ((λ e, (e, None)) <$> siteEntries, None); tarFault _ := None; walkCtx _ := None; closedEarly := None
|}.

Definition wholeSys : Sys := mkSys (λ _, None) (λ _ _ p, (String.length p, None)) (λ n, N.of_nat n) (λ _, zeroTime) [] (λ _ _, None).

Definition siteConfig : Config := {[ "paths" := VString "/srv/www/" ]}.

Definition intoTmp : RestoreOptions := mkRestoreOptions "tar" 0 false "/tmp/out" None.

Definition emptyDisk : Disk := mkDisk {[ ["tmp"] := NDir zeroTime ]} 0.


(** ** An extraction stays in its directory *)

Section confined.
  Context {St : Type} {extraction : Extraction St} (R : list string) (HR : Forall plainElem R).

Definition inside (p : string) : Prop := ∃ rel, Forall plainElem rel ∧ p = rooted (R ++ rel).

(** Every path an action names is in the directory, and a link leads there by
    its name; the directory above the root may be asked for, which is there. *)
Definition confined (a : Action) : Prop :=
  match a with
  | AMkdirAll p => inside p ∨ p = Dir (rooted R)
  | ACreate p _ | AWrite p _ | AClose p | AChmod p _ | AChtimes p _ | ARemove p | ALchown p _ _ => inside p
  | ASymlink l p => inside p ∧ inside (Clean (if IsAbs l then l else PathJoin [Dir p; l]))
  | ALink source p => inside source ∧ inside p
  end.

Lemma dropCommon_spec l k up down : dropCommon l k = (up, down) -> ∃ common, l = common ++ up ∧ k = common ++ down.
Proof.
  revert k. induction l as [|x l IH]; intros k; cbn; [intros [= <- <-]; by exists []|].
  destruct k as [|y k]; [intros [= <- <-]; by exists []|]. destruct (String.eqb_spec x y) as [<-|]; [|intros [= <- <-]; by exists []].
  intros (c & -> & ->)%IH. by exists (x :: c).
Qed.

Lemma within_inside L : Forall plainElem L -> within (rooted R) (rooted L) = true -> inside (rooted L).
Proof.
  intros HL. unfold within, Rel. change (Clean (rooted R)) with (Clean ("/" +:+ StrJoin R "/")).
  change (Clean (rooted L)) with (Clean ("/" +:+ StrJoin L "/")). rewrite !Clean_plain by done. fold (rooted R). fold (rooted L).
  destruct (String.eqb_spec (rooted L) (rooted R)) as [->|_]; [exists []; by rewrite app_nil_r|].
  rewrite !IsAbs_rooted. cbn [Bool.eqb negb]. assert (Hd : ∀ l, String.eqb (rooted l) "." = false) by done.
  rewrite !Hd, !filter_Split_rooted by done. destruct (dropCommon R L) as [up down] eqn:E. apply dropCommon_spec in E as (c & ER & EL).
  case_bool_decide; [done|]. destruct up as [|u up]; [|].
  - intros _. exists down. rewrite ER, app_nil_r. subst L. by apply Forall_app in HL as [_ ?].
  - cbn [fmap list_fmap app]. destruct (((λ _ : string, "..") <$> up) ++ down) as [|y l] eqn:El; [done|].
    change (StrJoin (".." :: y :: l) "/") with ("../" +:+ StrJoin (y :: l) "/"). rewrite HasPrefix_app. cbn [negb]. by rewrite andb_false_r.
Qed.

Lemma Clean_inside p : IsAbs p = true -> within (rooted R) (Clean p) = true -> inside (Clean p).
Proof. intros Ha. rewrite Clean_pathElems by done. apply within_inside, pathElems_plain. Qed.

Lemma PathJoin_abs a b : IsAbs a = true -> ∃ p, IsAbs p = true ∧ PathJoin [a; b] = Clean p.
Proof.
  intros Ha. unfold PathJoin. rewrite filter_cons_True by by intros ->. destruct (decide (b = "")) as [->|Hb].
  - rewrite filter_cons_False by by intros []. exists a. split; [done|]. by rewrite bool_decide_eq_false_2.
  - rewrite filter_cons_True by done. change (filter _ []) with (@nil string). rewrite bool_decide_eq_false_2 by done.
    exists (StrJoin [a; b] "/"). split; [|done]. by apply IsAbs_app.
Qed.

Lemma safeJoin_inside name p : safeJoin (rooted R) name = Ok p -> inside p.
Proof.
  unfold safeJoin. destruct (_ || _); [done|]. destruct (_ || _); [done|].
  destruct (PathJoin_abs (rooted R) (Clean name) (IsAbs_rooted R)) as (q & Hq & ->).
  destruct (within (rooted R) (Clean q)) eqn:E; [|done]. intros [= <-]. by apply Clean_inside.
Qed.

Lemma inside_abs p : inside p -> IsAbs p = true.
Proof. intros (rel & _ & ->). apply IsAbs_rooted. Qed.

Lemma Dir_inside p : inside p -> inside (Dir p) ∨ Dir p = Dir (rooted R).
Proof.
  intros (rel & Hrel & ->). destruct rel as [|x rel _] using rev_ind; [right; by rewrite app_nil_r|left].
  apply Forall_app in Hrel as [Hrel Hx]. exists rel. split; [done|]. rewrite app_assoc. apply Dir_rooted; [by apply Forall_app|by apply Forall_inv in Hx].
Qed.

Lemma Dir_abs p : inside p -> IsAbs (Dir p) = true.
Proof.
  intros Hp. destruct (Dir_inside p Hp) as [H|E]; [by apply inside_abs|]. rewrite E.
  destruct R as [|x R' _] using rev_ind; [done|]. apply Forall_app in HR as [HR' Hx]. rewrite Dir_rooted by (done || by apply Forall_inv in Hx). apply IsAbs_rooted.
Qed.

Lemma checkLinkTarget_inside p l : inside p -> checkLinkTarget (rooted R) p l = None -> inside (Clean (if IsAbs l then l else PathJoin [Dir p; l])).
Proof.
  intros Hp. unfold checkLinkTarget. destruct (within _ _) eqn:E; [|done]. intros _. apply Clean_inside; [|done].
  destruct (IsAbs l) eqn:Ha; [done|]. destruct (PathJoin_abs (Dir p) l (Dir_abs p Hp)) as (q & Hq & ->).
  rewrite Clean_pathElems by done. apply IsAbs_rooted.
Qed.

(** What confined actions keep, an extraction keeps. *)
Context (I : St -> Prop) (HI : ∀ a s, confined a -> I s -> I (act a s).2).

Ltac all_confined := repeat (apply List.Forall_cons; [cbn; auto|]); try apply List.Forall_nil.

Lemma acts_keep l s : Forall (λ aw, confined aw.1) l -> I s -> I (acts l s).2.
Proof.
  intros Hl. revert s. induction Hl as [|[a w] l Ha _ IH]; intros s Hs; [done|]. cbn [acts]. specialize (HI a s Ha Hs).
  destruct (act a s) as [[err|] s1]; [destruct w|]; auto.
Qed.

Lemma extractFile_keep p e tr_err s : inside p -> I s -> I (extractFile p e tr_err s).2.
Proof.
  intros Hp Hs. unfold extractFile. pose proof (Dir_inside p Hp) as Hd.
  match goal with |- context [acts ?l s] => pose proof (acts_keep l s ltac:(all_confined) Hs) as H1; destruct (acts l s) as [[err|] s1] end; [done|].
  cbn [snd] in H1. pose proof (HI (AWrite p (en_Data e)) s1 Hp H1) as H2. destruct (act (AWrite p (en_Data e)) s1) as [werr s2]. cbn [snd] in H2.
  destruct (match werr with Some err => Some err | None => tr_err end).
  - pose proof (HI (AClose p) s2 Hp H2) as H3. by destruct (act (AClose p) s2).
  - apply acts_keep; [all_confined|done].
Qed.

Lemma extractEntry_keep e tr_err p s : inside p -> I s -> I (extractEntry (rooted R) e tr_err p s).2.
Proof.
  intros Hp Hs. pose proof (Dir_inside p Hp) as Hd. unfold extractEntry. destruct (en_Type e).
  - apply acts_keep; [all_confined|done].
  - by apply extractFile_keep.
  - match goal with |- context [acts ?l s] => pose proof (acts_keep l s ltac:(all_confined) Hs) as H1; destruct (acts l s) as [[err|] s1] end; [done|].
    destruct (checkLinkTarget _ _ _) eqn:E; [done|]. apply acts_keep; [|done].
    all_confined. split; [done|by apply checkLinkTarget_inside].
  - destruct (safeJoin _ _) as [src|] eqn:E; [|done]. apply safeJoin_inside in E. apply acts_keep; [all_confined|done].
  - done.
Qed.

Lemma chownEntry_keep chown e p s : inside p -> I s -> I (chownEntry chown e p s).
Proof. intros Hp Hs. unfold chownEntry. destruct (en_Type e); [destruct (_ && _ && _); auto..|done]. Qed.

Lemma extractAll_keep chown l tr_end dirs s : I s -> Forall (λ pm, inside pm.1) dirs ->
  I (extractAll (rooted R) chown l tr_end dirs s).2 ∧ Forall (λ pm, inside pm.1) (extractAll (rooted R) chown l tr_end dirs s).1.2.
Proof.
  revert dirs s. induction l as [|[e tr_err] l IH]; intros dirs s Hs Hd; [by split|]. cbn [extractAll].
  destruct (safeJoin _ _) as [p|] eqn:E; [|by split]. apply safeJoin_inside in E.
  pose proof (extractEntry_keep e tr_err p s E Hs) as H1. destruct (extractEntry _ e tr_err p s) as [[err|] s1]; [by split|].
  apply IH; [by apply chownEntry_keep|]. destruct (en_Type e); try done. by constructor.
Qed.

Lemma finishDirs_keep dirs s : Forall (λ pm, inside pm.1) dirs -> I s -> I (finishDirs dirs s).
Proof.
  intros Hd. revert s. induction Hd as [|[p m] dirs Hp _ IH]; intros s Hs; [done|]. cbn [finishDirs].
  apply IH, HI, HI; done.
Qed.


End confined.

(** An extraction that is only written down. *)
Definition recorder (root : string) : Extraction (list Action) := {| act a l := (None, l ++ [a]); realpath _ _ := Ok root |}.

Definition tarOf (es : list Entry) : list (Entry * option error) * option error := ((λ e, (e, None)) <$> es, None).

Definition someMeta : FileMeta := metaOf (NFile "" zeroTime).

Definition hostile : list Entry :=
  [mkEntry "www/" TDir "" "" someMeta; mkEntry "www/a" TReg "" "data" someMeta; mkEntry "www/up" TSymlink "../../../etc" "" someMeta;
   mkEntry "../etc/passwd" TReg "" "root" someMeta].


(** The names are looked at, not the links on the way: through a link to its own
    directory a link out of the target is let pass, and a file is written there. *)
Definition throughDot : list Entry :=
  [mkEntry "here" TSymlink "." "" someMeta; mkEntry "here/up" TSymlink ".." "" someMeta; mkEntry "up/evil" TReg "" "data" someMeta].

Example link_through_dot :
  (extractTo (extraction := recorder "/tmp/out") "/tmp/out" false (tarOf throughDot) []).1 = None
  ∧ ASymlink ".." "/tmp/out/here/up" ∈ (extractTo (extraction := recorder "/tmp/out") "/tmp/out" false (tarOf throughDot) []).2
  ∧ AWrite "/tmp/out/up/evil" "data" ∈ (extractTo (extraction := recorder "/tmp/out") "/tmp/out" false (tarOf throughDot) []).2.
Proof.
  split; [vm_compute; reflexivity|]. split.
  - apply list_elem_of_lookup. exists 6%nat. vm_compute. reflexivity.
  - apply list_elem_of_lookup. exists 9%nat. vm_compute. reflexivity.
Qed.

(** Two names of a file that cannot be read: the first is left out, and the second
    is a link to it. *)
Definition hardMeta : FileMeta := mkFileMeta KRegular 4 384 zeroTime 0 0 None (Some "1:7").

Definition unreadableSnapshot : Snapshot := {|
  Lstat _ := Ok (mkFileMeta KDir 4096 493 zeroTime 0 0 None None);
  Stat _ := Fail errNotExist;
  EvalSymlinks p := Ok p;
  ReadDir _ := Ok [("a", Ok hardMeta); ("b", Ok hardMeta)];
  Readdirnames _ := None;
  Readlink _ := Fail errNotExist;
  Files.Open _ := Fail (newError "permission denied");
  FileInfoHeader _ := None
|}.

Definition plainWalker (base : string) : Walker := mkWalker [] false false false base.

Example dangling_hardlink :
  let r := run (snapshot := unreadableSnapshot) (doublestar := noPatterns) (tar := siteTar) (plainWalker "") 3 ["/srv"] in
  r.1 = None ∧ (λ e, (en_Name e, en_Type e, en_Linkname e)) <$> k_out r.2 = [("srv/", TDir, ""); ("srv/b", TLink, "srv/a")].
Proof. vm_compute. done. Qed.

(** A path that is its own base directory, and a second path of the same last
    name, are left out of the archive without a word. *)
Example root_is_base :
  let r := run (snapshot := treeSnapshot sampleSite) (doublestar := noPatterns) (tar := siteTar) (plainWalker "/srv/www") 9 ["/srv/www"] in
  r.1 = None ∧ k_out r.2 = [] ∧ k_skipped r.2 = 0.
Proof. vm_compute. done. Qed.

Definition twoSites : Tree := <[ ["var"] := NDir zeroTime ]> (<[ ["var"; "www"] := NFile "another" zeroTime ]> sampleSite).

Example same_base_name :
  let r := run (snapshot := treeSnapshot twoSites) (doublestar := noPatterns) (tar := siteTar) (plainWalker "") 9 ["/srv/www"; "/var/www"] in
  r.1 = None ∧ en_Name <$> k_out r.2 = ["www/"; "www/img/"; "www/img/logo"; "www/index.html"] ∧ k_skipped r.2 = 0.
Proof. vm_compute. done. Qed.

(** ** The restore of a SQLite database *)

Definition restoring (name : string) : bool := HasPrefix name Sqlite.restorePrefix.

(** The files one sees. *)
Definition databases : Tree -> gmap (list string) string := seen restoring.

Section sqlite.
  Import Sqlite.
  Context (D : list string) (x : string) (HD : Forall plainElem D) (Hx : plainElem x).
  Context (Hvis : restoring x = false) (Hwal : restoring (x +:+ "-wal") = false) (Hshm : restoring (x +:+ "-shm") = false).

Definition walOf : list string := D ++ [x +:+ "-wal"].
Definition shmOf : list string := D ++ [x +:+ "-shm"].

Lemma suffix_plain suffix : free_of slash suffix = true -> (2 < String.length suffix)%nat -> plainElem (x +:+ suffix).
Proof.
  destruct Hx as (H1 & _ & _ & H4). intros Hs Hl. assert (Hlen : (2 < String.length (x +:+ suffix))%nat) by (rewrite sapp_length; lia).
  unfold plainElem. split_and!; try (intros E; rewrite E in Hlen; cbn in Hlen; lia). unfold free_of in *. by rewrite sall_app, H4, Hs.
Qed.

Lemma rooted_suffix suffix : rooted (D ++ [x]) +:+ suffix = rooted (D ++ [x +:+ suffix]).
Proof.
  unfold rooted. destruct (decide (D = [])) as [->|Hne]; [by rewrite sapp_assoc|]. rewrite !StrJoin_slash by done. cbn [StrJoin].
  by rewrite !sapp_assoc.
Qed.

Lemma temp_at sys n : at_ sys (rooted D +:+ "/" +:+ restorePrefix +:+ pretty (n : N)) = D ++ [restorePrefix +:+ pretty n]
  ∧ hides restoring (D ++ [restorePrefix +:+ pretty n]) = true.
Proof.
  split; [|unfold hides; rewrite last_snoc; apply HasPrefix_app]. unfold at_. rewrite IsAbs_app by apply IsAbs_rooted.
  change (pathElems (rooted D +:+ "/" +:+ (restorePrefix +:+ pretty n)) = D ++ [restorePrefix +:+ pretty n]).
  rewrite pathElems_app, pathElems_rooted; [done|done|apply IsAbs_rooted|].
  unfold plainElem. split_and!; try done. unfold free_of. rewrite sall_app. pose proof (digits_no_slash n) as Hn. unfold free_of in Hn. by rewrite Hn.
Qed.

Lemma fillTemp_spec tmpName head rest src_end sys d e d' :
  saneSys sys -> fillTemp tmpName head rest src_end sys d = (e, d') ->
  ∃ data m, d_tree d' = <[at_ sys tmpName := NFile data m]> (d_tree d) ∧ (e = None -> src_end = None ∧ data = head +:+ concatChunks rest).
Proof.
  intros Hs. unfold fillTemp, mbind, FS_bind.
  destruct (copyInto_spec false tmpName [head] None sys d Hs) as (data & err & m & -> & _).
  destruct err as [err|]; [intros [= <- <-]; by exists data, m|].
  match goal with |- context [copyOnto true ?p ?i ?c ?e sys ?d] => destruct (copyOnto_spec true p i c e sys d Hs) as (data' & err & m' & -> & Hok) end.
  cbn [d_tree d_calls]. assert (K : ∀ t : Tree, <[at_ sys tmpName := NFile data' m']> (<[at_ sys tmpName := NFile data m]> t) = <[at_ sys tmpName := NFile data' m']> t)
    by (intros; apply insert_insert_eq).
  destruct err as [err|]; [intros [= <- <-]; exists data', m'; split; [apply K|done]|].
  destruct (Hok eq_refl) as [-> ->]. cbn [touch mret FS_ret d_calls d_tree]. unfold touch. cbn [mret FS_ret d_calls d_tree].
  repeat (match goal with |- context [sys_fault sys ?n] => destruct (sys_fault sys n) end; cbn [mret FS_ret d_calls d_tree]);
    intros [= <- <-]; eexists _, m'; (split; [apply K|done]).
Qed.

Definition target_ : list string := D ++ [x].
Definition cleared (db : gmap (list string) string) : gmap (list string) string := delete shmOf (delete walOf db).

Lemma sidecars_gone sys d e d' :
  saneSys sys -> removeSidecars [rooted target_ +:+ "-wal"; rooted target_ +:+ "-shm"] sys d = (e, d') ->
  (∀ p, hides restoring p = true -> d_tree d' !! p = d_tree d !! p) ∧
  match e with
  | None => databases (d_tree d') = cleared (databases (d_tree d))
  | Some _ => databases (d_tree d') = databases (d_tree d) ∨ databases (d_tree d') = delete walOf (databases (d_tree d))
  end.
Proof.
  intros Hs. unfold target_. rewrite !rooted_suffix.
  assert (Hw : Forall plainElem walOf) by (apply Forall_app; split; [done|]; constructor; [by apply suffix_plain; [|cbn; lia]|done]).
  assert (Hm : Forall plainElem shmOf) by (apply Forall_app; split; [done|]; constructor; [by apply suffix_plain; [|cbn; lia]|done]).
  assert (Hvw : hides restoring walOf = false) by by unfold hides, walOf; rewrite last_snoc.
  assert (Hvm : hides restoring shmOf = false) by by unfold hides, shmOf; rewrite last_snoc.
  fold walOf shmOf. cbn [removeSidecars]. unfold mbind, FS_bind.
  assert (Hone : ∀ l d, Forall plainElem l -> hides restoring l = false -> let '(r, d') := Remove (rooted l) sys d in
    (∀ p, hides restoring p = true -> d_tree d' !! p = d_tree d !! p) ∧
    match r with
    | Ok _ => databases (d_tree d') = delete l (databases (d_tree d))
    | Fail err => databases (d_tree d') = databases (d_tree d) ∧ (isMissing err = true -> databases (d_tree d') = delete l (databases (d_tree d)))
    end).
  { intros l d0 Hl Hv. destruct (Remove (rooted l) sys d0) as [r d1] eqn:E. apply Remove_spec in E. rewrite at_rooted in E by done. destruct r as [u|err].
    - destruct E as [_ ->]. split; [|apply seen_delete]. intros p Hp. apply lookup_delete_ne. intros <-. by rewrite Hp in Hv.
    - destruct E as [-> E]. split; [done|]. split; [done|]. intros Hmiss. unfold databases. rewrite <- seen_delete. by rewrite delete_id by auto. }
  pose proof (Hone walOf d Hw Hvw) as H1. destruct (Remove (rooted walOf) sys d) as [r1 d1]. destruct H1 as [P1 H1].
  assert (Hgo : databases (d_tree d1) = delete walOf (databases (d_tree d)) ->
    (let '(r, d2) := Remove (rooted shmOf) sys d1 in
     (match r with Ok _ => mret None | Fail err => if isMissing err then mret None else mret (Some (wrapError ("remove " +:+ rooted shmOf) err)) end
      : FS (option error)) sys d2) = (e, d') ->
    (∀ p, hides restoring p = true -> d_tree d' !! p = d_tree d !! p) ∧
    match e with None => databases (d_tree d') = cleared (databases (d_tree d)) | Some _ => databases (d_tree d') = databases (d_tree d) ∨ databases (d_tree d') = delete walOf (databases (d_tree d)) end).
  { intros E1. pose proof (Hone shmOf d1 Hm Hvm) as H2. destruct (Remove (rooted shmOf) sys d1) as [r2 d2]. destruct H2 as [P2 H2].
    unfold cleared. destruct r2 as [u|err]; [intros [= <- <-]|destruct H2 as [H2 H2'], (isMissing err); intros [= <- <-]].
    all: split; [intros p Hp; by rewrite P2, P1|]. all: rewrite <- E1; auto. }
  destruct r1 as [u|err]; [exact (Hgo H1)|]. destruct H1 as [H1 H1']. destruct (isMissing err); [by apply Hgo; auto|].
  intros [= <- <-]. split; [done|by left].
Qed.

(** What is found of the databases after the copy was moved, or was not. *)
Definition partlyCleared (db db' : gmap (list string) string) : Prop := db' = db ∨ db' = delete walOf db ∨ db' = cleared db.

Lemma moveInto_spec tmpName data m sys d e d' :
  saneSys sys -> hides restoring (at_ sys tmpName) = true -> d_tree d !! at_ sys tmpName = Some (NFile data m) ->
  moveInto tmpName (rooted target_) sys d = (e, d') ->
  match e with
  | None => databases (d_tree d') = <[target_ := data]> (cleared (databases (d_tree d)))
  | Some _ => partlyCleared (databases (d_tree d)) (databases (d_tree d'))
  end.
Proof.
  intros Hs Hh Hl. unfold moveInto, mbind at 1, FS_bind at 1. destruct (removeSidecars _ sys d) as [e1 d1] eqn:E1.
  apply sidecars_gone in E1 as [P1 E1]; [|done]. destruct e1 as [err|].
  { intros [= <- <-]. destruct E1; [by left|by right; left]. }
  assert (Ht : Forall plainElem target_) by (apply Forall_app; split; [done|by constructor]).
  unfold mbind, FS_bind. destruct (Rename tmpName (rooted target_) sys d1) as [r d2] eqn:E2. apply Rename_spec in E2. rewrite at_rooted in E2 by done.
  destruct r as [u|err]; intros [= <- <-].
  - destruct E2 as (data' & m' & Hl' & ->). rewrite P1, Hl in Hl' by done. injection Hl' as <- <-. unfold databases in *.
    rewrite seen_insert_file, seen_delete_hidden by (done || unfold hides, target_; by rewrite last_snoc). by rewrite E1.
  - rewrite E2. right. by right.
Qed.

(** What was read and what is left are the stream. *)
Lemma dropBytes_concat n chunks : stake n (concatChunks chunks) +:+ concatChunks (dropBytes n chunks) = concatChunks chunks.
Proof.
  revert n. induction chunks as [|c l IH]; intros n; [by destruct n|]. destruct n as [|n]; [done|].
  cbn [dropBytes concatChunks foldr]. destruct (Nat.leb_spec (String.length c) (S n)).
  - rewrite stake_beyond by done. rewrite sapp_assoc. f_equal. apply IH.
  - rewrite stake_short by lia. cbn [concatChunks foldr]. rewrite <- sapp_assoc. by rewrite stake_sdrop.
Qed.

Lemma targetProblem_spec overwrite sys d e d' :
  saneSys sys -> targetProblem (rooted target_) overwrite sys d = (e, d') ->
  d_tree d' = d_tree d ∧ (e = None -> overwrite = false -> databases (d_tree d) !! target_ = None).
Proof.
  intros Hs. assert (Ht : Forall plainElem target_) by (apply Forall_app; split; [done|by constructor]).
  assert (Hv : hides restoring target_ = false) by by unfold hides, target_; rewrite last_snoc.
  unfold targetProblem, mbind, FS_bind, stat, syscall. destruct (sys_fault sys (d_calls d)) as [err|] eqn:Ef.
  { intros [= <- <-]. split; [done|]. unfold isMissing. unfold errorsIs. cbn. pose proof (proj2 Hs _ _ Ef) as K. unfold errorsIs in K. by rewrite K. }
  rewrite at_rooted by done. unfold databases. rewrite seen_lookup, Hv. unfold lookupNode. assert (Hne : target_ ≠ []) by by unfold target_; destruct D.
  destruct target_ as [|a l]; [done|]. destruct (d_tree d !! (a :: l)) as [[data m|m]|]; intros [= <- <-]; split; try done.
  cbn. by destruct overwrite.
Qed.

(** C22: a database is restored whole or not at all.  When the restore says
    nothing, the target holds exactly the stream, which ended well and begins as a
    SQLite file does, and its sidecar files are gone; when it fails, at any call,
    the target and every other file one sees is as before, the sidecars apart; and
    what is there is only replaced when that was asked for. *)
Theorem restoreTo_whole overwrite chunks src_end sys d e d' :
  saneSys sys -> restoreTo (rooted target_) overwrite chunks src_end sys d = (e, d') ->
  match e with
  | None => src_end = None ∧ HasPrefix (concatChunks chunks) magic = true
      ∧ (overwrite = false -> databases (d_tree d) !! target_ = None)
      ∧ databases (d_tree d') = <[target_ := concatChunks chunks]> (cleared (databases (d_tree d)))
  | Some _ => partlyCleared (databases (d_tree d)) (databases (d_tree d'))
  end.
Proof.
  intros Hs. unfold restoreTo, mbind at 1, FS_bind at 1. destruct (targetProblem _ _ sys d) as [e0 d0] eqn:E0.
  apply targetProblem_spec in E0 as [T0 Hfree]; [|done]. destruct e0 as [err|]; [intros [= <- <-]; left; by rewrite T0|].
  assert (ED : Dir (rooted target_) = rooted D) by by apply Dir_rooted. rewrite ED.
  unfold mbind at 1, FS_bind at 1.
  pose proof (MkdirAll_seen restoring (rooted D) sys d0) as T1. destruct (MkdirAll (rooted D) sys d0) as [[err|] d1]; cbn [snd] in T1.
  { intros [= <- <-]. left. unfold databases. by rewrite T1, T0. }
  fold (databases (d_tree d1)) (databases (d_tree d0)) in T1. rewrite T0 in T1.
  destruct (readHead chunks src_end) as [head [err|]] eqn:EH; [intros [= <- <-]; by left|].
  destruct (String.eqb_spec head magic) as [->|_]; cbn [negb]; [|intros [= <- <-]; by left].
  assert (EM : stake (String.length magic) (concatChunks chunks) = magic) by (by injection EH).
  unfold mbind at 1, FS_bind at 1.
  destruct (CreateTemp_spec (rooted D) restorePrefix sys d1) as (name & Hname & [(err & n & ->)|(m & _ & _ & ->)]).
  { intros [= <- <-]. by left. }
  destruct (temp_at sys (sys_temp sys (d_calls d1))) as [Hat Hhid]. rewrite <- Hname in Hat. rewrite <- Hat in Hhid.
  unfold mbind at 1, FS_bind at 1. destruct (fillTemp _ _ _ _ sys _) as [e2 d2] eqn:E2. apply fillTemp_spec in E2 as (data & m' & T2 & Hok); [|done].
  assert (V2 : databases (d_tree d2) = databases (d_tree d)).
  { unfold databases in *. rewrite T2. cbn [d_tree]. rewrite !seen_insert_hidden by done. done. }
  unfold mbind at 1, FS_bind at 1. destruct ((match e2 with Some err => _ | None => _ end : FS (option error)) sys d2) as [e3 d3] eqn:E3.
  unfold mbind, FS_bind. destruct (Remove name sys d3) as [r d4] eqn:E4. apply Remove_spec in E4.
  assert (V4 : databases (d_tree d4) = databases (d_tree d3)).
  { destruct r; [|by destruct E4 as [-> _]]. destruct E4 as [_ ->]. by apply seen_delete_hidden. }
  intros [= <- <-]. rewrite V4, <- V2. destruct e2 as [err|]; [injection E3 as <- <-; by left|].
  apply (moveInto_spec name data m') in E3; [|done|done|rewrite T2; apply lookup_insert_eq]. destruct e3; [done|].
  destruct (Hok eq_refl) as [-> ->]. split; [done|]. split; [pose proof (stake_sdrop (String.length magic) (concatChunks chunks)) as K; rewrite EM in K; rewrite <- K; apply HasPrefix_app|].
  split; [rewrite V2; auto|]. rewrite E3. pose proof (dropBytes_concat (String.length magic) chunks) as K. rewrite EM in K. by rewrite K.
Qed.

End sqlite.

(** The database of the sample is replaced, and its journal goes with it. *)
Definition appTree : Tree :=
  {[ ["var"] := NDir zeroTime; ["var"; "app.db"] := NFile "old" zeroTime; ["var"; "app.db-wal"] := NFile "journal" zeroTime ]}.

Definition stream : list string := ["SQLite "; "format 3" +:+ schar (byte_of 0) +:+ "pages"].

Lemma restoreTo_whole_witness :
  let r := Sqlite.restoreTo "/var/app.db" true stream None (sampleSys None) (mkDisk appTree 0) in
  r.1 = None ∧ databases (d_tree r.2) = <[ ["var"; "app.db"] := concatChunks stream ]> (cleared ["var"] "app.db" (databases appTree)).
Proof.
  intros r. split; [vm_compute; reflexivity|]. destruct r as [e d'] eqn:E.
  assert (He : e = None) by (apply (f_equal fst) in E; cbn [fst] in E; rewrite <- E; vm_compute; reflexivity). subst e.
  apply (restoreTo_whole ["var"] "app.db" ltac:(decided) ltac:(decided) eq_refl eq_refl eq_refl true stream None (sampleSys None) (mkDisk appTree 0) None d'
    (sampleSys_sane None) E).
Defined.

(** When the last step fails the old database is left without its journal. *)
Example journal_lost :
  let r := Sqlite.restoreTo "/var/app.db" true stream None (sampleSys (Some 10%nat)) (mkDisk appTree 0) in
  err_msg <$> r.1 = Some "move restored database into place: rename /var/.backvault-restore-2 /var/app.db: no space left on device"
  ∧ databases (d_tree r.2) = {[ ["var"; "app.db"] := "old" ]}.
Proof. split; vm_compute; reflexivity. Qed.

(** A percent sign of the path is left to be decoded. *)
Example dsn_percent : Sqlite.readOnlyDSN "/data/a%41.db" = "file:///data/a%41.db?mode=ro".
Proof. reflexivity. Qed.
