(* ===== verification/DestWebdav.v ===== *)
(** * The WebDAV destination: [internal/dest/webdav/webdav.go]

    Artifacts are resources below a URL and a base path.  A file is uploaded under
    the name it will have and [.partial], and moved when it is complete.  What the
    HTTP client answers is a parameter, and so is the XML decoder. *)
From S2P Require Import Prelude GoStrings GoNumbers GoTime Core Config Specs GoSlices Pack GoHttp GoPath Spool Db Slug ObjectStore.
Open Scope Z_scope.

(** ** Configuration *)

Record client := mkClient {
  c_base : URL; c_basePath : string; c_user : string; c_password : string; c_skipVerify : bool; c_timeout : Z
}.

Section config.
  Context {sprint_host : SprintHost}.

Definition Validate (cfg : Config) : option error :=
  match ValidateRequired Spec_webdav cfg with
  | Some err => Some err
  | None =>
      let bad := Some (newError "server url must be a full url such as https://cloud.example.com/remote.php/dav/files/alice") in
      match Parse (TrimSpace (Config_String cfg "url")) with
      | Fail _ => bad
      | Ok u =>
          if isEmpty (u_Scheme u) || isEmpty (u_Host u) then bad
          else if bool_decide (u_Scheme u ≠ "http") && bool_decide (u_Scheme u ≠ "https")
          then Some (newError "server url must use http or https")
          else None
      end
  end.

Definition Open (cfg : Config) : result client :=
  match Validate cfg with
  | Some err => Fail err
  | None =>
      let? base := Parse (TrimSuffix (TrimSpace (Config_String cfg "url")) "/") else err => Fail (wrapError "parse server url" err) in
      let timeout := wrap64 (Int cfg "timeout" 60 * Second) in
      Ok (mkClient base (Trim (StringOr cfg "base_path" "") slash) (Config_String cfg "user") (Config_String cfg "password")
            (Bool cfg "skip_tls_verify" false) (if timeout <=? 0 then 60 * Second else timeout))
  end.

End config.

(** ** HTTP *)

(** The document a PROPFIND answers with. *)
Record davProp := mkDavProp { Collection : bool; ContentLength : string; LastModified : string }.
Record davPropstat := mkDavPropstat { ps_Status : string; ps_Prop : davProp }.
Record davResponse := mkDavResponse { Href : string; Propstats : list davPropstat }.

(** [http_Do] is [http.Client.Do]; [decodeXML] is [xml.Decoder.Decode] of a
    multistatus; [ParseTime] is [http.ParseTime]. *)
Class Http (St : Type) := {
  http_Do : HttpRequest -> St -> result Response * St;
  decodeXML : Reader -> result (list davResponse);
  ParseTime : string -> option Time
}.

Definition redact (u : URL) : string :=
  URL_String (mkURL (u_Scheme u) (u_Opaque u) None (u_Host u) (u_Path u) (u_RawPath u) (u_OmitHost u)
                (u_ForceQuery u) (u_RawQuery u) (u_Fragment u) (u_RawFragment u)).

(** ** Paths *)

Section client.
  Context {St : Type} {http : Http St} (c : client).

Definition remotePath (p : string) : result string :=
  let clean := remoteClean p in
  if leavesBase clean then Fail (escapesBase p)
  else Ok (if isEmpty (c_basePath c) then clean
           else if isEmpty clean then c_basePath c
           else c_basePath c +:+ "/" +:+ clean).

Definition urlFor (rel : string) : string :=
  let u := c_base c in
  let escaped := PathEscape <$> filter (λ s, s ≠ "") (Split rel slash) in
  let path := TrimSuffix (u_Path u) "/" in
  let path := if bool_decide (escaped = []) then path else path +:+ "/" +:+ StrJoin escaped "/" in
  URL_String (mkURL (u_Scheme u) (u_Opaque u) (u_User u) (u_Host u) path "" (u_OmitHost u) (u_ForceQuery u) (u_RawQuery u)
                (u_Fragment u) (u_RawFragment u)).

Definition relative (rel : string) : string :=
  if isEmpty (c_basePath c) then Trim rel slash
  else Trim (TrimPrefix (Trim rel slash) (c_basePath c)) slash.

(** ** Requests *)

Definition request (method target : string) (body : list string) (body_end : option error) (size : Z) : result HttpRequest :=
  let? r := NewRequest method target body body_end else err => Fail (wrapError ("build " +:+ method +:+ " request") err) in
  Ok (mkHttpRequest (rq_Method r) (rq_Target r) (rq_URL r) (rq_Header r) (if 0 <=? size then size else rq_ContentLength r)
        (rq_Body r) (rq_BodyEnd r)
        (if negb (isEmpty (c_user c)) || negb (isEmpty (c_password c)) then Some (c_user c, c_password c) else None)).

Definition do (req : HttpRequest) (accepted : list Z) (s : St) : result Response * St :=
  let what := rq_Method req +:+ " " +:+ redact (rq_URL req) in
  let '(r, s) := http_Do req s in
  (match r with
   | Fail err => Fail (wrapError what err)
   | Ok resp =>
       if bool_decide (rs_StatusCode resp ∈ accepted) then Ok resp
       else
         let message := TrimSpace (rd_data (LimitReader (rs_Body resp) 2048)) in
         let message := stake 300 message in
         if isEmpty message then Fail (newError (what +:+ ": " +:+ rs_Status resp))
         else Fail (newError (what +:+ ": " +:+ rs_Status resp +:+ ": " +:+ message))
   end, s).

(** ** Directories *)

Fixpoint mkdirLoop (segments : list string) (current : string) (s : St) : option error * St :=
  match segments with
  | [] => (None, s)
  | e :: segments =>
      if isEmpty e then mkdirLoop segments current s
      else
        let current := if isEmpty current then e else current +:+ "/" +:+ e in
        match request "MKCOL" (urlFor current) [] None 0 with
        | Fail err => (Some err, s)
        | Ok req =>
            let '(r, s) := do req [StatusCreated; StatusMethodNotAllowed; StatusOK; StatusNoContent; StatusConflict] s in
            match r with
            | Fail err => (Some (wrapError ("create remote directory " +:+ current) err), s)
            | Ok resp =>
                if rs_StatusCode resp =? StatusConflict
                then (Some (newError ("create remote directory " +:+ current +:+ ": parent does not exist")), s)
                else mkdirLoop segments current s
            end
        end
  end.

Definition mkdirAll (rel : string) (s : St) : option error * St :=
  if isEmpty rel then (None, s) else mkdirLoop (Split rel slash) "" s.

Definition deletePath (rel : string) (s : St) : option error * St :=
  match request "DELETE" (urlFor rel) [] None 0 with
  | Fail err => (Some err, s)
  | Ok req =>
      let '(r, s) := do req [StatusNoContent; StatusOK; StatusAccepted; StatusNotFound] s in
      (match r with Fail err => Some (wrapError ("delete " +:+ rel) err) | Ok _ => None end, s)
  end.

(** ** The client *)

Definition Put (p : string) (chunks : list string) (src_end : option error) (size : Z) (s : St) : option error * St :=
  match remotePath p with
  | Fail err => (Some err, s)
  | Ok rel =>
      let dir := Dir rel in
      let '(e, s) := if bool_decide (dir ≠ "." ∧ dir ≠ "") then mkdirAll dir s else (None, s) in
      match e with
      | Some err => (Some err, s)
      | None =>
          let partial := rel +:+ ".partial" in
          match request "PUT" (urlFor partial) chunks src_end size with
          | Fail err => (Some err, s)
          | Ok req =>
              let req := setHeader "Content-Type" "application/octet-stream" req in
              let '(r, s) := do req [StatusCreated; StatusOK; StatusNoContent] s in
              match r with
              | Fail err => let '(_, s) := deletePath partial s in (Some (wrapError ("upload " +:+ p) err), s)
              | Ok _ =>
                  match request "MOVE" (urlFor partial) [] None 0 with
                  | Fail err => (Some err, s)
                  | Ok move =>
                      let move := setHeader "Overwrite" "T" (setHeader "Destination" (urlFor rel) move) in
                      let '(r, s) := do move [StatusCreated; StatusNoContent; StatusOK] s in
                      match r with
                      | Fail err => let '(_, s) := deletePath partial s in (Some (wrapError ("move " +:+ p +:+ " into place") err), s)
                      | Ok _ => (None, s)
                      end
                  end
              end
          end
      end
  end.

Definition Get (p : string) (s : St) : result Reader * St :=
  match remotePath p with
  | Fail err => (Fail err, s)
  | Ok rel =>
      match request "GET" (urlFor rel) [] None (-1) with
      | Fail err => (Fail err, s)
      | Ok req =>
          let '(r, s) := do req [StatusOK; StatusPartialContent] s in
          (match r with Fail err => Fail (wrapError ("download " +:+ p) err) | Ok resp => Ok (rs_Body resp) end, s)
      end
  end.

Definition Delete (p : string) (s : St) : option error * St :=
  match remotePath p with
  | Fail err => (Some err, s)
  | Ok rel => deletePath rel s
  end.

(** *** Properties of resources *)

Record entry := mkEntry { e_rel : string; e_size : Z; e_modTime : Time; e_dir : bool }.

Definition propfindBody : string :=
  "<?xml version=" +:+ dquote +:+ "1.0" +:+ dquote +:+ " encoding=" +:+ dquote +:+ "utf-8" +:+ dquote
  +:+ "?><d:propfind xmlns:d=" +:+ dquote +:+ "DAV:" +:+ dquote
  +:+ "><d:prop><d:resourcetype/><d:getcontentlength/><d:getlastmodified/></d:prop></d:propfind>".

(** What a [propstat] adds to an entry. *)
Definition addProps (e : entry) (ps : davPropstat) : entry :=
  if negb (isEmpty (ps_Status ps)) && negb (Contains (ps_Status ps) "200") then e
  else
    let prop := ps_Prop ps in
    mkEntry (e_rel e)
      (if isEmpty (ContentLength prop) then e_size e else SscanfInt (ContentLength prop))
      (if isEmpty (LastModified prop) then e_modTime e else default (e_modTime e) (ParseTime (LastModified prop)))
      (e_dir e || Collection prop).

(** The path of a resource below the base URL. *)
Definition hrefPath (href : string) : option string :=
  let href := TrimSpace href in
  if isEmpty href then None
  else
    match Parse href with
    | Fail _ => None
    | Ok u =>
        let basePrefix := TrimSuffix (EscapedPath (c_base c)) "/" in
        let p := EscapedPath u in
        let p := if negb (isEmpty basePrefix) && HasPrefix p basePrefix then TrimPrefix p basePrefix else p in
        Some (match PathUnescape (Trim p slash) with Ok t => t | Fail _ => Trim p slash end)
    end.

Definition entryOf (r : davResponse) : option entry :=
  (λ rel, foldl addProps (mkEntry rel 0 zeroTime false) (Propstats r)) <$> hrefPath (Href r).

Definition propfindDepth (rel depth : string) (s : St) : result (list entry) * St :=
  match request "PROPFIND" (urlFor rel) [propfindBody] None (Z.of_nat (String.length propfindBody)) with
  | Fail err => (Fail err, s)
  | Ok req =>
      let req := setHeader "Content-Type" "application/xml; charset=utf-8" (setHeader "Depth" depth req) in
      let '(r, s) := do req [StatusMultiStatus; StatusOK] s in
      (match r with
       | Fail err => Fail err
       | Ok resp =>
           match decodeXML (LimitReader (rs_Body resp) (32 * 2 ^ 20)) with
           | Fail err => Fail (wrapError "parse propfind response" err)
           | Ok responses => Ok (omap entryOf responses)
           end
       end, s)
  end.

Definition propfind (rel : string) (s : St) : result (list entry) * St := propfindDepth rel "1" s.

Definition Stat (p : string) (s : St) : result Object * St :=
  match remotePath p with
  | Fail err => (Fail err, s)
  | Ok rel =>
      let '(r, s) := propfindDepth rel "0" s in
      (match r with
       | Fail err => Fail (wrapError ("stat " +:+ p) err)
       | Ok [] => Fail (newError ("stat " +:+ p +:+ ": not found"))
       | Ok (e :: _) => Ok (mkObject (relative (e_rel e)) (e_size e) (e_modTime e) (e_dir e))
       end, s)
  end.

(** *** Listing *)

(** The entries of a directory that are listed. *)
Definition listed (current : string) (e : entry) : option (Object * entry) :=
  if String.eqb (e_rel e) current then None
  else
    let rel := relative (e_rel e) in
    if isEmpty rel || HasSuffix rel ".partial" then None
    else Some (mkObject rel (e_size e) (e_modTime e) (e_dir e), e).

Definition sortObjects (l : list Object) : list Object := SliceStable (λ a b, String.ltb (obj_Path a) (obj_Path b)) l.

(** Breadth first; [None] when the rounds are used up.  A directory that cannot
    be read is left out; when that is the root, what was found is returned. *)
Fixpoint listLoop (fuel : nat) (root : string) (queue : list string) (out : list Object) (s : St) : option (list Object) * St :=
  match queue with
  | [] => (Some (sortObjects out), s)
  | current :: queue =>
      match fuel with
      | O => (None, s)
      | S fuel =>
          let '(r, s) := propfind current s in
          match r with
          | Fail _ => if String.eqb current root then (Some out, s) else listLoop fuel root queue out s
          | Ok entries =>
              let l := omap (listed current) entries in
              listLoop fuel root (queue ++ (e_rel <$> filter (λ e, e_dir e = true) (snd <$> l))) (out ++ (fst <$> l)) s
          end
      end
  end.

(** [fuel] bounds the directories read: the code has no bound. *)
Definition List (fuel : nat) (prefix : string) (s : St) : option (result (list Object)) * St :=
  match remotePath prefix with
  | Fail err => (Some (Fail err), s)
  | Ok root => let '(out, s) := listLoop fuel root [root] [] s in (Ok <$> out, s)
  end.

Definition Test (s : St) : option error * St :=
  let '(e, s) := mkdirAll (c_basePath c) s in
  match e with
  | Some err => (Some err, s)
  | None =>
      match remotePath ".backvault-write-test" with
      | Fail err => (Some err, s)
      | Ok probe =>
          match request "PUT" (urlFor probe) ["backvault"] None 9 with
          | Fail err => (Some err, s)
          | Ok req =>
              let '(r, s) := do (setHeader "Content-Type" "text/plain" req) [StatusCreated; StatusOK; StatusNoContent] s in
              match r with
              | Fail err => (Some (wrapError "base path is not writable" err), s)
              | Ok _ => deletePath probe s
              end
          end
      end
  end.

End client.

(** ** The escaped path, escaped again

    [urlFor] escapes each element and leaves the result where [URL.String] escapes
    it once more. *)
Example escaped_twice :
  (let? u := Parse "https://dav.example.com/files" else _ => Ok "" in
   Ok (urlFor (mkClient u "" "" "" false 0) "my backups/a.tar")) = Ok "https://dav.example.com/files/my%2520backups/a.tar".
Proof. vm_compute. reflexivity. Qed.

(** * Theorems on the WebDAV destination

    A path stays below the base; keys that differ have URLs that differ; an upload
    appears whole or not at all; a listing of a finite tree ends. *)

(** ** Escaping *)

Lemma escape_inj s t mode : isHostMode mode = false -> escape s mode = escape t mode -> s = t.
Proof. intros Hm E. pose proof (unescape_escape s mode Hm) as H. rewrite E, unescape_escape in H by done. by injection H. Qed.

Lemma escape_rooted p mode : mode = encodePath -> HasPrefix p "/" = true -> HasPrefix (escape p mode) "/" = true.
Proof. intros -> [t ->]%HasPrefix_spec. change (escape ("/" +:+ t) encodePath) with ("/" +:+ escape t encodePath). apply HasPrefix_app. Qed.

Lemma upperhex_slash n : (n < 16)%N -> Ascii.eqb (upperhex n) slash = false.
Proof. intros H. destruct n as [|p]; [done|]. do 4 (destruct p as [p|p|]; [| |done]); lia. Qed.

(** An escaped element holds no slash. *)
Lemma PathEscape_free s : free_of slash (PathEscape s) = true.
Proof.
  unfold PathEscape, free_of. induction s as [|a s IH]; [done|]. cbn [escape]. rewrite sall_app, IH, andb_true_r.
  destruct (shouldEscape a encodePathSegment) eqn:E.
  - rewrite andb_false_r. unfold escape_byte. cbn [sall]. rewrite !upperhex_slash; [done|apply N.mod_lt; lia|].
    apply N.Div0.div_lt_upper_bound; pose proof (N_ascii_bounded a); unfold code; lia.
  - cbn. destruct (Ascii.eqb_spec a slash) as [->|]; done.
Qed.

Lemma sapp_inj_r s t u : s +:+ u = t +:+ u -> s = t.
Proof. intros E. by apply (sapp_inj_length s t u u). Qed.

(** ** URLs *)

Definition withPath (u : URL) (p : string) : URL :=
  mkURL (u_Scheme u) (u_Opaque u) (u_User u) (u_Host u) p "" (u_OmitHost u) (u_ForceQuery u) (u_RawQuery u) (u_Fragment u) (u_RawFragment u).

(** A URL around a rooted path. *)
Lemma URL_String_path u : u_Opaque u = "" ->
  ∃ before after, ∀ p, HasPrefix p "/" = true -> URL_String (withPath u p) = before +:+ escape p encodePath +:+ after.
Proof.
  intros Ho.
  exists ((if isEmpty (u_Scheme u) then "" else u_Scheme u +:+ ":") +:+
    (if negb (isEmpty (u_Scheme u)) || negb (isEmpty (u_Host u)) || bool_decide (is_Some (u_User u)) then
       if u_OmitHost u && isEmpty (u_Host u) && negb (bool_decide (is_Some (u_User u))) then ""
       else "//" +:+ match u_User u with Some ui => Userinfo_String ui +:+ "@" | None => "" end +:+ escape (u_Host u) encodeHost
     else "")).
  exists ((if u_ForceQuery u || negb (isEmpty (u_RawQuery u)) then "?" +:+ u_RawQuery u else "")
          +:+ (if isEmpty (u_Fragment u) then "" else "#" +:+ EscapedFragment u)).
  intros p Hp. assert (HE : EscapedPath (withPath u p) = escape p encodePath).
  { unfold EscapedPath. cbn. destruct (String.eqb_spec p "*") as [->|]; [done|]. done. }
  assert (Hne : isEmpty p = false) by by destruct p.
  assert (Hc : ContainsByte (Cut (escape p encodePath) "/").1.1 ":" = false).
  { apply HasPrefix_spec in Hp as [t ->]. done. }
  unfold URL_String. rewrite HE. cbn [withPath u_Scheme u_Opaque u_User u_Host u_Path u_OmitHost u_ForceQuery u_RawQuery u_Fragment].
  rewrite Ho, Hne, Hc, (escape_rooted p) by done. cbn [isEmpty]. rewrite !andb_false_r, orb_true_r. cbn [negb orb].
  change (bool_decide ("" = "")) with true. cbn [negb andb]. change (EscapedFragment (withPath u p)) with (EscapedFragment u).
  change (isEmpty "") with true. cbn [negb]. change ("" +:+ "" +:+ escape p encodePath) with (escape p encodePath). by rewrite !sapp_assoc.
Qed.

Section client.
  Context {St : Type} {http : Http St} (c : client) (Hopaque : u_Opaque (c_base c) = "")
    (Hpath : u_Path (c_base c) = "" ∨ HasPrefix (u_Path (c_base c)) "/" = true).

(** *** Keys and their URLs *)

Definition target (k : list string) : string := urlFor c (underBase (c_basePath c) (keyPath k)).

Lemma remotePath_key k : remoteKey k -> remotePath c (keyPath k) = Ok (underBase (c_basePath c) (keyPath k)).
Proof. intros Hk. destruct (remoteClean_key k Hk) as [E1 E2]. unfold remotePath. by rewrite E1, E2. Qed.

(** Whatever it is asked, the client stays at or below the base path. *)
Lemma remotePath_below p rel : remotePath c p = Ok rel ->
  ∃ k, Forall plainElem k ∧ rel = underBase (c_basePath c) (keyPath k).
Proof.
  unfold remotePath. destruct (leavesBase (remoteClean p)) eqn:El; [done|]. intros [= <-].
  destruct (remoteClean_below p El) as [->|(k & _ & Hk & ->)]; [by exists []|by exists k].
Qed.

(** The elements of the path of a URL. *)
Definition segments (rel : string) : list string := filter (λ s, s ≠ "") (Split rel slash).

Lemma segments_key : ∃ base, ∀ k, k ≠ [] -> Forall plainElem k ->
  segments (underBase (c_basePath c) (keyPath k)) = base ++ k.
Proof.
  exists (if bool_decide (c_basePath c = "") then [] else segments (c_basePath c)). intros k' Hne Hk.
  unfold underBase. rewrite (bool_decide_eq_false_2 (keyPath k' = "")) by by apply StrJoin_plain_ne.
  assert (HF : filter (λ s : string, s ≠ "") k' = k') by by apply filter_plain.
  case_bool_decide; unfold segments.
  - unfold keyPath. by rewrite Split_StrJoin_plain.
  - change (c_basePath c +:+ "/" +:+ keyPath k') with (c_basePath c +:+ String slash (keyPath k')).
    rewrite Split_app, filter_app. unfold keyPath. by rewrite Split_StrJoin_plain, HF.
Qed.

(** Paths with other elements have other URLs. *)
Lemma urlFor_inj rel rel' : segments rel ≠ [] -> segments rel' ≠ [] -> urlFor c rel = urlFor c rel' -> segments rel = segments rel'.
Proof.
  intros Hne Hne'. destruct (URL_String_path (c_base c) Hopaque) as (before & after & HU).
  assert (H : ∀ rel, segments rel ≠ [] -> urlFor c rel =
    before +:+ escape (TrimSuffix (u_Path (c_base c)) "/" +:+ "/" +:+ StrJoin (PathEscape <$> segments rel) "/") encodePath +:+ after).
  { clear - HU Hpath. intros rel Hne. unfold urlFor. fold (segments rel). rewrite bool_decide_eq_false_2 by by destruct (segments rel).
    rewrite <- HU; [done|]. assert (HT : ∀ x, HasPrefix (TrimSuffix (u_Path (c_base c)) "/" +:+ "/" +:+ x) "/" = true); [|apply HT].
    intros x. destruct Hpath as [->|[t ->]%HasPrefix_spec]; [by apply (HasPrefix_app "/")|].
    unfold TrimSuffix. destruct (HasSuffix _ _) eqn:E; [|by apply (HasPrefix_app "/")].
    change ("/" +:+ t) with (String slash t). cbn [String.length]. change (String.length "/") with 1%nat.
    replace (S (String.length t) - 1)%nat with (String.length t) by lia. destruct t as [|a t]; [exact (HasPrefix_app "/" x)|exact (HasPrefix_app "/" (stake (String.length t) (String a t) +:+ "/" +:+ x))]. }
  rewrite !H by done. intros E. apply (inj (String.append before)), sapp_inj_r, escape_inj in E; [|done].
  apply (inj (String.append _)) in E. injection E as E.
  assert (HS : ∀ rel, segments rel ≠ [] -> Split (StrJoin (PathEscape <$> segments rel) "/") slash = PathEscape <$> segments rel).
  { clear. intros rel Hne. apply (Split_StrJoin _ slash); [by destruct (segments rel)|]. apply Forall_fmap, Forall_true. intros x. apply PathEscape_free. }
  apply (f_equal (λ x, Split x slash)) in E. rewrite !HS in E by done. revert E. apply list_fmap_eq_inj. intros x y. by apply escape_inj.
Qed.

Lemma target_inj k k' : k ≠ [] -> k' ≠ [] -> Forall plainElem k -> Forall plainElem k' -> target k = target k' -> k = k'.
Proof.
  intros Hne Hne' Hk Hk' E. destruct segments_key as [base HB]. apply urlFor_inj in E; rewrite ?HB in * by done.
  - by apply app_inv_head in E.
  - by destruct base, k.
  - by destruct base, k'.
Qed.

(** *** Requests *)

Lemma request_fields method tgt body body_end size req :
  request c method tgt body body_end size = Ok req ->
  rq_Method req = method ∧ rq_Target req = tgt ∧ rq_Header req = [] ∧ rq_Body req = body ∧ rq_BodyEnd req = body_end.
Proof. unfold request, NewRequest. destruct (Parse tgt); [|done]. by intros [= <-]. Qed.

Lemma do_answer req accepted s r s' : do req accepted s = (r, s') ->
  ∃ r0, http_Do req s = (r0, s') ∧ ∀ resp, r = Ok resp -> r0 = Ok resp ∧ rs_StatusCode resp ∈ accepted.
Proof.
  unfold do. destruct (http_Do req s) as [r0 s1]. intros [= <- <-]. exists r0. split; [done|]. intros resp.
  destruct r0 as [resp0|]; [|done]. case_bool_decide; [by intros [= ->]|]. by destruct (isEmpty _).
Qed.

End client.

(** ** What the server promises *)

(** [t] is not the resource of the key, nor below it. *)
Definition elsewhere (c : client) (k k' : list string) : Prop :=
  k' ≠ [] ∧ Forall plainElem k' ∧ target c k' ≠ target c k ∧ ~ k `prefix_of` k'.

(** A server with files at URLs, that nobody else changes.  A collection is
    deleted or replaced with what lies below it. *)
Class DavServer (St : Type) {http : Http St} (c : client) := {
  resource : St -> string -> option string;
  MKCOL_law req s r s' : rq_Method req = "MKCOL" -> http_Do req s = (r, s') -> resource s' = resource s;
  PUT_law k req s r s' : k ≠ [] -> Forall plainElem k -> rq_Method req = "PUT" -> rq_Target req = target c k -> http_Do req s = (r, s') ->
    (∀ k', elsewhere c k k' -> resource s' (target c k') = resource s (target c k')) ∧
    ∀ resp, r = Ok resp -> rs_StatusCode resp ∈ [StatusCreated; StatusOK; StatusNoContent] ->
      rq_BodyEnd req = None ∧ resource s' (target c k) = Some (concatChunks (rq_Body req));
  MOVE_law from to req s r s' data : from ≠ [] -> Forall plainElem from -> to ≠ [] -> Forall plainElem to -> target c from ≠ target c to ->
    rq_Method req = "MOVE" -> rq_Target req = target c from -> ("Destination", target c to) ∈ rq_Header req ->
    resource s (target c from) = Some data -> http_Do req s = (r, s') ->
    (∀ k', elsewhere c from k' -> elsewhere c to k' -> resource s' (target c k') = resource s (target c k')) ∧
    resource s' (target c to) ∈ [resource s (target c to); None; Some data] ∧
    ∀ resp, r = Ok resp -> rs_StatusCode resp ∈ [StatusCreated; StatusNoContent; StatusOK] -> resource s' (target c to) = Some data;
  DELETE_law k req s r s' : k ≠ [] -> Forall plainElem k -> rq_Method req = "DELETE" -> rq_Target req = target c k -> http_Do req s = (r, s') ->
    (∀ k', elsewhere c k k' -> resource s' (target c k') = resource s (target c k')) ∧
    resource s' (target c k) ∈ [resource s (target c k); None] ∧
    ∀ resp, r = Ok resp -> rs_StatusCode resp ∈ [StatusNoContent; StatusOK; StatusAccepted; StatusNotFound] -> resource s' (target c k) = None;
  GET_law req s r s' : rq_Method req = "GET" -> http_Do req s = (r, s') ->
    resource s' = resource s ∧
    ∀ resp data, r = Ok resp -> rs_StatusCode resp ∈ [StatusOK; StatusPartialContent] -> resource s (rq_Target req) = Some data -> rs_Body resp = fullReader data;
  PROPFIND_law req s r s' : rq_Method req = "PROPFIND" -> http_Do req s = (r, s') ->
    resource s' = resource s ∧
    ∀ resp data rs x e, r = Ok resp -> ("Depth", "0") ∈ rq_Header req -> resource s (rq_Target req) = Some data ->
      decodeXML (LimitReader (rs_Body resp) (32 * 2 ^ 20)) = Ok rs -> x ∈ rs -> entryOf c x = Some e ->
      e_size e = Z.of_nat (String.length data)
}.

Section server.
  Context {St : Type} {http : Http St} (c : client) {server : DavServer St c}
    (Hopaque : u_Opaque (c_base c) = "") (Hpath : u_Path (c_base c) = "" ∨ HasPrefix (u_Path (c_base c)) "/" = true).

(** The keys of the artifacts: none lies below another or below a partial file. *)
Context (served : list string -> Prop) {served_dec : ∀ k, Decision (served k)}.
Context (served_key : ∀ k, served k -> remoteKey k ∧ Forall (λ e, HasSuffix e ".partial" = false) k).
Context (served_apart : ∀ k k', served k -> served k' -> k `prefix_of` k' -> k = k').

Lemma served_elsewhere k k' : served k -> served k' -> k' ≠ k -> elsewhere c k k'.
Proof.
  intros H H' Hne. destruct (served_key k H) as [(K1 & K2 & _) _], (served_key k' H') as [(K1' & K2' & _) _].
  split_and!; [done..| |]; [|by intros ?%served_apart].
  intros E. by apply (target_inj c Hopaque Hpath) in E.
Qed.

(** The partial file of a key is apart from every key. *)
Lemma partial_elsewhere k : served k ->
  ∃ p, p ≠ [] ∧ Forall plainElem p ∧ underBase (c_basePath c) (keyPath k) +:+ ".partial" = underBase (c_basePath c) (keyPath p) ∧
       target c p ≠ target c k ∧ ∀ k', served k' -> elsewhere c p k'.
Proof.
  intros H. destruct (served_key k H) as [(K1 & K2 & _) _]. destruct (partial_of k K1 K2) as (p & P1 & P2 & P3 & E).
  assert (HE : ∀ k', served k' -> elsewhere c p k').
  { intros k' H'. destruct (served_key k' H') as [(K1' & K2' & _) K3'].
    assert (N : ~ p `prefix_of` k').
    { intros [r ->]. unfold partialKey in P3. destruct (last p) as [name|] eqn:L; [|done]. apply last_Some in L as [q ->].
      apply Forall_app in K3' as [K3' _]. apply Forall_app in K3' as [_ K3']. apply Forall_inv in K3'. by rewrite P3 in K3'. }
    split_and!; [done..| |done]. intros E'%(target_inj c Hopaque Hpath); [|done..]. by subst p. }
  exists p. split_and!; [done..| | |done].
  - pose proof (StrJoin_plain_ne k K1 K2) as N1. pose proof (StrJoin_plain_ne p P1 P2) as N2. unfold underBase, keyPath in *.
    rewrite !(bool_decide_eq_false_2 (StrJoin _ _ = "")) by done. case_bool_decide; rewrite ?sapp_assoc, E; done.
  - destruct (HE k H) as (_ & _ & N & _). by intros E'.
Qed.

(** *** The steps of the driver *)

Lemma mkdirLoop_same l current s : resource (mkdirLoop c l current s).2 = resource s.
Proof.
  revert current s. induction l as [|e l IH]; intros current s; [done|]. cbn [mkdirLoop]. destruct (isEmpty e); [done|].
  set (cur := if isEmpty current then e else _). destruct (request _ _ _ _ _ _) as [req|err] eqn:Er; [|done].
  destruct (request_fields _ _ _ _ _ _ _ Er) as (Hm & _). destruct (do req _ s) as [r s1] eqn:Ed.
  destruct (do_answer _ _ _ _ _ Ed) as (r0 & Hh & _). pose proof (MKCOL_law _ _ _ _ Hm Hh) as E.
  destruct r as [resp|err]; [|done]. destruct (_ =? _); [done|]. by rewrite IH.
Qed.

Lemma mkdirAll_same rel s : resource (mkdirAll c rel s).2 = resource s.
Proof. unfold mkdirAll. destruct (isEmpty rel); [done|]. apply mkdirLoop_same. Qed.

Lemma deletePath_spec k s e s' : k ≠ [] -> Forall plainElem k ->
  deletePath c (underBase (c_basePath c) (keyPath k)) s = (e, s') ->
  (∀ k', elsewhere c k k' -> resource s' (target c k') = resource s (target c k')) ∧
  resource s' (target c k) ∈ [resource s (target c k); None] ∧ (e = None -> resource s' (target c k) = None).
Proof.
  intros Hne Hk. unfold deletePath. fold (target c k). destruct (request _ _ _ _ _ _) as [req|err] eqn:Er.
  2: { intros [= <- <-]. split_and!; [done|by left|done]. }
  destruct (request_fields _ _ _ _ _ _ _ Er) as (Hm & Ht & _). destruct (do req _ s) as [r s1] eqn:Ed.
  destruct (do_answer _ _ _ _ _ Ed) as (r0 & Hh & Ha). destruct (DELETE_law k _ _ _ _ Hne Hk Hm Ht Hh) as (L1 & L2 & L3).
  intros [= <- <-]. split_and!; [done..|]. destruct r as [resp|]; [|done]. intros _. destruct (Ha resp eq_refl) as [-> Hs]. by apply L3 with resp.
Qed.

(** *** The contract *)

Definition davObjects (s : St) : Objects := λ k, if decide (served k) then resource s (target c k) else None.

Definition davAnswers (q : Request) (s : St) (a : Answer) (s' : St) : Prop :=
  match q with
  | RPut k chunks src_end size => ∃ e, Put c (keyPath k) chunks src_end size s = (e, s') ∧ a = APut e
  | RGet k => ∃ r, Get c (keyPath k) s = (r, s') ∧ a = AGet r
  | RDelete k => ∃ e, Delete c (keyPath k) s = (e, s') ∧ a = ADelete e
  | RStat k => ∃ r, Stat c (keyPath k) s = (r, s') ∧ a = AStat r
  end.

Lemma davObjects_key s k : served k -> davObjects s k = resource s (target c k).
Proof. intros H. unfold davObjects. by rewrite decide_True. Qed.

Lemma dav_same s s' : resource s' = resource s -> unchanged (davObjects s) (davObjects s').
Proof. intros H k. unfold davObjects. by rewrite H. Qed.

Lemma dav_others s s' k : served k ->
  (∀ k', served k' -> elsewhere c k k' -> resource s' (target c k') = resource s (target c k')) -> othersKept k (davObjects s) (davObjects s').
Proof.
  intros Hk H k' Hne. unfold davObjects. destruct (decide (served k')) as [Hk'|]; [|done]. apply H; [done|]. by apply served_elsewhere.
Qed.

(** What an upload that fails may leave: the old file, none, or the new one. *)
Definition halfway (k : list string) (data : string) (s s' : St) : Prop :=
  (∀ k', served k' -> elsewhere c k k' -> resource s' (target c k') = resource s (target c k')) ∧
  resource s' (target c k) ∈ [resource s (target c k); None; Some data].

Lemma failed_put k chunks src_end size (err : error) s s' : served k -> halfway k (concatChunks chunks) s s' ->
  contract (davObjects s) (RPut k chunks src_end size) (APut (Some err)) (davObjects s').
Proof.
  intros Hk [HO HV]. split; [by apply dav_others|]. rewrite !davObjects_key by done.
  rewrite !elem_of_cons, elem_of_nil in HV. destruct HV as [?|[?|[?|[]]]]; auto.
Qed.

(** Removing the partial file touches no key. *)
Lemma cleaned_put k p data s s' e s'' : served k -> p ≠ [] -> Forall plainElem p -> (∀ k', served k' -> elsewhere c p k') ->
  halfway k data s s' -> deletePath c (underBase (c_basePath c) (keyPath p)) s' = (e, s'') -> halfway k data s s''.
Proof.
  intros Hk Pne Pp Pe [HO HV] E. destruct (deletePath_spec p _ _ _ Pne Pp E) as (D & _).
  split; [intros k' H1 H2; rewrite D; auto|]. by rewrite D by auto.
Qed.

Lemma dav_Put_contract k chunks src_end size s e s' :
  served k -> Put c (keyPath k) chunks src_end size s = (e, s') ->
  contract (davObjects s) (RPut k chunks src_end size) (APut e) (davObjects s').
Proof.
  intros Hk. destruct (served_key k Hk) as [Hr _]. pose proof Hr as (Hne & Hp & _). unfold Put. rewrite remotePath_key by done.
  set (rel := underBase _ _). destruct (partial_elsewhere k Hk) as (p & Pne & Pp & Ep & Pt & Pe). fold rel in Ep. rewrite Ep.
  set (mk := if bool_decide _ then _ else _). destruct mk as [e1 s1] eqn:E1.
  assert (F1 : resource s1 = resource s).
  { unfold mk in E1. case_bool_decide; [|by injection E1 as _ <-]. by rewrite <- (mkdirAll_same (Dir rel) s), E1. }
  assert (H1 : halfway k (concatChunks chunks) s s1) by (split; rewrite F1; [done|by left]).
  destruct e1 as [err|]; [intros [= <- <-]; by apply failed_put|].
  destruct (request _ "PUT" _ _ _ _) as [req|err] eqn:Er; [|intros [= <- <-]; by apply failed_put].
  destruct (request_fields _ _ _ _ _ _ _ Er) as (Hm & Ht & _ & Hb & Hbe).
  destruct (do (setHeader _ _ req) _ s1) as [r s2] eqn:Ed. destruct (do_answer _ _ _ _ _ Ed) as (r0 & Hh & Ha).
  destruct (PUT_law p (setHeader "Content-Type" "application/octet-stream" req) _ _ _ Pne Pp Hm Ht Hh) as [L1 L2].
  cbn in L2. rewrite Hb, Hbe in L2. rewrite F1 in L1.
  assert (H2 : halfway k (concatChunks chunks) s s2) by (split; [intros k' H' _; by apply L1, Pe|rewrite L1 by auto; by left]).
  destruct r as [resp|err].
  2: { destruct (deletePath c _ s2) as [e4 s4] eqn:E4. intros [= <- <-]. apply failed_put; [done|]. by eapply cleaned_put. }
  destruct (Ha resp eq_refl) as [-> Hs]. destruct (L2 resp eq_refl Hs) as [Hend Hdata]. clear Ha L2.
  destruct (request _ "MOVE" _ _ _ _) as [mv|err] eqn:Em; [|intros [= <- <-]; by apply failed_put].
  destruct (request_fields _ _ _ _ _ _ _ Em) as (Hm' & Ht' & Hh' & _).
  destruct (do (setHeader _ _ _) _ s2) as [r s3] eqn:Ed'. destruct (do_answer _ _ _ _ _ Ed') as (r1 & Hh1 & Ha1).
  destruct (MOVE_law p k (setHeader "Overwrite" "T" (setHeader "Destination" (target c k) mv)) _ _ _ (concatChunks chunks)
    Pne Pp Hne Hp Pt Hm' Ht' ltac:(cbn; rewrite Hh'; by left) Hdata Hh1) as (M1 & M2 & M3).
  assert (H3 : halfway k (concatChunks chunks) s s3).
  { split; [intros k' H' He; by rewrite M1, L1 by auto|]. by rewrite <- (L1 k (Pe k Hk)). }
  destruct r as [resp'|err].
  2: { destruct (deletePath c _ s3) as [e4 s4] eqn:E4. intros [= <- <-]. apply failed_put; [done|]. by eapply cleaned_put. }
  intros [= <- <-]. destruct (Ha1 resp' eq_refl) as [-> Hs'].
  cbn. split_and!; [done|by apply dav_others, H3|]. rewrite davObjects_key by done. by apply M3 with resp'.
Qed.

Lemma dav_Delete_contract k s e s' :
  served k -> Delete c (keyPath k) s = (e, s') -> contract (davObjects s) (RDelete k) (ADelete e) (davObjects s').
Proof.
  intros Hk. destruct (served_key k Hk) as [Hr _]. pose proof Hr as (Hne & Hp & _). unfold Delete. rewrite remotePath_key by done.
  intros E. destruct (deletePath_spec k _ _ _ Hne Hp E) as (D1 & D2 & D3).
  assert (HO : othersKept k (davObjects s) (davObjects s')) by (apply dav_others; auto).
  destruct e as [err|]; cbn; (split; [done|]); rewrite !davObjects_key by done; [|by apply D3].
  rewrite !elem_of_cons, elem_of_nil in D2. destruct D2 as [?|[?|[]]]; auto.
Qed.

Lemma Get_contract k s r s' : served k -> Get c (keyPath k) s = (r, s') -> contract (davObjects s) (RGet k) (AGet r) (davObjects s').
Proof.
  intros Hk. destruct (served_key k Hk) as [Hr _]. unfold Get. rewrite remotePath_key by done.
  destruct (request _ _ _ _ _ _) as [req|err] eqn:Er; [|by intros [= <- <-]].
  destruct (request_fields _ _ _ _ _ _ _ Er) as (Hm & Ht & _). destruct (do req _ s) as [x s1] eqn:Ed.
  destruct (do_answer _ _ _ _ _ Ed) as (r0 & Hh & Ha). destruct (GET_law _ _ _ _ Hm Hh) as [L1 L2]. intros [= <- <-].
  split; [by apply dav_same|]. intros rd data Hx Hd. rewrite davObjects_key in Hd by done. destruct x as [resp|]; [|done]. injection Hx as <-.
  destruct (Ha resp eq_refl) as [-> Hs]. rewrite (L2 resp data eq_refl Hs) by by rewrite Ht. done.
Qed.

Lemma Stat_contract k s r s' : served k -> Stat c (keyPath k) s = (r, s') -> contract (davObjects s) (RStat k) (AStat r) (davObjects s').
Proof.
  intros Hk. destruct (served_key k Hk) as [Hr _]. unfold Stat, propfindDepth. rewrite remotePath_key by done.
  destruct (request _ _ _ _ _ _) as [req|err] eqn:Er; [|by intros [= <- <-]].
  destruct (request_fields _ _ _ _ _ _ _ Er) as (Hm & Ht & Hh' & _). destruct (do _ _ s) as [x s1] eqn:Ed.
  destruct (do_answer _ _ _ _ _ Ed) as (r0 & Hh & Ha).
  destruct (PROPFIND_law (setHeader "Content-Type" "application/xml; charset=utf-8" (setHeader "Depth" "0" req)) _ _ _ Hm Hh) as [L1 L2].
  intros [= <- <-]. split; [by apply dav_same|]. intros o data Hx Hd. rewrite davObjects_key in Hd by done.
  destruct x as [resp|]; [|done]. destruct (Ha resp eq_refl) as [-> _]. destruct (decodeXML _) as [rs|] eqn:Ex; [|done].
  destruct (omap (entryOf c) rs) as [|e l] eqn:El; [done|]. injection Hx as <-. cbn.
  assert (Hin : e ∈ omap (entryOf c) rs) by (rewrite El; by left). apply list_elem_of_omap in Hin as (y & Hy & He).
  eapply L2; [done| |by cbn; rewrite Ht|exact Ex|done|done]. cbn. rewrite Hh'. by left.
Qed.

#[export] Instance webdavDestination : DestClient St.
Proof.
  refine {| answers := davAnswers; objects := davObjects; servedKey := λ _ k, served k; keepsServing := λ _ _ _ _ _ _ _ H, H |}.
  intros q s a s' Hk H. destruct q as [k chunks src_end size|k|k|k]; destruct H as (r & H & ->).
  - by apply dav_Put_contract.
  - by apply Get_contract.
  - by apply dav_Delete_contract.
  - by apply Stat_contract.
Defined.

End server.


(** ** A server *)

(** Resources in memory, without properties. *)
#[local] Abbreviation Resources := (gmap string string).

Definition respond (code : Z) (data : string) : result Response := Ok (mkResponse code "" (fullReader data)).

#[export] Instance resourcesHttp : Http Resources := {|
  http_Do req s :=
    let m := rq_Method req in let u := rq_Target req in
    if String.eqb m "PUT" then
      match rq_BodyEnd req with
      | None => (respond StatusCreated "", <[u := concatChunks (rq_Body req)]> s)
      | Some err => (Fail err, s)
      end
    else if String.eqb m "MOVE" then
      match s !! u, filter (λ kv, kv.1 = "Destination") (rq_Header req) with
      | Some data, [(_, to)] => (respond StatusCreated "", <[to := data]> (delete u s))
      | _, _ => (respond StatusNotFound "", s)
      end
    else if String.eqb m "DELETE" then (respond (if decide (is_Some (s !! u)) then StatusNoContent else StatusNotFound) "", delete u s)
    else if String.eqb m "GET" then
      (match s !! u with Some data => respond StatusOK data | None => respond StatusNotFound "" end, s)
    else (respond StatusMethodNotAllowed "", s);
  decodeXML _ := Fail (newError "EOF");
  ParseTime _ := None
|}.

Lemma destination_only to (h : list (string * string)) x :
  ("Destination", to) ∈ h -> filter (λ kv, kv.1 = "Destination") h = [x] -> x = ("Destination", to).
Proof.
  intros Hin E. assert (H : ("Destination", to) ∈ filter (λ kv, kv.1 = "Destination") h) by by apply list_elem_of_filter.
  rewrite E in H. by apply list_elem_of_singleton in H.
Qed.

#[export] Instance resourcesServer c : DavServer Resources c.
Proof.
  refine {| resource := λ s u, s !! u |}; cbn.
  - intros req s r s' ->. by intros [= <- <-].
  - intros k req s r s' _ _ -> ->. destruct (rq_BodyEnd req); intros [= <- <-]; [done|].
    split; [|intros; split; [done|apply lookup_insert_eq]]. intros k' (_ & _ & Hne & _). by rewrite lookup_insert_ne.
  - intros from to req s r s' data _ _ _ _ Hft -> -> Hd -> H. destruct (filter _ _) as [|[x to'] [|]] eqn:Ef.
    1,3: injection H as <- <-; split_and!; [done|by left|]; intros resp [= <-] Hc; exfalso; revert Hc; apply (bool_decide_unpack _); by vm_compute.
    apply (destination_only _ _ _ Hd) in Ef. injection Ef as -> ->. injection H as <- <-. rewrite lookup_insert_eq.
    split_and!; [|set_solver|done]. intros k' (_ & _ & H1 & _) (_ & _ & H2 & _). by rewrite lookup_insert_ne, lookup_delete_ne.
  - intros k req s r s' _ _ -> ->. intros [= <- <-]. rewrite lookup_delete_eq. split_and!; [|set_solver|done].
    intros k' (_ & _ & Hne & _). by rewrite lookup_delete_ne.
  - intros req s r s' ->. intros [= <- <-]. split; [done|]. intros resp data H Hc Hs. rewrite Hs in H. by injection H as <-.
  - intros req s r s' ->. by intros [= <- <-].
Defined.

Lemma resources_Get c p (s : Resources) : (Get c p s).2 = s.
Proof.
  unfold Get. destruct (remotePath c p); [|done]. destruct (request _ _ _ _ _ _) as [req|] eqn:Er; [|done].
  destruct (request_fields _ _ _ _ _ _ _ Er) as (Hm & _). unfold do. cbn. rewrite Hm. cbn.
  by repeat match goal with |- context [match ?x with _ => _ end] => destruct x; try done end.
Qed.

(** An artifact is uploaded, and read. *)
Definition twoParts (k : list string) : Prop :=
  length k = 2%nat ∧ remoteKey k ∧ Forall (λ e, HasSuffix e ".partial" = false) k.

#[export] Instance twoParts_dec k : Decision (twoParts k).
Proof. apply _. Defined.

Lemma twoParts_apart k k' : twoParts k -> twoParts k' -> k `prefix_of` k' -> k = k'.
Proof. intros [E _] [E' _] [[|x r] ->]; [by rewrite app_nil_r|]. rewrite length_app in E'. cbn in E'. lia. Qed.


(** ** Listings *)

Section list.
  Context {St : Type} {http : Http St} (c : client).

(** The directories that a directory adds to the queue. *)
Definition queued (current : string) (entries : list entry) : list string :=
  e_rel <$> filter (λ e, e_dir e = true) (snd <$> omap (listed c current) entries).

(** A server with finitely many directories: [below] counts those below one. *)
Context (below : string -> nat) (Inv : St -> Prop).
Context (finite : ∀ current s r s', Inv s -> propfind c current s = (r, s') ->
  Inv s' ∧ ∀ entries, r = Ok entries -> (sum_list ((λ d, S (below d)) <$> queued current entries) <= below current)%nat).

Lemma listLoop_ends fuel root queue out s :
  Inv s -> (sum_list ((λ d, S (below d)) <$> queue) <= fuel)%nat -> is_Some (listLoop c fuel root queue out s).1.
Proof.
  revert queue out s. induction fuel as [|fuel IH]; intros [|current queue] out s Hs Hf; try by eexists.
  { exfalso. cbn in Hf. lia. }
  cbn [listLoop]. destruct (propfind c current s) as [r s1] eqn:E. destruct (finite _ _ _ _ Hs E) as [Hs1 Hq].
  cbn in Hf. destruct r as [entries|err].
  - apply IH; [done|]. specialize (Hq entries eq_refl). fold (queued current entries). rewrite fmap_app, sum_list_with_app. unfold queued in *. lia.
  - destruct (String.eqb current root); [by eexists|]. apply IH; [done|]. lia.
Qed.


End list.

(** ** A server with one directory in another *)

Definition shelf : client := mkClient (mkURL "https" "" None "dav.example.com" "/files" "" false false "" "" "") "backups" "" "" false 0.

Definition shelfURL : string := urlFor shelf "backups".

(** The document is known by its name. *)
#[export] Instance shelfHttp : Http unit := {|
  http_Do req s :=
    (if String.eqb (rq_Method req) "PROPFIND" then Ok (mkResponse StatusMultiStatus "" (fullReader (if String.eqb (rq_Target req) shelfURL then "top" else "")))
     else Ok (mkResponse StatusMethodNotAllowed "" (fullReader "")), s);
  decodeXML r := Ok (if String.eqb (rd_data r) "top"
                     then [mkDavResponse "/files/backups/" [mkDavPropstat "200" (mkDavProp true "" "")];
                           mkDavResponse "/files/backups/db/" [mkDavPropstat "200" (mkDavProp true "" "")]]
                     else []);
  ParseTime _ := None
|}.

Definition shelfBelow (current : string) : nat := if String.eqb (urlFor shelf current) shelfURL then 1 else 0.

Lemma shelf_queued current e : e_dir e = true -> e_rel e = "backups/db" ->
  (sum_list ((λ d, S (shelfBelow d)) <$> queued shelf current [mkEntry "backups" 0 zeroTime true; e]) <= 1)%nat.
Proof.
  intros Hd Hr. unfold queued. cbn [omap list_omap]. unfold listed. rewrite Hr. cbn [e_rel].
  replace (isEmpty (relative shelf "backups")) with true by by vm_compute. rewrite orb_true_l.
  replace (if String.eqb "backups" current then None else None : option (Object * entry)) with (None : option (Object * entry))
    by by destruct (String.eqb _ _).
  destruct (String.eqb "backups/db" current); [by vm_compute; lia|].
  replace (isEmpty (relative shelf "backups/db") || HasSuffix (relative shelf "backups/db") ".partial") with false by by vm_compute.
  cbn [fmap list_fmap snd]. rewrite filter_cons_True by done. cbn. rewrite Hr. vm_compute. lia.
Qed.

Lemma shelf_finite current (s : unit) r s' : True -> propfind shelf current s = (r, s') ->
  True ∧ ∀ entries, r = Ok entries ->
    (sum_list ((λ d, S (shelfBelow d)) <$> queued shelf current entries) <= shelfBelow current)%nat.
Proof.
  intros _ H. split; [done|]. intros entries ->. revert H. unfold propfind, propfindDepth.
  destruct (request _ _ _ _ _ _) as [req|] eqn:Er; [|done]. destruct (request_fields _ _ _ _ _ _ _ Er) as (Hm & Ht & _).
  unfold do. cbn [http_Do shelfHttp setHeader rq_Method rq_Target]. rewrite Hm, Ht. cbn [String.eqb]. unfold shelfBelow at 2.
  destruct (String.eqb (urlFor shelf current) shelfURL) eqn:Eu.
  - cbn -[omap queued sum_list]. intros [= <- _]. etrans; [|apply (shelf_queued current (mkEntry "backups/db" 0 zeroTime true)); done].
    apply Nat.eq_le_incl. f_equal.
  - intros [= <- _]. vm_compute. lia.
Qed.

