(* ===== verification/Message.v ===== *)
(** * What is notified: [internal/notify/notify.go]

    The event the notifier hands to the drivers. *)
From S2P Require Import Prelude GoStrings GoNumbers GoTime Core GoSlices Slug.

Inductive Severity := SeverityInfo | SeverityWarning | SeverityError.

#[export] Instance Severity_eq_dec : EqDecision Severity.
Proof. solve_decision. Defined.

Record Notice := mkNotice {
  ev_Type : string;
  ev_Severity : Severity;
  ev_Title : string;
  ev_Message : string;
  ev_Time : Time;
  ev_SiteName : string;
  ev_BaseURL : string;
  ev_Job : option Job;
  ev_Run : option Run;
  ev_Fields : gmap string string;
  ev_Link : string
}.

(** * The notification message: [internal/notify/internal/message/message.go]

    A notice is turned into a model with a title, a summary and labelled fields,
    which is rendered as plain text and as HTML. *)

Open Scope Z_scope.

Definition ColorSuccess : string := "#2E9E6B".
Definition ColorWarning : string := "#E0A100".
Definition ColorDanger : string := "#D9483B".
Definition ColorInfo : string := "#3B82F6".

Record KV := mkKV { kv_Key : string; kv_Value : string }.

Record Model := mkModel {
  m_Title : string; m_Summary : string; m_Severity : Severity; m_Status : string; m_Fields : list KV;
  m_Error : string; m_Link : string; m_Color : string; m_Time : Time; m_SiteName : string; m_JobName : string
}.

Definition knownFieldKeys : list string := ["site"; "job"; "status"; "duration"; "size"; "destinations"; "error"; "link"].

(** ** Numbers *)

Definition byteUnit : Z := 1024.

(** [div] and [exp] after the loop; [fuel] bounds the rounds, of which there are
    at most four. *)
Fixpoint unitLoop (fuel : nat) (v div : Z) (exp : nat) : Z * nat :=
  match fuel with
  | O => (div, exp)
  | S fuel => if (byteUnit <=? v) && (exp <? 4)%nat then unitLoop fuel (v / byteUnit) (div * byteUnit) (S exp) else (div, exp)
  end.

Definition Bytes (n : Z) : string :=
  if n <? byteUnit then Itoa n +:+ " B"
  else
    let '(div, exp) := unitLoop 5 (n / byteUnit) byteUnit 0 in
    Format1 (fdiv (float64 n) (float64 div)) +:+ " " +:+ nth exp ["KiB"; "MiB"; "GiB"; "TiB"; "PiB"] "".

(** [d.Seconds()], [d.Minutes()] and [d.Hours()]. *)
Definition inUnits (u d : Z) : float := fadd (float64 (d / u)) (fdiv (float64 (d mod u)) (float64 u)).

Definition Duration (ms : Z) : string :=
  let d := wrap64 (ms * 1000000) in
  let mod60 x := Z.rem (ftrunc (inUnits x d)) 60 in
  if d <? Second then Itoa ms +:+ " ms"
  else if d <? Minute then Format1 (inUnits Second d) +:+ " s"
  else if d <? Hour then Itoa (ftrunc (inUnits Minute d)) +:+ "m " +:+ pad0 2 (mod60 Second) +:+ "s"
  else Itoa (ftrunc (inUnits Hour d)) +:+ "h " +:+ pad0 2 (mod60 Minute) +:+ "m".

(** ** Labels *)

Definition labelByte (a : ascii) : ascii := if ContainsByte "_.-" a then " "%char else a.

(** [strings.ToUpper] of one byte: what is not ASCII is no rune by itself. *)
Definition upperByte (a : ascii) : string :=
  if (128 <=? code a)%N then RuneError else schar (if is_lower a then byte_of (code a - 32) else a).

Definition Label (s : string) : string :=
  match TrimSpace (smap labelByte s) with
  | "" => ""
  | String a s => upperByte a +:+ s
  end.

(** ** The model *)

Definition siteName (ev : Notice) : string :=
  let s := TrimSpace (ev_SiteName ev) in if bool_decide (s = "") then "Backvault" else s.

Definition errorText (ev : Notice) : string :=
  match ev_Run ev with
  | Some run => if bool_decide (run_Error run = "") then default "" (ev_Fields ev !! "error") else run_Error run
  | None => default "" (ev_Fields ev !! "error")
  end.

Definition destinations (ev : Notice) : string :=
  let named := match ev_Job ev with Some job => StrJoin (job_DestinationNames job) ", " | None => "" end in
  match ev_Fields ev !! "destinations" with
  | Some v => if Blank v then named else v
  | None => named
  end.

Definition link (ev : Notice) : string :=
  let l := TrimSpace (ev_Link ev) in
  if bool_decide (l ≠ "") then l
  else
    let base := trimRightByte "/" (TrimSpace (ev_BaseURL ev)) in
    if bool_decide (base = "") then ""
    else
      let toJob := match ev_Job ev with
                   | Some job => if bool_decide (job_Slug job = "") then base else base +:+ "/jobs/" +:+ job_Slug job
                   | None => base
                   end in
      match ev_Run ev with
      | Some run => if bool_decide (run_ID run = "") then toJob else base +:+ "/runs/" +:+ run_ID run
      | None => toJob
      end.

Definition color (ev : Notice) : string :=
  if bool_decide (ev_Type ev ∈ [EventRunSuccess; EventPruneDone; EventRestoreDone]) then ColorSuccess
  else if bool_decide (ev_Type ev ∈ [EventRunWarning; EventJobOverdue; EventArtifactMissing]) then ColorWarning
  else if bool_decide (ev_Type ev ∈ [EventRunFailed; EventRestoreFailed]) then ColorDanger
  else match ev_Severity ev with
       | SeverityError => ColorDanger
       | SeverityWarning => ColorWarning
       | SeverityInfo => ColorInfo
       end.

Definition defaultTitle (ev : Notice) (site jobName status : string) : string :=
  if bool_decide (jobName ≠ "") && bool_decide (status ≠ "") then site +:+ ": " +:+ jobName +:+ " " +:+ status
  else if bool_decide (jobName ≠ "") then site +:+ ": " +:+ jobName +:+ " " +:+ Label (ev_Type ev)
  else site +:+ ": " +:+ Label (ev_Type ev).

(** The fields that are not shown otherwise, in the order of their labels. *)
Definition extraFields (fields : gmap string string) : list KV :=
  SliceStable (λ a b, String.ltb (kv_Key a) (kv_Key b))
    ((λ kv, mkKV (Label kv.1) kv.2) <$>
     filter (λ kv, ¬ (ToLower kv.1 ∈ knownFieldKeys) ∧ Blank kv.2 = false) (map_to_list fields)).

Definition runFields (run : Run) : list KV :=
  [mkKV "Run type" (RunKind_text (run_Kind run))]
  ++ (if 0 <? run_DurationMS run then [mkKV "Duration" (Duration (run_DurationMS run))] else [])
  ++ (if 0 <? run_Bytes run then [mkKV "Size" (Bytes (run_Bytes run))] else [])
  ++ (if (0 <? run_RawBytes run) && negb (run_RawBytes run =? run_Bytes run) then [mkKV "Raw size" (Bytes (run_RawBytes run))] else []).

(** [now] is used when the notice has no time. *)
Definition Build (now : Time) (ev : Notice) : Model :=
  let site := siteName ev in
  let jobName := match ev_Job ev with Some job => job_Name job | None => "" end in
  let status := match ev_Run ev with Some run => RunStatus_text (run_Status run) | None => "" end in
  let dests := destinations ev in
  let fields :=
    [mkKV "Site" site]
    ++ (if bool_decide (jobName ≠ "") then [mkKV "Job" jobName] else [])
    ++ [if bool_decide (status ≠ "") then mkKV "Status" status else mkKV "Event" (ev_Type ev)]
    ++ match ev_Run ev with Some run => runFields run | None => [] end
    ++ (if bool_decide (dests ≠ "") then [mkKV "Destinations" dests] else [])
    ++ extraFields (ev_Fields ev) in
  let title := TrimSpace (ev_Title ev) in
  let title := if bool_decide (title = "") then defaultTitle ev site jobName status else title in
  let summary := TrimSpace (ev_Message ev) in
  let summary := if bool_decide (summary = "") then title else summary in
  mkModel title summary (ev_Severity ev) status fields (TrimSpace (errorText ev)) (link ev) (color ev)
    (if IsZero (ev_Time ev) then now else ev_Time ev) site jobName.

(** ** Rendering *)

Fixpoint parse_hex (s : string) (acc : Z) : option Z :=
  match s with
  | "" => Some acc
  | String a s' =>
      let digit := if is_digit a then Some (Z.of_N (code a) - 48)
                   else if (97 <=? code a)%N && (code a <=? 102)%N then Some (Z.of_N (code a) - 87)
                   else if (65 <=? code a)%N && (code a <=? 70)%N then Some (Z.of_N (code a) - 55)
                   else None in
      match digit with Some d => parse_hex s' (acc * 16 + d) | None => None end
  end.

(** [strconv.ParseInt(s, 16, 32)] of a string without sign. *)
Definition ColorInt (m : Model) : Z :=
  let s := TrimPrefix (m_Color m) "#" in
  match (if bool_decide (s = "") then None else parse_hex s 0) with
  | Some v => if v <? 2 ^ 31 then v else 3900150
  | None => 3900150
  end.

Definition lf : string := schar (byte_of 10).

Definition hasSummary (m : Model) : bool := bool_decide (m_Summary m ≠ "") && bool_decide (m_Summary m ≠ m_Title m).

Definition when (b : bool) (s : string) : string := if b then s else "".

Definition sconcat (l : list string) : string := foldr String.append "" l.

Definition Text (m : Model) : string :=
  m_Title m +:+ lf +:+ lf
  +:+ when (hasSummary m) (m_Summary m +:+ lf +:+ lf)
  +:+ sconcat ((λ f, kv_Key f +:+ ": " +:+ kv_Value f +:+ lf) <$> m_Fields m)
  +:+ when (bool_decide (m_Error m ≠ "")) (lf +:+ "Error: " +:+ m_Error m +:+ lf)
  +:+ when (bool_decide (m_Link m ≠ "")) (lf +:+ m_Link m +:+ lf).

(** [html.EscapeString]. *)
Definition esc_byte (a : ascii) : string :=
  if Ascii.eqb a "&" then "&amp;"
  else if Ascii.eqb a "'" then "&#39;"
  else if Ascii.eqb a "<" then "&lt;"
  else if Ascii.eqb a ">" then "&gt;"
  else if (code a =? 34)%N then "&#34;"
  else schar a.

Fixpoint EscapeString (s : string) : string :=
  match s with "" => "" | String a s' => esc_byte a +:+ EscapeString s' end.

(** Literals of the code, with a quotation mark for an apostrophe. *)
Definition html (s : string) : string := smap (λ a, if Ascii.eqb a "'" then byte_of 34 else a) s.

(** A piece of the document: the code's markup, or an escaped value. *)
Inductive Piece := Markup (s : string) | Value (s : string).

Definition piece (p : Piece) : string := match p with Markup s => html s | Value s => EscapeString s end.

Definition htmlPieces (m : Model) : list Piece :=
  [ Markup "<!doctype html><html><body style='margin:0;padding:24px;background:#F6F3EC;font-family:Inter,Segoe UI,Helvetica,Arial,sans-serif;color:#0F1720'>";
    Markup "<table role='presentation' cellpadding='0' cellspacing='0' style='max-width:600px;margin:0 auto;background:#FFFFFF;border:1px solid #E5E1D8;border-radius:10px;overflow:hidden'>";
    Markup "<tr><td style='height:4px;background:"; Value (m_Color m); Markup "'></td></tr>";
    Markup "<tr><td style='padding:24px'>";
    Markup "<h1 style='margin:0 0 12px;font-size:18px;font-weight:600;letter-spacing:-0.01em'>"; Value (m_Title m); Markup "</h1>" ]
  ++ (if hasSummary m then
        [ Markup "<p style='margin:0 0 16px;font-size:14px;color:#334155'>"; Value (m_Summary m); Markup "</p>" ] else [])
  ++ [ Markup "<table role='presentation' cellpadding='0' cellspacing='0' style='width:100%;font-size:14px'>" ]
  ++ concat ((λ f,
        [ Markup "<tr><td style='padding:4px 12px 4px 0;color:#64748B;white-space:nowrap;vertical-align:top'>"; Value (kv_Key f);
          Markup "</td><td style='padding:4px 0;color:#0F1720'>"; Value (kv_Value f); Markup "</td></tr>" ]) <$> m_Fields m)
  ++ [ Markup "</table>" ]
  ++ (if bool_decide (m_Error m ≠ "") then
        [ Markup "<pre style='margin:16px 0 0;padding:12px;background:#F6F3EC;border-left:3px solid "; Value (m_Color m);
          Markup ";font-family:JetBrains Mono,SFMono-Regular,Consolas,monospace;font-size:12px;white-space:pre-wrap;color:#0F1720'>";
          Value (m_Error m); Markup "</pre>" ] else [])
  ++ (if bool_decide (m_Link m ≠ "") then
        [ Markup "<p style='margin:20px 0 0'><a href='"; Value (m_Link m);
          Markup "' style='display:inline-block;padding:9px 16px;background:#D4A032;color:#0F1720;text-decoration:none;border-radius:6px;font-weight:600;font-size:14px'>Open in Backvault</a></p>" ] else [])
  ++ [ Markup "</td></tr></table>";
       Markup "<p style='max-width:600px;margin:16px auto 0;font-size:12px;color:#94A3B8;text-align:center'>Sent by Backvault. Every backup, accounted for.</p>";
       Markup "</body></html>" ].

Definition HTML (m : Model) : string := sconcat (piece <$> htmlPieces m).

Definition Subject (m : Model) : string := m_Title m.

(** * Theorems on the notification message

    Sizes are to the nearest tenth of the right byteUnit; a message has a title and a
    summary; what a message says cannot add markup to its HTML. *)

(** ** Sizes *)

(** The value [n / 2 ^ j] as a number. *)
Definition valued (x : float) (n j : Z) : Prop := 0 < fl_den x ∧ fl_num x * 2 ^ j = n * fl_den x.

Lemma float64_valued n : 0 < n < 2 ^ 53 -> valued (float64 n) n 0.
Proof. intros H. apply (nearest_exact n 0 n 0); lia. Qed.

Lemma float64_den n : 0 < n < 2 ^ 53 -> ∃ k, 0 <= k ∧ fl_den (float64 n) = 2 ^ k.
Proof. intros H. unfold float64, nearest. rewrite (proj2 (Z.eqb_neq n 0)) by lia. eexists. cbn [fl_den]. split; [|done]. lia. Qed.

Lemma float64_pow2 j : 0 <= j < 53 -> ∃ b, 0 <= b ∧ fl_num (float64 (2 ^ j)) = 2 ^ b ∧ ∃ k, 0 <= k ∧ fl_den (float64 (2 ^ j)) = 2 ^ k ∧ b = j + k.
Proof.
  intros H. assert (Hp : 0 < 2 ^ j < 2 ^ 53) by (split; [lia|apply Z.pow_lt_mono_r; lia]).
  destruct (float64_valued _ Hp) as [_ E]. destruct (float64_den _ Hp) as (k & Hk & Ek). rewrite Ek in *.
  exists (j + k). split; [lia|]. split; [|by exists k]. rewrite Z.pow_add_r by lia. lia.
Qed.

(** A quotient by a power of two is exact. *)
Lemma fdiv_pow2 n j : 0 < n < 2 ^ 53 -> 0 <= j < 53 -> valued (fdiv (float64 n) (float64 (2 ^ j))) n j.
Proof.
  intros Hn Hj. destruct (float64_valued n Hn) as [_ En]. destruct (float64_den n Hn) as (k & Hk & Ek).
  destruct (float64_pow2 j Hj) as (b & Hb & Eb & k' & Hk' & Ek' & Ebk). unfold fdiv. rewrite Ek, Eb, Ek' in *.
  rewrite <- Z.pow_add_r by lia. apply nearest_exact; [lia..|]. rewrite Z.pow_add_r, Ebk, Z.pow_add_r by lia. nia.
Qed.

Lemma Format1_valued x n j : valued x n j -> 0 <= j ->
  Format1 x = let t := round_half_even (10 * n) (2 ^ j) in Itoa (t / 10) +:+ "." +:+ Itoa (t mod 10).
Proof. intros [Hd E] Hj. unfold Format1. by rewrite (round_half_even_value (10 * fl_num x) (fl_den x) (10 * n) (2 ^ j)) by lia. Qed.

Lemma unitLoop_spec fuel v div exp n : n / div = v -> 0 < div -> 0 < n -> div <= n -> (exp <= 4)%nat -> (4 - exp < fuel)%nat ->
  let '(div', exp') := unitLoop fuel v div exp in
  div' = div * byteUnit ^ Z.of_nat (exp' - exp) ∧ (exp <= exp' <= 4)%nat ∧ div' <= n ∧ (exp' = 4%nat ∨ n < byteUnit * div').
Proof.
  revert v div exp. induction fuel as [|fuel IH]; intros v div exp Hv Hd Hn Hle He Hf; [lia|]. cbn [unitLoop].
  destruct (Z.leb_spec byteUnit v) as [Hu|Hu]; destruct (Nat.ltb_spec exp 4) as [H4|H4]; cbn [andb].
  2-4: split_and!; [rewrite Nat.sub_diag, Z.pow_0_r; lia|lia|lia|lia|].
  2: left; lia.
  2: { right. subst v. assert (0 < byteUnit) by done. pose proof (Z.mul_succ_div_gt n div Hd). nia. }
  2: left; lia.
  assert (0 < byteUnit) by done. assert (Hle' : div * byteUnit <= n).
  { subst v. pose proof (Z.mul_div_le n div Hd). nia. }
  specialize (IH (v / byteUnit) (div * byteUnit) (S exp)). destruct (unitLoop fuel (v / byteUnit) (div * byteUnit) (S exp)) as [div' exp'].
  destruct IH as (E & Hexp & Hl & Hr); [rewrite <- Hv; by rewrite Z.div_div by lia|lia..|].
  split_and!; [|lia|lia|lia|exact Hr]. rewrite E. replace (exp' - exp)%nat with (S (exp' - S exp)) by lia.
  rewrite Nat2Z.inj_succ, Z.pow_succ_r by lia. lia.
Qed.

(** A size is given in the largest byteUnit it reaches, KiB to PiB, to the nearest
    tenth of it. *)
Theorem Bytes_nearest n : byteUnit <= n < 2 ^ 53 ->
  ∃ exp t, (exp <= 4)%nat ∧ let div := byteUnit ^ Z.of_nat (S exp) in
  div <= n ∧ (exp = 4%nat ∨ n < byteUnit * div) ∧ 2 * Z.abs (10 * n - div * t) <= div ∧
  Bytes n = Itoa (t / 10) +:+ "." +:+ Itoa (t mod 10) +:+ " " +:+ nth exp ["KiB"; "MiB"; "GiB"; "TiB"; "PiB"] "".
Proof.
  intros Hn. unfold Bytes. rewrite (proj2 (Z.ltb_ge n byteUnit)) by lia. assert (Hu : 0 < byteUnit) by done.
  pose proof (unitLoop_spec 5 (n / byteUnit) byteUnit 0 n eq_refl ltac:(lia) ltac:(lia) ltac:(lia) ltac:(lia) ltac:(lia)) as H.
  destruct (unitLoop 5 (n / byteUnit) byteUnit 0) as [div exp]. destruct H as (E & He & Hle & Hr). rewrite Nat.sub_0_r in E.
  assert (Ediv : div = byteUnit ^ Z.of_nat (S exp)) by (rewrite Nat2Z.inj_succ, Z.pow_succ_r by lia; done).
  set (j := 10 * Z.of_nat (S exp)). assert (Epow : div = 2 ^ j) by (rewrite Ediv; unfold j; rewrite Z.pow_mul_r by lia; done).
  exists exp, (round_half_even (10 * n) div). split; [lia|]. cbn zeta. rewrite <- Ediv. split_and!; [done..| |].
  - apply round_half_even_near. lia.
  - assert (Hj : 0 <= j < 53) by (unfold j; lia). assert (HV : valued (fdiv (float64 n) (float64 div)) n j) by (rewrite Epow; apply fdiv_pow2; lia).
    rewrite (Format1_valued _ n j HV) by lia. cbn zeta. rewrite <- Epow. by rewrite !sapp_assoc.
Qed.

Lemma Bytes_nearest_witness : byteUnit <= 1610612736 < 2 ^ 53 ∧ Bytes 1610612736 = "1.5 GiB" ∧
  ∃ exp t, (exp <= 4)%nat ∧ let div := byteUnit ^ Z.of_nat (S exp) in
  div <= 1610612736 ∧ (exp = 4%nat ∨ 1610612736 < byteUnit * div) ∧ 2 * Z.abs (10 * 1610612736 - div * t) <= div ∧
  Bytes 1610612736 = Itoa (t / 10) +:+ "." +:+ Itoa (t mod 10) +:+ " " +:+ nth exp ["KiB"; "MiB"; "GiB"; "TiB"; "PiB"] "".
Proof. split; [done|]. split; [vm_compute; reflexivity|]. by apply (Bytes_nearest 1610612736). Defined.

(** ** Title and summary *)

Lemma siteName_ne ev : siteName ev ≠ "".
Proof. unfold siteName. by case_bool_decide. Qed.

Lemma defaultTitle_ne ev site name status : site ≠ "" -> defaultTitle ev site name status ≠ "".
Proof. intros H. unfold defaultTitle. destruct site; [by destruct H|]. by repeat case_match. Qed.

Lemma Build_titled now ev : m_Title (Build now ev) ≠ "" ∧ m_Summary (Build now ev) ≠ "".
Proof.
  assert (H : m_Title (Build now ev) ≠ "").
  { cbn. case_bool_decide; [|done]. apply defaultTitle_ne, siteName_ne. }
  split; [done|].
  change (m_Summary (Build now ev)) with (if bool_decide (TrimSpace (ev_Message ev) = "") then m_Title (Build now ev) else TrimSpace (ev_Message ev)).
  destruct (bool_decide_reflect (TrimSpace (ev_Message ev) = "")); done.
Qed.

(** The colours of the messages are numbers. *)
Lemma Build_color now ev : ColorInt (Build now ev) ∈ [3055211; 14721280; 14239803; 3900150].
Proof.
  unfold ColorInt. cbn [m_Color Build].
  assert (H : color ev = ColorSuccess ∨ color ev = ColorWarning ∨ color ev = ColorDanger ∨ color ev = ColorInfo).
  { unfold color. repeat case_match; auto. }
  rewrite !elem_of_cons. destruct H as [->|[->|[->| ->]]]; vm_compute; auto 10.
Qed.

(** ** Markup *)

(** The bytes that delimit tags and attributes. *)
Definition delimiter (a : ascii) : bool := Ascii.eqb a "<" || Ascii.eqb a ">" || (code a =? 34)%N.

Fixpoint delims (s : string) : string :=
  match s with "" => "" | String a s' => if delimiter a then String a (delims s') else delims s' end.

Lemma delims_app s t : delims (s +:+ t) = delims s +:+ delims t.
Proof. induction s as [|a s IH]; [done|]. cbn. destruct (delimiter a); cbn; by rewrite IH. Qed.

Lemma delims_esc s : delims (EscapeString s) = "".
Proof.
  induction s as [|a s IH]; [done|]. cbn [EscapeString]. rewrite delims_app, IH, sapp_nil_r. unfold esc_byte.
  repeat case_match; try done. cbn. unfold delimiter. repeat match goal with H : _ = false |- _ => rewrite H end. done.
Qed.

(** What the code itself contributes. *)
Definition markupOf (p : Piece) : option string := match p with Markup s => Some s | Value _ => None end.

Lemma delims_pieces l : delims (sconcat (piece <$> l)) = sconcat ((λ s, delims (html s)) <$> omap markupOf l).
Proof.
  induction l as [|p l IH]; [done|]. cbn [fmap list_fmap sconcat foldr]. rewrite delims_app. fold (sconcat (piece <$> l)). rewrite IH.
  destruct p as [s|s]; cbn [piece markupOf omap list_omap]; [done|]. by rewrite delims_esc.
Qed.

(** The parts a message has. *)
Definition layout (m : Model) : bool * nat * bool * bool :=
  (hasSummary m, length (m_Fields m), bool_decide (m_Error m ≠ ""), bool_decide (m_Link m ≠ "")).

(** what a message says cannot change the structure of its HTML: two
    messages with the same parts have the same tags and attributes, whatever
    their texts. *)
Theorem HTML_structure m m' : layout m = layout m' -> delims (HTML m) = delims (HTML m').
Proof.
  unfold layout. intros [= E1 E2 E3 E4]. unfold HTML. rewrite !delims_pieces. f_equal. f_equal. unfold htmlPieces. rewrite !omap_app, E1, E3, E4.
  assert (HF : ∀ l k : list KV, length l = length k ->
    omap markupOf (concat ((λ f, [ Markup "<tr><td style='padding:4px 12px 4px 0;color:#64748B;white-space:nowrap;vertical-align:top'>"; Value (kv_Key f);
          Markup "</td><td style='padding:4px 0;color:#0F1720'>"; Value (kv_Value f); Markup "</td></tr>" ]) <$> l)) =
    omap markupOf (concat ((λ f, [ Markup "<tr><td style='padding:4px 12px 4px 0;color:#64748B;white-space:nowrap;vertical-align:top'>"; Value (kv_Key f);
          Markup "</td><td style='padding:4px 0;color:#0F1720'>"; Value (kv_Value f); Markup "</td></tr>" ]) <$> k))).
  { induction l as [|f l IH]; intros [|g k] E; try done. injection E as E. cbn. by rewrite (IH k E). }
  rewrite (HF _ (m_Fields m') E2). by destruct (hasSummary m'), (bool_decide (m_Error m' ≠ "")), (bool_decide (m_Link m' ≠ "")).
Qed.

(** An error that looks like markup. *)
Lemma HTML_structure_witness :
  let m err := mkModel "Backup failed" "" SeverityError "failed" [mkKV "Site" "a"] err "" "" 0 "" "" in
  layout (m "disk full") = layout (m "<script>") ∧ delims (HTML (m "disk full")) = delims (HTML (m "<script>")).
Proof. split; [reflexivity|]. apply (HTML_structure _ _). reflexivity. Defined.
