(* ===== verification/NotifyDrivers.v ===== *)
(** * Go's [encoding/json], as far as the program writes it

    [json.Marshal] of objects, lists, strings, integers and booleans: compact, with
    [<], [>] and [&] escaped. *)
From S2P Require Import Prelude GoStrings GoTime Core Config Specs Pack GoHttp Slug Message.
Open Scope Z_scope.

Inductive JSON :=
  | JBool (b : bool)
  | JInt (n : Z)
  | JString (s : string)
  | JArray (l : list JSON)
  | JObject (l : list (string * JSON)).

Definition hex4 (n : N) : string := "\u00" +:+ String (hex_digit (n / 16)) (schar (hex_digit (n mod 16))).

(** One rune of ASCII. *)
Definition jsonByte (a : ascii) : string :=
  let c := code a in
  let esc (l : ascii) := String "\" (schar l) in
  if (c =? 34)%N then esc (byte_of 34)
  else if (c =? 92)%N then esc "\"%char
  else if (c =? 8)%N then esc "b"%char
  else if (c =? 12)%N then esc "f"%char
  else if (c =? 10)%N then esc "n"%char
  else if (c =? 13)%N then esc "r"%char
  else if (c =? 9)%N then esc "t"%char
  else if (c <? 32)%N || (c =? 60)%N || (c =? 62)%N || (c =? 38)%N then hex4 c
  else schar a.

(** U+2028 and U+2029. *)
Definition lineSeparator (last : N) : string := String (byte_of 226) (String (byte_of 128) (schar (byte_of last))).

Fixpoint jsonText (skip : nat) (s : string) : string :=
  match s with
  | "" => ""
  | String a s' =>
      match skip with
      | S k => jsonText k s'
      | O =>
          match runeWidth s with
          | None => "\ufffd" +:+ jsonText 0 s'
          | Some w =>
              (if (w =? 1)%nat then jsonByte a
               else if String.eqb (stake w s) (lineSeparator 168) then "\u2028"
               else if String.eqb (stake w s) (lineSeparator 169) then "\u2029"
               else stake w s) +:+ jsonText (pred w) s'
          end
      end
  end.

Definition jsonString (s : string) : string := schar (byte_of 34) +:+ jsonText 0 s +:+ schar (byte_of 34).

Fixpoint Marshal (j : JSON) : string :=
  match j with
  | JBool b => if b then "true" else "false"
  | JInt n => Itoa n
  | JString s => jsonString s
  | JArray l => "[" +:+ StrJoin (List.map Marshal l) "," +:+ "]"
  | JObject l => "{" +:+ StrJoin (List.map (λ kv, match kv with (k, v) => jsonString k +:+ ":" +:+ Marshal v end) l) "," +:+ "}"
  end.

(** The fields of a struct; [omitempty] drops a zero value. *)
Definition str (name value : string) : list (string * JSON) := [(name, JString value)].
Definition strOmit (name value : string) : list (string * JSON) := if bool_decide (value = "") then [] else str name value.
Definition intOmit (name : string) (n : Z) : list (string * JSON) := if n =? 0 then [] else [(name, JInt n)].
Definition boolOmit (name : string) (b : bool) : list (string * JSON) := if b then [(name, JBool true)] else [].
Definition listOmit (name : string) (l : list JSON) : list (string * JSON) := match l with [] => [] | _ => [(name, JArray l)] end.

Example marshal_text : Marshal (JObject (str "a<b" (schar (byte_of 10) +:+ "\" +:+ schar (byte_of 255)) ++ [("n", JArray [JInt (-3); JBool true])]))
  = "{" +:+ schar (byte_of 34) +:+ "a\u003cb" +:+ schar (byte_of 34) +:+ ":" +:+ schar (byte_of 34) +:+ "\n\\\ufffd" +:+ schar (byte_of 34)
    +:+ "," +:+ schar (byte_of 34) +:+ "n" +:+ schar (byte_of 34) +:+ ":[-3,true]}".
Proof. vm_compute. reflexivity. Qed.

(** * The notification drivers that post over HTTP

    [internal/notify/internal/httpx], [webhook], [slack], [discord], [telegram] and
    [ntfy].  The client is a function of the request; the JSON of a whole notice is
    a parameter. *)

(** ** httpx *)

Definition DefaultTimeout : Z := 15 * Second.

(** The timeout of [Client]. *)
Definition clientTimeout (timeout : Z) : Z := if timeout <=? 0 then DefaultTimeout else timeout.

(** [Do] of a client with the given timeout. *)
Class HttpClient := http_Do : Z -> HttpRequest -> result Response.

Definition Safe (u : URL) : string :=
  let path := if (24 <? String.length (u_Path u))%nat then stake 12 (u_Path u) +:+ "..." else u_Path u in
  u_Scheme u +:+ "://" +:+ u_Host u +:+ path.

Definition secondsOf (cfg : Config) (def : Z) : Z := wrap64 (Int cfg "timeout" def * Second).

Section httpx.
  Context {client : HttpClient}.

Definition httpx_Do (timeout : Z) (req : HttpRequest) : option error :=
  let what := rq_Method req +:+ " " +:+ Safe (rq_URL req) in
  match http_Do (clientTimeout timeout) req with
  | Fail err => Some (wrapError what err)
  | Ok resp =>
      if (200 <=? rs_StatusCode resp) && (rs_StatusCode resp <? 300) then None
      else
        let message := TrimSpace (rd_data (LimitReader (rs_Body resp) 1024)) in
        if bool_decide (message = "") then Some (newError (what +:+ ": " +:+ rs_Status resp))
        else Some (newError (what +:+ ": " +:+ rs_Status resp +:+ ": " +:+ message))
  end.

(** A request with a body in memory. *)
Definition bodyRequest (method target body : string) : result HttpRequest :=
  let? r := NewRequest method target [body] None else err => Fail err in
  Ok (mkHttpRequest (rq_Method r) (rq_Target r) (rq_URL r) (rq_Header r) (Z.of_nat (String.length body)) (rq_Body r) (rq_BodyEnd r) (rq_BasicAuth r)).

Definition httpx_Post (timeout : Z) (target contentType body : string) (headers : list (string * string)) : option error :=
  match bodyRequest "POST" target body with
  | Fail err => Some (wrapError "build request" err)
  | Ok req =>
      let req := setHeader "User-Agent" "Backvault" (setHeader "Content-Type" contentType req) in
      httpx_Do timeout (foldl (λ req kv, setHeader kv.1 kv.2 req) req headers)
  end.

Definition PostJSON (timeout : Z) (target : string) (payload : JSON) (headers : list (string * string)) : option error :=
  httpx_Post timeout target "application/json" (Marshal payload) headers.

End httpx.

Definition truncateTo (s : string) (max : nat) (cut : nat) : string :=
  if (String.length s <=? max)%nat then s else stake cut s +:+ "...".

(** A block of code in a chat. *)
Definition fence (s : string) : string := "```" +:+ s +:+ "```".

(** ** Slack *)

Module Slack.
Section driver.
  Context {sprint_host : SprintHost} {client : HttpClient}.

Definition Validate (cfg : Config) : option error :=
  match ValidateRequired Spec_slack cfg with
  | Some err => Some err
  | None =>
      match Parse (TrimSpace (Config_String cfg "webhook_url")) with
      | Ok u => if (String.eqb (u_Scheme u) "https" || String.eqb (u_Scheme u) "http") && negb (isEmpty (u_Host u)) then None
                else Some (newError "incoming webhook url must be a full url, normally https://hooks.slack.com/services/...")
      | Fail _ => Some (newError "incoming webhook url must be a full url, normally https://hooks.slack.com/services/...")
      end
  end.

Definition truncate (s : string) (max : nat) : string := truncateTo s max max.

Definition field (title value : string) (short : bool) : JSON :=
  JObject (str "title" title ++ str "value" value ++ [("short", JBool short)]).

Definition attachment (m : Model) : JSON :=
  JObject (str "fallback" (m_Title m) ++ str "color" (m_Color m) ++ str "title" (m_Title m) ++ strOmit "title_link" (m_Link m)
    ++ strOmit "text" (when (hasSummary m) (m_Summary m))
    ++ listOmit "fields" (((λ f, field (kv_Key f) (kv_Value f) (String.length (kv_Value f) <=? 32)%nat) <$> m_Fields m)
         ++ (if bool_decide (m_Error m ≠ "") then [field "Error" (fence (truncate (m_Error m) 1500)) false] else []))
    ++ str "footer" "Backvault" ++ intOmit "ts" (m_Time m / Second)
    ++ listOmit "mrkdwn_in" [JString "text"; JString "fields"]).

Definition payload (cfg : Config) (m : Model) : JSON :=
  JObject (strOmit "username" (Config_String cfg "username") ++ strOmit "icon_emoji" (Config_String cfg "icon_emoji")
    ++ strOmit "channel" (Config_String cfg "channel") ++ [("attachments", JArray [attachment m])]).

Definition Send (cfg : Config) (now : Time) (ev : Notice) : option error :=
  match Validate cfg with
  | Some err => Some err
  | None => wrapError "slack webhook" <$>
      PostJSON (secondsOf cfg 15) (TrimSpace (Config_String cfg "webhook_url")) (payload cfg (Build now ev)) []
  end.

End driver.
End Slack.

(** ** Discord *)

Module Discord.
Section driver.
  Context {sprint_host : SprintHost} {client : HttpClient}.

Definition Validate (cfg : Config) : option error :=
  match ValidateRequired Spec_discord cfg with
  | Some err => Some err
  | None =>
      match Parse (TrimSpace (Config_String cfg "webhook_url")) with
      | Ok u => if (String.eqb (u_Scheme u) "https" || String.eqb (u_Scheme u) "http") && negb (isEmpty (u_Host u)) then None
                else Some (newError "webhook url must be a full url, normally https://discord.com/api/webhooks/...")
      | Fail _ => Some (newError "webhook url must be a full url, normally https://discord.com/api/webhooks/...")
      end
  end.

Definition truncate (s : string) (max : nat) : string := truncateTo s max (max - 3).

Definition embedField (name value : string) (inline : bool) : JSON :=
  JObject (str "name" name ++ str "value" value ++ [("inline", JBool inline)]).

Definition embed (m : Model) : JSON :=
  JObject (str "title" (truncate (m_Title m) 256) ++ strOmit "url" (m_Link m)
    ++ strOmit "description" (when (hasSummary m) (truncate (m_Summary m) 2000))
    ++ [("color", JInt (ColorInt m))]
    ++ listOmit "fields" (((λ f, embedField (kv_Key f) (truncate (kv_Value f) 1024) (String.length (kv_Value f) <=? 32)%nat) <$> m_Fields m)
         ++ (if bool_decide (m_Error m ≠ "") then [embedField "Error" (fence (truncate (m_Error m) 1000)) false] else []))
    ++ [("footer", JObject (str "text" "Backvault"))] ++ str "timestamp" (fmt_RFC3339 (m_Time m))).

Definition payload (cfg : Config) (m : Model) : JSON :=
  JObject (strOmit "username" (Config_String cfg "username") ++ strOmit "avatar_url" (Config_String cfg "avatar_url")
    ++ [("embeds", JArray [embed m])]).

Definition Send (cfg : Config) (now : Time) (ev : Notice) : option error :=
  match Validate cfg with
  | Some err => Some err
  | None => wrapError "discord webhook" <$>
      PostJSON (secondsOf cfg 15) (TrimSpace (Config_String cfg "webhook_url")) (payload cfg (Build now ev)) []
  end.

End driver.
End Discord.

(** ** Telegram *)

Module Telegram.
Section driver.
  Context {sprint_host : SprintHost} {client : HttpClient}.

Definition Validate (cfg : Config) : option error :=
  match ValidateRequired Spec_telegram cfg with
  | Some err => Some err
  | None => if Contains (Config_String cfg "bot_token") ":" then None else Some (newError "bot token should look like 123456789:AA...")
  end.

Definition truncate (s : string) (max : nat) : string := truncateTo s max max.

Definition renderAll (m : Model) : string :=
  "<b>" +:+ EscapeString (m_Title m) +:+ "</b>" +:+ lf
  +:+ when (hasSummary m) (EscapeString (m_Summary m) +:+ lf)
  +:+ lf
  +:+ sconcat ((λ f, EscapeString (kv_Key f) +:+ ": <b>" +:+ EscapeString (kv_Value f) +:+ "</b>" +:+ lf) <$> m_Fields m)
  +:+ when (bool_decide (m_Error m ≠ "")) (lf +:+ "<pre>" +:+ EscapeString (truncate (m_Error m) 1500) +:+ "</pre>" +:+ lf)
  +:+ when (bool_decide (m_Link m ≠ "")) (lf +:+ "<a href=" +:+ dquote +:+ EscapeString (m_Link m) +:+ dquote +:+ ">Open in Backvault</a>").

Definition render (m : Model) : string := truncate (renderAll m) 4000.

Definition payload (cfg : Config) (m : Model) : JSON :=
  JObject (str "chat_id" (Config_String cfg "chat_id") ++ str "text" (render m) ++ str "parse_mode" "HTML"
    ++ boolOmit "disable_notification" (Bool cfg "disable_notification" false)
    ++ strOmit "message_thread_id" (Config_String cfg "message_thread_id")
    ++ [("link_preview_options", JObject [("is_disabled", JBool true)])]).

Definition scrub (cfg : Config) (err : error) : error :=
  let token := Config_String cfg "bot_token" in
  if (String.length token <? 3)%nat then err
  else
    let msg := ReplaceAll (err_msg err) token "***" in
    newError (match IndexByte token ":" with
              | Some (S i) => ReplaceAll msg (sdrop (S (S i)) token) "***"
              | _ => msg
              end).

Definition Send (cfg : Config) (now : Time) (ev : Notice) : option error :=
  match Validate cfg with
  | Some err => Some err
  | None =>
      let base := trimRightByte "/" (StringOr cfg "api_base" apiBase) in
      let target := base +:+ "/bot" +:+ Config_String cfg "bot_token" +:+ "/sendMessage" in
      (λ err, wrapError "telegram sendMessage" (scrub cfg err)) <$> PostJSON (secondsOf cfg 15) target (payload cfg (Build now ev)) []
  end.

End driver.
End Telegram.

(** ** ntfy *)

Module Ntfy.
Section driver.
  Context {sprint_host : SprintHost} {client : HttpClient}.

Definition Validate (cfg : Config) : option error :=
  match ValidateRequired Spec_ntfy cfg with
  | Some err => Some err
  | None =>
      if match Parse (TrimSpace (StringOr cfg "server_url" defaultServer)) with
         | Ok u => isEmpty (u_Scheme u) || isEmpty (u_Host u)
         | Fail _ => true
         end
      then Some (newError "server url must be a full url such as https://ntfy.sh")
      else if ContainsByte (Config_String cfg "topic") "/" || ContainsByte (Config_String cfg "topic") " "
      then Some (newError "topic must not contain spaces or slashes")
      else None
  end.

Definition priority (cfg : Config) (severity : Severity) : Z :=
  let name := match severity with
              | SeverityError => StringOr cfg "priority_error" "high"
              | SeverityWarning => StringOr cfg "priority_warning" "default"
              | SeverityInfo => StringOr cfg "priority_success" "low"
              end in
  if String.eqb name "min" then 1 else if String.eqb name "low" then 2 else if String.eqb name "default" then 3
  else if String.eqb name "high" then 4 else if String.eqb name "urgent" || String.eqb name "max" then 5 else 3.

Definition tags (cfg : Config) (severity : Severity) : list string :=
  match severity with SeverityError => "rotating_light" | SeverityWarning => "warning" | SeverityInfo => "white_check_mark" end
  :: StringList cfg "tags".

Definition payload (cfg : Config) (m : Model) : JSON :=
  JObject (str "topic" (Config_String cfg "topic") ++ str "title" (m_Title m) ++ str "message" (Text m)
    ++ intOmit "priority" (priority cfg (m_Severity m)) ++ listOmit "tags" (JString <$> tags cfg (m_Severity m))
    ++ strOmit "click" (m_Link m)).

Definition Send (cfg : Config) (now : Time) (ev : Notice) : option error :=
  match Validate cfg with
  | Some err => Some err
  | None =>
      let token := Config_String cfg "token" in
      let headers := if bool_decide (token ≠ "") then [("Authorization", "Bearer " +:+ token)] else [] in
      let server := trimRightByte "/" (StringOr cfg "server_url" defaultServer) in
      wrapError "ntfy publish" <$> PostJSON (secondsOf cfg 15) server (payload cfg (Build now ev)) headers
  end.

End driver.
End Ntfy.

(** ** Webhook *)

(** [hex(hmac-sha256(key, message))], and [json.Marshal] of a notice with its job and run. *)
Class HMAC := hmac_sha256_hex : string -> string -> string.
Class EventEncoder := encodeEvent : Notice -> result string.

Module Webhook.
Section driver.
  Context {sprint_host : SprintHost} {client : HttpClient} {hmac : HMAC} {encoder : EventEncoder}.

Definition SignatureHeader : string := "X-Backvault-Signature".

Definition upperAscii (s : string) : string := smap (λ a, if is_lower a then byte_of (code a - 32) else a) s.

Definition Validate (cfg : Config) : option error :=
  match ValidateRequired Spec_webhook cfg with
  | Some err => Some err
  | None =>
      let bad := Some (newError "url must be a full url such as https://hooks.example.com/backvault") in
      match Parse (TrimSpace (Config_String cfg "url")) with
      | Fail _ => bad
      | Ok u =>
          if isEmpty (u_Scheme u) || isEmpty (u_Host u) then bad
          else if negb (String.eqb (u_Scheme u) "http") && negb (String.eqb (u_Scheme u) "https") then Some (newError "url must use http or https")
          else if negb (bool_decide (upperAscii (StringOr cfg "method" "POST") ∈ ["POST"; "PUT"; "PATCH"]))
          then Some (newError "method must be POST, PUT or PATCH")
          else
            match List.find (λ h, negb (Contains h ":")) (StringList cfg "headers") with
            | Some h => Some (newError ("header " +:+ Quote h +:+ " must look like Key: Value"))
            | None => None
            end
      end
  end.

Definition Sign (secret body : string) : string := hmac_sha256_hex secret body.

Definition timestamp (now : Time) (ev : Notice) : Time := if IsZero (ev_Time ev) then now else ev_Time ev.

(** A line [Key: Value] of the configuration. *)
Definition setLine (req : HttpRequest) (line : string) : HttpRequest :=
  let '(k, v, found) := Cut line ":" in
  if found : bool then setHeader (TrimSpace k) (TrimSpace v) req else req.

Definition buildRequest (cfg : Config) (now : Time) (ev : Notice) : result HttpRequest :=
  match encodeEvent ev with
  | Fail err => Fail (wrapError "encode event" err)
  | Ok body =>
      match bodyRequest (upperAscii (StringOr cfg "method" "POST")) (TrimSpace (Config_String cfg "url")) body with
      | Fail err => Fail (wrapError "build request" err)
      | Ok req =>
          let req := setHeader "Content-Type" "application/json" req in
          let req := setHeader "User-Agent" "Backvault" req in
          let req := setHeader "X-Backvault-Event" (ev_Type ev) req in
          let req := setHeader "X-Backvault-Timestamp" (Itoa (timestamp now ev / Second)) req in
          let req := foldl setLine req (StringList cfg "headers") in
          let secret := Config_String cfg "secret" in
          Ok (if bool_decide (secret ≠ "") then setHeader SignatureHeader (Sign secret body) req else req)
      end
  end.

Definition Send (cfg : Config) (now : Time) (ev : Notice) : option error :=
  match Validate cfg with
  | Some err => Some err
  | None =>
      match buildRequest cfg now ev with
      | Fail err => Some err
      | Ok req => httpx_Do (secondsOf cfg 15) req
      end
  end.

End driver.
End Webhook.

(** ** What is sent *)

(** The request of a webhook with a secret is signed over its body, whatever
    headers are configured. *)
Lemma Webhook_signed {sprint_host : SprintHost} {hmac : HMAC} {encoder : EventEncoder} cfg now ev req :
  Config_String cfg "secret" ≠ "" -> Webhook.buildRequest cfg now ev = Ok req ->
  ∃ body, rq_Body req = [body] ∧ rq_ContentLength req = Z.of_nat (String.length body) ∧
    ∀ v, (Webhook.SignatureHeader, v) ∈ rq_Header req <-> v = hmac_sha256_hex (Config_String cfg "secret") body.
Proof.
  intros Hs. unfold Webhook.buildRequest. destruct (encodeEvent ev) as [body|]; [|done].
  destruct (bodyRequest _ _ body) as [r|] eqn:Er; [|done]. rewrite bool_decide_eq_true_2 by done. intros [= <-].
  assert (HB : ∀ l (r : HttpRequest), rq_Body (foldl Webhook.setLine r l) = rq_Body r ∧ rq_ContentLength (foldl Webhook.setLine r l) = rq_ContentLength r).
  { induction l as [|x l IH]; intros r'; [done|]. cbn [foldl]. destruct (IH (Webhook.setLine r' x)) as [-> ->].
    unfold Webhook.setLine. by destruct (Cut x ":") as [[? ?] []]. }
  exists body. set (r1 := setHeader "X-Backvault-Timestamp" _ _). set (rb := foldl Webhook.setLine r1 _).
  assert (H1 : rq_Body rb = [body] ∧ rq_ContentLength rb = Z.of_nat (String.length body)).
  { unfold rb. destruct (HB (StringList cfg "headers") r1) as [-> ->]. unfold bodyRequest in Er.
    destruct (NewRequest _ _ _ _) as [r0|] eqn:E0; [|done]. injection Er as <-. split; [|done]. cbn.
    unfold NewRequest in E0. destruct (Parse _); [|done]. by injection E0 as <-. }
  destruct H1 as [H1 H2]. unfold setHeader. cbn [rq_Body rq_ContentLength rq_Header].
  split_and!; [done..|]. intros v. unfold headerSet. change (canonicalKey Webhook.SignatureHeader) with Webhook.SignatureHeader.
  rewrite elem_of_app, list_elem_of_filter, list_elem_of_singleton. cbn. split.
  - intros [[Hne _]|[= ->]]; [by destruct Hne|done].
  - intros ->. by right.
Qed.

(** Neither the bot token nor its secret half is in what a failed call says. *)
Lemma Telegram_scrub_hides {sprint_host : SprintHost} cfg err id p :
  Config_String cfg "bot_token" = id +:+ ":" +:+ p -> id ≠ "" -> free_of ":" id = true -> (3 <= String.length (id +:+ ":" +:+ p))%nat ->
  p ≠ "" -> free_of "*" p = true -> Contains (err_msg (Telegram.scrub cfg err)) p = false.
Proof.
  intros E Hid Hfree Hlen Hp Hpf. unfold Telegram.scrub. rewrite E, (proj2 (Nat.ltb_ge _ _)) by done.
  assert (HI : IndexByte (id +:+ ":" +:+ p) ":" = Some (String.length id)).
  { clear - Hfree. induction id as [|a id IH]; [done|]. unfold free_of in Hfree. cbn [sall] in Hfree. apply andb_true_iff in Hfree as [Ha Hf].
    apply negb_true_iff in Ha. change (String a id +:+ ":" +:+ p) with (String a (id +:+ ":" +:+ p)). cbn [IndexByte]. rewrite Ha, IH by done. done. }
  rewrite HI. destruct id as [|a id]; [done|]. cbn [String.length err_msg newError].
  assert (HD : sdrop (S (S (String.length id))) (String a id +:+ ":" +:+ p) = p).
  { replace (String a id +:+ ":" +:+ p) with ((String a id +:+ ":") +:+ p) by by rewrite sapp_assoc.
    replace (S (S (String.length id))) with (String.length (String a id +:+ ":")) by (rewrite sapp_length; cbn; lia). apply sdrop_app. }
  rewrite HD. by apply (Contains_replace_self "*" "**" p p Hp Hpf 0).
Qed.

(** The parts of an embed keep the limits of the service. *)
Lemma Discord_truncate s max : (3 <= max)%nat -> (String.length (Discord.truncate s max) <= max)%nat.
Proof.
  intros H. unfold Discord.truncate, truncateTo. destruct (Nat.leb_spec (String.length s) max) as [Hl|Hl]; [done|].
  rewrite sapp_length. enough (String.length (stake (max - 3) s) <= max - 3)%nat by (cbn; lia).
  clear. generalize (max - 3)%nat as n. intros n. revert s. induction n as [|n IH]; intros [|a s]; cbn; try lia. specialize (IH s). lia.
Qed.

(** The text of a chat message is cut after it was marked up: the cut may fall
    into a tag. *)
Example render_cut :
  let m := mkModel "t" (sconcat (replicate 4000 "x")) SeverityInfo "" [] "" "" "" 0 "" "" in
  String.length (Telegram.render m) = 4003%nat ∧
  let m := mkModel "t" "s" SeverityInfo "" [mkKV "Schedule" (sconcat (replicate 3973 "x"))] "" "" "" 0 "" "" in
  HasSuffix (Telegram.render m) "xx</..." = true.
Proof. vm_compute. done. Qed.
