(* ===== verification/Email.v ===== *)
(** * The email driver: [internal/notify/email/email.go]

    A notice as a message with a text and an HTML part, delivered in one SMTP
    session.  The address parser, the Q encoding of headers and the SMTP client are
    parameters; random bytes and the clock are arguments. *)
From S2P Require Import Prelude GoStrings GoTime Core Config Specs GoHttp Slug Remote Message.
Open Scope Z_scope.

(** [mail.ParseAddress] with [Address.String], and [mime.QEncoding.Encode]. *)
Record Address := mkAddress { addr_Address : string; addr_String : string }.

Class Mail := {
  ParseAddress : string -> result Address;
  QEncode : string -> string
}.

Definition crlf : string := String (byte_of 13) (schar (byte_of 10)).

Section email.
  Context {sprint_host : SprintHost} {mail : Mail}.

Definition Validate (cfg : Config) : option error :=
  match ValidateRequired Spec_email cfg with
  | Some err => Some err
  | None =>
      if negb (is_ok (ParseAddress (Config_String cfg "from"))) then Some (newError "from address is not valid")
      else
        let recipients := StringList cfg "to" in
        if bool_decide (recipients = []) then Some (newError "at least one recipient is required")
        else
          match List.find (λ r, negb (is_ok (ParseAddress r))) recipients with
          | Some r => Some (newError ("recipient " +:+ Quote r +:+ " is not a valid address"))
          | None =>
              if bool_decide (StringOr cfg "tls_mode" "starttls" ∈ ["starttls"; "tls"; "none"]) then None
              else Some (newError "encryption must be starttls, tls or none")
          end
  end.

(** ** The message *)

Definition normalize (s : string) : string := ReplaceAll (ReplaceAll s crlf lf) lf crlf.

(** [strings.Trim(s, "> ")]. *)
Definition angle (a : ascii) : bool := ContainsByte "> " a.

Fixpoint trimLeft (f : ascii -> bool) (s : string) : string :=
  match s with "" => "" | String a s' => if f a then trimLeft f s' else s end.

Fixpoint trimRight (f : ascii -> bool) (s : string) : string :=
  match s with
  | "" => ""
  | String a s' => let t := trimRight f s' in if f a && bool_decide (t = "") then "" else String a t
  end.

Fixpoint hexBytes (s : string) : string :=
  match s with "" => "" | String a s' => String (hex_digit (code a / 16)) (String (hex_digit (code a mod 16)) (hexBytes s')) end.

(** [strconv.FormatInt(n, 36)] of a number that is not negative. *)
Fixpoint format36 (fuel : nat) (n : Z) (acc : string) : string :=
  match fuel with
  | O => acc
  | S fuel =>
      let d := Z.to_N (n mod 36) in
      let acc := String (if (d <? 10)%N then byte_of (48 + d) else byte_of (87 + d)) acc in
      if n <? 36 then acc else format36 fuel (n / 36) acc
  end.

(** [random] is what [rand.Read] of 12 bytes gave. *)
Definition messageID (from : string) (random : result string) (now : Time) : string :=
  let domain := match LastIndexByte from "@" with
                | Some i => trimRight angle (trimLeft angle (sdrop (S i) from))
                | None => "backvault.local"
                end in
  match random with
  | Fail _ => Itoa now +:+ "@" +:+ domain
  | Ok buf => hexBytes buf +:+ "." +:+ format36 13 (now / Second) "" +:+ "@" +:+ domain
  end.

Definition randomBoundary (random : result string) : result string :=
  match random with
  | Fail err => Fail (wrapError "generate mime boundary" err)
  | Ok buf => Ok ("backvault-" +:+ hexBytes buf)
  end.

Definition headerLine (name value : string) : string := name +:+ ": " +:+ value +:+ crlf.

(** A part of [multipart.Writer], its headers in order. *)
Definition mimePart (first : bool) (boundary contentType body : string) : string :=
  (if first then "" else crlf) +:+ "--" +:+ boundary +:+ crlf
  +:+ headerLine "Content-Transfer-Encoding" "8bit" +:+ headerLine "Content-Type" contentType +:+ crlf +:+ body.

(** [date] is the time now in RFC 1123 with a numeric zone. *)
Definition build (from : string) (to : list string) (subject : string) (m : Model) (random16 random12 : result string) (now : Time) (date : string)
    : result string :=
  let? boundary := randomBoundary random16 else err => Fail err in
  Ok (headerLine "From" from +:+ headerLine "To" (StrJoin to ", ") +:+ headerLine "Subject" (QEncode subject) +:+ headerLine "Date" date
      +:+ headerLine "Message-ID" ("<" +:+ messageID from random12 now +:+ ">") +:+ headerLine "MIME-Version" "1.0"
      +:+ headerLine "X-Backvault-Event" (m_Status m)
      +:+ headerLine "Content-Type" ("multipart/alternative; boundary=" +:+ dquote +:+ boundary +:+ dquote) +:+ crlf
      +:+ mimePart true boundary "text/plain; charset=utf-8" (normalize (Text m))
      +:+ mimePart false boundary "text/html; charset=utf-8" (normalize (HTML m))
      +:+ crlf +:+ "--" +:+ boundary +:+ "--" +:+ crlf).

(** ** The session *)

Inductive Step :=
  | Connect (addr : string)
  | TLSClient            (* the connection is wrapped before anything is said *)
  | NewClient (host : string)
  | Hello (name : string)
  | StartTLS
  | AuthPlain (user password : string)
  | MailFrom (from : string)
  | RcptTo (rcpt : string)
  | DataStart
  | Write (body : string)
  | DataEnd
  | Quit.

(** What the network and the server make of a step after others, and whether an
    extension is offered. *)
Record Server := mkServer { reply : list Step -> Step -> option error; offers : list Step -> string -> bool }.

(** A session: a result and the steps taken. *)
Definition Session (A : Type) : Type := Server -> list Step -> result A * list Step.

#[export] Instance Session_ret : MRet Session := λ A x _ tr, (Ok x, tr).
#[export] Instance Session_bind : MBind Session := λ A B f m srv tr,
  match m srv tr with (Ok x, tr) => f x srv tr | (Fail err, tr) => (Fail err, tr) end.

Definition abort {A} (err : error) : Session A := λ _ tr, (Fail err, tr).

(** A step that wraps its error. *)
Definition step (wrap : error -> error) (st : Step) : Session unit := λ srv tr,
  match reply srv tr st with Some err => (Fail (wrap err), tr ++ [st]) | None => (Ok tt, tr ++ [st]) end.

Definition Extension (name : string) : Session bool := λ srv tr, (Ok (offers srv tr name), tr).

Definition isTLS (tr : list Step) : bool := existsb (λ st, match st with TLSClient | StartTLS => true | _ => false end) tr.

Definition TLSConnectionState : Session bool := λ _ tr, (Ok (isTLS tr), tr).

Definition isLocalhost (name : string) : bool := bool_decide (name ∈ ["localhost"; "127.0.0.1"; "::1"]).

(** [smtp.PlainAuth(...).Start] for the server it was made for. *)
Definition plainStart (host : string) (tls : bool) : option error :=
  if negb tls && negb (isLocalhost host) then Some (newError "unencrypted connection") else None.

(** [insecurePlain.Start]. *)
Definition insecurePlain_Start (serverName host : string) : option error :=
  if String.eqb serverName host then None else Some (newError "smtp server name does not match the configured host").

(** [c.Auth]: an authentication that does not start ends the session. *)
Definition Auth (start : option error) (user password : string) (wrap : error -> error) : Session unit :=
  match start with
  | Some err => λ srv tr, (Fail (wrap err), tr ++ [Quit])
  | None => step wrap (AuthPlain user password)
  end.

Definition helo (cfg : Config) (hostname : result string) : string :=
  let h := TrimSpace (Config_String cfg "helo_name") in
  if bool_decide (h ≠ "") then h
  else match hostname with Ok name => if bool_decide (name ≠ "") then name else "localhost" | Fail _ => "localhost" end.

Definition authenticate (cfg : Config) (host : string) : Session unit :=
  let user := Config_String cfg "username" in
  if bool_decide (user = "") then mret tt
  else
    tls ← TLSConnectionState;
    let start := if negb tls && Bool cfg "allow_insecure_auth" false then insecurePlain_Start host host else plainStart host tls in
    ok ← Extension "AUTH";
    if ok : bool then Auth start user (Config_String cfg "password") (wrapError ("smtp authentication failed for " +:+ user)) else mret tt.

Fixpoint recipientsLoop (to : list string) : Session unit :=
  match to with
  | [] => mret tt
  | rcpt :: to => step (wrapError ("smtp RCPT TO " +:+ rcpt)) (RcptTo rcpt);; recipientsLoop to
  end.

Definition deliver (cfg : Config) (hostname : result string) (from : string) (to : list string) (body : string) : Session unit :=
  let host := Config_String cfg "smtp_host" in
  let addr := JoinHostPort host (Itoa (Int cfg "smtp_port" 587)) in
  let mode := StringOr cfg "tls_mode" "starttls" in
  step (wrapError ("connect to smtp server " +:+ addr)) (Connect addr);;
  (if String.eqb mode "tls" then step id TLSClient else mret tt);;
  step (wrapError ("smtp handshake with " +:+ addr)) (NewClient host);;
  step (wrapError "smtp greeting") (Hello (helo cfg hostname));;
  (if String.eqb mode "starttls" then
     ok ← Extension "STARTTLS";
     if negb ok then abort (newError "the smtp server does not offer STARTTLS, choose another encryption mode")
     else step (wrapError "start tls") StartTLS
   else mret tt);;
  authenticate cfg host;;
  step (wrapError "smtp MAIL FROM") (MailFrom from);;
  recipientsLoop to;;
  step (wrapError "smtp DATA") DataStart;;
  step (wrapError "write message") (Write body);;
  step (wrapError "finish message") DataEnd;;
  step id Quit.

Fixpoint parseAll (l : list string) : result (list string) :=
  match l with
  | [] => Ok []
  | r :: l =>
      let? a := ParseAddress r else err => Fail (wrapError ("recipient " +:+ Quote r +:+ " is not a valid address") err) in
      let? rest := parseAll l else err => Fail err in
      Ok (addr_Address a :: rest)
  end.

Definition Send (cfg : Config) (now : Time) (date : string) (hostname random16 random12 : result string) (ev : Notice) : Session unit :=
  match Validate cfg with
  | Some err => abort err
  | None =>
      let m := Build now ev in
      let prefix := TrimSpace (Config_String cfg "subject_prefix") in
      let subject := if bool_decide (prefix ≠ "") then prefix +:+ " " +:+ Subject m else Subject m in
      match ParseAddress (Config_String cfg "from") with
      | Fail err => abort (wrapError "from address is not valid" err)
      | Ok from =>
          match parseAll (StringList cfg "to") with
          | Fail err => abort err
          | Ok addrs =>
              match build (addr_String from) (StringList cfg "to") subject m random16 random12 now date with
              | Fail err => abort err
              | Ok body => deliver cfg hostname (addr_Address from) addrs body
              end
          end
      end
  end.

End email.

(** ** The lines of a message *)

(** Every line feed follows a carriage return. *)
Fixpoint crlfOnly (prev : bool) (s : string) : bool :=
  match s with
  | "" => true
  | String a s' => if (code a =? 10)%N then prev && crlfOnly false s' else crlfOnly (code a =? 13)%N s'
  end.

Lemma normalize_crlf s b : crlfOnly b (normalize s) = true.
Proof.
  unfold normalize, ReplaceAll. generalize (replaceLoop crlf lf 0 s) as t. intros t. revert b. induction t as [|a t IH]; intros b; [done|].
  cbn [replaceLoop]. unfold lf at 1. change (schar (byte_of 10)) with (String (byte_of 10) ""). rewrite HasPrefix_cons, HasPrefix_nil, andb_true_r.
  destruct (Ascii.eqb_spec (byte_of 10) a) as [<-|Hne].
  - change (crlf +:+ replaceLoop lf crlf (pred (String.length lf)) t) with (String (byte_of 13) (String (byte_of 10) (replaceLoop lf crlf 0 t))).
    cbn [crlfOnly]. change (code (byte_of 13) =? 10)%N with false. change (code (byte_of 13) =? 13)%N with true.
    change (code (byte_of 10) =? 10)%N with true. cbn [andb]. apply IH.
  - cbn [crlfOnly]. destruct (N.eqb_spec (code a) 10) as [E|_]; [|apply IH]. exfalso. apply Hne. rewrite <- E. unfold byte_of, code. by rewrite ascii_N_embedding.
Qed.

(** ** The password *)

Section guard.
  Context {sprint_host : SprintHost} {mail : Mail} (cfg : Config).

Abbreviation host := (Config_String cfg "smtp_host").

(** A session shows the password only over TLS, to this machine, or when the
    configuration allows it. *)
Definition guarded (tr : list Step) : Prop :=
  ∀ a b u p, tr = a ++ AuthPlain u p :: b ->
  isTLS a = true ∨ isLocalhost host = true ∨ Bool cfg "allow_insecure_auth" false = true.

Definition keepsGuard {A : Type} (m : Session A) : Prop := ∀ srv tr, guarded tr -> guarded (m srv tr).2.

Lemma guarded_snoc tr st : guarded tr ->
  (∀ u p, st = AuthPlain u p -> isTLS tr = true ∨ isLocalhost host = true ∨ Bool cfg "allow_insecure_auth" false = true) ->
  guarded (tr ++ [st]).
Proof.
  intros H Hst a b u p E. destruct b as [|y b _] using rev_ind.
  - apply app_inj_tail in E as [-> E]. by apply (Hst u p).
  - rewrite app_comm_cons, app_assoc in E. apply app_inj_tail in E as [E _]. by apply (H a b u p).
Qed.

Lemma keepsGuard_ret {A : Type} (x : A) : keepsGuard (mret x : Session A).
Proof. by intros srv tr. Qed.

Lemma keepsGuard_abort {A : Type} err : keepsGuard (abort err : Session A).
Proof. by intros srv tr. Qed.

Lemma keepsGuard_bind {A B : Type} (m : Session A) (f : A -> Session B) : keepsGuard m -> (∀ x, keepsGuard (f x)) -> keepsGuard (m ≫= f).
Proof.
  intros Hm Hf srv tr H. unfold mbind, Session_bind. specialize (Hm srv tr H). destruct (m srv tr) as [[x|err] tr1]; [|done]. by apply Hf.
Qed.

Lemma keepsGuard_step wrap st : (∀ u p, st ≠ AuthPlain u p) -> keepsGuard (step wrap st).
Proof. intros Hst srv tr H. unfold step. destruct (reply srv tr st); (apply guarded_snoc; [done|]; intros u p E; by destruct (Hst u p)). Qed.

Lemma keepsGuard_Extension name : keepsGuard (Extension name).
Proof. by intros srv tr. Qed.

Lemma keepsGuard_recipients to : keepsGuard (recipientsLoop to).
Proof. induction to as [|rcpt to IH]; [apply keepsGuard_ret|]. apply keepsGuard_bind; [by apply keepsGuard_step|by intros _]. Qed.

Lemma keepsGuard_authenticate : keepsGuard (authenticate cfg host).
Proof.
  intros srv tr H. unfold authenticate. case_bool_decide; [done|]. unfold mbind, Session_bind, TLSConnectionState, Extension. cbn.
  destruct (offers srv tr "AUTH"); [|done]. unfold Auth. destruct (if _ && _ then _ else _) as [err|] eqn:E; [by apply guarded_snoc|].
  unfold step. assert (G : guarded (tr ++ [AuthPlain (Config_String cfg "username") (Config_String cfg "password")])); [|by destruct (reply _ _ _)].
  apply guarded_snoc; [done|]. intros u p _. destruct (isTLS tr); [by left|]. cbn [negb andb] in E.
  destruct (Bool cfg "allow_insecure_auth" false); [by right; right|]. unfold plainStart in E. cbn [negb andb] in E.
  destruct (isLocalhost host); [by right; left|done].
Qed.

#[local] Ltac stepwise :=
  repeat match goal with
  | |- keepsGuard (_ ≫= _) => apply keepsGuard_bind; [|intros ?]
  | |- keepsGuard (if ?b then _ else _) => destruct b
  | |- keepsGuard (step _ _) => by apply keepsGuard_step
  | |- keepsGuard (mret _) => apply keepsGuard_ret
  | |- keepsGuard (abort _) => apply keepsGuard_abort
  | |- keepsGuard (Extension _) => apply keepsGuard_Extension
  | |- keepsGuard (authenticate _ _) => apply keepsGuard_authenticate
  | |- keepsGuard (recipientsLoop _) => apply keepsGuard_recipients
  end.

Lemma deliver_guarded hostname from to body srv : guarded (deliver cfg hostname from to body srv []).2.
Proof.
  assert (K : keepsGuard (deliver cfg hostname from to body)).
  { unfold deliver. stepwise. }
  apply K. by intros [] ? ? ?.
Qed.

(** C29: the password of an email channel is sent only over TLS, to a server on
    this machine, or when the channel allows a plain connection: whatever the
    server offers and answers, every AUTH in a session comes after the
    connection was wrapped or STARTTLS was sent, unless one of the two holds. *)
Theorem Send_guards_password now date hostname random16 random12 ev srv :
  guarded (Send cfg now date hostname random16 random12 ev srv []).2.
Proof.
  assert (E : guarded []) by by intros [] ? ? ?.
  unfold Send. destruct (Validate cfg); [done|]. cbn zeta. destruct (ParseAddress _); [|done]. destruct (parseAll _); [|done].
  destruct (build _ _ _ _ _ _ _ _); [|done]. apply deliver_guarded.
Qed.

(** ** The order of a session *)

Lemma step_ok wrap st srv tr tr' x : step wrap st srv tr = (Ok x, tr') -> tr' = tr ++ [st].
Proof. unfold step. destruct (reply srv tr st); [done|]. by intros [= _ <-]. Qed.

Lemma bind_ok {A B : Type} (m : Session A) (f : A -> Session B) srv tr y tr' :
  (m ≫= f) srv tr = (Ok y, tr') -> ∃ x tr1, m srv tr = (Ok x, tr1) ∧ f x srv tr1 = (Ok y, tr').
Proof. unfold mbind, Session_bind. destruct (m srv tr) as [[x|err] tr1]; [|done]. by exists x, tr1. Qed.

Lemma recipients_ok to srv tr tr' : recipientsLoop to srv tr = (Ok tt, tr') -> tr' = tr ++ (RcptTo <$> to).
Proof.
  revert tr. induction to as [|rcpt to IH]; intros tr; [by intros [= <-]; rewrite app_nil_r|]. cbn [recipientsLoop].
  intros ([] & tr1 & H1%step_ok & H2%IH)%bind_ok. subst. by rewrite <- app_assoc.
Qed.

(** A delivery that succeeds named every recipient, then handed over the whole
    message and took its leave. *)
Lemma deliver_order hostname from to body srv tr :
  deliver cfg hostname from to body srv [] = (Ok tt, tr) ->
  ∃ opening, tr = opening ++ MailFrom from :: (RcptTo <$> to) ++ [DataStart; Write body; DataEnd; Quit].
Proof.
  unfold deliver. intros H. do 5 (apply bind_ok in H as (? & ? & _ & H)). apply bind_ok in H as (? & t0 & _ & H).
  apply bind_ok in H as (? & t1 & H1%step_ok & H). apply bind_ok in H as ([] & t2 & H2%recipients_ok & H).
  apply bind_ok in H as (? & t3 & H3%step_ok & H). apply bind_ok in H as (? & t4 & H4%step_ok & H).
  apply bind_ok in H as (? & t5 & H5%step_ok & H6%step_ok). subst. exists t0. by rewrite <- !app_assoc.
Qed.

End guard.
