(* ===== verification/StoreCommon.v ===== *)
(** * What the repositories share: [internal/store/common.go] and the error
    helpers of [users.go] *)
From S2P Require Import Prelude GoStrings GoTime GoSlices Core Db.
Open Scope Z_scope.

Definition DefaultLimit : Z := 50.
Definition MaxLimit : Z := 500.

(** Times are stored as text of a fixed layout and read back: the zero time and
    a null column are the same. *)
Definition nullTime (t : option Time) : option Time :=
  match t with
  | Some t => if IsZero t then None else Some t
  | None => None
  end.

Record Page := mkPage { page_Limit : Z; page_Offset : Z }.

Definition normalized (p : Page) : Page :=
  let limit := page_Limit p in
  let limit := if limit <=? 0 then DefaultLimit else limit in
  let limit := if limit >? MaxLimit then MaxLimit else limit in
  let offset := page_Offset p in
  let offset := if offset <? 0 then 0 else offset in
  mkPage limit offset.

(** ** The WHERE clause: the conditions added so far. *)
Definition whereBuilder (A : Type) := list (A -> bool).

Definition where_add {A} (c : A -> bool) (w : whereBuilder A) : whereBuilder A := w ++ [c].

Definition where_addIf {A} (b : bool) (c : A -> bool) (w : whereBuilder A) : whereBuilder A :=
  if b then where_add c w else w.

Definition where_addTime {A} (c : Time -> A -> bool) (t : Time) (w : whereBuilder A) : whereBuilder A :=
  if IsZero t then w else where_add (c t) w.

Definition where_sql {A} (w : whereBuilder A) (a : A) : bool := forallb (λ c, c a) w.

(** [s LIKE p]: ['%'] any bytes, ['_'] one, letters of the ASCII range without
    case. *)
Fixpoint like (p s : string) : bool :=
  match p with
  | "" => bool_decide (s = "")
  | String c p' =>
      if Ascii.eqb c "%" then
        (fix any (s : string) : bool :=
           like p' s || match s with "" => false | String _ s' => any s' end) s
      else
        match s with
        | "" => false
        | String a s' => (Ascii.eqb c "_" || Ascii.eqb (lower_byte c) (lower_byte a)) && like p' s'
        end
  end.

Definition likeContains (q s : string) : bool := like ("%" +:+ q +:+ "%") s.

(** ** JSON text of a list of strings, as [encoding/json] writes it. *)
Definition json_byte (a : ascii) : string :=
  let c := code a in
  let esc (l : ascii) := String "\" (schar l) in
  if (c =? 34)%N then esc (byte_of 34)
  else if (c =? 92)%N then esc "\"%char
  else if (c =? 8)%N then esc "b"%char
  else if (c =? 12)%N then esc "f"%char
  else if (c =? 10)%N then esc "n"%char
  else if (c =? 13)%N then esc "r"%char
  else if (c =? 9)%N then esc "t"%char
  else if (c <? 32)%N || (c =? 60)%N || (c =? 62)%N || (c =? 38)%N
       then "\u00" +:+ String (hex_digit (c / 16)) (schar (hex_digit (c mod 16)))
  else schar a.

Fixpoint json_body (s : string) : string :=
  match s with "" => "" | String a s' => json_byte a +:+ json_body s' end.

Definition json_quote : string := schar (byte_of 34).
Definition json_string (s : string) : string := json_quote +:+ json_body s +:+ json_quote.
Definition json_strings (l : list string) : string := "[" +:+ StrJoin (json_string <$> l) "," +:+ "]".

(** [tags LIKE] the pattern of a tag between double quotes. *)
Definition jsonHas (tag : string) (l : list string) : bool :=
  likeContains (json_quote +:+ tag +:+ json_quote) (json_strings l).

(** ** Errors *)

Definition notFound (msg : string) : error := wrapError msg (mkError "not found" ErrNotFound).
Definition conflict (msg : string) : error := wrapError msg (mkError "conflict" ErrConflict).

Definition isUniqueViolation (err : error) : bool :=
  let msg := ToLower (err_msg err) in
  Contains msg "unique constraint" || Contains msg "constraint failed: unique".

Definition isForeignKeyViolation (err : error) : bool :=
  Contains (ToLower (err_msg err)) "foreign key constraint".

Definition affected (n : Z) (kind id : string) : result unit :=
  if n =? 0 then Fail (notFound (kind +:+ " " +:+ id)) else Ok tt.

(** [INSERT] of a row whose primary key and unique columns must be fresh. *)
Definition insertRow {A} (keyCol : string) (id : string) (row : A)
    (uniques : list (string * (A -> bool))) (t : gmap string A) : result (gmap string A) :=
  match t !! id with
  | Some _ => Fail (uniqueError keyCol)
  | None =>
      match List.find (λ u, otherRow id u.2 t) uniques with
      | Some u => Fail (uniqueError u.1)
      | None => Ok (<[id := row]> t)
      end
  end.

(** [UPDATE ... WHERE id = ?] under the same unique columns. *)
Definition updateRow {A} (id : string) (f : A -> A)
    (uniques : list (string * (A -> bool))) (t : gmap string A) : result (Z * gmap string A) :=
  match t !! id with
  | None => Ok (0, t)
  | Some _ =>
      match List.find (λ u, otherRow id u.2 t) uniques with
      | Some u => Fail (uniqueError u.1)
      | None => Ok (updateId id f t)
      end
  end.

(** [ORDER BY name]: by bytes. *)
Definition byText {A} (key : A -> string) (a b : A) : bool := String.ltb (key a) (key b).
(** [ORDER BY t DESC, id DESC]. *)
Definition byTimeDesc {A} (time : A -> Time) (id : A -> string) (a b : A) : bool :=
  (time b <? time a) || ((time b =? time a) && String.ltb (id b) (id a)).

(** The repositories repeat: an error of the statement, or no row. *)
Definition execAffected (m : M (result Z)) (failure : error -> error) (kind id : string) : M (result unit) :=
  do? n := m else err => mret (Fail (failure err)) in
  mret (affected n kind id).

Lemma affected_ok n kind id : affected n kind id = Ok tt <-> n ≠ 0.
Proof. unfold affected. destruct (Z.eqb_spec n 0); split; done. Qed.

(** Pages stay in bounds: whatever a client asks, a page has between 1 and
    [MaxLimit] rows and starts at or after the first, and asking within bounds
    is honoured. *)
Theorem normalized_bounds p :
  1 <= page_Limit (normalized p) <= MaxLimit ∧ 0 <= page_Offset (normalized p)
  ∧ normalized (normalized p) = normalized p
  ∧ (1 <= page_Limit p <= MaxLimit -> 0 <= page_Offset p -> normalized p = p).
Proof.
  destruct p as [l o]. unfold normalized, MaxLimit, DefaultLimit. simpl. rewrite !Z.gtb_ltb.
  repeat (case_match; boolean; try lia); split_and!; try lia; intros; simpl; f_equal; lia || done.
Qed.

#[export] Hint Unfold execAffected : ops.
