(* ===== verification/StoreJobs.v ===== *)
(** * Jobs and their state: [internal/store/jobs.go], [jobstate.go]

    [JobRepo] over the tables [jobs], [job_state], [artifacts] and [runs].  A
    row holds the columns of the table; the fields a client sees beside them
    (source and destination names, last run, totals) are filled in by
    [enrichJobs] at every read. *)
From S2P Require Import Prelude GoStrings GoTime GoSlices Core CoreSetters Db StoreCommon.
Open Scope Z_scope.

(** The columns of [jobs]: the derived fields are not stored. *)
Definition jobRow (j : Job) : Job :=
  set_job_SourceName "" (set_job_SourceKind "" (set_job_DestinationNames []
    (set_job_LastRun None (set_job_NextRunAt None (set_job_Overdue false
      (set_job_ArtifactCount 0 (set_job_TotalBytes 0 j))))))).

Definition sameSlug (slug : string) (j : Job) : bool := String.eqb (job_Slug j) slug.

(** [INSERT INTO jobs]: the slug is unique, the source must exist. *)
Definition insertJob (j : Job) (db : DB) : result (unit * DB) :=
  let? t := insertRow "jobs.id" (job_ID j) (jobRow j) [("jobs.slug", sameSlug (job_Slug j))] (db_jobs db)
    else err => Fail err in
  if bool_decide (is_Some (db_sources db !! job_SourceID j))
  then Ok (tt, set_db_jobs t db)
  else Fail foreignKeyError.

Definition JobRepo_Create (j : Job) : M (result Job) :=
  t ← now;
  id ← (if bool_decide (job_ID j = "") then NewID else mret (job_ID j));
  let j := set_job_UpdatedAt t (set_job_CreatedAt t (set_job_ID id j)) in
  do? _ := execWrite (insertJob j) else err =>
    mret (Fail (if isUniqueViolation err then conflict ("job slug " +:+ Quote (job_Slug j) +:+ " already exists")
                else if isForeignKeyViolation err
                     then notFound ("source " +:+ job_SourceID j +:+ " does not exist")
                     else wrapError "create job" err)) in
  mret (Ok j).

(** [UPDATE jobs]: every column but the identifier and the creation time. *)
Definition updateJob (j : Job) (db : DB) : result (Z * DB) :=
  let? (n, t) :=
    updateRow (job_ID j) (λ old, set_job_CreatedAt (job_CreatedAt old) (jobRow j))
      [("jobs.slug", sameSlug (job_Slug j))] (db_jobs db)
    else err => Fail err in
  if (n =? 0) || bool_decide (is_Some (db_sources db !! job_SourceID j))
  then Ok (n, set_db_jobs t db)
  else Fail foreignKeyError.

Definition relabelArtifacts (j : Job) (db : DB) : result (unit * DB) :=
  Ok (tt, set_db_artifacts
            (updateWhere (λ a, String.eqb (art_JobID a) (job_ID j))
               (λ a, set_art_JobSlug (job_Slug j) (set_art_JobName (job_Name j) a)) (db_artifacts db)) db).

Definition relabelRuns (j : Job) (db : DB) : result (unit * DB) :=
  Ok (tt, set_db_runs
            (updateWhere (λ r, String.eqb (run_JobID r) (job_ID j))
               (λ r, set_run_JobSlug (job_Slug j) (set_run_JobName (job_Name j) r)) (db_runs db)) db).

Definition JobRepo_Update (j : Job) : M (Job * option error) :=
  t ← now;
  let j := set_job_UpdatedAt t j in
  do? n := execWrite (updateJob j) else err =>
    mret (j, Some (if isUniqueViolation err then conflict ("job slug " +:+ Quote (job_Slug j) +:+ " already exists")
                   else if isForeignKeyViolation err
                        then notFound ("source " +:+ job_SourceID j +:+ " does not exist")
                        else wrapError "update job" err)) in
  match affected n "job" (job_ID j) with
  | Fail err => mret (j, Some err)
  | Ok _ =>
      do? _ := execWrite (relabelArtifacts j)
        else err => mret (j, Some (wrapError "refresh artifact job labels" err)) in
      do? _ := execWrite (relabelRuns j)
        else err => mret (j, Some (wrapError "refresh run job labels" err)) in
      mret (j, None)
  end.

Definition JobRepo_SetEnabled (id : string) (enabled : bool) : M (result unit) :=
  t ← now;
  execAffected
    (execWrite (λ db, let '(n, jobs) := updateId id (λ j, set_job_UpdatedAt t (set_job_Enabled enabled j)) (db_jobs db) in
                      Ok (n, set_db_jobs jobs db)))
    (wrapError "set job enabled") "job" id.

(** ** Enrichment *)

Record label := mkLabel { lbl_Name : string; lbl_Kind : string }.

Definition sourceLabels (db : DB) : gmap string label :=
  (λ s, mkLabel (src_Name s) (src_Kind s)) <$> db_sources db.

Definition destinationLabels (db : DB) : gmap string label :=
  (λ d, mkLabel (dst_Name d) (dst_Kind d)) <$> db_destinations db.

Record usageRow := mkUsage { use_Bytes : Z; use_Artifacts : Z }.

(** [SELECT SUM(size), COUNT FROM artifacts WHERE status = 'present' AND p]. *)
Definition presentUsage (p : Artifact -> bool) (db : DB) : usageRow :=
  let rows := selectWhere (λ a, bool_decide (art_Status a = ArtifactPresent) && p a) (db_artifacts db) in
  mkUsage (foldr Z.add 0 (art_Size <$> rows)) (Z.of_nat (length rows)).

(** [artifactTotalsByJob], for one job: a job with no present artifact has no
    row, which leaves the zeros in place. *)
Definition artifactTotalsByJob (db : DB) (jobID : string) : usageRow :=
  presentUsage (λ a, String.eqb (art_JobID a) jobID) db.

Definition enrichJob (db : DB) (j : Job) : Job :=
  let j := match sourceLabels db !! job_SourceID j with
           | Some l => set_job_SourceName (lbl_Name l) (set_job_SourceKind (lbl_Kind l) j)
           | None => j
           end in
  let names := omap (λ id, lbl_Name <$> destinationLabels db !! id) (job_DestinationIDs j) in
  let j := set_job_DestinationNames names j in
  let j := match db_job_state db !! job_ID j with
           | Some st => set_job_LastRun (js_LastRun st)
                          (set_job_NextRunAt (js_NextRunAt st) (set_job_Overdue (js_Overdue st) j))
           | None => j
           end in
  let t := artifactTotalsByJob db (job_ID j) in
  set_job_ArtifactCount (use_Artifacts t) (set_job_TotalBytes (use_Bytes t) j).

(** Four queries, none for an empty list. *)
Definition enrichJobs (jobs : list Job) : M (result (list Job)) :=
  if bool_decide (jobs = []) then mret (Ok [])
  else
    do? _ := query sourceLabels else err => mret (Fail (wrapError "source labels" err)) in
    do? _ := query destinationLabels else err => mret (Fail (wrapError "destination labels" err)) in
    do? _ := query db_job_state else err => mret (Fail (wrapError "list job state" err)) in
    do? db := query (λ db, db) else err => mret (Fail (wrapError "artifact totals" err)) in
    mret (Ok (enrichJob db <$> jobs)).

(** ** Reading *)

Definition oneJob (what : string) (r : option Job) : M (result Job) :=
  match r with
  | None => mret (Fail (notFound ("job " +:+ what)))
  | Some j =>
      do? l := enrichJobs [j] else err => mret (Fail err) in
      mret (match l with j :: _ => Ok j | [] => Fail (notFound ("job " +:+ what)) end)
  end.

Definition JobRepo_Get (id : string) : M (result Job) :=
  do? r := query (λ db, db_jobs db !! id) else err => mret (Fail (wrapError "get job" err)) in
  oneJob id r.

Definition JobRepo_GetBySlug (slug : string) : M (result Job) :=
  do? r := query (λ db, head (selectWhere (sameSlug slug) (db_jobs db)))
    else err => mret (Fail (wrapError "get job by slug" err)) in
  oneJob slug r.

Definition JobRepo_GetByIDOrSlug (ref : string) : M (result Job) :=
  r ← JobRepo_Get ref;
  match r with
  | Ok j => mret (Ok j)
  | Fail err => if errorsIs err ErrNotFound then JobRepo_GetBySlug ref else mret (Fail err)
  end.

Definition JobRepo_SlugExists (slug exceptID : string) : M (result bool) :=
  do? n := query (λ db, countWhere (λ j, sameSlug slug j && negb (String.eqb (job_ID j) exceptID)) (db_jobs db))
    else err => mret (Fail (wrapError "check job slug" err)) in
  mret (Ok (n >? 0)).

Record JobFilter := mkJobFilter {
  jf_Enabled : option bool;
  jf_SourceID : string;
  jf_DestinationID : string;
  jf_Tag : string;
  jf_Q : string;
  jf_Page : Page
}.

Definition JobFilter_where (f : JobFilter) : whereBuilder Job :=
  let w : whereBuilder Job := [] in
  let w := match jf_Enabled f with
           | Some b => where_add (λ j, Bool.eqb (job_Enabled j) b) w
           | None => w
           end in
  let w := where_addIf (bool_decide (jf_SourceID f ≠ "")) (λ j, String.eqb (job_SourceID j) (jf_SourceID f)) w in
  let q := TrimSpace (jf_Q f) in
  let w := where_addIf (bool_decide (q ≠ ""))
             (λ j, likeContains q (job_Name j) || likeContains q (job_Slug j) || likeContains q (job_Description j)) w in
  let w := where_addIf (bool_decide (jf_Tag f ≠ "")) (λ j, jsonHas (jf_Tag f) (job_Tags j)) w in
  where_addIf (bool_decide (jf_DestinationID f ≠ "")) (λ j, jsonHas (jf_DestinationID f) (job_DestinationIDs j)) w.

Definition JobRepo_List (f : JobFilter) : M (result (list Job * Z)) :=
  let w := JobFilter_where f in
  do? total := query (λ db, countWhere (where_sql w) (db_jobs db))
    else err => mret (Fail (wrapError "count jobs" err)) in
  let p := normalized (jf_Page f) in
  do? out := query (λ db, limitOffset (page_Limit p) (page_Offset p)
                            (SliceStable (byText job_Name) (selectWhere (where_sql w) (db_jobs db))))
    else err => mret (Fail (wrapError "list jobs" err)) in
  do? out := enrichJobs out else err => mret (Fail err) in
  mret (Ok (out, total)).

Definition JobRepo_All : M (result (list Job)) :=
  do? out := query (λ db, SliceStable (byText job_Name) (selectWhere (λ _, true) (db_jobs db)))
    else err => mret (Fail (wrapError "list all jobs" err)) in
  enrichJobs out.

(** [DELETE FROM jobs] in a transaction: the state of the job goes with it, its
    artifacts when asked, and nothing when the job does not exist. *)
Definition deleteJob (id : string) (deleteArtifacts : bool) (db : DB) : result (unit * DB) :=
  let db := if deleteArtifacts
            then set_db_artifacts (deleteWhere (λ a, String.eqb (art_JobID a) id) (db_artifacts db)).2 db
            else db in
  let '(n, jobs) := deleteId id (db_jobs db) in
  let? _ := affected n "job" id else err => Fail err in
  Ok (tt, set_db_jobs jobs (set_db_job_state (delete id (db_job_state db)) db)).

Definition JobRepo_Delete (id : string) (deleteArtifacts : bool) : M (result unit) :=
  execWrite (deleteJob id deleteArtifacts).

(** ** Job state *)

Definition freshState (jobID : string) (t : Time) : JobState :=
  mkJobState jobID None None 0 None false None t.

Definition JobStateRepo_Get (jobID : string) : M (result JobState) :=
  do? r := query (λ db, db_job_state db !! jobID) else err => mret (Fail (wrapError "get job state" err)) in
  mret (Ok (default (freshState jobID zeroTime) r)).

Definition JobStateRepo_All : M (result (gmap string JobState)) :=
  do? r := query db_job_state else err => mret (Fail (wrapError "list job state" err)) in
  mret (Ok r).

(** [INSERT ... ON CONFLICT(job_id) DO UPDATE]: [f] sets the columns the
    statement names, on the row of the job or on one with the defaults.  The
    job must exist. *)
Definition upsertState (jobID : string) (t : Time) (f : JobState -> JobState) (db : DB) : result (unit * DB) :=
  if bool_decide (is_Some (db_jobs db !! jobID)) then
    let old := default (freshState jobID t) (db_job_state db !! jobID) in
    Ok (tt, set_db_job_state (<[jobID := f old]> (db_job_state db)) db)
  else Fail foreignKeyError.

(** The new value, or the old one where the new one is null: [COALESCE]. *)
Definition coalesce {A} (v old : option A) : option A := match v with Some _ => v | None => old end.

Definition applyLastRun (summary : RunSummary) (successAt : option Time) (t : Time) (old : JobState) : JobState :=
  {| js_JobID := js_JobID old; js_LastRun := Some summary;
     js_LastSuccessAt := coalesce (nullTime successAt) (js_LastSuccessAt old);
     js_LastDurationMS := sum_DurationMS summary; js_NextRunAt := js_NextRunAt old;
     js_Overdue := js_Overdue old; js_OverdueNotifiedAt := js_OverdueNotifiedAt old; js_UpdatedAt := t |}.

Definition applyNextRun (next : option Time) (t : Time) (old : JobState) : JobState :=
  {| js_JobID := js_JobID old; js_LastRun := js_LastRun old; js_LastSuccessAt := js_LastSuccessAt old;
     js_LastDurationMS := js_LastDurationMS old; js_NextRunAt := nullTime next;
     js_Overdue := js_Overdue old; js_OverdueNotifiedAt := js_OverdueNotifiedAt old; js_UpdatedAt := t |}.

Definition applyOverdue (overdue : bool) (notifiedAt : option Time) (t : Time) (old : JobState) : JobState :=
  {| js_JobID := js_JobID old; js_LastRun := js_LastRun old; js_LastSuccessAt := js_LastSuccessAt old;
     js_LastDurationMS := js_LastDurationMS old; js_NextRunAt := js_NextRunAt old;
     js_Overdue := overdue; js_OverdueNotifiedAt := nullTime notifiedAt; js_UpdatedAt := t |}.

Definition SetLastRun (jobID : string) (summary : RunSummary) (successAt : option Time) : M (result unit) :=
  t ← now;
  do? _ := execWrite (upsertState jobID t (applyLastRun summary successAt t))
    else err => mret (Fail (wrapError "set job last run" err)) in
  mret (Ok tt).

Definition SetNextRun (jobID : string) (next : option Time) : M (result unit) :=
  t ← now;
  do? _ := execWrite (upsertState jobID t (applyNextRun next t))
    else err => mret (Fail (wrapError "set next run" err)) in
  mret (Ok tt).

Definition SetOverdue (jobID : string) (overdue : bool) (notifiedAt : option Time) : M (result unit) :=
  t ← now;
  do? _ := execWrite (upsertState jobID t (applyOverdue overdue notifiedAt t))
    else err => mret (Fail (wrapError "set overdue" err)) in
  mret (Ok tt).
