(* ===== verification/StoreRuns.v ===== *)
(** * Runs and their logs: [internal/store/runs.go], [runlogs.go] *)
From S2P Require Import Prelude GoStrings GoTime Core CoreSetters GoSlices Db StoreCommon StoreJobs.
Open Scope Z_scope.

(** The columns of [runs]: null times read back as no time. *)
Definition runRow (r : Run) : Run :=
  set_run_StartedAt (nullTime (run_StartedAt r)) (set_run_FinishedAt (nullTime (run_FinishedAt r)) r).

Definition RunRepo_Create (run : Run) : M (result Run) :=
  id ← (if bool_decide (run_ID run = "") then NewID else mret (run_ID run));
  t ← (if IsZero (run_QueuedAt run) then now else mret (run_QueuedAt run));
  let run := set_run_QueuedAt t (set_run_ID id run) in
  do? _ := execWrite (λ db,
             let? runs := insertRow "runs.id" id (runRow run) [] (db_runs db) else err => Fail err in
             Ok (tt, set_db_runs runs db))
    else err => mret (Fail (wrapError "create run" err)) in
  mret (Ok run).

Definition RunRepo_Save (run : Run) : M (result unit) :=
  execAffected
    (execWrite (λ db, let '(n, runs) := updateId (run_ID run) (λ _, runRow run) (db_runs db) in
                      Ok (n, set_db_runs runs db)))
    (wrapError "save run") "run" (run_ID run).

Definition RunRepo_Get (id : string) : M (result Run) :=
  do? r := query (λ db, db_runs db !! id) else err => mret (Fail (wrapError "get run" err)) in
  mret (match r with Some run => Ok run | None => Fail (notFound ("run " +:+ id)) end).

Record RunFilter := mkRunFilter {
  rf_JobID : string;
  rf_JobSlug : string;
  rf_Status : string;
  rf_Statuses : list string;
  rf_Kind : string;
  rf_Since : Time;
  rf_Until : Time;
  rf_Page : Page
}.

Definition hasStatus (s : string) (r : Run) : bool := String.eqb (RunStatus_text (run_Status r)) s.

Definition RunFilter_where (f : RunFilter) : whereBuilder Run :=
  let w : whereBuilder Run := [] in
  let w := where_addIf (bool_decide (rf_JobID f ≠ "")) (λ r, String.eqb (run_JobID r) (rf_JobID f)) w in
  let w := where_addIf (bool_decide (rf_JobSlug f ≠ "")) (λ r, String.eqb (run_JobSlug r) (rf_JobSlug f)) w in
  let w := where_addIf (bool_decide (rf_Status f ≠ "")) (hasStatus (rf_Status f)) w in
  let w := where_addIf (bool_decide (rf_Statuses f ≠ [])) (λ r, existsb (λ s, hasStatus s r) (rf_Statuses f)) w in
  let w := where_addIf (bool_decide (rf_Kind f ≠ "")) (λ r, String.eqb (RunKind_text (run_Kind r)) (rf_Kind f)) w in
  let w := where_addTime (λ t r, t <=? run_QueuedAt r) (rf_Since f) w in
  where_addTime (λ t r, run_QueuedAt r <=? t) (rf_Until f) w.

Definition RunRepo_List (f : RunFilter) : M (result (list Run * Z)) :=
  let w := RunFilter_where f in
  do? total := query (λ db, countWhere (where_sql w) (db_runs db))
    else err => mret (Fail (wrapError "count runs" err)) in
  let p := normalized (rf_Page f) in
  do? out := query (λ db, limitOffset (page_Limit p) (page_Offset p)
                            (SliceStable (byTimeDesc run_QueuedAt run_ID) (selectWhere (where_sql w) (db_runs db))))
    else err => mret (Fail (wrapError "list runs" err)) in
  mret (Ok (out, total)).

Definition CountByStatus (status : RunStatus) : M (result Z) :=
  do? n := query (λ db, countWhere (λ r, bool_decide (run_Status r = status)) (db_runs db))
    else err => mret (Fail (wrapError "count runs by status" err)) in
  mret (Ok n).

(** [status IN ('queued', 'running')]. *)
Definition isUnfinished (r : Run) : bool :=
  bool_decide (run_Status r = RunQueued) || bool_decide (run_Status r = RunRunning).

Definition queuedEarlier (a b : Run) : bool := run_QueuedAt a <? run_QueuedAt b.

Definition unfinishedRuns (db : DB) : list Run := SliceStable queuedEarlier (selectWhere isUnfinished (db_runs db)).

Definition Unfinished : M (result (list Run)) :=
  do? out := query unfinishedRuns else err => mret (Fail (wrapError "list unfinished runs" err)) in
  mret (Ok out).

Definition ActiveForJob (jobID : string) : M (result (option Run)) :=
  do? r := query (λ db, head (SliceStable (λ a b, queuedEarlier b a)
                          (selectWhere (λ r, String.eqb (run_JobID r) jobID && isUnfinished r) (db_runs db))))
    else err => mret (Fail (wrapError "find active run" err)) in
  mret (Ok r).

(** The latest end of a successful run of a job: [MAX(finished_at)]. *)
Definition lastSuccess (db : DB) (jobID : string) : option Time :=
  let rows := selectWhere (λ r, bool_decide (run_Status r = RunSuccess) && String.eqb (run_JobID r) jobID) (db_runs db) in
  foldr (λ r acc, match run_FinishedAt r, acc with
                  | Some t, Some u => Some (Z.max t u)
                  | Some t, None => Some t
                  | None, acc => acc
                  end) None rows.

Definition LastSuccessByJob (jobID : string) : M (result (option Time)) :=
  do? t := query (λ db, lastSuccess db jobID) else err => mret (Fail (wrapError "last success by job" err)) in
  mret (Ok (nullTime t)).

(** Finished runs queued before the cutoff go, with their logs. *)
Definition oldRun (cutoff : Time) (r : Run) : bool := (run_QueuedAt r <? cutoff) && negb (isUnfinished r).

Definition deleteOldRuns (cutoff : Time) (db : DB) : result (Z * DB) :=
  let '(n, runs) := deleteWhere (oldRun cutoff) (db_runs db) in
  let logs := filter (λ kv : string * list LogChunk, is_Some (runs !! kv.1)) (db_run_logs db) in
  Ok (n, set_db_run_logs logs (set_db_runs runs db)).

Definition RunRepo_DeleteOlderThan (cutoff : Time) : M (result Z) :=
  do? n := execWrite (deleteOldRuns cutoff) else err => mret (Fail (wrapError "delete old runs" err)) in
  mret (Ok n).

(** ** Logs *)

Definition lastSeq (l : list LogChunk) : Z := foldr (λ c acc, Z.max (chunk_Seq c) acc) 0 l.

(** [MAX(seq) + 1] and the insertion, in one transaction; the run must exist. *)
Definition appendLog (runID text : string) (db : DB) : result (Z * DB) :=
  let old := default [] (db_run_logs db !! runID) in
  let seq := lastSeq old + 1 in
  if bool_decide (is_Some (db_runs db !! runID)) then
    Ok (seq, set_db_run_logs (<[runID := old ++ [mkLogChunk seq text]]> (db_run_logs db)) db)
  else Fail (wrapError "append run log" foreignKeyError).

Definition AppendLog (runID text : string) : M (result Z) := execWrite (appendLog runID text).

Definition bySeq (a b : LogChunk) : bool := chunk_Seq a <? chunk_Seq b.

Definition logChunksAfter (runID : string) (afterSeq : Z) (db : DB) : list LogChunk :=
  SliceStable bySeq (List.filter (λ c, afterSeq <? chunk_Seq c) (default [] (db_run_logs db !! runID))).

Definition LogChunks (runID : string) (afterSeq : Z) : M (result (list LogChunk)) :=
  do? out := query (logChunksAfter runID afterSeq) else err => mret (Fail (wrapError "read run log" err)) in
  mret (Ok out).

Definition chunksText (l : list LogChunk) : string := foldr (λ c acc, chunk_Text c +:+ acc) "" l.

Definition RunRepo_Log (runID : string) : M (result string) :=
  do? chunks := LogChunks runID 0 else err => mret (Fail err) in
  mret (Ok (chunksText chunks)).

(** * Artifacts: [internal/store/artifacts.go] *)

Definition ArtifactStatus_text (s : ArtifactStatus) : string :=
  match s with
  | ArtifactPresent => "present" | ArtifactMissing => "missing"
  | ArtifactPruned => "pruned" | ArtifactDeleted => "deleted"
  end.

Definition artifactRow (a : Artifact) : Artifact :=
  set_art_VerifiedAt (nullTime (art_VerifiedAt a)) (set_art_DeletedAt (nullTime (art_DeletedAt a)) a).

(** A status is always set by the callers: the default of the code for an
    empty one does not arise. *)
Definition ArtifactRepo_Create (a : Artifact) : M (result Artifact) :=
  id ← (if bool_decide (art_ID a = "") then NewID else mret (art_ID a));
  t ← (if IsZero (art_CreatedAt a) then now else mret (art_CreatedAt a));
  let a := set_art_CreatedAt t (set_art_ID id a) in
  do? _ := execWrite (λ db,
             let? arts := insertRow "artifacts.id" id (artifactRow a) [] (db_artifacts db) else err => Fail err in
             Ok (tt, set_db_artifacts arts db))
    else err => mret (Fail (wrapError "create artifact" err)) in
  mret (Ok a).

Definition ArtifactRepo_Get (id : string) : M (result Artifact) :=
  do? r := query (λ db, db_artifacts db !! id) else err => mret (Fail (wrapError "get artifact" err)) in
  mret (match r with Some a => Ok a | None => Fail (notFound ("artifact " +:+ id)) end).

(** The deletion time is kept unless the new status sets one. *)
Definition applyStatus (status : ArtifactStatus) (at_ : Time) (a : Artifact) : Artifact :=
  let deleted :=
    if bool_decide (status = ArtifactDeleted) || bool_decide (status = ArtifactPruned) then Some at_ else None in
  set_art_Status status (set_art_DeletedAt (coalesce deleted (art_DeletedAt a)) a).

Definition SetStatus (id : string) (status : ArtifactStatus) (at_ : Time) : M (result unit) :=
  execAffected
    (execWrite (λ db, let '(n, arts) := updateId id (applyStatus status at_) (db_artifacts db) in
                      Ok (n, set_db_artifacts arts db)))
    (wrapError "set artifact status") "artifact" id.

Definition SetVerified (id : string) (at_ : Time) : M (result unit) :=
  do? _ := execWrite (λ db, Ok (tt, set_db_artifacts (updateId id (set_art_VerifiedAt (Some at_)) (db_artifacts db)).2 db))
    else err => mret (Fail (wrapError "set artifact verified" err)) in
  mret (Ok tt).

Definition ArtifactRepo_Delete (id : string) : M (result unit) :=
  execAffected
    (execWrite (λ db, let '(n, arts) := deleteId id (db_artifacts db) in Ok (n, set_db_artifacts arts db)))
    (wrapError "delete artifact") "artifact" id.

Record ArtifactFilter := mkArtifactFilter {
  af_JobID : string;
  af_JobSlug : string;
  af_DestinationID : string;
  af_Status : string;
  af_RunID : string;
  af_Since : Time;
  af_Until : Time;
  af_Q : string;
  af_Page : Page
}.

Definition ArtifactFilter_where (f : ArtifactFilter) : whereBuilder Artifact :=
  let w : whereBuilder Artifact := [] in
  let w := where_addIf (bool_decide (af_JobID f ≠ "")) (λ a, String.eqb (art_JobID a) (af_JobID f)) w in
  let w := where_addIf (bool_decide (af_JobSlug f ≠ "")) (λ a, String.eqb (art_JobSlug a) (af_JobSlug f)) w in
  let w := where_addIf (bool_decide (af_DestinationID f ≠ "")) (λ a, String.eqb (art_DestinationID a) (af_DestinationID f)) w in
  let w := where_addIf (bool_decide (af_Status f ≠ "")) (λ a, String.eqb (ArtifactStatus_text (art_Status a)) (af_Status f)) w in
  let w := where_addIf (bool_decide (af_RunID f ≠ "")) (λ a, String.eqb (art_RunID a) (af_RunID f)) w in
  let q := TrimSpace (af_Q f) in
  let w := where_addIf (bool_decide (q ≠ "")) (λ a, likeContains q (art_Filename a)) w in
  let w := where_addTime (λ t a, t <=? art_CreatedAt a) (af_Since f) w in
  where_addTime (λ t a, art_CreatedAt a <=? t) (af_Until f) w.

Definition ArtifactRepo_List (f : ArtifactFilter) : M (result (list Artifact * Z)) :=
  let w := ArtifactFilter_where f in
  do? total := query (λ db, countWhere (where_sql w) (db_artifacts db))
    else err => mret (Fail (wrapError "count artifacts" err)) in
  let p := normalized (af_Page f) in
  do? out := query (λ db, limitOffset (page_Limit p) (page_Offset p)
                            (SliceStable (byTimeDesc art_CreatedAt art_ID) (selectWhere (where_sql w) (db_artifacts db))))
    else err => mret (Fail (wrapError "list artifacts" err)) in
  mret (Ok (out, total)).

(** [ORDER BY created_at DESC]. *)
Definition createdLater (a b : Artifact) : bool := art_CreatedAt b <? art_CreatedAt a.

Definition forJobDestination (jobID destinationID : string) (status : ArtifactStatus) (db : DB) : list Artifact :=
  SliceStable createdLater
    (selectWhere (λ a, String.eqb (art_JobID a) jobID && String.eqb (art_DestinationID a) destinationID
                       && bool_decide (art_Status a = status)) (db_artifacts db)).

Definition ForJobDestination (jobID destinationID : string) (status : ArtifactStatus) : M (result (list Artifact)) :=
  do? out := query (forJobDestination jobID destinationID status)
    else err => mret (Fail (wrapError "list job artifacts" err)) in
  mret (Ok out).

Definition ForRun (runID : string) : M (result (list Artifact)) :=
  do? (items, _) := ArtifactRepo_List (mkArtifactFilter "" "" "" "" runID zeroTime zeroTime "" (mkPage MaxLimit 0))
    else err => mret (Fail err) in
  mret (Ok items).

Definition ArtifactRepo_Count : M (result usageRow) :=
  do? u := query (presentUsage (λ _, true)) else err => mret (Fail (wrapError "count artifacts" err)) in
  mret (Ok u).

Record ArtifactStat := mkArtifactStat {
  stat_DestinationID : string;
  stat_Status : ArtifactStatus;
  stat_Count : Z;
  stat_Bytes : Z
}.

(** One group of [GROUP BY destination_id, status]. *)
Definition destinationStat (destinationID : string) (status : ArtifactStatus) (db : DB) : option ArtifactStat :=
  let rows := selectWhere (λ a, String.eqb (art_DestinationID a) destinationID && bool_decide (art_Status a = status))
                (db_artifacts db) in
  if bool_decide (rows = []) then None
  else Some (mkArtifactStat destinationID status (Z.of_nat (length rows)) (foldr Z.add 0 (art_Size <$> rows))).
