(* ===== verification/StoreConfig.v ===== *)
(** * Sources, destinations, hosts and channels: [internal/store/sources.go],
    [destinations.go], [hosts.go], [channels.go] *)
From S2P Require Import Prelude GoStrings GoTime GoSlices Core CoreSetters Db StoreCommon StoreJobs.
Open Scope Z_scope.

(** ** Sources *)

Definition sameSourceName (name : string) (s : Source) : bool := String.eqb (src_Name s) name.

(** The host name and the number of jobs are not columns. *)
Definition sourceRow (s : Source) : Source :=
  set_src_HostName "" (set_src_JobCount 0 (set_src_LastTestAt (nullTime (src_LastTestAt s)) s)).

Definition SourceRepo_Create (src : Source) : M (result Source) :=
  t ← now;
  id ← (if bool_decide (src_ID src = "") then NewID else mret (src_ID src));
  let src := set_src_UpdatedAt t (set_src_CreatedAt t (set_src_ID id src)) in
  do? _ := execWrite (λ db,
             let? srcs := insertRow "sources.id" id (sourceRow src)
                            [("sources.name", sameSourceName (src_Name src))] (db_sources db) else err => Fail err in
             Ok (tt, set_db_sources srcs db))
    else err => mret (Fail (if isUniqueViolation err
                            then conflict ("source name " +:+ Quote (src_Name src) +:+ " already exists")
                            else wrapError "create source" err)) in
  mret (Ok src).

(** [UPDATE sources]: not the creation time, not the test result. *)
Definition applySource (src old : Source) : Source :=
  set_src_CreatedAt (src_CreatedAt old) (set_src_LastTestAt (src_LastTestAt old)
    (set_src_LastTestOK (src_LastTestOK old) (set_src_LastTestError (src_LastTestError old) (sourceRow src)))).

Definition SourceRepo_Update (src : Source) : M (Source * option error) :=
  t ← now;
  let src := set_src_UpdatedAt t src in
  do? n := execWrite (λ db,
             let? (n, srcs) := updateRow (src_ID src) (applySource src)
                                 [("sources.name", sameSourceName (src_Name src))] (db_sources db) else err => Fail err in
             Ok (n, set_db_sources srcs db))
    else err => mret (src, Some (if isUniqueViolation err
                                 then conflict ("source name " +:+ Quote (src_Name src) +:+ " already exists")
                                 else wrapError "update source" err)) in
  mret (src, match affected n "source" (src_ID src) with Ok _ => None | Fail err => Some err end).

Definition SourceRepo_SetTestResult (id : string) (ok : bool) (message : string) (at_ : Time) : M (result unit) :=
  do? _ := execWrite (λ db,
             Ok (tt, set_db_sources
                       (updateId id (λ s, set_src_LastTestAt (Some at_) (set_src_LastTestOK (Some ok)
                                            (set_src_LastTestError message s))) (db_sources db)).2 db))
    else err => mret (Fail (wrapError "store source test result" err)) in
  mret (Ok tt).

(** [LEFT JOIN hosts]. *)
Definition joinHost (db : DB) (s : Source) : Source :=
  set_src_HostName (match db_hosts db !! src_HostID s with Some h => host_Name h | None => "" end) s.

Definition jobCountsBySource (db : DB) (sourceID : string) : Z :=
  countWhere (λ j, String.eqb (job_SourceID j) sourceID) (db_jobs db).

Definition countJobs (db : DB) (s : Source) : Source := set_src_JobCount (jobCountsBySource db (src_ID s)) s.

Definition SourceRepo_Get (id : string) : M (result Source) :=
  do? r := query (λ db, joinHost db <$> db_sources db !! id) else err => mret (Fail (wrapError "get source" err)) in
  match r with
  | None => mret (Fail (notFound ("source " +:+ id)))
  | Some s =>
      do? s := query (λ db, countJobs db s) else err => mret (Fail (wrapError "count jobs by source" err)) in
      mret (Ok s)
  end.

Record SourceFilter := mkSourceFilter { sf_Kind : string; sf_HostID : string; sf_Q : string; sf_Page : Page }.

Definition SourceFilter_where (f : SourceFilter) : whereBuilder Source :=
  let w : whereBuilder Source := [] in
  let w := where_addIf (bool_decide (sf_Kind f ≠ "")) (λ s, String.eqb (src_Kind s) (sf_Kind f)) w in
  let w := where_addIf (bool_decide (sf_HostID f ≠ "")) (λ s, String.eqb (src_HostID s) (sf_HostID f)) w in
  let q := TrimSpace (sf_Q f) in
  where_addIf (bool_decide (q ≠ "")) (λ s, likeContains q (src_Name s) || likeContains q (src_Description s)) w.

Definition SourceRepo_List (f : SourceFilter) : M (result (list Source * Z)) :=
  let w := SourceFilter_where f in
  do? total := query (λ db, countWhere (where_sql w) (db_sources db))
    else err => mret (Fail (wrapError "count sources" err)) in
  let p := normalized (sf_Page f) in
  do? out := query (λ db, joinHost db <$> limitOffset (page_Limit p) (page_Offset p)
                            (SliceStable (byText src_Name) (selectWhere (where_sql w) (db_sources db))))
    else err => mret (Fail (wrapError "list sources" err)) in
  do? out := query (λ db, countJobs db <$> out) else err => mret (Fail (wrapError "count jobs by source" err)) in
  mret (Ok (out, total)).

(** [ON DELETE RESTRICT]: a source that a job uses stays. *)
Definition deleteSource (id : string) (db : DB) : result (Z * DB) :=
  let '(n, srcs) := deleteId id (db_sources db) in
  if (n >? 0) && (jobCountsBySource db id >? 0) then Fail foreignKeyError
  else Ok (n, set_db_sources srcs db).

Definition SourceRepo_Delete (id : string) : M (result unit) :=
  do? n := execWrite (deleteSource id)
    else err => mret (Fail (if isForeignKeyViolation err then conflict ("source " +:+ id +:+ " is used by jobs")
                            else wrapError "delete source" err)) in
  mret (affected n "source" id).

(** ** Destinations *)

Definition sameDestinationName (name : string) (d : Destination) : bool := String.eqb (dst_Name d) name.

Definition destinationRow (d : Destination) : Destination :=
  set_dst_JobCount 0 (set_dst_UsedBytes 0 (set_dst_ArtifactCount 0
    (set_dst_LastTestAt (nullTime (dst_LastTestAt d)) d))).

Definition DestinationRepo_Create (d : Destination) : M (result Destination) :=
  t ← now;
  id ← (if bool_decide (dst_ID d = "") then NewID else mret (dst_ID d));
  let d := set_dst_UpdatedAt t (set_dst_CreatedAt t (set_dst_ID id d)) in
  do? _ := execWrite (λ db,
             let? dsts := insertRow "destinations.id" id (destinationRow d)
                            [("destinations.name", sameDestinationName (dst_Name d))] (db_destinations db)
               else err => Fail err in
             Ok (tt, set_db_destinations dsts db))
    else err => mret (Fail (if isUniqueViolation err
                            then conflict ("destination name " +:+ Quote (dst_Name d) +:+ " already exists")
                            else wrapError "create destination" err)) in
  mret (Ok d).

Definition applyDestination (d old : Destination) : Destination :=
  set_dst_CreatedAt (dst_CreatedAt old) (set_dst_LastTestAt (dst_LastTestAt old)
    (set_dst_LastTestOK (dst_LastTestOK old) (set_dst_LastTestError (dst_LastTestError old) (destinationRow d)))).

Definition DestinationRepo_Update (d : Destination) : M (Destination * option error) :=
  t ← now;
  let d := set_dst_UpdatedAt t d in
  do? n := execWrite (λ db,
             let? (n, dsts) := updateRow (dst_ID d) (applyDestination d)
                                 [("destinations.name", sameDestinationName (dst_Name d))] (db_destinations db)
               else err => Fail err in
             Ok (n, set_db_destinations dsts db))
    else err => mret (d, Some (if isUniqueViolation err
                               then conflict ("destination name " +:+ Quote (dst_Name d) +:+ " already exists")
                               else wrapError "update destination" err)) in
  match affected n "destination" (dst_ID d) with
  | Fail err => mret (d, Some err)
  | Ok _ =>
      do? _ := execWrite (λ db,
                 Ok (tt, set_db_artifacts
                           (updateWhere (λ a, String.eqb (art_DestinationID a) (dst_ID d))
                              (λ a, set_art_DestinationName (dst_Name d) (set_art_DestinationKind (dst_Kind d) a))
                              (db_artifacts db)) db))
        else err => mret (d, Some (wrapError "refresh artifact destination labels" err)) in
      mret (d, None)
  end.

Definition DestinationRepo_SetTestResult (id : string) (ok : bool) (message : string) (at_ : Time) : M (result unit) :=
  do? _ := execWrite (λ db,
             Ok (tt, set_db_destinations
                       (updateId id (λ d, set_dst_LastTestAt (Some at_) (set_dst_LastTestOK (Some ok)
                                            (set_dst_LastTestError message d))) (db_destinations db)).2 db))
    else err => mret (Fail (wrapError "store destination test result" err)) in
  mret (Ok tt).

Definition destinationUsage (db : DB) (id : string) : usageRow :=
  presentUsage (λ a, String.eqb (art_DestinationID a) id) db.

(** One per listing: a job that lists a destination twice counts twice. *)
Definition jobCountsByDestination (db : DB) (id : string) : Z :=
  Z.of_nat (length (List.filter (String.eqb id) (concat (job_DestinationIDs <$> selectWhere (λ _, true) (db_jobs db))))).

Definition withUsage (db : DB) (d : Destination) : Destination :=
  let u := destinationUsage db (dst_ID d) in
  set_dst_UsedBytes (use_Bytes u) (set_dst_ArtifactCount (use_Artifacts u)
    (set_dst_JobCount (jobCountsByDestination db (dst_ID d)) d)).

Definition DestinationRepo_Get (id : string) : M (result Destination) :=
  do? r := query (λ db, db_destinations db !! id) else err => mret (Fail (wrapError "get destination" err)) in
  match r with
  | None => mret (Fail (notFound ("destination " +:+ id)))
  | Some d =>
      do? _ := query (λ db, destinationUsage db id) else err => mret (Fail (wrapError "destination usage" err)) in
      do? d := query (λ db, withUsage db d) else err => mret (Fail (wrapError "count jobs by destination" err)) in
      mret (Ok d)
  end.

Record DestinationFilter := mkDestinationFilter { df_Kind : string; df_Q : string; df_Page : Page }.

Definition DestinationFilter_where (f : DestinationFilter) : whereBuilder Destination :=
  let w : whereBuilder Destination := [] in
  let w := where_addIf (bool_decide (df_Kind f ≠ "")) (λ d, String.eqb (dst_Kind d) (df_Kind f)) w in
  let q := TrimSpace (df_Q f) in
  where_addIf (bool_decide (q ≠ "")) (λ d, likeContains q (dst_Name d) || likeContains q (dst_Description d)) w.

Definition DestinationRepo_List (f : DestinationFilter) : M (result (list Destination * Z)) :=
  let w := DestinationFilter_where f in
  do? total := query (λ db, countWhere (where_sql w) (db_destinations db))
    else err => mret (Fail (wrapError "count destinations" err)) in
  let p := normalized (df_Page f) in
  do? out := query (λ db, limitOffset (page_Limit p) (page_Offset p)
                            (SliceStable (byText dst_Name) (selectWhere (where_sql w) (db_destinations db))))
    else err => mret (Fail (wrapError "list destinations" err)) in
  do? _ := query (λ _, tt) else err => mret (Fail (wrapError "destination usage" err)) in
  do? out := query (λ db, withUsage db <$> out) else err => mret (Fail (wrapError "count jobs by destination" err)) in
  mret (Ok (out, total)).

Definition DestinationRepo_Delete (id : string) : M (result unit) :=
  execAffected
    (execWrite (λ db, let '(n, dsts) := deleteId id (db_destinations db) in Ok (n, set_db_destinations dsts db)))
    (wrapError "delete destination") "destination" id.

(** ** Hosts *)

Definition sameHostName (name : string) (h : Host) : bool := String.eqb (host_Name h) name.

Definition normalizeHost (h : Host) : Host :=
  set_host_Name (TrimSpace (host_Name h)) (set_host_Address (TrimSpace (host_Address h))
    (set_host_User (TrimSpace (host_User h)) (set_host_HostKey (TrimSpace (host_HostKey h))
      (set_host_Auth (if bool_decide (host_Auth h = "") then HostAuthKey else host_Auth h) h)))).

Definition hostRow (h : Host) : Host :=
  set_host_SourceCount 0 (set_host_LastTestAt (nullTime (host_LastTestAt h)) h).

Definition HostRepo_Create (h : Host) : M (result Host) :=
  t ← now;
  let h := normalizeHost h in
  id ← (if bool_decide (host_ID h = "") then NewID else mret (host_ID h));
  let h := set_host_UpdatedAt t (set_host_CreatedAt t (set_host_ID id h)) in
  do? _ := execWrite (λ db,
             let? hosts := insertRow "hosts.id" id (hostRow h)
                             [("hosts.name", sameHostName (host_Name h))] (db_hosts db) else err => Fail err in
             Ok (tt, set_db_hosts hosts db))
    else err => mret (Fail (if isUniqueViolation err
                            then conflict ("host name " +:+ Quote (host_Name h) +:+ " already exists")
                            else wrapError "create host" err)) in
  mret (Ok h).

(** [UPDATE hosts]: not the creation time, not what the last test saw. *)
Definition applyHost (h old : Host) : Host :=
  set_host_CreatedAt (host_CreatedAt old) (set_host_LastTestAt (host_LastTestAt old)
    (set_host_LastTestOK (host_LastTestOK old) (set_host_LastTestError (host_LastTestError old)
      (set_host_LastSeenOS (host_LastSeenOS old) (set_host_Tools (host_Tools old) (hostRow h)))))).

Definition HostRepo_Update (h : Host) : M (Host * option error) :=
  let h := normalizeHost h in
  t ← now;
  let h := set_host_UpdatedAt t h in
  do? n := execWrite (λ db,
             let? (n, hosts) := updateRow (host_ID h) (applyHost h)
                                  [("hosts.name", sameHostName (host_Name h))] (db_hosts db) else err => Fail err in
             Ok (n, set_db_hosts hosts db))
    else err => mret (h, Some (if isUniqueViolation err
                               then conflict ("host name " +:+ Quote (host_Name h) +:+ " already exists")
                               else wrapError "update host" err)) in
  mret (h, match affected n "host" (host_ID h) with Ok _ => None | Fail err => Some err end).

Definition sourceCountsByHost (db : DB) (hostID : string) : Z :=
  if bool_decide (hostID = "") then 0
  else countWhere (λ s, String.eqb (src_HostID s) hostID) (db_sources db).

Definition countSources (db : DB) (h : Host) : Host := set_host_SourceCount (sourceCountsByHost db (host_ID h)) h.

Definition HostRepo_Get (id : string) : M (result Host) :=
  do? r := query (λ db, db_hosts db !! id) else err => mret (Fail (wrapError "get host" err)) in
  match r with
  | None => mret (Fail (notFound ("host " +:+ id)))
  | Some h =>
      do? h := query (λ db, countSources db h) else err => mret (Fail (wrapError "count sources by host" err)) in
      mret (Ok h)
  end.

Definition HostRepo_GetByName (name : string) : M (result Host) :=
  do? r := query (λ db, head (selectWhere (sameHostName (TrimSpace name)) (db_hosts db)))
    else err => mret (Fail (wrapError "get host by name" err)) in
  match r with
  | None => mret (Fail (notFound ("host " +:+ name)))
  | Some h =>
      do? h := query (λ db, countSources db h) else err => mret (Fail (wrapError "count sources by host" err)) in
      mret (Ok h)
  end.

Record HostFilter := mkHostFilter { hf_Q : string; hf_Tag : string; hf_Page : Page }.

Definition HostFilter_where (f : HostFilter) : whereBuilder Host :=
  let w : whereBuilder Host := [] in
  let q := TrimSpace (hf_Q f) in
  let w := where_addIf (bool_decide (q ≠ ""))
             (λ h, likeContains q (host_Name h) || likeContains q (host_Description h) || likeContains q (host_Address h)) w in
  let tag := TrimSpace (hf_Tag f) in
  where_addIf (bool_decide (tag ≠ "")) (λ h, jsonHas tag (host_Tags h)) w.

Definition HostRepo_List (f : HostFilter) : M (result (list Host * Z)) :=
  let w := HostFilter_where f in
  do? total := query (λ db, countWhere (where_sql w) (db_hosts db))
    else err => mret (Fail (wrapError "count hosts" err)) in
  let p := normalized (hf_Page f) in
  do? out := query (λ db, limitOffset (page_Limit p) (page_Offset p)
                            (SliceStable (byText host_Name) (selectWhere (where_sql w) (db_hosts db))))
    else err => mret (Fail (wrapError "list hosts" err)) in
  do? out := query (λ db, countSources db <$> out) else err => mret (Fail (wrapError "count sources by host" err)) in
  mret (Ok (out, total)).

(** The check and the deletion are two statements. *)
Definition HostRepo_Delete (id : string) : M (result unit) :=
  do? n := query (λ db, sourceCountsByHost db id) else err => mret (Fail (wrapError "count sources by host" err)) in
  if n >? 0 then mret (Fail (conflict ("host " +:+ id +:+ " is used by sources")))
  else
    execAffected
      (execWrite (λ db, let '(n, hosts) := deleteId id (db_hosts db) in Ok (n, set_db_hosts hosts db)))
      (wrapError "delete host") "host" id.

Definition HostRepo_SetTestResult (id : string) (ok : bool) (message os : string) (tools : list string) : M (result unit) :=
  t ← now;
  execAffected
    (execWrite (λ db,
       let '(n, hosts) := updateId id (λ h, set_host_LastTestAt (Some t) (set_host_LastTestOK (Some ok)
                            (set_host_LastTestError message (set_host_LastSeenOS os (set_host_Tools tools h)))))
                            (db_hosts db) in
       Ok (n, set_db_hosts hosts db)))
    (wrapError "store host test result") "host" id.

(** ** Notification channels *)

Definition sameChannelName (name : string) (c : NotificationChannel) : bool := String.eqb (chan_Name c) name.

Definition channelRow (c : NotificationChannel) : NotificationChannel :=
  set_chan_LastSentAt (nullTime (chan_LastSentAt c)) c.

Definition ChannelRepo_Create (c : NotificationChannel) : M (result NotificationChannel) :=
  t ← now;
  id ← (if bool_decide (chan_ID c = "") then NewID else mret (chan_ID c));
  let c := set_chan_UpdatedAt t (set_chan_CreatedAt t (set_chan_ID id c)) in
  do? _ := execWrite (λ db,
             let? chans := insertRow "notification_channels.id" id (channelRow c)
                             [("notification_channels.name", sameChannelName (chan_Name c))] (db_channels db)
               else err => Fail err in
             Ok (tt, set_db_channels chans db))
    else err => mret (Fail (if isUniqueViolation err
                            then conflict ("channel name " +:+ Quote (chan_Name c) +:+ " already exists")
                            else wrapError "create channel" err)) in
  mret (Ok c).

Definition applyChannel (c old : NotificationChannel) : NotificationChannel :=
  set_chan_CreatedAt (chan_CreatedAt old) (set_chan_LastSentAt (chan_LastSentAt old)
    (set_chan_LastError (chan_LastError old) c)).

Definition ChannelRepo_Update (c : NotificationChannel) : M (NotificationChannel * option error) :=
  t ← now;
  let c := set_chan_UpdatedAt t c in
  do? n := execWrite (λ db,
             let? (n, chans) := updateRow (chan_ID c) (applyChannel c)
                                  [("notification_channels.name", sameChannelName (chan_Name c))] (db_channels db)
               else err => Fail err in
             Ok (n, set_db_channels chans db))
    else err => mret (c, Some (if isUniqueViolation err
                               then conflict ("channel name " +:+ Quote (chan_Name c) +:+ " already exists")
                               else wrapError "update channel" err)) in
  mret (c, match affected n "channel" (chan_ID c) with Ok _ => None | Fail err => Some err end).

Definition SetSendResult (id : string) (at_ : Time) (sendErr : string) : M (result unit) :=
  do? _ := execWrite (λ db,
             Ok (tt, set_db_channels
                       (updateId id (λ c, set_chan_LastSentAt (Some at_) (set_chan_LastError sendErr c)) (db_channels db)).2 db))
    else err => mret (Fail (wrapError "store channel send result" err)) in
  mret (Ok tt).

Definition ChannelRepo_Get (id : string) : M (result NotificationChannel) :=
  do? r := query (λ db, db_channels db !! id) else err => mret (Fail (wrapError "get channel" err)) in
  mret (match r with Some c => Ok c | None => Fail (notFound ("channel " +:+ id)) end).

Definition ChannelRepo_List : M (result (list NotificationChannel)) :=
  do? out := query (λ db, SliceStable (byText chan_Name) (selectWhere (λ _, true) (db_channels db)))
    else err => mret (Fail (wrapError "list channels" err)) in
  mret (Ok out).

Definition ChannelRepo_Delete (id : string) : M (result unit) :=
  execAffected
    (execWrite (λ db, let '(n, chans) := deleteId id (db_channels db) in Ok (n, set_db_channels chans db)))
    (wrapError "delete channel") "channel" id.
