(* ===== verification/StoreAdmin.v ===== *)
(** * Accounts, settings, audit and housekeeping: [internal/store/users.go],
    [sessions.go], [tokens.go], [settings.go], [audit.go], [cleanup.go] *)
From S2P Require Import Prelude GoStrings GoTime GoSlices Core CoreSetters Db StoreCommon StoreRuns.
Open Scope Z_scope.

(** ** Users *)

Definition normalizeEmail (email : string) : string := ToLower (TrimSpace email).

Definition sameEmail (email : string) (r : UserRecord) : bool := String.eqb (user_Email (rec_User r)) email.

Definition UserRepo_Count : M (result Z) :=
  do? n := query (λ db, countWhere (λ _, true) (db_users db)) else err => mret (Fail (wrapError "count users" err)) in
  mret (Ok n).

Definition CountAdmins : M (result Z) :=
  do? n := query (λ db, countWhere (λ r, String.eqb (user_Role (rec_User r)) RoleAdmin) (db_users db))
    else err => mret (Fail (wrapError "count admins" err)) in
  mret (Ok n).

Definition insertUser (u : User) (passwordHash : string) (db : DB) : result (unit * DB) :=
  let row := mkUserRecord (set_user_LastLoginAt (nullTime (user_LastLoginAt u)) u) passwordHash in
  let? users := insertRow "users.id" (user_ID u) row [("users.email", sameEmail (user_Email u))] (db_users db)
    else err => Fail err in
  Ok (tt, set_db_users users db).

Definition UserRepo_Create (u : User) (passwordHash : string) : M (result User) :=
  id ← (if bool_decide (user_ID u = "") then NewID else mret (user_ID u));
  t ← (if IsZero (user_CreatedAt u) then now else mret (user_CreatedAt u));
  let u := set_user_Email (normalizeEmail (user_Email u)) (set_user_CreatedAt t (set_user_ID id u)) in
  do? _ := execWrite (insertUser u passwordHash)
    else err => mret (Fail (if isUniqueViolation err then conflict ("user " +:+ user_Email u)
                            else wrapError "create user" err)) in
  mret (Ok u).

Definition UserRepo_Get (id : string) : M (result UserRecord) :=
  do? r := query (λ db, db_users db !! id) else err => mret (Fail (wrapError "get user" err)) in
  mret (match r with Some u => Ok u | None => Fail (notFound ("user " +:+ id)) end).

Definition GetByEmail (email : string) : M (result UserRecord) :=
  do? r := query (λ db, head (selectWhere (sameEmail (normalizeEmail email)) (db_users db)))
    else err => mret (Fail (wrapError "get user by email" err)) in
  mret (match r with Some u => Ok u | None => Fail (notFound ("user " +:+ email)) end).

Definition UserRepo_List : M (result (list User)) :=
  do? out := query (λ db, SliceStable (byText user_Email) (rec_User <$> selectWhere (λ _, true) (db_users db)))
    else err => mret (Fail (wrapError "list users" err)) in
  mret (Ok out).

(** Email, name and role. *)
Definition applyUser (u : User) (old : UserRecord) : UserRecord :=
  let o := rec_User old in
  mkUserRecord (mkUser (user_ID o) (normalizeEmail (user_Email u)) (user_Name u) (user_Role u)
                  (user_CreatedAt o) (user_LastLoginAt o))
    (rec_PasswordHash old).

Definition UserRepo_Update (u : User) : M (result unit) :=
  do? n := execWrite (λ db,
             let? (n, users) := updateRow (user_ID u) (applyUser u)
                                  [("users.email", sameEmail (normalizeEmail (user_Email u)))] (db_users db)
               else err => Fail err in
             Ok (n, set_db_users users db))
    else err => mret (Fail (if isUniqueViolation err then conflict ("user " +:+ user_Email u)
                            else wrapError "update user" err)) in
  mret (affected n "user" (user_ID u)).

Definition UserRepo_SetPassword (id hash : string) : M (result unit) :=
  execAffected
    (execWrite (λ db, let '(n, users) := updateId id (λ r, mkUserRecord (rec_User r) hash) (db_users db) in
                      Ok (n, set_db_users users db)))
    (wrapError "set password") "user" id.

Definition TouchLogin (id : string) (at_ : Time) : M (result unit) :=
  do? _ := execWrite (λ db,
             Ok (tt, set_db_users
                       (updateId id (λ r, mkUserRecord (set_user_LastLoginAt (Some at_) (rec_User r)) (rec_PasswordHash r))
                          (db_users db)).2 db))
    else err => mret (Fail (wrapError "touch login" err)) in
  mret (Ok tt).

(** [ON DELETE CASCADE]: the sessions of the user go too. *)
Definition deleteUser (id : string) (db : DB) : result (Z * DB) :=
  let '(n, users) := deleteId id (db_users db) in
  Ok (n, set_db_users users
           (set_db_sessions (if n =? 0 then db_sessions db
                             else (deleteWhere (λ s, String.eqb (sess_UserID s) id) (db_sessions db)).2) db)).

Definition UserRepo_Delete (id : string) : M (result unit) :=
  execAffected (execWrite (deleteUser id)) (wrapError "delete user") "user" id.

(** ** Sessions *)

Definition SessionRepo_Create (s : Session) : M (result unit) :=
  do? _ := execWrite (λ db,
             let? t := insertRow "sessions.id" (sess_ID s) s [] (db_sessions db) else err => Fail err in
             if bool_decide (is_Some (db_users db !! sess_UserID s)) then Ok (tt, set_db_sessions t db)
             else Fail foreignKeyError)
    else err => mret (Fail (wrapError "create session" err)) in
  mret (Ok tt).

Definition SessionRepo_Get (id : string) : M (result Session) :=
  do? r := query (λ db, db_sessions db !! id) else err => mret (Fail (wrapError "get session" err)) in
  mret (match r with Some s => Ok s | None => Fail (notFound "session") end).

Definition SessionRepo_Touch (id : string) (seen expires : Time) : M (result unit) :=
  do? _ := execWrite (λ db,
             Ok (tt, set_db_sessions
                       (updateId id (λ s, mkSession (sess_ID s) (sess_UserID s) (sess_CreatedAt s) expires seen
                                            (sess_IP s) (sess_UserAgent s)) (db_sessions db)).2 db))
    else err => mret (Fail (wrapError "touch session" err)) in
  mret (Ok tt).

Definition SessionRepo_Delete (id : string) : M (result unit) :=
  do? _ := execWrite (λ db, Ok (tt, set_db_sessions (delete id (db_sessions db)) db))
    else err => mret (Fail (wrapError "delete session" err)) in
  mret (Ok tt).

Definition DeleteForUser (userID : string) : M (result unit) :=
  do? _ := execWrite (λ db,
             Ok (tt, set_db_sessions (deleteWhere (λ s, String.eqb (sess_UserID s) userID) (db_sessions db)).2 db))
    else err => mret (Fail (wrapError "delete user sessions" err)) in
  mret (Ok tt).

Definition DeleteExpired (t : Time) : M (result Z) :=
  do? n := execWrite (λ db,
             let '(n, s) := deleteWhere (λ s, sess_ExpiresAt s <? t) (db_sessions db) in Ok (n, set_db_sessions s db))
    else err => mret (Fail (wrapError "delete expired sessions" err)) in
  mret (Ok n).

(** ** Tokens: each with the hash of its secret *)

Definition sameHash (hash : string) (t : APIToken * string) : bool := String.eqb t.2 hash.

Definition TokenRepo_Create (tok : APIToken) (hash : string) : M (result APIToken) :=
  id ← (if bool_decide (tok_ID tok = "") then NewID else mret (tok_ID tok));
  t ← (if IsZero (tok_CreatedAt tok) then now else mret (tok_CreatedAt tok));
  let tok := set_tok_CreatedAt t (set_tok_ID id tok) in
  do? _ := execWrite (λ db,
             let? toks := insertRow "api_tokens.id" id (tok, hash) [("api_tokens.hash", sameHash hash)] (db_tokens db)
               else err => Fail err in
             Ok (tt, set_db_tokens toks db))
    else err => mret (Fail (wrapError "create token" err)) in
  mret (Ok tok).

Definition GetByHash (hash : string) : M (result APIToken) :=
  do? r := query (λ db, head (selectWhere (sameHash hash) (db_tokens db)))
    else err => mret (Fail (wrapError "get token" err)) in
  mret (match r with Some t => Ok t.1 | None => Fail (notFound "token") end).

Definition TokenRepo_List : M (result (list APIToken)) :=
  do? out := query (λ db, SliceStable (λ a b, tok_CreatedAt b <? tok_CreatedAt a)
                            (fst <$> selectWhere (λ _, true) (db_tokens db)))
    else err => mret (Fail (wrapError "list tokens" err)) in
  mret (Ok out).

Definition TokenRepo_Get (id : string) : M (result APIToken) :=
  do? r := query (λ db, db_tokens db !! id) else err => mret (Fail (wrapError "get token" err)) in
  mret (match r with Some t => Ok t.1 | None => Fail (notFound ("token " +:+ id)) end).

Definition TouchUsed (id : string) (at_ : Time) : M (result unit) :=
  do? _ := execWrite (λ db,
             Ok (tt, set_db_tokens (updateId id (λ t, (set_tok_LastUsedAt (Some at_) t.1, t.2)) (db_tokens db)).2 db))
    else err => mret (Fail (wrapError "touch token" err)) in
  mret (Ok tt).

Definition TokenRepo_Delete (id : string) : M (result unit) :=
  execAffected
    (execWrite (λ db, let '(n, toks) := deleteId id (db_tokens db) in Ok (n, set_db_tokens toks db)))
    (wrapError "delete token") "token" id.

(** ** Settings *)

Definition DefaultSettings : Settings := {|
  SiteName := "Backvault";
  BaseURL := "";
  DefaultTimezone := "UTC";
  MaxConcurrentRuns := 2;
  DefaultRetention := mkRetention 7 0 7 4 6 0 0;
  RunHistoryDays := 90;
  AuditHistoryDays := 365;
  OverdueCheckMinutes := 15;
  DefaultNotifyOn := [EventRunFailed; EventRunWarning; EventJobOverdue]
|}.

Definition normalizeSettings (s : Settings) : Settings := {|
  SiteName := if bool_decide (SiteName s = "") then "Backvault" else SiteName s;
  BaseURL := BaseURL s;
  DefaultTimezone := if bool_decide (DefaultTimezone s = "") then "UTC" else DefaultTimezone s;
  MaxConcurrentRuns := if MaxConcurrentRuns s <=? 0 then 2 else MaxConcurrentRuns s;
  DefaultRetention := DefaultRetention s;
  RunHistoryDays := if RunHistoryDays s <? 0 then 0 else RunHistoryDays s;
  AuditHistoryDays := if AuditHistoryDays s <? 0 then 0 else AuditHistoryDays s;
  OverdueCheckMinutes := if OverdueCheckMinutes s <=? 0 then 15 else OverdueCheckMinutes s;
  DefaultNotifyOn := DefaultNotifyOn s
|}.

(** On failure the caller still gets usable settings. *)
Definition SettingsRepo_Get : M (Settings * option error) :=
  do? raw := query db_settings else err => mret (DefaultSettings, Some (wrapError "get settings" err)) in
  mret (match raw with
        | None => (DefaultSettings, None)
        | Some s => (normalizeSettings s, None)
        end).

Definition SettingsRepo_Save (s : Settings) : M (Settings * option error) :=
  let s := normalizeSettings s in
  _ ← now;
  do? _ := execWrite (λ db, Ok (tt, set_db_settings (Some s) db))
    else err => mret (s, Some (wrapError "save settings" err)) in
  mret (s, None).

(** ** Audit *)

Definition AuditRepo_Record (e : AuditEntry) : M (result unit) :=
  id ← (if bool_decide (audit_ID e = "") then NewID else mret (audit_ID e));
  t ← (if IsZero (audit_Time e) then now else mret (audit_Time e));
  let e := set_audit_Time t (set_audit_ID id e) in
  do? _ := execWrite (λ db,
             let? rows := insertRow "audit_log.id" id e [] (db_audit db) else err => Fail err in
             Ok (tt, set_db_audit rows db))
    else err => mret (Fail (wrapError "record audit entry" err)) in
  mret (Ok tt).

Record AuditFilter := mkAuditFilter {
  auf_Actor : string; auf_Action : string; auf_ObjectType : string; auf_Since : Time; auf_Page : Page
}.

Definition AuditFilter_where (f : AuditFilter) : whereBuilder AuditEntry :=
  let w : whereBuilder AuditEntry := [] in
  let w := where_addIf (bool_decide (auf_Actor f ≠ ""))
             (λ e, String.eqb (audit_ActorID e) (auf_Actor f) || likeContains (auf_Actor f) (audit_ActorLabel e)) w in
  let w := where_addIf (bool_decide (auf_Action f ≠ "")) (λ e, String.eqb (audit_Action e) (auf_Action f)) w in
  let w := where_addIf (bool_decide (auf_ObjectType f ≠ "")) (λ e, String.eqb (audit_ObjectType e) (auf_ObjectType f)) w in
  where_addTime (λ t e, t <=? audit_Time e) (auf_Since f) w.

Definition AuditRepo_List (f : AuditFilter) : M (result (list AuditEntry * Z)) :=
  let w := AuditFilter_where f in
  do? total := query (λ db, countWhere (where_sql w) (db_audit db))
    else err => mret (Fail (wrapError "count audit entries" err)) in
  let p := normalized (auf_Page f) in
  do? out := query (λ db, limitOffset (page_Limit p) (page_Offset p)
                            (SliceStable (byTimeDesc audit_Time audit_ID) (selectWhere (where_sql w) (db_audit db))))
    else err => mret (Fail (wrapError "list audit entries" err)) in
  mret (Ok (out, total)).

Definition AuditRepo_DeleteOlderThan (cutoff : Time) : M (result Z) :=
  do? n := execWrite (λ db,
             let '(n, rows) := deleteWhere (λ e, audit_Time e <? cutoff) (db_audit db) in Ok (n, set_db_audit rows db))
    else err => mret (Fail (wrapError "delete old audit entries" err)) in
  mret (Ok n).

(** ** Housekeeping *)

Record CleanupResult := mkCleanupResult { clean_Runs : Z; clean_Audit : Z; clean_Sessions : Z }.

(** Each step runs only if the one before it did not fail; a history of zero
    days keeps everything. *)
Definition Cleanup (settings : Settings) (t : Time) : M (CleanupResult * option error) :=
  do? runs := (if RunHistoryDays settings >? 0
               then RunRepo_DeleteOlderThan (AddDays t (- RunHistoryDays settings)) else mret (Ok 0))
    else err => mret (mkCleanupResult 0 0 0, Some err) in
  do? audit := (if AuditHistoryDays settings >? 0
                then AuditRepo_DeleteOlderThan (AddDays t (- AuditHistoryDays settings)) else mret (Ok 0))
    else err => mret (mkCleanupResult runs 0 0, Some err) in
  do? sessions := DeleteExpired t else err => mret (mkCleanupResult runs audit 0, Some err) in
  mret (mkCleanupResult runs audit sessions, None).
