(* ===== verification/StoreIntegrity.v ===== *)
(** * The integrity of the database

    The constraints of the schema ([internal/store/migrations]) and the shapes
    the repositories rely on, as one invariant; every operation of the store
    that writes keeps it, whatever the database engine answers. *)
From S2P Require Import Prelude GoStrings GoTime GoSlices Core CoreSetters Db StoreCommon StoreJobs StoreRuns StoreConfig StoreAdmin.
Open Scope Z_scope.

(** ** Tables *)

Section table.
  Context {A : Type} (key col : A -> string).
  Implicit Types (t : gmap string A) (i : string).

(** Rows are under their primary keys. *)
Definition keyed t : Prop := map_Forall (λ i a, key a = i) t.

(** Rows under different keys differ in the column. *)
Definition unique t : Prop := ∀ i j a b, t !! i = Some a -> t !! j = Some b -> col a = col b -> i = j.

Definition table t : Prop := keyed t ∧ unique t.

Lemma keyed_insert t i a : keyed t -> key a = i -> keyed (<[i := a]> t).
Proof. intros H Ha. by apply map_Forall_insert_2. Qed.

Lemma keyed_sub t t' : t' ⊆ t -> keyed t -> keyed t'.
Proof. intros Hs H i a Hi. apply H. by apply (lookup_weaken t' t). Qed.

Lemma unique_sub t t' : t' ⊆ t -> unique t -> unique t'.
Proof. intros Hs H i j a b Hi Hj. apply H; by apply (lookup_weaken t' t). Qed.

Lemma table_sub t t' : t' ⊆ t -> table t -> table t'.
Proof. intros Hs [H1 H2]. split; [by apply (keyed_sub t)|by apply (unique_sub t)]. Qed.

Lemma unique_insert t i a :
  unique t -> (∀ j b, j ≠ i -> t !! j = Some b -> col b ≠ col a) -> unique (<[i := a]> t).
Proof.
  intros H Ha j k b c Hj Hk E. destruct (decide (j = i)) as [->|Hj']; destruct (decide (k = i)) as [->|Hk']; [done|..].
  - rewrite lookup_insert_eq in Hj. rewrite lookup_insert_ne in Hk by done. injection Hj as <-. by destruct (Ha k c).
  - rewrite lookup_insert_eq in Hk. rewrite lookup_insert_ne in Hj by done. injection Hk as <-. by destruct (Ha j b).
  - rewrite lookup_insert_ne in Hj, Hk by done. by apply (H j k b c).
Qed.

Lemma otherRow_false i p t : otherRow i p t = false -> ∀ j b, j ≠ i -> t !! j = Some b -> p b = false.
Proof.
  unfold otherRow. intros H j b Hj Hb. destruct (p b) eqn:E; [|done]. exfalso.
  assert (Ht : existsb (λ kv : string * A, negb (String.eqb kv.1 i) && p kv.2) (map_to_list t) = true); [|congruence].
  apply existsb_exists. exists (j, b). split; [by apply list_elem_of_In, elem_of_map_to_list|]. simpl.
  rewrite E, andb_true_r. by apply negb_true_iff, String.eqb_neq.
Qed.

Lemma insertRow_keyed c i a us t t' :
  insertRow c i a us t = Ok t' -> key a = i -> keyed t -> keyed t'.
Proof.
  unfold insertRow. destruct (t !! i); [done|]. destruct (List.find _ us); [done|]. intros [= <-] Ha Ht.
  by apply keyed_insert.
Qed.

Lemma insertRow_table c i a u p t t' :
  insertRow c i a [(u, p)] t = Ok t' -> key a = i -> (∀ b, p b = String.eqb (col b) (col a)) -> table t -> table t'.
Proof.
  intros E Ha Hp [Hk Hu]. split; [by eapply insertRow_keyed|]. revert E. unfold insertRow. destruct (t !! i); [done|].
  cbn [List.find snd]. destruct (otherRow i p t) eqn:O; [done|]. intros [= <-]. apply unique_insert; [done|].
  intros j b Hj Hb Eq. pose proof (otherRow_false i p t O j b Hj Hb) as H. rewrite Hp, Eq, String.eqb_refl in H. done.
Qed.

Lemma insertRow_sub c i a us t t' : insertRow c i a us t = Ok t' -> ∀ j, is_Some (t !! j) -> is_Some (t' !! j).
Proof.
  unfold insertRow. destruct (t !! i); [done|]. destruct (List.find _ us); [done|]. intros [= <-] j Hj.
  destruct (decide (j = i)) as [->|]; [by rewrite lookup_insert_eq|by rewrite lookup_insert_ne].
Qed.

Lemma updateId_dom i f t j : is_Some ((updateId i f t).2 !! j) <-> is_Some (t !! j).
Proof.
  unfold updateId. destruct (t !! i) eqn:E; [|done]. simpl.
  destruct (decide (j = i)) as [->|]; [rewrite lookup_insert_eq, E; by split|by rewrite lookup_insert_ne].
Qed.

Lemma updateId_keyed i f t : (∀ a, key a = i -> key (f a) = i) -> keyed t -> keyed (updateId i f t).2.
Proof.
  intros Hf Ht. unfold updateId. destruct (t !! i) as [a|] eqn:E; [|done]. apply keyed_insert; [done|].
  apply Hf. by apply (Ht i).
Qed.

Lemma updateId_table i f t :
  (∀ a, key a = i -> key (f a) = i) -> (∀ a, col (f a) = col a) -> table t -> table (updateId i f t).2.
Proof.
  intros Hf Hc [Hk Hu]. split; [by apply updateId_keyed|]. unfold updateId. destruct (t !! i) as [a|] eqn:E; [|done].
  apply unique_insert; [done|]. intros j b Hj Hb Eq. rewrite Hc in Eq. apply Hj. by apply (Hu j i b a).
Qed.

Lemma updateRow_dom i f us t n t' : updateRow i f us t = Ok (n, t') -> ∀ j, is_Some (t' !! j) <-> is_Some (t !! j).
Proof.
  unfold updateRow. destruct (t !! i) eqn:E; [|by intros [= <- <-]]. destruct (List.find _ us); [done|].
  intros [= H] j. change t' with (n, t').2. rewrite <- H. apply updateId_dom.
Qed.

Lemma updateRow_table i f u p t n t' :
  updateRow i f [(u, p)] t = Ok (n, t') -> (∀ a, key a = i -> key (f a) = i) ->
  (∀ a b, p b = String.eqb (col b) (col (f a))) -> table t -> table t'.
Proof.
  unfold updateRow. intros E Hf Hp [Hk Hu]. destruct (t !! i) as [a|] eqn:Ea; [|by injection E as <- <-].
  cbn [List.find snd] in E. destruct (otherRow i p t) eqn:O; [done|]. unfold updateId in E. rewrite Ea in E.
  injection E as <- <-. split; [apply keyed_insert; [done|by apply Hf, (Hk i)]|].
  apply unique_insert; [done|]. intros j b Hj Hb Eq.
  pose proof (otherRow_false i p t O j b Hj Hb) as H. rewrite (Hp a), Eq, String.eqb_refl in H. done.
Qed.

Lemma updateWhere_keyed p f t : (∀ a, key (f a) = key a) -> keyed t -> keyed (updateWhere p f t).
Proof.
  intros Hf Ht i a. unfold updateWhere. rewrite lookup_fmap_Some. intros (b & <- & Hb).
  destruct (p b); [rewrite Hf|]; by apply Ht.
Qed.

Lemma deleteId_sub i t : (deleteId i t).2 ⊆ t.
Proof. unfold deleteId. destruct (t !! i); [apply delete_subseteq|done]. Qed.

Lemma deleteWhere_sub p t : (deleteWhere p t).2 ⊆ t.
Proof. apply map_filter_subseteq. Qed.
End table.

(** Every row of [t] names a row of [u]. *)
Definition refs {A B} (f : A -> string) (t : gmap string A) (u : gmap string B) : Prop :=
  ∀ i a, t !! i = Some a -> is_Some (u !! f a).

(** Every key of [t] is a key of [u]. *)
Definition within {A B} (t : gmap string A) (u : gmap string B) : Prop := ∀ i, is_Some (t !! i) -> is_Some (u !! i).

Lemma refs_grow {A B C} (f : A -> string) (t : gmap string A) (u : gmap string B) (u' : gmap string C) :
  (∀ i, is_Some (u !! i) -> is_Some (u' !! i)) -> refs f t u -> refs f t u'.
Proof. intros H Hr i a Hi. by apply H, (Hr i). Qed.

Lemma refs_sub {A B} (f : A -> string) (t t' : gmap string A) (u : gmap string B) : t' ⊆ t -> refs f t u -> refs f t' u.
Proof. intros Hs H i a Hi. apply (H i). by apply (lookup_weaken t' t). Qed.

Lemma refs_insert {A B} (f : A -> string) (t : gmap string A) (u : gmap string B) i a :
  refs f t u -> is_Some (u !! f a) -> refs f (<[i := a]> t) u.
Proof. intros H Ha. apply map_Forall_insert_2; [done|]. exact H. Qed.

(** Chunks are numbered from one. *)
Definition numbered (l : list LogChunk) : Prop :=
  ∀ i c, l !! i = Some c -> chunk_Seq c = Z.of_nat i + 1.

Lemma numbered_snoc l text : numbered l -> numbered (l ++ [mkLogChunk (Z.of_nat (length l) + 1) text]).
Proof.
  intros H i c Hi. apply lookup_app_Some in Hi as [Hi|[Hge Hi]]; [by apply H|].
  apply list_lookup_singleton_Some in Hi as [Hz <-]. simpl. lia.
Qed.

Lemma numbered_app_l l k : numbered (l ++ k) -> numbered l.
Proof. intros H i c Hi. apply (H i). by apply lookup_app_l_Some. Qed.

Lemma lastSeq_app l c : lastSeq (l ++ [c]) = Z.max (lastSeq l) (Z.max (chunk_Seq c) 0).
Proof. induction l as [|x l IH]; simpl; [lia|]. unfold lastSeq in *. simpl in *. rewrite IH. lia. Qed.

Lemma lastSeq_numbered l : numbered l -> lastSeq l = Z.of_nat (length l).
Proof.
  induction l as [|c l IH] using rev_ind; [done|]. intros H.
  rewrite lastSeq_app, IH by (by apply numbered_app_l in H).
  rewrite (H (length l) c) by by rewrite lookup_app_r, Nat.sub_diag. rewrite length_app. simpl. lia.
Qed.

(** ** The invariant *)

Record consistent (db : DB) : Prop := mkConsistent {
  c_users : table (λ r, user_ID (rec_User r)) (λ r, user_Email (rec_User r)) (db_users db);
  c_sessions : keyed sess_ID (db_sessions db);
  c_sessionUser : refs sess_UserID (db_sessions db) (db_users db);
  c_tokens : table (λ t : APIToken * string, tok_ID t.1) snd (db_tokens db);
  c_sources : table src_ID src_Name (db_sources db);
  c_hosts : table host_ID host_Name (db_hosts db);
  c_destinations : table dst_ID dst_Name (db_destinations db);
  c_channels : table chan_ID chan_Name (db_channels db);
  c_jobs : table job_ID job_Slug (db_jobs db);
  c_jobSource : refs job_SourceID (db_jobs db) (db_sources db);
  c_states : keyed js_JobID (db_job_state db);
  c_stateJob : within (db_job_state db) (db_jobs db);
  c_runs : keyed run_ID (db_runs db);
  c_logRun : within (db_run_logs db) (db_runs db);
  c_logs : map_Forall (λ _, numbered) (db_run_logs db);
  c_artifacts : keyed art_ID (db_artifacts db);
  c_audit : keyed audit_ID (db_audit db);
  c_settings : ∀ s, db_settings db = Some s -> normalizeSettings s = s
}.

(** [m] keeps the database consistent. *)
Definition safe {A} (m : M A) : Prop := preserves (λ w, consistent (w_db w)) m.

(** A statement that keeps it. *)
Definition sound {A} (q : DB -> result (A * DB)) : Prop :=
  ∀ db a db', consistent db -> q db = Ok (a, db') -> consistent db'.

Lemma safe_exec {A} (q : DB -> result (A * DB)) : sound q -> safe (execWrite q).
Proof. intros H. apply preserves_execWrite; [done|]. intros w a db' Hw E. by apply (H (w_db w) a). Qed.

Lemma safe_ask {A} (q : Env -> nat -> A) : safe (ask q).
Proof. by apply preserves_ask. Qed.

Lemma safe_query {A} (q : DB -> A) : safe (query q).
Proof. by apply preserves_query. Qed.

Lemma safe_ret {A} (x : A) : safe (mret x).
Proof. apply preserves_ret. Qed.

Lemma safe_bind {A B} (m : M A) (k : A -> M B) : safe m -> (∀ x, safe (k x)) -> safe (m ≫= k).
Proof. apply preserves_bind. Qed.

Create HintDb integrity discriminated.
#[export] Hint Resolve safe_ask safe_query safe_ret : integrity.

(** An operation as the sequence of its statements. *)
Ltac statements :=
  repeat first
    [ solve [eauto with integrity]
    | apply safe_bind; [|intros ?]
    | apply safe_exec
    | case_match
    | progress unfold now, NewID, execAffected ].

(** The equation of a statement, solved for the new database. *)
Ltac written H :=
  repeat match type of H with
  | context [match ?x with _ => _ end] => let E := fresh "E" in destruct x eqn:E; try discriminate H
  end;
  injection H as ?; subst.

(** A statement on one table: what the other clauses say does not change. *)
Ltac one_table C :=
  let H := fresh "H" in
  intros db r db' C H; cbv beta zeta in H; written H; destruct C; split; simpl; try assumption.

(** ** Users, sessions and tokens *)

Lemma insertUser_sound u h : sound (insertUser u h).
Proof.
  unfold insertUser. one_table C.
  - by eapply (insertRow_table _ _ _ _ _ _ _ _ _ E).
  - eapply refs_grow; [|done]. by eapply insertRow_sub.
Qed.
#[export] Hint Resolve insertUser_sound : integrity.

Lemma UserRepo_Create_safe u h : safe (UserRepo_Create u h).
Proof. unfold UserRepo_Create. statements. Qed.

(** Fewer rows. *)
Ltac fewer := first [apply map_filter_subseteq | apply deleteWhere_sub | apply deleteId_sub | apply delete_subseteq].

Ltac table_insert E := eapply (insertRow_table _ _ _ _ _ _ _ _ _ E); [done|done|try assumption].
Ltac table_update E := eapply (updateRow_table _ _ _ _ _ _ _ _ _ E); [done|done|try assumption].

Lemma UserRepo_Update_safe u : safe (UserRepo_Update u).
Proof.
  unfold UserRepo_Update. statements. one_table C.
  - table_update E.
  - eapply refs_grow; [|done]. intros i. by rewrite (updateRow_dom _ _ _ _ _ _ E).
Qed.

Lemma users_updateId id f :
  (∀ r, user_ID (rec_User (f r)) = user_ID (rec_User r)) -> (∀ r, user_Email (rec_User (f r)) = user_Email (rec_User r)) ->
  ∀ db, consistent db -> consistent (set_db_users (updateId id f (db_users db)).2 db).
Proof.
  intros H1 H2 db []. split; simpl; try assumption.
  - apply updateId_table; [|done|done]. intros r <-. apply H1.
  - eapply refs_grow; [|done]. intros i. by rewrite updateId_dom.
Qed.

(** An update by identifier, with or without the number of rows. *)
Lemma counted_update {T} (set : gmap string T -> DB -> DB) (get : DB -> gmap string T) id f :
  (∀ db, consistent db -> consistent (set (updateId id f (get db)).2 db)) ->
  sound (λ db, let '(n, t) := updateId id f (get db) in Ok (n, set t db)).
Proof.
  intros H db n db' C E. destruct (updateId id f (get db)) as [m t] eqn:U. injection E as _ <-.
  change t with (m, t).2. rewrite <- U. by apply H.
Qed.

Lemma silent_update {T} (set : gmap string T -> DB -> DB) (get : DB -> gmap string T) id f :
  (∀ db, consistent db -> consistent (set (updateId id f (get db)).2 db)) ->
  sound (λ db, Ok (tt, set (updateId id f (get db)).2 db)).
Proof. intros H db n db' C [= _ <-]. by apply H. Qed.

(** A deletion by identifier. *)
Lemma counted_delete {T} (set : gmap string T -> DB -> DB) (get : DB -> gmap string T) id :
  (∀ db t, t ⊆ get db -> consistent db -> consistent (set t db)) ->
  sound (λ db, let '(n, t) := deleteId id (get db) in Ok (n, set t db)).
Proof.
  intros H db n db' C E. destruct (deleteId id (get db)) as [m t] eqn:U. injection E as _ <-.
  apply H; [|done]. change t with (m, t).2. rewrite <- U. apply deleteId_sub.
Qed.

Lemma UserRepo_SetPassword_safe id h : safe (UserRepo_SetPassword id h).
Proof. unfold UserRepo_SetPassword. statements. apply (counted_update set_db_users). by apply users_updateId. Qed.

Lemma TouchLogin_safe id t : safe (TouchLogin id t).
Proof. unfold TouchLogin. statements. apply (silent_update set_db_users). by apply users_updateId. Qed.

Lemma UserRepo_Delete_safe id : safe (UserRepo_Delete id).
Proof.
  unfold UserRepo_Delete. statements. intros db n db' C E. unfold deleteUser, deleteId in E. destruct C.
  destruct (db_users db !! id) as [u|] eqn:U; injection E as _ <-; split; simpl; try assumption.
  - eapply table_sub; [fewer|done].
  - eapply keyed_sub; [fewer|done].
  - intros i s Hs. apply map_lookup_filter_Some in Hs as [Hs Hne]. simpl in Hne.
    apply String.eqb_neq in Hne. rewrite lookup_delete_ne by done. by eapply c_sessionUser0.
Qed.

(** *** Sessions *)

Lemma SessionRepo_Create_safe s : safe (SessionRepo_Create s).
Proof.
  unfold SessionRepo_Create. statements. one_table C.
  - by eapply insertRow_keyed.
  - boolean. unfold insertRow in E. destruct (db_sessions db !! sess_ID s); [done|]. injection E as <-. by apply refs_insert.
Qed.

Lemma SessionRepo_Touch_safe id t e : safe (SessionRepo_Touch id t e).
Proof.
  unfold SessionRepo_Touch. statements. apply (silent_update set_db_sessions).
  intros db []. split; simpl; try assumption.
  - by apply updateId_keyed.
  - unfold updateId. destruct (db_sessions db !! id) as [s|] eqn:S; [|done]. simpl. apply refs_insert; [done|]. simpl. by eapply c_sessionUser0.
Qed.

Lemma sessions_sub db t : t ⊆ db_sessions db -> consistent db -> consistent (set_db_sessions t db).
Proof.
  intros Hs []. split; simpl; try assumption; [by eapply keyed_sub|by eapply refs_sub].
Qed.

Lemma SessionRepo_Delete_safe id : safe (SessionRepo_Delete id).
Proof.
  unfold SessionRepo_Delete. statements. intros db n db' C [= _ <-]. apply sessions_sub; [fewer|done].
Qed.

Lemma DeleteForUser_safe id : safe (DeleteForUser id).
Proof.
  unfold DeleteForUser. statements. intros db n db' C [= _ <-]. apply sessions_sub; [fewer|done].
Qed.

Lemma DeleteExpired_safe t : safe (DeleteExpired t).
Proof.
  unfold DeleteExpired. statements. intros db n db' C [= _ <-]. apply sessions_sub; [fewer|done].
Qed.

(** *** Tokens *)

Lemma TokenRepo_Create_safe tok h : safe (TokenRepo_Create tok h).
Proof. unfold TokenRepo_Create. statements. all: one_table C; table_insert E. Qed.

Lemma TouchUsed_safe id t : safe (TouchUsed id t).
Proof.
  unfold TouchUsed. statements. apply (silent_update set_db_tokens). intros db []. split; simpl; try assumption.
  by apply updateId_table.
Qed.

Lemma TokenRepo_Delete_safe id : safe (TokenRepo_Delete id).
Proof.
  unfold TokenRepo_Delete. statements. apply (counted_delete set_db_tokens).
  intros db t Hs []. split; simpl; try assumption. by eapply table_sub.
Qed.

(** ** Sources, hosts, destinations and channels *)

Lemma sources_kept db t :
  table src_ID src_Name t -> within (db_sources db) t -> consistent db -> consistent (set_db_sources t db).
Proof. intros H1 H2 []. split; simpl; try assumption. by eapply refs_grow. Qed.

Lemma SourceRepo_Create_safe s : safe (SourceRepo_Create s).
Proof.
  unfold SourceRepo_Create. statements.
  all: intros db r db' C H; written H; apply sources_kept; [table_insert E; apply C|intros i; by eapply insertRow_sub|done].
Qed.

Lemma SourceRepo_Update_safe s : safe (SourceRepo_Update s).
Proof.
  unfold SourceRepo_Update. statements.
  all: intros db r db' C H; written H; apply sources_kept; [table_update E; apply C|intros i; by rewrite (updateRow_dom _ _ _ _ _ _ E)|done].
Qed.

Lemma SourceRepo_SetTestResult_safe id ok m t : safe (SourceRepo_SetTestResult id ok m t).
Proof.
  unfold SourceRepo_SetTestResult. statements. apply (silent_update set_db_sources). intros db C.
  apply sources_kept; [by apply updateId_table, C|intros i; by rewrite updateId_dom|done].
Qed.

(** No job is left without its source. *)
Lemma SourceRepo_Delete_safe id : safe (SourceRepo_Delete id).
Proof.
  unfold SourceRepo_Delete. statements. intros db n db' C H. unfold deleteSource, deleteId in H.
  destruct (db_sources db !! id) as [s|] eqn:S; [|injection H as _ <-; by destruct C].
  destruct (jobCountsBySource db id >? 0) eqn:J; [done|]. injection H as _ <-. destruct C. split; simpl; try assumption.
  - eapply table_sub; [fewer|done].
  - intros i j Hj. destruct (decide (job_SourceID j = id)) as [E|Hne]; [|rewrite lookup_delete_ne by done; by eapply c_jobSource0].
    exfalso. unfold jobCountsBySource, countWhere in J.
    assert (Hin : j ∈ selectWhere (λ j, String.eqb (job_SourceID j) id) (db_jobs db)).
    { apply selectWhere_elem. split; [by exists i|]. by apply String.eqb_eq. }
    destruct (selectWhere _ (db_jobs db)); [by apply elem_of_nil in Hin|]. done.
Qed.

Lemma hosts_kept db t : table host_ID host_Name t -> consistent db -> consistent (set_db_hosts t db).
Proof. intros H []. by split. Qed.

Lemma HostRepo_Create_safe h : safe (HostRepo_Create h).
Proof. unfold HostRepo_Create. statements. all: intros db r db' C H; written H; apply hosts_kept; [table_insert E; apply C|done]. Qed.

Lemma HostRepo_Update_safe h : safe (HostRepo_Update h).
Proof. unfold HostRepo_Update. statements. all: intros db r db' C H; written H; apply hosts_kept; [table_update E; apply C|done]. Qed.

Lemma HostRepo_SetTestResult_safe id ok m os tools : safe (HostRepo_SetTestResult id ok m os tools).
Proof.
  unfold HostRepo_SetTestResult. statements. apply (counted_update set_db_hosts). intros db C.
  apply hosts_kept; [by apply updateId_table, C|done].
Qed.

Lemma HostRepo_Delete_safe id : safe (HostRepo_Delete id).
Proof.
  unfold HostRepo_Delete. statements. apply (counted_delete set_db_hosts). intros db t Hs C.
  apply hosts_kept; [by eapply table_sub, C|done].
Qed.

Lemma destinations_kept db t : table dst_ID dst_Name t -> consistent db -> consistent (set_db_destinations t db).
Proof. intros H []. by split. Qed.

Lemma artifacts_kept db t : keyed art_ID t -> consistent db -> consistent (set_db_artifacts t db).
Proof. intros H []. by split. Qed.

Lemma relabel_sound p f : (∀ a, art_ID (f a) = art_ID a) -> sound (λ db, Ok (tt, set_db_artifacts (updateWhere p f (db_artifacts db)) db)).
Proof. intros H db r db' C [= _ <-]. apply artifacts_kept; [by apply updateWhere_keyed, C|done]. Qed.

Lemma DestinationRepo_Create_safe d : safe (DestinationRepo_Create d).
Proof. unfold DestinationRepo_Create. statements. all: intros db r db' C H; written H; apply destinations_kept; [table_insert E; apply C|done]. Qed.

Lemma DestinationRepo_Update_safe d : safe (DestinationRepo_Update d).
Proof.
  unfold DestinationRepo_Update. statements.
  - intros db r db' C H; written H; apply destinations_kept; [table_update E; apply C|done].
  - by apply relabel_sound.
Qed.

Lemma DestinationRepo_SetTestResult_safe id ok m t : safe (DestinationRepo_SetTestResult id ok m t).
Proof.
  unfold DestinationRepo_SetTestResult. statements. apply (silent_update set_db_destinations). intros db C.
  apply destinations_kept; [by apply updateId_table, C|done].
Qed.

Lemma DestinationRepo_Delete_safe id : safe (DestinationRepo_Delete id).
Proof.
  unfold DestinationRepo_Delete. statements. apply (counted_delete set_db_destinations). intros db t Hs C.
  apply destinations_kept; [by eapply table_sub, C|done].
Qed.

Lemma channels_kept db t : table chan_ID chan_Name t -> consistent db -> consistent (set_db_channels t db).
Proof. intros H []. by split. Qed.

Lemma ChannelRepo_Create_safe c : safe (ChannelRepo_Create c).
Proof. unfold ChannelRepo_Create. statements. all: intros db r db' C H; written H; apply channels_kept; [table_insert E; apply C|done]. Qed.

Lemma ChannelRepo_Update_safe c : safe (ChannelRepo_Update c).
Proof. unfold ChannelRepo_Update. statements. all: intros db r db' C H; written H; apply channels_kept; [table_update E; apply C|done]. Qed.

Lemma SetSendResult_safe id t e : safe (SetSendResult id t e).
Proof.
  unfold SetSendResult. statements. apply (silent_update set_db_channels). intros db C.
  apply channels_kept; [by apply updateId_table, C|done].
Qed.

Lemma ChannelRepo_Delete_safe id : safe (ChannelRepo_Delete id).
Proof.
  unfold ChannelRepo_Delete. statements. apply (counted_delete set_db_channels). intros db t Hs C.
  apply channels_kept; [by eapply table_sub, C|done].
Qed.

(** ** Jobs and their state *)

Lemma jobs_kept db t :
  table job_ID job_Slug t -> refs job_SourceID t (db_sources db) -> within (db_jobs db) t -> consistent db ->
  consistent (set_db_jobs t db).
Proof. intros H1 H2 H3 []. split; simpl; try assumption. intros i Hi. by apply H3, c_stateJob0. Qed.

Lemma insertJob_sound j : sound (insertJob j).
Proof.
  intros db r db' C H. unfold insertJob in H. written H. boolean. apply jobs_kept; [table_insert E; apply C| | |done].
  - unfold insertRow in E. destruct (db_jobs db !! job_ID j); [done|]. destruct (List.find _ _); [done|]. injection E as <-.
    apply refs_insert; [apply C|done].
  - intros i. by eapply insertRow_sub.
Qed.

Lemma updateJob_sound j : sound (updateJob j).
Proof.
  intros db r db' C H. unfold updateJob in H. written H. apply jobs_kept; [table_update E; apply C| | |done].
  - unfold updateRow in E. destruct (db_jobs db !! job_ID j) as [old|] eqn:J; [|injection E as <- <-; apply C].
    destruct (List.find _ _); [done|]. unfold updateId in E. rewrite J in E. injection E as <- <-.
    change (1 =? 0) with false in E1. cbn [orb] in E1. boolean. apply refs_insert; [apply C|done].
  - intros i. by rewrite (updateRow_dom _ _ _ _ _ _ E).
Qed.

Lemma relabelRuns_sound j : sound (relabelRuns j).
Proof.
  intros db r db' C [= _ <-]. destruct C. split; simpl; try assumption.
  - by apply updateWhere_keyed.
  - intros i Hi. unfold updateWhere. rewrite lookup_fmap, fmap_is_Some. by apply c_logRun0.
Qed.

Lemma JobRepo_Create_safe j : safe (JobRepo_Create j).
Proof. unfold JobRepo_Create. statements. all: apply insertJob_sound. Qed.

Lemma JobRepo_Update_safe j : safe (JobRepo_Update j).
Proof.
  unfold JobRepo_Update. statements; [apply updateJob_sound|by apply relabel_sound|apply relabelRuns_sound].
Qed.

Lemma JobRepo_SetEnabled_safe id b : safe (JobRepo_SetEnabled id b).
Proof.
  unfold JobRepo_SetEnabled. statements. apply (counted_update set_db_jobs). intros db C.
  apply jobs_kept; [by apply updateId_table, C| |intros i; by rewrite updateId_dom|done].
  unfold updateId. destruct (db_jobs db !! id) as [j|] eqn:J; [|apply C]. simpl. apply refs_insert; [apply C|].
  by apply (c_jobSource _ C id j).
Qed.

(** The state of a job does not outlive it. *)
Lemma deleteJob_sound id b : sound (deleteJob id b).
Proof.
  intros db r db' C H. unfold deleteJob in H.
  set (db1 := if b then set_db_artifacts _ db else db) in H.
  assert (C1 : consistent db1).
  { subst db1. destruct b; [|done]. apply artifacts_kept; [|done]. eapply keyed_sub; [fewer|apply C]. }
  clearbody db1. unfold deleteId in H. destruct (db_jobs db1 !! id); [|done]. simpl in H. injection H as _ <-.
  destruct C1. split; simpl; try assumption.
  - eapply table_sub; [fewer|done].
  - eapply refs_sub; [fewer|done].
  - eapply keyed_sub; [fewer|done].
  - intros i Hi. destruct (decide (i = id)) as [->|Hne]; [by rewrite lookup_delete_eq in Hi; destruct Hi|].
    rewrite lookup_delete_ne in Hi by done. rewrite lookup_delete_ne by done. by apply c_stateJob0.
Qed.

Lemma JobRepo_Delete_safe id b : safe (JobRepo_Delete id b).
Proof. apply safe_exec, deleteJob_sound. Qed.

Lemma upsertState_sound id t f : (∀ s, js_JobID (f s) = js_JobID s) -> sound (upsertState id t f).
Proof.
  intros Hf db r db' C H. unfold upsertState in H. written H. boolean. destruct C. split; simpl; try assumption.
  - apply keyed_insert; [done|]. rewrite Hf. destruct (db_job_state db !! id) as [s|] eqn:S; [|done]. by apply (c_states0 id).
  - intros i. destruct (decide (i = id)) as [->|Hne]; [done|]. rewrite lookup_insert_ne by done. apply c_stateJob0.
Qed.

Lemma SetLastRun_safe id s t : safe (SetLastRun id s t).
Proof. unfold SetLastRun. statements. by apply upsertState_sound. Qed.

Lemma SetNextRun_safe id t : safe (SetNextRun id t).
Proof. unfold SetNextRun. statements. by apply upsertState_sound. Qed.

Lemma SetOverdue_safe id b t : safe (SetOverdue id b t).
Proof. unfold SetOverdue. statements. by apply upsertState_sound. Qed.

(** ** Runs, logs and artifacts *)

Lemma runs_kept db t : keyed run_ID t -> within (db_runs db) t -> consistent db -> consistent (set_db_runs t db).
Proof. intros H1 H2 []. split; simpl; try assumption. intros i Hi. by apply H2, c_logRun0. Qed.

Lemma RunRepo_Create_safe run : safe (RunRepo_Create run).
Proof.
  unfold RunRepo_Create. statements.
  all: intros db r db' C H; written H; apply runs_kept; [by eapply insertRow_keyed, C|intros i; by eapply insertRow_sub|done].
Qed.

Lemma RunRepo_Save_safe run : safe (RunRepo_Save run).
Proof.
  unfold RunRepo_Save. statements. apply (counted_update set_db_runs). intros db C.
  apply runs_kept; [by apply updateId_keyed, C|intros i; by rewrite updateId_dom|done].
Qed.

Lemma deleteOldRuns_sound t : sound (deleteOldRuns t).
Proof.
  intros db n db' C [= _ <-]. destruct C. split; simpl; try assumption.
  - eapply keyed_sub; [fewer|done].
  - intros i [l Hl]. apply map_lookup_filter_Some in Hl as [_ Hl]. exact Hl.
  - intros i l Hl. apply map_lookup_filter_Some in Hl as [Hl _]. by apply (c_logs0 i).
Qed.

Lemma RunRepo_DeleteOlderThan_safe t : safe (RunRepo_DeleteOlderThan t).
Proof. unfold RunRepo_DeleteOlderThan. statements. apply deleteOldRuns_sound. Qed.

Lemma AppendLog_safe id text : safe (AppendLog id text).
Proof.
  apply safe_exec. intros db n db' C H. unfold appendLog in H. written H. boolean. destruct C. split; simpl; try assumption.
  - intros i. destruct (decide (i = id)) as [->|Hne]; [done|]. rewrite lookup_insert_ne by done. apply c_logRun0.
  - apply map_Forall_insert_2; [|done].
    assert (Hn : numbered (default [] (db_run_logs db !! id))).
    { destruct (db_run_logs db !! id) as [l|] eqn:L; [by apply (c_logs0 id)|by intros i c]. }
    rewrite lastSeq_numbered by done. by apply numbered_snoc.
Qed.

Lemma ArtifactRepo_Create_safe a : safe (ArtifactRepo_Create a).
Proof.
  unfold ArtifactRepo_Create. statements.
  all: intros db r db' C H; written H; apply artifacts_kept; [by eapply insertRow_keyed, C|done].
Qed.

Lemma SetStatus_safe id s t : safe (SetStatus id s t).
Proof.
  unfold SetStatus. statements. apply (counted_update set_db_artifacts). intros db C.
  apply artifacts_kept; [by apply updateId_keyed, C|done].
Qed.

Lemma SetVerified_safe id t : safe (SetVerified id t).
Proof.
  unfold SetVerified. statements. apply (silent_update set_db_artifacts). intros db C.
  apply artifacts_kept; [by apply updateId_keyed, C|done].
Qed.

Lemma ArtifactRepo_Delete_safe id : safe (ArtifactRepo_Delete id).
Proof.
  unfold ArtifactRepo_Delete. statements. apply (counted_delete set_db_artifacts). intros db t Hs C.
  apply artifacts_kept; [by eapply keyed_sub, C|done].
Qed.

(** ** Settings, audit and housekeeping *)

Lemma normalizeSettings_idem s : normalizeSettings (normalizeSettings s) = normalizeSettings s.
Proof.
  destruct s as [n b z m r h a o d]. unfold normalizeSettings. simpl.
  destruct (bool_decide (n = "")) eqn:En; destruct (bool_decide (z = "")) eqn:Ez; destruct (m <=? 0) eqn:Em;
    destruct (h <? 0) eqn:Eh; destruct (a <? 0) eqn:Ea; destruct (o <=? 0) eqn:Eo;
    simpl; rewrite ?En, ?Ez, ?Em, ?Eh, ?Ea, ?Eo; done.
Qed.

Lemma SettingsRepo_Save_safe s : safe (SettingsRepo_Save s).
Proof.
  unfold SettingsRepo_Save. statements. intros db r db' [] [= _ <-]. split; simpl; try assumption.
  intros s' [= <-]. apply normalizeSettings_idem.
Qed.

Lemma AuditRepo_Record_safe e : safe (AuditRepo_Record e).
Proof. unfold AuditRepo_Record. statements. all: one_table C; by eapply insertRow_keyed. Qed.

Lemma AuditRepo_DeleteOlderThan_safe t : safe (AuditRepo_DeleteOlderThan t).
Proof.
  unfold AuditRepo_DeleteOlderThan. statements. intros db n db' C [= _ <-]. destruct C. split; simpl; try assumption.
  eapply keyed_sub; [fewer|done].
Qed.

#[export] Hint Resolve RunRepo_DeleteOlderThan_safe AuditRepo_DeleteOlderThan_safe DeleteExpired_safe : integrity.

Lemma Cleanup_safe s t : safe (Cleanup s t).
Proof. unfold Cleanup. statements. Qed.

(** ** Everything that writes *)

(** The operations of the repositories that change the database. *)
Inductive storeWrite : ∀ {A}, M A -> Prop :=
  | W_UserCreate u h : storeWrite (UserRepo_Create u h)
  | W_UserUpdate u : storeWrite (UserRepo_Update u)
  | W_SetPassword id h : storeWrite (UserRepo_SetPassword id h)
  | W_TouchLogin id t : storeWrite (TouchLogin id t)
  | W_UserDelete id : storeWrite (UserRepo_Delete id)
  | W_SessionCreate s : storeWrite (SessionRepo_Create s)
  | W_SessionTouch id t e : storeWrite (SessionRepo_Touch id t e)
  | W_SessionDelete id : storeWrite (SessionRepo_Delete id)
  | W_DeleteForUser id : storeWrite (DeleteForUser id)
  | W_TokenCreate tok h : storeWrite (TokenRepo_Create tok h)
  | W_TouchUsed id t : storeWrite (TouchUsed id t)
  | W_TokenDelete id : storeWrite (TokenRepo_Delete id)
  | W_SourceCreate s : storeWrite (SourceRepo_Create s)
  | W_SourceUpdate s : storeWrite (SourceRepo_Update s)
  | W_SourceTested id ok m t : storeWrite (SourceRepo_SetTestResult id ok m t)
  | W_SourceDelete id : storeWrite (SourceRepo_Delete id)
  | W_HostCreate h : storeWrite (HostRepo_Create h)
  | W_HostUpdate h : storeWrite (HostRepo_Update h)
  | W_HostTested id ok m os tools : storeWrite (HostRepo_SetTestResult id ok m os tools)
  | W_HostDelete id : storeWrite (HostRepo_Delete id)
  | W_DestinationCreate d : storeWrite (DestinationRepo_Create d)
  | W_DestinationUpdate d : storeWrite (DestinationRepo_Update d)
  | W_DestinationTested id ok m t : storeWrite (DestinationRepo_SetTestResult id ok m t)
  | W_DestinationDelete id : storeWrite (DestinationRepo_Delete id)
  | W_ChannelCreate c : storeWrite (ChannelRepo_Create c)
  | W_ChannelUpdate c : storeWrite (ChannelRepo_Update c)
  | W_SetSendResult id t e : storeWrite (SetSendResult id t e)
  | W_ChannelDelete id : storeWrite (ChannelRepo_Delete id)
  | W_JobCreate j : storeWrite (JobRepo_Create j)
  | W_JobUpdate j : storeWrite (JobRepo_Update j)
  | W_SetEnabled id b : storeWrite (JobRepo_SetEnabled id b)
  | W_JobDelete id b : storeWrite (JobRepo_Delete id b)
  | W_SetLastRun id s t : storeWrite (SetLastRun id s t)
  | W_SetNextRun id t : storeWrite (SetNextRun id t)
  | W_SetOverdue id b t : storeWrite (SetOverdue id b t)
  | W_RunCreate run : storeWrite (RunRepo_Create run)
  | W_RunSave run : storeWrite (RunRepo_Save run)
  | W_AppendLog id text : storeWrite (AppendLog id text)
  | W_ArtifactCreate a : storeWrite (ArtifactRepo_Create a)
  | W_SetStatus id s t : storeWrite (SetStatus id s t)
  | W_SetVerified id t : storeWrite (SetVerified id t)
  | W_ArtifactDelete id : storeWrite (ArtifactRepo_Delete id)
  | W_SettingsSave s : storeWrite (SettingsRepo_Save s)
  | W_AuditRecord e : storeWrite (AuditRepo_Record e)
  | W_Cleanup s t : storeWrite (Cleanup s t).

(** The databases any sequence of them leads to, from an empty one. *)
Inductive written : DB -> Prop :=
  | written_empty : written (mkDB ∅ ∅ ∅ ∅ ∅ ∅ ∅ ∅ ∅ ∅ ∅ ∅ None ∅)
  | written_step {A} (m : M A) env w : written (w_db w) -> storeWrite m -> written (w_db (m env w).2).

#[export] Hint Resolve UserRepo_Create_safe UserRepo_Update_safe UserRepo_SetPassword_safe TouchLogin_safe UserRepo_Delete_safe
  SessionRepo_Create_safe SessionRepo_Touch_safe SessionRepo_Delete_safe DeleteForUser_safe TokenRepo_Create_safe
  TouchUsed_safe TokenRepo_Delete_safe SourceRepo_Create_safe SourceRepo_Update_safe SourceRepo_SetTestResult_safe
  SourceRepo_Delete_safe HostRepo_Create_safe HostRepo_Update_safe HostRepo_SetTestResult_safe HostRepo_Delete_safe
  DestinationRepo_Create_safe DestinationRepo_Update_safe DestinationRepo_SetTestResult_safe DestinationRepo_Delete_safe
  ChannelRepo_Create_safe ChannelRepo_Update_safe SetSendResult_safe ChannelRepo_Delete_safe JobRepo_Create_safe
  JobRepo_Update_safe JobRepo_SetEnabled_safe JobRepo_Delete_safe SetLastRun_safe SetNextRun_safe SetOverdue_safe
  RunRepo_Create_safe RunRepo_Save_safe AppendLog_safe ArtifactRepo_Create_safe SetStatus_safe SetVerified_safe
  ArtifactRepo_Delete_safe SettingsRepo_Save_safe AuditRepo_Record_safe Cleanup_safe : integrity.

Lemma storeWrite_safe {A} (m : M A) : storeWrite m -> safe m.
Proof. destruct 1; eauto with integrity nocore. Qed.

Lemma empty_consistent : consistent (mkDB ∅ ∅ ∅ ∅ ∅ ∅ ∅ ∅ ∅ ∅ ∅ ∅ None ∅).
Proof.
  assert (Hk : ∀ A (key : A -> string), keyed key ∅) by (intros; apply map_Forall_empty).
  assert (Ht : ∀ A (key col : A -> string), table key col ∅) by (intros; split; [apply Hk|by intros i j a b]).
  split; simpl; first [apply Hk | apply Ht | by intros i a | by intros i [a ?] | done].
Qed.
