(* ===== verification/RunState.v ===== *)
(** * The life of a run: [internal/engine/runstate.go]

    [runState] gathers what happens to a run: its stages, its warning, its end.
    Every change goes through [update], which saves the run and publishes it; a
    save that fails is logged by the code and the run goes on.  The text of the
    run log is not part of this model (see [RunLog]). *)
From S2P Require Import Prelude GoStrings GoTime Core CoreSetters Db StoreCommon StoreJobs StoreRuns.
Open Scope Z_scope.

Definition defaultTimeout : Z := 6 * Hour.

(** A fresh state for a run. *)
Definition newRunState (run : Run) : RunState := mkRunState run false "".

(** [rs.Run()]. *)
Definition currentRun : M Run := rs ← getRS; mret (rs_run rs).

Definition update (fn : Run -> Run) : M unit :=
  rs ← getRS;
  let run := fn (rs_run rs) in
  putRS (mkRunState run (rs_warned rs) (rs_warnMsg rs));;
  _ ← RunRepo_Save run;
  publish (EvRunUpdated run).

Definition start : M unit :=
  t ← now;
  update (λ r, set_run_Status RunRunning (set_run_StartedAt (Some t) r)).

(** The first warning is the one the run keeps. *)
Definition Warn (msg : string) : M unit :=
  rs ← getRS;
  putRS (mkRunState (rs_run rs) true (if bool_decide (rs_warnMsg rs = "") then msg else rs_warnMsg rs)).

Definition addStage (s : Stage) (r : Run) : Run := set_run_Stages (run_Stages r ++ [s]) r.

(** [rs.stage(ctx, name)]: the handle is the name. *)
Definition stage (name : string) : M string :=
  t ← now;
  update (addStage (mkStage name StageRunning (Some t) None ""));;
  mret name.

Definition skippedStage (name message : string) : M unit :=
  t ← now;
  update (addStage (mkStage name StageSkipped (Some t) (Some t) message)).

(** The loop of [stageHandle.set]: from the last stage back, the first one that
    is running under this name. *)
Fixpoint closeStage (name : string) (status : StageStatus) (t : Time) (message : string)
    (l : list Stage) : option (list Stage) :=
  match l with
  | [] => None
  | s :: rest =>
      match closeStage name status t message rest with
      | Some rest' => Some (s :: rest')
      | None =>
          if String.eqb (stage_Name s) name && bool_decide (stage_Status s = StageRunning)
          then Some (set_stage_Status status (set_stage_FinishedAt (Some t) (set_stage_Message message s)) :: rest)
          else None
      end
  end.

Definition stage_set (name : string) (status : StageStatus) (message : string) : M unit :=
  t ← now;
  update (λ r, set_run_Stages (default (run_Stages r) (closeStage name status t message (run_Stages r))) r).

Definition stage_Done (name message : string) : M unit := stage_set name StageSuccess message.

(** [return stage.Fail(ctx, err)]. *)
Definition stage_Fail {A} (name : string) (err : error) : M (result A) :=
  stage_set name StageFailed (err_msg err);; mret (Fail err).

Definition addArtifact (a : Artifact) : M unit :=
  update (λ r, set_run_ArtifactIDs (run_ArtifactIDs r ++ [art_ID a]) r);;
  publish (EvArtifactUpdated a).

Definition setResult (filename sha : string) (rawBytes packedBytes : Z) : M unit :=
  update (λ r, set_run_Filename filename (set_run_SHA256 sha
                 (set_run_RawBytes rawBytes (set_run_Bytes packedBytes r)))).

Definition timeoutLabel (run : Run) : string :=
  let minutes := defaultTimeout / Minute in
  let raw := default "" (run_Meta run !! "timeoutMinutes") in
  let minutes := match Atoi raw with
                 | Some v => if v >? 0 then v else minutes
                 | None => minutes
                 end in
  if minutes =? 1 then "1 minute" else Itoa minutes +:+ " minutes".

(** ** The end of a run *)

Definition isErr (err : option error) (s : sentinel) : bool :=
  match err with Some e => errorsIs e s | None => false end.

(** The switch of [finish]. *)
Definition outcome (canceled timedOut : bool) (runErr : option error) (warned : bool) (warnMsg label : string)
    : RunStatus * string :=
  if canceled then (RunCanceled, "run canceled")
  else if timedOut then (RunFailed, "run timed out after " +:+ label)
  else match runErr with
       | Some e => (RunFailed, err_msg e)
       | None => if warned then (RunWarning, warnMsg) else (RunSuccess, "")
       end.

(** A stage left running when the run ends has failed. *)
Definition endStage (t : Time) (message : string) (s : Stage) : Stage :=
  if bool_decide (stage_Status s = StageRunning)
  then set_stage_Status StageFailed (set_stage_FinishedAt (Some t)
         (set_stage_Message (if bool_decide (stage_Message s = "") then message else stage_Message s) s))
  else s.

Definition endRun (status : RunStatus) (message : string) (t : Time) (r : Run) : Run :=
  let r := set_run_Status status (set_run_Error message (set_run_FinishedAt (Some t) r)) in
  let r := match run_StartedAt r with
           | Some s => set_run_DurationMS (Milliseconds (Sub t s)) r
           | None => r
           end in
  set_run_Stages (endStage t message <$> run_Stages r) r.

(** The run went well enough to count as the last success of its job. *)
Definition isSuccess (status : RunStatus) : bool :=
  bool_decide (status = RunSuccess) || bool_decide (status = RunWarning).

(** Everything [finish] does after it has closed the run: the state of the job
    and its publication. *)
Definition finishJob (status : RunStatus) (t : Time) : M unit :=
  run ← currentRun;
  if bool_decide (run_JobID run = "") then mret tt
  else
    _ ← SetLastRun (run_JobID run) (Run_Summary run) (if isSuccess status then Some t else None);
    (if isSuccess status then _ ← SetOverdue (run_JobID run) false None; mret tt else mret tt);;
    job ← JobRepo_Get (run_JobID run);
    match job with
    | Ok job => publish (EvJobUpdated job)
    | Fail _ => mret tt
    end.

Definition finish (runErr : option error) : M unit :=
  t ← now;
  rs ← getRS;
  c1 ← ctxErr;
  c2 ← ctxErr;
  let canceled := isErr c1 ErrCanceled || isErr runErr ErrCanceled in
  let timedOut := isErr c2 ErrDeadlineExceeded || isErr runErr ErrDeadlineExceeded in
  let '(status, message) :=
    outcome canceled timedOut runErr (rs_warned rs) (rs_warnMsg rs) (timeoutLabel (rs_run rs)) in
  update (endRun status message t);;
  finishJob status t.

(** ** Frames of the run state *)

#[export] Hint Unfold RunRepo_Save SetLastRun SetOverdue JobRepo_Get oneJob enrichJobs : ops.

Lemma RunRepo_Save_rs run : keeps w_rs (RunRepo_Save run).
Proof. frame. Qed.

Lemma RunRepo_Save_events run : keeps w_events (RunRepo_Save run).
Proof. frame. Qed.

Lemma SetLastRun_rs id s t : keeps w_rs (SetLastRun id s t).
Proof. frame. Qed.
Lemma SetOverdue_rs id b t : keeps w_rs (SetOverdue id b t).
Proof. frame. Qed.
Lemma JobRepo_Get_rs id : keeps w_rs (JobRepo_Get id).
Proof. frame. Qed.

(** ** What [update] does to the state and to the bus *)

Lemma update_rs fn env w :
  w_rs (update fn env w).2
  = mkRunState (fn (rs_run (w_rs w))) (rs_warned (w_rs w)) (rs_warnMsg (w_rs w)).
Proof.
  unfold update. rewrite bind_eq. cbn [getRS fst snd]. rewrite bind_eq.
  rewrite keeps_tail by frame. by rewrite RunRepo_Save_rs.
Qed.

Lemma update_events fn env w :
  w_events (update fn env w).2 = w_events w ++ [EvRunUpdated (fn (rs_run (w_rs w)))].
Proof.
  unfold update. rewrite !bind_eq. cbn [getRS putRS publish fst snd].
  simpl. by rewrite RunRepo_Save_events.
Qed.

Lemma finishJob_rs status t : keeps w_rs (finishJob status t).
Proof. unfold finishJob, currentRun. frame. Qed.

Lemma finishJob_events status t ev env w :
  ev ∈ w_events w -> ev ∈ w_events (finishJob status t env w).2.
Proof.
  assert (Hp : ∀ A (m : M A), keeps w_events m -> preserves (λ w, ev ∈ w_events w) m).
  { intros A m H. by apply (keeps_preserves w_events m (λ l, ev ∈ l)). }
  revert env w. change (preserves (λ w, ev ∈ w_events w) (finishJob status t)).
  unfold finishJob, currentRun.
  apply preserves_bind; [apply Hp; frame|intros run]. destruct (bool_decide _); [apply preserves_ret|].
  apply preserves_bind; [apply Hp; frame|intros _]. apply preserves_bind; [apply Hp; frame|intros _].
  apply preserves_bind; [apply Hp; frame|intros [job|]]; [|apply preserves_ret].
  intros env w H. simpl. apply elem_of_app. by left.
Qed.

(** How a run ends, given the contexts and the clock at the end. *)
Definition endedRun (runErr : option error) (env : Env) (w : World) : Run :=
  let t := env_now env (w_tick w) in
  let c1 := env_ctx env (S (w_tick w)) in
  let c2 := env_ctx env (S (S (w_tick w))) in
  let rs := w_rs w in
  let '(status, message) :=
    outcome (isErr c1 ErrCanceled || isErr runErr ErrCanceled)
      (isErr c2 ErrDeadlineExceeded || isErr runErr ErrDeadlineExceeded)
      runErr (rs_warned rs) (rs_warnMsg rs) (timeoutLabel (rs_run rs)) in
  endRun status message t (rs_run rs).

Lemma finish_steps runErr env w :
  ∃ status t w1, (finish runErr env w).2 = (finishJob status t env w1).2
  ∧ rs_run (w_rs w1) = endedRun runErr env w
  ∧ w_events w1 = w_events w ++ [EvRunUpdated (endedRun runErr env w)].
Proof.
  unfold finish. rewrite !bind_eq. cbn [now ask ctxErr getRS fst snd].
  unfold endedRun. simpl. destruct (outcome _ _ _ _ _ _) as [status message].
  eexists status, _, (update (endRun status message (env_now env (w_tick w))) env (tick (tick (tick w)))).2.
  split_and!.
  - rewrite bind_eq. reflexivity.
  - by rewrite update_rs.
  - by rewrite update_events.
Qed.

Lemma endStage_not_running t message s : stage_Status (endStage t message s) ≠ StageRunning.
Proof. unfold endStage. case_bool_decide; [done|done]. Qed.

(** Every run ends.  Whatever its error, whatever the contexts, the clock
    and the database do, [finish] leaves the run in a terminal status with an
    end time and no stage running, publishes that run, and the status tells the
    truth: success means that no error, cancellation, timeout or warning
    happened, a warning that there was one and no error, a cancellation that
    the context or the error said so. *)
Theorem finish_terminal runErr env w :
  let rs := w_rs w in
  let run := rs_run (w_rs (finish runErr env w).2) in
  let canceled := isErr (env_ctx env (S (w_tick w))) ErrCanceled || isErr runErr ErrCanceled in
  let timedOut := isErr (env_ctx env (S (S (w_tick w)))) ErrDeadlineExceeded || isErr runErr ErrDeadlineExceeded in
  Terminal (run_Status run) = true
  ∧ run_FinishedAt run = Some (env_now env (w_tick w))
  ∧ Forall (λ s, stage_Status s ≠ StageRunning) (run_Stages run)
  ∧ EvRunUpdated run ∈ w_events (finish runErr env w).2
  ∧ (run_Status run = RunSuccess <-> canceled = false ∧ timedOut = false ∧ runErr = None ∧ rs_warned rs = false)
  ∧ (run_Status run = RunWarning <-> canceled = false ∧ timedOut = false ∧ runErr = None ∧ rs_warned rs = true)
  ∧ (run_Status run = RunCanceled <-> canceled = true).
Proof.
  cbv zeta. destruct (finish_steps runErr env w) as (status & t & w1 & E & Hrs & Hev).
  rewrite E. rewrite finishJob_rs, Hrs.
  set (canceled := isErr (env_ctx env (S (w_tick w))) ErrCanceled || isErr runErr ErrCanceled).
  set (timedOut := isErr (env_ctx env (S (S (w_tick w)))) ErrDeadlineExceeded || isErr runErr ErrDeadlineExceeded).
  assert (Hin : EvRunUpdated (endedRun runErr env w) ∈ w_events (finishJob status t env w1).2).
  { apply finishJob_events. rewrite Hev. apply elem_of_app. right. by left. }
  split_and!; [| | |exact Hin| | |];
    unfold endedRun; fold canceled timedOut; unfold outcome, endRun;
    destruct canceled, timedOut, runErr as [e|], (rs_warned (w_rs w));
    simpl; destruct (run_StartedAt (rs_run (w_rs w))); simpl; try done;
    try (apply Forall_fmap, Forall_true; intros s; apply endStage_not_running);
    try (by split; [done|intros (?&?&?&?)]).
Qed.

(** ** Growth of the operations on a run *)

Lemma update_ext fn : (∀ r, run_ID (fn r) = run_ID r) -> ext (update fn).
Proof.
  intros Hfn env w. split.
  - exists []. rewrite app_nil_r. unfold update.
    assert (keeps w_calls (RunRepo_Save (fn (rs_run (w_rs w))))) as K by frame.
    rewrite !bind_eq. cbn [getRS putRS publish fst snd]. simpl. by rewrite K.
  - exists [EvRunUpdated (fn (rs_run (w_rs w)))]. apply update_events.
  - rewrite update_rs. simpl. apply Hfn.
  - by rewrite update_rs.
Qed.

Lemma Warn_ext msg : ext (Warn msg).
Proof. intros env w. unfold Warn. rewrite bind_eq. by split; [exists []; rewrite app_nil_r..| |]. Qed.

Lemma stage_ext name : ext (stage name).
Proof.
  unfold stage. apply ext_bind; [apply ext_ask|intros t]. apply ext_bind; [|intros _; apply ext_ret].
  by apply update_ext.
Qed.

Lemma skippedStage_ext name msg : ext (skippedStage name msg).
Proof. unfold skippedStage. apply ext_bind; [apply ext_ask|intros t]. by apply update_ext. Qed.

Lemma stage_set_ext name status msg : ext (stage_set name status msg).
Proof. unfold stage_set. apply ext_bind; [apply ext_ask|intros t]. by apply update_ext. Qed.

Lemma stage_Done_ext name msg : ext (stage_Done name msg).
Proof. unfold stage_Done. apply stage_set_ext. Qed.

Lemma stage_Fail_ext {A} name err : ext (A := result A) (stage_Fail name err).
Proof. unfold stage_Fail. apply ext_bind; [apply stage_set_ext|intros; apply ext_ret]. Qed.

Lemma addArtifact_ext a : ext (addArtifact a).
Proof. unfold addArtifact. apply ext_bind; [by apply update_ext|intros; apply ext_publish]. Qed.

Lemma setResult_ext f s r p : ext (setResult f s r p).
Proof. unfold setResult. by apply update_ext. Qed.

Lemma currentRun_ext : ext currentRun.
Proof. unfold currentRun. ext_tac. Qed.

#[export] Hint Resolve Warn_ext stage_ext skippedStage_ext stage_set_ext stage_Done_ext stage_Fail_ext
  addArtifact_ext setResult_ext currentRun_ext : ext.

(** A failed stage hands its error on. *)
Lemma stage_Fail_result {A} name err env w : (stage_Fail (A := A) name err env w).1 = Fail err.
Proof. unfold stage_Fail. by rewrite bind_eq. Qed.

Lemma stage_Fail_not_ok {X} name err env w (x : X) : (stage_Fail (A := X) name err env w).1 ≠ Ok x.
Proof. by rewrite stage_Fail_result. Qed.

(** The next step of a sequence that ends well: [x] is its result and [Hx] says
    so; its errors are handed on. *)
Ltac ok_step H x Hx :=
  let E := fresh in
  apply do_inv in H as E; [|by intros; try apply stage_Fail_not_ok]; destruct E as (x & Hx & E);
  rewrite E in *; clear E.
