(* ===== verification/Drivers.v ===== *)
(** * Reaching the drivers: [internal/engine/drivers.go], [hosts.go]

    The engine finds a driver by kind, decrypts the secrets of the
    configuration the driver's specification names, attaches the host of a
    source, and opens a client.  The registries and the drivers are the
    parameter [Drivers]; what a driver answers when called is asked of the
    environment. *)
From S2P Require Import Prelude GoStrings GoTime Core CoreSetters Config Secrets Pack Spool Db StoreCommon StoreConfig StoreAdmin.
Open Scope Z_scope.

(** The registries of [internal/source], [internal/dest] and [internal/notify]:
    the specification registered for a kind; and what each driver thinks of a
    configuration.  [source_Restorer] tells whether a source driver has a
    [Restore] method. *)
Class Drivers := {
  source_Get : string -> option DriverSpec;
  dest_Get : string -> option DriverSpec;
  notify_Get : string -> option DriverSpec;
  source_Validate : string -> Config -> option error;
  dest_Validate : string -> Config -> option error;
  notify_Validate : string -> Config -> option error;
  source_Restorer : string -> bool
}.

(** What a driver call answers. *)
Definition driverCall : M (option error) := ask env_driver.

Section drivers.
  Context {A : AEAD} {Dr : Drivers}.

Definition SourceConfig (src : Source) : result (DriverSpec * Config) :=
  match source_Get (src_Kind src) with
  | None => Fail (newError ("unknown source driver " +:+ Quote (src_Kind src)))
  | Some spec =>
      let? cfg := DecryptConfig (src_Config src) (SecretFields spec) else err => Fail err in
      Ok (spec, cfg)
  end.

Definition DestinationConfig (d : Destination) : result (DriverSpec * Config) :=
  match dest_Get (dst_Kind d) with
  | None => Fail (newError ("unknown destination driver " +:+ Quote (dst_Kind d)))
  | Some spec =>
      let? cfg := DecryptConfig (dst_Config d) (SecretFields spec) else err => Fail err in
      Ok (spec, cfg)
  end.

Definition NotifierConfig (c : NotificationChannel) : result (DriverSpec * Config) :=
  match notify_Get (chan_Kind c) with
  | None => Fail (newError ("unknown notifier " +:+ Quote (chan_Kind c)))
  | Some spec =>
      let? cfg := DecryptConfig (chan_Config c) (SecretFields spec) else err => Fail err in
      Ok (spec, cfg)
  end.

(** A client, once opened, is the destination it was opened for. *)
Definition OpenDestination (d : Destination) : M (result Destination) :=
  match DestinationConfig d with
  | Fail err => mret (Fail err)
  | Ok _ =>
      err ← driverCall;
      match err with
      | Some err => mret (Fail (wrapError ("open destination " +:+ dst_Name d) err))
      | None => record (CallOpen (dst_ID d));; mret (Ok d)
      end
  end.

(** ** The methods of a client *)

Definition client_Put (c : Destination) (path : string) : M (option error) :=
  err ← driverCall;
  match err with
  | Some err => mret (Some err)
  | None => record (CallPut (dst_ID c) path);; mret None
  end.

Definition client_Delete (c : Destination) (path : string) : M (option error) :=
  err ← driverCall;
  match err with
  | Some err => mret (Some err)
  | None => record (CallDelete (dst_ID c) path);; mret None
  end.

Definition client_Stat (c : Destination) (path : string) : M (result (option Object)) :=
  r ← ask env_stat;
  record (CallStat (dst_ID c) path);;
  mret r.

(** ** Hosts *)

Definition LoadHost (id : string) : M (result Host) :=
  do? stored := HostRepo_Get id else err => mret (Fail (wrapError "load host" err)) in
  let '(host, err) := DecryptHost stored in
  mret (match err with
        | Some err => Fail (wrapError ("load host " +:+ host_Name stored) err)
        | None => Ok host
        end).

Definition attachHost (spec : DriverSpec) (hostID : string) (cfg : Config) : M (result Config) :=
  if Blank hostID then mret (Ok cfg)
  else if negb (DriverSpec_Has spec CapRemote)
  then mret (Fail (newError ("source driver " +:+ spec_Kind spec +:+ " cannot run on a host")))
  else
    do? host := LoadHost hostID else err => mret (Fail err) in
    mret (Ok (WithHost cfg (Some host))).

Definition SourceRuntime (src : Source) : M (result (DriverSpec * Config)) :=
  match SourceConfig src with
  | Fail err => mret (Fail err)
  | Ok (spec, cfg) =>
      do? cfg := attachHost spec (src_HostID src) cfg else err => mret (Fail err) in
      mret (Ok (spec, cfg))
  end.

Definition hostNameOf (cfg : Config) : string :=
  match Config_Host cfg with Some h => host_Name h | None => "" end.

(** ** Connection tests *)

Record TestResult := mkTestResult { test_OK : bool; test_Message : string; test_DurationMS : Z }.

Definition failedTest (msg : string) : TestResult := mkTestResult false msg 0.

(** The deadline of the test is part of what the driver answers. *)
Definition timedTest (fn : M (option error)) : M TestResult :=
  started ← now;
  err ← fn;
  t ← now;
  let d := Milliseconds (Sub t started) in
  mret (match err with
        | Some err => mkTestResult false (err_msg err) d
        | None => mkTestResult true "connection successful" d
        end).

Definition TestSourceConfig (kind : string) (cfg : Config) (hostID : string) : M TestResult :=
  match source_Get kind with
  | None => mret (failedTest ("unknown source driver " +:+ Quote kind))
  | Some spec =>
      match DecryptConfig cfg (SecretFields spec) with
      | Fail err => mret (failedTest (err_msg err))
      | Ok plain =>
          match source_Validate kind plain with
          | Some err => mret (failedTest (err_msg err))
          | None =>
              do? _ := attachHost spec hostID plain else err => mret (failedTest (err_msg err)) in
              timedTest driverCall
          end
      end
  end.

Definition TestSource (src : Source) : M TestResult :=
  TestSourceConfig (src_Kind src) (src_Config src) (src_HostID src).

Definition TestDestinationConfig (kind : string) (cfg : Config) : M TestResult :=
  match dest_Get kind with
  | None => mret (failedTest ("unknown destination driver " +:+ Quote kind))
  | Some spec =>
      match DecryptConfig cfg (SecretFields spec) with
      | Fail err => mret (failedTest (err_msg err))
      | Ok plain =>
          match dest_Validate kind plain with
          | Some err => mret (failedTest (err_msg err))
          | None =>
              timedTest
                (err ← driverCall;
                 match err with Some err => mret (Some err) | None => driverCall end)
          end
      end
  end.

(** [e.settings]: the defaults when they cannot be read. *)
Definition engineSettings : M Settings :=
  r ← SettingsRepo_Get;
  let '(s, err) := r in
  mret (match err with Some _ => DefaultSettings | None => s end).

Definition TestChannelConfig (kind : string) (cfg : Config) : M TestResult :=
  match notify_Get kind with
  | None => mret (failedTest ("unknown notifier " +:+ Quote kind))
  | Some spec =>
      match DecryptConfig cfg (SecretFields spec) with
      | Fail err => mret (failedTest (err_msg err))
      | Ok plain =>
          match notify_Validate kind plain with
          | Some err => mret (failedTest (err_msg err))
          | None => _ ← engineSettings; _ ← now; timedTest driverCall
          end
      end
  end.

End drivers.

#[export] Hint Unfold driverCall OpenDestination client_Put client_Delete client_Stat LoadHost HostRepo_Get
  attachHost SourceRuntime engineSettings SettingsRepo_Get : ops.
