(* ===== verification/Runner.v ===== *)
(** * The backup pipeline: [internal/engine/runner.go]

    One run from the job to its artifacts: prepare, pre-command, dump, pack,
    upload to every destination with retries, verify, retention, post-command.
    What the drivers, the hooks, the database and the clock do is the
    environment's choice; lines written to the run log and the counters of the
    metrics observer are left out. *)
From S2P Require Import Prelude GoStrings GoTime GoSlices Core CoreSetters Config Secrets Pack Spool Db StoreCommon StoreJobs StoreRuns.
From S2P Require Import StoreConfig StoreAdmin RunState Drivers Retention.
Open Scope Z_scope.

Definition maxRetryBackoff : Z := 10 * Minute.

(** ** Backoff, in 64-bit arithmetic *)

Fixpoint backoffLoop (steps : nat) (wait : Z) : Z :=
  match steps with
  | O => if wait >? maxRetryBackoff then maxRetryBackoff else wait
  | S steps' =>
      let wait := wrap64 (wait * 2) in
      if wait >=? maxRetryBackoff then maxRetryBackoff else backoffLoop steps' wait
  end.

(** [for i := 1; i < step; i++]. *)
Definition backoff (base : Z) (step : Z) : Z := backoffLoop (Z.to_nat (step - 1)) base.

(** [time.Duration(n) * time.Second], five seconds when it is not positive. *)
Definition retryDelay (seconds : Z) : Z :=
  let delay := wrap64 (seconds * Second) in
  if delay <=? 0 then 5 * Second else delay.

Definition retryAttempts (retries : Z) : Z :=
  let attempts := wrap64 (retries + 1) in
  if attempts <? 1 then 1 else attempts.

Definition extensionOf (filename : string) : string := (DetectPack filename).2.

Section runner.
  Context {A : AEAD} {C : Codecs} {D : Digest} {Dr : Drivers}.
  Context (workDir : string).

Definition newRun (job : Job) (kind : RunKind) (trigger : RunTrigger) (createdBy : string) : M Run :=
  id ← NewID;
  t ← now;
  mret {| run_ID := id; run_JobID := job_ID job; run_JobSlug := job_Slug job; run_JobName := job_Name job;
          run_Kind := kind; run_Trigger := trigger; run_Status := RunQueued; run_QueuedAt := t;
          run_StartedAt := None; run_FinishedAt := None; run_DurationMS := 0; run_Bytes := 0;
          run_RawBytes := 0; run_SHA256 := ""; run_Filename := ""; run_Error := ""; run_Stages := [];
          run_ArtifactIDs := []; run_Attempt := 0;
          run_Meta := if job_TimeoutMinutes job >? 0
                      then {[ "timeoutMinutes" := Itoa (job_TimeoutMinutes job) ]} else ∅;
          run_CreatedBy := createdBy |}.

Definition jobPassphrase (job : Job) : result string :=
  if bool_decide (job_EncryptionPassphrase job = "") then Ok ""
  else
    let? plain := Decrypt (job_EncryptionPassphrase job)
      else err => Fail (wrapError "read job passphrase" err) in
    Ok plain.

Definition loadDestinations (job : Job) : M (result (list Destination)) :=
  forEach_err (job_DestinationIDs job) [] (λ id out,
    do? d := DestinationRepo_Get id else err => mret (Fail (wrapError ("load destination " +:+ id) err)) in
    mret (Ok (out ++ [d]))).

(** ** Uploading *)

Definition putOnce (d : Destination) (path : string) : M (option error) :=
  do? client := OpenDestination d else err => mret (Some err) in
  f ← driverCall;  (* sp.Open *)
  match f with
  | Some err => mret (Some (wrapError "open spool file" err))
  | None =>
      err ← client_Put client path;
      match err with
      | Some err => mret (Some (wrapError ("upload to " +:+ dst_Name d) err))
      | None => mret None
      end
  end.

(** The loop from [attempt] on, [n] attempts left; [lastErr] of the one
    before. *)
Fixpoint uploadLoop (n : nat) (attempt : Z) (delay : Z) (d : Destination) (path : string)
    (lastErr : option error) : M (option error) :=
  match n with
  | O => mret lastErr
  | S n' =>
      c ← ctxErr;
      match c with
      | Some err => mret (Some err)
      | None =>
          w ← (if attempt >? 1 then
                 c ← ctxErr;
                 match c with
                 | Some err => mret (Some err)
                 | None => record (CallWait (backoff delay (attempt - 1)));; mret None
                 end
               else mret None);
          match w with
          | Some err => mret (Some err)
          | None =>
              lastErr ← putOnce d path;
              match lastErr with
              | None => mret None
              | Some err =>
                  if errorsIs err ErrCanceled || errorsIs err ErrDeadlineExceeded then mret (Some err)
                  else uploadLoop n' (attempt + 1) delay d path (Some err)
              end
          end
      end
  end.

Definition uploadOne (job : Job) (d : Destination) (path : string) : M (option error) :=
  uploadLoop (Z.to_nat (retryAttempts (job_Retries job))) 1 (retryDelay (job_RetryDelaySeconds job)) d path None.

Definition newArtifact (job : Job) (src : Source) (d : Destination) (sp : spool) (path filename : string)
    (opts : PackOptions) (runID : string) (t : Time) : Artifact :=
  {| art_ID := ""; art_JobID := job_ID job; art_JobSlug := job_Slug job; art_JobName := job_Name job;
     art_RunID := runID; art_DestinationID := dst_ID d; art_DestinationName := dst_Name d;
     art_DestinationKind := dst_Kind d; art_Path := path; art_Filename := filename;
     art_Size := sp_PackedBytes sp; art_SHA256 := sp_SHA256 sp; art_Compression := po_Compression opts;
     art_Encryption := po_Encryption opts; art_SourceKind := src_Kind src;
     art_Extension := extensionOf filename; art_Status := ArtifactPresent; art_CreatedAt := t;
     art_VerifiedAt := None; art_DeletedAt := None; art_Meta := ∅ |}.

(** One destination of [uploadAll]: the artifacts so far and the failures. *)
Definition uploadTo (job : Job) (src : Source) (sp : spool) (path filename : string) (opts : PackOptions)
    (d : Destination) (acc : list Artifact * Z) : M (list Artifact * Z) :=
  let '(artifacts, failures) := acc in
  name ← stage ("upload:" +:+ dst_Name d);
  err ← uploadOne job d path;
  match err with
  | Some err => stage_set name StageFailed (err_msg err);; mret (artifacts, failures + 1)
  | None =>
      run ← currentRun;
      t ← now;
      saved ← ArtifactRepo_Create (newArtifact job src d sp path filename opts (run_ID run) t);
      match saved with
      | Fail err => stage_set name StageFailed (err_msg err);; mret (artifacts, failures + 1)
      | Ok saved =>
          addArtifact saved;;
          stage_Done name (Itoa (sp_PackedBytes sp) +:+ " bytes");;
          mret (artifacts ++ [saved], failures)
      end
  end.

Definition uploadAll (job : Job) (src : Source) (destinations : list Destination) (sp : spool)
    (path filename : string) (opts : PackOptions) : M (result (list Artifact)) :=
  r ← forEach destinations ([], 0) (uploadTo job src sp path filename opts);
  let '(artifacts, failures) := r in
  if (failures >? 0) && bool_decide (artifacts = [])
  then mret (Fail (newError ("all " +:+ Itoa failures +:+ " destination(s) failed")))
  else
    (if failures >? 0
     then Warn (Itoa failures +:+ " of " +:+ Itoa (Z.of_nat (length destinations)) +:+ " destinations failed")
     else mret tt);;
    mret (Ok artifacts).

(** ** Verifying *)

Definition markMissing (a : Artifact) : M unit :=
  t ← now;
  _ ← SetStatus (art_ID a) ArtifactMissing t;
  publish (EvArtifactUpdated (set_art_Status ArtifactMissing a)).

Definition verifyOne (d : Destination) (a : Artifact) : M (option error) :=
  do? client := OpenDestination d else err => mret (Some err) in
  obj ← client_Stat client (art_Path a);
  match obj with
  | Fail err => markMissing a;; mret (Some err)
  | Ok None => markMissing a;; mret (Some (newError "object not found on destination"))
  | Ok (Some obj) =>
      if negb (obj_Size obj =? art_Size a) then
        markMissing a;;
        mret (Some (newError ("size mismatch: expected " +:+ Itoa (art_Size a) +:+ ", found " +:+ Itoa (obj_Size obj))))
      else
        t ← now;
        do? _ := SetVerified (art_ID a) t else err => mret (Some err) in
        publish (EvArtifactUpdated (set_art_VerifiedAt (Some t) a));;
        mret None
  end.

(** [byID]: the last destination of the list with the identifier. *)
Definition destinationByID (destinations : list Destination) (id : string) : option Destination :=
  List.find (λ d, String.eqb (dst_ID d) id) (reverse destinations).

Definition verifyArtifacts (destinations : list Destination) (artifacts : list Artifact) : M unit :=
  name ← stage "verify";
  problems ← forEach artifacts 0 (λ a problems,
    match destinationByID destinations (art_DestinationID a) with
    | None => mret problems
    | Some d =>
        err ← verifyOne d a;
        mret (match err with Some _ => problems + 1 | None => problems end)
    end);
  if problems >? 0 then
    let msg := Itoa problems +:+ " artifact(s) failed verification" in
    Warn msg;; stage_set name StageFailed msg
  else stage_Done name (Itoa (Z.of_nat (length artifacts)) +:+ " artifact(s) verified").

(** ** Retention *)

(** The loop of [pruneArtifacts] over an open client. *)
Fixpoint pruneLoop (client : Destination) (d : Destination) (remove : list Artifact) (removed : Z)
    (lastErr : option error) : M (Z * option error) :=
  match remove with
  | [] => mret (removed, lastErr)
  | a :: rest =>
      c ← ctxErr;
      match c with
      | Some err => mret (removed, Some err)
      | None =>
          err ← client_Delete client (art_Path a);
          match err with
          | Some err =>
              pruneLoop client d rest removed
                (Some (wrapError ("delete " +:+ art_Path a +:+ " on " +:+ dst_Name d) err))
          | None =>
              t ← now;
              r ← SetStatus (art_ID a) ArtifactPruned t;
              match r with
              | Fail err => pruneLoop client d rest removed (Some err)
              | Ok _ =>
                  publish (EvArtifactUpdated (set_art_Status ArtifactPruned a));;
                  pruneLoop client d rest (removed + 1) lastErr
              end
          end
      end
  end.

Definition pruneArtifacts (d : Destination) (remove : list Artifact) : M (Z * option error) :=
  do? client := OpenDestination d else err => mret (0, Some err) in
  pruneLoop client d remove 0 None.

(** One destination of [applyRetention]: the artifacts removed and the
    destinations that failed. *)
Definition retainOn (job : Job) (retention : Retention) (d : Destination) (acc : Z * Z) : M (Z * Z) :=
  let '(removed, problems) := acc in
  do? items := ForJobDestination (job_ID job) (dst_ID d) ArtifactPresent
    else err => mret (removed, problems + 1) in
  t ← now;
  let '(_, remove) := Plan items retention t in
  if bool_decide (remove = []) then mret (removed, problems)
  else
    r ← pruneArtifacts d remove;
    let '(n, err) := r in
    mret (removed + n, match err with Some _ => problems + 1 | None => problems end).

Definition applyRetention (job : Job) (destinations : list Destination) : M unit :=
  name ← stage "retention";
  settings ← engineSettings;
  let retention := EffectiveRetention job settings in
  if Retention_IsZero retention then stage_Done name "no retention configured"
  else
    r ← forEach destinations (0, 0) (retainOn job retention);
    let '(removed, problems) := r in
    if problems >? 0 then
      Warn "retention encountered errors";;
      stage_set name StageFailed
        (Itoa problems +:+ " destination(s) failed, " +:+ Itoa removed +:+ " artifact(s) removed")
    else stage_Done name (Itoa removed +:+ " artifact(s) removed").

(** ** Hooks *)

Definition runHook (name command : string) : M (result unit) :=
  if Blank command then skippedStage name "not configured";; mret (Ok tt)
  else
    s ← stage name;
    err ← ask env_hook;
    match err with
    | Some err => stage_Fail s (wrapError (name +:+ " failed") err)
    | None => stage_Done s "ok";; mret (Ok tt)
    end.

(** ** The run *)

(** What [prepare] settles. *)
Record Prepared := mkPrepared {
  pr_job : Job;
  pr_src : Source;
  pr_cfg : Config;
  pr_destinations : list Destination;
  pr_opts : PackOptions
}.

Definition prepareBackup (jobID : string) : M (result Prepared) :=
  prepare ← stage "prepare";
  do? job := JobRepo_Get jobID else err => stage_Fail prepare err in
  do? src := SourceRepo_Get (job_SourceID job) else err => stage_Fail prepare (wrapError "load source" err) in
  do? (_, srcCfg) := SourceRuntime src else err => stage_Fail prepare err in
  match source_Validate (src_Kind src) srcCfg with
  | Some err => stage_Fail prepare (wrapError ("source " +:+ src_Name src) err)
  | None =>
      do? destinations := loadDestinations job else err => stage_Fail prepare err in
      if bool_decide (destinations = []) then stage_Fail prepare (newError "job has no destinations")
      else
        match jobPassphrase job with
        | Fail err => stage_Fail prepare err
        | Ok passphrase =>
            let opts := mkPackOptions (job_Compression job) (job_CompressionLevel job) (job_Encryption job) passphrase in
            if bool_decide (po_Encryption opts = EncryptionAge) && bool_decide (po_Passphrase opts = "")
            then stage_Fail prepare (newError "encryption passphrase is required for age encryption")
            else
              stage_Done prepare (Itoa (Z.of_nat (length destinations)) +:+ " destination(s)");;
              mret (Ok (mkPrepared job src srcCfg destinations opts))
        end
  end.

(** [dump]: the stream of the source into a new spool.  The result is the file
    name and the spool. *)
Definition dumpToSpool (p : Prepared) : M (result (string * spool)) :=
  dump ← stage "dump";
  do? stream := ask env_backup else err => stage_Fail dump (wrapError "dump failed" err) in
  t ← now;
  let filename := BuildFilename (job_Slug (pr_job p)) (stream_Extension stream) t (pr_opts p) in
  run ← currentRun;
  os ← ask env_os;
  match newSpool os workDir (run_ID run) filename with
  | Fail err => stage_Fail dump err
  | Ok sp =>
      reads ← ask env_reads;
      os ← ask env_os;
      let '(sp, _, copyErr) := Fill os sp reads (stream_chunks stream) (stream_end stream) (pr_opts p) in
      match copyErr, stream_close stream with
      | Some err, _ => stage_Fail dump (wrapError "dump failed" err)
      | None, Some err => stage_Fail dump (wrapError "dump did not complete" err)
      | None, None =>
          stage_Done dump (Itoa (sp_RawBytes sp) +:+ " bytes read");;
          mret (Ok (filename, sp))
      end
  end.

Definition orNoneText (v : string) : string := if bool_decide (v = "") then "none" else v.

Definition packMessage (opts : PackOptions) (bytes : Z) : string :=
  (if passthrough opts then "pass-through"
   else "compression=" +:+ orNoneText (po_Compression opts) +:+ " encryption=" +:+ orNoneText (po_Encryption opts))
  +:+ ", " +:+ Itoa bytes +:+ " bytes".

(** From the packed spool to the end of the run. *)
Definition storeSpool (p : Prepared) (filename : string) (sp : spool) : M (result unit) :=
  pack ← stage "pack";
  setResult filename (sp_SHA256 sp) (sp_RawBytes sp) (sp_PackedBytes sp);;
  stage_Done pack (packMessage (pr_opts p) (sp_PackedBytes sp));;
  let path := BuildPath (job_Slug (pr_job p)) filename in
  do? artifacts := uploadAll (pr_job p) (pr_src p) (pr_destinations p) sp path filename (pr_opts p)
    else err => mret (Fail err) in
  (if job_VerifyAfterUpload (pr_job p) then verifyArtifacts (pr_destinations p) artifacts
   else skippedStage "verify" "disabled");;
  applyRetention (pr_job p) (pr_destinations p);;
  do? _ := runHook "post-command" (job_PostCommand (pr_job p)) else err => mret (Fail err) in
  n ← stage "notify";
  stage_Done n "queued";;
  mret (Ok tt).

(** The deferred removal of the spool directory changes nothing the model sees. *)
Definition runBackup (jobID : string) : M (result unit) :=
  do? p := prepareBackup jobID else err => mret (Fail err) in
  do? _ := runHook "pre-command" (job_PreCommand (pr_job p)) else err => mret (Fail err) in
  do? (filename, sp) := dumpToSpool p else err => mret (Fail err) in
  storeSpool p filename sp.

End runner.
