(* ===== verification/Sample.v ===== *)
(** * A small installation, for the witnesses

    One job that dumps one source to two destinations, with drivers that always
    answer, and an environment whose clock ticks once per question. *)
From S2P Require Import Prelude GoStrings GoTime GoSlices Core CoreSetters Config Secrets Pack Spool Db StoreCommon StoreJobs StoreRuns.
From S2P Require Import StoreConfig StoreAdmin RunState Drivers.
Open Scope Z_scope.

(** 2024-01-01T00:00:00Z. *)
Definition sampleTime : Time := 1704067200 * Second.

Definition sampleSpec (kind : string) : DriverSpec :=
  {| spec_Kind := kind; spec_Label := kind; spec_Description := ""; spec_Icon := ""; spec_Category := "";
     spec_Fields := []; spec_Capabilities := []; spec_Tools := []; spec_DocsURL := "" |}.

Definition sampleDrivers : Drivers := {|
  source_Get k := if String.eqb k "files" then Some (sampleSpec k) else None;
  dest_Get k := if String.eqb k "local" then Some (sampleSpec k) else None;
  notify_Get k := if String.eqb k "webhook" then Some (sampleSpec k) else None;
  source_Validate _ _ := None;
  dest_Validate _ _ := None;
  notify_Validate _ _ := None;
  source_Restorer k := String.eqb k "files"
|}.

Definition sampleDigest : Digest := λ s, "sum:" +:+ s.

Definition sampleSource : Source :=
  mkSource "s1" "home" "files" "" ∅ "" "" [] sampleTime sampleTime None None "" 0.

Definition sampleDestination (id name : string) : Destination :=
  mkDestination id name "local" "" ∅ [] sampleTime sampleTime None None "" 0 0 0.

Definition sampleJob : Job :=
  {| job_ID := "j1"; job_Slug := "home"; job_Name := "Home"; job_Description := ""; job_SourceID := "s1";
     job_DestinationIDs := ["d1"; "d2"]; job_Schedule := "0 3 * * *"; job_Timezone := "UTC"; job_Enabled := true;
     job_Compression := CompressionZstd; job_CompressionLevel := 3; job_Encryption := EncryptionAge;
     job_EncryptionPassphrase := "pw"; job_Retention := mkRetention 1 0 0 0 0 0 0;
     job_NotificationChannelIDs := []; job_NotifyOn := []; job_TimeoutMinutes := 0; job_Retries := 1;
     job_RetryDelaySeconds := 1; job_PreCommand := ""; job_PostCommand := ""; job_VerifyAfterUpload := false;
     job_ExpectedIntervalMinutes := 0; job_Tags := ["nightly"]; job_CreatedAt := sampleTime;
     job_UpdatedAt := sampleTime; job_SourceName := ""; job_SourceKind := ""; job_DestinationNames := [];
     job_LastRun := None; job_NextRunAt := None; job_Overdue := false; job_ArtifactCount := 0; job_TotalBytes := 0 |}.

Definition sampleRun : Run :=
  {| run_ID := "r1"; run_JobID := "j1"; run_JobSlug := "home"; run_JobName := "Home"; run_Kind := RunBackup;
     run_Trigger := TriggerManual; run_Status := RunRunning; run_QueuedAt := sampleTime;
     run_StartedAt := Some sampleTime; run_FinishedAt := None; run_DurationMS := 0; run_Bytes := 0;
     run_RawBytes := 0; run_SHA256 := ""; run_Filename := ""; run_Error := ""; run_Stages := [];
     run_ArtifactIDs := []; run_Attempt := 0; run_Meta := ∅; run_CreatedBy := "admin" |}.

Definition sampleArtifact (id dest : string) (age : Z) : Artifact :=
  {| art_ID := id; art_JobID := "j1"; art_JobSlug := "home"; art_JobName := "Home"; art_RunID := "r0";
     art_DestinationID := dest; art_DestinationName := dest; art_DestinationKind := "local";
     art_Path := "home/" +:+ id; art_Filename := id; art_Size := 3; art_SHA256 := "sum:abc";
     art_Compression := CompressionZstd; art_Encryption := EncryptionAge; art_SourceKind := "files";
     art_Extension := ".tar"; art_Status := ArtifactPresent; art_CreatedAt := sampleTime - age * Hour;
     art_VerifiedAt := None; art_DeletedAt := None; art_Meta := ∅ |}.

Definition emptyDB : DB := mkDB ∅ ∅ ∅ ∅ ∅ ∅ ∅ ∅ ∅ ∅ ∅ ∅ None ∅.

Definition sampleDB : DB :=
  set_db_sources {[ "s1" := sampleSource ]}
    (set_db_destinations {[ "d1" := sampleDestination "d1" "disk"; "d2" := sampleDestination "d2" "nas" ]}
      (set_db_jobs {[ "j1" := sampleJob ]}
        (set_db_runs {[ "r1" := sampleRun ]}
          (set_db_artifacts {[ "a1" := sampleArtifact "a1" "d1" 48; "a2" := sampleArtifact "a2" "d1" 24 ]} emptyDB)))).

Definition sampleWorld : World := mkWorld 0 sampleDB [] [] (newRunState sampleRun).

(** The dump is "abc" in two chunks. *)
Definition sampleEnv : Env := {|
  env_now k := sampleTime + Z.of_nat k * Second;
  env_id k := "id" +:+ Itoa (Z.of_nat k);
  env_db _ := None;
  env_ctx _ := None;
  env_driver _ := None;
  env_stat _ := Ok (Some (mkObject "home/a" 3 0 false));
  env_get _ := Ok (fullReader "abc");
  env_backup _ := Ok (mkStream ".tar" (-1) ∅ ["ab"; "c"] None None);
  env_hook _ := None;
  env_os _ := mkSpoolOS None (Ok (goodFile "")) None None;
  env_reads _ _ := None;
  env_fs _ := None;
  env_isDir _ := false;
  env_count _ := 3;
  env_busy _ := false;
  env_queue _ := None;
  env_rand k i := Ok "0123456789ab";
  env_int k i := Ok i;
  env_list _ := Ok [];
  env_cancel _ := true;
  env_keygen _ := Ok ("private", "ssh-ed25519 AAAA backvault@home");
  env_dial _ := None;
  env_exec _ := mkSessionRun "Linux" "" (SessExit 0);
  env_scheduler _ := true
|}.

(** ** Environments that differ in one answer *)

Definition set_env_get (v : nat -> result Reader) (r : Env) : Env :=
  {| env_now := env_now r; env_id := env_id r; env_db := env_db r; env_ctx := env_ctx r; env_driver
     := env_driver r; env_stat := env_stat r; env_get := v; env_backup := env_backup r; env_hook :=
     env_hook r; env_os := env_os r; env_reads := env_reads r; env_fs := env_fs r; env_isDir :=
     env_isDir r; env_count := env_count r; env_busy := env_busy r; env_queue := env_queue r;
     env_rand := env_rand r; env_int := env_int r; env_list := env_list r; env_cancel := env_cancel
     r; env_keygen := env_keygen r; env_dial := env_dial r; env_exec := env_exec r; env_scheduler :=
     env_scheduler r |}.

Definition set_env_queue (v : nat -> option error) (r : Env) : Env :=
  {| env_now := env_now r; env_id := env_id r; env_db := env_db r; env_ctx := env_ctx r; env_driver
     := env_driver r; env_stat := env_stat r; env_get := env_get r; env_backup := env_backup r;
     env_hook := env_hook r; env_os := env_os r; env_reads := env_reads r; env_fs := env_fs r;
     env_isDir := env_isDir r; env_count := env_count r; env_busy := env_busy r; env_queue := v;
     env_rand := env_rand r; env_int := env_int r; env_list := env_list r; env_cancel := env_cancel
     r; env_keygen := env_keygen r; env_dial := env_dial r; env_exec := env_exec r; env_scheduler :=
     env_scheduler r |}.

Definition set_env_db (v : nat -> option error) (r : Env) : Env :=
  {| env_now := env_now r; env_id := env_id r; env_db := v; env_ctx := env_ctx r; env_driver :=
     env_driver r; env_stat := env_stat r; env_get := env_get r; env_backup := env_backup r;
     env_hook := env_hook r; env_os := env_os r; env_reads := env_reads r; env_fs := env_fs r;
     env_isDir := env_isDir r; env_count := env_count r; env_busy := env_busy r; env_queue :=
     env_queue r; env_rand := env_rand r; env_int := env_int r; env_list := env_list r; env_cancel
     := env_cancel r; env_keygen := env_keygen r; env_dial := env_dial r; env_exec := env_exec r;
     env_scheduler := env_scheduler r |}.

Definition set_env_id (v : nat -> string) (r : Env) : Env :=
  {| env_now := env_now r; env_id := v; env_db := env_db r; env_ctx := env_ctx r; env_driver :=
     env_driver r; env_stat := env_stat r; env_get := env_get r; env_backup := env_backup r;
     env_hook := env_hook r; env_os := env_os r; env_reads := env_reads r; env_fs := env_fs r;
     env_isDir := env_isDir r; env_count := env_count r; env_busy := env_busy r; env_queue :=
     env_queue r; env_rand := env_rand r; env_int := env_int r; env_list := env_list r; env_cancel
     := env_cancel r; env_keygen := env_keygen r; env_dial := env_dial r; env_exec := env_exec r;
     env_scheduler := env_scheduler r |}.

#[export] Instance sampleAEAD : AEAD := xorAEAD.
#[export] Instance sampleCodecs : Codecs := tagCodecs.
#[export] Instance sampleCodecs_laws : CodecLaws sampleCodecs := tagCodecs_laws.
#[export] Existing Instance sampleDrivers.
#[export] Existing Instance sampleDigest.
