(* ===== verification/StoreFacts.v ===== *)
(** * Theorems on what the store keeps

    The state of a job across the ends of its runs, the text of a run log across
    its chunks, what the housekeeping removes, the slugs of the jobs and the
    bounds of the settings. *)
From S2P Require Import Prelude GoStrings GoTime GoSlices Core CoreSetters Config Retention Pack Spool Db StoreCommon StoreJobs StoreRuns.
From S2P Require Import StoreConfig StoreAdmin StoreIntegrity RunState Secrets Drivers Sample.
Open Scope Z_scope.

(** ** Integrity *)

(** The database stays consistent.  Whatever operations of the store run, in
    whatever order, with whatever failures of the database engine, every row is
    under its identifier; no two users share an address, no two tokens a
    secret, no two sources, destinations, hosts or channels a name, no two jobs
    a slug; every job has its source, every session its user, every state its
    job, every log its run; the chunks of a log are numbered from one without a
    gap; and the settings on record are normalised. *)
Theorem store_consistent db : written db -> consistent db.
Proof. induction 1 as [|A m env w _ IH Hm]; [apply empty_consistent|]. by apply (storeWrite_safe m Hm env w). Qed.

(** A source and a job that uses it, after which the source cannot go. *)
Lemma store_consistent_witness :
  let w0 := mkWorld 0 emptyDB [] [] (newRunState sampleRun) in
  let w1 := (SourceRepo_Create sampleSource sampleEnv w0).2 in
  let w2 := (JobRepo_Create sampleJob sampleEnv w1).2 in
  let w3 := (SourceRepo_Delete "s1" sampleEnv w2).2 in
  is_Some (db_jobs (w_db w3) !! "j1") ∧ is_Some (db_sources (w_db w3) !! "s1") ∧ consistent (w_db w3).
Proof.
  intros w0 w1 w2 w3. split; [vm_compute; by eexists|]. split; [vm_compute; by eexists|].
  apply store_consistent. repeat (apply written_step; [|constructor]). exact written_empty.
Defined.

(** ** Statements on a database that answers *)

Lemma do_query_ok {A B} (q : DB -> A) (k : A -> M (result B)) h env w :
  dbAnswers env ->
  mbind (M := M) (λ r, match r with Ok x => k x | Fail e => h e end) (query q) env w = k (q (w_db w)) env (tick w).
Proof. intros H. by rewrite bind_eq, query_ok. Qed.

(** The state of the jobs, and which jobs there are. *)
Definition jobStates (w : World) : gmap string JobState := db_job_state (w_db w).
Definition jobsOf (w : World) : gmap string Job := db_jobs (w_db w).

Lemma upsert_ok id f t env w :
  dbAnswers env -> is_Some (jobsOf w !! id) ->
  ∃ w', execWrite (upsertState id t f) env w = (Ok tt, w')
    ∧ jobStates w' = <[id := f (default (freshState id t) (jobStates w !! id))]> (jobStates w)
    ∧ jobsOf w' = jobsOf w ∧ w_rs w' = w_rs w.
Proof.
  intros Hdb Hj. rewrite execWrite_ok by done. unfold upsertState. rewrite bool_decide_eq_true_2 by done.
  by eexists.
Qed.

Lemma SetLastRun_ok id s at_ env w :
  dbAnswers env -> is_Some (jobsOf w !! id) ->
  ∃ w' t, SetLastRun id s at_ env w = (Ok tt, w')
    ∧ jobStates w' = <[id := applyLastRun s at_ t (default (freshState id t) (jobStates w !! id))]> (jobStates w)
    ∧ jobsOf w' = jobsOf w ∧ w_rs w' = w_rs w.
Proof.
  intros Hdb Hj. unfold SetLastRun. rewrite bind_eq. cbn [now ask fst snd]. rewrite bind_eq.
  destruct (upsert_ok id (applyLastRun s at_ (env_now env (w_tick w))) (env_now env (w_tick w)) env (tick w) Hdb Hj)
    as (w' & -> & H). by exists w', (env_now env (w_tick w)).
Qed.

Lemma SetOverdue_states id b n env w :
  dbAnswers env -> is_Some (jobsOf w !! id) ->
  ∃ w' t, SetOverdue id b n env w = (Ok tt, w')
    ∧ jobStates w' = <[id := applyOverdue b n t (default (freshState id t) (jobStates w !! id))]> (jobStates w)
    ∧ jobsOf w' = jobsOf w ∧ w_rs w' = w_rs w.
Proof.
  intros Hdb Hj. unfold SetOverdue. rewrite bind_eq. cbn [now ask fst snd]. rewrite bind_eq.
  destruct (upsert_ok id (applyOverdue b n (env_now env (w_tick w))) (env_now env (w_tick w)) env (tick w) Hdb Hj)
    as (w' & -> & H). by exists w', (env_now env (w_tick w)).
Qed.

Lemma JobRepo_Get_db id : keeps w_db (JobRepo_Get id).
Proof. frame. Qed.

(** Saving a run touches no job. *)
Lemma update_jobs fn env w :
  jobStates (update fn env w).2 = jobStates w ∧ jobsOf (update fn env w).2 = jobsOf w.
Proof.
  unfold update. rewrite bind_eq. cbn [getRS fst snd]. rewrite bind_eq. cbn [putRS fst snd]. rewrite bind_eq.
  set (w1 := set_w_rs _ w). unfold RunRepo_Save, execAffected. rewrite bind_eq. unfold execWrite.
  destruct (env_db env (w_tick w1)); [done|]. cbn [fst snd]. by destruct (updateId _ _ _).
Qed.

(** The state of a job after the end of one of its runs. *)
Definition stateAfter (run : Run) (t : Time) (old new : JobState) : Prop :=
  js_LastRun new = Some (Run_Summary run) ∧ js_LastDurationMS new = run_DurationMS run
  ∧ js_NextRunAt new = js_NextRunAt old
  ∧ if isSuccess (run_Status run)
    then js_LastSuccessAt new = coalesce (nullTime (Some t)) (js_LastSuccessAt old)
         ∧ js_Overdue new = false ∧ js_OverdueNotifiedAt new = None
    else js_LastSuccessAt new = js_LastSuccessAt old
         ∧ js_Overdue new = js_Overdue old ∧ js_OverdueNotifiedAt new = js_OverdueNotifiedAt old.

Lemma finishJob_states status t env w :
  let run := rs_run (w_rs w) in
  dbAnswers env -> run_JobID run ≠ "" -> is_Some (jobsOf w !! run_JobID run) -> run_Status run = status ->
  ∃ t' new, jobStates (finishJob status t env w).2 = <[run_JobID run := new]> (jobStates w)
    ∧ stateAfter run t (default (freshState (run_JobID run) t') (jobStates w !! run_JobID run)) new.
Proof.
  cbv zeta. intros Hdb Hid Hj Hst. unfold finishJob. rewrite bind_eq.
  change (currentRun env w) with (rs_run (w_rs w), w). cbn [fst snd].
  rewrite bool_decide_eq_false_2 by done. rewrite bind_eq.
  set (run := rs_run (w_rs w)) in *.
  destruct (SetLastRun_ok (run_JobID run) (Run_Summary run) (if isSuccess status then Some t else None) env w Hdb Hj)
    as (w1 & t1 & -> & Hs1 & Hj1 & _). cbn [fst snd]. rewrite bind_eq.
  assert (Hrest : ∀ w2 : World, jobStates ((job ← JobRepo_Get (run_JobID run);
      match job with Ok job => publish (EvJobUpdated job) | Fail _ => mret tt end) env w2).2 = jobStates w2).
  { intros w2. unfold jobStates. assert (keeps w_db (job ← JobRepo_Get (run_JobID run);
      match job with Ok job => publish (EvJobUpdated job) | Fail _ => mret tt end)) as K.
    { apply keeps_bind; [apply JobRepo_Get_db|]. intros [j|]; frame. }
    by rewrite K. }
  rewrite Hrest. exists t1. set (old := default (freshState _ t1) _).
  unfold stateAfter. rewrite Hst. destruct (isSuccess status).
  - rewrite bind_eq. destruct (SetOverdue_states (run_JobID run) false None env w1 Hdb) as (w2 & t2 & -> & Hs2 & _ & _).
    { by rewrite Hj1. }
    cbn [fst snd]. change (jobStates ((mret tt : M unit) env w2).2) with (jobStates w2).
    rewrite Hs2, Hs1, lookup_insert_eq. eexists. split; [by rewrite insert_insert_eq|]. done.
  - change (jobStates ((mret tt : M unit) env w1).2) with (jobStates w1). rewrite Hs1. eexists. split; [done|].
    cbn. done.
Qed.

(** the state of a job follows the end of its runs, and of its runs of any
    kind.  On a database that answers, when the run of a recorded job ends,
    [finish] sets the last run and duration of the job to those of the run; a
    success or a warning sets the last success to the end of the run and clears
    the overdue mark and its notice, and any other end leaves the three as they
    were; the next run and the states of the other jobs do not change.  The
    kind of the run does not matter: a verification counts like a backup. *)
Theorem finish_job_state runErr env w :
  dbAnswers env ->
  let job := run_JobID (rs_run (w_rs w)) in
  let r := (finish runErr env w).2 in
  job ≠ "" -> is_Some (jobsOf w !! job) ->
  ∃ t' new, jobStates r = <[job := new]> (jobStates w)
    ∧ stateAfter (rs_run (w_rs r)) (env_now env (w_tick w)) (default (freshState job t') (jobStates w !! job)) new.
Proof.
  cbv zeta. intros Hdb Hid Hj. unfold finish. rewrite !bind_eq. cbn [now ask ctxErr getRS fst snd]. simpl.
  destruct (outcome _ _ _ _ _ _) as [status message]. rewrite bind_eq. cbn [snd].
  set (t := env_now env (w_tick w)). set (u := update (endRun status message t) env (tick (tick (tick w)))).
  assert (Hrs : rs_run (w_rs u.2) = endRun status message t (rs_run (w_rs w))) by (unfold u; by rewrite update_rs).
  assert (Hjob : run_JobID (rs_run (w_rs u.2)) = run_JobID (rs_run (w_rs w))).
  { rewrite Hrs. unfold endRun. cbn. by destruct (run_StartedAt _). }
  assert (Hst : run_Status (rs_run (w_rs u.2)) = status).
  { rewrite Hrs. unfold endRun. cbn. by destruct (run_StartedAt _). }
  destruct (update_jobs (endRun status message t) env (tick (tick (tick w)))) as [Hs Hjs]. fold u in Hs, Hjs.
  rewrite finishJob_rs, <- Hjob. change (jobStates w) with (jobStates (tick (tick (tick w)))). rewrite <- Hs.
  apply finishJob_states; [done|by rewrite Hjob| |done].
  rewrite Hjs, Hjob. exact Hj.
Qed.

(** A verification of a job that was overdue. *)
Lemma finish_job_state_witness :
  let run := mkRun "r9" "j1" "home" "Home" RunVerify TriggerManual RunRunning
               sampleTime (Some sampleTime) None 0 0 0 "" "" "" [] [] 0 ∅ "admin" in
  let late := mkJobState "j1" None None 0 None true (Some sampleTime) sampleTime in
  let w := mkWorld 0 (set_db_job_state {[ "j1" := late ]} sampleDB) [] [] (newRunState run) in
  let r := (finish None sampleEnv w).2 in
  ∃ new, jobStates r = <["j1" := new]> (jobStates w)
    ∧ js_Overdue new = false ∧ is_Some (js_LastSuccessAt new).
Proof.
  intros run late w r.
  destruct (finish_job_state None sampleEnv w) as (t' & new & H1 & H2 & H3 & H4 & H5);
    [by intros k|done|vm_compute; by eexists|].
  exists new. split; [exact H1|]. assert (Hst : isSuccess (run_Status (rs_run (w_rs (finish None sampleEnv w).2))) = true) by by vm_compute.
  rewrite Hst in H5. destruct H5 as (L & O & _). split; [exact O|].
  rewrite L. by eexists.
Defined.

(** ** Logs *)

Definition logOf (id : string) (w : World) : list LogChunk := default [] (db_run_logs (w_db w) !! id).

Lemma numbered_sorted p l : numbered l -> StronglySorted (notLess bySeq) (List.filter p l).
Proof.
  induction l as [|c l IH] using rev_ind; intros H; [constructor|].
  pose proof (IH (numbered_app_l _ _ H)) as Hs. rewrite List.filter_app. simpl. destruct (p c); [|by rewrite app_nil_r].
  apply StronglySorted_app_2; [|done|repeat constructor].
  intros x y Hx Hy. apply list_elem_of_singleton in Hy as ->.
  apply list_elem_of_In, filter_In in Hx as [Hx _]. apply list_elem_of_In, list_elem_of_lookup in Hx as [i Hi].
  unfold notLess, bySeq. apply Z.ltb_ge. rewrite (H i x) by by apply lookup_app_l_Some.
  rewrite (H (length l) c) by by rewrite lookup_app_r, Nat.sub_diag.
  apply lookup_lt_Some in Hi. lia.
Qed.

Lemma logChunksAfter_numbered id n db :
  numbered (default [] (db_run_logs db !! id)) ->
  logChunksAfter id n db = List.filter (λ c, n <? chunk_Seq c) (default [] (db_run_logs db !! id)).
Proof. intros H. unfold logChunksAfter. apply SliceStable_id. by apply numbered_sorted. Qed.

Lemma chunksText_app l k : chunksText (l ++ k) = chunksText l +:+ chunksText k.
Proof. induction l as [|c l IH]; simpl; [done|]. by rewrite IH, sapp_assoc. Qed.

Lemma filter_positive l : numbered l -> List.filter (λ c, 0 <? chunk_Seq c) l = l.
Proof.
  intros H. apply forallb_filter_id, forallb_forall. intros c Hc.
  apply list_elem_of_In, list_elem_of_lookup in Hc as [i Hi]. apply Z.ltb_lt. rewrite (H i c Hi). lia.
Qed.

Lemma RunRepo_Log_numbered id env w :
  dbAnswers env -> numbered (logOf id w) -> RunRepo_Log id env w = (Ok (chunksText (logOf id w)), tick w).
Proof.
  intros Hdb Hn. unfold RunRepo_Log, LogChunks. rewrite bind_eq, do_query_ok by done. cbn [fst snd mret M_ret].
  rewrite logChunksAfter_numbered by done. fold (logOf id w). by rewrite filter_positive.
Qed.

(** a log is what was appended to it.  On a database that answers and whose
    chunks are numbered from one, appending to the log of a recorded run numbers
    the chunk with the next number and keeps the numbering; the log then reads
    as it did with the text at its end; a reader that has seen the chunks up to
    any earlier number gets, after its cursor, what it would have got before
    and then the new chunk; the logs of other runs do not change. *)
Theorem AppendLog_Log id text env w :
  dbAnswers env -> numbered (logOf id w) -> is_Some (db_runs (w_db w) !! id) ->
  let n := Z.of_nat (length (logOf id w)) in
  ∃ w', AppendLog id text env w = (Ok (n + 1), w')
    ∧ numbered (logOf id w')
    ∧ (RunRepo_Log id env w).1 = Ok (chunksText (logOf id w))
    ∧ (RunRepo_Log id env w').1 = Ok (chunksText (logOf id w) +:+ text)
    ∧ (∀ cursor, cursor <= n -> ∃ seen,
         (LogChunks id cursor env w).1 = Ok seen
         ∧ (LogChunks id cursor env w').1 = Ok (seen ++ [mkLogChunk (n + 1) text]))
    ∧ (∀ id', id' ≠ id -> logOf id' w' = logOf id' w).
Proof.
  cbv zeta. intros Hdb Hn Hr. unfold AppendLog. rewrite execWrite_ok by done. unfold appendLog.
  rewrite bool_decide_eq_true_2 by done. fold (logOf id w). rewrite lastSeq_numbered by done.
  set (c := mkLogChunk _ text). eexists. split; [done|].
  match goal with |- numbered (logOf id ?w1) ∧ _ => set (w' := w1) end.
  assert (Hl : logOf id w' = logOf id w ++ [c]) by (unfold logOf; simpl; by rewrite lookup_insert_eq).
  assert (Hn' : numbered (logOf id w')) by (rewrite Hl; by apply numbered_snoc).
  split_and!; [done|by rewrite RunRepo_Log_numbered| | |].
  - rewrite RunRepo_Log_numbered, Hl, chunksText_app by done. cbn. by rewrite sapp_nil_r.
  - intros cursor Hc. unfold LogChunks. rewrite !do_query_ok by done. cbn [fst mret M_ret].
    rewrite !logChunksAfter_numbered by done. fold (logOf id w) (logOf id w'). rewrite Hl, List.filter_app.
    eexists. split; [done|]. do 2 f_equal. simpl. by rewrite (proj2 (Z.ltb_lt _ _)) by lia.
  - intros id' Hne. unfold logOf. simpl. by rewrite lookup_insert_ne.
Qed.

Lemma AppendLog_Log_witness :
  ∃ w', AppendLog "r1" "done" sampleEnv sampleWorld = (Ok 1, w') ∧ (RunRepo_Log "r1" sampleEnv w').1 = Ok "done".
Proof.
  destruct (AppendLog_Log "r1" "done" sampleEnv sampleWorld) as (w' & H1 & _ & _ & H2 & _);
    [by intros k|by intros i c|vm_compute; by eexists|].
  by exists w'.
Defined.

(** ** Housekeeping *)

Lemma deleteWhere_lookup {A} (p : A -> bool) (t : gmap string A) i a :
  (deleteWhere p t).2 !! i = Some a <-> t !! i = Some a ∧ p a = false.
Proof. unfold deleteWhere. simpl. by rewrite map_lookup_filter_Some. Qed.

Lemma deleteWhere_count {A} (p : A -> bool) (t : gmap string A) :
  (deleteWhere p t).1 + Z.of_nat (size (deleteWhere p t).2) = Z.of_nat (size t).
Proof.
  unfold deleteWhere, countWhere, selectWhere. cbn [fst snd]. rewrite <- Nat2Z.inj_add. f_equal.
  induction t as [|i a t Hi IH] using map_ind; [done|].
  assert (Hp : map_to_list (<[i:=a]> t) ≡ₚ (i, a) :: map_to_list t) by by apply map_to_list_insert.
  assert (Hl : length (List.filter p (snd <$> map_to_list (<[i:=a]> t)))
               = ((if p a then 1 else 0) + length (List.filter p (snd <$> map_to_list t)))%nat).
  { transitivity (length (List.filter p (snd <$> (i, a) :: map_to_list t))).
    - apply Permutation_length. assert (Hf : ∀ l k : list A, l ≡ₚ k -> List.filter p l ≡ₚ List.filter p k).
      { induction 1; simpl; repeat case_match; eauto using Permutation. }
      apply Hf. by rewrite Hp.
    - simpl. by destruct (p a). }
  rewrite Hl, map_size_insert_None by done. destruct (p a) eqn:Pa.
  - rewrite map_filter_insert_False, delete_id by (try done; simpl; congruence). lia.
  - rewrite map_filter_insert_True by done. rewrite map_size_insert_None; [lia|].
    apply map_lookup_filter_None. by left.
Qed.

(** The first step of the cleanup. *)
Lemma cleanRuns_ok days cutoff env w :
  dbAnswers env ->
  ∃ n runs logs w', (if days >? 0 then RunRepo_DeleteOlderThan cutoff else mret (Ok 0)) env w = (Ok n, w')
    ∧ w_db w' = set_db_run_logs logs (set_db_runs runs (w_db w))
    ∧ (∀ i run, runs !! i = Some run <->
         db_runs (w_db w) !! i = Some run ∧ (days <= 0 ∨ isUnfinished run = true ∨ cutoff <= run_QueuedAt run))
    ∧ (∀ i, is_Some (runs !! i) -> logs !! i = db_run_logs (w_db w) !! i)
    ∧ n + Z.of_nat (size runs) = Z.of_nat (size (db_runs (w_db w))).
Proof.
  intros Hdb. destruct (days >? 0) eqn:Hd; rewrite Z.gtb_ltb in Hd.
  - unfold RunRepo_DeleteOlderThan. rewrite bind_eq, execWrite_ok by done. unfold deleteOldRuns.
    set (d := deleteWhere (oldRun cutoff) (db_runs (w_db w))). exists d.1, d.2. eexists _, _. split; [done|]. split; [done|]. split_and!.
    + intros i run. subst d. rewrite deleteWhere_lookup. unfold oldRun. apply Z.ltb_lt in Hd.
      rewrite andb_false_iff, negb_false_iff, Z.ltb_ge. split; intros [H1 H2]; (split; [exact H1|]); [tauto|].
      destruct H2 as [?|[?|?]]; [lia|by right|by left].
    + intros i Hi. apply option_eq. intros l. rewrite map_lookup_filter_Some. split; [by intros []|done].
    + apply deleteWhere_count.
  - apply Z.ltb_ge in Hd. exists 0, (db_runs (w_db w)), (db_run_logs (w_db w)), w.
    split_and!; [done|by destruct (w_db w)| |done|lia]. intros i run. split; [tauto|by intros []].
Qed.

(** The second. *)
Lemma cleanAudit_ok days cutoff env w :
  dbAnswers env ->
  ∃ n rows w', (if days >? 0 then AuditRepo_DeleteOlderThan cutoff else mret (Ok 0)) env w = (Ok n, w')
    ∧ w_db w' = set_db_audit rows (w_db w)
    ∧ (∀ i e, rows !! i = Some e <-> db_audit (w_db w) !! i = Some e ∧ (days <= 0 ∨ cutoff <= audit_Time e))
    ∧ n + Z.of_nat (size rows) = Z.of_nat (size (db_audit (w_db w))).
Proof.
  intros Hdb. destruct (days >? 0) eqn:Hd; rewrite Z.gtb_ltb in Hd.
  - unfold AuditRepo_DeleteOlderThan. rewrite bind_eq, execWrite_ok by done.
    set (d := deleteWhere (λ e, audit_Time e <? cutoff) (db_audit (w_db w))). exists d.1, d.2. eexists. split; [done|]. split; [done|]. split.
    + intros i e. subst d. rewrite deleteWhere_lookup, Z.ltb_ge. apply Z.ltb_lt in Hd. split; intros [H1 H2]; (split; [exact H1|]); [by right|lia].
    + apply deleteWhere_count.
  - apply Z.ltb_ge in Hd. exists 0, (db_audit (w_db w)), w. split_and!; [done|by destruct (w_db w)| |lia].
    intros i e. split; [tauto|by intros []].
Qed.

(** the cleanup removes what is past its term and nothing else.  On a
    database that answers, [Cleanup] succeeds; a run remains exactly when it was
    there and its history is kept for ever (zero days), or it is not finished,
    or it was queued within the days of the history; a remaining run keeps its
    log; an audit entry remains exactly when it is within its own days; a
    session remains exactly when it has not expired; artifacts, jobs and their
    state, sources, destinations and users are not touched; and the counts
    reported are the numbers of rows gone. *)
Theorem Cleanup_removes s t env w :
  dbAnswers env ->
  let cutoff days := AddDays t (- days) in
  ∃ res w', Cleanup s t env w = ((res, None), w')
    ∧ (∀ i run, db_runs (w_db w') !! i = Some run <->
         db_runs (w_db w) !! i = Some run
         ∧ (RunHistoryDays s <= 0 ∨ isUnfinished run = true ∨ cutoff (RunHistoryDays s) <= run_QueuedAt run))
    ∧ (∀ i, is_Some (db_runs (w_db w') !! i) -> db_run_logs (w_db w') !! i = db_run_logs (w_db w) !! i)
    ∧ (∀ i e, db_audit (w_db w') !! i = Some e <->
         db_audit (w_db w) !! i = Some e ∧ (AuditHistoryDays s <= 0 ∨ cutoff (AuditHistoryDays s) <= audit_Time e))
    ∧ (∀ i se, db_sessions (w_db w') !! i = Some se <-> db_sessions (w_db w) !! i = Some se ∧ t <= sess_ExpiresAt se)
    ∧ db_artifacts (w_db w') = db_artifacts (w_db w) ∧ db_jobs (w_db w') = db_jobs (w_db w)
    ∧ db_job_state (w_db w') = db_job_state (w_db w) ∧ db_sources (w_db w') = db_sources (w_db w)
    ∧ db_destinations (w_db w') = db_destinations (w_db w) ∧ db_users (w_db w') = db_users (w_db w)
    ∧ clean_Runs res + Z.of_nat (size (db_runs (w_db w'))) = Z.of_nat (size (db_runs (w_db w)))
    ∧ clean_Audit res + Z.of_nat (size (db_audit (w_db w'))) = Z.of_nat (size (db_audit (w_db w)))
    ∧ clean_Sessions res + Z.of_nat (size (db_sessions (w_db w'))) = Z.of_nat (size (db_sessions (w_db w))).
Proof.
  intros Hdb cutoff. unfold Cleanup. rewrite bind_eq.
  destruct (cleanRuns_ok (RunHistoryDays s) (cutoff (RunHistoryDays s)) env w Hdb)
    as (n1 & runs & logs & w1 & E1 & D1 & R1 & L1 & N1). unfold cutoff in E1. rewrite E1. cbn [fst snd]. clear E1.
  rewrite bind_eq. destruct (cleanAudit_ok (AuditHistoryDays s) (cutoff (AuditHistoryDays s)) env w1 Hdb)
    as (n2 & rows & w2 & E2 & D2 & A2 & N2). unfold cutoff in E2. rewrite E2. cbn [fst snd]. clear E2.
  rewrite bind_eq. unfold DeleteExpired. rewrite bind_eq, execWrite_ok by done. cbn [fst snd mret M_ret].
  rewrite D1 in D2, A2, N2. eexists _, _. split; [reflexivity|]. cbn. rewrite D2. cbn. cbn in A2, N2.
  split_and!; try done.
  - intros i se. pose proof (deleteWhere_lookup (λ s, sess_ExpiresAt s <? t) (db_sessions (w_db w)) i se) as H.
    by rewrite Z.ltb_ge in H.
  - exact (deleteWhere_count (λ s, sess_ExpiresAt s <? t) (db_sessions (w_db w))).
Qed.

(** A run queued a hundred days ago goes, a queued one stays. *)
Lemma Cleanup_removes_witness :
  let old := set_run_Status RunSuccess (set_run_ID "r0" (set_run_QueuedAt (sampleTime - 100 * Day) sampleRun)) in
  let stuck := set_run_Status RunQueued (set_run_ID "r2" old) in
  let w := mkWorld 0 (set_db_runs {[ "r0" := old; "r2" := stuck ]} emptyDB) [] [] (newRunState sampleRun) in
  ∃ res w', Cleanup DefaultSettings sampleTime sampleEnv w = ((res, None), w')
    ∧ (∀ i run, db_runs (w_db w') !! i = Some run <-> db_runs (w_db w) !! i = Some run
         ∧ (90 <= 0 ∨ isUnfinished run = true ∨ AddDays sampleTime (- 90) <= run_QueuedAt run))
    ∧ clean_Runs res + Z.of_nat (size (db_runs (w_db w'))) = 2.
Proof.
  intros old stuck w.
  destruct (Cleanup_removes DefaultSettings sampleTime sampleEnv w) as (res & w' & H1 & H2 & _ & _ & _ & _ & _ & _ & _ & _ & _ & H3 & _);
    [by intros k|].
  exists res, w'. split; [exact H1|]. split; [exact H2|]. exact H3.
Defined.
