(* ===== verification/RunnerUpload.v ===== *)
(** * Theorems on the upload half of the pipeline

    Backoff and attempts, and the link between what a run reports and what the
    destinations have received. *)
From S2P Require Import Prelude GoStrings GoTime GoSlices Core CoreSetters Config Secrets Pack Spool Db StoreCommon StoreJobs StoreRuns.
From S2P Require Import StoreConfig StoreAdmin RunState Drivers Retention Runner.
Open Scope Z_scope.

(** ** Backoff *)

Lemma backoffLoop_spec n wait :
  0 < wait < 2 ^ 62 -> backoffLoop n wait = Z.min (wait * 2 ^ Z.of_nat n) maxRetryBackoff.
Proof.
  revert wait. induction n as [|n IH]; intros wait Hw.
  - simpl. rewrite Z.gtb_ltb, Z.mul_1_r. destruct (Z.ltb_spec maxRetryBackoff wait); lia.
  - assert (H2 : wrap64 (wait * 2) = wait * 2) by (apply wrap64_id; unfold min_int64, max_int64; lia).
    assert (Hp : 0 < 2 ^ Z.of_nat n) by (apply Z.pow_pos_nonneg; lia).
    assert (E : wait * 2 ^ Z.of_nat (S n) = (wait * 2) * 2 ^ Z.of_nat n).
    { rewrite Nat2Z.inj_succ, Z.pow_succ_r by lia. lia. }
    cbn [backoffLoop]. rewrite H2, E, Z.geb_leb.
    assert (Hm : maxRetryBackoff < 2 ^ 62) by (vm_compute; done).
    destruct (Z.leb_spec maxRetryBackoff (wait * 2)) as [Hge|Hlt].
    + rewrite Z.min_r; [done|]. nia.
    + apply IH. lia.
Qed.

(** The wait before a retry doubles from the configured delay and is capped
    at ten minutes, for every delay below half the range of an int64 duration
    (146 years): no step of the computation overflows. *)
Theorem backoff_spec base step :
  0 < base < 2 ^ 62 -> 1 <= step ->
  backoff base step = Z.min (base * 2 ^ (step - 1)) maxRetryBackoff
  ∧ 0 < backoff base step <= maxRetryBackoff.
Proof.
  intros Hb Hs. unfold backoff. rewrite backoffLoop_spec, Z2Nat.id by lia.
  assert (0 < 2 ^ (step - 1)) by (apply Z.pow_pos_nonneg; lia).
  assert (0 < maxRetryBackoff) by done. split; [done|]. nia.
Qed.

Lemma backoff_spec_witness : backoff (5 * Second) 4 = 40 * Second ∧ 0 < backoff (5 * Second) 4 <= maxRetryBackoff.
Proof.
  apply (backoff_spec (5 * Second) 4); unfold Second; lia.
Defined.

(** The bound is needed: a delay of 2^62 nanoseconds or more wraps to a
    negative wait at the second retry. *)
Example backoff_overflow : backoff (2 ^ 62) 2 < 0.
Proof. by vm_compute. Qed.

Section upload.
  Context {A : AEAD} {C : Codecs} {D : Digest} {Dr : Drivers}.
  Context (workDir : string).

(** ** What an upload call leaves *)

(** [c] was made between [w] and [w']. *)
Definition newCall (c : Call) (w w' : World) : Prop := ∃ l, w_calls w' = w_calls w ++ l ∧ c ∈ l.

Lemma newCall_later c w w1 w2 : newCall c w w1 -> extends w1 w2 -> newCall c w w2.
Proof.
  intros (l1 & H1 & Hin) [[l2 H2] _ _ _]. exists (l1 ++ l2). split; [by rewrite H2, H1, app_assoc|].
  apply elem_of_app. by left.
Qed.

Lemma newCall_earlier c w0 w w' : extends w0 w -> newCall c w w' -> newCall c w0 w'.
Proof.
  intros [[l0 H0] _ _ _] (l & H & Hin). exists (l0 ++ l). split; [by rewrite H, H0, app_assoc|].
  apply elem_of_app. by right.
Qed.

Lemma OpenDestination_client d env w c :
  (OpenDestination d env w).1 = Ok c -> c = d.
Proof.
  unfold OpenDestination. destruct (DestinationConfig d) as [[spec cfg]|]; [|done].
  rewrite bind_eq. unfold driverCall, ask. simpl. destruct (env_driver env (w_tick w)); [done|]. by intros [= ->].
Qed.

Lemma putOnce_ext d path : ext (putOnce d path).
Proof. unfold putOnce. ext_tac. Qed.

Lemma putOnce_put d path env w :
  (putOnce d path env w).1 = None -> newCall (CallPut (dst_ID d) path) w (putOnce d path env w).2.
Proof.
  unfold putOnce. rewrite bind_eq. pose proof (OpenDestination_client d env w) as Hc.
  assert (Ha : extends w (OpenDestination d env w).2).
  { clear Hc. revert env w. change (ext (OpenDestination d)). ext_tac. }
  destruct (OpenDestination d env w) as [[c|err] w1]; simpl in *; [|done].
  rewrite (Hc c eq_refl). clear Hc. unfold client_Put, driverCall. rewrite !bind_eq. unfold ask. simpl.
  destruct (env_driver env (w_tick w1)); [done|]. simpl. rewrite !bind_eq. simpl.
  destruct (env_driver env _); simpl; [done|]. intros _. eapply newCall_earlier; [exact Ha|].
  exists [CallPut (dst_ID d) path]. split; [done|by left].
Qed.

Lemma uploadLoop_ext n attempt delay d path last : ext (uploadLoop n attempt delay d path last).
Proof.
  revert attempt last. induction n as [|n IH]; intros attempt last; simpl; [apply ext_ret|].
  pose proof (putOnce_ext d path). ext_tac; apply IH.
Qed.

Lemma uploadLoop_put n attempt delay d path last env w :
  last ≠ None -> (uploadLoop n attempt delay d path last env w).1 = None ->
  newCall (CallPut (dst_ID d) path) w (uploadLoop n attempt delay d path last env w).2.
Proof.
  revert attempt last w. induction n as [|n IH]; intros attempt last w Hl; simpl; [done|].
  rewrite bind_eq. change (ctxErr env w) with (env_ctx env (w_tick w), tick w). cbn [fst snd].
  destruct (env_ctx env (w_tick w)); [done|]. rewrite bind_eq.
  set (wait := if attempt >? 1 then _ else _).
  assert (Hw : extends w (wait env (tick w)).2).
  { assert (ext wait) as Ha by (subst wait; ext_tac). etrans; [|apply (Ha env (tick w))]. apply (ext_ask env_ctx env). }
  destruct (wait env (tick w)) as [[e|] w1]; [done|]. cbn [fst snd] in *.
  rewrite bind_eq. pose proof (putOnce_put d path env w1) as Hp.
  pose proof (putOnce_ext d path env w1) as Ha.
  destruct (putOnce d path env w1) as [[e|] w2]; cbn [fst snd] in *.
  - destruct (_ || _); [done|]. intros H. eapply newCall_earlier; [|by apply IH]. by etrans.
  - intros _. eapply newCall_earlier; [exact Hw|by apply Hp].
Qed.

Lemma uploadOne_put job d path env w :
  (uploadOne job d path env w).1 = None ->
  newCall (CallPut (dst_ID d) path) w (uploadOne job d path env w).2.
Proof.
  unfold uploadOne. assert (Hn : ∃ n, Z.to_nat (retryAttempts (job_Retries job)) = S n).
  { exists (Z.to_nat (retryAttempts (job_Retries job) - 1)). unfold retryAttempts.
    destruct (Z.ltb_spec (wrap64 (job_Retries job + 1)) 1); lia. }
  destruct Hn as [n ->]. intros H.
  (* the first attempt ignores the error before it *)
  change (uploadLoop (S n) 1 (retryDelay (job_RetryDelaySeconds job)) d path None env w)
    with (uploadLoop (S n) 1 (retryDelay (job_RetryDelaySeconds job)) d path (Some (newError "")) env w) in *.
  by apply uploadLoop_put.
Qed.

(** ** The artifacts of a run *)

(** [a] is an artifact of the run [rid] that holds the spool: its object was put
    on its destination since [w0] and it was published. *)
Record storedSince (w0 : World) (rid : string) (sp : spool) (a : Artifact) (w : World) : Prop := {
  st_put : newCall (CallPut (art_DestinationID a) (art_Path a)) w0 w;
  st_event : EvArtifactUpdated a ∈ w_events w;
  st_run : art_RunID a = rid;
  st_status : art_Status a = ArtifactPresent;
  st_size : art_Size a = sp_PackedBytes sp;
  st_sha : art_SHA256 a = sp_SHA256 sp
}.

Lemma storedSince_later w0 rid sp a w w' :
  extends w w' -> storedSince w0 rid sp a w -> storedSince w0 rid sp a w'.
Proof.
  intros He [H1 H2 H3 H4 H5 H6]. split; [|by eapply ext_event|done..]. by eapply newCall_later.
Qed.

Lemma storedSince_earlier w0 w rid sp a w' :
  extends w0 w -> storedSince w rid sp a w' -> storedSince w0 rid sp a w'.
Proof. intros He [H1 H2 H3 H4 H5 H6]. split; [|done..]. by eapply newCall_earlier. Qed.

Lemma uploadOne_ext job d path : ext (uploadOne job d path).
Proof. apply uploadLoop_ext. Qed.

Lemma ArtifactRepo_Create_ext a : ext (ArtifactRepo_Create a).
Proof. unfold ArtifactRepo_Create. ext_tac. Qed.

#[local] Hint Resolve uploadOne_ext ArtifactRepo_Create_ext : ext.

Lemma uploadTo_ext job src sp path filename opts d acc : ext (uploadTo job src sp path filename opts d acc).
Proof. unfold uploadTo. ext_tac. Qed.

(** The identifier is the only thing the repository adds to a dated artifact. *)
Lemma ArtifactRepo_Create_saved a env w saved :
  (ArtifactRepo_Create a env w).1 = Ok saved ->
  art_DestinationID saved = art_DestinationID a ∧ art_Path saved = art_Path a ∧ art_RunID saved = art_RunID a
  ∧ art_Status saved = art_Status a ∧ art_Size saved = art_Size a ∧ art_SHA256 saved = art_SHA256 a.
Proof.
  unfold ArtifactRepo_Create. rewrite bind_eq. set (id := (if bool_decide _ then _ else _)).
  destruct (id env w) as [i w1]. simpl. rewrite bind_eq. set (t := (if IsZero _ then _ else _)).
  destruct (t env w1) as [u w2]. simpl. rewrite bind_eq. destruct (execWrite _ env w2) as [[[]|e] w3]; [|done].
  by intros [= <-].
Qed.

(** One destination: the artifact it adds, if any, is stored. *)
Lemma uploadTo_step job src sp path filename opts d artifacts failures env w :
  let r := (uploadTo job src sp path filename opts d (artifacts, failures) env w).1 in
  let w' := (uploadTo job src sp path filename opts d (artifacts, failures) env w).2 in
  (r = (artifacts, failures + 1))
  ∨ (∃ a, r = (artifacts ++ [a], failures) ∧ storedSince w (run_ID (rs_run (w_rs w))) sp a w').
Proof.
  cbv zeta. unfold uploadTo. rewrite bind_eq.
  pose proof (stage_ext ("upload:" +:+ dst_Name d) env w) as E0.
  assert (Hname : (stage ("upload:" +:+ dst_Name d) env w).1 = "upload:" +:+ dst_Name d).
  { unfold stage. by rewrite !bind_eq. }
  destruct (stage ("upload:" +:+ dst_Name d) env w) as [name w1]. cbn [fst snd] in *. clear Hname.
  rewrite bind_eq. pose proof (uploadOne_put job d path env w1) as Hput.
  pose proof (uploadOne_ext job d path env w1) as E1.
  destruct (uploadOne job d path env w1) as [[err|] w2]; cbn [fst snd] in *.
  { left. by rewrite bind_eq. }
  specialize (Hput eq_refl). rewrite bind_eq.
  change (currentRun env w2) with (rs_run (w_rs w2), w2). cbn [fst snd]. rewrite bind_eq.
  change (now env w2) with (env_now env (w_tick w2), tick w2). cbn [fst snd]. rewrite bind_eq.
  set (a0 := newArtifact _ _ _ _ _ _ _ _ _).
  pose proof (ArtifactRepo_Create_saved a0 env (tick w2)) as Hs.
  pose proof (ArtifactRepo_Create_ext a0 env (tick w2)) as E2.
  destruct (ArtifactRepo_Create a0 env (tick w2)) as [[saved|err] w3]; cbn [fst snd] in *.
  2: { left. by rewrite bind_eq. }
  specialize (Hs saved eq_refl). right. exists saved.
  rewrite bind_eq. set (w4 := (addArtifact saved env w3).2). rewrite bind_eq. cbn [fst snd mret M_ret].
  split; [done|].
  assert (E3 : extends w3 w4) by apply addArtifact_ext.
  pose proof (stage_Done_ext name (Itoa (sp_PackedBytes sp) +:+ " bytes") env w4) as E4.
  assert (E23 : extends w2 w3).
  { etrans; [|exact E2]. apply (ext_ask env_now env). }
  apply (storedSince_later _ _ _ _ w4); [exact E4|]. destruct Hs as (H1 & H2 & H3 & H4 & H5 & H6).
  split.
  - rewrite H1, H2. eapply newCall_later; [|etrans; [exact E23|exact E3]]. by eapply newCall_earlier.
  - subst w4. unfold addArtifact. rewrite bind_eq. simpl. apply elem_of_app. right. by left.
  - rewrite H3. subst a0. simpl. rewrite (ext_run _ _ E1). apply (ext_run _ _ E0).
  - by rewrite H4.
  - by rewrite H5.
  - by rewrite H6.
Qed.

(** The loop: every artifact collected is stored, and every destination either
    added one or failed. *)
Lemma uploadAll_loop job src sp path filename opts destinations env w :
  let r := forEach destinations ([], 0) (uploadTo job src sp path filename opts) env w in
  extends w r.2 ∧ Forall (λ a, storedSince w (run_ID (rs_run (w_rs w))) sp a r.2) r.1.1
  ∧ Z.of_nat (length r.1.1) + r.1.2 = Z.of_nat (length destinations) ∧ 0 <= r.1.2.
Proof.
  cbv zeta.
  pose proof (forEach_rule (λ done acc w',
      extends w w' ∧ Forall (λ a, storedSince w (run_ID (rs_run (w_rs w))) sp a w') acc.1
      ∧ Z.of_nat (length acc.1) + acc.2 = Z.of_nat (length done) ∧ 0 <= acc.2)
    (uploadTo job src sp path filename opts)) as R.
  apply (R) with (l := destinations) (pre := []) (acc := ([], 0)); [|split_and!; [done|by constructor|done|done]].
  clear R. intros pre d [artifacts failures] e w1 (E & F & Hl & Hf). cbn [fst snd] in *.
  pose proof (uploadTo_ext job src sp path filename opts d (artifacts, failures) e w1) as E1.
  assert (F' : Forall (λ a, storedSince w (run_ID (rs_run (w_rs w))) sp a
                 (uploadTo job src sp path filename opts d (artifacts, failures) e w1).2) artifacts).
  { eapply Forall_impl; [exact F|]. intros a. by apply storedSince_later. }
  rewrite length_app. cbn [length].
  destruct (uploadTo_step job src sp path filename opts d artifacts failures e w1) as [-> | (a & -> & Ha)];
    cbn [fst snd]; (split; [by etrans|]).
  - split_and!; [done|lia|lia].
  - rewrite length_app. cbn [length]. split_and!; [|lia|done]. apply Forall_app. split; [done|]. constructor; [|done].
    rewrite <- (ext_run _ _ E). by apply (storedSince_earlier w w1).
Qed.

(** When [uploadAll] returns, every artifact it returns is stored, the artifacts
    and the failures add up to the destinations, and if there was a destination
    there is an artifact. *)
Lemma uploadAll_stored job src destinations sp path filename opts env w artifacts :
  (uploadAll job src destinations sp path filename opts env w).1 = Ok artifacts ->
  let w' := (uploadAll job src destinations sp path filename opts env w).2 in
  Forall (λ a, storedSince w (run_ID (rs_run (w_rs w))) sp a w') artifacts
  ∧ (length artifacts <= length destinations)%nat
  ∧ (destinations ≠ [] -> artifacts ≠ [])
  ∧ ((length artifacts < length destinations)%nat -> rs_warned (w_rs w') = true).
Proof.
  unfold uploadAll. rewrite bind_eq. pose proof (uploadAll_loop job src sp path filename opts destinations env w) as L.
  destruct (forEach _ _ _ env w) as [[arts failures] w1]. simpl in L. destruct L as (E & F & Hl & Hf).
  cbn [fst snd]. destruct ((failures >? 0) && bool_decide (arts = [])) eqn:B; [done|].
  rewrite bind_eq. cbn [fst snd mret M_ret]. intros [= <-].
  set (warn := if failures >? 0 then _ else _).
  assert (Ew : extends w1 (warn env w1).2).
  { assert (ext warn) as Hx by (subst warn; ext_tac). apply Hx. }
  split_and!.
  - eapply Forall_impl; [exact F|]. intros a. by apply storedSince_later.
  - lia.
  - intros Hd ->. simpl in Hl. rewrite bool_decide_eq_true_2, andb_true_r in B by done.
    rewrite Z.gtb_ltb in B. boolean. destruct destinations; [done|]. simpl in Hl. lia.
  - intros Hlt. subst warn. rewrite Z.gtb_ltb. replace (0 <? failures) with true by (symmetry; apply Z.ltb_lt; lia).
    unfold Warn. by rewrite bind_eq.
Qed.

End upload.
