(* ===== verification/RunnerBackup.v ===== *)
(** * A successful backup: the theorem on [runBackup]

    What the pipeline as a whole promises, from the lemmas on its stages. *)
From S2P Require Import Prelude GoStrings GoTime GoSlices Core CoreSetters Config Secrets Pack Spool Db StoreCommon StoreJobs StoreRuns.
From S2P Require Import StoreConfig StoreAdmin RunState Drivers Retention Runner RunnerUpload Sample.
Open Scope Z_scope.

Section backup.
  Context {A : AEAD} {C : Codecs} {D : Digest} {Dr : Drivers}.
  Context (workDir : string).

(** ** Every stage only adds to the world *)

#[local] Hint Unfold currentRun prepareBackup loadDestinations SourceRepo_Get DestinationRepo_Get JobRepo_Get oneJob
  enrichJobs runHook dumpToSpool uploadAll verifyArtifacts verifyOne markMissing SetStatus SetVerified
  applyRetention retainOn pruneArtifacts ForJobDestination storeSpool : ops.
#[local] Hint Resolve uploadTo_ext : ext.

Lemma prepareBackup_ext jobID : ext (prepareBackup jobID).
Proof. ext_tac. Qed.

Lemma runHook_ext name cmd : ext (runHook name cmd).
Proof. ext_tac. Qed.

Lemma dumpToSpool_ext p : ext (dumpToSpool workDir p).
Proof. ext_tac. Qed.

Lemma uploadAll_ext job src ds sp path filename opts : ext (uploadAll job src ds sp path filename opts).
Proof. ext_tac. Qed.

Lemma verifyArtifacts_ext ds l : ext (verifyArtifacts ds l).
Proof. ext_tac. Qed.

Lemma pruneLoop_ext c d l n e : ext (pruneLoop c d l n e).
Proof. revert n e. induction l as [|a l IH]; intros n e; simpl; [apply ext_ret|]. ext_tac; apply IH. Qed.

#[local] Hint Resolve pruneLoop_ext : ext.

Lemma applyRetention_ext job ds : ext (applyRetention job ds).
Proof. ext_tac. Qed.

(** ** What the stages hand on *)

(** [prepare] hands on at least one destination. *)
Lemma prepareBackup_ok jobID env w p :
  (prepareBackup jobID env w).1 = Ok p -> pr_destinations p ≠ [].
Proof.
  unfold prepareBackup. rewrite bind_eq. intros H.
  ok_step H job H1. ok_step H src H2. ok_step H cfg H3. destruct cfg as [spec cfg].
  destruct (source_Validate _ _); [by rewrite stage_Fail_result in H|].
  ok_step H ds H4. destruct (bool_decide (ds = [])) eqn:B; [by rewrite stage_Fail_result in H|].
  destruct (jobPassphrase _); [|by rewrite stage_Fail_result in H].
  destruct (_ && _); [by rewrite stage_Fail_result in H|].
  rewrite bind_eq in H. cbn [fst mret M_ret] in H. injection H as <-. by boolean.
Qed.

(** The file system under the spool: a file that [os.OpenFile] has created is
    empty and keeps the contract of [io.Writer]. *)
Definition soundOS (env : Env) : Prop :=
  ∀ k f, os_OpenFile (env_os env k) = Ok f -> file_data f = "" ∧ sane f.

(** The dump the source gave in this environment, whole, and its close clean. *)
Record dumped (env : Env) (sp : spool) (opts : PackOptions) (stream : Stream) : Prop := {
  dump_from : ∃ k, env_backup env k = Ok stream;
  dump_closed : stream_close stream = None;
  dump_spool : ∃ file, filledWith sp file (stream_chunks stream) (stream_end stream) opts
}.

Lemma dumpToSpool_ok p env w filename sp :
  soundOS env -> (dumpToSpool workDir p env w).1 = Ok (filename, sp) ->
  ∃ stream, dumped env sp (pr_opts p) stream.
Proof.
  intros Hos. unfold dumpToSpool. rewrite bind_eq. intros H. ok_step H stream Hstream.
  cbn [fst ask] in Hstream. exists stream.
  rewrite bind_eq in H. cbn [fst snd now ask] in H. rewrite bind_eq in H. rewrite bind_eq in H.
  cbn [fst snd ask] in H. destruct (newSpool _ _ _ _) as [s0|]; [|by rewrite stage_Fail_result in H].
  rewrite !bind_eq in H. cbn [fst snd ask] in H.
  destruct (Fill _ _ _ _ _ _) as [[s' file] copyErr] eqn:HF.
  destruct copyErr as [|]; [by rewrite stage_Fail_result in H|].
  destruct (stream_close stream) eqn:Hcl; [by rewrite stage_Fail_result in H|].
  rewrite bind_eq in H. cbn [fst mret M_ret] in H. injection H as <- <-.
  split; [by eexists|done|]. exists file. eapply Fill_filled; [|exact HF]. intros f. apply Hos.
Qed.

(** What follows the uploads keeps what they left. *)
Lemma storeSpool_ok p filename sp env w :
  (storeSpool p filename sp env w).1 = Ok tt -> pr_destinations p ≠ [] ->
  let w' := (storeSpool p filename sp env w).2 in
  ∃ artifacts, artifacts ≠ []
  ∧ Forall (λ a, storedSince w (run_ID (rs_run (w_rs w))) sp a w') artifacts
  ∧ (length artifacts <= length (pr_destinations p))%nat
  ∧ ((length artifacts < length (pr_destinations p))%nat -> rs_warned (w_rs w') = true).
Proof.
  cbv zeta. unfold storeSpool. intros H Hd. rewrite bind_eq in *.
  pose proof (stage_ext "pack" env w) as E1. set (w1 := (stage "pack" env w).2) in *. rewrite bind_eq in *.
  set (m := setResult _ _ _ _) in *. assert (E2 : extends w1 (m env w1).2) by apply setResult_ext.
  set (w2 := (m env w1).2) in *. rewrite bind_eq in *.
  pose proof (stage_Done_ext (stage "pack" env w).1 (packMessage (pr_opts p) (sp_PackedBytes sp)) env w2) as E3.
  set (w3 := (stage_Done _ _ env w2).2) in *. ok_step H artifacts Hu.
  destruct (uploadAll_stored _ _ _ _ _ _ _ _ _ _ Hu) as (F & Hl & Hne & Hw).
  assert (E : extends w w3) by (etrans; [exact E1|]; etrans; [exact E2|exact E3]).
  set (w4 := (uploadAll _ _ _ _ _ _ _ env w3).2) in *. clearbody w4.
  match goal with |- context [(?k env w4).2] => set (rest := k); assert (Ek : ext rest) end.
  { subst rest. clear. pose proof (applyRetention_ext (pr_job p) (pr_destinations p)).
    pose proof (runHook_ext "post-command" (job_PostCommand (pr_job p))).
    pose proof (verifyArtifacts_ext (pr_destinations p) artifacts). ext_tac. }
  specialize (Ek env w4). exists artifacts. split_and!; [by apply Hne| |done|].
  - eapply Forall_impl; [exact F|]. intros a Ha. apply (storedSince_earlier w w3); [exact E|].
    rewrite <- (ext_run _ _ E). eapply storedSince_later; [exact Ek|exact Ha].
  - intros Hlt. apply (ext_warned _ _ Ek). by apply Hw.
Qed.

(** C2: a backup that succeeds is stored, whole.  When [runBackup] returns no
    error: the source's stream was read to its end and closed cleanly; at least
    one artifact was recorded, and every artifact recorded belongs to the run,
    is published, was put on its destination during the run, has the size and
    the checksum of the packed stream; that packed stream opens, under the
    options of the job, to exactly the bytes of the dump; and when fewer
    artifacts than destinations were recorded, the run is warned. *)
Theorem runBackup_stores {L : CodecLaws C} jobID env w :
  soundOS env -> (runBackup workDir jobID env w).1 = Ok tt ->
  let w' := (runBackup workDir jobID env w).2 in
  ∃ p sp stream artifacts mc,
    (prepareBackup jobID env w).1 = Ok p
    ∧ dumped env sp (pr_opts p) stream ∧ stream_end stream = None
    ∧ artifacts ≠ [] ∧ Forall (λ a, storedSince w (run_ID (rs_run (w_rs w))) sp a w') artifacts
    ∧ (length artifacts <= length (pr_destinations p))%nat
    ∧ ((length artifacts < length (pr_destinations p))%nat -> rs_warned (w_rs w') = true)
    ∧ newPackWriter (pr_opts p) = Ok mc
    ∧ let dump := concatChunks (stream_chunks stream) in
      sp_RawBytes sp = Z.of_nat (String.length dump)
      ∧ sp_PackedBytes sp = Z.of_nat (String.length (packed mc dump))
      ∧ sp_SHA256 sp = sha256_hex (packed mc dump)
      ∧ newUnpackReader (fullReader (packed mc dump)) (pr_opts p) = Ok (fullReader dump).
Proof.
  intros Hos. cbv zeta. unfold runBackup. intros H.
  pose proof (prepareBackup_ext jobID env w) as E1.
  ok_step H p Hp. pose proof (runHook_ext "pre-command" (job_PreCommand (pr_job p)) env (prepareBackup jobID env w).2) as E2.
  ok_step H u Hu. revert H E2. set (w2 := (runHook _ _ env _).2). intros H E2.
  pose proof (dumpToSpool_ext p env w2) as E3. ok_step H fs Hd. destruct fs as [filename sp].
  destruct (dumpToSpool_ok _ _ _ _ _ Hos Hd) as [stream Hs]. revert H E3. set (w3 := (dumpToSpool _ p env w2).2). intros H E3.
  assert (E : extends w w3) by (etrans; [exact E1|]; etrans; [exact E2|exact E3]).
  destruct (storeSpool_ok _ _ _ _ _ H (prepareBackup_ok _ _ _ _ Hp)) as (artifacts & Hne & F & Hl & Hw).
  destruct (dump_spool _ _ _ _ Hs) as [file [He (mc & f & Hmc & _ & Hf & Hpb & Hsha) Hraw]].
  exists p, sp, stream, artifacts, mc. rewrite <- Hf. split_and!; try done.
  - eapply Forall_impl; [exact F|]. intros a Ha. rewrite <- (ext_run _ _ E). by eapply storedSince_earlier.
  - rewrite Hf. by apply unpack_packed.
Qed.
End backup.

Lemma runBackup_stores_witness :
  (runBackup "/w" "j1" sampleEnv sampleWorld).1 = Ok tt
  ∧ let w' := (runBackup "/w" "j1" sampleEnv sampleWorld).2 in
  ∃ p sp stream artifacts mc,
    (prepareBackup "j1" sampleEnv sampleWorld).1 = Ok p
    ∧ dumped sampleEnv sp (pr_opts p) stream ∧ stream_end stream = None
    ∧ artifacts ≠ [] ∧ Forall (λ a, storedSince sampleWorld "r1" sp a w') artifacts
    ∧ (length artifacts <= length (pr_destinations p))%nat
    ∧ ((length artifacts < length (pr_destinations p))%nat -> rs_warned (w_rs w') = true)
    ∧ newPackWriter (pr_opts p) = Ok mc
    ∧ let dump := concatChunks (stream_chunks stream) in
      sp_RawBytes sp = Z.of_nat (String.length dump)
      ∧ sp_PackedBytes sp = Z.of_nat (String.length (packed mc dump))
      ∧ sp_SHA256 sp = sha256_hex (packed mc dump)
      ∧ newUnpackReader (fullReader (packed mc dump)) (pr_opts p) = Ok (fullReader dump).
Proof.
  split; [vm_compute; reflexivity|].
  apply (runBackup_stores "/w" "j1" sampleEnv sampleWorld).
  - intros k f [= <-]. split; [reflexivity|]. split; [intros data p _; reflexivity|intros data p; simpl; lia].
  - vm_compute. reflexivity.
Defined.
