(* ===== verification/RunnerRetention.v ===== *)
(** * Theorems on the retention and verification stages of the pipeline

    What [applyRetention] may do to the artifacts of a job, and what
    [verifyOne] concludes from what a destination answers. *)
From S2P Require Import Prelude GoStrings GoTime GoSlices Core CoreSetters Config Secrets Pack Spool Db StoreCommon StoreJobs StoreRuns.
From S2P Require Import StoreConfig StoreAdmin RunState Drivers Retention Runner RunnerUpload RunnerBackup Sample.
Open Scope Z_scope.

(** The artifacts on record. *)
Definition arts (w : World) : gmap string Artifact := db_artifacts (w_db w).

(** Every row is under its identifier. *)
Definition artsWf (w : World) : Prop := map_Forall (λ i a, art_ID a = i) (arts w).

Definition present (a : Artifact) : Prop := art_Status a = ArtifactPresent.

(** An artifact of a job on a destination. *)
Definition sameSeries (a b : Artifact) : Prop :=
  art_JobID b = art_JobID a ∧ art_DestinationID b = art_DestinationID a.

Section retention.
  Context {A : AEAD} {C : Codecs} {D : Digest} {Dr : Drivers}.

(** ** Frames: what leaves the artifacts alone *)

Lemma arts_ask {X} (q : Env -> nat -> X) : keeps arts (ask q).
Proof. by intros env w. Qed.
Lemma arts_query {X} (q : DB -> X) : keeps arts (query q).
Proof. intros env w. unfold query. by case_match. Qed.
Lemma arts_publish ev : keeps arts (publish ev).
Proof. by intros env w. Qed.
Lemma arts_record c : keeps arts (record c).
Proof. by intros env w. Qed.
Lemma arts_putRS rs : keeps arts (putRS rs).
Proof. by intros env w. Qed.

Lemma arts_exec {X} (q : DB -> result (X * DB)) :
  (∀ db a db', q db = Ok (a, db') -> db_artifacts db' = db_artifacts db) -> keeps arts (execWrite q).
Proof.
  intros Hq env w. unfold execWrite. case_match; [done|].
  destruct (q (w_db w)) as [[a db']|] eqn:E; [|done]. simpl. by eapply Hq.
Qed.

#[local] Hint Resolve arts_ask arts_query arts_publish arts_record arts_putRS : frame.

Lemma arts_Save r : keeps arts (RunRepo_Save r).
Proof.
  unfold RunRepo_Save, execAffected. apply keeps_bind; [|intros [n|e]; apply keeps_ret].
  apply arts_exec. intros db a db'. destruct (updateId _ _ _). by intros [= _ <-].
Qed.

Lemma arts_update fn : keeps arts (update fn).
Proof. pose proof arts_Save. unfold update. frame. Qed.
#[local] Hint Resolve arts_update : frame.

Lemma arts_stage name : keeps arts (stage name). Proof. unfold stage. frame. Qed.
Lemma arts_stage_set name st msg : keeps arts (stage_set name st msg). Proof. unfold stage_set. frame. Qed.
Lemma arts_Warn msg : keeps arts (Warn msg). Proof. unfold Warn. frame. Qed.
Lemma arts_settings : keeps arts engineSettings. Proof. unfold engineSettings, SettingsRepo_Get. frame. Qed.
Lemma arts_Open d : keeps arts (OpenDestination d). Proof. unfold OpenDestination. frame. Qed.
Lemma arts_client_Delete c path : keeps arts (client_Delete c path). Proof. unfold client_Delete. frame. Qed.

Lemma arts_List j d s env w : arts (ForJobDestination j d s env w).2 = arts w.
Proof. unfold ForJobDestination. apply (keeps_bind arts); [apply arts_query|intros [?|?]; apply keeps_ret]. Qed.

(** ** One pass *)

(** [a'] is the row [a] after it was pruned. *)
Definition prunedRow (a a' : Artifact) : Prop :=
  art_Status a' = ArtifactPruned ∧ art_ID a' = art_ID a ∧ art_Path a' = art_Path a
  ∧ art_JobID a' = art_JobID a ∧ art_DestinationID a' = art_DestinationID a
  ∧ art_CreatedAt a' = art_CreatedAt a ∧ is_Some (art_DeletedAt a').

(** The status of a row is set only after its object was deleted. *)
Lemma SetStatus_arts id status t env w :
  arts (SetStatus id status t env w).2 = arts w
  ∨ arts (SetStatus id status t env w).2 = (updateId id (applyStatus status t) (arts w)).2.
Proof.
  unfold SetStatus, execAffected. rewrite bind_eq. unfold execWrite.
  destruct (env_db env (w_tick w)); [by left|].
  destruct (updateId id (applyStatus status t) (db_artifacts (w_db w))) as [n t'] eqn:E.
  right. unfold arts at 2. rewrite E. done.
Qed.

Lemma updateId_lookup {X} (i : string) (f : X -> X) t j :
  (updateId i f t).2 !! j = if String.eqb i j then f <$> t !! j else t !! j.
Proof.
  unfold updateId. destruct (String.eqb_spec i j) as [<-|Hne]; destruct (t !! i) as [a|] eqn:E; simpl;
    by rewrite ?lookup_insert_eq, ?lookup_insert_ne, ?E.
Qed.

(** What the loop over [remove] may have done to the row [i]. *)
Definition loopRow (client : Destination) (remove : list Artifact) (w w' : World) (i : string) : Prop :=
  arts w' !! i = arts w !! i
  ∨ (∃ r a a', r ∈ remove ∧ art_ID r = i ∧ arts w !! i = Some a ∧ arts w' !! i = Some a' ∧ prunedRow a a'
     ∧ newCall (CallDelete (dst_ID client) (art_Path r)) w w').

Lemma prunedRow_apply a t : prunedRow a (applyStatus ArtifactPruned t a).
Proof. unfold prunedRow, applyStatus. destruct a; simpl. by split_and!; [done..|eexists]. Qed.

Lemma prunedRow_trans a b c : prunedRow a b -> prunedRow b c -> prunedRow a c.
Proof. unfold prunedRow. intuition congruence. Qed.

Lemma loopRow_trans c remove w1 w2 w3 i :
  extends w1 w2 -> extends w2 w3 -> loopRow c remove w1 w2 i -> loopRow c remove w2 w3 i -> loopRow c remove w1 w3 i.
Proof.
  intros E1 E2 [H1|(r & a & a' & Hr & Hi & Ha & Ha' & Hp & Hc)] [H2|(r2 & b & b' & Hr2 & Hi2 & Hb & Hb' & Hp2 & Hc2)].
  - left. congruence.
  - right. exists r2, b, b'. split_and!; try done; [congruence|by eapply newCall_earlier].
  - right. exists r, a, a'. split_and!; try done; [congruence|by eapply newCall_later].
  - right. exists r2, a, b'. split_and!; try done; [|by eapply newCall_earlier].
    replace b with a' in * by congruence. by eapply prunedRow_trans.
Qed.

Lemma loopRow_cons c r remove w w' i : loopRow c remove w w' i -> loopRow c (r :: remove) w w' i.
Proof.
  intros [H|(r' & a & a' & Hr & ?)]; [by left|right]. exists r', a, a'. split; [by right|done].
Qed.

Lemma client_Delete_call c path env w :
  (client_Delete c path env w).1 = None -> newCall (CallDelete (dst_ID c) path) w (client_Delete c path env w).2.
Proof.
  unfold client_Delete. rewrite bind_eq. cbn [driverCall ask fst snd].
  destruct (env_driver env (w_tick w)); [done|]. intros _. exists [CallDelete (dst_ID c) path].
  split; [done|by left].
Qed.

Lemma pruneLoop_rows client d remove removed lastErr env w i :
  loopRow client remove w (pruneLoop client d remove removed lastErr env w).2 i.
Proof.
  revert removed lastErr w. induction remove as [|r remove IH]; intros removed lastErr w; [by left|].
  cbn [pruneLoop]. rewrite bind_eq. change (ctxErr env w) with (env_ctx env (w_tick w), tick w). cbn [fst snd].
  destruct (env_ctx env (w_tick w)) as [e|]; [by left|]. rewrite bind_eq.
  assert (E0 : extends w (tick w)) by apply (ext_ask env_ctx env w).
  pose proof (client_Delete_call client (art_Path r) env (tick w)) as Hc.
  pose proof (arts_client_Delete client (art_Path r) env (tick w)) as Ka.
  assert (E1 : extends (tick w) (client_Delete client (art_Path r) env (tick w)).2).
  { assert (ext (client_Delete client (art_Path r))) as X by (unfold client_Delete; ext_tac). apply X. }
  destruct (client_Delete client (art_Path r) env (tick w)) as [[err|] w1]; cbn [fst snd] in *.
  { apply loopRow_cons. eapply loopRow_trans; [..|apply IH]; [by etrans|apply pruneLoop_ext|].
    left. by rewrite Ka. }
  specialize (Hc eq_refl). rewrite bind_eq. change (now env w1) with (env_now env (w_tick w1), tick w1).
  cbn [fst snd]. rewrite bind_eq. set (t := env_now env (w_tick w1)).
  assert (E2 : extends w1 (tick w1)) by apply (ext_ask env_ctx env w1).
  pose proof (SetStatus_arts (art_ID r) ArtifactPruned t env (tick w1)) as Hs.
  assert (E3 : extends (tick w1) (SetStatus (art_ID r) ArtifactPruned t env (tick w1)).2).
  { assert (ext (SetStatus (art_ID r) ArtifactPruned t)) as X by (unfold SetStatus; ext_tac). apply X. }
  destruct (SetStatus (art_ID r) ArtifactPruned t env (tick w1)) as [res w2]. cbn [fst snd] in *.
  assert (E : extends w w2) by (etrans; [exact E0|]; etrans; [exact E1|]; by etrans).
  assert (Hstep : loopRow client (r :: remove) w w2 i).
  { destruct Hs as [Hs|Hs]; [left; rewrite Hs; exact (f_equal (λ m, m !! i) Ka)|]. unfold loopRow. rewrite Hs, updateId_lookup.
    change (arts (tick w1)) with (arts w1). rewrite Ka. change (arts (tick w)) with (arts w).
    destruct (String.eqb_spec (art_ID r) i) as [Hi|]; [|by left]. destruct (arts w !! i) as [a|] eqn:Ha; [|by left].
    right. exists r, a, (applyStatus ArtifactPruned t a). split_and!; [by left|done|done|done|apply prunedRow_apply|].
    eapply newCall_later; [eapply newCall_earlier; [exact E0|exact Hc]|by etrans]. }
  destruct res as [u|err].
  - rewrite bind_eq. set (w3 := (publish _ env w2).2).
    assert (E' : extends w w3) by (etrans; [exact E|apply ext_publish]).
    apply (loopRow_trans _ _ w w3); [done|apply pruneLoop_ext| |apply loopRow_cons, IH]. exact Hstep.
  - apply (loopRow_trans _ _ w w2); [done|apply pruneLoop_ext|done|apply loopRow_cons, IH].
Qed.

(** ** The relation *)

(** From [w] to [w'] only present artifacts of the job have been pruned, each
    after its object was deleted and while an artifact of the same series, as
    new or newer, stayed present. *)
Definition prunes (job : Job) (w w' : World) : Prop := ∀ i,
  arts w' !! i = arts w !! i
  ∨ (∃ a a' j b, arts w !! i = Some a ∧ arts w' !! i = Some a'
     ∧ art_JobID a = job_ID job ∧ present a ∧ prunedRow a a'
     ∧ newCall (CallDelete (art_DestinationID a) (art_Path a)) w w'
     ∧ arts w !! j = Some b ∧ arts w' !! j = Some b
     ∧ sameSeries a b ∧ present b ∧ art_CreatedAt a <= art_CreatedAt b).

Lemma prunes_same job w w' : arts w' = arts w -> prunes job w w'.
Proof. intros H i. left. by rewrite H. Qed.

(** A row present after a pruning was there before. *)
Lemma prunes_present job w w' i b : prunes job w w' -> arts w' !! i = Some b -> present b -> arts w !! i = Some b.
Proof.
  intros H Hb Hp. destruct (H i) as [E|(a & a' & j & c & _ & Ha' & _ & _ & [Hs _] & _)]; [congruence|].
  unfold present in Hp. congruence.
Qed.

Lemma prunes_trans job w1 w2 w3 :
  extends w1 w2 -> extends w2 w3 -> prunes job w1 w2 -> prunes job w2 w3 -> prunes job w1 w3.
Proof.
  intros E1 E2 H1 H2 i.
  destruct (H1 i) as [A1|(a & a' & j & b & Ha & Ha' & Hj & Hp & Hr & Hc & Hb & Hb' & Hs & Hpb & Hle)].
  - destruct (H2 i) as [A2|(a & a' & j & b & Ha & Ha' & Hj & Hp & Hr & Hc & Hb & Hb' & Hs & Hpb & Hle)].
    + left. congruence.
    + right. exists a, a', j, b. split_and!; try done; [congruence|by eapply newCall_earlier|].
      by apply (prunes_present job w1 w2).
  - assert (A2 : arts w3 !! i = Some a').
    { destruct (H2 i) as [->|(x & ? & ? & ? & Hx & _ & _ & Hpx & _)]; [done|].
      destruct Hr as [Hst _]. unfold present in Hpx. congruence. }
    right. destruct (H2 j) as [B2|(b0 & b' & k & c & Hb0 & _ & _ & _ & _ & _ & Hck & Hck' & Hsc & Hpc & Hlec)].
    + exists a, a', j, b. split_and!; try done; [by eapply newCall_later|congruence].
    + replace b0 with b in * by congruence. exists a, a', k, c. split_and!; try done.
      * by eapply newCall_later.
      * by apply (prunes_present job w1 w2).
      * unfold sameSeries in *. intuition congruence.
      * lia.
Qed.

(** ** One destination *)

Lemma createdLater_elem j d s db a :
  a ∈ forJobDestination j d s db <->
  (∃ i, db_artifacts db !! i = Some a) ∧ art_JobID a = j ∧ art_DestinationID a = d ∧ art_Status a = s.
Proof.
  unfold forJobDestination. rewrite SliceStable_perm, selectWhere_elem.
  split; intros [H1 H2]; (split; [done|]).
  - boolean. split_and!; [by apply String.eqb_eq|by apply String.eqb_eq|done].
  - destruct H2 as (-> & -> & ->). by rewrite !String.eqb_refl, bool_decide_eq_true_2.
Qed.

(** What is removed is a row that is not the newest, which is kept. *)
Lemma Plan_rows j d db r t x :
  map_Forall (λ i a, art_ID a = i) (db_artifacts db) ->
  x ∈ (Plan (forJobDestination j d ArtifactPresent db) r t).2 ->
  db_artifacts db !! art_ID x = Some x ∧ art_JobID x = j ∧ art_DestinationID x = d ∧ present x
  ∧ ∃ b, db_artifacts db !! art_ID b = Some b ∧ sameSeries x b ∧ present b
    ∧ art_CreatedAt x <= art_CreatedAt b
    ∧ ∀ y, y ∈ (Plan (forJobDestination j d ArtifactPresent db) r t).2 -> art_ID y ≠ art_ID b.
Proof.
  intros Hwf. set (items := forJobDestination j d ArtifactPresent db).
  pose proof (Plan_perm items r t) as Hp. pose proof (Plan_head items r t) as Hh.
  destruct (Plan items r t) as [keep remove]. cbn [fst snd] in *.
  assert (Hn : NoDup (art_ID <$> keep ++ remove)).
  { rewrite Hp. subst items. unfold forJobDestination. rewrite SliceStable_perm. by apply selectWhere_NoDup. }
  assert (Hrow : ∀ a, a ∈ keep ++ remove ->
            db_artifacts db !! art_ID a = Some a ∧ art_JobID a = j ∧ art_DestinationID a = d ∧ present a).
  { intros a. rewrite Hp. intros Ha. apply createdLater_elem in Ha as ([i Hi] & Hj & Hd & Hs).
    split_and!; [|done..]. by rewrite (Hwf _ _ Hi). }
  intros Hx. destruct (Hrow x) as (Hx1 & Hx2 & Hx3 & Hx4); [apply elem_of_app; by right|]. split_and!; [done..|].
  destruct keep as [|b keep].
  { rewrite Hh in Hp. cbn [app] in Hp. apply Permutation_nil_r in Hp. subst remove. by apply not_elem_of_nil in Hx. }
  destruct Hh as [Hb Hall]. destruct (Hrow b) as (Hb1 & Hb2 & Hb3 & Hb4); [by left|].
  exists b. split_and!; [done|unfold sameSeries; split; congruence|done| |].
  - apply (proj1 (Forall_forall _ _) Hall). rewrite <- Hp. apply elem_of_app. by right.
  - intros y Hy E. cbn [app fmap list_fmap] in Hn. apply NoDup_cons in Hn as [Hn _]. apply Hn.
    apply list_elem_of_fmap. exists y. split; [done|]. apply elem_of_app. by right.
Qed.

Lemma pruneArtifacts_rows d remove env w i :
  loopRow d remove w (pruneArtifacts d remove env w).2 i.
Proof.
  unfold pruneArtifacts. rewrite bind_eq. pose proof (OpenDestination_client d env w) as Hc.
  pose proof (arts_Open d env w) as Ka.
  assert (E : extends w (OpenDestination d env w).2).
  { assert (ext (OpenDestination d)) as X by ext_tac. apply X. }
  destruct (OpenDestination d env w) as [[c|err] w1]; cbn [fst snd] in *; [|left; exact (f_equal (λ m, m !! i) Ka)].
  rewrite (Hc c eq_refl). apply (loopRow_trans _ _ w w1); [done|apply pruneLoop_ext| |apply pruneLoop_rows].
  left. by rewrite Ka.
Qed.

Lemma pruneArtifacts_ext d remove : ext (pruneArtifacts d remove).
Proof. unfold pruneArtifacts. pose proof pruneLoop_ext. ext_tac. Qed.

Lemma retainOn_ext job r d acc : ext (retainOn job r d acc).
Proof. pose proof pruneArtifacts_ext. unfold retainOn, ForJobDestination. ext_tac. Qed.

Lemma retainOn_prunes job r d acc env w : artsWf w -> prunes job w (retainOn job r d acc env w).2.
Proof.
  intros Hwf. unfold retainOn. destruct acc as [removed problems]. rewrite bind_eq.
  pose proof (arts_List (job_ID job) (dst_ID d) ArtifactPresent env w) as Ka.
  assert (E : extends w (ForJobDestination (job_ID job) (dst_ID d) ArtifactPresent env w).2).
  { assert (ext (ForJobDestination (job_ID job) (dst_ID d) ArtifactPresent)) as X
      by (unfold ForJobDestination; ext_tac). apply X. }
  assert (Hl : ∀ items, (ForJobDestination (job_ID job) (dst_ID d) ArtifactPresent env w).1 = Ok items ->
               items = forJobDestination (job_ID job) (dst_ID d) ArtifactPresent (w_db w)).
  { intros items. unfold ForJobDestination. rewrite bind_eq. unfold query. destruct (env_db _ _); simpl; congruence. }
  destruct (ForJobDestination _ _ _ env w) as [[items|err] w1]; cbn [fst snd] in *; [|by apply prunes_same].
  rewrite (Hl items eq_refl). clear Hl. rewrite bind_eq.
  change (now env w1) with (env_now env (w_tick w1), tick w1). cbn [fst snd]. set (t := env_now env (w_tick w1)).
  pose proof (λ x, Plan_rows (job_ID job) (dst_ID d) (w_db w) r t x Hwf) as Hrows.
  destruct (Plan _ r t) as [keep remove]. cbn [fst snd] in Hrows.
  destruct (bool_decide (remove = [])); [by apply prunes_same|]. rewrite bind_eq.
  pose proof (pruneArtifacts_rows d remove env (tick w1)) as Hr.
  destruct (pruneArtifacts d remove env (tick w1)) as [[n err] w2]. cbn [fst snd] in *.
  assert (Er : extends w (tick w1)) by (etrans; [exact E|apply (ext_ask env_now env w1)]).
  change (arts w1 = arts w) with (arts (tick w1) = arts w) in Ka.
  intros i. change (((mret _ : M (Z * Z)) env w2).2) with w2. destruct (Hr i) as [Hi|(x & a & a' & Hx & Hxi & Ha & Ha' & Hp & Hc)].
  { left. by rewrite Hi, Ka. }
  right. destruct (Hrows x Hx) as (X1 & X2 & X3 & X4 & b & B1 & B2 & B3 & B4 & B5).
  rewrite Ka, <- Hxi in Ha. assert (a = x) as -> by (unfold arts in Ha; congruence).
  exists x, a', (art_ID b), b. rewrite <- Hxi at 1. split_and!; try done.
  - rewrite X3. by eapply newCall_earlier.
  - destruct (Hr (art_ID b)) as [->|(y & ? & ? & Hy & Hyb & _)]; [by rewrite Ka|]. by destruct (B5 y Hy).
Qed.
(** ** The whole stage *)

Lemma prunes_wf job w w' : prunes job w w' -> artsWf w -> artsWf w'.
Proof.
  intros H Hwf i a' Ha'. destruct (H i) as [E|(a & x & ? & ? & Ha & Hx & _ & _ & (_ & Hid & _) & _)].
  - rewrite E in Ha'. by apply Hwf in Ha'.
  - rewrite Ha' in Hx. injection Hx as <-. rewrite Hid. by apply Hwf in Ha.
Qed.

Lemma retainAll_prunes job r ds acc env w :
  artsWf w ->
  extends w (forEach ds acc (retainOn job r) env w).2 ∧ prunes job w (forEach ds acc (retainOn job r) env w).2.
Proof.
  intros Hwf.
  pose proof (forEach_rule (λ _ _ w', extends w w' ∧ prunes job w w' ∧ artsWf w') (retainOn job r)) as R.
  edestruct (R) with (l := ds) (pre := @nil Destination) (acc := acc) as (E & P & _); [|split_and!; [done|by apply prunes_same|exact Hwf]|by split].
  clear. intros _ d acc e w1 (E & P & Hw). pose proof (retainOn_ext job r d acc e w1) as E1.
  pose proof (retainOn_prunes job r d acc e w1 Hw) as P1. split_and!; [by etrans|by eapply prunes_trans|by eapply prunes_wf].
Qed.

(** C3: retention never strips a job bare and never forgets a stored object.
    Whatever the policy, the drivers and the database do, [applyRetention] only
    turns present artifacts of the job into pruned ones; each of them had its
    object deleted from its destination during the call; and each leaves an
    artifact of the same job on the same destination, at least as recent, that
    was present and still is. *)
Theorem applyRetention_safe job destinations env w :
  artsWf w -> prunes job w (applyRetention job destinations env w).2.
Proof.
  intros Hwf. unfold applyRetention. rewrite bind_eq.
  pose proof (arts_stage "retention" env w) as K1. pose proof (stage_ext "retention" env w) as E1.
  set (w1 := (stage "retention" env w).2) in *. rewrite bind_eq.
  pose proof (arts_settings env w1) as K2.
  assert (E2 : extends w1 (engineSettings env w1).2) by (assert (ext engineSettings) as X by ext_tac; apply X).
  set (w2 := (engineSettings env w1).2) in *. set (r := EffectiveRetention _ _).
  assert (Kd : ∀ name msg, keeps arts (stage_Done name msg)) by (intros; unfold stage_Done; apply arts_stage_set).
  destruct (Retention_IsZero r); [apply prunes_same; rewrite Kd; congruence|]. rewrite bind_eq.
  assert (Hwf2 : artsWf w2) by (unfold artsWf; rewrite K2, K1; exact Hwf).
  destruct (retainAll_prunes job r destinations (0, 0) env w2 Hwf2) as [E3 P].
  destruct (forEach destinations (0, 0) (retainOn job r) env w2) as [[removed problems] w3]. cbn [fst snd] in *.
  match goal with |- prunes _ _ (?m env w3).2 => set (rest := m) end.
  assert (Kr : keeps arts rest) by (subst rest; pose proof arts_Warn; pose proof arts_stage_set; frame).
  assert (Er : ext rest) by (subst rest; ext_tac).
  apply (prunes_trans job w w2); [by etrans|by etrans|apply prunes_same; congruence|].
  apply (prunes_trans job w2 w3); [done|apply Er|done|apply prunes_same, Kr].
Qed.
(** ** Verification *)

(** What [Stat] answered says that the object is there, whole. *)
Definition confirms (r : result (option Object)) (a : Artifact) : bool :=
  match r with Ok (Some obj) => obj_Size obj =? art_Size a | _ => false end.

Lemma markMissing_event a env w :
  EvArtifactUpdated (set_art_Status ArtifactMissing a) ∈ w_events (markMissing a env w).2.
Proof.
  unfold markMissing. rewrite !bind_eq. cbn [publish fst snd]. simpl. apply elem_of_app. right. by left.
Qed.

Lemma markMissing_row a env w row :
  env_db env (S (w_tick w)) = None -> arts w !! art_ID a = Some row ->
  art_Status <$> arts (markMissing a env w).2 !! art_ID a = Some ArtifactMissing.
Proof.
  intros Hdb Hrow. unfold markMissing. rewrite bind_eq. change (now env w) with (env_now env (w_tick w), tick w).
  cbn [fst snd]. rewrite bind_eq, arts_publish. unfold SetStatus, execAffected. rewrite bind_eq.
  unfold execWrite. simpl. rewrite Hdb.
  destruct (updateId _ _ (db_artifacts (w_db w))) as [n t'] eqn:E. cbn [fst snd mret M_ret]. unfold arts. simpl.
  change t' with (n, t').2. rewrite <- E, updateId_lookup, String.eqb_refl. unfold arts in Hrow. by rewrite Hrow.
Qed.

(** An artifact is declared missing exactly when its destination, once open,
    does not confirm an object of the recorded size.  A destination that cannot
    be opened changes nothing; a confirmation changes the status of no
    artifact, and a verification without error is published with its time;
    without confirmation the verification fails, the artifact is published as
    missing and, unless the database fails, is missing on record. *)
Theorem verifyOne_verdict d a env w :
  let o := OpenDestination d env w in
  let r := verifyOne d a env w in
  match o.1 with
  | Fail e => r.1 = Some e ∧ arts r.2 = arts w
  | Ok _ =>
      let ok := confirms (env_stat env (w_tick o.2)) a in
      (ok = true ->
        art_Status <$> arts r.2 = art_Status <$> arts w
        ∧ (r.1 = None -> ∃ t, EvArtifactUpdated (set_art_VerifiedAt (Some t) a) ∈ w_events r.2))
      ∧ (ok = false ->
          r.1 ≠ None ∧ EvArtifactUpdated (set_art_Status ArtifactMissing a) ∈ w_events r.2
          ∧ (env_db env (S (S (w_tick o.2))) = None -> is_Some (arts w !! art_ID a) ->
             art_Status <$> arts r.2 !! art_ID a = Some ArtifactMissing))
  end.
Proof.
  cbv zeta. unfold verifyOne. rewrite bind_eq. pose proof (arts_Open d env w) as Ka.
  pose proof (OpenDestination_client d env w) as Hc.
  destruct (OpenDestination d env w) as [[c|err] w1]; cbn [fst snd] in *; [|done].
  rewrite (Hc c eq_refl). clear Hc c. unfold client_Stat. rewrite !bind_eq. cbn [ask fst snd].
  set (w2 := (record _ env (tick w1)).2). change ((mret ?x : M _) env w2) with (x, w2). cbn [fst snd].
  assert (Miss : ∀ e, let r := (markMissing a;; (mret (Some e) : M (option error))) env w2 in
            r.1 ≠ None ∧ EvArtifactUpdated (set_art_Status ArtifactMissing a) ∈ w_events r.2
            ∧ (env_db env (S (S (w_tick w1))) = None -> is_Some (arts w !! art_ID a) ->
               art_Status <$> arts r.2 !! art_ID a = Some ArtifactMissing)).
  { intros e. cbv zeta. rewrite bind_eq. split_and!; [done|apply markMissing_event|].
    intros Hdb [row Hrow]. apply (markMissing_row a env w2 row); [exact Hdb|]. by rewrite <- Ka in Hrow. }
  destruct (env_stat env (w_tick w1)) as [[obj|]|e] eqn:Hs; cbn [confirms]; [|split; [done|intros _; apply Miss]..].
  destruct (obj_Size obj =? art_Size a); cbn [negb]; [|split; [done|intros _; apply Miss]].
  split; [intros _|done]. rewrite bind_eq. change (now env w2) with (env_now env (w_tick w2), tick w2). cbn [fst snd].
  rewrite bind_eq. set (t := env_now env (w_tick w2)).
  assert (Kv : art_Status <$> arts (SetVerified (art_ID a) t env (tick w2)).2 = art_Status <$> arts w).
  { rewrite <- Ka. change (arts w1) with (arts (tick w2)). unfold SetVerified. rewrite bind_eq. unfold execWrite.
    destruct (env_db env (w_tick (tick w2))); [done|]. cbn [fst snd mret M_ret].
    apply map_eq. intros i. rewrite !lookup_fmap. unfold arts. cbn. rewrite updateId_lookup.
    destruct (String.eqb _ _); [|done]. by destruct (db_artifacts (w_db w1) !! i). }
  destruct (SetVerified (art_ID a) t env (tick w2)) as [[u|e] w3]; cbn [fst snd] in *; [|done].
  rewrite bind_eq. split; [exact Kv|]. intros _. exists t. simpl. apply elem_of_app. right. by left.
Qed.
End retention.

Lemma applyRetention_safe_witness :
  (w_calls (applyRetention sampleJob [sampleDestination "d1" "disk"] sampleEnv sampleWorld).2
   = [CallOpen "d1"; CallDelete "d1" "home/a1"])
  ∧ prunes sampleJob sampleWorld
      (applyRetention sampleJob [sampleDestination "d1" "disk"] sampleEnv sampleWorld).2.
Proof.
  split; [vm_compute; reflexivity|].
  apply (applyRetention_safe sampleJob [sampleDestination "d1" "disk"] sampleEnv sampleWorld).
  apply (bool_decide_unpack (map_Forall (λ i a, art_ID a = i) (arts sampleWorld))). vm_compute. exact I.
Defined.
