(* ===== verification/Engine.v ===== *)
(** * The engine: [internal/engine/engine.go]

    Queue, job locks, worker slots and cancellation, as a machine whose steps
    are the atomic actions of the goroutines: the callers of [Enqueue*] and
    [Ingest], the dispatcher, and one worker per task.  An activity is a run
    between the creation of its identifier and the last thing its goroutine
    does for it.  Steps interleave in any order. *)
From S2P Require Import Prelude GoStrings GoTime Core.
Open Scope Z_scope.

Definition queueCapacity : nat := 256.

(** ** Activities *)

(** Where an activity stands; [g] is the semaphore it waits for or holds a slot
    of. *)
Inductive Phase :=
  | PLocked                (* past tryLockJob *)
  | PCreated               (* the run is in the database *)
  | PQueued                (* in the channel *)
  | PDispatch (g : nat)    (* in the hands of the dispatcher, no slot yet *)
  | PWaiting (g : nat)     (* an ingest, no slot yet *)
  | PStart (g : nat)       (* slot taken *)
  | PRunning (g : nat)     (* in e.cancels *)
  | PEnded (g : nat)       (* no longer in e.cancels *)
  | PReleased (g : nat)    (* a task: job released, slot still held *)
  | PFreed.                (* an ingest: slot returned, job still held *)

Record Act := mkAct { act_kind : RunKind; act_job : string; act_phase : Phase }.

Definition set_phase (p : Phase) (a : Act) : Act := mkAct (act_kind a) (act_job a) p.

(** The kinds whose entry points call [tryLockJob]. *)
Definition locking (k : RunKind) : bool :=
  match k with
  | RunBackup | RunPrune | RunIngest => true
  | RunRestore | RunVerify => false
  end.

Definition is_ingest (k : RunKind) : bool := match k with RunIngest => true | _ => false end.

Record Eng := mkEng {
  en_running : bool;
  en_done : bool;                   (* e.ctx is done *)
  en_dispatching : bool;            (* the dispatcher runs *)
  en_locks : gmap string string;
  en_tasks : list string;           (* the channel, first out first *)
  en_held : option string;          (* what the dispatcher has received *)
  en_sem : nat;                     (* the current semaphore *)
  en_caps : gmap nat nat;           (* capacity of every semaphore made *)
  en_cancels : gset string;
  en_acts : gmap string Act
}.

(** [New]: a semaphore of capacity two. *)
Definition newEngine : Eng := mkEng false false false ∅ [] None 0 {[ 0%nat := 2%nat ]} ∅ ∅.

(** ** The operations on the shared state *)

Definition tryLockJob (jobID runID : string) (locks : gmap string string) : option (gmap string string) :=
  if bool_decide (jobID = "") then Some locks
  else match locks !! jobID with
       | Some _ => None
       | None => Some (<[jobID := runID]> locks)
       end.

Definition releaseJob (jobID runID : string) (locks : gmap string string) : gmap string string :=
  if bool_decide (jobID = "") then locks
  else match locks !! jobID with
       | Some cur => if String.eqb cur runID then delete jobID locks else locks
       | None => locks
       end.

Definition JobBusy (jobID : string) (s : Eng) : bool := bool_decide (is_Some (en_locks s !! jobID)).
Definition IsRunning (runID : string) (s : Eng) : bool := bool_decide (runID ∈ en_cancels s).

(** Slots taken in the semaphore [g]. *)
Definition slotOf (a : Act) : option nat :=
  match act_phase a with
  | PStart g | PRunning g | PEnded g | PReleased g => Some g
  | _ => None
  end.

Definition holders (g : nat) (acts : gmap string Act) : nat :=
  size (filter (λ kv : string * Act, slotOf kv.2 = Some g) acts).

(** [sem <- struct{}{}] goes through. *)
Definition slotFree (g : nat) (s : Eng) : bool :=
  match en_caps s !! g with
  | Some cap => (holders g (en_acts s) <? cap)%nat
  | None => false
  end.

Definition setConcurrency (n : Z) (s : Eng) : Eng :=
  let n := if n <=? 0 then 2 else n in
  if bool_decide (en_caps s !! en_sem s = Some (Z.to_nat n)) then s
  else
    let g := fresh (dom (en_caps s)) in
    mkEng (en_running s) (en_done s) (en_dispatching s) (en_locks s) (en_tasks s) (en_held s)
      g (<[g := Z.to_nat n]> (en_caps s)) (en_cancels s) (en_acts s).

(** ** Steps *)

Definition set_acts (acts : gmap string Act) (s : Eng) : Eng :=
  mkEng (en_running s) (en_done s) (en_dispatching s) (en_locks s) (en_tasks s) (en_held s)
    (en_sem s) (en_caps s) (en_cancels s) acts.
Definition set_locks (locks : gmap string string) (s : Eng) : Eng :=
  mkEng (en_running s) (en_done s) (en_dispatching s) locks (en_tasks s) (en_held s)
    (en_sem s) (en_caps s) (en_cancels s) (en_acts s).
Definition set_tasks (tasks : list string) (s : Eng) : Eng :=
  mkEng (en_running s) (en_done s) (en_dispatching s) (en_locks s) tasks (en_held s)
    (en_sem s) (en_caps s) (en_cancels s) (en_acts s).
Definition set_held (held : option string) (s : Eng) : Eng :=
  mkEng (en_running s) (en_done s) (en_dispatching s) (en_locks s) (en_tasks s) held
    (en_sem s) (en_caps s) (en_cancels s) (en_acts s).
Definition set_cancels (cancels : gset string) (s : Eng) : Eng :=
  mkEng (en_running s) (en_done s) (en_dispatching s) (en_locks s) (en_tasks s) (en_held s)
    (en_sem s) (en_caps s) cancels (en_acts s).
Definition set_flags (running done dispatching : bool) (s : Eng) : Eng :=
  mkEng running done dispatching (en_locks s) (en_tasks s) (en_held s)
    (en_sem s) (en_caps s) (en_cancels s) (en_acts s).

Definition move (r : string) (a : Act) (p : Phase) (s : Eng) : Eng :=
  set_acts (<[r := set_phase p a]> (en_acts s)) s.
Definition leave (r : string) (s : Eng) : Eng := set_acts (delete r (en_acts s)) s.
Definition unlock (r : string) (a : Act) (s : Eng) : Eng :=
  set_locks (releaseJob (act_job a) r (en_locks s)) s.

Inductive Op :=
  | OpStart | OpSpawn | OpStop | OpSetConcurrency (n : Z)
  | OpEnter (k : RunKind) (job run : string)   (* newRun and tryLockJob *)
  | OpCreate (run : string) (ok : bool)        (* store.Runs.Create *)
  | OpEnqueue (run : string)                   (* e.enqueue *)
  | OpTake | OpAcquire | OpAbandon | OpDispatchExit
  | OpSlot (run : string)                      (* an ingest gets its slot *)
  | OpGiveUp (run : string)                    (* its context ends first *)
  | OpBegin (run : string)                     (* e.cancels[id] = cancel *)
  | OpEnd (run : string)                       (* delete(e.cancels, id) *)
  | OpRelease (run : string)                   (* e.releaseJob *)
  | OpFree (run : string).                     (* <-sem *)

(** One atomic action; [None] when it cannot happen now. *)
Definition exec (op : Op) (s : Eng) : option Eng :=
  match op with
  | OpStart =>
      if en_running s then Some s
      else if en_dispatching s then None
      else Some (set_flags true false false s)
  | OpSpawn =>
      if en_running s && negb (en_done s) && negb (en_dispatching s)
      then Some (set_flags true false true s) else None
  | OpStop => Some (if en_running s then set_flags false true (en_dispatching s) s else s)
  | OpSetConcurrency n => Some (setConcurrency n s)
  | OpEnter k job r =>
      match en_acts s !! r with
      | Some _ => None   (* identifiers are fresh *)
      | None =>
          if locking k then
            match tryLockJob job r (en_locks s) with
            | None => Some s   (* ErrJobBusy *)
            | Some locks => Some (set_acts (<[r := mkAct k job PLocked]> (en_acts s)) (set_locks locks s))
            end
          else Some (set_acts (<[r := mkAct k job PLocked]> (en_acts s)) s)
      end
  | OpCreate r ok =>
      match en_acts s !! r with
      | Some a =>
          match act_phase a with
          | PLocked =>
              if ok : bool
              then Some (move r a (if is_ingest (act_kind a) then PWaiting (en_sem s) else PCreated) s)
              else Some (leave r (if locking (act_kind a) then unlock r a s else s))
          | _ => None
          end
      | None => None
      end
  | OpEnqueue r =>
      match en_acts s !! r with
      | Some a =>
          match act_phase a with
          | PCreated =>
              if en_running s && (length (en_tasks s) <? queueCapacity)%nat
              then Some (set_tasks (en_tasks s ++ [r]) (move r a PQueued s))
              else (* ErrNotRunning, ErrQueueFull *)
                Some (leave r (if locking (act_kind a) then unlock r a s else s))
          | _ => None
          end
      | None => None
      end
  | OpTake =>
      match en_dispatching s, en_held s, en_tasks s with
      | true, None, r :: rest =>
          match en_acts s !! r with
          | Some a => Some (set_held (Some r) (set_tasks rest (move r a (PDispatch (en_sem s)) s)))
          | None => None
          end
      | _, _, _ => None
      end
  | OpAcquire =>
      match en_held s with
      | Some r =>
          match en_acts s !! r with
          | Some a =>
              match act_phase a with
              | PDispatch g => if slotFree g s then Some (set_held None (move r a (PStart g) s)) else None
              | _ => None
              end
          | None => None
          end
      | None => None
      end
  | OpAbandon =>
      match en_done s, en_held s with
      | true, Some r =>
          match en_acts s !! r with
          | Some a => Some (set_flags (en_running s) true false (set_held None (leave r (unlock r a s))))
          | None => None
          end
      | _, _ => None
      end
  | OpDispatchExit =>
      match en_done s, en_dispatching s, en_held s with
      | true, true, None => Some (set_flags (en_running s) true false s)
      | _, _, _ => None
      end
  | OpSlot r =>
      match en_acts s !! r with
      | Some a =>
          match act_phase a with
          | PWaiting g => if slotFree g s then Some (move r a (PStart g) s) else None
          | _ => None
          end
      | None => None
      end
  | OpGiveUp r =>
      match en_acts s !! r with
      | Some a =>
          match act_phase a with
          | PWaiting _ => Some (leave r (unlock r a s))
          | _ => None
          end
      | None => None
      end
  | OpBegin r =>
      match en_acts s !! r with
      | Some a =>
          match act_phase a with
          | PStart g => Some (set_cancels ({[r]} ∪ en_cancels s) (move r a (PRunning g) s))
          | _ => None
          end
      | None => None
      end
  | OpEnd r =>
      match en_acts s !! r with
      | Some a =>
          match act_phase a with
          | PRunning g => Some (set_cancels (en_cancels s ∖ {[r]}) (move r a (PEnded g) s))
          | _ => None
          end
      | None => None
      end
  | OpRelease r =>
      match en_acts s !! r with
      | Some a =>
          match act_phase a, is_ingest (act_kind a) with
          | PEnded g, false => Some (move r a (PReleased g) (unlock r a s))
          | PFreed, _ => Some (leave r (unlock r a s))
          | _, _ => None
          end
      | None => None
      end
  | OpFree r =>
      match en_acts s !! r with
      | Some a =>
          match act_phase a, is_ingest (act_kind a) with
          | PReleased g, _ => Some (leave r s)
          | PEnded g, true => Some (move r a PFreed s)
          | _, _ => None
          end
      | None => None
      end
  end.

Fixpoint execs (ops : list Op) (s : Eng) : option Eng :=
  match ops with
  | [] => Some s
  | op :: rest => s' ← exec op s; execs rest s'
  end.

(** What any interleaving of the goroutines can reach. *)
Inductive reachable : Eng -> Prop :=
  | reach_new : reachable newEngine
  | reach_step op s s' : reachable s -> exec op s = Some s' -> reachable s'.
