(* ===== verification/EngineFacts.v ===== *)
(** * Theorems on the engine: mutual exclusion, capacity, progress

    One invariant of the reachable states, a piece per shared structure, and
    what follows from it. *)
From S2P Require Import Prelude GoStrings GoTime Core Engine.
Open Scope Z_scope.

(** The activity has its job to itself. *)
Definition holdsJob (a : Act) : bool :=
  locking (act_kind a) && negb (bool_decide (act_job a = ""))
  && match act_phase a with PReleased _ => false | _ => true end.

(** ** Locks *)

Definition locksOk (L : gmap string string) (acts : gmap string Act) : Prop :=
  (∀ r a, acts !! r = Some a -> holdsJob a = true -> L !! act_job a = Some r)
  ∧ (∀ j r, L !! j = Some r -> ∃ a, acts !! r = Some a ∧ holdsJob a = true ∧ act_job a = j).

Lemma holdsJob_job a : holdsJob a = true -> act_job a ≠ "".
Proof. unfold holdsJob. intros H. by boolean. Qed.

Lemma releaseJob_lookup j r L k :
  releaseJob j r L !! k
  = if bool_decide (k = j ∧ j ≠ "" ∧ L !! j = Some r) then None else L !! k.
Proof.
  unfold releaseJob. destruct (bool_decide_reflect (j = "")) as [->|Hj].
  { rewrite bool_decide_eq_false_2; [done|]. by intros (_ & ? & _). }
  destruct (L !! j) as [cur|] eqn:E.
  - destruct (String.eqb_spec cur r) as [->|Hr].
    + destruct (decide (k = j)) as [->|Hk].
      * by rewrite lookup_delete_eq, bool_decide_eq_true_2.
      * rewrite lookup_delete_ne by done. rewrite bool_decide_eq_false_2; [done|]. by intros [? _].
    + rewrite bool_decide_eq_false_2; [done|]. intros (_ & _ & ?). congruence.
  - rewrite bool_decide_eq_false_2; [done|]. intros (_ & _ & ?). congruence.
Qed.

(** A change of phase that keeps what the activity holds. *)
Lemma locksOk_move L acts r a a' :
  acts !! r = Some a -> holdsJob a' = holdsJob a -> act_job a' = act_job a ->
  locksOk L acts -> locksOk L (<[r := a']> acts).
Proof.
  intros Ha Hh Hj [H1 H2]. split.
  - intros r' b Hb Hhb. destruct (decide (r' = r)) as [->|Hne].
    + rewrite lookup_insert_eq in Hb. injection Hb as <-. rewrite Hj. apply H1; [done|congruence].
    + rewrite lookup_insert_ne in Hb by done. by apply H1.
  - intros j r' Hl. destruct (H2 _ _ Hl) as (b & Hb & Hhb & Hbj).
    destruct (decide (r' = r)) as [->|Hne].
    + exists a'. rewrite lookup_insert_eq. split_and!; congruence.
    + exists b. by rewrite lookup_insert_ne.
Qed.

(** The activity [r] stops holding: its job is released. *)
Lemma locksOk_release L acts acts' r a :
  acts !! r = Some a -> (∀ r', r' ≠ r -> acts' !! r' = acts !! r') ->
  (∀ b, acts' !! r = Some b -> holdsJob b = false) ->
  locksOk L acts -> locksOk (releaseJob (act_job a) r L) acts'.
Proof.
  intros Ha Hothers Hr [H1 H2]. split.
  - intros r' b Hb Hh. destruct (decide (r' = r)) as [->|Hne]; [apply Hr in Hb; congruence|].
    rewrite Hothers in Hb by done. pose proof (H1 _ _ Hb Hh) as Hl. rewrite releaseJob_lookup.
    rewrite bool_decide_eq_false_2; [done|]. intros (E & _ & ?). congruence.
  - intros j r' Hl. rewrite releaseJob_lookup in Hl. case_bool_decide as B; [done|].
    destruct (H2 _ _ Hl) as (b & Hb & Hh & Hj). destruct (decide (r' = r)) as [->|Hne].
    + exfalso. apply B. replace b with a in * by congruence. apply holdsJob_job in Hh. by subst j.
    + exists b. by rewrite Hothers.
Qed.

(** Nothing to release. *)
Lemma locksOk_drop L acts acts' r a :
  acts !! r = Some a -> holdsJob a = false -> (∀ r', r' ≠ r -> acts' !! r' = acts !! r') ->
  (∀ b, acts' !! r = Some b -> holdsJob b = false) ->
  locksOk L acts -> locksOk L acts'.
Proof.
  intros Ha Hn Hothers Hr [H1 H2]. split.
  - intros r' b Hb Hh. destruct (decide (r' = r)) as [->|Hne]; [apply Hr in Hb; congruence|].
    rewrite Hothers in Hb by done. by apply H1.
  - intros j r' Hl. destruct (H2 _ _ Hl) as (b & Hb & Hh & Hj). destruct (decide (r' = r)) as [->|Hne]; [congruence|].
    exists b. by rewrite Hothers.
Qed.

Lemma locksOk_enter L L' acts k j r :
  acts !! r = None -> (if locking k then tryLockJob j r L = Some L' else L' = L) ->
  locksOk L acts -> locksOk L' (<[r := mkAct k j PLocked]> acts).
Proof.
  intros Hr HL [H1 H2].
  assert (Hold : ∀ r' b, acts !! r' = Some b -> <[r := mkAct k j PLocked]> acts !! r' = Some b).
  { intros r' b Hb. rewrite lookup_insert_ne; [done|]. intros <-. congruence. }
  assert (Hnew : holdsJob (mkAct k j PLocked) = locking k && negb (bool_decide (j = ""))).
  { unfold holdsJob. simpl. by rewrite andb_true_r. }
  assert (HL' : L' = L ∧ holdsJob (mkAct k j PLocked) = false
                ∨ L' = <[j := r]> L ∧ L !! j = None ∧ holdsJob (mkAct k j PLocked) = true).
  { rewrite Hnew. destruct (locking k); [|by left]. unfold tryLockJob in HL. case_bool_decide; simpl.
    - left. split; [congruence|done].
    - right. destruct (L !! j); [done|]. split_and!; [congruence|done|done]. }
  clear HL Hnew. destruct HL' as [[-> Hn]|(-> & Hfree & Hn)]; split.
  - intros r' b Hb Hh. destruct (decide (r' = r)) as [->|Hne].
    + rewrite lookup_insert_eq in Hb. congruence.
    + rewrite lookup_insert_ne in Hb by done. by apply H1.
  - intros j' r' Hl. destruct (H2 _ _ Hl) as (b & Hb & ?). exists b. split; [by apply Hold|done].
  - intros r' b Hb Hh. destruct (decide (r' = r)) as [->|Hne].
    + rewrite lookup_insert_eq in Hb. injection Hb as <-. by rewrite lookup_insert_eq.
    + rewrite lookup_insert_ne in Hb by done. pose proof (H1 _ _ Hb Hh). rewrite lookup_insert_ne; [done|]. congruence.
  - intros j' r' Hl. destruct (decide (j' = j)) as [->|Hne].
    + rewrite lookup_insert_eq in Hl. injection Hl as <-. eexists. by rewrite lookup_insert_eq.
    + rewrite lookup_insert_ne in Hl by done. destruct (H2 _ _ Hl) as (b & Hb & ?). exists b. split; [by apply Hold|done].
Qed.

(** ** Slots *)

Definition slotsOk (caps : gmap nat nat) (acts : gmap string Act) : Prop :=
  ∀ g cap, caps !! g = Some cap -> (holders g acts <= cap)%nat.

Lemma holders_move g acts r a :
  (slotOf a = Some g -> ∃ b, acts !! r = Some b ∧ slotOf b = Some g) ->
  (holders g (<[r := a]> acts) <= holders g acts)%nat.
Proof.
  intros H. unfold holders. rewrite map_filter_insert. case_decide as Hs; simpl in Hs.
  - destruct (H Hs) as (b & Hb & Hbs). rewrite map_size_insert.
    rewrite (proj2 (map_lookup_filter_Some _ _ r b)) by done. done.
  - rewrite map_filter_delete, map_size_delete. destruct (filter _ acts !! r); simpl; lia.
Qed.

Lemma holders_take g acts r a : (holders g (<[r := a]> acts) <= S (holders g acts))%nat.
Proof.
  unfold holders. rewrite map_filter_insert. case_decide.
  - rewrite map_size_insert. destruct (filter _ acts !! r); simpl; lia.
  - rewrite map_filter_delete, map_size_delete. destruct (filter _ acts !! r); simpl; lia.
Qed.

Lemma holders_delete g acts r : (holders g (delete r acts) <= holders g acts)%nat.
Proof. unfold holders. rewrite map_filter_delete, map_size_delete. destruct (filter _ acts !! r); simpl; lia. Qed.

Lemma holders_none g acts : (∀ r a, acts !! r = Some a -> slotOf a ≠ Some g) -> holders g acts = 0%nat.
Proof.
  intros H. unfold holders. apply map_size_empty_iff, map_empty. intros r. apply map_lookup_filter_None. right.
  intros a Ha. simpl. by apply (H r).
Qed.

(** ** The invariant *)

Definition phaseSem (p : Phase) : option nat :=
  match p with
  | PDispatch g | PWaiting g | PStart g | PRunning g | PEnded g | PReleased g => Some g
  | _ => None
  end.

(** The phases of tasks and those of ingests. *)
Definition kindOk (a : Act) : Prop :=
  match act_phase a with
  | PCreated | PQueued | PDispatch _ | PReleased _ => is_ingest (act_kind a) = false
  | PWaiting _ | PFreed => is_ingest (act_kind a) = true
  | _ => True
  end.

Definition inPhase (P : Phase -> bool) (acts : gmap string Act) (r : string) : Prop :=
  ∃ a, acts !! r = Some a ∧ P (act_phase a) = true.

Definition isQueued (p : Phase) : bool := match p with PQueued => true | _ => false end.
Definition isDispatch (p : Phase) : bool := match p with PDispatch _ => true | _ => false end.
Definition isRunning (p : Phase) : bool := match p with PRunning _ => true | _ => false end.

(** [X] is the set of the activities in the phases [P]. *)
Definition tracks (P : Phase -> bool) (acts : gmap string Act) (X : string -> Prop) : Prop :=
  ∀ r, X r <-> inPhase P acts r.

Record Inv (s : Eng) : Prop := {
  inv_locks : locksOk (en_locks s) (en_acts s);
  inv_slots : slotsOk (en_caps s) (en_acts s);
  inv_caps : map_Forall (λ _ n, (1 <= n)%nat) (en_caps s);
  inv_sem : is_Some (en_caps s !! en_sem s);
  inv_sems : map_Forall (λ _ a, ∀ g, phaseSem (act_phase a) = Some g -> is_Some (en_caps s !! g)) (en_acts s);
  inv_kinds : map_Forall (λ _ a, kindOk a) (en_acts s);
  inv_cancels : tracks isRunning (en_acts s) (λ r, r ∈ en_cancels s);
  inv_tasks : tracks isQueued (en_acts s) (λ r, r ∈ en_tasks s);
  inv_nodup : NoDup (en_tasks s);
  inv_length : (length (en_tasks s) <= queueCapacity)%nat;
  inv_held : tracks isDispatch (en_acts s) (λ r, en_held s = Some r);
  inv_alive : is_Some (en_held s) -> en_dispatching s = true
}.

(** One activity changes; what tracks a phase follows. *)
Lemma tracks_insert P acts (X Y : string -> Prop) r a :
  tracks P acts X -> (∀ r', r' ≠ r -> Y r' <-> X r') -> (Y r <-> P (act_phase a) = true) ->
  tracks P (<[r := a]> acts) Y.
Proof.
  intros HX HY Hr r'. unfold inPhase. destruct (decide (r' = r)) as [->|Hne].
  - rewrite Hr. setoid_rewrite lookup_insert_eq. split; [intros H; by exists a|]. by intros (b & [= <-] & H).
  - rewrite HY, (HX r') by done. unfold inPhase. setoid_rewrite lookup_insert_ne; done.
Qed.

Lemma tracks_delete P acts (X Y : string -> Prop) r :
  tracks P acts X -> (∀ r', r' ≠ r -> Y r' <-> X r') -> ¬ Y r -> tracks P (delete r acts) Y.
Proof.
  intros HX HY Hr r'. unfold inPhase. destruct (decide (r' = r)) as [->|Hne].
  - setoid_rewrite lookup_delete_eq. split; [done|by intros (? & ? & _)].
  - rewrite HY, (HX r') by done. unfold inPhase. setoid_rewrite lookup_delete_ne; done.
Qed.

(** The activity [r], in the phase [p], is in no other. *)
Lemma tracks_out P acts X r a : tracks P acts X -> acts !! r = Some a -> P (act_phase a) = false -> ¬ X r.
Proof. intros HX Ha Hp HXr. apply HX in HXr as (b & Hb & Hpb). congruence. Qed.

(** The invariant after [r] moves within its kind: the locks, the slots and the
    sets it enters or leaves are for the step to settle. *)
Lemma Inv_move s r a p L tasks held cancels flags1 flags2 flags3 :
  Inv s -> en_acts s !! r = Some a ->
  locksOk L (<[r := set_phase p a]> (en_acts s)) ->
  slotsOk (en_caps s) (<[r := set_phase p a]> (en_acts s)) ->
  (∀ g, phaseSem p = Some g -> is_Some (en_caps s !! g)) -> kindOk (set_phase p a) ->
  (∀ r', r' ≠ r -> r' ∈ cancels <-> r' ∈ en_cancels s) -> (r ∈ cancels <-> isRunning p = true) ->
  (∀ r', r' ≠ r -> r' ∈ tasks <-> r' ∈ en_tasks s) -> (r ∈ tasks <-> isQueued p = true) ->
  NoDup tasks -> (length tasks <= queueCapacity)%nat ->
  (∀ r', r' ≠ r -> held = Some r' <-> en_held s = Some r') -> (held = Some r <-> isDispatch p = true) ->
  (is_Some held -> flags3 = true) ->
  Inv (mkEng flags1 flags2 flags3 L tasks held (en_sem s) (en_caps s) cancels (<[r := set_phase p a]> (en_acts s))).
Proof.
  intros I Ha HL HS Hsem Hk C1 C2 T1 T2 Hn Hlen D1 D2 Hal.
  destruct I as [_ _ I3 I4 I5 I6 I7 I8 _ _ I11 _].
  split; simpl; try done.
  - apply map_Forall_insert_2; [exact Hsem|exact I5].
  - apply map_Forall_insert_2; [exact Hk|exact I6].
  - eapply tracks_insert; [exact I7|exact C1|exact C2].
  - eapply tracks_insert; [exact I8|exact T1|exact T2].
  - eapply tracks_insert; [exact I11|exact D1|exact D2].
Qed.

(** The same when [r] leaves. *)
Lemma Inv_leave s r a L held flags1 flags2 flags3 :
  Inv s -> en_acts s !! r = Some a -> locksOk L (delete r (en_acts s)) ->
  isRunning (act_phase a) = false -> isQueued (act_phase a) = false ->
  (∀ r', r' ≠ r -> held = Some r' <-> en_held s = Some r') -> held ≠ Some r ->
  (is_Some held -> flags3 = true) ->
  Inv (mkEng flags1 flags2 flags3 L (en_tasks s) held (en_sem s) (en_caps s) (en_cancels s) (delete r (en_acts s))).
Proof.
  intros I Ha HL Hr Hq D1 D2 Hal. pose proof I as [_ I2 I3 I4 I5 I6 I7 I8 I9 I10 I11 _].
  split; simpl; try done.
  - intros g cap Hg. pose proof (holders_delete g (en_acts s) r). specialize (I2 g cap Hg). lia.
  - intros i b Hb. apply lookup_delete_Some in Hb as [_ Hb]. by apply I5 in Hb.
  - intros i b Hb. apply lookup_delete_Some in Hb as [_ Hb]. by apply I6 in Hb.
  - eapply tracks_delete; [exact I7|done|]. exact (tracks_out _ _ _ _ _ I7 Ha Hr).
  - eapply tracks_delete; [exact I8|done|]. exact (tracks_out _ _ _ _ _ I8 Ha Hq).
  - eapply tracks_delete; [exact I11|exact D1|exact D2].
Qed.

Lemma slotsOk_move caps acts r a a' :
  acts !! r = Some a -> (slotOf a' = slotOf a ∨ slotOf a' = None) ->
  slotsOk caps acts -> slotsOk caps (<[r := a']> acts).
Proof.
  intros Ha Hs HS g cap Hg. specialize (HS g cap Hg).
  assert (holders g (<[r := a']> acts) <= holders g acts)%nat; [|lia].
  apply holders_move. intros Hg'. exists a. split; [done|]. destruct Hs; congruence.
Qed.

Lemma slotsOk_take s r a g :
  slotFree g s = true -> slotOf a = Some g ->
  slotsOk (en_caps s) (en_acts s) -> slotsOk (en_caps s) (<[r := a]> (en_acts s)).
Proof.
  unfold slotFree. intros Hf Ha HS g' cap Hg'. specialize (HS g' cap Hg').
  destruct (decide (g' = g)) as [->|Hne].
  - rewrite Hg' in Hf. boolean. pose proof (holders_take g (en_acts s) r a). lia.
  - assert (holders g' (<[r := a]> (en_acts s)) <= holders g' (en_acts s))%nat; [|lia].
    apply holders_move. congruence.
Qed.

(** Facts on the tracked sets, from the phase of an activity. *)
Lemma Inv_out s r a :
  Inv s -> en_acts s !! r = Some a ->
  (r ∈ en_cancels s <-> isRunning (act_phase a) = true)
  ∧ (r ∈ en_tasks s <-> isQueued (act_phase a) = true)
  ∧ (en_held s = Some r <-> isDispatch (act_phase a) = true).
Proof.
  intros I Ha. split_and!.
  - rewrite (inv_cancels s I r). split; [|by exists a]. intros (b & Hb & Hp). congruence.
  - rewrite (inv_tasks s I r). split; [|by exists a]. intros (b & Hb & Hp). congruence.
  - rewrite (inv_held s I r). split; [|by exists a]. intros (b & Hb & Hp). congruence.
Qed.

(** A move that touches neither the locks nor the tracked sets. *)
Lemma Inv_plain s r a p :
  Inv s -> en_acts s !! r = Some a ->
  holdsJob (set_phase p a) = holdsJob a ->
  slotsOk (en_caps s) (<[r := set_phase p a]> (en_acts s)) ->
  (∀ g, phaseSem p = Some g -> is_Some (en_caps s !! g)) -> kindOk (set_phase p a) ->
  isRunning p = isRunning (act_phase a) -> isQueued p = isQueued (act_phase a) ->
  isDispatch p = isDispatch (act_phase a) -> Inv (move r a p s).
Proof.
  intros I Ha Hh HS Hsem Hk H1 H2 H3. destruct (Inv_out s r a I Ha) as (O1 & O2 & O3).
  pose proof (inv_alive s I). pose proof (inv_nodup s I). pose proof (inv_length s I).
  unfold move, set_acts. apply Inv_move; try done; rewrite ?H1, ?H2, ?H3; try done.
  apply (locksOk_move _ _ r a); [done|done|done|apply (inv_locks s I)].
Qed.

(** Leaving with the job released, or with nothing to release. *)
Lemma Inv_unlock_leave s r a :
  Inv s -> en_acts s !! r = Some a -> isRunning (act_phase a) = false -> isQueued (act_phase a) = false ->
  isDispatch (act_phase a) = false -> Inv (leave r (unlock r a s)).
Proof.
  intros I Ha H1 H2 H3. destruct (Inv_out s r a I Ha) as (_ & _ & O3). unfold leave, unlock, set_acts, set_locks. simpl.
  apply (Inv_leave s r a); try done; [|rewrite O3; congruence|apply (inv_alive s I)].
  apply (locksOk_release _ (en_acts s)); [done|by intros; rewrite lookup_delete_ne| |apply (inv_locks s I)].
  intros b. by rewrite lookup_delete_eq.
Qed.

Lemma Inv_leave_free s r a :
  Inv s -> en_acts s !! r = Some a -> holdsJob a = false ->
  isRunning (act_phase a) = false -> isQueued (act_phase a) = false ->
  isDispatch (act_phase a) = false -> Inv (leave r s).
Proof.
  intros I Ha Hh H1 H2 H3. destruct (Inv_out s r a I Ha) as (_ & _ & O3). unfold leave, set_acts.
  apply (Inv_leave s r a); try done; [|rewrite O3; congruence|apply (inv_alive s I)].
  apply (locksOk_drop _ (en_acts s) _ r a); [done|done|by intros; rewrite lookup_delete_ne| |apply (inv_locks s I)].
  intros b. by rewrite lookup_delete_eq.
Qed.

Lemma Inv_drop s r a :
  Inv s -> en_acts s !! r = Some a -> isRunning (act_phase a) = false -> isQueued (act_phase a) = false ->
  isDispatch (act_phase a) = false -> Inv (leave r (if locking (act_kind a) then unlock r a s else s)).
Proof.
  intros I Ha H1 H2 H3. destruct (locking (act_kind a)) eqn:Hl; [by apply Inv_unlock_leave|].
  apply (Inv_leave_free s r a); try done. unfold holdsJob. by rewrite Hl.
Qed.

Lemma Inv_new : Inv newEngine.
Proof.
  split; simpl; try done.
  - intros g cap Hg. rewrite holders_none; [lia|done].
  - apply map_Forall_singleton. lia.
  - intros r. split; [set_solver|by intros (? & ? & _)].
  - intros r. split; [by intros ?%not_elem_of_nil|by intros (? & ? & _)].
  - constructor.
  - simpl. lia.
  - intros r. split; [done|by intros (? & ? & _)].
Qed.

(** ** Every step keeps the invariant *)

(** The case analysis of a step: the activity it acts on and its phase. *)
Ltac step_cases :=
  repeat match goal with
  | H : None = Some _ |- _ => discriminate H
  | H : Some _ = Some _ |- _ => injection H as <-
  | H : match en_acts ?s !! ?r with _ => _ end = Some _ |- _ => destruct (en_acts s !! r) as [a|] eqn:Ha
  | H : match act_phase ?a with _ => _ end = Some _ |- _ => destruct (act_phase a) eqn:Hp
  end.

Lemma Inv_create s r ok s' : Inv s -> exec (OpCreate r ok) s = Some s' -> Inv s'.
Proof.
  intros I H. cbn [exec] in H. step_cases. destruct ok; injection H as <-.
  - destruct (is_ingest (act_kind a)) eqn:Hk;
      apply Inv_plain; try done; rewrite ?Hp; try done;
      try (unfold holdsJob; simpl; by rewrite Hp); try (by unfold kindOk; simpl; rewrite ?Hk);
      try (apply (slotsOk_move _ _ _ a); [done|by right|apply (inv_slots s I)]).
    intros g [= <-]. apply (inv_sem s I).
  - apply Inv_drop; try done; by rewrite Hp.
Qed.

Lemma Inv_enqueue s r s' : Inv s -> exec (OpEnqueue r) s = Some s' -> Inv s'.
Proof.
  intros I H. cbn [exec] in H. step_cases. destruct (_ && _) eqn:B; injection H as <-.
  - boolean. destruct (Inv_out s r a I Ha) as (O1 & O2 & O3). rewrite Hp in *. simpl in *.
    unfold set_tasks, move, set_acts. simpl. apply Inv_move; try done.
    + apply (locksOk_move _ _ r a); [done| |done|apply (inv_locks s I)]. unfold holdsJob. simpl. by rewrite Hp.
    + apply (slotsOk_move _ _ _ a); [done|by right|apply (inv_slots s I)].
    + pose proof (inv_kinds s I _ _ Ha) as K. unfold kindOk in *. by rewrite Hp in K.
    + intros r' Hr'. rewrite elem_of_app, list_elem_of_singleton. tauto.
    + split; [done|]. intros _. apply elem_of_app. right. by left.
    + apply NoDup_app. split_and!; [apply (inv_nodup s I)| |apply NoDup_singleton].
      intros x Hx ->%list_elem_of_singleton. by apply O2 in Hx.
    + rewrite length_app. simpl. lia.
    + apply (inv_alive s I).
  - apply Inv_drop; try done; by rewrite Hp.
Qed.

Lemma Inv_take s s' : Inv s -> exec OpTake s = Some s' -> Inv s'.
Proof.
  intros I H. cbn [exec] in H. destruct (en_dispatching s) eqn:Hd; [|done]. destruct (en_held s) eqn:Hh; [done|].
  destruct (en_tasks s) as [|r rest] eqn:Ht; [done|]. step_cases.
  destruct (Inv_out s r a I Ha) as (O1 & O2 & O3). rewrite Ht in O2.
  assert (Hq : isQueued (act_phase a) = true) by (apply O2; by left). destruct (act_phase a) eqn:Hp; try done.
  pose proof (inv_nodup s I) as Hn. rewrite Ht in Hn. apply NoDup_cons in Hn as [Hr Hn].
  pose proof (inv_length s I) as Hl. rewrite Ht in Hl. simpl in *.
  unfold set_held, set_tasks, move, set_acts. simpl. apply Inv_move; try done.
  - apply (locksOk_move _ _ r a); [done| |done|apply (inv_locks s I)]. unfold holdsJob. simpl. by rewrite Hp.
  - apply (slotsOk_move _ _ _ a); [done|by right|apply (inv_slots s I)].
  - intros g [= <-]. apply (inv_sem s I).
  - pose proof (inv_kinds s I _ _ Ha) as K. unfold kindOk in *. by rewrite Hp in K.
  - intros r' Hr'. rewrite Ht, elem_of_cons. tauto.
  - lia.
  - intros r' Hr'. rewrite Hh. split; [congruence|done].
Qed.

(** Taking a slot. *)
Lemma Inv_slot s r a g held :
  Inv s -> en_acts s !! r = Some a -> slotFree g s = true ->
  (act_phase a = PDispatch g ∧ held = None ∨ act_phase a = PWaiting g ∧ held = en_held s) ->
  Inv (set_held held (move r a (PStart g) s)).
Proof.
  intros I Ha Hf Hcase. destruct (Inv_out s r a I Ha) as (O1 & O2 & O3).
  assert (Hsem : phaseSem (act_phase a) = Some g) by (destruct Hcase as [[-> _]|[-> _]]; done).
  unfold set_held, move, set_acts. simpl. apply Inv_move; try done.
  - apply (locksOk_move _ _ r a); [done| |done|apply (inv_locks s I)].
    unfold holdsJob. simpl. destruct Hcase as [[-> _]|[-> _]]; done.
  - apply (slotsOk_take s _ _ g); [done|done|apply (inv_slots s I)].
  - intros g' [= <-]. by apply (inv_sems s I _ _ Ha).
  - rewrite O1. destruct Hcase as [[-> _]|[-> _]]; done.
  - rewrite O2. destruct Hcase as [[-> _]|[-> _]]; done.
  - apply (inv_nodup s I).
  - apply (inv_length s I).
  - intros r' Hr'. destruct Hcase as [[Hp ->]|[_ ->]]; [|done]. rewrite Hp in O3.
    rewrite (proj2 O3 eq_refl). split; [done|congruence].
  - destruct Hcase as [[_ ->]|[Hp ->]]; [done|]. rewrite O3, Hp. done.
  - destruct Hcase as [[_ ->]|[_ ->]]; [by intros [? ?]|apply (inv_alive s I)].
Qed.

Lemma Inv_flags s running done dispatching :
  Inv s -> (is_Some (en_held s) -> dispatching = true) -> Inv (set_flags running done dispatching s).
Proof. intros [I1 I2 I3 I4 I5 I6 I7 I8 I9 I10 I11 _] H. by split. Qed.

Lemma Inv_setConcurrency s n : Inv s -> Inv (setConcurrency n s).
Proof.
  intros I. pose proof I as [I1 I2 I3 I4 I5 I6 I7 I8 I9 I10 I11 I12]. unfold setConcurrency.
  set (m := if n <=? 0 then 2 else n). destruct (bool_decide _); [done|].
  set (g := fresh (dom (en_caps s))).
  assert (Hg : en_caps s !! g = None) by apply not_elem_of_dom, is_fresh.
  split; simpl; try done.
  - intros g' cap. destruct (decide (g' = g)) as [->|Hne]; [|rewrite lookup_insert_ne by done; apply I2].
    intros _. rewrite holders_none; [lia|]. intros r a Ha Hs.
    assert (phaseSem (act_phase a) = Some g) as Hp by (revert Hs; unfold slotOf; by destruct (act_phase a)).
    destruct (I5 _ _ Ha _ Hp) as [? ?]. congruence.
  - apply map_Forall_insert_2; [|done]. subst m. destruct (Z.leb_spec n 0); lia.
  - by rewrite lookup_insert_eq.
  - intros r a Ha g' Hs. destruct (decide (g' = g)) as [->|Hne]; [by rewrite lookup_insert_eq|].
    rewrite lookup_insert_ne by done. by apply (I5 _ _ Ha).
Qed.

Lemma Inv_enter s k j r s' : Inv s -> exec (OpEnter k j r) s = Some s' -> Inv s'.
Proof.
  intros I H. cbn [exec] in H. destruct (en_acts s !! r) eqn:Ha; [done|].
  pose proof I as [I1 I2 I3 I4 I5 I6 I7 I8 I9 I10 I11 I12].
  assert (Hnone : ∀ P X, tracks P (en_acts s) X -> P PLocked = false -> tracks P (<[r := mkAct k j PLocked]> (en_acts s)) X).
  { intros P X HX HP. apply (tracks_insert P _ X); [done|done|]. simpl. rewrite HP. split; [|done].
    intros Hr. apply HX in Hr as (? & ? & _). congruence. }
  assert (Hmain : ∀ L', (if locking k then tryLockJob j r (en_locks s) = Some L' else L' = en_locks s) ->
            Inv (set_acts (<[r := mkAct k j PLocked]> (en_acts s)) (set_locks L' s))).
  { intros L' HL. unfold set_acts, set_locks. split; simpl; try done.
    - by apply (locksOk_enter (en_locks s)).
    - intros g cap Hg. specialize (I2 g cap Hg).
      assert (holders g (<[r := mkAct k j PLocked]> (en_acts s)) <= holders g (en_acts s))%nat; [by apply holders_move|lia].
    - by apply map_Forall_insert_2.
    - by apply map_Forall_insert_2.
    - by apply Hnone.
    - by apply Hnone.
    - by apply Hnone. }
  destruct (locking k) eqn:Hk.
  - destruct (tryLockJob j r (en_locks s)) as [L'|] eqn:HL; injection H as <-; [by apply Hmain|done].
  - injection H as <-. apply (Hmain (en_locks s)). done.
Qed.

Lemma Inv_begin s r s' : Inv s -> exec (OpBegin r) s = Some s' -> Inv s'.
Proof.
  intros I H. cbn [exec] in H. step_cases. destruct (Inv_out s r a I Ha) as (O1 & O2 & O3). rewrite Hp in *.
  unfold set_cancels, move, set_acts. simpl. apply Inv_move; try done.
  - apply (locksOk_move _ _ r a); [done| |done|apply (inv_locks s I)]. unfold holdsJob. simpl. by rewrite Hp.
  - apply (slotsOk_move _ _ _ a); [done| |apply (inv_slots s I)]. left. unfold slotOf. by rewrite Hp.
  - intros g' [= <-]. apply (inv_sems s I _ _ Ha). by rewrite Hp.
  - set_solver.
  - set_solver.
  - apply (inv_nodup s I).
  - apply (inv_length s I).
  - apply (inv_alive s I).
Qed.

Lemma Inv_end s r s' : Inv s -> exec (OpEnd r) s = Some s' -> Inv s'.
Proof.
  intros I H. cbn [exec] in H. step_cases. destruct (Inv_out s r a I Ha) as (O1 & O2 & O3). rewrite Hp in *.
  unfold set_cancels, move, set_acts. simpl. apply Inv_move; try done.
  - apply (locksOk_move _ _ r a); [done| |done|apply (inv_locks s I)]. unfold holdsJob. simpl. by rewrite Hp.
  - apply (slotsOk_move _ _ _ a); [done| |apply (inv_slots s I)]. left. unfold slotOf. by rewrite Hp.
  - intros g' [= <-]. apply (inv_sems s I _ _ Ha). by rewrite Hp.
  - set_solver.
  - set_solver.
  - apply (inv_nodup s I).
  - apply (inv_length s I).
  - apply (inv_alive s I).
Qed.

Lemma Inv_release s r s' : Inv s -> exec (OpRelease r) s = Some s' -> Inv s'.
Proof.
  intros I H. cbn [exec] in H. step_cases.
  - destruct (is_ingest (act_kind a)) eqn:Hk; [done|]. injection H as <-.
    destruct (Inv_out s r a I Ha) as (O1 & O2 & O3). rewrite Hp in *.
    unfold move, unlock, set_acts, set_locks. simpl. apply Inv_move; try done.
    + apply (locksOk_release _ (en_acts s)); [done|by intros; rewrite lookup_insert_ne| |apply (inv_locks s I)].
      intros b. rewrite lookup_insert_eq. intros [= <-]. unfold holdsJob. simpl. by rewrite andb_false_r.
    + apply (slotsOk_move _ _ _ a); [done| |apply (inv_slots s I)]. left. unfold slotOf. by rewrite Hp.
    + intros g' [= <-]. apply (inv_sems s I _ _ Ha). by rewrite Hp.
    + apply (inv_nodup s I).
    + apply (inv_length s I).
    + apply (inv_alive s I).
  - apply Inv_unlock_leave; try done; by rewrite Hp.
Qed.

Lemma Inv_free s r s' : Inv s -> exec (OpFree r) s = Some s' -> Inv s'.
Proof.
  intros I H. cbn [exec] in H. step_cases.
  - destruct (is_ingest (act_kind a)) eqn:Hk; [|done]. injection H as <-.
    apply Inv_plain; try done; rewrite ?Hp; try done.
    + unfold holdsJob. simpl. by rewrite Hp.
    + apply (slotsOk_move _ _ _ a); [done|by right|apply (inv_slots s I)].
  - apply (Inv_leave_free s r a); try done; rewrite ?Hp; try done.
    unfold holdsJob. by rewrite Hp, andb_false_r.
Qed.

Lemma Inv_exec op s s' : Inv s -> exec op s = Some s' -> Inv s'.
Proof.
  intros I H. pose proof (inv_alive s I) as Hal. destruct op.
  - cbn [exec] in H. destruct (en_running s); [by injection H as <-|].
    destruct (en_dispatching s) eqn:Hd; [done|]. injection H as <-. by apply Inv_flags.
  - cbn [exec] in H. destruct (_ && _); [|done]. injection H as <-. by apply Inv_flags.
  - cbn [exec] in H. destruct (en_running s); injection H as <-; [by apply Inv_flags|done].
  - injection H as <-. by apply Inv_setConcurrency.
  - by eapply Inv_enter.
  - by eapply Inv_create.
  - by eapply Inv_enqueue.
  - by eapply Inv_take.
  - cbn [exec] in H. destruct (en_held s) as [r|] eqn:Hh; [|done]. step_cases.
    destruct (slotFree g s) eqn:Hf; [|done]. injection H as <-. apply (Inv_slot s r a g None); try done. by left.
  - cbn [exec] in H. destruct (en_done s) eqn:Hd; [|done]. destruct (en_held s) as [r|] eqn:Hh; [|done]. step_cases.
    destruct (Inv_out s r a I Ha) as (_ & _ & O3). assert (Hp := proj1 O3 Hh).
    unfold set_flags, set_held, leave, unlock, set_acts, set_locks. simpl.
    apply (Inv_leave s r a); try done.
    + apply (locksOk_release _ (en_acts s)); [done|by intros; rewrite lookup_delete_ne| |apply (inv_locks s I)].
      intros b. by rewrite lookup_delete_eq.
    + by destruct (act_phase a).
    + by destruct (act_phase a).
    + intros r' Hr'. rewrite Hh. split; [done|congruence].
  - cbn [exec] in H. destruct (en_done s); [|done]. destruct (en_dispatching s); [|done].
    destruct (en_held s) eqn:Hh; [done|]. injection H as <-. apply Inv_flags; [done|]. rewrite Hh. by intros [? ?].
  - cbn [exec] in H. step_cases. destruct (slotFree g s) eqn:Hf; [|done]. injection H as <-.
    apply (Inv_slot s run a g (en_held s)) in Hf; [|done|done|by right]. exact Hf.
  - cbn [exec] in H. step_cases. apply Inv_unlock_leave; try done; by rewrite Hp.
  - by eapply Inv_begin.
  - by eapply Inv_end.
  - by eapply Inv_release.
  - by eapply Inv_free.
Qed.

Lemma Inv_reachable s : reachable s -> Inv s.
Proof. induction 1; [apply Inv_new|by eapply Inv_exec]. Qed.

(** ** Progress *)

Definition weight (a : Act) : nat :=
  match act_phase a with
  | PLocked => 8 | PCreated => 7 | PQueued => 6 | PDispatch _ | PWaiting _ => 5
  | PStart _ => 4 | PRunning _ => 3 | PEnded _ => 2 | PReleased _ | PFreed => 1
  end.

Definition work (acts : gmap string Act) : nat := map_fold (λ _ a n, weight a + n)%nat 0%nat acts.

Lemma work_delete acts r a : acts !! r = Some a -> work acts = (weight a + work (delete r acts))%nat.
Proof.
  intros H. unfold work. apply (map_fold_delete_L (λ _ a n, weight a + n)%nat); [|done]. intros. lia.
Qed.

Lemma work_insert acts r a : work (<[r := a]> acts) = (weight a + work (delete r acts))%nat.
Proof.
  rewrite (work_delete (<[r := a]> acts) r a) by by rewrite lookup_insert_eq.
  by rewrite delete_insert_eq.
Qed.

(** What the goroutines do when nobody interferes: no entry, no change of
    settings, no shutdown, and every insertion in the database succeeds. *)
Definition completes (op : Op) : bool :=
  match op with
  | OpCreate _ ok => ok
  | OpEnqueue _ | OpTake | OpAcquire | OpSlot _ | OpBegin _ | OpEnd _ | OpRelease _ | OpFree _ => true
  | _ => false
  end.

(** Waiting for the dispatcher or for a slot. *)
Definition parked (a : Act) : bool :=
  match act_phase a with PQueued | PDispatch _ | PWaiting _ => true | _ => false end.

Definition alive (s : Eng) : Prop := en_dispatching s = true ∧ en_done s = false.

(** A step that leaves less to do. *)
Definition advances (s : Eng) : Prop :=
  ∃ op s', completes op = true ∧ exec op s = Some s' ∧ (work (en_acts s') < work (en_acts s))%nat ∧ (alive s -> alive s').

Lemma advances_move s s' op r a p :
  completes op = true -> exec op s = Some s' -> en_acts s !! r = Some a ->
  en_acts s' = <[r := set_phase p a]> (en_acts s) -> (weight (set_phase p a) < weight a)%nat ->
  en_dispatching s' = en_dispatching s -> en_done s' = en_done s -> advances s.
Proof.
  intros Hc He Ha Hs Hw Hd Hn. exists op, s'. split_and!; [done|done| |].
  - rewrite Hs, work_insert, (work_delete _ _ _ Ha). lia.
  - intros [? ?]. split; congruence.
Qed.

Lemma advances_leave s s' op r a :
  completes op = true -> exec op s = Some s' -> en_acts s !! r = Some a ->
  en_acts s' = delete r (en_acts s) -> en_dispatching s' = en_dispatching s -> en_done s' = en_done s -> advances s.
Proof.
  intros Hc He Ha Hs Hd Hn. exists op, s'. split_and!; [done|done| |].
  - rewrite Hs, (work_delete _ _ _ Ha). unfold weight. destruct (act_phase a); lia.
  - intros [? ?]. split; congruence.
Qed.

Ltac advance op r a p :=
  eapply (advances_move _ _ op r a p);
  [reflexivity| cbn [exec]; repeat match goal with H : _ = _ |- _ => rewrite H end; reflexivity
  |eassumption|reflexivity|unfold weight; cbn [set_phase act_phase];
   repeat match goal with H : _ = _ |- _ => rewrite H end; simpl; lia|done|done].

Ltac depart op r a :=
  eapply (advances_leave _ _ op r a);
  [reflexivity| cbn [exec]; repeat match goal with H : _ = _ |- _ => rewrite H end; reflexivity
  |eassumption|reflexivity|done|done].

(** An activity that is not parked can take its next step. *)
Lemma advance_unparked s r a : Inv s -> en_acts s !! r = Some a -> parked a = false -> advances s.
Proof.
  intros I Ha Hpark. pose proof (inv_kinds s I _ _ Ha) as K. unfold parked in Hpark. unfold kindOk in K.
  destruct (act_phase a) eqn:Hp; try done.
  - destruct (is_ingest (act_kind a)) eqn:Hk.
    + advance (OpCreate r true) r a (PWaiting (en_sem s)).
    + advance (OpCreate r true) r a PCreated.
  - destruct (en_running s && (length (en_tasks s) <? queueCapacity)%nat) eqn:B.
    + advance (OpEnqueue r) r a PQueued.
    + destruct (locking (act_kind a)) eqn:Hl; depart (OpEnqueue r) r a.
  - advance (OpBegin r) r a (PRunning g).
  - advance (OpEnd r) r a (PEnded g).
  - destruct (is_ingest (act_kind a)) eqn:Hk.
    + advance (OpFree r) r a PFreed.
    + advance (OpRelease r) r a (PReleased g).
  - depart (OpFree r) r a.
  - depart (OpRelease r) r a.
Qed.

Lemma slotFree_idle s g :
  Inv s -> map_Forall (λ _ a, parked a = true) (en_acts s) -> is_Some (en_caps s !! g) -> slotFree g s = true.
Proof.
  intros I Hall [cap Hg]. unfold slotFree. rewrite Hg. apply Nat.ltb_lt. rewrite holders_none.
  - pose proof (inv_caps s I _ _ Hg) as Hc. simpl in Hc. lia.
  - intros r a Ha Hs. specialize (Hall _ _ Ha). unfold parked, slotOf in *. by destruct (act_phase a).
Qed.

(** When all are parked, the dispatcher or a waiting ingest moves. *)
Lemma advance_parked s :
  Inv s -> alive s -> en_acts s ≠ ∅ -> map_Forall (λ _ a, parked a = true) (en_acts s) -> advances s.
Proof.
  intros I [Hal Hdone] Hne Hall.
  destruct (en_held s) as [r|] eqn:Hh.
  { destruct (proj1 (inv_held s I r) Hh) as (a & Ha & Hp). destruct (act_phase a) as [| | |g| | | | | |] eqn:Hp'; try done.
    assert (Hf : slotFree g s = true) by (apply slotFree_idle; [done..|]; apply (inv_sems s I _ _ Ha); by rewrite Hp').
    advance OpAcquire r a (PStart g). }
  destruct (en_tasks s) as [|r rest] eqn:Ht.
  - destruct (map_choose (en_acts s) Hne) as (r & a & Ha). pose proof (Hall _ _ Ha) as Hp. unfold parked in Hp.
    destruct (act_phase a) as [| | |g|g| | | | |] eqn:Hp'; try done.
    + assert (r ∈ en_tasks s) as Hin by (apply (inv_tasks s I); exists a; by rewrite Hp'). rewrite Ht in Hin.
      by apply not_elem_of_nil in Hin.
    + assert (en_held s = Some r) as Hin by (apply (inv_held s I); exists a; by rewrite Hp'). congruence.
    + assert (Hf : slotFree g s = true) by (apply slotFree_idle; [done..|]; apply (inv_sems s I _ _ Ha); by rewrite Hp').
      advance (OpSlot r) r a (PStart g).
  - assert (r ∈ en_tasks s) as Hin by (rewrite Ht; by left).
    apply (inv_tasks s I) in Hin as (a & Ha & Hp). destruct (act_phase a) eqn:Hp'; try done.
    advance OpTake r a (PDispatch (en_sem s)).
Qed.

Lemma drain n s :
  (work (en_acts s) <= n)%nat -> Inv s -> alive s ->
  ∃ ops s', Forall (λ op, completes op = true) ops ∧ execs ops s = Some s' ∧ Inv s' ∧ en_acts s' = ∅.
Proof.
  revert s. induction n as [|n IH]; intros s Hn I Hal;
    (destruct (decide (en_acts s = ∅)) as [He|Hne]; [exists [], s; by split_and!; [constructor|..]|]);
    assert (Hadv : advances s) by
      (destruct (decide (map_Forall (λ _ a, parked a = true) (en_acts s))) as [Hall|Hnot];
       [by apply advance_parked|
        apply map_not_Forall in Hnot as (r & a & Ha & Hp); [|apply _];
        apply not_true_is_false in Hp; by eapply advance_unparked]);
    destruct Hadv as (op & s1 & Hc & He & Hw & Hal1); [lia|].
  destruct (IH s1) as (ops & s' & Hops & Hex & I' & Hend); [lia|by eapply Inv_exec|by apply Hal1|].
  exists (op :: ops), s'. split_and!; [by constructor| |done|done]. simpl. by rewrite He.
Qed.

Lemma work_move s r a p :
  en_acts s !! r = Some a -> (weight (set_phase p a) < weight a)%nat ->
  (work (<[r := set_phase p a]> (en_acts s)) < work (en_acts s))%nat.
Proof. intros Ha Hw. rewrite work_insert, (work_delete _ _ _ Ha). lia. Qed.

Lemma work_leave s r a : en_acts s !! r = Some a -> (work (delete r (en_acts s)) < work (en_acts s))%nat.
Proof. intros Ha. rewrite (work_delete _ _ _ Ha). unfold weight. destruct (act_phase a); lia. Qed.

(** Each of these steps leaves less to do. *)
Lemma completes_work op s s' :
  Inv s -> completes op = true -> exec op s = Some s' -> (work (en_acts s') < work (en_acts s))%nat.
Proof.
  intros I Hc H. destruct op; try done; cbn [completes] in Hc; subst; cbn [exec] in H.
  3: { destruct (en_dispatching s); [|done]. destruct (en_held s); [done|].
       destruct (en_tasks s) as [|r rest] eqn:Ht; [done|]. step_cases. apply work_move; [done|].
       assert (Hq : isQueued (act_phase a) = true).
       { apply (Inv_out s r a I Ha). rewrite Ht. by left. }
       unfold weight. simpl. destruct (act_phase a); try done; lia. }
  3: destruct (en_held s); [|done].
  all: step_cases;
    repeat match goal with H : context [if ?b then _ else _] |- _ => destruct b eqn:?; [|try discriminate H] end;
    try discriminate; try injection H as <-; simpl;
    try destruct (is_ingest (act_kind a));
    first [eapply work_leave; eassumption
          |apply work_move; [assumption|unfold weight; simpl; rewrite Hp; repeat case_match; lia]].
Qed.

Lemma completes_length ops s s' :
  Inv s -> Forall (λ op, completes op = true) ops -> execs ops s = Some s' -> (length ops <= work (en_acts s))%nat.
Proof.
  intros I H. revert s I. induction H as [|op ops Hc Hops IH]; intros s I He; simpl in *; [lia|].
  destruct (exec op s) as [s1|] eqn:E; [|done]. specialize (IH s1 (Inv_exec _ _ _ I E) He).
  pose proof (completes_work _ _ _ I Hc E). lia.
Qed.

Lemma Inv_idle s : Inv s -> en_acts s = ∅ -> en_locks s = ∅ ∧ en_tasks s = [] ∧ en_cancels s = ∅.
Proof.
  intros I He. split_and!.
  - apply map_empty. intros j. destruct (en_locks s !! j) as [r|] eqn:Hl; [|done].
    destruct (proj2 (inv_locks s I) _ _ Hl) as (a & Ha & _). by rewrite He in Ha.
  - destruct (en_tasks s) as [|r rest] eqn:Ht; [done|].
    destruct (proj1 (inv_tasks s I r)) as (a & Ha & _); [rewrite Ht; by left|]. by rewrite He in Ha.
  - apply set_eq. intros r. rewrite (inv_cancels s I r). split; [|set_solver]. intros (a & Ha & _). by rewrite He in Ha.
Qed.

(** ** The theorems *)

(** C4: a job is never worked on twice.  In every state the goroutines can
    reach, for any interleaving, two activities of the kinds that change the
    artifacts of a job (backup, prune, ingest) and that have not released it are
    the same one; and no lock leaks: a job is busy exactly when such an activity
    exists. *)
Theorem job_exclusion s :
  reachable s ->
  (∀ r1 r2 a1 a2, en_acts s !! r1 = Some a1 -> en_acts s !! r2 = Some a2 ->
     holdsJob a1 = true -> holdsJob a2 = true -> act_job a1 = act_job a2 -> r1 = r2)
  ∧ (∀ j, JobBusy j s = true <-> ∃ r a, en_acts s !! r = Some a ∧ holdsJob a = true ∧ act_job a = j).
Proof.
  intros [L1 L2]%Inv_reachable%inv_locks. split.
  - intros r1 r2 a1 a2 H1 H2 Hh1 Hh2 E. pose proof (L1 _ _ H1 Hh1). pose proof (L1 _ _ H2 Hh2). congruence.
  - intros j. unfold JobBusy. rewrite bool_decide_eq_true. split.
    + intros [r Hr]. apply L2 in Hr as (a & ?). by exists r, a.
    + intros (r & a & Ha & Hh & <-). eexists. by apply L1.
Qed.

(** Two jobs and a restore in flight, one backup running. *)
Definition sampleOps : list Op :=
  [OpStart; OpSpawn; OpSetConcurrency 1;
   OpEnter RunBackup "j1" "r1"; OpCreate "r1" true; OpEnqueue "r1"; OpTake; OpAcquire; OpBegin "r1";
   OpEnter RunBackup "j1" "r2"; OpEnter RunPrune "j2" "r3"; OpCreate "r3" true; OpEnqueue "r3";
   OpEnter RunIngest "j3" "r4"; OpCreate "r4" true].

Definition sampleEngine : Eng := default newEngine (execs sampleOps newEngine).

Lemma execs_reachable ops s s' : reachable s -> execs ops s = Some s' -> reachable s'.
Proof.
  revert s. induction ops as [|op ops IH]; intros s Hs H; simpl in H; [by injection H as <-|].
  destruct (exec op s) as [s1|] eqn:E; [|done]. eapply IH; [|exact H]. by eapply reach_step.
Qed.

Lemma sampleEngine_reachable : reachable sampleEngine.
Proof. eapply (execs_reachable sampleOps newEngine); [constructor|]. vm_compute. reflexivity. Qed.

Lemma job_exclusion_witness :
  JobBusy "j1" sampleEngine = true ∧ en_acts sampleEngine !! "r2" = None
  ∧ (∀ r1 r2 a1 a2, en_acts sampleEngine !! r1 = Some a1 -> en_acts sampleEngine !! r2 = Some a2 ->
       holdsJob a1 = true -> holdsJob a2 = true -> act_job a1 = act_job a2 -> r1 = r2)
  ∧ (∀ j, JobBusy j sampleEngine = true <->
       ∃ r a, en_acts sampleEngine !! r = Some a ∧ holdsJob a = true ∧ act_job a = j).
Proof.
  split; [vm_compute; reflexivity|]. split; [vm_compute; reflexivity|].
  apply (job_exclusion sampleEngine). exact sampleEngine_reachable.
Defined.

(** C15: the engine respects its bounds.  In every reachable state the queue
    holds at most [queueCapacity] runs, each once; every semaphore made by
    [setConcurrency] has a positive capacity and at most that many activities
    hold its slots; and a run can be canceled exactly while it executes. *)
Theorem engine_bounds s :
  reachable s ->
  (length (en_tasks s) <= queueCapacity)%nat ∧ NoDup (en_tasks s)
  ∧ (∀ g cap, en_caps s !! g = Some cap -> (1 <= cap)%nat ∧ (holders g (en_acts s) <= cap)%nat)
  ∧ (∀ r a g, en_acts s !! r = Some a -> slotOf a = Some g -> is_Some (en_caps s !! g))
  ∧ (∀ r, IsRunning r s = true <-> ∃ a g, en_acts s !! r = Some a ∧ act_phase a = PRunning g).
Proof.
  intros I%Inv_reachable. split_and!; [apply (inv_length s I)|apply (inv_nodup s I)| | |].
  - intros g cap Hg. split; [by apply (inv_caps s I g)|by apply (inv_slots s I)].
  - intros r a g Ha Hs. apply (inv_sems s I _ _ Ha). revert Hs. unfold slotOf. by destruct (act_phase a).
  - intros r. unfold IsRunning. rewrite bool_decide_eq_true, (inv_cancels s I r). split.
    + intros (a & Ha & Hp). destruct (act_phase a) as [| | | | | |g| | |] eqn:E; try done. by exists a, g.
    + intros (a & g & Ha & Hp). exists a. by rewrite Hp.
Qed.

Lemma engine_bounds_witness :
  holders (en_sem sampleEngine) (en_acts sampleEngine) = 1%nat ∧ en_tasks sampleEngine = ["r3"]
  ∧ (length (en_tasks sampleEngine) <= queueCapacity)%nat ∧ NoDup (en_tasks sampleEngine)
  ∧ (∀ g cap, en_caps sampleEngine !! g = Some cap ->
       (1 <= cap)%nat ∧ (holders g (en_acts sampleEngine) <= cap)%nat)
  ∧ (∀ r a g, en_acts sampleEngine !! r = Some a -> slotOf a = Some g -> is_Some (en_caps sampleEngine !! g))
  ∧ (∀ r, IsRunning r sampleEngine = true <->
       ∃ a g, en_acts sampleEngine !! r = Some a ∧ act_phase a = PRunning g).
Proof.
  split; [vm_compute; reflexivity|]. split; [vm_compute; reflexivity|].
  apply (engine_bounds sampleEngine). exact sampleEngine_reachable.
Defined.

(** C14: the engine never deadlocks and drains.  From every reachable state with
    the dispatcher alive, whatever is in flight, the goroutines left to
    themselves (no entry, no cancellation, no abandonment) cannot take more
    steps than the work at hand, and can take steps until every activity is
    gone; then no job is locked, the queue is empty and nothing is running. *)
Theorem engine_drains s :
  reachable s -> en_dispatching s = true -> en_done s = false ->
  (∀ ops s', Forall (λ op, completes op = true) ops -> execs ops s = Some s' ->
     (length ops <= work (en_acts s))%nat)
  ∧ ∃ ops s', Forall (λ op, completes op = true) ops ∧ execs ops s = Some s'
  ∧ en_acts s' = ∅ ∧ en_locks s' = ∅ ∧ en_tasks s' = [] ∧ en_cancels s' = ∅.
Proof.
  intros I%Inv_reachable Hd Hn. split; [intros ops s'; by apply completes_length|]. destruct (drain (work (en_acts s)) s) as (ops & s' & Hops & He & I' & Hend); [lia|done|done|].
  destruct (Inv_idle s' I' Hend) as (? & ? & ?). by exists ops, s'.
Qed.

Lemma engine_drains_witness :
  work (en_acts sampleEngine) = 14%nat
  ∧ (∀ ops s', Forall (λ op, completes op = true) ops -> execs ops sampleEngine = Some s' ->
       (length ops <= work (en_acts sampleEngine))%nat)
  ∧ ∃ ops s', Forall (λ op, completes op = true) ops ∧ execs ops sampleEngine = Some s'
  ∧ en_acts s' = ∅ ∧ en_locks s' = ∅ ∧ en_tasks s' = [] ∧ en_cancels s' = ∅.
Proof.
  split; [vm_compute; reflexivity|].
  apply (engine_drains sampleEngine); [exact sampleEngine_reachable|vm_compute; reflexivity|vm_compute; reflexivity].
Defined.

(** Lowering the limit does not take the slots of the old semaphore away: with
    the limit lowered from two to one while two runs execute, a third one
    starts. *)
Example setConcurrency_overlap :
  let start r j := [OpEnter RunBackup j r; OpCreate r true; OpEnqueue r; OpTake; OpAcquire; OpBegin r] in
  let ops := [OpStart; OpSpawn] ++ start "r1" "j1" ++ start "r2" "j2" ++ [OpSetConcurrency 1] ++ start "r3" "j3" in
  (λ s, (en_caps s !! en_sem s, size (en_cancels s))) <$> execs ops newEngine = Some (Some 1%nat, 3%nat).
Proof. by vm_compute. Qed.

(** * The engine as a queue

    What callers may rely on: the engine is a bounded queue that serves its
    runs in the order it accepted them.  The machine of [Engine], with its
    channel, its dispatcher and its semaphores, refines that specification. *)

(** ** The specification: whether it accepts, and who waits *)

Record Queue := mkQueue { q_open : bool; q_waiting : list string }.

Inductive QEvent :=
  | QOpen | QClose
  | QAccept (run : string)    (* at the end of the queue *)
  | QRefuse (run : string)    (* closed or full *)
  | QLeave (run : string).    (* the head: a worker has it, or it is given up *)

Definition qstep (e : QEvent) (q : Queue) : option Queue :=
  match e with
  | QOpen => Some (mkQueue true (q_waiting q))
  | QClose => Some (mkQueue false (q_waiting q))
  | QAccept r =>
      if q_open q && (length (q_waiting q) <=? queueCapacity)%nat
      then Some (mkQueue (q_open q) (q_waiting q ++ [r])) else None
  | QRefuse r => if negb (q_open q) || (queueCapacity <=? length (q_waiting q))%nat then Some q else None
  | QLeave r =>
      match q_waiting q with
      | x :: rest => if String.eqb x r then Some (mkQueue (q_open q) rest) else None
      | [] => None
      end
  end.

Fixpoint qsteps (es : list QEvent) (q : Queue) : option Queue :=
  match es with
  | [] => Some q
  | e :: rest => q' ← qstep e q; qsteps rest q'
  end.

(** ** The abstraction

    A run the dispatcher holds is still at the head of the queue. *)
Definition queueOf (s : Eng) : Queue := mkQueue (en_running s) (option_list (en_held s) ++ en_tasks s).

(** What a caller sees of an action. *)
Definition observe (op : Op) (s : Eng) : list QEvent :=
  match op with
  | OpStart => if en_running s then [] else [QOpen]
  | OpStop => if en_running s then [QClose] else []
  | OpEnqueue r => if en_running s && (length (en_tasks s) <? queueCapacity)%nat then [QAccept r] else [QRefuse r]
  | OpAcquire | OpAbandon => match en_held s with Some r => [QLeave r] | None => [] end
  | _ => []
  end.

Fixpoint observations (ops : list Op) (s : Eng) : list QEvent :=
  match ops with
  | [] => []
  | op :: rest => observe op s ++ match exec op s with Some s' => observations rest s' | None => [] end
  end.

(** ** The refinement *)

Ltac exec_cases H :=
  repeat match type of H with context [match ?x with _ => _ end] => let E := fresh "E" in destruct x eqn:E; try discriminate H end;
  try (injection H as <-).

Lemma queueOf_setConcurrency n s : queueOf (setConcurrency n s) = queueOf s.
Proof. unfold setConcurrency. by destruct (bool_decide _). Qed.

Lemma qsteps_refuse r s :
  en_running s && (length (en_tasks s) <? queueCapacity)%nat = false -> qsteps [QRefuse r] (queueOf s) = Some (queueOf s).
Proof.
  intros E. cbn [qsteps qstep queueOf q_open q_waiting].
  assert (R : negb (en_running s) || (queueCapacity <=? length (option_list (en_held s) ++ en_tasks s))%nat = true); [|by rewrite R].
  destruct (en_running s); [|done]. cbn [andb negb orb] in *. apply Nat.ltb_ge in E. apply Nat.leb_le. rewrite length_app.
  etransitivity; [exact E|apply Nat.le_add_l].
Qed.

Lemma queue_room (o : option string) (l : list string) n : (length l < n)%nat -> (length (option_list o ++ l) <= n)%nat.
Proof. rewrite length_app. intros H. destruct o; simpl; lia. Qed.

(** The head leaves. *)
Lemma qsteps_leave r s : en_held s = Some r -> qsteps [QLeave r] (queueOf s) = Some (mkQueue (en_running s) (en_tasks s)).
Proof. intros E. unfold queueOf. rewrite E. cbn. by rewrite String.eqb_refl. Qed.

Lemma exec_observed op s s' : exec op s = Some s' -> qsteps (observe op s) (queueOf s) = Some (queueOf s').
Proof.
  intros H. destruct op; cbn [exec] in H; cbn [observe].
  all: exec_cases H; try reflexivity; try (rewrite queueOf_setConcurrency; reflexivity).
  all: try (by rewrite qsteps_refuse); try (by rewrite qsteps_leave).
  - apply andb_true_iff in E as [E _]. apply andb_true_iff in E as [E _]. unfold queueOf. cbn. by rewrite E.
  - apply andb_true_iff in E1 as [E3 E4]. apply Nat.ltb_lt in E4. cbn [qsteps qstep queueOf q_open q_waiting]. rewrite E3.
    cbn [andb]. rewrite (proj2 (Nat.leb_le (length (option_list (en_held s) ++ en_tasks s)) queueCapacity)); [|by apply queue_room].
    cbn. unfold queueOf. cbn. by rewrite E3, <- app_assoc.
  - unfold queueOf. cbn. by rewrite E0, E1.
Qed.

Lemma qsteps_app es es' q : qsteps (es ++ es') q = (q' ← qsteps es q; qsteps es' q').
Proof. revert q. induction es as [|e es IH]; intros q; [done|]. cbn. destruct (qstep e q); [apply IH|done]. Qed.

Lemma execs_observed ops s s' : execs ops s = Some s' -> qsteps (observations ops s) (queueOf s) = Some (queueOf s').
Proof.
  revert s. induction ops as [|op ops IH]; intros s; cbn [execs observations]; [by intros [= <-]|].
  destruct (exec op s) as [t|] eqn:E; [|done]. intros H. rewrite qsteps_app, (exec_observed op s t E). by apply IH.
Qed.

(** *** Order of service *)

Definition accepted (es : list QEvent) : list string := omap (λ e, match e with QAccept r => Some r | _ => None end) es.
Definition served (es : list QEvent) : list string := omap (λ e, match e with QLeave r => Some r | _ => None end) es.

(** The specification serves in order. *)
Lemma qsteps_fifo es q q' : qsteps es q = Some q' -> q_waiting q ++ accepted es = served es ++ q_waiting q'.
Proof.
  revert q. induction es as [|e es IH]; intros [o l]; cbn [qsteps]; [intros [= <-]; by rewrite app_nil_r|].
  destruct (qstep e (mkQueue o l)) as [q1|] eqn:E; [|done]. intros H. specialize (IH q1 H).
  destruct e; cbn [qstep q_open q_waiting] in E; unfold accepted, served in *; cbn [omap list_omap q_waiting].
  - injection E as <-. exact IH.
  - injection E as <-. exact IH.
  - destruct (_ && _); [|done]. injection E as <-. cbn [q_waiting] in IH. rewrite <- IH, <- app_assoc. done.
  - destruct (_ || _); [|done]. injection E as <-. exact IH.
  - destruct l as [|x rest]; [done|]. destruct (String.eqb_spec x run) as [->|]; [|done]. injection E as <-. cbn in *. by rewrite IH.
Qed.


