(* ===== verification/Restore.v ===== *)
(** * Download and restore: [internal/engine/download.go], [restore.go]

    An artifact is read back from its destination, unpacked, and written to a
    path, extracted under a directory, or handed to a source driver.  What is
    done to the file system is recorded as calls; closing readers and clients
    changes nothing the model sees. *)
From S2P Require Import Prelude GoStrings GoTime Core CoreSetters Config GoSlices Pack GoPath Spool Secrets Db StoreCommon StoreJobs.
From S2P Require Import StoreRuns StoreConfig StoreAdmin RunState Drivers Runner Sample.
Open Scope Z_scope.

(** [archive/tar]: the headers a reader yields with the content of each entry,
    how it ends, and how much of the input was read. *)
Inductive Typeflag := TypeDir | TypeReg | TypeSymlink | TypeOther.

Record TarEntry := mkTarEntry {
  hdr_Name : string;
  hdr_Typeflag : Typeflag;
  hdr_Linkname : string;
  hdr_Content : string
}.

Record Archive := mkArchive { ar_entries : list TarEntry; ar_end : option error; ar_read : Z }.

Class Tar := tar_NewReader : Reader -> Archive.

(** ** Download *)

Record DownloadOptions := mkDownloadOptions { dl_Raw : bool; dl_Passphrase : string }.

Definition unpackedName (filename : string) : string :=
  let name := TrimSuffix filename ".age" in
  let name := TrimSuffix name ".zst" in
  TrimSuffix name ".gz".

(** ** Paths of an archive *)

Definition nulByte : ascii := byte_of 0.

Definition safeJoin (root name : string) : result string :=
  if HasPrefix name "/" || ContainsByte name nulByte
  then Fail (newError ("refusing unsafe archive entry " +:+ Quote name))
  else
    let clean := Clean (PathJoin [root; name]) in
    if negb (String.eqb clean root) && negb (HasPrefix clean (root +:+ "/"))
    then Fail (newError ("refusing archive entry " +:+ Quote name +:+ " outside the target directory"))
    else Ok clean.

(** An operation on the file system. *)
Definition fs (c : Call) : M (option error) :=
  err ← ask env_fs;
  match err with
  | Some err => mret (Some err)
  | None => record c;; mret None
  end.

(** One entry of the loop of [extractTar]. *)
Definition extractEntry (root : string) (h : TarEntry) : M (option error) :=
  match safeJoin root (hdr_Name h) with
  | Fail err => mret (Some err)
  | Ok path =>
      match hdr_Typeflag h with
      | TypeDir =>
          e ← fs (CallMkdirAll path);
          mret (wrapError ("create directory " +:+ hdr_Name h) <$> e)
      | TypeReg =>
          e ← fs (CallMkdirAll (Dir path));
          match e with
          | Some err => mret (Some (wrapError ("create directory for " +:+ hdr_Name h) err))
          | None =>
              e ← ask env_fs;   (* os.OpenFile *)
              match e with
              | Some err => mret (Some (wrapError ("create file " +:+ hdr_Name h) err))
              | None =>
                  e ← fs (CallWriteFile path (hdr_Content h));
                  match e with
                  | Some err => mret (Some (wrapError ("write file " +:+ hdr_Name h) err))
                  | None =>
                      e ← ask env_fs;   (* f.Close *)
                      mret (wrapError ("close file " +:+ hdr_Name h) <$> e)
                  end
              end
          end
      | TypeSymlink =>
          match safeJoin root (PathJoin [Dir (hdr_Name h); hdr_Linkname h]) with
          | Fail _ =>
              mret (Some (newError ("refusing symlink " +:+ hdr_Name h +:+ " pointing outside the target directory")))
          | Ok _ =>
              e ← fs (CallMkdirAll (Dir path));
              match e with
              | Some err => mret (Some (wrapError ("create directory for " +:+ hdr_Name h) err))
              | None =>
                  _ ← fs (CallRemoveFile path);
                  e ← fs (CallSymlink (hdr_Linkname h) path);
                  mret (wrapError ("create symlink " +:+ hdr_Name h) <$> e)
              end
          end
      | TypeOther => mret None
      end
  end.

Fixpoint extractLoop (root : string) (entries : list TarEntry) (finish : option error) : M (option error) :=
  c ← ctxErr;
  match c with
  | Some err => mret (Some err)
  | None =>
      match entries with
      | [] => mret (wrapError "read archive" <$> finish)
      | h :: rest =>
          e ← extractEntry root h;
          match e with
          | Some err => mret (Some err)
          | None => extractLoop root rest finish
          end
      end
  end.

(** ** Restore *)

Inductive RestoreMode := RestoreToPath | RestoreToSource | RestoreOther (mode : string).

Record RestoreRequest := mkRestoreRequest {
  rq_Artifact : Artifact;
  rq_Mode : RestoreMode;
  rq_TargetPath : string;
  rq_Extract : bool;
  rq_TargetSourceID : string;
  rq_Passphrase : string;
  rq_Params : Config;
  rq_CreatedBy : string
}.

Section restore.
  Context {A : AEAD} {C : Codecs} {Dr : Drivers} {T : Tar}.
  Context (getwd : result string).

Definition passphraseForArtifact (artifact : Artifact) : M (result string) :=
  if bool_decide (art_JobID artifact = "")
  then mret (Fail (newError "artifact is encrypted and no passphrase was provided"))
  else
    do? job := JobRepo_Get (art_JobID artifact)
      else err => mret (Fail (wrapError "artifact is encrypted and the job is gone" err)) in
    mret (match jobPassphrase job with
          | Fail err => Fail err
          | Ok passphrase =>
              if bool_decide (passphrase = "")
              then Fail (newError "artifact is encrypted and no passphrase was provided")
              else Ok passphrase
          end).

(** [client.Get]. *)
Definition client_Get (c : Destination) (path : string) : M (result Reader) :=
  r ← ask env_get;
  match r with
  | Fail err => mret (Fail err)
  | Ok body => record (CallGet (dst_ID c) path);; mret (Ok body)
  end.

(** The reader and the name to give to what it reads. *)
Definition OpenArtifact (artifact : Artifact) (opts : DownloadOptions) : M (result (Reader * string)) :=
  do? d := DestinationRepo_Get (art_DestinationID artifact)
    else err => mret (Fail (wrapError "load destination" err)) in
  do? client := OpenDestination d else err => mret (Fail err) in
  do? body := client_Get client (art_Path artifact)
    else err => mret (Fail (wrapError ("read " +:+ art_Path artifact +:+ " from " +:+ dst_Name d) err)) in
  if dl_Raw opts then mret (Ok (body, art_Filename artifact))
  else
    let packOpts := mkPackOptions (art_Compression artifact) 0 (art_Encryption artifact) "" in
    if passthrough packOpts then mret (Ok (body, art_Filename artifact))
    else
      do? passphrase :=
        (if bool_decide (dl_Passphrase opts = "") && bool_decide (art_Encryption artifact = EncryptionAge)
         then passphraseForArtifact artifact else mret (Ok (dl_Passphrase opts)))
        else err => mret (Fail err) in
      let packOpts := mkPackOptions (po_Compression packOpts) (po_Level packOpts) (po_Encryption packOpts) passphrase in
      mret (match newUnpackReader body packOpts with
            | Fail err => Fail err
            | Ok reader => Ok (reader, unpackedName (art_Filename artifact))
            end).

Definition Abs (p : string) : result string :=
  if IsAbs p then Ok (Clean p)
  else let? wd := getwd else err => Fail err in Ok (PathJoin [wd; p]).

(** The result is the error and the bytes read. *)
Definition extractTar (r : Reader) (target : string) : M (option error * Z) :=
  match Abs target with
  | Fail err => mret (Some (wrapError "resolve target directory" err), 0)
  | Ok root =>
      let ar := tar_NewReader r in
      e ← extractLoop root (ar_entries ar) (ar_end ar);
      mret (e, ar_read ar)
  end.

(** [io.Copy] of the whole reader into a file: it fails with the context, with
    the reader or with the file. *)
Definition copyToFile (r : Reader) (path : string) : M (option error) :=
  c ← ctxErr;
  match c with
  | Some err => mret (Some err)
  | None =>
      match rd_err r with
      | Some err => mret (Some err)
      | None => fs (CallWriteFile path (rd_data r))
      end
  end.

(** The target appears whole or not at all: the bytes go to [tmp], which is
    renamed when it is complete and removed otherwise. *)
Definition installFile (r : Reader) (tmp target : string) : M (option error) :=
  e ← ask env_fs;   (* os.OpenFile *)
  match e with
  | Some err => mret (Some (wrapError "create target file" err))
  | None =>
      e ← copyToFile r tmp;
      match e with
      | Some err => _ ← fs (CallRemoveFile tmp); mret (Some (wrapError "write target file" err))
      | None =>
          e ← ask env_fs;   (* f.Close *)
          match e with
          | Some err => _ ← fs (CallRemoveFile tmp); mret (Some (wrapError "close target file" err))
          | None =>
              e ← fs (CallRename tmp target);
              match e with
              | Some err => _ ← fs (CallRemoveFile tmp); mret (Some (wrapError "install target file" err))
              | None => mret None
              end
          end
      end
  end.

Definition restoreToPath (r : Reader) (name : string) (req : RestoreRequest) (artifact : Artifact) : M (option error * Z) :=
  let target := rq_TargetPath req in
  let isTar := rq_Extract req && (bool_decide (art_Extension artifact = "tar") || HasSuffix name ".tar") in
  if rq_Extract req && negb isTar
  then mret (Some (newError ("extract requested but artifact extension " +:+ Quote (art_Extension artifact) +:+ " is not tar")), 0)
  else if isTar then
    e ← fs (CallMkdirAll target);
    match e with
    | Some err => mret (Some (wrapError "create target directory" err), 0)
    | None => extractTar r target
    end
  else
    isDir ← ask env_isDir;
    let target := if isDir : bool then PathJoin [target; Base name] else target in
    e ← fs (CallMkdirAll (Dir target));
    match e with
    | Some err => mret (Some (wrapError "create target directory" err), 0)
    | None =>
        let tmp := target +:+ ".partial" in
        e ← installFile r tmp target;
        mret (e, match e with Some _ => 0 | None => Z.of_nat (String.length (rd_data r)) end)
    end.

Definition restoreToSource (r : Reader) (req : RestoreRequest) (artifact : Artifact) : M (option error * Z) :=
  do? sourceID :=
    (if bool_decide (rq_TargetSourceID req = "") then
       if bool_decide (art_JobID artifact = "")
       then mret (Fail (newError "artifact has no job, targetSourceId is required"))
       else
         do? job := JobRepo_Get (art_JobID artifact) else err => mret (Fail (wrapError "load job" err)) in
         mret (Ok (job_SourceID job))
     else mret (Ok (rq_TargetSourceID req)))
    else err => mret (Some err, 0) in
  do? src := SourceRepo_Get sourceID else err => mret (Some (wrapError "load source" err), 0) in
  if bool_decide (art_SourceKind artifact ≠ "") && negb (String.eqb (src_Kind src) (art_SourceKind artifact))
  then mret (Some (newError ("source kind mismatch: artifact was created by " +:+ art_SourceKind artifact
                             +:+ ", target source is " +:+ src_Kind src)), 0)
  else
    do? (spec, _) := SourceRuntime src else err => mret (Some err, 0) in
    if negb (source_Restorer (src_Kind src)) || negb (DriverSpec_Has spec CapRestore)
    then mret (Some (newError ("source driver " +:+ src_Kind src +:+ " does not support restore")), 0)
    else
      err ← driverCall;
      n ← ask env_count;
      match err with
      | Some err => mret (Some (wrapError ("restore into source " +:+ src_Name src) err), n)
      | None => record (CallRestore (src_ID src));; mret (None, n)
      end.

Definition runRestore (req : RestoreRequest) : M (result unit) :=
  prepare ← stage "prepare";
  do? artifact := ArtifactRepo_Get (art_ID (rq_Artifact req)) else err => stage_Fail prepare err in
  if negb (bool_decide (art_Status artifact = ArtifactPresent))
  then stage_Fail prepare (newError ("artifact status is " +:+ ArtifactStatus_text (art_Status artifact)))
  else
    stage_Done prepare (art_Filename artifact);;
    download ← stage "download";
    do? (reader, name) := OpenArtifact artifact (mkDownloadOptions false (rq_Passphrase req))
      else err => stage_Fail download err in
    stage_Done download ("streaming " +:+ art_Filename artifact);;
    restore ← stage "restore";
    r ← match rq_Mode req with
        | RestoreToPath => restoreToPath reader name req artifact
        | RestoreToSource => restoreToSource reader req artifact
        | RestoreOther _ => mret (None, 0)
        end;
    let '(e, n) := r in
    match e with
    | Some err => stage_Fail restore err
    | None =>
        setResult (art_Filename artifact) (art_SHA256 artifact) n (art_Size artifact);;
        stage_Done restore (Itoa n +:+ " bytes restored");;
        mret (Ok tt)
    end.

End restore.

#[export] Hint Unfold fs client_Get : ops.

(** * Theorems on download and restore

    What comes back is what was backed up, and an archive only touches what is
    under its target. *)

(** ** Containment *)

(** [p] is [root] or a path of plain elements under it. *)
Definition under (root p : string) : Prop :=
  p = root ∨ root ≠ "/" ∧ ∃ rel, rel ≠ [] ∧ Forall plainElem rel ∧ p = root +:+ "/" +:+ StrJoin rel "/".

Lemma HasPrefix_join_abs root name : IsAbs root = true -> IsAbs (PathJoin [root; name]) = true.
Proof.
  intros Ha. unfold PathJoin. assert (root ≠ "") as Hr by by intros ->.
  assert (Hl : ∃ l, filter (λ e, e ≠ "") [root; name] = root :: l).
  { rewrite filter_cons_True by done. by eexists. }
  destruct Hl as [l ->]. rewrite bool_decide_eq_false_2 by done.
  assert (IsAbs (StrJoin (root :: l) "/") = true) as Hj.
  { unfold IsAbs in *. apply HasPrefix_spec in Ha as [t ->]. destruct l as [|x l]; [apply HasPrefix_app|].
    cbn [StrJoin]. rewrite sapp_assoc. apply HasPrefix_app. }
  destruct (Clean_rooted _ Hj) as (elems & -> & _). apply HasPrefix_app.
Qed.

Lemma safeJoin_under root name p : IsAbs root = true -> safeJoin root name = Ok p -> under root p.
Proof.
  intros Ha. unfold safeJoin. destruct (_ || _); [done|].
  pose proof (HasPrefix_join_abs root name Ha) as Hj.
  destruct (Clean_rooted _ Hj) as (elems & Hc & Hp). rewrite Hc.
  destruct (_ && _) eqn:B; [done|]. intros [= <-].
  apply andb_false_iff in B as [B|B]; boolean; [left; by apply String.eqb_eq|]. right.
  apply HasPrefix_spec in B as [t Ht]. rewrite sapp_assoc in Ht. change ("/" +:+ t) with (String slash t) in Ht.
  assert (Hs : Split root slash ++ Split t slash = "" :: Split (StrJoin elems "/") slash).
  { rewrite <- Split_app, <- Ht. done. }
  assert (Hroot : ∃ r0, Split root slash = "" :: r0).
  { apply HasPrefix_spec in Ha as [t' ->]. by eexists. }
  destruct Hroot as [r0 Hr0]. rewrite Hr0 in Hs. cbn [app] in Hs. injection Hs as Hs.
  assert (Hel : Forall plainElem (r0 ++ Split t slash)).
  { assert (elems ≠ []) as Hne.
    { intros ->. simpl in Ht. assert (String.length (root +:+ String slash t) = 1%nat) as Hlen by by rewrite <- Ht.
      rewrite sapp_length in Hlen. simpl in Hlen. destruct root; [done|]. simpl in Hlen. lia. }
    rewrite Split_StrJoin_plain in Hs by done. by rewrite Hs. }
  apply Forall_app in Hel as [Hr Hrel]. split.
  - intros ->. cbn in Hr0. injection Hr0 as <-. inversion Hr as [|? ? (? & _) _]; subst. done.
  - exists (Split t slash). split_and!; [apply Split_nonempty|done|].
    etrans; [exact Ht|]. by rewrite StrJoin_Split_slash.
Qed.

(** A cleaned absolute path. *)
Definition cleanRoot (root : string) : Prop := ∃ R, Forall plainElem R ∧ root = "/" +:+ StrJoin R "/".

(** The directory of a path under the root is under the root, unless the path
    is the root. *)
Lemma Dir_under root p : cleanRoot root -> under root p -> p = root ∨ under root (Dir p).
Proof.
  intros (R & HR & ->) [->|(Hne & rel & Hrel & Hp & ->)]; [by left|]. right.
  assert (R ≠ []) as HRne by by intros ->.
  destruct rel as [|x rel _] using rev_ind; [done|]. apply Forall_app in Hp as [Hrel' Hx].
  inversion Hx as [|? ? (_ & _ & _ & Hfree) _]; subst.
  destruct (decide (rel = [])) as [->|Hr].
  - left. cbn [app StrJoin]. rewrite Dir_last by done. rewrite sapp_assoc. by apply Clean_trailing.
  - right. split; [done|]. exists rel. split_and!; [done|done|].
    rewrite StrJoin_slash by done. cbn [StrJoin].
    assert (E : "/" +:+ StrJoin R "/" +:+ "/" +:+ StrJoin rel "/" = "/" +:+ StrJoin (R ++ rel) "/").
    { by rewrite StrJoin_slash. }
    transitivity (Dir (("/" +:+ StrJoin R "/" +:+ "/" +:+ StrJoin rel "/") +:+ "/" +:+ x)).
    { by rewrite !sapp_assoc. }
    rewrite Dir_last, E, sapp_assoc, Clean_trailing; [|by apply Forall_app|done].
    rewrite <- E. by rewrite !sapp_assoc.
Qed.

(** What the extraction under [root] may do: write, remove and link at the root
    or under it, make directories there (or the parent of the root, which
    exists); and a link's target, seen from the directory of its entry, is
    itself under the root. *)
Definition contained (root : string) (c : Call) : Prop :=
  match c with
  | CallWriteFile p _ | CallRemoveFile p => under root p
  | CallMkdirAll p => under root p ∨ p = Dir root
  | CallSymlink target p =>
      under root p ∧ ∃ name q, safeJoin root name = Ok p ∧ safeJoin root (PathJoin [Dir name; target]) = Ok q ∧ under root q
  | _ => False
  end.

Lemma emits_fs (P : Call -> Prop) c : P c -> emits P (fs c).
Proof.
  intros H. unfold fs. apply emits_bind; [apply emits_silent, keeps_ask_calls|]. intros [e|].
  - by apply emits_silent.
  - apply emits_bind; [by apply emits_record|]. intros _. by apply emits_silent.
Qed.

Lemma emits_ask (P : Call -> Prop) {X} (q : Env -> nat -> X) : emits P (ask q).
Proof. apply emits_silent, keeps_ask_calls. Qed.

Lemma emits_ret (P : Call -> Prop) {X} (x : X) : emits P (mret x).
Proof. by apply emits_silent. Qed.

Lemma extractEntry_contained root h : cleanRoot root -> emits (contained root) (extractEntry root h).
Proof.
  intros Hroot. assert (Ha : IsAbs root = true) by (destruct Hroot as (R & _ & ->); apply HasPrefix_app).
  unfold extractEntry. destruct (safeJoin root (hdr_Name h)) as [path|] eqn:Hj; [|apply emits_ret].
  pose proof (safeJoin_under _ _ _ Ha Hj) as Hu.
  assert (Hd : contained root (CallMkdirAll (Dir path))).
  { destruct (Dir_under _ _ Hroot Hu) as [->|]; [by right|by left]. }
  destruct (hdr_Typeflag h).
  - apply emits_bind; [apply emits_fs; by left|intros; apply emits_ret].
  - apply emits_bind; [by apply emits_fs|]. intros [e|]; [apply emits_ret|].
    apply emits_bind; [apply emits_ask|]. intros [e|]; [apply emits_ret|].
    apply emits_bind; [by apply emits_fs|]. intros [e|]; [apply emits_ret|].
    apply emits_bind; [apply emits_ask|intros; apply emits_ret].
  - destruct (safeJoin root (PathJoin _)) as [q|] eqn:Hq; [|apply emits_ret].
    apply emits_bind; [by apply emits_fs|]. intros [e|]; [apply emits_ret|].
    apply emits_bind; [by apply emits_fs|]. intros _.
    apply emits_bind; [|intros; apply emits_ret]. apply emits_fs. split; [done|].
    exists (hdr_Name h), q. split_and!; [done|done|]. by apply (safeJoin_under _ _ _ Ha Hq).
  - apply emits_ret.
Qed.

Lemma extractLoop_contained root entries finish :
  cleanRoot root -> emits (contained root) (extractLoop root entries finish).
Proof.
  intros Hroot. induction entries as [|h entries IH]; cbn [extractLoop];
    (apply emits_bind; [apply emits_ask|]; intros [e|]; [apply emits_ret|]); [apply emits_ret|].
  apply emits_bind; [by apply extractEntry_contained|]. intros [e|]; [apply emits_ret|exact IH].
Qed.

Section restore.
  Context {A : AEAD} {C : Codecs} {Dr : Drivers} {T : Tar}.
  Context (getwd : result string).

Lemma Abs_clean p root :
  (∀ wd, getwd = Ok wd -> IsAbs wd = true) -> Abs getwd p = Ok root -> cleanRoot root.
Proof.
  intros Hwd. unfold Abs. destruct (IsAbs p) eqn:Hp.
  - intros [= <-]. destruct (Clean_rooted p Hp) as (l & ? & ?). by exists l.
  - destruct getwd as [wd|]; [|done]. intros [= <-]. specialize (Hwd wd eq_refl).
    assert (Hw : wd ≠ "") by by intros ->. unfold PathJoin.
    assert (Hl : ∃ l, filter (λ e, e ≠ "") [wd; p] = wd :: l) by (rewrite filter_cons_True by done; by eexists).
    destruct Hl as [l ->]. rewrite bool_decide_eq_false_2 by done.
    assert (Hj : IsAbs (StrJoin (wd :: l) "/") = true).
    { unfold IsAbs in *. apply HasPrefix_spec in Hwd as [t ->]. destruct l as [|x l]; [apply HasPrefix_app|].
      cbn [StrJoin]. rewrite sapp_assoc. apply HasPrefix_app. }
    destruct (Clean_rooted _ Hj) as (k & ? & ?). by exists k.
Qed.


(** ** What was packed comes back *)

Lemma DestinationRepo_Get_ok id d env w :
  dbAnswers env -> db_destinations (w_db w) !! id = Some d ->
  ∃ w', DestinationRepo_Get id env w = (Ok (withUsage (w_db w) d), w').
Proof.
  intros Hdb Hd. unfold DestinationRepo_Get. unfold mbind, M_bind.
  rewrite query_ok by done. rewrite Hd, !query_ok by done. by eexists.
Qed.

Lemma OpenDestination_ok d env w :
  is_ok (DestinationConfig d) = true -> (∀ k, env_driver env k = None) ->
  ∃ w', OpenDestination d env w = (Ok d, w').
Proof.
  intros Hc Hd. unfold OpenDestination. destruct (DestinationConfig d) as [[spec cfg]|]; [|done].
  unfold mbind, M_bind, driverCall, ask. rewrite Hd. by eexists.
Qed.

(** C5: a stored artifact comes back as the dump.  Let the destination answer
    with the bytes the pack chain wrote under some options; let the artifact
    record the compression and encryption of these options, and the request
    carry their passphrase.  Then [OpenArtifact] yields a reader of exactly the
    dump, for every codec that keeps its law. *)
Theorem OpenArtifact_restores {L : CodecLaws C} artifact opts mc dump d env w :
  newPackWriter opts = Ok mc ->
  art_Compression artifact = po_Compression opts -> art_Encryption artifact = po_Encryption opts ->
  dbAnswers env -> db_destinations (w_db w) !! art_DestinationID artifact = Some d ->
  is_ok (DestinationConfig d) = true -> (∀ k, env_driver env k = None) ->
  (∀ k, env_get env k = Ok (fullReader (packed mc dump))) ->
  ∃ name, (OpenArtifact artifact (mkDownloadOptions false (po_Passphrase opts)) env w).1 = Ok (fullReader dump, name).
Proof.
  intros Hmc Hcomp Henc Hdb Hd Hcfg Hdrv Hget. unfold OpenArtifact. rewrite bind_eq.
  destruct (DestinationRepo_Get_ok _ _ env w Hdb Hd) as [w1 ->]. cbn [fst snd]. rewrite bind_eq.
  destruct (OpenDestination_ok (withUsage (w_db w) d) env w1 Hcfg Hdrv) as [w2 ->]. cbn [fst snd].
  rewrite bind_eq. unfold client_Get. rewrite bind_eq. cbn [ask fst snd]. rewrite Hget, bind_eq. cbn [fst snd mret M_ret dl_Raw].
  rewrite Hcomp, Henc. cbn [po_Compression po_Encryption po_Level dl_Passphrase].
  destruct (passthrough _) eqn:Hpt.
  { cbn [fst mret M_ret]. eexists. by rewrite (passthrough_packed opts mc). }
  rewrite bind_eq. destruct (bool_decide (po_Passphrase opts = "") && _) eqn:B.
  { boolean. by destruct (packWriter_passphrase opts mc). }
  cbn [fst snd mret M_ret]. rewrite (newUnpackReader_level _ opts) by done.
  rewrite unpack_packed by done. by eexists.
Qed.
End restore.

Lemma OpenArtifact_restores_witness :
  let opts := mkPackOptions CompressionZstd 3 EncryptionAge "pw" in
  let env := set_env_get (λ _, Ok (fullReader "age:pwzstd:abc")) sampleEnv in
  ∃ name, (OpenArtifact (sampleArtifact "a1" "d1" 1) (mkDownloadOptions false (po_Passphrase opts)) env sampleWorld).1
          = Ok (fullReader "abc", name).
Proof.
  intros opts env.
  apply (OpenArtifact_restores (sampleArtifact "a1" "d1" 1) opts
           (match newPackWriter opts with Ok mc => mc | Fail _ => [] end) "abc" (sampleDestination "d1" "disk") env sampleWorld);
    try reflexivity; by vm_compute.
Defined.


(** ** What the check of links does not see *)

Lemma ContainsByte_free s c : ContainsByte s c = negb (free_of c s).
Proof. done. Qed.

Lemma safeJoin_plain R rel :
  R ≠ [] -> Forall plainElem R -> rel ≠ [] -> Forall plainElem rel -> free_of nulByte (StrJoin rel "/") = true ->
  safeJoin ("/" +:+ StrJoin R "/") (StrJoin rel "/") = Ok ("/" +:+ StrJoin (R ++ rel) "/").
Proof.
  intros HR Hp Hrel Hq Hn. unfold safeJoin. rewrite ContainsByte_free, Hn.
  assert (Ha : HasPrefix (StrJoin rel "/") "/" = false).
  { destruct (HasPrefix _ _) eqn:E; [|done]. apply HasPrefix_spec in E as [t E].
    pose proof (Split_StrJoin_plain rel Hrel Hq) as Hs. rewrite E in Hs. subst rel.
    inversion Hq as [|? ? (H & _)]; subst. done. }
  rewrite Ha. cbn [orb negb]. rewrite PathJoin_plain by done.
  rewrite Clean_plain by by apply Forall_app. rewrite StrJoin_slash by done.
  assert (E : "/" +:+ StrJoin R "/" +:+ "/" +:+ StrJoin rel "/"
              = (("/" +:+ StrJoin R "/") +:+ "/") +:+ StrJoin rel "/") by by rewrite !sapp_assoc.
  rewrite E at 2. by rewrite HasPrefix_app, andb_false_r.
Qed.

(** An absolute target of a link, joined to a directory, loses its root. *)
Lemma PathJoin_absolute T :
  T ≠ [] -> Forall plainElem T -> PathJoin ["."; "/" +:+ StrJoin T "/"] = StrJoin T "/".
Proof.
  intros HT Hp. unfold PathJoin. rewrite filter_cons_True by done. rewrite filter_cons_True by done.
  change (filter _ []) with (@nil string). rewrite bool_decide_eq_false_2 by done.
  cbn [StrJoin]. unfold Clean. rewrite bool_decide_eq_false_2 by done.
  change (IsAbs ("." +:+ "/" +:+ "/" +:+ StrJoin T "/")) with false. cbv iota.
  assert (E : clean_elems false (Split ("." +:+ "/" +:+ "/" +:+ StrJoin T "/") slash) = T).
  { change (Split ("." +:+ "/" +:+ "/" +:+ StrJoin T "/") slash) with ("." :: "" :: Split (StrJoin T "/") slash).
    rewrite Split_StrJoin_plain by done. unfold clean_elems. cbn [foldl].
    change (clean_step false (clean_step false [] ".") "") with (@nil string).
    rewrite <- (reverse_involutive T) at 2. f_equal. rewrite <- (app_nil_r (reverse T)). generalize (@nil string) as acc.
    clear HT. induction Hp as [|e l (H1 & H2 & H3 & _) _ IH]; intros acc; [done|].
    cbn [foldl]. rewrite IH, reverse_cons, <- app_assoc. unfold clean_step.
    by rewrite !bool_decide_eq_false_2. }
  rewrite E. by rewrite bool_decide_eq_false_2.
Qed.

Lemma fs_ok c env w : (∀ k, env_fs env k = None) ->
  fs c env w = (None, set_w_calls (w_calls w ++ [c]) (tick w)).
Proof. intros H. unfold fs. rewrite bind_eq. cbn [ask fst snd]. by rewrite H. Qed.

Section links.
  Context {T : Tar}.
  Context (R L : list string) (n f data : string) (k : Z).
  Context (HR : R ≠ []) (HRp : Forall plainElem R) (HL : L ≠ []) (HLp : Forall plainElem L).
  Context (Hn : plainElem n) (Hf : plainElem f).
  Context (Hnul : free_of nulByte (StrJoin L "/") = true).
  Context (Hnuln : free_of nulByte n = true) (Hnulf : free_of nulByte (StrJoin [n; f] "/") = true).
Let root := "/" +:+ StrJoin R "/".
Let path (rel : list string) := "/" +:+ StrJoin (R ++ rel) "/".

Lemma extractEntry_absolute_link env w :
  (∀ j, env_fs env j = None) ->
  ∃ w', extractEntry root (mkTarEntry n TypeSymlink ("/" +:+ StrJoin L "/") "") env w = (None, w')
    ∧ w_calls w' = w_calls w ++ [CallMkdirAll root; CallRemoveFile (path [n]); CallSymlink ("/" +:+ StrJoin L "/") (path [n])].
Proof using All.
  intros Hfs. unfold extractEntry. cbn [hdr_Name hdr_Typeflag hdr_Linkname].
  assert (E : safeJoin root n = Ok (path [n])) by by apply (safeJoin_plain R [n]); rewrite ?Forall_cons.
  rewrite E. clear E.
  assert (Hd : Dir n = ".").
  { unfold Dir. destruct Hn as (_ & _ & _ & Hs). by rewrite LastIndexByte_free. }
  assert (E : safeJoin root (StrJoin L "/") = Ok (path L)) by by apply safeJoin_plain.
  rewrite Hd, PathJoin_absolute, E by done.
  rewrite bind_eq, fs_ok by done. cbn [fst snd]. rewrite bind_eq, fs_ok by done. cbn [fst snd].
  rewrite bind_eq, fs_ok by done. cbn [fst snd]. eexists. split; [done|].
  unfold path. rewrite Dir_plain by done. cbn. by rewrite <- !app_assoc.
Qed.

Lemma extractEntry_file env w :
  (∀ j, env_fs env j = None) ->
  ∃ w', extractEntry root (mkTarEntry (n +:+ "/" +:+ f) TypeReg "" data) env w = (None, w')
    ∧ w_calls w' = w_calls w ++ [CallMkdirAll (path [n]); CallWriteFile (path [n; f]) data].
Proof using All.
  intros Hfs. unfold extractEntry. cbn [hdr_Name hdr_Typeflag hdr_Content].
  assert (E : safeJoin root (n +:+ "/" +:+ f) = Ok (path [n; f]))
    by by apply (safeJoin_plain R [n; f]); rewrite ?Forall_cons.
  rewrite E.
  rewrite bind_eq, fs_ok by done. cbn [fst snd]. rewrite bind_eq. cbn [ask fst snd]. rewrite Hfs.
  rewrite bind_eq, fs_ok by done. cbn [fst snd]. rewrite bind_eq. cbn [ask fst snd]. rewrite Hfs.
  eexists. split; [done|]. unfold path. change (R ++ [n; f]) with (R ++ [n] ++ [f]). rewrite app_assoc.
  rewrite Dir_plain; [|by destruct R|by rewrite Forall_app, Forall_cons|done].
  cbn. by rewrite <- app_assoc.
Qed.

(** The check of links does not stop an absolute one.  For every target
    directory, every absolute path [/L...] and plain names [n] and [f], an
    archive with a link [n] to [/L...] followed by a file [n/f] is extracted
    without an error: the link is created with its absolute target, and the
    file is then written through it, which on disk is [/L.../f], outside the
    target directory. *)
Theorem extractTar_absolute_link getwd r env w :
  tar_NewReader r = mkArchive [mkTarEntry n TypeSymlink ("/" +:+ StrJoin L "/") "";
                               mkTarEntry (n +:+ "/" +:+ f) TypeReg "" data] None k ->
  (∀ j, env_fs env j = None) -> (∀ j, env_ctx env j = None) ->
  ∃ w', extractTar getwd r root env w = ((None, k), w')
    ∧ w_calls w' = w_calls w ++
        [CallMkdirAll root; CallRemoveFile (path [n]); CallSymlink ("/" +:+ StrJoin L "/") (path [n]);
         CallMkdirAll (path [n]); CallWriteFile (path [n; f]) data].
Proof using All.
  intros Hr Hfs Hctx. unfold extractTar, Abs.
  change (IsAbs root) with (HasPrefix ("/" +:+ StrJoin R "/") "/"). rewrite HasPrefix_app. unfold root.
  rewrite Clean_plain by done. fold root. rewrite Hr. cbn [ar_entries ar_end ar_read].
  rewrite bind_eq. cbn [extractLoop]. rewrite bind_eq. cbn [ctxErr ask fst snd]. rewrite Hctx.
  rewrite bind_eq. destruct (extractEntry_absolute_link env (tick w) Hfs) as (w1 & -> & H1). cbn [fst snd].
  rewrite bind_eq. cbn [ctxErr ask fst snd]. rewrite Hctx.
  rewrite bind_eq. destruct (extractEntry_file env (tick w1) Hfs) as (w2 & -> & H2). cbn [fst snd].
  rewrite bind_eq. cbn [ctxErr ask fst snd]. rewrite Hctx. eexists. split; [done|].
  cbn in *. rewrite H2, H1. by rewrite <- app_assoc.
Qed.
End links.

Lemma extractTar_absolute_link_witness :
  let T : Tar := λ _, mkArchive [mkTarEntry "x" TypeSymlink "/etc" ""; mkTarEntry "x/passwd" TypeReg "" "evil"] None 4 in
  ∃ w', extractTar (Ok "/") (fullReader "") "/srv/t" sampleEnv sampleWorld = ((None, 4), w')
    ∧ w_calls w' = [CallMkdirAll "/srv/t"; CallRemoveFile "/srv/t/x"; CallSymlink "/etc" "/srv/t/x";
                    CallMkdirAll "/srv/t/x"; CallWriteFile "/srv/t/x/passwd" "evil"].
Proof.
  intros T. apply (extractTar_absolute_link ["srv"; "t"] ["etc"] "x" "passwd" "evil" 4);
    try done; repeat constructor; done.
Defined.

(** ** Edges *)

(** Restoring under ["/"] refuses every entry. *)
Example safeJoin_slash : safeJoin "/" "etc/hosts" = Fail (newError
  ("refusing archive entry " +:+ Quote "etc/hosts" +:+ " outside the target directory")).
Proof. by vm_compute. Qed.

(** A link named ["."] replaces the target itself by a link to a sibling of it:
    it is at the root, and the check reads its target from inside the root. *)
Example extract_root_link :
  let T : Tar := λ _, mkArchive [mkTarEntry "." TypeSymlink "other" ""; mkTarEntry "f" TypeReg "" "x"] None 2 in
  w_calls (extractTar (Ok "/") (fullReader "") "/srv/t" sampleEnv sampleWorld).2
  = [CallMkdirAll "/srv"; CallRemoveFile "/srv/t"; CallSymlink "other" "/srv/t"; CallMkdirAll "/srv/t"; CallWriteFile "/srv/t/f" "x"].
Proof. by vm_compute. Qed.

(** A gzip archive compressed again loses its extension with its wrapping. *)
Example unpackedName_twice : unpackedName "home.tar.gz.zst" = "home.tar".
Proof. by vm_compute. Qed.
