(* ===== verification/EngineRuns.v ===== *)
(** * The other runs: [internal/engine/ingest.go], [prune.go], recovery

    Receiving a payload, pruning, verifying, the entry points that create and
    queue runs, and what the engine does to the runs a restart has
    interrupted. *)
From S2P Require Import Prelude GoStrings GoTime Core CoreSetters Config GoSlices Retention Pack GoPath Spool Secrets Db StoreCommon.
From S2P Require Import StoreJobs StoreRuns StoreConfig StoreAdmin RunState Drivers Runner Sample RunnerUpload RunnerBackup RunnerRetention.
From S2P Require Import Engine Restore.
Open Scope Z_scope.

Record IngestOptions := mkIngestOptions {
  ing_Filename : string;
  ing_SHA256 : string;
  ing_Packed : bool;
  ing_Size : Z;
  ing_CreatedBy : string
}.

Section runs.
  Context {A : AEAD} {C : Codecs} {D : Digest} {Dr : Drivers}.
  Context (workDir : string).

(** ** Ingest *)

(** [path.Base(strings.TrimSpace(opts.Filename))], where only a file name is
    one. *)
Definition originalName (opts : IngestOptions) : string :=
  let original := Base (TrimSpace (ing_Filename opts)) in
  if bool_decide (original = ".") || bool_decide (original = "/") then "" else original.

(** The options of the artifact, and its extension. *)
Definition ingestPack (job : Job) (opts : IngestOptions) (passphrase : string) : PackOptions * string :=
  let '(compression, encryption, detected) := DetectPack (originalName opts) in
  (if ing_Packed opts then mkPackOptions compression 0 encryption passphrase
   else mkPackOptions (job_Compression job) (job_CompressionLevel job) (job_Encryption job) passphrase,
   if bool_decide (detected = "") then "bin" else detected).

Record IngestPlan := mkIngestPlan {
  ip_src : Source; ip_destinations : list Destination; ip_opts : PackOptions; ip_filename : string
}.

Definition prepareIngest (job : Job) (opts : IngestOptions) : M (result IngestPlan) :=
  prepare ← stage "prepare";
  do? src := SourceRepo_Get (job_SourceID job) else err => stage_Fail prepare (wrapError "load source" err) in
  do? destinations := loadDestinations job else err => stage_Fail prepare err in
  if bool_decide (destinations = []) then stage_Fail prepare (newError "job has no destinations")
  else
    match jobPassphrase job with
    | Fail err => stage_Fail prepare err
    | Ok passphrase =>
        let '(packOpts, ext) := ingestPack job opts passphrase in
        if negb (ing_Packed opts) && bool_decide (po_Encryption packOpts = EncryptionAge) && bool_decide (passphrase = "")
        then stage_Fail prepare (newError "encryption passphrase is required for age encryption")
        else
          t ← now;
          let filename := BuildFilename (job_Slug job) ext t packOpts in
          stage_Done prepare (Itoa (Z.of_nat (length destinations)) +:+ " destination(s)");;
          mret (Ok (mkIngestPlan src destinations packOpts filename))
    end.

(** The payload into a spool, checked against the checksum announced.  The hash
    of what was read is the hash of the chunks: the copy stops at the first
    error. *)
Definition receive (p : IngestPlan) (opts : IngestOptions) (chunks : list string) (body_end : option error)
    : M (result spool) :=
  receive ← stage "receive";
  run ← currentRun;
  os ← ask env_os;
  match newSpool os workDir (run_ID run) (ip_filename p) with
  | Fail err => stage_Fail receive err
  | Ok sp =>
      reads ← ask env_reads;
      os ← ask env_os;
      let spoolOpts := if ing_Packed opts then mkPackOptions "" 0 "" "" else ip_opts p in
      let '(sp, _, err) := Fill os sp reads chunks body_end spoolOpts in
      match err with
      | Some err => stage_Fail receive err
      | None =>
          let rawSum := sha256_hex (concatChunks chunks) in
          let want := ToLower (TrimSpace (ing_SHA256 opts)) in
          let got := if ing_Packed opts then sp_SHA256 sp else rawSum in
          if negb (bool_decide (want = "")) && negb (String.eqb want got)
          then stage_Fail receive (newError ("sha256 mismatch: expected " +:+ want +:+ ", received " +:+ got))
          else
            stage_Done receive (Itoa (sp_PackedBytes sp) +:+ " bytes received");;
            mret (Ok sp)
      end
  end.

Definition ingestMessage (p : IngestPlan) (opts : IngestOptions) (sp : spool) : string :=
  if ing_Packed opts then "already packed by the client"
  else if passthrough (ip_opts p) then "pass-through"
  else "compression=" +:+ orNoneText (po_Compression (ip_opts p)) +:+ " encryption=" +:+
       orNoneText (po_Encryption (ip_opts p)) +:+ ", " +:+ Itoa (sp_PackedBytes sp) +:+ " bytes".

Definition runIngest (job : Job) (opts : IngestOptions) (chunks : list string) (body_end : option error)
    : M (result unit) :=
  do? p := prepareIngest job opts else err => mret (Fail err) in
  do? sp := receive p opts chunks body_end else err => mret (Fail err) in
  pack ← stage "pack";
  setResult (ip_filename p) (sp_SHA256 sp) (sp_RawBytes sp) (sp_PackedBytes sp);;
  stage_Done pack (ingestMessage p opts sp);;
  let path := BuildPath (job_Slug job) (ip_filename p) in
  do? artifacts := uploadAll job (ip_src p) (ip_destinations p) sp path (ip_filename p) (ip_opts p)
    else err => mret (Fail err) in
  (if job_VerifyAfterUpload job then verifyArtifacts (ip_destinations p) artifacts
   else skippedStage "verify" "disabled");;
  applyRetention job (ip_destinations p);;
  n ← stage "notify";
  stage_Done n "queued";;
  mret (Ok tt).

(** ** Prune and verify *)

Definition runPrune (jobID : string) : M (result unit) :=
  prepare ← stage "prepare";
  do? job := JobRepo_Get jobID else err => stage_Fail prepare err in
  do? destinations := loadDestinations job else err => stage_Fail prepare err in
  stage_Done prepare (Itoa (Z.of_nat (length destinations)) +:+ " destination(s)");;
  applyRetention job destinations;;
  mret (Ok tt).

Definition runVerify (artifactID : string) : M (result unit) :=
  prepare ← stage "prepare";
  do? artifact := ArtifactRepo_Get artifactID else err => stage_Fail prepare err in
  do? d := DestinationRepo_Get (art_DestinationID artifact)
    else err => stage_Fail prepare (wrapError "load destination" err) in
  stage_Done prepare (art_Filename artifact);;
  verify ← stage "verify";
  e ← verifyOne d artifact;
  match e with
  | Some err => Warn (err_msg err);; stage_set verify StageFailed (err_msg err);; mret (Ok tt)
  | None =>
      setResult (art_Filename artifact) (art_SHA256 artifact) 0 (art_Size artifact);;
      stage_Done verify "artifact present and the size matches";;
      mret (Ok tt)
  end.

(** ** Entry points

    Whether the job is busy and what [e.enqueue] answers are asked of the
    machine of [Engine].  A run whose [enqueue] fails stays in the database as
    queued. *)

Definition publishRun (run : Run) : M unit := publish (EvRunUpdated run).

Definition createAndEnqueue (run : Run) : M (result Run) :=
  do? saved := RunRepo_Create run else err => mret (Fail err) in
  e ← ask env_queue;
  match e with
  | Some err => mret (Fail err)
  | None => publishRun saved;; mret (Ok saved)
  end.

Definition busyError : error := mkError "job is already running" ErrJobBusy.

Definition EnqueueBackup (job : Job) (trigger : RunTrigger) (createdBy : string) : M (result Run) :=
  run ← newRun job RunBackup trigger createdBy;
  busy ← ask env_busy;
  if busy : bool then mret (Fail busyError) else createAndEnqueue run.

Definition EnqueuePrune (job : Job) (createdBy : string) : M (result Run) :=
  run ← newRun job RunPrune TriggerManual createdBy;
  busy ← ask env_busy;
  if busy : bool then mret (Fail busyError) else createAndEnqueue run.

(** The job a run on an artifact is labelled with. *)
Definition jobOfArtifact (a : Artifact) : Job :=
  {| job_ID := art_JobID a; job_Slug := art_JobSlug a; job_Name := art_JobName a; job_Description := "";
     job_SourceID := ""; job_DestinationIDs := []; job_Schedule := ""; job_Timezone := ""; job_Enabled := false;
     job_Compression := ""; job_CompressionLevel := 0; job_Encryption := ""; job_EncryptionPassphrase := "";
     job_Retention := noRetention; job_NotificationChannelIDs := []; job_NotifyOn := []; job_TimeoutMinutes := 0;
     job_Retries := 0; job_RetryDelaySeconds := 0; job_PreCommand := ""; job_PostCommand := "";
     job_VerifyAfterUpload := false; job_ExpectedIntervalMinutes := 0; job_Tags := []; job_CreatedAt := zeroTime;
     job_UpdatedAt := zeroTime; job_SourceName := ""; job_SourceKind := ""; job_DestinationNames := [];
     job_LastRun := None; job_NextRunAt := None; job_Overdue := false; job_ArtifactCount := 0; job_TotalBytes := 0 |}.

Definition addMeta (k v : string) (r : Run) : Run := set_run_Meta (<[k := v]> (run_Meta r)) r.

Definition EnqueueVerify (artifact : Artifact) (createdBy : string) : M (result Run) :=
  run ← newRun (jobOfArtifact artifact) RunVerify TriggerManual createdBy;
  createAndEnqueue (addMeta "artifactId" (art_ID artifact) run).

Definition EnqueueRestore (req : RestoreRequest) : M (result Run) :=
  let refusal :=
    match rq_Mode req with
    | RestoreToPath =>
        if Blank (rq_TargetPath req) then Some (newError "targetPath is required for a path restore") else None
    | RestoreToSource => None
    | RestoreOther m => Some (newError ("unsupported restore mode " +:+ Quote m))
    end in
  match refusal with
  | Some err => mret (Fail err)
  | None =>
      run ← newRun (jobOfArtifact (rq_Artifact req)) RunRestore TriggerManual (rq_CreatedBy req);
      let run := addMeta "artifactId" (art_ID (rq_Artifact req)) run in
      let run := addMeta "mode" (match rq_Mode req with RestoreToPath => "path" | RestoreToSource => "source" | RestoreOther m => m end) run in
      let run := match rq_Mode req with RestoreToPath => addMeta "targetPath" (rq_TargetPath req) run | _ => run end in
      createAndEnqueue run
  end.

(** ** Interrupted runs *)

(** What the engine writes over a run that was not finished. *)
Definition interrupted (t : Time) (run : Run) : Run :=
  let run := set_run_Status RunFailed (set_run_Error "run was interrupted by a server restart" (set_run_FinishedAt (Some t) run)) in
  let run := match run_StartedAt run with
             | Some s => set_run_DurationMS (Milliseconds (Sub t s)) run
             | None => run
             end in
  set_run_Stages
    ((λ s, if bool_decide (stage_Status s = StageRunning)
           then set_stage_Status StageFailed (set_stage_FinishedAt (Some t) (set_stage_Message "interrupted" s))
           else s) <$> run_Stages run) run.

Definition recoverInterruptedRuns : M (result unit) :=
  do? runs := Unfinished else err => mret (Fail err) in
  t ← now;
  forEach_err runs tt (λ run _,
    do? _ := RunRepo_Save (interrupted t run) else err => mret (Fail err) in
    mret (Ok tt)).

(** [abandon]: a task the dispatcher gives up at shutdown. *)
Definition abandon (run : Run) (reason : string) : M unit :=
  t ← now;
  let run := set_run_Status RunFailed (set_run_Error reason (set_run_FinishedAt (Some t) run)) in
  _ ← RunRepo_Save run;
  publishRun run.

Definition cleanupOnce : M unit :=
  r ← SettingsRepo_Get;
  let '(settings, err) := r in
  match err with
  | Some _ => mret tt
  | None => t ← now; _ ← Cleanup settings t; mret tt
  end.

End runs.

(** * Theorems on ingest and on recovery *)

Section ingest.
  Context {A : AEAD} {C : Codecs} {D : Digest} {Dr : Drivers}.
  Context (workDir : string).

#[local] Hint Unfold currentRun prepareIngest receive loadDestinations SourceRepo_Get DestinationRepo_Get stage_Done
  stage_Fail RunRepo_Save execAffected : ops.

(** ** Until the upload, nothing reaches a destination *)

Lemma calls_update fn : keeps w_calls (update fn).
Proof. unfold update. frame. Qed.
#[local] Hint Resolve calls_update : frame.

Lemma calls_stage name : keeps w_calls (stage name). Proof. unfold stage. frame. Qed.
Lemma calls_stage_set name st msg : keeps w_calls (stage_set name st msg). Proof. unfold stage_set. frame. Qed.
#[local] Hint Resolve calls_stage calls_stage_set : frame.

Lemma calls_prepare job opts : keeps w_calls (prepareIngest job opts).
Proof. frame. Qed.

Lemma calls_receive p opts chunks e : keeps w_calls (receive workDir p opts chunks e).
Proof. frame. Qed.

#[local] Hint Resolve arts_ask arts_query arts_publish arts_record arts_putRS arts_stage arts_stage_set : frame.

Lemma arts_prepare job opts : keeps arts (prepareIngest job opts).
Proof. frame. Qed.

Lemma arts_receive p opts chunks e : keeps arts (receive workDir p opts chunks e).
Proof. frame. Qed.

Lemma prepareIngest_ext job opts : ext (prepareIngest job opts).
Proof. ext_tac. Qed.

Lemma receive_ext p opts chunks e : ext (receive workDir p opts chunks e).
Proof. ext_tac. Qed.

Lemma prepareIngest_ok job opts env w p :
  (prepareIngest job opts env w).1 = Ok p -> ip_destinations p ≠ [].
Proof.
  unfold prepareIngest. rewrite bind_eq. intros H. ok_step H src H1. ok_step H ds H2.
  destruct (bool_decide (ds = [])) eqn:B; [by rewrite stage_Fail_result in H|].
  destruct (jobPassphrase job); [|by rewrite stage_Fail_result in H].
  destruct (ingestPack _ _ _) as [packOpts ext]. destruct (_ && _); [by rewrite stage_Fail_result in H|].
  rewrite bind_eq in H. cbn [fst snd now ask] in H. rewrite bind_eq in H. cbn [fst mret M_ret] in H.
  injection H as <-. by boolean.
Qed.

(** The checksum the client announced, as the code reads it. *)
Definition wanted (opts : IngestOptions) : string := ToLower (TrimSpace (ing_SHA256 opts)).

Definition spoolOptions (p : IngestPlan) (opts : IngestOptions) : PackOptions :=
  if ing_Packed opts then mkPackOptions "" 0 "" "" else ip_opts p.

Lemma receive_ok p opts chunks e env w sp :
  soundOS env -> (receive workDir p opts chunks e env w).1 = Ok sp ->
  (∃ file, filledWith sp file chunks e (spoolOptions p opts))
  ∧ (wanted opts = "" ∨ wanted opts = sha256_hex (concatChunks chunks)).
Proof.
  intros Hos. unfold receive. rewrite bind_eq. intros H.
  rewrite bind_eq in H. rewrite bind_eq in H. cbn [fst snd ask] in H.
  destruct (newSpool _ _ _ _) as [s0|]; [|by rewrite stage_Fail_result in H].
  rewrite !bind_eq in H. cbn [fst snd ask] in H. fold (spoolOptions p opts) in H.
  destruct (Fill _ _ _ _ _ _) as [[s' file] [err|]] eqn:HF; [by rewrite stage_Fail_result in H|].
  assert (Hf : filledWith s' file chunks e (spoolOptions p opts)) by (eapply Fill_filled; [|exact HF]; intros f; apply Hos).
  fold (wanted opts) in H.
  assert (Hgot : (if ing_Packed opts then sp_SHA256 s' else sha256_hex (concatChunks chunks)) = sha256_hex (concatChunks chunks)).
  { destruct (ing_Packed opts) eqn:Hp; [|done]. destruct Hf as [_ (mc & f & Hmc & _ & Hd & _ & ->) _].
    rewrite Hd. unfold spoolOptions in Hmc. rewrite Hp in Hmc. by rewrite (passthrough_packed (mkPackOptions "" 0 "" "") _ _ eq_refl Hmc). }
  rewrite Hgot in H. destruct (_ && _) eqn:B; [by rewrite stage_Fail_result in H|].
  rewrite bind_eq in H. cbn [fst mret M_ret] in H. injection H as <-. split; [by exists file|].
  apply andb_false_iff in B as [B|B]; boolean; [by left|right]. by apply String.eqb_eq.
Qed.

(** C12: an ingest keeps exactly what the client announced.  When the client
    sends a checksum that is not the checksum of the payload, the ingest fails
    before any driver is called and records no artifact.  When an ingest
    succeeds, the payload was received to its end, matches the checksum if one
    was sent, and at least one artifact was recorded; each was put on its
    destination, is published, and has the size and the checksum of the payload
    as packed: the payload itself when the client says it packed it, and
    otherwise a stream that opens, under the options of the job, to the
    payload. *)
Theorem runIngest_checked {L : CodecLaws C} job opts chunks body_end env w :
  soundOS env ->
  let payload := concatChunks chunks in
  let r := runIngest workDir job opts chunks body_end env w in
  (wanted opts ≠ "" -> wanted opts ≠ sha256_hex payload ->
     is_ok r.1 = false ∧ w_calls r.2 = w_calls w ∧ arts r.2 = arts w)
  ∧ (r.1 = Ok tt ->
     body_end = None ∧ (wanted opts ≠ "" -> wanted opts = sha256_hex payload)
     ∧ ∃ p sp mc artifacts, artifacts ≠ []
       ∧ Forall (λ a, storedSince w (run_ID (rs_run (w_rs w))) sp a r.2) artifacts
       ∧ newPackWriter (spoolOptions p opts) = Ok mc
       ∧ sp_PackedBytes sp = Z.of_nat (String.length (packed mc payload))
       ∧ sp_SHA256 sp = sha256_hex (packed mc payload)
       ∧ (ing_Packed opts = true -> packed mc payload = payload)
       ∧ newUnpackReader (fullReader (packed mc payload)) (spoolOptions p opts) = Ok (fullReader payload)).
Proof.
  intros Hos. cbv zeta. unfold runIngest. split.
  - intros Hw Hne. rewrite bind_eq. pose proof (calls_prepare job opts env w) as C1. pose proof (arts_prepare job opts env w) as A1.
    destruct (prepareIngest job opts env w) as [[p|e] w1]; cbn [fst snd] in *; [|done].
    rewrite bind_eq. pose proof (calls_receive p opts chunks body_end env w1) as C2.
    pose proof (arts_receive p opts chunks body_end env w1) as A2.
    pose proof (receive_ok p opts chunks body_end env w1) as Hr.
    destruct (receive workDir p opts chunks body_end env w1) as [[sp|e] w2]; cbn [fst snd] in *.
    + destruct (Hr sp Hos eq_refl) as [_ [?|?]]; done.
    + split_and!; [done|exact (eq_trans C2 C1)|exact (eq_trans A2 A1)].
  - intros H. pose proof (prepareIngest_ext job opts env w) as E1. ok_step H p Hp.
    set (w1 := (prepareIngest job opts env w).2) in *.
    pose proof (receive_ext p opts chunks body_end env w1) as E2. ok_step H sp Hr.
    set (w2 := (receive workDir p opts chunks body_end env w1).2) in *.
    destruct (receive_ok _ _ _ _ _ _ _ Hos Hr) as [[file Hf] Hwant].
    destruct Hf as [He (mc & f & Hmc & _ & Hd & Hpb & Hsha) _].
    split; [done|]. split; [intros Hw; by destruct Hwant|].
    rewrite bind_eq in *. pose proof (stage_ext "pack" env w2) as E3. set (w3 := (stage "pack" env w2).2) in *.
    rewrite bind_eq in *. set (m := setResult _ _ _ _) in *. assert (E4 : extends w3 (m env w3).2) by apply setResult_ext.
    set (w4 := (m env w3).2) in *. rewrite bind_eq in *.
    pose proof (stage_Done_ext (stage "pack" env w2).1 (ingestMessage p opts sp) env w4) as E5.
    set (w5 := (stage_Done _ _ env w4).2) in *. ok_step H artifacts Hu.
    destruct (uploadAll_stored _ _ _ _ _ _ _ _ _ _ Hu) as (F & _ & Hne & _).
    assert (E : extends w w5) by (etrans; [exact E1|]; etrans; [exact E2|]; etrans; [exact E3|]; etrans; [exact E4|exact E5]).
    set (w6 := (uploadAll _ _ _ _ _ _ _ env w5).2) in *. clearbody w6.
    match goal with |- context [(?k env w6).2] => set (rest := k); assert (Ek : ext rest) end.
    { subst rest. clear. pose proof (applyRetention_ext job (ip_destinations p)).
      pose proof (verifyArtifacts_ext (ip_destinations p) artifacts). ext_tac. }
    specialize (Ek env w6). exists p, sp, mc, artifacts. rewrite <- Hd.
    split_and!; [apply Hne; by eapply prepareIngest_ok| |done|done|done| |].
    + eapply Forall_impl; [exact F|]. intros a Ha. apply (storedSince_earlier w w5); [exact E|].
      rewrite <- (ext_run _ _ E). eapply storedSince_later; [exact Ek|exact Ha].
    + intros Hpk. rewrite Hd. unfold spoolOptions in Hmc. rewrite Hpk in Hmc. by apply (passthrough_packed (mkPackOptions "" 0 "" "") _ _ eq_refl Hmc).
    + rewrite Hd. by apply unpack_packed.
Qed.
End ingest.

Lemma runIngest_checked_witness :
  let opts := mkIngestOptions "dump.sql" " SUM:ABC " false 3 "ci" in
  let bad := mkIngestOptions "dump.sql" "00" false 3 "ci" in
  let D : Digest := λ s, ToLower ("SUM:" +:+ s) in
  (runIngest (D := D) "/w" sampleJob opts ["ab"; "c"] None sampleEnv sampleWorld).1 = Ok tt
  ∧ is_ok (runIngest (D := D) "/w" sampleJob bad ["ab"; "c"] None sampleEnv sampleWorld).1 = false
  ∧ let payload := concatChunks ["ab"; "c"] in
    let r := runIngest (D := D) "/w" sampleJob opts ["ab"; "c"] None sampleEnv sampleWorld in
    (wanted opts ≠ "" -> wanted opts ≠ sha256_hex payload ->
       is_ok r.1 = false ∧ w_calls r.2 = w_calls sampleWorld ∧ arts r.2 = arts sampleWorld)
    ∧ (r.1 = Ok tt ->
       @None error = None ∧ (wanted opts ≠ "" -> wanted opts = sha256_hex payload)
       ∧ ∃ p sp mc artifacts, artifacts ≠ []
         ∧ Forall (λ a, storedSince sampleWorld "r1" sp a r.2) artifacts
         ∧ newPackWriter (spoolOptions p opts) = Ok mc
         ∧ sp_PackedBytes sp = Z.of_nat (String.length (packed mc payload))
         ∧ sp_SHA256 sp = sha256_hex (packed mc payload)
         ∧ (ing_Packed opts = true -> packed mc payload = payload)
         ∧ newUnpackReader (fullReader (packed mc payload)) (spoolOptions p opts) = Ok (fullReader payload)).
Proof.
  intros opts bad D. split; [vm_compute; reflexivity|]. split; [vm_compute; reflexivity|].
  apply (runIngest_checked (D := D) "/w" sampleJob opts ["ab"; "c"] None sampleEnv sampleWorld).
  intros k f [= <-]. split; [reflexivity|]. split; [intros data p _; reflexivity|intros data p; simpl; lia].
Defined.

(** ** Recovery *)

Definition runsOf (w : World) : gmap string Run := db_runs (w_db w).
Definition runsWf (w : World) : Prop := map_Forall (λ i r, run_ID r = i) (runsOf w).

Lemma RunRepo_Save_ok run env w :
  dbAnswers env -> is_Some (runsOf w !! run_ID run) ->
  ∃ w', RunRepo_Save run env w = (Ok tt, w') ∧ runsOf w' = <[run_ID run := runRow run]> (runsOf w).
Proof.
  intros Hdb [r Hr]. unfold RunRepo_Save, execAffected, mbind, M_bind. rewrite execWrite_ok by done.
  unfold runsOf in Hr. unfold updateId. rewrite Hr. by eexists.
Qed.

Definition sameRun (i : string) (r : Run) : bool := String.eqb (run_ID r) i.

Lemma recover_loop t l env w :
  dbAnswers env -> Forall (λ r, is_Some (runsOf w !! run_ID r)) l -> NoDup (run_ID <$> l) ->
  let r := forEach_err l tt (λ run _,
             do? _ := RunRepo_Save (interrupted t run) else err => mret (Fail err) in mret (Ok tt)) env w in
  r.1 = Ok tt
  ∧ ∀ i, runsOf r.2 !! i = match List.find (sameRun i) l with
                           | Some run => Some (runRow (interrupted t run))
                           | None => runsOf w !! i
                           end.
Proof.
  intros Hdb. revert w. induction l as [|r l IH]; intros w Hin Hn; [done|].
  inversion Hin as [|? ? Hr Hl]; subst. cbn [fmap list_fmap] in Hn. apply NoDup_cons in Hn as [Hnot Hn].
  cbn [forEach_err]. rewrite bind_eq. rewrite bind_eq.
  assert (Hid : run_ID (interrupted t r) = run_ID r) by (unfold interrupted; by destruct (run_StartedAt _)).
  destruct (RunRepo_Save_ok (interrupted t r) env w Hdb) as (w1 & -> & Hw1); [by rewrite Hid|].
  cbn [fst snd mret M_ret]. rewrite Hid in Hw1.
  destruct (IH w1) as [H1 H2]; [| |].
  - eapply Forall_impl; [exact Hl|]. intros x [y Hy]. rewrite Hw1.
    destruct (decide (run_ID r = run_ID x)) as [<-|Hne]; [by rewrite lookup_insert_eq|]. rewrite lookup_insert_ne by done. by exists y.
  - exact Hn.
  - split; [exact H1|]. intros i. rewrite H2. cbn [List.find]. unfold sameRun at 2.
    destruct (String.eqb_spec (run_ID r) i) as [<-|Hne].
    + destruct (List.find (sameRun (run_ID r)) l) as [x|] eqn:Hf.
      * exfalso. apply find_some in Hf as [Hx Hs]. apply Hnot, list_elem_of_fmap. exists x.
        split; [symmetry; by apply String.eqb_eq|by apply list_elem_of_In].
      * rewrite Hw1. by rewrite lookup_insert_eq.
    + destruct (List.find (sameRun i) l); [done|]. rewrite Hw1. by rewrite lookup_insert_ne.
Qed.

Lemma interrupted_spec t r :
  run_Status (interrupted t r) = RunFailed ∧ run_FinishedAt (interrupted t r) = Some t
  ∧ run_ID (interrupted t r) = run_ID r ∧ run_ArtifactIDs (interrupted t r) = run_ArtifactIDs r
  ∧ Forall (λ s, stage_Status s ≠ StageRunning) (run_Stages (interrupted t r)).
Proof.
  unfold interrupted. set (f := λ s : Stage, _).
  assert (Hf : ∀ l, Forall (λ s, stage_Status s ≠ StageRunning) (f <$> l)).
  { intros l. apply Forall_fmap, Forall_true. intros s. subst f. simpl. by case_bool_decide. }
  destruct (run_StartedAt _); simpl; split_and!; try done; apply Hf.
Qed.

Lemma unfinishedRuns_elem w run : runsWf w ->
  run ∈ unfinishedRuns (w_db w) <-> runsOf w !! run_ID run = Some run ∧ isUnfinished run = true.
Proof.
  intros Hwf. unfold unfinishedRuns. rewrite SliceStable_perm, selectWhere_elem. split; intros [H1 H2]; (split; [|done]).
  - destruct H1 as [i Hi]. by rewrite (Hwf _ _ Hi).
  - by exists (run_ID run).
Qed.

(** C37: after a restart nothing pretends to run.  On a database that answers and
    whose rows are under their identifiers, [recoverInterruptedRuns] succeeds;
    afterwards every run that was queued or running is failed, ended at the time
    of the recovery, keeps its identifier and its artifacts and has no stage
    running, and every other run is as it was. *)
Theorem recoverInterruptedRuns_finishes env w :
  dbAnswers env -> runsWf w ->
  let r := recoverInterruptedRuns env w in
  r.1 = Ok tt
  ∧ ∀ i run, runsOf w !! i = Some run ->
    if isUnfinished run
    then ∃ run', runsOf r.2 !! i = Some run' ∧ run_Status run' = RunFailed
         ∧ run_FinishedAt run' = nullTime (Some (env_now env (S (w_tick w))))
         ∧ run_ID run' = i ∧ run_ArtifactIDs run' = run_ArtifactIDs run
         ∧ Forall (λ s, stage_Status s ≠ StageRunning) (run_Stages run')
    else runsOf r.2 !! i = Some run.
Proof.
  intros Hdb Hwf. cbv zeta. unfold recoverInterruptedRuns, Unfinished. rewrite bind_eq. rewrite bind_eq.
  rewrite query_ok by done. cbn [fst snd mret M_ret]. rewrite bind_eq.
  change (now env (tick w)) with (env_now env (S (w_tick w)), tick (tick w)). cbn [fst snd].
  set (t := env_now env (S (w_tick w))). set (l := unfinishedRuns (w_db w)).
  assert (Hel : ∀ x, x ∈ l <-> runsOf w !! run_ID x = Some x ∧ isUnfinished x = true) by (intros x; by apply unfinishedRuns_elem).
  assert (Hn : NoDup (run_ID <$> l)).
  { subst l. unfold unfinishedRuns. rewrite SliceStable_perm. by apply selectWhere_NoDup. }
  destruct (recover_loop t l env (tick (tick w)) Hdb) as [H1 H2]; [|exact Hn|].
  { apply Forall_forall. intros x Hx. apply Hel in Hx as [Hx _]. by exists x. }
  split; [exact H1|]. intros i run Hrun. rewrite H2. change (runsOf (tick (tick w))) with (runsOf w).
  assert (Hid : run_ID run = i) by by apply Hwf in Hrun.
  destruct (List.find (sameRun i) l) as [x|] eqn:Hf.
  - apply find_some in Hf as [Hx Hs]. apply list_elem_of_In, Hel in Hx as [Hx Hu]. apply String.eqb_eq in Hs.
    assert (x = run) as -> by congruence. rewrite Hu. exists (runRow (interrupted t run)). split; [done|].
    destruct (interrupted_spec t run) as (S1 & S2 & S3 & S4 & S5). unfold runRow.
    split_and!; [exact S1|exact (f_equal nullTime S2)|exact (eq_trans S3 Hid)|exact S4|exact S5].
  - destruct (isUnfinished run) eqn:Hu; [|done]. exfalso.
    assert (run ∈ l) as Hin by (apply Hel; split; [by rewrite Hid|done]).
    apply list_elem_of_In in Hin. pose proof (find_none _ _ Hf _ Hin) as Hno. unfold sameRun in Hno. by rewrite Hid, String.eqb_refl in Hno.
Qed.

Lemma recoverInterruptedRuns_finishes_witness :
  let r := recoverInterruptedRuns sampleEnv sampleWorld in
  run_Status <$> runsOf r.2 !! "r1" = Some RunFailed
  ∧ r.1 = Ok tt
  ∧ ∀ i run, runsOf sampleWorld !! i = Some run ->
    if isUnfinished run
    then ∃ run', runsOf r.2 !! i = Some run' ∧ run_Status run' = RunFailed
         ∧ run_FinishedAt run' = nullTime (Some (env_now sampleEnv (S (w_tick sampleWorld))))
         ∧ run_ID run' = i ∧ run_ArtifactIDs run' = run_ArtifactIDs run
         ∧ Forall (λ s, stage_Status s ≠ StageRunning) (run_Stages run')
    else runsOf r.2 !! i = Some run.
Proof.
  intros r. split; [vm_compute; reflexivity|].
  apply (recoverInterruptedRuns_finishes sampleEnv sampleWorld); [intros k; reflexivity|].
  apply (bool_decide_unpack (map_Forall (λ i r, run_ID r = i) (runsOf sampleWorld))). vm_compute. exact I.
Defined.

(** A run whose queueing fails is still queued in the database. *)
Example enqueue_orphan :
  let env := set_env_queue (λ _, Some (mkError "run queue is full" ErrQueueFull)) sampleEnv in
  let r := EnqueueBackup sampleJob TriggerManual "admin" env sampleWorld in
  is_ok r.1 = false ∧ run_Status <$> runsOf r.2 !! "id0" = Some RunQueued.
Proof. by vm_compute. Qed.
