(* ===== verification/Notifier.v ===== *)
(** * Notifications: [internal/engine/notifier.go]

    Which event a run that ends stands for, which channels want it, and what is
    recorded of each delivery.  The deliveries of one event are independent goroutines; the model runs them
    in the order of the channels. *)
From S2P Require Import Prelude GoStrings GoNumbers GoTime GoSlices Core Message CoreSetters Config Secrets Pack Spool Db StoreCommon.
From S2P Require Import StoreJobs StoreConfig StoreAdmin Drivers Sample.
Open Scope Z_scope.

Definition eventTypeForRun (run : Run) : option (string * Severity) :=
  match run_Kind run with
  | RunPrune =>
      match run_Status run with
      | RunSuccess => Some (EventPruneDone, SeverityInfo)
      | _ => None
      end
  | RunRestore =>
      match run_Status run with
      | RunSuccess => Some (EventRestoreDone, SeverityInfo)
      | RunFailed => Some (EventRestoreFailed, SeverityError)
      | _ => None
      end
  | RunVerify =>
      match run_Status run with
      | RunWarning => Some (EventArtifactMissing, SeverityWarning)
      | RunFailed => Some (EventRunFailed, SeverityError)
      | RunSuccess => Some (EventRunSuccess, SeverityInfo)
      | _ => None
      end
  | RunBackup | RunIngest =>
      match run_Status run with
      | RunSuccess => Some (EventRunSuccess, SeverityInfo)
      | RunWarning => Some (EventRunWarning, SeverityWarning)
      | RunFailed => Some (EventRunFailed, SeverityError)
      | _ => None
      end
  end.

Definition contains (list : list string) (v : string) : bool := existsb (String.eqb v) list.

(** ** The wording *)

Definition formatDuration (ms : Z) : string :=
  let d := wrap64 (ms * 1000000) in
  if d <? Second then Itoa ms +:+ "ms" else Duration_String (Round d Second).

(** At most five rounds. *)
Fixpoint unitLoop (fuel : nat) (v div : Z) (exp : nat) : Z * nat :=
  match fuel with
  | O => (div, exp)
  | S fuel => if 1024 <=? v then unitLoop fuel (v / 1024) (div * 1024) (S exp) else (div, exp)
  end.

Definition formatBytes (n : Z) : string :=
  if n <? 1024 then Itoa n +:+ " B"
  else
    let '(div, exp) := unitLoop 6 (n / 1024) 1024 0 in
    Format1 (fdiv (float64 n) (float64 div)) +:+ " " +:+ stake 1 (sdrop exp "KMGTPE") +:+ "iB".

Definition runLabel (run : Run) : string := if bool_decide (run_JobName run ≠ "") then run_JobName run else RunKind_text (run_Kind run).

Definition destinationNames (job : option Job) : string :=
  match job with Some j => StrJoin (job_DestinationNames j) ", " | None => "" end.

Definition hasDestinations (job : option Job) : bool :=
  match job with Some j => bool_decide (job_DestinationNames j ≠ []) | None => false end.

Definition buildRunMessage (run : Run) (job : option Job) : string :=
  RunKind_text (run_Kind run) +:+ " run of " +:+ runLabel run +:+ " finished with status " +:+ RunStatus_text (run_Status run)
  +:+ (if 0 <? run_DurationMS run then " after " +:+ formatDuration (run_DurationMS run) else "")
  +:+ (if 0 <? run_Bytes run then ", " +:+ formatBytes (run_Bytes run) else "")
  +:+ "."
  +:+ (if hasDestinations job then " Destinations: " +:+ destinationNames job +:+ "." else "")
  +:+ (if bool_decide (run_Error run ≠ "") then " Error: " +:+ run_Error run else "").

Definition runEventFields (run : Run) (job : option Job) : gmap string string :=
  let fields : gmap string string :=
    {[ "job" := run_JobName run; "kind" := RunKind_text (run_Kind run); "status" := RunStatus_text (run_Status run);
       "duration" := formatDuration (run_DurationMS run); "size" := formatBytes (run_Bytes run) ]} in
  let fields := if bool_decide (run_Error run ≠ "") then <["error" := run_Error run]> fields else fields in
  if hasDestinations job then <["destinations" := destinationNames job]> fields else fields.

(** The map [byID]: the last channel with the identifier. *)
Definition channelByID (all : list NotificationChannel) (id : string) : option NotificationChannel :=
  List.find (λ c, String.eqb (chan_ID c) id) (reverse all).

(** The channels of the final loop. *)
Definition accepts (eventType : string) (c : NotificationChannel) : bool :=
  chan_Enabled c && (bool_decide (chan_Events c = []) || contains (chan_Events c) eventType).

Section notifier.
  Context {A : AEAD} {Dr : Drivers}.
  Context (baseURL : string).   (* e.baseURL *)

Definition wantedEvents (job : option Job) (settings : Settings) : list string :=
  match job with
  | Some j => if bool_decide (job_NotifyOn j = []) then DefaultNotifyOn settings else job_NotifyOn j
  | None => DefaultNotifyOn settings
  end.

Definition candidates (job : option Job) (all : list NotificationChannel) : list NotificationChannel :=
  match job with
  | Some j => if bool_decide (job_NotificationChannelIDs j = []) then all
              else omap (channelByID all) (job_NotificationChannelIDs j)
  | None => all
  end.

Definition resolveChannels (job : option Job) (eventType : string) : M (result (list NotificationChannel)) :=
  settings ← engineSettings;
  if negb (contains (wantedEvents job settings) eventType) then mret (Ok [])
  else
    do? all := ChannelRepo_List else err => mret (Fail err) in
    mret (Ok (List.filter (accepts eventType) (candidates job all))).

(** [SetSendResult]. *)
Definition recordSendResult (channel : NotificationChannel) (err : option error) : M unit :=
  t ← now;
  _ ← SetSendResult (chan_ID channel) t (match err with Some e => err_msg e | None => "" end);
  mret tt.

Definition deliver (ev : Notice) (channel : NotificationChannel) : M unit :=
  match NotifierConfig channel with
  | Fail err => recordSendResult channel (Some err)
  | Ok _ =>
      err ← driverCall;
      (match err with
       | None => record (CallSend (chan_ID channel) (ev_Type ev))
       | Some _ => mret tt
       end);;
      recordSendResult channel err
  end.

Definition send (job : option Job) (ev : Notice) : M unit :=
  do? channels := resolveChannels job (ev_Type ev) else err => mret tt in
  forEach channels tt (λ c _, deliver ev c).

Definition runLink (runID : string) : M string :=
  settings ← engineSettings;
  let base := if bool_decide (BaseURL settings = "") then baseURL else BaseURL settings in
  mret (if bool_decide (base = "") then "" else base +:+ "/runs/" +:+ runID).

Definition dispatchRun (run : Run) : M unit :=
  match eventTypeForRun run with
  | None => mret tt
  | Some (eventType, severity) =>
      job ← (if bool_decide (run_JobID run = "") then mret None
             else
               r ← JobRepo_Get (run_JobID run);
               mret (match r with Ok j => Some j | Fail _ => None end));
      settings ← engineSettings;
      t ← now;
      link ← runLink (run_ID run);
      send job (mkNotice eventType severity
                  (SiteName settings +:+ ": " +:+ runLabel run +:+ " " +:+ RunStatus_text (run_Status run)) (buildRunMessage run job) t
                  (SiteName settings) (BaseURL settings) job (Some run) (runEventFields run job) link)
  end.

(** The loop of [Notifier.start]: what it does with an event of the bus. *)
Definition onEvent (ev : Event) : M unit :=
  match ev with
  | EvRunUpdated run => if Terminal (run_Status run) then dispatchRun run else mret tt
  | _ => mret tt
  end.

Definition dispatchJobEvent (job : Job) (eventType title message : string) : M unit :=
  settings ← engineSettings;
  let severity :=
    if bool_decide (eventType = EventRunSuccess) || bool_decide (eventType = EventPruneDone)
       || bool_decide (eventType = EventRestoreDone)
    then SeverityInfo else SeverityWarning in
  t ← now;
  let link := if bool_decide (BaseURL settings = "") then "" else BaseURL settings +:+ "/jobs/" +:+ job_Slug job in
  send (Some job) (mkNotice eventType severity (SiteName settings +:+ ": " +:+ title) (job_Name job +:+ ": " +:+ message) t
                     (SiteName settings) (BaseURL settings) (Some job) None {[ "job" := job_Name job; "schedule" := job_Schedule job ]} link).

(** ** Who is told

    A channel wants an event of a job. *)
Definition wants (settings : Settings) (job : option Job) (eventType : string) (c : NotificationChannel) : Prop :=
  eventType ∈ wantedEvents job settings
  ∧ chan_Enabled c = true
  ∧ (chan_Events c = [] ∨ eventType ∈ chan_Events c)
  ∧ (∀ j, job = Some j -> job_NotificationChannelIDs j = [] ∨ chan_ID c ∈ job_NotificationChannelIDs j).

Definition chans (w : World) : gmap string NotificationChannel := db_channels (w_db w).

Lemma contains_elem l v : contains l v = true <-> v ∈ l.
Proof.
  unfold contains. rewrite existsb_exists. split.
  - intros (x & Hx & E). apply String.eqb_eq in E as ->. by apply list_elem_of_In.
  - intros H. exists v. split; [by apply list_elem_of_In|apply String.eqb_refl].
Qed.

Lemma channelByID_elem all id c :
  NoDup (chan_ID <$> all) -> channelByID all id = Some c <-> c ∈ all ∧ chan_ID c = id.
Proof.
  intros Hn. unfold channelByID. split.
  - intros H. apply find_some in H as [H E]. split; [|by apply String.eqb_eq].
    apply list_elem_of_In in H. rewrite elem_of_reverse in H. exact H.
  - intros [Hc Hid]. destruct (List.find _ (reverse all)) as [c'|] eqn:Hf.
    + apply find_some in Hf as [Hc' E]. apply String.eqb_eq in E. apply list_elem_of_In in Hc'. rewrite elem_of_reverse in Hc'.
      f_equal. assert (chan_ID c' = chan_ID c) as Eid by congruence. clear -Hn Hc Hc' Eid.
      induction all as [|x l IH]; [by apply not_elem_of_nil in Hc|]. cbn [fmap list_fmap] in Hn. apply NoDup_cons in Hn as [Hx Hn].
      apply elem_of_cons in Hc as [->|Hc]; apply elem_of_cons in Hc' as [->|Hc']; [done| | |by apply IH].
      * exfalso. apply Hx. rewrite <- Eid. by apply list_elem_of_fmap_2.
      * exfalso. apply Hx. rewrite Eid. by apply list_elem_of_fmap_2.
    + exfalso. apply elem_of_reverse, list_elem_of_In in Hc. pose proof (find_none _ _ Hf _ Hc) as E. simpl in E.
      by rewrite Hid, String.eqb_refl in E.
Qed.

(** The channels resolved are those on record that want the event. *)
Lemma resolve_wants job eventType settings all c :
  NoDup (chan_ID <$> all) ->
  c ∈ List.filter (accepts eventType) (candidates job all) ∧ eventType ∈ wantedEvents job settings
  <-> c ∈ all ∧ wants settings job eventType c.
Proof.
  intros Hn.
  assert (Hcand : c ∈ candidates job all <-> c ∈ all ∧ (∀ j, job = Some j -> job_NotificationChannelIDs j = [] ∨ chan_ID c ∈ job_NotificationChannelIDs j)).
  { unfold candidates. destruct job as [j|]; [|split; [intros H; split; [exact H|by intros ? [=]]|by intros [? _]]].
    destruct (bool_decide_reflect (job_NotificationChannelIDs j = [])) as [E|E].
    - split; [intros H; split; [done|]; intros ? [= <-]; by left|by intros [? _]].
    - rewrite list_elem_of_omap. split.
      + intros (id & Hid & Hc). apply channelByID_elem in Hc as [Hc <-]; [|done]. split; [done|]. intros ? [= <-]. by right.
      + intros [Hc Hj]. destruct (Hj j eq_refl) as [?|Hid]; [done|]. exists (chan_ID c). split; [done|].
        by apply channelByID_elem. }
  assert (Hacc : accepts eventType c = true <-> chan_Enabled c = true ∧ (chan_Events c = [] ∨ eventType ∈ chan_Events c)).
  { unfold accepts. rewrite andb_true_iff, orb_true_iff, bool_decide_eq_true, contains_elem. done. }
  rewrite list_elem_of_In, filter_In, <- list_elem_of_In. unfold wants. tauto.
Qed.

(** The settings on record. *)
Definition settingsOf (w : World) : Settings :=
  match db_settings (w_db w) with Some s => normalizeSettings s | None => DefaultSettings end.

Lemma engineSettings_ok env w : dbAnswers env -> engineSettings env w = (settingsOf w, tick w).
Proof.
  intros Hdb. unfold engineSettings, SettingsRepo_Get, settingsOf, mbind, M_bind. rewrite query_ok by done.
  by destruct (db_settings (w_db w)).
Qed.

(** an event reaches those who asked for it.  On a database that answers and
    whose channels are under their identifiers, [resolveChannels] yields exactly
    the channels on record that want the event: the event is in the list of the
    job, or in the default list when the job has none; the channel is enabled
    and subscribes to the event, or to everything; and it is one of the
    channels of the job, when the job names some. *)
Theorem resolveChannels_exact job eventType env w :
  dbAnswers env -> map_Forall (λ i c, chan_ID c = i) (chans w) ->
  ∃ cs, (resolveChannels job eventType env w).1 = Ok cs
  ∧ ∀ c, c ∈ cs <-> (∃ i, chans w !! i = Some c) ∧ wants (settingsOf w) job eventType c.
Proof.
  intros Hdb Hwf. unfold resolveChannels. rewrite bind_eq, engineSettings_ok by done. cbn [fst snd].
  destruct (contains _ eventType) eqn:Hw; cbn [negb].
  - unfold ChannelRepo_List. rewrite bind_eq, bind_eq, query_ok by done. cbn [fst snd mret M_ret]. eexists. split; [done|].
    intros c. apply contains_elem in Hw.
    set (all := SliceStable _ _).
    assert (Hn : NoDup (chan_ID <$> all)) by (subst all; rewrite SliceStable_perm; by apply selectWhere_NoDup).
    assert (Hall : c ∈ all <-> ∃ i, chans w !! i = Some c).
    { subst all. rewrite SliceStable_perm, selectWhere_elem. split; [by intros [? _]|by intros ?]. }
    rewrite <- Hall, <- (resolve_wants job eventType (settingsOf w)) by done. tauto.
  - exists []. split; [done|]. intros c. split; [by intros ?%not_elem_of_nil|].
    intros [_ [Hin _]]. apply contains_elem in Hin. congruence.
Qed.
End notifier.

Lemma resolveChannels_exact_witness :
  let ch id on events := mkChannel id id "webhook" ∅ on events 0 0 None "" in
  let db := set_db_channels {[ "c1" := ch "c1" true []; "c2" := ch "c2" false []; "c3" := ch "c3" true [EventRunSuccess] ]}
              emptyDB in
  let w := set_w_db db sampleWorld in
  ∃ cs, (resolveChannels None EventRunFailed sampleEnv w).1 = Ok cs
  ∧ ∀ c, c ∈ cs <-> (∃ i, chans w !! i = Some c) ∧ wants (settingsOf w) None EventRunFailed c.
Proof.
  intros ch db w. apply (resolveChannels_exact None EventRunFailed sampleEnv w).
  - intros k. reflexivity.
  - apply (bool_decide_unpack (map_Forall (λ i c, chan_ID c = i) (db_channels db))). vm_compute. exact I.
Defined.
