(* ===== verification/Scheduler.v ===== *)
(** * Schedules: [internal/engine/scheduler.go]

    When a job runs next, which jobs are handed to the cron library, which slot
    was missed.  The cron library and the time zone database are the class
    [Cron]; [CronLaws] is what the library documents of [Next]. *)
From S2P Require Import Prelude GoStrings GoTime GoSlices Core CoreSetters Config Secrets Pack Spool Db StoreCommon StoreJobs StoreRuns.
From S2P Require Import StoreConfig StoreAdmin RunState Drivers Runner Restore EngineRuns Sample.
From stdpp Require Import sorting.
Open Scope Z_scope.

Class Cron := {
  Schedule : Type;
  Location : Type;
  UTC : Location;
  cron_Parse : string -> result Schedule;
  time_LoadLocation : string -> result Location;
  Next : Schedule -> Location -> Time -> Time;
  fires : Schedule -> Location -> Time -> Prop
}.

(** [Next] is the first firing after the given time, within the five years the
    library looks ahead, or the zero time. *)
Class CronLaws (K : Cron) : Prop := {
  Next_fires s l t : Next s l t ≠ zeroTime -> fires s l (Next s l t) ∧ t < Next s l t;
  Next_first s l t u : Next s l t ≠ zeroTime -> t < u < Next s l t -> ¬ fires s l u;
  Next_none s l t u : Next s l t = zeroTime -> t < u <= t + 5 * 365 * Day -> ¬ fires s l u
}.

Definition CapPush : string := "push".

Section scheduler.
  Context {K : Cron}.

Definition ParseSchedule (spec : string) : result Schedule :=
  let spec := TrimSpace spec in
  if bool_decide (spec = "") then Fail (newError "schedule is empty")
  else
    let? sched := cron_Parse spec
      else err => Fail (wrapError ("invalid cron expression " +:+ Quote spec) err) in
    Ok sched.

Definition LoadLocation (name : string) : result Location :=
  let name := TrimSpace name in
  if bool_decide (name = "") then Ok UTC
  else
    let? loc := time_LoadLocation name
      else err => Fail (wrapError ("unknown timezone " +:+ Quote name) err) in
    Ok loc.

(** The time zone of a job: its own, or the default. *)
Definition zoneOf (job : Job) (defaultTimezone : string) : string :=
  if Blank (job_Timezone job) then defaultTimezone else job_Timezone job.

Definition cronOf (job : Job) (defaultTimezone : string) : result (Schedule * Location) :=
  let? sched := ParseSchedule (job_Schedule job) else err => Fail err in
  let? loc := LoadLocation (zoneOf job defaultTimezone) else err => Fail err in
  Ok (sched, loc).

Definition NextRun (job : Job) (defaultTimezone : string) (from : Time) : result (option Time) :=
  if Blank (job_Schedule job) || negb (job_Enabled job) then Ok None
  else
    let? (sched, loc) := cronOf job defaultTimezone else err => Fail err in
    let next := Next sched loc from in
    Ok (if IsZero next then None else Some next).

Fixpoint nextLoop (sched : Schedule) (loc : Location) (cursor : Time) (count : nat) : list Time :=
  match count with
  | O => []
  | S n =>
      let cursor := Next sched loc cursor in
      if IsZero cursor then [] else cursor :: nextLoop sched loc cursor n
  end.

Definition NextRuns (job : Job) (defaultTimezone : string) (from : Time) (count : nat) : result (list Time) :=
  if Blank (job_Schedule job) then Ok []
  else
    let? (sched, loc) := cronOf job defaultTimezone else err => Fail err in
    Ok (nextLoop sched loc from count).

(** The loop of [previousSlot]: [last] is the zero time before the first slot. *)
Fixpoint slotLoop (sched : Schedule) (loc : Location) (fuel : nat) (cursor last until : Time) : Time :=
  match fuel with
  | O => last
  | S n =>
      let next := Next sched loc cursor in
      if IsZero next || After next until then last
      else slotLoop sched loc n next next until
  end.

Definition maxSlots : nat := 2000.

Definition previousSlot (job : Job) (defaultTimezone : string) (from until : Time) : result Time :=
  let? (sched, loc) := cronOf job defaultTimezone else err => Fail err in
  Ok (slotLoop sched loc maxSlots from zeroTime until).

Definition equalTimePtr (a b : option Time) : bool :=
  match a, b with
  | None, None => true
  | Some a, Some b => Equal a b
  | _, _ => false
  end.

(** ** The scheduler *)

(** The jobs [apply] hands to the cron library, and those it skips: disabled,
    without schedule, fed from outside, or with a zone or an expression that
    does not load. *)
Definition schedulable (job : Job) : bool :=
  job_Enabled job && negb (Blank (job_Schedule job)) && negb (String.eqb (job_SourceKind job) CapPush).

Definition registered (settings : Settings) (job : Job) : bool :=
  schedulable job && is_ok (LoadLocation (zoneOf job (DefaultTimezone settings))) && is_ok (cron_Parse (job_Schedule job)).

Definition refreshNextRuns : M (result unit) :=
  do? jobs := JobRepo_All else err => mret (Fail err) in
  settings ← engineSettings;
  t ← now;
  forEach_err jobs tt (λ job _,
    let next := match NextRun job (DefaultTimezone settings) t with Ok next => next | Fail _ => None end in
    if equalTimePtr (job_NextRunAt job) next then mret (Ok tt)
    else
      do? _ := SetNextRun (job_ID job) next else err => mret (Fail err) in
      mret (Ok tt)).

(** The entries of the crons that replace the old ones. *)
Definition apply : M (result (list Job)) :=
  do? jobs := JobRepo_All else err => mret (Fail err) in
  settings ← engineSettings;
  do? _ := refreshNextRuns else err => mret (Fail err) in
  mret (Ok (List.filter (registered settings) jobs)).

Definition trigger (jobID : string) : M unit :=
  do? job := JobRepo_Get jobID else err => mret tt in
  if negb (job_Enabled job) then mret tt
  else _ ← EnqueueBackup job TriggerSchedule "scheduler"; mret tt.

(** The slot of a job that nothing has run, in the last 24 hours. *)
Definition ranSince (last : option RunSummary) (slot : Time) : bool :=
  match last with
  | Some s => match sum_StartedAt s with Some t => negb (Before t slot) | None => false end
  | None => false
  end.

Definition missedSlot (job : Job) (defaultTimezone : string) (t : Time) : option Time :=
  if negb (schedulable job) then None
  else
    match previousSlot job defaultTimezone (GoTime.Add t (- (24 * Hour))) t with
    | Fail _ => None
    | Ok slot => if IsZero slot then None else if ranSince (job_LastRun job) slot then None else Some slot
    end.

Definition runMissed : M unit :=
  do? jobs := JobRepo_All else err => mret tt in
  settings ← engineSettings;
  t ← now;
  forEach jobs tt (λ job _,
    match missedSlot job (DefaultTimezone settings) t with
    | None => mret tt
    | Some _ => _ ← EnqueueBackup job TriggerSchedule "missed-run"; mret tt
    end).

(** ** The next runs of a schedule *)

Section laws.
  Context {L : CronLaws K}.

(** The firings after [from], none left out. *)
Inductive firings (sched : Schedule) (loc : Location) : Time -> list Time -> Prop :=
  | firings_nil from : firings sched loc from []
  | firings_cons from x l :
      fires sched loc x -> from < x -> (∀ u, from < u < x -> ¬ fires sched loc u) ->
      firings sched loc x l -> firings sched loc from (x :: l).

Lemma nextLoop_firings sched loc from n :
  firings sched loc from (nextLoop sched loc from n) ∧ (length (nextLoop sched loc from n) <= n)%nat.
Proof.
  revert from. induction n as [|n IH]; intros from; [split; [constructor|done]|].
  cbn [nextLoop]. unfold IsZero. destruct (Z.eqb_spec (Next sched loc from) zeroTime) as [|Hne]; [split; [constructor|simpl; lia]|].
  destruct (Next_fires _ _ _ Hne) as [Hf Hlt]. destruct (IH (Next sched loc from)) as [H1 H2]. split; [|simpl; lia].
  constructor; [done|done| |done]. intros u. by apply Next_first.
Qed.

(** The runs announced are the firings of the schedule.  For a job whose
    schedule and zone load, [NextRuns] lists firings after the given time, in
    order, at most as many as asked and without leaving one out; fewer only
    when the schedule does not fire in the five years that follow. *)
Theorem NextRuns_firings job tz from n sched loc :
  cronOf job tz = Ok (sched, loc) -> Blank (job_Schedule job) = false ->
  ∃ l, NextRuns job tz from n = Ok l ∧ firings sched loc from l ∧ (length l <= n)%nat
  ∧ ((length l < n)%nat -> ∀ u, let last := List.last l from in
       last < u <= last + 5 * 365 * Day -> ¬ fires sched loc u).
Proof.
  intros Hc Hb. unfold NextRuns. rewrite Hb, Hc. eexists. split; [done|].
  destruct (nextLoop_firings sched loc from n) as [H1 H2]. split_and!; [done|done|].
  clear H1 H2. revert from. induction n as [|n IH]; intros from; [simpl; lia|].
  cbn [nextLoop]. unfold IsZero. destruct (Z.eqb_spec (Next sched loc from) zeroTime) as [He|Hne].
  - intros _ u. cbn [List.last]. by apply Next_none.
  - cbn [length]. intros Hlt u. specialize (IH (Next sched loc from) ltac:(lia) u).
    destruct (nextLoop sched loc (Next sched loc from) n) as [|y l]; [exact IH|].
    assert (E : ∀ d, List.last (y :: l) d = List.last (y :: l) from).
    { clear. revert y. induction l as [|z l IHl]; intros y d; [done|]. apply (IHl z). }
    cbv zeta in *. change (List.last (Next sched loc from :: y :: l) from) with (List.last (y :: l) from).
    by rewrite (E (Next sched loc from)) in IH.
Qed.

(** ** The previous slot *)

(** The firings of a window. *)
Definition inWindow (sched : Schedule) (loc : Location) (from until : Time) (x : Time) : Prop :=
  fires sched loc x ∧ from < x <= until.

(** A list of firings of the window, latest first. *)
Definition slotsIn (sched : Schedule) (loc : Location) (from until : Time) (l : list Time) : Prop :=
  StronglySorted (λ a b, b < a) l ∧ Forall (inWindow sched loc from until) l.

(** What the loop returns: the last firing of the window, if there is one. *)
Definition isPrevious (sched : Schedule) (loc : Location) (from until : Time) (slot : Time) : Prop :=
  (slot = zeroTime ∧ ∀ u, from < u <= until -> ¬ fires sched loc u)
  ∨ (inWindow sched loc from until slot ∧ slot ≠ zeroTime ∧ ∀ u, slot < u <= until -> ¬ fires sched loc u).

Lemma slotLoop_previous sched loc from until fuel seen :
  until <= from + 5 * 365 * Day ->
  (∀ l, slotsIn sched loc from until l -> (length l < length seen + fuel)%nat) ->
  slotsIn sched loc from until seen ->
  Forall (λ x, x ≠ zeroTime) seen ->
  isPrevious sched loc from until
    (slotLoop sched loc fuel (List.hd from seen) (List.hd zeroTime seen) until).
Proof.
  intros Hspan. revert seen. induction fuel as [|fuel IH]; intros seen Hbound Hseen Hz.
  { specialize (Hbound seen Hseen). lia. }
  cbn [slotLoop]. set (cursor := List.hd from seen) in *. unfold IsZero, After.
  assert (Hcur : from <= cursor).
  { subst cursor. destruct seen as [|x seen]; [done|]. destruct Hseen as [_ F]. inversion F as [|? ? [_ ?] _]; subst. simpl. lia. }
  assert (Hend : (∀ u, cursor < u <= until -> ¬ fires sched loc u) ->
            isPrevious sched loc from until (List.hd zeroTime seen)).
  { intros Hno. destruct seen as [|x seen]; [left; split; [done|exact Hno]|]. right.
    destruct Hseen as [_ F]. inversion F; subst. inversion Hz; subst. by split_and!. }
  destruct (Z.eqb_spec (Next sched loc cursor) zeroTime) as [He|Hne]; cbn [orb].
  { apply Hend. intros u Hu. apply (Next_none _ _ cursor); [done|]. lia. }
  destruct (Next_fires _ _ _ Hne) as [Hf Hlt].
  destruct (Z.ltb_spec until (Next sched loc cursor)) as [Hafter|Hin].
  { apply Hend. intros u Hu. apply (Next_first _ _ cursor); [done|]. lia. }
  apply (IH (Next sched loc cursor :: seen)).
  - intros l Hl. specialize (Hbound l Hl). simpl. lia.
  - destruct Hseen as [Hs F]. split.
    + constructor; [done|]. destruct seen as [|x seen]; [constructor|]. subst cursor. simpl in *.
      inversion Hs as [|? ? _ Hall]; subst. constructor; [done|].
      eapply Forall_impl; [exact Hall|]. intros y Hy. simpl in Hy. lia.
    + constructor; [|done]. split; [done|]. lia.
  - by constructor.
Qed.

(** the scheduler knows the last slot.  For a job whose schedule and zone
    load, over a window of at most five years with fewer than 2000 firings,
    [previousSlot] is the last firing of the window, and the zero time exactly
    when the schedule did not fire in it. *)
Theorem previousSlot_latest job tz from until sched loc :
  cronOf job tz = Ok (sched, loc) -> until <= from + 5 * 365 * Day ->
  (∀ l, slotsIn sched loc from until l -> (length l < maxSlots)%nat) ->
  ∃ slot, previousSlot job tz from until = Ok slot ∧ isPrevious sched loc from until slot.
Proof.
  intros Hc Hspan Hbound. unfold previousSlot. rewrite Hc. eexists. split; [done|].
  apply (slotLoop_previous sched loc from until maxSlots []); [done|exact Hbound|split; constructor|constructor].
Qed.
End laws.
End scheduler.

(** ** A schedule that fires at a period *)

(** Firings at the multiples of [period]; the zero time, which [Next] keeps for
    "never", is not one. *)
Definition periodicFires (period : Z) (x : Time) : Prop := x mod period = 0 ∧ x ≠ zeroTime.

Definition periodicNext (period : Z) (t : Time) : Time :=
  let x := (t / period + 1) * period in
  if x =? zeroTime then x + period else x.

Definition periodicCron (period : Z) : Cron := {|
  Schedule := unit; Location := unit; UTC := tt;
  cron_Parse _ := Ok tt;
  time_LoadLocation s := if String.eqb s "UTC" then Ok tt else Fail (newError "unknown");
  Next _ _ t := periodicNext period t;
  fires _ _ x := periodicFires period x
|}.

Lemma periodic_next_between p t u :
  0 < p -> t < u < (t / p + 1) * p -> u mod p ≠ 0.
Proof.
  intros Hp Hu H. pose proof (Z.div_mod u p) as E. pose proof (Z.mod_pos_bound t p) as B. pose proof (Z.div_mod t p) as F.
  rewrite H in E. assert (t / p < u / p) by nia. assert (u / p < t / p + 1) by nia. lia.
Qed.

Lemma periodicCron_laws p : 0 < p -> p <= Day -> CronLaws (periodicCron p).
Proof.
  intros Hp Hd. assert (Hnz : ∀ t, periodicNext p t ≠ zeroTime).
  { intros t. unfold periodicNext. destruct (Z.eqb_spec ((t / p + 1) * p) zeroTime); lia. }
  assert (Hlt : ∀ t, t < (t / p + 1) * p).
  { intros t. pose proof (Z.mod_pos_bound t p). pose proof (Z.div_mod t p). nia. }
  split; simpl.
  - intros _ _ t _. split; [split; [|apply Hnz]|]; unfold periodicNext; specialize (Hlt t);
      destruct (Z.eqb_spec ((t / p + 1) * p) zeroTime).
    + replace ((t / p + 1) * p + p) with ((t / p + 2) * p) by ring. apply Z.mod_mul. lia.
    + apply Z.mod_mul. lia.
    + lia.
    + lia.
  - intros _ _ t u _ Hu [Hm Hz]. unfold periodicNext in Hu. destruct (Z.eqb_spec ((t / p + 1) * p) zeroTime) as [E|E].
    + destruct (Z_lt_le_dec u ((t / p + 1) * p)); [apply (periodic_next_between p t u); [done|lia|done]|].
      assert (u ≠ (t / p + 1) * p) by congruence.
      apply (periodic_next_between p ((t / p + 1) * p) u); [done| |done].
      rewrite Z.div_mul by lia. lia.
    + apply (periodic_next_between p t u); [done|lia|done].
  - intros _ _ t u H. by destruct (Hnz t).
Qed.

(** Firings of a window are at least a period apart. *)
Lemma periodic_length p a b (l : list Time) :
  0 < p -> StronglySorted (λ x y, y < x) l -> Forall (λ x, x mod p = 0 ∧ a < x <= b) l ->
  l ≠ [] -> (Z.of_nat (length l) - 1) * p < b - a.
Proof.
  intros Hp Hs. revert b. induction Hs as [|x l Hs IH Hall]; intros b F Hne; [done|].
  inversion F as [|? ? [Hm Hx] F']; subst. destruct l as [|y l]; [simpl; lia|].
  assert (Hy : y mod p = 0 ∧ a < y <= b) by by inversion F'.
  assert (y < x) by by inversion Hall. assert (y <= x - p).
  { destruct Hy as [Hym _]. apply Z.mod_divide in Hm as [k ->]; [|lia]. apply Z.mod_divide in Hym as [m ->]; [|lia].
    assert (m < k) by nia. nia. }
  assert (F2 : Forall (λ z, z mod p = 0 ∧ a < z <= x - p) (y :: l)).
  { constructor; [lia|]. apply Forall_forall. intros z Hz. inversion F' as [|? ? _ Fl]; subst.
    pose proof (proj1 (Forall_forall _ _) Fl z Hz) as [? ?]. inversion Hs as [|? ? _ Hyl]; subst.
    pose proof (proj1 (Forall_forall _ _) Hyl z Hz). simpl in *. lia. }
  specialize (IH (x - p) F2 ltac:(done)). cbn [length] in *. lia.
Qed.

Lemma NextRuns_firings_witness :
  ∃ l, NextRuns (K := periodicCron Minute) sampleJob "UTC" 5 3 = Ok l
  ∧ firings (K := periodicCron Minute) tt tt 5 l ∧ (length l <= 3)%nat
  ∧ ((length l < 3)%nat -> ∀ u, let last := List.last l 5 in
       last < u <= last + 5 * 365 * Day -> ¬ fires (Cron := periodicCron Minute) tt tt u).
Proof.
  apply (NextRuns_firings (K := periodicCron Minute) (L := periodicCron_laws Minute eq_refl ltac:(done))
           sampleJob "UTC" 5 3 tt tt); reflexivity.
Defined.

Lemma previousSlot_latest_witness :
  ∃ slot, previousSlot (K := periodicCron Minute) sampleJob "UTC" 0 (25 * Hour) = Ok slot
  ∧ isPrevious (K := periodicCron Minute) tt tt 0 (25 * Hour) slot.
Proof.
  apply (previousSlot_latest (K := periodicCron Minute) (L := periodicCron_laws Minute eq_refl ltac:(done))
           sampleJob "UTC" 0 (25 * Hour) tt tt); [reflexivity|done|].
  intros l [Hs F]. destruct (decide (l = [])) as [->|Hne]; [unfold maxSlots; simpl; lia|].
  pose proof (periodic_length Minute 0 (25 * Hour) l ltac:(done) Hs) as Hl.
  assert (Forall (λ x, x mod Minute = 0 ∧ 0 < x <= 25 * Hour) l) as F'.
  { eapply Forall_impl; [exact F|]. by intros x [[? _] ?]. }
  specialize (Hl F' Hne). unfold Hour, Minute, Second, maxSlots in *. lia.
Defined.

(** With more firings in the window the loop stops early: a job that fires every
    ten seconds is told a slot from nineteen hours before the end. *)
Example previousSlot_stale :
  previousSlot (K := periodicCron (10 * Second)) sampleJob "UTC" 0 (25 * Hour)
  = Ok (20000 * Second).
Proof. by vm_compute. Qed.
