(* ===== verification/Overdue.v ===== *)
(** * The overdue watcher: [internal/engine/overdue.go]

    When a job counts as late, why, and that each lateness is told once. *)
From S2P Require Import Prelude GoStrings GoTime GoSlices Core CoreSetters Config Secrets Pack Spool Db StoreCommon StoreJobs StoreRuns.
From S2P Require Import StoreConfig StoreAdmin RunState Drivers Runner Restore EngineRuns Notifier Scheduler Sample.
Open Scope Z_scope.

(** The zero [store.JobState], for a job with no row. *)
Definition zeroState : JobState := mkJobState "" None None 0 None false None zeroTime.

(** [watchOverdue]: the interval at the start, and the next one. *)
Definition firstInterval (settings : Settings) : Z :=
  let interval := wrap64 (OverdueCheckMinutes settings * Minute) in
  if interval <=? 0 then 15 * Minute else interval.

Definition nextInterval (interval : Z) (current : Settings) : Z :=
  let next := wrap64 (OverdueCheckMinutes current * Minute) in
  if (next >? 0) && negb (next =? interval) then next else interval.

Section overdue.
  Context {A : AEAD} {Dr : Drivers} {K : Cron}.

(** [max(30 minutes, twice the last duration)]. *)
Definition graceOf (state : JobState) : Z :=
  let grace := 30 * Minute in
  if js_LastDurationMS state >? 0 then
    let expected := wrap64 (wrap64 (2 * js_LastDurationMS state) * 1000000) in
    if expected >? grace then expected else grace
  else grace.

Definition jobIsOverdue (job : Job) (state : JobState) (settings : Settings) (t : Time) : bool :=
  if String.eqb (job_SourceKind job) CapPush || Blank (job_Schedule job) then
    if job_ExpectedIntervalMinutes job <=? 0 then false
    else
      let deadline := wrap64 (job_ExpectedIntervalMinutes job * Minute) in
      match js_LastSuccessAt state with
      | None => negb (IsZero (job_CreatedAt job) || (Sub t (job_CreatedAt job) <=? deadline))
      | Some last => Sub t last >? deadline
      end
  else
    match previousSlot job (DefaultTimezone settings) (GoTime.Add t (- (25 * Hour))) (GoTime.Add t (- graceOf state)) with
    | Fail _ => false
    | Ok slot => if IsZero slot then false else negb (ranSince (js_LastRun state) slot)
    end.

(** The reason [jobIsOverdue] gives with [true]. *)
Definition overdueReason (job : Job) (state : JobState) (settings : Settings) (t : Time) : string :=
  if String.eqb (job_SourceKind job) CapPush || Blank (job_Schedule job) then
    match js_LastSuccessAt state with
    | None => "no successful run has ever been received"
    | Some last => "last successful run was " +:+ Duration_String (Round (Sub t last) Minute) +:+ " ago"
    end
  else
    match previousSlot job (DefaultTimezone settings) (GoTime.Add t (- (25 * Hour))) (GoTime.Add t (- graceOf state)) with
    | Fail _ => ""
    | Ok slot => "scheduled run at " +:+ fmt_RFC3339 slot +:+ " did not happen"
    end.

(** One job of [checkOverdue]. *)
Definition checkJob (states : gmap string JobState) (settings : Settings) (t : Time) (job : Job) : M unit :=
  if negb (job_Enabled job) then mret tt
  else
    let state := default zeroState (states !! job_ID job) in
    let overdue := jobIsOverdue job state settings t in
    if Bool.eqb overdue (js_Overdue state) && (negb overdue || bool_decide (is_Some (js_OverdueNotifiedAt state)))
    then mret tt
    else
      do? _ := SetOverdue (job_ID job) overdue (if overdue then Some t else None) else err => mret tt in
      let job := set_job_Overdue overdue job in
      publish (EvJobUpdated job);;
      if overdue then dispatchJobEvent job EventJobOverdue "Job is overdue" (overdueReason job state settings t) else mret tt.

Definition checkOverdue : M unit :=
  do? jobs := JobRepo_All else err => mret tt in
  do? states := JobStateRepo_All else err => mret tt in
  t ← now;
  settings ← engineSettings;
  forEach jobs tt (λ job _, checkJob states settings t job).

(** ** Once per incident *)

Definition statesOf (w : World) : gmap string JobState := db_job_state (w_db w).

Lemma states_ask {X} (q : Env -> nat -> X) : keeps statesOf (ask q).
Proof. by intros env w. Qed.
Lemma states_query {X} (q : DB -> X) : keeps statesOf (query q).
Proof. intros env w. unfold query. by case_match. Qed.
Lemma states_publish ev : keeps statesOf (publish ev).
Proof. by intros env w. Qed.
Lemma states_record c : keeps statesOf (record c).
Proof. by intros env w. Qed.

Lemma states_SetSendResult id t msg : keeps statesOf (SetSendResult id t msg).
Proof.
  unfold SetSendResult. apply keeps_bind; [|intros [?|?]; apply keeps_ret].
  intros env w. unfold execWrite. by case_match.
Qed.

#[local] Hint Resolve states_ask states_query states_publish states_record states_SetSendResult : frame.
#[local] Hint Unfold dispatchJobEvent send deliver recordSendResult resolveChannels ChannelRepo_List : ops.

Lemma states_dispatch job ev title message : keeps statesOf (dispatchJobEvent job ev title message).
Proof. frame. Qed.

(** The check finds nothing to do. *)
Lemma checkJob_skip states settings t job env w :
  (let state := default zeroState (states !! job_ID job) in
   jobIsOverdue job state settings t = js_Overdue state
   ∧ (js_Overdue state = true -> is_Some (js_OverdueNotifiedAt state))) ->
  checkJob states settings t job env w = (tt, w).
Proof.
  cbv zeta. intros [E H]. unfold checkJob. destruct (job_Enabled job); [|done]. cbn [negb]. rewrite E, Bool.eqb_reflx.
  destruct (js_Overdue _); [|done]. rewrite bool_decide_eq_true_2 by by apply H. done.
Qed.

Lemma SetOverdue_ok id b n env w :
  dbAnswers env -> is_Some (db_jobs (w_db w) !! id) ->
  ∃ w' t, SetOverdue id b n env w = (Ok tt, w')
  ∧ statesOf w' = <[id := applyOverdue b n t (default (freshState id t) (statesOf w !! id))]> (statesOf w).
Proof.
  intros Hdb Hj. unfold SetOverdue, now, mbind, M_bind, ask. rewrite execWrite_ok by done. unfold upsertState.
  change (w_db (tick w)) with (w_db w). rewrite bool_decide_eq_true_2 by done. eexists _, _. by split.
Qed.

(** What a check leaves on record is its verdict. *)
Lemma checkJob_after settings t job env w :
  dbAnswers env -> is_Some (db_jobs (w_db w) !! job_ID job) -> t ≠ zeroTime -> job_Enabled job = true ->
  let overdue := jobIsOverdue job (default zeroState (statesOf w !! job_ID job)) settings t in
  let state1 := default zeroState (statesOf (checkJob (statesOf w) settings t job env w).2 !! job_ID job) in
  js_Overdue state1 = overdue ∧ (overdue = true -> is_Some (js_OverdueNotifiedAt state1)).
Proof.
  intros Hdb Hj Ht He. cbv zeta. unfold checkJob. rewrite He. cbn [negb].
  set (state := default zeroState (statesOf w !! job_ID job)). set (overdue := jobIsOverdue job state settings t).
  destruct (Bool.eqb overdue (js_Overdue state) && _) eqn:B.
  { change ((mret tt : M unit) env w) with (tt, w). cbn [snd]. fold state.
    apply andb_true_iff in B as [B1 B2]. apply Bool.eqb_prop in B1. split; [done|]. intros Ho. rewrite Ho in B2. cbn [negb orb] in B2. by apply bool_decide_eq_true in B2. }
  rewrite bind_eq.
  destruct (SetOverdue_ok (job_ID job) overdue (if overdue then Some t else None) env w Hdb Hj) as (w' & t1 & -> & Hs).
  cbn [fst snd]. rewrite bind_eq. set (w'' := (publish _ env w').2).
  match goal with |- context [(?m env w'').2] => set (rest := m) end.
  assert (Hk : statesOf (rest env w'').2 = statesOf w').
  { change (statesOf w') with (statesOf w''). subst rest. destruct overdue; [apply states_dispatch|done]. }
  rewrite Hk, Hs, lookup_insert_eq. cbn [default from_option applyOverdue js_Overdue js_OverdueNotifiedAt id].
  split; [done|]. intros ->. unfold nullTime, IsZero. destruct (Z.eqb_spec t zeroTime); [done|by eexists].
Qed.

(** A lateness is told once.  On a database that answers, when the watcher
    has checked a job of the database, a later check that comes to the same
    verdict does nothing at all: it writes no row, publishes nothing and
    notifies nobody, whatever happened at the first check. *)
Theorem checkJob_once settings settings' t t' job env env' w :
  dbAnswers env -> is_Some (db_jobs (w_db w) !! job_ID job) -> t ≠ zeroTime ->
  let states := statesOf w in
  let w1 := (checkJob states settings t job env w).2 in
  let states1 := statesOf w1 in
  jobIsOverdue job (default zeroState (states1 !! job_ID job)) settings' t'
    = jobIsOverdue job (default zeroState (states !! job_ID job)) settings t ->
  checkJob states1 settings' t' job env' w1 = (tt, w1).
Proof.
  intros Hdb Hj Ht states w1 states1 E. destruct (job_Enabled job) eqn:He; [|by unfold checkJob; rewrite He].
  destruct (checkJob_after settings t job env w Hdb Hj Ht He) as [H1 H2].
  apply checkJob_skip. subst states1. cbv zeta. rewrite E. split; [symmetry; exact H1|]. intros Ho. apply H2. etrans; [symmetry; exact H1|exact Ho].
Qed.
End overdue.

(** A job that was due at each minute and has never run. *)
Lemma checkJob_once_witness :
  let K := periodicCron Minute in
  let w := sampleWorld in
  let w1 := (checkJob (statesOf w) DefaultSettings sampleTime sampleJob sampleEnv w).2 in
  w_events w1 ≠ [] ∧ js_Overdue <$> statesOf w1 !! "j1" = Some true
  ∧ checkJob (statesOf w1) DefaultSettings (sampleTime + Hour) sampleJob sampleEnv w1 = (tt, w1).
Proof.
  intros K w w1. split; [by vm_compute|]. split; [vm_compute; reflexivity|].
  apply (checkJob_once DefaultSettings DefaultSettings sampleTime (sampleTime + Hour) sampleJob sampleEnv sampleEnv w).
  - intros k. reflexivity.
  - vm_compute. by eexists.
  - by vm_compute.
  - vm_compute. reflexivity.
Defined.

(** Any successful run of a job counts as its last success, a check of an
    artifact too: the lateness of the job is cleared by it. *)
Example verify_counts_as_success :
  let w := mkWorld 0 sampleDB [] [] (newRunState (mkRun "r9" "j1" "home" "Home" RunVerify TriggerManual RunRunning
             sampleTime (Some sampleTime) None 0 0 0 "" "" "" [] [] 0 ∅ "admin")) in
  let w1 := set_w_db (set_db_job_state {[ "j1" := mkJobState "j1" None None 0 None true (Some sampleTime) sampleTime ]} (w_db w)) w in
  (λ st, (bool_decide (is_Some (js_LastSuccessAt st)), js_Overdue st)) <$> statesOf (finish None sampleEnv w1).2 !! "j1"
  = Some (true, false).
Proof. by vm_compute. Qed.
