(* ===== verification/Events.v ===== *)
(** * The event bus: [internal/engine/events.go]

    Subscribers have buffered channels; publishing never blocks and drops what
    does not fit.  A channel outlives its registration: a subscriber drains a
    closed channel.  Sending on a closed channel and closing one twice are
    panics of Go: [None]. *)
From S2P Require Import Prelude GoStrings GoTime Core Db.
Open Scope Z_scope.

Record Chan := mkChan { ch_cap : nat; ch_buf : list Event; ch_closed : bool }.

Record Bus := mkBus {
  bus_chans : gmap nat Chan;    (* every channel made *)
  bus_subs : gset nat;          (* b.subs *)
  bus_closed : bool;
  bus_dropped : Z
}.

Definition NewBus : Bus := mkBus ∅ ∅ false 0.

(** [close(ch)]. *)
Definition closeChan (id : nat) (b : Bus) : option Bus :=
  match bus_chans b !! id with
  | Some c => if ch_closed c then None
              else Some (mkBus (<[id := mkChan (ch_cap c) (ch_buf c) true]> (bus_chans b)) (bus_subs b) (bus_closed b) (bus_dropped b))
  | None => None
  end.

(** [Subscribe]: the new channel is [id]. *)
Definition Subscribe (id : nat) (buffer : Z) (b : Bus) : option Bus :=
  let buffer := if buffer <=? 0 then 64 else buffer in
  let c := mkChan (Z.to_nat buffer) [] false in
  let b' := mkBus (<[id := c]> (bus_chans b)) (bus_subs b) (bus_closed b) (bus_dropped b) in
  if bus_closed b then closeChan id b'
  else Some (mkBus (bus_chans b') ({[id]} ∪ bus_subs b) (bus_closed b) (bus_dropped b)).

(** The function [Subscribe] returns; calling it again does nothing. *)
Definition Unsubscribe (id : nat) (b : Bus) : option Bus :=
  if bool_decide (id ∈ bus_subs b)
  then closeChan id (mkBus (bus_chans b) (bus_subs b ∖ {[id]}) (bus_closed b) (bus_dropped b))
  else Some b.

(** [select { case s.ch <- ev: default: b.dropped++ }]. *)
Definition offer (ev : Event) (b : option Bus) (id : nat) : option Bus :=
  b ← b;
  match bus_chans b !! id with
  | Some c =>
      if ch_closed c then None
      else if (length (ch_buf c) <? ch_cap c)%nat
      then Some (mkBus (<[id := mkChan (ch_cap c) (ch_buf c ++ [ev]) false]> (bus_chans b)) (bus_subs b) (bus_closed b) (bus_dropped b))
      else Some (mkBus (bus_chans b) (bus_subs b) (bus_closed b) (bus_dropped b + 1))
  | None => None
  end.

Definition Publish (ev : Event) (b : Bus) : option Bus :=
  if bus_closed b then Some b else foldl (offer ev) (Some b) (elements (bus_subs b)).

(** A receive that does not block. *)
Definition Receive (id : nat) (b : Bus) : option Event * Bus :=
  match bus_chans b !! id with
  | Some c =>
      match ch_buf c with
      | ev :: rest => (Some ev, mkBus (<[id := mkChan (ch_cap c) rest (ch_closed c)]> (bus_chans b)) (bus_subs b) (bus_closed b) (bus_dropped b))
      | [] => (None, b)
      end
  | None => (None, b)
  end.

Definition Close (b : Bus) : option Bus :=
  if bus_closed b then Some b
  else foldl (λ b id, b ← b; closeChan id (mkBus (bus_chans b) (bus_subs b ∖ {[id]}) (bus_closed b) (bus_dropped b)))
         (Some (mkBus (bus_chans b) (bus_subs b) true (bus_dropped b))) (elements (bus_subs b)).

(** ** Histories

    [heard id] are the events offered to the channel while it was registered,
    [read id] those its subscriber has received. *)
Inductive BusOp :=
  | BSubscribe (id : nat) (buffer : Z)
  | BUnsubscribe (id : nat)
  | BPublish (ev : Event)
  | BReceive (id : nat)
  | BClose.

Record History := mkHistory { hist_bus : Bus; heard : gmap nat (list Event); read : gmap nat (list Event) }.

Definition newHistory : History := mkHistory NewBus ∅ ∅.

Definition appendTo (m : gmap nat (list Event)) (id : nat) (ev : Event) : gmap nat (list Event) :=
  <[id := default [] (m !! id) ++ [ev]]> m.

Definition busStep (op : BusOp) (h : History) : option History :=
  let b := hist_bus h in
  match op with
  | BSubscribe id buffer =>
      match bus_chans b !! id with
      | Some _ => Some h   (* channels are fresh *)
      | None => b' ← Subscribe id buffer b; Some (mkHistory b' (heard h) (read h))
      end
  | BUnsubscribe id => b' ← Unsubscribe id b; Some (mkHistory b' (heard h) (read h))
  | BPublish ev =>
      b' ← Publish ev b;
      Some (mkHistory b'
              (if bus_closed b then heard h else foldl (λ m id, appendTo m id ev) (heard h) (elements (bus_subs b)))
              (read h))
  | BReceive id =>
      let '(ev, b') := Receive id b in
      Some (mkHistory b' (heard h) (match ev with Some ev => appendTo (read h) id ev | None => read h end))
  | BClose => b' ← Close b; Some (mkHistory b' (heard h) (read h))
  end.

Fixpoint busSteps (ops : list BusOp) (h : History) : option History :=
  match ops with
  | [] => Some h
  | op :: rest => h' ← busStep op h; busSteps rest h'
  end.

(** ** The invariant *)

(** A registered channel is open; a channel holds at most its capacity, and what
    its subscriber has read and has still to read is what it heard, in order,
    with the dropped events missing: nothing is missing while nothing was
    dropped. *)
Record busInv (h : History) : Prop := {
  bi_open : ∀ id, id ∈ bus_subs (hist_bus h) -> ∃ c, bus_chans (hist_bus h) !! id = Some c ∧ ch_closed c = false;
  bi_cap : map_Forall (λ _ c, (length (ch_buf c) <= ch_cap c)%nat) (bus_chans (hist_bus h));
  bi_order : ∀ id c, bus_chans (hist_bus h) !! id = Some c ->
    default [] (read h !! id) ++ ch_buf c `sublist_of` default [] (heard h !! id)
    ∧ (bus_dropped (hist_bus h) = 0 -> default [] (read h !! id) ++ ch_buf c = default [] (heard h !! id));
  bi_dropped : 0 <= bus_dropped (hist_bus h);
  bi_quiet : ∀ id, bus_chans (hist_bus h) !! id = None -> heard h !! id = None ∧ read h !! id = None
}.

Lemma appendTo_lookup m id ev j :
  default [] (appendTo m id ev !! j) = default [] (m !! j) ++ (if decide (j = id) then [ev] else []).
Proof.
  unfold appendTo. destruct (decide (j = id)) as [->|Hne].
  - by rewrite lookup_insert_eq.
  - by rewrite lookup_insert_ne, app_nil_r.
Qed.

(** Closing a channel that is open. *)
Lemma closeChan_inv id b hd rd :
  busInv (mkHistory b hd rd) -> id ∉ bus_subs b ->
  (∃ c, bus_chans b !! id = Some c ∧ ch_closed c = false) ->
  ∃ b', closeChan id b = Some b' ∧ busInv (mkHistory b' hd rd) ∧ bus_subs b' = bus_subs b ∧ bus_closed b' = bus_closed b
    ∧ (∀ j, j ≠ id -> bus_chans b' !! j = bus_chans b !! j).
Proof.
  intros [I1 I2 I3 I4 I5] Hid (c & Hc & Ho). simpl in *. unfold closeChan. rewrite Hc, Ho. eexists. split; [done|].
  split_and!; [|done|done|intros j Hj; simpl; by rewrite lookup_insert_ne].
  split; simpl.
  - intros j Hj. destruct (I1 j Hj) as (d & Hd & Hdo). exists d. rewrite lookup_insert_ne; [done|]. intros <-. done.
  - apply map_Forall_insert_2; [|done]. simpl. by apply (I2 id).
  - intros j d. destruct (decide (j = id)) as [->|Hne].
    + rewrite lookup_insert_eq. intros [= <-]. simpl. by apply I3.
    + rewrite lookup_insert_ne by done. apply I3.
  - done.
  - intros j. destruct (decide (j = id)) as [->|Hne]; [by rewrite lookup_insert_eq|]. rewrite lookup_insert_ne by done. apply I5.
Qed.

(** Forgetting a registration keeps the rest. *)
Lemma forget_inv id b hd rd :
  busInv (mkHistory b hd rd) ->
  busInv (mkHistory (mkBus (bus_chans b) (bus_subs b ∖ {[id]}) (bus_closed b) (bus_dropped b)) hd rd).
Proof. intros [I1 I2 I3 I4 I5]. split; simpl in *; try done. intros j Hj. apply I1. set_solver. Qed.

(** One subscriber of a publication. *)
Lemma offer_inv ev id b hd rd :
  busInv (mkHistory b hd rd) -> id ∈ bus_subs b ->
  ∃ b', offer ev (Some b) id = Some b' ∧ busInv (mkHistory b' (appendTo hd id ev) rd) ∧ bus_subs b' = bus_subs b.
Proof.
  intros [I1 I2 I3 I4 I5] Hid. simpl in *. destruct (I1 id Hid) as (c & Hc & Ho).
  unfold offer. cbn [mbind option_bind]. rewrite Hc, Ho. destruct (I3 id c Hc) as [Hs He].
  assert (Hq : ∀ j, bus_chans b !! j = None -> appendTo hd id ev !! j = None ∧ rd !! j = None).
  { intros j Hj. assert (j ≠ id) by (intros ->; congruence).
    unfold appendTo. rewrite lookup_insert_ne by done. by apply I5. }
  destruct (length (ch_buf c) <? ch_cap c)%nat eqn:Hcap; (eexists; split_and!; [done| |done]); split; simpl.
  - intros j Hj. destruct (decide (j = id)) as [->|Hne].
    + eexists. rewrite lookup_insert_eq. done.
    + rewrite lookup_insert_ne by done. by apply I1.
  - apply map_Forall_insert_2; [|done]. simpl. apply Nat.ltb_lt in Hcap. rewrite length_app. simpl. lia.
  - intros j d. rewrite appendTo_lookup. destruct (decide (j = id)) as [->|Hne].
    + rewrite lookup_insert_eq. intros [= <-]. simpl. rewrite app_assoc. split.
      * by apply sublist_app.
      * intros Hz. by rewrite He.
    + rewrite lookup_insert_ne, app_nil_r by done. apply I3.
  - done.
  - intros j. destruct (decide (j = id)) as [->|Hne]; [by rewrite lookup_insert_eq|].
    rewrite lookup_insert_ne by done. apply Hq.
  - done.
  - done.
  - intros j d Hd. rewrite appendTo_lookup. split; [|intros; lia].
    destruct (decide (j = id)) as [->|Hne].
    + assert (d = c) as -> by congruence. by apply sublist_inserts_r.
    + rewrite app_nil_r. by apply I3.
  - lia.
  - done.
Qed.

Lemma offers_inv ev ids b hd rd :
  busInv (mkHistory b hd rd) -> Forall (.∈ bus_subs b) ids ->
  ∃ b', foldl (offer ev) (Some b) ids = Some b' ∧ busInv (mkHistory b' (foldl (λ m id, appendTo m id ev) hd ids) rd).
Proof.
  revert b hd. induction ids as [|id ids IH]; intros b hd HI HF; cbn [foldl]; [by exists b|].
  apply Forall_cons in HF as [H1 H2]. destruct (offer_inv ev id b hd rd HI H1) as (b1 & E1 & HI1 & Hs).
  rewrite E1. apply IH; [done|]. by rewrite Hs.
Qed.

Lemma elements_in (s : gset nat) : Forall (.∈ s) (elements s).
Proof. apply Forall_forall. intros x Hx. by apply elem_of_elements in Hx. Qed.

Lemma Publish_inv ev b hd rd :
  busInv (mkHistory b hd rd) ->
  ∃ b', Publish ev b = Some b' ∧
    busInv (mkHistory b' (if bus_closed b then hd else foldl (λ m id, appendTo m id ev) hd (elements (bus_subs b))) rd).
Proof.
  intros HI. unfold Publish. destruct (bus_closed b); [by exists b|]. apply offers_inv; [done|apply elements_in].
Qed.

Lemma Unsubscribe_inv id b hd rd :
  busInv (mkHistory b hd rd) -> ∃ b', Unsubscribe id b = Some b' ∧ busInv (mkHistory b' hd rd).
Proof.
  intros HI. unfold Unsubscribe. destruct (bool_decide _) eqn:Hid; [|by exists b]. apply bool_decide_eq_true in Hid.
  destruct (closeChan_inv id _ hd rd (forget_inv id b hd rd HI)) as (b' & E & H & _); simpl; [set_solver| |eauto].
  by apply (bi_open _ HI).
Qed.

(** A channel nobody has heard of yet. *)
Lemma fresh_inv id cap b hd rd :
  busInv (mkHistory b hd rd) -> bus_chans b !! id = None ->
  busInv (mkHistory (mkBus (<[id := mkChan cap [] false]> (bus_chans b)) (bus_subs b) (bus_closed b) (bus_dropped b)) hd rd).
Proof.
  intros [I1 I2 I3 I4 I5] Hn. split; simpl in *.
  - intros j Hj. destruct (I1 j Hj) as (d & Hd & Ho). exists d. rewrite lookup_insert_ne; [done|]. intros <-. congruence.
  - apply map_Forall_insert_2; [simpl; lia|done].
  - intros j d. destruct (decide (j = id)) as [->|Hne].
    + rewrite lookup_insert_eq. intros [= <-]. destruct (I5 id Hn) as [-> ->]. simpl. split; [constructor|done].
    + rewrite lookup_insert_ne by done. apply I3.
  - done.
  - intros j. destruct (decide (j = id)) as [->|Hne]; [by rewrite lookup_insert_eq|]. rewrite lookup_insert_ne by done. apply I5.
Qed.

Lemma Subscribe_inv id n b hd rd :
  busInv (mkHistory b hd rd) -> bus_chans b !! id = None ->
  ∃ b', Subscribe id n b = Some b' ∧ busInv (mkHistory b' hd rd).
Proof.
  intros HI Hn. unfold Subscribe. pose proof (fresh_inv id (Z.to_nat (if n <=? 0 then 64 else n)) b hd rd HI Hn) as HF.
  assert (Hns : id ∉ bus_subs b).
  { intros Hin. destruct (bi_open _ HI id Hin) as (c & Hc & _). simpl in Hc. congruence. }
  destruct (bus_closed b) eqn:Hcl.
  - destruct (closeChan_inv id _ hd rd HF) as (b' & E & H & _); simpl; [done| |].
    { eexists. rewrite lookup_insert_eq. done. }
    exists b'. by split.
  - eexists. split; [done|]. destruct HF as [I1 I2 I3 I4 I5]. split; simpl in *; try done.
    intros j Hj. apply elem_of_union in Hj as [->%elem_of_singleton|Hj]; [|by apply I1].
    eexists. rewrite lookup_insert_eq. done.
Qed.

Lemma Receive_inv id b hd rd :
  busInv (mkHistory b hd rd) ->
  let '(ev, b') := Receive id b in
  busInv (mkHistory b' hd (match ev with Some ev => appendTo rd id ev | None => rd end)).
Proof.
  intros [I1 I2 I3 I4 I5]. unfold Receive. destruct (bus_chans b !! id) as [c|] eqn:Hc; [|by split].
  destruct (ch_buf c) as [|ev rest] eqn:Hb; [by split|]. simpl in *. split; simpl.
  - intros j Hj. destruct (I1 j Hj) as (d & Hd & Ho). destruct (decide (j = id)) as [->|Hne].
    + eexists. rewrite lookup_insert_eq. split; [done|]. simpl. congruence.
    + exists d. by rewrite lookup_insert_ne.
  - apply map_Forall_insert_2; [|done]. simpl. pose proof (I2 id c Hc) as Hl. simpl in Hl. rewrite Hb in Hl. simpl in Hl. lia.
  - intros j d. rewrite appendTo_lookup. destruct (decide (j = id)) as [->|Hne].
    + rewrite lookup_insert_eq. intros [= <-]. simpl. rewrite <- app_assoc. cbn. rewrite <- Hb. by apply I3.
    + rewrite lookup_insert_ne, app_nil_r by done. apply I3.
  - done.
  - intros j. destruct (decide (j = id)) as [->|Hne]; [by rewrite lookup_insert_eq|].
    unfold appendTo. rewrite !lookup_insert_ne by done. apply I5.
Qed.

Lemma closes_inv ids b hd rd :
  busInv (mkHistory b hd rd) -> Forall (.∈ bus_subs b) ids -> NoDup ids ->
  ∃ b', foldl (λ b id, b ← b; closeChan id (mkBus (bus_chans b) (bus_subs b ∖ {[id]}) (bus_closed b) (bus_dropped b))) (Some b) ids = Some b'
    ∧ busInv (mkHistory b' hd rd).
Proof.
  revert b. induction ids as [|id ids IH]; intros b HI HF HN; cbn [foldl]; [by exists b|].
  apply Forall_cons in HF as [H1 H2]. apply NoDup_cons in HN as [Hni HN].
  destruct (closeChan_inv id _ hd rd (forget_inv id b hd rd HI)) as (b1 & E & H & Hs & _); simpl; [set_solver|by apply (bi_open _ HI)|].
  cbn in E. cbn. rewrite E. apply IH; [done| |done]. rewrite Hs. simpl.
  apply Forall_forall. intros x Hx. rewrite Forall_forall in H2. set_solver.
Qed.

Lemma Close_inv b hd rd : busInv (mkHistory b hd rd) -> ∃ b', Close b = Some b' ∧ busInv (mkHistory b' hd rd).
Proof.
  intros HI. unfold Close. destruct (bus_closed b); [by exists b|].
  apply closes_inv; [|apply elements_in|apply NoDup_elements].
  destruct HI as [I1 I2 I3 I4 I5]. by split.
Qed.

Lemma busStep_inv op h : busInv h -> ∃ h', busStep op h = Some h' ∧ busInv h'.
Proof.
  destruct h as [b hd rd]. intros HI. destruct op as [id n|id|ev|id|]; cbn [busStep hist_bus heard read].
  - destruct (bus_chans b !! id) eqn:Hn; [by eexists|].
    destruct (Subscribe_inv id n b hd rd HI Hn) as (b' & -> & H). by eexists.
  - destruct (Unsubscribe_inv id b hd rd HI) as (b' & -> & H). by eexists.
  - destruct (Publish_inv ev b hd rd HI) as (b' & -> & H). by eexists.
  - pose proof (Receive_inv id b hd rd HI) as H. destruct (Receive id b) as [o b']. by eexists.
  - destruct (Close_inv b hd rd HI) as (b' & -> & H). by eexists.
Qed.

Lemma new_inv : busInv newHistory.
Proof. split; simpl; try done; try set_solver. Qed.

(** C38: whatever the order in which goroutines subscribe, cancel, publish,
    receive and close the bus, no send on a closed channel and no second close
    happens (the operations never panic), every subscriber's channel holds at
    most its buffer, and what a subscriber reads is what was published while it
    was registered, in order, with nothing missing as long as no event was
    dropped; a
    registered channel is open. *)
Theorem bus_delivers ops :
  ∃ h, busSteps ops newHistory = Some h
    ∧ (∀ id c, bus_chans (hist_bus h) !! id = Some c ->
        (length (ch_buf c) <= ch_cap c)%nat
        ∧ default [] (read h !! id) ++ ch_buf c `sublist_of` default [] (heard h !! id)
        ∧ (bus_dropped (hist_bus h) = 0 -> default [] (read h !! id) ++ ch_buf c = default [] (heard h !! id)))
    ∧ (∀ id, id ∈ bus_subs (hist_bus h) -> ∃ c, bus_chans (hist_bus h) !! id = Some c ∧ ch_closed c = false).
Proof.
  assert (H : ∀ h0, busInv h0 -> ∃ h, busSteps ops h0 = Some h ∧ busInv h).
  { induction ops as [|op rest IH]; intros h0 HI; cbn; [by exists h0|].
    destruct (busStep_inv op h0 HI) as (h1 & -> & H1). by apply IH. }
  destruct (H newHistory new_inv) as (h & E & HI). exists h. split; [done|]. split.
  - intros id c Hc. split; [by apply (bi_cap _ HI id)|by apply (bi_order _ HI)].
  - apply (bi_open _ HI).
Qed.
