(* ===== verification/RunLog.v ===== *)
(** * The log of a run: [internal/engine/runlog.go]

    A handler turns records into lines; [runLog] gathers the lines into chunks
    and hands them to a sink, which appends them to the log in the database.
    Many goroutines write; what a chunk goes through outside the lock is a step
    of its own. *)
From S2P Require Import Prelude GoStrings GoTime.
Open Scope Z_scope.

Definition logFlushBytes : Z := 16 * 1024.
Definition logMaxLine : Z := 8 * 1024.

(** ** Lines *)

Definition newline : ascii := byte_of 10.
Definition carriageReturn : ascii := byte_of 13.

(** The function of [strings.Map], on the encoding of a rune. *)
Definition sanitizeRune (r : string) : string :=
  match r with
  | String a "" =>
      if (code a =? 27)%N then ""
      else if (code a <? 32)%N && negb (code a =? 9)%N then " "
      else r
  | _ => r
  end.

Definition sanitizeLogText (s : string) : string :=
  let s := ReplaceByte s carriageReturn "" in
  let s := ReplaceByte s newline " " in
  strings_Map sanitizeRune s.

(** [slog.Level]. *)
Definition LevelInfo : Z := 0.
Definition LevelWarn : Z := 4.
Definition LevelError : Z := 8.

Definition levelLabel (l : Z) : string :=
  if LevelError <=? l then "ERROR"
  else if LevelWarn <=? l then "WARN "
  else if LevelInfo <=? l then "INFO "
  else "DEBUG".

(** An attribute: its key and the text of its resolved value, [None] for nil. *)
Record Attr := mkAttr { attr_Key : string; attr_Value : option string }.

(** [a.Equal(slog.Attr{})]. *)
Definition emptyAttr (a : Attr) : bool := bool_decide (attr_Key a = "") && bool_decide (attr_Value a = None).

Definition writeAttr (group : string) (a : Attr) : string :=
  if emptyAttr a then ""
  else
    let key := if bool_decide (group = "") then attr_Key a else group +:+ "." +:+ attr_Key a in
    " " +:+ sanitizeLogText key +:+ "=" +:+ sanitizeLogText (default "<nil>" (attr_Value a)).

Record LogRecord := mkLogRecord { rec_Time : Time; rec_Level : Z; rec_Message : string; rec_Attrs : list Attr }.

Record runLogHandler := mkHandler { h_level : Z; h_attrs : list Attr; h_group : string }.

Definition newRunLogHandler (level : Z) : runLogHandler := mkHandler level [] "".

Definition Enabled (h : runLogHandler) (level : Z) : bool := h_level h <=? level.

Definition WithAttrs (h : runLogHandler) (attrs : list Attr) : runLogHandler :=
  mkHandler (h_level h) (h_attrs h ++ attrs) (h_group h).

Definition WithGroup (h : runLogHandler) (name : string) : runLogHandler :=
  mkHandler (h_level h) (h_attrs h) (if bool_decide (h_group h = "") then name else h_group h +:+ "." +:+ name).

(** ["15:04:05"]. *)
Definition fmt_clock (t : Time) : string :=
  appendInt (hour_of t) 2 +:+ ":" +:+ appendInt (minute_of t) 2 +:+ ":" +:+ appendInt (second_of t) 2.

Definition attrsText (group : string) (l : list Attr) : string := foldr (λ a acc, writeAttr group a +:+ acc) "" l.

Definition truncated : string := " [truncated]" +:+ schar newline.

(** The line [Handle] writes. *)
Definition Handle (h : runLogHandler) (r : LogRecord) : string :=
  let text := fmt_clock (rec_Time r) +:+ " " +:+ levelLabel (rec_Level r) +:+ " " +:+ sanitizeLogText (rec_Message r)
                +:+ attrsText (h_group h) (h_attrs h) +:+ attrsText (h_group h) (rec_Attrs r) +:+ schar newline in
  if logMaxLine <? Z.of_nat (String.length text)
  then stake (Z.to_nat logMaxLine) text +:+ truncated
  else text.

(** ** The buffer *)

Record runLog := mkRunLog { rl_buf : string; rl_timer : bool; rl_closed : bool }.

Definition newRunLog : runLog := mkRunLog "" false false.

(** What [write] does under the lock; the second component goes to the sink
    after the lock is released, when it is not empty. *)
Definition write (line : string) (l : runLog) : runLog * string :=
  if rl_closed l then (l, "")
  else
    let buf := rl_buf l +:+ line in
    if logFlushBytes <=? Z.of_nat (String.length buf) then (mkRunLog "" false false, buf)
    else (mkRunLog buf true false, "").

Definition Flush (l : runLog) : runLog * string := (mkRunLog "" false (rl_closed l), rl_buf l).

(** The second half of [Close], after its [Flush]. *)
Definition setClosed (l : runLog) : runLog := mkRunLog (rl_buf l) (rl_timer l) true.

(** ** Interleavings *)

(** The log, the chunks between the lock and the sink, what the sink has
    received; and, for the statements, the lines accepted and the groups of
    lines the chunks were made of. *)
Record LogSystem := mkLogSystem {
  ls_log : runLog;
  ls_flight : list string;
  ls_sunk : list string;
  ls_lines : list string;
  ls_groups : list (list string);
  ls_open : list string
}.

Definition newLogSystem : LogSystem := mkLogSystem newRunLog [] [] [] [] [].

Inductive LogOp :=
  | LWrite (line : string)
  | LFlush            (* the timer, or the first half of Close *)
  | LSetClosed
  | LSink (i : nat).  (* a goroutine hands over its chunk *)

(** A chunk taken out of the buffer. *)
Definition taken (chunk : string) (lines : list string) (s : LogSystem) : LogSystem :=
  if bool_decide (chunk = "") then s
  else mkLogSystem (ls_log s) (ls_flight s ++ [chunk]) (ls_sunk s) (ls_lines s) (ls_groups s ++ [lines]) [].

Definition logStep (op : LogOp) (s : LogSystem) : LogSystem :=
  match op with
  | LWrite line =>
      let '(l, chunk) := write line (ls_log s) in
      if rl_closed (ls_log s) then s
      else taken chunk (ls_open s ++ [line])
             (mkLogSystem l (ls_flight s) (ls_sunk s) (ls_lines s ++ [line]) (ls_groups s) (ls_open s ++ [line]))
  | LFlush =>
      let '(l, chunk) := Flush (ls_log s) in
      taken chunk (ls_open s) (mkLogSystem l (ls_flight s) (ls_sunk s) (ls_lines s) (ls_groups s) (ls_open s))
  | LSetClosed => mkLogSystem (setClosed (ls_log s)) (ls_flight s) (ls_sunk s) (ls_lines s) (ls_groups s) (ls_open s)
  | LSink i =>
      match ls_flight s !! i with
      | Some chunk => mkLogSystem (ls_log s) (delete i (ls_flight s)) (ls_sunk s ++ [chunk]) (ls_lines s) (ls_groups s) (ls_open s)
      | None => s
      end
  end.

Definition logSteps (ops : list LogOp) (s : LogSystem) : LogSystem := foldl (λ s op, logStep op s) s ops.

Definition sconcat (l : list string) : string := foldr (λ a acc, a +:+ acc) "" l.

(** ** Lines hold no control characters *)

(** A byte a line may hold before its end: no control but the tab. *)
Definition shown (a : ascii) : bool := (32 <=? code a)%N || (code a =? 9)%N.

Lemma mapRunes_all P f k s :
  (∀ s w, runeWidth s = Some w -> sall P (f (stake w s)) = true) -> sall P (f RuneError) = true ->
  sall P (mapRunes f k s) = true.
Proof.
  intros Hf He. revert k. induction s as [|a s IH]; intros k; [done|]. cbn [mapRunes].
  destruct k as [|k]; [|apply IH]. destruct (runeWidth (String a s)) as [w|] eqn:E; rewrite sall_app, IH, andb_true_r; [|done].
  by apply Hf.
Qed.

Lemma sall_weaken P Q s : (∀ a, P a = true -> Q a = true) -> sall P s = true -> sall Q s = true.
Proof. intros H. induction s as [|a s IH]; [done|]. simpl. intros E. apply andb_true_iff in E as [E1 E2]. by rewrite (H a E1), IH. Qed.

Lemma high_shown a : (128 <=? code a)%N = true -> shown a = true.
Proof. intros H. apply N.leb_le in H. unfold shown. rewrite (proj2 (N.leb_le 32 (code a))) by lia. done. Qed.

Lemma sanitizeRune_shown s w : runeWidth s = Some w -> sall shown (sanitizeRune (stake w s)) = true.
Proof.
  intros H. destruct (runeWidth_bytes s w H) as [(a & -> & Ha)|Hb].
  - simpl. destruct (code a =? 27)%N; [done|]. destruct ((code a <? 32)%N && negb (code a =? 9)%N) eqn:E; [done|].
    simpl. unfold shown. apply andb_false_iff in E as [E|E].
    + apply N.ltb_ge, N.leb_le in E. by rewrite E.
    + apply negb_false_iff in E. by rewrite E, orb_true_r.
  - assert (Hs : sall shown (stake w s) = true) by (by apply (sall_weaken _ _ _ high_shown)).
    destruct (stake w s) as [|a [|b r]]; [done| |done]. simpl in Hb. rewrite andb_true_r in Hb. apply N.leb_le in Hb.
    simpl. rewrite (proj2 (N.eqb_neq _ _)), (proj2 (N.ltb_ge _ _)) by lia. exact Hs.
Qed.

Lemma sanitizeLogText_shown s : sall shown (sanitizeLogText s) = true.
Proof. apply mapRunes_all; [apply sanitizeRune_shown|done]. Qed.

Lemma writeAttr_shown g a : sall shown (writeAttr g a) = true.
Proof. unfold writeAttr. destruct (emptyAttr a); [done|]. by rewrite !sall_app, !sanitizeLogText_shown. Qed.

Lemma attrsText_shown g l : sall shown (attrsText g l) = true.
Proof. induction l as [|a l IH]; [done|]. cbn [attrsText foldr]. by rewrite sall_app, writeAttr_shown. Qed.

Lemma appendInt_shown n : 0 <= n < 100 -> sall shown (appendInt n 2) = true.
Proof.
  intros H. assert (C : forallb (λ k, sall shown (appendInt (Z.of_nat k) 2)) (seq 0 100) = true) by by vm_compute.
  rewrite forallb_forall in C. specialize (C (Z.to_nat n)). rewrite Z2Nat.id in C by lia. apply C, in_seq. lia.
Qed.

Lemma fmt_clock_shown t : sall shown (fmt_clock t) = true.
Proof.
  unfold fmt_clock. pose proof (hour_range t).
  assert (0 <= minute_of t < 60) by (apply Z.mod_pos_bound; lia).
  assert (0 <= second_of t < 60) by (apply Z.mod_pos_bound; lia).
  rewrite !sall_app, !appendInt_shown by lia. done.
Qed.

Lemma sall_stake P n s : sall P s = true -> sall P (stake n s) = true.
Proof.
  revert n. induction s as [|a s IH]; intros [|n]; [done..|]. simpl. intros H. apply andb_true_iff in H as [-> H]. by rewrite IH.
Qed.

Lemma take_width n s : (String.length (stake n s) <= n)%nat.
Proof. revert n. induction s as [|a s IH]; intros [|n]; simpl; [lia..|]. specialize (IH n). lia. Qed.

(** a record makes one line.  Whatever the message, the keys and the values
    hold (line breaks, escape sequences, bytes that are not UTF-8), what a
    handler writes is one line: it ends in the only line break it holds, before
    it no control character but the tab occurs, so that no text can forge
    another line or drive a terminal; and it has at most [logMaxLine] bytes and
    the mark of truncation. *)
Theorem Handle_one_line h r :
  ∃ body, Handle h r = body +:+ schar newline ∧ sall shown body = true
    ∧ Z.of_nat (String.length (Handle h r)) <= logMaxLine + 13.
Proof.
  unfold Handle. set (body := fmt_clock (rec_Time r) +:+ " " +:+ levelLabel (rec_Level r) +:+ " " +:+
    sanitizeLogText (rec_Message r) +:+ attrsText (h_group h) (h_attrs h) +:+ attrsText (h_group h) (rec_Attrs r)).
  assert (Hb : sall shown body = true).
  { unfold body. assert (sall shown (levelLabel (rec_Level r)) = true) as Hl.
    { unfold levelLabel. by repeat case_match. }
    rewrite !sall_app, fmt_clock_shown, Hl, sanitizeLogText_shown, !attrsText_shown. done. }
  assert (E : fmt_clock (rec_Time r) +:+ " " +:+ levelLabel (rec_Level r) +:+ " " +:+ sanitizeLogText (rec_Message r)
                +:+ attrsText (h_group h) (h_attrs h) +:+ attrsText (h_group h) (rec_Attrs r) +:+ schar newline
              = body +:+ schar newline) by (unfold body; by rewrite !sapp_assoc).
  rewrite E. rewrite sapp_length. change (String.length (schar newline)) with 1%nat.
  destruct (logMaxLine <? _) eqn:L; boolean.
  - exists (stake (Z.to_nat logMaxLine) body +:+ " [truncated]").
    rewrite stake_short by (unfold logMaxLine in *; lia). unfold truncated. split; [by rewrite sapp_assoc|].
    split; [by rewrite sall_app, sall_stake|]. rewrite sapp_length. pose proof (take_width (Z.to_nat logMaxLine) body).
    change (String.length (" [truncated]" +:+ schar newline)) with 13%nat. unfold logMaxLine in *. lia.
  - exists body. rewrite sapp_length. change (String.length (schar newline)) with 1%nat. split_and!; [done|done|]. unfold logMaxLine in *. lia.
Qed.

(** ** No line is lost *)

Lemma sconcat_app l k : sconcat (l ++ k) = sconcat l +:+ sconcat k.
Proof. induction l as [|x l IH]; [done|]. simpl. by rewrite IH, sapp_assoc. Qed.

Lemma sconcat_groups l : sconcat (sconcat <$> l) = sconcat (concat l).
Proof. induction l as [|g l IH]; [done|]. cbn [fmap list_fmap concat]. rewrite sconcat_app, <- IH. done. Qed.

(** The chunks taken out of the buffer, in order. *)
Definition chunksOf (s : LogSystem) : list string := sconcat <$> ls_groups s.

Record logInv (bound : Z) (s : LogSystem) : Prop := {
  li_open : sconcat (ls_open s) = rl_buf (ls_log s);
  li_lines : concat (ls_groups s) ++ ls_open s = ls_lines s;
  li_flight : chunksOf s ≡ₚ ls_flight s ++ ls_sunk s;
  li_small : Z.of_nat (String.length (rl_buf (ls_log s))) < logFlushBytes;
  li_timer : rl_buf (ls_log s) ≠ "" -> rl_timer (ls_log s) = true;
  li_chunks : Forall (λ c, c ≠ "" ∧ Z.of_nat (String.length c) < logFlushBytes + bound) (chunksOf s)
}.

Lemma taken_inv bound chunk s :
  let l := ls_log s in
  sconcat (ls_open s) = chunk -> rl_buf l = "" ->
  concat (ls_groups s) ++ ls_open s = ls_lines s -> chunksOf s ≡ₚ ls_flight s ++ ls_sunk s ->
  Z.of_nat (String.length chunk) < logFlushBytes + bound ->
  Forall (λ c, c ≠ "" ∧ Z.of_nat (String.length c) < logFlushBytes + bound) (chunksOf s) ->
  logInv bound (taken chunk (ls_open s) s).
Proof.
  cbv zeta. intros Hc Hb Hl Hf Hn Hall. unfold taken. case_bool_decide as E; split; simpl; try done.
  - by rewrite Hb, Hc.
  - by rewrite Hb.
  - by rewrite concat_app, app_nil_r; simpl; rewrite app_nil_r.
  - unfold chunksOf in *. simpl. rewrite fmap_app. simpl. rewrite Hc, Hf, <- !app_assoc.
    apply Permutation_app_head, Permutation_app_comm.
  - by rewrite Hb.
  - unfold chunksOf in *. simpl. rewrite fmap_app. simpl. rewrite Hc. apply Forall_app. split; [done|]. by repeat constructor.
Qed.

Lemma logStep_inv bound op s :
  0 <= bound -> match op with LWrite line => Z.of_nat (String.length line) <= bound | _ => True end ->
  logInv bound s -> logInv bound (logStep op s).
Proof.
  intros Hb0 Hop [H1 H2 H3 H4 H5 H6]. destruct op as [line| | |i]; cbn [logStep].
  - unfold write. destruct (rl_closed (ls_log s)) eqn:Hc; [by split|].
    set (buf := rl_buf (ls_log s) +:+ line).
    assert (Ho : sconcat (ls_open s ++ [line]) = buf).
    { rewrite sconcat_app, H1. cbn. by rewrite sapp_nil_r. }
    assert (Hl : concat (ls_groups s) ++ ls_open s ++ [line] = ls_lines s ++ [line]) by by rewrite app_assoc, H2.
    assert (Hlen : String.length buf = (String.length (rl_buf (ls_log s)) + String.length line)%nat) by apply sapp_length.
    destruct (logFlushBytes <=? Z.of_nat (String.length buf)) eqn:F; boolean.
    + apply (taken_inv bound buf (mkLogSystem (mkRunLog "" false false) (ls_flight s) (ls_sunk s) (ls_lines s ++ [line]) (ls_groups s)
              (ls_open s ++ [line]))); try done. lia.
    + unfold taken. rewrite bool_decide_eq_true_2 by done. by split.
  - apply (taken_inv bound (rl_buf (ls_log s)) (mkLogSystem (Flush (ls_log s)).1 (ls_flight s) (ls_sunk s) (ls_lines s)
            (ls_groups s) (ls_open s))); try done. lia.
  - by split.
  - destruct (ls_flight s !! i) as [c|] eqn:Hi; [|by split]. split; try done. simpl.
    unfold chunksOf in *. simpl. rewrite H3. etrans; [apply Permutation_app_tail, (delete_Permutation _ i c), Hi|].
    cbn [app]. rewrite (Permutation_app_comm (ls_sunk s) [c]). apply Permutation_middle.
Qed.

Lemma newLogSystem_inv bound : logInv bound newLogSystem.
Proof. by split. Qed.

(** C35: no line of a log is lost, torn or repeated.  However the writers, the
    timer, the closing of the log and the deliveries interleave: what the
    chunks taken out of the buffer say, in order, and then what the buffer
    holds, is exactly the lines accepted, each whole and in the order of their
    writing; every chunk is on its way to the sink or there, once; whenever the
    buffer holds something a flush is due, even after the log is closed; and a
    chunk is never empty nor longer than the flush threshold and one line. *)
Theorem log_keeps_lines bound ops :
  0 <= bound ->
  Forall (λ op, match op with LWrite line => Z.of_nat (String.length line) <= bound | _ => True end) ops ->
  let s := logSteps ops newLogSystem in
  sconcat (chunksOf s) +:+ rl_buf (ls_log s) = sconcat (ls_lines s)
  ∧ (∃ open, concat (ls_groups s) ++ open = ls_lines s ∧ sconcat open = rl_buf (ls_log s))
  ∧ chunksOf s ≡ₚ ls_flight s ++ ls_sunk s
  ∧ (rl_buf (ls_log s) ≠ "" -> rl_timer (ls_log s) = true)
  ∧ Z.of_nat (String.length (rl_buf (ls_log s))) < logFlushBytes
  ∧ Forall (λ c, c ≠ "" ∧ Z.of_nat (String.length c) < logFlushBytes + bound) (chunksOf s).
Proof.
  intros Hb HF s. assert (HI : logInv bound s).
  { subst s. unfold logSteps. pose proof (newLogSystem_inv bound) as H0. revert H0. generalize newLogSystem.
    induction HF as [|op ops Hop _ IH]; intros s H; [done|]. apply IH. by apply logStep_inv. }
  destruct HI as [H1 H2 H3 H4 H5 H6]. split_and!; try done; [|by exists (ls_open s)].
  rewrite <- H2, sconcat_app, H1. f_equal. apply sconcat_groups.
Qed.

(** A line, the end of the log, another line before the closing is complete:
    the second waits for the timer. *)
Lemma log_keeps_lines_witness :
  let s := logSteps [LWrite "a "; LFlush; LWrite "b "; LSetClosed; LWrite "c "; LSink 0; LFlush; LSink 0] newLogSystem in
  ls_sunk s = ["a "; "b "] ∧ sconcat (chunksOf s) +:+ rl_buf (ls_log s) = sconcat (ls_lines s).
Proof.
  intros s. split; [reflexivity|].
  destruct (log_keeps_lines 2 [LWrite "a "; LFlush; LWrite "b "; LSetClosed; LWrite "c "; LSink 0; LFlush; LSink 0]) as [H _];
    [lia|repeat constructor; vm_compute; congruence|exact H].
Defined.

(** Chunks may reach the sink in another order than they were taken: the sink
    is called outside the lock. *)
Example chunks_overtake :
  ls_sunk (logSteps [LWrite "first "; LFlush; LWrite "second "; LFlush; LSink 1; LSink 0] newLogSystem) = ["second "; "first "].
Proof. reflexivity. Qed.
