(* ===== verification/RateLimiter.v ===== *)
(** * The rate limiter of the login: [internal/auth/ratelimit.go]

    Under its lock, so that calls happen one at a time; times are those the
    callers read before they call. *)
From stdpp Require Import sorting.
From S2P Require Import Prelude GoStrings GoTime.
Open Scope Z_scope.

Record RateLimiter := mkRateLimiter {
  rl_hits : gmap string (list Time);
  rl_limit : Z;
  rl_window : Z;
  rl_lastScan : Time
}.

Definition NewRateLimiter (limit window : Z) : RateLimiter := mkRateLimiter ∅ limit window zeroTime.

(** The test of the scan: nothing recorded, or the last hit out of the window. *)
Definition stale (window : Z) (now : Time) (times : list Time) : bool :=
  match last times with
  | None => true
  | Some t => Sub now t >? window
  end.

Definition scan (now : Time) (l : RateLimiter) : RateLimiter :=
  if Sub now (rl_lastScan l) >? rl_window l
  then mkRateLimiter (filter (λ kv, stale (rl_window l) now kv.2 = false) (rl_hits l)) (rl_limit l) (rl_window l) now
  else l.

Definition Allow (key : string) (now : Time) (l : RateLimiter) : bool * RateLimiter :=
  let l := scan now l in
  let cutoff := Add now (- rl_window l) in
  let kept := List.filter (λ t, After t cutoff) (default [] (rl_hits l !! key)) in
  let set (times : list Time) := mkRateLimiter (<[key := times]> (rl_hits l)) (rl_limit l) (rl_window l) (rl_lastScan l) in
  if rl_limit l <=? Z.of_nat (length kept) then (false, set kept) else (true, set (kept ++ [now])).

Definition Reset (key : string) (l : RateLimiter) : RateLimiter :=
  mkRateLimiter (delete key (rl_hits l)) (rl_limit l) (rl_window l) (rl_lastScan l).

(** ** Histories: the calls, and the times at which a key was let through since
    it was last reset. *)
Inductive LimitOp :=
  | OpAllow (key : string) (now : Time)
  | OpReset (key : string).

Definition limitStep (op : LimitOp) (s : RateLimiter * gmap string (list Time)) : RateLimiter * gmap string (list Time) :=
  let '(l, passed) := s in
  match op with
  | OpAllow key now =>
      let '(ok, l) := Allow key now l in
      (l, if ok : bool then <[key := default [] (passed !! key) ++ [now]]> passed else passed)
  | OpReset key => (Reset key l, delete key passed)
  end.

Definition limitSteps (ops : list LimitOp) (s : RateLimiter * gmap string (list Time)) : RateLimiter * gmap string (list Time) :=
  foldl (λ s op, limitStep op s) s ops.

(** The times of the calls. *)
Definition opTimes (ops : list LimitOp) : list Time :=
  omap (λ op, match op with OpAllow _ t => Some t | OpReset _ => None end) ops.

(** ** The sliding window *)

(** The hits of the last [window] before [now]. *)
Definition recent (window : Z) (now : Time) (times : list Time) : list Time :=
  List.filter (λ t, now - window <? t) times.

Lemma Sub_le t u : u <= t -> Sub t u <= t - u.
Proof.
  intros H. unfold Sub. assert (min_int64 < 0) by done.
  destruct (Z.ltb_spec (t - u) min_int64); [lia|]. destruct (Z.ltb_spec max_int64 (t - u)); lia.
Qed.

Lemma recent_later window now now' times : now <= now' -> recent window now' (recent window now times) = recent window now' times.
Proof.
  intros H. unfold recent. induction times as [|t l IH]; [done|]. simpl. destruct (now - window <? t) eqn:E; simpl; rewrite IH; [done|].
  apply Z.ltb_ge in E. by rewrite (proj2 (Z.ltb_ge _ _)) by lia.
Qed.

Lemma recent_app window now l k : recent window now (l ++ k) = recent window now l ++ recent window now k.
Proof. apply List.filter_app. Qed.

(** A stale entry has no recent hit. *)
Lemma stale_recent window now times :
  0 <= window -> StronglySorted Z.le times -> Forall (λ t, t <= now) times -> stale window now times = true ->
  recent window now times = [].
Proof.
  intros Hw Hs Hn. destruct times as [|t l _] using rev_ind; [done|]. unfold stale. rewrite last_snoc. intros H. boolean.
  apply Forall_app in Hn as [Hn Ht]. inversion Ht as [|? ? Htn _]; subst.
  pose proof (Sub_le now t Htn) as Hsub.
  assert (Hall : Forall (λ u, u <= t) (l ++ [t])).
  { apply Forall_app. split; [|by repeat constructor]. apply Forall_forall. intros u Hu.
    apply (StronglySorted_app_1_elem_of Z.le l [t]); [done|done|by left]. }
  unfold recent. clear -Hall H Hsub. induction Hall as [|u k Hu _ IH]; [done|]. simpl.
  by rewrite (proj2 (Z.ltb_ge _ _)) by lia.
Qed.

(** What is recorded for a key. *)
Definition hitsOf (l : RateLimiter) (key : string) : list Time := default [] (rl_hits l !! key).

(** What the limiter remembers of a key agrees, from [now] on, with what passed. *)
Record limitInv (now : Time) (l : RateLimiter) (passed : gmap string (list Time)) : Prop := {
  lv_sorted : ∀ key, StronglySorted Z.le (hitsOf l key);
  lv_past : ∀ key, Forall (λ t, t <= now) (hitsOf l key);
  lv_recent : ∀ key now', now <= now' ->
    recent (rl_window l) now' (hitsOf l key) = recent (rl_window l) now' (default [] (passed !! key))
}.

Lemma limitInv_later now now' l passed : now <= now' -> limitInv now l passed -> limitInv now' l passed.
Proof.
  intros H [H1 H2 H3]. split; [done| |intros; apply H3; lia].
  intros key. eapply Forall_impl; [apply H2|]. simpl. lia.
Qed.

Lemma scan_lookup now l key :
  hitsOf (scan now l) key = hitsOf l key
  ∨ hitsOf (scan now l) key = [] ∧ stale (rl_window l) now (hitsOf l key) = true.
Proof.
  unfold hitsOf, scan. destruct (_ >? _); [|by left]. cbn [rl_hits]. destruct (rl_hits l !! key) as [times|] eqn:E.
  - destruct (stale (rl_window l) now times) eqn:S.
    + right. split; [|done]. rewrite (proj2 (map_lookup_filter_None _ _ _)); [done|]. right. intros x Hx. simplify_eq. simpl. congruence.
    + left. by rewrite (proj2 (map_lookup_filter_Some _ _ _ times)).
  - left. by rewrite (proj2 (map_lookup_filter_None _ _ _)) by by left.
Qed.

Lemma scan_inv now l passed :
  0 <= rl_window l -> limitInv now l passed -> limitInv now (scan now l) passed.
Proof.
  intros Hw [H1 H2 H3]. assert (Ew : rl_window (scan now l) = rl_window l) by (unfold scan; by destruct (_ >? _)).
  split; [intros key|intros key|intros key now' H]; destruct (scan_lookup now l key) as [E|[E S]]; rewrite E; try done; try constructor.
  - rewrite Ew. by apply H3.
  - rewrite Ew, <- H3 by done.
    pose proof (stale_recent (rl_window l) now _ Hw (H1 key) (H2 key) S) as Hr.
    rewrite <- (recent_later (rl_window l) now now' (hitsOf l key)) by done. by rewrite Hr.
Qed.

Lemma StronglySorted_filter p (l : list Z) : StronglySorted Z.le l -> StronglySorted Z.le (List.filter p l).
Proof.
  induction 1 as [|x l Hl IH Hx]; [constructor|]. simpl. destruct (p x); [|done]. constructor; [done|].
  apply Forall_forall. intros y Hy. apply list_elem_of_In, filter_In in Hy as [Hy _]. rewrite Forall_forall in Hx.
  by apply Hx, list_elem_of_In.
Qed.

Lemma kept_recent now window times : List.filter (λ t, After t (Add now (- window))) times = recent window now times.
Proof. unfold recent, After, Add. by replace (now + - window) with (now - window) by lia. Qed.

(** One call: the decision, and what is remembered after it. *)
Lemma Allow_inv key now l passed :
  0 <= rl_window l -> limitInv now l passed ->
  let ok := (Allow key now l).1 in
  ok = negb (rl_limit l <=? Z.of_nat (length (recent (rl_window l) now (default [] (passed !! key)))))
  ∧ limitInv now (Allow key now l).2 (if ok then <[key := default [] (passed !! key) ++ [now]]> passed else passed).
Proof.
  intros Hw HI. pose proof (scan_inv now l passed Hw HI) as [S1 S2 S3].
  assert (Ew : rl_window (scan now l) = rl_window l ∧ rl_limit (scan now l) = rl_limit l) by (unfold scan; by destruct (_ >? _)).
  destruct Ew as [Ew El]. unfold Allow. fold (hitsOf (scan now l) key). rewrite kept_recent, S3, Ew, El by lia.
  set (kept := recent (rl_window l) now (default [] (passed !! key))).
  assert (Hk : kept = recent (rl_window l) now (hitsOf (scan now l) key)) by (unfold kept; by rewrite <- Ew, S3 by lia).
  assert (Hs : StronglySorted Z.le kept) by (rewrite Hk; apply StronglySorted_filter, S1).
  assert (Hp : Forall (λ t, t <= now) kept).
  { rewrite Hk. apply Forall_forall. intros t Ht. apply list_elem_of_In, filter_In in Ht as [Ht _].
    pose proof (S2 key) as F. rewrite Forall_forall in F. by apply F, list_elem_of_In. }
  destruct (rl_limit l <=? Z.of_nat (length kept)); cbn [fst snd negb]; (split; [done|]).
  - split; [intros k|intros k|intros k now' H]; unfold hitsOf; cbn [rl_hits rl_window]; destruct (decide (k = key)) as [->|Hne];
      rewrite ?lookup_insert_eq, ?lookup_insert_ne by done; try done; try apply S1; try apply S2.
    + cbn [from_option id]. unfold kept. by apply recent_later.
    + rewrite <- Ew. by apply S3.
  - split; [intros k|intros k|intros k now' H]; unfold hitsOf; cbn [rl_hits rl_window]; destruct (decide (k = key)) as [->|Hne];
      rewrite ?lookup_insert_eq, ?lookup_insert_ne by done; try apply S1; try apply S2.
    + cbn [from_option id]. apply StronglySorted_app_2; [|done|repeat constructor].
      intros x y Hx Hy. apply list_elem_of_singleton in Hy as ->. rewrite Forall_forall in Hp. by apply Hp.
    + cbn [from_option id]. apply Forall_app. split; [done|]. by repeat constructor.
    + cbn [from_option id]. rewrite !recent_app. f_equal. unfold kept. by apply recent_later.
    + rewrite <- Ew. by apply S3.
Qed.

Lemma Allow_window key now l : rl_window (Allow key now l).2 = rl_window l ∧ rl_limit (Allow key now l).2 = rl_limit l.
Proof. unfold Allow, scan. by destruct (_ >? _); cbn [rl_limit]; destruct (_ <=? _). Qed.

Lemma Reset_inv key now l passed : limitInv now l passed -> limitInv now (Reset key l) (delete key passed).
Proof.
  intros [H1 H2 H3]. split; [intros k|intros k|intros k now' H]; unfold hitsOf; cbn [Reset rl_hits rl_window];
    destruct (decide (k = key)) as [->|Hne]; rewrite ?lookup_delete_eq, ?lookup_delete_ne by done; try done; try constructor;
    try apply H1; try apply H2. by apply H3.
Qed.

(** The end of a history of calls whose times do not go back. *)
Lemma limitSteps_inv ops now l passed :
  0 <= rl_window l -> limitInv now l passed -> StronglySorted Z.le (now :: opTimes ops) ->
  let s := limitSteps ops (l, passed) in
  limitInv (List.last (opTimes ops) now) s.1 s.2 ∧ rl_window s.1 = rl_window l ∧ rl_limit s.1 = rl_limit l.
Proof.
  revert now l passed. induction ops as [|[key t|key] ops IH]; intros now l passed Hw HI Hs; [done| |].
  - change (opTimes (OpAllow key t :: ops)) with (t :: opTimes ops) in *.
    apply StronglySorted_inv in Hs as [Hs Hn]. inversion Hn as [|? ? Hnt _]; subst.
    pose proof (Allow_inv key t l passed Hw (limitInv_later now t l passed Hnt HI)) as [_ HA].
    destruct (Allow_window key t l) as [Ew El]. cbv zeta. unfold limitSteps. cbn [foldl limitStep].
    destruct (Allow key t l) as [ok l1] eqn:E. cbn [fst snd] in *.
    rewrite <- Ew, <- El. assert (Hl : List.last (t :: opTimes ops) now = List.last (opTimes ops) t).
    { destruct (opTimes ops) as [|u k] eqn:O; [done|]. cbn. clear. revert u. induction k as [|v k IHk]; intros u; [done|]. apply IHk. }
    rewrite Hl. apply IH; [by rewrite Ew|done|done].
  - change (opTimes (OpReset key :: ops)) with (opTimes ops) in *. cbv zeta. unfold limitSteps. cbn [foldl limitStep].
    apply (IH now (Reset key l) (delete key passed)); [done|by apply Reset_inv|done].
Qed.

Lemma new_limitInv limit window now : limitInv now (NewRateLimiter limit window) ∅.
Proof. split; intros; unfold hitsOf; cbn [NewRateLimiter rl_hits]; rewrite ?lookup_empty; by try constructor. Qed.

(** C33: the limiter is a sliding window, exactly.  After any history of calls
    and resets, over any keys, whose times do not go back, a call for a key at
    or after the last of them passes exactly when fewer than [limit] calls for
    that key passed in the [window] before it since the key was last reset;
    forgetting idle keys never lets a call through. *)
Theorem Allow_sliding_window limit window start ops key now :
  0 <= window -> StronglySorted Z.le (start :: opTimes ops ++ [now]) ->
  let '(l, passed) := limitSteps ops (NewRateLimiter limit window, ∅) in
  (Allow key now l).1 = true
  <-> Z.of_nat (length (recent window now (default [] (passed !! key)))) < limit.
Proof.
  intros Hw Hs. assert (Hs1 : StronglySorted Z.le (start :: opTimes ops)).
  { apply (StronglySorted_app_1_l _ _ [now]). exact Hs. }
  assert (Hlast : List.last (opTimes ops) start <= now).
  { apply (StronglySorted_app_1_elem_of Z.le (start :: opTimes ops) [now]); [exact Hs| |by left].
    destruct (opTimes ops) as [|u k] using rev_ind; [by left|]. rewrite last_last. right. apply elem_of_app. right. by left. }
  pose proof (limitSteps_inv ops start (NewRateLimiter limit window) ∅ Hw (new_limitInv limit window start) Hs1) as H.
  cbv zeta in H. destruct (limitSteps ops (NewRateLimiter limit window, ∅)) as [l passed]. cbn [fst snd] in H.
  destruct H as (HI & Ew & El). cbn [NewRateLimiter rl_window rl_limit] in Ew, El.
  pose proof (limitInv_later _ now _ _ Hlast HI) as HI'.
  destruct (Allow_inv key now l passed) as [-> _]; [by rewrite Ew|done|]. rewrite Ew, El, negb_true_iff, Z.leb_gt. done.
Qed.

(** Two calls pass and a third does not, until a minute after the first. *)
Lemma Allow_sliding_window_witness :
  let ops := [OpAllow "ip" 0; OpAllow "ip" (10 * Second); OpAllow "ip" (20 * Second)] in
  let '(l, passed) := limitSteps ops (NewRateLimiter 2 Minute, ∅) in
  (Allow "ip" (61 * Second) l).1 = true
  <-> Z.of_nat (length (recent Minute (61 * Second) (default [] (passed !! "ip")))) < 2.
Proof.
  intros ops. apply (Allow_sliding_window 2 Minute 0 ops "ip" (61 * Second)); [done|].
  repeat (constructor; try (vm_compute; congruence)).
Defined.
