(* ===== verification/Password.v ===== *)
(** * Passwords: [internal/auth/password.go]

    The encoded form of an argon2id hash: written by [HashPassword], read back
    by [VerifyPassword].  The hash function itself is a parameter. *)
From S2P Require Import Prelude GoStrings GoNumbers GoTime GoPath Secrets.
Open Scope Z_scope.

(** [golang.org/x/crypto/argon2]: the version it implements and [IDKey] of a
    password, a salt, the passes, the memory, the threads and the length of the
    key. *)
Class Argon2 := {
  argon2_Version : Z;
  argon2_IDKey : string -> string -> Z -> Z -> Z -> Z -> string
}.

(** A version is a positive number, and a key has the length asked for. *)
Class Argon2Laws (A : Argon2) : Prop := {
  version_positive : 0 < argon2_Version < 2 ^ 31;
  key_length p s t m l n : 0 <= n -> Z.of_nat (String.length (argon2_IDKey p s t m l n)) = n
}.

Record argonParams := mkArgonParams {
  memory : Z;        (* uint32 *)
  iterations : Z;    (* uint32 *)
  parallelism : Z;   (* uint8 *)
  saltLength : Z;
  keyLength : Z
}.

Definition defaultArgon : argonParams := mkArgonParams (64 * 1024) 3 2 16 32.

Definition errInvalidHash : error := mkError "invalid password hash" ErrInvalidHash.

(** ** Scanning the encoded form *)

(** [fmt.Sscanf(s, "v=%d", &version)]; what follows is not read. *)
Definition scanVersion (s : string) : option Z :=
  s ← scanLit "v=" s; '(v, _) ← scanInt s; Some v.

(** [fmt.Sscanf(s, "m=%d,t=%d,p=%d", &p.memory, &p.iterations, &p.parallelism)]. *)
Definition scanParams (s : string) : option (Z * Z * Z) :=
  s ← scanLit "m=" s; '(m, s) ← scanUint 32 s;
  s ← scanLit ",t=" s; '(t, s) ← scanUint 32 s;
  s ← scanLit ",p=" s; '(p, _) ← scanUint 8 s;
  Some (m, t, p).

(** ** Hashing and verifying *)

Section password.
  Context {A : Argon2}.

Definition encodeHash (p : argonParams) (salt key : string) : string :=
  "$argon2id$v=" +:+ Itoa argon2_Version +:+ "$m=" +:+ Itoa (memory p) +:+ ",t=" +:+ Itoa (iterations p)
    +:+ ",p=" +:+ Itoa (parallelism p) +:+ "$" +:+ RawStd_Encode salt +:+ "$" +:+ RawStd_Encode key.

(** [rand.Read(salt)] answers the salt or an error. *)
Definition HashPassword (rand : result string) (password : string) : result string :=
  let p := defaultArgon in
  let? salt := rand else err => Fail (wrapError "generate salt" err) in
  let key := argon2_IDKey password salt (iterations p) (memory p) (parallelism p) (keyLength p) in
  Ok (encodeHash p salt key).

Definition VerifyPassword (encoded password : string) : result bool :=
  match Split encoded "$" with
  | [_; kind; version; params; salt; want] =>
      if negb (bool_decide (kind = "argon2id")) then Fail errInvalidHash
      else
        match scanVersion version with
        | None => Fail errInvalidHash
        | Some v =>
            if negb (v =? argon2_Version)
            then Fail (wrapError ("unsupported argon2 version " +:+ Itoa v) errInvalidHash)
            else
              match scanParams params with
              | None => Fail errInvalidHash
              | Some (m, t, p) =>
                  match RawStd_Decode salt, RawStd_Decode want with
                  | Some salt, Some want =>
                      let got := argon2_IDKey password salt t m p (Z.of_nat (String.length want) mod 2 ^ 32) in
                      Ok (String.eqb got want)
                  | _, _ => Fail errInvalidHash
                  end
              end
        end
  | _ => Fail errInvalidHash
  end.
End password.

Definition ValidatePassword (password : string) : option error :=
  let n := Z.of_nat (String.length password) in
  if n <? 10 then Some (newError "password must be at least 10 characters")
  else if 512 <? n then Some (newError "password must be at most 512 characters")
  else None.

(** ** What is written is read back *)

Lemma Itoa_digits n : 0 <= n -> sall is_digit (Itoa n) = true ∧ Itoa n ≠ "" ∧ parse_digits (Itoa n) 0 = Some n.
Proof.
  intros H. unfold Itoa. rewrite pretty_Z_of_N by done. split; [apply pretty_digits|].
  assert (E : parse_digits (pretty (Z.to_N n)) 0 = Some n) by by rewrite parse_digits_pretty, Z2N.id.
  split; [|done]. intros E0. unfold pretty, pretty_N in E0. case_decide; [done|].
  rewrite pretty_N_go_step in E0 by lia.
  assert (Hl : ∀ x s, s ≠ "" -> pretty_N_go x s ≠ "").
  { intros x. induction (N.lt_wf_0 x) as [x _ IH]. intros s Hs. destruct (decide (0 < x)%N).
    - rewrite pretty_N_go_step by done. apply IH; [apply N.div_lt; lia|done].
    - assert (x = 0%N) as -> by lia. by rewrite pretty_N_go_0. }
  by apply Hl in E0.
Qed.

Lemma digit_not_space a s : is_digit a = true -> List.find (HasPrefix (String a s)) space_runes = None.
Proof. destruct a as [[] [] [] [] [] [] [] []]; intros H; try discriminate H; reflexivity. Qed.

Lemma skipSpace_digits a s : is_digit a = true -> skipSpace (String a s) = Some (String a s).
Proof.
  intros H. unfold skipSpace. cbn [String.length trim_left_fuel]. rewrite digit_not_space by done.
  by rewrite Nat.sub_diag.
Qed.

Lemma spanDigits_app d r :
  sall is_digit d = true -> match r with String a _ => is_digit a = false | "" => True end -> spanDigits (d +:+ r) = (d, r).
Proof.
  intros Hd Hr. induction d as [|a d IH].
  - destruct r as [|a r]; [done|]. simpl. by rewrite Hr.
  - simpl in *. apply andb_true_iff in Hd as [-> Hd]. by rewrite IH.
Qed.

Lemma scanUint_Itoa bits n r :
  0 <= n < 2 ^ bits -> match r with String a _ => is_digit a = false | "" => True end ->
  scanUint bits (Itoa n +:+ r) = Some (n, r).
Proof.
  intros Hn Hr. destruct (Itoa_digits n) as (Hd & Hne & Hp); [lia|]. unfold scanUint.
  assert (Hs : skipSpace (Itoa n +:+ r) = Some (Itoa n +:+ r)).
  { destruct (Itoa n) as [|a d]; [done|]. simpl in Hd. apply andb_true_iff in Hd as [Ha _]. by apply (skipSpace_digits a (d +:+ r)). }
  rewrite Hs. cbn [mbind option_bind]. rewrite spanDigits_app by done. rewrite bool_decide_eq_false_2 by done.
  rewrite Hp. cbn [mbind option_bind]. by rewrite (proj2 (Z.ltb_lt _ _)) by lia.
Qed.

Lemma scanInt_Itoa n : 0 <= n < 2 ^ 63 -> scanInt (Itoa n) = Some (n, "").
Proof.
  intros Hn. destruct (Itoa_digits n) as (Hd & Hne & Hp); [lia|]. unfold scanInt.
  pose proof (spanDigits_app (Itoa n) "" Hd I) as Hsp. rewrite sapp_nil_r in Hsp.
  destruct (Itoa n) as [|a d] eqn:E; [done|]. pose proof Hd as Ha. simpl in Ha. apply andb_true_iff in Ha as [Ha _].
  rewrite skipSpace_digits by done. cbn [mbind option_bind].
  assert (Hm : Ascii.eqb a "-" = false ∧ Ascii.eqb a "+" = false).
  { destruct a as [[] [] [] [] [] [] [] []]; try discriminate Ha; done. }
  destruct Hm as [-> ->]. rewrite Hsp, bool_decide_eq_false_2, Hp by done. cbn [mbind option_bind].
  assert (H1 : (min_int64 <=? n) = true) by (apply Z.leb_le; unfold min_int64; lia).
  assert (H2 : (n <=? max_int64) = true) by (apply Z.leb_le; unfold max_int64; lia).
  by rewrite H1, H2.
Qed.

Lemma RawStd_free s : free_of "$" (RawStd_Encode s) = true.
Proof.
  assert (Hc : ∀ n, (n < 64)%N -> negb (Ascii.eqb (b64_char n) "$") = true).
  { apply (N_below_64 (λ n, negb (Ascii.eqb (b64_char n) "$"))). by vm_compute. }
  unfold free_of. induction s as [|a|a b|a b c s IH] using string_ind3; [done|..]; cbn [RawStd_Encode sall schar];
    rewrite ?IH, !Hc; try done; pose proof (code_bound a); try pose proof (code_bound b); try pose proof (code_bound c);
    try (apply N.mod_lt; lia); apply N.Div0.div_lt_upper_bound; lia.
Qed.

Lemma digits_free s : sall is_digit s = true -> free_of "$" s = true.
Proof.
  unfold free_of. induction s as [|a s IH]; [done|]. simpl. intros H. apply andb_true_iff in H as [Ha Hs]. rewrite (IH Hs), andb_true_r.
  destruct a as [[] [] [] [] [] [] [] []]; try discriminate Ha; done.
Qed.

Section facts.
  Context {A : Argon2} {L : Argon2Laws A}.

(** The six fields of an encoded hash. *)
Lemma Split_encodeHash salt key :
  Split (encodeHash defaultArgon salt key) "$"
  = [""; "argon2id"; "v=" +:+ Itoa argon2_Version; "m=65536,t=3,p=2"; RawStd_Encode salt; RawStd_Encode key].
Proof.
  pose proof version_positive as Hv. destruct (Itoa_digits argon2_Version) as (Hd & _ & _); [lia|].
  change (encodeHash defaultArgon salt key) with
    ("" +:+ String "$" ("argon2id" +:+ String "$" (("v=" +:+ Itoa argon2_Version) +:+ String "$"
       ("m=65536,t=3,p=2" +:+ String "$" (RawStd_Encode salt +:+ String "$" (RawStd_Encode key)))))).
  rewrite !Split_app, !Split_free_id; try done; try apply RawStd_free.
  unfold free_of. rewrite sall_app. by apply andb_true_iff; split; [|apply digits_free].
Qed.

Lemma scanVersion_Itoa : scanVersion ("v=" +:+ Itoa argon2_Version) = Some argon2_Version.
Proof.
  pose proof version_positive. unfold scanVersion, scanLit. rewrite HasPrefix_app, sdrop_app. cbn [mbind option_bind].
  by rewrite scanInt_Itoa by lia.
Qed.

(** a password verifies against its hash, and only what hashes alike does.
    For any salt the random source gives, the encoded hash of a password is
    read back with the parameters, the salt and the key it was written with:
    verifying any password against it computes the key of that password under
    the same salt and parameters and compares it with the stored key, without
    an error; so the password itself verifies. *)
Theorem VerifyPassword_HashPassword salt password encoded attempt :
  HashPassword (Ok salt) password = Ok encoded ->
  let key p := argon2_IDKey p salt (iterations defaultArgon) (memory defaultArgon) (parallelism defaultArgon)
                 (keyLength defaultArgon) in
  VerifyPassword encoded attempt = Ok (String.eqb (key attempt) (key password))
  ∧ VerifyPassword encoded password = Ok true.
Proof.
  intros [= <-] key.
  assert (Hlen : Z.of_nat (String.length (key password)) mod 2 ^ 32 = keyLength defaultArgon).
  { unfold key. by rewrite key_length. }
  assert (H : ∀ p, VerifyPassword (encodeHash defaultArgon salt (key password)) p = Ok (String.eqb (key p) (key password))).
  { intros p. unfold VerifyPassword. rewrite Split_encodeHash, scanVersion_Itoa.
    change (bool_decide ("argon2id" = "argon2id")) with true. cbn [negb]. rewrite Z.eqb_refl. cbn [negb].
    change (scanParams "m=65536,t=3,p=2") with (Some (65536, 3, 2)). cbv iota beta.
    rewrite !RawStd_roundtrip, Hlen. done. }
  split; [apply H|]. by rewrite H, String.eqb_refl.
Qed.
End facts.

(** A hash that keeps the password and pads to the length asked for. *)
Fixpoint padTo (n : nat) (s : string) : string :=
  match n, s with
  | O, _ => ""
  | S n', String a s' => String a (padTo n' s')
  | S n', "" => String "." (padTo n' "")
  end.

Lemma padTo_length n s : String.length (padTo n s) = n.
Proof. revert s. induction n as [|n IH]; intros [|a s]; simpl; [done|done|by rewrite IH..]. Qed.

#[export] Instance sampleArgon2 : Argon2 := {|
  argon2_Version := 19;
  argon2_IDKey p s _ _ _ n := padTo (Z.to_nat n) (s +:+ p)
|}.

#[export] Instance sampleArgon2_laws : Argon2Laws sampleArgon2.
Proof. split; [done|]. intros p s t m l n H. simpl. rewrite padTo_length. lia. Qed.

Lemma VerifyPassword_HashPassword_witness :
  let key p := argon2_IDKey p "salt" 3 (64 * 1024) 2 32 in
  ∃ encoded, HashPassword (Ok "salt") "correct horse" = Ok encoded
    ∧ VerifyPassword encoded "battery" = Ok (String.eqb (key "battery") (key "correct horse"))
    ∧ VerifyPassword encoded "correct horse" = Ok true.
Proof.
  intros key. eexists. split; [reflexivity|]. apply (VerifyPassword_HashPassword "salt" "correct horse"). reflexivity.
Defined.
