(* ===== verification/Auth.v ===== *)
(** * Who may do what: [internal/auth/principal.go], [manager.go], [middleware.go]

    Principals and their scopes, sessions and tokens over the store, and the
    chain of middleware in front of the handlers.  What is drawn at random is
    an argument. *)
From S2P Require Import Prelude GoStrings GoTime Core CoreSetters Config GoSlices Pack GoPath Spool Secrets Db StoreCommon StoreJobs.
From S2P Require Import StoreAdmin RunState Drivers Sample Password.
Open Scope Z_scope.

(** ** Principals *)

Inductive AuthType := AuthSession | AuthToken.

Record Principal := mkPrincipal {
  p_Type : AuthType;
  p_User : option User;
  p_TokenID : string;
  p_TokenName : string;
  p_Scopes : list string;
  p_JobSlugs : list string;
  p_SessionID : string
}.

(** The loop of [HasScope]. *)
Fixpoint hasScopeLoop (scopes : list string) (scope : string) : bool :=
  match scopes with
  | [] => false
  | s :: rest =>
      if String.eqb s scope then true
      else if String.eqb s ScopeAdmin then true
      else if String.eqb s ScopeRun && String.eqb scope ScopeRead then true
      else hasScopeLoop rest scope
  end.

Definition HasScope (p : option Principal) (scope : string) : bool :=
  match p with None => false | Some p => hasScopeLoop (p_Scopes p) scope end.

Definition IsAdmin (p : option Principal) : bool := HasScope p ScopeAdmin.

Definition AllowsJob (p : option Principal) (slug : string) : bool :=
  match p with
  | None => false
  | Some p => bool_decide (p_JobSlugs p = []) || existsb (λ s, String.eqb s slug) (p_JobSlugs p)
  end.

Definition Label (p : option Principal) : string :=
  match p with
  | None => "anonymous"
  | Some p =>
      match p_User p with
      | Some u => if bool_decide (user_Email u ≠ "") then user_Email u else user_Name u
      | None => if bool_decide (p_TokenName p ≠ "") then "token:" +:+ p_TokenName p else "token"
      end
  end.

Definition Principal_ID (p : option Principal) : string :=
  match p with
  | None => ""
  | Some p => match p_User p with Some u => user_ID u | None => p_TokenID p end
  end.

Definition ScopesForRole (role : UserRole) : list string :=
  if String.eqb role RoleAdmin then [ScopeAdmin; ScopeRead; ScopeRun; ScopeIngest] else [ScopeRead].

Definition RequireJobAccess (p : option Principal) (slug : string) : option error :=
  match p with
  | None => Some (newError "authentication required")
  | Some _ => if AllowsJob p slug then None else Some (newError ("token is not allowed to use job " +:+ slug))
  end.

Definition knownScope (s : string) : bool :=
  String.eqb s ScopeAdmin || String.eqb s ScopeRead || String.eqb s ScopeRun || String.eqb s ScopeIngest.

Definition ValidateScopes (scopes : list string) : option error :=
  if bool_decide (scopes = []) then Some (newError "at least one scope is required")
  else match List.find (λ s, negb (knownScope s)) scopes with
       | Some s => Some (newError ("unknown scope: " +:+ s))
       | None => None
       end.

(** ** Secrets *)

Definition SessionTTL : Z := 30 * 24 * Hour.
Definition TokenPrefix : string := "bvt_".
Definition tokenBodyLen : nat := 32.
Definition base62Alphabet : string := "0123456789ABCDEFGHIJKLMNOPQRSTUVWXYZabcdefghijklmnopqrstuvwxyz".

Definition errInvalidCredentials : error := mkError "invalid email or password" ErrInvalidCredentials.
Definition errSessionExpired : error := mkError "session expired" ErrSessionExpired.
Definition errTokenExpired : error := mkError "token expired" ErrTokenExpired.

(** [RawURLEncoding]: the standard alphabet with its last two characters
    replaced. *)
Definition RawURL_Encode (s : string) : string :=
  smap (λ a, if Ascii.eqb a "+" then "-"%char else if Ascii.eqb a "/" then "_"%char else a) (RawStd_Encode s).

(** [rand] is what [rand.Read] filled the buffer with. *)
Definition randomSecret (rand : result string) : result string :=
  let? buf := rand else err => Fail (wrapError "generate random secret" err) in Ok (RawURL_Encode buf).

(** The loop of [randomBase62]; [ints k] is the [k]-th [rand.Int] below 62. *)
Fixpoint base62Loop (ints : nat -> result nat) (k n : nat) : result string :=
  match n with
  | O => Ok ""
  | S n' =>
      let? idx := ints k else err => Fail (wrapError "generate token" err) in
      let? rest := base62Loop ints (S k) n' else err => Fail err in
      match String.get idx base62Alphabet with
      | Some c => Ok (String c rest)
      | None => Fail (newError "index out of range")   (* rand.Int stays below its bound *)
      end
  end.

Definition randomBase62 (ints : nat -> result nat) (n : nat) : result string := base62Loop ints 0 n.

(** ** The manager *)

Section manager.
  Context {D : Digest} {A : Argon2}.

(** [hex(sha256(secret))]. *)
Definition hashSecret (secret : string) : string := sha256_hex secret.

Definition Login (email password : string) : M (result User) :=
  r ← GetByEmail email;
  match r with
  | Fail err => mret (Fail (if errorsIs err ErrNotFound then errInvalidCredentials else err))
  | Ok rec =>
      match VerifyPassword (rec_PasswordHash rec) password with
      | Ok true =>
          t ← now;
          do? _ := TouchLogin (user_ID (rec_User rec)) t else err => mret (Fail err) in
          mret (Ok (set_user_LastLoginAt (Some t) (rec_User rec)))
      | _ => mret (Fail errInvalidCredentials)
      end
  end.

(** The secret and the end of the session. *)
Definition CreateSession (rand : result string) (userID ip userAgent : string) : M (result (string * Time)) :=
  match randomSecret rand with
  | Fail err => mret (Fail err)
  | Ok secret =>
      t ← now;
      let expires := GoTime.Add t SessionTTL in
      do? _ := SessionRepo_Create (mkSession (hashSecret secret) userID t expires t ip userAgent)
        else err => mret (Fail err) in
      mret (Ok (secret, expires))
  end.

Definition ResolveSession (secret : string) : M (result Principal) :=
  let id := hashSecret secret in
  do? sess := SessionRepo_Get id else err => mret (Fail err) in
  t ← now;
  if After t (sess_ExpiresAt sess) then
    _ ← SessionRepo_Delete id;
    mret (Fail errSessionExpired)
  else
    do? rec := UserRepo_Get (sess_UserID sess) else err => mret (Fail err) in
    do? _ := (if Sub t (sess_LastSeenAt sess) >? Hour then SessionRepo_Touch id t (GoTime.Add t SessionTTL) else mret (Ok tt))
      else err => mret (Fail err) in
    let user := rec_User rec in
    mret (Ok (mkPrincipal AuthSession (Some user) "" "" (ScopesForRole (user_Role user)) [] id)).

Definition DestroySession (secret : string) : M (result unit) := SessionRepo_Delete (hashSecret secret).

(** The token on record and its secret, which is shown once. *)
Definition CreateToken (ints : nat -> result nat) (t : APIToken) : M (result (APIToken * string)) :=
  match randomBase62 ints tokenBodyLen with
  | Fail err => mret (Fail err)
  | Ok body =>
      let secret := TokenPrefix +:+ body in
      let t := mkToken (tok_ID t) (tok_Name t) (stake (String.length TokenPrefix + 8) secret) (tok_Scopes t)
                 (tok_JobSlugs t) (tok_CreatedAt t) (tok_CreatedBy t) (tok_LastUsedAt t) (tok_ExpiresAt t) in
      do? saved := TokenRepo_Create t (hashSecret secret) else err => mret (Fail err) in
      mret (Ok (saved, secret))
  end.

Definition ResolveToken (secret : string) : M (result Principal) :=
  do? tok := GetByHash (hashSecret secret) else err => mret (Fail err) in
  t ← now;
  if (match tok_ExpiresAt tok with Some e => After t e | None => false end)
  then mret (Fail errTokenExpired)
  else
    do? _ := (if (match tok_LastUsedAt tok with None => true | Some u => Sub t u >? Minute end)
              then TouchUsed (tok_ID tok) t else mret (Ok tt))
      else err => mret (Fail err) in
    mret (Ok (mkPrincipal AuthToken None (tok_ID tok) (tok_Name tok) (tok_Scopes tok) (tok_JobSlugs tok) "")).

Definition SetPassword (rand : result string) (userID password : string) : M (result unit) :=
  match HashPassword rand password with
  | Fail err => mret (Fail err)
  | Ok hash => UserRepo_SetPassword userID hash
  end.

Definition CreateUser (rand : result string) (u : User) (password : string) : M (result User) :=
  match HashPassword rand password with
  | Fail err => mret (Fail err)
  | Ok hash => UserRepo_Create u hash
  end.

Definition NeedsSetup : M (result bool) :=
  do? n := UserRepo_Count else err => mret (Fail err) in mret (Ok (n =? 0)).

Definition BootstrapAdmin (rand : result string) (email password : string) : M (result bool) :=
  if Blank email || bool_decide (password = "") then mret (Ok false)
  else
    do? needs := NeedsSetup else err => mret (Fail err) in
    if negb needs then mret (Ok false)
    else
      do? _ := CreateUser rand (mkUser "" email "Administrator" RoleAdmin zeroTime None) password
        else err => mret (Fail err) in
      mret (Ok true).

(** ** Middleware *)

(** What the chain reads of a request: the method, the [Authorization] and
    [X-Requested-With] headers and the session cookie. *)
Record Request := mkRequest {
  req_Method : string;
  req_Authorization : string;
  req_RequestedWith : string;
  req_Cookie : option string
}.

(** A response written, or the next handler called with a principal; the flag
    tells whether the session cookie is cleared. *)
Inductive Reply :=
  | Refused (status : Z) (code message : string)
  | Next (p : option Principal) (cleared : bool).

Definition CSRFHeader : string := "X-Requested-With".
Definition CSRFValue : string := "backvault".

Definition Resolve (r : Request) : M Reply :=
  let header := TrimSpace (req_Authorization r) in
  if bool_decide (header ≠ "") then
    if negb (HasPrefix (ToLower header) "bearer ")
    then mret (Refused 401 "unauthenticated" "unsupported authorization scheme")
    else
      let secret := TrimSpace (sdrop (String.length "bearer ") header) in
      p ← ResolveToken secret;
      mret (match p with
            | Ok p => Next (Some p) false
            | Fail err =>
                if errorsIs err ErrNotFound || errorsIs err ErrTokenExpired
                then Refused 401 "unauthenticated" "invalid or expired API token"
                else Refused 500 "internal" "could not verify API token"
            end)
  else
    match req_Cookie r with
    | Some value =>
        if bool_decide (value = "") then mret (Next None false)
        else
          p ← ResolveSession value;
          mret (match p with
                | Ok p => Next (Some p) false
                | Fail err =>
                    if errorsIs err ErrNotFound || errorsIs err ErrSessionExpired then Next None true
                    else Refused 500 "internal" "could not verify session"
                end)
    | None => mret (Next None false)
    end.

Definition mutating (method : string) : bool :=
  existsb (String.eqb method) ["POST"; "PUT"; "PATCH"; "DELETE"].

Definition CSRF (r : Request) (p : option Principal) : option Reply :=
  if negb (mutating (req_Method r)) then None
  else match p with
       | Some pr =>
           match p_Type pr with
           | AuthSession =>
               if EqualFold (req_RequestedWith r) CSRFValue then None
               else Some (Refused 403 "forbidden" ("missing " +:+ CSRFHeader +:+ ": " +:+ CSRFValue +:+ " header"))
           | AuthToken => None
           end
       | None => None
       end.

Definition RequireAuth (p : option Principal) : option Reply :=
  match p with None => Some (Refused 401 "unauthenticated" "authentication required") | Some _ => None end.

Definition RequireScope (scope : string) (p : option Principal) : option Reply :=
  match p with
  | None => Some (Refused 401 "unauthenticated" "authentication required")
  | Some _ => if HasScope p scope then None else Some (Refused 403 "forbidden" ("missing scope: " +:+ scope))
  end.

(** The chain of [buildRouter] in front of the handlers of a group: [Resolve],
    [CSRF], and the guard of the group. *)
Definition guarded (guard : option Principal -> option Reply) (r : Request) : M Reply :=
  reply ← Resolve r;
  mret (match reply with
        | Refused _ _ _ => reply
        | Next p cleared =>
            match CSRF r p with
            | Some refused => refused
            | None => match guard p with Some refused => refused | None => Next p cleared end
            end
        end).
End manager.

(** * Theorems on authentication

    Who reaches a handler, and how long a session lives. *)

(** ** Scopes *)

(** [s] gives [scope]. *)
Definition grants (s scope : string) : Prop := s = scope ∨ s = ScopeAdmin ∨ (s = ScopeRun ∧ scope = ScopeRead).

Lemma hasScopeLoop_spec scopes scope : hasScopeLoop scopes scope = true <-> ∃ s, s ∈ scopes ∧ grants s scope.
Proof.
  unfold grants. induction scopes as [|s l IH]; cbn [hasScopeLoop].
  - split; [done|]. intros (s & H & _). by apply elem_of_nil in H.
  - destruct (String.eqb_spec s scope) as [->|N1]; [split; [|done]; intros _; exists scope; split; [left|by left]|].
    destruct (String.eqb_spec s ScopeAdmin) as [->|N2]; [split; [|done]; intros _; exists ScopeAdmin; split; [left|by right; left]|].
    destruct (String.eqb_spec s ScopeRun) as [->|N3]; [destruct (String.eqb_spec scope ScopeRead) as [->|N4]|]; cbn [andb].
    + split; [|done]. intros _. exists ScopeRun. split; [left|by right; right].
    + rewrite IH. split; intros (x & Hx & Hg); [exists x; split; [by right|done]|].
      apply elem_of_cons in Hx as [->|Hx]; [|by exists x]. naive_solver.
    + rewrite IH. split; intros (x & Hx & Hg); [exists x; split; [by right|done]|].
      apply elem_of_cons in Hx as [->|Hx]; [|by exists x]. naive_solver.
Qed.

Section auth.
  Context {D : Digest} {A : Argon2}.

(** ** What a principal was made of *)

(** A read that succeeds is one query that answered. *)
Ltac one_query env w :=
  rewrite bind_eq; let Q := fresh "Q" in
  match goal with |- context [query ?q env w] => destruct (query q env w) as [r w1] eqn:Q end;
  unfold query in Q; destruct (env_db env (w_tick w)); injection Q as <- <-; [done|]; cbn [fst snd mret M_ret].

Lemma GetByHash_inv hash env w tok :
  (GetByHash hash env w).1 = Ok tok -> (∃ id, db_tokens (w_db w) !! id = Some (tok, hash)) ∧ (GetByHash hash env w).2 = tick w.
Proof.
  unfold GetByHash. one_query env w.
  destruct (selectWhere (sameHash hash) (db_tokens (w_db w))) as [|[t h] l] eqn:S; [done|]. intros [= <-]. split; [|done].
  assert (Hin : (t, h) ∈ selectWhere (sameHash hash) (db_tokens (w_db w))) by (rewrite S; by left).
  apply selectWhere_elem in Hin as [[id Hid] Hh]. apply String.eqb_eq in Hh. simpl in Hh. subst h. by exists id.
Qed.

Lemma SessionRepo_Get_inv id env w s :
  (SessionRepo_Get id env w).1 = Ok s -> db_sessions (w_db w) !! id = Some s ∧ (SessionRepo_Get id env w).2 = tick w.
Proof. unfold SessionRepo_Get. one_query env w. by destruct (db_sessions (w_db w) !! id); [intros [= <-]|]. Qed.

Lemma UserRepo_Get_inv id env w u :
  (UserRepo_Get id env w).1 = Ok u -> db_users (w_db w) !! id = Some u ∧ (UserRepo_Get id env w).2 = tick w.
Proof. unfold UserRepo_Get. one_query env w. by destruct (db_users (w_db w) !! id); [intros [= <-]|]. Qed.

Lemma ResolveToken_inv secret env w p :
  (ResolveToken secret env w).1 = Ok p ->
  ∃ id tok, db_tokens (w_db w) !! id = Some (tok, hashSecret secret)
    ∧ p = mkPrincipal AuthToken None (tok_ID tok) (tok_Name tok) (tok_Scopes tok) (tok_JobSlugs tok) ""
    ∧ (∀ e, tok_ExpiresAt tok = Some e -> env_now env (S (w_tick w)) <= e).
Proof.
  unfold ResolveToken. rewrite bind_eq. destruct (GetByHash (hashSecret secret) env w) as [[tok|] w1] eqn:G; [|done].
  destruct (GetByHash_inv (hashSecret secret) env w tok) as [[id Hid] Hw]; [by rewrite G|].
  rewrite G in Hw. simpl in Hw. subst w1. cbn [fst snd]. rewrite bind_eq. cbn [now ask fst snd].
  set (t := env_now env (w_tick (tick w))). intros H. exists id, tok. split; [done|].
  destruct (match tok_ExpiresAt tok with Some e => After t e | None => false end) eqn:Hexp; [done|].
  rewrite bind_eq in H. destruct ((if match tok_LastUsedAt tok with None => true | Some u => Sub t u >? Minute end
    then TouchUsed (tok_ID tok) t else mret (Ok tt)) env (tick (tick w))) as [[[]|] w2]; [|done].
  injection H as <-. split; [done|]. intros e He. rewrite He in Hexp. unfold After in Hexp. by apply Z.ltb_ge in Hexp.
Qed.

Lemma ResolveSession_inv secret env w p :
  (ResolveSession secret env w).1 = Ok p ->
  ∃ sess rec, db_sessions (w_db w) !! hashSecret secret = Some sess
    ∧ db_users (w_db w) !! sess_UserID sess = Some rec
    ∧ env_now env (S (w_tick w)) <= sess_ExpiresAt sess
    ∧ p = mkPrincipal AuthSession (Some (rec_User rec)) "" "" (ScopesForRole (user_Role (rec_User rec))) [] (hashSecret secret).
Proof.
  unfold ResolveSession. rewrite bind_eq. destruct (SessionRepo_Get (hashSecret secret) env w) as [[sess|] w1] eqn:G; [|done].
  destruct (SessionRepo_Get_inv (hashSecret secret) env w sess) as [Hs Hw]; [by rewrite G|].
  rewrite G in Hw. simpl in Hw. subst w1. cbn [fst snd]. rewrite bind_eq. cbn [now ask fst snd].
  set (t := env_now env (w_tick (tick w))). destruct (After t (sess_ExpiresAt sess)) eqn:Ha; [by rewrite bind_eq|].
  rewrite bind_eq. destruct (UserRepo_Get (sess_UserID sess) env (tick (tick w))) as [[rec|] w2] eqn:U; [|done].
  destruct (UserRepo_Get_inv (sess_UserID sess) env (tick (tick w)) rec) as [Hu _]; [by rewrite U|]. cbn [fst snd].
  rewrite bind_eq. match goal with |- context [fst (?m env w2)] => destruct (m env w2) as [[[]|] w3]; [|done] end.
  intros [= <-]. exists sess, rec. split_and!; try done. unfold After in Ha. by apply Z.ltb_ge in Ha.
Qed.

Lemma CSRF_refuses r p x : CSRF r p = Some x -> ∃ s c m, x = Refused s c m.
Proof.
  unfold CSRF. destruct (mutating _); [|done]. cbn [negb]. destruct p as [pr|]; [|done]. destruct (p_Type pr); [|done].
  destruct (EqualFold _ _); [done|]. intros [= <-]. by do 3 eexists.
Qed.

Lemma RequireScope_refuses scope p x : RequireScope scope p = Some x -> ∃ s c m, x = Refused s c m.
Proof.
  unfold RequireScope. destruct p as [pr|]; [destruct (HasScope _ _); [done|]|]; intros [= <-]; by do 3 eexists.
Qed.

(** C32: who reaches a handler.  When the chain in front of a group lets a
    request through under a scope, whatever the database answers, there is a
    principal with a scope that grants it.  A token principal was made from the
    bearer secret of the request: a token with the hash of that secret is on
    record, is not expired, and gave its scopes and its jobs.  A session
    principal was made from the cookie of a request that carries no other
    credentials: the session with the hash of the cookie is on record and not
    expired, its user is on record, the scopes are those of the role, and a
    request that changes something carries the header a cross-site form cannot
    send. *)
Theorem guarded_admits scope r env w p cleared :
  (guarded (RequireScope scope) r env w).1 = Next p cleared ->
  let header := TrimSpace (req_Authorization r) in
  ∃ pr, p = Some pr ∧ (∃ s, s ∈ p_Scopes pr ∧ grants s scope)
  ∧ match p_Type pr with
    | AuthToken =>
        ∃ id tok, db_tokens (w_db w) !! id = Some (tok, hashSecret (TrimSpace (sdrop (String.length "bearer ") header)))
          ∧ (∀ e, tok_ExpiresAt tok = Some e -> env_now env (S (w_tick w)) <= e)
          ∧ p_Scopes pr = tok_Scopes tok ∧ p_JobSlugs pr = tok_JobSlugs tok
    | AuthSession =>
        header = "" ∧ ∃ cookie sess rec, req_Cookie r = Some cookie
          ∧ db_sessions (w_db w) !! hashSecret cookie = Some sess
          ∧ env_now env (S (w_tick w)) <= sess_ExpiresAt sess
          ∧ db_users (w_db w) !! sess_UserID sess = Some rec
          ∧ p_User pr = Some (rec_User rec) ∧ p_Scopes pr = ScopesForRole (user_Role (rec_User rec))
          ∧ (mutating (req_Method r) = true -> EqualFold (req_RequestedWith r) CSRFValue = true)
    end.
Proof.
  unfold guarded. rewrite bind_eq. cbn [mret M_ret fst]. intros H. set (header := TrimSpace (req_Authorization r)) in *.
  destruct (Resolve r env w).1 as [|q cl] eqn:R; [done|].
  destruct (CSRF r q) as [x|] eqn:C; [by destruct (CSRF_refuses _ _ _ C) as (? & ? & ? & ->)|].
  destruct (RequireScope scope q) as [x|] eqn:S; [by destruct (RequireScope_refuses _ _ _ S) as (? & ? & ? & ->)|].
  injection H as -> ->. destruct p as [pr|]; [|done]. exists pr. split; [done|].
  unfold RequireScope in S. destruct (HasScope (Some pr) scope) eqn:Hs; [|done]. split; [by apply hasScopeLoop_spec|].
  unfold Resolve in R. fold header in R. case_bool_decide as Hh.
  - destruct (negb (HasPrefix (ToLower header) "bearer ")); [done|]. rewrite bind_eq in R. cbn [mret M_ret fst] in R.
    destruct (ResolveToken _ env w).1 as [p0|err] eqn:T; [|by destruct (errorsIs err ErrNotFound || errorsIs err ErrTokenExpired)]. injection R as -> _.
    apply ResolveToken_inv in T as (id & tok & Hid & -> & He). simpl. by exists id, tok.
  - destruct (req_Cookie r) as [value|] eqn:K; [|done]. case_bool_decide; [done|]. rewrite bind_eq in R. cbn [mret M_ret fst] in R.
    destruct (ResolveSession value env w).1 as [p0|err] eqn:T;
      [|by destruct (errorsIs err ErrNotFound || errorsIs err ErrSessionExpired)]. injection R as -> _.
    apply ResolveSession_inv in T as (sess & rec & H1 & H2 & H3 & ->). split; [destruct (decide (header = "")); [done|by destruct Hh]|].
    exists value, sess, rec. split_and!; try done. intros Hm. unfold CSRF in C. rewrite Hm in C. cbn [negb p_Type] in C.
    by destruct (EqualFold _ _).
Qed.
(** ** The life of a session *)

Lemma CreateSession_inv rand userID ip ua env w secret expires w1 :
  CreateSession rand userID ip ua env w = (Ok (secret, expires), w1) ->
  let t := env_now env (w_tick w) in
  expires = t + SessionTTL ∧ is_Some (db_users (w_db w) !! userID) ∧ db_users (w_db w1) = db_users (w_db w)
  ∧ db_sessions (w_db w1) !! hashSecret secret = Some (mkSession (hashSecret secret) userID t expires t ip ua).
Proof.
  unfold CreateSession. destruct (randomSecret rand) as [sec|]; [|done]. rewrite bind_eq. cbn [now ask fst snd].
  set (t := env_now env (w_tick w)). unfold SessionRepo_Create. rewrite !bind_eq. unfold execWrite.
  destruct (env_db env (w_tick (tick w))); [done|]. cbn [sess_ID sess_UserID].
  destruct (insertRow _ _ _ _ _) as [sessions|] eqn:I; [|done].
  change (w_db (tick w)) with (w_db w) in *. case_bool_decide as U; [|done]. cbn [fst snd mret M_ret].
  intros [= <- <- <-]. cbv zeta. split_and!; try done. simpl. unfold insertRow in I.
  destruct (db_sessions (w_db w) !! hashSecret sec); [done|]. injection I as <-. by rewrite lookup_insert_eq.
Qed.

Lemma SessionRepo_Get_ok id env w :
  dbAnswers env -> SessionRepo_Get id env w
  = (match db_sessions (w_db w) !! id with Some s => Ok s | None => Fail (notFound "session") end, tick w).
Proof. intros H. unfold SessionRepo_Get. by rewrite bind_eq, query_ok. Qed.

Lemma UserRepo_Get_ok id env w :
  dbAnswers env -> UserRepo_Get id env w
  = (match db_users (w_db w) !! id with Some s => Ok s | None => Fail (notFound ("user " +:+ id)) end, tick w).
Proof. intros H. unfold UserRepo_Get. by rewrite bind_eq, query_ok. Qed.

(** A session lives as long as it is used.  A session that was created is
    for a user on record and ends thirty days later.  On a database that
    answers, presenting its secret until then resolves to that user with the
    scopes of his role, and moves the end to thirty days from now when the
    session was idle for more than an hour; presenting it afterwards is refused
    as expired and removes the session; and once it is destroyed its secret
    resolves to nothing. *)
Theorem session_lifecycle rand userID ip ua env w secret expires w1 env' :
  CreateSession rand userID ip ua env w = (Ok (secret, expires), w1) -> dbAnswers env' ->
  let created := env_now env (w_tick w) in
  let t := env_now env' (S (w_tick w1)) in
  let session w := db_sessions (w_db w) !! hashSecret secret in
  expires = created + SessionTTL
  ∧ ∃ rec, db_users (w_db w) !! userID = Some rec
  ∧ (t <= expires ->
      ∃ w2, ResolveSession secret env' w1
            = (Ok (mkPrincipal AuthSession (Some (rec_User rec)) "" "" (ScopesForRole (user_Role (rec_User rec))) []
                     (hashSecret secret)), w2)
        ∧ sess_ExpiresAt <$> session w2 = Some (if Sub t created >? Hour then t + SessionTTL else expires))
  ∧ (expires < t -> ∃ w2, ResolveSession secret env' w1 = (Fail errSessionExpired, w2) ∧ session w2 = None)
  ∧ ∃ w2, DestroySession secret env' w1 = (Ok tt, w2) ∧ session w2 = None
      ∧ ∀ env'', is_ok (ResolveSession secret env'' w2).1 = false.
Proof.
  cbv zeta. intros HC Hdb. destruct (CreateSession_inv _ _ _ _ _ _ _ _ _ HC) as (He & [rec Hrec] & Hu & Hs).
  split; [done|]. exists rec. split; [done|].
  split_and!.
  - intros Ht. unfold ResolveSession. rewrite bind_eq, SessionRepo_Get_ok, Hs by done. cbn [fst snd].
    rewrite bind_eq. cbn [now ask fst snd sess_ExpiresAt sess_UserID sess_LastSeenAt].
    change (w_tick (tick w1)) with (S (w_tick w1)). set (t := env_now env' (S (w_tick w1))) in *.
    assert (Ha : After t expires = false) by by apply Z.ltb_ge. rewrite Ha.
    rewrite bind_eq, UserRepo_Get_ok by done. change (w_db (tick (tick w1))) with (w_db w1). rewrite Hu, Hrec. cbn [fst snd].
    rewrite bind_eq. destruct (Sub t _ >? Hour).
    + unfold SessionRepo_Touch. rewrite bind_eq, execWrite_ok by done. cbn [fst snd mret M_ret].
      eexists. split; [done|]. cbn. unfold updateId. rewrite Hs. simpl. by rewrite lookup_insert_eq.
    + cbn [fst snd mret M_ret]. eexists. split; [done|]. cbn. by rewrite Hs.
  - intros Ht. unfold ResolveSession. rewrite bind_eq, SessionRepo_Get_ok, Hs by done. cbn [fst snd].
    rewrite bind_eq. cbn [now ask fst snd sess_ExpiresAt].
    change (w_tick (tick w1)) with (S (w_tick w1)).
    assert (Ha : After (env_now env' (S (w_tick w1))) expires = true) by by apply Z.ltb_lt. rewrite Ha.
    rewrite bind_eq. unfold SessionRepo_Delete. rewrite bind_eq, execWrite_ok by done. cbn [fst snd mret M_ret].
    eexists. split; [done|]. cbn. by rewrite lookup_delete_eq.
  - unfold DestroySession, SessionRepo_Delete. rewrite bind_eq, execWrite_ok by done. cbn [fst snd mret M_ret].
    eexists. split; [done|]. split; [cbn; by rewrite lookup_delete_eq|]. intros env''.
    destruct (ResolveSession secret env'' _).1 as [p|] eqn:R; [|done]. exfalso.
    apply ResolveSession_inv in R as (sess & rec' & H & _). cbn in H. by rewrite lookup_delete_eq in H.
Qed.
End auth.

(** A viewer signs in, reads, and may not change anything without the header. *)
Definition sampleViewer : UserRecord := mkUserRecord (mkUser "u1" "ann@example.org" "Ann" RoleViewer sampleTime None) "".

Lemma session_lifecycle_witness :
  let w := set_w_db (set_db_users {[ "u1" := sampleViewer ]} sampleDB) sampleWorld in
  let r := CreateSession (Ok "0123456789abcdef0123456789abcdef") "u1" "::1" "curl" sampleEnv w in
  ∃ secret expires, r.1 = Ok (secret, expires) ∧ expires = sampleTime + SessionTTL
    ∧ ∃ w2, ResolveSession secret sampleEnv r.2
          = (Ok (mkPrincipal AuthSession (Some (rec_User sampleViewer)) "" "" [ScopeRead] [] (hashSecret secret)), w2).
Proof.
  intros w r. destruct r as [[[secret expires]|] w1] eqn:E; [|vm_compute in E; discriminate E]. exists secret, expires.
  destruct (session_lifecycle (Ok "0123456789abcdef0123456789abcdef") "u1" "::1" "curl" sampleEnv w secret expires w1 sampleEnv E)
    as (H1 & rec & H2 & H3 & _); [by intros k|].
  assert (Hr : rec = sampleViewer) by (vm_compute in H2; by injection H2 as <-).
  assert (Ht : w_tick w1 = 2%nat) by (vm_compute in E; injection E as _ _ <-; reflexivity).
  split; [done|]. split; [exact H1|]. subst rec.
  destruct H3 as (w2 & H3 & _); [|by exists w2]. rewrite Ht. rewrite H1. vm_compute. congruence.
Defined.

Lemma guarded_admits_witness :
  let sess := mkSession (hashSecret "cookie") "u1" sampleTime (sampleTime + Day) sampleTime "" "" in
  let w := set_w_db (set_db_sessions {[ hashSecret "cookie" := sess ]} (set_db_users {[ "u1" := sampleViewer ]} sampleDB)) sampleWorld in
  let r := mkRequest "GET" "" "" (Some "cookie") in
  ∃ p cleared, (guarded (RequireScope ScopeRead) r sampleEnv w).1 = Next p cleared
    ∧ ∃ pr, p = Some pr ∧ ∃ s, s ∈ p_Scopes pr ∧ grants s ScopeRead.
Proof.
  intros sess w r. destruct (guarded (RequireScope ScopeRead) r sampleEnv w).1 as [|p cleared] eqn:E; [vm_compute in E; discriminate E|].
  exists p, cleared. split; [done|]. destruct (guarded_admits ScopeRead r sampleEnv w p cleared E) as (pr & H1 & H2 & _).
  by exists pr.
Defined.
