(* ===== verification/ServerBase.v ===== *)
(** * The server: requests, responses, errors ([internal/server/errors.go],
    [audit.go], [principal.go])

    A handler is a program of the monad that reads an [Inbound] request, with
    its decoded body as an argument, and answers with a [Response].  Decoding
    and encoding JSON is not part of the model: a body is the record the code
    decodes into, or the error of the decoder. *)
From S2P Require Import Prelude GoStrings GoTime Core CoreSetters Config Pack Spool Secrets Db Remote StoreCommon StoreConfig StoreAdmin.
From S2P Require Import Drivers Restore Password Auth.
Open Scope Z_scope.

(** ** Requests

    What a handler sees: the principal the middleware resolved, the address of
    the client, the user agent, the session cookie, the query. *)
Record Inbound := mkInbound {
  in_principal : option Principal;
  in_ip : string;
  in_agent : string;
  in_cookie : option string;
  in_query : string -> string
}.

Definition actorLabel (r : Inbound) : string := Label (in_principal r).

Definition query_text (r : Inbound) (name : string) : string := TrimSpace (in_query r name).

(** ** Errors *)

Definition codeValidation : string := "validation_failed".
Definition codeUnauthenticated : string := "unauthenticated".
Definition codeForbidden : string := "forbidden".
Definition codeNotFound : string := "not_found".
Definition codeConflict : string := "conflict".
Definition codeLocked : string := "locked".
Definition codeInternal : string := "internal".
Definition codeBadRequest : string := "bad_request".

Record validationError := mkValidation { ve_Message : string; ve_Fields : gmap string string }.

Definition newValidationError (message : string) : validationError := mkValidation message ∅.

Definition ve_field (name message : string) (v : validationError) : validationError :=
  mkValidation (ve_Message v) (<[name := message]> (ve_Fields v)).

Definition ve_fieldIf (b : bool) (name message : string) (v : validationError) : validationError :=
  if b then ve_field name message v else v.

Definition ve_empty (v : validationError) : bool := bool_decide (ve_Fields v = ∅).

Definition invalidField (message name text : string) : validationError :=
  ve_field name text (newValidationError message).

(** The errors of the server: a validation error, or one of the layers below. *)
Inductive serverError := Invalid (v : validationError) | Below (e : error).

Inductive outcome (A : Type) := Good (a : A) | Bad (e : serverError).
Arguments Good {A} a.
Arguments Bad {A} e.

Notation "'do!' x ':=' m 'else' e => h 'in' k" :=
  (mbind (M := M) (λ r, match r with Good x => k | Bad e => h end) m)
  (at level 10, x pattern, e name, m at level 100, h at level 100, k at level 200)
  : go_scope.

Notation "'let!' x ':=' r 'else' e => h 'in' k" :=
  (match r with Good x => k | Bad e => h end)
  (at level 10, x pattern, e name, r at level 100, h at level 100, k at level 200)
  : go_scope.

Definition below {A} (r : result A) : outcome A :=
  match r with Ok a => Good a | Fail e => Bad (Below e) end.

(** A body as [decodeBody] returns it: [None] when there is no body. *)
Definition decodeBody {A} (body : option (result A)) : outcome A :=
  match body with
  | None => Bad (Invalid (newValidationError "request body is required"))
  | Some (Fail err) => Bad (Invalid (newValidationError ("invalid JSON body: " +:+ err_msg err)))
  | Some (Ok a) => Good a
  end.

(** The empty body leaves the value as it was. *)
Definition decodeOptionalBody {A} (zero : A) (body : option (result A)) : outcome A :=
  match body with
  | None => Good zero
  | Some (Fail err) => Bad (Invalid (newValidationError ("invalid JSON body: " +:+ err_msg err)))
  | Some (Ok a) => Good a
  end.

(** ** Pages and flags of the query *)

Definition pageFromRequest (r : Inbound) : outcome Page :=
  let! limit :=
    (let v := query_text r "limit" in
     if bool_decide (v = "") then Good 0
     else match Atoi v with
          | Some n =>
              if n <? 0 then Bad (Invalid (invalidField "limit must be a non-negative integer" "limit" "invalid"))
              else Good (if n >? MaxLimit then MaxLimit else n)
          | None => Bad (Invalid (invalidField "limit must be a non-negative integer" "limit" "invalid"))
          end)
    else e => Bad e in
  let! offset :=
    (let v := query_text r "offset" in
     if bool_decide (v = "") then Good 0
     else match Atoi v with
          | Some n =>
              if n <? 0 then Bad (Invalid (invalidField "offset must be a non-negative integer" "offset" "invalid"))
              else Good n
          | None => Bad (Invalid (invalidField "offset must be a non-negative integer" "offset" "invalid"))
          end)
    else e => Bad e in
  Good (mkPage limit offset).

Definition queryBool (r : Inbound) (name : string) : bool :=
  existsb (String.eqb (ToLower (query_text r name))) ["1"; "true"; "yes"; "on"].

Definition containsString (list_ : list string) (v : string) : bool := existsb (λ item, String.eqb item v) list_.

(** ** Access of tokens to jobs *)

Definition requireJobAccess (r : Inbound) (slug : string) : option error :=
  match in_principal r with
  | None => None
  | Some p => match p_Type p with AuthToken => RequireJobAccess (Some p) slug | AuthSession => None end
  end.

(** ** The audit log *)

Section audit.
  Context {D : Digest} {A : Argon2}.

(** [p] when the handler names one, else the principal of the request.  An entry
    that cannot be recorded is logged. *)
Definition audit (r : Inbound) (p : option Principal) (action objectType objectID objectName : string)
    (details : gmap string Value) : M unit :=
  let p := match p with None => in_principal r | Some p => Some p end in
  t ← now;
  _ ← AuditRepo_Record {| audit_ID := ""; audit_Time := t; audit_ActorID := Principal_ID p; audit_ActorLabel := Label p;
                          audit_Action := action; audit_ObjectType := objectType; audit_ObjectID := objectID;
                          audit_ObjectName := objectName; audit_Details := details; audit_IP := in_ip r |};
  mret tt.
End audit.

(** ** Time parameters *)

(** [getnum(value, fixed)]: one or two digits, two when [fixed]. *)
Definition getnum (fixed : bool) (s : string) : option (Z * string) :=
  match s with
  | String a rest =>
      if is_digit a then
        match rest with
        | String b rest' =>
            if is_digit b then Some (10 * (Z.of_N (code a) - 48) + (Z.of_N (code b) - 48), rest')
            else if fixed then None else Some (Z.of_N (code a) - 48, rest)
        | "" => if fixed then None else Some (Z.of_N (code a) - 48, rest)
        end
      else None
  | "" => None
  end.

Definition literal (c : ascii) (s : string) : option string :=
  match s with
  | String a rest => if Ascii.eqb a c then Some rest else None
  | "" => None
  end.

Fixpoint spanDigit (s : string) : string * string :=
  match s with
  | String a rest => if is_digit a then let '(d, r) := spanDigit rest in (String a d, r) else ("", s)
  | "" => ("", "")
  end.

(** The fraction after the seconds, in nanoseconds: a point or a comma and at
    least a digit; digits after the ninth are dropped. *)
Definition fraction (s : string) : Z * string :=
  match s with
  | String c rest =>
      if Ascii.eqb c "." || Ascii.eqb c "," then
        let '(digits, rest') := spanDigit rest in
        if bool_decide (digits = "") then (0, s)
        else
          let d := stake 9 digits in
          (default 0 (parse_digits d 0) * 10 ^ (9 - Z.of_nat (String.length d)), rest')
      else (0, s)
  | "" => (0, s)
  end.

(** [Z07:00]: the offset in seconds. *)
Definition zone (s : string) : option (Z * string) :=
  match s with
  | String "Z" rest => Some (0, rest)
  | String c rest =>
      if Ascii.eqb c "+" || Ascii.eqb c "-" then
        '(h, rest) ← getnum true rest; rest ← literal ":" rest; '(m, rest) ← getnum true rest;
        if (h >? 24) || (m >? 60) then None
        else Some (((if Ascii.eqb c "-" then -1 else 1) * (h * 60 + m) * 60), rest)
      else None
  | "" => None
  end.

Definition isLeap (y : Z) : bool := (y mod 4 =? 0) && (negb (y mod 100 =? 0) || (y mod 400 =? 0)).

Definition daysIn (m y : Z) : Z :=
  if m =? 2 then (if isLeap y then 29 else 28)
  else if existsb (Z.eqb m) [4; 6; 9; 11] then 30 else 31.

(** [2006-01-02]. *)
Definition parseDate (s : string) : option (Z * string) :=
  let y := stake 4 s in
  year ← (if (String.length y =? 4)%nat && sall is_digit y then parse_digits y 0 else None);
  rest ← literal "-" (sdrop 4 s); '(month, rest) ← getnum true rest;
  rest ← literal "-" rest; '(day, rest) ← getnum true rest;
  if (month <=? 0) || (month >? 12) || (day <? 1) || (day >? daysIn month year) then None
  else Some (days_from_civil year month day * Day, rest).

(** [15:04:05] with its fraction. *)
Definition parseClock (s : string) : option (Z * string) :=
  '(h, rest) ← getnum false s; rest ← literal ":" rest; '(m, rest) ← getnum true rest;
  rest ← literal ":" rest; '(sec, rest) ← getnum true rest;
  if (h >=? 24) || (m >=? 60) || (sec >=? 60) then None
  else let '(ns, rest) := fraction rest in Some (h * Hour + m * Minute + sec * Second + ns, rest).

(** [time.Parse] with the layouts [RFC3339], [2006-01-02T15:04:05] and
    [2006-01-02]. *)
Definition parseZoned (v : string) : option Time :=
  '(d, rest) ← parseDate v; rest ← literal "T" rest; '(c, rest) ← parseClock rest; '(off, rest) ← zone rest;
  if bool_decide (rest = "") then Some (d + c - off * Second) else None.

Definition parseLocal (v : string) : option Time :=
  '(d, rest) ← parseDate v; rest ← literal "T" rest; '(c, rest) ← parseClock rest;
  if bool_decide (rest = "") then Some (d + c) else None.

Definition parseDay (v : string) : option Time :=
  '(d, rest) ← parseDate v; if bool_decide (rest = "") then Some d else None.

(** [time.Unix(secs, 0)]: the seconds since year 1 are an int64. *)
Definition fromUnix (secs : Z) : Time := (wrap64 (secs + 62135596800) - 62135596800) * Second.

Definition parseTimeParam (r : Inbound) (name : string) : outcome Time :=
  let v := query_text r name in
  if bool_decide (v = "") then Good zeroTime
  else
    match parseZoned v with
    | Some t => Good t
    | None =>
        match parseLocal v with
        | Some t => Good t
        | None =>
            match parseDay v with
            | Some t => Good t
            | None =>
                match Atoi v with
                | Some secs => Good (fromUnix secs)
                | None => Bad (Invalid (invalidField ("invalid timestamp for " +:+ name) name "expected RFC3339 or YYYY-MM-DD"))
                end
            end
        end
    end.

Example parse_rfc : parseZoned "2024-02-29T23:59:60Z" = None ∧ parseZoned "2024-02-29T3:04:05.25+01:30" = Some (1709170445250000000).
Proof. by vm_compute. Qed.

(** * Responses: what the handlers write

    A status, a body by the type of what is encoded, and what happens to the
    session cookie. *)

(** ** The export document: [internal/server/export.go] *)

Record exportHost := mkExportHost {
  xh_Name : string; xh_Description : string; xh_Address : string; xh_Port : Z; xh_User : string;
  xh_Auth : HostAuth; xh_PrivateKey : string; xh_KeyPassphrase : string; xh_Password : string;
  xh_HostKey : string; xh_Sudo : bool; xh_ConnectTimeoutSeconds : Z; xh_Tags : list string
}.

Record exportSource := mkExportSource {
  xs_Name : string; xs_Kind : string; xs_Description : string; xs_Config : Config; xs_Host : string; xs_Tags : list string
}.

Record exportDestination := mkExportDestination {
  xd_Name : string; xd_Kind : string; xd_Description : string; xd_Config : Config; xd_Tags : list string
}.

Record exportJob := mkExportJob {
  xj_Slug : string; xj_Name : string; xj_Description : string; xj_Source : string; xj_Destinations : list string;
  xj_Schedule : string; xj_Timezone : string; xj_Enabled : bool; xj_Compression : Compression;
  xj_CompressionLevel : Z; xj_Encryption : Encryption; xj_EncryptionPassphrase : string; xj_Retention : Retention;
  xj_NotificationChannels : list string; xj_NotifyOn : list string; xj_TimeoutMinutes : Z; xj_Retries : Z;
  xj_RetryDelaySeconds : Z; xj_PreCommand : string; xj_PostCommand : string; xj_VerifyAfterUpload : bool;
  xj_ExpectedIntervalMinutes : Z; xj_Tags : list string
}.

Record exportChannel := mkExportChannel {
  xc_Name : string; xc_Kind : string; xc_Enabled : bool; xc_Events : list string; xc_Config : Config
}.

Record exportDocument := mkExportDocument {
  doc_Version : Z; doc_ExportedAt : Time; doc_Hosts : list exportHost; doc_Sources : list exportSource;
  doc_Destinations : list exportDestination; doc_Jobs : list exportJob; doc_Channels : list exportChannel
}.

Record importChange := mkChange { chg_Kind : string; chg_Name : string; chg_Action : string; chg_Note : string }.

(** ** Bodies *)

Inductive Body :=
  | NoBody
  | BodyError (code message : string) (fields : gmap string string)
  | BodyJob (j : Job) | BodyJobs (items : list Job) (total : Z)
  | BodySource (s : Source) | BodySources (items : list Source) (total : Z)
  | BodyDestination (d : Destination) | BodyDestinations (items : list Destination) (total : Z)
  | BodyHost (h : Host) | BodyHosts (items : list Host) (total : Z)
  | BodyChannel (c : NotificationChannel) | BodyChannels (items : list NotificationChannel) (total : Z)
  | BodyRun (r : Run) | BodyRuns (items : list Run) (total : Z) | BodyLog (text : string) (size : Z)
  | BodyArtifact (a : Artifact) | BodyArtifacts (items : list Artifact) (total : Z)
  | BodyDownload (body : Reader) (filename sha256 : string) (length : option Z)
  | BodyIngest (r : Run) (artifacts : list Artifact)
  | BodyTimes (items : list Time)
  | BodySettings (s : Settings)
  | BodyUser (u : User) | BodyUsers (items : list User)
  | BodyToken (t : APIToken) (secret : string) | BodyTokens (items : list APIToken)
  | BodyAudit (items : list AuditEntry) (total : Z)
  | BodyTest (t : TestResult) | BodyHostTest (t : HostTestResult)
  | BodyObjects (items : list Object)
  | BodyKeys (private public : string)
  | BodyExport (doc : exportDocument)
  | BodyImport (dryRun : bool) (changes : list importChange)
  | BodyNeedsSetup (needs : bool)
  | BodyMe (p : option Principal)
  | BodySpecs (items : list DriverSpec)
  | BodyText (items : list string)
  | BodyReady (scheduler : bool).

Inductive Cookie := KeepCookie | SetCookie (secret : string) (expires : Time) | ClearCookie.

Record Response := mkResponse { resp_Status : Z; resp_Body : Body; resp_Cookie : Cookie }.

Definition writeJSON (status : Z) (b : Body) : Response := mkResponse status b KeepCookie.

Definition writeError (status : Z) (code message : string) : Response := writeJSON status (BodyError code message ∅).

(** [s.fail]. *)
Definition fail (e : serverError) : Response :=
  match e with
  | Invalid v =>
      let message := if bool_decide (ve_Message v = "") then "validation failed" else ve_Message v in
      writeJSON 400 (BodyError codeValidation message (ve_Fields v))
  | Below err =>
      if errorsIs err ErrNotFound then writeError 404 codeNotFound (err_msg err)
      else if errorsIs err ErrConflict then writeError 409 codeConflict (err_msg err)
      else if errorsIs err ErrJobBusy then writeError 423 codeLocked (err_msg err)
      else if errorsIs err ErrQueueFull then writeError 503 codeInternal (err_msg err)
      else writeError 500 codeInternal (err_msg err)
  end.

Definition failBelow (err : error) : Response := fail (Below err).
Definition failInvalid (v : validationError) : Response := fail (Invalid v).
