(* ===== verification/ServerConfig.v ===== *)
(** * Handlers for sources, destinations and channels:
    [internal/server/driverconfig.go], [sources.go], [destinations.go],
    [channels.go] *)
From S2P Require Import Prelude GoStrings GoTime Core CoreSetters Config Secrets Spool Db StoreCommon StoreJobs StoreConfig StoreAdmin.
From S2P Require Import Drivers Password Auth ServerBase.
Open Scope Z_scope.

Section config.
  Context {A : AEAD} {Dr : Drivers} {D : Digest} {Ar : Argon2} {sprint_host : SprintHost}.

(** ** Configurations *)

Record preparedConfig := mkPrepared { pc_Plain : Config; pc_Encrypted : Config; pc_Spec : DriverSpec }.

Definition prepareConfigOnHost (spec : DriverSpec) (incoming previous : Config) (host : option Host)
    (validate : Config -> option error) : M (outcome preparedConfig) :=
  let fields := SecretFields spec in
  let merged := MergeSecrets incoming previous fields in
  match DecryptConfig merged fields with
  | Fail err => mret (Bad (Below err))
  | Ok plain =>
      let checked := WithHost plain host in
      match ValidateRequired spec checked with
      | Some err => mret (Bad (Invalid (invalidField (err_msg err) "config" (err_msg err))))
      | None =>
          match validate checked with
          | Some err => mret (Bad (Invalid (invalidField (err_msg err) "config" (err_msg err))))
          | None =>
              rand ← ask env_rand;
              mret (match EncryptConfig rand plain fields with
                    | Fail err => Bad (Below err)
                    | Ok encrypted => Good (mkPrepared plain encrypted spec)
                    end)
          end
      end
  end.

Definition prepareConfig (spec : DriverSpec) (incoming previous : Config) (validate : Config -> option error)
    : M (outcome preparedConfig) :=
  prepareConfigOnHost spec incoming previous None validate.

Definition knownKind (what : string) (get : string -> option DriverSpec) (kind : string) : outcome DriverSpec :=
  match get kind with
  | Some spec => Good spec
  | None => Bad (Invalid (invalidField ("unknown " +:+ what +:+ " kind " +:+ Quote kind) "kind" "unknown"))
  end.

Definition sourceSpec : string -> outcome DriverSpec := knownKind "source" source_Get.
Definition destinationSpec : string -> outcome DriverSpec := knownKind "destination" dest_Get.
Definition notifierSpec : string -> outcome DriverSpec := knownKind "notifier" notify_Get.

Definition maskConfig (spec : option DriverSpec) (cfg : Config) : Config :=
  match spec with Some spec => Masked cfg (SecretFields spec) | None => ∅ end.

Definition maskSource (src : Source) : Source := set_src_Config (maskConfig (source_Get (src_Kind src)) (src_Config src)) src.
Definition maskDestination (d : Destination) : Destination := set_dst_Config (maskConfig (dest_Get (dst_Kind d)) (dst_Config d)) d.
Definition maskChannel (c : NotificationChannel) : NotificationChannel :=
  set_chan_Config (maskConfig (notify_Get (chan_Kind c)) (chan_Config c)) c.

Definition maskJob (j : Job) : Job :=
  if bool_decide (job_EncryptionPassphrase j ≠ "") then set_job_EncryptionPassphrase SecretMask j else j.

Definition maskJobs (jobs : list Job) : list Job := maskJob <$> jobs.

(** ** Sources *)

Record sourceRequest := mkSourceRequest {
  sq_Name : string; sq_Kind : string; sq_Description : string; sq_Config : Config; sq_HostID : string; sq_Tags : list string
}.

Record driverTestRequest := mkDriverTest { dt_Kind : string; dt_Config : Config; dt_HostID : string }.

Definition invalidSource (name text : string) : validationError := invalidField "invalid source" name text.

Definition validateSourceHost (spec : DriverSpec) (hostID : string) : M (outcome (string * option Host)) :=
  let hostID := TrimSpace hostID in
  if bool_decide (hostID = "") then mret (Good ("", None))
  else if negb (DriverSpec_Has spec CapRemote)
  then mret (Bad (Invalid (invalidSource "hostId" "this driver cannot run on a host")))
  else
    do? host := HostRepo_Get hostID
      else err => mret (Bad (if errorsIs err ErrNotFound then Invalid (invalidSource "hostId" "host does not exist")
                             else Below err)) in
    mret (Good (host_ID host, Some host)).

Definition handleListSources (r : Inbound) : M Response :=
  let! page := pageFromRequest r else e => mret (fail e) in
  let filter := mkSourceFilter (query_text r "kind") (query_text r "host") (query_text r "q") page in
  do? (items, total) := SourceRepo_List filter else err => mret (failBelow err) in
  mret (writeJSON 200 (BodySources (maskSource <$> items) total)).

Definition handleGetSource (id : string) : M Response :=
  do? src := SourceRepo_Get id else err => mret (failBelow err) in
  mret (writeJSON 200 (BodySource (maskSource src))).

Definition handleCreateSource (r : Inbound) (body : option (result sourceRequest)) : M Response :=
  let! req := decodeBody body else e => mret (fail e) in
  let ve := ve_fieldIf (Blank (sq_Kind req)) "kind" "required"
              (ve_fieldIf (Blank (sq_Name req)) "name" "required" (newValidationError "invalid source")) in
  if negb (ve_empty ve) then mret (failInvalid ve)
  else
    let! spec := sourceSpec (sq_Kind req) else e => mret (fail e) in
    do! (hostID, host) := validateSourceHost spec (sq_HostID req) else e => mret (fail e) in
    do! prepared := prepareConfigOnHost spec (sq_Config req) ∅ host (source_Validate (sq_Kind req))
      else e => mret (fail e) in
    do? src := SourceRepo_Create (mkSource "" (TrimSpace (sq_Name req)) (sq_Kind req) (sq_Description req)
                 (pc_Encrypted prepared) hostID "" (sq_Tags req) zeroTime zeroTime None None "" 0)
      else err => mret (failBelow err) in
    audit r None "source.create" "source" (src_ID src) (src_Name src) {[ "kind" := VString (src_Kind src) ]};;
    do? created := SourceRepo_Get (src_ID src) else err => mret (failBelow err) in
    mret (writeJSON 201 (BodySource (maskSource created))).

Definition handleUpdateSource (r : Inbound) (id : string) (body : option (result sourceRequest)) : M Response :=
  do? existing := SourceRepo_Get id else err => mret (failBelow err) in
  let! req := decodeBody body else e => mret (fail e) in
  if Blank (sq_Name req) then mret (failInvalid (invalidSource "name" "required"))
  else
    let kind := if Blank (sq_Kind req) then src_Kind existing else sq_Kind req in
    let! spec := sourceSpec kind else e => mret (fail e) in
    let previous := if String.eqb kind (src_Kind existing) then src_Config existing else ∅ in
    do! (hostID, host) := validateSourceHost spec (sq_HostID req) else e => mret (fail e) in
    do! prepared := prepareConfigOnHost spec (sq_Config req) previous host (source_Validate kind)
      else e => mret (fail e) in
    let existing := set_src_Name (TrimSpace (sq_Name req)) (set_src_Kind kind (set_src_Description (sq_Description req)
                      (set_src_Config (pc_Encrypted prepared) (set_src_HostID hostID (set_src_Tags (sq_Tags req) existing))))) in
    u ← SourceRepo_Update existing;
    match u.2 with
    | Some err => mret (failBelow err)
    | None =>
        do? updated := SourceRepo_Get (src_ID existing) else err => mret (failBelow err) in
        audit r None "source.update" "source" (src_ID updated) (src_Name updated) {[ "kind" := VString (src_Kind updated) ]};;
        mret (writeJSON 200 (BodySource (maskSource updated)))
    end.

Definition handleDeleteSource (r : Inbound) (id : string) : M Response :=
  do? src := SourceRepo_Get id else err => mret (failBelow err) in
  if src_JobCount src >? 0 then mret (writeError 409 codeConflict "source is used by jobs")
  else
    do? _ := SourceRepo_Delete (src_ID src) else err => mret (failBelow err) in
    audit r None "source.delete" "source" (src_ID src) (src_Name src) ∅;;
    mret (writeJSON 204 NoBody).

(** The route has no [id]: the code still reads one. *)
Definition handleTestSourceConfig (id : string) (body : option (result driverTestRequest)) : M Response :=
  let! req := decodeBody body else e => mret (fail e) in
  let! spec := sourceSpec (dt_Kind req) else e => mret (fail e) in
  let cfg := dt_Config req in
  let hostID := TrimSpace (dt_HostID req) in
  p ← (let id := TrimSpace id in
       if bool_decide (id = "") then mret (cfg, hostID)
       else
         do? existing := SourceRepo_Get id else _ => mret (cfg, hostID) in
         mret (MergeSecrets cfg (src_Config existing) (SecretFields spec),
               if bool_decide (hostID = "") then src_HostID existing else hostID));
  let '(cfg, hostID) := p in
  match DecryptConfig cfg (SecretFields spec) with
  | Fail err => mret (failBelow err)
  | Ok plain =>
      do! _ := validateSourceHost spec hostID else e => mret (fail e) in
      result ← TestSourceConfig (dt_Kind req) plain hostID;
      mret (writeJSON 200 (BodyTest result))
  end.

Definition handleTestSource (r : Inbound) (id : string) (body : option (result driverTestRequest)) : M Response :=
  do? src := SourceRepo_Get id else err => mret (failBelow err) in
  let! req := decodeOptionalBody (mkDriverTest "" ∅ "") body else e => mret (fail e) in
  let hostID := TrimSpace (dt_HostID req) in
  do! src :=
    (if bool_decide (hostID = "") then mret (Good src)
     else
       let! spec := sourceSpec (src_Kind src) else e => mret (Bad e) in
       do! _ := validateSourceHost spec hostID else e => mret (Bad e) in
       mret (Good (set_src_HostID hostID src)))
    else e => mret (fail e) in
  result ← TestSource src;
  t ← now;
  do? _ := SourceRepo_SetTestResult (src_ID src) (test_OK result) (test_Message result) t else err => mret (failBelow err) in
  audit r None "source.test" "source" (src_ID src) (src_Name src) {[ "ok" := VBool (test_OK result) ]};;
  mret (writeJSON 200 (BodyTest result)).

(** ** Destinations *)

Record destinationRequest := mkDestinationRequest {
  dq_Name : string; dq_Kind : string; dq_Description : string; dq_Config : Config; dq_Tags : list string
}.

Definition handleListDestinations (r : Inbound) : M Response :=
  let! page := pageFromRequest r else e => mret (fail e) in
  let filter := mkDestinationFilter (query_text r "kind") (query_text r "q") page in
  do? (items, total) := DestinationRepo_List filter else err => mret (failBelow err) in
  mret (writeJSON 200 (BodyDestinations (maskDestination <$> items) total)).

Definition handleGetDestination (id : string) : M Response :=
  do? d := DestinationRepo_Get id else err => mret (failBelow err) in
  mret (writeJSON 200 (BodyDestination (maskDestination d))).

Definition handleCreateDestination (r : Inbound) (body : option (result destinationRequest)) : M Response :=
  let! req := decodeBody body else e => mret (fail e) in
  let ve := ve_fieldIf (Blank (dq_Kind req)) "kind" "required"
              (ve_fieldIf (Blank (dq_Name req)) "name" "required" (newValidationError "invalid destination")) in
  if negb (ve_empty ve) then mret (failInvalid ve)
  else
    let! spec := destinationSpec (dq_Kind req) else e => mret (fail e) in
    do! prepared := prepareConfig spec (dq_Config req) ∅ (dest_Validate (dq_Kind req)) else e => mret (fail e) in
    do? d := DestinationRepo_Create (mkDestination "" (TrimSpace (dq_Name req)) (dq_Kind req) (dq_Description req)
               (pc_Encrypted prepared) (dq_Tags req) zeroTime zeroTime None None "" 0 0 0)
      else err => mret (failBelow err) in
    audit r None "destination.create" "destination" (dst_ID d) (dst_Name d) {[ "kind" := VString (dst_Kind d) ]};;
    mret (writeJSON 201 (BodyDestination (maskDestination d))).

Definition handleUpdateDestination (r : Inbound) (id : string) (body : option (result destinationRequest)) : M Response :=
  do? existing := DestinationRepo_Get id else err => mret (failBelow err) in
  let! req := decodeBody body else e => mret (fail e) in
  if Blank (dq_Name req) then mret (failInvalid (invalidField "invalid destination" "name" "required"))
  else
    let kind := if Blank (dq_Kind req) then dst_Kind existing else dq_Kind req in
    let! spec := destinationSpec kind else e => mret (fail e) in
    let previous := if String.eqb kind (dst_Kind existing) then dst_Config existing else ∅ in
    do! prepared := prepareConfig spec (dq_Config req) previous (dest_Validate kind) else e => mret (fail e) in
    let existing := set_dst_Name (TrimSpace (dq_Name req)) (set_dst_Kind kind (set_dst_Description (dq_Description req)
                      (set_dst_Config (pc_Encrypted prepared) (set_dst_Tags (dq_Tags req) existing)))) in
    u ← DestinationRepo_Update existing;
    match u.2 with
    | Some err => mret (failBelow err)
    | None =>
        let updated := u.1 in
        audit r None "destination.update" "destination" (dst_ID updated) (dst_Name updated) {[ "kind" := VString (dst_Kind updated) ]};;
        mret (writeJSON 200 (BodyDestination (maskDestination updated)))
    end.

Definition handleDeleteDestination (r : Inbound) (id : string) : M Response :=
  do? d := DestinationRepo_Get id else err => mret (failBelow err) in
  if dst_JobCount d >? 0 then mret (writeError 409 codeConflict "destination is used by jobs")
  else
    do? _ := DestinationRepo_Delete (dst_ID d) else err => mret (failBelow err) in
    audit r None "destination.delete" "destination" (dst_ID d) (dst_Name d) ∅;;
    mret (writeJSON 204 NoBody).

Definition handleTestDestinationConfig (body : option (result driverTestRequest)) : M Response :=
  let! req := decodeBody body else e => mret (fail e) in
  let! spec := destinationSpec (dt_Kind req) else e => mret (fail e) in
  match DecryptConfig (dt_Config req) (SecretFields spec) with
  | Fail err => mret (failBelow err)
  | Ok plain =>
      result ← TestDestinationConfig (dt_Kind req) plain;
      mret (writeJSON 200 (BodyTest result))
  end.

Definition handleTestDestination (r : Inbound) (id : string) : M Response :=
  do? d := DestinationRepo_Get id else err => mret (failBelow err) in
  result ← TestDestinationConfig (dst_Kind d) (dst_Config d);
  t ← now;
  do? _ := DestinationRepo_SetTestResult (dst_ID d) (test_OK result) (test_Message result) t else err => mret (failBelow err) in
  audit r None "destination.test" "destination" (dst_ID d) (dst_Name d) {[ "ok" := VBool (test_OK result) ]};;
  mret (writeJSON 200 (BodyTest result)).

(** [e.BrowseDestination]. *)
Definition BrowseDestination (d : Destination) (prefix : string) : M (result (list Object)) :=
  do? client := OpenDestination d else err => mret (Fail err) in
  items ← ask env_list;
  record (CallList (dst_ID client) prefix);;
  mret (match items with
        | Fail err => Fail (wrapError ("list destination " +:+ dst_Name d) err)
        | Ok items => Ok items
        end).

Definition handleBrowseDestination (r : Inbound) (id : string) : M Response :=
  do? d := DestinationRepo_Get id else err => mret (failBelow err) in
  do? items := BrowseDestination d (query_text r "prefix")
    else err => mret (writeError 502 codeInternal (err_msg err)) in
  mret (writeJSON 200 (BodyObjects items)).

(** ** Channels *)

Record channelRequest := mkChannelRequest {
  cq_Name : string; cq_Kind : string; cq_Config : Config; cq_Enabled : option bool; cq_Events : list string
}.

(** The field says the last unknown event. *)
Definition checkEvents (field : string) (events : list string) (ve : validationError) : validationError :=
  foldl (λ ve ev, ve_fieldIf (negb (containsString AllEvents ev)) field ("unknown event: " +:+ ev) ve) ve events.

Definition validateChannelEvents (events : list string) : option validationError :=
  let ve := checkEvents "events" events (newValidationError "invalid channel") in
  if ve_empty ve then None else Some ve.

Definition handleListChannels : M Response :=
  do? items := ChannelRepo_List else err => mret (failBelow err) in
  mret (writeJSON 200 (BodyChannels (maskChannel <$> items) (Z.of_nat (length items)))).

Definition handleGetChannel (id : string) : M Response :=
  do? c := ChannelRepo_Get id else err => mret (failBelow err) in
  mret (writeJSON 200 (BodyChannel (maskChannel c))).

Definition handleCreateChannel (r : Inbound) (body : option (result channelRequest)) : M Response :=
  let! req := decodeBody body else e => mret (fail e) in
  let ve := ve_fieldIf (Blank (cq_Kind req)) "kind" "required"
              (ve_fieldIf (Blank (cq_Name req)) "name" "required" (newValidationError "invalid channel")) in
  if negb (ve_empty ve) then mret (failInvalid ve)
  else
    match validateChannelEvents (cq_Events req) with
    | Some ve => mret (failInvalid ve)
    | None =>
        let! spec := notifierSpec (cq_Kind req) else e => mret (fail e) in
        do! prepared := prepareConfig spec (cq_Config req) ∅ (notify_Validate (cq_Kind req)) else e => mret (fail e) in
        do? c := ChannelRepo_Create (mkChannel "" (TrimSpace (cq_Name req)) (cq_Kind req) (pc_Encrypted prepared)
                   (default true (cq_Enabled req)) (cq_Events req) zeroTime zeroTime None "")
          else err => mret (failBelow err) in
        audit r None "channel.create" "channel" (chan_ID c) (chan_Name c) {[ "kind" := VString (chan_Kind c) ]};;
        mret (writeJSON 201 (BodyChannel (maskChannel c)))
    end.

Definition handleUpdateChannel (r : Inbound) (id : string) (body : option (result channelRequest)) : M Response :=
  do? existing := ChannelRepo_Get id else err => mret (failBelow err) in
  let! req := decodeBody body else e => mret (fail e) in
  if Blank (cq_Name req) then mret (failInvalid (invalidField "invalid channel" "name" "required"))
  else
    match validateChannelEvents (cq_Events req) with
    | Some ve => mret (failInvalid ve)
    | None =>
        let kind := if Blank (cq_Kind req) then chan_Kind existing else cq_Kind req in
        let! spec := notifierSpec kind else e => mret (fail e) in
        let previous := if String.eqb kind (chan_Kind existing) then chan_Config existing else ∅ in
        do! prepared := prepareConfig spec (cq_Config req) previous (notify_Validate kind) else e => mret (fail e) in
        let existing := set_chan_Name (TrimSpace (cq_Name req)) (set_chan_Kind kind
                          (set_chan_Config (pc_Encrypted prepared) (set_chan_Events (cq_Events req)
                            (set_chan_Enabled (default (chan_Enabled existing) (cq_Enabled req)) existing)))) in
        u ← ChannelRepo_Update existing;
        match u.2 with
        | Some err => mret (failBelow err)
        | None =>
            let updated := u.1 in
            audit r None "channel.update" "channel" (chan_ID updated) (chan_Name updated) {[ "kind" := VString (chan_Kind updated) ]};;
            mret (writeJSON 200 (BodyChannel (maskChannel updated)))
        end
    end.

Definition handleDeleteChannel (r : Inbound) (id : string) : M Response :=
  do? c := ChannelRepo_Get id else err => mret (failBelow err) in
  do? _ := ChannelRepo_Delete (chan_ID c) else err => mret (failBelow err) in
  audit r None "channel.delete" "channel" (chan_ID c) (chan_Name c) ∅;;
  mret (writeJSON 204 NoBody).

Definition handleTestChannelConfig (body : option (result driverTestRequest)) : M Response :=
  let! req := decodeBody body else e => mret (fail e) in
  let! spec := notifierSpec (dt_Kind req) else e => mret (fail e) in
  match DecryptConfig (dt_Config req) (SecretFields spec) with
  | Fail err => mret (failBelow err)
  | Ok plain =>
      result ← TestChannelConfig (dt_Kind req) plain;
      mret (writeJSON 200 (BodyTest result))
  end.

Definition handleTestChannel (r : Inbound) (id : string) : M Response :=
  do? c := ChannelRepo_Get id else err => mret (failBelow err) in
  result ← TestChannelConfig (chan_Kind c) (chan_Config c);
  audit r None "channel.test" "channel" (chan_ID c) (chan_Name c) {[ "ok" := VBool (test_OK result) ]};;
  mret (writeJSON 200 (BodyTest result)).
End config.
