(* ===== verification/ServerHosts.v ===== *)
(** * Handlers for hosts: [internal/server/hosts.go] *)
From S2P Require Import Prelude GoStrings GoTime Core CoreSetters Config Secrets Spool Db StoreCommon StoreJobs StoreConfig StoreAdmin.
From S2P Require Import Remote Drivers Password Auth Slug ServerBase.
Open Scope Z_scope.

Record hostRequest := mkHostRequest {
  hq_ID : string; hq_Name : string; hq_Description : string; hq_Address : string; hq_Port : Z; hq_User : string;
  hq_Auth : HostAuth; hq_PrivateKey : string; hq_KeyPassphrase : string; hq_Password : string; hq_PublicKey : string;
  hq_HostKey : string; hq_Sudo : bool; hq_ConnectTimeoutSeconds : Z; hq_Tags : list string
}.

Definition zeroHost : Host :=
  mkHost "" "" "" "" 0 "" "" "" "" "" "" "" false 0 [] zeroTime zeroTime None None "" "" [] 0.

Definition hostFromRequest (req : hostRequest) : Host :=
  {| host_ID := ""; host_Name := TrimSpace (hq_Name req); host_Description := hq_Description req;
     host_Address := TrimSpace (hq_Address req);
     host_Port := if hq_Port req <=? 0 then DefaultPort else hq_Port req;
     host_User := TrimSpace (hq_User req);
     host_Auth := if bool_decide (hq_Auth req = "") then HostAuthKey else hq_Auth req;
     host_PrivateKey := hq_PrivateKey req; host_KeyPassphrase := hq_KeyPassphrase req;
     host_Password := hq_Password req; host_PublicKey := TrimSpace (hq_PublicKey req);
     host_HostKey := TrimSpace (hq_HostKey req); host_Sudo := hq_Sudo req;
     host_ConnectTimeout := hq_ConnectTimeoutSeconds req; host_Tags := hq_Tags req;
     host_CreatedAt := zeroTime; host_UpdatedAt := zeroTime; host_LastTestAt := None; host_LastTestOK := None;
     host_LastTestError := ""; host_LastSeenOS := ""; host_Tools := []; host_SourceCount := 0 |}.

Definition mergeSecret (v previous : string) : string := if String.eqb v SecretMask then previous else v.

Definition mergeHostSecrets (h previous : Host) : Host :=
  host_with_secrets h (mergeSecret (host_PrivateKey h) (host_PrivateKey previous))
    (mergeSecret (host_KeyPassphrase h) (host_KeyPassphrase previous))
    (mergeSecret (host_Password h) (host_Password previous)).

Fixpoint firstNonEmpty (values : list string) : string :=
  match values with
  | [] => ""
  | v :: rest => if bool_decide (v ≠ "") then v else firstNonEmpty rest
  end.

Section hosts.
  Context {A : AEAD} {D : Digest} {Ar : Argon2} {S : SSH}.

Definition invalidHost (h : Host) : validationError :=
  let ve := newValidationError "invalid host" in
  let ve := ve_fieldIf (Blank (host_Name h)) "name" "required" ve in
  let ve := ve_fieldIf (Blank (host_Address h)) "address" "required" ve in
  let ve := ve_fieldIf (Blank (host_User h)) "user" "required" ve in
  let ve := ve_fieldIf ((host_Port h <? 1) || (host_Port h >? 65535)) "port" "must be between 1 and 65535" ve in
  let ve :=
    if String.eqb (host_Auth h) HostAuthKey
    then ve_fieldIf (Blank (host_PrivateKey h)) "privateKey" "required for key authentication" ve
    else if String.eqb (host_Auth h) HostAuthPassword
    then ve_fieldIf (bool_decide (host_Password h = "")) "password" "required for password authentication" ve
    else ve_field "auth" "must be key or password" ve in
  let hk := TrimSpace (host_HostKey h) in
  ve_fieldIf (bool_decide (hk ≠ "") && negb (HasPrefix hk "SHA256:")) "hostKey" "must look like SHA256:abc..." ve.

Definition validateHost (h : Host) : option validationError :=
  let ve := invalidHost h in
  if negb (ve_empty ve) then Some ve
  else
    match Validate h with
    | Some err =>
        let field := if String.eqb (host_Auth h) HostAuthPassword then "password" else "privateKey" in
        Some (invalidField (err_msg err) field (err_msg err))
    | None => None
    end.

Definition derivePublicKey (h : Host) (candidates : list string) : outcome Host :=
  if negb (String.eqb (host_Auth h) HostAuthKey) then Good (set_host_PublicKey (firstNonEmpty candidates) h)
  else
    match PublicKeyOf h with
    | Fail err => Bad (Invalid (invalidField (err_msg err) "privateKey" (err_msg err)))
    | Ok derived =>
        match List.find (λ c, negb (bool_decide (c = "")) && HasPrefix c derived) candidates with
        | Some c => Good (set_host_PublicKey c h)
        | None => Good (set_host_PublicKey derived h)
        end
    end.

(** A function that returns a value beside its error. *)
Definition orError {B} (r : B * option error) : result B :=
  match r.2 with Some err => Fail err | None => Ok r.1 end.

Definition encryptHost (h : Host) : M (result Host) :=
  rand ← ask env_rand; mret (orError (EncryptHost rand h)).

Definition auditHost (h : Host) : gmap string Value :=
  <["address" := VString (host_Address h)]> {[ "auth" := VString (host_Auth h) ]}.

Definition handleListHosts (r : Inbound) : M Response :=
  let! page := pageFromRequest r else e => mret (fail e) in
  do? (items, total) := HostRepo_List (mkHostFilter (query_text r "q") (query_text r "tag") page)
    else err => mret (failBelow err) in
  mret (writeJSON 200 (BodyHosts (Host_Masked <$> items) total)).

Definition handleGetHost (id : string) : M Response :=
  do? host := HostRepo_Get id else err => mret (failBelow err) in
  mret (writeJSON 200 (BodyHost (Host_Masked host))).

Definition handleCreateHost (r : Inbound) (body : option (result hostRequest)) : M Response :=
  let! req := decodeBody body else e => mret (fail e) in
  let host := mergeHostSecrets (hostFromRequest req) zeroHost in
  match validateHost host with
  | Some ve => mret (failInvalid ve)
  | None =>
      let! host := derivePublicKey host [host_PublicKey host] else e => mret (fail e) in
      do? stored := encryptHost host else err => mret (failBelow err) in
      do? saved := HostRepo_Create stored else err => mret (failBelow err) in
      audit r None "host.create" "host" (host_ID saved) (host_Name saved) (auditHost saved);;
      mret (writeJSON 201 (BodyHost (Host_Masked saved)))
  end.

Definition handleUpdateHost (r : Inbound) (id : string) (body : option (result hostRequest)) : M Response :=
  do? existing := HostRepo_Get id else err => mret (failBelow err) in
  let? previous := orError (DecryptHost existing) else err => mret (failBelow err) in
  let! req := decodeBody body else e => mret (fail e) in
  let host := set_host_ID (host_ID existing) (mergeHostSecrets (hostFromRequest req) previous) in
  match validateHost host with
  | Some ve => mret (failInvalid ve)
  | None =>
      let! host := derivePublicKey host [host_PublicKey host; host_PublicKey previous] else e => mret (fail e) in
      do? stored := encryptHost host else err => mret (failBelow err) in
      u ← HostRepo_Update stored;
      match u.2 with
      | Some err => mret (failBelow err)
      | None =>
          do? saved := HostRepo_Get (host_ID existing) else err => mret (failBelow err) in
          audit r None "host.update" "host" (host_ID saved) (host_Name saved) (auditHost saved);;
          mret (writeJSON 200 (BodyHost (Host_Masked saved)))
      end
  end.

Definition handleDeleteHost (r : Inbound) (id : string) : M Response :=
  do? host := HostRepo_Get id else err => mret (failBelow err) in
  if host_SourceCount host >? 0 then mret (writeError 409 codeConflict "host is used by sources")
  else
    do? _ := HostRepo_Delete (host_ID host)
      else err => mret (if errorsIs err ErrConflict then writeError 409 codeConflict "host is used by sources" else failBelow err) in
    audit r None "host.delete" "host" (host_ID host) (host_Name host) ∅;;
    mret (writeJSON 204 NoBody).

Definition handleTestHostConfig (body : option (result hostRequest)) : M Response :=
  let! req := decodeBody body else e => mret (fail e) in
  do? previous :=
    (let id := TrimSpace (hq_ID req) in
     if bool_decide (id = "") then mret (Ok zeroHost)
     else
       do? existing := HostRepo_Get id else _ => mret (Ok zeroHost) in
       mret (orError (DecryptHost existing)))
    else err => mret (failBelow err) in
  result ← TestHost (mergeHostSecrets (hostFromRequest req) previous);
  mret (writeJSON 200 (BodyHostTest result)).

Definition handleTestHost (r : Inbound) (id : string) : M Response :=
  do? stored := HostRepo_Get id else err => mret (failBelow err) in
  let? host := orError (DecryptHost stored) else err => mret (failBelow err) in
  result ← TestHost host;
  let message := if ht_OK result then "" else ht_Message result in
  do? _ := HostRepo_SetTestResult (host_ID stored) (ht_OK result) message (ht_OS result) (ht_Tools result)
    else err => mret (failBelow err) in
  audit r None "host.test" "host" (host_ID stored) (host_Name stored) {[ "ok" := VBool (ht_OK result) ]};;
  mret (writeJSON 200 (BodyHostTest result)).

(** ** Keys *)

(** The bytes of a comment: letters in lower case, digits, points, dashes and
    underscores; a space becomes a dash. *)
Definition commentRune (r : string) : string :=
  match r with
  | String a "" =>
      if is_lower a || is_digit a || existsb (Ascii.eqb a) ["."%char; "-"%char; "_"%char] then r
      else if is_upper a then schar (lower_byte a)
      else if Ascii.eqb a " " then "-"
      else ""
  | _ => ""
  end.

(** [strings.Trim(s, "-.")]. *)
Definition inCutset (a : ascii) : bool := Ascii.eqb a "-" || Ascii.eqb a ".".

Fixpoint trimLeftSet (s : string) : string :=
  match s with
  | String a s' => if inCutset a then trimLeftSet s' else s
  | "" => ""
  end.

Fixpoint trimRightSet (s : string) : string :=
  match s with
  | "" => ""
  | String a s' =>
      let t := trimRightSet s' in
      if inCutset a && bool_decide (t = "") then "" else String a t
  end.

Definition sanitizeComment (value : string) : string :=
  let sb := foldl (λ sb r, sb +:+ commentRune r) "" (runes (TrimSpace value)) in
  let cleaned := trimRightSet (trimLeftSet sb) in
  if bool_decide (cleaned = "") then "backvault" else cleaned.

Definition keyComment : M string :=
  r ← SettingsRepo_Get;
  let site := match r.2 with None => SiteName r.1 | Some _ => "" end in
  mret ("backvault@" +:+ sanitizeComment site).

Definition handleKeygen (r : Inbound) : M Response :=
  comment ← keyComment;
  do? (private, public) := GenerateKey comment else err => mret (failBelow err) in
  audit r None "host.keygen" "host" "" "" ∅;;
  mret (writeJSON 200 (BodyKeys private public)).

Definition handleHostKeygen (r : Inbound) (id : string) : M Response :=
  do? existing := HostRepo_Get id else err => mret (failBelow err) in
  let? previous := orError (DecryptHost existing) else err => mret (failBelow err) in
  comment ← keyComment;
  do? (private, public) := GenerateKey comment else err => mret (failBelow err) in
  let host := set_host_PublicKey public (set_host_KeyPassphrase "" (set_host_PrivateKey private
                (set_host_Auth HostAuthKey previous))) in
  do? stored := encryptHost host else err => mret (failBelow err) in
  u ← HostRepo_Update stored;
  match u.2 with
  | Some err => mret (failBelow err)
  | None =>
      do? saved := HostRepo_Get (host_ID existing) else err => mret (failBelow err) in
      audit r None "host.keygen" "host" (host_ID saved) (host_Name saved) ∅;;
      mret (writeJSON 200 (BodyHost (Host_Masked saved)))
  end.
End hosts.
