(* ===== verification/ServerJobs.v ===== *)
(** * Handlers for jobs: [internal/server/jobs.go] *)
From S2P Require Import Prelude GoStrings GoTime GoSlices Core CoreSetters Config Secrets Pack Spool Db StoreCommon StoreJobs StoreRuns.
From S2P Require Import StoreConfig StoreAdmin RunState Remote Drivers Runner Restore EngineRuns Scheduler Password Auth Slug ServerBase.
From S2P Require Import ServerConfig.
Open Scope Z_scope.

Record jobRequest := mkJobRequest {
  jq_Slug : string; jq_Name : string; jq_Description : string; jq_SourceID : string; jq_DestinationIDs : list string;
  jq_Schedule : string; jq_Timezone : string; jq_Enabled : option bool; jq_Compression : Compression;
  jq_CompressionLevel : Z; jq_Encryption : Encryption; jq_EncryptionPassphrase : string; jq_Retention : Retention;
  jq_NotificationChannelIDs : list string; jq_NotifyOn : list string; jq_TimeoutMinutes : Z; jq_Retries : Z;
  jq_RetryDelaySeconds : Z; jq_PreCommand : string; jq_PostCommand : string; jq_VerifyAfterUpload : bool;
  jq_ExpectedIntervalMinutes : Z; jq_Tags : list string
}.

(** [core.Job{}]. *)
Definition zeroJob : Job :=
  {| job_ID := ""; job_Slug := ""; job_Name := ""; job_Description := ""; job_SourceID := ""; job_DestinationIDs := [];
     job_Schedule := ""; job_Timezone := ""; job_Enabled := false; job_Compression := ""; job_CompressionLevel := 0;
     job_Encryption := ""; job_EncryptionPassphrase := ""; job_Retention := noRetention;
     job_NotificationChannelIDs := []; job_NotifyOn := []; job_TimeoutMinutes := 0; job_Retries := 0;
     job_RetryDelaySeconds := 0; job_PreCommand := ""; job_PostCommand := ""; job_VerifyAfterUpload := false;
     job_ExpectedIntervalMinutes := 0; job_Tags := []; job_CreatedAt := zeroTime; job_UpdatedAt := zeroTime;
     job_SourceName := ""; job_SourceKind := ""; job_DestinationNames := []; job_LastRun := None;
     job_NextRunAt := None; job_Overdue := false; job_ArtifactCount := 0; job_TotalBytes := 0 |}.

Section jobs.
  Context {A : AEAD} {Dr : Drivers} {D : Digest} {Ar : Argon2} {K : Cron}.

(** ** The validation

    The complaints gathered so far and the job built so far go from step to
    step. *)
Definition draft : Type := (validationError * Job)%type.

Definition checkName (req : jobRequest) (d : draft) : draft :=
  let name := TrimSpace (jq_Name req) in
  (ve_fieldIf (bool_decide (name = "")) "name" "required" d.1,
   set_job_Description (jq_Description req) (set_job_Name name d.2)).

Definition checkSource (req : jobRequest) (d : draft) : M (outcome draft) :=
  if Blank (jq_SourceID req) then mret (Good (ve_field "sourceId" "required" d.1, d.2))
  else
    r ← SourceRepo_Get (jq_SourceID req);
    mret (match r with
          | Ok src => Good (d.1, set_job_SourceID (src_ID src) d.2)
          | Fail err =>
              if errorsIs err ErrNotFound then Good (ve_field "sourceId" "source does not exist" d.1, d.2)
              else Bad (Below err)
          end).

(** The loop over the destinations: those seen, and those that exist. *)
Fixpoint destinationLoop (ids seen kept : list string) (ve : validationError)
    : M (outcome (validationError * list string)) :=
  match ids with
  | [] => mret (Good (ve, kept))
  | id :: rest =>
      if existsb (String.eqb id) seen then destinationLoop rest seen kept ve
      else
        r ← DestinationRepo_Get id;
        match r with
        | Ok _ => destinationLoop rest (id :: seen) (kept ++ [id]) ve
        | Fail err =>
            if errorsIs err ErrNotFound
            then destinationLoop rest (id :: seen) kept
                   (ve_field "destinationIds" ("destination " +:+ id +:+ " does not exist") ve)
            else mret (Bad (Below err))
        end
  end.

Definition checkDestinations (req : jobRequest) (d : draft) : M (outcome draft) :=
  let ve := ve_fieldIf (bool_decide (jq_DestinationIDs req = [])) "destinationIds" "at least one destination is required" d.1 in
  do! (ve, ids) := destinationLoop (jq_DestinationIDs req) [] [] ve else e => mret (Bad e) in
  mret (Good (ve, set_job_DestinationIDs ids d.2)).

Definition checkSchedule (req : jobRequest) (d : draft) : draft :=
  let schedule := TrimSpace (jq_Schedule req) in
  let ve := if bool_decide (schedule = "") then d.1
            else match ParseSchedule schedule with Fail err => ve_field "schedule" (err_msg err) d.1 | Ok _ => d.1 end in
  let timezone := TrimSpace (jq_Timezone req) in
  let ve := if bool_decide (timezone = "") then ve
            else match LoadLocation timezone with Fail err => ve_field "timezone" (err_msg err) ve | Ok _ => ve end in
  (ve, set_job_Timezone timezone (set_job_Schedule schedule d.2)).

Definition checkCompression (req : jobRequest) (d : draft) : draft :=
  let c := jq_Compression req in
  let '(ve, job) :=
    if bool_decide (c = "") || String.eqb c CompressionNone then (d.1, set_job_Compression CompressionNone d.2)
    else if String.eqb c CompressionGzip || String.eqb c CompressionZstd then (d.1, set_job_Compression c d.2)
    else (ve_field "compression" "must be none, gzip or zstd" d.1, d.2) in
  (ve_fieldIf ((jq_CompressionLevel req <? 0) || (jq_CompressionLevel req >? 19)) "compressionLevel" "must be between 0 and 19" ve,
   set_job_CompressionLevel (jq_CompressionLevel req) job).

(** The passphrase: the mask keeps the one on record, the empty text removes it. *)
Definition checkPassphrase (isNew : bool) (req : jobRequest) (d : draft) : M (outcome draft) :=
  let passphrase := jq_EncryptionPassphrase req in
  if String.eqb passphrase SecretMask then mret (Good (ve_fieldIf isNew "encryptionPassphrase" "required" d.1, d.2))
  else if bool_decide (passphrase = "") then mret (Good (d.1, set_job_EncryptionPassphrase "" d.2))
  else
    rand ← ask env_rand;
    mret (match Encrypt (rand 0%nat) passphrase with
          | Fail err => Bad (Below err)
          | Ok encrypted => Good (d.1, set_job_EncryptionPassphrase encrypted d.2)
          end).

Definition checkEncryption (isNew : bool) (req : jobRequest) (d : draft) : M (outcome draft) :=
  let e := jq_Encryption req in
  let d : draft :=
    if bool_decide (e = "") || String.eqb e EncryptionNone then (d.1, set_job_Encryption EncryptionNone d.2)
    else if String.eqb e EncryptionAge then (d.1, set_job_Encryption EncryptionAge d.2)
    else (ve_field "encryption" "must be none or age" d.1, d.2) in
  do! (ve, job) := checkPassphrase isNew req d else e => mret (Bad e) in
  let ve := ve_fieldIf (String.eqb (job_Encryption job) EncryptionAge && bool_decide (job_EncryptionPassphrase job = ""))
              "encryptionPassphrase" "required when encryption is age" ve in
  mret (Good (ve, if String.eqb (job_Encryption job) EncryptionNone then set_job_EncryptionPassphrase "" job else job)).

Definition negativeRetention (r : Retention) : bool :=
  (KeepLast r <? 0) || (KeepHourly r <? 0) || (KeepDaily r <? 0) || (KeepWeekly r <? 0) || (KeepMonthly r <? 0)
  || (KeepYearly r <? 0) || (MaxAgeDays r <? 0).

Definition checkRetention (req : jobRequest) (d : draft) : draft :=
  let ve := ve_fieldIf (negativeRetention (jq_Retention req)) "retention" "values must not be negative" d.1 in
  (checkEvents "notifyOn" (jq_NotifyOn req) ve,
   set_job_NotifyOn (jq_NotifyOn req) (set_job_Retention (jq_Retention req) d.2)).

Fixpoint channelLoop (ids : list string) (ve : validationError) : M (outcome validationError) :=
  match ids with
  | [] => mret (Good ve)
  | id :: rest =>
      r ← ChannelRepo_Get id;
      match r with
      | Ok _ => channelLoop rest ve
      | Fail err =>
          if errorsIs err ErrNotFound
          then channelLoop rest (ve_field "notificationChannelIds" ("channel " +:+ id +:+ " does not exist") ve)
          else mret (Bad (Below err))
      end
  end.

Definition checkChannels (req : jobRequest) (d : draft) : M (outcome draft) :=
  do! ve := channelLoop (jq_NotificationChannelIDs req) d.1 else e => mret (Bad e) in
  mret (Good (ve, set_job_NotificationChannelIDs (jq_NotificationChannelIDs req) d.2)).

Definition checkLimits (existing : option Job) (req : jobRequest) (d : draft) : draft :=
  let ve := ve_fieldIf (jq_TimeoutMinutes req <? 0) "timeoutMinutes" "must not be negative" d.1 in
  let ve := ve_fieldIf ((jq_Retries req <? 0) || (jq_Retries req >? 20)) "retries" "must be between 0 and 20" ve in
  let ve := ve_fieldIf (jq_RetryDelaySeconds req <? 0) "retryDelaySeconds" "must not be negative" ve in
  let ve := ve_fieldIf (jq_ExpectedIntervalMinutes req <? 0) "expectedIntervalMinutes" "must not be negative" ve in
  let enabled := default (match existing with Some j => job_Enabled j | None => true end) (jq_Enabled req) in
  (ve,
   set_job_TimeoutMinutes (jq_TimeoutMinutes req) (set_job_Retries (jq_Retries req)
     (set_job_RetryDelaySeconds (jq_RetryDelaySeconds req)
       (set_job_ExpectedIntervalMinutes (jq_ExpectedIntervalMinutes req)
         (set_job_PreCommand (jq_PreCommand req) (set_job_PostCommand (jq_PostCommand req)
           (set_job_VerifyAfterUpload (jq_VerifyAfterUpload req) (set_job_Tags (jq_Tags req)
             (set_job_Enabled enabled d.2))))))))).

(** [uniqueSlug] with the error it makes when no candidate is free. *)
Definition freeSlug (base exceptID : string) : M (outcome string) :=
  do? r := uniqueSlug base exceptID JobRepo_SlugExists else err => mret (Bad (Below err)) in
  mret (match r with
        | Some slug => Good slug
        | None => Bad (Invalid (invalidField slugConflict "slug" "conflict"))
        end).

Definition checkSlug (existing : option Job) (req : jobRequest) (d : draft) : M (outcome draft) :=
  let exceptID := match existing with Some j => job_ID j | None => "" end in
  let requested := TrimSpace (jq_Slug req) in
  if bool_decide (requested ≠ "") then
    if negb (validSlug requested)
    then mret (Good (ve_field "slug" "must contain only lowercase letters, digits and dashes" d.1, d.2))
    else
      do? taken := JobRepo_SlugExists requested exceptID else err => mret (Bad (Below err)) in
      mret (Good (ve_fieldIf taken "slug" "already in use" d.1, set_job_Slug requested d.2))
  else if (match existing with Some j => bool_decide (job_Slug j = "") | None => true end) then
    do! slug := freeSlug (slugify (TrimSpace (jq_Name req))) exceptID else e => mret (Bad e) in
    mret (Good (d.1, set_job_Slug slug d.2))
  else mret (Good d).

Definition validateJob (req : jobRequest) (existing : option Job) : M (outcome Job) :=
  let d := checkName req (newValidationError "invalid job", default zeroJob existing) in
  do! d := checkSource req d else e => mret (Bad e) in
  do! d := checkDestinations req d else e => mret (Bad e) in
  let d := checkCompression req (checkSchedule req d) in
  do! d := checkEncryption (match existing with None => true | Some _ => false end) req d else e => mret (Bad e) in
  do! d := checkChannels req (checkRetention req d) else e => mret (Bad e) in
  do! d := checkSlug existing req (checkLimits existing req d) else e => mret (Bad e) in
  mret (if ve_empty d.1 then Good d.2 else Bad (Invalid d.1)).

(** ** Handlers *)

(** [s.engine.ReloadSchedule()]. *)
Definition ReloadSchedule : M unit := record CallReload.

Definition refreshJobSchedule (jobID : string) : M unit :=
  do? job := JobRepo_Get jobID else _ => mret tt in
  s ← SettingsRepo_Get;
  match s.2 with
  | Some _ => mret tt
  | None =>
      t ← now;
      let next := match NextRun job (DefaultTimezone s.1) t with Ok next => next | Fail _ => None end in
      _ ← SetNextRun (job_ID job) next;
      ReloadSchedule
  end.

Definition jobRef (id : string) : M (result Job) := JobRepo_GetByIDOrSlug id.

Definition handleListJobs (r : Inbound) : M Response :=
  let! page := pageFromRequest r else e => mret (fail e) in
  let v := query_text r "enabled" in
  let enabled := if bool_decide (v = "") then None else Some (String.eqb v "1" || EqualFold v "true") in
  do? (items, total) := JobRepo_List (mkJobFilter enabled (query_text r "sourceId") (query_text r "destinationId")
                                        (query_text r "tag") (query_text r "q") page)
    else err => mret (failBelow err) in
  mret (writeJSON 200 (BodyJobs (maskJobs items) total)).

Definition handleGetJob (id : string) : M Response :=
  do? job := jobRef id else err => mret (failBelow err) in
  mret (writeJSON 200 (BodyJob (maskJob job))).

Definition showJob (status : Z) (id : string) : M Response :=
  do? full := JobRepo_Get id else err => mret (failBelow err) in
  mret (writeJSON status (BodyJob (maskJob full))).

Definition handleCreateJob (r : Inbound) (body : option (result jobRequest)) : M Response :=
  let! req := decodeBody body else e => mret (fail e) in
  do! job := validateJob req None else e => mret (fail e) in
  do? created := JobRepo_Create job else err => mret (failBelow err) in
  refreshJobSchedule (job_ID created);;
  audit r None "job.create" "job" (job_ID created) (job_Name created) {[ "slug" := VString (job_Slug created) ]};;
  showJob 201 (job_ID created).

Definition handleUpdateJob (r : Inbound) (id : string) (body : option (result jobRequest)) : M Response :=
  do? existing := jobRef id else err => mret (failBelow err) in
  let! req := decodeBody body else e => mret (fail e) in
  do! job := validateJob req (Some existing) else e => mret (fail e) in
  u ← JobRepo_Update job;
  match u.2 with
  | Some err => mret (failBelow err)
  | None =>
      refreshJobSchedule (job_ID job);;
      audit r None "job.update" "job" (job_ID job) (job_Name job) {[ "slug" := VString (job_Slug job) ]};;
      showJob 200 (job_ID job)
  end.

Definition handleDeleteJob (r : Inbound) (id : string) : M Response :=
  do? job := jobRef id else err => mret (failBelow err) in
  let deleteArtifacts := queryBool r "deleteArtifacts" in
  do? _ := JobRepo_Delete (job_ID job) deleteArtifacts else err => mret (failBelow err) in
  ReloadSchedule;;
  audit r None "job.delete" "job" (job_ID job) (job_Name job) {[ "deleteArtifacts" := VBool deleteArtifacts ]};;
  mret (writeJSON 204 NoBody).

Definition setJobEnabled (r : Inbound) (id : string) (enabled : bool) : M Response :=
  do? job := jobRef id else err => mret (failBelow err) in
  do? _ := JobRepo_SetEnabled (job_ID job) enabled else err => mret (failBelow err) in
  refreshJobSchedule (job_ID job);;
  audit r None (if enabled then "job.enable" else "job.disable") "job" (job_ID job) (job_Name job) ∅;;
  showJob 200 (job_ID job).

Definition handleEnableJob (r : Inbound) (id : string) : M Response := setJobEnabled r id true.
Definition handleDisableJob (r : Inbound) (id : string) : M Response := setJobEnabled r id false.

Definition handleRunJob (r : Inbound) (id : string) : M Response :=
  do? job := jobRef id else err => mret (failBelow err) in
  match requireJobAccess r (job_Slug job) with
  | Some err => mret (writeError 403 codeForbidden (err_msg err))
  | None =>
      do? run := EnqueueBackup job TriggerAPI (actorLabel r) else err => mret (failBelow err) in
      audit r None "job.run" "job" (job_ID job) (job_Name job) {[ "runId" := VString (run_ID run) ]};;
      mret (writeJSON 202 (BodyRun run))
  end.

Definition handlePruneJob (r : Inbound) (id : string) : M Response :=
  do? job := jobRef id else err => mret (failBelow err) in
  do? run := EnqueuePrune job (actorLabel r) else err => mret (failBelow err) in
  audit r None "job.prune" "job" (job_ID job) (job_Name job) {[ "runId" := VString (run_ID run) ]};;
  mret (writeJSON 202 (BodyRun run)).

Definition handleDuplicateJob (r : Inbound) (id : string) : M Response :=
  do? job := jobRef id else err => mret (failBelow err) in
  do! copySlug := freeSlug (job_Slug job +:+ "-copy") "" else e => mret (fail e) in
  let clone := set_job_Enabled false (set_job_Name (job_Name job +:+ " (copy)")
                 (set_job_Slug copySlug (set_job_ID "" job))) in
  do? created := JobRepo_Create clone else err => mret (failBelow err) in
  refreshJobSchedule (job_ID created);;
  audit r None "job.duplicate" "job" (job_ID created) (job_Name created) {[ "from" := VString (job_Slug job) ]};;
  showJob 201 (job_ID created).

Definition handleJobRuns (r : Inbound) (id : string) : M Response :=
  do? job := jobRef id else err => mret (failBelow err) in
  let! page := pageFromRequest r else e => mret (fail e) in
  do? (items, total) := RunRepo_List (mkRunFilter (job_ID job) "" (query_text r "status") [] (query_text r "kind")
                                        zeroTime zeroTime page)
    else err => mret (failBelow err) in
  mret (writeJSON 200 (BodyRuns items total)).

Definition handleJobArtifacts (r : Inbound) (id : string) : M Response :=
  do? job := jobRef id else err => mret (failBelow err) in
  let! page := pageFromRequest r else e => mret (fail e) in
  do? (items, total) := ArtifactRepo_List (mkArtifactFilter (job_ID job) "" (query_text r "destination") (query_text r "status")
                                             "" zeroTime zeroTime "" page)
    else err => mret (failBelow err) in
  mret (writeJSON 200 (BodyArtifacts items total)).

Definition previewCount (r : Inbound) : nat :=
  match Atoi (query_text r "count") with
  | Some n => if (n >? 0) && (n <=? 50) then Z.to_nat n else 5
  | None => 5
  end.

Definition handleSchedulePreview (r : Inbound) (id : string) : M Response :=
  do? job := jobRef id else err => mret (failBelow err) in
  s ← SettingsRepo_Get;
  match s.2 with
  | Some err => mret (failBelow err)
  | None =>
      t ← now;
      mret (match NextRuns job (DefaultTimezone s.1) t (previewCount r) with
            | Fail err => failInvalid (invalidField (err_msg err) "schedule" (err_msg err))
            | Ok items => writeJSON 200 (BodyTimes items)
            end)
  end.
End jobs.
