(* ===== verification/ServerRuns.v ===== *)
(** * Handlers for runs, artifacts and ingests: [internal/server/runs.go],
    [artifacts.go], [ingest.go], and [Ingest] of [internal/engine/ingest.go] *)
From S2P Require Import Prelude GoStrings GoTime GoSlices Core CoreSetters Config Secrets Pack Spool Db StoreCommon StoreJobs StoreRuns.
From S2P Require Import StoreConfig StoreAdmin RunState Remote Drivers Runner Restore EngineRuns Password Auth ServerBase.
Open Scope Z_scope.

Section runs.
  Context {A : AEAD} {C : Codecs} {D : Digest} {Dr : Drivers} {Ar : Argon2}.
  Context (workDir : string).

(** ** The life of an ingest

    Without the locks, the slot and the registry of [Engine]: whether the job is
    busy and whether the request was given up while it waited for a slot are
    asked of the environment. *)
Definition Ingest (job : Job) (opts : IngestOptions) (chunks : list string) (body_end : option error)
    : M (Run * list Artifact * option error) :=
  let noRun := newRunState (mkRun "" "" "" "" RunBackup TriggerSchedule RunQueued zeroTime None None 0 0 0 "" "" "" [] [] 0 ∅ "") in
  run ← newRun job RunIngest TriggerIngest (ing_CreatedBy opts);
  busy ← ask env_busy;
  if busy : bool then mret (rs_run noRun, [], Some busyError)
  else
    do? saved := RunRepo_Create run else err => mret (rs_run noRun, [], Some err) in
    publishRun saved;;
    c ← ctxErr;
    match c with
    | Some err =>
        t ← now;
        let saved := set_run_FinishedAt (Some t) (set_run_Error "ingest was canceled while waiting for a worker slot"
                       (set_run_Status RunFailed saved)) in
        _ ← RunRepo_Save saved;
        publishRun saved;;
        mret (rs_run noRun, [], Some err)
    | None =>
        putRS (newRunState saved);;
        start;;
        r ← runIngest workDir job opts chunks body_end;
        let err := match r with Ok _ => None | Fail err => Some err end in
        finish err;;
        final ← currentRun;
        do? artifacts := ForRun (run_ID final) else listErr => mret (final, [], Some listErr) in
        mret (final, artifacts, err)
    end.

(** The body of an ingest: [None] when the request has none; else its chunks and
    how it ended. *)
Definition handleIngest (r : Inbound) (slug : string) (header : string -> string) (contentLength : Z)
    (body : option (list string * option error)) : M Response :=
  match requireJobAccess r slug with
  | Some err => mret (writeError 403 codeForbidden (err_msg err))
  | None =>
      do? job := JobRepo_GetBySlug slug else err => mret (failBelow err) in
      match body with
      | None => mret (failInvalid (newValidationError "request body is required"))
      | Some (chunks, body_end) =>
          let opts := mkIngestOptions (TrimSpace (header "X-Backvault-Filename")) (TrimSpace (header "X-Backvault-Sha256"))
                        (queryBool r "packed") contentLength (actorLabel r) in
          res ← Ingest job opts chunks body_end;
          let '(run, artifacts, err) := res in
          mret (match err with
                | Some err =>
                    if bool_decide (run_ID run ≠ "")
                    then writeJSON 422 (BodyError codeValidation (run_Error run) {[ "runId" := run_ID run ]})
                    else failBelow err
                | None => writeJSON 201 (BodyIngest run artifacts)
                end)
      end
  end.

(** ** Runs *)

(** The job filter of a listing: by identifier when the reference resolves. *)
Definition resolveJob (ref : string) : M (string * string) :=
  if bool_decide (ref = "") then mret ("", "")
  else
    r ← JobRepo_GetByIDOrSlug ref;
    mret (match r with Ok job => (job_ID job, "") | Fail _ => ("", ref) end).

Definition handleListRuns (r : Inbound) : M Response :=
  let! page := pageFromRequest r else e => mret (fail e) in
  let! since := parseTimeParam r "since" else e => mret (fail e) in
  let! until := parseTimeParam r "until" else e => mret (fail e) in
  j ← resolveJob (query_text r "job");
  do? (items, total) := RunRepo_List (mkRunFilter j.1 j.2 (query_text r "status") [] (query_text r "kind") since until page)
    else err => mret (failBelow err) in
  mret (writeJSON 200 (BodyRuns items total)).

Definition handleGetRun (id : string) : M Response :=
  do? run := RunRepo_Get id else err => mret (failBelow err) in
  mret (writeJSON 200 (BodyRun run)).

(** [e.Cancel]: whether the run is in the registry. *)
Definition Cancel (runID : string) : M bool :=
  ok ← ask env_cancel;
  if ok : bool then record (CallCancel runID);; mret true else mret false.

Definition handleCancelRun (r : Inbound) (id : string) : M Response :=
  do? run := RunRepo_Get id else err => mret (failBelow err) in
  if Terminal (run_Status run) then mret (writeError 409 codeConflict "run has already finished")
  else
    ok ← Cancel (run_ID run);
    if negb ok then mret (writeError 409 codeConflict "run is not active on this server")
    else
      audit r None "run.cancel" "run" (run_ID run) (run_JobName run) ∅;;
      mret (writeJSON 202 NoBody).

Definition logOffset (r : Inbound) : outcome nat :=
  let v := query_text r "offset" in
  if bool_decide (v = "") then Good 0%nat
  else match Atoi v with
       | Some n => if n <? 0 then Bad (Invalid (invalidField "offset must be a non-negative integer" "offset" "invalid"))
                   else Good (Z.to_nat n)
       | None => Bad (Invalid (invalidField "offset must be a non-negative integer" "offset" "invalid"))
       end.

Definition handleRunLog (r : Inbound) (id : string) : M Response :=
  do? run := RunRepo_Get id else err => mret (failBelow err) in
  do? text := RunRepo_Log (run_ID run) else err => mret (failBelow err) in
  let! offset := logOffset r else e => mret (fail e) in
  let offset := if (String.length text <? offset)%nat then String.length text else offset in
  mret (writeJSON 200 (BodyLog (sdrop offset text) (Z.of_nat (String.length text)))).

(** ** Artifacts *)

Record restoreRequest := mkRestore {
  rr_Mode : string; rr_TargetPath : string; rr_Extract : bool; rr_TargetSourceID : string; rr_Passphrase : string;
  rr_Params : Config
}.

Definition handleListArtifacts (r : Inbound) : M Response :=
  let! page := pageFromRequest r else e => mret (fail e) in
  let! since := parseTimeParam r "since" else e => mret (fail e) in
  let! until := parseTimeParam r "until" else e => mret (fail e) in
  j ← resolveJob (query_text r "job");
  do? (items, total) := ArtifactRepo_List (mkArtifactFilter j.1 j.2 (query_text r "destination") (query_text r "status")
                                             (query_text r "run") since until (query_text r "q") page)
    else err => mret (failBelow err) in
  mret (writeJSON 200 (BodyArtifacts items total)).

Definition handleGetArtifact (id : string) : M Response :=
  do? artifact := ArtifactRepo_Get id else err => mret (failBelow err) in
  mret (writeJSON 200 (BodyArtifact artifact)).

(** The object of an artifact is deleted first; an artifact whose destination is
    gone only changes its status. *)
Definition deleteObject (artifact : Artifact) : M (option Response) :=
  d ← DestinationRepo_Get (art_DestinationID artifact);
  match d with
  | Fail err => mret (if errorsIs err ErrNotFound then None else Some (failBelow err))
  | Ok d =>
      do? client := OpenDestination d else err => mret (Some (writeError 502 codeInternal (err_msg err))) in
      e ← client_Delete client (art_Path artifact);
      mret (match e with
            | Some err => Some (writeError 502 codeInternal ("could not delete the object: " +:+ err_msg err))
            | None => None
            end)
  end.

Definition handleDeleteArtifact (r : Inbound) (id : string) : M Response :=
  do? artifact := ArtifactRepo_Get id else err => mret (failBelow err) in
  e ← deleteObject artifact;
  match e with
  | Some refusal => mret refusal
  | None =>
      t ← now;
      do? _ := SetStatus (art_ID artifact) ArtifactDeleted t else err => mret (failBelow err) in
      audit r None "artifact.delete" "artifact" (art_ID artifact) (art_Filename artifact)
        {[ "destination" := VString (art_DestinationName artifact) ]};;
      mret (writeJSON 204 NoBody)
  end.

Definition sanitizeFilename (name : string) : string :=
  let name := ReplaceByte name (byte_of 34) "" in
  let name := ReplaceByte name "\" "" in
  let name := ReplaceByte name (byte_of 10) "" in
  let name := ReplaceByte name (byte_of 13) "" in
  if bool_decide (name = "") then "artifact" else name.

Definition handleDownloadArtifact (r : Inbound) (id : string) : M Response :=
  do? artifact := ArtifactRepo_Get id else err => mret (failBelow err) in
  if negb (bool_decide (art_Status artifact = ArtifactPresent))
  then mret (writeError 409 codeConflict ("artifact status is " +:+ ArtifactStatus_text (art_Status artifact)))
  else
    let opts := mkDownloadOptions (queryBool r "raw") (in_query r "passphrase") in
    do? (reader, name) := OpenArtifact artifact opts else err => mret (writeError 502 codeInternal (err_msg err)) in
    let plain := String.eqb (art_Compression artifact) CompressionNone && String.eqb (art_Encryption artifact) EncryptionNone in
    mret (writeJSON 200 (BodyDownload reader (sanitizeFilename name) (art_SHA256 artifact)
                           (if dl_Raw opts || plain then Some (art_Size artifact) else None))).

Definition invalidRestore (name text : string) : validationError := invalidField "invalid restore request" name text.

Definition restoreMode (mode : string) : RestoreMode :=
  if String.eqb mode "path" then RestoreToPath
  else if String.eqb mode "source" then RestoreToSource else RestoreOther mode.

Definition checkRestore (req : restoreRequest) : M (option validationError) :=
  match restoreMode (TrimSpace (rr_Mode req)) with
  | RestoreToPath => mret (if Blank (rr_TargetPath req) then Some (invalidRestore "targetPath" "required") else None)
  | RestoreToSource =>
      if bool_decide (rr_TargetSourceID req = "") then mret None
      else
        s ← SourceRepo_Get (rr_TargetSourceID req);
        mret (match s with Ok _ => None | Fail _ => Some (invalidRestore "targetSourceId" "source does not exist") end)
  | RestoreOther _ => mret (Some (invalidRestore "mode" "must be path or source"))
  end.

Definition handleRestoreArtifact (r : Inbound) (id : string) (body : option (result restoreRequest)) : M Response :=
  do? artifact := ArtifactRepo_Get id else err => mret (failBelow err) in
  let! req := decodeBody body else e => mret (fail e) in
  refusal ← checkRestore req;
  match refusal with
  | Some ve => mret (failInvalid ve)
  | None =>
      let mode := TrimSpace (rr_Mode req) in
      do? run := EnqueueRestore (mkRestoreRequest artifact (restoreMode mode) (rr_TargetPath req) (rr_Extract req)
                   (rr_TargetSourceID req) (rr_Passphrase req) (rr_Params req) (actorLabel r))
        else err => mret (failBelow err) in
      audit r None "artifact.restore" "artifact" (art_ID artifact) (art_Filename artifact)
        (<["mode" := VString mode]> {[ "runId" := VString (run_ID run) ]});;
      mret (writeJSON 202 (BodyRun run))
  end.

Definition handleVerifyArtifact (r : Inbound) (id : string) : M Response :=
  do? artifact := ArtifactRepo_Get id else err => mret (failBelow err) in
  do? run := EnqueueVerify artifact (actorLabel r) else err => mret (failBelow err) in
  audit r None "artifact.verify" "artifact" (art_ID artifact) (art_Filename artifact) {[ "runId" := VString (run_ID run) ]};;
  mret (writeJSON 202 (BodyRun run)).
End runs.

(** A file name that is sent in a header has no quote, backslash or line break. *)
Lemma sall_ReplaceByte P s c : sall P s = true -> sall P (ReplaceByte s c "") = true.
Proof.
  induction s as [|a s IH]; [done|]. cbn [sall ReplaceByte]. intros H. apply andb_true_iff in H as [Ha H].
  case_match; cbn [sall]; [by apply IH|]. by rewrite Ha, IH.
Qed.

Lemma ReplaceByte_drops s c : free_of c (ReplaceByte s c "") = true.
Proof.
  unfold free_of. induction s as [|a s IH]; [done|]. cbn [ReplaceByte]. destruct (Ascii.eqb a c) eqn:E; [exact IH|].
  cbn [sall]. by rewrite E, IH.
Qed.

Lemma sanitizeFilename_safe name :
  sanitizeFilename name ≠ ""
  ∧ Forall (λ c, free_of c (sanitizeFilename name) = true) [byte_of 34; "\"%char; byte_of 10; byte_of 13].
Proof.
  unfold sanitizeFilename. case_bool_decide as H; [by vm_compute; repeat constructor|]. split; [done|].
  repeat apply Forall_cons_2; try apply Forall_nil_2; unfold free_of;
    repeat first [apply ReplaceByte_drops | apply sall_ReplaceByte].
Qed.
