(* ===== verification/ServerAdmin.v ===== *)
(** * Handlers for accounts, tokens, settings, sessions and the audit log:
    [internal/server/users.go], [tokens.go], [settings.go], [auth_handlers.go],
    [audit.go], [health.go], [meta.go] *)
From S2P Require Import Prelude GoStrings GoTime GoSlices Core CoreSetters Config Secrets Pack Spool Db StoreCommon StoreJobs StoreConfig.
From S2P Require Import StoreAdmin Drivers Scheduler RateLimiter Password Auth ServerBase ServerConfig ServerJobs.
Open Scope Z_scope.

Section admin.
  Context {A : AEAD} {D : Digest} {Ar : Argon2} {Dr : Drivers} {K : Cron}.

(** ** Users *)

Record userRequest := mkUserRequest { uq_Email : string; uq_Name : string; uq_Role : UserRole; uq_Password : string }.
Record passwordRequest := mkPasswordRequest { pq_CurrentPassword : string; pq_NewPassword : string }.

Definition validateRole (role : UserRole) : UserRole * bool :=
  if String.eqb role RoleAdmin || String.eqb role RoleViewer then (role, true)
  else if bool_decide (role = "") then (RoleViewer, true)
  else ("", false).

Definition ve_fieldErr (name : string) (err : option error) (v : validationError) : validationError :=
  match err with Some err => ve_field name (err_msg err) v | None => v end.

Definition handleListUsers : M Response :=
  do? items := UserRepo_List else err => mret (failBelow err) in
  mret (writeJSON 200 (BodyUsers items)).

Definition handleGetUser (id : string) : M Response :=
  do? rec := UserRepo_Get id else err => mret (failBelow err) in
  mret (writeJSON 200 (BodyUser (rec_User rec))).

Definition createUser (u : User) (password : string) : M (result User) :=
  rand ← ask env_rand; CreateUser (rand 0%nat) u password.

Definition handleCreateUser (r : Inbound) (body : option (result userRequest)) : M Response :=
  let! req := decodeBody body else e => mret (fail e) in
  let ve := ve_fieldIf (Blank (uq_Email req)) "email" "required" (newValidationError "invalid user") in
  let ve := ve_fieldErr "password" (ValidatePassword (uq_Password req)) ve in
  let '(role, ok) := validateRole (uq_Role req) in
  let ve := ve_fieldIf (negb ok) "role" "must be admin or viewer" ve in
  if negb (ve_empty ve) then mret (failInvalid ve)
  else
    do? user := createUser (mkUser "" (uq_Email req) (uq_Name req) role zeroTime None) (uq_Password req)
      else err => mret (failBelow err) in
    audit r None "user.create" "user" (user_ID user) (user_Email user) {[ "role" := VString (user_Role user) ]};;
    mret (writeJSON 201 (BodyUser user)).

(** The refusal to leave the installation without an administrator. *)
Definition lastAdmin (what : string) : M (option Response) :=
  do? admins := CountAdmins else err => mret (Some (failBelow err)) in
  mret (if admins <=? 1 then Some (writeError 409 codeConflict ("the last administrator cannot be " +:+ what)) else None).

Definition handleUpdateUser (r : Inbound) (id : string) (body : option (result userRequest)) : M Response :=
  do? rec := UserRepo_Get id else err => mret (failBelow err) in
  let! req := decodeBody body else e => mret (fail e) in
  let ve := ve_fieldIf (Blank (uq_Email req)) "email" "required" (newValidationError "invalid user") in
  let '(role, ok) := validateRole (uq_Role req) in
  let ve := ve_fieldIf (negb ok) "role" "must be admin or viewer" ve in
  if negb (ve_empty ve) then mret (failInvalid ve)
  else
    let user := rec_User rec in
    refusal ← (if String.eqb (user_Role user) RoleAdmin && negb (String.eqb role RoleAdmin) then lastAdmin "demoted" else mret None);
    match refusal with
    | Some refusal => mret refusal
    | None =>
        let user := set_user_Role role (set_user_Name (uq_Name req) (set_user_Email (uq_Email req) user)) in
        do? _ := UserRepo_Update user else err => mret (failBelow err) in
        audit r None "user.update" "user" (user_ID user) (user_Email user) {[ "role" := VString role ]};;
        mret (writeJSON 200 (BodyUser user))
    end.

Definition handleDeleteUser (r : Inbound) (id : string) : M Response :=
  do? rec := UserRepo_Get id else err => mret (failBelow err) in
  let user := rec_User rec in
  refusal ← (if String.eqb (user_Role user) RoleAdmin then lastAdmin "deleted" else mret None);
  match refusal with
  | Some refusal => mret refusal
  | None =>
      do? _ := UserRepo_Delete (user_ID user) else err => mret (failBelow err) in
      audit r None "user.delete" "user" (user_ID user) (user_Email user) ∅;;
      mret (writeJSON 204 NoBody)
  end.

(** [None]: the current password matches; an unreadable hash does not. *)
Definition checkCurrent (rec : UserRecord) (current : string) : option serverError :=
  let mismatch := Some (Invalid (invalidField "invalid password" "currentPassword" "does not match")) in
  match VerifyPassword (rec_PasswordHash rec) current with
  | Fail err => if errorsIs err ErrInvalidHash then mismatch else Some (Below err)
  | Ok true => None
  | Ok false => mismatch
  end.

(** Without a principal the code would dereference nil, and the recoverer would
    answer; [RequireAuth] keeps such requests out. *)
Definition handleChangePassword (r : Inbound) (id : string) (body : option (result passwordRequest)) : M Response :=
  match in_principal r with
  | None => mret (writeError 500 codeInternal "internal server error")
  | Some principal =>
      let self := match p_User principal with Some u => String.eqb (user_ID u) id | None => false end in
      if negb self && negb (IsAdmin (Some principal))
      then mret (writeError 403 codeForbidden "only administrators can change another user's password")
      else
        do? rec := UserRepo_Get id else err => mret (failBelow err) in
        let! req := decodeBody body else e => mret (fail e) in
        match ValidatePassword (pq_NewPassword req) with
        | Some err => mret (failInvalid (invalidField "invalid password" "newPassword" (err_msg err)))
        | None =>
            match (if self then checkCurrent rec (pq_CurrentPassword req) else None) with
            | Some e => mret (fail e)
            | None =>
                let user := rec_User rec in
                rand ← ask env_rand;
                do? _ := SetPassword (rand 0%nat) (user_ID user) (pq_NewPassword req) else err => mret (failBelow err) in
                d ← DeleteForUser (user_ID user);
                match d with
                | Fail err =>
                    if errorsIs err ErrNotFound
                    then audit r None "user.password" "user" (user_ID user) (user_Email user) ∅;; mret (writeJSON 204 NoBody)
                    else mret (failBelow err)
                | Ok _ => audit r None "user.password" "user" (user_ID user) (user_Email user) ∅;; mret (writeJSON 204 NoBody)
                end
            end
        end
  end.

(** ** Tokens *)

Record tokenRequest := mkTokenRequest {
  tq_Name : string; tq_Scopes : list string; tq_JobSlugs : list string; tq_ExpiresAt : option Time
}.

Definition handleListTokens : M Response :=
  do? items := TokenRepo_List else err => mret (failBelow err) in
  mret (writeJSON 200 (BodyTokens items)).

Fixpoint jobSlugLoop (slugs : list string) (ve : validationError) : M validationError :=
  match slugs with
  | [] => mret ve
  | slug :: rest =>
      r ← JobRepo_GetBySlug slug;
      jobSlugLoop rest (match r with Fail _ => ve_field "jobSlugs" ("unknown job: " +:+ slug) ve | Ok _ => ve end)
  end.

Definition handleCreateToken (r : Inbound) (body : option (result tokenRequest)) : M Response :=
  let! req := decodeBody body else e => mret (fail e) in
  let ve := ve_fieldIf (Blank (tq_Name req)) "name" "required" (newValidationError "invalid token") in
  let ve := ve_fieldErr "scopes" (ValidateScopes (tq_Scopes req)) ve in
  ve ← (match tq_ExpiresAt req with
        | Some e => t ← now; mret (ve_fieldIf (Before e t) "expiresAt" "must be in the future" ve)
        | None => mret ve
        end);
  ve ← jobSlugLoop (tq_JobSlugs req) ve;
  if negb (ve_empty ve) then mret (failInvalid ve)
  else
    ints ← ask env_int;
    do? (token, secret) := CreateToken ints (mkToken "" (TrimSpace (tq_Name req)) "" (tq_Scopes req) (tq_JobSlugs req)
                             zeroTime (actorLabel r) None (tq_ExpiresAt req))
      else err => mret (failBelow err) in
    audit r None "token.create" "token" (tok_ID token) (tok_Name token) {[ "scopes" := VStrings (tok_Scopes token) ]};;
    mret (writeJSON 201 (BodyToken token secret)).

Definition handleDeleteToken (r : Inbound) (id : string) : M Response :=
  do? tok := TokenRepo_Get id else err => mret (failBelow err) in
  do? _ := TokenRepo_Delete (tok_ID tok) else err => mret (failBelow err) in
  audit r None "token.delete" "token" (tok_ID tok) (tok_Name tok) ∅;;
  mret (writeJSON 204 NoBody).

(** ** Settings *)

Definition handleGetSettings : M Response :=
  s ← SettingsRepo_Get;
  mret (match s.2 with Some err => failBelow err | None => writeJSON 200 (BodySettings s.1) end).

Definition isHTTPURL (v : string) : bool :=
  (7 <? String.length v)%nat
  && (String.eqb (stake 7 v) "http://" || ((8 <? String.length v)%nat && String.eqb (stake 8 v) "https://")).

Definition invalidSettings (s : Settings) : validationError :=
  let ve := newValidationError "invalid settings" in
  let ve := ve_fieldIf ((MaxConcurrentRuns s <? 1) || (MaxConcurrentRuns s >? 64)) "maxConcurrentRuns" "must be between 1 and 64" ve in
  let ve := ve_fieldIf ((OverdueCheckMinutes s <? 1) || (OverdueCheckMinutes s >? 1440)) "overdueCheckMinutes" "must be between 1 and 1440" ve in
  let ve := ve_fieldIf ((RunHistoryDays s <? 0) || (AuditHistoryDays s <? 0)) "runHistoryDays" "must not be negative" ve in
  let ve := match LoadLocation (DefaultTimezone s) with Fail err => ve_field "defaultTimezone" (err_msg err) ve | Ok _ => ve end in
  let ve := ve_fieldIf (negb (bool_decide (BaseURL s = "")) && negb (isHTTPURL (BaseURL s))) "baseUrl" "must start with http:// or https://" ve in
  let ve := ve_fieldIf (negativeRetention (DefaultRetention s)) "defaultRetention" "values must not be negative" ve in
  checkEvents "defaultNotifyOn" (DefaultNotifyOn s) ve.

(** The body is decoded over the current settings: [body] is what that gives.
    [ReloadSettings] reads the settings again for the engine. *)
Definition handleUpdateSettings (r : Inbound) (body : Settings -> option (result Settings)) : M Response :=
  s ← SettingsRepo_Get;
  match s.2 with
  | Some err => mret (failBelow err)
  | None =>
      let! incoming := decodeBody (body s.1) else e => mret (fail e) in
      let ve := invalidSettings incoming in
      if negb (ve_empty ve) then mret (failInvalid ve)
      else
        saved ← SettingsRepo_Save incoming;
        match saved.2 with
        | Some err => mret (failBelow err)
        | None =>
            _ ← SettingsRepo_Get;
            ReloadSchedule;;
            audit r None "settings.update" "settings" "settings" (SiteName saved.1) ∅;;
            mret (writeJSON 200 (BodySettings saved.1))
        end
  end.

(** ** Setup, login, logout *)

Record setupRequest := mkSetup { su_Name : string; su_Email : string; su_Password : string }.
Record loginRequest := mkLogin { lg_Email : string; lg_Password : string }.

Definition handleSetupStatus : M Response :=
  do? needs := NeedsSetup else err => mret (failBelow err) in
  mret (writeJSON 200 (BodyNeedsSetup needs)).

(** A login time that cannot be recorded is logged. *)
Definition startSession (r : Inbound) (user : User) : M (result (string * Time)) :=
  rand ← ask env_rand;
  do? (secret, expires) := CreateSession (rand 0%nat) (user_ID user) (in_ip r) (in_agent r) else err => mret (Fail err) in
  t ← now;
  _ ← TouchLogin (user_ID user) t;
  mret (Ok (secret, expires)).

Definition handleSetup (r : Inbound) (body : option (result setupRequest)) : M Response :=
  do? needs := NeedsSetup else err => mret (failBelow err) in
  if negb needs then mret (writeError 409 codeConflict "setup has already been completed")
  else
    let! req := decodeBody body else e => mret (fail e) in
    let ve := ve_fieldIf (Blank (su_Email req)) "email" "required" (newValidationError "invalid setup request") in
    let ve := ve_fieldIf (Blank (su_Name req)) "name" "required" ve in
    let ve := ve_fieldErr "password" (ValidatePassword (su_Password req)) ve in
    if negb (ve_empty ve) then mret (failInvalid ve)
    else
      do? user := createUser (mkUser "" (su_Email req) (su_Name req) RoleAdmin zeroTime None) (su_Password req)
        else err => mret (failBelow err) in
      do? (secret, expires) := startSession r user else err => mret (failBelow err) in
      audit r (Some (mkPrincipal AuthSession (Some user) "" "" [] [] "")) "user.create" "user" (user_ID user) (user_Email user)
        (<["role" := VString (user_Role user)]> {[ "setup" := VBool true ]});;
      mret (mkResponse 201 (BodyUser user) (SetCookie secret expires)).

(** The limiter of the server is threaded through. *)
Definition handleLogin (r : Inbound) (limiter : RateLimiter) (body : option (result loginRequest)) : M (Response * RateLimiter) :=
  t ← now;
  let '(allowed, limiter) := Allow (in_ip r) t limiter in
  if negb allowed
  then mret (writeError 429 "rate_limited" "too many login attempts, try again in a minute", limiter)
  else
    let! req := decodeBody body else e => mret (fail e, limiter) in
    do? user := Login (lg_Email req) (lg_Password req)
      else err => mret (if errorsIs err ErrInvalidCredentials
                        then writeError 401 codeUnauthenticated "invalid email or password" else failBelow err, limiter) in
    let limiter := RateLimiter.Reset (in_ip r) limiter in
    do? (secret, expires) := startSession r user else err => mret (failBelow err, limiter) in
    mret (mkResponse 200 (BodyUser user) (SetCookie secret expires), limiter).

Definition handleLogout (r : Inbound) : M Response :=
  d ← (match in_cookie r with
       | Some value => if bool_decide (value = "") then mret (Ok tt) else DestroySession value
       | None => mret (Ok tt)
       end);
  mret (match d with
        | Fail err => if errorsIs err ErrNotFound then mkResponse 204 NoBody ClearCookie else failBelow err
        | Ok _ => mkResponse 204 NoBody ClearCookie
        end).

Definition handleMe (r : Inbound) : M Response := mret (writeJSON 200 (BodyMe (in_principal r))).

(** ** Audit log, health *)

Definition handleListAudit (r : Inbound) : M Response :=
  let! page := pageFromRequest r else e => mret (fail e) in
  let! since := parseTimeParam r "since" else e => mret (fail e) in
  do? (items, total) := AuditRepo_List (mkAuditFilter (query_text r "actor") (query_text r "action") (query_text r "objectType") since page)
    else err => mret (failBelow err) in
  mret (writeJSON 200 (BodyAudit items total)).

Definition handleReady : M Response :=
  do? _ := query (λ _, tt) else err => mret (writeError 503 "" (err_msg err)) in
  scheduler ← ask env_scheduler;
  mret (writeJSON (if scheduler : bool then 200 else 503) (BodyReady scheduler)).
End admin.
