(* ===== verification/ServerExport.v ===== *)
(** * Export and import: [internal/server/export.go]

    The configuration as one document, by names instead of identifiers, and back.
    Encoding the document in YAML is not part of the model. *)
From S2P Require Import Prelude GoStrings GoTime GoSlices Core CoreSetters Config Secrets Pack Spool Db StoreCommon StoreJobs StoreConfig.
From S2P Require Import StoreAdmin Remote Drivers Scheduler Password Auth Slug ServerBase ServerConfig ServerHosts ServerJobs.
Open Scope Z_scope.

Section export.
  Context {A : AEAD} {Dr : Drivers} {D : Digest} {Ar : Argon2} {K : Cron} {S : SSH} {sprint_host : SprintHost}.

Definition everything : Page := mkPage MaxLimit 0.

(** ** Export *)

Definition hostEntry (includeSecrets : bool) (h : Host) : exportHost :=
  let h := if includeSecrets then DecryptHostLenient h else Host_Masked h in
  mkExportHost (host_Name h) (host_Description h) (host_Address h) (host_Port h) (host_User h) (host_Auth h)
    (host_PrivateKey h) (host_KeyPassphrase h) (host_Password h) (host_HostKey h) (host_Sudo h) (host_ConnectTimeout h)
    (host_Tags h).

(** The configuration of an entry: decrypted where the kind is known, or masked. *)
Definition configEntry (includeSecrets : bool) (spec : option DriverSpec) (cfg : Config) : Config :=
  if includeSecrets then
    match spec with Some spec => DecryptConfigLenient cfg (SecretFields spec) | None => cfg end
  else maskConfig spec cfg.

Definition sourceEntry (includeSecrets : bool) (s : Source) : exportSource :=
  mkExportSource (src_Name s) (src_Kind s) (src_Description s)
    (configEntry includeSecrets (source_Get (src_Kind s)) (src_Config s)) (src_HostName s) (src_Tags s).

Definition destinationEntry (includeSecrets : bool) (d : Destination) : exportDestination :=
  mkExportDestination (dst_Name d) (dst_Kind d) (dst_Description d)
    (configEntry includeSecrets (dest_Get (dst_Kind d)) (dst_Config d)) (dst_Tags d).

Definition channelEntry (includeSecrets : bool) (c : NotificationChannel) : exportChannel :=
  mkExportChannel (chan_Name c) (chan_Kind c) (chan_Enabled c) (chan_Events c)
    (configEntry includeSecrets (notify_Get (chan_Kind c)) (chan_Config c)).

(** Names by identifier, or identifiers by name: a later entry replaces an
    earlier one. *)
Definition index {B} (key value : B -> string) (l : list B) : gmap string string :=
  foldl (λ m b, <[key b := value b]> m) ∅ l.

(** The names of the identifiers that have one. *)
Definition namesOf (names : gmap string string) (ids : list string) : list string := omap (λ id, names !! id) ids.

Definition jobEntry (includeSecrets : bool) (sourceNames destNames channelNames : gmap string string) (j : Job)
    : result exportJob :=
  let? passphrase :=
    (if bool_decide (job_EncryptionPassphrase j = "") then Ok ""
     else if includeSecrets then Decrypt (job_EncryptionPassphrase j) else Ok SecretMask)
    else err => Fail err in
  Ok (mkExportJob (job_Slug j) (job_Name j) (job_Description j) (default "" (sourceNames !! job_SourceID j))
        (namesOf destNames (job_DestinationIDs j)) (job_Schedule j) (job_Timezone j) (job_Enabled j) (job_Compression j)
        (job_CompressionLevel j) (job_Encryption j) passphrase (job_Retention j)
        (namesOf channelNames (job_NotificationChannelIDs j)) (job_NotifyOn j) (job_TimeoutMinutes j) (job_Retries j)
        (job_RetryDelaySeconds j) (job_PreCommand j) (job_PostCommand j) (job_VerifyAfterUpload j)
        (job_ExpectedIntervalMinutes j) (job_Tags j)).

Fixpoint jobEntries (entry : Job -> result exportJob) (jobs : list Job) : result (list exportJob) :=
  match jobs with
  | [] => Ok []
  | j :: rest =>
      let? x := entry j else err => Fail err in
      let? xs := jobEntries entry rest else err => Fail err in
      Ok (x :: xs)
  end.

Definition buildExport (includeSecrets : bool) : M (result exportDocument) :=
  t ← now;
  do? (hosts, _) := HostRepo_List (mkHostFilter "" "" everything) else err => mret (Fail err) in
  do? (sources, _) := SourceRepo_List (mkSourceFilter "" "" "" everything) else err => mret (Fail err) in
  do? (destinations, _) := DestinationRepo_List (mkDestinationFilter "" "" everything) else err => mret (Fail err) in
  do? channels := ChannelRepo_List else err => mret (Fail err) in
  do? jobs := JobRepo_All else err => mret (Fail err) in
  mret (let? entries := jobEntries (jobEntry includeSecrets (index src_ID src_Name sources)
                                      (index dst_ID dst_Name destinations) (index chan_ID chan_Name channels)) jobs
          else err => Fail err in
        Ok (mkExportDocument 1 t (hostEntry includeSecrets <$> hosts) (sourceEntry includeSecrets <$> sources)
              (destinationEntry includeSecrets <$> destinations) entries (channelEntry includeSecrets <$> channels))).

Definition exportCounts (doc : exportDocument) : gmap string Value :=
  let n {B} (l : list B) := VInt (Z.of_nat (length l)) in
  <["hosts" := n (doc_Hosts doc)]> (<["sources" := n (doc_Sources doc)]> (<["destinations" := n (doc_Destinations doc)]>
    (<["jobs" := n (doc_Jobs doc)]> {[ "channels" := n (doc_Channels doc) ]}))).

Definition handleExport (r : Inbound) : M Response :=
  let includeSecrets := queryBool r "includeSecrets" in
  do? doc := buildExport includeSecrets else err => mret (failBelow err) in
  audit r None (if includeSecrets then "export.secrets" else "export") "export" "" "" (exportCounts doc);;
  mret (writeJSON 200 (BodyExport doc)).

(** ** Import

    Each kind of entry in turn, one entry after the other; what was written
    before an error stays.  The identifiers by name go from entry to entry. *)
Definition progress : Type := (gmap string string * list importChange)%type.

Definition verb (exists_ : bool) : string := if exists_ then "update" else "create".

Definition present {B} (o : option B) : bool := match o with Some _ => true | None => false end.

(** Import of the entries of a list, threading the progress. *)
Fixpoint importAll {B} (items : list B) (p : progress) (one : B -> progress -> M (outcome progress)) : M (outcome progress) :=
  match items with
  | [] => mret (Good p)
  | item :: rest => do! p := one item p else e => mret (Bad e) in importAll rest p one
  end.

(** The saved record, from an update or a creation. *)
Definition saved {B} (exists_ : bool) (update : M (B * option error)) (create : M (result B)) : M (outcome B) :=
  if exists_ then u ← update; mret (below (orError u)) else c ← create; mret (below c).

Definition hostRequestOf (item : exportHost) : hostRequest :=
  mkHostRequest "" (xh_Name item) (xh_Description item) (xh_Address item) (xh_Port item) (xh_User item) (xh_Auth item)
    (xh_PrivateKey item) (xh_KeyPassphrase item) (xh_Password item) "" (xh_HostKey item) (xh_Sudo item)
    (xh_ConnectTimeoutSeconds item) (xh_Tags item).

Definition importHost (dryRun : bool) (item : exportHost) (p : progress) : M (outcome progress) :=
  let '(hostIDs, changes) := p in
  let existing := hostIDs !! xh_Name item in
  do! previous :=
    (match existing with
     | None => mret (Good zeroHost)
     | Some id =>
         do? current := HostRepo_Get id else err => mret (Bad (Below err)) in
         mret (below (orError (DecryptHost current)))
     end) else e => mret (Bad e) in
  let host := set_host_ID (default "" existing) (mergeHostSecrets (hostFromRequest (hostRequestOf item)) previous) in
  match validateHost host with
  | Some ve => mret (Bad (Invalid ve))
  | None =>
      let! host := derivePublicKey host [host_PublicKey previous] else e => mret (Bad e) in
      let changes := changes ++ [mkChange "host" (xh_Name item) (verb (present existing)) ""] in
      if dryRun then mret (Good (hostIDs, changes))
      else
        do? stored := encryptHost host else err => mret (Bad (Below err)) in
        do! saved := saved (present existing) (HostRepo_Update stored) (HostRepo_Create stored) else e => mret (Bad e) in
        mret (Good (<[xh_Name item := host_ID saved]> hostIDs, changes))
  end.

(** The host of an imported source: its identifier, and a note when it is not
    known. *)
Definition importSourceHost (spec : DriverSpec) (hostIDs : gmap string string) (name : string) : M (outcome (string * string)) :=
  let name := TrimSpace name in
  if bool_decide (name = "") then mret (Good ("", ""))
  else
    match hostIDs !! name with
    | None => mret (Good ("", "unknown host: " +:+ name))
    | Some id => do! _ := validateSourceHost spec id else e => mret (Bad e) in mret (Good (id, ""))
    end.

Definition importSource (dryRun : bool) (hostIDs : gmap string string) (item : exportSource) (p : progress)
    : M (outcome progress) :=
  let '(sourceIDs, changes) := p in
  let! spec := sourceSpec (xs_Kind item) else e => mret (Bad e) in
  let existing := sourceIDs !! xs_Name item in
  do! previous :=
    (match existing with
     | None => mret (Good ∅)
     | Some id => do? current := SourceRepo_Get id else err => mret (Bad (Below err)) in mret (Good (src_Config current))
     end) else e => mret (Bad e) in
  do! prepared := prepareConfig spec (xs_Config item) previous (source_Validate (xs_Kind item)) else e => mret (Bad e) in
  do! (hostID, note) := importSourceHost spec hostIDs (xs_Host item) else e => mret (Bad e) in
  let changes := changes ++ [mkChange "source" (xs_Name item) (verb (present existing)) note] in
  if dryRun then mret (Good (sourceIDs, changes))
  else
    let record := mkSource (default "" existing) (xs_Name item) (xs_Kind item) (xs_Description item)
                    (pc_Encrypted prepared) hostID "" (xs_Tags item) zeroTime zeroTime None None "" 0 in
    do! saved := saved (present existing) (SourceRepo_Update record) (SourceRepo_Create record) else e => mret (Bad e) in
    mret (Good (<[xs_Name item := src_ID saved]> sourceIDs, changes)).

Definition importDestination (dryRun : bool) (item : exportDestination) (p : progress) : M (outcome progress) :=
  let '(destIDs, changes) := p in
  let! spec := destinationSpec (xd_Kind item) else e => mret (Bad e) in
  let existing := destIDs !! xd_Name item in
  do! previous :=
    (match existing with
     | None => mret (Good ∅)
     | Some id => do? current := DestinationRepo_Get id else err => mret (Bad (Below err)) in mret (Good (dst_Config current))
     end) else e => mret (Bad e) in
  do! prepared := prepareConfig spec (xd_Config item) previous (dest_Validate (xd_Kind item)) else e => mret (Bad e) in
  let changes := changes ++ [mkChange "destination" (xd_Name item) (verb (present existing)) ""] in
  if dryRun then mret (Good (destIDs, changes))
  else
    let record := mkDestination (default "" existing) (xd_Name item) (xd_Kind item) (xd_Description item)
                    (pc_Encrypted prepared) (xd_Tags item) zeroTime zeroTime None None "" 0 0 0 in
    do! saved := saved (present existing) (DestinationRepo_Update record) (DestinationRepo_Create record) else e => mret (Bad e) in
    mret (Good (<[xd_Name item := dst_ID saved]> destIDs, changes)).

Definition importChannel (dryRun : bool) (item : exportChannel) (p : progress) : M (outcome progress) :=
  let '(channelIDs, changes) := p in
  let! spec := notifierSpec (xc_Kind item) else e => mret (Bad e) in
  let existing := channelIDs !! xc_Name item in
  do! previous :=
    (match existing with
     | None => mret (Good ∅)
     | Some id => do? current := ChannelRepo_Get id else err => mret (Bad (Below err)) in mret (Good (chan_Config current))
     end) else e => mret (Bad e) in
  do! prepared := prepareConfig spec (xc_Config item) previous (notify_Validate (xc_Kind item)) else e => mret (Bad e) in
  let changes := changes ++ [mkChange "channel" (xc_Name item) (verb (present existing)) ""] in
  if dryRun then mret (Good (channelIDs, changes))
  else
    let record := mkChannel (default "" existing) (xc_Name item) (xc_Kind item) (pc_Encrypted prepared)
                    (xc_Enabled item) (xc_Events item) zeroTime zeroTime None "" in
    do! saved := saved (present existing) (ChannelRepo_Update record) (ChannelRepo_Create record) else e => mret (Bad e) in
    mret (Good (<[xc_Name item := chan_ID saved]> channelIDs, changes)).

(** The request an imported job stands for, and the note on what it names that
    does not exist: the last unknown destination, or the source. *)
Definition jobRequestOf (slug : string) (sourceIDs destIDs channelIDs : gmap string string) (item : exportJob) : jobRequest :=
  mkJobRequest slug (xj_Name item) (xj_Description item) (default "" (sourceIDs !! xj_Source item))
    (omap (λ n, destIDs !! n) (xj_Destinations item)) (xj_Schedule item) (xj_Timezone item) (Some (xj_Enabled item))
    (xj_Compression item) (xj_CompressionLevel item) (xj_Encryption item) (xj_EncryptionPassphrase item)
    (xj_Retention item) (omap (λ n, channelIDs !! n) (xj_NotificationChannels item)) (xj_NotifyOn item)
    (xj_TimeoutMinutes item) (xj_Retries item) (xj_RetryDelaySeconds item) (xj_PreCommand item) (xj_PostCommand item)
    (xj_VerifyAfterUpload item) (xj_ExpectedIntervalMinutes item) (xj_Tags item).

Definition jobNote (sourceIDs destIDs : gmap string string) (item : exportJob) : string :=
  let note := foldl (λ note n, match destIDs !! n with Some _ => note | None => "unknown destination: " +:+ n end) "" (xj_Destinations item) in
  if bool_decide (default "" (sourceIDs !! xj_Source item) = "") then "unknown source: " +:+ xj_Source item else note.

Definition importJob (dryRun : bool) (sourceIDs destIDs channelIDs : gmap string string) (item : exportJob) (p : progress)
    : M (outcome progress) :=
  let '(m, changes) := p in
  let slug := if bool_decide (xj_Slug item = "") then slugify (xj_Name item) else xj_Slug item in
  r ← JobRepo_GetBySlug slug;
  let! existing := (match r with
                    | Ok j => Good (Some j)
                    | Fail err => if errorsIs err ErrNotFound then Good None else Bad (Below err)
                    end) else e => mret (Bad e) in
  let req := jobRequestOf slug sourceIDs destIDs channelIDs item in
  if dryRun
  then mret (Good (m, changes ++ [mkChange "job" slug (verb (present existing)) (jobNote sourceIDs destIDs item)]))
  else
    do! job := validateJob req existing else e => mret (Bad e) in
    do! _ := saved (present existing) (JobRepo_Update job) (JobRepo_Create job) else e => mret (Bad e) in
    mret (Good (m, changes ++ [mkChange "job" slug (verb (present existing)) ""])).

Definition importHosts (dryRun : bool) (doc : exportDocument) (changes : list importChange) : M (outcome progress) :=
  do? (hosts, _) := HostRepo_List (mkHostFilter "" "" everything) else err => mret (Bad (Below err)) in
  importAll (doc_Hosts doc) (index host_Name host_ID hosts, changes) (importHost dryRun).

Definition importSources (dryRun : bool) (doc : exportDocument) (hostIDs : gmap string string) (changes : list importChange)
    : M (outcome progress) :=
  do? (sources, _) := SourceRepo_List (mkSourceFilter "" "" "" everything) else err => mret (Bad (Below err)) in
  importAll (doc_Sources doc) (index src_Name src_ID sources, changes) (importSource dryRun hostIDs).

Definition importDestinations (dryRun : bool) (doc : exportDocument) (changes : list importChange) : M (outcome progress) :=
  do? (destinations, _) := DestinationRepo_List (mkDestinationFilter "" "" everything) else err => mret (Bad (Below err)) in
  importAll (doc_Destinations doc) (index dst_Name dst_ID destinations, changes) (importDestination dryRun).

Definition importChannels (dryRun : bool) (doc : exportDocument) (changes : list importChange) : M (outcome progress) :=
  do? channels := ChannelRepo_List else err => mret (Bad (Below err)) in
  importAll (doc_Channels doc) (index chan_Name chan_ID channels, changes) (importChannel dryRun).

Definition runImport (dryRun : bool) (doc : exportDocument) : M (outcome (list importChange)) :=
  do! (hostIDs, changes) := importHosts dryRun doc [] else e => mret (Bad e) in
  do! (sourceIDs, changes) := importSources dryRun doc hostIDs changes else e => mret (Bad e) in
  do! (destIDs, changes) := importDestinations dryRun doc changes else e => mret (Bad e) in
  do! (channelIDs, changes) := importChannels dryRun doc changes else e => mret (Bad e) in
  do! (_, changes) := importAll (doc_Jobs doc) (∅, changes) (importJob dryRun sourceIDs destIDs channelIDs) else e => mret (Bad e) in
  mret (Good changes).

(** [body]: the error of reading the request, that of the YAML decoder, or the
    document. *)
Definition handleImport (r : Inbound) (body : outcome exportDocument) : M Response :=
  let! doc := body else e => mret (fail e) in
  let dryRun := queryBool r "dryRun" in
  do! changes := runImport dryRun doc else e => mret (fail e) in
  (if dryRun then mret tt
   else ReloadSchedule;; audit r None "import" "import" "" "" {[ "changes" := VInt (Z.of_nat (length changes)) ]});;
  mret (writeJSON 200 (BodyImport dryRun changes)).
End export.
