(* ===== verification/Router.v ===== *)
(** * The router: [internal/server/router.go]

    The endpoints of the API with their route, their group and their handler,
    and a request served from the middleware to the response.  The endpoints
    that stream, serve files or report numbers have no model: event and log
    streams, dashboard, metrics, documentation, static files, health, versions and
    tools. *)
From S2P Require Import Prelude GoStrings GoTime GoSlices Core CoreSetters Config Secrets Pack Spool Db StoreCommon StoreJobs StoreConfig.
From S2P Require Import StoreAdmin RunState Remote Drivers Scheduler Restore RateLimiter Password Auth ServerBase ServerConfig ServerHosts.
From S2P Require Import ServerJobs ServerRuns ServerAdmin ServerExport.
Open Scope Z_scope.

(** A request body, decoded for the endpoint. *)
Definition body (T : Type) : Type := option (result T).

Inductive Endpoint :=
  (* no authentication *)
  | GetSetupStatus | PostSetup (b : body setupRequest) | PostLogin (b : body loginRequest)
  (* any principal *)
  | PostLogout | GetMe | GetMetaSources | GetMetaDestinations | GetMetaNotifiers
  | PutUserPassword (id : string) (b : body passwordRequest)
  (* scope read *)
  | GetSources | GetSource (id : string) | GetHosts | GetHost (id : string)
  | GetDestinations | GetDestination (id : string) | GetBrowse (id : string)
  | GetJobs | GetJob (id : string) | GetJobRuns (id : string) | GetJobArtifacts (id : string) | GetSchedulePreview (id : string)
  | GetRuns | GetRun (id : string) | GetRunLog (id : string)
  | GetArtifacts | GetArtifact (id : string) | GetDownload (id : string)
  | GetChannels | GetChannel (id : string) | GetSettings
  (* scope run *)
  | PostRunJob (id : string) | PostCancelRun (id : string) | PostVerifyArtifact (id : string)
  (* scope ingest *)
  | PostIngest (slug : string) (header : string -> string) (contentLength : Z) (b : option (list string * option error))
  (* scope admin *)
  | PostSources (b : body sourceRequest) | PutSource (id : string) (b : body sourceRequest) | DeleteSource (id : string)
  | PostSourcesTest (b : body driverTestRequest) | PostSourceTest (id : string) (b : body driverTestRequest)
  | PostHosts (b : body hostRequest) | PutHost (id : string) (b : body hostRequest) | DeleteHost (id : string)
  | PostHostsTest (b : body hostRequest) | PostHostTest (id : string) | PostKeygen | PostHostKeygen (id : string)
  | PostDestinations (b : body destinationRequest) | PutDestination (id : string) (b : body destinationRequest)
  | DeleteDestination (id : string) | PostDestinationsTest (b : body driverTestRequest) | PostDestinationTest (id : string)
  | PostJobs (b : body jobRequest) | PutJob (id : string) (b : body jobRequest) | DeleteJob (id : string)
  | PostEnableJob (id : string) | PostDisableJob (id : string) | PostPruneJob (id : string) | PostDuplicateJob (id : string)
  | DeleteArtifact (id : string) | PostRestore (id : string) (b : body restoreRequest)
  | PostChannels (b : body channelRequest) | PutChannel (id : string) (b : body channelRequest) | DeleteChannel (id : string)
  | PostChannelsTest (b : body driverTestRequest) | PostChannelTest (id : string)
  | PutSettings (b : Settings -> body Settings)
  | GetUsers | PostUsers (b : body userRequest) | GetUser (id : string) | PutUser (id : string) (b : body userRequest)
  | DeleteUser (id : string)
  | GetTokens | PostTokens (b : body tokenRequest) | DeleteToken (id : string)
  | GetAudit | GetExport | PostImport (b : outcome exportDocument).

(** The guard of a group of routes. *)
Inductive Group := Unguarded | Authenticated | Scoped (scope : string).

#[export] Instance Group_eq_dec : EqDecision Group.
Proof. solve_decision. Defined.

Definition groupGuard (g : Group) (p : option Principal) : option Reply :=
  match g with
  | Unguarded => None
  | Authenticated => RequireAuth p
  | Scoped scope => RequireScope scope p
  end.

(** Method, path below [/api/v1] and group. *)
Definition route (e : Endpoint) : string * string * Group :=
  match e with
  | GetSetupStatus => ("GET", "/setup/status", Unguarded)
  | PostSetup _ => ("POST", "/setup", Unguarded)
  | PostLogin _ => ("POST", "/auth/login", Unguarded)
  | PostLogout => ("POST", "/auth/logout", Authenticated)
  | GetMe => ("GET", "/auth/me", Authenticated)
  | GetMetaSources => ("GET", "/meta/sources", Authenticated)
  | GetMetaDestinations => ("GET", "/meta/destinations", Authenticated)
  | GetMetaNotifiers => ("GET", "/meta/notifiers", Authenticated)
  | GetSources => ("GET", "/sources", Scoped ScopeRead)
  | GetSource _ => ("GET", "/sources/{id}", Scoped ScopeRead)
  | GetHosts => ("GET", "/hosts", Scoped ScopeRead)
  | GetHost _ => ("GET", "/hosts/{id}", Scoped ScopeRead)
  | GetDestinations => ("GET", "/destinations", Scoped ScopeRead)
  | GetDestination _ => ("GET", "/destinations/{id}", Scoped ScopeRead)
  | GetBrowse _ => ("GET", "/destinations/{id}/browse", Scoped ScopeRead)
  | GetJobs => ("GET", "/jobs", Scoped ScopeRead)
  | GetJob _ => ("GET", "/jobs/{id}", Scoped ScopeRead)
  | GetJobRuns _ => ("GET", "/jobs/{id}/runs", Scoped ScopeRead)
  | GetJobArtifacts _ => ("GET", "/jobs/{id}/artifacts", Scoped ScopeRead)
  | GetSchedulePreview _ => ("GET", "/jobs/{id}/schedule/preview", Scoped ScopeRead)
  | GetRuns => ("GET", "/runs", Scoped ScopeRead)
  | GetRun _ => ("GET", "/runs/{id}", Scoped ScopeRead)
  | GetRunLog _ => ("GET", "/runs/{id}/log", Scoped ScopeRead)
  | GetArtifacts => ("GET", "/artifacts", Scoped ScopeRead)
  | GetArtifact _ => ("GET", "/artifacts/{id}", Scoped ScopeRead)
  | GetDownload _ => ("GET", "/artifacts/{id}/download", Scoped ScopeRead)
  | GetChannels => ("GET", "/notifications/channels", Scoped ScopeRead)
  | GetChannel _ => ("GET", "/notifications/channels/{id}", Scoped ScopeRead)
  | GetSettings => ("GET", "/settings", Scoped ScopeRead)
  | PostRunJob _ => ("POST", "/jobs/{id}/run", Scoped ScopeRun)
  | PostCancelRun _ => ("POST", "/runs/{id}/cancel", Scoped ScopeRun)
  | PostVerifyArtifact _ => ("POST", "/artifacts/{id}/verify", Scoped ScopeRun)
  | PostIngest _ _ _ _ => ("POST", "/ingest/{jobSlug}", Scoped ScopeIngest)
  | PostSources _ => ("POST", "/sources", Scoped ScopeAdmin)
  | PutSource _ _ => ("PUT", "/sources/{id}", Scoped ScopeAdmin)
  | DeleteSource _ => ("DELETE", "/sources/{id}", Scoped ScopeAdmin)
  | PostSourcesTest _ => ("POST", "/sources/test", Scoped ScopeAdmin)
  | PostSourceTest _ _ => ("POST", "/sources/{id}/test", Scoped ScopeAdmin)
  | PostHosts _ => ("POST", "/hosts", Scoped ScopeAdmin)
  | PutHost _ _ => ("PUT", "/hosts/{id}", Scoped ScopeAdmin)
  | DeleteHost _ => ("DELETE", "/hosts/{id}", Scoped ScopeAdmin)
  | PostHostsTest _ => ("POST", "/hosts/test", Scoped ScopeAdmin)
  | PostHostTest _ => ("POST", "/hosts/{id}/test", Scoped ScopeAdmin)
  | PostKeygen => ("POST", "/hosts/keygen", Scoped ScopeAdmin)
  | PostHostKeygen _ => ("POST", "/hosts/{id}/keygen", Scoped ScopeAdmin)
  | PostDestinations _ => ("POST", "/destinations", Scoped ScopeAdmin)
  | PutDestination _ _ => ("PUT", "/destinations/{id}", Scoped ScopeAdmin)
  | DeleteDestination _ => ("DELETE", "/destinations/{id}", Scoped ScopeAdmin)
  | PostDestinationsTest _ => ("POST", "/destinations/test", Scoped ScopeAdmin)
  | PostDestinationTest _ => ("POST", "/destinations/{id}/test", Scoped ScopeAdmin)
  | PostJobs _ => ("POST", "/jobs", Scoped ScopeAdmin)
  | PutJob _ _ => ("PUT", "/jobs/{id}", Scoped ScopeAdmin)
  | DeleteJob _ => ("DELETE", "/jobs/{id}", Scoped ScopeAdmin)
  | PostEnableJob _ => ("POST", "/jobs/{id}/enable", Scoped ScopeAdmin)
  | PostDisableJob _ => ("POST", "/jobs/{id}/disable", Scoped ScopeAdmin)
  | PostPruneJob _ => ("POST", "/jobs/{id}/prune", Scoped ScopeAdmin)
  | PostDuplicateJob _ => ("POST", "/jobs/{id}/duplicate", Scoped ScopeAdmin)
  | DeleteArtifact _ => ("DELETE", "/artifacts/{id}", Scoped ScopeAdmin)
  | PostRestore _ _ => ("POST", "/artifacts/{id}/restore", Scoped ScopeAdmin)
  | PostChannels _ => ("POST", "/notifications/channels", Scoped ScopeAdmin)
  | PutChannel _ _ => ("PUT", "/notifications/channels/{id}", Scoped ScopeAdmin)
  | DeleteChannel _ => ("DELETE", "/notifications/channels/{id}", Scoped ScopeAdmin)
  | PostChannelsTest _ => ("POST", "/notifications/channels/test", Scoped ScopeAdmin)
  | PostChannelTest _ => ("POST", "/notifications/channels/{id}/test", Scoped ScopeAdmin)
  | PutSettings _ => ("PUT", "/settings", Scoped ScopeAdmin)
  | GetUsers => ("GET", "/users", Scoped ScopeAdmin)
  | PostUsers _ => ("POST", "/users", Scoped ScopeAdmin)
  | GetUser _ => ("GET", "/users/{id}", Scoped ScopeAdmin)
  | PutUser _ _ => ("PUT", "/users/{id}", Scoped ScopeAdmin)
  | DeleteUser _ => ("DELETE", "/users/{id}", Scoped ScopeAdmin)
  | GetTokens => ("GET", "/tokens", Scoped ScopeAdmin)
  | PostTokens _ => ("POST", "/tokens", Scoped ScopeAdmin)
  | DeleteToken _ => ("DELETE", "/tokens/{id}", Scoped ScopeAdmin)
  | GetAudit => ("GET", "/audit", Scoped ScopeAdmin)
  | GetExport => ("GET", "/export", Scoped ScopeAdmin)
  | PostImport _ => ("POST", "/import", Scoped ScopeAdmin)
  | PutUserPassword _ _ => ("PUT", "/users/{id}/password", Authenticated)
  end.

Section router.
  Context {A : AEAD} {C : Codecs} {D : Digest} {Ar : Argon2} {Dr : Drivers} {K : Cron} {S : SSH} {sprint_host : SprintHost}.
  Context (workDir : string) (specs : string -> list DriverSpec).

(** The handler of an endpoint other than the login, which has the limiter. *)
Definition handle (e : Endpoint) (r : Inbound) : M Response :=
  match e with
  | GetSetupStatus => handleSetupStatus
  | PostSetup b => handleSetup r b
  | PostLogin _ => mret (writeJSON 204 NoBody)
  | PostLogout => handleLogout r
  | GetMe => handleMe r
  | GetMetaSources => mret (writeJSON 200 (BodySpecs (specs "source")))
  | GetMetaDestinations => mret (writeJSON 200 (BodySpecs (specs "destination")))
  | GetMetaNotifiers => mret (writeJSON 200 (BodySpecs (specs "notifier")))
  | PutUserPassword id b => handleChangePassword r id b
  | GetSources => handleListSources r
  | GetSource id => handleGetSource id
  | GetHosts => handleListHosts r
  | GetHost id => handleGetHost id
  | GetDestinations => handleListDestinations r
  | GetDestination id => handleGetDestination id
  | GetBrowse id => handleBrowseDestination r id
  | GetJobs => handleListJobs r
  | GetJob id => handleGetJob id
  | GetJobRuns id => handleJobRuns r id
  | GetJobArtifacts id => handleJobArtifacts r id
  | GetSchedulePreview id => handleSchedulePreview r id
  | GetRuns => handleListRuns r
  | GetRun id => handleGetRun id
  | GetRunLog id => handleRunLog r id
  | GetArtifacts => handleListArtifacts r
  | GetArtifact id => handleGetArtifact id
  | GetDownload id => handleDownloadArtifact r id
  | GetChannels => handleListChannels
  | GetChannel id => handleGetChannel id
  | GetSettings => handleGetSettings
  | PostRunJob id => handleRunJob r id
  | PostCancelRun id => handleCancelRun r id
  | PostVerifyArtifact id => handleVerifyArtifact r id
  | PostIngest slug header n b => handleIngest workDir r slug header n b
  | PostSources b => handleCreateSource r b
  | PutSource id b => handleUpdateSource r id b
  | DeleteSource id => handleDeleteSource r id
  | PostSourcesTest b => handleTestSourceConfig "" b
  | PostSourceTest id b => handleTestSource r id b
  | PostHosts b => handleCreateHost r b
  | PutHost id b => handleUpdateHost r id b
  | DeleteHost id => handleDeleteHost r id
  | PostHostsTest b => handleTestHostConfig b
  | PostHostTest id => handleTestHost r id
  | PostKeygen => handleKeygen r
  | PostHostKeygen id => handleHostKeygen r id
  | PostDestinations b => handleCreateDestination r b
  | PutDestination id b => handleUpdateDestination r id b
  | DeleteDestination id => handleDeleteDestination r id
  | PostDestinationsTest b => handleTestDestinationConfig b
  | PostDestinationTest id => handleTestDestination r id
  | PostJobs b => handleCreateJob r b
  | PutJob id b => handleUpdateJob r id b
  | DeleteJob id => handleDeleteJob r id
  | PostEnableJob id => handleEnableJob r id
  | PostDisableJob id => handleDisableJob r id
  | PostPruneJob id => handlePruneJob r id
  | PostDuplicateJob id => handleDuplicateJob r id
  | DeleteArtifact id => handleDeleteArtifact r id
  | PostRestore id b => handleRestoreArtifact r id b
  | PostChannels b => handleCreateChannel r b
  | PutChannel id b => handleUpdateChannel r id b
  | DeleteChannel id => handleDeleteChannel r id
  | PostChannelsTest b => handleTestChannelConfig b
  | PostChannelTest id => handleTestChannel r id
  | PutSettings b => handleUpdateSettings r b
  | GetUsers => handleListUsers
  | PostUsers b => handleCreateUser r b
  | GetUser id => handleGetUser id
  | PutUser id b => handleUpdateUser r id b
  | DeleteUser id => handleDeleteUser r id
  | GetTokens => handleListTokens
  | PostTokens b => handleCreateToken r b
  | DeleteToken id => handleDeleteToken r id
  | GetAudit => handleListAudit r
  | GetExport => handleExport r
  | PostImport b => handleImport r b
  end.

(** A request to an endpoint: the parts the middleware reads, then what the
    handler reads.  The login threads the limiter. *)
Record HTTPRequest := mkHTTP {
  http_Authorization : string;
  http_RequestedWith : string;
  http_Cookie : option string;
  http_IP : string;
  http_UserAgent : string;
  http_Query : string -> string
}.

Definition authRequest (e : Endpoint) (r : HTTPRequest) : Request :=
  mkRequest (route e).1.1 (http_Authorization r) (http_RequestedWith r) (http_Cookie r).

Definition inbound (p : option Principal) (r : HTTPRequest) : Inbound :=
  mkInbound p (http_IP r) (http_UserAgent r) (http_Cookie r) (http_Query r).

(** The cookie of a session that is over is cleared, unless the handler sets one. *)
Definition clearing (cleared : bool) (resp : Response) : Response :=
  match resp_Cookie resp with
  | KeepCookie => mkResponse (resp_Status resp) (resp_Body resp) (if cleared then ClearCookie else KeepCookie)
  | _ => resp
  end.

Definition serve (e : Endpoint) (r : HTTPRequest) (limiter : RateLimiter) : M (Response * RateLimiter) :=
  reply ← guarded (groupGuard (route e).2) (authRequest e r);
  match reply with
  | Refused status code message => mret (writeError status code message, limiter)
  | Next p cleared =>
      res ← (match e with
             | PostLogin b => handleLogin (inbound p r) limiter b
             | _ => resp ← handle e (inbound p r); mret (resp, limiter)
             end);
      mret (clearing cleared res.1, res.2)
  end.
End router.
