(* ===== verification/Triples.v ===== *)
(** * Triples over the database

    What a program makes of an assertion on the database, whatever its
    environment answers. *)
From S2P Require Import Prelude GoStrings GoTime Core Spool Db.

(** The function a program applies. *)
Ltac head_of x := lazymatch x with ?f _ => head_of f | _ => x end.

Definition triple {A} (P : DB -> Prop) (m : M A) (Q : A -> DB -> Prop) : Prop :=
  ∀ env w, P (w_db w) -> Q (m env w).1 (w_db (m env w).2).

Lemma triple_ret {A} P (x : A) : triple P (mret x) (λ y db, y = x ∧ P db).
Proof. by intros env w. Qed.

Lemma triple_bind {A B} P (m : M A) (k : A -> M B) R Q :
  triple P m R -> (∀ x, triple (R x) (k x) Q) -> triple P (m ≫= k) Q.
Proof. intros Hm Hk env w H. rewrite bind_eq. by apply Hk, Hm. Qed.

Lemma triple_conseq {A} (P P' : DB -> Prop) (m : M A) (Q Q' : A -> DB -> Prop) :
  triple P m Q -> (∀ db, P' db -> P db) -> (∀ x db, Q x db -> Q' x db) -> triple P' m Q'.
Proof. intros H HP HQ env w Hw. by apply HQ, H, HP. Qed.

(** A program that writes nothing keeps every assertion. *)
Lemma triple_reads {A} P (m : M A) : keeps w_db m -> triple P m (λ _ db, P db).
Proof. intros H env w Hw. by rewrite H. Qed.

Lemma triple_query {A} P (q : DB -> A) : triple P (query q) (λ r db, P db ∧ ∀ a, r = Ok a -> a = q db).
Proof. intros env w Hw. unfold query. case_match; cbn; split; try done; congruence. Qed.

(** ** Reading one database

    [m] writes nothing, and what it returns on [db0] satisfies [Q]. *)
Definition reading {A} (db0 : DB) (m : M A) (Q : A -> Prop) : Prop :=
  ∀ env w, w_db w = db0 -> w_db (m env w).2 = db0 ∧ Q (m env w).1.

Section reading.
  Context (db0 : DB).

Lemma reading_ret {A} (x : A) (Q : A -> Prop) : Q x -> reading db0 (mret x) Q.
Proof. by intros H env w. Qed.

Lemma reading_bind {A B} (m : M A) (k : A -> M B) R Q :
  reading db0 m R -> (∀ x, R x -> reading db0 (k x) Q) -> reading db0 (m ≫= k) Q.
Proof. intros Hm Hk env w H. rewrite bind_eq. destruct (Hm env w H) as [H1 H2]. by apply Hk. Qed.

Lemma reading_query {A} (q : DB -> A) : reading db0 (query q) (λ r, ∀ a, r = Ok a -> a = q db0).
Proof. intros env w H. unfold query. case_match; cbn; split; try done. intros a [= <-]. by rewrite H. Qed.

Lemma reading_ask {A} (q : Env -> nat -> A) : reading db0 (ask q) (λ _, True).
Proof. intros env w H. by split. Qed.

Lemma reading_conseq {A} (m : M A) (Q Q' : A -> Prop) : reading db0 m Q -> (∀ x, Q x -> Q' x) -> reading db0 m Q'.
Proof. intros H HQ env w Hw. destruct (H env w Hw) as [H1 H2]. split; [done|]. by apply HQ. Qed.
End reading.
