(* ===== verification/JobFacts.v ===== *)
(** * What the validation of a job promises

    The slugs it makes are free and well formed, and a job it accepts is well
    formed with respect to the database it was checked against. *)
From S2P Require Import Prelude GoStrings GoTime GoSlices Core CoreSetters Config Secrets Pack Spool Db StoreCommon StoreJobs StoreRuns.
From S2P Require Import StoreConfig StoreAdmin StoreIntegrity RunState Remote Drivers Runner Restore EngineRuns Scheduler Password Auth Slug.
From S2P Require Import ServerBase ServerConfig ServerHosts ServerJobs Triples Sample.
Open Scope Z_scope.

(** ** Slugs *)

(** No job but [except] has the slug. *)
Definition slugFree (db : DB) (except slug : string) : Prop :=
  ∀ id j, db_jobs db !! id = Some j -> job_Slug j = slug -> job_ID j = except.

Lemma countWhere_zero {A} (p : A -> bool) (t : gmap string A) :
  countWhere p t <= 0 <-> ∀ i a, t !! i = Some a -> p a = false.
Proof.
  unfold countWhere. split.
  - intros H i a Hi. destruct (p a) eqn:Ha; [|done].
    assert (Hin : a ∈ selectWhere p t) by (apply selectWhere_elem; split; [by exists i|done]).
    destruct (selectWhere p t); [by apply elem_of_nil in Hin|simpl in H; lia].
  - intros H. destruct (selectWhere p t) as [|a l] eqn:E; [done|]. exfalso.
    assert (Hin : a ∈ selectWhere p t) by (rewrite E; set_solver). apply selectWhere_elem in Hin as [[i Hi] Ha].
    by rewrite (H i a Hi) in Ha.
Qed.

Lemma SlugExists_count slug except (db : DB) :
  countWhere (λ j, sameSlug slug j && negb (String.eqb (job_ID j) except)) (db_jobs db) <= 0 <-> slugFree db except slug.
Proof.
  rewrite countWhere_zero. unfold slugFree, sameSlug. split.
  - intros H i j Hj Hs. specialize (H i j Hj). cbn in H. apply andb_false_iff in H as [H|H].
    + by rewrite Hs, String.eqb_refl in H.
    + by apply negb_false_iff, String.eqb_eq in H.
  - intros H i j Hj. destruct (String.eqb_spec (job_Slug j) slug) as [E|]; cbn; [|done].
    by rewrite (H i j Hj E), String.eqb_refl.
Qed.

Lemma SlugExists_spec slug except db0 :
  reading db0 (JobRepo_SlugExists slug except) (λ r, r = Ok false -> slugFree db0 except slug).
Proof.
  unfold JobRepo_SlugExists. eapply reading_bind; [apply reading_query|]. intros [n|err] H; apply reading_ret; [|done].
  intros [= E]. apply SlugExists_count. rewrite (H n eq_refl) in E. lia.
Qed.

(** The candidates of the loop, in order. *)
Fixpoint candidates (n : nat) (i : Z) (base candidate : string) : list string :=
  match n with
  | O => []
  | S n' => candidate :: candidates n' (i + 1) base (base +:+ "-" +:+ Itoa i)
  end.

Lemma uniqueLoop_spec n i base candidate except db0 :
  reading db0 (uniqueLoop n i base candidate except JobRepo_SlugExists)
    (λ r, ∀ s, r = Ok (Some s) -> slugFree db0 except s ∧ s ∈ candidates n i base candidate).
Proof.
  revert i candidate. induction n as [|n IH]; intros i candidate; cbn [uniqueLoop]; [by apply reading_ret|].
  eapply reading_bind; [apply SlugExists_spec|]. intros [[]|err] H; cbn [negb candidates].
  - eapply reading_conseq; [apply IH|]. intros r Hr s Hs. destruct (Hr s Hs) as [H1 H2]. split; [done|]. set_solver.
  - apply reading_ret. intros s [= <-]. split; [by apply H|]. set_solver.
  - by apply reading_ret.
Qed.

Lemma candidates_valid n i base candidate s :
  1 <= i -> validSlug base = true -> validSlug candidate = true -> s ∈ candidates n i base candidate -> validSlug s = true.
Proof.
  revert i candidate. induction n as [|n IH]; intros i candidate Hi Hb Hc; cbn [candidates]; [by intros ?%elem_of_nil|].
  intros [->|H]%elem_of_cons; [done|]. apply (IH (i + 1) (base +:+ "-" +:+ Itoa i)); [lia|done| |done].
  apply validSlug_numbered; [lia|done].
Qed.

(** The slug a base gives is free, and well formed where the base is. *)
Lemma uniqueSlug_spec base except db0 :
  base = "" ∨ validSlug base = true ->
  reading db0 (uniqueSlug base except JobRepo_SlugExists)
    (λ r, ∀ s, r = Ok (Some s) -> slugFree db0 except s ∧ validSlug s = true).
Proof.
  intros Hb. unfold uniqueSlug. set (b := if bool_decide (base = "") then "job" else base).
  assert (V : validSlug b = true) by (subst b; case_bool_decide; [done|]; destruct Hb; [congruence|done]).
  eapply reading_conseq; [apply uniqueLoop_spec|]. intros r H s Hs. destruct (H s Hs) as [H1 H2]. split; [done|].
  by apply (candidates_valid slugCandidates 2 b b).
Qed.

(** *** A free candidate is found *)

Lemma sapp_inj_l (s t u : string) : s +:+ t = s +:+ u -> t = u.
Proof. induction s as [|a s IH]; [done|]. intros [= H]. by apply IH. Qed.

Lemma sapp_ne_self (s t : string) : t ≠ "" -> s ≠ s +:+ t.
Proof. intros Ht. induction s as [|a s IH]; [intros E; cbn in E; by subst t|]. intros [= H]. by apply IH. Qed.

Lemma candidates_later n i base candidate s :
  s ∈ candidates n i base candidate -> s = candidate ∨ ∃ k, i <= k ∧ s = base +:+ "-" +:+ Itoa k.
Proof.
  revert i candidate. induction n as [|n IH]; intros i candidate; cbn [candidates]; [by intros ?%elem_of_nil|].
  intros [->|H]%elem_of_cons; [by left|]. right. destruct (IH _ _ H) as [->|(k & Hk & ->)]; [by exists i|]. exists k. split; [lia|done].
Qed.

Lemma Itoa_inj i j : Itoa i = Itoa j -> i = j.
Proof. apply (inj pretty). Qed.

Lemma candidates_NoDup n i base candidate :
  (∀ k, i <= k -> candidate ≠ base +:+ "-" +:+ Itoa k) -> NoDup (candidates n i base candidate).
Proof.
  revert i candidate. induction n as [|n IH]; intros i candidate H; cbn [candidates]; constructor.
  - intros Hin. apply candidates_later in Hin as [E|(k & Hk & E)]; [by apply (H i)|]. by apply (H k); [lia|].
  - apply IH. intros k Hk E. apply sapp_inj_l in E. apply (sapp_inj_l "-"), Itoa_inj in E. lia.
Qed.

Lemma length_candidates n i base candidate : length (candidates n i base candidate) = n.
Proof. revert i candidate. induction n as [|n IH]; intros; cbn; [done|]. by rewrite IH. Qed.

Lemma SlugExists_answers slug except env w :
  dbAnswers env ->
  JobRepo_SlugExists slug except env w
  = (Ok (countWhere (λ j, sameSlug slug j && negb (String.eqb (job_ID j) except)) (db_jobs (w_db w)) >? 0), tick w).
Proof. intros He. unfold JobRepo_SlugExists. by rewrite bind_eq, query_ok. Qed.

Lemma uniqueLoop_finds n i base candidate except env w :
  dbAnswers env -> (∃ s, s ∈ candidates n i base candidate ∧ slugFree (w_db w) except s) ->
  ∃ s, (uniqueLoop n i base candidate except JobRepo_SlugExists env w).1 = Ok (Some s).
Proof.
  intros He. revert i candidate w. induction n as [|n IH]; intros i candidate w (s & Hs & Hf); cbn [candidates] in Hs;
    [by apply elem_of_nil in Hs|].
  cbn [uniqueLoop]. rewrite bind_eq, SlugExists_answers by done. cbn [fst snd].
  set (cnt := countWhere _ _). destruct (cnt >? 0) eqn:G; cbn [negb].
  - apply IH. apply elem_of_cons in Hs as [->|Hs]; [|by exists s].
    apply SlugExists_count in Hf. fold cnt in Hf. rewrite Z.gtb_ltb in G. apply Z.ltb_lt in G. lia.
  - by exists candidate.
Qed.

(** Among more slugs than jobs one is free. *)
Lemma pigeonhole db except l :
  NoDup l -> (size (db_jobs db) < length l)%nat -> ∃ s, s ∈ l ∧ slugFree db except s.
Proof.
  intros N H. set (used := job_Slug <$> (map_to_list (db_jobs db)).*2).
  destruct (decide (Exists (λ s, s ∉ used) l)) as [He|Hall].
  - apply Exists_exists in He as (s & Hs & Hn). exists s. split; [done|]. intros id j Hj E. exfalso. apply Hn.
    apply list_elem_of_fmap. exists j. split; [done|]. apply list_elem_of_fmap. exists (id, j). split; [done|].
    by apply elem_of_map_to_list.
  - exfalso. assert (Hsub : l ⊆+ used).
    { apply NoDup_submseteq; [done|]. intros s Hs. destruct (decide (s ∈ used)); [done|]. exfalso. apply Hall.
      apply Exists_exists. by exists s. }
    apply submseteq_length in Hsub. subst used. rewrite !length_fmap, length_map_to_list in Hsub. lia.
Qed.

(** With fewer jobs than candidates the loop finds a slug. *)
Lemma uniqueSlug_finds base except env w :
  dbAnswers env -> Z.of_nat (size (db_jobs (w_db w))) < 998 ->
  ∃ s, (uniqueSlug base except JobRepo_SlugExists env w).1 = Ok (Some s).
Proof.
  intros He Hn. unfold uniqueSlug. apply uniqueLoop_finds; [done|]. apply pigeonhole.
  - apply candidates_NoDup. intros k _. by apply sapp_ne_self.
  - rewrite length_candidates. unfold slugCandidates. lia.
Qed.

(** ** Complaints *)

Lemma ve_empty_field n m v : ve_empty (ve_field n m v) = false.
Proof. unfold ve_empty, ve_field. cbn. apply bool_decide_eq_false. apply insert_non_empty. Qed.

Lemma ve_empty_fieldIf b n m v : ve_empty (ve_fieldIf b n m v) = negb b && ve_empty v.
Proof. destruct b; cbn; [apply ve_empty_field|done]. Qed.

Lemma ve_empty_checkEvents field events v :
  ve_empty (checkEvents field events v) = forallb (containsString AllEvents) events && ve_empty v.
Proof.
  unfold checkEvents. revert v. induction events as [|e events IH]; intros v; [done|]. cbn [foldl forallb].
  rewrite IH, ve_empty_fieldIf, negb_involutive. destruct (containsString AllEvents e), (forallb _ events); cbn; done.
Qed.

(** ** Well-formed jobs *)

Section wellformed.
  Context {A : AEAD} {Dr : Drivers} {D : Digest} {Ar : Argon2} {K : Cron}.

Record wellFormed (db : DB) (j : Job) : Prop := mkWellFormed {
  wf_name : job_Name j ≠ "";
  wf_slug : validSlug (job_Slug j) = true;
  wf_slugFree : slugFree db (job_ID j) (job_Slug j);
  wf_source : is_Some (db_sources db !! job_SourceID j);
  wf_destinations : job_DestinationIDs j ≠ [] ∧ NoDup (job_DestinationIDs j)
                    ∧ Forall (λ id, is_Some (db_destinations db !! id)) (job_DestinationIDs j);
  wf_schedule : job_Schedule j = "" ∨ ∃ s, ParseSchedule (job_Schedule j) = Ok s;
  wf_timezone : job_Timezone j = "" ∨ ∃ l, LoadLocation (job_Timezone j) = Ok l;
  wf_compression : job_Compression j ∈ [CompressionNone; CompressionGzip; CompressionZstd];
  wf_level : 0 <= job_CompressionLevel j <= 19;
  wf_encryption : job_Encryption j = EncryptionNone ∧ job_EncryptionPassphrase j = ""
                  ∨ job_Encryption j = EncryptionAge ∧ IsEncrypted (job_EncryptionPassphrase j) = true;
  wf_retention : negativeRetention (job_Retention j) = false;
  wf_events : Forall (λ e, e ∈ AllEvents) (job_NotifyOn j);
  wf_channels : Forall (λ id, is_Some (db_channels db !! id)) (job_NotificationChannelIDs j);
  wf_limits : 0 <= job_TimeoutMinutes j ∧ 0 <= job_Retries j <= 20 ∧ 0 <= job_RetryDelaySeconds j
              ∧ 0 <= job_ExpectedIntervalMinutes j
}.

(** *** The rows the checks read *)

Lemma SourceRepo_Get_reads db0 id :
  reading db0 (SourceRepo_Get id) (λ r, ∀ s, r = Ok s -> ∃ row, db_sources db0 !! id = Some row ∧ src_ID s = src_ID row).
Proof.
  unfold SourceRepo_Get. eapply reading_bind; [apply reading_query|]. intros [[s|]|err] H; try (by apply reading_ret).
  specialize (H _ eq_refl). destruct (db_sources db0 !! id) as [row|]; [|done]. injection H as ->.
  eapply reading_bind; [apply reading_query|]. intros [s|err] H; apply reading_ret; [|done]. intros s' [= <-].
  rewrite (H s eq_refl). by exists row.
Qed.

Lemma DestinationRepo_Get_reads db0 id :
  reading db0 (DestinationRepo_Get id) (λ r, ∀ d, r = Ok d -> is_Some (db_destinations db0 !! id)).
Proof.
  unfold DestinationRepo_Get. eapply reading_bind; [apply reading_query|]. intros [[d|]|err] H; try (by apply reading_ret).
  specialize (H _ eq_refl). eapply reading_bind; [apply reading_query|]. intros [u|err] _; [|by apply reading_ret].
  eapply reading_bind; [apply reading_query|]. intros [d'|err] _; apply reading_ret; [|done]. intros _ _. by rewrite <- H.
Qed.

Lemma ChannelRepo_Get_reads db0 id :
  reading db0 (ChannelRepo_Get id) (λ r, ∀ c, r = Ok c -> is_Some (db_channels db0 !! id)).
Proof.
  unfold ChannelRepo_Get. eapply reading_bind; [apply reading_query|]. intros [o|err] H; apply reading_ret; [|done].
  specialize (H _ eq_refl). intros c Hc. destruct o as [c'|]; [|done]. by rewrite <- H.
Qed.

(** *** The steps

    What a step that leaves no complaint has established. *)

Definition clean (d : draft) : Prop := ve_empty d.1 = true.

Lemma checkName_clean req d : clean (checkName req d) -> clean d ∧ TrimSpace (jq_Name req) ≠ "".
Proof.
  unfold clean, checkName. cbn [fst]. rewrite ve_empty_fieldIf. intros H. apply andb_true_iff in H as [H ?].
  split; [done|]. by apply negb_true_iff, bool_decide_eq_false in H.
Qed.

Lemma checkSource_clean db0 req d :
  consistent db0 ->
  reading db0 (checkSource req d) (λ r, ∀ d', r = Good d' -> clean d' ->
    clean d ∧ ∃ id, d'.2 = set_job_SourceID id d.2 ∧ is_Some (db_sources db0 !! id)).
Proof.
  intros Hc. unfold checkSource. destruct (Blank (jq_SourceID req)).
  - apply reading_ret. intros d' [= <-] H. unfold clean in H. cbn in H. by rewrite ve_empty_field in H.
  - eapply reading_bind; [apply SourceRepo_Get_reads|]. intros [s|err] H; apply reading_ret; intros d'.
    + intros [= <-] Hd. split; [done|]. exists (src_ID s). split; [done|]. destruct (H s eq_refl) as (row & Hr & ->).
      by rewrite (proj1 (c_sources _ Hc) _ _ Hr).
    + destruct (errorsIs err ErrNotFound); [|done]. intros [= <-] Hd. unfold clean in Hd. cbn in Hd. by rewrite ve_empty_field in Hd.
Qed.

(** The loop keeps every destination once; [seen] are the ones kept as long as
    there is no complaint. *)
Lemma destinationLoop_clean db0 ids seen kept ve :
  (ve_empty ve = true -> NoDup kept ∧ (∀ x, x ∈ seen <-> x ∈ kept) ∧ Forall (λ id, is_Some (db_destinations db0 !! id)) kept) ->
  reading db0 (destinationLoop ids seen kept ve) (λ r, ∀ ve' out, r = Good (ve', out) -> ve_empty ve' = true ->
    ve_empty ve = true ∧ NoDup out ∧ Forall (λ id, is_Some (db_destinations db0 !! id)) out ∧ (∀ x, x ∈ out <-> x ∈ kept ∨ x ∈ ids)).
Proof.
  revert seen kept ve. induction ids as [|id ids IH]; intros seen kept ve Hinv; cbn [destinationLoop].
  - apply reading_ret. intros ve' out [= <- <-] H. destruct (Hinv H) as (H1 & H2 & H3). split_and!; try done. set_solver.
  - destruct (existsb (String.eqb id) seen) eqn:E.
    + eapply reading_conseq; [by apply IH|]. intros r H ve' out Hr Hv. destruct (H ve' out Hr Hv) as (H1 & H2 & H3 & H4).
      split_and!; try done. intros x. rewrite H4. destruct (Hinv H1) as (_ & Hs & _).
      apply existsb_exists in E as (y & Hy & Ey). apply String.eqb_eq in Ey as <-. apply list_elem_of_In, Hs in Hy.
      rewrite elem_of_cons. split; [tauto|]. intros [?|[->|?]]; tauto.
    + assert (Hns : id ∉ seen).
      { intros Hin. assert (T : existsb (String.eqb id) seen = true); [|congruence]. apply existsb_exists. exists id.
        split; [by apply list_elem_of_In|apply String.eqb_refl]. }
      eapply reading_bind; [apply DestinationRepo_Get_reads|]. intros [dst|err] H.
      * eapply reading_conseq; [apply IH|].
        -- intros Hv. destruct (Hinv Hv) as (H1 & H2 & H3). split_and!.
           ++ apply NoDup_app. split_and!; [done| |apply NoDup_singleton]. intros x Hx ->%list_elem_of_singleton. by apply Hns, H2.
           ++ intros x. rewrite elem_of_cons, elem_of_app, list_elem_of_singleton, H2. tauto.
           ++ apply Forall_app. split; [done|]. apply Forall_singleton. by eapply H.
        -- intros r Hr ve' out E1 E2. destruct (Hr ve' out E1 E2) as (H1 & H2 & H3 & H4). split_and!; try done.
           intros x. rewrite H4, elem_of_app, list_elem_of_singleton, elem_of_cons. tauto.
      * destruct (errorsIs err ErrNotFound); [|by apply reading_ret].
        eapply reading_conseq; [apply IH; by rewrite ve_empty_field|]. intros r Hr ve' out E1 E2.
        destruct (Hr ve' out E1 E2) as (H1 & _). by rewrite ve_empty_field in H1.
Qed.

Lemma checkDestinations_clean db0 req d :
  reading db0 (checkDestinations req d) (λ r, ∀ d', r = Good d' -> clean d' ->
    clean d ∧ ∃ ids, d'.2 = set_job_DestinationIDs ids d.2 ∧ ids ≠ [] ∧ NoDup ids
                     ∧ Forall (λ id, is_Some (db_destinations db0 !! id)) ids).
Proof.
  unfold checkDestinations. eapply reading_bind; [apply destinationLoop_clean; intros _; split_and!; [constructor|done|constructor]|].
  intros [[ve ids]|e] H; apply reading_ret; [|done]. intros d' [= <-] Hd. destruct (H ve ids eq_refl Hd) as (H1 & H2 & H3 & H4).
  rewrite ve_empty_fieldIf in H1. apply andb_true_iff in H1 as [H0 H1]. split; [done|]. exists ids. split_and!; try done.
  intros ->. apply negb_true_iff, bool_decide_eq_false in H0. destruct (jq_DestinationIDs req) as [|x l]; [done|].
  clear H. assert (Hx : x ∈ @nil string) by (apply H4; right; set_solver). by apply elem_of_nil in Hx.
Qed.

Lemma checkSchedule_clean req d :
  clean (checkSchedule req d) ->
  clean d ∧ ∃ s z, (checkSchedule req d).2 = set_job_Timezone z (set_job_Schedule s d.2)
  ∧ (s = "" ∨ ∃ x, ParseSchedule s = Ok x) ∧ (z = "" ∨ ∃ l, LoadLocation z = Ok l).
Proof.
  unfold clean, checkSchedule. cbn [fst snd]. intros H.
  assert (HZ : ve_empty (if bool_decide (TrimSpace (jq_Schedule req) = "") then d.1
                 else match ParseSchedule (TrimSpace (jq_Schedule req)) with
                      | Fail err => ve_field "schedule" (err_msg err) d.1 | Ok _ => d.1 end) = true
               ∧ (TrimSpace (jq_Timezone req) = "" ∨ ∃ l, LoadLocation (TrimSpace (jq_Timezone req)) = Ok l)).
  { revert H. destruct (decide (TrimSpace (jq_Timezone req) = "")) as [E|E].
    - rewrite (bool_decide_eq_true_2 _ E). intros H. split; [done|by left].
    - rewrite (bool_decide_eq_false_2 _ E). destruct (LoadLocation _) as [l|err]; [|by rewrite ve_empty_field].
      intros H. split; [done|right; by exists l]. }
  destruct HZ as [HS HZ]. revert HS. destruct (decide (TrimSpace (jq_Schedule req) = "")) as [E|E].
  - rewrite (bool_decide_eq_true_2 _ E). intros HS. split; [done|]. eexists _, _. split; [done|]. split; [by left|done].
  - rewrite (bool_decide_eq_false_2 _ E). destruct (ParseSchedule _) as [x|err] eqn:P; [|by rewrite ve_empty_field].
    intros HS. split; [done|]. eexists _, _. split; [done|]. split; [right; by exists x|done].
Qed.

Lemma checkCompression_clean req d :
  clean (checkCompression req d) ->
  clean d ∧ ∃ c n, (checkCompression req d).2 = set_job_CompressionLevel n (set_job_Compression c d.2)
  ∧ c ∈ [CompressionNone; CompressionGzip; CompressionZstd] ∧ 0 <= n <= 19.
Proof.
  unfold clean, checkCompression. set (c := jq_Compression req). set (n := jq_CompressionLevel req).
  assert (B : negb ((n <? 0) || (n >? 19)) = true -> 0 <= n <= 19) by lia.
  destruct (bool_decide (c = "") || String.eqb c CompressionNone); cbn [fst snd].
  { rewrite ve_empty_fieldIf. intros [H ?]%andb_true_iff. split; [done|]. exists CompressionNone, n.
    split_and!; [done|set_solver| |]; by apply B. }
  destruct (String.eqb c CompressionGzip || String.eqb c CompressionZstd) eqn:E; cbn [fst snd]; rewrite ve_empty_fieldIf;
    intros [H H']%andb_true_iff; [|by rewrite ve_empty_field in H'].
  split; [done|]. exists c, n. split_and!; [done| |by apply B|by apply B].
  apply orb_true_iff in E as [E|E]; apply String.eqb_eq in E as ->; set_solver.
Qed.

Lemma Encrypt_encrypted nonce p e : Encrypt nonce p = Ok e -> p ≠ "" -> IsEncrypted e = true.
Proof.
  unfold Encrypt. intros H Hp. rewrite bool_decide_eq_false_2 in H by done. destruct (IsEncrypted p) eqn:E; [by injection H as <-|].
  destruct nonce; [|done]. injection H as <-. apply IsEncrypted_Prefix.
Qed.

(** The passphrase is the one on record, none, or a new one that is encrypted. *)
Lemma checkPassphrase_clean db0 isNew req d :
  reading db0 (checkPassphrase isNew req d) (λ r, ∀ d', r = Good d' -> clean d' ->
    clean d ∧ (isNew = false ∧ d'.2 = d.2
               ∨ ∃ p, d'.2 = set_job_EncryptionPassphrase p d.2 ∧ (p = "" ∨ IsEncrypted p = true))).
Proof.
  unfold checkPassphrase. set (p := jq_EncryptionPassphrase req). destruct (String.eqb p SecretMask).
  - apply reading_ret. intros d' [= <-]. unfold clean. cbn [fst snd]. rewrite ve_empty_fieldIf. intros [H ?]%andb_true_iff.
    split; [done|]. left. by apply negb_true_iff in H.
  - destruct (decide (p = "")) as [E|E].
    + rewrite (bool_decide_eq_true_2 _ E). apply reading_ret. intros d' [= <-] H. split; [done|]. right. exists "". split; [done|by left].
    + rewrite (bool_decide_eq_false_2 _ E). eapply reading_bind; [apply reading_ask|]. intros rand _. apply reading_ret.
      intros d'. destruct (Encrypt (rand 0%nat) p) as [e|err] eqn:X; [|done]. intros [= <-] H. split; [done|]. right.
      exists e. split; [done|]. right. by eapply Encrypt_encrypted.
Qed.

Lemma checkEncryption_clean db0 isNew req d :
  reading db0 (checkEncryption isNew req d) (λ r, ∀ d', r = Good d' -> clean d' ->
    clean d ∧ ((isNew = false -> job_EncryptionPassphrase d.2 = "" ∨ IsEncrypted (job_EncryptionPassphrase d.2) = true) ->
    ∃ e p, d'.2 = set_job_EncryptionPassphrase p (set_job_Encryption e d.2)
                     ∧ (e = EncryptionNone ∧ p = "" ∨ e = EncryptionAge ∧ IsEncrypted p = true))).
Proof.
  unfold checkEncryption. set (d1 := if bool_decide _ || _ then _ else _).
  eapply reading_bind; [apply checkPassphrase_clean|]. intros [[ve j]|e] H; apply reading_ret; [|done].
  intros d' [= <-]. unfold clean. cbn [fst snd]. rewrite ve_empty_fieldIf. intros [H0 H1]%andb_true_iff.
  destruct (H (ve, j) eq_refl H1) as [Hd Hj]. cbn [fst snd] in Hj.
  assert (Hd1 : ve_empty d.1 = true ∧ ∃ e, d1.2 = set_job_Encryption e d.2 ∧ (e = EncryptionNone ∨ e = EncryptionAge)).
  { subst d1. revert Hd. unfold clean. destruct (bool_decide _ || _); [|destruct (String.eqb _ _)]; cbn [fst snd]; intros Hd.
    - split; [done|]. eexists. split; [done|by left].
    - split; [done|]. eexists. split; [done|by right].
    - by rewrite ve_empty_field in Hd. }
  destruct Hd1 as [Hv (e & He & Hcase)]. split; [done|]. intros Hold. rewrite He in Hj.
  assert (Hp : ∃ p, j = set_job_EncryptionPassphrase p (set_job_Encryption e d.2) ∧ (p = "" ∨ IsEncrypted p = true)).
  { destruct Hj as [[Hn ->]|(p & -> & Hp)]; [|by exists p]. exists (job_EncryptionPassphrase d.2). split; [by destruct d as [? []]|by apply Hold]. }
  destruct Hp as (p & -> & Hp). cbn in H0. destruct Hcase as [-> | ->]; cbn.
  - exists EncryptionNone, "". split; [done|by left].
  - exists EncryptionAge, p. split; [done|]. right. split; [done|]. destruct Hp as [->|Hp]; [done|done].
Qed.

Lemma checkRetention_clean req d :
  clean (checkRetention req d) ->
  clean d ∧ ∃ r ev, (checkRetention req d).2 = set_job_NotifyOn ev (set_job_Retention r d.2)
  ∧ negativeRetention r = false ∧ Forall (λ e, e ∈ AllEvents) ev.
Proof.
  unfold clean, checkRetention. cbn [fst snd]. rewrite ve_empty_checkEvents, ve_empty_fieldIf.
  intros [He [Hr H]%andb_true_iff]%andb_true_iff. split; [done|]. eexists _, _. split; [done|].
  split; [by apply negb_true_iff in Hr|]. apply Forall_forall. intros e Hin. apply list_elem_of_In in Hin.
  rewrite forallb_forall in He. specialize (He e Hin). apply existsb_exists in He as (x & Hx & E).
  apply String.eqb_eq in E as <-. by apply list_elem_of_In.
Qed.

Lemma channelLoop_clean db0 ids ve :
  reading db0 (channelLoop ids ve) (λ r, ∀ ve', r = Good ve' -> ve_empty ve' = true ->
    ve_empty ve = true ∧ Forall (λ id, is_Some (db_channels db0 !! id)) ids).
Proof.
  revert ve. induction ids as [|id ids IH]; intros ve; cbn [channelLoop].
  - apply reading_ret. intros ve' [= <-] H. by split.
  - eapply reading_bind; [apply ChannelRepo_Get_reads|]. intros [c|err] H.
    + eapply reading_conseq; [apply IH|]. intros r Hr ve' E1 E2. destruct (Hr ve' E1 E2). split; [done|].
      constructor; [by eapply H|done].
    + destruct (errorsIs err ErrNotFound); [|by apply reading_ret]. eapply reading_conseq; [apply IH|].
      intros r Hr ve' E1 E2. destruct (Hr ve' E1 E2) as [H1 _]. by rewrite ve_empty_field in H1.
Qed.

Lemma checkChannels_clean db0 req d :
  reading db0 (checkChannels req d) (λ r, ∀ d', r = Good d' -> clean d' ->
    clean d ∧ ∃ ids, d'.2 = set_job_NotificationChannelIDs ids d.2 ∧ Forall (λ id, is_Some (db_channels db0 !! id)) ids).
Proof.
  unfold checkChannels. eapply reading_bind; [apply channelLoop_clean|]. intros [ve|e] H; apply reading_ret; [|done].
  intros d' [= <-] Hd. destruct (H ve eq_refl Hd) as [H1 H2]. split; [done|]. by eexists.
Qed.

(** The fields the limits touch. *)
Definition limited (t r rd ei : Z) (pre post : string) (v : bool) (tags : list string) (en : bool) (j : Job) : Job :=
  set_job_TimeoutMinutes t (set_job_Retries r (set_job_RetryDelaySeconds rd (set_job_ExpectedIntervalMinutes ei
    (set_job_PreCommand pre (set_job_PostCommand post (set_job_VerifyAfterUpload v (set_job_Tags tags (set_job_Enabled en j)))))))).

Lemma checkLimits_clean existing req d :
  clean (checkLimits existing req d) ->
  clean d ∧ ∃ t r rd ei pre post v tags en, (checkLimits existing req d).2 = limited t r rd ei pre post v tags en d.2
  ∧ 0 <= t ∧ 0 <= r <= 20 ∧ 0 <= rd ∧ 0 <= ei.
Proof.
  unfold clean, checkLimits. cbn [fst snd]. rewrite !ve_empty_fieldIf. intros H.
  repeat (apply andb_true_iff in H as [? H]). split; [done|]. do 9 eexists. split; [done|]. lia.
Qed.

Lemma freeSlug_clean db0 base except :
  base = "" ∨ validSlug base = true ->
  reading db0 (freeSlug base except) (λ r, ∀ s, r = Good s -> validSlug s = true ∧ slugFree db0 except s).
Proof.
  intros Hb. unfold freeSlug. eapply reading_bind; [by apply (uniqueSlug_spec base except db0)|].
  intros [[s|]|err] H; apply reading_ret; try done. intros s' [= <-]. by destruct (H s eq_refl).
Qed.

Lemma checkSlug_clean db0 existing req d :
  reading db0 (checkSlug existing req d) (λ r, ∀ d', r = Good d' -> clean d' ->
    clean d ∧ ((∀ j, existing = Some j -> job_Slug d.2 = job_Slug j ∧ validSlug (job_Slug j) = true ∧ slugFree db0 (job_ID j) (job_Slug j)) ->
    ∃ s, d'.2 = set_job_Slug s d.2 ∧ validSlug s = true
                   ∧ slugFree db0 (match existing with Some j => job_ID j | None => "" end) s)).
Proof.
  unfold checkSlug. set (requested := TrimSpace (jq_Slug req)). case_bool_decide as Hr.
  - destruct (validSlug requested) eqn:V; cbn [negb].
    + eapply reading_bind; [apply SlugExists_spec|]. intros [taken|err] H; apply reading_ret; [|done].
      intros d' [= <-]. unfold clean. cbn [fst snd]. rewrite ve_empty_fieldIf. intros [Ht ?]%andb_true_iff. split; [done|].
      intros _. apply negb_true_iff in Ht as ->. exists requested. split_and!; [done|done|by apply H].
    + apply reading_ret. intros d' [= <-] Hd. unfold clean in Hd. cbn in Hd. by rewrite ve_empty_field in Hd.
  - destruct (match existing with Some j => bool_decide (job_Slug j = "") | None => true end) eqn:E.
    + eapply reading_bind; [apply freeSlug_clean, slugify_valid|]. intros [s|e] H; apply reading_ret; [|done].
      intros d' [= <-] Hd. split; [done|]. intros _. exists s. destruct (H s eq_refl). by split_and!.
    + apply reading_ret. intros d' [= <-] Hd. split; [done|]. intros Hold. destruct existing as [j|]; [|done].
      destruct (Hold j eq_refl) as (H1 & H2 & H3). exists (job_Slug d.2). rewrite H1. split_and!; [|done|done].
      rewrite <- H1. destruct d as [? []]. done.
Qed.

(** *** The validation *)

Lemma validateJob_reads_wf db0 req existing :
  consistent db0 -> (∀ j, existing = Some j -> wellFormed db0 j) ->
  reading db0 (validateJob req existing) (λ r, ∀ j, r = Good j ->
    wellFormed db0 j ∧ job_ID j = match existing with Some e => job_ID e | None => "" end).
Proof.
  intros Hc Hold. unfold validateJob. set (d0 := checkName req _).
  eapply reading_bind; [by apply checkSource_clean|]. intros [d1|e] H1; [|by apply reading_ret].
  eapply reading_bind; [apply checkDestinations_clean|]. intros [d2|e] H2; [|by apply reading_ret].
  set (d4 := checkCompression req _).
  eapply reading_bind; [apply checkEncryption_clean|]. intros [d5|e] H5; [|by apply reading_ret].
  eapply reading_bind; [apply checkChannels_clean|]. intros [d7|e] H7; [|by apply reading_ret].
  eapply reading_bind; [apply checkSlug_clean|]. intros [d9|e] H9; apply reading_ret; [|done].
  intros j Hj. destruct (ve_empty d9.1) eqn:C9; [|done]. injection Hj as <-.
  destruct (H9 d9 eq_refl C9) as [C8 S9]. destruct (checkLimits_clean _ _ _ C8) as [C7 (? & ? & ? & ? & ? & ? & ? & ? & ? & E8 & L)].
  destruct (H7 d7 eq_refl C7) as [C6 (chans & E7 & Hchans)]. destruct (checkRetention_clean _ _ C6) as [C5 (? & ? & E6 & Hret & Hev)].
  destruct (H5 d5 eq_refl C5) as [C4 S5]. destruct (checkCompression_clean _ _ C4) as [C3 (? & ? & E4 & Hcomp & Hlev)].
  destruct (checkSchedule_clean _ _ C3) as [C2 (? & ? & E3 & Hs & Hz)].
  destruct (H2 d2 eq_refl C2) as [C1 (ids & E2 & Hids)]. destruct (H1 d1 eq_refl C1) as [C0 (sid & E1 & Hsid)].
  destruct (checkName_clean _ _ C0) as [_ Hname]. clear H1 H2 H5 H7 H9.
  fold d4 in E4. rewrite E3, E2, E1 in E4. rewrite E4 in S5.
  destruct S5 as (enc & p & E5 & Henc).
  { intros Hn. destruct existing as [e|]; [|done]. cbn. destruct (wf_encryption _ _ (Hold e eq_refl)) as [[_ H]|[_ H]]; [by left|by right]. }
  rewrite E5 in E6. rewrite E6 in E7. rewrite E7 in E8. rewrite E8 in S9.
  destruct S9 as (slug & E9 & Hslug & Hfree).
  { intros e ->. split; [done|]. destruct (Hold e eq_refl). by split. }
  rewrite E9. split; [|by destruct existing].
  split; try done; cbn; try (by destruct existing).
Qed.
End wellformed.
