(* ===== verification/ExportFacts.v ===== *)
(** * Export and import are inverse

    A job that is exported and imported again is the job it was. *)
From S2P Require Import Prelude GoStrings GoTime GoSlices Core CoreSetters Config Secrets Pack Spool Db StoreCommon StoreJobs StoreConfig.
From S2P Require Import StoreAdmin StoreIntegrity Remote Drivers Scheduler Password Auth Slug ServerBase ServerConfig ServerHosts ServerJobs.
From S2P Require Import ServerExport Triples JobFacts Sample.
Open Scope Z_scope.

(** ** Programs that give one answer

    [m] returns [x] on the database [db] and leaves it alone. *)
Definition yields {A} (env : Env) (db : DB) (m : M A) (x : A) : Prop :=
  ∀ w, w_db w = db -> (m env w).1 = x ∧ w_db (m env w).2 = db.

Section yields.
  Context (env : Env) (db : DB).

Lemma yields_ret {A} (x : A) : yields env db (mret x) x.
Proof. by intros w H. Qed.

Lemma yields_bind {A B} (m : M A) (k : A -> M B) x y :
  yields env db m x -> yields env db (k x) y -> yields env db (m ≫= k) y.
Proof. intros Hm Hk w H. rewrite bind_eq. destruct (Hm w H) as [-> H2]. by apply Hk. Qed.

Lemma yields_query {A} (q : DB -> A) : dbAnswers env -> yields env db (query q) (Ok (q db)).
Proof. intros He w H. rewrite query_ok by done. by rewrite H. Qed.

Lemma yields_ask {A} (q : Env -> nat -> A) m : (∀ n, q env n = m) -> yields env db (ask q) m.
Proof. intros H w Hw. unfold ask. cbn. by split. Qed.
End yields.

(** ** Names and identifiers *)

Lemma index_lookup {B} (key value : B -> string) (l : list B) k v :
  NoDup (key <$> l) -> index key value l !! k = Some v <-> ∃ b, b ∈ l ∧ key b = k ∧ value b = v.
Proof.
  unfold index. induction l as [|b l IH] using rev_ind.
  - intros _. cbn [foldl]. rewrite lookup_empty. split; [done|]. by intros (b & Hb%elem_of_nil & _).
  - rewrite fmap_app, NoDup_app. intros (N & Hd & _). rewrite foldl_app. cbn. specialize (IH N).
    destruct (decide (key b = k)) as [<-|Hk].
    + rewrite lookup_insert_eq. split.
      * intros [= <-]. exists b. split_and!; [set_solver|done|done].
      * intros (b' & [Hb'|Hb'%list_elem_of_singleton]%elem_of_app & E & <-); [|by subst].
        exfalso. apply (Hd (key b)); [rewrite <- E; by apply list_elem_of_fmap_2|set_solver].
    + rewrite lookup_insert_ne by done. rewrite IH. split.
      * intros (b' & Hb' & E). exists b'. split; [set_solver|done].
      * intros (b' & [Hb'|Hb'%list_elem_of_singleton]%elem_of_app & E & E'); [by exists b'|by subst].
Qed.

(** A listing: unique identifiers and unique names. *)
Record listing {B} (id name : B -> string) (l : list B) : Prop := mkListing {
  ls_ids : NoDup (id <$> l);
  ls_names : NoDup (name <$> l)
}.

Definition listed {B} (id : B -> string) (l : list B) (i : string) : Prop := ∃ b, b ∈ l ∧ id b = i.

Lemma index_inverse {B} (id name : B -> string) l i :
  listing id name l -> listed id l i -> ∃ n, index id name l !! i = Some n ∧ index name id l !! n = Some i.
Proof.
  intros [Hi Hn] (b & Hb & <-). exists (name b). split; apply index_lookup; try done; by exists b.
Qed.

Lemma namesOf_inverse {B} (id name : B -> string) l ids :
  listing id name l -> Forall (listed id l) ids ->
  omap (λ n, index name id l !! n) (namesOf (index id name l) ids) = ids.
Proof.
  intros Hl. unfold namesOf. induction 1 as [|i ids Hi _ IH]; [done|].
  destruct (index_inverse id name l i Hl Hi) as (n & H1 & H2).
  cbn [omap list_omap]. rewrite H1. cbn [omap list_omap]. rewrite H2. by f_equal.
Qed.

(** ** The checks on a job that passes them *)

Section export_facts.
  Context {A : AEAD} {Dr : Drivers} {D : Digest} {Ar : Argon2} {K : Cron}.
  Context (env : Env) (db : DB) (He : dbAnswers env) (Hc : consistent db).

Lemma SourceRepo_Get_yields id :
  is_Some (db_sources db !! id) -> ∃ s, yields env db (SourceRepo_Get id) (Ok s) ∧ src_ID s = id.
Proof.
  intros [row Hr]. exists (countJobs db (joinHost db row)). split; [|by apply (proj1 (c_sources _ Hc) id row)].
  unfold SourceRepo_Get. eapply yields_bind; [by apply yields_query|]. cbn beta iota. rewrite Hr. cbn [fmap option_fmap option_map].
  eapply yields_bind; [by apply yields_query|]. apply yields_ret.
Qed.

Lemma DestinationRepo_Get_yields id :
  is_Some (db_destinations db !! id) -> ∃ d, yields env db (DestinationRepo_Get id) (Ok d).
Proof.
  intros [row Hr]. exists (withUsage db row). unfold DestinationRepo_Get.
  eapply yields_bind; [by apply yields_query|]. cbn beta iota. rewrite Hr.
  do 2 (eapply yields_bind; [by apply yields_query|]). apply yields_ret.
Qed.

Lemma ChannelRepo_Get_yields id :
  is_Some (db_channels db !! id) -> ∃ c, yields env db (ChannelRepo_Get id) (Ok c).
Proof.
  intros [row Hr]. exists row. unfold ChannelRepo_Get. eapply yields_bind; [by apply yields_query|]. cbn beta iota. rewrite Hr. apply yields_ret.
Qed.

Lemma destinationLoop_yields ids seen kept ve :
  NoDup ids -> (∀ x, x ∈ seen -> x ∉ ids) -> Forall (λ id, is_Some (db_destinations db !! id)) ids ->
  yields env db (destinationLoop ids seen kept ve) (Good (ve, kept ++ ids)).
Proof.
  intros N Hs Hf. revert seen kept Hs. induction Hf as [|id ids Hid _ IH]; intros seen kept Hs; cbn [destinationLoop].
  - rewrite app_nil_r. apply yields_ret.
  - apply NoDup_cons in N as [Hn N]. destruct (existsb (String.eqb id) seen) eqn:E.
    + apply existsb_exists in E as (y & Hy & E). apply String.eqb_eq in E as <-. apply list_elem_of_In in Hy.
      destruct (Hs id Hy). set_solver.
    + destruct (DestinationRepo_Get_yields id Hid) as [d Hd]. eapply yields_bind; [exact Hd|]. cbn beta iota.
      replace (kept ++ id :: ids) with ((kept ++ [id]) ++ ids) by by rewrite <- app_assoc.
      apply IH; [done|]. intros x. rewrite elem_of_cons. intros [->|Hx]; [done|]. specialize (Hs x Hx). set_solver.
Qed.

Lemma channelLoop_yields ids ve :
  Forall (λ id, is_Some (db_channels db !! id)) ids -> yields env db (channelLoop ids ve) (Good ve).
Proof.
  induction 1 as [|id ids Hid _ IH]; cbn [channelLoop]; [apply yields_ret|].
  destruct (ChannelRepo_Get_yields id Hid) as [c Hc']. eapply yields_bind; [exact Hc'|]. exact IH.
Qed.

(** The request that states what the job is. *)
Definition restates (req : jobRequest) (j : Job) : Prop :=
  ∃ p, req = mkJobRequest (job_Slug j) (job_Name j) (job_Description j) (job_SourceID j) (job_DestinationIDs j)
    (job_Schedule j) (job_Timezone j) (Some (job_Enabled j)) (job_Compression j) (job_CompressionLevel j) (job_Encryption j)
    p (job_Retention j) (job_NotificationChannelIDs j) (job_NotifyOn j) (job_TimeoutMinutes j) (job_Retries j)
    (job_RetryDelaySeconds j) (job_PreCommand j) (job_PostCommand j) (job_VerifyAfterUpload j)
    (job_ExpectedIntervalMinutes j) (job_Tags j)
  ∧ p = if bool_decide (job_EncryptionPassphrase j = "") then "" else SecretMask.

(** Without blanks around them. *)
Definition trimmed (j : Job) : Prop :=
  TrimSpace (job_Name j) = job_Name j ∧ TrimSpace (job_Schedule j) = job_Schedule j
  ∧ TrimSpace (job_Timezone j) = job_Timezone j ∧ Blank (job_SourceID j) = false.

Ltac fields :=
  cbn [fst snd jq_Slug jq_Name jq_Description jq_SourceID jq_DestinationIDs jq_Schedule jq_Timezone jq_Enabled jq_Compression
    jq_CompressionLevel jq_Encryption jq_EncryptionPassphrase jq_Retention jq_NotificationChannelIDs jq_NotifyOn jq_TimeoutMinutes
    jq_Retries jq_RetryDelaySeconds jq_PreCommand jq_PostCommand jq_VerifyAfterUpload jq_ExpectedIntervalMinutes jq_Tags].

Section restated.
  Context (req : jobRequest) (j : Job) (Hq : restates req j) (Hw : wellFormed db j) (Ht : trimmed j).

Lemma checkName_restated v : checkName req (v, j) = (v, j).
Proof.
  destruct Hq as (p & -> & _). destruct Ht as (Hn & _). unfold checkName. fields. rewrite Hn.
  rewrite bool_decide_eq_false_2 by apply Hw. by destruct j.
Qed.

Lemma checkSource_restated v : yields env db (checkSource req (v, j)) (Good (v, j)).
Proof.
  destruct Hq as (p & -> & _). destruct Ht as (_ & _ & _ & Hb). unfold checkSource. fields. rewrite Hb.
  destruct (SourceRepo_Get_yields (job_SourceID j) (wf_source _ _ Hw)) as (s & Hs & E).
  eapply yields_bind; [exact Hs|]. cbn beta iota. rewrite E. clear. destruct j. apply yields_ret.
Qed.

Lemma checkDestinations_restated v : yields env db (checkDestinations req (v, j)) (Good (v, j)).
Proof.
  destruct Hq as (p & -> & _). destruct (wf_destinations _ _ Hw) as (H1 & H2 & H3). unfold checkDestinations. fields.
  rewrite bool_decide_eq_false_2 by done. eapply yields_bind; [by apply (destinationLoop_yields _ [] []); [|set_solver|]|].
  cbn [app]. clear. destruct j. apply yields_ret.
Qed.

Lemma checkSchedule_restated v : checkSchedule req (v, j) = (v, j).
Proof.
  destruct Hq as (p & -> & _). destruct Ht as (_ & Hs & Hz & _). unfold checkSchedule. fields. rewrite Hs, Hz.
  assert (S : ∀ v, (if bool_decide (job_Schedule j = "") then v
               else match ParseSchedule (job_Schedule j) with Fail err => ve_field "schedule" (err_msg err) v | Ok _ => v end) = v).
  { intros u. destruct (wf_schedule _ _ Hw) as [->|[x ->]]; [done|]. by destruct (bool_decide _). }
  assert (Z : ∀ v, (if bool_decide (job_Timezone j = "") then v
               else match LoadLocation (job_Timezone j) with Fail err => ve_field "timezone" (err_msg err) v | Ok _ => v end) = v).
  { intros u. destruct (wf_timezone _ _ Hw) as [->|[x ->]]; [done|]. by destruct (bool_decide (job_Timezone j = "")). }
  rewrite S, Z. by destruct j.
Qed.

Lemma checkCompression_restated v : checkCompression req (v, j) = (v, j).
Proof.
  destruct Hq as (p & -> & _). unfold checkCompression. fields. pose proof (wf_level _ _ Hw) as L.
  replace ((job_CompressionLevel j <? 0) || (job_CompressionLevel j >? 19)) with false by lia.
  pose proof (wf_compression _ _ Hw) as H. rewrite !elem_of_cons in H. clear -H. destruct j; cbn in *.
  destruct H as [->|[->|[->|H%elem_of_nil]]]; done.
Qed.

Lemma checkEncryption_restated v : yields env db (checkEncryption false req (v, j)) (Good (v, j)).
Proof.
  destruct Hq as (p & -> & Hp). unfold checkEncryption. fields. set (d1 := if _ || _ then _ else _).
  assert (E1 : d1 = (v, j)).
  { subst d1. clear -Hw. pose proof (wf_encryption _ _ Hw) as H. destruct j; cbn in *. by destruct H as [[-> _]|[-> _]]. }
  rewrite E1. clear d1 E1. eapply yields_bind.
  - instantiate (1 := Good (v, j)). unfold checkPassphrase. fields. rewrite Hp. case_bool_decide as E.
    + cbn. clear -E. destruct j; cbn in *; subst. apply yields_ret.
    + cbn. apply yields_ret.
  - cbn beta iota. clear -Hw. pose proof (wf_encryption _ _ Hw) as H. destruct j; cbn in *.
    destruct H as [[-> ->]|[-> Hx]]; cbn; [apply yields_ret|]. rewrite bool_decide_eq_false_2 by by intros ->. apply yields_ret.
Qed.

Lemma checkRetention_restated v : checkRetention req (v, j) = (v, j).
Proof.
  destruct Hq as (p & -> & _). unfold checkRetention. fields. rewrite (wf_retention _ _ Hw). cbn [ve_fieldIf].
  assert (E : checkEvents "notifyOn" (job_NotifyOn j) v = v); [|rewrite E; by destruct j].
  clear Hq. pose proof (wf_events _ _ Hw) as H. unfold checkEvents. induction H as [|e l He' _ IH]; [done|]. cbn [foldl].
  assert (Ec : containsString AllEvents e = true); [|rewrite Ec; exact IH].
  apply existsb_exists. exists e. split; [by apply list_elem_of_In|apply String.eqb_refl].
Qed.

Lemma checkChannels_restated v : yields env db (checkChannels req (v, j)) (Good (v, j)).
Proof.
  destruct Hq as (p & -> & _). unfold checkChannels. fields. eapply yields_bind; [apply channelLoop_yields, Hw|].
  cbn beta iota. clear. destruct j. apply yields_ret.
Qed.

Lemma checkLimits_restated v : checkLimits (Some j) req (v, j) = (v, j).
Proof.
  destruct Hq as (p & -> & _). unfold checkLimits. fields. destruct (wf_limits _ _ Hw) as (H1 & H2 & H3 & H4).
  replace (job_TimeoutMinutes j <? 0) with false by lia. replace ((job_Retries j <? 0) || (job_Retries j >? 20)) with false by lia.
  replace (job_RetryDelaySeconds j <? 0) with false by lia. replace (job_ExpectedIntervalMinutes j <? 0) with false by lia.
  cbn. by destruct j.
Qed.

Lemma checkSlug_restated v : yields env db (checkSlug (Some j) req (v, j)) (Good (v, j)).
Proof.
  destruct Hq as (p & -> & _). unfold checkSlug. fields. pose proof (wf_slug _ _ Hw) as V.
  rewrite TrimSpace_slug by (eapply slugAuto_ascii; rewrite <- validSlug_auto; exact V).
  rewrite bool_decide_eq_true_2 by (intros E; by rewrite E in V). rewrite V. cbn [negb].
  eapply yields_bind.
  - instantiate (1 := Ok false). intros w Hdb. rewrite SlugExists_answers by done. cbn. rewrite Hdb. split; [|done]. f_equal.
    pose proof (proj2 (SlugExists_count (job_Slug j) (job_ID j) db) (wf_slugFree _ _ Hw)). lia.
  - cbn. clear. destruct j. apply yields_ret.
Qed.

Lemma validateJob_restated : yields env db (validateJob req (Some j)) (Good j).
Proof.
  unfold validateJob. cbn [default]. rewrite checkName_restated.
  eapply yields_bind; [apply checkSource_restated|]. cbn beta iota.
  eapply yields_bind; [apply checkDestinations_restated|]. cbn beta iota.
  rewrite checkSchedule_restated, checkCompression_restated.
  eapply yields_bind; [apply checkEncryption_restated|]. cbn beta iota. rewrite checkRetention_restated.
  eapply yields_bind; [apply checkChannels_restated|]. cbn beta iota. rewrite checkLimits_restated.
  eapply yields_bind; [apply checkSlug_restated|]. apply yields_ret.
Qed.
End restated.

(** ** The round trip *)

(** What the export lists holds what the job refers to. *)
Record referenced (ss : list Source) (ds : list Destination) (cs : list NotificationChannel) (j : Job) : Prop := mkReferenced {
  rf_sources : listing src_ID src_Name ss;
  rf_destinations : listing dst_ID dst_Name ds;
  rf_channels : listing chan_ID chan_Name cs;
  rf_source : listed src_ID ss (job_SourceID j);
  rf_dests : Forall (listed dst_ID ds) (job_DestinationIDs j);
  rf_chans : Forall (listed chan_ID cs) (job_NotificationChannelIDs j)
}.

Lemma jobRequestOf_restates ss ds cs j item :
  referenced ss ds cs j ->
  jobEntry false (index src_ID src_Name ss) (index dst_ID dst_Name ds) (index chan_ID chan_Name cs) j = Ok item ->
  restates (jobRequestOf (xj_Slug item) (index src_Name src_ID ss) (index dst_Name dst_ID ds) (index chan_Name chan_ID cs) item) j.
Proof.
  intros [Ls Ld Lc Hs Hd Hn] E. unfold jobEntry in E.
  destruct (index_inverse src_ID src_Name ss (job_SourceID j) Ls Hs) as (n & H1 & H2). rewrite H1 in E. cbn [default] in E.
  exists (if bool_decide (job_EncryptionPassphrase j = "") then "" else SecretMask). split; [|done].
  assert (Hi : ∀ p, (if bool_decide (job_EncryptionPassphrase j = "") then Ok "" else Ok SecretMask) = Ok p ->
                    p = if bool_decide (job_EncryptionPassphrase j = "") then "" else SecretMask)
    by (intros p; case_bool_decide; by intros [= <-]).
  destruct (if bool_decide (job_EncryptionPassphrase j = "") then Ok "" else Ok SecretMask) as [p|err]; [|done].
  specialize (Hi p eq_refl). injection E as <-. unfold jobRequestOf. cbn. rewrite H2, Hi.
  by rewrite (namesOf_inverse dst_ID dst_Name ds _ Ld Hd), (namesOf_inverse chan_ID chan_Name cs _ Lc Hn).
Qed.
End export_facts.
