(* ===== verification/ServerFrames.v ===== *)
(** * What the handlers leave alone

    Frames over parts of the database: the operations of the runs, and the
    handlers a principal without the admin scope can reach. *)
From S2P Require Import Prelude GoStrings GoTime Core CoreSetters Config GoSlices Pack Spool Secrets Db Slug Remote StoreCommon StoreJobs.
From S2P Require Import StoreRuns StoreConfig StoreAdmin StoreIntegrity RunState Drivers Runner Restore EngineRuns Scheduler RateLimiter.
From S2P Require Import Password Auth ServerBase ServerConfig ServerHosts ServerJobs ServerRuns ServerAdmin ServerExport Router Triples.
Open Scope Z_scope.

(** [m] leaves the part [g] of the database as it was. *)
Definition keepsDB {P A} (g : DB -> P) (m : M A) : Prop := keeps (λ w, g (w_db w)) m.

Section keepsDB.
  Context {P : Type} (g : DB -> P).

Lemma keepsDB_db {A} (m : M A) : keeps w_db m -> keepsDB g m.
Proof. intros H env w. unfold keepsDB. by rewrite H. Qed.

Lemma keepsDB_ret {A} (x : A) : keepsDB g (mret x).
Proof. by intros env w. Qed.

Lemma keepsDB_bind {A B} (m : M A) (k : A -> M B) : keepsDB g m -> (∀ x, keepsDB g (k x)) -> keepsDB g (m ≫= k).
Proof. apply keeps_bind. Qed.

Lemma keepsDB_forEach {A B} (l : list A) (acc : B) body :
  (∀ x acc, keepsDB g (body x acc)) -> keepsDB g (forEach l acc body).
Proof. apply keeps_forEach. Qed.

Lemma keepsDB_forEach_err {A B} (l : list A) (acc : B) body :
  (∀ x acc, keepsDB g (body x acc)) -> keepsDB g (forEach_err l acc body).
Proof. apply keeps_forEach_err. Qed.

Lemma keepsDB_exec {A} (q : DB -> result (A * DB)) :
  (∀ db a db', q db = Ok (a, db') -> g db' = g db) -> keepsDB g (execWrite q).
Proof.
  intros H env w. unfold execWrite. case_match; [done|]. destruct (q (w_db w)) as [[a db']|] eqn:E; [|done].
  by apply H in E.
Qed.
End keepsDB.

Ltac write_tac :=
  let H := fresh in
  intros ? ? ? H; cbn beta in H; autounfold with ops in H;
  repeat (match type of H with context [match ?x with _ => _ end] => destruct x eqn:? end; simplify_eq/=);
  simplify_eq/=; done.

Create HintDb dbframe discriminated.

Ltac dbframe_step :=
  first
  [ apply keepsDB_ret
  | solve [eauto 1 with dbframe]
  | apply keepsDB_exec; write_tac
  | solve [apply keepsDB_db; eauto 2 with frame]
  | apply keepsDB_bind; [|intros ?]
  | apply keepsDB_forEach; intros ? ?
  | apply keepsDB_forEach_err; intros ? ?
  | case_match
  | progress autounfold with ops ].
Ltac dbframe := intros; repeat dbframe_step.

(** ** Parts of the database

    The tables only an administrator changes, and the ones no run changes. *)
Definition configuration (db : DB) :=
  (db_sources db, db_hosts db, db_destinations db, db_channels db, db_jobs db, db_settings db).

Definition outside (db : DB) := (configuration db, db_users db).

Lemma outside_configuration {A} (m : M A) : keepsDB outside m -> keepsDB configuration m.
Proof. intros H env w. exact (f_equal fst (H env w)). Qed.

Lemma outside_users {A} (m : M A) : keepsDB outside m -> keepsDB db_users m.
Proof. intros H env w. exact (f_equal snd (H env w)). Qed.

#[export] Hint Unfold currentRun update start stage stage_set stage_Done stage_Fail skippedStage setResult addArtifact Warn
  finish finishJob upsertState SourceRepo_Get DestinationRepo_Get JobRepo_GetBySlug JobRepo_GetByIDOrSlug ChannelRepo_Get
  ArtifactRepo_Get ArtifactRepo_Create SetStatus SetVerified ForJobDestination ForRun RunRepo_Create RunRepo_Get RunRepo_Log
  RunRepo_List ArtifactRepo_List SourceRepo_List DestinationRepo_List HostRepo_List ChannelRepo_List JobRepo_List JobRepo_All
  loadDestinations prepareIngest receive uploadAll uploadTo uploadOne putOnce verifyArtifacts verifyOne markMissing
  applyRetention retainOn pruneArtifacts runIngest newRun publishRun createAndEnqueue EnqueueBackup EnqueueVerify
  audit AuditRepo_Record AuditRepo_List Ingest Cancel resolveJob OpenArtifact passphraseForArtifact BrowseDestination showJob
  jobRef UserRepo_Get UserRepo_SetPassword SetPassword DeleteForUser SessionRepo_Delete SessionRepo_Create DestroySession
  createUser CreateUser UserRepo_Create UserRepo_Count NeedsSetup insertUser startSession CreateSession TouchLogin Login GetByEmail
  SettingsRepo_Get validateSourceHost prepareConfig prepareConfigOnHost encryptHost freeSlug uniqueSlug JobRepo_SlugExists : ops.

Section frames.
  Context {A : AEAD} {C : Codecs} {D : Digest} {Ar : Argon2} {Dr : Drivers} {K : Cron} {S : SSH} {sprint_host : SprintHost}.
  Context (workDir : string) (specs : string -> list DriverSpec).

(** *** What only reads *)

Section reads.
  Context {P : Type} (g : DB -> P).

Lemma destinationLoop_reads ids seen kept ve : keepsDB g (destinationLoop ids seen kept ve).
Proof. revert seen kept ve. induction ids as [|id ids IH]; intros; cbn [destinationLoop]; dbframe; apply IH. Qed.
Lemma channelLoop_reads ids ve : keepsDB g (channelLoop ids ve).
Proof. revert ve. induction ids as [|id ids IH]; intros; cbn [channelLoop]; dbframe; apply IH. Qed.
Lemma uniqueLoop_reads fuel i base candidate except : keepsDB g (uniqueLoop fuel i base candidate except JobRepo_SlugExists).
Proof. revert i candidate. induction fuel as [|n IH]; intros; cbn [uniqueLoop]; dbframe; apply IH. Qed.
Lemma jobSlugLoop_reads slugs ve : keepsDB g (jobSlugLoop slugs ve).
Proof. revert ve. induction slugs as [|x slugs IH]; intros; cbn [jobSlugLoop]; dbframe; apply IH. Qed.
#[local] Hint Resolve destinationLoop_reads channelLoop_reads uniqueLoop_reads jobSlugLoop_reads : dbframe.

Lemma validateJob_reads req existing : keepsDB g (validateJob req existing).
Proof.
  unfold validateJob, checkSource, checkDestinations, checkEncryption, checkPassphrase, checkChannels, checkSlug. dbframe.
Qed.

Lemma TestHost_reads h : keepsDB g (TestHost h).
Proof. unfold TestHost, Dial, Probe, Exec. dbframe. Qed.

Lemma buildExport_reads b : keepsDB g (buildExport b).
Proof. unfold buildExport. dbframe. Qed.

Lemma keepsDB_importAll {B} (items : list B) p one : (∀ b p, keepsDB g (one b p)) -> keepsDB g (importAll items p one).
Proof.
  intros H. revert p. induction items as [|b items IH]; intros p; cbn [importAll]; [apply keepsDB_ret|].
  apply keepsDB_bind; [apply H|]. intros [q|e]; [apply IH|apply keepsDB_ret].
Qed.
End reads.
#[local] Hint Resolve destinationLoop_reads channelLoop_reads uniqueLoop_reads jobSlugLoop_reads validateJob_reads
  TestHost_reads buildExport_reads : dbframe.

(** *** Imports

    A dry run only reads; an import leaves the accounts alone. *)

Section imports.
  Context {P : Type} (g : DB -> P) (dry : bool).
  Hypothesis (writes : dry = false ->
    (∀ h, keepsDB g (HostRepo_Create h)) ∧ (∀ h, keepsDB g (HostRepo_Update h))
    ∧ (∀ s, keepsDB g (SourceRepo_Create s)) ∧ (∀ s, keepsDB g (SourceRepo_Update s))
    ∧ (∀ d, keepsDB g (DestinationRepo_Create d)) ∧ (∀ d, keepsDB g (DestinationRepo_Update d))
    ∧ (∀ c, keepsDB g (ChannelRepo_Create c)) ∧ (∀ c, keepsDB g (ChannelRepo_Update c))
    ∧ (∀ j, keepsDB g (JobRepo_Create j)) ∧ (∀ j, keepsDB g (JobRepo_Update j))).

Ltac write_or_read :=
  destruct dry; [dbframe|];
  destruct writes as (H1 & H2 & H3 & H4 & H5 & H6 & H7 & H8 & H9 & H10); [done|];
  repeat first [solve [auto 1 with nocore] | apply H1 | apply H2 | apply H3 | apply H4 | apply H5 | apply H6 | apply H7 | apply H8
    | apply H9 | apply H10 | dbframe_step].

Lemma importHost_frame item p : keepsDB g (importHost dry item p).
Proof. unfold importHost, saved. write_or_read. Qed.
Lemma importSource_frame ids item p : keepsDB g (importSource dry ids item p).
Proof. unfold importSource, importSourceHost, saved. write_or_read. Qed.
Lemma importDestination_frame item p : keepsDB g (importDestination dry item p).
Proof. unfold importDestination, saved. write_or_read. Qed.
Lemma importChannel_frame item p : keepsDB g (importChannel dry item p).
Proof. unfold importChannel, saved. write_or_read. Qed.
Lemma importJob_frame s d c item p : keepsDB g (importJob dry s d c item p).
Proof. unfold importJob, saved. write_or_read. Qed.
#[local] Hint Resolve importHost_frame importSource_frame importDestination_frame importChannel_frame importJob_frame : dbframe.

Lemma runImport_frame doc : keepsDB g (runImport dry doc).
Proof.
  unfold runImport, importHosts, importSources, importDestinations, importChannels.
  repeat first [apply keepsDB_importAll; intros; solve [eauto 1 with dbframe] | dbframe_step].
Qed.
End imports.

(** *** Runs *)

Lemma outside_uploadLoop n attempt delay d path lastErr : keepsDB outside (uploadLoop n attempt delay d path lastErr).
Proof. revert attempt delay lastErr. induction n as [|n IH]; intros; cbn [uploadLoop]; dbframe; apply IH. Qed.

Lemma outside_pruneLoop client d remove removed lastErr : keepsDB outside (pruneLoop client d remove removed lastErr).
Proof. revert removed lastErr. induction remove as [|a rest IH]; intros; cbn [pruneLoop]; dbframe; apply IH. Qed.
#[local] Hint Resolve outside_uploadLoop outside_pruneLoop : dbframe.

Lemma outside_Ingest job opts chunks e : keepsDB outside (Ingest workDir job opts chunks e).
Proof. dbframe. Qed.

Lemma outside_handleIngest r slug header n b : keepsDB outside (handleIngest workDir r slug header n b).
Proof. unfold handleIngest. pose proof outside_Ingest. dbframe. Qed.

Lemma outside_guarded g q : keepsDB outside (guarded g q).
Proof. unfold guarded, Resolve, ResolveToken, ResolveSession. dbframe. Qed.

(** *** Handlers *)

Ltac handler := match goal with |- keepsDB _ ?h => let f := head_of h in unfold f end; dbframe.

Lemma conf_handleLogin r limiter b : keepsDB configuration (handleLogin r limiter b).
Proof. handler. Qed.

Lemma conf_handle e r : (route e).2 ≠ Scoped ScopeAdmin -> keepsDB configuration (handle workDir specs e r).
Proof.
  intros He. destruct e; cbn in He; try done; cbn [handle]; try apply keepsDB_ret.
  all: first [apply outside_configuration, outside_handleIngest | handler].
Qed.

(** The endpoints that write accounts. *)
Definition writesUsers (e : Endpoint) : bool :=
  match e with
  | PostSetup _ | PostLogin _ | PutUserPassword _ _ | PostUsers _ | PutUser _ _ | DeleteUser _ => true
  | _ => false
  end.

#[local] Hint Unfold insertJob updateJob relabelArtifacts relabelRuns deleteSource : ops.

Lemma users_runImport dry doc : keepsDB db_users (runImport dry doc).
Proof. apply runImport_frame. intros _. split_and!; intros; handler. Qed.
#[local] Hint Resolve users_runImport : dbframe.

#[local] Hint Unfold showJob refreshJobSchedule ReloadSchedule createAndEnqueue TestSource TestSourceConfig TestDestinationConfig
  TestChannelConfig keyComment deleteObject checkRestore CreateToken setJobEnabled EnqueueRestore EnqueuePrune : ops.

Lemma users_JobRepo_Delete id b : keepsDB db_users (JobRepo_Delete id b).
Proof.
  apply keepsDB_exec. intros db n db' H. unfold deleteJob in H. destruct (deleteId _ _) as [k t].
  destruct (affected _ _ _); [|done]. injection H as _ <-. by destruct b.
Qed.
#[local] Hint Resolve users_JobRepo_Delete : dbframe.

Lemma users_handle e r : writesUsers e = false -> keepsDB db_users (handle workDir specs e r).
Proof.
  intros He. destruct e; try discriminate He; cbn [handle]; try apply keepsDB_ret.
  all: first [apply outside_users, outside_handleIngest | handler].
Qed.

(** *** Tasks

    What the tasks, the schedule and the watchers write is outside the accounts
    and the configuration. *)

Lemma outside_extractLoop root entries fin : keepsDB outside (extractLoop root entries fin).
Proof. induction entries as [|x entries IH]; cbn [extractLoop]; unfold extractEntry; dbframe; apply IH. Qed.
#[local] Hint Resolve outside_extractLoop : dbframe.

#[local] Hint Unfold prepareBackup dumpToSpool storeSpool runHook restoreToPath restoreToSource copyToFile installFile extractTar : ops.

Lemma outside_runBackup jobID : keepsDB outside (runBackup workDir jobID).
Proof. handler. Qed.
Lemma outside_runPrune jobID : keepsDB outside (runPrune jobID).
Proof. handler. Qed.
Lemma outside_runVerify artifactID : keepsDB outside (runVerify artifactID).
Proof. handler. Qed.
Lemma outside_runRestore {T : Tar} getwd req : keepsDB outside (runRestore getwd req).
Proof. handler. Qed.
End frames.

(** What the statements of the other files unfold. *)
#[export] Hint Unfold insertJob updateJob relabelArtifacts relabelRuns deleteSource showJob refreshJobSchedule
  ReloadSchedule createAndEnqueue TestSource TestSourceConfig TestDestinationConfig TestChannelConfig keyComment
  deleteObject checkRestore CreateToken setJobEnabled EnqueueRestore EnqueuePrune prepareBackup dumpToSpool storeSpool
  runHook restoreToPath restoreToSource copyToFile installFile extractTar Resolve ResolveToken ResolveSession guarded
  lastAdmin CountAdmins UserRepo_List TokenRepo_List TokenRepo_Get : ops.
#[export] Hint Resolve destinationLoop_reads channelLoop_reads uniqueLoop_reads jobSlugLoop_reads validateJob_reads
  TestHost_reads buildExport_reads : dbframe.

(** * The API keeps the database consistent

    The integrity of the operations of the store, lifted through the runs of the
    engine and the handlers of the server to the requests and the tasks. *)

Lemma safe_db {A} (m : M A) : keeps w_db m -> safe m.
Proof. apply (keeps_preserves w_db m consistent). Qed.

Lemma safe_forEach {A B} (l : list A) (acc : B) body : (∀ x acc, safe (body x acc)) -> safe (forEach l acc body).
Proof. apply preserves_forEach. Qed.

Lemma safe_forEach_err {A B} (l : list A) (acc : B) body : (∀ x acc, safe (body x acc)) -> safe (forEach_err l acc body).
Proof. apply preserves_forEach_err. Qed.

Ltac safe_step :=
  first
  [ apply safe_ret
  | solve [eauto 2 with integrity]
  | solve [apply safe_db; eauto 2 with frame]
  | apply safe_bind; [|intros ?]
  | apply safe_forEach; intros ? ?
  | apply safe_forEach_err; intros ? ?
  | case_match
  | progress autounfold with ops ].
Ltac safely := intros; repeat safe_step.
Ltac safe_body := match goal with |- safe ?h => let f := head_of h in unfold f end; safely.

Section safe.
  Context {A : AEAD} {C : Codecs} {D : Digest} {Ar : Argon2} {Dr : Drivers} {K : Cron} {S : SSH} {sprint_host : SprintHost}.
  Context (workDir : string) (specs : string -> list DriverSpec).

(** ** Shared steps *)

Lemma SourceRepo_Get_safe id : safe (SourceRepo_Get id).
Proof. safely. Qed.
Lemma DestinationRepo_Get_safe id : safe (DestinationRepo_Get id).
Proof. safely. Qed.
Lemma JobRepo_Get_safe id : safe (JobRepo_Get id).
Proof. safely. Qed.
Lemma JobRepo_GetBySlug_safe slug : safe (JobRepo_GetBySlug slug).
Proof. safely. Qed.
Lemma JobRepo_GetByIDOrSlug_safe ref : safe (JobRepo_GetByIDOrSlug ref).
Proof. safely. Qed.
Lemma ChannelRepo_Get_safe id : safe (ChannelRepo_Get id).
Proof. safely. Qed.
Lemma HostRepo_Get_safe id : safe (HostRepo_Get id).
Proof. safely. Qed.
Lemma ArtifactRepo_Get_safe id : safe (ArtifactRepo_Get id).
Proof. safely. Qed.
Lemma RunRepo_Get_safe id : safe (RunRepo_Get id).
Proof. safely. Qed.
Lemma UserRepo_Get_safe id : safe (UserRepo_Get id).
Proof. safely. Qed.
Lemma SettingsRepo_Get_safe : safe (SettingsRepo_Get).
Proof. safely. Qed.
Lemma audit_safe r p action kind id name details : safe (audit r p action kind id name details).
Proof. safely. Qed.
Lemma prepareConfigOnHost_safe spec incoming previous host validate : safe (prepareConfigOnHost spec incoming previous host validate).
Proof. safely. Qed.
Lemma validateSourceHost_safe spec id : safe (validateSourceHost spec id).
Proof. safely. Qed.
Lemma encryptHost_safe h : safe (encryptHost h).
Proof. safely. Qed.
Lemma refreshJobSchedule_safe id : safe (refreshJobSchedule id).
Proof. safely. Qed.
Lemma showJob_safe status id : safe (showJob status id).
Proof. safely. Qed.
Lemma createUser_safe u password : safe (createUser u password).
Proof. safely. Qed.
Lemma startSession_safe r u : safe (startSession r u).
Proof. safely. Qed.
Lemma update_safe fn : safe (update fn).
Proof. safely. Qed.
#[local] Hint Resolve SourceRepo_Get_safe DestinationRepo_Get_safe JobRepo_Get_safe JobRepo_GetBySlug_safe JobRepo_GetByIDOrSlug_safe ChannelRepo_Get_safe HostRepo_Get_safe
  ArtifactRepo_Get_safe RunRepo_Get_safe UserRepo_Get_safe SettingsRepo_Get_safe audit_safe prepareConfigOnHost_safe validateSourceHost_safe
  encryptHost_safe refreshJobSchedule_safe showJob_safe createUser_safe startSession_safe update_safe : integrity.

(** ** Runs *)

Lemma uploadLoop_safe n attempt delay d path lastErr : safe (uploadLoop n attempt delay d path lastErr).
Proof. revert attempt delay lastErr. induction n as [|n IH]; intros; cbn [uploadLoop]; safely; apply IH. Qed.

Lemma pruneLoop_safe client d remove removed lastErr : safe (pruneLoop client d remove removed lastErr).
Proof. revert removed lastErr. induction remove as [|a rest IH]; intros; cbn [pruneLoop]; safely; apply IH. Qed.
#[local] Hint Resolve uploadLoop_safe pruneLoop_safe : integrity.

Lemma Ingest_safe job opts chunks e : safe (Ingest workDir job opts chunks e).
Proof. safely. Qed.
#[local] Hint Resolve Ingest_safe : integrity.

Lemma extractLoop_safe root entries fin : safe (extractLoop root entries fin).
Proof. induction entries as [|x entries IH]; cbn [extractLoop]; unfold extractEntry; safely; apply IH. Qed.
#[local] Hint Resolve extractLoop_safe : integrity.

(** ** Handlers *)

Lemma importAll_safe {B} (items : list B) p one : (∀ b p, safe (one b p)) -> safe (importAll items p one).
Proof.
  intros H. revert p. induction items as [|b items IH]; intros p; cbn [importAll]; [apply safe_ret|].
  apply safe_bind; [apply H|]. intros [q|e]; [apply IH|apply safe_ret].
Qed.

Lemma importHost_safe dry item p : safe (importHost dry item p).
Proof. unfold importHost, saved. safely. Qed.
Lemma importSource_safe dry ids item p : safe (importSource dry ids item p).
Proof. unfold importSource, importSourceHost, saved. safely. Qed.
Lemma importDestination_safe dry item p : safe (importDestination dry item p).
Proof. unfold importDestination, saved. safely. Qed.
Lemma importChannel_safe dry item p : safe (importChannel dry item p).
Proof. unfold importChannel, saved. safely. Qed.

Lemma destinationLoop_safe ids seen kept ve : safe (destinationLoop ids seen kept ve).
Proof. revert seen kept ve. induction ids as [|id ids IH]; intros; cbn [destinationLoop]; safely; apply IH. Qed.
Lemma channelLoop_safe ids ve : safe (channelLoop ids ve).
Proof. revert ve. induction ids as [|id ids IH]; intros; cbn [channelLoop]; safely; apply IH. Qed.
Lemma uniqueLoop_safe fuel i base candidate except : safe (uniqueLoop fuel i base candidate except JobRepo_SlugExists).
Proof. revert i candidate. induction fuel as [|n IH]; intros; cbn [uniqueLoop]; safely; apply IH. Qed.
Lemma jobSlugLoop_safe slugs ve : safe (jobSlugLoop slugs ve).
Proof. revert ve. induction slugs as [|x slugs IH]; intros; cbn [jobSlugLoop]; safely; apply IH. Qed.
#[local] Hint Resolve importHost_safe importSource_safe importDestination_safe importChannel_safe destinationLoop_safe
  channelLoop_safe uniqueLoop_safe jobSlugLoop_safe : integrity.

Lemma validateJob_safe req existing : safe (validateJob req existing).
Proof.
  unfold validateJob, checkSource, checkDestinations, checkEncryption, checkPassphrase, checkChannels, checkSlug. safely.
Qed.
#[local] Hint Resolve validateJob_safe : integrity.

Lemma importJob_safe dry s d c item p : safe (importJob dry s d c item p).
Proof. unfold importJob, saved. safely. Qed.
#[local] Hint Resolve importJob_safe : integrity.

Lemma runImport_safe dry doc : safe (runImport dry doc).
Proof.
  unfold runImport, importHosts, importSources, importDestinations, importChannels.
  repeat first [apply importAll_safe; intros; solve [eauto 1 with integrity] | safe_step].
Qed.
#[local] Hint Resolve runImport_safe : integrity.

Lemma TestHost_safe h : safe (TestHost h).
Proof. unfold TestHost, Dial, Probe, Exec. safely. Qed.
#[local] Hint Resolve TestHost_safe : integrity.

Lemma buildExport_safe b : safe (buildExport b).
Proof. safe_body. Qed.
#[local] Hint Resolve buildExport_safe : integrity.

Lemma handle_safe e r : safe (handle workDir specs e r).
Proof. destruct e; cbn [handle]; first [apply safe_ret | safe_body]. Qed.

Lemma serve_safe e r limiter : safe (serve workDir specs e r limiter).
Proof.
  unfold serve. apply safe_bind; [safely|]. intros [status code msg|p cleared]; [apply safe_ret|].
  apply safe_bind; [|intros; apply safe_ret]. destruct e; try (apply safe_bind; [apply handle_safe|intros; apply safe_ret]).
  unfold handleLogin. safely.
Qed.
End safe.
