(* ===== verification/Disclosure.v ===== *)
(** * What responses disclose

    Secrets leave the server masked: in every response the secret fields of
    configurations, the credentials of hosts and the passphrases of jobs are
    masks or empty, but for the answers made to hand a secret out. *)
From S2P Require Import Prelude GoStrings GoTime Core CoreSetters Config GoSlices Pack Spool Secrets Db Slug Remote StoreCommon StoreJobs.
From S2P Require Import StoreRuns StoreConfig StoreAdmin RunState Drivers Runner Restore EngineRuns Scheduler RateLimiter Password Auth.
From S2P Require Import ServerBase ServerConfig ServerHosts ServerJobs ServerRuns ServerAdmin ServerExport Router Triples ServerFrames.
Open Scope Z_scope.

(** ** Results *)

Definition returns {A} (Q : A -> Prop) (m : M A) : Prop := ∀ env w, Q (m env w).1.

Lemma returns_ret {A} (Q : A -> Prop) (x : A) : Q x -> returns Q (mret x).
Proof. by intros H env w. Qed.

Lemma returns_bind {A B} (Q : B -> Prop) (m : M A) (k : A -> M B) : (∀ x, returns Q (k x)) -> returns Q (m ≫= k).
Proof. intros H env w. rewrite bind_eq. apply H. Qed.

Lemma returns_bind_with {A B} (R : A -> Prop) (Q : B -> Prop) (m : M A) (k : A -> M B) :
  returns R m -> (∀ x, R x -> returns Q (k x)) -> returns Q (m ≫= k).
Proof. intros Hm H env w. rewrite bind_eq. apply H, Hm. Qed.

(** ** Masked values *)

Section disclosure.
  Context {A : AEAD} {C : Codecs} {D : Digest} {Ar : Argon2} {Dr : Drivers} {K : Cron} {S : SSH} {sprint_host : SprintHost}.
  Context (workDir : string) (specs : string -> list DriverSpec).

Definition hidden (s : string) : Prop := s = "" ∨ s = SecretMask.

Definition maskedConfig (spec : option DriverSpec) (cfg : Config) : Prop :=
  match spec with
  | None => cfg = ∅
  | Some spec => ∀ f, f ∈ SecretFields spec -> Has cfg f = true -> cfg !! f = Some (VString SecretMask)
  end.

Definition maskedHost (h : Host) : Prop :=
  hidden (host_PrivateKey h) ∧ hidden (host_KeyPassphrase h) ∧ hidden (host_Password h).

Definition maskedSource (s : Source) : Prop := maskedConfig (source_Get (src_Kind s)) (src_Config s).
Definition maskedDestination (d : Destination) : Prop := maskedConfig (dest_Get (dst_Kind d)) (dst_Config d).
Definition maskedChannel (c : NotificationChannel) : Prop := maskedConfig (notify_Get (chan_Kind c)) (chan_Config c).
Definition maskedJob (j : Job) : Prop := hidden (job_EncryptionPassphrase j).

Definition maskedDocument (doc : exportDocument) : Prop :=
  Forall (λ h, hidden (xh_PrivateKey h) ∧ hidden (xh_KeyPassphrase h) ∧ hidden (xh_Password h)) (doc_Hosts doc)
  ∧ Forall (λ s, maskedConfig (source_Get (xs_Kind s)) (xs_Config s)) (doc_Sources doc)
  ∧ Forall (λ d, maskedConfig (dest_Get (xd_Kind d)) (xd_Config d)) (doc_Destinations doc)
  ∧ Forall (λ j, hidden (xj_EncryptionPassphrase j)) (doc_Jobs doc)
  ∧ Forall (λ c, maskedConfig (notify_Get (xc_Kind c)) (xc_Config c)) (doc_Channels doc).

Definition maskedBody (b : Body) : Prop :=
  match b with
  | BodyJob j => maskedJob j
  | BodyJobs items _ => Forall maskedJob items
  | BodySource s => maskedSource s
  | BodySources items _ => Forall maskedSource items
  | BodyDestination d => maskedDestination d
  | BodyDestinations items _ => Forall maskedDestination items
  | BodyHost h => maskedHost h
  | BodyHosts items _ => Forall maskedHost items
  | BodyChannel c => maskedChannel c
  | BodyChannels items _ => Forall maskedChannel items
  | BodyExport doc => maskedDocument doc
  | BodyToken _ _ | BodyKeys _ _ => False
  | _ => True
  end.

Lemma maskConfig_masked spec cfg : maskedConfig spec (maskConfig spec cfg).
Proof.
  destruct spec as [spec|]; [|done]. cbn. intros f Hf. unfold Has. rewrite Masked_lookup, bool_decide_eq_true_2 by done.
  cbn [andb]. destruct (Has cfg f) eqn:E; [done|]. unfold Has in E. by rewrite E.
Qed.

Lemma hidden_mask s : hidden (if bool_decide (s ≠ "") then SecretMask else s).
Proof. case_bool_decide as H; [by right|by left]. Qed.

Lemma Host_Masked_masked h : maskedHost (Host_Masked h).
Proof. split_and!; apply hidden_mask. Qed.

Lemma maskJob_masked j : maskedJob (maskJob j).
Proof. unfold maskedJob, maskJob, hidden. case_bool_decide as H; [by right|by left]. Qed.

Lemma Forall_masked {B} (P : B -> Prop) (mask : B -> B) (l : list B) : (∀ x, P (mask x)) -> Forall P (mask <$> l).
Proof. intros H. apply Forall_fmap, Forall_true. intros x. apply H. Qed.

(** *** The export *)

Lemma jobEntries_masked names1 names2 names3 jobs entries :
  jobEntries (jobEntry false names1 names2 names3) jobs = Ok entries ->
  Forall (λ j, hidden (xj_EncryptionPassphrase j)) entries.
Proof.
  revert entries. induction jobs as [|j jobs IH]; intros entries; cbn [jobEntries]; [by intros [= <-]|].
  destruct (jobEntry _ _ _ _ j) as [x|] eqn:E; [|done]. destruct (jobEntries _ jobs) as [xs|]; [|done].
  intros [= <-]. constructor; [|by apply IH]. unfold jobEntry in E. case_bool_decide; injection E as <-; cbn; [by left|by right].
Qed.

Lemma buildExport_masked : returns (λ r, ∀ doc, r = Ok doc -> maskedDocument doc) (buildExport false).
Proof.
  unfold buildExport. apply returns_bind; intros t.
  do 3 (apply returns_bind; intros [[? ?]|?]; [|by apply returns_ret]).
  do 2 (apply returns_bind; intros [?|?]; [|by apply returns_ret]).
  apply returns_ret. intros doc. destruct (jobEntries _ _) as [entries|] eqn:E; [|done]. intros [= <-]. unfold maskedDocument. cbn.
  split_and!.
  - apply Forall_fmap, Forall_true. intros h. exact (Host_Masked_masked h).
  - apply Forall_fmap, Forall_true. intros s. apply maskConfig_masked.
  - apply Forall_fmap, Forall_true. intros s. apply maskConfig_masked.
  - by eapply jobEntries_masked.
  - apply Forall_fmap, Forall_true. intros s. apply maskConfig_masked.
Qed.

(** *** Responses *)

Definition masks (m : M Response) : Prop := returns (λ r, maskedBody (resp_Body r)) m.

Lemma maskedBody_fail e : maskedBody (resp_Body (fail e)).
Proof. destruct e as [v|e]; cbn; [done|]. repeat case_match; done. Qed.

Ltac masked_body :=
  first [exact I | apply maskedBody_fail | idtac]; cbn [maskedBody resp_Body writeJSON]; first
  [ exact I | apply maskConfig_masked | apply Host_Masked_masked | apply maskJob_masked
  | apply Forall_masked; intros ?; first [apply maskConfig_masked | apply Host_Masked_masked | apply maskJob_masked] ].

Ltac masks_step :=
  first
  [ apply returns_ret; solve [masked_body | case_match; masked_body]
  | apply returns_bind; intros ?
  | case_match ].

Lemma showJob_masks status id : masks (showJob status id).
Proof. unfold showJob. repeat masks_step. Qed.

Lemma deleteObject_masks a : returns (λ r, match r with Some resp => maskedBody (resp_Body resp) | None => True end) (deleteObject a).
Proof. unfold deleteObject. repeat masks_step. Qed.

Lemma lastAdmin_masks what : returns (λ r, match r with Some resp => maskedBody (resp_Body resp) | None => True end) (lastAdmin what).
Proof. unfold lastAdmin. repeat masks_step. Qed.

Lemma refusal_masks (b : bool) what :
  returns (λ r, match r with Some resp => maskedBody (resp_Body resp) | None => True end) (if b then lastAdmin what else mret None).
Proof. destruct b; [apply lastAdmin_masks|by apply returns_ret]. Qed.

(** The answers that are made to hand a secret out. *)
Definition discloses (e : Endpoint) (r : Inbound) : bool :=
  match e with
  | PostTokens _ | PostKeygen => true
  | GetExport => queryBool r "includeSecrets"
  | _ => false
  end.


Lemma handleExport_masks r : queryBool r "includeSecrets" = false -> masks (handleExport r).
Proof.
  intros He. unfold handleExport. rewrite He. eapply returns_bind_with; [apply buildExport_masked|].
  intros [doc|err] H; [|by masks_step]. apply returns_bind; intros _. apply returns_ret. by apply H.
Qed.

Lemma handle_masks e r : discloses e r = false -> masks (handle workDir specs e r).
Proof.
  intros He. destruct e; try discriminate He; cbn [handle]; try (by apply returns_ret); try (by apply handleExport_masks).
  all: match goal with |- masks ?h => let f := head_of h in try unfold f end.
  all: repeat first
    [ eapply returns_bind_with; [first [apply deleteObject_masks | apply refusal_masks]|]; intros [?|] ?; [by apply returns_ret|]
    | apply showJob_masks
    | masks_step ].
Qed.

Lemma handleLogin_masks r limiter b : returns (λ x, maskedBody (resp_Body x.1)) (handleLogin r limiter b).
Proof.
  unfold handleLogin. apply returns_bind; intros t. destruct (Allow _ _ _) as [allowed l].
  repeat first [apply returns_ret; solve [masked_body | cbn [fst]; case_match; masked_body] | masks_step].
Qed.

Lemma clearing_body cleared resp : resp_Body (clearing cleared resp) = resp_Body resp.
Proof. unfold clearing. by destruct (resp_Cookie resp). Qed.

Lemma serve_masks e r limiter :
  discloses e (inbound None r) = false -> returns (λ x, maskedBody (resp_Body x.1)) (serve workDir specs e r limiter).
Proof.
  intros He. unfold serve. apply returns_bind; intros [status code msg|p cleared]; [by apply returns_ret|].
  eapply (returns_bind_with (λ x, maskedBody (resp_Body x.1))).
  - assert (Hp : discloses e (inbound p r) = false) by by destruct e.
    destruct e; try (eapply returns_bind_with; [by apply handle_masks|]; intros resp H; by apply returns_ret).
    apply handleLogin_masks.
  - intros x H. apply returns_ret. cbn [fst]. by rewrite clearing_body.
Qed.
End disclosure.

(** * Refusals leave no trace

    A handler that answers 400 has written nothing, and so has a dry run. *)

Definition rejects (m : M Response) : Prop :=
  ∀ env w, resp_Status (m env w).1 = 400 -> w_db (m env w).2 = w_db w.

Definition not400 (r : Response) : Prop := resp_Status r ≠ 400.

Lemma rejects_ret r : rejects (mret r).
Proof. by intros env w. Qed.

Lemma rejects_reads {B} (m : M B) (k : B -> M Response) :
  keepsDB id m -> (∀ x, rejects (k x)) -> rejects (m ≫= k).
Proof. intros Hm Hk env w. rewrite bind_eq. intros H. rewrite Hk by done. apply Hm. Qed.

Lemma rejects_never (m : M Response) : returns not400 m -> rejects m.
Proof. intros H env w E. by destruct (H env w). Qed.

Lemma not400_below e : not400 (failBelow e).
Proof. unfold failBelow, fail. repeat case_match; done. Qed.

Ltac never_step :=
  first
  [ apply returns_ret; first [apply not400_below | discriminate | case_match; first [apply not400_below | discriminate]]
  | apply returns_bind; intros ?
  | case_match ].

Ltac rejects_step :=
  first
  [ apply rejects_ret
  | apply rejects_reads; [solve [dbframe]|intros ?]
  | case_match
  | apply rejects_never; solve [repeat never_step] ].

Section refusals.
  Context {A : AEAD} {C : Codecs} {D : Digest} {Ar : Argon2} {Dr : Drivers} {K : Cron} {S : SSH} {sprint_host : SprintHost}.
  Context (workDir : string) (specs : string -> list DriverSpec).

Lemma showJob_never status id : status ≠ 400 -> returns not400 (showJob status id).
Proof. intros H. unfold showJob. repeat first [apply returns_ret; exact H | never_step]. Qed.

Lemma handle_rejects e r : (∀ b, e ≠ PostImport b) -> rejects (handle workDir specs e r).
Proof.
  intros He. destruct e; cbn [handle]; try apply rejects_ret; try (by destruct (He _ eq_refl)).
  all: match goal with |- rejects ?h => let f := head_of h in unfold f end.
  all: repeat rejects_step.
Qed.

(** ** Dry runs *)

Lemma runImport_dry_reads {P} (g : DB -> P) doc : keepsDB g (runImport true doc).
Proof. by apply runImport_frame. Qed.

Lemma handleImport_dry_reads r b : queryBool r "dryRun" = true -> keepsDB id (handleImport r b).
Proof.
  intros Hd. unfold handleImport. rewrite Hd. destruct b as [doc|e]; [|apply keepsDB_ret].
  apply keepsDB_bind; [apply runImport_dry_reads|]. intros [changes|e]; [|apply keepsDB_ret].
  apply keepsDB_bind; [apply keepsDB_ret|intros; apply keepsDB_ret].
Qed.
End refusals.
