(* ===== verification/Daemon.v ===== *)
(** * The running server: every activity that touches the database

    A task as [Engine.execute] carries it out, and the activities of the
    process: requests, tasks, the schedule, the overdue watcher, notifications,
    the run log, housekeeping and what happens at start and at shutdown.  Each
    activity runs against whatever its environment answers. *)
From S2P Require Import Prelude GoStrings GoTime GoSlices Core CoreSetters Config Secrets Pack Spool Db StoreCommon StoreJobs StoreRuns.
From S2P Require Import StoreConfig StoreAdmin StoreIntegrity RunState Drivers Runner Restore EngineRuns Notifier Scheduler Overdue.
From S2P Require Import RateLimiter Password Auth Slug Remote ServerBase ServerConfig ServerHosts ServerJobs ServerRuns ServerAdmin.
From S2P Require Import ServerExport Router ServerFrames.
Open Scope Z_scope.

(** The closures the engine puts in its queue. *)
Inductive Task :=
  | TaskBackup (jobID : string)
  | TaskPrune (jobID : string)
  | TaskVerify (artifactID : string)
  | TaskRestore (req : RestoreRequest).

Inductive Activity :=
  | ARequest (e : Endpoint) (r : HTTPRequest) (limiter : RateLimiter)
  | AExecute (run : Run) (t : Task)
  | AAbandon (run : Run) (reason : string)
  | ASchedule | AFire (jobID : string) | AMissed
  | AOverdue
  | AEvent (ev : Event)
  | ALog (runID text : string)
  | ACleanup
  | ARecover
  | ABootstrap (email password : string).

Section daemon.
  Context {A : AEAD} {C : Codecs} {D : Digest} {Ar : Argon2} {Dr : Drivers} {K : Cron} {S : SSH} {T : Tar} {sprint_host : SprintHost}.
  Context (workDir baseURL : string) (getwd : result string) (specs : string -> list DriverSpec).

Definition perform (t : Task) : M (result unit) :=
  match t with
  | TaskBackup jobID => runBackup workDir jobID
  | TaskPrune jobID => runPrune jobID
  | TaskVerify artifactID => runVerify artifactID
  | TaskRestore req => runRestore getwd req
  end.

(** Without the registry and the locks, which are those of [Engine]; that the
    context is over, canceled or timed out, is an answer of the environment. *)
Definition execute (run : Run) (t : Task) : M unit :=
  putRS (newRunState run);;
  start;;
  r ← perform t;
  finish (match r with Ok _ => None | Fail err => Some err end).

Definition act (a : Activity) : M unit :=
  match a with
  | ARequest e r limiter => _ ← serve workDir specs e r limiter; mret tt
  | AExecute run t => execute run t
  | AAbandon run reason => abandon run reason
  | ASchedule => _ ← apply; mret tt
  | AFire jobID => trigger jobID
  | AMissed => runMissed
  | AOverdue => checkOverdue
  | AEvent ev => onEvent baseURL ev
  | ALog runID text => _ ← AppendLog runID text; mret tt
  | ACleanup => cleanupOnce
  | ARecover => _ ← recoverInterruptedRuns; mret tt
  | ABootstrap email password => rand ← ask env_rand; _ ← BootstrapAdmin (rand 0%nat) email password; mret tt
  end.

(** The worlds any sequence of activities leads to, from an empty database. *)
Inductive reachable : World -> Prop :=
  | reach_start w : w_db w = mkDB ∅ ∅ ∅ ∅ ∅ ∅ ∅ ∅ ∅ ∅ ∅ ∅ None ∅ -> reachable w
  | reach_act a env w : reachable w -> reachable (act a env w).2.

(** ** Integrity *)

#[local] Hint Unfold currentRun stage stage_set stage_Done stage_Fail skippedStage setResult addArtifact Warn
  finish finishJob loadDestinations uploadAll uploadTo uploadOne putOnce verifyArtifacts verifyOne markMissing
  applyRetention retainOn pruneArtifacts newRun publishRun createAndEnqueue EnqueueBackup start
  prepareBackup dumpToSpool storeSpool runHook Unfinished passphraseForArtifact OpenArtifact restoreToPath restoreToSource
  copyToFile installFile extractTar : ops.

#[local] Hint Resolve uploadLoop_safe pruneLoop_safe extractLoop_safe update_safe SourceRepo_Get_safe DestinationRepo_Get_safe
  JobRepo_Get_safe ArtifactRepo_Get_safe SettingsRepo_Get_safe : integrity.

Lemma runBackup_safe jobID : safe (runBackup workDir jobID).
Proof. safe_body. Qed.
Lemma runPrune_safe jobID : safe (runPrune jobID).
Proof. safe_body. Qed.
Lemma runVerify_safe artifactID : safe (runVerify artifactID).
Proof. safe_body. Qed.
Lemma runRestore_safe req : safe (runRestore getwd req).
Proof. safe_body. Qed.
#[local] Hint Resolve runBackup_safe runPrune_safe runVerify_safe runRestore_safe : integrity.

Lemma execute_safe run t : safe (execute run t).
Proof. unfold execute, perform. safely. Qed.

#[local] Hint Unfold resolveChannels send deliver recordSendResult dispatchRun dispatchJobEvent runLink TestChannelConfig
  engineSettings checkJob refreshNextRuns BootstrapAdmin NeedsSetup UserRepo_Count CreateUser : ops.
#[local] Hint Resolve execute_safe serve_safe AppendLog_safe : integrity.

Lemma act_safe a : safe (act a).
Proof. destruct a; cbn [act]; first [solve [safely] | safe_body]. Qed.

Lemma reachable_consistent w : reachable w -> consistent (w_db w).
Proof. induction 1 as [w ->|a env w H IH]; [apply empty_consistent|by apply act_safe]. Qed.
End daemon.
