(* ===== verification/Accounts.v ===== *)
(** * Accounts: an administrator remains

    What the running server promises about its accounts: once there is an
    administrator there always is one. *)
From S2P Require Import Prelude GoStrings GoTime GoSlices Core CoreSetters Config Secrets Pack Spool Db StoreCommon StoreJobs StoreRuns.
From S2P Require Import StoreConfig StoreAdmin StoreIntegrity RunState Drivers Runner Restore EngineRuns Notifier Scheduler Overdue.
From S2P Require Import RateLimiter Password Auth Slug Remote ServerBase ServerConfig ServerHosts ServerJobs ServerRuns ServerAdmin.
From S2P Require Import ServerExport Router Triples ServerFrames Daemon.
Open Scope Z_scope.

(** ** Administrators *)

Definition isAdminRow (r : UserRecord) : bool := String.eqb (user_Role (rec_User r)) RoleAdmin.

Record administered (db : DB) : Prop := mkAdministered {
  ad_keyed : keyed (λ r, user_ID (rec_User r)) (db_users db);
  ad_admin : ∃ id r, db_users db !! id = Some r ∧ isAdminRow r = true
}.

Definition staffed {A} (m : M A) : Prop := preserves (λ w, administered (w_db w)) m.

Lemma staffed_users {A} (m : M A) : keepsDB db_users m -> staffed m.
Proof.
  intros H env w [K R]. pose proof (H env w) as E. cbn in E. split; by rewrite E.
Qed.

(** Of two rows one is under another key. *)
Lemma countWhere_two {A} (p : A -> bool) (t : gmap string A) k :
  countWhere p t > 1 -> ∃ i a, i ≠ k ∧ t !! i = Some a ∧ p a = true.
Proof.
  unfold countWhere, selectWhere. intros H. pose proof (NoDup_fst_map_to_list t) as N.
  assert (L : List.filter p (map_to_list t).*2 = (List.filter (p ∘ snd) (map_to_list t)).*2).
  { clear. induction (map_to_list t) as [|[i a] l IH]; [done|]. cbn. destruct (p a); cbn; by rewrite IH. }
  rewrite L, length_fmap in H.
  assert (N' : NoDup (List.filter (p ∘ snd) (map_to_list t)).*1).
  { clear H L. induction (map_to_list t) as [|x l IH]; [constructor|]. cbn in *. apply NoDup_cons in N as [Hx N].
    specialize (IH N). destruct (p x.2); [|done]. cbn. apply NoDup_cons. split; [|done]. intros Hin. apply Hx.
    apply list_elem_of_fmap in Hin as (y & -> & Hy). apply list_elem_of_fmap. exists y. split; [done|].
    by apply list_elem_of_In, filter_In, proj1, list_elem_of_In in Hy. }
  assert (M : ∀ i a, (i, a) ∈ List.filter (p ∘ snd) (map_to_list t) -> t !! i = Some a ∧ p a = true).
  { intros i a Hi. apply list_elem_of_In, filter_In in Hi as [Hi Hp]. split; [|done].
    by apply elem_of_map_to_list, list_elem_of_In. }
  destruct (List.filter (p ∘ snd) (map_to_list t)) as [|[i a] [|[j b] l]]; cbn in H; [lia|lia|].
  destruct (decide (i = k)) as [->|Hi].
  - exists j, b. split; [|apply M; set_solver]. intros ->. cbn in N'. apply NoDup_cons in N' as [N' _]. set_solver.
  - exists i, a. split; [done|]. apply M. set_solver.
Qed.

(** ** Statements on accounts *)

Lemma administered_insert u h db db' : insertUser u h db = Ok (tt, db') -> administered db -> administered db'.
Proof.
  unfold insertUser, insertRow. destruct (db_users db !! user_ID u) eqn:E; [done|]. destruct (List.find _ _); [done|].
  intros [= <-] [Hk (id & r & Hr & Ha)]. split; cbn; [by apply keyed_insert|]. exists id, r. split; [|done].
  rewrite lookup_insert_ne; [done|]. by intros <-; rewrite E in Hr.
Qed.

(** An update that keeps the key of the row, and its role or another admin. *)
Lemma administered_update id f db :
  (∀ r, user_ID (rec_User (f r)) = user_ID (rec_User r)) ->
  (∀ r, db_users db !! id = Some r -> isAdminRow r = true -> isAdminRow (f r) = true
        ∨ ∃ j b, j ≠ id ∧ db_users db !! j = Some b ∧ isAdminRow b = true) ->
  administered db -> administered (set_db_users (updateId id f (db_users db)).2 db).
Proof.
  intros Hf Hr [Hk (i & r & Hi & Ha)]. unfold updateId. destruct (db_users db !! id) as [a|] eqn:E; [|by split; [|exists i, r]].
  split; cbn; [apply keyed_insert; [done|]; rewrite Hf; by apply (Hk id)|].
  destruct (decide (i = id)) as [->|Hne]; [|exists i, r; by rewrite lookup_insert_ne].
  rewrite E in Hi. injection Hi as <-. destruct (Hr a eq_refl Ha) as [H|(j & b & Hj & Hb & H)].
  - exists id, (f a). by rewrite lookup_insert_eq.
  - exists j, b. by rewrite lookup_insert_ne.
Qed.

(** An update that leaves the roles alone. *)
Lemma staffed_update id f :
  (∀ r, user_ID (rec_User (f r)) = user_ID (rec_User r)) -> (∀ r, isAdminRow (f r) = isAdminRow r) ->
  ∀ db, administered db -> administered (set_db_users (updateId id f (db_users db)).2 db).
Proof. intros Hf Hr db. apply administered_update; [done|]. intros r _ H. left. by rewrite Hr. Qed.

Lemma staffed_exec {A} (q : DB -> result (A * DB)) :
  (∀ db a db', administered db -> q db = Ok (a, db') -> administered db') -> staffed (execWrite q).
Proof. intros H. apply preserves_execWrite; [done|]. intros w a db' Hw E. by apply (H (w_db w) a). Qed.

Lemma staffed_ret {A} (x : A) : staffed (mret x).
Proof. apply preserves_ret. Qed.
Lemma staffed_bind {A B} (m : M A) (k : A -> M B) : staffed m -> (∀ x, staffed (k x)) -> staffed (m ≫= k).
Proof. apply preserves_bind. Qed.

Lemma insertUser_staffed u h : staffed (execWrite (insertUser u h)).
Proof. apply staffed_exec. intros db [] db' H E. by eapply administered_insert. Qed.

Lemma SetPassword_staffed id h : staffed (UserRepo_SetPassword id h).
Proof.
  unfold UserRepo_SetPassword, execAffected. apply staffed_bind; [|intros []; apply staffed_ret]. apply staffed_exec.
  intros db n db' H E. destruct (updateId _ _ _) as [m t] eqn:U. injection E as _ <-. change t with (m, t).2. rewrite <- U.
  by apply staffed_update.
Qed.

Lemma TouchLogin_staffed id t : staffed (TouchLogin id t).
Proof.
  unfold TouchLogin. apply staffed_bind; [|intros []; apply staffed_ret]. apply staffed_exec.
  intros db n db' H [= _ <-]. by apply staffed_update.
Qed.

Create HintDb staffed discriminated.
#[export] Hint Resolve insertUser_staffed SetPassword_staffed TouchLogin_staffed : staffed.

Section accounts.
  Context {A : AEAD} {C : Codecs} {D : Digest} {Ar : Argon2} {Dr : Drivers} {K : Cron} {S : SSH} {T : Tar} {sprint_host : SprintHost}.
  Context (workDir baseURL : string) (getwd : result string) (specs : string -> list DriverSpec).

#[local] Hint Unfold UserRepo_Create createUser CreateUser startSession CreateSession SetPassword NeedsSetup UserRepo_Count
  handleSetup handleChangePassword handleCreateUser handleLogin audit AuditRepo_Record UserRepo_Get Login GetByEmail BootstrapAdmin
  DeleteForUser SessionRepo_Create : ops.

Ltac staffed_step :=
  first
  [ apply staffed_ret
  | solve [eauto 1 with staffed]
  | solve [apply staffed_users, keepsDB_db; eauto 2 with frame]
  | apply staffed_users, keepsDB_exec; solve [write_tac]
  | apply staffed_bind; [|intros ?]
  | case_match
  | progress autounfold with ops ].

Lemma handleSetup_staffed r b : staffed (handleSetup r b).
Proof. repeat staffed_step. Qed.
Lemma handleLogin_staffed r l b : staffed (handleLogin r l b).
Proof. repeat staffed_step. Qed.
Lemma handleCreateUser_staffed r b : staffed (handleCreateUser r b).
Proof. repeat staffed_step. Qed.
Lemma handleChangePassword_staffed r id b : staffed (handleChangePassword r id b).
Proof. repeat staffed_step. Qed.
Lemma BootstrapAdmin_staffed rand email password : staffed (BootstrapAdmin rand email password).
Proof. repeat staffed_step. Qed.

(** *** The last administrator *)

(** What the check promises: without a refusal there are two. *)
Lemma lastAdmin_passes what env w :
  w_db (lastAdmin what env w).2 = w_db w
  ∧ ((lastAdmin what env w).1 = None -> countWhere isAdminRow (db_users (w_db w)) > 1).
Proof.
  unfold lastAdmin, CountAdmins, query. rewrite !bind_eq. destruct (env_db env (w_tick w)); cbn; [done|]. split; [done|].
  fold isAdminRow. destruct (Z.leb_spec (countWhere isAdminRow (db_users (w_db w))) 1); [done|]. lia.
Qed.

Lemma UserRepo_Get_finds id env w :
  w_db (UserRepo_Get id env w).2 = w_db w
  ∧ ∀ r, (UserRepo_Get id env w).1 = Ok r -> db_users (w_db w) !! id = Some r.
Proof.
  unfold UserRepo_Get, query. rewrite !bind_eq. destruct (env_db env (w_tick w)); cbn; [done|]. split; [done|].
  intros r. by destruct (db_users (w_db w) !! id); [intros [= ->]|].
Qed.

(** The statement that changes the role or the account of [user], once [role]
    is kept or another administrator is known. *)
Definition spared (demotes : bool) (user : User) (db : DB) : Prop :=
  administered db ∧ (∃ r, db_users db !! user_ID user = Some r ∧ user_Role (rec_User r) = user_Role user)
  ∧ (demotes = true -> ∃ j b, j ≠ user_ID user ∧ db_users db !! j = Some b ∧ isAdminRow b = true).

Lemma UserRepo_Update_spared role name email user :
  triple (spared (String.eqb (user_Role user) RoleAdmin && negb (String.eqb role RoleAdmin)) user)
    (UserRepo_Update (set_user_Role role (set_user_Name name (set_user_Email email user)))) (λ _ db, administered db).
Proof.
  intros env w (H & (r & Hr & Er) & Hd). unfold UserRepo_Update, execWrite, updateRow. rewrite !bind_eq.
  destruct (env_db env (w_tick w)); cbn; [done|]. rewrite Hr. destruct (otherRow _ _ _); cbn; [done|].
  unfold updateId. rewrite Hr. cbn. destruct H as [Hk (i & a & Hi & Ha)]. split; cbn.
  - apply keyed_insert; [done|]. cbn. by apply (Hk (user_ID user)).
  - destruct (String.eqb role RoleAdmin) eqn:Erole.
    + exists (user_ID user). eexists. rewrite lookup_insert_eq. split; [done|]. exact Erole.
    + destruct (decide (i = user_ID user)) as [->|Hne]; [|exists i, a; by rewrite lookup_insert_ne].
      rewrite Hr in Hi. injection Hi as <-. unfold isAdminRow in Ha. rewrite Er in Ha. rewrite Ha in Hd.
      destruct Hd as (j & b & Hj & Hb & Hab); [done|]. exists j, b. by rewrite lookup_insert_ne.
Qed.

Lemma UserRepo_Delete_spared user :
  triple (spared (String.eqb (user_Role user) RoleAdmin) user) (UserRepo_Delete (user_ID user)) (λ _ db, administered db).
Proof.
  intros env w (H & (r & Hr & Er) & Hd). unfold UserRepo_Delete, execAffected, execWrite, deleteUser, deleteId. rewrite !bind_eq.
  destruct (env_db env (w_tick w)); cbn; [done|]. rewrite Hr. cbn. destruct H as [Hk (i & a & Hi & Ha)]. split; cbn.
  - eapply keyed_sub; [apply delete_subseteq|done].
  - destruct (decide (i = user_ID user)) as [->|Hne]; [|exists i, a; by rewrite lookup_delete_ne].
    rewrite Hr in Hi. injection Hi as <-. unfold isAdminRow in Ha. rewrite Er in Ha. rewrite Ha in Hd.
    destruct Hd as (j & b & Hj & Hb & Hab); [done|]. exists j, b. by rewrite lookup_delete_ne.
Qed.

(** The check before such a statement. *)
Lemma check_spares demotes what user :
  triple (λ db, administered db ∧ ∃ r, db_users db !! user_ID user = Some r ∧ user_Role (rec_User r) = user_Role user)
    (if demotes : bool then lastAdmin what else mret None)
    (λ refusal db, administered db ∧ (refusal = None -> spared demotes user db)).
Proof.
  intros env w [H Hr]. destruct demotes; [|by split; [|intros _; split_and!]].
  destruct (lastAdmin_passes what env w) as [-> Hl]. split; [done|]. intros E. split_and!; [done|done|]. intros _.
  destruct (countWhere_two isAdminRow (db_users (w_db w)) (user_ID user) (Hl E)) as (j & b & ? & ? & ?). by exists j, b.
Qed.

Lemma get_account id :
  triple administered (UserRepo_Get id)
    (λ x db, administered db ∧ ∀ r, x = Ok r -> ∃ r', db_users db !! user_ID (rec_User r) = Some r'
                                                     ∧ user_Role (rec_User r') = user_Role (rec_User r)).
Proof.
  intros env w H. destruct (UserRepo_Get_finds id env w) as [-> Hf]. split; [done|]. intros r E. exists r.
  split; [|done]. specialize (Hf r E). by rewrite (ad_keyed _ H id r Hf).
Qed.

Lemma staffed_triple {B} P (m : M B) : staffed m -> (∀ db, P db -> administered db) -> triple P m (λ _ db, administered db).
Proof. intros H HP env w Hw. by apply H, HP. Qed.

Lemma handleUpdateUser_staffed r id b : staffed (handleUpdateUser r id b).
Proof.
  change (triple administered (handleUpdateUser r id b) (λ _ db, administered db)). unfold handleUpdateUser.
  eapply triple_bind; [apply get_account|]. intros [rec|err]; [|apply staffed_triple; [apply staffed_ret|by intros ? []]].
  destruct (decodeBody b) as [req|e]; [|apply staffed_triple; [apply staffed_ret|by intros ? []]].
  destruct (validateRole (uq_Role req)) as [role ok].
  destruct (negb (ve_empty _)); [apply staffed_triple; [apply staffed_ret|by intros ? []]|].
  eapply triple_bind; [eapply triple_conseq; [apply check_spares|intros db [Ha Hr]; split; [exact Ha|by apply Hr]|by intros ? ? H]|].
  intros [refusal|]; [apply staffed_triple; [apply staffed_ret|by intros ? []]|].
  eapply triple_bind; [eapply triple_conseq; [apply UserRepo_Update_spared|intros db [_ Hs]; by apply Hs|by intros ? ? H]|].
  intros x. apply staffed_triple; [|done]. repeat staffed_step.
Qed.

Lemma handleDeleteUser_staffed r id : staffed (handleDeleteUser r id).
Proof.
  change (triple administered (handleDeleteUser r id) (λ _ db, administered db)). unfold handleDeleteUser.
  eapply triple_bind; [apply get_account|]. intros [rec|err]; [|apply staffed_triple; [apply staffed_ret|by intros ? []]].
  eapply triple_bind; [eapply triple_conseq; [apply check_spares|intros db [Ha Hr]; split; [exact Ha|by apply Hr]|by intros ? ? H]|].
  intros [refusal|]; [apply staffed_triple; [apply staffed_ret|by intros ? []]|].
  eapply triple_bind; [eapply triple_conseq; [apply UserRepo_Delete_spared|intros db [_ Hs]; by apply Hs|by intros ? ? H]|].
  intros x. apply staffed_triple; [|done]. repeat staffed_step.
Qed.
#[local] Hint Resolve handleSetup_staffed handleLogin_staffed handleCreateUser_staffed handleChangePassword_staffed
  BootstrapAdmin_staffed handleUpdateUser_staffed handleDeleteUser_staffed : staffed.

(** *** Everything else *)

Lemma handle_staffed e r : staffed (handle workDir specs e r).
Proof.
  destruct (writesUsers e) eqn:He; [|by apply staffed_users, users_handle].
  destruct e; try discriminate He; cbn [handle]; first [apply staffed_ret | solve [eauto 1 with staffed]].
Qed.

Lemma serve_staffed e r limiter : staffed (serve workDir specs e r limiter).
Proof.
  unfold serve. apply staffed_bind; [apply staffed_users, outside_users, outside_guarded|].
  intros [status code msg|p cleared]; [apply staffed_ret|]. apply staffed_bind; [|intros; apply staffed_ret].
  destruct e; first [apply handleLogin_staffed | apply staffed_bind; [apply handle_staffed|intros; apply staffed_ret]].
Qed.

#[local] Hint Unfold currentRun update start stage stage_set finish finishJob upsertState resolveChannels send deliver recordSendResult
  dispatchRun dispatchJobEvent runLink TestChannelConfig engineSettings checkJob refreshNextRuns newRun publishRun createAndEnqueue
  EnqueueBackup RunRepo_Create appendLog Cleanup cleanupOnce RunRepo_DeleteOlderThan deleteOldRuns
  AuditRepo_DeleteOlderThan DeleteExpired : ops.

Lemma outside_perform t : keepsDB outside (perform workDir getwd t).
Proof. destruct t; [apply outside_runBackup|apply outside_runPrune|apply outside_runVerify|apply outside_runRestore]. Qed.

Lemma outside_execute run t : keepsDB outside (execute workDir getwd run t).
Proof. unfold execute. pose proof outside_perform. dbframe. Qed.

Lemma act_staffed a : staffed (act workDir baseURL getwd specs a).
Proof.
  destruct a; cbn [act].
  - apply staffed_bind; [apply serve_staffed|intros; apply staffed_ret].
  - apply staffed_users, outside_users, outside_execute.
  - apply staffed_users. unfold abandon. dbframe.
  - apply staffed_users. unfold apply. dbframe.
  - apply staffed_users. unfold trigger. dbframe.
  - apply staffed_users. unfold runMissed. dbframe.
  - apply staffed_users. unfold checkOverdue. dbframe.
  - apply staffed_users. unfold onEvent. dbframe.
  - apply staffed_users. dbframe.
  - apply staffed_users. dbframe.
  - apply staffed_users. unfold recoverInterruptedRuns. dbframe.
  - repeat staffed_step.
Qed.
End accounts.
