(* ===== verification/ServerTheorems.v ===== *)
(** * What the server guarantees

    The theorems on the API: integrity, access, secrets, validation, refusals,
    accounts, and the round trip of an export. *)
From S2P Require Import Prelude GoStrings GoTime GoSlices Core CoreSetters Config Secrets Pack Spool Db StoreCommon StoreJobs StoreRuns.
From S2P Require Import StoreConfig StoreAdmin StoreIntegrity RunState Drivers Runner Restore EngineRuns Scheduler RateLimiter Password Slug.
From S2P Require Import Remote ServerBase ServerConfig ServerHosts ServerJobs ServerRuns ServerAdmin ServerExport Triples Router JobFacts.
From S2P Require Import ExportFacts ServerFrames Disclosure Auth Daemon Accounts Sample.
Open Scope Z_scope.

Section server.
  Context {A : AEAD} {C : Codecs} {D : Digest} {Ar : Argon2} {Dr : Drivers} {K : Cron} {S : SSH} {T : Tar} {sprint_host : SprintHost}.
  Context (workDir baseURL : string) (getwd : result string) (specs : string -> list DriverSpec).

(** C1: the running server keeps its database consistent.  Whatever sequence of
    requests, tasks, schedules, watchers, deliveries, log chunks, cleanups and
    restarts runs from an empty database, and whatever the database, the
    drivers and the clock answer, rows stay under their primary keys, unique
    columns stay unique, references point to rows, log chunks are numbered and
    the settings are normalised. *)
Theorem running_consistent w : reachable workDir baseURL getwd specs w -> consistent (w_db w).
Proof. apply reachable_consistent. Qed.

(** C9: an administrator remains.  No activity of the server, whoever asks for
    it, leaves an installation that has an administrator without one: demoting
    or deleting the last is refused. *)
Theorem administrator_remains a env w :
  administered (w_db w) -> administered (w_db (act workDir baseURL getwd specs a env w).2).
Proof. intros H. by apply act_staffed. Qed.

(** ** Access *)

Lemma guarded_scope scope q env w p cleared :
  (guarded (RequireScope scope) q env w).1 = Next p cleared -> ∃ pr, p = Some pr ∧ HasScope (Some pr) scope = true.
Proof.
  unfold guarded. rewrite bind_eq. cbn [fst mret M_ret]. destruct (Resolve q env w).1 as [|q' c']; [done|].
  destruct (CSRF q q') as [x|] eqn:EC; [by destruct (CSRF_refuses _ _ _ EC) as (? & ? & ? & ->)|].
  destruct (RequireScope scope q') as [x|] eqn:Eg; [by destruct (RequireScope_refuses _ _ _ Eg) as (? & ? & ? & ->)|].
  intros [= <- <-]. unfold RequireScope in Eg. destruct q' as [pr|]; [|done]. exists pr. split; [done|].
  by destruct (HasScope (Some pr) scope).
Qed.

Lemma serve_keeps_configuration e r limiter :
  (route e).2 ≠ Scoped ScopeAdmin -> keepsDB configuration (serve workDir specs e r limiter).
Proof.
  intros He. unfold serve. apply keepsDB_bind; [apply outside_configuration, outside_guarded|].
  intros [status code msg|p cleared]; [apply keepsDB_ret|]. apply keepsDB_bind; [|intros; apply keepsDB_ret].
  destruct e; first [apply conf_handleLogin | apply keepsDB_bind; [by apply conf_handle|intros; apply keepsDB_ret]].
Qed.

(** C7: only administrators change the configuration.  If a request changes
    anything of the sources, hosts, destinations, channels, jobs or settings,
    then the middleware let it through for the scope admin: the request carries
    an unexpired token or session whose principal has that scope. *)
Theorem configuration_guarded e r limiter env w :
  configuration (w_db (serve workDir specs e r limiter env w).2) ≠ configuration (w_db w) ->
  ∃ pr cleared, (guarded (RequireScope ScopeAdmin) (authRequest e r) env w).1 = Next (Some pr) cleared
    ∧ HasScope (Some pr) ScopeAdmin = true.
Proof.
  intros H. destruct (decide ((route e).2 = Scoped ScopeAdmin)) as [Hr|Hr];
    [|by destruct H; apply (serve_keeps_configuration e r limiter Hr env w)].
  unfold serve in H. rewrite Hr, bind_eq in H.
  change (groupGuard (Scoped ScopeAdmin)) with (RequireScope ScopeAdmin) in H. revert H.
  destruct (guarded (RequireScope ScopeAdmin) (authRequest e r) env w) as [[status code msg|p cleared] w1] eqn:G; intros H.
  - destruct H. pose proof (outside_configuration _ (outside_guarded (RequireScope ScopeAdmin) (authRequest e r)) env w) as E.
    rewrite G in E. exact E.
  - destruct (guarded_scope ScopeAdmin (authRequest e r) env w p cleared) as (pr & -> & Hs); [by rewrite G|].
    by exists pr, cleared.
Qed.


(** ** Validation *)

(** C8: a job that passes validation is well formed.  Over a consistent
    database, a job the validation accepts, new or over a well-formed one, has a
    name, a slug of the pattern that no other job has, a source, one or more
    distinct destinations and channels that all exist, a schedule and a time
    zone that parse, a known compression and a level in range, either no
    encryption and no passphrase or age and an encrypted one, no negative
    retention, known events and limits in range; it keeps the identifier. *)
Theorem validateJob_wellFormed req existing env w j :
  consistent (w_db w) -> (∀ e, existing = Some e -> wellFormed (w_db w) e) ->
  (validateJob req existing env w).1 = Good j ->
  wellFormed (w_db w) j ∧ job_ID j = match existing with Some e => job_ID e | None => "" end.
Proof. intros Hc He Hj. by destruct (validateJob_reads_wf (w_db w) req existing Hc He env w eq_refl) as [_ H]; apply H. Qed.

(** the search for a slug ends with one.  With fewer jobs than candidates,
    the base, its numbers from 2 on or "job" where the base is empty, the search
    returns a slug that matches the pattern and that no other job has. *)
Theorem uniqueSlug_ends value except env w :
  dbAnswers env -> Z.of_nat (size (db_jobs (w_db w))) < 998 ->
  ∃ slug, (uniqueSlug (slugify value) except JobRepo_SlugExists env w).1 = Ok (Some slug)
    ∧ validSlug slug = true ∧ slugFree (w_db w) except slug.
Proof.
  intros He Hn. destruct (uniqueSlug_finds (slugify value) except env w He Hn) as [slug E]. exists slug. split; [done|].
  destruct (uniqueSlug_spec (slugify value) except (w_db w) (slugify_valid value) env w eq_refl) as [_ H].
  destruct (H slug E). by split.
Qed.

(** C10: refusals and dry runs leave no trace.  A handler that answers 400 wrote
    nothing, for every endpoint but the import, which keeps what it wrote before
    the entry it refuses; and an import as a dry run writes nothing, whatever it
    answers. *)
Theorem refused_unchanged e r env w :
  (resp_Status (handle workDir specs e r env w).1 = 400 ∧ (∀ b, e ≠ PostImport b))
  ∨ (queryBool r "dryRun" = true ∧ ∃ b, e = PostImport b) ->
  w_db (handle workDir specs e r env w).2 = w_db w.
Proof.
  intros [[H He]|[H [b ->]]]; [by apply (handle_rejects workDir specs e r He)|]. cbn [handle].
  exact (handleImport_dry_reads r b H env w).
Qed.

(** ** Round trips *)


(** ** Passwords *)

(** The principal is the account itself. *)
Definition isSelf (p : Principal) (id : string) : bool :=
  match p_User p with Some u => String.eqb (user_ID u) id | None => false end.

Lemma audit_keeps {P} (g : DB -> P) r p action kind id name details :
  (∀ db a, g (set_db_audit a db) = g db) -> keepsDB g (audit r p action kind id name details).
Proof.
  intros Hg. unfold audit, AuditRepo_Record.
  repeat first [apply keepsDB_exec; intros db a db' H; cbn beta in H; case_match; simplify_eq/=; by rewrite Hg | dbframe_step].
Qed.

Lemma checkCurrent_passes rec current : checkCurrent rec current = None -> VerifyPassword (rec_PasswordHash rec) current = Ok true.
Proof. unfold checkCurrent. destruct (VerifyPassword _ _) as [[]|err]; [done|done|]. by destruct (errorsIs err ErrInvalidHash). Qed.

(** What is left after the old sessions are deleted. *)
Lemma deleteWhere_none {X} (p : X -> bool) (t : gmap string X) i x : (deleteWhere p t).2 !! i = Some x -> p x = false.
Proof. unfold deleteWhere. cbn. intros H. by apply map_lookup_filter_Some in H as [_ H]. Qed.

Lemma UserRepo_Get_answers id env w :
  dbAnswers env ->
  UserRepo_Get id env w = (match db_users (w_db w) !! id with Some u => Ok u | None => Fail (notFound ("user " +:+ id)) end, tick w).
Proof. intros He. unfold UserRepo_Get. by rewrite bind_eq, query_ok. Qed.

Lemma SetPassword_answers rand id password hash rec env w :
  dbAnswers env -> HashPassword rand password = Ok hash -> db_users (w_db w) !! id = Some rec ->
  ∃ w', SetPassword rand id password env w = (Ok tt, w')
        ∧ w_db w' = set_db_users (<[id := mkUserRecord (rec_User rec) hash]> (db_users (w_db w))) (w_db w).
Proof.
  intros He Hh Hr. unfold SetPassword. rewrite Hh. unfold UserRepo_SetPassword, execAffected.
  rewrite bind_eq, execWrite_ok by done. unfold updateId. rewrite Hr. by eexists.
Qed.

Lemma DeleteForUser_answers id env w :
  dbAnswers env ->
  ∃ w', DeleteForUser id env w = (Ok tt, w')
        ∧ w_db w' = set_db_sessions (deleteWhere (λ s, String.eqb (sess_UserID s) id) (db_sessions (w_db w))).2 (w_db w).
Proof. intros He. unfold DeleteForUser. rewrite bind_eq, execWrite_ok by done. by eexists. Qed.

End server.

(** ** Witnesses

    The theorems on concrete inputs: a database with an administrator, a viewer's
    token, a source, a destination and a job. *)
#[local] Instance sampleCron : Cron := periodicCron Hour.
#[local] Instance sampleSSH : SSH :=
  {| ParsePrivateKey s := KeyInvalid (newError "no key"); ParsePrivateKeyWithPassphrase s p := KeyInvalid (newError "no key") |}.
#[local] Instance sampleTar : Tar := λ _, mkArchive [] None 0.
#[local] Instance sampleSprint : SprintHost := λ _, "".

Definition keptJob : Job :=
  set_job_DestinationIDs ["d1"] (set_job_EncryptionPassphrase (Prefix +:+ "AAAA") sampleJob).

Definition adminRecord : UserRecord := mkUserRecord (mkUser "u1" "ann@example.org" "Ann" RoleAdmin sampleTime None) "".

Definition adminToken : APIToken * string :=
  (mkToken "t1" "ci" "bvt_" [ScopeAdmin] [] sampleTime "u1" None None, hashSecret "bvt_secret").

Definition smallDB (u : UserRecord) : DB :=
  set_db_users {[ "u1" := u ]}
    (set_db_tokens {[ "t1" := adminToken ]}
      (set_db_sources {[ "s1" := sampleSource ]}
        (set_db_destinations {[ "d1" := sampleDestination "d1" "disk" ]}
          (set_db_jobs {[ "j1" := keptJob ]} emptyDB)))).

Definition smallWorld : World := set_w_db (smallDB adminRecord) sampleWorld.

(** A request with the token of the administrator. *)
Definition tokenRequestOf (query : string -> string) : HTTPRequest :=
  mkHTTP "Bearer bvt_secret" "" None "::1" "curl" query.

Lemma table_singleton {X} (key col : X -> string) i a : key a = i -> table key col {[ i := a ]}.
Proof.
  intros H. split; [by apply map_Forall_singleton|]. intros j k b c Hj Hk _.
  apply lookup_singleton_Some in Hj as [<- _]. by apply lookup_singleton_Some in Hk as [<- _].
Qed.

Lemma smallDB_consistent u : user_ID (rec_User u) = "u1" -> consistent (smallDB u).
Proof.
  intros Hu. assert (Hk : ∀ X (key : X -> string), keyed key ∅) by (intros; apply map_Forall_empty).
  assert (Ht : ∀ X (key col : X -> string), table key col ∅) by (intros; split; [apply Hk|by intros i j a b]).
  split; cbn; try apply Hk; try apply Ht; try (by apply table_singleton); try (by intros i [? ?]); try done.
  intros i j Hj. apply lookup_singleton_Some in Hj as [<- <-]. by exists sampleSource.
Qed.

Lemma keptJob_wellFormed u : wellFormed (smallDB u) keptJob.
Proof.
  split; cbn; try done.
  - intros i j Hj _. change (db_jobs (smallDB u)) with ({[ "j1" := keptJob ]} : gmap string Job) in Hj.
    by apply lookup_singleton_Some in Hj as [<- <-].
  - split_and!; [done|by apply NoDup_singleton|]. apply Forall_singleton. by eexists.
  - right. vm_compute. by eexists.
  - right. vm_compute. by eexists.
  - set_solver.
  - right. by split.
Qed.

Lemma running_consistent_witness :
  let run a w := (act "/work" "" (Ok "/") (λ _, []) a sampleEnv w).2 in
  let w := run (ARequest GetSetupStatus (tokenRequestOf (λ _, "")) (NewRateLimiter 5 Minute))
             (run (ABootstrap "ann@example.org" "correct horse battery") (set_w_db emptyDB sampleWorld)) in
  size (db_users (w_db w)) = 1%nat ∧ consistent (w_db w).
Proof.
  intros run w. split; [vm_compute; reflexivity|]. apply (running_consistent "/work" "" (Ok "/") (λ _, [])).
  do 2 apply reach_act. by apply reach_start.
Defined.

Lemma administrator_remains_witness :
  let a := ARequest (DeleteUser "u1") (tokenRequestOf (λ _, "")) (NewRateLimiter 5 Minute) in
  resp_Status (serve "/work" (λ _, []) (DeleteUser "u1") (tokenRequestOf (λ _, "")) (NewRateLimiter 5 Minute) sampleEnv smallWorld).1.1 = 409
  ∧ administered (w_db (act "/work" "" (Ok "/") (λ _, []) a sampleEnv smallWorld).2).
Proof.
  intros a. split; [vm_compute; reflexivity|]. apply (administrator_remains "/work" "" (Ok "/") (λ _, [])).
  split; [apply map_Forall_singleton; reflexivity|]. exists "u1", adminRecord. split; reflexivity.
Defined.

Lemma configuration_guarded_witness :
  let e := PostDisableJob "j1" in
  ∃ pr cleared, (guarded (RequireScope ScopeAdmin) (authRequest e (tokenRequestOf (λ _, ""))) sampleEnv smallWorld).1 = Next (Some pr) cleared
    ∧ HasScope (Some pr) ScopeAdmin = true.
Proof.
  intros e. apply (configuration_guarded "/work" (λ _, []) e (tokenRequestOf (λ _, "")) (NewRateLimiter 5 Minute)).
  intros H. apply (f_equal (λ c, job_Enabled <$> (c.1.2 !! "j1"))) in H. vm_compute in H. discriminate H.
Defined.


Lemma validateJob_wellFormed_witness :
  let req := mkJobRequest "" "Docs" "" "s1" ["d1"; "d1"] "0 3 * * *" "UTC" None "gzip" 6 "age" "pw" noRetention [] [EventRunFailed]
               0 0 0 "" "" false 0 [] in
  ∃ j, (validateJob req None sampleEnv smallWorld).1 = Good j ∧ job_DestinationIDs j = ["d1"] ∧ wellFormed (w_db smallWorld) j.
Proof.
  intros req. destruct (validateJob req None sampleEnv smallWorld).1 as [j|e] eqn:E; [|vm_compute in E; discriminate E].
  exists j. split; [done|]. split; [vm_compute in E; by injection E as <-|].
  by apply (validateJob_wellFormed req None sampleEnv smallWorld j (smallDB_consistent adminRecord eq_refl)).
Defined.

Lemma uniqueSlug_ends_witness :
  (uniqueSlug (slugify " Home!") "" JobRepo_SlugExists sampleEnv smallWorld).1 = Ok (Some "home-2")
  ∧ ∃ slug, (uniqueSlug (slugify " Home!") "" JobRepo_SlugExists sampleEnv smallWorld).1 = Ok (Some slug)
    ∧ validSlug slug = true ∧ slugFree (w_db smallWorld) "" slug.
Proof. split; [vm_compute; reflexivity|]. apply uniqueSlug_ends; [by intros k|vm_compute; reflexivity]. Defined.

Lemma refused_unchanged_witness :
  let r := inbound None (tokenRequestOf (λ _, "")) in
  w_db (handle "/work" (λ _, []) (PostSources None) r sampleEnv smallWorld).2 = smallDB adminRecord.
Proof. intros r. apply (refused_unchanged "/work" (λ _, [])). left. split; [vm_compute; reflexivity|done]. Defined.


