(* ===== verification/ServerEdge.v ===== *)
(** * The edge of the server: client addresses, streams, statistics and metrics

    [internal/server/server.go], [middleware.go], [sse.go], [dashboard.go] and
    [metrics.go], [internal/store/stats.go], and the commands of
    [cmd/backvault/api.go] and [localstore.go] that work on what the server shows
    or on its database.

    [Net] is what they use of [package net]; [Clients] says whose address a
    request is given and the headers of every answer; [Streams] the events and
    logs that are sent as they come, over a database that others change between
    two of its statements; [Stats] and [Metrics] the figures. *)
From S2P Require Import Prelude GoStrings GoTime GoSlices GoPath GoHttp Core CoreSetters Config Secrets Db StoreCommon StoreJobs StoreRuns StoreConfig.
From S2P Require Import StoreAdmin StoreIntegrity StoreFacts Auth ServerBase ServerRuns Pack Spool Password Drivers Restore Remote Sample.
Open Scope Z_scope.

(** ** Addresses: [package net], as the server uses it *)

Module Net.

(** An address in its shortest form: an IPv4 address mapped into IPv6 is one of IPv4. *)
Inductive IP := V4 (n : N) | V6 (n : N).

#[export] Instance IP_eq_dec : EqDecision IP.
Proof. solve_decision. Defined.

Definition decimalOctet (s : string) : option N :=
  if (String.length s =? 0)%nat || (3 <? String.length s)%nat || negb (sall is_digit s) then None
  else if HasPrefix s "0" && (1 <? String.length s)%nat then None
  else n ← parse_digits s 0; if n <=? 255 then Some (Z.to_N n) else None.

Definition parseIPv4 (s : string) : option N :=
  match mapM decimalOctet (Split s (byte_of 46)) with
  | Some [a; b; c; d] => Some (((a * 256 + b) * 256 + c) * 256 + d)%N
  | _ => None
  end.

(** The hexadecimal digits at the start: their value and the rest. *)
Fixpoint hexField (n : nat) (acc : N) (s : string) : option (N * nat * string) :=
  match s with
  | String a s' =>
      match unhex a with
      | Some d => match n with O => None | S n => match hexField n (acc * 16 + d) s' with Some (v, k, rest) => Some (v, S k, rest) | None => None end end
      | None => Some (acc, O, s)
      end
  | "" => Some (acc, O, "")
  end.

(** The groups of 16 bits, and how many stand before the [::]. *)
Fixpoint groups (fuel : nat) (done : list N) (ellipsis : option nat) (s : string) : option (list N * option nat) :=
  match fuel with
  | O => if bool_decide (s = "") then Some (done, ellipsis) else None
  | S fuel =>
      match hexField 4 0 s with
      | None | Some (_, O, _) => None
      | Some (v, _, rest) =>
          if HasPrefix rest "." then
            if (match ellipsis with None => negb (length done =? 6)%nat | _ => false end) || (6 <? length done)%nat then None
            else match parseIPv4 s with
                 | Some n => Some (done ++ [n / 65536; n mod 65536]%N, ellipsis)
                 | None => None
                 end
          else
            let done := done ++ [v] in
            match rest with
            | "" => Some (done, ellipsis)
            | String c rest =>
                if negb (Ascii.eqb c ":") || bool_decide (rest = "") then None
                else if HasPrefix rest ":" then
                  match ellipsis with
                  | Some _ => None
                  | None =>
                      let rest := sdrop 1 rest in
                      if bool_decide (rest = "") then Some (done, Some (length done)) else groups fuel done (Some (length done)) rest
                  end
                else groups fuel done ellipsis rest
            end
      end
  end.

Definition groupsValue (l : list N) : N := foldl (λ acc g, acc * 65536 + g)%N 0%N l.

(** [netip.ParseAddr] of an IPv6 address without a zone. *)
Definition parseIPv6 (s : string) : option N :=
  if ContainsByte s "%" then None
  else
    let leading := HasPrefix s "::" in
    let s := if leading then sdrop 2 s else s in
    if leading && bool_decide (s = "") then Some 0%N
    else
      match groups 8 [] (if leading then Some O else None) s with
      | Some (l, None) => if (length l =? 8)%nat then Some (groupsValue l) else None
      | Some (l, Some i) => if (length l <? 8)%nat then Some (groupsValue (take i l ++ replicate (8 - length l) 0%N ++ drop i l)) else None
      | None => None
      end.

(** The first of the characters that tell the families apart. *)
Fixpoint isV4Text (s : string) : option bool :=
  match s with
  | "" => None
  | String a s => if Ascii.eqb a "." then Some true else if Ascii.eqb a ":" then Some false else if Ascii.eqb a "%" then None else isV4Text s
  end.

(** The bits of an address, and whether they are 32 or 128. *)
Definition ParseAddr (s : string) : option (bool * N) :=
  match isV4Text s with
  | Some true => n ← parseIPv4 s; Some (true, n)
  | Some false => n ← parseIPv6 s; Some (false, n)
  | None => None
  end.

Definition To4 (n : N) : IP := if (n / 2 ^ 32 =? 65535)%N then V4 (n mod 2 ^ 32) else V6 n.

Definition toIP (a : bool * N) : IP := if a.1 then V4 a.2 else To4 a.2.

Definition ParseIP (s : string) : option IP := a ← ParseAddr s; Some (toIP a).

(** [net.IPNet]: the address and how many of its bits count. *)
Record IPNet := mkIPNet { nw_IP : IP; nw_Ones : N }.

Definition masked (bits ones n : N) : N := N.shiftl (N.shiftr n (bits - ones)) (bits - ones).

Definition ParseCIDR (s : string) : option IPNet :=
  match Cut s "/" with
  | (addr, mask, true) =>
      match ParseAddr addr with
      | None => None
      | Some (v4, n) =>
          let bits := if v4 then 32%N else 128%N in
          match (if bool_decide (mask = "") then None else parse_digits mask 0) with
          | None => None
          | Some ones =>
            if Z.of_N bits <? ones then None
            else
              let ones := Z.to_N ones in
              let n := masked bits ones n in
              Some (if v4 then mkIPNet (V4 n) ones
                    else match To4 n with V4 m => mkIPNet (V4 m) (ones - 96) | V6 m => mkIPNet (V6 m) ones end)
          end
      end
  | _ => None
  end.

Definition Contains (nw : IPNet) (ip : IP) : bool :=
  match nw_IP nw, ip with
  | V4 a, V4 b => (N.shiftr a (32 - nw_Ones nw) =? N.shiftr b (32 - nw_Ones nw))%N
  | V6 a, V6 b => (N.shiftr a (128 - nw_Ones nw) =? N.shiftr b (128 - nw_Ones nw))%N
  | _, _ => false
  end.

(** [net.SplitHostPort]: the host. *)
Definition SplitHost (hostport : string) : option string :=
  match LastIndexByte hostport ":" with
  | None => None
  | Some i =>
      let noBracket c s := negb (ContainsByte s c) in
      if HasPrefix hostport "[" then
        match IndexByte hostport "]" with
        | Some e =>
            if (S e =? i)%nat && noBracket "["%char (sdrop 1 hostport) && noBracket "]"%char (sdrop (S e) hostport)
            then Some (sdrop 1 (stake e hostport)) else None
        | None => None
        end
      else
        let host := stake i hostport in
        if noBracket ":"%char host && noBracket "["%char hostport && noBracket "]"%char hostport then Some host else None
  end.

End Net.

(** ** [server.go]: who a request comes from *)

Module Clients.
Import Net.

Definition parseProxy (v : string) : option IPNet :=
  let v := TrimSpace v in
  if ContainsByte v "/" then ParseCIDR v
  else match ParseIP v with
       | None => None
       | Some (V4 n) => Some (mkIPNet (V4 n) 32)
       | Some (V6 n) => Some (mkIPNet (V6 n) 128)
       end.

(** The values that cannot be read are left out, with a line in the log. *)
Definition parseProxies (values : list string) : list IPNet := omap parseProxy values.

(** The headers with their lines in order; a name is in its canonical form. *)
Definition Header : Type := list (string * string).

(** [Header.Get]: the first line of the name. *)
Definition Get (name : string) (h : Header) : string :=
  match List.find (λ kv, String.eqb kv.1 name) h with Some (_, v) => v | None => "" end.

Section client.
  Context (proxies : list IPNet).

Definition trusted (ip : IP) : bool := existsb (λ nw, Contains nw ip) proxies.

(** The last address of the list that is none of a proxy. *)
Fixpoint forwardedFor (parts : list string) (remote : string) : string :=
  match parts with
  | [] => remote
  | part :: parts =>
      let candidate := TrimSpace part in
      match ParseIP candidate with
      | None => forwardedFor parts remote
      | Some ip => if trusted ip then forwardedFor parts remote else candidate
      end
  end.

Definition peer (remoteAddr : string) : string := default remoteAddr (SplitHost remoteAddr).

Definition clientIP (remoteAddr : string) (h : Header) : string :=
  let remote := peer remoteAddr in
  if bool_decide (proxies = []) then remote
  else
    match ParseIP remote with
    | None => remote
    | Some ip =>
        if negb (trusted ip) then remote
        else
          let forwarded := Get "X-Forwarded-For" h in
          if bool_decide (forwarded = "") then
            let real := TrimSpace (Get "X-Real-Ip" h) in
            if bool_decide (real ≠ "") then real else remote
          else forwardedFor (reverse (Split forwarded (byte_of 44))) remote
    end.

End client.

Definition contentSecurityPolicy (scriptHashes : list string) : string :=
  let scriptSrc := foldl (λ acc hash, acc +:+ " '" +:+ hash +:+ "'") "'self'" scriptHashes in
  StrJoin ["default-src 'self'"; "script-src " +:+ scriptSrc; "img-src 'self' data:"; "style-src 'self' 'unsafe-inline'";
           "font-src 'self' data:"; "connect-src 'self'"; "base-uri 'self'"; "form-action 'self'"; "frame-ancestors 'none'"] "; ".

(** The headers [securityHeaders] and [noStore] set. *)
Definition securityHeaders (scriptHashes : list string) (path : string) : Header :=
  [("X-Content-Type-Options", "nosniff"); ("X-Frame-Options", "DENY"); ("Referrer-Policy", "same-origin"); ("Cross-Origin-Opener-Policy", "same-origin")]
  ++ (if HasPrefix path "/api/" then [] else [("Content-Security-Policy", contentSecurityPolicy scriptHashes)]).

Definition noStore : Header := [("Cache-Control", "no-store")].

(** [secureCookies], with the base URL of the settings, when they can be read. *)
Definition secureCookies (configured : string) (settings : result string) : bool :=
  HasPrefix configured "https://" || match settings with Ok url => HasPrefix url "https://" | Fail _ => false end.

End Clients.

(** ** [sse.go] *)

Module Streams.

(** What is written to a stream: an event, or a comment that keeps it open. *)
Inductive Frame := FEvent (event payload : string) | FComment (text : string).

Definition newline : ascii := byte_of 10.

(** [sseEvent], and the comments of the two handlers. *)
Definition sseEvent (event payload : string) : string :=
  (if bool_decide (event ≠ "") then "event: " +:+ event +:+ schar newline else "")
  +:+ foldr (λ line acc, "data: " +:+ line +:+ schar newline +:+ acc) "" (Split payload newline) +:+ schar newline.

Definition render (f : Frame) : string :=
  match f with FEvent event payload => sseEvent event payload | FComment text => ": " +:+ text +:+ schar newline +:+ schar newline end.

Definition TopicRunUpdated : string := "run.updated".
Definition TopicJobUpdated : string := "job.updated".
Definition TopicArtifactUpdated : string := "artifact.updated".

(** The headers of a stream. *)
Definition prepareSSE : Clients.Header :=
  [("Content-Type", "text/event-stream"); ("Cache-Control", "no-cache, no-transform"); ("Connection", "keep-alive"); ("X-Accel-Buffering", "no")].

(** What wakes the loop of a stream: the client is gone, the heartbeat, an event
    (none: the channel is closed), or the time to look at the log again. *)
Inductive Wake := Gone | Heartbeat | Received (ev : option Event) | Poll.

(** [json.Marshal] of the data of an event, as far as it can be. *)
Definition eventFrame (marshal : Event -> option string) (ev : Event) : list Frame :=
  let topic := match ev with
               | EvRunUpdated _ => Some TopicRunUpdated | EvJobUpdated _ => Some TopicJobUpdated
               | EvArtifactUpdated _ => Some TopicArtifactUpdated | EvRunLog _ _ _ => None
               end in
  match topic with
  | None => []
  | Some topic => match marshal ev with Some payload => [FEvent topic payload] | None => [] end
  end.

Fixpoint eventLoop (marshal : Event -> option string) (wakes : list Wake) : list Frame :=
  match wakes with
  | [] | Gone :: _ | Received None :: _ => []
  | Heartbeat :: wakes => FComment "ping" :: eventLoop marshal wakes
  | Received (Some ev) :: wakes => eventFrame marshal ev ++ eventLoop marshal wakes
  | Poll :: wakes => eventLoop marshal wakes
  end.

(** [flusher]: whether the writer can flush. *)
Definition handleEventStream (marshal : Event -> option string) (flusher : bool) (wakes : list Wake) : Response + list Frame :=
  if negb flusher then inl (writeError 500 codeInternal "streaming is not supported")
  else inr (FComment "connected" :: eventLoop marshal wakes).

(** *** The log of a run, while it is written *)

Section log.
  (** The database at each moment: what others made of it. *)
  Context (history : nat -> DB).

Definition others : M unit := λ _ w, (tt, set_w_db (history (w_tick w)) w).

Definition lineFrames (chunk : LogChunk) : list Frame :=
  FEvent "line" <$> filter (λ line, line ≠ "") (Split (TrimRightByte newline (chunk_Text chunk)) newline).

(** [emit]: the cursor and what is written. *)
Definition emit (runID : string) (seq : Z) : M (result (Z * list Frame)) :=
  others;;
  do? chunks := LogChunks runID seq else err => mret (Fail err) in
  mret (Ok (foldl (λ _ c, chunk_Seq c) seq chunks, chunks ≫= lineFrames)).

Definition doneFrame (s : RunStatus) : Frame := FEvent "done" (RunStatus_text s).

Fixpoint follow (runID : string) (wakes : list Wake) (seq : Z) : M (list Frame) :=
  match wakes with
  | [] | Gone :: _ => mret []
  | Heartbeat :: wakes => rest ← follow runID wakes seq; mret (FComment "ping" :: rest)
  | Received _ :: wakes => follow runID wakes seq
  | Poll :: wakes =>
      do? (seq, frames) := emit runID seq else _ => mret [] in
      others;;
      do? current := RunRepo_Get runID else _ => mret frames in
      if Terminal (run_Status current) then
        do? (_, last) := emit runID seq else _ => mret frames in
        mret (frames ++ last ++ [doneFrame (run_Status current)])
      else rest ← follow runID wakes seq; mret (frames ++ rest)
  end.

Definition handleRunLogStream (runID : string) (flusher : bool) (wakes : list Wake) : M (Response + list Frame) :=
  others;;
  do? run := RunRepo_Get runID else err => mret (inl (failBelow err)) in
  if negb flusher then mret (inl (writeError 500 codeInternal "streaming is not supported"))
  else
    do? (seq, frames) := emit runID 0 else _ => mret (inr []) in
    if Terminal (run_Status run) then mret (inr (frames ++ [doneFrame (run_Status run)]))
    else rest ← follow runID wakes seq; mret (inr (frames ++ rest)).

(** *** [backvault runs log -f]: the same over two requests

    [rounds] are the pauses the command is given. *)
Fixpoint followLog (r : Inbound) (runID : string) (rounds : nat) (offset : Z) : M (list string) :=
  match rounds with
  | O => mret []
  | S rounds =>
      others;;
      resp ← handleRunLog (mkInbound (in_principal r) (in_ip r) (in_agent r) (in_cookie r)
                             (λ name, if String.eqb name "offset" then Itoa offset else "")) runID;
      match resp_Body resp with
      | BodyLog text _ =>
          others;;
          resp ← handleGetRun runID;
          match resp_Body resp with
          | BodyRun run =>
              if Terminal (run_Status run) then mret [text]
              else rest ← followLog r runID rounds (offset + Z.of_nat (String.length text)); mret (text :: rest)
          | _ => mret [text]
          end
      | _ => mret []
      end
  end.

End log.
End Streams.

(** ** [store/stats.go] and [dashboard.go] *)

Module Stats.

Record DestinationUsage := mkDestinationUsage { du_DestinationID : string; du_DestinationName : string; du_Kind : string; du_Bytes : Z; du_Artifacts : Z }.

Record DailyStat := mkDailyStat { day_Date : string; day_Success : Z; day_Failed : Z; day_Bytes : Z }.

Record DashboardStats := mkDashboardStats {
  st_Jobs : Z; st_JobsEnabled : Z; st_JobsOverdue : Z; st_JobsFailing : Z; st_RunsRunning : Z; st_Runs24hSuccess : Z; st_Runs24hFailed : Z;
  st_Artifacts : Z; st_TotalBytes : Z; st_Destinations : list DestinationUsage; st_Daily : list DailyStat; st_RecentRuns : list Run;
  st_Upcoming : list Job; st_ProblemJobs : list Job
}.

Definition countIf {A} (p : A -> bool) (l : list A) : Z := Z.of_nat (length (List.filter p l)).

Definition lastRunIs (statuses : list RunStatus) (j : Job) : bool :=
  match job_LastRun j with Some s => bool_decide (sum_Status s ∈ statuses) | None => false end.

(** The two sums of a group of runs. *)
Definition succeeded (r : Run) : bool := bool_decide (run_Status r = RunSuccess).
Definition failed (r : Run) : bool := bool_decide (run_Status r ∈ [RunFailed; RunWarning]).

Definition sum (l : list Z) : Z := foldr Z.add 0 l.

(** [t.Truncate(d)], which counts from the zero time. *)
Definition Truncate (t : Time) (d : Z) : Time := t - (t - zeroTime) mod d.

(** [GROUP BY day] of the runs since a time: a day with no run has no row. *)
Definition dayRow (since : Time) (db : DB) (date : string) : option DailyStat :=
  let rows := selectWhere (λ r, (since <=? run_QueuedAt r) && String.eqb (fmt_date (run_QueuedAt r)) date) (db_runs db) in
  if bool_decide (rows = []) then None
  else Some (mkDailyStat date (countIf succeeded rows) (countIf failed rows) (sum (run_Bytes <$> rows))).

Definition dailyStart (t : Time) (days : Z) : Time := Truncate (AddDays t (- (days - 1))) Day.

Definition daily (t : Time) (days : Z) : M (result (list DailyStat)) :=
  let days := if days <=? 0 then 30 else days in
  let start := dailyStart t days in
  do? byDay := query (dayRow start) else err => mret (Fail (wrapError "daily stats" err)) in
  mret (Ok ((λ i, let d := fmt_date (AddDays start (Z.of_nat i)) in
                  match byDay d with Some stat => stat | None => mkDailyStat d 0 0 0 end) <$> seq 0 (Z.to_nat days))).

(** [sort.Slice] by bytes; it may leave those that take as much in another order. *)
Definition destinationUsage : M (result (list DestinationUsage)) :=
  do? (dests, _) := DestinationRepo_List (mkDestinationFilter "" "" (mkPage MaxLimit 0)) else err => mret (Fail err) in
  mret (Ok (SliceStable (λ a b, du_Bytes b <? du_Bytes a)
              ((λ d, mkDestinationUsage (dst_ID d) (dst_Name d) (dst_Kind d) (dst_UsedBytes d) (dst_ArtifactCount d)) <$> dests))).

Definition dueEarlier (a b : Job) : bool :=
  match job_NextRunAt a, job_NextRunAt b with Some t, Some u => t <? u | _, _ => false end.

Definition upcoming (jobs : list Job) : list Job :=
  take 10 (SliceStable dueEarlier (List.filter (λ j, job_Enabled j && bool_decide (is_Some (job_NextRunAt j))) jobs)).

Definition problemJobs (jobs : list Job) : list Job :=
  take 10 (List.filter (λ j, job_Overdue j || lastRunIs [RunFailed; RunWarning] j) jobs).

Definition Dashboard (t : Time) (dailyDays recentRuns : Z) : M (result DashboardStats) :=
  do? jobs := JobRepo_All else err => mret (Fail err) in
  do? running := CountByStatus RunRunning else err => mret (Fail err) in
  let since := GoTime.Add t (- (24 * Hour)) in
  do? last24h := query (λ db, let rows := selectWhere (λ r, since <=? run_QueuedAt r) (db_runs db) in (countIf succeeded rows, countIf failed rows))
    else err => mret (Fail (wrapError "dashboard 24h counters" err)) in
  do? usage := ArtifactRepo_Count else err => mret (Fail err) in
  do? dests := destinationUsage else err => mret (Fail err) in
  do? days := daily t dailyDays else err => mret (Fail err) in
  do? (runs, _) := RunRepo_List (mkRunFilter "" "" "" [] "" zeroTime zeroTime (mkPage recentRuns 0)) else err => mret (Fail err) in
  mret (Ok (mkDashboardStats (Z.of_nat (length jobs)) (countIf job_Enabled jobs) (countIf job_Overdue jobs) (countIf (lastRunIs [RunFailed]) jobs) running
              last24h.1 last24h.2 (use_Artifacts usage) (use_Bytes usage) dests days runs (upcoming jobs) (problemJobs jobs))).

Definition dashboardDays (r : Inbound) : Z :=
  let v := query_text r "days" in
  if bool_decide (v = "") then 30 else match Atoi v with Some n => if (0 <? n) && (n <=? 365) then n else 30 | None => 30 end.

Definition handleDashboard (r : Inbound) : M (Response + DashboardStats) :=
  t ← now;
  do? stats := Dashboard t (dashboardDays r) 15 else err => mret (inl (failBelow err)) in
  mret (inr stats).

End Stats.

(** ** [metrics.go] *)

Module Metrics.

(** The counters and the histogram the observer feeds: what was added, by metric
    and labels. *)
Record Registry := mkRegistry {
  runsTotal : gmap (list string) Z;
  runDuration : gmap (list string) (list Z);   (* milliseconds *)
  runBytes : gmap (list string) Z;
  destErrors : gmap (list string) Z;
  notifyFailures : gmap (list string) Z
}.

Definition addTo (labels : list string) (n : Z) (m : gmap (list string) Z) : gmap (list string) Z := <[labels := default 0 (m !! labels) + n]> m.

Definition RunFinished (run : Run) (m : Registry) : Registry :=
  let job := run_JobSlug run in
  let kind := RunKind_text (run_Kind run) in
  mkRegistry (addTo [job; kind; RunStatus_text (run_Status run)] 1 (runsTotal m))
    (if 0 <? run_DurationMS run then <[[job; kind] := default [] (runDuration m !! [job; kind]) ++ [run_DurationMS run]]> (runDuration m) else runDuration m)
    (runBytes m) (destErrors m) (notifyFailures m).

Definition RunBytes (jobSlug destination : string) (n : Z) (m : Registry) : Registry :=
  if n <=? 0 then m
  else mkRegistry (runsTotal m) (runDuration m) (addTo [jobSlug; destination] n (runBytes m)) (destErrors m) (notifyFailures m).

Definition DestinationError (destination : string) (m : Registry) : Registry :=
  mkRegistry (runsTotal m) (runDuration m) (runBytes m) (addTo [destination] 1 (destErrors m)) (notifyFailures m).

Definition NotificationFailure (channel : string) (m : Registry) : Registry :=
  mkRegistry (runsTotal m) (runDuration m) (runBytes m) (destErrors m) (addTo [channel] 1 (notifyFailures m)).

(** A gauge: its name, its labels and its value. *)
Record Sample := mkSample { sm_Name : string; sm_Labels : list string; sm_Value : Z }.

Definition artifactStatuses : list ArtifactStatus := [ArtifactPresent; ArtifactMissing; ArtifactPruned; ArtifactDeleted].

Definition orZero {A} (f : A -> Z) (o : option A) : Z := match o with Some a => f a | None => 0 end.

(** [StatsByDestination]: the groups that are there. *)
Definition StatsByDestination : M (result (string -> ArtifactStatus -> option ArtifactStat)) :=
  do? f := query (λ db dest status, destinationStat dest status db) else err => mret (Fail (wrapError "artifact stats" err)) in mret (Ok f).

Definition collectArtifacts : M (list Sample) :=
  do? (dests, _) := DestinationRepo_List (mkDestinationFilter "" "" (mkPage MaxLimit 0)) else _ => mret [] in
  do? stat := StatsByDestination else _ => mret [] in
  mret (dests ≫= λ d,
    ((λ s, mkSample "backvault_artifacts" [dst_Name d; ArtifactStatus_text s] (orZero stat_Count (stat (dst_ID d) s))) <$> artifactStatuses)
    ++ [mkSample "backvault_artifact_bytes" [dst_Name d] (orZero stat_Bytes (stat (dst_ID d) ArtifactPresent))]).

Definition LastSuccess : M (result (string -> option Time)) :=
  do? f := query (λ db jobID, nullTime (lastSuccess db jobID)) else err => mret (Fail (wrapError "last success by job" err)) in mret (Ok f).

(** [t.Unix()]. *)
Definition Unix (t : Time) : Z := t / Second.

(** What a figure is when the store does not answer. *)
Definition orElse {A} (def : A) (m : M (result A)) : M A := r ← m; mret match r with Ok a => a | Fail _ => def end.

(** [queued] are the runs [QueuedRuns] counts, [info] the identity of the build. *)
Definition Collect (queued : Z) (info : list string) : M (list Sample) :=
  running ← orElse 0 (CountByStatus RunRunning);
  jobs ← orElse [] JobRepo_All;
  last ← orElse (λ _, None) LastSuccess;
  artifacts ← collectArtifacts;
  mret ([mkSample "backvault_build_info" info 1; mkSample "backvault_runs_queued" [] queued; mkSample "backvault_runs_running" [] running;
         mkSample "backvault_jobs" ["true"] (Stats.countIf job_Enabled jobs); mkSample "backvault_jobs" ["false"] (Stats.countIf (λ j, negb (job_Enabled j)) jobs);
         mkSample "backvault_jobs_overdue" [] (Stats.countIf job_Overdue jobs)]
        ++ omap (λ j, t ← last (job_ID j); Some (mkSample "backvault_job_last_success_timestamp_seconds" [job_Slug j] (Unix t))) jobs
        ++ artifacts).

(** [handleMetrics]: whether the request may see them. *)
Definition metricsAllowed (configured : string) (r : Inbound) (authorization : string) : bool :=
  let token := TrimSpace configured in
  if bool_decide (token = "") then true
  else
    let provided := query_text r "token" in
    let header := TrimSpace authorization in
    let provided := if bool_decide (provided = "") && HasPrefix (ToLower header) "bearer " then TrimSpace (sdrop 7 header) else provided in
    String.eqb provided token.

Definition handleMetrics (configured authorization : string) (queued : Z) (info : list string) (r : Inbound) : M (Response + list Sample) :=
  if metricsAllowed configured r authorization then samples ← Collect queued info; mret (inr samples)
  else mret (inl (writeError 401 codeUnauthenticated "metrics token required")).

End Metrics.

(** ** The commands that open the database themselves: [cmd/backvault/localstore.go] *)

Module Commands.

Section local.
  Context {D : Digest} {A : Argon2}.

(** What [resolvePassword] is given: the flag, the environment, and the input,
    which is a terminal that is asked twice, or not. *)
Inductive Input := Terminal_ (first second : result string) | Piped (line : result string).

Definition checked (password : string) : result string := match ValidatePassword password with Some err => Fail err | None => Ok password end.

Definition lineEnd (a : ascii) : bool := Ascii.eqb a (byte_of 13) || Ascii.eqb a (byte_of 10).

Fixpoint trimLineEnd (s : string) : string :=
  match s with
  | "" => ""
  | String a s => let t := trimLineEnd s in if lineEnd a && bool_decide (t = "") then "" else String a t
  end.

Definition resolvePassword (provided env : string) (input : Input) : result string :=
  if bool_decide (provided ≠ "") then checked provided
  else if bool_decide (env ≠ "") then checked env
  else
    match input with
    | Piped (Fail err) => Fail (wrapError "read password from stdin" err)
    | Piped (Ok line) => checked (trimLineEnd line)
    | Terminal_ first second =>
        let? first := first else err => Fail (wrapError "read password" err) in
        let? second := second else err => Fail (wrapError "read password" err) in
        if bool_decide (first ≠ second) then Fail (newError "passwords do not match") else checked first
    end.

(** [backvault user create] and [backvault user password]. *)
Definition userCreate (rand : result string) (email name role : string) (secret : result string) : M (result User) :=
  if Blank email then mret (Fail (newError "--email is required"))
  else
    let userRole := ToLower (TrimSpace role) in
    let userRole := if bool_decide (userRole = "") then RoleAdmin else userRole in
    if negb (String.eqb userRole RoleAdmin) && negb (String.eqb userRole RoleViewer) then mret (Fail (newError "--role must be admin or viewer"))
    else match secret with
         | Fail err => mret (Fail err)
         | Ok secret => CreateUser rand (mkUser "" email name userRole zeroTime None) secret
         end.

Definition userPassword (rand : result string) (email : string) (secret : result string) : M (result string) :=
  if Blank email then mret (Fail (newError "--email is required"))
  else match secret with
       | Fail err => mret (Fail err)
       | Ok secret =>
           do? rec := GetByEmail email else err => mret (Fail err) in
           do? _ := SetPassword rand (user_ID (rec_User rec)) secret else err => mret (Fail err) in
           do? _ := DeleteForUser (user_ID (rec_User rec)) else err => mret (Fail err) in
           mret (Ok (user_Email (rec_User rec)))
       end.

(** [backvault token create], [list] and [delete]; [expires] is what
    [time.Parse] makes of the flag, when there is one. *)
Definition tokenCreate (ints : nat -> result nat) (name : string) (scopes jobs : list string) (expires : option (option Time)) : M (result (APIToken * string)) :=
  if Blank name then mret (Fail (newError "--name is required"))
  else match ValidateScopes scopes with
       | Some err => mret (Fail err)
       | None =>
           match expires with
           | Some None => mret (Fail (newError "invalid --expires, want RFC3339"))
           | _ => CreateToken ints (mkToken "" name "" scopes jobs zeroTime "cli" None (default None expires))
           end
       end.

Definition tokenList : M (result (list APIToken)) := TokenRepo_List.

Definition tokenDelete (id : string) : M (result unit) :=
  if Blank id then mret (Fail (newError "--id is required")) else TokenRepo_Delete id.

End local.

(** ** [cmd/backvault/api.go], [check.go]: what they print *)

Definition orDash (v : string) : string := if bool_decide (v = "") then "-" else v.
Definition joinOrDash (values : list string) : string := match values with [] => "-" | _ => StrJoin values "," end.

(** [filenameFromResponse]: the name in the header of a download. *)
Fixpoint trimQuotes (s : string) : string :=
  match s with
  | "" => ""
  | String a s => let t := trimQuotes s in if Ascii.eqb a (byte_of 34) && bool_decide (t = "") then "" else String a t
  end.

Fixpoint dropQuotes (s : string) : string :=
  match s with String a s' => if Ascii.eqb a (byte_of 34) then dropQuotes s' else s | "" => "" end.

Fixpoint afterMark (mark s : string) : option string :=
  if HasPrefix s mark then Some (sdrop (String.length mark) s)
  else match s with "" => None | String _ s => afterMark mark s end.

Definition filenameFromResponse (disposition fallback : string) : string :=
  match afterMark "filename=" disposition with
  | None => fallback
  | Some v => let name := trimQuotes (dropQuotes v) in if bool_decide (name = "") then fallback else name
  end.

(** [waitForRun]: what the server answers to each request, and the context
    between two. *)
Fixpoint waitForRun (answers : list (result Run)) (canceled : nat -> option error) (k : nat) : option (result Run) :=
  match answers with
  | [] => None
  | Fail err :: _ => Some (Fail err)
  | Ok run :: answers =>
      if Terminal (run_Status run) then Some (Ok run)
      else match canceled k with Some err => Some (Fail err) | None => waitForRun answers canceled (S k) end
  end.

(** The end of [backvault run --wait]: only a failed run is an error. *)
Definition runOutcome (run : Run) : option error :=
  if bool_decide (run_Status run = RunFailed) then Some (newError ("run " +:+ run_ID run +:+ " failed")) else None.

End Commands.

(** * What the followers of a log get *)

Module StreamFacts.
Import Streams.

(** ** Lines *)

(** The lines of a text that are not empty. *)
Definition textLines (text : string) : list string := filter (λ line, line ≠ "") (Split text newline).

Definition payloads (frames : list Frame) : list string :=
  omap (λ f, match f with FEvent event payload => if String.eqb event "line" then Some payload else None | FComment _ => None end) frames.

Lemma payloads_app fs gs : payloads (fs ++ gs) = payloads fs ++ payloads gs.
Proof. apply omap_app. Qed.

Lemma textLines_newline s t : textLines (s +:+ String newline t) = textLines s ++ textLines t.
Proof. unfold textLines. by rewrite Split_app, filter_app. Qed.

Lemma TrimRightByte_spec c s : ∃ k, s = TrimRightByte c s +:+ StrJoin (replicate (S k) "") (schar c).
Proof.
  induction s as [|a s [k IH]]; [by exists 0%nat|]. cbn [TrimRightByte]. destruct (Ascii.eqb a c) eqn:E; cbn [andb]; [|exists k; by rewrite IH at 1].
  destruct (bool_decide_reflect (TrimRightByte c s = "")) as [Q|Q]; [|exists k; by rewrite IH at 1].
  apply Ascii.eqb_eq in E as ->. exists (S k). rewrite Q in IH. by rewrite IH at 1.
Qed.

Lemma textLines_newlines k : textLines (StrJoin (replicate (S k) "") (schar newline)) = [].
Proof. induction k as [|k IH]; [done|]. by rewrite (textLines_newline "" (StrJoin (replicate (S k) "") (schar newline)) : textLines (StrJoin (replicate (S (S k)) "") (schar newline)) = _), IH. Qed.

Lemma textLines_trim s : textLines (TrimRightByte newline s) = textLines s.
Proof.
  destruct (TrimRightByte_spec newline s) as [[|k] E]; [cbn in E; rewrite sapp_nil_r in E; by rewrite E at 2|].
  rewrite E at 2. change (StrJoin (replicate (S (S k)) "") (schar newline)) with (String newline (StrJoin (replicate (S k) "") (schar newline))).
  by rewrite textLines_newline, textLines_newlines, app_nil_r.
Qed.

Lemma payloads_line l : payloads (FEvent "line" <$> l) = l.
Proof. induction l as [|x l IH]; [done|]. cbn. by f_equal. Qed.

Lemma payloads_chunks l : payloads (l ≫= lineFrames) = l ≫= (λ c, textLines (chunk_Text c)).
Proof.
  induction l as [|c l IH]; [done|]. cbn [mbind list_bind]. rewrite payloads_app. f_equal; [|done].
  unfold lineFrames. rewrite payloads_line. apply textLines_trim.
Qed.

(** Chunks that hold whole lines have the lines of the log. *)
Definition wholeLines (c : LogChunk) : Prop := ∃ s, chunk_Text c = s +:+ schar newline.

Lemma textLines_chunks l : Forall wholeLines l -> textLines (chunksText l) = l ≫= (λ c, textLines (chunk_Text c)).
Proof.
  induction 1 as [|c l [s Hc] _ IH]; [done|]. cbn [chunksText foldr mbind list_bind]. fold (chunksText l). rewrite <- IH, Hc, sapp_assoc.
  change (schar newline +:+ chunksText l) with (String newline (chunksText l)). rewrite textLines_newline.
  change (s +:+ schar newline) with (s +:+ String newline ""). by rewrite textLines_newline, app_nil_r.
Qed.

(** ** The cursor *)

Lemma filter_none {A} (f : A -> bool) l : (∀ x, x ∈ l -> f x = false) -> List.filter f l = [].
Proof. induction l as [|x l IH]; intros H; [done|]. cbn. rewrite (H x) by by left. apply IH. intros y Hy. apply H. by right. Qed.

Lemma filter_after l n : numbered l -> (n <= length l)%nat -> List.filter (λ c, Z.of_nat n <? chunk_Seq c) l = drop n l.
Proof.
  intros Hl Hn. rewrite <- (take_drop n l) at 1. rewrite List.filter_app.
  rewrite filter_none, forallb_filter_id; [done| |].
  - apply forallb_forall. intros c Hc. apply list_elem_of_In, list_elem_of_lookup in Hc as [i Hi]. rewrite lookup_drop in Hi. apply Hl in Hi. apply Z.ltb_lt. lia.
  - intros c Hc. apply list_elem_of_lookup in Hc as [i Hi]. apply lookup_take_Some in Hi as [Hi Hlt]. apply Hl in Hi. apply Z.ltb_ge. lia.
Qed.

Lemma cursor_after l n : numbered l -> (n <= length l)%nat -> foldl (λ _ c, chunk_Seq c) (Z.of_nat n) (drop n l) = Z.of_nat (length l).
Proof.
  intros Hl Hn. destruct l as [|c l _] using rev_ind; [destruct n; [done|cbn in Hn; lia]|]. rewrite length_app in *. cbn [length] in *.
  destruct (decide (n = length l + 1)%nat) as [->|Hne].
  - rewrite drop_ge by (rewrite length_app; cbn; lia). done.
  - rewrite drop_app_le by lia. rewrite foldl_app. cbn [foldl]. rewrite (Hl (length l) c) by by apply list_lookup_middle. lia.
Qed.

(** ** A log that is written while it is followed *)

Definition chunksOf (history : nat -> DB) (id : string) (k : nat) : list LogChunk := default [] (db_run_logs (history k) !! id).

(** The log of the run only grows, by whole lines, and has all its lines when the
    run is recorded as finished; the run stays. *)
Record written (history : nat -> DB) (id : string) : Prop := {
  wr_numbered k : numbered (chunksOf history id k);
  wr_grows j k : (j <= k)%nat -> chunksOf history id j `prefix_of` chunksOf history id k;
  wr_whole k : Forall wholeLines (chunksOf history id k);
  wr_ends j k run : (j <= k)%nat -> db_runs (history j) !! id = Some run -> Terminal (run_Status run) = true ->
    chunksOf history id k = chunksOf history id j
}.

Section following.
  Context (history : nat -> DB) (id : string) (Hw : written history id) (env : Env).

Let L := chunksOf history id.
Let lines (l : list LogChunk) : list string := l ≫= (λ c, textLines (chunk_Text c)).

(** The run has finished by the moment [k], with the status of the event. *)
Definition finishedBy (k : nat) (p : string) : Prop :=
  ∃ j run, (j <= k)%nat ∧ db_runs (history j) !! id = Some run ∧ Terminal (run_Status run) = true ∧ p = RunStatus_text (run_Status run).

Lemma emit_spec n w r w' :
  (n <= length (L (w_tick w)))%nat -> emit history id (Z.of_nat n) env w = (r, w') ->
  w_tick w' = S (w_tick w)
  ∧ match r with Fail _ => True | Ok (seq, frames) => seq = Z.of_nat (length (L (w_tick w))) ∧ frames = drop n (L (w_tick w)) ≫= lineFrames end.
Proof.
  intros Hn. unfold emit, LogChunks. rewrite !bind_eq. unfold others, query. cbn [fst snd w_tick set_w_db w_db].
  destruct (env_db env (w_tick w)); cbn [fst snd mret M_ret]; [by intros [= <- <-]|].
  rewrite logChunksAfter_numbered by apply (wr_numbered _ _ Hw). change (default [] (db_run_logs (history (w_tick w)) !! id)) with (L (w_tick w)).
  rewrite filter_after, cursor_after by (done || apply (wr_numbered _ _ Hw)). by intros [= <- <-].
Qed.

Lemma done_not_lines l p : FEvent "done" p ∉ (l ≫= lineFrames).
Proof.
  intros H. apply list_elem_of_bind in H as (c & H & _). unfold lineFrames in H. by apply list_elem_of_fmap in H as (x & H & _).
Qed.

Lemma drop_grown (l k : list LogChunk) n : l `prefix_of` k -> (n <= length l)%nat -> drop n k = drop n l ++ drop (length l) k.
Proof. intros [m ->] Hn. by rewrite drop_app_le, drop_app_length by done. Qed.

Lemma get_spec w r w' : (others history;; RunRepo_Get id) env w = (r, w') ->
  w_tick w' = S (w_tick w) ∧ ∀ run, r = Ok run -> db_runs (history (w_tick w)) !! id = Some run.
Proof.
  unfold RunRepo_Get. rewrite !bind_eq. unfold others, query. cbn [fst snd w_tick set_w_db w_db].
  destruct (env_db env (w_tick w)); cbn [fst snd mret M_ret]; [by intros [= <- <-]|]. intros [= <- <-]. split; [done|]. intros run. by case_match; intros [= <-].
Qed.

(** What follows a cursor: the lines of a part of the log, of all of it when the
    end is announced. *)
Definition follows (t n : nat) (frames : list Frame) : Prop :=
  ∃ k l, (t <= k)%nat ∧ l `prefix_of` L k ∧ (n <= length l)%nat ∧ payloads frames = lines (drop n l)
    ∧ ∀ p, FEvent "done" p ∈ frames -> last frames = Some (FEvent "done" p) ∧ finishedBy k p ∧ l = L k.

Lemma follows_nothing t n : (n <= length (L t))%nat -> follows t n [].
Proof.
  intros Hn. exists t, (take n (L t)). rewrite length_take, drop_ge by (rewrite length_take; lia).
  split_and!; [done|by exists (drop n (L t)); rewrite take_drop|lia|done|by intros p H%elem_of_nil].
Qed.

(** The chunks read at a moment, and what follows them. *)
Lemma follows_more t t' n frames : (t <= t')%nat -> (n <= length (L t))%nat -> follows t' (length (L t)) frames ->
  follows t n ((drop n (L t) ≫= lineFrames) ++ frames).
Proof.
  intros Ht Hn (k & l & K1 & K2 & K3 & K4 & K5). exists k, l.
  assert (P : L t `prefix_of` l).
  { destruct (prefix_weak_total (L t) l (L k)) as [P|P]; [apply (wr_grows _ _ Hw); lia|done|done|].
    by rewrite (prefix_length_eq _ _ P K3). }
  split_and!; [lia|done|lia| |].
  - rewrite payloads_app, payloads_chunks, K4, (drop_grown (L t) l n) by done. unfold lines. by rewrite bind_app.
  - intros p H. apply elem_of_app in H as [H|H]; [by apply done_not_lines in H|]. destruct (K5 p H) as (K6 & K7). split; [|done].
    by rewrite last_app, K6.
Qed.

(** The end: the log was read after the run had finished. *)
Lemma follows_end t j run : (j <= t)%nat -> db_runs (history j) !! id = Some run -> Terminal (run_Status run) = true ->
  follows t (length (L t)) [doneFrame (run_Status run)].
Proof.
  intros Ht Hr Hd. exists t, (L t). split_and!; [done|done|done|by rewrite drop_ge|].
  intros p H%list_elem_of_singleton. injection H as ->. split_and!; [done| |done]. exists j, run. by split_and!.
Qed.

Lemma follow_spec wakes n w frames w' :
  (n <= length (L (w_tick w)))%nat -> follow history id wakes (Z.of_nat n) env w = (frames, w') -> follows (w_tick w) n frames.
Proof.
  revert n w frames w'. induction wakes as [|x wakes IH]; intros n w frames w' Hn E.
  { injection E as <- <-. by apply follows_nothing. }
  destruct x as [| |ev|]; cbn [follow] in E.
  - injection E as <- <-. by apply follows_nothing.
  - rewrite bind_eq in E. destruct (follow _ _ wakes _ _ _) as [rest w1] eqn:F. injection E as <- <-.
    apply IH in F as (k & l & K1 & K2 & K3 & K4 & K5); [|done]. exists k, l. split_and!; [done..|]. intros p H. apply elem_of_cons in H as [H|H]; [done|].
    destruct (K5 p H) as (K6 & K7). split; [|done]. by rewrite last_cons, K6.
  - by apply IH in E.
  - rewrite bind_eq in E. destruct (emit _ _ _ _ _) as [[[seq fr]|err] w1] eqn:Em; apply emit_spec in Em as [T1 R]; [|done| |done]; cbn [fst snd] in E.
    2: { injection E as <- <-. by apply follows_nothing. }
    destruct R as [-> ->]. set (m := length (L (w_tick w))) in *.
    assert (Hm : ∀ t, (w_tick w <= t)%nat -> (m <= length (L t))%nat) by (intros t Ht; apply prefix_length, (wr_grows _ _ Hw); lia).
    assert (G : ∃ r w2, (others history;; RunRepo_Get id) env w1 = (r, w2)) by by destruct ((others history;; RunRepo_Get id) env w1); eauto.
    destruct G as (r & w2 & G). pose proof G as [T2 R]%get_spec.
    rewrite bind_eq in G. erewrite (bind_eq (others history)) in E. rewrite bind_eq, G in E. cbn [fst snd] in E. destruct r as [run|err]; cbn [fst snd] in E.
    2: { injection E as <- <-. rewrite <- (app_nil_r (_ ≫= _)). by apply (follows_more _ (w_tick w)), follows_nothing. }
    specialize (R run eq_refl). destruct (Terminal _) eqn:Hd; cbn match in E.
    + rewrite bind_eq in E. destruct (emit _ _ _ _ _) as [[[seq fr]|err] w3] eqn:Em; apply emit_spec in Em as [T3 R3]; try (apply Hm; lia); cbn [fst snd] in E.
      * destruct R3 as [-> ->]. injection E as <- <-. apply (follows_more _ (w_tick w2)); [lia|done|]. apply (follows_more _ (w_tick w2)); [done|apply Hm; lia|]. eapply follows_end; [|done|done]. lia.
      * injection E as <- <-. rewrite <- (app_nil_r (_ ≫= _)). by apply (follows_more _ (w_tick w)), follows_nothing.
    + rewrite bind_eq in E. destruct (follow _ _ wakes _ _ _) as [rest w3] eqn:F. injection E as <- <-.
      apply IH in F; [|apply Hm; lia]. eapply follows_more; [|done|done]. lia.
Qed.

End following.

(** *** The end comes *)

Section ending.
  Context (history : nat -> DB) (id : string) (env : Env) (K : nat).
  Context (Hdb : dbAnswers env) (Hrun : ∀ k, is_Some (db_runs (history k) !! id)).
  Context (Hend : ∀ k run, (K <= k)%nat -> db_runs (history k) !! id = Some run -> Terminal (run_Status run) = true).

Lemma emit_answers seq w : ∃ x w', emit history id seq env w = (Ok x, w') ∧ w_tick w' = S (w_tick w).
Proof.
  unfold emit, LogChunks. rewrite !bind_eq. unfold others, query. cbn [fst snd w_tick set_w_db w_db]. rewrite Hdb. cbn [fst snd mret M_ret]. eauto.
Qed.

Lemma get_answers w : ∃ run w', RunRepo_Get id env (set_w_db (history (w_tick w)) w) = (Ok run, w') ∧ w_tick w' = S (w_tick w)
  ∧ db_runs (history (w_tick w)) !! id = Some run.
Proof.
  unfold RunRepo_Get. rewrite bind_eq. unfold query. cbn [fst snd w_tick set_w_db w_db]. rewrite Hdb. cbn [fst snd mret M_ret].
  destruct (Hrun (w_tick w)) as [run E]. rewrite E. eauto.
Qed.

Definition polls (wakes : list Wake) : nat := length (List.filter (λ x, match x with Poll => true | _ => false end) wakes).

Lemma follow_ends wakes seq w :
  Gone ∉ wakes -> (0 < polls wakes)%nat -> (K < polls wakes + w_tick w)%nat -> ∃ p, FEvent "done" p ∈ (follow history id wakes seq env w).1.
Proof.
  revert seq w. induction wakes as [|x wakes IH]; intros seq w Hg Hp HK; [cbn in Hp; lia|]. apply not_elem_of_cons in Hg as [Hx Hg].
  destruct x as [| |ev|]; [done| | |]; unfold polls in Hp, HK; cbn [List.filter length follow] in *; fold (polls wakes) in *.
  - destruct (IH seq w Hg Hp HK) as [p E]. exists p. rewrite bind_eq. cbn [fst mret M_ret]. by right.
  - by apply IH.
  - destruct (emit_answers seq w) as ([seq' fr] & w1 & E1 & T1). rewrite bind_eq, E1. cbn [fst snd]. erewrite (bind_eq (others history)). rewrite bind_eq.
    destruct (get_answers w1) as (run & w2 & E2 & T2 & R). change ((others history env w1).2) with (set_w_db (history (w_tick w1)) w1). rewrite E2. cbn [fst snd].
    destruct (Terminal (run_Status run)) eqn:Hd.
    + destruct (emit_answers seq' w2) as ([seq3 fr3] & w3 & E3 & T3). rewrite bind_eq, E3. cbn [fst snd mret M_ret].
      eexists. apply elem_of_app. right. apply elem_of_app. right. by left.
    + destruct (decide (K <= w_tick w1)%nat) as [Hk|Hk]; [by rewrite (Hend _ _ Hk R) in Hd|].
      rewrite bind_eq. cbn [fst mret M_ret]. destruct (IH seq' w2 Hg) as [p E]; [lia..|]. exists p. apply elem_of_app. by right.
Qed.

End ending.


(** On a database that answers, a stream that is polled often enough after the run has finished announces the end. *)
Theorem log_stream_ends (history : nat -> DB) (id : string) (env : Env) (w : World) (wakes : list Wake) (K : nat) :
  dbAnswers env -> (∀ k, is_Some (db_runs (history k) !! id)) ->
  (∀ k run, (K <= k)%nat -> db_runs (history k) !! id = Some run -> Terminal (run_Status run) = true) ->
  Gone ∉ wakes -> (K < polls wakes)%nat ->
  ∃ frames p, (handleRunLogStream history id true wakes env w).1 = inr frames ∧ FEvent "done" p ∈ frames.
Proof.
  intros Hdb Hrun Hend Hg HK. unfold handleRunLogStream. erewrite (bind_eq (others history)). rewrite bind_eq.
  destruct (get_answers history id env Hdb Hrun w) as (run & w1 & E1 & T1 & R). change ((others history env w).2) with (set_w_db (history (w_tick w)) w).
  rewrite E1. cbn [fst snd negb]. destruct (emit_answers history id env Hdb 0 w1) as ([seq fr] & w2 & E2 & T2). rewrite bind_eq, E2. cbn [fst snd].
  destruct (Terminal (run_Status run)).
  - eexists _, _. split; [done|]. apply elem_of_app. right. by left.
  - rewrite bind_eq. cbn [fst mret M_ret]. destruct (follow_ends history id env K Hdb Hrun Hend wakes seq w2 Hg) as [p E]; [lia..|].
    eexists _, p. split; [done|]. apply elem_of_app. by right.
Qed.

(** *** A run that ends while it is followed *)

Definition runningRun : Run := mkRun "r1" "j1" "nightly" "Nightly" RunBackup TriggerManual RunRunning 0 None None 0 0 0 "" "" "" [] [] 1 ∅ "".
Definition finishedRun : Run := set_run_Status RunSuccess runningRun.

Definition twoChunks : list LogChunk :=
  [mkLogChunk 1 ("10:00:00 INFO  run started" +:+ schar newline); mkLogChunk 2 ("10:00:01 INFO  packed" +:+ schar newline +:+ "10:00:02 INFO  run finished" +:+ schar newline)].

(** The second chunk is there, and the run finished, from the third moment on. *)
Definition sampleHistory (k : nat) : DB :=
  let db := w_db sampleWorld in
  set_db_runs {[ "r1" := if (k <? 3)%nat then runningRun else finishedRun ]}
    (set_db_run_logs {[ "r1" := if (k <? 3)%nat then take 1 twoChunks else twoChunks ]} db).

Lemma sampleHistory_chunks k : chunksOf sampleHistory "r1" k = if (k <? 3)%nat then take 1 twoChunks else twoChunks.
Proof. unfold chunksOf, sampleHistory. cbn [set_db_runs set_db_run_logs db_run_logs]. by rewrite lookup_singleton_eq. Qed.

Lemma sampleHistory_run k : db_runs (sampleHistory k) !! "r1" = Some (if (k <? 3)%nat then runningRun else finishedRun).
Proof. unfold sampleHistory. cbn [set_db_runs set_db_run_logs db_runs]. by rewrite lookup_singleton_eq. Qed.

Lemma sampleHistory_written : written sampleHistory "r1".
Proof.
  split.
  - intros k. rewrite sampleHistory_chunks. destruct (k <? 3)%nat; intros [|[|i]] c H; cbn in H; try done; by injection H as <-.
  - intros j k Hjk. rewrite !sampleHistory_chunks. destruct (Nat.ltb_spec j 3), (Nat.ltb_spec k 3); try done; [by eexists|lia].
  - intros k. rewrite sampleHistory_chunks. assert (H : Forall wholeLines twoChunks).
    { repeat constructor; [by eexists|]. exists ("10:00:01 INFO  packed" +:+ schar newline +:+ "10:00:02 INFO  run finished"). done. }
    destruct (k <? 3)%nat; [by apply Forall_take|done].
  - intros j k run Hjk. rewrite sampleHistory_run, !sampleHistory_chunks. intros [= <-]. destruct (Nat.ltb_spec j 3); [done|]. destruct (Nat.ltb_spec k 3); [lia|done].
Qed.

Definition openStream : list Wake := [Poll; Heartbeat; Poll; Poll; Poll; Poll].
Definition streamed : list Frame :=
  [FEvent "line" "10:00:00 INFO  run started"; FEvent "line" "10:00:01 INFO  packed"; FEvent "line" "10:00:02 INFO  run finished"; FEvent "done" "success"].


Lemma log_stream_ends_witness : ∃ frames p, (handleRunLogStream sampleHistory "r1" true openStream sampleEnv sampleWorld).1 = inr frames ∧ FEvent "done" p ∈ frames.
Proof.
  refine (log_stream_ends sampleHistory "r1" sampleEnv sampleWorld openStream 3 _ _ _ _ _).
  - by intros k.
  - intros k. rewrite sampleHistory_run. by eexists.
  - intros k run Hk. rewrite sampleHistory_run. intros [= <-]. by destruct (Nat.ltb_spec k 3); [lia|].
  - unfold openStream. intros H. repeat (apply elem_of_cons in H as [H|H]; [done|]). by apply elem_of_nil in H.
  - cbn. lia.
Defined.

(** The command asks for the text first and for the run second: what is written
    between the two requests, the last lines of the log, is never shown. *)
Definition reader : Inbound := mkInbound None "" "" None (λ _, "").

Example tail_lost :
  (followLog sampleHistory reader "r1" 5 0 sampleEnv (set_w_tick 1 sampleWorld)).1 = ["10:00:00 INFO  run started" +:+ schar newline]
  ∧ chunksText (chunksOf sampleHistory "r1" 3) ≠ "10:00:00 INFO  run started" +:+ schar newline.
Proof. split; by vm_compute. Qed.

End StreamFacts.

(** * What a browser makes of a stream *)

Module EventSource.
Import Streams.

(** The interpretation of an event stream, as the living standard of HTML says it,
    of lines without carriage returns: the type and the data gathered so far, and
    the events dispatched. *)
Record Parser := mkParser { ps_type : string; ps_data : option string; ps_events : list (string * string) }.

(** One space after the colon is not part of the value. *)
Definition value (s : string) : string := TrimPrefix s " ".

Definition field (name v : string) (p : Parser) : Parser :=
  if String.eqb name "event" then mkParser v (ps_data p) (ps_events p)
  else if String.eqb name "data" then
    mkParser (ps_type p) (Some match ps_data p with Some d => d +:+ schar newline +:+ v | None => v end) (ps_events p)
  else p.

Definition line (p : Parser) (s : string) : Parser :=
  if String.eqb s "" then
    match ps_data p with
    | None => mkParser "" None (ps_events p)
    | Some d => mkParser "" None (ps_events p ++ [(if String.eqb (ps_type p) "" then "message" else ps_type p, d)])
    end
  else
    match Cut s ":" with
    | (name, v, true) => if String.eqb name "" then p else field name (value v) p
    | (name, _, false) => field name "" p
    end.

(** The last line has not ended. *)
Definition parse (text : string) : list (string * string) :=
  ps_events (foldl line (mkParser "" None []) (removelast (Split text newline))).

(** ** The lines of a frame *)

Definition frameLines (f : Frame) : list string :=
  match f with
  | FEvent event payload => (if bool_decide (event ≠ "") then ["event: " +:+ event] else []) ++ ((λ l, "data: " +:+ l) <$> Split payload newline) ++ [""]
  | FComment text => [": " +:+ text; ""]
  end.

Definition unlines (l : list string) : string := foldr (λ s acc, s +:+ schar newline +:+ acc) "" l.

Lemma unlines_app l k : unlines (l ++ k) = unlines l +:+ unlines k.
Proof. induction l as [|s l IH]; [done|]. cbn [app unlines foldr]. fold (unlines (l ++ k)) (unlines l). by rewrite IH, !sapp_assoc. Qed.

Lemma render_lines f : render f = unlines (frameLines f).
Proof.
  destruct f as [event payload|text]; cbn [render frameLines]; [|cbn; by rewrite ?sapp_assoc].
  unfold sseEvent. rewrite !unlines_app. assert (E : foldr (λ l acc, "data: " +:+ l +:+ schar newline +:+ acc) "" (Split payload newline)
    = unlines ((λ l, "data: " +:+ l) <$> Split payload newline)).
  { generalize (Split payload newline) as ls. intros ls. induction ls as [|x ls IH]; [done|]. cbn [foldr fmap list_fmap unlines]. by rewrite IH, !sapp_assoc. }
  rewrite E. case_bool_decide; cbn; by rewrite ?sapp_assoc.
Qed.

Lemma Split_unlines l : Forall (λ s, free_of newline s = true) l -> removelast (Split (unlines l) newline) = l.
Proof.
  intros H. assert (E : Split (unlines l) newline = l ++ [""]).
  { induction H as [|s l Hs _ IH]; [done|]. cbn [unlines foldr]. change (s +:+ schar newline +:+ foldr _ "" l) with (s +:+ String newline (unlines l)).
    by rewrite Split_app, IH, Split_free_id. }
  by rewrite E, removelast_last.
Qed.

(** Frames whose event is named, on one line; a carriage return would end a line,
    too: the encoder of JSON escapes it, the run log drops it. *)
Definition noReturn (s : string) : Prop := free_of (byte_of 13) s = true.

Definition framed (f : Frame) : Prop :=
  match f with
  | FEvent event payload => event ≠ "" ∧ free_of newline event = true ∧ noReturn event ∧ noReturn payload
  | FComment text => free_of newline text = true ∧ noReturn text
  end.

Lemma frameLines_free f : framed f -> Forall (λ s, free_of newline s = true) (frameLines f).
Proof.
  destruct f as [event payload|text]; cbn [framed frameLines]; [intros (Hne & Hf & _)|intros [Hf _]].
  - rewrite bool_decide_eq_true_2 by done. apply Forall_app. split; [by repeat constructor|]. apply Forall_app. split; [|by repeat constructor].
    apply Forall_fmap. eapply Forall_impl; [apply Split_free|]. done.
  - by repeat constructor.
Qed.

Lemma line_event p event : line p ("event: " +:+ event) = mkParser event (ps_data p) (ps_events p).
Proof. unfold line. cbn. unfold value. change (String " " event) with (" " +:+ event). by rewrite TrimPrefix_app. Qed.

Lemma line_data p s : line p ("data: " +:+ s) = mkParser (ps_type p) (Some match ps_data p with Some d => d +:+ schar newline +:+ s | None => s end) (ps_events p).
Proof. unfold line. cbn. unfold value. change (String " " s) with (" " +:+ s). by rewrite TrimPrefix_app. Qed.

(** The lines of a payload are gathered to it. *)
Lemma lines_data p l : l ≠ [] ->
  foldl line p ((λ s, "data: " +:+ s) <$> l)
  = mkParser (ps_type p) (Some match ps_data p with Some d => d +:+ schar newline +:+ StrJoin l (schar newline) | None => StrJoin l (schar newline) end) (ps_events p).
Proof.
  revert p. induction l as [|x l IH]; intros p H; [done|]. cbn [fmap list_fmap foldl]. rewrite line_data. destruct l as [|y l].
  - cbn. by destruct p as [? [] ?].
  - rewrite IH by done. cbn [ps_type ps_data ps_events]. change (StrJoin (x :: y :: l) (schar newline)) with (x +:+ schar newline +:+ StrJoin (y :: l) (schar newline)).
    destruct (ps_data p); by rewrite ?sapp_assoc.
Qed.

Definition events (frames : list Frame) : list (string * string) :=
  omap (λ f, match f with FEvent event payload => Some (event, payload) | FComment _ => None end) frames.

Lemma frame_parsed f evs : framed f -> foldl line (mkParser "" None evs) (frameLines f) = mkParser "" None (evs ++ events [f]).
Proof.
  destruct f as [event payload|text]; cbn [framed frameLines events]; [intros [Hne _]|].
  - rewrite bool_decide_eq_true_2, !foldl_app by done. cbn [foldl]. rewrite line_event, lines_data by apply Split_nonempty.
    cbn [ps_type ps_data ps_events]. rewrite StrJoin_Split. unfold line. cbn [String.eqb ps_type ps_data ps_events]. by rewrite (proj2 (String.eqb_neq _ _) Hne).
  - intros _. cbn. by rewrite app_nil_r.
Qed.

(** A browser that reads the stream gets the events that were written, with their payloads, and nothing else: payloads of several lines are put together again, and comments are passed over. *)
Theorem sse_roundtrip (frames : list Frame) : Forall framed frames -> parse (foldr (λ f acc, render f +:+ acc) "" frames) = events frames.
Proof.
  intros H. unfold parse. assert (E : foldr (λ f acc, render f +:+ acc) "" frames = unlines (frames ≫= frameLines)).
  { clear H. induction frames as [|f l IH]; [done|]. cbn [foldr mbind list_bind]. by rewrite IH, render_lines, unlines_app. }
  rewrite E, Split_unlines.
  - clear E. assert (G : ∀ evs, foldl line (mkParser "" None evs) (frames ≫= frameLines) = mkParser "" None (evs ++ events frames)); [|by rewrite G].
    induction H as [|f l Hf _ IH]; intros evs; [cbn; by rewrite app_nil_r|]. cbn [mbind list_bind]. rewrite foldl_app, frame_parsed, IH, <- app_assoc by done. by destruct f.
  - clear E. induction H as [|f l Hf _ IH]; [by constructor|]. cbn [mbind list_bind]. apply Forall_app. split; [by apply frameLines_free|exact IH].
Qed.

Definition someFrames : list Frame :=
  [FComment "connected"; FEvent "run.updated" ("{" +:+ schar newline +:+ schar newline +:+ "}"); FComment "ping"; FEvent "done" "success"].

Lemma sse_roundtrip_witness : parse (foldr (λ f acc, render f +:+ acc) "" someFrames) = [("run.updated", "{" +:+ schar newline +:+ schar newline +:+ "}"); ("done", "success")].
Proof.
  rewrite (sse_roundtrip someFrames); [done|]. repeat (apply Forall_cons; split; [split_and!; first [done|by vm_compute]|]). constructor.
Defined.

End EventSource.

(** * Whose address a request is given *)

Module ClientFacts.
Import Net Clients.

Section client.
  Context (proxies : list IPNet).

Lemma forwardedFor_app hops rest remote :
  Forall (λ h, ∃ i, ParseIP (TrimSpace h) = Some i ∧ trusted proxies i = true) hops ->
  forwardedFor proxies (hops ++ rest) remote = forwardedFor proxies rest remote.
Proof. induction 1 as [|h hops (i & P & T) _ IH]; [done|]. cbn [app forwardedFor]. by rewrite P, T. Qed.

(** What [clientIP] can be at all. *)
Lemma forwardedFor_cases parts remote :
  forwardedFor proxies parts remote = remote
  ∨ ∃ part i, part ∈ parts ∧ forwardedFor proxies parts remote = TrimSpace part ∧ ParseIP (TrimSpace part) = Some i ∧ trusted proxies i = false.
Proof.
  induction parts as [|part parts IH]; [by left|]. cbn [forwardedFor].
  assert (K : forwardedFor proxies parts remote = remote ∨ ∃ p i, p ∈ part :: parts ∧ forwardedFor proxies parts remote = TrimSpace p
    ∧ ParseIP (TrimSpace p) = Some i ∧ trusted proxies i = false).
  { destruct IH as [E|(p & i & H & E & P & T)]; [by left|right; exists p, i; split_and!; [by right|done..]]. }
  destruct (ParseIP (TrimSpace part)) as [i|] eqn:P; [|done]. destruct (trusted proxies i) eqn:T; [done|].
  right. exists part, i. split_and!; [by left|done..].
Qed.

End client.

(** The last parts of a list are those of its end. *)
Lemma Split_tail junk l :
  l ≠ [] -> Forall (λ e, free_of (byte_of 44) e = true) l -> ∃ junk', Split (StrJoin (junk ++ l) ",") (byte_of 44) = junk' ++ l.
Proof.
  intros Hne Hl. destruct junk as [|x junk]; [exists []; by apply (Split_StrJoin _ (byte_of 44))|].
  change "," with (schar (byte_of 44)). rewrite StrJoin_app by done. cbn [String.append schar]. 
  change (schar (byte_of 44) +:+ StrJoin l (schar (byte_of 44))) with (String (byte_of 44) (StrJoin l (schar (byte_of 44)))).
  rewrite Split_app, (Split_StrJoin l) by done. by eexists.
Qed.


(** A load balancer and a reverse proxy; the client wrote an address of its own. *)
Definition balancers : list IPNet := parseProxies ["10.0.0.0/8"; "192.168.1.7"; "nonsense"; "fd00::/8"].
Definition forged : Header := [("X-Forwarded-For", "127.0.0.1, 203.0.113.9, 192.168.1.7"); ("X-Real-Ip", "127.0.0.1")].


(** An address with a port is not one: the entry is passed over, and the one
    before it, which the client wrote, is believed. *)
Example port_skipped : clientIP balancers "10.1.2.3:40000" [("X-Forwarded-For", "127.0.0.1, 203.0.113.9:55123")] = "127.0.0.1".
Proof. by vm_compute. Qed.

(** Of two lines of the header only the first is read. *)
Example second_line_unread :
  clientIP balancers "10.1.2.3:40000" [("X-Forwarded-For", "127.0.0.1"); ("X-Forwarded-For", "203.0.113.9")] = "127.0.0.1".
Proof. by vm_compute. Qed.

End ClientFacts.

(** * The figures of a day *)

Module StatsFacts.
Import Stats.

Lemma Day_pos : 0 < Day.
Proof. by vm_compute. Qed.

(** The series starts at a midnight, [days - 1] days before today. *)
Lemma dailyStart_spec t days : dailyStart t days = (day_number t - (days - 1)) * Day.
Proof.
  unfold dailyStart, Truncate, AddDays, day_number. set (u := t + - (days - 1) * Day).
  replace (u - zeroTime) with (u + 719162 * Day) by (unfold zeroTime, Day, Hour, Minute, Second; lia).
  rewrite Z.mod_add by (pose proof Day_pos; lia). rewrite Z.mod_eq by (pose proof Day_pos; lia). unfold u at 1 3.
  rewrite Z.div_add by (pose proof Day_pos; lia). lia.
Qed.

Lemma fmt_date_midnight n t : fmt_date t = fmt_date (n * Day) <-> n * Day <= t < (n + 1) * Day.
Proof.
  rewrite fmt_date_same. unfold day_number. pose proof Day_pos. rewrite Z.div_mul by lia. split.
  - intros <-. pose proof (Z.div_mod t Day). pose proof (Z.mod_pos_bound t Day). lia.
  - intros H1. symmetry. apply (Z.div_unique t Day n (t - n * Day)); lia.
Qed.

(** The runs queued in a stretch of time. *)
Definition queuedIn (lo hi : Z) (db : DB) : list Run := selectWhere (λ r, (lo <=? run_QueuedAt r) && (run_QueuedAt r <? hi)) (db_runs db).

Lemma countIf_nil {A} (p : A -> bool) : countIf p [] = 0.
Proof. done. Qed.

Lemma filter_filter {A} (p q : A -> bool) l : List.filter p (List.filter q l) = List.filter (λ x, q x && p x) l.
Proof. induction l as [|x l IH]; [done|]. cbn. destruct (q x); cbn; [|done]. by rewrite IH. Qed.

(** A stretch is counted in parts. *)
Lemma countIf_split (p : Run -> bool) lo mid hi db : lo <= mid <= hi ->
  countIf p (queuedIn lo hi db) = countIf p (queuedIn lo mid db) + countIf p (queuedIn mid hi db).
Proof.
  intros H. unfold countIf, queuedIn, selectWhere. rewrite !filter_filter. induction (snd <$> map_to_list (db_runs db)) as [|r l IH]; [done|]. cbn [List.filter].
  destruct (p r); rewrite ?andb_true_r, ?andb_false_r; [|done].
  destruct (Z.leb_spec lo (run_QueuedAt r)), (Z.ltb_spec (run_QueuedAt r) hi), (Z.ltb_spec (run_QueuedAt r) mid), (Z.leb_spec mid (run_QueuedAt r)); cbn [andb length]; lia.
Qed.

Lemma countIf_empty (p : Run -> bool) lo db : countIf p (queuedIn lo lo db) = 0.
Proof. rewrite (countIf_split p lo lo lo) by lia. pose proof (countIf_split p lo lo lo db ltac:(lia)). lia. Qed.

Lemma dayRow_spec since n db : since <= n * Day ->
  dayRow since db (fmt_date (n * Day))
  = let rows := queuedIn (n * Day) ((n + 1) * Day) db in
    if bool_decide (rows = []) then None
    else Some (mkDailyStat (fmt_date (n * Day)) (countIf succeeded rows) (countIf failed rows) (sum (run_Bytes <$> rows))).
Proof.
  intros H. unfold dayRow, queuedIn, selectWhere. replace (List.filter _ _) with
    (List.filter (λ r, (n * Day <=? run_QueuedAt r) && (run_QueuedAt r <? (n + 1) * Day)) (snd <$> map_to_list (db_runs db))); [done|].
  apply filter_ext. intros r. destruct (fmt_date_midnight n (run_QueuedAt r)) as [F1 F2].
  destruct (String.eqb_spec (fmt_date (run_QueuedAt r)) (fmt_date (n * Day))) as [E|E].
  - specialize (F1 E). rewrite andb_true_r. rewrite !(proj2 (Z.leb_le _ _)), (proj2 (Z.ltb_lt _ _)) by lia. done.
  - rewrite andb_false_r. destruct (Z.leb_spec (n * Day) (run_QueuedAt r)); [|done]. destruct (Z.ltb_spec (run_QueuedAt r) ((n + 1) * Day)); [|done]. by destruct E; apply F2.
Qed.

(** The figures of a day, by its number. *)
Definition figures (db : DB) (n : Z) : DailyStat :=
  let rows := queuedIn (n * Day) ((n + 1) * Day) db in
  mkDailyStat (fmt_date (n * Day)) (countIf succeeded rows) (countIf failed rows) (sum (run_Bytes <$> rows)).

Lemma sum_app l k : sum (l ++ k) = sum l + sum k.
Proof. unfold sum. induction l as [|x l IH]; cbn; lia. Qed.

Lemma sum_days (p : Run -> bool) db a n :
  sum ((λ i, countIf p (queuedIn ((a + Z.of_nat i) * Day) ((a + Z.of_nat i + 1) * Day) db)) <$> seq 0 n) = countIf p (queuedIn (a * Day) ((a + Z.of_nat n) * Day) db).
Proof.
  pose proof Day_pos as D. induction n as [|n IH].
  - rewrite Z.add_0_r. by rewrite countIf_empty.
  - rewrite seq_S, fmap_app, sum_app, IH. cbn [fmap list_fmap sum foldr Nat.add].
    rewrite (countIf_split p (a * Day) ((a + Z.of_nat n) * Day) ((a + Z.of_nat (S n)) * Day)) by nia.
    replace (a + Z.of_nat (S n)) with (a + Z.of_nat n + 1) by lia. lia.
Qed.

(** The series of the dashboard has one entry per day up to today, each with the runs queued on that day and no other, and every run queued since the first of these days is counted once. *)
Theorem daily_counts (t : Time) (days : Z) (env : Env) (w : World) :
  dbAnswers env -> 0 < days ->
  ∃ l, (daily t days env w).1 = Ok l
    ∧ l = (λ i, figures (w_db w) (day_number t - (days - 1) + Z.of_nat i)) <$> seq 0 (Z.to_nat days)
    ∧ sum (day_Success <$> l) = countIf succeeded (queuedIn (dailyStart t days) ((day_number t + 1) * Day) (w_db w))
    ∧ sum (day_Failed <$> l) = countIf failed (queuedIn (dailyStart t days) ((day_number t + 1) * Day) (w_db w)).
Proof.
  intros Hdb Hd. unfold daily. rewrite (proj2 (Z.leb_gt _ _)), do_query_ok by done. eexists. split; [done|]. rewrite dailyStart_spec.
  assert (E : ∀ i, (match dayRow ((day_number t - (days - 1)) * Day) (w_db w) (fmt_date (AddDays ((day_number t - (days - 1)) * Day) (Z.of_nat i))) with
                    | Some stat => stat | None => mkDailyStat (fmt_date (AddDays ((day_number t - (days - 1)) * Day) (Z.of_nat i))) 0 0 0 end)
              = figures (w_db w) (day_number t - (days - 1) + Z.of_nat i)).
  { intros i. unfold AddDays. rewrite <- Z.mul_add_distr_r. pose proof Day_pos. rewrite dayRow_spec by nia. unfold figures. cbv zeta.
    case_bool_decide as Q; [by rewrite Q|done]. }
  split; [apply list_fmap_ext; intros i x _; apply E|].
  replace ((day_number t + 1) * Day) with ((day_number t - (days - 1) + Z.of_nat (Z.to_nat days)) * Day) by (rewrite Z2Nat.id by lia; f_equal; lia).
  rewrite <- !sum_days, <- !list_fmap_compose. split; f_equal; apply list_fmap_ext; intros i x _; cbn [compose]; by rewrite E.
Qed.

Lemma daily_counts_witness :
  ∃ l, (daily sampleTime 7 sampleEnv sampleWorld).1 = Ok l ∧ length l = 7%nat
    ∧ sum (day_Success <$> l) = countIf succeeded (queuedIn (dailyStart sampleTime 7) ((day_number sampleTime + 1) * Day) sampleDB).
Proof.
  destruct (daily_counts sampleTime 7 sampleEnv sampleWorld) as (l & E & L & S & _); [by intros k|done|].
  exists l. split_and!; [done| |done]. by rewrite L.
Defined.

(** What the dashboard hands to every reader: the jobs as they are stored, with
    the passphrase that other answers mask. *)
Definition sealedJob : Job := set_job_NextRunAt (Some 5) (set_job_EncryptionPassphrase "enc:v1:c2VhbGVk" sampleJob).

Example passphrase_shown : job_EncryptionPassphrase <$> upcoming [sealedJob] = ["enc:v1:c2VhbGVk"].
Proof. by vm_compute. Qed.

End StatsFacts.

(** * What the commands do *)

Module CommandFacts.
Import Commands.

Lemma trimQuotes_app s : trimQuotes (s +:+ schar (byte_of 34)) = trimQuotes s.
Proof. induction s as [|a s IH]; [done|]. change (String a s +:+ ?q) with (String a (s +:+ q)). cbn [trimQuotes]. by rewrite IH. Qed.

Lemma quotes_none s : ContainsByte s (byte_of 34) = false -> trimQuotes s = s ∧ dropQuotes (s +:+ schar (byte_of 34)) = (if bool_decide (s = "") then "" else s +:+ schar (byte_of 34)).
Proof.
  unfold ContainsByte. rewrite negb_false_iff. destruct s as [|a s]; [done|]. intros H. cbn [sall] in H. apply andb_true_iff in H as [Ha H]. apply negb_true_iff in Ha. split.
  - cbn [trimQuotes]. rewrite Ha. cbn [andb]. f_equal. clear Ha. induction s as [|b s IH]; [done|]. cbn [sall] in H. apply andb_true_iff in H as [Hb H]. apply negb_true_iff in Hb.
    cbn [trimQuotes]. rewrite Hb. cbn [andb]. by rewrite IH.
  - change (String a s +:+ ?q) with (String a (s +:+ q)). cbn [dropQuotes]. by rewrite Ha.
Qed.

(** The name the server writes is the one the command reads. *)
Lemma filename_read name fallback :
  filenameFromResponse ("attachment; filename=" +:+ schar (byte_of 34) +:+ sanitizeFilename name +:+ schar (byte_of 34)) fallback = sanitizeFilename name.
Proof.
  destruct (sanitizeFilename_safe name) as [Hne Hq]. apply Forall_cons in Hq as [Hq _].
  assert (Q : ContainsByte (sanitizeFilename name) (byte_of 34) = false) by (unfold ContainsByte; apply negb_false_iff; exact Hq).
  apply quotes_none in Q as [Q1 Q2]. unfold filenameFromResponse.
  assert (E : ∀ v, afterMark "filename=" ("attachment; filename=" +:+ v) = Some v) by (intros v; vm_compute; by destruct v).
  rewrite E. change (dropQuotes (schar (byte_of 34) +:+ ?v)) with (dropQuotes v). rewrite Q2, (bool_decide_eq_false_2 (sanitizeFilename name = "")) by done.
  by rewrite trimQuotes_app, Q1, bool_decide_eq_false_2.
Qed.

End CommandFacts.
