(* ===== verification/Docs.v ===== *)
(** * The documentation pages and the files of the panel: [internal/docs],
      [internal/server/docs.go], [static.go]

    The pages are Markdown files built into the binary; the catalogue reads their
    titles, headings and links with a few regular expressions, orders them by the
    index page, and searches them.  The expressions are written out as matchers.
    The tables of Unicode beyond ASCII are a class. *)
From S2P Require Import Prelude GoStrings GoTime GoPath GoSlices GoHttp Core Specs Pack Spool FileSystem Startup Remote Secrets Slug ServerBase ServerEdge.
From stdpp Require Import sorting.
Open Scope Z_scope.

(** The lower case of a rune of several bytes (or of a byte that is none), and
    whether it is a letter or a digit. *)
Class Unicode := { lowerOther : string -> string; letterOther : string -> bool }.

Module Catalogue.

Definition otherSection : string := "Other".
Definition overviewSection : string := "Overview".
Definition indexPath : string := "README.md".
Definition assetPrefix : string := "images/".
Definition descriptionLimit : nat := 220.
Definition snippetRadius : nat := 60.
Definition defaultSearchLimit : Z := 20.

Record Heading := mkHeading { hd_Level : nat; hd_Text : string; hd_ID : string }.

Record Page := mkPage_ {
  pg_Path : string; pg_Title : string; pg_Section : string; pg_Description : string; pg_Headings : list Heading; pg_Words : nat;
  pg_markdown : string; pg_plain : string; pg_order : nat
}.

Record Link := mkLink { ln_Path : string; ln_Title : string }.

Record SearchHit := mkHit { hit_Path : string; hit_Title : string; hit_Section : string; hit_Snippet : string; hit_Score : Z }.

(** ** The regular expressions *)

Definition newline : ascii := byte_of 10.
Definition tick_ : ascii := byte_of 96.

(** [\s]. *)
Definition space (a : ascii) : bool :=
  Ascii.eqb a (byte_of 9) || Ascii.eqb a newline || Ascii.eqb a (byte_of 12) || Ascii.eqb a (byte_of 13) || Ascii.eqb a " ".

(** The longest prefix of bytes that satisfy a predicate, and the rest. *)
Fixpoint span (f : ascii -> bool) (s : string) : string * string :=
  match s with
  | String a s' => if f a then let '(p, rest) := span f s' in (String a p, rest) else ("", s)
  | "" => ("", "")
  end.

Definition isHash (a : ascii) : bool := Ascii.eqb a "#".

(** The end of [headingPattern]: spaces, hashes, spaces. *)
Definition trailer (s : string) : bool := bool_decide ((span space (span isHash (span space s).2).2).2 = "").

(** The lazy group of [headingPattern]: the shortest text before a trailer. *)
Fixpoint lazyText (s : string) : string :=
  if trailer s then "" else match s with String a s' => String a (lazyText s') | "" => "" end.

(** [headingPattern]: the level and the text. *)
Definition headingPattern (line : string) : option (nat * string) :=
  let '(marks, rest) := span isHash line in
  let '(gap, rest) := span space rest in
  let level := String.length marks in
  if (1 <=? level)%nat && (level <=? 6)%nat && bool_decide (gap ≠ "") then Some (level, lazyText rest) else None.

(** [fencePattern]. *)
Definition fencePattern (line : string) : bool :=
  let '(gap, rest) := span space line in
  (String.length gap <=? 3)%nat && (HasPrefix rest (String tick_ (String tick_ (schar tick_))) || HasPrefix rest "~~~").

(** What a pattern makes of a text it begins: the group that is kept and the
    rest. *)
Definition Matcher : Type := string -> option (string * string).

Definition notIn (c : ascii) (a : ascii) : bool := negb (Ascii.eqb a c).

(** A label in brackets with a parenthesis after it: the label and what follows. *)
Definition label : Matcher := λ s,
  match s with
  | String "[" s =>
      match span (notIn "]") s with
      | (text, String _ (String "(" rest)) => Some (text, rest)
      | _ => None
      end
  | _ => None
  end.

(** [anchorPattern], [imagePattern], [htmlPattern]. *)
Definition anchorMatch : Matcher := λ s,
  '(text, rest) ← label s;
  match span (notIn ")") rest with (_, String _ rest) => Some (text, rest) | _ => None end.

Definition imageMatch : Matcher := λ s, match s with String "!" s => anchorMatch s | _ => None end.

Definition htmlMatch : Matcher := λ s,
  match s with
  | String "<" s => match span (notIn ">") s with (String _ _, String _ rest) => Some ("", rest) | _ => None end
  | _ => None
  end.

(** The end of a link: perhaps a title in quotes, and the parenthesis. *)
Definition linkEnd (s : string) : option string :=
  match s with
  | String ")" rest => Some rest
  | _ =>
      match span space s with
      | (String _ _, String q rest) =>
          if Ascii.eqb q (byte_of 34) then
            match span (notIn (byte_of 34)) rest with (_, String _ (String ")" rest)) => Some rest | _ => None end
          else None
      | _ => None
      end
  end.

(** [linkPattern]: the target. *)
Definition linkMatch : Matcher := λ s,
  '(_, rest) ← label s;
  let '(target, rest) := span (λ a, notIn ")" a && negb (space a)) rest in
  if bool_decide (target = "") then None else rest ← linkEnd rest; Some (target, rest).

(** [ReplaceAllString(s, "$1")] and [FindAllStringSubmatch]: from left to right;
    every round takes a byte at least. *)
Fixpoint replaceAll (m : Matcher) (fuel : nat) (s : string) : string :=
  match fuel, s with
  | O, _ | _, "" => s
  | S fuel, String a s' =>
      match m s with Some (kept, rest) => kept +:+ replaceAll m fuel rest | None => String a (replaceAll m fuel s') end
  end.

Fixpoint findAll (m : Matcher) (fuel : nat) (s : string) : list string :=
  match fuel, s with
  | O, _ | _, "" => []
  | S fuel, String _ s' => match m s with Some (kept, rest) => kept :: findAll m fuel rest | None => findAll m fuel s' end
  end.

Definition replaced (m : Matcher) (s : string) : string := replaceAll m (String.length s) s.

Definition stripInline (value : string) : string :=
  let value := replaced htmlMatch (replaced anchorMatch (replaced imageMatch value)) in
  let value := ReplaceAll (ReplaceAll (ReplaceAll (ReplaceAll value (schar tick_) "") "**" "") "~~" "") "*" "" in
  TrimSpace value.

Definition headingOf (line : string) : option (nat * string) :=
  '(level, text) ← headingPattern line; Some (level, stripInline text).

Definition linkTargets (line : string) : list string := findAll linkMatch (String.length line) line.

(** ** Pages *)

Definition collapseSpaces (value : string) : string := StrJoin (Fields value) " ".

Definition inCutset (a : ascii) : bool := ContainsByte " ,.;:" a.

Fixpoint trimRightSet (s : string) : string :=
  match s with
  | "" => ""
  | String a s => let t := trimRightSet s in if inCutset a && bool_decide (t = "") then "" else String a t
  end.

Definition truncate (value : string) (limit : nat) : string :=
  let value := collapseSpaces value in
  if (String.length value <=? limit)%nat then value
  else
    let cut := stake limit value in
    let cut := match LastIndexByte cut " " with
               | Some i => if (Nat.div limit 2 <? i)%nat then stake i cut else cut
               | None => cut
               end in
    trimRightSet cut +:+ "...".

Section unicode.
  Context {U : Unicode}.

(** [strings.ToLower]. *)
Definition lowerAny (r : string) : string := match r with String a "" => if (code a <? 128)%N then schar (lower_byte a) else lowerOther r | _ => lowerOther r end.
Definition Lower (s : string) : string := foldr (λ r acc, lowerAny r +:+ acc) "" (runes s).

(** One rune of a lower-cased heading in its anchor. *)
Definition anchorRune (r : string) : string :=
  match r with
  | String a "" =>
      if Ascii.eqb a " " || Ascii.eqb a (byte_of 9) || Ascii.eqb a newline then "-"
      else if Ascii.eqb a "-" || Ascii.eqb a "_" || is_lower a || is_upper a || is_digit a then r
      else if (128 <=? code a)%N && letterOther r then r else ""
  | _ => if letterOther r then r else ""
  end.

Definition Slug (value : string) : string := foldr (λ r acc, anchorRune r +:+ acc) "" (runes (Lower (TrimSpace value))).

(** The loop of [uniqueSlug]: one of the first candidates, as many as there are
    anchors and one more, is free. *)
Fixpoint freeSlug (fuel : nat) (seen : gmap string Z) (base : string) (count : Z) : string * gmap string Z :=
  let count := count + 1 in
  let candidate := base +:+ "-" +:+ Itoa count in
  match fuel with
  | O => (candidate, seen)
  | S fuel =>
      match seen !! candidate with
      | None => (candidate, <[candidate := 0]> (<[base := count]> seen))
      | Some _ => freeSlug fuel seen base count
      end
  end.

Definition anchorSlug (seen : gmap string Z) (value : string) : string * gmap string Z :=
  let base := Slug value in
  match seen !! base with
  | None => (base, <[base := 0]> seen)
  | Some count => freeSlug (S (size seen)) seen base count
  end.

(** What [parsePage] carries from line to line. *)
Record Parse := mkParse {
  pa_title : string; pa_headings : list Heading; pa_description : string; pa_slugs : gmap string Z; pa_fence : bool; pa_plain : list string;
  pa_words : list string; pa_collecting : bool
}.

Definition described (words : list string) : string := truncate (StrJoin words " ") descriptionLimit.

Definition endParagraph (p : Parse) : Parse :=
  mkParse (pa_title p) (pa_headings p) (if bool_decide (pa_words p = []) then pa_description p else described (pa_words p)) (pa_slugs p) (pa_fence p)
    (pa_plain p) (pa_words p) false.

Definition addPlain (text : string) (p : Parse) : Parse :=
  mkParse (pa_title p) (pa_headings p) (pa_description p) (pa_slugs p) (pa_fence p) (pa_plain p ++ [text]) (pa_words p) (pa_collecting p).

Definition headingLine (level : nat) (text : string) (p : Parse) : Parse :=
  let p :=
    if (level =? 1)%nat && bool_decide (pa_title p = "") then
      mkParse text (pa_headings p) (pa_description p) (pa_slugs p) (pa_fence p) (pa_plain p) (pa_words p) true
    else if (level =? 2)%nat || (level =? 3)%nat then
      let '(id, slugs) := anchorSlug (pa_slugs p) text in
      mkParse (pa_title p) (pa_headings p ++ [mkHeading level text id]) (pa_description p) slugs (pa_fence p) (pa_plain p) (pa_words p) (pa_collecting p)
    else p in
  let p := if (1 <? level)%nat && pa_collecting p then endParagraph p else p in
  addPlain text p.

Definition isMarker (s : string) : bool := HasPrefix s "|" || HasPrefix s "-" || HasPrefix s "*" || HasPrefix s ">".

Definition textLine (line : string) (p : Parse) : Parse :=
  let text := stripInline line in
  let p := addPlain text p in
  let trimmed := TrimSpace text in
  if pa_collecting p && bool_decide (pa_description p = "") then
    if bool_decide (trimmed = "") then (if bool_decide (pa_words p = []) then p else endParagraph p)
    else if isMarker trimmed then (if bool_decide (pa_words p = []) then p else endParagraph p)
    else mkParse (pa_title p) (pa_headings p) (pa_description p) (pa_slugs p) (pa_fence p) (pa_plain p) (pa_words p ++ [trimmed]) (pa_collecting p)
  else p.

Definition pageLine (p : Parse) (line : string) : Parse :=
  if fencePattern line then
    mkParse (pa_title p) (pa_headings p) (pa_description p) (pa_slugs p) (negb (pa_fence p)) (pa_plain p) (pa_words p) (pa_collecting p)
  else if pa_fence p then addPlain (TrimSpace line) p
  else match headingOf line with
       | Some (level, text) => headingLine level text p
       | None => textLine line p
       end.

Definition parsePage (name content : string) : Page :=
  let p := foldl pageLine (mkParse "" [] "" ∅ false [] [] false) (Split content newline) in
  mkPage_ name (if bool_decide (pa_title p = "") then TrimSuffix (Base name) ".md" else pa_title p) ""
    (if bool_decide (pa_description p = "") && bool_decide (pa_words p ≠ []) then described (pa_words p) else pa_description p)
    (pa_headings p) (length (Fields content)) content (collapseSpaces (StrJoin (pa_plain p) " ")) 0.

(** ** The index *)

Definition resolveDocPath (base target : string) : string :=
  if bool_decide (target = "") || HasPrefix target "#" then ""
  else
    let lowered := Lower target in
    if HasPrefix lowered "http://" || HasPrefix lowered "https://" || HasPrefix lowered "mailto:" then ""
    else
      let target := match IndexByte target "#" with Some i => stake i target | None => target end in
      if negb (HasSuffix target ".md") then ""
      else
        let joined := Clean (PathJoin [Dir base; target]) in
        if HasPrefix joined ".." then "" else joined.

(** Where the index puts the pages: the sections in order, and the section and
    rank of each path. *)
Record Placements := mkPlacements { pl_sections : list string; pl_places : gmap string (string * nat); pl_order : nat }.

Definition place (known : string -> bool) (current : string) (p : Placements) (target : string) : Placements :=
  let resolved := resolveDocPath "" target in
  if bool_decide (resolved = "") || negb (known resolved) || bool_decide (is_Some (pl_places p !! resolved)) then p
  else
    let section := if bool_decide (current = "") then otherSection else current in
    mkPlacements (if bool_decide (section ∈ pl_sections p) then pl_sections p else pl_sections p ++ [section])
      (<[resolved := (section, pl_order p)]> (pl_places p)) (S (pl_order p)).

Definition indexLine (known : string -> bool) (s : string * Placements) (line : string) : string * Placements :=
  match headingOf line with
  | Some (2%nat, text) => (text, s.2)
  | _ => (s.1, foldl (place known s.1) s.2 (linkTargets line))
  end.

Definition placements (pages : list Page) : Placements :=
  let known path := existsb (λ p, String.eqb (pg_Path p) path) pages in
  match List.find (λ p, String.eqb (pg_Path p) indexPath) pages with
  | None => mkPlacements [overviewSection] ∅ 0
  | Some index =>
      (foldl (indexLine known) ("", mkPlacements [overviewSection] {[ indexPath := (overviewSection, 0%nat) ]} 1) (Split (pg_markdown index) newline)).2
  end.

Definition placed (section : string) (order : nat) (p : Page) : Page :=
  mkPage_ (pg_Path p) (pg_Title p) section (pg_Description p) (pg_Headings p) (pg_Words p) (pg_markdown p) (pg_plain p) order.

(** The pages with their places; those the index does not name come last. *)
Fixpoint placeAll (places : gmap string (string * nat)) (order : nat) (pages : list Page) : list Page :=
  match pages with
  | [] => []
  | p :: pages =>
      match places !! pg_Path p with
      | Some (section, at_) => placed section at_ p :: placeAll places order pages
      | None => placed otherSection order p :: placeAll places (S order) pages
      end
  end.

Fixpoint indexOf (x : string) (l : list string) : nat := match l with [] => O | y :: l => if String.eqb x y then O else S (indexOf x l) end.

Definition earlier (sections : list string) (a b : Page) : bool :=
  let ra := indexOf (pg_Section a) sections in
  let rb := indexOf (pg_Section b) sections in
  if (ra =? rb)%nat then (pg_order a <? pg_order b)%nat else (ra <? rb)%nat.

Record Docs := mkDocs { dc_pages : list Page; dc_sections : list string }.

Definition applyIndexOrder (pages : list Page) : Docs :=
  let p := placements pages in
  let all := placeAll (pl_places p) (pl_order p) pages in
  let hasOther := existsb (λ q, bool_decide (pl_places p !! pg_Path q = None)) pages in
  let sections := if hasOther && negb (bool_decide (otherSection ∈ pl_sections p)) then pl_sections p ++ [otherSection] else pl_sections p in
  mkDocs (SliceStable (earlier sections) all) (List.filter (λ name, existsb (λ q, String.eqb (pg_Section q) name) all) sections).

(** [Load]: the files of the walk, in its order, each with what reading it gives;
    the first error is the answer. *)
Fixpoint readPages (files : list (string * result string)) : result (list Page) :=
  match files with
  | [] => Ok []
  | (name, body) :: files =>
      if negb (HasSuffix name ".md") then readPages files
      else match body with
           | Fail err => Fail err
           | Ok content => match readPages files with Ok pages => Ok (parsePage name content :: pages) | Fail err => Fail err end
           end
  end.

Definition Load (files : list (string * result string)) : result Docs :=
  match readPages files with Ok pages => Ok (applyIndexOrder pages) | Fail err => Fail err end.

Definition Lookup (c : Docs) (name : string) : option Page := List.find (λ p, String.eqb (pg_Path p) name) (dc_pages c).

Definition linkTo (p : Page) : Link := mkLink (pg_Path p) (pg_Title p).

(** The pages before and after the first of a name. *)
Fixpoint neighbours (prev : option Page) (l : list Page) (name : string) : option Link * option Link :=
  match l with
  | [] => (None, None)
  | p :: l => if String.eqb (pg_Path p) name then (linkTo <$> prev, linkTo <$> head l) else neighbours (Some p) l name
  end.

Definition Neighbours (c : Docs) (name : string) : option Link * option Link := neighbours None (dc_pages c) name.

(** What opening a path of a file system gives: a directory, or a file that gives
    its information or an error, and that can seek or not. *)
Inductive Opened := Directory | File_ (stats seeks : bool) (body : string).

Definition FS : Type := string -> option Opened.

(** [Asset]: the path that is opened, when it is one of an image. *)
Definition assetPath (name : string) : option string :=
  let cleaned := sdrop 1 (Clean ("/" +:+ name)) in
  if bool_decide (cleaned = "") || GoStrings.Contains name ".." || negb (HasPrefix cleaned assetPrefix) then None else Some cleaned.

(** ** The search *)

(** What a word scores on a page, when it is found there. *)
Definition tokenScore (title headings body path token : string) : option Z :=
  let t := if GoStrings.Contains title token then 30 else 0 in
  let h := if GoStrings.Contains headings token then 10 else 0 in
  let b := if GoStrings.Contains body token then 3 else 0 in
  let p := if GoStrings.Contains path token then 5 else 0 in
  if t + h + b + p =? 0 then None else Some (t + h + b + p).

Fixpoint tokensScore (title headings body path : string) (tokens : list string) : option Z :=
  match tokens with
  | [] => Some 0
  | token :: tokens => n ← tokenScore title headings body path token; m ← tokensScore title headings body path tokens; Some (n + m)
  end.

Definition headingText (l : list Heading) : string := StrJoin (hd_Text <$> l) (" " +:+ schar newline +:+ " ").

Definition pageScore (needle : string) (tokens : list string) (p : Page) : option Z :=
  let title := Lower (pg_Title p) in
  let headings := Lower (headingText (pg_Headings p)) in
  let body := Lower (pg_plain p) in
  n ← tokensScore title headings body (Lower (pg_Path p)) tokens;
  let whole := (if GoStrings.Contains title needle then 120 + (if String.eqb title needle then 60 else 0) else 0)
               + (if GoStrings.Contains headings needle then 45 else 0) + (if GoStrings.Contains body needle then 12 else 0) in
  if whole + n =? 0 then None else Some (whole + n).

(** [strings.Index]. *)
Fixpoint Index (s t : string) : option nat :=
  if HasPrefix s t then Some O else match s with "" => None | String _ s => S <$> Index s t end.

(** The steps to a space on either side; an index outside the body is a panic. *)
Fixpoint backToSpace (body : string) (start : nat) : option nat :=
  match start with
  | O => Some O
  | S n => match String.get start body with None => None | Some a => if Ascii.eqb a " " then Some start else backToSpace body n end
  end.

Fixpoint onToSpace (body : string) (rounds end_ : nat) : nat :=
  match rounds with
  | O => end_
  | S rounds => match String.get end_ body with None => end_ | Some a => if Ascii.eqb a " " then end_ else onToSpace body rounds (S end_) end
  end.

Definition firstToken (lower : string) (tokens : list string) : option (nat * nat) :=
  head (omap (λ token, i ← Index lower token; Some (i, String.length token)) tokens).

Definition snippetFor (p : Page) (needle : string) (tokens : list string) : option string :=
  let body := pg_plain p in
  let lower := Lower body in
  let found := match Index lower needle with Some i => Some (i, String.length needle) | None => firstToken lower tokens end in
  match found with
  | None => Some (if bool_decide (pg_Description p ≠ "") then pg_Description p else truncate body descriptionLimit)
  | Some (at_, width) =>
      start ← backToSpace body (at_ - snippetRadius);
      let end_ := Nat.min (at_ + width + snippetRadius) (String.length body) in
      let end_ := onToSpace body (String.length body - end_) end_ in
      if (end_ <? start)%nat then None
      else
        let snippet := TrimSpace (sdrop start (stake end_ body)) in
        Some ((if (0 <? start)%nat then "..." else "") +:+ snippet +:+ (if (end_ <? String.length body)%nat then "..." else ""))
  end.

Definition better (a b : Page * Z) : bool := if a.2 =? b.2 then (pg_order a.1 <? pg_order b.1)%nat else b.2 <? a.2.

(** The pages that match, the best first. *)
Definition matches (c : Docs) (needle : string) (tokens : list string) : list (Page * Z) :=
  SliceStable better (omap (λ p, n ← pageScore needle tokens p; Some (p, n)) (dc_pages c)).

(** [None] is a panic. *)
Definition Search (c : Docs) (query : string) (limit : Z) : option (list SearchHit) :=
  let needle := Lower (TrimSpace query) in
  if bool_decide (needle = "") then Some []
  else
    let limit := if limit <=? 0 then defaultSearchLimit else limit in
    let tokens := Fields needle in
    mapM (λ m : Page * Z, s ← snippetFor m.1 needle tokens; Some (mkHit (pg_Path m.1) (pg_Title m.1) (pg_Section m.1) s m.2))
      (take (Z.to_nat limit) (matches c needle tokens)).

End unicode.

Definition Ext (name : string) : string :=
  match LastIndexByte name "." with
  | Some i => if ContainsByte (sdrop i name) slash then "" else sdrop i name
  | None => ""
  end.

Definition assetContentType (name : string) : string :=
  let e := ToLower (Ext name) in
  if String.eqb e ".png" then "image/png"
  else if String.eqb e ".jpg" || String.eqb e ".jpeg" then "image/jpeg"
  else if String.eqb e ".gif" then "image/gif"
  else if String.eqb e ".svg" then "image/svg+xml"
  else if String.eqb e ".webp" then "image/webp"
  else if String.eqb e ".avif" then "image/avif"
  else if String.eqb e ".md" then "text/markdown; charset=utf-8"
  else "application/octet-stream".

(** The file, whether it seeks, and the type of its content. *)
Definition Asset (fsys : FS) (name : string) : option (bool * string * string) :=
  cleaned ← assetPath name;
  match fsys cleaned with
  | Some (File_ true seeks body) => Some (seeks, body, assetContentType cleaned)
  | _ => None
  end.

End Catalogue.

(** ** [internal/server/docs.go] *)

Module Pages.
Import Catalogue.

Record IndexItem := mkIndexItem { ix_Path : string; ix_Title : string; ix_Section : string; ix_Description : string; ix_Headings : list Heading }.

Record PageAnswer := mkPageAnswer {
  pn_Path : string; pn_Title : string; pn_Section : string; pn_Headings : list Heading; pn_Markdown : string; pn_Words : nat;
  pn_Prev : option Link; pn_Next : option Link
}.

(** A file that is served: the name [http.ServeContent] is given, or [None] where
    the body is copied; the headers that are set. *)
Record Served := mkServed { sv_Name : option string; sv_ContentType : option string; sv_CacheControl : string; sv_Body : string }.

Definition indexItem (p : Page) : IndexItem := mkIndexItem (pg_Path p) (pg_Title p) (pg_Section p) (pg_Description p) (pg_Headings p).

(** The server may have no pages. *)
Definition handleDocsIndex (docs : option Docs) : list IndexItem * list string :=
  match docs with None => ([], []) | Some c => (indexItem <$> dc_pages c, dc_sections c) end.

Definition badPagePath (name : string) : bool :=
  bool_decide (name = "") || GoStrings.Contains name ".." || negb (HasSuffix name ".md") || HasPrefix name "/".

Definition noPage (name : string) : Response := writeError 404 codeNotFound ("no such documentation page: " +:+ name).

Definition handleDocsPage (docs : option Docs) (r : Inbound) : Response + PageAnswer :=
  let name := query_text r "path" in
  if badPagePath name then
    inl (writeJSON 400 (BodyError codeValidation "path must be a documentation page such as sources/postgres.md" {[ "path" := "invalid" ]}))
  else match docs with
       | None => inl (noPage name)
       | Some c =>
           match Lookup c name with
           | None => inl (noPage name)
           | Some p =>
               let '(prev, next) := Neighbours c name in
               inr (mkPageAnswer (pg_Path p) (pg_Title p) (pg_Section p) (pg_Headings p) (pg_markdown p) (pg_Words p) prev next)
           end
       end.

Definition searchLimit (raw : string) : Z :=
  if bool_decide (raw = "") then 20
  else match Atoi raw with Some n => if (0 <? n) && (n <=? 20) then n else 20 | None => 20 end.

(** [None] is a panic. *)
Definition handleDocsSearch {U : Unicode} (docs : option Docs) (r : Inbound) : option (list SearchHit) :=
  match docs with None => Some [] | Some c => Search c (in_query r "q") (searchLimit (in_query r "limit")) end.

Definition handleDocsAsset (docs : option FS) (name : string) : Response + Served :=
  match match docs with Some fsys => Asset fsys name | None => None end with
  | None => inl (writeError 404 codeNotFound "no such documentation asset")
  | Some (seeks, body, contentType) =>
      inr (mkServed (if seeks then Some name else None) (Some contentType) "public, max-age=3600" body)
  end.

End Pages.

(** ** [internal/server/static.go] *)

Module Panel.
Import Catalogue Pages.

(** What a request outside the interface gets: an error as JSON, a plain text
    with a status, or a file. *)
Inductive Answer := Refused (r : Response) | Plain (status : Z) (text : string) | File (f : Served).

Definition notBuilt : Answer := Plain 404 "the admin panel was not built into this binary".

(** The body of an opened file as it is copied. *)
Definition copied (f : Opened) : string := match f with File_ _ _ body => body | Directory => "" end.

Definition serveIndex (static : FS) (method : string) : Answer :=
  match static "index.html" with
  | None => notBuilt
  | Some f => File (mkServed None (Some "text/html; charset=utf-8") "no-cache" (if String.eqb method "HEAD" then "" else copied f))
  end.

Definition contentTypeFor (name : string) : string :=
  if HasSuffix name ".html" then "text/html; charset=utf-8"
  else if HasSuffix name ".css" then "text/css; charset=utf-8"
  else if HasSuffix name ".js" then "text/javascript; charset=utf-8"
  else if HasSuffix name ".json" then "application/json"
  else if HasSuffix name ".svg" then "image/svg+xml"
  else if HasSuffix name ".woff2" then "font/woff2"
  else if HasSuffix name ".woff" then "font/woff"
  else "application/octet-stream".

(** The name that is opened first, and the file that is served under its name. *)
Definition staticName (path : string) : string :=
  let name := TrimPrefix (Clean path) "/" in
  if bool_decide (name = "") || bool_decide (name = ".") then "index.html" else name.

Definition openStatic (static : FS) (name : string) : option (string * Opened) :=
  match static name with
  | Some Directory => let name := PathJoin [name; "index.html"] in f ← static name; Some (name, f)
  | Some f => Some (name, f)
  | None => None
  end.

Definition handleStatic (static : option FS) (method path : string) : Answer :=
  if HasPrefix path "/api/" then Refused (writeError 404 codeNotFound ("no such endpoint: " +:+ path))
  else if negb (String.eqb method "GET") && negb (String.eqb method "HEAD") then Refused (writeError 405 codeBadRequest "method not allowed")
  else match static with
       | None => notBuilt
       | Some static =>
           match openStatic static (staticName path) with
           | None => serveIndex static method
           | Some (name, f) =>
               let cache := if HasPrefix name "assets/" then "public, max-age=31536000, immutable" else "no-cache" in
               match f with
               | File_ true true body => File (mkServed (Some name) None cache body)
               | File_ false true _ => serveIndex static method
               | _ => File (mkServed None (Some (contentTypeFor name)) cache (copied f))
               end
           end
       end.

(** *** The scripts the page holds *)

(** A literal without regard to case: the long s folds to [s]. *)
Fixpoint foldPrefix (s lit : string) : option string :=
  match lit with
  | "" => Some s
  | String c lit =>
      match s with
      | String a s' =>
          if Ascii.eqb (lower_byte a) c then foldPrefix s' lit
          else match s' with
               | String b s'' => if Ascii.eqb c "s" && bool_decide ([a; b] = [byte_of 197; byte_of 191]) then foldPrefix s'' lit else None
               | "" => None
               end
      | "" => None
      end
  end.

(** The text up to the first closing tag, and what follows it. *)
Fixpoint toClose (s : string) : option (string * string) :=
  match foldPrefix s "</script>" with
  | Some rest => Some ("", rest)
  | None => match s with String a s' => '(text, rest) ← toClose s'; Some (String a text, rest) | "" => None end
  end.

(** The rest of an opening tag: at once, or after a space and attributes. *)
Definition openEnd (s : string) : option string :=
  match s with
  | String ">" rest => Some rest
  | String a rest => if space a then match Catalogue.span (notIn ">") rest with (_, String _ rest) => Some rest | _ => None end else None
  | "" => None
  end.

(** [inlineScriptPattern]: the script. *)
Definition scriptMatch : Matcher := λ s, rest ← foldPrefix s "<script"; rest ← openEnd rest; toClose rest.

Section hashes.
  (** The bytes of the SHA-256 digest. *)
  Context (Sum256 : string -> string).

(** [base64.StdEncoding]. *)
Definition StdEncoding (s : string) : string :=
  RawStd_Encode s +:+ (match (String.length s mod 3)%nat with 1%nat => "==" | 2%nat => "=" | _ => "" end).

Definition scriptHash (script : string) : string := "sha256-" +:+ StdEncoding (Sum256 script).

(** The hashes, each once. *)
Definition addHash (out : list string) (script : string) : list string :=
  if bool_decide (TrimSpace script = "") then out
  else let hash := scriptHash script in if bool_decide (hash ∈ out) then out else out ++ [hash].

Definition inlineScriptHashes (static : option FS) : list string :=
  match match static with Some fsys => fsys "index.html" | None => None end with
  | Some (File_ _ _ body) => foldl addHash [] (findAll scriptMatch (String.length body) body)
  | _ => []
  end.

End hashes.

End Panel.

(** ** What the program says about itself: [internal/source/source.go],
    [internal/engine/tools.go], [internal/version/version.go],
    [internal/server/meta.go], [cmd/backvault/check.go] *)

Module Meta.

(** *** The registry of drivers

    One of each of the three packages; here by what a driver says of itself. *)
Definition Registry : Type := gmap string DriverSpec.

(** [None] is a panic. *)
Definition Register (reg : Registry) (d : DriverSpec) : option Registry :=
  match reg !! spec_Kind d with Some _ => None | None => Some (<[spec_Kind d := d]> reg) end.

Fixpoint registered (reg : Registry) (l : list DriverSpec) : option Registry :=
  match l with [] => Some reg | d :: l => reg ← Register reg d; registered reg l end.

Definition Get (reg : Registry) (kind : string) : option DriverSpec := reg !! kind.

(** [All], with the drivers in the order [l] in which the map is ranged over. *)
Definition ordered (l : list DriverSpec) : list DriverSpec := SliceStable (λ a b, String.ltb (spec_Label a) (spec_Label b)) l.

Definition Specs (reg : Registry) : list DriverSpec := ordered (map_to_list reg).*2.

(** The packages [all.go] imports. *)
Definition destinations : list DriverSpec := [Spec_local; Spec_s3; Spec_sftp; Spec_webdav].
Definition notifiers : list DriverSpec := [Spec_discord; Spec_email; Spec_ntfy; Spec_slack; Spec_telegram; Spec_webhook].
Definition sources : list DriverSpec :=
  [Spec_command; Spec_docker; Spec_files; Spec_mongodb; Spec_mysql; Spec_postgres; Spec_push; Spec_redis; Spec_sqlite; Spec_ssh].

(** *** The tools *)

Definition knownTools : list (string * list string) :=
  [("pg_dump", ["postgres"]); ("pg_dumpall", ["postgres"]); ("pg_restore", ["postgres"]); ("psql", ["postgres"]); ("mysqldump", ["mysql"]);
   ("mariadb-dump", ["mysql"]); ("mysql", ["mysql"]); ("mongodump", ["mongodb"]); ("mongorestore", ["mongodb"]); ("redis-cli", ["redis"]);
   ("sqlite3", ["sqlite"]); ("docker", ["docker"]); ("ssh", ["ssh"]); ("tar", ["files"; "docker"]); ("zstd", ["pack"]); ("gzip", ["pack"]); ("age", ["pack"])].

Definition versionArgs (tool : string) : list string := if String.eqb tool "ssh" then ["-V"] else ["--version"].

Record ToolStatus := mkToolStatus { tool_Name : string; tool_Available : bool; tool_Path : string; tool_Version : string; tool_UsedBy : list string }.

(** [add]. *)
Definition addTool (usedBy : gmap string (gset string)) (use : string * string) : gmap string (gset string) :=
  let tool := TrimSpace use.1 in
  if bool_decide (tool = "") then usedBy
  else
    let kinds := default ∅ (usedBy !! tool) in
    <[tool := if bool_decide (use.2 ≠ "") then {[ use.2 ]} ∪ kinds else kinds]> usedBy.

(** What is added, in one of the orders in which the maps are ranged over. *)
Definition usesOf (known : list (string * list string)) (specs : list DriverSpec) : list (string * string) :=
  (known ≫= λ t, (λ k, (t.1, k)) <$> t.2) ++ (specs ≫= λ s, (λ t, (t, spec_Kind s)) <$> spec_Tools s).

Definition Strings (l : list string) : list string := SliceStable String.ltb l.

(** The first line of what the tool prints, or nothing when it fails without a
    word: [run] is the output of a command and whether it failed. *)
Definition toolVersion (run : string -> list string -> string * bool) (tool path : string) : string :=
  let '(output, failed) := run path (versionArgs tool) in
  if failed && bool_decide (output = "") then ""
  else stake 120 (TrimSpace (default "" (head (Split (TrimSpace output) (byte_of 10))))).

Section tools.
  (** The host: where a tool is, and what its command prints. *)
  Context (LookPath : string -> option string) (run : string -> list string -> string * bool).

Definition probe (name : string) (kinds : gset string) : ToolStatus :=
  match LookPath name with
  | Some path => mkToolStatus name true path (toolVersion run name path) (Strings (elements kinds))
  | None => mkToolStatus name false "" "" (Strings (elements kinds))
  end.

Definition toolList (uses : list (string * string)) : list ToolStatus :=
  let usedBy := foldl addTool ∅ uses in
  (λ name, probe name (default ∅ (usedBy !! name))) <$> Strings (map_to_list usedBy).*1.

Definition Tools (specs : list DriverSpec) : list ToolStatus := toolList (usesOf knownTools specs).

(** *** [backvault check] *)

Context {surroundings : Startup.Settings.Surroundings}.

(** What is found wrong, and the tools. *)
Definition check (specs : list DriverSpec) (f : Startup.Settings.Flags) (rand : result string) : FileSystem.FS (list error * list ToolStatus) :=
  r ← Startup.Settings.Load f;
  match r with
  | Fail err => mret ([err], Tools specs)
  | Ok cfg =>
      e ← Startup.Settings.EnsureDirs cfg;
      k ← Startup.Key.LoadKey (Startup.Settings.MasterKey cfg) (Startup.Settings.MasterKeyFile cfg) rand;
      mret (match e with Some err => [err] | None => [] end ++ match k with Fail err => [err] | Ok _ => [] end, Tools specs)
  end.

End tools.


(** *** The build and the time zones *)

Record VersionInfo := mkVersionInfo { vi_Version : string; vi_Commit : string; vi_BuildDate : string; vi_GoVersion : string; vi_StartedAt : Time }.

(** What the linker sets, or not. *)
Definition Info (version commit date : option string) (goVersion : string) (startedAt : Time) : VersionInfo :=
  mkVersionInfo (default "dev" version) (default "none" commit) (default "unknown" date) goVersion startedAt.

Definition commonTimezones : list string :=
  ["UTC"; "Africa/Cairo"; "Africa/Johannesburg"; "Africa/Lagos"; "Africa/Nairobi";
   "America/Anchorage"; "America/Argentina/Buenos_Aires"; "America/Bogota"; "America/Chicago"; "America/Denver"; "America/Halifax";
   "America/Los_Angeles"; "America/Mexico_City"; "America/New_York"; "America/Phoenix"; "America/Sao_Paulo"; "America/Toronto"; "America/Vancouver";
   "Asia/Bangkok"; "Asia/Dubai"; "Asia/Hong_Kong"; "Asia/Jakarta"; "Asia/Jerusalem"; "Asia/Kolkata"; "Asia/Karachi"; "Asia/Manila"; "Asia/Seoul";
   "Asia/Shanghai"; "Asia/Singapore"; "Asia/Taipei"; "Asia/Tokyo"; "Atlantic/Reykjavik";
   "Australia/Adelaide"; "Australia/Brisbane"; "Australia/Melbourne"; "Australia/Perth"; "Australia/Sydney";
   "Europe/Amsterdam"; "Europe/Athens"; "Europe/Belgrade"; "Europe/Berlin"; "Europe/Brussels"; "Europe/Bucharest"; "Europe/Budapest";
   "Europe/Copenhagen"; "Europe/Dublin"; "Europe/Helsinki"; "Europe/Istanbul"; "Europe/Kyiv"; "Europe/Lisbon"; "Europe/London"; "Europe/Madrid";
   "Europe/Moscow"; "Europe/Oslo"; "Europe/Paris"; "Europe/Prague"; "Europe/Riga"; "Europe/Rome"; "Europe/Sofia"; "Europe/Stockholm";
   "Europe/Tallinn"; "Europe/Vienna"; "Europe/Vilnius"; "Europe/Warsaw"; "Europe/Zurich"; "Pacific/Auckland"; "Pacific/Honolulu"].

(** All but the first are sorted. *)
Definition timezones : list string := take 1 commonTimezones ++ Strings (drop 1 commonTimezones).

(** *** The handlers, with their number of items where there is one *)

Section handlers.
  Context (reg : string -> Registry).

Definition writeList {A} (items : list A) : list A * nat := (items, length items).

Definition handleMetaSources : list DriverSpec * nat := writeList (Specs (reg "source")).
Definition handleMetaDestinations : list DriverSpec * nat := writeList (Specs (reg "destination")).
Definition handleMetaNotifiers : list DriverSpec * nat := writeList (Specs (reg "notifier")).
Definition allSpecs : list DriverSpec := Specs (reg "source") ++ Specs (reg "destination") ++ Specs (reg "notifier").
Definition handleMetaTools (LookPath : string -> option string) (run : string -> list string -> string * bool) : list ToolStatus * nat :=
  writeList (Tools LookPath run allSpecs).
Definition handleMetaTimezones : list string * nat := writeList timezones.

End handlers.

End Meta.

(** * What the catalogue promises *)

Module DocsFacts.
Import Catalogue Pages Panel.

(** ** Anchors *)

(** A map does not hold every text of a longer list. *)
Lemma fresh_key {A} (m : gmap string A) l : NoDup l -> (size m < length l)%nat -> ∃ x, x ∈ l ∧ m !! x = None.
Proof.
  intros N H. destruct (decide (Exists (λ x, m !! x = None) l)) as [E|E]; [by apply Exists_exists in E|]. exfalso.
  assert (S : list_to_set l ⊆ dom m).
  { intros x Hx. apply elem_of_list_to_set in Hx. apply elem_of_dom. destruct (m !! x) eqn:Ex; [done|].
    destruct E. apply Exists_exists. by exists x. }
  apply subseteq_size in S. rewrite size_dom, size_list_to_set in S by done. lia.
Qed.

Definition candidate (base : string) (count : Z) (k : nat) : string := base +:+ "-" +:+ Itoa (count + 1 + Z.of_nat k).

Lemma fresh_candidate (seen : gmap string Z) base count : ∃ k, (k < S (size seen))%nat ∧ seen !! candidate base count k = None.
Proof.
  destruct (fresh_key seen (candidate base count <$> seq 0 (S (size seen)))) as (x & Hx & Ex).
  - apply NoDup_fmap_2_strong; [|apply NoDup_seq]. intros i j _ _ E. unfold candidate in E.
    apply (inj (String.append base)), (inj (String.append "-")), (inj pretty) in E. lia.
  - rewrite length_fmap, length_seq. lia.
  - apply list_elem_of_fmap in Hx as (k & -> & Hk). apply elem_of_seq in Hk. exists k. split; [lia|done].
Qed.

Lemma freeSlug_fresh fuel seen base count : (∃ k, (k < fuel)%nat ∧ seen !! candidate base count k = None) ->
  ∃ id n, freeSlug fuel seen base count = (id, <[id := 0]> (<[base := n]> seen)) ∧ seen !! id = None.
Proof.
  revert count. induction fuel as [|fuel IH]; intros count (k & Hk & E); [lia|]. cbn [freeSlug].
  destruct (seen !! (base +:+ "-" +:+ Itoa (count + 1))) eqn:F; [|by eexists _, _].
  apply IH. destruct k as [|k]; [unfold candidate in E; rewrite Z.add_0_r, F in E; done|]. exists k. split; [lia|].
  rewrite <- E. unfold candidate. by replace (count + 1 + 1 + Z.of_nat k) with (count + 1 + Z.of_nat (S k)) by lia.
Qed.

(** The loop ends, with an anchor that was not there. *)
Lemma anchorSlug_fresh {U : Unicode} seen value :
  seen !! (anchorSlug seen value).1 = None ∧ dom (anchorSlug seen value).2 = {[ (anchorSlug seen value).1 ]} ∪ dom seen.
Proof.
  unfold anchorSlug. destruct (seen !! Slug value) as [count|] eqn:E.
  - destruct (freeSlug_fresh (S (size seen)) seen (Slug value) count (fresh_candidate seen _ _)) as (id & n & -> & F). split; [done|].
    cbn [fst snd]. rewrite !dom_insert_L. assert (Slug value ∈ dom seen) by by apply elem_of_dom. set_solver.
  - split; [done|]. cbn [fst snd]. by rewrite dom_insert_L.
Qed.

Definition anchored (p : Parse) : Prop :=
  NoDup (hd_ID <$> pa_headings p) ∧ ∀ id, id ∈ hd_ID <$> pa_headings p -> is_Some (pa_slugs p !! id).

Lemma anchored_same p q : pa_headings q = pa_headings p -> pa_slugs q = pa_slugs p -> anchored p -> anchored q.
Proof. unfold anchored. by intros -> ->. Qed.

Section unicode.
  Context {U : Unicode}.

Lemma headingLine_anchored level text p : anchored p -> anchored (headingLine level text p).
Proof.
  intros H. unfold headingLine.
  assert (Q : ∀ q, anchored q -> anchored (addPlain text (if (1 <? level)%nat && pa_collecting q then endParagraph q else q))).
  { intros q. by case_match. }
  destruct ((level =? 1)%nat && bool_decide (pa_title p = "")); [by apply Q|]. destruct ((level =? 2)%nat || (level =? 3)%nat); [|by apply Q].
  destruct (anchorSlug_fresh (pa_slugs p) text) as [F D]. destruct (anchorSlug (pa_slugs p) text) as [id slugs]. cbn [fst snd] in *.
  apply Q. destruct H as [N M]. split; cbn [pa_headings pa_slugs]; rewrite fmap_app; cbn.
  - apply NoDup_app. split_and!; [done| |apply NoDup_singleton]. intros x Hx ->%list_elem_of_singleton. apply M in Hx. rewrite F in Hx. by destruct Hx.
  - intros x Hx. apply elem_of_dom. rewrite D. apply elem_of_app in Hx as [Hx|Hx]; [|apply list_elem_of_singleton in Hx as ->; set_solver].
    apply M, elem_of_dom in Hx. set_solver.
Qed.

Lemma pageLine_anchored p line : anchored p -> anchored (pageLine p line).
Proof.
  intros H. unfold pageLine. destruct (fencePattern line); [done|]. destruct (pa_fence p); [done|]. destruct (headingOf line) as [ [level text] | ].
  - by apply headingLine_anchored.
  - unfold textLine. by repeat case_match.
Qed.

(** No two headings of a page share their anchor. *)
Theorem anchors_distinct (name content : string) : NoDup (hd_ID <$> pg_Headings (parsePage name content)).
Proof.
  unfold parsePage. cbn [pg_Headings]. set (p0 := mkParse _ _ _ _ _ _ _ _). assert (H : anchored p0) by (split; [constructor|by intros ? ?%elem_of_nil]).
  revert H. generalize p0. induction (Split content newline) as [|line lines IH]; intros p H; [by destruct H|]. cbn [foldl]. by apply IH, pageLine_anchored.
Qed.

(** ** Neighbours *)

Lemma neighbours_at (prev : option Page) l i p :
  NoDup (pg_Path <$> l) -> l !! i = Some p ->
  neighbours prev l (pg_Path p) = (linkTo <$> match i with O => prev | S j => l !! j end, linkTo <$> l !! S i).
Proof.
  revert prev i. induction l as [|q l IH]; intros prev i N H; [done|]. cbn [neighbours]. rewrite fmap_cons in N. apply NoDup_cons in N as [N1 N].
  destruct i as [|i]; cbn in H.
  - injection H as ->. rewrite String.eqb_refl. cbn. by destruct l.
  - rewrite (proj2 (String.eqb_neq _ _)).
    + rewrite (IH (Some q) i N H). destruct i; done.
    + intros E. apply N1. rewrite E. apply list_elem_of_fmap. exists p. split; [done|]. by eapply list_elem_of_lookup_2.
Qed.

Lemma Lookup_at l sections i p : NoDup (pg_Path <$> l) -> l !! i = Some p -> Lookup (mkDocs l sections) (pg_Path p) = Some p.
Proof.
  unfold Lookup. cbn [dc_pages]. revert i. induction l as [|q l IH]; intros i N H; [done|]. rewrite fmap_cons in N. apply NoDup_cons in N as [N1 N]. cbn [List.find].
  destruct i as [|i]; cbn in H; [injection H as ->; by rewrite String.eqb_refl|]. rewrite (proj2 (String.eqb_neq _ _)); [by eapply IH|].
  intros E. apply N1. rewrite E. apply list_elem_of_fmap. exists p. split; [done|]. by eapply list_elem_of_lookup_2.
Qed.

(** ** The order of the pages *)

Lemma readPages_files files pages : readPages files = Ok pages ->
  (pg_Path <$> pages) = List.filter (λ n, HasSuffix n ".md") files.*1
  ∧ ∀ p, p ∈ pages -> ∃ body, (pg_Path p, Ok body) ∈ files ∧ p = parsePage (pg_Path p) body.
Proof.
  revert pages. induction files as [|[name body] files IH]; intros pages; cbn [readPages].
  - intros [= <-]. split; [done|]. by intros p ?%elem_of_nil.
  - cbn [fmap list_fmap List.filter fst]. destruct (HasSuffix name ".md"); cbn [negb].
    + destruct body as [content|err]; [|done]. destruct (readPages files) as [l|err]; [|done]. intros [= <-]. destruct (IH _ eq_refl) as [E F].
      split; [cbn; by rewrite E|]. intros p [->|H]%elem_of_cons.
      * exists content. split; [by left|done].
      * destruct (F p H) as (body & Hb & Ep). exists body. split; [by right|done].
    + intros H. destruct (IH _ H) as [E F]. split; [done|]. intros p Hp. destruct (F p Hp) as (b & Hb & Ep). exists b. split; [by right|done].
Qed.

Lemma placeAll_path places o l : pg_Path <$> placeAll places o l = pg_Path <$> l.
Proof. revert o. induction l as [|p l IH]; intros o; [done|]. cbn [placeAll]. destruct (places !! pg_Path p) as [[s n]|]; cbn; by rewrite IH. Qed.

(** What a placed page is. *)
Lemma placeAll_elem places o l q : q ∈ placeAll places o l ->
  ∃ p, p ∈ l ∧ pg_Path p = pg_Path q ∧ q = placed (pg_Section q) (pg_order q) p
    ∧ match places !! pg_Path q with Some (s, n) => pg_Section q = s ∧ pg_order q = n | None => pg_Section q = otherSection ∧ (o <= pg_order q)%nat end.
Proof.
  revert o. induction l as [|p l IH]; intros o; cbn [placeAll]; [by intros ?%elem_of_nil|].
  destruct (places !! pg_Path p) as [[s n]|] eqn:E; intros [->|H]%elem_of_cons.
  - exists p. cbn. rewrite E. split_and!; [by left|done..].
  - destruct (IH _ H) as (p' & Hp & F). exists p'. split; [by right|done].
  - exists p. cbn. rewrite E. split_and!; [by left|done..].
  - destruct (IH _ H) as (p' & Hp & F1 & F2 & F3). exists p'. split_and!; [by right|done..|]. destruct (places !! pg_Path q) as [[s n]|]; [done|].
    split; [by destruct F3|]. destruct F3. lia.
Qed.

(** What the placements are at every line: each section once, the first one that
    of the index, and the index before all. *)
Definition placesOk (p : Placements) : Prop :=
  NoDup (pl_sections p) ∧ head (pl_sections p) = Some overviewSection
  ∧ (∀ path s n, pl_places p !! path = Some (s, n) -> s ∈ pl_sections p)
  ∧ (is_Some (pl_places p !! indexPath) -> pl_places p !! indexPath = Some (overviewSection, 0%nat) ∧ (1 <= pl_order p)%nat)
  ∧ (∀ path s n, path ≠ indexPath -> is_Some (pl_places p !! indexPath) -> pl_places p !! path = Some (s, n) -> (1 <= n)%nat).

Lemma place_ok known current p target : is_Some (pl_places p !! indexPath) -> placesOk p ->
  placesOk (place known current p target) ∧ is_Some (pl_places (place known current p target) !! indexPath).
Proof.
  intros I (N & O & S & X & Y). unfold place. cbv zeta. set (r := resolveDocPath "" target).
  destruct (bool_decide (r = "") || negb (known r) || bool_decide (is_Some (pl_places p !! r))) eqn:B; [done|].
  apply orb_false_iff in B as [B T]. apply bool_decide_eq_false in T. generalize (if bool_decide (current = "") then otherSection else current). intros section.
  apply orb_false_iff in B as [_ _].
  destruct (X I) as [X1 X2]. assert (Hr : r ≠ indexPath) by by intros E; rewrite E in T.
  assert (Hin : section ∈ (if bool_decide (section ∈ pl_sections p) then pl_sections p else pl_sections p ++ [section])).
  { destruct (bool_decide_reflect (section ∈ pl_sections p)); [done|]. apply elem_of_app. right. by left. }
  assert (Hsub : ∀ s, s ∈ pl_sections p -> s ∈ (if bool_decide (section ∈ pl_sections p) then pl_sections p else pl_sections p ++ [section])).
  { intros s Hs. destruct (bool_decide_reflect (section ∈ pl_sections p)); [done|]. apply elem_of_app. by left. }
  split; [split_and!; cbn [pl_sections pl_places pl_order]|cbn [pl_places]; by rewrite lookup_insert_ne].
  - destruct (bool_decide_reflect (section ∈ pl_sections p)) as [D|D]; [done|]. apply NoDup_app. split_and!; [done| |apply NoDup_singleton]. intros x Hx Hy. apply list_elem_of_singleton in Hy as ->. done.
  - destruct (bool_decide_reflect (section ∈ pl_sections p)); [done|]. by destruct (pl_sections p).
  - intros path s n. destruct (decide (r = path)) as [<-|Hne]; [rewrite lookup_insert_eq; by intros [= <- <-]|].
    rewrite lookup_insert_ne by done. intros H. by apply Hsub, (S path s n).
  - intros _. rewrite lookup_insert_ne by done. split; [done|lia].
  - intros path s n Hp _. destruct (decide (r = path)) as [<-|Hne]; [rewrite lookup_insert_eq; by intros [= <- <-]|].
    rewrite lookup_insert_ne by done. by apply Y.
Qed.

Lemma placements_ok pages : placesOk (placements pages)
  ∧ (indexPath ∈ pg_Path <$> pages -> pl_places (placements pages) !! indexPath = Some (overviewSection, 0%nat) ∧ (1 <= pl_order (placements pages))%nat).
Proof.
  unfold placements. destruct (List.find _ pages) as [index|] eqn:F.
  - set (known := λ path, existsb _ pages). clearbody known.
    assert (Q : ∀ lines s, placesOk s.2 -> is_Some (pl_places s.2 !! indexPath) ->
                placesOk (foldl (indexLine known) s lines).2 ∧ is_Some (pl_places (foldl (indexLine known) s lines).2 !! indexPath)).
    { induction lines as [|line lines IH]; intros s H I; [done|]. cbn [foldl].
      assert (R : ∀ targets p, placesOk p -> is_Some (pl_places p !! indexPath) ->
                  placesOk (foldl (place known s.1) p targets) ∧ is_Some (pl_places (foldl (place known s.1) p targets) !! indexPath)).
      { induction targets as [|t l IHl]; intros p Hp Ip; [done|]. cbn [foldl]. destruct (place_ok known s.1 p t Ip Hp) as [H1 H2]. by apply IHl. }
      apply IH; unfold indexLine; repeat case_match; cbn [snd]; try done; by apply R. }
    assert (O0 : placesOk (mkPlacements [overviewSection] {[ indexPath := (overviewSection, 0%nat) ]} 1)).
    { split_and!; cbn [pl_sections pl_places pl_order]; [apply NoDup_singleton|done| | |].
      - intros path s n [<- [= <- <-]]%lookup_singleton_Some. by left.
      - intros _. by rewrite lookup_singleton_eq.
      - intros path s n Hp _ [E _]%lookup_singleton_Some. by rewrite E in Hp. }
    destruct (Q (Split (pg_markdown index) newline) ("", _) O0) as [H1 H2]; [eexists; apply lookup_singleton_eq|].
    split; [done|]. intros _. destruct H1 as (_ & _ & _ & X & _). by apply X.
  - split.
    + split_and!; cbn [pl_sections pl_places pl_order]; [apply NoDup_singleton|done| | |].
      * intros path s n. by rewrite lookup_empty.
      * rewrite lookup_empty. by intros [].
      * intros path s n _. rewrite lookup_empty. by intros [].
    + intros (p & E & Hp)%list_elem_of_fmap. exfalso. apply (find_none _ _ F p) in Hp as Hf || (apply list_elem_of_In in Hp; pose proof (find_none _ _ F p Hp) as Hf).
      cbn in Hf. rewrite <- E, String.eqb_refl in Hf. done.
Qed.

Lemma indexOf_filter (f : string -> bool) l x y : f x = true -> f y = true -> x ∈ l -> y ∈ l ->
  (indexOf x l <= indexOf y l)%nat -> (indexOf x (List.filter f l) <= indexOf y (List.filter f l))%nat.
Proof.
  intros Fx Fy. induction l as [|z l IH]; intros Hx Hy H; [done|]. cbn [indexOf List.filter] in *.
  destruct (String.eqb_spec x z) as [->|Nx].
  - rewrite Fx. cbn [indexOf]. rewrite String.eqb_refl. lia.
  - destruct (String.eqb_spec y z) as [->|Ny]; [lia|]. apply elem_of_cons in Hx as [Hx|Hx]; [done|]. apply elem_of_cons in Hy as [Hy|Hy]; [done|].
    specialize (IH Hx Hy ltac:(lia)). destruct (f z); [|done]. cbn [indexOf]. rewrite !(proj2 (String.eqb_neq _ _)) by done. lia.
Qed.

Lemma earlier_asym l a b : earlier l a b = true -> earlier l b a = false.
Proof.
  unfold earlier. cbv zeta. rewrite (Nat.eqb_sym (indexOf (pg_Section b) l)). destruct (Nat.eqb_spec (indexOf (pg_Section a) l) (indexOf (pg_Section b) l));
    rewrite Nat.ltb_lt, Nat.ltb_ge; lia.
Qed.

Lemma notLess_earlier l a b : notLess (earlier l) a b
  <-> (indexOf (pg_Section a) l < indexOf (pg_Section b) l ∨ (indexOf (pg_Section a) l = indexOf (pg_Section b) l ∧ pg_order a <= pg_order b))%nat.
Proof. unfold notLess, earlier. destruct (Nat.eqb_spec (indexOf (pg_Section b) l) (indexOf (pg_Section a) l)); rewrite Nat.ltb_ge; lia. Qed.

Lemma earlier_trans l a b c : notLess (earlier l) a b -> notLess (earlier l) b c -> notLess (earlier l) a c.
Proof. rewrite !notLess_earlier. lia. Qed.

Definition hasOther (pages : list Page) : bool := existsb (λ q, bool_decide (pl_places (placements pages) !! pg_Path q = None)) pages.

(** The sections before the empty ones are dropped. *)
Definition allSections (pages : list Page) : list string :=
  let p := placements pages in
  if hasOther pages && negb (bool_decide (otherSection ∈ pl_sections p)) then pl_sections p ++ [otherSection] else pl_sections p.

Lemma allSections_ok pages : NoDup (allSections pages) ∧ head (allSections pages) = Some overviewSection.
Proof.
  destruct (placements_ok pages) as [(N & O & _) _]. unfold allSections. cbv zeta. destruct (hasOther pages); [|done].
  destruct (bool_decide_reflect (otherSection ∈ pl_sections (placements pages))) as [D|D]; [done|]. cbn. split.
  - apply NoDup_app. split_and!; [done| |apply NoDup_singleton]. intros x Hx Hy. apply list_elem_of_singleton in Hy as ->. done.
  - by destruct (pl_sections _).
Qed.

Lemma placed_section pages q : q ∈ placeAll (pl_places (placements pages)) (pl_order (placements pages)) pages -> pg_Section q ∈ allSections pages.
Proof.
  intros H. destruct (placeAll_elem _ _ _ _ H) as (p & Hp & E & _ & F). destruct (placements_ok pages) as [(_ & _ & S & _) _].
  assert (Hs : ∀ s, s ∈ pl_sections (placements pages) -> s ∈ allSections pages).
  { intros s Hs. unfold allSections. cbv zeta. destruct (_ && _); [apply elem_of_app; by left|done]. }
  destruct (pl_places (placements pages) !! pg_Path q) as [[s n]|] eqn:P.
  - destruct F as [-> _]. by apply Hs, (S _ _ _ P).
  - destruct F as [-> _]. assert (O : hasOther pages = true).
    { apply existsb_exists. exists p. split; [by apply list_elem_of_In|]. rewrite E, P. by apply bool_decide_eq_true. }
    unfold allSections. cbv zeta. rewrite O. destruct (bool_decide_reflect (otherSection ∈ pl_sections (placements pages))) as [D|D]; [done|].
    cbn. apply elem_of_app. right. by left.
Qed.

Lemma Docs_shape pages :
  let all := placeAll (pl_places (placements pages)) (pl_order (placements pages)) pages in
  applyIndexOrder pages = mkDocs (SliceStable (earlier (allSections pages)) all) (List.filter (λ s, existsb (λ q, String.eqb (pg_Section q) s) all) (allSections pages)).
Proof. done. Qed.

(** The index page is before every other. *)
Lemma index_least pages q : indexPath ∈ pg_Path <$> pages ->
  ∀ i, i ∈ placeAll (pl_places (placements pages)) (pl_order (placements pages)) pages ->
       q ∈ placeAll (pl_places (placements pages)) (pl_order (placements pages)) pages -> pg_Path i = indexPath -> pg_Path q ≠ indexPath ->
  earlier (allSections pages) i q = true.
Proof.
  intros Hin i Hi Hq Ei Nq. destruct (placements_ok pages) as [(_ & _ & S & X & Y) Z]. destruct (Z Hin) as [P O].
  destruct (placeAll_elem _ _ _ _ Hi) as (pi & _ & _ & _ & Fi). rewrite Ei, P in Fi. destruct Fi as [Si Oi].
  destruct (placeAll_elem _ _ _ _ Hq) as (pq & _ & _ & _ & Fq).
  assert (Oq : (1 <= pg_order q)%nat).
  { destruct (pl_places (placements pages) !! pg_Path q) as [[s n]|] eqn:Q; destruct Fq as [_ Fq]; [|lia]. subst n.
    eapply (Y (pg_Path q)); [done| |done]. by eexists. }
  destruct (allSections_ok pages) as [_ Hh]. unfold earlier. cbv zeta. rewrite Si, Oi.
  destruct (allSections pages) as [|z l]; [done|]. injection Hh as ->. cbn [indexOf]. rewrite String.eqb_refl.
  by destruct (String.eqb (pg_Section q) overviewSection); [apply Nat.ltb_lt; lia|].
Qed.

(** The catalogue holds every page that is in the files, once, as it was parsed;
    the index first, the sections one after the other, in each the order of the
    index; every section it names has a page. *)
Theorem catalogue_ordered (files : list (string * result string)) (c : Docs) :
  NoDup files.*1 -> Load files = Ok c ->
  (pg_Path <$> dc_pages c) ≡ₚ List.filter (λ n, HasSuffix n ".md") files.*1
  ∧ (∀ p, p ∈ dc_pages c -> ∃ body, (pg_Path p, Ok body) ∈ files ∧ p = placed (pg_Section p) (pg_order p) (parsePage (pg_Path p) body))
  ∧ (indexPath ∈ pg_Path <$> dc_pages c -> pg_Path <$> head (dc_pages c) = Some indexPath)
  ∧ NoDup (dc_sections c) ∧ (∀ s, s ∈ dc_sections c <-> ∃ p, p ∈ dc_pages c ∧ pg_Section p = s)
  ∧ StronglySorted (λ p q, indexOf (pg_Section p) (dc_sections c) <= indexOf (pg_Section q) (dc_sections c) ∧ (pg_Section p = pg_Section q -> pg_order p <= pg_order q))%nat (dc_pages c)
  ∧ (∀ i p, dc_pages c !! i = Some p ->
       Lookup c (pg_Path p) = Some p
       ∧ Neighbours c (pg_Path p) = (linkTo <$> match i with O => None | S j => dc_pages c !! j end, linkTo <$> dc_pages c !! S i)).
Proof.
  intros N. unfold Load. destruct (readPages files) as [pages|err] eqn:R; [|done]. intros [= <-].
  destruct (readPages_files _ _ R) as [E F]. rewrite Docs_shape. cbv zeta. cbn [dc_pages dc_sections].
  pose proof (index_least pages) as I. pose proof (placed_section pages) as S. destruct (allSections_ok pages) as [NS _].
  pose proof (placeAll_elem (pl_places (placements pages)) (pl_order (placements pages)) pages) as L.
  pose proof (placeAll_path (pl_places (placements pages)) (pl_order (placements pages)) pages) as Pth.
  set (all := placeAll _ _ _) in *. set (secs := allSections pages) in *. clearbody all secs.
  pose proof (SliceStable_perm (earlier secs) all) as P.
  pose proof (SliceStable_sorted (earlier secs) all (earlier_asym secs) (earlier_trans secs)) as T.
  set (sorted := SliceStable _ all) in *. clearbody sorted.
  assert (K : ∀ s, s ∈ List.filter (λ s, existsb (λ q, String.eqb (pg_Section q) s) all) secs <-> ∃ p, p ∈ sorted ∧ pg_Section p = s).
  { intros s. rewrite list_elem_of_In, filter_In, existsb_exists. split.
    - intros [_ (p & Hp & Ep)]. exists p. apply String.eqb_eq in Ep. rewrite P. by rewrite list_elem_of_In.
    - intros (p & Hp & <-). rewrite P in Hp. split; [by apply list_elem_of_In, S|]. exists p. by rewrite <- list_elem_of_In, String.eqb_refl. }
  split_and!.
  - by rewrite P, Pth, E.
  - intros p Hp. rewrite P in Hp. destruct (L p Hp) as (q & Hq & Eq & Ep & _). destruct (F q Hq) as (body & Hb & Fq).
    rewrite Eq in Hb, Fq. exists body. split; [done|]. by rewrite <- Fq.
  - intros H. destruct sorted as [|h k]; [by apply elem_of_nil in H|]. cbn. f_equal. destruct (decide (pg_Path h = indexPath)) as [?|Nh]; [done|]. exfalso.
    assert (Hpg : indexPath ∈ pg_Path <$> pages) by by rewrite <- Pth, <- P. apply list_elem_of_fmap in H as (i & Ei & Hi).
    assert (Q : earlier secs i h = true) by (apply (I h Hpg i); [rewrite <- P; exact Hi|rewrite <- P; by left|done|done]).
    apply elem_of_cons in Hi as [->|Hi]; [done|]. inversion T as [|? ? _ A]; subst. rewrite Forall_forall in A. specialize (A i Hi). unfold notLess in A. by rewrite A in Q.
  - by apply NoDup_ListNoDup, List.NoDup_filter, NoDup_ListNoDup.
  - exact K.
  - assert (Hs : ∀ p, p ∈ sorted -> pg_Section p ∈ secs) by (intros p Hp; apply S; by rewrite <- P).
    assert (Hf : ∀ p, p ∈ sorted -> existsb (λ q, String.eqb (pg_Section q) (pg_Section p)) all = true).
    { intros p Hp. apply existsb_exists. exists p. rewrite <- list_elem_of_In, <- P, String.eqb_refl. done. }
    clear - T Hs Hf. induction T as [|p l T IH A]; [constructor|]. constructor; [apply IH; intros; [apply Hs|apply Hf]; by right|].
    rewrite Forall_forall in *. intros q Hq. specialize (A q Hq). apply notLess_earlier in A. split.
    + apply (indexOf_filter _ secs); [apply Hf; by left|apply Hf; by right|apply Hs; by left|apply Hs; by right|lia].
    + intros Es. rewrite Es in A. lia.
  - assert (Nd : NoDup (pg_Path <$> sorted)) by (rewrite P, Pth, E; by apply NoDup_ListNoDup, List.NoDup_filter, NoDup_ListNoDup).
    intros i p Hi. split; [by eapply Lookup_at|by apply neighbours_at].
Qed.

(** ** The search *)

(** Where a word may be found on a page. *)
Definition found (p : Page) (token : string) : bool :=
  GoStrings.Contains (Lower (pg_Title p)) token || GoStrings.Contains (Lower (headingText (pg_Headings p))) token
  || GoStrings.Contains (Lower (pg_plain p)) token || GoStrings.Contains (Lower (pg_Path p)) token.

Lemma tokenScore_spec title headings body path token :
  match tokenScore title headings body path token with
  | Some n => 0 < n ∧ GoStrings.Contains title token || GoStrings.Contains headings token || GoStrings.Contains body token || GoStrings.Contains path token = true
  | None => GoStrings.Contains title token || GoStrings.Contains headings token || GoStrings.Contains body token || GoStrings.Contains path token = false
  end.
Proof. unfold tokenScore. destruct (GoStrings.Contains title token), (GoStrings.Contains headings token), (GoStrings.Contains body token), (GoStrings.Contains path token); cbn; done. Qed.

Lemma tokensScore_spec p tokens :
  match tokensScore (Lower (pg_Title p)) (Lower (headingText (pg_Headings p))) (Lower (pg_plain p)) (Lower (pg_Path p)) tokens with
  | Some n => 0 <= n ∧ (tokens ≠ [] -> 0 < n) ∧ forallb (found p) tokens = true
  | None => forallb (found p) tokens = false
  end.
Proof.
  induction tokens as [|token tokens IH]; [done|]. cbn [tokensScore forallb]. unfold found at 1 3.
  pose proof (tokenScore_spec (Lower (pg_Title p)) (Lower (headingText (pg_Headings p))) (Lower (pg_plain p)) (Lower (pg_Path p)) token) as T.
  destruct (tokenScore _ _ _ _ token) as [n|]; cbn [mbind option_bind].
  - destruct T as [Hn ->]. destruct (tokensScore _ _ _ _ tokens) as [m|]; cbn; [|done]. destruct IH as (Hm & _ & ->). split_and!; [lia|lia|done].
  - by rewrite T.
Qed.

Lemma pageScore_spec needle tokens p : tokens ≠ [] -> is_Some (pageScore needle tokens p) <-> forallb (found p) tokens = true.
Proof.
  intros Hne. unfold pageScore. cbv zeta. pose proof (tokensScore_spec p tokens) as T. destruct (tokensScore _ _ _ _ tokens) as [n|]; cbn [mbind option_bind].
  - destruct T as (_ & Hn & ->). specialize (Hn Hne). match goal with |- context [?w + n =? 0] => assert (0 <= w) by (repeat case_match; lia); set (x := w) in * end.
    destruct (Z.eqb_spec (x + n) 0); [lia|]. split; [done|by eexists].
  - rewrite T. split; [by intros []|done].
Qed.

Lemma better_asym a b : better a b = true -> better b a = false.
Proof.
  unfold better. rewrite (Z.eqb_sym b.2). destruct (Z.eqb_spec a.2 b.2); [rewrite Nat.ltb_lt, Nat.ltb_ge|rewrite Z.ltb_lt, Z.ltb_ge]; lia.
Qed.

Lemma notLess_better a b : notLess better a b <-> b.2 < a.2 ∨ (a.2 = b.2 ∧ (pg_order a.1 <= pg_order b.1)%nat).
Proof. unfold notLess, better. destruct (Z.eqb_spec b.2 a.2); [rewrite Nat.ltb_ge|rewrite Z.ltb_ge]; lia. Qed.

Lemma better_trans a b c : notLess better a b -> notLess better b c -> notLess better a c.
Proof. rewrite !notLess_better. lia. Qed.

(** The limit that counts. *)
Definition effective (limit : Z) : Z := if limit <=? 0 then defaultSearchLimit else limit.

Definition hitOf (hit : SearchHit) (p : Page) : Prop := hit_Path hit = pg_Path p ∧ hit_Title hit = pg_Title p ∧ hit_Section hit = pg_Section p.

(** What is found are pages that hold every word of the query, at most as many as
    asked for, the best first; and when there are fewer, no page that holds every
    word is missing. *)
Theorem Search_hits (c : Docs) (query : string) (limit : Z) (hits : list SearchHit) :
  let tokens := Fields (Lower (TrimSpace query)) in
  tokens ≠ [] -> Search c query limit = Some hits ->
  Z.of_nat (length hits) <= effective limit
  ∧ StronglySorted (λ a b, hit_Score b <= hit_Score a) hits
  ∧ (∀ hit, hit ∈ hits -> ∃ p, p ∈ dc_pages c ∧ hitOf hit p ∧ forallb (found p) tokens = true)
  ∧ (Z.of_nat (length hits) < effective limit -> ∀ p, p ∈ dc_pages c -> forallb (found p) tokens = true -> ∃ hit, hit ∈ hits ∧ hitOf hit p).
Proof.
  intros tokens Hne. unfold Search. cbv zeta. fold tokens. case_bool_decide as Q; [unfold tokens in Hne; by rewrite Q in Hne|].
  fold (effective limit). set (needle := Lower (TrimSpace query)) in *.
  set (ms := matches c needle tokens). intros M%mapM_Some.
  assert (El : 0 < effective limit) by (unfold effective, defaultSearchLimit; destruct (Z.leb_spec limit 0); lia).
  assert (Hms : ∀ m, m ∈ ms <-> m.1 ∈ dc_pages c ∧ pageScore needle tokens m.1 = Some m.2).
  { intros [p n]. unfold ms, matches. rewrite SliceStable_perm, list_elem_of_omap. split.
    - intros (q & Hq & E). destruct (pageScore needle tokens q) eqn:Eq; cbn in E; [|done]. by injection E as <- <-.
    - intros [Hp E]. exists p. split; [done|]. cbn in E. by rewrite E. }
  assert (Hit : ∀ m hit, (s ← snippetFor m.1 needle tokens; Some (mkHit (pg_Path m.1) (pg_Title m.1) (pg_Section m.1) s m.2)) = Some hit -> hitOf hit m.1 ∧ hit_Score hit = m.2).
  { intros m hit. destruct (snippetFor m.1 needle tokens); cbn; [|done]. by intros [= <-]. }
  pose proof (Forall2_length _ _ _ M) as Len. rewrite length_take in Len.
  assert (Srt : StronglySorted (notLess better) (take (Z.to_nat (effective limit)) ms)).
  { eapply StronglySorted_sublist; [apply sublist_take|]. apply SliceStable_sorted; [exact better_asym|exact better_trans]. }
  split_and!.
  - lia.
  - clear - M Srt Hit. induction M as [|m hit l k E M IH]; [constructor|]. inversion Srt as [|? ? S1 S2]; subst. constructor; [by apply IH|].
    apply Hit in E as [_ Es]. rewrite Es. apply Forall_forall. intros h Hh. apply list_elem_of_lookup in Hh as (i & Hi).
    destruct (Forall2_lookup_r _ _ _ _ _ M Hi) as (m' & Hm & E'). apply Hit in E' as [_ ->]. apply list_elem_of_lookup_2 in Hm.
    apply (proj1 (Forall_forall _ _) S2), notLess_better in Hm. lia.
  - intros hit Hh. apply list_elem_of_lookup in Hh as (i & Hi). destruct (Forall2_lookup_r _ _ _ _ _ M Hi) as (m & Hm & E). apply Hit in E as [Eh _].
    apply list_elem_of_lookup_2 in Hm. apply elem_of_take in Hm as (j & Hm & _). apply list_elem_of_lookup_2, Hms in Hm as [Hp Hs].
    exists m.1. split_and!; [done|done|]. apply (pageScore_spec needle tokens); [done|by eexists].
  - intros Hlt p Hp Hf. apply (pageScore_spec needle tokens) in Hf as [n Hn]; [|done].
    assert (Hm : (p, n) ∈ ms) by by apply Hms. rewrite take_ge in M by lia. apply list_elem_of_lookup in Hm as (i & Hi).
    destruct (Forall2_lookup_l _ _ _ _ _ M Hi) as (hit & Hh & E). apply Hit in E as [E _]. exists hit. split; [by eapply list_elem_of_lookup_2|done].
Qed.

Lemma HasPrefix_length s t : HasPrefix s t = true -> (String.length t <= String.length s)%nat.
Proof.
  revert s. induction t as [|a t IH]; intros s; [cbn; lia|]. destruct s as [|b s]; [done|]. rewrite HasPrefix_cons. intros H%andb_true_iff.
  destruct H as [_ H]. apply IH in H. cbn. lia.
Qed.

Lemma Index_bound s t i : Index s t = Some i -> (i + String.length t <= String.length s)%nat.
Proof.
  revert i. induction s as [|a s IH]; intros i; cbn [Index].
  - destruct (HasPrefix "" t) eqn:P; [|done]. intros [= <-]. by apply HasPrefix_length in P.
  - destruct (HasPrefix (String a s) t) eqn:P; [intros [= <-]; by apply HasPrefix_length in P|].
    destruct (Index s t) as [j|]; [|done]. intros [= <-]. specialize (IH j eq_refl). cbn. lia.
Qed.

Lemma get_some s i : (i < String.length s)%nat -> is_Some (String.get i s).
Proof. revert i. induction s as [|a s IH]; intros i H; cbn in *; [lia|]. destruct i as [|i]; [by eexists|]. apply IH. lia. Qed.

Lemma backToSpace_in body start : (start < String.length body ∨ start = 0)%nat -> ∃ r, backToSpace body start = Some r ∧ (r <= start)%nat.
Proof.
  induction start as [|n IH]; intros H; cbn [backToSpace]; [by exists 0%nat|]. destruct (get_some body (S n)) as [a ->]; [lia|].
  destruct (Ascii.eqb a " "); [by exists (S n)|]. destruct IH as (r & -> & Hr); [lia|]. exists r. split; [done|lia].
Qed.

Lemma onToSpace_ge body rounds end_ : (end_ <= onToSpace body rounds end_)%nat.
Proof. revert end_. induction rounds as [|n IH]; intros end_; cbn; [done|]. destruct (String.get end_ body) as [a|]; [|done]. destruct (Ascii.eqb a " "); [done|]. specialize (IH (S end_)). lia. Qed.

(** Where lower case makes a body no longer, its excerpt is within it. *)
Lemma snippet_within p needle tokens : (String.length (Lower (pg_plain p)) <= String.length (pg_plain p))%nat -> is_Some (snippetFor p needle tokens).
Proof.
  intros H. unfold snippetFor. cbv zeta. set (body := pg_plain p) in *.
  assert (B : ∀ at_ width, match Index (Lower body) needle with Some i => Some (i, String.length needle) | None => firstToken (Lower body) tokens end = Some (at_, width) ->
              (at_ + width <= String.length body)%nat).
  { intros at_ width. destruct (Index (Lower body) needle) as [i|] eqn:E; [intros [= <- <-]; apply Index_bound in E; lia|].
    unfold firstToken. intros F%head_Some_elem_of. apply list_elem_of_omap in F as (token & _ & F).
    destruct (Index (Lower body) token) as [j|] eqn:E'; cbn in F; [|done]. injection F as <- <-. apply Index_bound in E'. lia. }
  destruct (match Index (Lower body) needle with Some i => _ | None => _ end) as [[at_ width]|]; [|by eexists]. specialize (B _ _ eq_refl).
  destruct (backToSpace_in body (at_ - snippetRadius)) as (r & -> & Hr); [unfold snippetRadius; lia|]. cbn [mbind option_bind].
  match goal with |- context [onToSpace body ?n ?e] => pose proof (onToSpace_ge body n e) as Q; set (end_ := onToSpace body n e) in * end.
  assert (r <= end_)%nat by lia. rewrite (proj2 (Nat.ltb_ge _ _)) by done. by eexists.
Qed.

Theorem Search_answers (c : Docs) (query : string) (limit : Z) :
  Forall (λ p, (String.length (Lower (pg_plain p)) <= String.length (pg_plain p))%nat) (dc_pages c) -> is_Some (Search c query limit).
Proof.
  intros H. unfold Search. cbv zeta. case_bool_decide; [by eexists|]. apply mapM_is_Some. apply Forall_forall. intros m Hm.
  apply elem_of_take in Hm as (i & Hm & _). apply list_elem_of_lookup_2 in Hm. unfold matches in Hm. rewrite SliceStable_perm in Hm.
  apply list_elem_of_omap in Hm as (p & Hp & E). destruct (pageScore _ _ p); cbn in E; [|done]. injection E as <-. unfold compose. cbn [fst].
  rewrite Forall_forall in H. specialize (H p Hp). match goal with |- context [snippetFor ?q ?n ?t] => destruct (snippet_within q n t H) as [s E]; rewrite E end. by eexists.
Qed.

End unicode.

(** A page of letters whose lower case is a byte longer, and a word after them:
    the place the word has in the lower-cased text is past the end of the page. *)
Definition stretching : Unicode :=
  {| lowerOther r := if String.eqb r (String (byte_of 200) (schar (byte_of 186))) then String (byte_of 226) (String (byte_of 177) (schar (byte_of 165))) else r;
     letterOther _ := true |}.

Definition stretchedPage : Page :=
  mkPage_ "a.md" "A" "Other" "" [] 1 "" (foldr (λ _ acc, String (byte_of 200) (String (byte_of 186) acc)) " needle" (seq 0 80)) 0.

Example snippet_panics : snippetFor (U := stretching) stretchedPage "needle" ["needle"] = None.
Proof. by vm_compute. Qed.

(** ** Files *)

(** A relative path of plain elements. *)
Definition inside (name : string) : Prop := ∃ elems, elems ≠ [] ∧ Forall plainElem elems ∧ name = StrJoin elems "/".

Lemma rooted_rest p : IsAbs p = true -> sdrop 1 (Clean p) = "" ∨ inside (sdrop 1 (Clean p)).
Proof.
  intros H. destruct (Clean_rooted p H) as (elems & E & F). rewrite E. change (sdrop 1 ("/" +:+ ?s)) with s.
  destruct elems as [|x l]; [by left|right]. by exists (x :: l).
Qed.

Lemma assetPath_inside name path : assetPath name = Some path -> inside path ∧ HasPrefix path assetPrefix = true.
Proof.
  unfold assetPath. cbv zeta. case_match eqn:B; [done|]. intros [= <-]. apply orb_false_iff in B as [B P]. apply orb_false_iff in B as [B _].
  apply bool_decide_eq_false in B. apply negb_false_iff in P. split; [|done].
  destruct (rooted_rest ("/" +:+ name)) as [?|?]; [change (IsAbs ("/" +:+ name)) with (HasPrefix ("/" +:+ name) "/"); apply HasPrefix_app|done|done].
Qed.

(** What a request for an image reads is under the directory of images. *)
Theorem assets_confined (fs1 fs2 : FS) (name : string) :
  (∀ path, inside path -> HasPrefix path assetPrefix = true -> fs1 path = fs2 path) ->
  handleDocsAsset (Some fs1) name = handleDocsAsset (Some fs2) name.
Proof.
  intros H. unfold handleDocsAsset, Asset. destruct (assetPath name) as [path|] eqn:E; [|done]. cbn [mbind option_bind].
  apply assetPath_inside in E as [I P]. by rewrite (H path I P).
Qed.

Lemma staticName_inside path : IsAbs path = true -> inside (staticName path).
Proof.
  intros H. unfold staticName. destruct (Clean_rooted path H) as (elems & E & F). rewrite E. cbv zeta.
  assert (T : ∀ s, TrimPrefix ("/" +:+ s) "/" = s) by (intros s; unfold TrimPrefix; by rewrite HasPrefix_app).
  rewrite T. case_match eqn:B; [|exists elems; split_and!; [|done|done]].
  - exists ["index.html"]. split_and!; [done|by repeat constructor|done].
  - intros ->. done.
Qed.

Lemma join_inside name : inside name -> inside (PathJoin [name; "index.html"]).
Proof.
  intros (elems & Hne & F & ->). exists (elems ++ ["index.html"]). assert (F' : Forall plainElem (elems ++ ["index.html"])) by (apply Forall_app; split; [done|by repeat constructor]).
  assert (Hne' : elems ++ ["index.html"] ≠ []) by by destruct elems. split_and!; [done|done|].
  unfold PathJoin. rewrite !filter_cons_True, filter_nil by (done || by apply StrJoin_plain_ne). cbn [bool_decide].
  rewrite bool_decide_eq_false_2 by done. change (StrJoin [?a; ?b] "/") with (a +:+ "/" +:+ b).
  change "index.html" with (StrJoin ["index.html"] "/") at 1. rewrite <- StrJoin_slash by done. by apply (Clean_key (elems ++ ["index.html"])).
Qed.

(** What a request outside the interface reads is inside the files of the panel. *)
Theorem static_confined (fs1 fs2 : FS) (method path : string) :
  IsAbs path = true -> (∀ name, inside name -> fs1 name = fs2 name) -> handleStatic (Some fs1) method path = handleStatic (Some fs2) method path.
Proof.
  intros Ha H. pose proof (staticName_inside path Ha) as I. unfold handleStatic.
  assert (S : serveIndex fs1 method = serveIndex fs2 method).
  { unfold serveIndex. rewrite H; [done|]. exists ["index.html"]. split_and!; [done|by repeat constructor|done]. }
  assert (O : openStatic fs1 (staticName path) = openStatic fs2 (staticName path)).
  { unfold openStatic. rewrite (H _ I). destruct (fs2 (staticName path)) as [[]|]; [|done..]. by rewrite (H _ (join_inside _ I)). }
  by rewrite O, S.
Qed.

(** A path that is no file of the panel gets its page, so that the panel can
    route it; the page is asked for again every time. *)
Theorem static_page (static : FS) (method path : string) (page : Opened) :
  HasPrefix path "/api/" = false -> method = "GET" ∨ method = "HEAD" -> static "index.html" = Some page ->
  (openStatic static (staticName path) = None ->
     handleStatic (Some static) method path
     = File (mkServed None (Some "text/html; charset=utf-8") "no-cache" (if String.eqb method "HEAD" then "" else copied page)))
  ∧ ∃ f, handleStatic (Some static) method path = File f
         ∧ (sv_CacheControl f = "no-cache" ∨ ∃ name o, openStatic static (staticName path) = Some (name, o) ∧ HasPrefix name "assets/" = true).
Proof.
  intros Ha Hm Hi. unfold handleStatic. rewrite Ha.
  assert (negb (String.eqb method "GET") && negb (String.eqb method "HEAD") = false) as -> by by destruct Hm as [->| ->].
  assert (S : serveIndex static method = File (mkServed None (Some "text/html; charset=utf-8") "no-cache" (if String.eqb method "HEAD" then "" else copied page)))
    by (unfold serveIndex; by rewrite Hi).
  destruct (openStatic static (staticName path)) as [[name f]|] eqn:O.
  - split; [done|]. rewrite S. destruct (HasPrefix name "assets/") eqn:P.
    + destruct f as [|[] [] body]; (eexists; split; [done|]; right; eexists _, _; by split).
    + destruct f as [|[] [] body]; (eexists; split; [done|]; by left).
  - split; [done|]. rewrite S. eexists. split; [done|]. by left.
Qed.

(** Each script of the page has its hash in the list, once. *)
Lemma hashes_distinct (Sum256 : string -> string) (static : option FS) : NoDup (inlineScriptHashes Sum256 static).
Proof.
  unfold inlineScriptHashes. destruct (match static with Some fsys => _ | None => None end) as [[|stats seeks body]|]; [constructor| |constructor].
  assert (N : NoDup (@nil string)) by constructor. revert N. generalize (@nil string). induction (findAll _ _ body) as [|script l IH]; intros out N; [done|].
  cbn [foldl]. apply IH. unfold addHash. cbv zeta. case_bool_decide; [done|]. case_bool_decide as D; [done|].
  apply NoDup_app. split_and!; [done| |apply NoDup_singleton]. intros x Hx Hy. apply list_elem_of_singleton in Hy as ->. done.
Qed.

Lemma hashes_complete (Sum256 : string -> string) (fsys : FS) stats seeks body script :
  fsys "index.html" = Some (File_ stats seeks body) -> script ∈ findAll scriptMatch (String.length body) body -> TrimSpace script ≠ "" ->
  scriptHash Sum256 script ∈ inlineScriptHashes Sum256 (Some fsys).
Proof.
  intros E Hs Hne. unfold inlineScriptHashes. rewrite E.
  assert (K : ∀ l out h, h ∈ out -> h ∈ foldl (addHash Sum256) out l).
  { induction l as [|s l IH]; intros out h Hh; [done|]. cbn [foldl]. apply IH. unfold addHash. cbv zeta. repeat case_bool_decide; [done..|]. apply elem_of_app. by left. }
  revert Hs. generalize (@nil string). induction (findAll _ _ body) as [|s l IH]; intros out Hs; [by apply elem_of_nil in Hs|]. cbn [foldl].
  apply elem_of_cons in Hs as [<-|Hs]; [|by apply IH]. apply K. unfold addHash. cbv zeta. rewrite bool_decide_eq_false_2 by done.
  case_bool_decide; [done|]. apply elem_of_app. right. by left.
Qed.

End DocsFacts.

(** * What the lists promise *)

Module MetaFacts.
Import Meta.

(** ** Sorting does not depend on the order of the input *)

Lemma ltb_neq s t : String.ltb s t = false -> String.ltb t s = false -> s = t.
Proof.
  revert t. induction s as [|a s IH]; intros [|b t]; [done..|]. rewrite !ltb_cons.
  destruct (N.ltb_spec (N_of_ascii a) (N_of_ascii b)), (N.ltb_spec (N_of_ascii b) (N_of_ascii a)); try done.
  intros H1 H2. f_equal; [|by apply IH]. rewrite <- (ascii_N_embedding a), <- (ascii_N_embedding b). f_equal. lia.
Qed.

(** Of two sorted lists of the same elements, no two of which share their key,
    the elements come in the same order. *)
Lemma sorted_same {A} (key : A -> string) (l k : list A) :
  NoDup (key <$> l) -> l ≡ₚ k ->
  StronglySorted (λ x y, String.ltb (key y) (key x) = false) l -> StronglySorted (λ x y, String.ltb (key y) (key x) = false) k -> l = k.
Proof.
  intros N P Sl. revert k N P. induction Sl as [|x l Sl IH Fx]; intros k N P Sk; [by apply Permutation_nil_l in P|].
  destruct Sk as [|y k Sk Fy]; [by apply symmetry, Permutation_nil_cons in P|].
  assert (x = y) as ->.
  { assert (Hx : x ∈ y :: k) by (rewrite <- P; by left). assert (Hy : y ∈ x :: l) by (rewrite P; by left).
    apply elem_of_cons in Hx as [->|Hx]; [done|]. apply elem_of_cons in Hy as [->|Hy]; [done|]. exfalso.
    rewrite Forall_forall in Fx, Fy. pose proof (ltb_neq _ _ (Fy _ Hx) (Fx _ Hy)) as E.
    rewrite fmap_cons in N. apply NoDup_cons in N as [N _]. apply N. rewrite E. by apply list_elem_of_fmap_2. }
  f_equal. rewrite fmap_cons in N. apply NoDup_cons in N as [_ N]. apply (IH k N); [by apply Permutation_cons_inv in P|done].
Qed.

(** The drivers of a registry come in one order, whatever order the map is
    ranged over. *)
Theorem Specs_order (l k : list DriverSpec) : NoDup (spec_Label <$> l) -> l ≡ₚ k -> ordered l = ordered k.
Proof.
  intros N P. unfold ordered. apply (sorted_same spec_Label).
  - by rewrite SliceStable_perm.
  - by rewrite !SliceStable_perm.
  - apply SliceStable_text.
  - apply SliceStable_text.
Qed.

(** The program starts without a panic, and its drivers have different labels. *)
Example all_registered :
  (∃ s d n, registered ∅ sources = Some s ∧ registered ∅ destinations = Some d ∧ registered ∅ notifiers = Some n
            ∧ length (Specs s) = 10%nat ∧ length (Specs d) = 4%nat ∧ length (Specs n) = 6%nat)
  ∧ bool_decide (NoDup (spec_Label <$> sources) ∧ NoDup (spec_Label <$> destinations) ∧ NoDup (spec_Label <$> notifiers)) = true.
Proof. split; [|by vm_compute]. by eexists _, _, _. Qed.

(** ** The tools *)

(** Which tools are in the list and what uses them. *)
Lemma usedBy_spec uses m tool :
  foldl addTool m uses !! tool =
  match filter (λ u : string * string, TrimSpace u.1 = tool) uses, m !! tool with
  | [], old => old
  | us, old => if bool_decide (tool = "") then old else Some (default ∅ old ∪ list_to_set (filter (λ k, k ≠ "") us.*2))
  end.
Proof.
  revert m. induction uses as [|u uses IH]; intros m; [done|]. cbn [foldl]. rewrite IH. unfold addTool. cbv zeta.
  destruct (decide (TrimSpace u.1 = tool)) as [E|E].
  - rewrite (filter_cons_True _ u) by done. rewrite E. case_bool_decide as Et.
    + subst tool. by destruct (filter _ uses).
    + rewrite lookup_insert_eq. assert (K : ∀ old l, (if bool_decide (u.2 ≠ "") then {[u.2]} ∪ old else old) ∪ list_to_set (filter (λ k, k ≠ "") l)
                                            = old ∪ list_to_set (filter (λ k, k ≠ "") (u.2 :: l)) :> gset string).
      { intros old l. case_bool_decide as Eu; [rewrite filter_cons_True by exact Eu|by rewrite filter_cons_False by (intros Q; by apply Q)]. cbn. set_solver. }
      destruct (filter _ uses) as [|v us]; cbn [fmap list_fmap default].
      * f_equal. rewrite <- (K _ []). cbn. set_solver.
      * f_equal. apply K.
  - rewrite (filter_cons_False _ u) by done. assert (U : ∀ x : gset string, <[TrimSpace u.1 := x]> m !! tool = m !! tool) by (intros x; by rewrite lookup_insert_ne).
    destruct (bool_decide (TrimSpace u.1 = "")); [done|]. by rewrite U.
Qed.

(** The kinds that use a tool. *)
Definition users (uses : list (string * string)) (tool : string) : gset string :=
  list_to_set (filter (λ k, k ≠ "") (filter (λ u : string * string, TrimSpace u.1 = tool) uses).*2).

Lemma usedBy_users uses tool :
  foldl addTool ∅ uses !! tool = if bool_decide (tool ≠ "" ∧ tool ∈ (λ u : string * string, TrimSpace u.1) <$> uses) then Some (users uses tool) else None.
Proof.
  rewrite usedBy_spec, lookup_empty. unfold users.
  assert (M : tool ∈ (λ u : string * string, TrimSpace u.1) <$> uses <-> filter (λ u : string * string, TrimSpace u.1 = tool) uses ≠ []).
  { split.
    - intros (u & -> & Hu)%list_elem_of_fmap E. apply (elem_of_nil u). rewrite <- E. by apply list_elem_of_filter.
    - destruct (filter _ uses) as [|u us] eqn:E; [done|]. intros _. assert (Hu : u ∈ u :: us) by by left. rewrite <- E in Hu.
      apply list_elem_of_filter in Hu as [<- Hu]. by apply (list_elem_of_fmap_2 (λ u : string * string, TrimSpace u.1)). }
  destruct (filter _ uses) as [|u us] eqn:E; [rewrite bool_decide_eq_false_2; [done|intros [_ H]; by apply M in H]|].
  case_bool_decide as T; [rewrite bool_decide_eq_false_2; [done|tauto]|]. rewrite bool_decide_eq_true_2 by (split; [done|by apply M]). cbn [default]. f_equal. set_solver.
Qed.

Lemma stake_length_le n s : (String.length (stake n s) <= n)%nat.
Proof. revert s. induction n as [|n IH]; intros [|a s]; cbn; [lia..|]. specialize (IH s). lia. Qed.

Lemma Strings_sorted l : StronglySorted (λ x y, String.ltb y x = false) (Strings l).
Proof. apply (SliceStable_text id). Qed.

(** The list of the tools: in order and each once, those that something names,
    with all that use them; it is the same in whatever order the maps of tools and
    drivers are ranged over, and however the probes interleave. *)
Theorem Tools_listed (LookPath : string -> option string) (run : string -> list string -> string * bool) (uses uses' : list (string * string)) :
  let l := toolList LookPath run uses in
  StronglySorted (λ x y, String.ltb y x = false) (tool_Name <$> l) ∧ NoDup (tool_Name <$> l)
  ∧ (∀ tool, tool ∈ tool_Name <$> l <-> tool ≠ "" ∧ tool ∈ (λ u : string * string, TrimSpace u.1) <$> uses)
  ∧ (∀ s, s ∈ l -> list_to_set (tool_UsedBy s) = users uses (tool_Name s)
                  ∧ tool_Available s = bool_decide (is_Some (LookPath (tool_Name s))) ∧ (String.length (tool_Version s) <= 120)%nat)
  ∧ (uses ≡ₚ uses' -> toolList LookPath run uses' = l).
Proof.
  intros l. assert (Nm : tool_Name <$> l = Strings (map_to_list (foldl addTool ∅ uses)).*1).
  { unfold l, toolList. rewrite <- list_fmap_compose. rewrite <- (list_fmap_id (Strings _)) at 2. apply list_fmap_ext. intros i x _. cbn. unfold probe. by destruct (LookPath x). }
  assert (K : ∀ tool, tool ∈ Strings (map_to_list (foldl addTool ∅ uses)).*1 <-> tool ≠ "" ∧ tool ∈ (λ u : string * string, TrimSpace u.1) <$> uses).
  { intros tool. unfold Strings. rewrite SliceStable_perm. split.
    - intros ([t ks] & -> & H)%list_elem_of_fmap. apply elem_of_map_to_list in H. rewrite usedBy_users in H. by case_bool_decide.
    - intros H. apply list_elem_of_fmap. exists (tool, users uses tool). split; [done|]. apply elem_of_map_to_list. rewrite usedBy_users. by rewrite bool_decide_eq_true_2. }
  split_and!.
  - rewrite Nm. apply Strings_sorted.
  - rewrite Nm. unfold Strings. rewrite SliceStable_perm. apply NoDup_fst_map_to_list.
  - intros tool. rewrite Nm. apply K.
  - intros s (name & -> & Hs)%list_elem_of_fmap. pose proof Hs as Q. apply K in Q. rewrite usedBy_users, bool_decide_eq_true_2 by done. cbn [default].
    assert (E : list_to_set (Strings (elements (users uses name))) = users uses name) by (unfold Strings; rewrite SliceStable_perm; apply list_to_set_elements_L).
    unfold probe. destruct (LookPath name) as [path|] eqn:Lp; cbn [tool_UsedBy tool_Name tool_Available tool_Version]; rewrite Lp; (split_and!; [exact E|done|]); [|cbn; lia]. unfold toolVersion. destruct (run path _) as [output failed].
    destruct (failed && _); [cbn; lia|]. apply stake_length_le.
  - intros P. unfold l, toolList. replace (foldl addTool ∅ uses') with (foldl addTool ∅ uses); [done|]. apply map_eq. intros tool. rewrite !usedBy_users.
    assert (Eu : users uses tool = users uses' tool) by (unfold users; by rewrite P). rewrite Eu.
    by rewrite (bool_decide_ext _ (tool ≠ "" ∧ tool ∈ (λ u : string * string, TrimSpace u.1) <$> uses')) by by rewrite P.
Qed.

(** ** The check *)

(** The check finds nothing wrong when, and only when, a start would come to its
    configuration and its key. *)
Theorem check_foretells {sur : Startup.Settings.Surroundings} (LookPath : string -> option string) (run : string -> list string -> string * bool)
    (specs : list DriverSpec) (f : Startup.Settings.Flags) (rand : result string) (sys : Sys) (d : Disk) :
  (check LookPath run specs f rand sys d).1.1 = [] <-> ∃ cfg key, (Startup.prepare f rand sys d).1 = Ok (cfg, key).
Proof.
  unfold check, Startup.prepare, mbind, FS_bind. destruct (Startup.Settings.Load f sys d) as [[cfg|err] d1]; cbn -[Startup.Settings.EnsureDirs Startup.Key.LoadKey]; [|split; [done|by intros (? & ? & ?)]].
  destruct (Startup.Settings.EnsureDirs cfg sys d1) as [[err|] d2]; cbn -[Startup.Settings.EnsureDirs Startup.Key.LoadKey].
  - destruct (Startup.Key.LoadKey (Startup.Settings.MasterKey cfg) (Startup.Settings.MasterKeyFile cfg) rand sys d2) as [k d3]; cbn -[Startup.Settings.EnsureDirs Startup.Key.LoadKey]. split; [done|by intros (? & ? & ?)].
  - destruct (Startup.Key.LoadKey (Startup.Settings.MasterKey cfg) (Startup.Settings.MasterKeyFile cfg) rand sys d2) as [[key|err] d3]; cbn -[Startup.Settings.EnsureDirs Startup.Key.LoadKey]; (split; [|]); try done; [by exists cfg, key|by intros (? & ? & ?)].
Qed.

(** ** The time zones *)

Lemma timezones_ok : head timezones = Some "UTC" ∧ timezones ≡ₚ commonTimezones ∧ StronglySorted (λ x y, String.ltb y x = false) (tail timezones).
Proof.
  split_and!; [done| |exact (Strings_sorted (drop 1 commonTimezones))]. unfold timezones, Strings. by rewrite SliceStable_perm, take_drop.
Qed.

End MetaFacts.
