(* ===== verification/Migrations.v ===== *)
(** * Opening the database: [Open], [migrate] and [Close] of
      [internal/store/store.go]

    The file of the database holds a schema with its data, which is a parameter
    with what a script does to it, and the numbers of the migrations that were
    applied.  Every statement may fail, with nothing done: the process may be
    stopped anywhere and start again. *)
From S2P Require Import Prelude GoStrings GoTime GoSlices GoPath GoHttp.
Open Scope Z_scope.

(** An entry of the directory of scripts that is built into the program. *)
Record Entry := mkEntry { en_Name : string; en_IsDir : bool; en_Body : result string }.

Record migration := mkMigration { mg_version : Z; mg_name : string }.

(** [strings.SplitN(name, "_", 2)[0]]. *)
Definition beforeUnderscore (name : string) : string := match IndexByte name "_" with Some i => stake i name | None => name end.

Fixpoint listed (entries : list Entry) : result (list migration) :=
  match entries with
  | [] => Ok []
  | e :: entries =>
      if en_IsDir e || negb (HasSuffix (en_Name e) ".sql") then listed entries
      else match Atoi (beforeUnderscore (en_Name e)) with
           | None => Fail (newError ("migration " +:+ en_Name e +:+ " has no numeric prefix: invalid syntax"))
           | Some v => match listed entries with Ok l => Ok (mkMigration v (en_Name e) :: l) | Fail err => Fail err end
           end
  end.

Definition older (a b : migration) : bool := mg_version a <? mg_version b.

(** [migrationList]. *)
Definition migrationList (entries : result (list Entry)) : result (list migration) :=
  match entries with
  | Fail err => Fail (wrapError "list migrations" err)
  | Ok entries => match listed entries with Ok l => Ok (SliceStable older l) | Fail err => Fail err end
  end.

(** The address the driver is given; [q.Encode()] has the names in order. *)
Definition pragmas : list string := ["busy_timeout(5000)"; "journal_mode(WAL)"; "foreign_keys(1)"; "synchronous(NORMAL)"].

Definition dsn (path : string) (writer : bool) : string :=
  "file:" +:+ path +:+ "?" +:+ StrJoin (((λ p, "_pragma=" +:+ QueryEscape p) <$> pragmas) ++ (if writer then ["_txlock=immediate"] else [])) "&".

Section store.
  Context {Schema : Type} (run : string -> Schema -> result Schema).

(** The file: the rows of [schema_migrations], when there is the table. *)
Record File := mkFile { fl_Versions : option (gset Z); fl_Schema : Schema }.

(** Programs over the file; [faults] says which statements fail. *)
Definition Sql (A : Type) : Type := (nat -> option error) -> nat * File -> A * (nat * File).

Definition done_ {A} (x : A) : Sql A := λ _ s, (x, s).

Definition statement {A} (act : File -> result A * File) : Sql (result A) := λ faults s,
  match faults s.1 with
  | Some err => (Fail err, (S s.1, s.2))
  | None => let '(r, f) := act s.2 in (r, (S s.1, f))
  end.

(** The next statement, unless this one failed, with what its error is wrapped in. *)
Definition andThen {A B} (m : Sql (result A)) (prefix : string) (k : A -> Sql (result B)) : Sql (result B) := λ faults s,
  let '(r, s') := m faults s in
  match r with Ok a => k a faults s' | Fail err => (Fail (wrapError prefix err), s') end.

Definition createTable : Sql (result unit) := statement (λ f, (Ok tt, mkFile (Some (default ∅ (fl_Versions f))) (fl_Schema f))).

Definition selectVersions : Sql (result (gset Z)) :=
  statement (λ f, (match fl_Versions f with Some l => Ok l | None => Fail (newError "no such table: schema_migrations") end, f)).

(** A transaction: what it has written is seen by its own statements, and by the
    file when it commits. *)
Definition begin_ : Sql (result unit) := statement (λ f, (Ok tt, f)).

Definition execScript (body : string) : Sql (result Schema) := statement (λ f, (run body (fl_Schema f), f)).

Definition insertVersion (v : Z) : Sql (result (gset Z)) :=
  statement (λ f, (let l := default ∅ (fl_Versions f) in
                   if bool_decide (v ∈ l) then Fail (newError "UNIQUE constraint failed: schema_migrations.version") else Ok ({[ v ]} ∪ l), f)).

Definition commit (l : gset Z) (schema : Schema) : Sql (result unit) := statement (λ _, (Ok tt, mkFile (Some l) schema)).

(** [fs.ReadFile] of a script. *)
Definition readScript (entries : list Entry) (name : string) : result string :=
  match List.find (λ e, String.eqb (en_Name e) name) entries with Some e => en_Body e | None => Fail (newError "file does not exist") end.

Definition applyMigration (entries : list Entry) (m : migration) : Sql (result unit) :=
  match readScript entries (mg_name m) with
  | Fail err => done_ (Fail (wrapError ("read migration " +:+ mg_name m) err))
  | Ok body =>
      andThen begin_ ("begin migration " +:+ mg_name m) (λ _,
      andThen (execScript body) ("apply migration " +:+ mg_name m) (λ schema,
      andThen (insertVersion (mg_version m)) ("record migration " +:+ mg_name m) (λ l,
      andThen (commit l schema) ("commit migration " +:+ mg_name m) (λ _, done_ (Ok tt)))))
  end.

(** The loop, over what was applied when it began. *)
Fixpoint applyAll (entries : list Entry) (applied : gset Z) (l : list migration) : Sql (result unit) :=
  match l with
  | [] => done_ (Ok tt)
  | m :: l =>
      if bool_decide (mg_version m ∈ applied) then applyAll entries applied l
      else λ faults s, let '(r, s') := applyMigration entries m faults s in
                       match r with Ok _ => applyAll entries applied l faults s' | Fail err => (Fail err, s') end
  end.

Definition migrate (entries : result (list Entry)) : Sql (result unit) :=
  andThen createTable "create schema_migrations" (λ _,
  andThen selectVersions "read schema_migrations" (λ applied,
  match migrationList entries with
  | Fail err => done_ (Fail err)
  | Ok l => applyAll (match entries with Ok es => es | Fail _ => [] end) applied l
  end)).

(** [Open]: what making the directory, opening the file twice and the ping say,
    and the migrations. *)
Definition Open (entries : result (list Entry)) (path : string) (mkdir : string -> option error) (open_ : string -> option error) (ping : option error)
    : Sql (result unit) :=
  let dir := Dir path in
  match (if bool_decide (dir ≠ "") && bool_decide (dir ≠ ".") then mkdir dir else None) with
  | Some err => done_ (Fail (wrapError ("create database directory " +:+ dir) err))
  | None =>
      match open_ (dsn path true), open_ (dsn path false) with
      | Some err, _ | None, Some err => done_ (Fail (wrapError ("open sqlite " +:+ path) err))
      | None, None =>
          match ping with
          | Some err => done_ (Fail (wrapError ("open database " +:+ path) err))
          | None => migrate entries
          end
      end
  end.

(** [Close]: the first error, of the pools there are. *)
Definition Close (read write : option (option error)) : option error :=
  match read with
  | Some (Some err) => Some err
  | _ => match write with Some (Some err) => Some err | _ => None end
  end.

(** [Ping]. *)
Definition Ping (ping : option error) : option error := match ping with Some err => Some (wrapError "ping database" err) | None => None end.

(** A process that starts, and maybe fails, again and again. *)
Fixpoint starts (entries : result (list Entry)) (attempts : list (nat -> option error)) (f : File) : File :=
  match attempts with
  | [] => f
  | faults :: attempts => starts entries attempts (migrate entries faults (0%nat, f)).2.2
  end.

(** ** What the file holds *)

Section facts.
  Context (entries : list Entry) (first : Schema).

(** The scripts one after the other. *)
Fixpoint applied (l : list migration) (schema : Schema) : result Schema :=
  match l with
  | [] => Ok schema
  | m :: l =>
      match readScript entries (mg_name m) with
      | Fail err => Fail err
      | Ok body => match run body schema with Ok schema => applied l schema | Fail err => Fail err end
      end
  end.

(** The file after the first [k] migrations of [l]. *)
Definition stage (l : list migration) (k : nat) (f : File) : Prop :=
  default ∅ (fl_Versions f) = list_to_set (mg_version <$> take k l) ∧ applied (take k l) first = Ok (fl_Schema f).

Lemma applied_app l k schema : applied (l ++ k) schema = match applied l schema with Ok s => applied k s | Fail err => Fail err end.
Proof.
  revert schema. induction l as [|m l IH]; intros schema; [done|]. cbn [applied app]. destruct (readScript entries (mg_name m)) as [body|err]; [|done].
  destruct (run body schema); [apply IH|done].
Qed.

Lemma not_before l k j m : NoDup (mg_version <$> l) -> (k <= j)%nat -> l !! j = Some m -> mg_version m ∉ (list_to_set (mg_version <$> take k l) : gset Z).
Proof.
  intros N Hk Hm. rewrite elem_of_list_to_set. intros (m' & E & Hm')%list_elem_of_fmap. apply elem_of_take in Hm' as (i & Hi & Hik).
  assert (i = j); [|lia]. eapply (NoDup_lookup (mg_version <$> l)); [done| |]; rewrite list_lookup_fmap; [by rewrite Hi|by rewrite Hm, <- E].
Qed.

(** A migration is applied and recorded, or nothing happened. *)
Lemma applyMigration_stage l k m faults n f : NoDup (mg_version <$> l) -> l !! k = Some m -> stage l k f ->
  let '(r, (n', f')) := applyMigration entries m faults (n, f) in
  match r with Ok _ => stage l (S k) f' | Fail _ => f' = f end.
Proof.
  intros N Hm [V A]. unfold applyMigration. destruct (readScript entries (mg_name m)) as [body|err] eqn:R; [|done].
  unfold andThen, begin_, execScript, insertVersion, commit, statement, done_. cbn [fst snd].
  destruct (faults n); [done|]. cbn [fst snd]. destruct (faults (S n)); [done|]. cbn [fst snd].
  destruct (run body (fl_Schema f)) as [schema|err] eqn:E; [|done]. destruct (faults (S (S n))); [done|]. cbn [fst snd].
  case_bool_decide; [done|]. destruct (faults (S (S (S n)))); [done|]. cbn [fst snd]. unfold stage. cbn [fl_Versions fl_Schema default].
  rewrite (take_S_r _ _ _ Hm), V. split.
  - rewrite fmap_app, list_to_set_app_L. cbn. set_solver.
  - rewrite applied_app, A. cbn [applied]. by rewrite R, E.
Qed.

(** Without faults, and with scripts that run, it is applied. *)
Lemma applyMigration_ok l k m n f : NoDup (mg_version <$> l) -> l !! k = Some m -> stage l k f -> (∃ s, applied l first = Ok s) ->
  (applyMigration entries m (λ _, None) (n, f)).1 = Ok tt.
Proof.
  intros N Hm [V A] [s Hs]. rewrite <- (take_drop_middle l k m Hm), applied_app, A in Hs. cbn [applied] in Hs.
  unfold applyMigration. destruct (readScript entries (mg_name m)) as [body|err]; [|done].
  unfold andThen, begin_, execScript, insertVersion, commit, statement, done_. cbn [fst snd].
  destruct (run body (fl_Schema f)) as [schema|err]; [|done]. rewrite V, bool_decide_eq_false_2; [done|].
  rewrite elem_of_list_to_set. rewrite <- (take_drop_middle l k m Hm), fmap_app in N. apply NoDup_app in N as (_ & N & _). intros H. apply (N _ H). by left.
Qed.

Lemma applyAll_stage l k faults n f : NoDup (mg_version <$> l) -> stage l k f -> (k <= length l)%nat ->
  ∃ k', (k <= k' <= length l)%nat
        ∧ let '(r, (n', f')) := applyAll entries (default ∅ (fl_Versions f)) (drop k l) faults (n, f) in
          stage l k' f' ∧ (r = Ok tt -> k' = length l).
Proof.
  intros N H Hk.
  assert (G : ∀ j n f old, stage l j f -> (j <= length l)%nat -> old = list_to_set (mg_version <$> take k l) -> (k <= j)%nat ->
              ∃ k', (j <= k' <= length l)%nat ∧ let '(r, (n', f')) := applyAll entries old (drop j l) faults (n, f) in stage l k' f' ∧ (r = Ok tt -> k' = length l)).
  { clear n f H Hk. intros j. remember (length l - j)%nat as d eqn:D. revert j D. induction d as [|d IH]; intros j D n f old H Hj Ho Hkj.
    - exists j. rewrite drop_ge by lia. cbn. split; [lia|]. split; [done|lia].
    - destruct (lookup_lt_is_Some_2 l j) as [m Hm]; [lia|]. rewrite (drop_S _ _ _ Hm). cbn [applyAll]. rewrite bool_decide_eq_false_2.
      + pose proof (applyMigration_stage l j m faults n f N Hm H) as Q. destruct (applyMigration entries m faults (n, f)) as [[u|err] [n' f']]; cbn in Q.
        * destruct (IH (S j) ltac:(lia) n' f' old Q ltac:(lia) Ho ltac:(lia)) as (k' & Hk' & R). exists k'. split; [lia|done].
        * subst f'. exists j. split; [lia|]. by split.
      + subst old. apply (not_before l k j); [done|lia|done]. }
  apply (G k n f _ H Hk); [by destruct H|done].
Qed.

Lemma applyAll_skip old l k faults s : (∀ m, m ∈ take k l -> mg_version m ∈ old) -> applyAll entries old l faults s = applyAll entries old (drop k l) faults s.
Proof.
  revert l. induction k as [|k IH]; intros [|m l] H; [done..|]. cbn [take drop applyAll] in *. rewrite bool_decide_eq_true_2; [|apply H; by left].
  apply IH. intros m' Hm. apply H. by right.
Qed.

Lemma applyMigration_table m faults n f : is_Some (fl_Versions f) -> is_Some (fl_Versions (applyMigration entries m faults (n, f)).2.2).
Proof.
  intros H. unfold applyMigration. destruct (readScript entries (mg_name m)) as [body|err]; [|done].
  unfold andThen, begin_, execScript, insertVersion, commit, statement, done_. cbn [fst snd].
  destruct (faults n); [done|]. cbn [fst snd]. destruct (faults (S n)); [done|]. cbn [fst snd]. destruct (run body (fl_Schema f)); [|done].
  destruct (faults (S (S n))); [done|]. cbn [fst snd]. case_bool_decide; [done|]. destruct (faults (S (S (S n)))); [done|]. by eexists.
Qed.

Lemma applyAll_table l old faults n f : is_Some (fl_Versions f) -> is_Some (fl_Versions (applyAll entries old l faults (n, f)).2.2).
Proof.
  revert n f. induction l as [|m l IH]; intros n f H; [done|]. cbn [applyAll]. case_bool_decide; [by apply IH|].
  pose proof (applyMigration_table m faults n f H) as T. destruct (applyMigration entries m faults (n, f)) as [[u|err] [n' f']]; [by apply IH|done].
Qed.

Lemma migrate_stage l k faults n f : migrationList (Ok entries) = Ok l -> NoDup (mg_version <$> l) -> stage l k f -> (k <= length l)%nat ->
  ∃ k', (k <= k' <= length l)%nat
        ∧ let '(r, (n', f')) := migrate (Ok entries) faults (n, f) in stage l k' f' ∧ (r = Ok tt -> k' = length l ∧ is_Some (fl_Versions f')).
Proof.
  intros L N H Hk. unfold migrate, andThen, createTable, selectVersions, statement, done_. cbn [fst snd].
  destruct (faults n); [by exists k|]. cbn [fst snd]. set (f1 := mkFile _ _). assert (H1 : stage l k f1) by exact H.
  destruct (faults (S n)); [by exists k|]. change (fl_Versions f1) with (Some (default ∅ (fl_Versions f))). cbn [fst snd]. rewrite L. cbv beta iota.
  destruct (applyAll_stage l k faults (S (S n)) f1 N H1 Hk) as (k' & Hk' & Q). exists k'. split; [done|].
  rewrite (applyAll_skip _ l k); [|intros m Hm; rewrite (proj1 H); apply elem_of_list_to_set; by apply list_elem_of_fmap_2].
  change (default ∅ (fl_Versions f1)) with (default ∅ (fl_Versions f)) in Q.
  pose proof (applyAll_table (drop k l) (default ∅ (fl_Versions f)) faults (S (S n)) f1 ltac:(by eexists)) as T.
  destruct (applyAll _ _ _ _ _) as [r [n' f']]. destruct Q as [Q1 Q2]. split; [done|]. intros E. split; [by apply Q2|exact T].
Qed.

Lemma applyAll_ok l k n f : NoDup (mg_version <$> l) -> stage l k f -> (k <= length l)%nat -> (∃ s, applied l first = Ok s) ->
  (applyAll entries (default ∅ (fl_Versions f)) (drop k l) (λ _, None) (n, f)).1 = Ok tt.
Proof.
  intros N H Hk Hs. destruct H as [V A]. rewrite V. assert (H : stage l k f) by done. clear V A.
  assert (G : ∀ j n f, stage l j f -> (k <= j <= length l)%nat -> (applyAll entries (list_to_set (mg_version <$> take k l)) (drop j l) (λ _, None) (n, f)).1 = Ok tt); [|by apply G].
  clear n f H Hk. intros j. remember (length l - j)%nat as d eqn:D. revert j D. induction d as [|d IH]; intros j D n f H Hj.
  - by rewrite drop_ge by lia.
  - destruct (lookup_lt_is_Some_2 l j) as [m Hm]; [lia|]. rewrite (drop_S _ _ _ Hm). cbn [applyAll]. rewrite bool_decide_eq_false_2 by (apply (not_before l k j); [done|lia|done]).
    pose proof (applyMigration_stage l j m (λ _, None) n f N Hm H) as Q. pose proof (applyMigration_ok l j m n f N Hm H Hs) as O.
    destruct (applyMigration entries m (λ _, None) (n, f)) as [[u|err] [n' f']]; cbn in *; [|done]. apply IH; [lia|done|lia].
Qed.

(** Without faults, scripts that run are applied. *)
Lemma migrate_ok l k n f : migrationList (Ok entries) = Ok l -> NoDup (mg_version <$> l) -> stage l k f -> (k <= length l)%nat -> (∃ s, applied l first = Ok s) ->
  (migrate (Ok entries) (λ _, None) (n, f)).1 = Ok tt.
Proof.
  intros L N H Hk Hs. unfold migrate, andThen, createTable, selectVersions, statement, done_. cbn [fst snd fl_Versions]. rewrite L. cbv beta iota.
  set (f1 := mkFile _ _). rewrite (applyAll_skip _ l k); [|intros m Hm; rewrite (proj1 H); apply elem_of_list_to_set; by apply list_elem_of_fmap_2].
  exact (applyAll_ok l k (S (S n)) f1 N H Hk Hs).
Qed.

Lemma starts_stage l attempts k f : migrationList (Ok entries) = Ok l -> NoDup (mg_version <$> l) -> stage l k f -> (k <= length l)%nat ->
  ∃ k', (k <= k' <= length l)%nat ∧ stage l k' (starts (Ok entries) attempts f).
Proof.
  intros L N. revert k f. induction attempts as [|faults attempts IH]; intros k f H Hk; [by exists k|]. cbn [starts].
  destruct (migrate_stage l k faults 0%nat f L N H Hk) as (k1 & Hk1 & Q). destruct (migrate _ _ _) as [r [n' f']]. destruct Q as [Q _]. cbn [snd].
  destruct (IH k1 f' Q ltac:(lia)) as (k2 & Hk2 & R). exists k2. split; [lia|done].
Qed.

(** Nothing is left to apply. *)
Lemma migrate_done l f v faults : migrationList (Ok entries) = Ok l -> fl_Versions f = Some v -> v = list_to_set (mg_version <$> l) ->
  (migrate (Ok entries) faults (0%nat, f)).2.2 = f.
Proof.
  intros L V Hv. unfold migrate, andThen, createTable, selectVersions, statement, done_. cbn [fst snd].
  assert (F : mkFile (Some (default ∅ (fl_Versions f))) (fl_Schema f) = f) by (destruct f; cbn in *; by rewrite V).
  destruct (faults 0%nat); [done|]. cbn [fst snd]. rewrite F. destruct (faults 1%nat); [done|]. cbn [fst snd]. rewrite V, L. cbv beta iota.
  rewrite (applyAll_skip _ l (length l)); [by rewrite drop_ge|]. intros m Hm. rewrite take_ge in Hm by done. subst v. apply elem_of_list_to_set. by apply list_elem_of_fmap_2.
Qed.

Lemma starts_done l f v : migrationList (Ok entries) = Ok l -> NoDup (mg_version <$> l) -> stage l (length l) f -> fl_Versions f = Some v ->
  fl_Versions f = Some (list_to_set (mg_version <$> l)) ∧ ∀ later, starts (Ok entries) later f = f.
Proof.
  intros L N [Hv _] V. rewrite V, take_ge in Hv by done. cbn in Hv. split; [by rewrite V, Hv|].
  induction later as [|faults later IH]; [done|]. cbn [starts]. by rewrite (migrate_done l f v).
Qed.

(** The scripts come in the order of their numbers. *)
Lemma migrationList_sorted l : migrationList (Ok entries) = Ok l -> StronglySorted (λ a b, mg_version a <= mg_version b) l.
Proof.
  unfold migrationList. destruct (listed entries) as [k|err]; [|done]. intros [= <-].
  eapply StronglySorted_weaken; [|apply SliceStable_sorted]; unfold notLess, older; intros; rewrite ?Z.ltb_lt, ?Z.ltb_ge in *; lia.
Qed.

End facts.

(** C34: However often the process was stopped while it opened the database, the file
    holds the first migrations of the list, each whole; a start that succeeds has
    applied every one once, in the order of their numbers; where the scripts run, a
    start without faults succeeds; and later starts change nothing. *)
Theorem migrations_once (entries : list Entry) (first : Schema) (l : list migration) (attempts : list (nat -> option error)) :
  migrationList (Ok entries) = Ok l -> NoDup (mg_version <$> l) ->
  let f := starts (Ok entries) attempts (mkFile None first) in
  (∃ k, (k <= length l)%nat ∧ stage entries first l k f)
  ∧ (∀ faults, (migrate (Ok entries) faults (0%nat, f)).1 = Ok tt ->
       let f' := (migrate (Ok entries) faults (0%nat, f)).2.2 in
       fl_Versions f' = Some (list_to_set (mg_version <$> l)) ∧ applied entries l first = Ok (fl_Schema f')
       ∧ ∀ later, starts (Ok entries) later f' = f')
  ∧ ((∃ s, applied entries l first = Ok s) -> (migrate (Ok entries) (λ _, None) (0%nat, f)).1 = Ok tt).
Proof.
  intros L N f. assert (H0 : stage entries first l 0 (mkFile None first)) by done.
  destruct (starts_stage entries first l attempts 0 _ L N H0 ltac:(lia)) as (k & Hk & H). fold f in H. split_and!.
  - exists k. split; [lia|done].
  - intros faults E f'. destruct (migrate_stage entries first l k faults 0%nat f L N H ltac:(lia)) as (k' & Hk' & Q).
    subst f'. destruct (migrate (Ok entries) faults (0%nat, f)) as [r [n' f']]. cbn [fst snd] in *. destruct Q as [Q1 Q2]. destruct (Q2 E) as [-> [v V]].
    destruct (starts_done entries first l f' v L N Q1 V) as [W S]. destruct Q1 as [Qv Qa]. rewrite take_ge in Qa by lia.
    split_and!; [by rewrite W|done|exact S].
  - intros Hs. apply (migrate_ok entries first l k); try done. lia.
Qed.

(** A program with more scripts goes on where an older one stopped, when their
    numbers are higher. *)
Lemma upgrade_stage (entries entries' : list Entry) (first : Schema) (l l' : list migration) (f : File) :
  (∀ m, m ∈ l -> readScript entries' (mg_name m) = readScript entries (mg_name m)) ->
  stage entries first l (length l) f -> stage entries' first (l ++ l') (length l) f.
Proof.
  intros R [V A]. unfold stage. rewrite take_app_length. rewrite take_ge in V, A by done. split; [done|]. rewrite <- A. clear V A.
  revert first R. induction l as [|m l IH]; intros first R; [done|]. cbn [applied]. rewrite R by by left. destruct (readScript entries (mg_name m)) as [body|err]; [|done].
  destruct (run body first) as [schema|err]; [|done]. apply IH. intros m' Hm. apply R. by right.
Qed.

End store.

(** ** Instances *)

(** A schema that is the scripts it was made by. *)
Definition recordScript (body : string) (schema : list string) : result (list string) := Ok (schema ++ [body]).

Definition sampleScripts : list Entry :=
  [mkEntry "0001_init.sql" false (Ok "CREATE TABLE jobs"); mkEntry "0002_hosts.sql" false (Ok "CREATE TABLE hosts"); mkEntry "old" true (Ok "")].

Definition stoppedAt (n : nat) : nat -> option error := λ i, if (i =? n)%nat then Some (newError "database is locked") else None.

Lemma migrations_once_witness :
  let f := starts recordScript (Ok sampleScripts) [stoppedAt 7; stoppedAt 1] (mkFile None []) in
  fl_Schema f = ["CREATE TABLE jobs"]
  ∧ fl_Schema (migrate recordScript (Ok sampleScripts) (λ _, None) (0%nat, f)).2.2 = ["CREATE TABLE jobs"; "CREATE TABLE hosts"].
Proof.
  intros f. split; [by vm_compute|].
  assert (N : NoDup (mg_version <$> [mkMigration 1 "0001_init.sql"; mkMigration 2 "0002_hosts.sql"])) by (apply (bool_decide_unpack _); by vm_compute).
  destruct (migrations_once recordScript sampleScripts [] [mkMigration 1 "0001_init.sql"; mkMigration 2 "0002_hosts.sql"] [stoppedAt 7; stoppedAt 1] eq_refl N) as (_ & A & O).
  destruct (A (λ _, None) (O (ex_intro _ _ eq_refl))) as (_ & E & _). exact (f_equal (λ r, match r with Ok s => s | Fail _ => [] end) (eq_sym E)).
Defined.

(** Two scripts of one number: the first start fails, and those after it succeed
    without the second script. *)
Example same_number :
  let scripts := Ok [mkEntry "0001_init.sql" false (Ok "CREATE TABLE jobs"); mkEntry "0001_more.sql" false (Ok "CREATE TABLE more")] in
  let f := starts recordScript scripts [λ _, None] (mkFile None []) in
  (migrate recordScript scripts (λ _, None) (0%nat, mkFile None [])).1
  = Fail (newError "record migration 0001_more.sql: UNIQUE constraint failed: schema_migrations.version")
  ∧ fl_Schema f = ["CREATE TABLE jobs"] ∧ (migrate recordScript scripts (λ _, None) (0%nat, f)).1 = Ok tt.
Proof. by vm_compute. Qed.
