(* ===== verification/Api.v ===== *)
(** * The client of the command line: [internal/client], and the commands of
      [cmd/backvault] that speak to the server and write files

    Requests as they are built, what is made of the answers, and the files a
    command leaves.  What the server answers and the JSON decoder are parameters. *)
From S2P Require Import Prelude GoStrings GoTime GoPath GoHttp Core Config Secrets Pack Spool FileSystem Remote Startup ServerEdge.
Open Scope Z_scope.

Module Client.

Record Client := mkClient { cl_BaseURL : string; cl_Token : string }.

(** [client.APIError], and the other errors of a call. *)
Record APIError := mkAPIError { ae_Status : Z; ae_Code : string; ae_Message : string; ae_Fields : list (string * string) }.

Inductive failure := Api (e : APIError) | Other (e : error).

(** [APIError.Error], with the fields in the order they are ranged over. *)
Definition Error (e : APIError) : string :=
  if bool_decide (ae_Message e = "") then "request failed with status " +:+ Itoa (ae_Status e)
  else if bool_decide (ae_Fields e ≠ []) then
    ae_Message e +:+ " (" +:+ StrJoin ((λ f, f.1 +:+ ": " +:+ f.2) <$> ae_Fields e) ", " +:+ ")"
  else ae_Message e.

(** [New], of [BACKVAULT_URL] and [BACKVAULT_TOKEN]. *)
Definition New (url token : string) : result Client :=
  let base := Push.baseURL url in
  match Parse base with
  | Fail err => Fail (wrapError ("invalid BACKVAULT_URL " +:+ Quote base) err)
  | Ok _ => Ok (mkClient base (TrimSpace token))
  end.

Definition newRequest (c : Client) (method path : string) (body : list string) : result HttpRequest :=
  match NewRequest method (Push.endpoint (cl_BaseURL c) path) body None with
  | Fail err => Fail (wrapError "build request" err)
  | Ok req =>
      let req := if bool_decide (cl_Token c ≠ "") then setHeader "Authorization" ("Bearer " +:+ cl_Token c) req else req in
      Ok (setHeader "Accept" "application/json" req)
  end.

Definition withLength (n : Z) (r : HttpRequest) : HttpRequest :=
  mkHttpRequest (rq_Method r) (rq_Target r) (rq_URL r) (rq_Header r) n (rq_Body r) (rq_BodyEnd r) (rq_BasicAuth r).

(** The envelope of an error: code, message and fields. *)
Definition Envelope : Type := string * string * list (string * string).

Section client.
  (** What the server answers, and what [json.Unmarshal] makes of the body of an
      error. *)
  Context (send : HttpRequest -> result Response) (unmarshal : string -> option Envelope).

Definition errorLimit : Z := 64 * 1024.

Definition readAPIError (resp : Response) : failure :=
  let body := rd_data (LimitReader (rs_Body resp) errorLimit) in
  match unmarshal body with
  | Some (code, message, fields) =>
      if bool_decide (message ≠ "") then Api (mkAPIError (rs_StatusCode resp) code message fields)
      else Api (mkAPIError (rs_StatusCode resp) "" (stake 500 (TrimSpace body)) [])
  | None => Api (mkAPIError (rs_StatusCode resp) "" (stake 500 (TrimSpace body)) [])
  end.

(** A decoder of what is wanted: [None] at the end of the body.  Without one the
    body is thrown away. *)
Definition decodeResponse {A} (decode : option (Reader -> result (option A))) (resp : Response) : option A + failure :=
  if 400 <=? rs_StatusCode resp then inr (readAPIError resp)
  else match decode with
       | None => inl None
       | Some decode =>
           if rs_StatusCode resp =? StatusNoContent then inl None
           else match decode (rs_Body resp) with
                | Ok r => inl r
                | Fail err => inr (Other (wrapError "decode response" err))
                end
       end.

Definition exchange {A} (method path : string) (req : HttpRequest) (k : Response -> A + failure) : A + failure :=
  match send req with
  | Fail err => inr (Other (wrapError (method +:+ " " +:+ path) err))
  | Ok resp => k resp
  end.

(** [Do]: the payload as it is encoded, when there is one. *)
Definition Do {A} (c : Client) (method path : string) (payload : option (result string)) (decode : option (Reader -> result (option A))) : option A + failure :=
  match payload with
  | Some (Fail err) => inr (Other (wrapError "encode request" err))
  | _ =>
      let body := match payload with Some (Ok text) => [text] | _ => [] end in
      match newRequest c method path body with
      | Fail err => inr (Other err)
      | Ok req =>
          let req := match payload with
                     | Some (Ok text) => setHeader "Content-Type" "application/json" (withLength (Z.of_nat (String.length text)) req)
                     | _ => req
                     end in
          exchange method path req (decodeResponse decode)
      end
  end.

Definition Raw (c : Client) (method path : string) : Response + failure :=
  match newRequest c method path [] with
  | Fail err => inr (Other err)
  | Ok req => exchange method path req (λ resp, if 400 <=? rs_StatusCode resp then inr (readAPIError resp) else inl resp)
  end.

(** [Stream]: empty headers are left out. *)
Definition setHeaders (headers : list (string * string)) (req : HttpRequest) : HttpRequest :=
  foldl (λ req kv, if bool_decide (kv.2 ≠ "") then setHeader kv.1 kv.2 req else req) req headers.

Definition Stream {A} (c : Client) (method path : string) (body : list string) (headers : list (string * string)) (contentLength : Z)
    (decode : option (Reader -> result (option A))) : option A + failure :=
  match newRequest c method path body with
  | Fail err => inr (Other err)
  | Ok req =>
      let req := setHeader "Content-Type" "application/octet-stream" req in
      let req := if 0 <=? contentLength then withLength contentLength req else req in
      exchange method path (setHeaders headers req) (decodeResponse decode)
  end.

(** *** Hosts: [hosts.go] *)

Context (decodeHosts : Reader -> result (option (list Host))) (decodeHost : Reader -> result (option Host))
  (decodeTest : Reader -> result (option HostTestResult)).

Definition hostsPath (query : string) : string :=
  let q := TrimSpace query in "/hosts?limit=500" +:+ (if bool_decide (q ≠ "") then "&q=" +:+ QueryEscape q else "").

Definition Hosts (c : Client) (query : string) : list Host + failure :=
  match Do c "GET" (hostsPath query) None (Some decodeHosts) with
  | inl items => inl (default [] items)
  | inr e => inr e
  end.

Definition notFound (e : failure) : bool := match e with Api e => ae_Status e =? StatusNotFound | Other _ => false end.

(** [Host]: [None] is the zero host of an empty answer. *)
Definition Host_ (c : Client) (ref : string) : option Host + failure :=
  let ref := TrimSpace ref in
  if bool_decide (ref = "") then inr (Other (newError "a host name or id is required"))
  else match Do c "GET" ("/hosts/" +:+ PathEscape ref) None (Some decodeHost) with
       | inl host => inl host
       | inr e =>
           if negb (notFound e) then inr e
           else match Hosts c "" with
                | inr _ => inr e
                | inl hosts => match List.find (λ h, EqualFold (host_Name h) ref) hosts with Some h => inl (Some h) | None => inr e end
                end
       end.

Definition TestHost (c : Client) (id : string) : option HostTestResult + failure :=
  Do c "POST" ("/hosts/" +:+ PathEscape id +:+ "/test") (Some (Ok "{}")) (Some decodeTest).

(** *** One upload: [pushOnce] *)

Definition attemptOf {A} (runID : option A -> string) (r : option A + failure) : Push.Attempt :=
  match r with
  | inl x => Push.Pushed (runID x)
  | inr (Api e) => Push.Refused (ae_Status e) (newError (Error e))
  | inr (Other err) => Push.Broken err
  end.

Definition pushOnce {A} (c : Client) (path source name checksum : string) (size : Z) (decode : Reader -> result (option A)) (runID : option A -> string)
    : FS Push.Attempt :=
  f ← Open source;
  mret match f with
       | Fail err => Push.Broken (wrapError ("open " +:+ source) err)
       | Ok r => attemptOf runID (Stream c "POST" path [rd_data r] [("X-Backvault-Filename", name); ("X-Backvault-Sha256", checksum)] size (Some decode))
       end.

End client.

(** *** Requests of the commands: [api.go] *)

Definition runsPath (limit : Z) (job status : string) : string :=
  "/runs?limit=" +:+ Itoa limit +:+ (if bool_decide (job ≠ "") then "&job=" +:+ job else "") +:+ (if bool_decide (status ≠ "") then "&status=" +:+ status else "").

Definition restorePath (id : string) (raw : bool) (passphrase : string) : string :=
  let params := (if raw then ["raw=1"] else []) ++ (if bool_decide (passphrase ≠ "") then ["passphrase=" +:+ passphrase] else []) in
  "/artifacts/" +:+ id +:+ "/download" +:+ (if bool_decide (params ≠ []) then "?" +:+ StrJoin params "&" else "").

Definition exportPath (includeSecrets : bool) : string := "/export" +:+ (if includeSecrets then "?includeSecrets=1" else "").
Definition importPath (dryRun : bool) : string := "/import" +:+ (if dryRun then "?dryRun=1" else "").

(** [backvault import]: the file as the body. *)
Definition import_ {A} (send : HttpRequest -> result Response) (unmarshal : string -> option Envelope) (decode : Reader -> result (option A)) (c : Client)
    (file : string) (dryRun : bool) : FS (option A + failure) :=
  r ← readFile file;
  mret match r with
       | Fail err => inr (Other (wrapError ("read " +:+ file) err))
       | Ok body => Stream send unmarshal c "POST" (importPath dryRun) [body] [("Content-Type", "application/yaml")] (Z.of_nat (String.length body)) (Some decode)
       end.

(** *** Files the commands write *)

(** [os.Create]. *)
Definition Create (p : string) : FS (result unit) := syscall ("open " +:+ p) (λ sys n t, openTruncated (at_ sys p) sys n t).

Definition chunksOf (r : Reader) : list string := if bool_decide (rd_data r = "") then [] else [rd_data r].

(** [io.Copy] of a body to the new file, which is closed. *)
Definition download (p : string) (body : Reader) : FS (option error) :=
  r ← copyInto false p (chunksOf body) (rd_err body);
  e ← touch;
  mret (match r.2 with Some err => Some err | None => e end).

(** [backvault export --out]: the file is written in place; closing it is not
    looked at. *)
Definition exportTo (out : string) (body : Reader) : FS (option error) :=
  try? _ := Create out else err => mret (Some (wrapError ("create " +:+ out) err)) in
  r ← copyInto false out (chunksOf body) (rd_err body);
  _ ← touch;
  mret (match r.2 with Some err => Some (wrapError "write export" err) | None => None end).

(** The file a download goes to: in a directory, under the name of the answer. *)
Definition target (to disposition id : string) : FS string :=
  info ← stat to;
  mret (match info with
        | Ok i => if fi_IsDir i then to +:+ "/" +:+ Commands.filenameFromResponse disposition id else to
        | Fail _ => to
        end).

(** The body to its file, by way of one beside it. *)
Definition install (target : string) (body : Reader) : FS (result string) :=
  let tmp := target +:+ ".partial" in
  try? _ := Create tmp else err => mret (Fail (wrapError ("create " +:+ tmp) err)) in
  e ← download tmp body;
  match e with
  | Some err => _ ← Remove tmp; mret (Fail (wrapError ("write " +:+ tmp) err))
  | None =>
      r ← Rename tmp target;
      match r with
      | Fail err => _ ← Remove tmp; mret (Fail (wrapError ("install " +:+ target) err))
      | Ok _ => mret (Ok target)
      end
  end.

(** [backvault restore], with the name the answer gives: the file that is written. *)
Definition restore (send : HttpRequest -> result Response) (unmarshal : string -> option Envelope) (disposition : Response -> string) (c : Client)
    (id to : string) (raw : bool) (passphrase : string) : FS (string + failure) :=
  if Blank to then mret (inr (Other (newError "--to is required")))
  else match Raw send unmarshal c "GET" (restorePath id raw passphrase) with
       | inr e => mret (inr e)
       | inl resp =>
           target ← target to (disposition resp) id;
           r ← install target (rs_Body resp);
           mret (match r with Ok p => inl p | Fail err => inr (Other err) end)
       end.

(** *** What [backvault push] uploads *)

Section upload.
  (** The directory of temporary files, and the input. *)
  Context {D : Digest} (tempDir : string) (stdin : Reader).

Definition spoolStdin : FS (result string) :=
  try? name := CreateTemp tempDir "backvault-push-" else err => mret (Fail (wrapError "create temporary file" err)) in
  r ← copyInto false name (chunksOf stdin) (rd_err stdin);
  match r.2 with
  | Some err => _ ← Remove name; _ ← touch; mret (Fail (wrapError "read stdin" err))
  | None => _ ← touch; mret (Ok name)
  end.

Definition fileSHA256 (path : string) : FS (result string) :=
  try? r := Open path else err => mret (Fail (wrapError ("open " +:+ path) err)) in
  mret (match rd_err r with Some err => Fail (wrapError ("hash " +:+ path) err) | None => Ok (sha256_hex (rd_data r)) end).

(** A file to upload: its path, the name that is reported, its size and its
    checksum. *)
Record Upload := mkUpload { up_Path : string; up_Name : string; up_Size : Z; up_Checksum : string }.

Definition described (withSHA : bool) (source name : string) : FS (result Upload) :=
  let name := if bool_decide (name = "") then Base source else name in
  try? info := stat source else err => mret (Fail (wrapError ("stat " +:+ source) err)) in
  if withSHA then (try? sum := fileSHA256 source else err => mret (Fail err) in mret (Ok (mkUpload source name (fi_Size info) sum)))
  else mret (Ok (mkUpload source name (fi_Size info) "")).

(** The input goes to a temporary file, which is removed when it is not uploaded. *)
Definition pushSource (file name : string) (withSHA : bool) : FS (result Upload) :=
  if Blank file || bool_decide (file = "-") then
    try? source := spoolStdin else err => mret (Fail err) in
    r ← described withSHA source (if bool_decide (name = "") then "stdin.bin" else name);
    match r with
    | Ok u => mret (Ok u)
    | Fail err => _ ← Remove source; mret (Fail err)
    end
  else described withSHA file name.

Definition ingestPath (job : string) (packed : bool) : string := "/ingest/" +:+ job +:+ (if packed then "?packed=1" else "").

End upload.

(** *** [main]: the exit code *)

Definition exitCodeFor (status : Z) : Z :=
  if (status =? 401) || (status =? 403) then 4
  else if (status =? 409) || (status =? 423) then 5
  else if status =? 404 then 6
  else if (status =? 0) || (500 <=? status) then 8
  else 1.

Definition exitCode (e : failure) : Z := match e with Api e => exitCodeFor (ae_Status e) | Other _ => 1 end.

(** *** The query, as the server reads it: [url.ParseQuery] *)

Definition QueryUnescape (s : string) : option string := match unescape s encodeQueryComponent with Ok t => Some t | Fail _ => None end.

Definition queryPair (s : string) : option (string * string) :=
  if bool_decide (s = "") || ContainsByte s ";" then None
  else
    let '(k, v) := match IndexByte s "=" with Some i => (stake i s, sdrop (S i) s) | None => (s, "") end in
    k ← QueryUnescape k; v ← QueryUnescape v; Some (k, v).

(** [Get] of the query: the first of the name. *)
Definition queryGet (raw name : string) : string :=
  default "" (snd <$> List.find (λ kv, String.eqb kv.1 name) (omap queryPair (Split raw "&"))).

End Client.

Module ApiFacts.
Import Client.

(** ** What is installed *)

Lemma partial_rooted l e : rooted (l ++ [e]) +:+ ".partial" = rooted (l ++ [e +:+ ".partial"]).
Proof.
  unfold rooted. rewrite sapp_assoc. f_equal. destruct (decide (l = [])) as [->|Hne]; [done|].
  rewrite !StrJoin_slash by done. by rewrite !sapp_assoc.
Qed.

Lemma plain_partial e : plainElem e -> plainElem (e +:+ ".partial").
Proof.
  intros (H1 & H2 & H3 & H4). assert (L : ∀ s, String.length (e +:+ ".partial") = String.length s -> (8 < String.length s)%nat).
  { intros s <-. rewrite sapp_length. destruct e; [done|]. cbn. lia. }
  split_and!.
  - by destruct e.
  - intros E. specialize (L "." ltac:(by rewrite E)). cbn in L. lia.
  - intros E. specialize (L ".." ltac:(by rewrite E)). cbn in L. lia.
  - clear - H4. induction e as [|a e IH]; [done|]. cbn in *. apply andb_true_iff in H4 as [-> H4]. by apply IH.
Qed.

Lemma partial_ne (e : string) : e +:+ ".partial" ≠ e.
Proof. intros E. apply (f_equal String.length) in E. rewrite sapp_length in E. cbn in E. lia. Qed.

Lemma Create_spec p sys d r d' : Create p sys d = (r, d') ->
  match r with Ok _ => ∃ m, d_tree d' = <[at_ sys p := NFile "" m]> (d_tree d) | Fail _ => d_tree d' = d_tree d end.
Proof.
  unfold Create, syscall. destruct (sys_fault sys (d_calls d)); [by intros [= <- <-]|]. unfold openTruncated, createNew.
  repeat case_match; intros; simplify_eq/=; try done; by eexists.
Qed.

(** The file beside the target is all that an installation may leave. *)
Lemma download_spec p body sys d e d' : saneSys sys -> download p body sys d = (e, d') ->
  ∃ data m, d_tree d' = <[at_ sys p := NFile data m]> (d_tree d) ∧ (e = None -> rd_err body = None ∧ data = rd_data body).
Proof.
  intros Hs. unfold download, mbind, FS_bind. destruct (copyInto_spec false p (chunksOf body) (rd_err body) sys d Hs) as (data & err & m & -> & D).
  unfold touch, mret, FS_ret. cbn. intros [= <- <-]. exists data, m. split; [done|]. intros E. destruct err; [done|]. destruct (D eq_refl) as [H ->]. split; [done|].
  unfold chunksOf. case_bool_decide as B; [by rewrite B|]. cbn. by rewrite sapp_nil_r.
Qed.

Lemma Remove_tree p sys d : d_tree (Remove p sys d).2 = d_tree d ∨ d_tree (Remove p sys d).2 = delete (at_ sys p) (d_tree d).
Proof. destruct (Remove p sys d) as [r d'] eqn:E. apply Remove_spec in E. destruct r; cbn; [right; by destruct E|left; by destruct E]. Qed.

(** A restored file is there whole, under its name, or what was there before
    still is; only the file beside it may be left, and nothing else is touched. *)
Theorem install_whole (l : list string) (e : string) (body : Reader) (sys : Sys) (d d' : Disk) (r : result string) :
  saneSys sys -> Forall plainElem (l ++ [e]) -> install (rooted (l ++ [e])) body sys d = (r, d') ->
  (∀ q, q ≠ l ++ [e] -> q ≠ l ++ [e +:+ ".partial"] -> d_tree d' !! q = d_tree d !! q)
  ∧ match r with
    | Ok p => p = rooted (l ++ [e]) ∧ rd_err body = None ∧ (∃ m, d_tree d' !! (l ++ [e]) = Some (NFile (rd_data body) m)) ∧ d_tree d' !! (l ++ [e +:+ ".partial"]) = None
    | Fail _ => d_tree d' !! (l ++ [e]) = d_tree d !! (l ++ [e])
    end.
Proof.
  intros Hs Hp. pose proof Hp as Hp'. apply Forall_app in Hp' as [Hl He]. apply (proj1 (Forall_singleton _ _)) in He.
  assert (A1 : at_ sys (rooted (l ++ [e])) = l ++ [e]) by by apply at_rooted.
  assert (A2 : at_ sys (rooted (l ++ [e]) +:+ ".partial") = l ++ [e +:+ ".partial"]).
  { rewrite partial_rooted. apply at_rooted. apply Forall_app. split; [done|]. apply Forall_singleton. by apply plain_partial. }
  assert (Hne : l ++ [e +:+ ".partial"] ≠ l ++ [e]).
  { intros E. apply app_inj_1 in E as [_ E]; [|done]. injection E as E. by apply partial_ne in E. }
  set (T := l ++ [e]) in *. set (P := l ++ [e +:+ ".partial"]) in *.
  unfold install. cbv zeta. unfold mbind, FS_bind. destruct (Create (rooted T +:+ ".partial") sys d) as [[u|err] d1] eqn:C; apply Create_spec in C.
  - destruct C as [m1 C]. rewrite A2 in C. destruct (download (rooted T +:+ ".partial") body sys d1) as [err d2] eqn:D. apply download_spec in D as (data & m2 & D & W); [|done].
    rewrite A2, C, insert_insert_eq in D.
    assert (R : ∀ d3, d_tree d3 = d_tree d2 ∨ d_tree d3 = delete P (d_tree d2) ->
                (∀ q, q ≠ P -> d_tree d3 !! q = d_tree d !! q)).
    { intros d3 [->| ->] q Hq; rewrite D; [by rewrite lookup_insert_ne|by rewrite lookup_delete_ne, lookup_insert_ne]. }
    destruct err as [err|].
    + pose proof (Remove_tree (rooted T +:+ ".partial") sys d2) as Q. rewrite A2 in Q. destruct (Remove _ sys d2) as [v d3]. intros [= <- <-]. cbn in Q.
      split; [intros q _ Hq; by apply (R d3)|by apply (R d3)].
    + destruct (W eq_refl) as [We ->]. destruct (Rename (rooted T +:+ ".partial") (rooted T) sys d2) as [[v|err] d3] eqn:N; apply Rename_spec in N; rewrite ?A1, ?A2 in N.
      * destruct N as (data & m & F & N). intros [= <- <-]. rewrite D, lookup_insert_eq in F. injection F as <- <-. rewrite N, D. split_and!; [|done|done| |].
        -- intros q Hq1 Hq2. by rewrite lookup_insert_ne, lookup_delete_ne, lookup_insert_ne.
        -- eexists. by rewrite lookup_insert_eq.
        -- by rewrite lookup_insert_ne, lookup_delete_eq.
      * pose proof (Remove_tree (rooted T +:+ ".partial") sys d3) as Q. rewrite A2, N in Q. destruct (Remove _ sys d3) as [v d4]. intros [= <- <-]. cbn in Q.
        split; [intros q _ Hq; by apply (R d4)|by apply (R d4)].
  - intros [= <- <-]. by rewrite C.
Qed.

(** What is uploaded from the input is the whole input. *)
Lemma spoolStdin_whole tempDir stdin sys d d' name : saneSys sys -> spoolStdin tempDir stdin sys d = (Ok name, d') ->
  rd_err stdin = None ∧ ∃ m, d_tree d' !! at_ sys name = Some (NFile (rd_data stdin) m).
Proof.
  intros Hs. unfold spoolStdin, mbind, FS_bind. destruct (CreateTemp tempDir "backvault-push-" sys d) as [[n|err] d1]; [|done].
  destruct (copyInto_spec false n (chunksOf stdin) (rd_err stdin) sys d1 Hs) as (data & err & m & -> & W). cbn [snd].
  destruct err as [err|]; [by repeat (case_match; simplify_eq/=)|]. destruct (W eq_refl) as [We ->]. unfold touch, mret, FS_ret. intros [= <- <-]. split; [done|].
  exists m. cbn [d_tree]. rewrite lookup_insert_eq. unfold chunksOf. case_bool_decide as B; [by rewrite B|]. cbn. by rewrite sapp_nil_r.
Qed.

(** ** What the server reads of a query *)

Lemma escape_byte_free c a : c ∈ ["&"; ";"; "="; "#"; "?"]%char -> free_of c (escape (schar a) encodeQueryComponent) = true.
Proof.
  intros H. assert (E : forallb (λ c, forallb (λ i, free_of c (escape (schar (byte_of (N.of_nat i))) encodeQueryComponent)) (seq 0 256)) ["&"; ";"; "="; "#"; "?"]%char = true)
    by by vm_compute.
  rewrite forallb_forall in E. apply list_elem_of_In, E in H. rewrite forallb_forall in H. specialize (H (nat_of_ascii a)).
  unfold byte_of, nat_of_ascii in H. rewrite N2Nat.id, ascii_N_embedding in H. apply H, in_seq. pose proof (N_ascii_bounded a). lia.
Qed.

Lemma escape_cons a s mode : escape (String a s) mode = escape (schar a) mode +:+ escape s mode.
Proof. cbn [escape schar]. by rewrite sapp_nil_r. Qed.

Lemma QueryEscape_free c s : c ∈ ["&"; ";"; "="; "#"; "?"]%char -> free_of c (QueryEscape s) = true.
Proof.
  intros H. unfold QueryEscape. induction s as [|a s IH]; [done|]. rewrite escape_cons. unfold free_of in *. rewrite sall_app, IH, andb_true_r. by apply escape_byte_free.
Qed.

Lemma IndexByte_first c name s : free_of c name = true -> IndexByte (name +:+ String c s) c = Some (String.length name).
Proof.
  induction name as [|a name IH]; cbn [String.append IndexByte String.length]; [by rewrite Ascii.eqb_refl|]. unfold free_of in *. cbn [sall].
  intros H. apply andb_true_iff in H as [Ha H]. apply negb_true_iff in Ha. rewrite Ha. by rewrite IH.
Qed.

Lemma sdrop_past s c t : sdrop (S (String.length s)) (s +:+ String c t) = t.
Proof. induction s as [|a s IH]; [done|]. exact IH. Qed.

(** A text that is escaped reaches the server as it was. *)
Lemma queryPair_escaped name s : free_of "=" name = true -> free_of ";" name = true -> QueryUnescape name = Some name ->
  queryPair (name +:+ "=" +:+ QueryEscape s) = Some (name, s).
Proof.
  intros He Hs Hu. unfold queryPair. rewrite bool_decide_eq_false_2 by by destruct name.
  assert (C : ContainsByte (name +:+ "=" +:+ QueryEscape s) ";" = false).
  { unfold ContainsByte. apply negb_false_iff. change (free_of ";" (name +:+ "=" +:+ QueryEscape s) = true). unfold free_of in *. rewrite !sall_app, Hs. apply (QueryEscape_free ";"). set_solver. }
  rewrite C. cbn [orb]. change (name +:+ "=" +:+ QueryEscape s) with (name +:+ String "=" (QueryEscape s)). rewrite IndexByte_first by done.
  rewrite stake_app, sdrop_past. rewrite Hu. cbn [mbind option_bind]. unfold QueryUnescape, QueryEscape. by rewrite unescape_escape.
Qed.

(** The search of hosts finds what was asked for. *)
Theorem hosts_query (q : string) : TrimSpace q ≠ "" -> queryGet (sdrop 7 (hostsPath q)) "q" = TrimSpace q ∧ queryGet (sdrop 7 (hostsPath q)) "limit" = "500".
Proof.
  intros H. unfold hostsPath. cbv zeta. rewrite bool_decide_eq_true_2 by done.
  change (sdrop 7 ("/hosts?limit=500" +:+ "&q=" +:+ QueryEscape (TrimSpace q))) with ("limit=500" +:+ String "&" ("q" +:+ "=" +:+ QueryEscape (TrimSpace q))).
  unfold queryGet. rewrite Split_app, Split_free_id by done. rewrite Split_free_id.
  - pose proof (queryPair_escaped "q" (TrimSpace q) eq_refl eq_refl eq_refl) as Q. set (x := "q" +:+ "=" +:+ QueryEscape (TrimSpace q)) in *. clearbody x.
    cbn [app]. unfold omap. cbn [list_omap]. rewrite Q. by split.
  - change (free_of "&" ("q" +:+ "=" +:+ ?x)) with (free_of "&" x). apply QueryEscape_free. set_solver.
Qed.

(** The passphrase of a restore is not escaped: one with a plus or an ampersand is
    read as another. *)
Example passphrase_altered :
  queryGet "passphrase=a+b&c" "passphrase" = "a b" ∧ restorePath "01" false "a+b&c" = "/artifacts/01/download?passphrase=a+b&c".
Proof. by vm_compute. Qed.

(** Nothing is made of the name the answer gives: it may lead out of the
    directory. *)
Example name_escapes :
  Commands.filenameFromResponse ("attachment; filename=" +:+ schar (byte_of 34) +:+ "../../etc/x" +:+ schar (byte_of 34)) "01" = "../../etc/x".
Proof. by vm_compute. Qed.

(** ** Hosts by name *)

(** Only when the server knows no host of the name as an identifier is one looked
    for by its name, and its answer stands when there is none. *)
Theorem Host_by_name (send : HttpRequest -> result Response) (unmarshal : string -> option Envelope)
    (decodeHosts : Reader -> result (option (list Host))) (decodeHost : Reader -> result (option Host)) (c : Client) (ref : string) (e : failure) :
  TrimSpace ref ≠ "" -> Do send unmarshal c "GET" ("/hosts/" +:+ PathEscape (TrimSpace ref)) None (Some decodeHost) = inr e ->
  match Host_ send unmarshal decodeHosts decodeHost c ref with
  | inr e' => e' = e
  | inl h => notFound e = true ∧ ∃ hosts x, Hosts send unmarshal decodeHosts c "" = inl hosts ∧ h = Some x ∧ x ∈ hosts ∧ EqualFold (host_Name x) (TrimSpace ref) = true
  end.
Proof.
  intros Hr E. unfold Host_. cbv zeta. rewrite bool_decide_eq_false_2 by done. rewrite E. destruct (notFound e) eqn:N; [|done]. cbn [negb].
  destruct (Hosts send unmarshal decodeHosts c "") as [hosts|] eqn:H; [|done]. destruct (List.find _ hosts) as [x|] eqn:F; [|done].
  apply find_some in F as [F1 F2]. split; [done|]. exists hosts, x. split_and!; [done|done|by apply list_elem_of_In|done].
Qed.

(** ** The token *)

(** Every request of a client with a token carries it. *)
Lemma token_sent (c : Client) (method path : string) (body : list string) (req : HttpRequest) :
  newRequest c method path body = Ok req -> cl_Token c ≠ "" -> ("Authorization", "Bearer " +:+ cl_Token c) ∈ rq_Header req.
Proof.
  unfold newRequest. destruct (NewRequest _ _ _ _) as [r|err]; [|done]. intros [= <-] H. rewrite bool_decide_eq_true_2 by done.
  unfold setHeader. cbn [rq_Header]. apply headerSet_other; [exact (headerSet_in "Authorization" _ _)|done].
Qed.

(** A message of an error that is no envelope is a part of the body, bounded. *)
Lemma error_bounded unmarshal resp : match readAPIError unmarshal resp with
  | Api e => ae_Status e = rs_StatusCode resp ∧ (unmarshal (rd_data (LimitReader (rs_Body resp) errorLimit)) = None -> (String.length (ae_Message e) <= 500)%nat)
  | Other _ => False end.
Proof.
  assert (L : ∀ n s, (String.length (stake n s) <= n)%nat) by (intros n; induction n as [|n IH]; intros [|a s]; cbn; [lia..|]; specialize (IH s); lia).
  unfold readAPIError. cbv zeta. destruct (unmarshal _) as [[[code message] fields]|]; [|split; [done|intros _; apply L]].
  destruct (bool_decide (message ≠ "")); by split.
Qed.

End ApiFacts.
